(* ===== verification/_CoqProject ===== *)
-Q . S2P
Prelude.v
PyStr.v
PyValue.v
PyJson.v
PyTime.v
PyUuid.v
PyUrl.v
DiscoveryPolicy.v
ExternalUrl.v
NodeRegistry.v
Builtins.v
Pipeline.v
RightsPolicy.v
PipelinePolicy.v
Graph.v
Dag.v
Validation.v
PipelineBuilder.v
BuilderValid.v
Storyboard.v
JobModel.v
MaterialUsage.v
PlanApproval.v
Outbox.v
ChannelQueue.v
QueueHistory.v
SchedulerTicks.v
ChannelRunner.v
AgentModel.v
HumanReview.v
AgentLogic.v
ChannelTick.v
TickSafe.v
ChannelTasks.v
TaskSafe.v
TaskPublish.v
TaskFlow.v
TaskDemo.v
DiscoveryIngest.v
DiscoveryOnce.v
Features.v
WorkerModel.v
RedisModel.v
Schedule.v
Authority.v
Quarantine.v
UploadOps.v
UploadOnce.v
Retention.v
ArtifactCache.v
WorkerEvents.v
WorkerReport.v
WorkerTask.v
StagingJanitor.v
StagingKept.v
Delivery.v
DeliveryOnce.v
DeliveryLive.v
Receipts.v
ReceiptsOnce.v
ReceiptsAck.v
Retry.v
JobService.v
PipelineService.v
GraphPlanner.v
GraphSound.v
PlanExecute.v
PlanOnce.v
PlanHistory.v
OperatorReview.v
OperatorSound.v
Engine.v
EngineInv.v
EngineSteps.v
EngineReach.v
EngineRefines.v
EngineSkip.v
EngineLive.v
Listener.v
ListenerRun.v
