(* ===== verification/Prelude.v ===== *)
(** * VideoProcess: verification of the Python core

    VideoProcess renders videos from pipelines, graphs of typed nodes.  This library
    models the part of [src/backend] that decides what runs, when, and what is
    published, and proves that it does so correctly.

    ** The program and its model

    A pipeline definition is validated ([orchestrator/dag.py]), compiled to its runtime
    form ([orchestrator/planner.py]) and stored as a job with one execution row per
    node ([services/job_service.py]).  The engine ([orchestrator/engine.py]) resolves
    sources, dispatches ready nodes to workers over Redis streams and reacts to their
    events, which the listener ([orchestrator/event_listener.py]) reads.  Registered
    workers report through a receipt protocol with an idempotent outbox
    ([services/registered_worker_event_receipt.py]).  AutoFlow ([autoflow/]) plans
    pipelines, has them approved and executes them.  The channel agent
    ([channel_agent/]) works through a queue: ticks create production tasks, whose
    handlers plan, execute, observe, publish, promote and measure, with people
    reviewing through the routes of [api/channel_agent.py].

    Python and its standard library:
    - [Prelude]: results and exceptions, dictionaries, list lemmas, tactics ([unbind]
      and friends) and hint databases;
    - [PyStr], [PyValue], [PyJson], [PyTime], [PyUuid], [PyUrl]: string methods, dynamic
      values with their truth and conversions, [json.dumps], datetimes, UUID text,
      [urllib.parse].

    Pipelines:
    - [NodeRegistry], [Builtins]: [node_registry/base.py], [registry.py] and every module
      of [builtin/];
    - [Pipeline]: [schemas/pipeline.py] and [orchestrator/planner.py];
    - [Graph], [Dag], [Validation]: [orchestrator/dag.py], its sort, its checks and the
      specification [well_formed] they decide;
    - [PipelineService]: [services/pipeline_service.py] and [job_runtime.py].

    Jobs:
    - [JobModel]: the rows of [models/job.py], [artifact.py], [schedule.py] and the columns
      used of [models/channel_agent.py]; the database [Db];
    - [Schedule]: [services/schedule_service.py];
    - [Authority]: [services/job_execution_authority.py] and the claim of
      [worker/main.py]: locks, authority, claims of a node;
    - [JobService]: [services/job_service.py];
    - [ArtifactCache]: [orchestrator/artifact_cache.py];
    - [Engine]: [orchestrator/engine.py] and the startup recovery of [main.py];
      [EngineInv], [EngineSteps], [EngineReach] (invariants of all histories),
      [EngineRefines] (refinement of the specification [DagSpec]), [EngineSkip]
      (skipping and final status), [EngineLive] (progress).

    Workers:
    - [WorkerModel], [RedisModel]: rows of the protocol; Redis as an interface
      [RedisStore] with laws, implemented by [RedisMem];
    - [WorkerEvents], [WorkerReport]: parsing, digests, staging; the worker's reports;
    - [Delivery], [DeliveryOnce], [DeliveryLive]: the dispatch outbox;
    - [Receipts], [ReceiptsOnce], [ReceiptsAck]: acceptance and acknowledgement;
    - [Retry]: [services/registered_worker_retry.py];
    - [Listener], [ListenerRun]: [orchestrator/event_listener.py] with the engine;
    - [WorkerTask]: the outputs of [process_task] in [worker/main.py]; [StagingJanitor],
      [StagingKept]: [services/staging_object_janitor.py] beside the workers.

    AutoFlow:
    - [RightsPolicy], [PipelinePolicy]: [autoflow/rights_policy.py],
      [pipeline_policy.py] and [validation_repair.py];
    - [PipelineBuilder], [BuilderValid]: the template builder of
      [autoflow/pipeline_builder.py] with validation and repair; [Storyboard]: its
      storyboard builders;
    - [GraphPlanner], [GraphSound]: [autoflow/graph_planner.py];
    - [PlanApproval]: approval and revisions in [autoflow/service.py], with the trigger of
      migration 026; [PlanExecute], [PlanOnce], [PlanHistory]: execution and its
      histories.

    Channels and publication:
    - [Outbox]: [events/outbox.py], [relay.py], [schemas.py];
    - [ChannelQueue], [QueueHistory], [SchedulerTicks], [ChannelRunner]:
      [channel_agent/queue.py], [scheduler.py], [runner.py] and the queue leases of
      [owned_producer.py] and [owned_inventory.py];
    - [AgentModel], [AgentLogic]: rows, session and clients of [channel_agent/service.py],
      and the logic for its handlers; [ChannelTick], [TickSafe]: the tick;
      [ChannelTasks], [TaskSafe], [TaskPublish], [TaskFlow], [TaskDemo]: the handlers of
      tasks;
    - [DiscoveryPolicy], [MaterialUsage], [HumanReview]: the modules of
      [channel_agent/] of these names; [DiscoveryIngest], [DiscoveryOnce]:
      [services/discovery_ingestion.py] and [trend_ingesters/youtube_search.py];
    - [OperatorReview], [OperatorSound]: operator routes of [api/channel_agent.py];
    - [Quarantine]: [services/channelops_quarantine.py]; [Retention]:
      [channel_agent/retention.py];
    - [UploadOps], [UploadOnce]: [services/youtube_upload_operations.py];
    - [Features]: [services/vp-feature-aggregator], windows, store and consumer;
    - [ExternalUrl]: [services/external_url_identity.py].

    ** What the theorems show

    - Pipelines: sorting terminates and is right ([topological_sort_correct]); exactly
      the well-formed pipelines validate, and they stay well formed in their runtime form
      ([validate_pipeline_sound], [runtime_definition_sound]); skipping is exact
      ([skip_downstream_exact]).
    - Jobs, over every interleaving of transactions and of sessions that read without
      locks: a node runs only after its dependencies, finished nodes keep their output
      and stay finished, a final status means what it says, all but for a cancellation
      that is written over what finished after it was read
      ([launch_respects_dependencies], [finished_nodes_frozen],
      [job_outcome_meaning]), summed up as the refinement [engine_refines_dag]; jobs
      do not get stuck on registered events ([registered_event_progress]), while a job
      with a missing asset under a node is left running by [start_job] and never succeeds
      ([missing_asset_leaves_job_running]), and [cached_node_order_leaves_job_running]
      exhibits another input that leaves a job running.
    - Claims: one worker per node, no stolen registered claims
      ([claim_exclusive], [registered_claim_not_stolen]); transactions that lock through
      [lock_job_execution_authority] do so in one order and cannot deadlock among each
      other on its rows ([execution_locks_ordered]); code that locks otherwise, such as the
      acknowledgement of cancelled dispatches, is not covered by it.
    - Protocol: tasks are published once and do arrive, as many at a time as the limit
      allows ([dispatch_published_once], [deliver_pending_delivers]); events are applied once, never lost, and
      acknowledged only after they were applied ([registered_event_applied_once],
      [processed_event_settled], [acknowledged_after_applied]); reports parse back
      ([report_roundtrip]).
    - Outputs: keys of the cache identify their inputs, stored results are found again
      ([cache_key_sound], [store_lookup_materialize]); a committed output stays
      in the bucket unless its commit took effect without the worker being told, or two
      claims of the history share a token ([referenced_objects_kept]).
    - Building: what AutoFlow builds validates, from up to twelve clips
      ([built_pipeline_validates]), from storyboards of up to 64 shots
      ([storyboard_pipelines_validate]) and from drafts ([graph_plan_sound]); the
      policies never allow more than asked ([rights_allowed_sound],
      [pipeline_policy_sound]), and the sources of an allowed graph are stored assets
      that may be used ([graph_sources_grounded]).
    - Plans: what is launched is the content that was approved
      ([launched_content_approved]), once per key and per task ([executed_once]).
    - Queue: bounded attempts, idempotent enqueueing, fair claims
      ([attempts_bounded], [enqueue_once], [claim_next_correct]); one tick per slot
      ([scheduler_one_tick], [scheduler_bucket_exact]); the runner settles its item
      ([runner_settles]) and comes to an end ([workflow_drains]).
    - Agent, for channels and items that are not owned ([unowned]): ticks keep accounts
      apart and lanes within their budgets ([tick_selects_safely]); executions and publications are asked for only after
      their checks ([effects_gated]); material is not published twice in a channel
      ([publish_redelivered], [published_material_blocked]); a discovery run succeeds
      once and a claim of it ends once, also when leases are recovered
      ([discovery_finishes_once]), under a policy that reads back
      ([discovery_policy_exact]).
    - Review: evidence holds exactly as long as the reviewed plan ([pre_upload_evidence_exact],
      [promotion_evidence_exact]); what a reviewer releases or promotes is refused
      unless it waits for that, and passes every check on its way otherwise, but for the
      public approval of public plans; what is rejected stays so ([released_task_executes],
      [promoted_publication_reviewed], [rejection_stands], [reviewed_plan_executes]).
    - Operations: quarantine is complete and idempotent ([quarantine_complete]);
      retention keeps the evidence of publications ([retention_keeps_evidence]); the
      relay keeps, from any point on, the order of the rows of a key visible then
      ([relay_fifo]; [late_event_overtaken] shows a row that becomes visible late); the
      aggregator counts each event once, given a steady clock, no events in the future
      and identifiers that name one event ([features_exactly_once]), an upload is posted at most once
      ([upload_posted_once]) and its row only moves forward.

    ** How the code is represented

    - A database is a record of tables; one definition is one committed transaction,
      from reading under its row locks to the commit, and a raised exception is a
      rollback.  Interleavings are sequences of such transactions: the relations
      [step], [queue_step], [outbox_step], [upload_step] and their like, and the programs
      over Redis of [RedisModel], in which every database transaction and every Redis
      command is a point where other processes may act or the program may stop.  The ORM
      writes the attributes that changed, not whole rows.
    - [cancel_job] reads the job without a lock and writes at its commit, and the dispatch
      pass finishes a job on the rows it has in memory.  A history of jobs ([moves]) is
      therefore made of the transactions of [step] and of open sessions: a cancellation
      that was read and is still to be written, and a pass between its commits, whose rows
      may be out of date ([EngineReach]).
    - The dispatch pass commits node by node, as the code does; the immediate Redis
      delivery that follows a commit is the program of [Delivery].  Job deletion is not
      part of [step].  Relay cycles run one after the other, and an outbox row becomes
      visible at any time after it was stamped.
    - The handlers of the channel agent commit several times, so they run in the session
      monad of [AgentModel], with what the session sees beside what is committed, and a
      clock read once per handler.  A route that reads before it locks gets both
      databases.  JSON columns are Python values; a definition column is the definition
      it parses to.
    - Pydantic parsing is taken as done; a request or definition is a value of its
      record.  Strings are byte strings; the character classes are those of ASCII, with
      Unicode white space where the code strips URLs.  A datetime is a number of
      microseconds in UTC; calendar text is for years of four digits.  Floats are IEEE
      binary64 numbers ([spec_float]).
    - Fresh UUIDs, the clock and SHA-256 are arguments; where content is compared by
      digest, the theorems say so with a collision as the other case.  The interfaces
      [EventProducer], [ChannelServices], [UploadGuards], the clients of [AgentModel] and
      the guards of owned inventories stand for code behind a component; no theorem
      depends on what they answer beyond the stated laws.
    - An absent schedule row reads as the row the first insertion would create.  Queue
      items of equal priority and creation time are taken in insertion order.  In
      [StagingKept] a worker commits an output within a day of storing it, the grace the
      janitor allows; a commit is confirmed, fails, or takes effect unanswered, after which
      the worker cleans up as after a failure.

    ** Fuel

    Kahn's loop has as much fuel as there are nodes; the skip search twice the number
    of dependency edges, since after the initial entries each edge is enqueued once;
    the staging loop the number of nodes, each round before the last changing one;
    stripping the length of the string; the recursive query of retention one turn per
    row ([related_exact]).  [Diverges] marks exhausted fuel and the
    theorems show that it does not occur.

    ** What is not modelled

    - PostgreSQL stored procedures, advisory locks and the rows only they write
      ([backend/alembic]): their behaviour is SQL; the Python branch without them is
      modelled.
    - Worker admission, registration and consumer reconciliation, which drive those
      procedures, and owned inventories (their services, tick and handlers), which lock and
      repair rows through them.
    - Search, ranking, storyboard writing and metadata of AutoFlow: text heuristics and
      calls of language models, whose output the modelled builders, planner and policies
      check.
    - What only talks to the outside: HTTP clients, storage, subprocesses of media
      handlers, the worker's message loop, the remaining routes (listing and editing of
      rows), command line tools, deployment scripts, the Go and TypeScript parts. *)

From stdpp Require Import base tactics list strings gmap sets relations finite.
From Stdlib Require Import ZArith Lia.

(** ** Exceptions

    A Python call returns a value or raises.  [Res A] is that outcome;
    [exn] lists the exception classes the modelled code raises or catches.
    [Diverges] is no Python exception: it marks a loop whose model ran out of
    fuel, and the theorems show that the fuel chosen always suffices. *)

Inductive exn : Set :=
| TypeError
| ValueError (msg : string)
| OverflowError
| KeyError
| IndexError
| RuntimeError (msg : string)
| AttributeError (msg : string)
| JobExecutionAuthorityBlocked (msg : string)
| RegisteredWorkerEventError (msg : string)
| GuardedScheduleOpenConflict (msg : string)
| LookupError (msg : string)
| UploadOperationConflictError (msg : string)
| IntegrityError
| DiscoveryPolicyError (msg : string)
| DraftCompileError (msg : string)
| GraphPlanningUnavailable (msg : string)
| GraphPlanningFailed (msg : string)
| ValidationError
| PermissionError (msg : string)
| HTTPException (status_code : Z) (detail : string)
| Diverges.

Inductive Res (A : Type) : Type :=
| Ok (a : A)
| Raise (e : exn).
Arguments Ok {A} a.
Arguments Raise {A} e.

#[export] Instance exn_eq_dec : EqDecision exn.
Proof. solve_decision. Defined.

#[export] Instance Res_ret : MRet Res := fun _ a => Ok a.
#[export] Instance Res_bind : MBind Res := fun _ _ k m =>
  match m with Ok a => k a | Raise e => Raise e end.
#[export] Instance Res_fmap : FMap Res := fun _ _ f m =>
  match m with Ok a => Ok (f a) | Raise e => Raise e end.

Definition ok_or {A} (d : A) (r : Res A) : A := match r with Ok a => a | Raise _ => d end.

(** Left-to-right effects over a list: a Python [for] loop with an
    accumulator, and a list comprehension whose element may raise. *)
Fixpoint foldM {S A} (f : S -> A -> Res S) (s : S) (l : list A) : Res S :=
  match l with
  | [] => Ok s
  | a :: l' => match f s a with Ok s' => foldM f s' l' | Raise e => Raise e end
  end.

Fixpoint mapMR {A B} (f : A -> Res B) (l : list A) : Res (list B) :=
  match l with
  | [] => Ok []
  | a :: l' =>
      match f a with
      | Raise e => Raise e
      | Ok b => match mapMR f l' with Raise e => Raise e | Ok bs => Ok (b :: bs) end
      end
  end.

(** ** Python dictionaries

    A [dict] keeps insertion order, so it is an association list: [dget] is
    [d.get(k)], [dset] is [d[k] = v] (in place for a present key, appended for
    a new one), [dpop] is [d.pop(k, None)] and [dkeys] the iteration order. *)

Section Dict.
Context {K : Type} `{EqDecision K} {A : Type}.

Fixpoint dget (d : list (K * A)) (k : K) : option A :=
  match d with
  | [] => None
  | (k', v) :: d' => if decide (k = k') then Some v else dget d' k
  end.

Fixpoint dset (d : list (K * A)) (k : K) (v : A) : list (K * A) :=
  match d with
  | [] => [(k, v)]
  | (k', v') :: d' =>
      if decide (k = k') then (k', v) :: d' else (k', v') :: dset d' k v
  end.

Definition dpop (d : list (K * A)) (k : K) : list (K * A) :=
  List.filter (fun p => bool_decide (p.1 <> k)) d.

Definition dkeys (d : list (K * A)) : list K := map fst d.

Definition dvalues (d : list (K * A)) : list A := map snd d.

Definition dmem (d : list (K * A)) (k : K) : bool :=
  match dget d k with Some _ => true | None => false end.

Definition dget_or (d : list (K * A)) (k : K) (dflt : A) : A :=
  default dflt (dget d k).

(** [dict(pairs)] and the dict comprehension over [pairs]. *)
Definition dict_of (l : list (K * A)) : list (K * A) :=
  fold_left (fun d p => dset d p.1 p.2) l [].
End Dict.

Declare Scope vp_scope.
Delimit Scope vp_scope with vp.
Notation "d .[? k ]" := (dget d k) (at level 2, left associativity) : vp_scope.
Notation "d .[ k <- v ]" := (dset d k v) (at level 2, left associativity) : vp_scope.
Open Scope vp_scope.

(** ** Facts about dictionaries *)

(** Case analysis on every [decide] in sight, then congruence. *)
Ltac crush_decide :=
  simpl in *; repeat (case_decide; simplify_eq/=); try congruence; auto.

Section DictFacts.
Context {K : Type} `{EqDecision K} {A : Type}.
Implicit Types (d : list (K * A)) (k : K) (v : A).

Lemma dget_dset_eq d k v : dget (dset d k v) k = Some v.
Proof. induction d as [|[k' v'] d IH]; crush_decide. Qed.

Lemma dget_dset_ne d k k' v : k <> k' -> dget (dset d k v) k' = dget d k'.
Proof.
  intros Hne. induction d as [|[k0 v0] d IH]; crush_decide.
Qed.

Lemma dget_dset d k k' v :
  dget (dset d k v) k' = if decide (k = k') then Some v else dget d k'.
Proof. case_decide; subst; [apply dget_dset_eq | by apply dget_dset_ne]. Qed.

Lemma elem_of_dkeys d k : k ∈ dkeys d <-> is_Some (dget d k).
Proof.
  unfold dkeys. induction d as [|[k' v'] d IH]; simpl.
  - rewrite elem_of_nil. split; [done | by intros [? ?]].
  - rewrite elem_of_cons, IH. case_decide; subst; naive_solver.
Qed.

Lemma dget_None_dkeys d k : dget d k = None <-> k ∉ dkeys d.
Proof. rewrite elem_of_dkeys, <- not_eq_None_Some. destruct (dget d k); naive_solver. Qed.

Lemma dmem_true d k : dmem d k = true <-> k ∈ dkeys d.
Proof. rewrite elem_of_dkeys. unfold dmem. destruct (dget d k); naive_solver. Qed.

Lemma dkeys_dset_old d k v : k ∈ dkeys d -> dkeys (dset d k v) = dkeys d.
Proof.
  induction d as [|[k' v'] d IH]; simpl; [by rewrite elem_of_nil|].
  rewrite elem_of_cons. intros [->|H]; case_decide; simplify_eq/=; f_equal; auto.
Qed.

Lemma dkeys_dset_new d k v : k ∉ dkeys d -> dkeys (dset d k v) = dkeys d ++ [k].
Proof.
  induction d as [|[k' v'] d IH]; simpl; [done|].
  rewrite not_elem_of_cons. intros [? ?]. case_decide; simplify_eq/=. f_equal; auto.
Qed.

Lemma elem_of_dkeys_dset d k v x : x ∈ dkeys (dset d k v) <-> x = k \/ x ∈ dkeys d.
Proof.
  rewrite !elem_of_dkeys, dget_dset. case_decide; subst; naive_solver.
Qed.

Lemma NoDup_dkeys_dset d k v : NoDup (dkeys d) -> NoDup (dkeys (dset d k v)).
Proof.
  intros Hnd. destruct (decide (k ∈ dkeys d)).
  - by rewrite dkeys_dset_old.
  - rewrite dkeys_dset_new by done. apply NoDup_app; set_solver by (auto using NoDup_singleton).
Qed.

Lemma elem_of_dget d k v : NoDup (dkeys d) -> (k, v) ∈ d <-> dget d k = Some v.
Proof.
  induction d as [|[k' v'] d IH]; simpl; [set_solver|].
  rewrite NoDup_cons. intros [Hn Hnd]. rewrite elem_of_cons. case_decide; subst.
  - split; [|naive_solver]. intros [?|Hin]; [naive_solver|].
    destruct Hn. by apply (list_elem_of_fmap_2 fst) in Hin.
  - rewrite IH by done. naive_solver.
Qed.

Lemma dget_app_snoc d k v k' :
  dget (d ++ [(k, v)]) k' = match dget d k' with
                            | Some x => Some x
                            | None => if decide (k' = k) then Some v else None
                            end.
Proof. induction d as [|[k0 v0] d IH]; crush_decide. Qed.

Lemma dset_dset d k v v' : dset (dset d k v) k v' = dset d k v'.
Proof. induction d as [|[k0 v0] d IH]; simpl; repeat (case_decide; simplify_eq/=); auto. by f_equal. Qed.

Lemma dget_dpop_eq d k : dget (dpop d k) k = None.
Proof.
  unfold dpop. induction d as [|[k' v'] d IH]; simpl; [done|].
  case_bool_decide; simpl; [|done]. by rewrite decide_False.
Qed.

Lemma dget_dpop_ne d k k' : k' <> k -> dget (dpop d k) k' = dget d k'.
Proof.
  intros Hne. unfold dpop. induction d as [|[k0 v0] d IH]; simpl; [done|].
  destruct (decide (k0 = k)) as [->|Hk].
  - rewrite bool_decide_false, decide_False by tauto. done.
  - rewrite bool_decide_true by done. simpl. by rewrite IH.
Qed.

(** *** [dict_of] *)

Lemma dict_of_snoc (l : list (K * A)) k v : dict_of (l ++ [(k, v)]) = dset (dict_of l) k v.
Proof. unfold dict_of. by rewrite fold_left_app. Qed.

Lemma NoDup_dkeys_dict_of (l : list (K * A)) : NoDup (dkeys (dict_of l)).
Proof.
  induction l as [|[k v] l IH] using rev_ind; [apply NoDup_nil_2|].
  rewrite dict_of_snoc. by apply NoDup_dkeys_dset.
Qed.

Lemma elem_of_dkeys_dict_of (l : list (K * A)) k : k ∈ dkeys (dict_of l) <-> k ∈ map fst l.
Proof.
  induction l as [|[k' v] l IH] using rev_ind; [done|].
  rewrite dict_of_snoc, elem_of_dkeys_dset, IH, map_app. set_solver.
Qed.

(** The last binding of a key wins. *)
Lemma dget_dict_of_snoc (l : list (K * A)) k v k' :
  dget (dict_of (l ++ [(k, v)])) k' = if decide (k = k') then Some v else dget (dict_of l) k'.
Proof. by rewrite dict_of_snoc, dget_dset. Qed.

Lemma dget_dict_of_elem (l : list (K * A)) k v : dget (dict_of l) k = Some v -> (k, v) ∈ l.
Proof.
  induction l as [|[k' v'] l IH] using rev_ind; [done|].
  rewrite dget_dict_of_snoc. case_decide; set_solver.
Qed.

Lemma dict_of_NoDup (l : list (K * A)) : NoDup (map fst l) -> dict_of l = l.
Proof.
  induction l as [|[k v] l IH] using rev_ind; [done|].
  rewrite map_app, NoDup_app. intros (Hl & Hd & _).
  rewrite dict_of_snoc, IH by done.
  assert (Hk : k ∉ dkeys l) by set_solver. clear -Hk.
  induction l as [|[k' v'] l IH]; [done|]. simpl in *.
  rewrite not_elem_of_cons in Hk. case_decide; [naive_solver|]. f_equal. naive_solver.
Qed.

(** The key order of a dict built from pairs: first occurrences, in order. *)
Definition uniq (l : list K) : list K :=
  fold_left (fun acc k => if decide (k ∈ acc) then acc else acc ++ [k]) l [].

Lemma dkeys_dset d k v :
  dkeys (dset d k v) = if decide (k ∈ dkeys d) then dkeys d else dkeys d ++ [k].
Proof. case_decide; [by apply dkeys_dset_old | by apply dkeys_dset_new]. Qed.

Lemma dkeys_dict_of (l : list (K * A)) : dkeys (dict_of l) = uniq (map fst l).
Proof.
  induction l as [|[k v] l IH] using rev_ind; [done|].
  unfold uniq in *. by rewrite dict_of_snoc, dkeys_dset, map_app, fold_left_app, IH.
Qed.
End DictFacts.

Create HintDb vp.
#[export] Hint Resolve NoDup_dkeys_dset NoDup_dkeys_dict_of dget_dset_eq : vp.
Create Rewrite HintDb vp.
#[export] Hint Rewrite @dget_dset_eq @dict_of_snoc : vp.

Lemma NoDup_length_le {A} (l1 l2 : list A) : NoDup l1 -> l1 ⊆ l2 -> length l1 <= length l2.
Proof. intros. by apply submseteq_length, NoDup_submseteq. Qed.

Lemma NoDup_missing_length {A} `{EqDecision A} (l1 l2 : list A) :
  NoDup l1 -> NoDup l2 -> l1 ⊆ l2 ->
  length l1 < length l2 <-> exists x, x ∈ l2 /\ x ∉ l1.
Proof.
  intros H1 H2 Hsub. split.
  - intros Hlen. destruct (decide (Exists (fun x => x ∉ l1) l2)) as [Hex|Hn].
    + by apply Exists_exists in Hex.
    + assert (length l2 <= length l1); [|lia]. apply NoDup_length_le; [done|].
      intros x Hx. destruct (decide (x ∈ l1)); [done|]. destruct Hn. apply Exists_exists. eauto.
  - intros (x & Hx & Hn). apply (NoDup_length_le (x :: l1) l2); [by apply NoDup_cons | set_solver].
Qed.

Lemma NoDup_map_filter {A B} (f : A -> B) (p : A -> bool) (l : list A) :
  NoDup (map f l) -> NoDup (map f (List.filter p l)).
Proof.
  induction l as [|a l IH]; simpl; [done|]. rewrite NoDup_cons. intros [Hn Hnd].
  destruct (p a); simpl; [|auto]. apply NoDup_cons. split; [|auto].
  intros Hin. apply Hn. apply list_elem_of_fmap in Hin as (x & -> & Hx).
  apply list_elem_of_In, filter_In in Hx as [Hx _].
  apply list_elem_of_fmap. exists x. split; [done|]. by apply list_elem_of_In.
Qed.

Lemma NoDup_dpop {K A} `{EqDecision K} (d : list (K * A)) k : NoDup (dkeys d) -> NoDup (dkeys (dpop d k)).
Proof. apply NoDup_map_filter. Qed.

Lemma NoDup_map_inj {A B} (f : A -> B) (l : list A) x y :
  NoDup (map f l) -> x ∈ l -> y ∈ l -> f x = f y -> x = y.
Proof.
  induction l as [|a l IH]; simpl; [set_solver|]. rewrite NoDup_cons, !elem_of_cons.
  intros [Hn Hnd] [->|Hx] [->|Hy] Heq; auto; destruct Hn.
  - rewrite Heq. by apply list_elem_of_fmap_2.
  - rewrite <- Heq. by apply list_elem_of_fmap_2.
Qed.

Lemma elem_of_concat {A} (x : A) (ls : list (list A)) : x ∈ concat ls <-> exists l, l ∈ ls /\ x ∈ l.
Proof. rewrite list_elem_of_In, in_concat. by setoid_rewrite list_elem_of_In. Qed.

Lemma filter_keep {A} (f : A -> bool) l : (forall x, x ∈ l -> f x = true) -> List.filter f l = l.
Proof.
  induction l as [|a l IH]; intros H; [done|]. simpl. rewrite H by (by left). f_equal. apply IH. intros x Hx. apply H. by right.
Qed.

Lemma filter_none {A} (f : A -> bool) l : (forall x, x ∈ l -> f x = false) -> List.filter f l = [].
Proof.
  induction l as [|x l IH]; [done|]. intros Hf. simpl. rewrite (Hf x) by left. apply IH. intros y Hy. apply Hf. by right.
Qed.

Lemma elem_of_lfilter {A} (p : A -> bool) (l : list A) (x : A) :
  x ∈ List.filter p l <-> x ∈ l /\ p x = true.
Proof. by rewrite !list_elem_of_In, filter_In. Qed.

Lemma elem_map {A B} (f : A -> B) (l : list A) x : x ∈ l -> f x ∈ map f l.
Proof. apply list_elem_of_fmap_2. Qed.

Lemma Permutation_filter_bool {A} (f : A -> bool) l l' : l ≡ₚ l' -> List.filter f l ≡ₚ List.filter f l'.
Proof.
  induction 1 as [|x l l' _ IH|x y l|l l1 l' _ IH1 _ IH2]; simpl.
  - done.
  - destruct (f x); [by constructor | done].
  - destruct (f x), (f y); try done. constructor.
  - by trans (List.filter f l1).
Qed.

Lemma Forall2_map_self {A B} (P : A -> B -> Prop) (f : A -> B) (l : list A) :
  (forall x, P x (f x)) -> Forall2 P l (map f l).
Proof. intros HP. induction l; simpl; constructor; auto. Qed.

Lemma Forall2_impl_In {A B} (P Q : A -> B -> Prop) (l : list A) (k : list B) :
  Forall2 P l k -> (forall a b, a ∈ l -> b ∈ k -> P a b -> Q a b) -> Forall2 Q l k.
Proof.
  induction 1 as [|a b l k HP _ IH]; intros HPQ; constructor.
  - apply HPQ; [left | left | done].
  - apply IH. intros x y Hx Hy. apply HPQ; by right.
Qed.

Lemma existsb_false_elem {A} (p : A -> bool) (l : list A) (x : A) :
  existsb p l = false -> x ∈ l -> p x = false.
Proof.
  intros Hex Hx. destruct (p x) eqn:Hp; [|done]. rewrite <- Hex. symmetry. apply existsb_exists.
  exists x. by rewrite <- list_elem_of_In.
Qed.

(** What a [negb] filter on a key drops has that key. *)
Lemma filtered_out {A B} `{EqDecision B} (f : A -> B) (b : B) (l : list A) (x : A) :
  x ∈ l -> x ∉ List.filter (fun a => negb (bool_decide (f a = b))) l -> f x = b.
Proof.
  intros Hx Hn. destruct (decide (f x = b)); [done|]. destruct Hn. apply elem_of_lfilter.
  by rewrite bool_decide_false.
Qed.

Lemma exists_snoc {A} (P : A -> Prop) (l : list A) (a : A) :
  (exists x, x ∈ l ++ [a] /\ P x) <-> (exists x, x ∈ l /\ P x) \/ P a.
Proof.
  setoid_rewrite elem_of_app. setoid_rewrite list_elem_of_singleton. split.
  - intros (x & [Hx| ->] & HP); eauto.
  - intros [(x & Hx & HP)|HP]; eauto.
Qed.

(** ** Facts about [mapMR] and [foldM] *)

(** A successful bind is two successes. *)
Lemma bind_Ok {A B} (m : Res A) (f : A -> Res B) b :
  (m ≫= f) = Ok b -> exists a, m = Ok a /\ f a = Ok b.
Proof. destruct m as [a|]; [by exists a | done]. Qed.

(** Splits the hypothesis that a block of binds returned. *)
Ltac unbind H :=
  repeat match type of H with
    | (_ ≫= _) = Ok _ => let a := fresh "a" in let Ha := fresh "Ha" in
        apply bind_Ok in H as (a & Ha & H)
    end.

Lemma mapMR_Forall2 {A B} (f : A -> Res B) (l : list A) (bs : list B) :
  mapMR f l = Ok bs <-> Forall2 (fun a b => f a = Ok b) l bs.
Proof.
  split.
  - revert bs. induction l as [|a l IH]; simpl; intros bs Hm; [by simplify_eq|].
    destruct (f a) eqn:Hf; [|done]. destruct (mapMR f l); simplify_eq. auto.
  - induction 1 as [|a b l bs Hf _ IH]; simpl; [done|]. by rewrite Hf, IH.
Qed.

Lemma mapMR_raise {A B} (f : A -> Res B) (l : list A) e :
  mapMR f l = Raise e -> exists a, a ∈ l /\ f a = Raise e.
Proof.
  induction l as [|a l IH]; simpl; [done|]. destruct (f a) as [b|e'] eqn:Hf.
  - destruct (mapMR f l); [done|]. intros [= ->]. destruct IH as (x & Hx & He); [done|]. exists x.
    split; [by apply list_elem_of_further | done].
  - intros [= ->]. exists a. split; [apply list_elem_of_here | done].
Qed.

Lemma mapMR_concat_nil {A B} (f : A -> Res (list B)) (l : list A) bs :
  mapMR f l = Ok bs -> concat bs = [] -> forall a, a ∈ l -> f a = Ok [].
Proof.
  intros HF%mapMR_Forall2 Hnil. induction HF as [|a b l bs Hf HF IH]; [set_solver|].
  simpl in Hnil. apply app_eq_nil in Hnil as [-> Hnil]. intros x Hx.
  apply elem_of_cons in Hx as [->|Hx]; auto.
Qed.

Lemma mapMR_elem {A B} (f : A -> Res B) (l : list A) bs a : mapMR f l = Ok bs -> a ∈ l -> exists b, f a = Ok b.
Proof.
  intros HF%mapMR_Forall2. induction HF as [|a' b l bs Hf HF IH]; [set_solver|]. rewrite elem_of_cons. naive_solver.
Qed.

Lemma mapMR_elem_concat {A B} (f : A -> Res (list B)) (l : list A) bs a b y :
  mapMR f l = Ok bs -> a ∈ l -> f a = Ok b -> y ∈ b -> y ∈ concat bs.
Proof.
  intros HF%mapMR_Forall2. induction HF as [|a' b' l bs Hf HF IH]; simpl; [set_solver|].
  rewrite elem_of_cons, elem_of_app. intros [->|Ha] Hb Hy; [left; congruence | right; auto].
Qed.

Lemma mapMR_nil_iff {A B} (f : A -> Res (list B)) (l : list A) bs :
  mapMR f l = Ok bs -> concat bs = [] <-> forall a, a ∈ l -> f a = Ok [].
Proof.
  intros Hm. split; [by apply mapMR_concat_nil|]. apply mapMR_Forall2 in Hm.
  induction Hm as [|a b l bs Hf HF IH]; [done|]. intros Hall. simpl.
  rewrite (Hall a) in Hf by set_solver. injection Hf as <-. apply IH. set_solver.
Qed.

Lemma map_nil_iff {A B} (f : A -> B) l : map f l = [] <-> l = [].
Proof. by destruct l. Qed.

Lemma filter_nil_iff {A} (f : A -> bool) l : List.filter f l = [] <-> forall x, x ∈ l -> f x = false.
Proof.
  split.
  - intros Hf x Hx. destruct (f x) eqn:Hfx; [|done]. exfalso.
    assert (Hin : In x (List.filter f l)) by (apply filter_In; by rewrite <- list_elem_of_In).
    by rewrite Hf in Hin.
  - induction l as [|x l IH]; [done|]. intros Hf. simpl. rewrite (Hf x) by left. apply IH. intros y Hy. apply Hf. by right.
Qed.

Lemma concat_nil_iff {A} (ls : list (list A)) : concat ls = [] <-> forall l, l ∈ ls -> l = [].
Proof.
  induction ls as [|l ls IH]; simpl; [set_solver|]. split.
  - intros [-> Hls]%app_eq_nil. intros k [->|Hk]%elem_of_cons; [done|]. by apply IH.
  - intros Hall. rewrite (Hall l) by left. apply IH. intros k Hk. apply Hall. by right.
Qed.

Lemma app_nil_iff {A} (l k : list A) : l ++ k = [] <-> l = [] /\ k = [].
Proof. destruct l; naive_solver. Qed.

Lemma mapMR_concat_elem {A B} (f : A -> Res (list B)) (l : list A) bs y :
  mapMR f l = Ok bs -> y ∈ concat bs -> exists a b, a ∈ l /\ f a = Ok b /\ y ∈ b.
Proof.
  intros HF%mapMR_Forall2. induction HF as [|a b l bs Hf HF IH]; simpl; [set_solver|].
  rewrite elem_of_app. intros [Hy|Hy]; [exists a, b; set_solver|].
  destruct (IH Hy) as (a' & b' & ? & ? & ?). exists a', b'. set_solver.
Qed.

Lemma foldM_inv {S A} (P : S -> Prop) (f : S -> A -> Res S) (l : list A) (s s' : S) :
  (forall s a s', a ∈ l -> P s -> f s a = Ok s' -> P s') -> P s -> foldM f s l = Ok s' -> P s'.
Proof.
  revert s. induction l as [|a l IH]; intros s Hstep Hs; simpl; [by intros [= <-]|].
  destruct (f s a) as [s1|] eqn:Hf; [|done]. apply IH.
  - intros s2 b s3 Hb. apply Hstep. by right.
  - eapply Hstep; [left | done | done].
Qed.

Lemma foldM_raise {S A} (f : S -> A -> Res S) (l : list A) (s : S) e :
  foldM f s l = Raise e -> exists s' a, f s' a = Raise e.
Proof.
  revert s. induction l as [|a l IH]; intros s; simpl; [done|].
  destruct (f s a) as [s1|] eqn:Hf; [apply IH|]. intros [= ->]. eauto.
Qed.

(** ** Occurrences in a list *)

Section Occ.
Context {A : Type} `{EqDecision A}.
Implicit Types (x : A) (l : list A).

(** Number of occurrences of [x] in [l]. *)
Definition occ (x : A) (l : list A) : nat := length (filter (x =.) l).

Lemma occ_app x l1 l2 : occ x (l1 ++ l2) = occ x l1 + occ x l2.
Proof. unfold occ. by rewrite filter_app, length_app. Qed.

Lemma occ_cons x y l : occ x (y :: l) = (if decide (x = y) then 1 else 0) + occ x l.
Proof. unfold occ. rewrite filter_cons. case_decide; simpl; done. Qed.

Lemma occ_single x y : occ x [y] = if decide (x = y) then 1 else 0.
Proof. rewrite occ_cons. unfold occ. simpl. case_decide; lia. Qed.

Lemma occ_perm x l1 l2 : l1 ≡ₚ l2 -> occ x l1 = occ x l2.
Proof. intros H. unfold occ. by rewrite H. Qed.

Lemma occ_pos x l : x ∈ l <-> 0 < occ x l.
Proof.
  induction l as [|y l IH]; [split; [set_solver | unfold occ; simpl; lia]|].
  rewrite elem_of_cons, occ_cons, IH. case_decide; subst; naive_solver lia.
Qed.

Lemma occ_zero x l : x ∉ l <-> occ x l = 0.
Proof. rewrite occ_pos. lia. Qed.
End Occ.

Lemma tc_mono {A} (R S : relation A) x y : (forall a b, R a b -> S a b) -> tc R x y -> tc S x y.
Proof. intros HRS. induction 1; [by apply tc_once, HRS | eapply tc_l; eauto]. Qed.

(** ** Cycles in finite relations

    A nonempty finite set in which every element has a predecessor inside the
    set contains a cycle. *)

Section Cycles.
Context {A : Type} `{EqDecision A} (R : relation A).

Definition acyclic : Prop := forall x, ~ tc R x x.

Definition back_chain (c : list A) : Prop :=
  forall i x y, c !! i = Some x -> c !! S i = Some y -> R y x.

Lemma back_chain_tc c i j x y :
  back_chain c -> i < j -> c !! i = Some x -> c !! j = Some y -> tc R y x.
Proof.
  intros Hc Hij Hi. revert y. induction Hij as [|j Hij IH]; intros y Hj.
  - apply tc_once. by eapply Hc.
  - destruct (c !! j) as [z|] eqn:Hz.
    + apply (tc_l R y z x); [by apply (Hc j) | by apply IH].
    + apply lookup_ge_None in Hz. apply lookup_lt_Some in Hj. lia.
Qed.

Lemma back_chain_exists (l : list A) (a : A) n :
  a ∈ l -> (forall x, x ∈ l -> exists y, y ∈ l /\ R y x) ->
  exists c, length c = S n /\ c !! 0 = Some a /\ back_chain c /\ c ⊆ l.
Proof.
  intros Ha Hpred. induction n as [|n (c & Hlen & Hhd & Hc & Hsub)].
  - exists [a]. split_and!; [done | done | | set_solver]. intros i x y _ Hy. by destruct i.
  - destruct (c !! n) as [z|] eqn:Hz; [|apply lookup_ge_None in Hz; lia].
    destruct (Hpred z) as (w & Hw & Hwz); [apply Hsub; by eapply list_elem_of_lookup_2|].
    exists (c ++ [w]). split_and!; [rewrite length_app; simpl; lia | | | set_solver].
    { by rewrite lookup_app_l by lia. }
    intros i x y Hx Hy. destruct (decide (S i < length c)) as [Hlt|Hge].
    + rewrite lookup_app_l in Hx, Hy by lia. by eapply Hc.
    + apply lookup_lt_Some in Hy as Hlt. rewrite length_app in Hlt. simpl in Hlt.
      assert (i = n) as -> by lia. rewrite lookup_app_l in Hx by lia.
      rewrite <- Hlen, lookup_app_r, Nat.sub_diag in Hy by lia. by simplify_eq/=.
Qed.

Lemma finite_cycle (l : list A) (a : A) :
  a ∈ l -> (forall x, x ∈ l -> exists y, y ∈ l /\ R y x) ->
  exists x, x ∈ l /\ tc R x x /\ rtc R x a.
Proof.
  intros Ha Hpred.
  destruct (back_chain_exists l a (length l) Ha Hpred) as (c & Hlen & Hhd & Hc & Hsub).
  destruct (finite.list_pigeonhole c l) as (i & j & x & Hij & Hi & Hj); [done | lia |].
  exists x. split_and!; [apply Hsub; by eapply list_elem_of_lookup_2 | by eapply back_chain_tc |].
  destruct i as [|i]; [by simplify_eq|]. apply tc_rtc. eapply (back_chain_tc c 0 (S i)); eauto; lia.
Qed.
End Cycles.
