(* ===== verification/PyStr.v ===== *)
(** * Python strings, [int(...)] and [float(...)]

    The string operations, the two numeric constructors and the float
    comparisons the modelled code uses.  A Python [str] is a Rocq [string] of
    ASCII characters; case mapping, white space and digits are the ASCII ones.
    A Python [float] is an IEEE 754 binary64 number, the [spec_float] of the
    Standard Library at precision 53 and exponent bound 1024. *)

From stdpp Require Import base tactics list strings pretty.
From Stdlib Require Import ZArith Lia Ascii SpecFloat.
From S2P Require Import Prelude.

(** ** Characters *)

Definition ascii_code (c : ascii) : Z := Z.of_N (N_of_ascii c).

Definition between (lo hi x : Z) : bool := (lo <=? x)%Z && (x <=? hi)%Z.

(** [str.isspace] on ASCII: tab, newline, vertical tab, form feed, carriage
    return, the four separators 0x1c-0x1f and the blank. *)
Definition is_space (c : ascii) : bool :=
  let n := ascii_code c in between 9 13 n || between 28 32 n.

Definition is_digit (c : ascii) : bool := between 48 57 (ascii_code c).

Definition is_upper (c : ascii) : bool := between 65 90 (ascii_code c).

Definition is_lower (c : ascii) : bool := between 97 122 (ascii_code c).

Definition is_alnum (c : ascii) : bool := is_digit c || is_upper c || is_lower c.

Definition digit_val (c : ascii) : Z := (ascii_code c - 48)%Z.

Definition lower_ascii (c : ascii) : ascii :=
  if is_upper c then ascii_of_N (N_of_ascii c + 32) else c.

Definition upper_ascii (c : ascii) : ascii :=
  if is_lower c then ascii_of_N (N_of_ascii c - 32) else c.

(** ** Strings *)

Fixpoint smap (f : ascii -> ascii) (s : string) : string :=
  match s with
  | EmptyString => EmptyString
  | String c s' => String (f c) (smap f s')
  end.

Fixpoint sfilter (f : ascii -> bool) (s : string) : string :=
  match s with
  | EmptyString => EmptyString
  | String c s' => if f c then String c (sfilter f s') else sfilter f s'
  end.

Fixpoint sforall (f : ascii -> bool) (s : string) : bool :=
  match s with
  | EmptyString => true
  | String c s' => f c && sforall f s'
  end.

Definition lower : string -> string := smap lower_ascii.

Definition upper : string -> string := smap upper_ascii.

(** [s.replace(a, b)] for single characters. *)
Definition replace_char (a b : ascii) : string -> string :=
  smap (fun c => if (c =? a)%char then b else c).

Fixpoint lstrip (s : string) : string :=
  match s with
  | EmptyString => EmptyString
  | String c s' => if is_space c then lstrip s' else s
  end.

Fixpoint rstrip (s : string) : string :=
  match s with
  | EmptyString => EmptyString
  | String c s' =>
      match rstrip s' with
      | EmptyString => if is_space c then EmptyString else String c EmptyString
      | r => String c r
      end
  end.

Definition strip (s : string) : string := lstrip (rstrip s).

Definition is_empty (s : string) : bool :=
  match s with EmptyString => true | _ => false end.

(** [s.removeprefix(p)], with whether the prefix was there ([s.startswith(p)]). *)
Fixpoint strip_prefix (p s : string) : option string :=
  match p, s with
  | EmptyString, _ => Some s
  | String c p', String c' s' => if (c =? c')%char then strip_prefix p' s' else None
  | String _ _, EmptyString => None
  end.

Definition startswith (s p : string) : bool :=
  match strip_prefix p s with Some _ => true | None => false end.

(** [s[:n]]. *)
Fixpoint stake (n : nat) (s : string) : string :=
  match n, s with
  | S n', String c s' => String c (stake n' s')
  | _, _ => EmptyString
  end.

Fixpoint contains_char (c : ascii) (s : string) : bool :=
  match s with
  | EmptyString => false
  | String c' s' => (c =? c')%char || contains_char c s'
  end.

(** [s.partition(c)] for a single character: text before the first [c], and
    what follows it when there is one. *)
Fixpoint partition_char (c : ascii) (s : string) : string * option string :=
  match s with
  | EmptyString => (EmptyString, None)
  | String c' s' =>
      if (c =? c')%char then (EmptyString, Some s')
      else let '(a, b) := partition_char c s' in (String c' a, b)
  end.

(** [s.split(sep, 1)[1]]: what follows the first occurrence of [sep]. *)
Fixpoint after_first (sep s : string) : option string :=
  match strip_prefix sep s with
  | Some r => Some r
  | None => match s with EmptyString => None | String _ s' => after_first sep s' end
  end.

(** [s.split(c)] for a single character: never empty. *)
Fixpoint split_char (c : ascii) (s : string) : list string :=
  match s with
  | EmptyString => [EmptyString]
  | String c' s' =>
      if (c =? c')%char then EmptyString :: split_char c s'
      else match split_char c s' with
           | [] => [String c' EmptyString]
           | w :: ws => String c' w :: ws
           end
  end.

(** [sep.join(l)]. *)
Fixpoint join (sep : string) (l : list string) : string :=
  match l with
  | [] => EmptyString
  | [s] => s
  | s :: l' => s +:+ sep +:+ join sep l'
  end.

(** Lexicographic order of strings, the one [sorted] uses. *)
Fixpoint str_ltb (a b : string) : bool :=
  match a, b with
  | EmptyString, String _ _ => true
  | String x a', String y b' =>
      if (x =? y)%char then str_ltb a' b' else (ascii_code x <? ascii_code y)%Z
  | _, EmptyString => false
  end.

Definition str_le (a b : string) : Prop := str_ltb b a = false.

#[export] Instance str_le_dec : RelDecision str_le.
Proof. intros a b. unfold str_le. apply _. Defined.

(** [range(a, b)]. *)
Definition range (a b : Z) : list Z :=
  map (fun i => (a + Z.of_nat i)%Z) (seq 0 (Z.to_nat (b - a))).

(** [str(n)] for an integer. *)
Definition str_of_Z (n : Z) : string := pretty n.

(** ** [int(s)]

    After stripping white space: an optional sign, then decimal digits with
    single underscores between them.  More than 4300 digits are refused
    ([sys.int_info.default_max_str_digits]).  [None] is [ValueError]. *)

Definition max_str_digits : nat := Z.to_nat 4300.

(** Digits of [s] from the left, an underscore accepted only between two
    digits; returns the value, the number of digits and the rest. *)
Fixpoint scan_digits (s : string) (prev : bool) (acc : Z) (n : nat) : option (Z * nat * string) :=
  match s with
  | EmptyString => Some (acc, n, EmptyString)
  | String c s' =>
      if is_digit c then scan_digits s' true (acc * 10 + digit_val c)%Z (S n)
      else if (c =? "_")%char then
        match s' with
        | String c' _ => if prev && is_digit c' then scan_digits s' false acc n else None
        | EmptyString => None
        end
      else Some (acc, n, s)
  end.

Definition split_sign (s : string) : bool * string :=
  match s with
  | String "-" s' => (true, s')
  | String "+" s' => (false, s')
  | _ => (false, s)
  end.

Definition int_of_string (s : string) : option Z :=
  let '(neg, d) := split_sign (strip s) in
  match scan_digits d false 0 0 with
  | Some (v, n, EmptyString) =>
      if (n =? 0)%nat || (max_str_digits <? n)%nat then None
      else Some (if neg then - v else v)%Z
  | _ => None
  end.

(** ** Floats *)

Abbreviation pyfloat := spec_float.

Definition prec : Z := 53.
Definition emax : Z := 1024.

Definition float_of_Z (z : Z) : pyfloat := binary_normalize prec emax z 0 false.

Definition fadd : pyfloat -> pyfloat -> pyfloat := SFadd prec emax.
Definition fsub : pyfloat -> pyfloat -> pyfloat := SFsub prec emax.
Definition fmul : pyfloat -> pyfloat -> pyfloat := SFmul prec emax.
Definition fdiv : pyfloat -> pyfloat -> pyfloat := SFdiv prec emax.
Definition fltb : pyfloat -> pyfloat -> bool := SFltb.
Definition fleb : pyfloat -> pyfloat -> bool := SFleb.
Definition feqb : pyfloat -> pyfloat -> bool := SFeqb.

(** The float nearest to [m * 10 ^ e]. *)
Definition float_of_dec (neg : bool) (m e : Z) : pyfloat :=
  match m with
  | Zpos p =>
      if (0 <=? e)%Z then binary_normalize prec emax ((if neg then -1 else 1) * m * 10 ^ e) 0 neg
      else SFdiv prec emax (S754_finite neg p 0) (S754_finite false (Z.to_pos (10 ^ (- e))) 0)
  | _ => S754_zero neg
  end.

(** [float(i)] for an integer: a magnitude that rounds past the largest float
    raises [OverflowError]. *)
Definition float_of_int (z : Z) : Res pyfloat :=
  match float_of_Z z with
  | S754_infinity _ => Raise OverflowError
  | f => Ok f
  end.

(** ** [float(s)] *)

Definition scan_exponent (s : string) : option Z :=
  match s with
  | EmptyString => Some 0%Z
  | String c s' =>
      if (c =? "e")%char || (c =? "E")%char then
        let '(neg, d) := split_sign s' in
        match scan_digits d false 0 0 with
        | Some (v, n, EmptyString) =>
            if (n =? 0)%nat then None else Some (if neg then - v else v)%Z
        | _ => None
        end
      else None
  end.

Definition scan_decimal (neg : bool) (s : string) : option pyfloat :=
  match scan_digits s false 0 0 with
  | None => None
  | Some (ip, n, rest) =>
      match rest with
      | String "." rest' =>
          match scan_digits rest' false ip 0 with
          | None => None
          | Some (m, k, rest'') =>
              if (n + k =? 0)%nat then None
              else match scan_exponent rest'' with
                   | None => None
                   | Some e => Some (float_of_dec neg m (e - Z.of_nat k))
                   end
          end
      | _ =>
          if (n =? 0)%nat then None
          else match scan_exponent rest with
               | None => None
               | Some e => Some (float_of_dec neg ip e)
               end
      end
  end.

Definition float_of_string (s : string) : option pyfloat :=
  let '(neg, d) := split_sign (strip s) in
  let w := lower d in
  if (w =? "inf")%string || (w =? "infinity")%string then Some (S754_infinity neg)
  else if (w =? "nan")%string then Some S754_nan
  else scan_decimal neg d.

(** [int(f)]: truncation towards zero; a NaN is a [ValueError], an infinity an
    [OverflowError]. *)
Definition int_of_float (f : pyfloat) : Res Z :=
  match f with
  | S754_zero _ => Ok 0%Z
  | S754_nan => Raise (ValueError "cannot convert float NaN to integer")
  | S754_infinity _ => Raise OverflowError
  | S754_finite s m e =>
      let v := if (0 <=? e)%Z then (Zpos m * 2 ^ e)%Z else (Zpos m / 2 ^ (- e))%Z in
      Ok (if s then - v else v)%Z
  end.

Example float_literal : float_of_string " 0.3" = Some (S754_finite false 5404319552844595 (-54)).
Proof. reflexivity. Qed.
Example float_exponent : float_of_string "-1_0.5e2" = Some (float_of_Z (-1050)).
Proof. reflexivity. Qed.
Example float_rejects : float_of_string "1__0" = None /\ float_of_string "." = None.
Proof. split; reflexivity. Qed.
Example int_forms : int_of_string " +1_0 " = Some 10%Z /\ int_of_string "1_" = None /\ int_of_string "" = None.
Proof. repeat split; reflexivity. Qed.

(** ** The order of strings is total *)

Lemma ascii_code_inj x y : ascii_code x = ascii_code y -> x = y.
Proof.
  unfold ascii_code. intros H%N2Z.inj. rewrite <- (ascii_N_embedding x), <- (ascii_N_embedding y).
  by rewrite H.
Qed.

Lemma str_ltb_trans a b c : str_ltb a b = true -> str_ltb b c = true -> str_ltb a c = true.
Proof.
  revert b c. induction a as [|x a IH]; intros [|y b] [|z c]; simpl; try done.
  destruct (Ascii.eqb_spec x y) as [->|Hxy], (Ascii.eqb_spec y z) as [->|Hyz]; try done.
  - apply IH.
  - by destruct (Ascii.eqb_spec x z).
  - intros H1%Z.ltb_lt H2%Z.ltb_lt. destruct (Ascii.eqb_spec x z) as [->|]; [lia|].
    apply Z.ltb_lt. lia.
Qed.

Lemma str_ltb_irrefl a : str_ltb a a = false.
Proof. induction a as [|x a IH]; simpl; [done|]. by rewrite Ascii.eqb_refl. Qed.

Lemma str_ltb_total a b : str_ltb a b = true \/ a = b \/ str_ltb b a = true.
Proof.
  revert b. induction a as [|x a IH]; intros [|y b]; simpl; auto.
  destruct (Ascii.eqb_spec x y) as [->|Hxy].
  - rewrite Ascii.eqb_refl. destruct (IH b) as [?|[->|?]]; auto.
  - rewrite (proj2 (Ascii.eqb_neq y x)) by congruence. rewrite !Z.ltb_lt.
    assert (ascii_code x <> ascii_code y) by (intros ?%ascii_code_inj; done). lia.
Qed.

#[export] Instance str_le_trans : Transitive str_le.
Proof.
  unfold str_le. intros a b c Hab Hbc. destruct (str_ltb c a) eqn:Hca; [|done].
  destruct (str_ltb_total a b) as [H|[->|H]]; try congruence.
  by rewrite (str_ltb_trans c a b) in Hbc.
Qed.

#[export] Instance str_le_total : Total str_le.
Proof.
  unfold str_le. intros a b. destruct (str_ltb b a) eqn:H; [right | by left].
  destruct (str_ltb a b) eqn:H'; [|done]. by rewrite <- (str_ltb_trans a b a H' H), str_ltb_irrefl.
Qed.

Lemma str_le_antisym a b : str_le a b -> str_le b a -> a = b.
Proof. unfold str_le. destruct (str_ltb_total a b) as [?|[?|?]]; congruence. Qed.

(** ** Splitting *)

Lemma split_char_nonnil c s : split_char c s <> [].
Proof.
  destruct s as [|x s]; simpl; [done|]. destruct (_ =? _)%char; [done|]. by destruct (split_char c s).
Qed.

Lemma strip_prefix_app p s : strip_prefix p (p +:+ s) = Some s.
Proof. induction p as [|c p IH]; [done|]. simpl. by rewrite Ascii.eqb_refl. Qed.

Lemma strip_prefix_Some p s r : strip_prefix p s = Some r -> s = p +:+ r.
Proof.
  revert s. induction p as [|c p IH]; intros s; simpl; [by intros [= ->]|].
  destruct s as [|c' s]; [done|]. destruct (Ascii.eqb_spec c c') as [->|]; [|done]. intros Hr. by rewrite (IH s Hr).
Qed.

Lemma elem_of_range_iff a b x : x ∈ range a b <-> (a <= x < b)%Z.
Proof.
  unfold range. rewrite list_elem_of_fmap. setoid_rewrite elem_of_seq. split.
  - intros (i & -> & Hi). lia.
  - intros Hx. exists (Z.to_nat (x - a)). lia.
Qed.

Lemma split_char_none c s : contains_char c s = false -> split_char c s = [s].
Proof.
  induction s as [|x s IH]; simpl; [done|]. destruct (Ascii.eqb_spec c x) as [->|Hne]; simpl; [done|].
  intros Hs. by rewrite IH.
Qed.

(** ** Concatenation, occurrence and splitting *)

Lemma string_app_assoc (a b c : string) : (a +:+ b) +:+ c = a +:+ (b +:+ c).
Proof. induction a as [|x a IH]; [done|]. exact (f_equal (String x) IH). Qed.

Lemma string_cons_app c (a b : string) : String c a +:+ b = String c (a +:+ b).
Proof. done. Qed.

Lemma string_app_nil (s : string) : s +:+ "" = s.
Proof. induction s as [|c s IH]; [done|]. exact (f_equal (String c) IH). Qed.

Lemma string_cons_inj c (a b : string) : String c a = String c b -> a = b.
Proof. congruence. Qed.

Lemma sforall_app p a b : sforall p (a +:+ b) = sforall p a && sforall p b.
Proof.
  induction a as [|c a IH]; [done|]. rewrite string_cons_app. simpl. rewrite IH. by rewrite andb_assoc.
Qed.

Lemma sforall_impl (p q : ascii -> bool) s :
  (forall c, p c = true -> q c = true) -> sforall p s = true -> sforall q s = true.
Proof.
  intros Hpq. induction s as [|c s IH]; simpl; [done|]. intros [Hc Hs]%andb_prop. by rewrite Hpq, IH.
Qed.

Lemma contains_char_app c a b : contains_char c (a +:+ b) = contains_char c a || contains_char c b.
Proof. induction a as [|x a IH]; [done|]. rewrite string_cons_app. simpl. by rewrite IH, orb_assoc. Qed.

(** A character on which [f] fails does not occur in a text on which it holds. *)
Lemma sforall_no_char f c s : sforall f s = true -> f c = false -> contains_char c s = false.
Proof.
  intros Hs Hc. induction s as [|x s IH]; [done|]. simpl in *. apply andb_prop in Hs as [Hx Hs].
  rewrite (IH Hs), orb_false_r. destruct (Ascii.eqb_spec c x) as [->|]; congruence.
Qed.

Lemma partition_char_app c a b :
  contains_char c a = false -> partition_char c (a +:+ String c b) = (a, Some b).
Proof.
  induction a as [|x a IH].
  - intros _. change (partition_char c (String c b) = ("", Some b)). simpl. by rewrite Ascii.eqb_refl.
  - rewrite string_cons_app. simpl. intros [Hx Ha]%orb_false_elim. by rewrite Hx, IH.
Qed.

Lemma partition_char_none c a : contains_char c a = false -> partition_char c a = (a, None).
Proof. induction a as [|x a IH]; [done|]. simpl. intros [Hx Ha]%orb_false_elim. by rewrite Hx, IH. Qed.

Lemma split_char_app c a b :
  contains_char c a = false -> split_char c (a +:+ String c b) = a :: split_char c b.
Proof.
  induction a as [|x a IH].
  - intros _. change (split_char c (String c b) = "" :: split_char c b). simpl. by rewrite Ascii.eqb_refl.
  - rewrite string_cons_app. simpl. intros [Hx Ha]%orb_false_elim. by rewrite Hx, IH.
Qed.

Lemma split_join c l :
  l <> [] -> Forall (fun s => contains_char c s = false) l ->
  split_char c (join (String c EmptyString) l) = l.
Proof.
  intros Hl Hf. induction Hf as [|s l Hs Hf IH]; [done|]. destruct l as [|s' l]; [by apply split_char_none|].
  change (join _ (s :: s' :: l)) with (s +:+ String c (join (String c EmptyString) (s' :: l))).
  rewrite split_char_app by done. by rewrite IH.
Qed.

Lemma smap_app f a b : smap f (a +:+ b) = smap f a +:+ smap f b.
Proof. induction a as [|c a IH]; [done|]. rewrite string_cons_app. simpl. by rewrite IH. Qed.

Lemma strip_nospace s : sforall (fun c => negb (is_space c)) s = true -> strip s = s.
Proof.
  intros Hs. assert (Hr : rstrip s = s).
  { induction s as [|c s IH]; [done|]. simpl in *. apply andb_prop in Hs as [Hc Hs]. rewrite (IH Hs).
    apply negb_true_iff in Hc. destruct s; [by rewrite Hc | done]. }
  unfold strip. rewrite Hr. destruct s as [|c s]; [done|]. simpl in *. by apply andb_prop in Hs as [->%negb_true_iff _].
Qed.
