(* ===== verification/PyValue.v ===== *)
(** * Python values as JSON carries them

    Node configurations, metadata and decision payloads are [dict[str, Any]]
    decoded from JSON.  [pyval] is that universe of values; the functions below
    are the builtins the modelled code applies to it: truth testing, [int],
    [float], [str], [isinstance] tests and comparison with a string. *)

From stdpp Require Import base tactics list strings pretty.
From Stdlib Require Import ZArith Lia Ascii SpecFloat.
From S2P Require Import Prelude PyStr.

Inductive pyval : Type :=
| VNone
| VBool (b : bool)
| VInt (z : Z)
| VFloat (f : pyfloat)
| VStr (s : string)
| VList (l : list pyval)
| VDict (d : list (string * pyval)).

(** A JSON object: keys in insertion order. *)
Abbreviation config := (list (string * pyval)).

Definition dict_get (d : config) (k : string) : pyval := default VNone (dget d k).

(** ** Truth testing and type tests *)

Definition truthy (v : pyval) : bool :=
  match v with
  | VNone => false
  | VBool b => b
  | VInt z => negb (z =? 0)%Z
  | VFloat f => match f with S754_zero _ => false | _ => true end
  | VStr s => negb (is_empty s)
  | VList l => match l with [] => false | _ => true end
  | VDict d => match d with [] => false | _ => true end
  end.

(** [a or b]. *)
Definition py_or (a b : pyval) : pyval := if truthy a then a else b.

Definition is_none (v : pyval) : bool := match v with VNone => true | _ => false end.

(** [v == s] for a string [s]: only a [str] equals a [str]. *)
Definition is_str (v : pyval) (s : string) : bool :=
  match v with VStr s' => (s' =? s)%string | _ => false end.

(** [z == f] for an integer and a float: exact. *)
Definition int_eq_float (z : Z) (f : pyfloat) : bool :=
  match f with
  | S754_zero _ => (z =? 0)%Z
  | S754_finite s m e =>
      let v := if s then Zneg m else Zpos m in
      if (0 <=? e)%Z then (z =? v * 2 ^ e)%Z else (z * 2 ^ (- e) =? v)%Z
  | _ => false
  end.

(** [a == b]: numbers by value, dictionaries regardless of order. *)
Fixpoint py_eq (a b : pyval) : bool :=
  match a, b with
  | VNone, VNone => true
  | VStr s, VStr t => (s =? t)%string
  | VBool x, VBool y => Bool.eqb x y
  | VBool x, VInt z | VInt z, VBool x => (z =? if x then 1 else 0)%Z
  | VBool x, VFloat f | VFloat f, VBool x => int_eq_float (if x then 1 else 0) f
  | VInt x, VInt y => (x =? y)%Z
  | VInt z, VFloat f | VFloat f, VInt z => int_eq_float z f
  | VFloat f, VFloat g => feqb f g
  | VList l, VList k =>
      (fix list_eq (l k : list pyval) :=
         match l, k with
         | [], [] => true
         | x :: l', y :: k' => py_eq x y && list_eq l' k'
         | _, _ => false
         end) l k
  | VDict d, VDict e =>
      (length d =? length e)%nat
      && (fix dict_eq (d : list (string * pyval)) :=
            match d with
            | [] => true
            | (k, x) :: d' => match dget e k with Some y => py_eq x y | None => false end && dict_eq d'
            end) d
  | _, _ => false
  end.

Definition as_dict (v : pyval) : option config :=
  match v with VDict d => Some d | _ => None end.

Definition isinstance_str (v : pyval) : bool := match v with VStr _ => true | _ => false end.

(** ** [int(v)] and [float(v)] *)

Definition py_int (v : pyval) : Res Z :=
  match v with
  | VBool b => Ok (if b then 1 else 0)%Z
  | VInt z => Ok z
  | VFloat f => int_of_float f
  | VStr s =>
      match int_of_string s with
      | Some z => Ok z
      | None => Raise (ValueError "invalid literal for int() with base 10")
      end
  | _ => Raise TypeError
  end.

Definition py_float (v : pyval) : Res pyfloat :=
  match v with
  | VBool b => Ok (float_of_Z (if b then 1 else 0))
  | VInt z => float_of_int z
  | VFloat f => Ok f
  | VStr s =>
      match float_of_string s with
      | Some f => Ok f
      | None => Raise (ValueError "could not convert string to float")
      end
  | _ => Raise TypeError
  end.

(** ** [repr(f)] for a float

    The shortest decimal that reads back as the same float, the closer one when
    two of that length do, in positional notation when the decimal point falls
    within the first 16 digits (and at most four places before them). *)

(** Least [k] with [num < den * 10^k] starting the search at [k]. *)
Fixpoint decpt_up (fuel : nat) (num den : Z) (k : Z) : Z :=
  match fuel with
  | O => k
  | S fuel' => if (num <? den * 10 ^ k)%Z then k else decpt_up fuel' num den (k + 1)
  end.

(** Largest non-positive [k] with [den <= num * 10^(1-k)], that is
    [10^(k-1) <= num/den], searching down from [k]. *)
Fixpoint decpt_down (fuel : nat) (num den : Z) (k : Z) : Z :=
  match fuel with
  | O => k
  | S fuel' => if (den <=? num * 10 ^ (1 - k))%Z then k else decpt_down fuel' num den (k - 1)
  end.

Definition decimal_point (num den : Z) : Z :=
  if (den <=? num)%Z then decpt_up 400 num den 1 else decpt_down 400 num den 0.

(** The [n]-digit candidates below and above [num/den] (scaled by [10^s]), and
    the one [repr] keeps if any reads back as [f]. *)
Definition repr_candidate (f : pyfloat) (num den : Z) (s : Z) : option Z :=
  let num' := if (0 <=? s)%Z then (num * 10 ^ s)%Z else num in
  let den' := if (0 <=? s)%Z then den else (den * 10 ^ (- s))%Z in
  let lo := (num' / den')%Z in
  let hi := (lo + 1)%Z in
  let ok c := feqb (float_of_dec false c (- s)) f in
  let lo_closer := (2 * (num' - lo * den') <=? den')%Z in
  if ok lo && (lo_closer || negb (ok hi)) then Some lo
  else if ok hi then Some hi else None.

Fixpoint repr_search (fuel : nat) (f : pyfloat) (num den k n : Z) : Z * Z :=
  match fuel with
  | O => (0, 0)%Z
  | S fuel' =>
      match repr_candidate f num den (n - k) with
      | Some c => (c, n - k)%Z
      | None => repr_search fuel' f num den k (n + 1)
      end
  end.

(** Decimal digits of [c * 10^(-s)], trailing zeros dropped. *)
Fixpoint drop_zeros (fuel : nat) (c s : Z) : Z * Z :=
  match fuel with
  | O => (c, s)
  | S fuel' => if (c mod 10 =? 0)%Z && negb (c =? 0)%Z then drop_zeros fuel' (c / 10) (s - 1) else (c, s)
  end.

Definition zeros (n : Z) : string := String.concat "" (replicate (Z.to_nat n) "0"%string).

Definition format_digits (c s : Z) : string :=
  let digits := str_of_Z c in
  let n := Z.of_nat (String.length digits) in
  let decpt := (n - s)%Z in
  if ((-4 <? decpt) && (decpt <=? 16))%Z then
    if (decpt <=? 0)%Z then "0." +:+ zeros (- decpt) +:+ digits
    else if (n <=? decpt)%Z then digits +:+ zeros (decpt - n) +:+ ".0"
    else stake (Z.to_nat decpt) digits +:+ "." +:+ String.substring (Z.to_nat decpt) (Z.to_nat (n - decpt)) digits
  else
    let e := (decpt - 1)%Z in
    let ea := str_of_Z (Z.abs e) in
    stake 1 digits
      +:+ (if (n =? 1)%Z then "" else "." +:+ String.substring 1 (Z.to_nat (n - 1)) digits)
      +:+ "e" +:+ (if (e <? 0)%Z then "-" else "+")
      +:+ (if (String.length ea =? 1)%nat then "0" +:+ ea else ea).

Definition float_repr (f : pyfloat) : string :=
  match f with
  | S754_zero s => if s then "-0.0" else "0.0"
  | S754_nan => "nan"
  | S754_infinity s => if s then "-inf" else "inf"
  | S754_finite s m e =>
      let num := if (0 <=? e)%Z then (Zpos m * 2 ^ e)%Z else Zpos m in
      let den := if (0 <=? e)%Z then 1%Z else (2 ^ (- e))%Z in
      let '(c, sc) := repr_search 20 (S754_finite false m e) num den (decimal_point num den) 1 in
      let '(c', sc') := drop_zeros 400 c sc in
      (if s then "-" else "") +:+ format_digits c' sc'
  end.

(** ** [str(v)] *)

Definition hex_digit (n : Z) : ascii :=
  if (n <? 10)%Z then ascii_of_N (Z.to_N (48 + n)) else ascii_of_N (Z.to_N (87 + n)).

Definition escape_char (quote c : ascii) : string :=
  let n := ascii_code c in
  let esc c' := String "\" (String c' EmptyString) in
  if (c =? "\")%char || (c =? quote)%char then esc c
  else if (n =? 10)%Z then esc "n"%char
  else if (n =? 13)%Z then esc "r"%char
  else if (n =? 9)%Z then esc "t"%char
  else if (n <? 32)%Z || (n =? 127)%Z then
    String "\" (String "x" (String (hex_digit (n / 16)) (String (hex_digit (n mod 16)) EmptyString)))
  else String c EmptyString.

Fixpoint escape (quote : ascii) (s : string) : string :=
  match s with
  | EmptyString => EmptyString
  | String c s' => escape_char quote c +:+ escape quote s'
  end.

Definition dquote : ascii := ascii_of_N 34.
Definition squote : ascii := ascii_of_N 39.

Definition str_repr (s : string) : string :=
  let q := if contains_char squote s && negb (contains_char dquote s) then dquote else squote in
  String q (escape q s +:+ String q EmptyString).

Fixpoint py_repr (v : pyval) : string :=
  match v with
  | VNone => "None"
  | VBool b => if b then "True" else "False"
  | VInt z => str_of_Z z
  | VFloat f => float_repr f
  | VStr s => str_repr s
  | VList l => "[" +:+ join ", " (map py_repr l) +:+ "]"
  | VDict d => "{" +:+ join ", " (map (fun '(k, x) => str_repr k +:+ ": " +:+ py_repr x) d) +:+ "}"
  end.

Definition py_str (v : pyval) : string :=
  match v with VStr s => s | _ => py_repr v end.

Example repr_tenth : float_repr (float_of_dec false 1 (-1)) = "0.1"%string.
Proof. vm_compute. reflexivity. Qed.
Example repr_hundred : float_repr (float_of_Z 100) = "100.0"%string.
Proof. vm_compute. reflexivity. Qed.
Example repr_small : float_repr (float_of_dec true 25 (-7)) = "-2.5e-06"%string.
Proof. vm_compute. reflexivity. Qed.
Example repr_third : float_repr (fdiv (float_of_Z 1) (float_of_Z 3)) = "0.3333333333333333"%string.
Proof. vm_compute. reflexivity. Qed.
Example repr_big : float_repr (float_of_dec false 1 22) = "1e+22"%string.
Proof. vm_compute. reflexivity. Qed.
Example str_nested :
  py_str (VList [VStr "a'b"; VInt 3; VBool true; VDict [("k"%string, VNone)]])
  = ("[" +:+ String dquote ("a'b" +:+ String dquote ", 3, True, {'k': None}]"))%string.
Proof. vm_compute. reflexivity. Qed.
Example eq_dicts :
  py_eq (VDict [("a"%string, VInt 1); ("b"%string, VBool true)]) (VDict [("b"%string, VInt 1); ("a"%string, VFloat (float_of_Z 1))]) = true.
Proof. reflexivity. Qed.
