(* ===== verification/PyJson.v ===== *)
(** * [json.dumps]

    The encodings the code stores and hashes: the default one for task fields,
    and the compact one with sorted keys whose digest identifies a payload.
    Text is ASCII, as in [PyStr]. *)

From stdpp Require Import base tactics list strings sorting pretty.
From Stdlib Require Import ZArith Lia Ascii SpecFloat.
From S2P Require Import Prelude PyStr PyValue.

(** [ensure_ascii], [separators] and [sort_keys]. *)
Record json_format := {
  ensure_ascii : bool;
  item_separator : string;
  key_separator : string;
  sort_keys : bool }.

Definition json_default : json_format :=
  {| ensure_ascii := true; item_separator := ", "; key_separator := ": "; sort_keys := false |}.

Definition json_compact : json_format :=
  {| ensure_ascii := true; item_separator := ","; key_separator := ":"; sort_keys := true |}.

Definition json_compact_text : json_format :=
  {| ensure_ascii := false; item_separator := ","; key_separator := ":"; sort_keys := true |}.

Definition json_escape (ascii_only : bool) (c : ascii) : string :=
  let n := ascii_code c in
  let esc c' := String "\" (String c' EmptyString) in
  if (c =? dquote)%char || (c =? "\")%char then esc c
  else if (n =? 8)%Z then esc "b"%char
  else if (n =? 9)%Z then esc "t"%char
  else if (n =? 10)%Z then esc "n"%char
  else if (n =? 12)%Z then esc "f"%char
  else if (n =? 13)%Z then esc "r"%char
  else if (n <? 32)%Z || (ascii_only && (126 <? n)%Z) then
    "\u00" +:+ String (hex_digit (n / 16)) (String (hex_digit (n mod 16)) EmptyString)
  else String c EmptyString.

Fixpoint json_chars (ascii_only : bool) (s : string) : string :=
  match s with
  | EmptyString => EmptyString
  | String c s' => json_escape ascii_only c +:+ json_chars ascii_only s'
  end.

Definition json_str (ascii_only : bool) (s : string) : string :=
  String dquote (json_chars ascii_only s +:+ String dquote EmptyString).

Definition json_float (f : pyfloat) : string :=
  match f with
  | S754_nan => "NaN"
  | S754_infinity s => if s then "-Infinity" else "Infinity"
  | _ => float_repr f
  end.

(** Order of the items of a dictionary: by key. *)
Definition key_le {A} (p q : string * A) : Prop := str_le p.1 q.1.

#[export] Instance key_le_dec {A} : RelDecision (@key_le A).
Proof. intros p q. unfold key_le. apply _. Defined.

#[export] Instance key_le_trans {A} : Transitive (@key_le A).
Proof. intros p q r. apply str_le_trans. Qed.

#[export] Instance key_le_total {A} : Total (@key_le A).
Proof. intros p q. apply str_le_total. Qed.

Definition sorted_items {A} (d : list (string * A)) : list (string * A) := merge_sort key_le d.

Fixpoint json_dumps (f : json_format) (v : pyval) : string :=
  match v with
  | VNone => "null"
  | VBool b => if b then "true" else "false"
  | VInt z => str_of_Z z
  | VFloat x => json_float x
  | VStr s => json_str (ensure_ascii f) s
  | VList l => "[" +:+ join (item_separator f) (map (json_dumps f) l) +:+ "]"
  | VDict d =>
      let items := map (fun '(k, x) => (k, json_str (ensure_ascii f) k +:+ key_separator f +:+ json_dumps f x)) d in
      "{" +:+ join (item_separator f) (map snd (if sort_keys f then sorted_items items else items)) +:+ "}"
  end.

(** A Redis payload: a dictionary of strings. *)
Abbreviation payload := (list (string * string)).

Definition payload_value (p : payload) : pyval := VDict (map (fun kv => (kv.1, VStr kv.2)) p).

Example dumps_default :
  json_dumps json_default (VDict [("b", VInt 2); ("a", VList [VStr "x"; VNone])])
  = ("{" +:+ json_str true "b" +:+ ": 2, " +:+ json_str true "a" +:+ ": [" +:+ json_str true "x" +:+ ", null]}")%string.
Proof. vm_compute. reflexivity. Qed.

Example dumps_sorted :
  json_dumps json_compact (VDict [("b", VInt 2); ("a", VInt 1)])
  = ("{" +:+ json_str true "a" +:+ ":1," +:+ json_str true "b" +:+ ":2}")%string.
Proof. vm_compute. reflexivity. Qed.

(** ** The encoding of payloads is injective *)

(** Reads one encoded character back. *)
Definition json_unescape (s : string) : option (ascii * string) :=
  match s with
  | String c s' =>
      if (c =? dquote)%char then None
      else if (c =? "\")%char then
        match s' with
        | String "u" (String "0" (String "0" (String h (String l r)))) =>
            let digit x := if is_digit x then digit_val x else (ascii_code x - 87)%Z in
            Some (ascii_of_N (Z.to_N (16 * digit h + digit l)), r)
        | String x r =>
            Some ((if (x =? "b")%char then ascii_of_N 8 else if (x =? "t")%char then ascii_of_N 9
                   else if (x =? "n")%char then ascii_of_N 10 else if (x =? "f")%char then ascii_of_N 12
                   else if (x =? "r")%char then ascii_of_N 13 else x), r)
        | EmptyString => None
        end
      else Some (c, s')
  | EmptyString => None
  end.

Lemma json_unescape_escape b c r : json_unescape (json_escape b c +:+ r) = Some (c, r).
Proof. by destruct b, c as [[] [] [] [] [] [] [] []]. Qed.

Lemma json_chars_inj b s s' r r' :
  json_chars b s +:+ String dquote r = json_chars b s' +:+ String dquote r' -> s = s' /\ r = r'.
Proof.
  revert s'. induction s as [|c s IH]; intros [|c' s']; simpl; rewrite ?string_app_assoc; intros Heq.
  - by simplify_eq.
  - apply (f_equal json_unescape) in Heq. by rewrite json_unescape_escape in Heq.
  - apply (f_equal json_unescape) in Heq. by rewrite json_unescape_escape in Heq.
  - apply (f_equal json_unescape) in Heq. rewrite !json_unescape_escape in Heq. simplify_eq.
    by destruct (IH s') as [-> ->].
Qed.

Lemma json_str_inj b s s' r r' : json_str b s +:+ r = json_str b s' +:+ r' -> s = s' /\ r = r'.
Proof.
  unfold json_str. rewrite !string_cons_app, !string_app_assoc. intros [=Heq].
  by apply (json_chars_inj b s s' r r').
Qed.

Definition payload_item (kv : string * string) : string := json_str true kv.1 +:+ ":" +:+ json_str true kv.2.

Lemma payload_item_inj p q r r' : payload_item p +:+ r = payload_item q +:+ r' -> p = q /\ r = r'.
Proof.
  unfold payload_item. rewrite !string_app_assoc. intros [Hk Heq]%json_str_inj.
  apply string_cons_inj, json_str_inj in Heq as [Hv ->]. destruct p, q. simpl in *. by subst.
Qed.

(** A nonempty list of items, then the closing brace. *)
Lemma payload_items_inj p q :
  join "," (map payload_item p) +:+ "}" = join "," (map payload_item q) +:+ "}" -> p = q.
Proof.
  revert q. induction p as [|a p IH]; intros [|b q]; simpl; intros Heq; try done.
  - exfalso. destruct q; simpl in Heq; unfold payload_item, json_str in Heq; simpl in Heq; discriminate.
  - exfalso. destruct p; simpl in Heq; unfold payload_item, json_str in Heq; simpl in Heq; discriminate.
  - destruct p as [|a' p], q as [|b' q]; simpl in Heq; rewrite ?string_app_assoc in Heq;
      apply payload_item_inj in Heq as [-> Heq]; simpl in Heq; simplify_eq; [done|].
    f_equal. by apply IH.
Qed.

(** Sorting commutes with a map that keeps the order. *)
Section SortMap.
Context {A B} (R : relation A) (S : relation B) `{!RelDecision R, !RelDecision S} (f : A -> B).
Context (Hf : forall a b, R a b <-> S (f a) (f b)).

Lemma list_merge_map l1 l2 : list_merge S (map f l1) (map f l2) = map f (list_merge R l1 l2).
Proof.
  revert l2. induction l1 as [|a l1 IH1]; [by intros []|].
  induction l2 as [|b l2 IH2]; [done|]. simpl.
  destruct (decide (S (f a) (f b))) as [H|H], (decide (R a b)) as [H'|H'];
    try (rewrite <- Hf in H; contradiction); simpl; f_equal.
  - apply (IH1 (b :: l2)).
  - apply IH2.
Qed.

Lemma merge_stack_map st l :
  merge_list_to_stack S (map (fmap (map f)) st) (map f l) = map (fmap (map f)) (merge_list_to_stack R st l).
Proof.
  revert l. induction st as [|[l'|] st IH]; intros l; simpl; [done| |done].
  by rewrite list_merge_map, IH.
Qed.

Lemma merge_sort_map l : merge_sort S (map f l) = map f (merge_sort R l).
Proof.
  unfold merge_sort. change (@nil (option (list B))) with (map (fmap (map f)) (@nil (option (list A)))).
  generalize (@nil (option (list A))) as st. induction l as [|a l IH]; intros st; simpl.
  - induction st as [|[l'|] st IH]; simpl; [done| |done]. by rewrite IH, list_merge_map.
  - change [f a] with (map f [a]). by rewrite merge_stack_map, IH.
Qed.
End SortMap.

Lemma dumps_payload p :
  json_dumps json_compact (payload_value p) = "{" +:+ join "," (map payload_item (sorted_items p)) +:+ "}".
Proof.
  unfold json_dumps, payload_value. rewrite map_map. simpl sort_keys. cbv iota.
  unfold sorted_items. rewrite (merge_sort_map key_le key_le) by done. by rewrite map_map.
Qed.

(** Equal encodings are the same dictionary. *)
Lemma dumps_payload_inj p q :
  json_dumps json_compact (payload_value p) = json_dumps json_compact (payload_value q) -> p ≡ₚ q.
Proof.
  rewrite !dumps_payload. intros Heq%string_cons_inj%payload_items_inj.
  rewrite <- (merge_sort_Permutation key_le p), <- (merge_sort_Permutation key_le q).
  by unfold sorted_items in Heq; rewrite Heq.
Qed.

(** ** Injectivity for every value

    [json] is the encoded tree: numbers and constants are tokens, dictionaries
    are sorted.  Two values have the same compact encoding exactly when they have
    the same tree. *)

Inductive json : Type :=
| JToken (s : string)
| JString (s : string)
| JArray (l : list json)
| JObject (d : list (string * json)).

Fixpoint json_tree (v : pyval) : json :=
  match v with
  | VNone => JToken "null"
  | VBool b => JToken (if b then "true" else "false")
  | VInt z => JToken (str_of_Z z)
  | VFloat f => JToken (json_float f)
  | VStr s => JString s
  | VList l => JArray (map json_tree l)
  | VDict d => JObject (sorted_items (map (fun '(k, x) => (k, json_tree x)) d))
  end.

Section Print.
Context (ascii_only : bool).

Fixpoint json_print (t : json) : string :=
  match t with
  | JToken s => s
  | JString s => json_str ascii_only s
  | JArray l => "[" +:+ join "," (map json_print l) +:+ "]"
  | JObject d => "{" +:+ join "," (map (fun '(k, x) => json_str ascii_only k +:+ ":" +:+ json_print x) d) +:+ "}"
  end.
End Print.

(** Induction through the nested lists. *)
Section PyvalInd.
Context (P : pyval -> Prop) (Hnone : P VNone) (Hbool : forall b, P (VBool b)) (Hint : forall z, P (VInt z))
  (Hfloat : forall f, P (VFloat f)) (Hstr : forall s, P (VStr s))
  (Hlist : forall l, Forall P l -> P (VList l)) (Hdict : forall d, Forall (fun kv => P kv.2) d -> P (VDict d)).

Fixpoint pyval_nested_ind (v : pyval) : P v :=
  match v with
  | VNone => Hnone
  | VBool b => Hbool b
  | VInt z => Hint z
  | VFloat f => Hfloat f
  | VStr s => Hstr s
  | VList l => Hlist l ((fix go l := match l return Forall P l with
                                     | [] => Forall_nil_2 _
                                     | x :: l' => Forall_cons_2 _ _ _ (pyval_nested_ind x) (go l')
                                     end) l)
  | VDict d => Hdict d ((fix go d := match d return Forall (fun kv => P kv.2) d with
                                     | [] => Forall_nil_2 _
                                     | x :: d' => Forall_cons_2 _ _ _ (pyval_nested_ind x.2) (go d')
                                     end) d)
  end.
End PyvalInd.

Lemma dumps_print b v :
  json_dumps {| ensure_ascii := b; item_separator := ","; key_separator := ":"; sort_keys := true |} v
  = json_print b (json_tree v).
Proof.
  induction v as [| | | | |l IH|d IH] using pyval_nested_ind; try done; cbn [json_dumps json_tree json_print];
    cbn [item_separator key_separator sort_keys ensure_ascii].
  - do 3 f_equal. rewrite map_map. by apply map_ext_Forall.
  - do 3 f_equal. set (F := fun kv : string * json => (kv.1, json_str b kv.1 +:+ ":" +:+ json_print b kv.2)).
    assert (Hitems : map (fun '(k, x) => (k, json_str b k +:+ ":" +:+ json_dumps
              {| ensure_ascii := b; item_separator := ","; key_separator := ":"; sort_keys := true |} x)) d
            = map F (map (fun '(k, x) => (k, json_tree x)) d)).
    { rewrite map_map. apply map_ext_Forall. eapply Forall_impl; [exact IH|]. intros [k x] Hx. simpl in *.
      unfold F. simpl. by rewrite Hx. }
    rewrite Hitems. unfold sorted_items. rewrite (merge_sort_map key_le key_le F) by done. rewrite map_map.
    apply map_ext. by intros [k x].
Qed.

(** Token characters: no delimiter and no opening character. *)
Definition token_char (c : ascii) : bool :=
  negb (contains_char c (String dquote ",[]{}:")).

Definition token (s : string) : bool := negb (is_empty s) && sforall token_char s.

Lemma sforall_stake p n s : sforall p s = true -> sforall p (stake n s) = true.
Proof.
  revert n. induction s as [|c s IH]; intros [|n]; simpl; try done. intros [-> Hs]%andb_prop. by apply IH.
Qed.

Lemma sforall_substring p i n s : sforall p s = true -> sforall p (String.substring i n s) = true.
Proof.
  revert i n. induction s as [|c s IH]; intros [|i] [|n]; simpl; try done; intros [Hc Hs]%andb_prop;
    try by apply IH. by rewrite Hc, IH.
Qed.

Lemma sforall_zeros p n : p "0"%char = true -> sforall p (zeros n) = true.
Proof.
  intros Hp. unfold zeros. induction (Z.to_nat n) as [|[|k] IH]; simpl; [done | by rewrite Hp |].
  rewrite Hp. exact IH.
Qed.

Lemma digits_of_N x s : sforall is_digit s = true -> sforall is_digit (pretty_N_go x s) = true.
Proof.
  revert s. induction (N.lt_wf_0 x) as [x _ IH]; intros s Hs. destruct (decide (0 < x)%N) as [Hx|Hx].
  - rewrite pretty_N_go_step by done. apply IH; [by apply N.div_lt|]. simpl. rewrite Hs, andb_true_r.
    unfold pretty_N_char. pose proof (N.mod_lt x 10 ltac:(done)) as Hm.
    destruct (x mod 10)%N as [|p]; [done|]. do 4 (destruct p as [p|p|]; try done).
  - assert (x = 0)%N as -> by lia. by rewrite pretty_N_go_0.
Qed.

Lemma digits_nonempty x s : is_empty s = false -> is_empty (pretty_N_go x s) = false.
Proof.
  revert s. induction (N.lt_wf_0 x) as [x _ IH]; intros s Hs. destruct (decide (0 < x)%N) as [Hx|Hx].
  - rewrite pretty_N_go_step by done. apply IH; [by apply N.div_lt | done].
  - assert (x = 0)%N as -> by lia. by rewrite pretty_N_go_0.
Qed.

Lemma token_of_N x : sforall is_digit (pretty x) = true /\ is_empty (pretty (x : N)) = false.
Proof.
  unfold pretty, pretty_N. case_decide as Hx; [done|]. split; [by apply digits_of_N|].
  rewrite pretty_N_go_step by lia. by apply digits_nonempty.
Qed.

Lemma digit_token c : is_digit c = true -> token_char c = true.
Proof. by destruct c as [[] [] [] [] [] [] [] []]. Qed.

Definition int_char (c : ascii) : bool := is_digit c || (c =? "-")%char.

Lemma str_of_Z_chars z : is_empty (str_of_Z z) = false /\ sforall int_char (str_of_Z z) = true.
Proof.
  assert (Hc : forall c, is_digit c = true -> int_char c = true) by (intros c Hd; unfold int_char; by rewrite Hd).
  unfold str_of_Z. destruct z as [|p|p]; [done| |].
  - change (pretty (Z.pos p)) with (pretty (N.pos p)). destruct (token_of_N (N.pos p)) as [Hd He].
    split; [exact He | exact (sforall_impl _ _ _ Hc Hd)].
  - change (pretty (Z.neg p)) with (String "-" (pretty (N.pos p))).
    destruct (token_of_N (N.pos p)) as [Hd _]. split; [done|]. exact (sforall_impl _ _ _ Hc Hd).
Qed.

Lemma str_of_Z_inj a b : str_of_Z a = str_of_Z b -> a = b.
Proof. apply (inj pretty). Qed.

Lemma str_of_Z_not_null z : str_of_Z z <> "null".
Proof. intros Hz. pose proof (str_of_Z_chars z) as [_ Hc]. by rewrite Hz in Hc. Qed.

Lemma token_str_of_Z z : token (str_of_Z z) = true.
Proof.
  destruct (str_of_Z_chars z) as [He Hc]. unfold token. rewrite He. simpl.
  eapply sforall_impl; [|exact Hc]. intros c [Hd | ->%Ascii.eqb_eq]%orb_prop; [by apply digit_token | done].
Qed.

Lemma is_empty_app a b : is_empty (a +:+ b) = is_empty a && is_empty b.
Proof. by destruct a. Qed.

Lemma token_format_digits c s : token (format_digits c s) = true.
Proof.
  pose proof (token_str_of_Z c) as Hc. apply andb_prop in Hc as [Hne%negb_true_iff Hd].
  pose proof (token_str_of_Z (Z.abs (Z.of_nat (String.length (str_of_Z c)) - s - 1))) as He.
  apply andb_prop in He as [_ He].
  unfold format_digits, token. repeat case_match;
    repeat rewrite ?sforall_app, ?is_empty_app, ?sforall_zeros, ?sforall_stake, ?sforall_substring, ?Hd, ?Hne, ?He
      by done; cbn [is_empty andb]; by rewrite ?andb_false_r.
Qed.

Lemma token_json_float f : token (json_float f) = true.
Proof.
  destruct f as [[]|[]| |s m e]; [reflexivity..|]. cbv beta iota zeta delta [json_float float_repr].
  destruct (repr_search _ _ _ _ _ _) as [c sc]. destruct (drop_zeros _ _ _) as [c' sc'].
  pose proof (token_format_digits c' sc') as Ht. destruct s; [|exact Ht].
  apply andb_prop in Ht as [_ Ht]. unfold token. by rewrite sforall_app, Ht.
Qed.

(** A tree whose tokens are tokens. *)
Fixpoint json_wf (t : json) : Prop :=
  match t with
  | JToken s => token s = true
  | JString _ => True
  | JArray l => Forall id (map json_wf l)
  | JObject d => Forall id (map (fun '(_, x) => json_wf x) d)
  end.

Section JsonInd.
Context (P : json -> Prop) (Htok : forall s, P (JToken s)) (Hstr : forall s, P (JString s))
  (Harr : forall l, Forall P l -> P (JArray l)) (Hobj : forall d, Forall (fun kv => P kv.2) d -> P (JObject d)).

Fixpoint json_nested_ind (t : json) : P t :=
  match t with
  | JToken s => Htok s
  | JString s => Hstr s
  | JArray l => Harr l ((fix go l := match l return Forall P l with
                                     | [] => Forall_nil_2 _
                                     | x :: l' => Forall_cons_2 _ _ _ (json_nested_ind x) (go l')
                                     end) l)
  | JObject d => Hobj d ((fix go d := match d return Forall (fun kv => P kv.2) d with
                                      | [] => Forall_nil_2 _
                                      | x :: d' => Forall_cons_2 _ _ _ (json_nested_ind x.2) (go d')
                                      end) d)
  end.
End JsonInd.

Lemma json_tree_wf v : json_wf (json_tree v).
Proof.
  induction v as [|b|z|f| |l IH|d IH] using pyval_nested_ind; cbn [json_tree json_wf]; try done.
  - by destruct b.
  - apply token_str_of_Z.
  - apply token_json_float.
  - rewrite map_map. apply Forall_map. exact IH.
  - apply Forall_map. unfold sorted_items. rewrite merge_sort_Permutation. apply Forall_map.
    eapply Forall_impl; [exact IH|]. by intros [k x].
Qed.

Lemma json_wf_array l : json_wf (JArray l) -> Forall json_wf l.
Proof. cbn [json_wf]. by rewrite Forall_map. Qed.

Lemma json_wf_object d : json_wf (JObject d) -> Forall (fun kv => json_wf kv.2) d.
Proof. cbn [json_wf]. rewrite Forall_map. intros H. eapply Forall_impl; [exact H|]. by intros [k x]. Qed.

(** What follows a printed value: nothing, or a delimiter. *)
Definition stops (r : string) : bool :=
  match r with EmptyString => true | String c _ => negb (token_char c) end.

Lemma token_inj s s' r r' :
  sforall token_char s = true -> sforall token_char s' = true -> stops r = true -> stops r' = true ->
  s +:+ r = s' +:+ r' -> s = s' /\ r = r'.
Proof.
  revert s'. induction s as [|c s IH]; intros [|c' s'] Hs Hs' Hr Hr' Heq.
  - done.
  - change (r = String c' (s' +:+ r')) in Heq. subst r. simpl in *. by destruct (token_char c').
  - change (String c (s +:+ r) = r') in Heq. subst r'. simpl in *. by destruct (token_char c).
  - rewrite !string_cons_app in Heq. injection Heq as -> Heq. simpl in *.
    apply andb_prop in Hs as [_ Hs], Hs' as [_ Hs']. by destruct (IH s') as [-> ->].
Qed.

(** Comma-separated items up to the closing character: injective when each item
    is, and no item starts with that character. *)
Section Items.
Context {A} (pr : A -> string) (good : A -> Prop) (close : ascii) (Hc : token_char close = false) (Hcc : close <> ","%char).
Context (Hstart : forall x r r', good x -> pr x +:+ r <> String close r').

Lemma items_inj l l' r r' :
  Forall (fun x => good x /\ forall y s s', good y -> stops s = true -> stops s' = true ->
                   pr x +:+ s = pr y +:+ s' -> x = y /\ s = s') l ->
  Forall good l' ->
  join "," (map pr l) +:+ String close r = join "," (map pr l') +:+ String close r' -> l = l' /\ r = r'.
Proof.
  assert (Hst : forall x, stops (String close x) = true) by (intros; simpl; by rewrite Hc).
  revert l'. induction l as [|a l IH]; intros l' Hl Hl' Heq.
  - destruct l' as [|b l']; [by injection Heq|]. exfalso. apply Forall_cons in Hl' as [Hb _].
    destruct l' as [|b' l']; simpl in Heq; rewrite ?string_app_assoc in Heq; symmetry in Heq; by eapply Hstart.
  - apply Forall_cons in Hl as [[Ha Hinj] Hl]. destruct l' as [|b l'].
    { exfalso. destruct l as [|a' l]; simpl in Heq; rewrite ?string_app_assoc in Heq; by eapply Hstart. }
    apply Forall_cons in Hl' as [Hb Hl'].
    destruct l as [|a' l], l' as [|b' l']; simpl in Heq; rewrite ?string_app_assoc in Heq;
      apply Hinj in Heq as [-> Heq]; try done; rewrite ?string_cons_app in Heq; injection Heq; try done.
    intros Heq'. destruct (IH (b' :: l') Hl Hl' Heq') as [Hll ->]. by rewrite Hll.
Qed.
End Items.

Lemma json_print_start b t r close r' :
  close = "]"%char \/ close = "}"%char -> json_wf t -> json_print b t +:+ r <> String close r'.
Proof.
  intros Hclose Hwf Heq. destruct t as [[|c s]| | |]; cbn [json_print json_wf] in *; [done| | | |];
    rewrite ?string_cons_app in Heq; injection Heq as Hc _.
  - subst c. apply andb_prop in Hwf as [_ Hwf]. simpl in Hwf. by destruct Hclose as [-> | ->].
  - by destruct Hclose as [-> | ->].
  - by destruct Hclose as [-> | ->].
  - by destruct Hclose as [-> | ->].
Qed.

Definition first_char (s : string) : option ascii := match s with String c _ => Some c | EmptyString => None end.

(** The printed text determines the tree. *)
Lemma json_print_inj b t t' r r' :
  json_wf t -> json_wf t' -> stops r = true -> stops r' = true ->
  json_print b t +:+ r = json_print b t' +:+ r' -> t = t' /\ r = r'.
Proof.
  revert t' r r'. induction t as [s|s|l IH|d IH] using json_nested_ind; intros t' r r' Hwf Hwf' Hr Hr' Heq;
    pose proof (f_equal first_char Heq) as Hf;
    destruct t' as [s'|s'|l'|d']; cbn [json_print] in *; try done;
    repeat match goal with H : json_wf (JToken ?s) |- _ => destruct s; [done|]; apply andb_prop in H as [_ H] end;
    try (rewrite ?string_cons_app in Hf; injection Hf as Hf; subst; done).
  - by destruct (token_inj _ _ _ _ Hwf Hwf' Hr Hr' Heq) as [-> ->].
  - by apply json_str_inj in Heq as [-> ->].
  - rewrite !string_app_assoc in Heq. apply string_cons_inj in Heq.
    apply json_wf_array in Hwf, Hwf'.
    eapply (items_inj (json_print b) json_wf) in Heq as [-> ->]; try done.
    + intros. apply json_print_start; auto.
    + rewrite Forall_forall in IH, Hwf |- *. intros x Hx. split; [by apply Hwf|]. eauto.
  - rewrite !string_app_assoc in Heq. apply string_cons_inj in Heq.
    apply json_wf_object in Hwf, Hwf'.
    eapply (items_inj (fun '(k, x) => json_str b k +:+ ":" +:+ json_print b x) (fun kv => json_wf kv.2)) in Heq
      as [-> ->]; try done.
    + intros [k x] s s' _. unfold json_str. by rewrite string_cons_app.
    + rewrite Forall_forall in IH, Hwf |- *. intros [k x] Hx. split; [by apply (Hwf (k, x))|].
      intros [k' y] s s' Hy Hs Hs'. rewrite !string_app_assoc. intros [Hk Hxy%string_cons_inj]%json_str_inj.
      destruct (IH (k, x) Hx y s s' (Hwf (k, x) Hx) Hy Hs Hs' Hxy) as [Hv ->]. simpl in Hv. by subst.
Qed.

(** Equal compact encodings are equal trees. *)
Lemma sorted_dumps_inj b v w :
  let fmt := {| ensure_ascii := b; item_separator := ","; key_separator := ":"; sort_keys := true |} in
  json_dumps fmt v = json_dumps fmt w -> json_tree v = json_tree w.
Proof.
  intros fmt. unfold fmt. rewrite !dumps_print. intros Heq.
  destruct (json_print_inj b (json_tree v) (json_tree w) EmptyString EmptyString) as [? _];
    try done; [apply json_tree_wf | apply json_tree_wf | by rewrite Heq].
Qed.

Lemma dumps_inj v w :
  json_dumps json_compact_text v = json_dumps json_compact_text w -> json_tree v = json_tree w.
Proof. exact (sorted_dumps_inj false v w). Qed.
