(* ===== verification/PyTime.v ===== *)
(** * [datetime.fromisoformat] and [datetime.isoformat]

    Workers print the start time of a claim and the orchestrator reads it back.
    An instant is a number of microseconds since 1970 in UTC; a parsed value also
    says whether it carried a UTC offset.  The parser is that of Python 3.12,
    with its treatment of basic and week dates and of what follows the time. *)

From stdpp Require Import base tactics list strings.
From Stdlib Require Import ZArith Lia Ascii.
From S2P Require Import Prelude PyStr.

#[local] Open Scope Z_scope.

(** ** The proleptic Gregorian calendar *)

Definition is_leap (y : Z) : bool :=
  (y mod 4 =? 0) && (negb (y mod 100 =? 0) || (y mod 400 =? 0)).

Definition days_before_year (y : Z) : Z := (y - 1) * 365 + (y - 1) / 4 - (y - 1) / 100 + (y - 1) / 400.

(** Month lengths of a common or leap year. *)
Definition month_length (leap : bool) (m : Z) : Z :=
  if m =? 2 then (if leap then 29 else 28)
  else if (m =? 4) || (m =? 6) || (m =? 9) || (m =? 11) then 30 else 31.

Definition month_start (leap : bool) (m : Z) : Z :=
  nth (Z.to_nat (m - 1)) [0; 31; 59; 90; 120; 151; 181; 212; 243; 273; 304; 334] 0
  + (if (2 <? m) && leap then 1 else 0).

Definition days_in_month (y m : Z) : Z := month_length (is_leap y) m.

Definition ymd_to_ord (y m d : Z) : Z := days_before_year y + month_start (is_leap y) m + d.

(** The month and day of the [n]-th day (from 0) of a year: an estimate that may
    be one month too far. *)
Definition month_of_day (leap : bool) (n : Z) : Z * Z :=
  let month := (n + 50) / 32 in
  let preceding := month_start leap month in
  if n <? preceding then (month - 1, n - (preceding - month_length leap (month - 1)) + 1)
  else (month, n - preceding + 1).

Definition ord_to_ymd (ordinal : Z) : Z * Z * Z :=
  let n := ordinal - 1 in
  let n400 := n / 146097 in
  let n := n mod 146097 in
  let n100 := n / 36524 in
  let n := n mod 36524 in
  let n4 := n / 1461 in
  let n := n mod 1461 in
  let n1 := n / 365 in
  let n := n mod 365 in
  let y := n400 * 400 + 1 + n100 * 100 + n4 * 4 + n1 in
  if (n1 =? 4) || (n100 =? 4) then (y - 1, 12, 31)
  else let '(m, d) := month_of_day (is_leap y) n in (y, m, d).

(** Monday is 0. *)
Definition weekday (y m d : Z) : Z := (ymd_to_ord y m d + 6) mod 7.

Definition iso_week1_monday (y : Z) : Z :=
  let first_day := ymd_to_ord y 1 1 in
  let first_weekday := (first_day + 6) mod 7 in
  let week1_monday := first_day - first_weekday in
  if 3 <? first_weekday then week1_monday + 7 else week1_monday.

Definition iso_to_ymd (y week day : Z) : option (Z * Z * Z) :=
  if negb (between 1 9999 y) then None
  else if negb (between 1 52 week)
          && negb ((week =? 53)
                   && (let first := weekday y 1 1 in (first =? 3) || ((first =? 2) && is_leap y))) then None
  else if negb (between 1 7 day) then None
  else Some (ord_to_ymd (iso_week1_monday y + (week - 1) * 7 + (day - 1))).

(** ** Parsing *)

Fixpoint parse_digits (n : nat) (acc : Z) (s : string) : option (Z * string) :=
  match n with
  | O => Some (acc, s)
  | S n' =>
      match s with
      | String c s' => if is_digit c then parse_digits n' (acc * 10 + digit_val c) s' else None
      | EmptyString => None
      end
  end.

(** The character at an offset; NUL past the end. *)
Fixpoint char_at (n : nat) (s : string) : ascii :=
  match s, n with
  | EmptyString, _ => zero
  | String c _, O => c
  | String _ s', S n' => char_at n' s'
  end.

Fixpoint sdrop (n : nat) (s : string) : string :=
  match n, s with
  | O, _ => s
  | S n', String _ s' => sdrop n' s'
  | S _, EmptyString => EmptyString
  end.

Fixpoint digit_run (s : string) : nat :=
  match s with
  | String c s' => if is_digit c then S (digit_run s') else 0%nat
  | EmptyString => 0%nat
  end.

Definition find_separator (s : string) : option nat :=
  let len := String.length s in
  if (len =? 7)%nat then Some 7%nat
  else if (char_at 4 s =? "-")%char then
    if (char_at 5 s =? "W")%char then
      if (char_at 8 s =? "-")%char then
        if (len =? 9)%nat then None
        else if is_digit (char_at 10 s) then Some 8%nat else Some 10%nat
      else Some 8%nat
    else Some 10%nat
  else if (char_at 4 s =? "W")%char then
    let pos := (7 + digit_run (sdrop 7 s))%nat in
    if (pos <? 9)%nat then Some pos else if Nat.even pos then Some 7%nat else Some 8%nat
  else Some 8%nat.

Definition drop_char (c : ascii) (s : string) : option string :=
  match s with String c' s' => if (c' =? c)%char then Some s' else None | EmptyString => None end.

(** [len] is the length of the date part of [s]. *)
Definition parse_date (len : nat) (s : string) : option (Z * Z * Z) :=
  match parse_digits 4 0 s with
  | None => None
  | Some (y, s1) =>
      let '(sep, s2) := match drop_char "-" s1 with Some r => (true, r) | None => (false, s1) end in
      match drop_char "W" s2 with
      | Some s3 =>
          match parse_digits 2 0 s3 with
          | None => None
          | Some (week, s4) =>
              if (String.length s - String.length s4 <? len)%nat then
                match (if sep then drop_char "-" s4 else Some s4) with
                | None => None
                | Some s5 =>
                    match parse_digits 1 0 s5 with
                    | Some (day, _) => iso_to_ymd y week day
                    | None => None
                    end
                end
              else iso_to_ymd y week 1
          end
      | None =>
          match parse_digits 2 0 s2 with
          | None => None
          | Some (m, s3) =>
              match (if sep then drop_char "-" s3 else Some s3) with
              | None => None
              | Some s4 => match parse_digits 2 0 s4 with Some (d, _) => Some (y, m, d) | None => None end
              end
          end
      end
  end.

Record clock := { hour : Z; minute : Z; second : Z; microsecond : Z }.

(** The decimals of a second; digits after the sixth are dropped. *)
Definition parse_fraction (s : string) : option (Z * bool) :=
  let to_parse := Nat.min 6 (String.length s) in
  match parse_digits to_parse 0 s with
  | None => None
  | Some (v, r) => Some (v * 10 ^ (6 - Z.of_nat to_parse), negb (is_empty (sdrop (digit_run r) r)))
  end.

(** [HH[:MM[:SS[.ffffff]]]], with or without colons; the boolean tells whether
    something follows. *)
Definition parse_clock (s : string) : option (clock * bool) :=
  match parse_digits 2 0 s with
  | None => None
  | Some (h, EmptyString) => Some ({| hour := h; minute := 0; second := 0; microsecond := 0 |}, false)
  | Some (h, String c EmptyString) => Some ({| hour := h; minute := 0; second := 0; microsecond := 0 |}, true)
  | Some (h, String c r) =>
      let colon := (c =? ":")%char in
      if negb colon && ((c =? ".")%char || (c =? ",")%char) then None
      else
        match parse_digits 2 0 (if colon then r else String c r) with
        | None => None
        | Some (m, EmptyString) => Some ({| hour := h; minute := m; second := 0; microsecond := 0 |}, false)
        | Some (m, String c EmptyString) => Some ({| hour := h; minute := m; second := 0; microsecond := 0 |}, true)
        | Some (m, String c r) =>
            if colon && negb (c =? ":")%char then None
            else if negb colon && ((c =? ".")%char || (c =? ",")%char) then None
            else
              match parse_digits 2 0 (if colon then r else String c r) with
              | None => None
              | Some (sec, EmptyString) =>
                  Some ({| hour := h; minute := m; second := sec; microsecond := 0 |}, false)
              | Some (sec, String c EmptyString) =>
                  Some ({| hour := h; minute := m; second := sec; microsecond := 0 |}, true)
              | Some (sec, String c r) =>
                  let mark := (c =? ".")%char || (c =? ",")%char in
                  if colon && negb mark then None
                  else
                    match parse_fraction (if mark then r else String c r) with
                    | None => None
                    | Some (us, more) =>
                        Some ({| hour := h; minute := m; second := sec; microsecond := us |}, more)
                    end
              end
        end
  end.

(** The time before its offset, and the offset with its sign character. *)
Fixpoint split_offset (s : string) : string * string :=
  match s with
  | EmptyString => (EmptyString, EmptyString)
  | String c s' =>
      if (c =? "+")%char || (c =? "-")%char || (c =? "Z")%char then (EmptyString, s)
      else let '(a, b) := split_offset s' in (String c a, b)
  end.

Definition clock_us (k : clock) : Z := ((hour k * 60 + minute k) * 60 + second k) * 1000000 + microsecond k.

(** The clock and the offset in microseconds, if any. *)
Definition parse_time (s : string) : option (clock * option Z) :=
  let '(t, tz) := split_offset s in
  match parse_clock t with
  | None => None
  | Some (k, more) =>
      match tz with
      | EmptyString => if more then None else Some (k, None)
      | String sign r =>
          if (sign =? "Z")%char then match r with EmptyString => Some (k, Some 0) | _ => None end
          else
            match parse_clock r with
            | Some (o, false) => Some (k, Some (if (sign =? "-")%char then - clock_us o else clock_us o))
            | _ => None
            end
      end
  end.

Definition EPOCH_ORDINAL : Z := 719163.
Definition DAY_US : Z := 86400000000.

(** The fields in range, as an instant; an offset is less than a day. *)
Definition make_datetime (date : Z * Z * Z) (k : clock) (offset : option Z) : option (Z * bool) :=
  let '(y, m, d) := date in
  if between 1 9999 y && between 1 12 m && between 1 (days_in_month y m) d
     && between 0 23 (hour k) && between 0 59 (minute k) && between 0 59 (second k)
     && match offset with Some o => (Z.abs o <? DAY_US) | None => true end
  then Some ((ymd_to_ord y m d - EPOCH_ORDINAL) * DAY_US + clock_us k - default 0 offset,
             match offset with Some _ => true | None => false end)
  else None.

(** [None] is the [ValueError]; the boolean tells whether the value is aware. *)
Definition fromisoformat (s : string) : option (Z * bool) :=
  if (String.length s <? 7)%nat then None
  else
    match find_separator s with
    | None => None
    | Some sep =>
        match parse_date sep s with
        | None => None
        | Some date =>
            if (1 <? Z.of_nat (String.length s) - Z.of_nat sep) then
              match parse_time (sdrop (sep + 1) s) with
              | None => None
              | Some (k, offset) => make_datetime date k offset
              end
            else make_datetime date {| hour := 0; minute := 0; second := 0; microsecond := 0 |} None
        end
    end.

(** ** Printing *)

Definition digit_char (d : Z) : ascii := ascii_of_N (Z.to_N (48 + d)).

Fixpoint pad (width : nat) (z : Z) (rest : string) : string :=
  match width with
  | O => rest
  | S w => pad w (z / 10) (String (digit_char (z mod 10)) rest)
  end.

(** [isoformat()] of an instant in UTC. *)
Definition isoformat_utc (t : Z) : string :=
  let '(y, m, d) := ord_to_ymd (t / DAY_US + EPOCH_ORDINAL) in
  let us := t mod DAY_US in
  pad 4 y (String "-" (pad 2 m (String "-" (pad 2 d (String "T"
    (pad 2 (us / 3600000000) (String ":" (pad 2 (us / 60000000 mod 60) (String ":"
      (pad 2 (us / 1000000 mod 60)
        ((if us mod 1000000 =? 0 then EmptyString else String "." (pad 6 (us mod 1000000) EmptyString))
         +:+ "+00:00"))))))))))).

(** [strftime] for ["%Y-%m-%d-%H-%M"] and ["%Y-%m-%d-%H"], for years of four digits. *)
Definition MINUTE_US : Z := 60000000.

Definition strftime_date (t : Z) (rest : string) : string :=
  let '(y, m, d) := ord_to_ymd (t / DAY_US + EPOCH_ORDINAL) in
  pad 4 y (String "-" (pad 2 m (String "-" (pad 2 d (String "-" rest))))).

Definition strftime_hours (t : Z) : string := strftime_date t (pad 2 (t mod DAY_US / 3600000000) EmptyString).

Definition strftime_minutes (t : Z) : string :=
  strftime_date t (pad 2 (t mod DAY_US / 3600000000) (String "-" (pad 2 (t mod DAY_US / 60000000 mod 60) EmptyString))).

Example strftime_print :
  strftime_hours 1717243260000001 = "2024-06-01-12" /\ strftime_minutes 1717243260000001 = "2024-06-01-12-01".
Proof. vm_compute. split; reflexivity. Qed.

Example iso_print : isoformat_utc 1717243200000001 = "2024-06-01T12:00:00.000001+00:00".
Proof. vm_compute. reflexivity. Qed.
Example iso_offset : fromisoformat "2024-06-01T14:00:00.000001+02:00" = Some (1717243200000001, true).
Proof. vm_compute. reflexivity. Qed.
Example iso_zulu : fromisoformat "20240601T120000Z" = Some (1717243200000000, true).
Proof. vm_compute. reflexivity. Qed.
Example iso_week : fromisoformat "2024-W22-6 12:00" = Some (1717243200000000, false).
Proof. vm_compute. reflexivity. Qed.
Example iso_date : fromisoformat "2024-06-01" = Some (1717200000000000, false).
Proof. vm_compute. reflexivity. Qed.
Example iso_invalid :
  fromisoformat "2024-02-30" = None /\ fromisoformat "2024-06-01T25:00" = None
  /\ fromisoformat "2024-06-01T12:00:00+24:00" = None /\ fromisoformat "now" = None.
Proof. vm_compute. repeat split; reflexivity. Qed.

(** ** Round trip *)

Definition month_of_day_ok (leap : bool) (n : Z) : bool :=
  let '(m, d) := month_of_day leap n in
  between 1 12 m && between 1 (month_length leap m) d && (month_start leap m + d =? n + 1).

Lemma month_of_day_checked :
  forallb (month_of_day_ok false) (range 0 365) && forallb (month_of_day_ok true) (range 0 366) = true.
Proof. vm_compute. reflexivity. Qed.

Lemma elem_of_range a b x : a <= x < b -> x ∈ range a b.
Proof.
  intros Hx. unfold range. apply list_elem_of_In. apply List.in_map_iff. exists (Z.to_nat (x - a)).
  split; [lia|]. apply List.in_seq. lia.
Qed.

Lemma month_of_day_spec (leap : bool) n :
  0 <= n < (if leap then 366 else 365) -> month_of_day_ok leap n = true.
Proof.
  intros Hn. pose proof month_of_day_checked as [H1 H2]%andb_prop. rewrite List.forallb_forall in H1, H2.
  destruct leap; [apply H2 | apply H1]; apply list_elem_of_In, elem_of_range; lia.
Qed.

(** The year split into its 400-, 100-, 4- and 1-year parts. *)
Lemma year_parts a b c e :
  0 <= b <= 3 -> 0 <= c <= 24 -> 0 <= e <= 3 ->
  let y := a * 400 + 1 + b * 100 + c * 4 + e in
  days_before_year y = 146097 * a + 36524 * b + 1461 * c + 365 * e
  /\ is_leap y = (e =? 3) && (negb (c =? 24) || (b =? 3)).
Proof.
  intros Hb Hc He y. unfold days_before_year, is_leap, y. split.
  - rewrite <- (Z.div_unique (a * 400 + 1 + b * 100 + c * 4 + e - 1) 4 (100 * a + 25 * b + c) e) by lia.
    rewrite <- (Z.div_unique (a * 400 + 1 + b * 100 + c * 4 + e - 1) 100 (4 * a + b) (4 * c + e)) by lia.
    rewrite <- (Z.div_unique (a * 400 + 1 + b * 100 + c * 4 + e - 1) 400 a (100 * b + 4 * c + e)) by lia.
    lia.
  - destruct (Z.eqb_spec e 3) as [->|], (Z.eqb_spec c 24) as [->|], (Z.eqb_spec b 3) as [->|]; simpl;
      repeat match goal with |- context [?x =? 0] => destruct (Z.eqb_spec x 0) end;
      simpl; try done; exfalso; Z.to_euclidean_division_equations; lia.
Qed.

Lemma ord_to_ymd_spec n y m d :
  ord_to_ymd n = (y, m, d) -> 1 <= m <= 12 /\ 1 <= d <= days_in_month y m /\ ymd_to_ord y m d = n.
Proof.
  unfold ord_to_ymd. set (N := n - 1).
  pose proof (Z.div_mod N 146097 ltac:(lia)). pose proof (Z.mod_pos_bound N 146097 ltac:(lia)).
  set (r := N mod 146097) in *. set (a := N / 146097) in *.
  pose proof (Z.div_mod r 36524 ltac:(lia)). pose proof (Z.mod_pos_bound r 36524 ltac:(lia)).
  set (s := r mod 36524) in *. set (b := r / 36524) in *.
  pose proof (Z.div_mod s 1461 ltac:(lia)). pose proof (Z.mod_pos_bound s 1461 ltac:(lia)).
  set (t := s mod 1461) in *. set (c := s / 1461) in *.
  pose proof (Z.div_mod t 365 ltac:(lia)). pose proof (Z.mod_pos_bound t 365 ltac:(lia)).
  set (u := t mod 365) in *. set (e := t / 365) in *.
  assert (Hb : 0 <= b <= 4) by lia. assert (Hc : 0 <= c <= 24) by lia. assert (He : 0 <= e <= 4) by lia.
  unfold days_in_month, ymd_to_ord.
  destruct ((e =? 4) || (b =? 4)) eqn:Hlast; [apply orb_prop in Hlast|apply orb_false_elim in Hlast as [?%Z.eqb_neq ?%Z.eqb_neq]].
  - intros [= <- <- <-].
    assert (Hp : exists b' c' e', 0 <= b' <= 3 /\ 0 <= c' <= 24 /\ e' = 3 /\ (c' = 24 -> b' = 3)
              /\ a * 400 + 1 + b * 100 + c * 4 + e - 1 = a * 400 + 1 + b' * 100 + c' * 4 + e'
              /\ N = 146097 * a + 36524 * b' + 1461 * c' + 365 * e' + 365).
    { destruct (Z.eq_dec b 4); [exists 3, 24, 3 | exists b, c, 3]; repeat split; lia. }
    destruct Hp as (b' & c' & e' & Hb' & Hc' & -> & Hcb & -> & HN).
    destruct (year_parts a b' c' 3) as [-> ->]; [lia..|].
    replace (negb (c' =? 24) || (b' =? 3)) with true; [vm_compute month_length; vm_compute month_start; lia|].
    destruct (Z.eqb_spec c' 24); [|done]. rewrite Hcb by done. done.
  - destruct (year_parts a b c e) as [Hy Hleap]; [lia..|].
    destruct (month_of_day (is_leap _) u) as [m' d'] eqn:Hm. intros [= <- <- <-].
    assert (Hok : month_of_day_ok (is_leap (a * 400 + 1 + b * 100 + c * 4 + e)) u = true).
    { apply month_of_day_spec. destruct (is_leap _); lia. }
    unfold month_of_day_ok in Hok. rewrite Hm in Hok. unfold between in Hok. lia.
Qed.

(** Instants Python can represent. *)
Definition representable (t : Z) : Prop := 1 <= t / DAY_US + EPOCH_ORDINAL <= 3652059.

Lemma month_end_bound leap m d : 1 <= m <= 12 -> 1 <= d <= month_length leap m -> 1 <= month_start leap m + d <= 366.
Proof.
  intros Hm Hd.
  assert (Hcase : m = 1 \/ m = 2 \/ m = 3 \/ m = 4 \/ m = 5 \/ m = 6 \/ m = 7 \/ m = 8 \/ m = 9 \/ m = 10 \/ m = 11 \/ m = 12)
    by lia.
  destruct leap; repeat destruct Hcase as [->|Hcase]; subst; unfold month_length, month_start in *; simpl in *; lia.
Qed.

Lemma year_bound n y m d : ord_to_ymd n = (y, m, d) -> 1 <= n <= 3652059 -> 1 <= y <= 9999.
Proof.
  intros Ho Hn. apply ord_to_ymd_spec in Ho as (Hm & Hd & Ho).
  pose proof (month_end_bound _ _ _ Hm Hd). unfold ymd_to_ord, days_before_year in Ho.
  Z.to_euclidean_division_equations. lia.
Qed.

Lemma days_in_month_bound y m : 28 <= days_in_month y m <= 31.
Proof. unfold days_in_month, month_length. repeat case_match; lia. Qed.

Lemma digit_char_ok d : 0 <= d < 10 -> is_digit (digit_char d) = true /\ digit_val (digit_char d) = d.
Proof.
  intros Hd. assert (Hc : d = 0 \/ d = 1 \/ d = 2 \/ d = 3 \/ d = 4 \/ d = 5 \/ d = 6 \/ d = 7 \/ d = 8 \/ d = 9) by lia.
  repeat destruct Hc as [->|Hc]; subst; by vm_compute.
Qed.

Lemma digit_not (d : Z) (c : ascii) : 0 <= d < 10 -> is_digit c = false -> (digit_char d =? c)%char = false.
Proof.
  intros Hd Hc. apply Ascii.eqb_neq. intros <-. by rewrite (proj1 (digit_char_ok d Hd)) in Hc.
Qed.

Lemma parse_pad w k z acc rest :
  0 <= z < 10 ^ Z.of_nat w ->
  parse_digits (w + k) acc (pad w z rest) = parse_digits k (acc * 10 ^ Z.of_nat w + z) rest.
Proof.
  revert k z acc rest. induction w as [|w IH]; intros k z acc rest Hz; simpl pad.
  - simpl. f_equal. lia.
  - rewrite Nat2Z.inj_succ, Z.pow_succ_r in Hz |- * by lia.
    replace (S w + k)%nat with (w + S k)%nat by lia.
    rewrite IH by (Z.to_euclidean_division_equations; lia).
    pose proof (Z.mod_pos_bound z 10 ltac:(lia)) as Hm. cbn [parse_digits].
    destruct (digit_char_ok (z mod 10) Hm) as [-> ->]. f_equal.
    pose proof (Z.div_mod z 10 ltac:(lia)). lia.
Qed.

Lemma parse_pad_all w z rest :
  0 <= z < 10 ^ Z.of_nat w -> parse_digits w 0 (pad w z rest) = Some (z, rest).
Proof. intros Hz. pose proof (parse_pad w 0 z 0 rest Hz) as H. by rewrite Nat.add_0_r in H. Qed.

Lemma length_pad w z rest : String.length (pad w z rest) = (w + String.length rest)%nat.
Proof.
  revert z rest. induction w as [|w IH]; intros z rest; simpl; [done|]. rewrite IH. simpl. lia.
Qed.

Lemma split_offset_pad w z rest :
  split_offset (pad w z rest) = (pad w z (split_offset rest).1, (split_offset rest).2).
Proof.
  revert z rest. induction w as [|w IH]; intros z rest; cbn [pad]; [by destruct (split_offset rest)|].
  rewrite IH. cbn [split_offset]. pose proof (Z.mod_pos_bound z 10 ltac:(lia)) as Hm.
  rewrite !digit_not by (done || lia). simpl. by destruct (split_offset rest).
Qed.

Lemma split_offset_colon r : split_offset (String ":" r) = (String ":" (split_offset r).1, (split_offset r).2).
Proof. cbn [split_offset]. simpl. by destruct (split_offset r). Qed.

Lemma split_offset_dot r : split_offset (String "." r) = (String "." (split_offset r).1, (split_offset r).2).
Proof. cbn [split_offset]. simpl. by destruct (split_offset r). Qed.

#[local] Arguments pad : simpl never.

Ltac pad_length := repeat (rewrite length_pad; simpl String.length).

(** Two printed digits and what follows. *)
Lemma pad_two z r : pad 2 z r = String (digit_char (z / 10 mod 10)) (String (digit_char (z mod 10)) r).
Proof. done. Qed.

Lemma parse_clock_iso h m s us :
  0 <= h < 100 -> 0 <= m < 100 -> 0 <= s < 100 -> 0 <= us < 1000000 ->
  parse_clock (pad 2 h (String ":" (pad 2 m (String ":" (pad 2 s
    (if us =? 0 then EmptyString else String "." (pad 6 us EmptyString)))))))
  = Some ({| hour := h; minute := m; second := s; microsecond := us |}, false).
Proof.
  intros Hh Hm Hs Hus. unfold parse_clock. rewrite parse_pad_all by done.
  rewrite (pad_two m). cbv iota. change (":" =? ":")%char with true. cbn [negb andb]. cbv iota.
  rewrite <- (pad_two m), parse_pad_all by done.
  rewrite (pad_two s). cbv iota. change (":" =? ":")%char with true. cbn [negb andb]. cbv iota.
  rewrite <- (pad_two s), parse_pad_all by done.
  destruct (Z.eqb_spec us 0) as [->|Hne]; [done|].
  destruct (pad 6 us EmptyString) as [|c r] eqn:Hp; [done|]. rewrite <- Hp. simpl orb. cbn [negb andb]. cbv iota.
  unfold parse_fraction. rewrite length_pad, parse_pad_all by done. simpl. do 3 f_equal. lia.
Qed.

Lemma parse_time_iso h m s us :
  0 <= h < 100 -> 0 <= m < 100 -> 0 <= s < 100 -> 0 <= us < 1000000 ->
  parse_time (pad 2 h (String ":" (pad 2 m (String ":" (pad 2 s
    ((if us =? 0 then EmptyString else String "." (pad 6 us EmptyString)) +:+ "+00:00"))))))
  = Some ({| hour := h; minute := m; second := s; microsecond := us |}, Some 0).
Proof.
  intros Hh Hm Hs Hus. unfold parse_time.
  rewrite split_offset_pad, split_offset_colon, split_offset_pad, split_offset_colon, split_offset_pad.
  assert (Hsp : split_offset ((if us =? 0 then EmptyString else String "." (pad 6 us EmptyString)) +:+ "+00:00")
                = (if us =? 0 then EmptyString else String "." (pad 6 us EmptyString), "+00:00")).
  { destruct (us =? 0); [done|]. transitivity (split_offset (String "." (pad 6 us "+00:00"))); [done|].
    by rewrite split_offset_dot, split_offset_pad. }
  rewrite Hsp. simpl fst. simpl snd. by rewrite parse_clock_iso.
Qed.

Lemma parse_iso_date y m d rest :
  1 <= y <= 9999 -> 0 <= m < 100 -> 0 <= d < 100 ->
  let s := pad 4 y (String "-" (pad 2 m (String "-" (pad 2 d (String "T" rest))))) in
  find_separator s = Some 10%nat /\ parse_date 10 s = Some (y, m, d) /\ sdrop 11 s = rest
  /\ String.length s = (11 + String.length rest)%nat.
Proof.
  intros Hy Hm Hd s. assert (Hlen : String.length s = (11 + String.length rest)%nat) by (unfold s; pad_length; lia).
  split; [|split; [|split; [done|exact Hlen]]].
  - unfold find_separator. rewrite Hlen.
    replace (11 + String.length rest =? 7)%nat with false by (symmetry; apply Nat.eqb_neq; lia).
    change (char_at 4 s) with "-"%char. change (char_at 5 s) with (digit_char (m / 10 mod 10)).
    by rewrite (digit_not _ "W") by (done || (apply Z.mod_pos_bound; lia)).
  - unfold parse_date, s. rewrite parse_pad_all by lia. simpl drop_char. cbv iota beta.
    rewrite (pad_two m). cbn [drop_char]. rewrite (digit_not _ "W") by (done || (apply Z.mod_pos_bound; lia)).
    rewrite <- (pad_two m), parse_pad_all by done. simpl drop_char. cbv iota. by rewrite parse_pad_all.
Qed.

Lemma clock_fields us :
  0 <= us < 86400000000 ->
  ((us / 3600000000 * 60 + us / 60000000 mod 60) * 60 + us / 1000000 mod 60) * 1000000 + us mod 1000000 = us.
Proof.
  intros Hus. rewrite (Z.mod_eq (us / 60000000)), (Z.mod_eq (us / 1000000)), (Z.mod_eq us) by lia.
  rewrite !Z.div_div by lia. change (60000000 * 60) with 3600000000. change (1000000 * 60) with 60000000. lia.
Qed.

(** Printing an instant in UTC and reading it back gives the instant. *)
Lemma fromisoformat_isoformat t : representable t -> fromisoformat (isoformat_utc t) = Some (t, true).
Proof.
  intros Ht. unfold isoformat_utc. destruct (ord_to_ymd (t / DAY_US + EPOCH_ORDINAL)) as [[y m] d] eqn:Ho.
  pose proof (year_bound _ _ _ _ Ho Ht) as Hy. apply ord_to_ymd_spec in Ho as (Hm & Hd & Ho).
  assert (Hd31 : d <= 31).
  { unfold days_in_month, month_length in Hd. repeat case_match; lia. }
  unfold fromisoformat.
  match goal with |- context [sdrop _ (pad 4 y (String _ (pad 2 m (String _ (pad 2 d (String _ ?r))))))] =>
    destruct (parse_iso_date y m d r) as (Hsep & Hdate & Hrest & Hlen); [lia..|] end.
  rewrite Hlen, Hsep, Hdate. change (10 + 1)%nat with 11%nat. rewrite Hrest.
  pose proof (Z.mod_pos_bound t DAY_US ltac:(done)) as Hus. set (us := t mod DAY_US) in *. unfold DAY_US in Hus.
  rewrite parse_time_iso by (Z.to_euclidean_division_equations; lia).
  rewrite (proj2 (Nat.ltb_ge _ 7)) by lia. pad_length. rewrite (proj2 (Z.ltb_lt 1 _)) by lia.
  unfold make_datetime, between, clock_us. cbn [hour minute second microsecond default].
  pose proof (Z.div_mod t DAY_US ltac:(done)) as Hdm. fold us in Hdm. unfold DAY_US in Hdm.
  match goal with |- (if ?b then _ else _) = _ => replace b with true end.
  - f_equal. f_equal. rewrite Ho, clock_fields by done. unfold default, DAY_US in *. simpl. lia.
  - symmetry. rewrite !andb_true_iff, !Z.leb_le, Z.ltb_lt. unfold DAY_US in *.
    Z.to_euclidean_division_equations. lia.
Qed.

(** ** Buckets *)

Lemma pad_inj w z z' r r' :
  0 <= z < 10 ^ Z.of_nat w -> 0 <= z' < 10 ^ Z.of_nat w -> pad w z r = pad w z' r' -> z = z' /\ r = r'.
Proof.
  intros Hz Hz' Heq. pose proof (parse_pad_all w z r Hz) as H1. pose proof (parse_pad_all w z' r' Hz') as H2.
  rewrite Heq, H2 in H1. by injection H1.
Qed.

Lemma string_tail_inj c (s s' : string) : String c s = String c s' -> s = s'.
Proof. by intros [= ->]. Qed.

Lemma strftime_date_inj t t' r r' :
  representable t -> representable t' -> strftime_date t r = strftime_date t' r' -> t / DAY_US = t' / DAY_US /\ r = r'.
Proof.
  unfold representable, strftime_date. intros Ht Ht'.
  destruct (ord_to_ymd (t / DAY_US + _)) as [[y m] d] eqn:Ho.
  destruct (ord_to_ymd (t' / DAY_US + _)) as [[y' m'] d'] eqn:Ho'.
  pose proof (year_bound _ _ _ _ Ho Ht). pose proof (year_bound _ _ _ _ Ho' Ht').
  apply ord_to_ymd_spec in Ho as (Hm & Hd & Ho). apply ord_to_ymd_spec in Ho' as (Hm' & Hd' & Ho').
  pose proof (days_in_month_bound y m). pose proof (days_in_month_bound y' m').
  intros [-> [-> [-> ->%string_tail_inj]%string_tail_inj%pad_inj]%string_tail_inj%pad_inj]%pad_inj;
    [|simpl; lia..]. split; [lia|done].
Qed.

Lemma strftime_hours_inj t t' :
  representable t -> representable t' -> strftime_hours t = strftime_hours t' ->
  t / DAY_US = t' / DAY_US /\ t mod DAY_US / 3600000000 = t' mod DAY_US / 3600000000.
Proof.
  intros Ht Ht' [Hday Hr]%strftime_date_inj; [|done..]. split; [done|].
  apply pad_inj in Hr as [? _]; [done|..]; simpl; unfold DAY_US; Z.to_euclidean_division_equations; lia.
Qed.

Lemma strftime_minutes_inj t t' :
  representable t -> representable t' -> strftime_minutes t = strftime_minutes t' -> t / MINUTE_US = t' / MINUTE_US.
Proof.
  intros Ht Ht' [Hday Hr]%strftime_date_inj; [|done..].
  apply pad_inj in Hr as [Hh [Hm _]%string_tail_inj%pad_inj];
    [|simpl; unfold DAY_US; Z.to_euclidean_division_equations; lia..].
  unfold DAY_US, MINUTE_US in *. Z.to_euclidean_division_equations; lia.
Qed.

Lemma strftime_lengths t t' : strftime_hours t <> strftime_minutes t'.
Proof.
  unfold strftime_hours, strftime_minutes, strftime_date. destruct (ord_to_ymd _) as [[y m] d].
  destruct (ord_to_ymd _) as [[y' m'] d']. intros Heq%(f_equal String.length). revert Heq.
  rewrite !length_pad. cbn [String.length]. rewrite !length_pad. cbn [String.length]. rewrite !length_pad.
  cbn [String.length]. rewrite !length_pad. cbn [String.length]. rewrite !length_pad. simpl. lia.
Qed.
