(* ===== verification/PyUuid.v ===== *)
(** * [uuid.UUID(value)]

    The digits may be dashed, braced or prefixed; the integer they denote is read
    as [int(hex, 16)] reads it.  A UUID is the string that prints it. *)

From stdpp Require Import base tactics list strings.
From Stdlib Require Import ZArith Lia Ascii.
From S2P Require Import Prelude PyStr PyValue.

Open Scope string_scope.
Open Scope list_scope.

Definition hex_value (c : ascii) : option Z :=
  let n := ascii_code c in
  if between 48 57 n then Some (n - 48)%Z
  else if between 97 102 n then Some (n - 87)%Z
  else if between 65 70 n then Some (n - 55)%Z
  else None.

(** [after_digit] tells whether an underscore may follow. *)
Fixpoint scan_hex (s : string) (after_digit : bool) (acc : Z) : option Z :=
  match s with
  | EmptyString => if after_digit then Some acc else None
  | String c s' =>
      if (c =? "_")%char then
        if after_digit then match s' with EmptyString => None | _ => scan_hex s' false acc end else None
      else match hex_value c with
           | Some d => scan_hex s' true (acc * 16 + d)
           | None => None
           end
  end.

Definition int_base16 (s : string) : option Z :=
  let s := strip s in
  let '(neg, s) := match s with
                   | String c s' => if (c =? "-")%char then (true, s') else if (c =? "+")%char then (false, s') else (false, s)
                   | EmptyString => (false, s)
                   end in
  let v := match s with
           | String "0" (String x rest) =>
               if (x =? "x")%char || (x =? "X")%char then
                 match rest with String "_" r => scan_hex r false 0 | _ => scan_hex rest false 0 end
               else scan_hex s false 0
           | _ => scan_hex s false 0
           end in
  match v with Some z => Some (if neg then - z else z)%Z | None => None end.

(** [s.replace(old, '')]; [skip] counts the characters of an occurrence still to drop. *)
Fixpoint remove_sub (old : string) (skip : nat) (s : string) : string :=
  match s with
  | EmptyString => EmptyString
  | String c s' =>
      match skip with
      | S k => remove_sub old k s'
      | O => match strip_prefix old s with
             | Some _ => remove_sub old (String.length old - 1) s'
             | None => String c (remove_sub old 0 s')
             end
      end
  end.

Fixpoint lstrip_chars (cs s : string) : string :=
  match s with
  | EmptyString => EmptyString
  | String c s' => if contains_char c cs then lstrip_chars cs s' else s
  end.

Fixpoint rstrip_chars (cs s : string) : string :=
  match s with
  | EmptyString => EmptyString
  | String c s' =>
      match rstrip_chars cs s' with
      | EmptyString => if contains_char c cs then EmptyString else String c EmptyString
      | r => String c r
      end
  end.

Fixpoint hex_digits (width : nat) (z : Z) (acc : string) : string :=
  match width with
  | O => acc
  | S w => hex_digits w (z / 16) (String (hex_digit (z mod 16)) acc)
  end.

Definition uuid_str (z : Z) : string :=
  let h := hex_digits 32 z EmptyString in
  String.substring 0 8 h +:+ "-" +:+ String.substring 8 4 h +:+ "-" +:+ String.substring 12 4 h
    +:+ "-" +:+ String.substring 16 4 h +:+ "-" +:+ String.substring 20 12 h.

Definition uuid_of_string (s : string) : Res string :=
  let hex := remove_sub "uuid:" 0 (remove_sub "urn:" 0 s) in
  let hex := sfilter (fun c => negb (c =? "-")%char) (rstrip_chars "{}" (lstrip_chars "{}" hex)) in
  if negb (String.length hex =? 32)%nat then Raise (ValueError "badly formed hexadecimal UUID string")
  else match int_base16 hex with
       | None => Raise (ValueError ("invalid literal for int() with base 16: " +:+ py_repr (VStr hex)))
       | Some z => if (z <? 0)%Z then Raise (ValueError "int is out of range (need a 128-bit value)")
                   else Ok (uuid_str z)
       end.

Definition type_name_of (v : pyval) : string :=
  match v with
  | VNone => "NoneType" | VBool _ => "bool" | VInt _ => "int" | VFloat _ => "float"
  | VStr _ => "str" | VList _ => "list" | VDict _ => "dict"
  end.

Definition py_uuid (v : pyval) : Res string :=
  match v with
  | VStr s => uuid_of_string s
  | _ => Raise (AttributeError ("'" +:+ type_name_of v +:+ "' object has no attribute 'replace'"))
  end.

Example uuid_plain : uuid_of_string "{0123ABCD-0000-0000-0000-00000000000f}"
                     = Ok "0123abcd-0000-0000-0000-00000000000f".
Proof. reflexivity. Qed.
