(* ===== verification/PyUrl.v ===== *)
(** * [urllib.parse]

    The parts of Python 3.12's [urllib.parse] (and the address check of
    [ipaddress] it uses) that give an external URL its identity.  The text of a URL
    is ASCII; what percent escapes decode to is kept as the bytes of its UTF-8
    encoding, whose order is that of the code points. *)

From stdpp Require Import base tactics list strings sorting.
From Stdlib Require Import ZArith Lia Ascii.
From S2P Require Import Prelude PyStr PyValue.

Open Scope string_scope.
Open Scope list_scope.

(** ** String helpers *)

(** [s.rpartition(c)[2]]: what follows the last [c], or all of [s]. *)
Fixpoint after_last (c : ascii) (s : string) : string :=
  match s with
  | EmptyString => EmptyString
  | String c' s' => if (c =? c')%char then after_last c s' else
                      if contains_char c s' then after_last c s' else s
  end.

(** The longest prefix without a character of [stop], and the rest. *)
Fixpoint break_at (stop : ascii -> bool) (s : string) : string * string :=
  match s with
  | EmptyString => (EmptyString, EmptyString)
  | String c s' => if stop c then (EmptyString, s)
                   else let '(a, b) := break_at stop s' in (String c a, b)
  end.

(** [s.strip(c)] for a single character. *)
Fixpoint lstrip_char (c : ascii) (s : string) : string :=
  match s with
  | EmptyString => EmptyString
  | String c' s' => if (c =? c')%char then lstrip_char c s' else s
  end.

Fixpoint rstrip_char (c : ascii) (s : string) : string :=
  match s with
  | EmptyString => EmptyString
  | String c' s' =>
      match rstrip_char c s' with
      | EmptyString => if (c =? c')%char then EmptyString else String c' EmptyString
      | r => String c' r
      end
  end.

Definition strip_char (c : ascii) (s : string) : string := lstrip_char c (rstrip_char c s).

Definition is_alpha (c : ascii) : bool := is_upper c || is_lower c.

Definition hex_val (c : ascii) : option Z :=
  let n := ascii_code c in
  if between 48 57 n then Some (n - 48)%Z
  else if between 65 70 n then Some (n - 55)%Z
  else if between 97 102 n then Some (n - 87)%Z
  else None.

Definition is_hex (c : ascii) : bool := match hex_val c with Some _ => true | None => false end.

(** ** Addresses in brackets ([ipaddress.ip_address]) *)

Definition valid_octet (s : string) : bool :=
  negb (is_empty s) && sforall is_digit s && (String.length s <=? 3)%nat
  && ((s =? "0")%string || negb (startswith s "0"))
  && match int_of_string s with Some z => (z <=? 255)%Z | None => false end.

Definition valid_ipv4 (s : string) : bool :=
  negb (contains_char "/" s)
  && let octets := split_char "." s in (length octets =? 4)%nat && forallb valid_octet octets.

Definition valid_hextet (s : string) : bool :=
  negb (is_empty s) && sforall is_hex s && (String.length s <=? 4)%nat.

(** The hextets of an address whose IPv4 suffix, if any, stands for two of them. *)
Definition valid_parts (parts : list string) : bool :=
  let n := length parts in
  let inner := take (n - 2) (drop 1 parts) in
  let first_empty := match parts with p :: _ => is_empty p | [] => true end in
  let last_empty := match last parts with Some p => is_empty p | None => true end in
  (n <=? 9)%nat &&
  match List.filter (fun p => is_empty p.2) (imap (fun i p => (S i, p)) inner) with
  | _ :: _ :: _ => false
  | [(skip, _)] =>
      let hi := if first_empty then (skip - 1)%nat else skip in
      let lo := if last_empty then (n - skip - 2)%nat else (n - skip - 1)%nat in
      (negb first_empty || (hi =? 0)%nat) && (negb last_empty || (lo =? 0)%nat) && (hi + lo <? 8)%nat
      && forallb valid_hextet (take hi parts) && forallb valid_hextet (drop (n - lo) parts)
  | [] => (n =? 8)%nat && negb first_empty && negb last_empty && forallb valid_hextet parts
  end.

Definition valid_ipv6 (s : string) : bool :=
  let '(address, scope) := partition_char "%" s in
  let parts := split_char ":" address in
  negb (contains_char "/" s)
  && match scope with Some z => negb (is_empty z) && negb (contains_char "%" z) | None => true end
  && (3 <=? length parts)%nat
  && match last parts with
     | Some suffix =>
         if contains_char "." suffix
         then valid_ipv4 suffix && valid_parts (take (length parts - 1) parts ++ ["0"; "0"])
         else valid_parts parts
     | None => false
     end.

Definition check_bracketed_host (hostname : string) : Res () :=
  match strip_prefix "v" hostname with
  | Some future =>
      match partition_char "." future with
      | (version, Some address) =>
          if negb (is_empty version) && sforall is_hex version && negb (is_empty address) then Ok ()
          else Raise (ValueError "IPvFuture address is invalid")
      | _ => Raise (ValueError "IPvFuture address is invalid")
      end
  | None =>
      if valid_ipv4 hostname then Raise (ValueError "An IPv4 address cannot be in brackets")
      else if valid_ipv6 hostname then Ok ()
      else Raise (ValueError (str_repr hostname +:+ " does not appear to be an IPv4 or IPv6 address"))
  end.

Definition check_bracketed_netloc (netloc : string) : Res () :=
  let '(before, bracketed) := partition_char "[" (after_last "@" netloc) in
  match bracketed with
  | Some bracketed =>
      if negb (is_empty before) then Raise (ValueError "Invalid IPv6 URL")
      else
        let '(hostname, port) := partition_char "]" bracketed in
        let port := default EmptyString port in
        if negb (is_empty port) && negb (startswith port ":") then Raise (ValueError "Invalid IPv6 URL")
        else check_bracketed_host hostname
  | None => check_bracketed_host (partition_char ":" before).1
  end.

(** ** Splitting *)

Record ParseResult := {
  pr_scheme : string;
  pr_netloc : string;
  pr_path : string;
  pr_params : string;
  pr_query : string;
  pr_fragment : string }.

Definition uses_netloc : list string :=
  [""; "ftp"; "http"; "gopher"; "nntp"; "telnet"; "imap"; "wais"; "file"; "mms"; "https"; "shttp"; "snews";
   "prospero"; "rtsp"; "rtsps"; "rtspu"; "rsync"; "svn"; "svn+ssh"; "sftp"; "nfs"; "git"; "git+ssh"; "ws"; "wss";
   "itms-services"].

Definition uses_params : list string :=
  [""; "ftp"; "hdl"; "prospero"; "http"; "imap"; "https"; "shttp"; "rtsp"; "rtsps"; "rtspu"; "sip"; "sips"; "mms";
   "sftp"; "tel"].

Definition scheme_char (c : ascii) : bool :=
  is_alnum c || (c =? "+")%char || (c =? "-")%char || (c =? ".")%char.

Fixpoint lstrip_c0 (s : string) : string :=
  match s with
  | EmptyString => EmptyString
  | String c s' => if (ascii_code c <=? 32)%Z then lstrip_c0 s' else s
  end.

(** Tabs and line ends are dropped wherever they are. *)
Definition clean_url (s : string) : string :=
  sfilter (fun c => negb ((ascii_code c =? 9)%Z || (ascii_code c =? 10)%Z || (ascii_code c =? 13)%Z)) (lstrip_c0 s).

Definition split_scheme (url : string) : string * string :=
  match partition_char ":" url with
  | (String c s as before, Some rest) =>
      if is_alpha c && sforall scheme_char before then (lower before, rest) else ("", url)
  | _ => ("", url)
  end.

Definition netloc_stop (c : ascii) : bool := (c =? "/")%char || (c =? "?")%char || (c =? "#")%char.

Definition split_netloc (url : string) : string * string :=
  match strip_prefix "//" url with
  | Some rest => break_at netloc_stop rest
  | None => ("", url)
  end.

Definition check_netloc (netloc : string) : Res () :=
  let opens := contains_char "[" netloc in
  let closes := contains_char "]" netloc in
  if xorb opens closes then Raise (ValueError "Invalid IPv6 URL")
  else if opens then check_bracketed_netloc netloc
  else Ok ().

(** [_splitparams]: the parameters follow the first [;] of the last segment. *)
Fixpoint split_params (url : string) : string * string :=
  match url with
  | EmptyString => (EmptyString, EmptyString)
  | String c url' =>
      if (c =? ";")%char && negb (contains_char "/" url') then (EmptyString, url')
      else let '(path, params) := split_params url' in (String c path, params)
  end.

Definition urlparse (url : string) : Res ParseResult :=
  let '(scheme, rest) := split_scheme (clean_url url) in
  let '(netloc, rest) := split_netloc rest in
  _ ← check_netloc netloc;
  let '(rest, fragment) := partition_char "#" rest in
  let '(path, query) := partition_char "?" rest in
  let '(path, params) := if bool_decide (scheme ∈ uses_params) then split_params path else (path, "") in
  Ok {| pr_scheme := scheme; pr_netloc := netloc; pr_path := path; pr_params := params;
        pr_query := default "" query; pr_fragment := default "" fragment |}.

Definition hostname (p : ParseResult) : option string :=
  let hostinfo := after_last "@" (pr_netloc p) in
  let host := match partition_char "[" hostinfo with
              | (_, Some bracketed) => (partition_char "]" bracketed).1
              | (_, None) => (partition_char ":" hostinfo).1
              end in
  if is_empty host then None
  else match partition_char "%" host with
       | (h, Some zone) => Some (lower h +:+ "%" +:+ zone)
       | (h, None) => Some (lower h)
       end.

Definition urlunparse (p : ParseResult) : string :=
  let url := if is_empty (pr_params p) then pr_path p else pr_path p +:+ ";" +:+ pr_params p in
  let url :=
    if negb (is_empty (pr_netloc p)) then
      "//" +:+ pr_netloc p +:+ (if negb (is_empty url) && negb (startswith url "/") then "/" +:+ url else url)
    else if startswith url "//" then "//" +:+ url
    else if negb (is_empty (pr_scheme p)) && bool_decide (pr_scheme p ∈ uses_netloc)
            && (is_empty url || startswith url "/") then "//" +:+ url
    else url in
  let url := if is_empty (pr_scheme p) then url else pr_scheme p +:+ ":" +:+ url in
  let url := if is_empty (pr_query p) then url else url +:+ "?" +:+ pr_query p in
  if is_empty (pr_fragment p) then url else url +:+ "#" +:+ pr_fragment p.

(** ** Percent escapes *)

Definition byte_of (h l : Z) : ascii := ascii_of_N (Z.to_N (16 * h + l)).

Fixpoint unquote_to_bytes (s : string) : string :=
  match s with
  | String "%" (String h (String l s') as rest) =>
      match hex_val h, hex_val l with
      | Some a, Some b => String (byte_of a b) (unquote_to_bytes s')
      | _, _ => String "%" (unquote_to_bytes rest)
      end
  | String c s' => String c (unquote_to_bytes s')
  | EmptyString => EmptyString
  end.

(** U+FFFD, the mark of a malformed sequence. *)
Definition replacement : string := String (ascii_of_N 239) (String (ascii_of_N 191) (String (ascii_of_N 189) EmptyString)).

Definition in_range (lo hi : Z) (c : ascii) : bool := between lo hi (ascii_code c).
Definition continuation : ascii -> bool := in_range 128 191.

(** What may follow the first byte of a sequence of three or four. *)
Definition second3 (c1 c2 : ascii) : bool :=
  let n := ascii_code c1 in
  if (n =? 224)%Z then in_range 160 191 c2 else if (n =? 237)%Z then in_range 128 159 c2 else continuation c2.
Definition second4 (c1 c2 : ascii) : bool :=
  let n := ascii_code c1 in
  if (n =? 240)%Z then in_range 144 191 c2 else if (n =? 244)%Z then in_range 128 143 c2 else continuation c2.

(** [decode('utf-8', 'replace')], re-encoded: the longest well-formed beginning of
    a malformed sequence becomes one U+FFFD. *)
Fixpoint utf8_replace (s : string) : string :=
  match s with
  | EmptyString => EmptyString
  | String c1 s1 =>
      if in_range 0 127 c1 then String c1 (utf8_replace s1)
      else if in_range 194 223 c1 then
        match s1 with
        | String c2 s2 => if continuation c2 then String c1 (String c2 (utf8_replace s2))
                          else replacement +:+ utf8_replace s1
        | EmptyString => replacement
        end
      else if in_range 224 239 c1 then
        match s1 with
        | String c2 s2 =>
            if second3 c1 c2 then
              match s2 with
              | String c3 s3 => if continuation c3 then String c1 (String c2 (String c3 (utf8_replace s3)))
                                else replacement +:+ utf8_replace s2
              | EmptyString => replacement
              end
            else replacement +:+ utf8_replace s1
        | EmptyString => replacement
        end
      else if in_range 240 244 c1 then
        match s1 with
        | String c2 s2 =>
            if second4 c1 c2 then
              match s2 with
              | String c3 s3 =>
                  if continuation c3 then
                    match s3 with
                    | String c4 s4 =>
                        if continuation c4 then String c1 (String c2 (String c3 (String c4 (utf8_replace s4))))
                        else replacement +:+ utf8_replace s3
                    | EmptyString => replacement
                    end
                  else replacement +:+ utf8_replace s2
              | EmptyString => replacement
              end
            else replacement +:+ utf8_replace s1
        | EmptyString => replacement
        end
      else replacement +:+ utf8_replace s1
  end.

Definition unquote (s : string) : string := utf8_replace (unquote_to_bytes s).

Definition always_safe (c : ascii) : bool :=
  is_alnum c || (c =? "_")%char || (c =? ".")%char || (c =? "-")%char || (c =? "~")%char.

Definition upper_hex (n : Z) : ascii :=
  if (n <? 10)%Z then ascii_of_N (Z.to_N (48 + n)) else ascii_of_N (Z.to_N (55 + n)).

Definition quote_char (c : ascii) : string :=
  if always_safe c then String c EmptyString
  else if (c =? " ")%char then "+"
  else String "%" (String (upper_hex (ascii_code c / 16)) (String (upper_hex (ascii_code c mod 16)) EmptyString)).

Fixpoint quote_plus (s : string) : string :=
  match s with
  | EmptyString => EmptyString
  | String c s' => quote_char c +:+ quote_plus s'
  end.

(** ** Queries *)

Definition query_arg (keep_blank_values : bool) (arg : string) : option (string * string) :=
  let decode s := unquote (replace_char "+" " " s) in
  if is_empty arg then None
  else match partition_char "=" arg with
       | (_, None) => if keep_blank_values then Some (decode arg, "") else None
       | (name, Some value) =>
           if is_empty value && negb keep_blank_values then None else Some (decode name, decode value)
       end.

Definition parse_qsl (keep_blank_values : bool) (qs : string) : list (string * string) :=
  omap (query_arg keep_blank_values) (split_char "&" qs).

Definition urlencode (query : list (string * string)) : string :=
  join "&" (map (fun kv => quote_plus kv.1 +:+ "=" +:+ quote_plus kv.2) query).

(** Order of pairs in [sorted]. *)
Definition pair_le (a b : string * string) : Prop :=
  str_ltb a.1 b.1 = true \/ (a.1 = b.1 /\ str_le a.2 b.2).
#[export] Instance pair_le_dec : RelDecision pair_le.
Proof. intros a b. unfold pair_le. apply _. Defined.

(** ** [str.strip] on decoded text *)

Definition chars (l : list Z) : list ascii := map (fun n => ascii_of_N (Z.to_N n)) l.

(** The UTF-8 encodings of the white space outside ASCII. *)
Definition unicode_spaces : list (list ascii) :=
  map chars
    ([[194; 133]; [194; 160]; [225; 154; 128]; [226; 128; 168]; [226; 128; 169]; [226; 128; 175]; [226; 129; 159];
      [227; 128; 128]] ++ map (fun n => [226; 128; n]) (range 128 139))%Z.

Definition drop_prefix (p l : list ascii) : option (list ascii) :=
  if bool_decide (take (length p) l = p) then Some (drop (length p) l) else None.

Fixpoint strip_left (fuel : nat) (spaces : list (list ascii)) (l : list ascii) : list ascii :=
  match fuel, l with
  | S fuel', c :: l' =>
      if is_space c then strip_left fuel' spaces l'
      else match omap (fun p => drop_prefix p l) spaces with
           | rest :: _ => strip_left fuel' spaces rest
           | [] => l
           end
  | _, _ => l
  end.

Definition strip_text (s : string) : string :=
  let l := String.list_ascii_of_string s in
  let left := strip_left (length l) unicode_spaces l in
  String.string_of_list_ascii (rev (strip_left (length left) (map (@rev ascii) unicode_spaces) (rev left))).

(** ** Encoding and decoding a query *)

(** The characters [urlencode] writes inside a name or a value. *)
Definition quoted_char (c : ascii) : bool := always_safe c || (c =? "+")%char || (c =? "%")%char.

Lemma quote_char_quoted c : sforall quoted_char (quote_char c) = true.
Proof. by destruct c as [[] [] [] [] [] [] [] []]. Qed.

Lemma quote_plus_quoted s : sforall quoted_char (quote_plus s) = true.
Proof. induction s as [|c s IH]; [done|]. simpl. by rewrite sforall_app, quote_char_quoted. Qed.

Lemma unquote_quote_char c s :
  unquote_to_bytes (replace_char "+" " " (quote_char c) +:+ s) = String c (unquote_to_bytes s).
Proof. by destruct c as [[] [] [] [] [] [] [] []]. Qed.

Lemma unquote_quote_bytes s : unquote_to_bytes (replace_char "+" " " (quote_plus s)) = s.
Proof.
  induction s as [|c s IH]; [done|]. simpl. unfold replace_char in *. rewrite smap_app.
  change (smap _ (quote_char c)) with (replace_char "+" " " (quote_char c)).
  by rewrite unquote_quote_char, IH.
Qed.

(** Text that is well-formed UTF-8. *)
Definition utf8 (s : string) : Prop := utf8_replace s = s.

#[export] Instance utf8_dec s : Decision (utf8 s).
Proof. unfold utf8. apply _. Defined.

Lemma ascii_utf8 s : sforall (in_range 0 127) s = true -> utf8 s.
Proof.
  unfold utf8. induction s as [|c s IH]; [done|]. simpl. intros [Hc Hs]%andb_prop. by rewrite Hc, IH.
Qed.

Definition utf8_pair (kv : string * string) : Prop := utf8 kv.1 /\ utf8 kv.2.

Lemma quote_plus_is_empty s : is_empty (quote_plus s) = is_empty s.
Proof. destruct s as [|c s]; [done|]. by destruct c as [[] [] [] [] [] [] [] []]. Qed.

Lemma query_arg_encode keep kv :
  utf8_pair kv ->
  query_arg keep (quote_plus kv.1 +:+ "=" +:+ quote_plus kv.2) =
    if is_empty kv.2 && negb keep then None else Some kv.
Proof.
  destruct kv as [k v]. intros [Hk Hv]. simpl [fst snd] in *. unfold query_arg.
  assert (is_empty (quote_plus k +:+ "=" +:+ quote_plus v) = false) as -> by (by destruct (quote_plus k)).
  change ("=" +:+ quote_plus v) with (String "=" (quote_plus v)). rewrite partition_char_app by (apply (sforall_no_char quoted_char); [apply quote_plus_quoted | done]).
  rewrite quote_plus_is_empty. destruct (is_empty v && negb keep); [done|].
  unfold unquote. by rewrite !unquote_quote_bytes, Hk, Hv.
Qed.

(** What is encoded is decoded again; without blank values the parser drops them. *)
Lemma parse_qsl_urlencode keep l :
  Forall utf8_pair l ->
  parse_qsl keep (urlencode l) = List.filter (fun kv => negb (is_empty kv.2 && negb keep)) l.
Proof.
  intros Hl. unfold parse_qsl, urlencode. destruct (decide (l = [])) as [->|Hne]; [done|].
  rewrite split_join.
  - induction Hl as [|kv l Hkv Hl IH]; [done|]. simpl. rewrite query_arg_encode by done.
    destruct (decide (l = [])) as [->|Hl']; [by destruct (_ && _)|].
    destruct (_ && _); [exact (IH Hl')|]. exact (f_equal (cons kv) (IH Hl')).
  - intros H. by apply map_eq_nil in H.
  - apply Forall_map. apply Forall_forall. intros [k v] _. simpl.
    rewrite !contains_char_app. 
    pose proof (fun s => sforall_no_char quoted_char "&" _ (quote_plus_quoted s) eq_refl) as Hq. by rewrite !Hq.
Qed.

(** The characters of an encoded query. *)
Definition query_char (c : ascii) : bool := quoted_char c || (c =? "=")%char || (c =? "&")%char.

Lemma urlencode_chars l : sforall query_char (urlencode l) = true.
Proof.
  assert (Hq : forall s, sforall query_char (quote_plus s) = true).
  { intros s. eapply sforall_impl; [|apply quote_plus_quoted]. intros c Hc. unfold query_char. by rewrite Hc. }
  unfold urlencode. induction l as [|[k v] l IH]; [done|]. destruct l as [|kv l].
  - simpl. rewrite !sforall_app. simpl. by rewrite !Hq.
  - change (join _ _) with ((quote_plus k +:+ "=" +:+ quote_plus v) +:+ "&" +:+
      join "&" (map (fun kv => quote_plus kv.1 +:+ "=" +:+ quote_plus kv.2) (kv :: l))).
    rewrite !sforall_app, IH, !Hq. done.
Qed.

(** ** The order of pairs *)

#[export] Instance pair_le_total : Total pair_le.
Proof.
  intros [k v] [k' v']. unfold pair_le, str_le. simpl.
  destruct (str_ltb_total k k') as [|[->|]]; [by left; left| |by right; left].
  destruct (str_ltb_total v v') as [Hv|[->|Hv]].
  - left; right. split; [done|]. destruct (str_ltb v' v) eqn:E; [|done].
    pose proof (str_ltb_trans _ _ _ Hv E) as H. by rewrite str_ltb_irrefl in H.
  - left; right. by rewrite str_ltb_irrefl.
  - right; right. split; [done|]. destruct (str_ltb v v') eqn:E; [|done].
    pose proof (str_ltb_trans _ _ _ Hv E) as H. by rewrite str_ltb_irrefl in H.
Qed.

Lemma str_le_trans a b c : str_le a b -> str_le b c -> str_le a c.
Proof.
  unfold str_le. intros Hab Hbc. destruct (str_ltb c a) eqn:Hca; [|done].
  destruct (str_ltb_total a b) as [H|[->|H]]; [|congruence..].
  pose proof (str_ltb_trans _ _ _ Hca H). congruence.
Qed.

#[export] Instance pair_le_trans : Transitive pair_le.
Proof.
  intros [a v] [b w] [c x]. unfold pair_le. simpl.
  intros [Hab|[-> Hvw]] [Hbc|[-> Hwx]]; try (by left).
  - left. by eapply str_ltb_trans.
  - right. split; [done|]. by eapply str_le_trans.
Qed.

#[export] Instance pair_le_antisymm : AntiSymm (=) pair_le.
Proof.
  intros [a v] [b w]. unfold pair_le. simpl. intros [Hab|[Heq Hvw]] [Hba|[Heq' Hwv]]; subst.
  - pose proof (str_ltb_trans _ _ _ Hab Hba) as H. by rewrite str_ltb_irrefl in H.
  - by rewrite str_ltb_irrefl in Hab.
  - by rewrite str_ltb_irrefl in Hba.
  - f_equal. by apply str_le_antisym.
Qed.

Lemma sort_pairs_perm l l' : l ≡ₚ l' -> merge_sort pair_le l = merge_sort pair_le l'.
Proof.
  intros H. apply (Sorted_unique pair_le); [by apply Sorted_merge_sort, _..|].
  by rewrite !merge_sort_Permutation.
Qed.
