(* ===== verification/DiscoveryPolicy.v ===== *)
(** * The discovery policy of a channel ([channel_agent/discovery_policy.py])

    A channel's content mix may carry settings for the discovery of videos.  They come
    from a JSON column, so every field is checked for its exact type and range before
    it is used. *)

From stdpp Require Import base tactics list strings.
From Stdlib Require Import ZArith Lia Ascii.
From S2P Require Import Prelude PyStr PyValue.

Open Scope string_scope.

Record DiscoveryPolicy := {
  dp_enabled : bool;
  dp_interval_minutes : Z;
  dp_max_queries_per_run : Z;
  dp_max_results_per_query : Z;
  dp_min_view_count : Z;
  dp_region_code : string }.

Definition default_policy : DiscoveryPolicy :=
  {| dp_enabled := false; dp_interval_minutes := 360; dp_max_queries_per_run := 3; dp_max_results_per_query := 10;
     dp_min_view_count := 1000; dp_region_code := "US" |}.

Definition _exact_bool (value : config) (field : string) (dflt : bool) : Res bool :=
  match dget_or value field (VBool dflt) with
  | VBool b => Ok b
  | _ => Raise (DiscoveryPolicyError (field +:+ " must be a boolean"))
  end.

(** [type(parsed) is int] excludes the booleans. *)
Definition _bounded_int (value : config) (field : string) (dflt minimum maximum : Z) : Res Z :=
  match dget_or value field (VInt dflt) with
  | VInt n =>
      if (minimum <=? n)%Z && (n <=? maximum)%Z then Ok n
      else Raise (DiscoveryPolicyError (field +:+ " must be between " +:+ str_of_Z minimum +:+ " and " +:+ str_of_Z maximum))
  | _ => Raise (DiscoveryPolicyError (field +:+ " must be an integer"))
  end.

Definition two_upper (s : string) : bool := (String.length s =? 2)%nat && sforall is_upper s.

Definition _region_code (value : pyval) : Res string :=
  match value with
  | VStr s =>
      if two_upper s then Ok s else Raise (DiscoveryPolicyError "region_code must be two uppercase ASCII letters")
  | _ => Raise (DiscoveryPolicyError "region_code must be two uppercase ASCII letters")
  end.

Definition region_value (value nested : config) : pyval :=
  match nested.[? "region_code"] with
  | Some v => v
  | None => dget_or value "region_code" (VStr (dp_region_code default_policy))
  end.

Definition from_content_mix (value : pyval) : Res DiscoveryPolicy :=
  match value with
  | VDict d =>
      match dget_or d "youtube_discovery" (VDict []) with
      | VDict nested =>
          enabled ← _exact_bool nested "enabled" (dp_enabled default_policy);
          interval ← _bounded_int nested "interval_minutes" (dp_interval_minutes default_policy) 60 1440;
          queries ← _bounded_int nested "max_queries_per_run" (dp_max_queries_per_run default_policy) 1 5;
          results ← _bounded_int nested "max_results_per_query" (dp_max_results_per_query default_policy) 1 25;
          views ← _bounded_int nested "min_view_count" (dp_min_view_count default_policy) 0 1000000000;
          region ← _region_code (region_value d nested);
          Ok {| dp_enabled := enabled; dp_interval_minutes := interval; dp_max_queries_per_run := queries;
                dp_max_results_per_query := results; dp_min_view_count := views; dp_region_code := region |}
      | _ => Raise (DiscoveryPolicyError "youtube discovery policy must be an object")
      end
  | _ => Raise (DiscoveryPolicyError "content mix policy must be an object")
  end.

(** ** What a parsed policy guarantees *)

Record policy_wf (p : DiscoveryPolicy) : Prop := {
  wf_interval : (60 <= dp_interval_minutes p <= 1440)%Z;
  wf_queries : (1 <= dp_max_queries_per_run p <= 5)%Z;
  wf_results : (1 <= dp_max_results_per_query p <= 25)%Z;
  wf_views : (0 <= dp_min_view_count p <= 1000000000)%Z;
  wf_region : two_upper (dp_region_code p) = true }.

(** The settings a policy stands for, written out in full. *)
Definition settings_of (p : DiscoveryPolicy) : config :=
  [("enabled", VBool (dp_enabled p)); ("interval_minutes", VInt (dp_interval_minutes p));
   ("max_queries_per_run", VInt (dp_max_queries_per_run p)); ("max_results_per_query", VInt (dp_max_results_per_query p));
   ("min_view_count", VInt (dp_min_view_count p)); ("region_code", VStr (dp_region_code p))].

Lemma exact_bool_Ok value field dflt b : _exact_bool value field dflt = Ok b -> dget_or value field (VBool dflt) = VBool b.
Proof. unfold _exact_bool. destruct (dget_or _ _ _); naive_solver. Qed.

Lemma bounded_int_Ok value field dflt lo hi n :
  _bounded_int value field dflt lo hi = Ok n <-> dget_or value field (VInt dflt) = VInt n /\ (lo <= n <= hi)%Z.
Proof.
  unfold _bounded_int. destruct (dget_or _ _ _) as [| |z| | | |]; try naive_solver.
  destruct ((lo <=? z)%Z && (z <=? hi)%Z) eqn:E; (split; [intros ?|intros [? ?]]; simplify_eq).
  - split; [done|]. apply andb_true_iff in E as [?%Z.leb_le ?%Z.leb_le]. lia.
  - done.
  - apply andb_false_iff in E as [?%Z.leb_gt|?%Z.leb_gt]; lia.
Qed.

Lemma region_code_Ok v s : _region_code v = Ok s <-> v = VStr s /\ two_upper s = true.
Proof.
  unfold _region_code. destruct v as [| | | |t| |]; try naive_solver.
  destruct (two_upper t) eqn:E; split; [intros ?|intros [? ?]|intros ?|intros [? ?]]; simplify_eq; auto; congruence.
Qed.

Lemma from_content_mix_wf v p : from_content_mix v = Ok p -> policy_wf p.
Proof.
  unfold from_content_mix. destruct v; try done. destruct (dget_or d _ _); try done.
  intros H. unbind H. simplify_eq. constructor; simpl.
  all: match goal with
       | H : _bounded_int _ _ _ _ _ = Ok ?n |- context [?n] => by apply bounded_int_Ok in H as [_ ?]
       | H : _region_code _ = Ok ?n |- context [?n] => by apply region_code_Ok in H as [_ ?]
       end.
Qed.

(** C37. A policy that was accepted reads back from its own settings, whatever else the
    content mix holds: nothing outside the ranges gets in, and nothing inside is
    refused. *)
Theorem discovery_policy_exact (p : DiscoveryPolicy) (d : config) :
  policy_wf p <-> from_content_mix (VDict d.["youtube_discovery" <- VDict (settings_of p)]) = Ok p.
Proof.
  split; [|apply from_content_mix_wf]. intros [Hi Hq Hr Hv Hc]. unfold from_content_mix.
  assert (dget_or d.["youtube_discovery" <- VDict (settings_of p)] "youtube_discovery" (VDict []) = VDict (settings_of p))
    as -> by (unfold dget_or; by rewrite dget_dset_eq).
  assert (Hb : forall field dflt lo hi n, dget_or (settings_of p) field (VInt dflt) = VInt n -> (lo <= n <= hi)%Z ->
                 _bounded_int (settings_of p) field dflt lo hi = Ok n) by (intros; by apply bounded_int_Ok).
  rewrite (Hb "interval_minutes" _ _ _ (dp_interval_minutes p)) by done.
  rewrite (Hb "max_queries_per_run" _ _ _ (dp_max_queries_per_run p)) by done.
  rewrite (Hb "max_results_per_query" _ _ _ (dp_max_results_per_query p)) by done.
  rewrite (Hb "min_view_count" _ _ _ (dp_min_view_count p)) by done.
  assert (_region_code (region_value d.["youtube_discovery" <- VDict (settings_of p)] (settings_of p))
          = Ok (dp_region_code p)) as -> by (by apply region_code_Ok).
  by destruct p.
Qed.

Example discovery_defaults : from_content_mix (VDict []) = Ok default_policy.
Proof. reflexivity. Qed.
Example discovery_region_falls_back :
  from_content_mix (VDict [("region_code", VStr "DE"); ("youtube_discovery", VDict [("enabled", VBool true)])])
  = Ok {| dp_enabled := true; dp_interval_minutes := 360; dp_max_queries_per_run := 3; dp_max_results_per_query := 10;
          dp_min_view_count := 1000; dp_region_code := "DE" |}.
Proof. reflexivity. Qed.
Example discovery_bool_is_no_int :
  from_content_mix (VDict [("youtube_discovery", VDict [("max_queries_per_run", VBool true)])])
  = Raise (DiscoveryPolicyError "max_queries_per_run must be an integer").
Proof. reflexivity. Qed.
