(* ===== verification/ExternalUrl.v ===== *)
(** * Identity of external media URLs ([services/external_url_identity.py])

    The different addresses of one video, note or post get one normal form; any
    other URL gets its scheme, host and query brought into a normal order.  The
    three regular expressions search the path for a segment of a given form, so they
    are written as searches of the list of segments. *)

From stdpp Require Import base tactics list strings sorting.
From Stdlib Require Import ZArith Lia Ascii.
From S2P Require Import Prelude PyStr PyValue PyUrl.

Open Scope string_scope.
Open Scope list_scope.

Fixpoint endswith (s suffix : string) : bool :=
  (s =? suffix)%string || match s with EmptyString => false | String _ s' => endswith s' suffix end.

Definition _host_matches (hostname root : string) : bool :=
  (hostname =? root)%string || endswith hostname ("." +:+ root).

(** [(?:^|/)(BV[0-9A-Za-z]+)(?:/|$)]. *)
Definition is_bvid (segment : string) : bool :=
  match strip_prefix "BV" segment with
  | Some rest => negb (is_empty rest) && sforall is_alnum rest
  | None => false
  end.

Definition _extract_bilibili_bvid (path : string) : option string :=
  List.find is_bvid (split_char "/" path).

(** [(?:^|/)([0-9a-f]{24})(?:/|$)], ignoring case. *)
Definition is_note_id (segment : string) : bool := (String.length segment =? 24)%nat && sforall is_hex segment.

Definition _extract_xiaohongshu_note_id (path : string) : option string :=
  List.find is_note_id (split_char "/" path).

(** [^/([^/]+)/status/(\d+)(?:/|$)], ignoring case. *)
Definition _extract_x_post_components (path : string) : option (string * string) :=
  match split_char "/" path with
  | EmptyString :: name :: status :: post :: _ =>
      if negb (is_empty name) && (lower status =? "status")%string && negb (is_empty post) && sforall is_digit post
      then Some (post, name) else None
  | _ => None
  end.

Definition opt_guard {A} (b : bool) (o : option A) : option A := if b then o else None.

Definition youtube_url (video_id : string) : string := "https://www.youtube.com/watch?v=" +:+ video_id.

(** The short address carries the id as its first path segment. *)
Definition short_video_id (p : ParseResult) : string :=
  match split_char "/" (strip_char "/" (pr_path p)) with s :: _ => s | [] => "" end.

Definition watch_video_id (p : ParseResult) : string :=
  strip_text (dget_or (dict_of (parse_qsl false (pr_query p))) "v" "").

Definition nonempty (s : string) : option string := if is_empty s then None else Some s.

Definition cleaned_url (p : ParseResult) : string :=
  let scheme := if is_empty (pr_scheme p) then "https" else pr_scheme p in
  urlunparse {| pr_scheme := lower scheme; pr_netloc := lower (pr_netloc p); pr_path := pr_path p;
                pr_params := pr_params p; pr_query := urlencode (merge_sort pair_le (parse_qsl true (pr_query p)));
                pr_fragment := "" |}.

Definition media_identity (p : ParseResult) : string :=
  let host := lower (default "" (hostname p)) in
  match opt_guard (_host_matches host "youtu.be") (nonempty (short_video_id p)) with
  | Some id => youtube_url id
  | None =>
  match opt_guard (_host_matches host "youtube.com") (nonempty (watch_video_id p)) with
  | Some id => youtube_url id
  | None =>
  match opt_guard (_host_matches host "bilibili.com") (_extract_bilibili_bvid (pr_path p)) with
  | Some id => "https://www.bilibili.com/video/" +:+ id
  | None =>
  match opt_guard (_host_matches host "xiaohongshu.com") (_extract_xiaohongshu_note_id (pr_path p)) with
  | Some id => "https://www.xiaohongshu.com/explore/" +:+ id
  | None =>
  match opt_guard (_host_matches host "x.com" || _host_matches host "twitter.com")
          (_extract_x_post_components (pr_path p)) with
  | Some (post, name) => "https://x.com/" +:+ name +:+ "/status/" +:+ post
  | None => cleaned_url p
  end end end end end.

Definition normalize_external_media_url (url : string) : Res string :=
  p ← urlparse (strip url); Ok (media_identity p).

Example short_link : normalize_external_media_url "https://youtu.be/abc_-9?si=x" = Ok "https://www.youtube.com/watch?v=abc_-9".
Proof. vm_compute. reflexivity. Qed.
Example watch_link :
  normalize_external_media_url " HTTPS://m.YouTube.com/watch?list=a&v=abc_-9#t=1 " = Ok "https://www.youtube.com/watch?v=abc_-9".
Proof. vm_compute. reflexivity. Qed.
Example bili_link :
  normalize_external_media_url "http://www.bilibili.com/video/BV1xx411c7mD/?p=2" = Ok "https://www.bilibili.com/video/BV1xx411c7mD".
Proof. vm_compute. reflexivity. Qed.
Example twitter_link :
  normalize_external_media_url "https://twitter.com/Name/Status/123?s=20" = Ok "https://x.com/Name/status/123".
Proof. vm_compute. reflexivity. Qed.
Example other_link :
  normalize_external_media_url "Example.org/A;p?b=%E4%bd%A0&a=+1&a=#f" = Ok "https:Example.org/A;p?a=&a=+1&b=%E4%BD%A0".
Proof. vm_compute. reflexivity. Qed.
Example v6_link : normalize_external_media_url "http://[::FFFF:1.2.3.4]:80/x" = Ok "http://[::ffff:1.2.3.4]:80/x".
Proof. vm_compute. reflexivity. Qed.
Example bad_v6 : normalize_external_media_url "http://[1.2.3.4]/x" = Raise (ValueError "An IPv4 address cannot be in brackets").
Proof. vm_compute. reflexivity. Qed.

(** ** The query and the fragment of a URL *)

Definition graphic (c : ascii) : bool := between 33 126 (ascii_code c).

(** Characters of the part before the query. *)
Definition base_char (c : ascii) : bool := graphic c && negb (c =? "?")%char && negb (c =? "#")%char.

Definition fragment_text (f : option string) : string :=
  match f with Some f => String "#" f | None => "" end.

(** A URL with the query [l] and possibly a fragment. *)
Definition with_query (base : string) (l : list (string * string)) (f : option string) : string :=
  base +:+ String "?" (urlencode l +:+ fragment_text f).

Definition graphic_fragment (f : option string) : Prop := sforall graphic (fragment_text f) = true.

Definition set_query (query fragment : string) (p : ParseResult) : ParseResult :=
  {| pr_scheme := pr_scheme p; pr_netloc := pr_netloc p; pr_path := pr_path p; pr_params := pr_params p;
     pr_query := query; pr_fragment := fragment |}.

Lemma clean_graphic s : sforall graphic s = true -> clean_url s = s.
Proof.
  intros Hs. unfold clean_url. assert (lstrip_c0 s = s) as ->.
  { destruct s as [|c s]; [done|]. simpl in *. apply andb_prop in Hs as [Hc _].
    by destruct c as [[] [] [] [] [] [] [] []]. }
  induction s as [|c s IH]; [done|]. simpl in *. apply andb_prop in Hs as [Hc Hs]. rewrite (IH Hs).
  by destruct c as [[] [] [] [] [] [] [] []].
Qed.

Lemma strip_graphic s : sforall graphic s = true -> strip s = s.
Proof.
  intros Hs. apply strip_nospace. eapply sforall_impl; [|exact Hs]. intros c.
  by destruct c as [[] [] [] [] [] [] [] []].
Qed.

Lemma partition_some_app c b a r x :
  partition_char c b = (a, Some r) -> partition_char c (b +:+ x) = (a, Some (r +:+ x)).
Proof.
  revert a. induction b as [|y b IH]; intros a; [done|]. rewrite string_cons_app. simpl.
  destruct (c =? y)%char; [by intros [= <- <-]|].
  destruct (partition_char c b) as [a' o]. intros [= <- ->]. by rewrite (IH a').
Qed.

Lemma partition_none_app c b x :
  contains_char c b = false ->
  partition_char c (b +:+ x) = (b +:+ (partition_char c x).1, (partition_char c x).2).
Proof.
  induction b as [|y b IH].
  { intros _. change (partition_char c x = ((partition_char c x).1, (partition_char c x).2)).
    by destruct (partition_char c x). }
  rewrite !string_cons_app. simpl.
  intros [-> Hb]%orb_false_elim. by rewrite (IH Hb).
Qed.

Lemma partition_parts c s a r : partition_char c s = (a, Some r) -> s = a +:+ String c r.
Proof.
  revert a. induction s as [|y s IH]; intros a; [done|]. simpl.
  destruct (Ascii.eqb_spec c y) as [->|]; [by intros [= <- <-]|].
  destruct (partition_char c s) as [a' o]. intros [= <- ->]. by rewrite string_cons_app, <-(IH a').
Qed.

Lemma partition_none_parts c s a : partition_char c s = (a, None) -> a = s /\ contains_char c s = false.
Proof.
  revert a. induction s as [|y s IH]; intros a; [by intros [= <-]|]. simpl.
  destruct (c =? y)%char; [done|]. destruct (partition_char c s) as [a' o]. intros [= <- ->].
  by destruct (IH a') as [-> ->].
Qed.

Section Query.
Context (t : string).
Let tail := String "?" t.

Lemma split_scheme_tail b :
  split_scheme (b +:+ tail) = ((split_scheme b).1, (split_scheme b).2 +:+ tail).
Proof.
  unfold split_scheme. destruct (partition_char ":" b) as [a [r|]] eqn:Hp.
  - rewrite (partition_some_app _ _ _ _ tail Hp). destruct a as [|c s]; [done|]. by destruct (_ && _).
  - apply partition_none_parts in Hp as [-> Hb]. rewrite partition_none_app by done.
    assert (Hf : forall x, sforall scheme_char (b +:+ String "?" x) = false).
    { intros x. rewrite sforall_app. simpl. by rewrite andb_false_r. }
    assert (exists x, (partition_char ":" tail).1 = String "?" x) as [x ->].
    { unfold tail. simpl. destruct (partition_char ":" t). by eexists. }
    destruct (partition_char ":" tail).2 as [r|].
    + specialize (Hf x). destruct (b +:+ String "?" x); [by destruct b|]. rewrite Hf, andb_false_r. by destruct b.
    + destruct (b +:+ String "?" x); by destruct b.
Qed.

Lemma break_at_tail b :
  break_at netloc_stop (b +:+ tail) = ((break_at netloc_stop b).1, (break_at netloc_stop b).2 +:+ tail).
Proof.
  induction b as [|c b IH]; [done|]. rewrite string_cons_app. simpl. destruct (netloc_stop c); [done|].
  rewrite IH. by destruct (break_at netloc_stop b).
Qed.

Lemma split_netloc_tail b :
  split_netloc (b +:+ tail) = ((split_netloc b).1, (split_netloc b).2 +:+ tail).
Proof.
  unfold split_netloc. destruct b as [|c [|c' b]]; [done| |].
  - by destruct c as [[] [] [] [] [] [] [] []].
  - rewrite !string_cons_app. cbn [strip_prefix]. destruct ("/" =? c)%char, ("/" =? c')%char; try done.
    apply break_at_tail.
Qed.
End Query.

Lemma split_scheme_rest b : sforall base_char b = true -> sforall base_char (split_scheme b).2 = true.
Proof.
  intros Hb. unfold split_scheme. destruct (partition_char ":" b) as [a [r|]] eqn:Hp; [|by destruct a].
  destruct a as [|c s]; [done|]. destruct (_ && _); [|done]. apply partition_parts in Hp. simpl.
  rewrite Hp, sforall_app in Hb. by apply andb_prop in Hb as [_ [_ Hr]%andb_prop].
Qed.

Lemma break_at_rest f b : sforall base_char b = true -> sforall base_char (break_at f b).2 = true.
Proof.
  induction b as [|c b IH]; [done|]. simpl. intros Hb. destruct (f c); [done|].
  apply andb_prop in Hb as [_ Hb]. specialize (IH Hb). by destruct (break_at f b).
Qed.

Lemma split_netloc_rest b : sforall base_char b = true -> sforall base_char (split_netloc b).2 = true.
Proof.
  intros Hb. unfold split_netloc. destruct (strip_prefix "//" b) as [r|] eqn:Hs; [|done]. apply break_at_rest.
  destruct b as [|c [|c' b]]; cbn [strip_prefix] in Hs; [done|by destruct ("/" =? c)%char|].
  destruct ("/" =? c)%char, ("/" =? c')%char; simplify_eq. simpl in Hb. by apply andb_prop in Hb as [_ [_ Hb]%andb_prop].
Qed.

Lemma urlencode_free c l : query_char c = false -> contains_char c (urlencode l) = false.
Proof. intros Hc. by apply (sforall_no_char query_char), Hc; apply urlencode_chars. Qed.

(** Parsing splits off the query and the fragment that [with_query] adds. *)
Lemma urlparse_with_query base l f :
  sforall base_char base = true -> graphic_fragment f ->
  urlparse (strip (with_query base l f)) =
    match urlparse base with Ok p => Ok (set_query (urlencode l) (default "" f) p) | Raise e => Raise e end.
Proof.
  intros Hb Hf. unfold with_query, graphic_fragment in *.
  assert (Hg : sforall graphic base = true).
  { eapply sforall_impl; [|exact Hb]. intros c. by destruct c as [[] [] [] [] [] [] [] []]. }
  assert (Hq : sforall graphic (urlencode l) = true).
  { eapply sforall_impl; [|apply urlencode_chars]. intros c. by destruct c as [[] [] [] [] [] [] [] []]. }
  assert (Hall : sforall graphic (base +:+ String "?" (urlencode l +:+ fragment_text f)) = true).
  { rewrite sforall_app, Hg. simpl. rewrite sforall_app, Hq. simpl. exact Hf. }
  rewrite strip_graphic by done. unfold urlparse. rewrite !clean_graphic by done.
  rewrite split_scheme_tail. pose proof (split_scheme_rest base Hb) as Hr.
  destruct (split_scheme base) as [scheme r]. simpl in Hr |- *.
  rewrite split_netloc_tail. pose proof (split_netloc_rest r Hr) as Hr'.
  destruct (split_netloc r) as [netloc r']. simpl in Hr' |- *.
  destruct (check_netloc netloc); simpl; [|done].
  assert (Hh : contains_char "#" r' = false) by (by apply (sforall_no_char base_char)).
  assert (Hm : contains_char "?" r' = false) by (by apply (sforall_no_char base_char)).
  assert (Hq' : contains_char "#" (r' +:+ String "?" (urlencode l)) = false)
    by (rewrite contains_char_app, Hh; simpl; by apply urlencode_free).
  rewrite <-string_cons_app, <-string_app_assoc.
  assert (Hsp : partition_char "#" ((r' +:+ String "?" (urlencode l)) +:+ fragment_text f)
                = (r' +:+ String "?" (urlencode l), f)).
  { destruct f as [f|]; [by apply partition_char_app|].
    simpl. rewrite string_app_nil. by apply partition_char_none. }
  rewrite Hsp. rewrite partition_char_app by done. rewrite !partition_char_none by done.
  by destruct (if bool_decide _ then split_params r' else _).
Qed.

(** ** What does not matter to the identity *)

Lemma dict_of_perm (l l' : list (string * string)) k :
  l ≡ₚ l' -> NoDup (map fst l) -> dget (dict_of l) k = dget (dict_of l') k.
Proof.
  intros Hp Hn. assert (Hn' : NoDup (map fst l')) by (by rewrite <-Hp). rewrite !dict_of_NoDup by done.
  assert (He : forall x, dget l k = Some x <-> dget l' k = Some x).
  { intros x. rewrite <-!elem_of_dget by done. by rewrite Hp. }
  destruct (dget l k) as [x|]; [symmetry; by apply He|].
  destruct (dget l' k) as [x|]; [|done]. by apply He.
Qed.

(** The order of the query parameters and the fragment do not matter: two URLs
    with the same text before the query, whose queries have the same parameters
    (each name once) in any order, have the same identity, whatever the site. *)
Theorem identity_ignores_query_order base l l' f f' :
  sforall base_char base = true -> graphic_fragment f -> graphic_fragment f' ->
  Forall utf8_pair l -> NoDup (map fst l) -> l ≡ₚ l' ->
  normalize_external_media_url (with_query base l f) = normalize_external_media_url (with_query base l' f').
Proof.
  intros Hb Hf Hf' Hu Hn Hp. assert (Hu' : Forall utf8_pair l') by (by rewrite <-Hp).
  unfold normalize_external_media_url. rewrite !urlparse_with_query by done.
  destruct (urlparse base) as [p|]; [|done]. simpl. f_equal. unfold media_identity, hostname, short_video_id. simpl.
  assert (watch_video_id (set_query (urlencode l) (default "" f) p) = watch_video_id (set_query (urlencode l') (default "" f') p)) as ->.
  { unfold watch_video_id, dget_or. simpl. rewrite !parse_qsl_urlencode by done. f_equal. f_equal.
    apply dict_of_perm; [|by apply NoDup_map_filter]. by apply Permutation_filter_bool. }
  assert (cleaned_url (set_query (urlencode l) (default "" f) p) = cleaned_url (set_query (urlencode l') (default "" f') p)) as ->; [|done].
  unfold cleaned_url. simpl. rewrite !parse_qsl_urlencode by done. do 3 f_equal.
  apply sort_pairs_perm. by apply Permutation_filter_bool.
Qed.

Lemma identity_ignores_query_order_witness :
  normalize_external_media_url (with_query "http://Example.org/a" [("b", "2"); ("a", "x y")] (Some "t"))
  = normalize_external_media_url (with_query "http://Example.org/a" [("a", "x y"); ("b", "2")] None).
Proof.
  apply (identity_ignores_query_order "http://Example.org/a" [("b", "2"); ("a", "x y")] [("a", "x y"); ("b", "2")]
           (Some "t") None).
  - reflexivity.
  - reflexivity.
  - reflexivity.
  - apply Forall_cons. split; [split; reflexivity|]. apply Forall_cons. split; [split; reflexivity|]. constructor.
  - apply (bool_decide_unpack _). vm_compute. exact I.
  - apply perm_swap.
Defined.

(** The characters of a video id. *)
Definition video_id_char (c : ascii) : bool := is_alnum c || (c =? "_")%char || (c =? "-")%char.

Definition video_id (id : string) : Prop := id <> "" /\ sforall video_id_char id = true.

Lemma quote_video_id id : sforall video_id_char id = true -> quote_plus id = id.
Proof.
  induction id as [|c id IH]; [done|]. simpl. intros [Hc Hs]%andb_prop. rewrite (IH Hs). unfold quote_char.
  assert (always_safe c = true) as ->; [|done]. by destruct c as [[] [] [] [] [] [] [] []].
Qed.

Lemma video_id_utf8 id : sforall video_id_char id = true -> utf8 id.
Proof.
  intros Hs. apply ascii_utf8. eapply sforall_impl; [|exact Hs]. intros c.
  by destruct c as [[] [] [] [] [] [] [] []].
Qed.

(** No white space outside ASCII begins with an ASCII character. *)
Definition begins_high (p : list ascii) : bool :=
  match p with x :: _ => (128 <=? ascii_code x)%Z | [] => false end.

Lemma no_prefix spaces c l :
  forallb begins_high spaces = true -> (ascii_code c < 128)%Z -> omap (fun p => drop_prefix p (c :: l)) spaces = [].
Proof.
  intros Hs Hc. induction spaces as [|p spaces IH]; [done|]. simpl in *. apply andb_prop in Hs as [Hp Hs].
  assert (drop_prefix p (c :: l) = None) as ->; [|by apply IH].
  destruct p as [|x p]; [done|]. unfold drop_prefix. rewrite bool_decide_false; [done|].
  simpl in Hp |- *. intros [= <- _]. apply Z.leb_le in Hp. lia.
Qed.

Lemma strip_left_id n spaces c l :
  forallb begins_high spaces = true -> video_id_char c = true -> strip_left n spaces (c :: l) = c :: l.
Proof.
  intros Hs Hc. assert (Hc' : is_space c = false /\ (ascii_code c < 128)%Z).
  { split; [|apply Z.ltb_lt]; by destruct c as [[] [] [] [] [] [] [] []]. }
  destruct Hc' as [Hsp Ha]. destruct n as [|n]; [done|]. cbn [strip_left]. by rewrite Hsp, no_prefix.
Qed.

Lemma list_ascii_forall f s : sforall f s = true -> Forall (fun c => f c = true) (String.list_ascii_of_string s).
Proof. induction s as [|c s IH]; [constructor|]. simpl. intros [Hc Hs]%andb_prop. constructor; auto. Qed.

Lemma strip_text_video_id id : video_id id -> strip_text id = id.
Proof.
  intros [Hne Hs%list_ascii_forall]. unfold strip_text.
  destruct (String.list_ascii_of_string id) as [|c l] eqn:Hl; [by destruct id|].
  rewrite strip_left_id; [|by vm_compute|by apply Forall_cons in Hs as [Hc _]].
  rewrite <-Hl in *. destruct (rev (String.list_ascii_of_string id)) as [|d r] eqn:Hr.
  { apply (f_equal (@rev ascii)) in Hr. rewrite rev_involutive, Hl in Hr. done. }
  rewrite strip_left_id; [|by vm_compute|].
  - rewrite <-Hr, rev_involutive. apply String.string_of_list_ascii_of_string.
  - rewrite Forall_forall in Hs. apply Hs. rewrite <-(rev_involutive (String.list_ascii_of_string id)), Hr.
    apply list_elem_of_In. apply in_rev. rewrite rev_involutive. by left.
Qed.

Lemma dict_of_single (l1 l2 : list (string * string)) k v :
  k ∉ map fst (l1 ++ l2) -> dget (dict_of (l1 ++ (k, v) :: l2)) k = Some v.
Proof.
  intros Hk. assert (Hin : k ∈ dkeys (dict_of (l1 ++ (k, v) :: l2))).
  { apply elem_of_dkeys_dict_of. rewrite map_app. apply elem_of_app. right. by left. }
  apply elem_of_dkeys in Hin as [x Hx]. rewrite Hx. f_equal. apply dget_dict_of_elem in Hx.
  rewrite elem_of_app, elem_of_cons in Hx. rewrite map_app, not_elem_of_app in Hk.
  destruct Hx as [Hx|[[= ->]|Hx]]; [|done|]; exfalso; [apply (proj1 Hk)|apply (proj2 Hk)];
    by apply (list_elem_of_fmap_2 fst _ _ Hx).
Qed.

Lemma watch_identity base p l1 l2 id f :
  sforall base_char base = true -> urlparse base = Ok p ->
  _host_matches (lower (default "" (hostname p))) "youtu.be" = false ->
  _host_matches (lower (default "" (hostname p))) "youtube.com" = true ->
  video_id id -> Forall utf8_pair (l1 ++ l2) -> "v" ∉ map fst (l1 ++ l2) -> graphic_fragment f ->
  normalize_external_media_url (with_query base (l1 ++ ("v", id) :: l2) f) = Ok (youtube_url id).
Proof.
  intros Hb Hp Hshort Hlong Hid Hu Hv Hf. unfold normalize_external_media_url.
  rewrite urlparse_with_query, Hp by done. simpl. f_equal. unfold media_identity.
  change (hostname (set_query _ _ p)) with (hostname p). rewrite Hshort, Hlong. simpl.
  assert (Hw : watch_video_id (set_query (urlencode (l1 ++ ("v", id) :: l2)) (default "" f) p) = id).
  { unfold watch_video_id, dget_or. simpl. rewrite parse_qsl_urlencode.
    2: { apply Forall_app in Hu as [H1 H2]. apply Forall_app. split; [done|]. constructor; [|done].
         split; [done|]. by apply video_id_utf8, Hid. }
    rewrite List.filter_app. simpl. assert (is_empty id = false) as -> by (by destruct id, Hid). simpl.
    rewrite dict_of_single; [by apply strip_text_video_id|]. rewrite <-List.filter_app.
    intros (kv & Hkv & Hin)%list_elem_of_fmap. apply Hv. rewrite Hkv. apply list_elem_of_fmap_2.
    by apply elem_of_lfilter in Hin as [Hin _]. }
  rewrite Hw. unfold nonempty. by destruct id, Hid.
Qed.

(** *** The short address *)

Lemma split_params_none s : contains_char ";" s = false -> split_params s = (s, "").
Proof.
  induction s as [|c s IH]; [done|]. cbn [split_params contains_char]. intros [Hc Hs]%orb_false_elim.
  rewrite Ascii.eqb_sym, Hc. cbn [andb]. by rewrite IH.
Qed.

Lemma rstrip_char_none c s : contains_char c s = false -> rstrip_char c s = s.
Proof.
  induction s as [|x s IH]; [done|]. simpl. intros [Hx Hs]%orb_false_elim. rewrite (IH Hs), Hx. by destruct s.
Qed.

Lemma short_identity id : video_id id -> normalize_external_media_url ("https://youtu.be/" +:+ id) = Ok (youtube_url id).
Proof.
  intros [Hne Hs]. pose proof (fun c => sforall_no_char video_id_char c id Hs) as Hfree.
  assert (Hg : sforall graphic ("https://youtu.be/" +:+ id) = true).
  { rewrite sforall_app. eapply sforall_impl; [|exact Hs]. intros c. by destruct c as [[] [] [] [] [] [] [] []]. }
  unfold normalize_external_media_url. rewrite strip_graphic by done. unfold urlparse. rewrite clean_graphic by done.
  assert (split_scheme ("https://youtu.be/" +:+ id) = ("https", "//youtu.be/" +:+ id)) as -> by done.
  assert (split_netloc ("//youtu.be/" +:+ id) = ("youtu.be", String "/" id)) as -> by done.
  cbn [partition_char]. rewrite !partition_char_none by (by apply Hfree). simpl.
  rewrite partition_char_none by (by apply Hfree). rewrite split_params_none by (by apply Hfree). simpl.
  assert (Hseg : split_char "/" (strip_char "/" (String "/" id)) = [id]).
  { unfold strip_char. cbn [rstrip_char]. rewrite rstrip_char_none by (by apply Hfree).
    specialize (Hfree "/"%char eq_refl). destruct id as [|c id]; [done|].
    cbn [lstrip_char]. rewrite Ascii.eqb_refl. pose proof Hfree as Hc. cbn [contains_char] in Hc.
    apply orb_false_elim in Hc as [-> _]. by apply split_char_none. }
  unfold media_identity. simpl. unfold short_video_id. cbn [pr_path]. rewrite Hseg. by destruct id.
Qed.

(** A YouTube video has one identity: the watch page of any YouTube host with
    any other parameters and fragment, the short link, and the canonical address
    itself all normalize to the canonical address. *)
Theorem youtube_one_identity base p l1 l2 id f :
  sforall base_char base = true -> urlparse base = Ok p ->
  _host_matches (lower (default "" (hostname p))) "youtu.be" = false ->
  _host_matches (lower (default "" (hostname p))) "youtube.com" = true ->
  video_id id -> Forall utf8_pair (l1 ++ l2) -> "v" ∉ map fst (l1 ++ l2) -> graphic_fragment f ->
  normalize_external_media_url (with_query base (l1 ++ ("v", id) :: l2) f) = Ok (youtube_url id) /\
  normalize_external_media_url ("https://youtu.be/" +:+ id) = Ok (youtube_url id) /\
  normalize_external_media_url (youtube_url id) = Ok (youtube_url id).
Proof.
  intros Hb Hp Hshort Hlong Hid Hu Hv Hf. split_and!; [by eapply watch_identity | by apply short_identity|].
  assert (youtube_url id = with_query "https://www.youtube.com/watch" ([] ++ ("v", id) :: []) None) as Hy.
  { unfold with_query, urlencode. simpl. rewrite (quote_video_id id) by apply Hid.
    change (quote_plus "v") with "v". by rewrite string_app_nil. }
  rewrite Hy at 1. eapply watch_identity; try done. by apply not_elem_of_nil.
Qed.

Lemma youtube_one_identity_witness :
  normalize_external_media_url (with_query "http://m.YouTube.com:80/watch" ([("list", "a b")] ++ ("v", "abc_-9") :: []) (Some "t=1"))
    = Ok (youtube_url "abc_-9") /\
  normalize_external_media_url ("https://youtu.be/" +:+ "abc_-9") = Ok (youtube_url "abc_-9") /\
  normalize_external_media_url (youtube_url "abc_-9") = Ok (youtube_url "abc_-9").
Proof.
  eapply (youtube_one_identity "http://m.YouTube.com:80/watch" _ [("list", "a b")] [] "abc_-9" (Some "t=1")).
  - reflexivity.
  - vm_compute. reflexivity.
  - reflexivity.
  - reflexivity.
  - split; [discriminate | reflexivity].
  - apply Forall_cons. split; [split; reflexivity | constructor].
  - apply (bool_decide_unpack _). vm_compute. exact I.
  - reflexivity.
Defined.

(** Malformed addresses raise a Python exception. *)
Lemma normalize_raise url e : normalize_external_media_url url = Raise e -> e <> Diverges.
Proof.
  assert (Hh : forall h e, check_bracketed_host h = Raise e -> e <> Diverges).
  { intros h e'. unfold check_bracketed_host. repeat case_match; by intros [= <-]. }
  assert (Hn : forall n e, check_netloc n = Raise e -> e <> Diverges).
  { intros n e'. unfold check_netloc, check_bracketed_netloc.
    destruct (xorb _ _); [by intros [= <-]|]. destruct (contains_char "[" n); [|done].
    destruct (partition_char "[" _) as [b [br|]]; [|apply Hh].
    destruct (negb _); [by intros [= <-]|]. destruct (partition_char "]" br) as [h port].
    destruct (_ && _); [by intros [= <-]|]. apply Hh. }
  unfold normalize_external_media_url, urlparse.
  destruct (split_scheme _) as [scheme r]. destruct (split_netloc r) as [n r'].
  destruct (check_netloc n) as [[]|e'] eqn:Hc; simpl; [|intros [= <-]; by eapply Hn].
  destruct (partition_char "#" r') as [r'' f]. destruct (partition_char "?" r'') as [path q].
  by destruct (if bool_decide _ then _ else _).
Qed.
