(* ===== verification/NodeRegistry.v ===== *)
(** * Node type registry ([node_registry/base.py], [node_registry/registry.py])

    The typed catalogue of node types: port and parameter declarations, the
    registry keyed by type name, and the port-compatibility test for edges. *)

From stdpp Require Import base tactics list strings.
From Stdlib Require Import ZArith Lia.
From S2P Require Import Prelude PyStr PyValue.

(** ** Declarations ([base.py]) *)

Inductive PortType : Set :=
| VIDEO | AUDIO | IMAGE | SUBTITLE | ANY_MEDIA | SEARCH_RESULTS | URL_VALUE | ASSET_VALUE.

#[export] Instance PortType_eq_dec : EqDecision PortType.
Proof. solve_decision. Defined.

(** [PortType(...).value]. *)
Definition PortType_value (t : PortType) : string :=
  match t with
  | VIDEO => "video"
  | AUDIO => "audio"
  | IMAGE => "image"
  | SUBTITLE => "subtitle"
  | ANY_MEDIA => "any_media"
  | SEARCH_RESULTS => "search_results"
  | URL_VALUE => "url_value"
  | ASSET_VALUE => "asset_value"
  end.

Record PortDefinition := {
  port_name : string;
  port_type : PortType;
  port_required : bool;
  port_description : string }.

Record ParamDefinition := {
  param_name : string;
  param_type : string;
  param_default : pyval;
  param_required : bool;
  param_description : string;
  param_options : option (list string);
  param_min_value : option pyval;
  param_max_value : option pyval }.

Record NodeTypeDefinition := {
  type_name : string;
  display_name : string;
  category : string;
  nt_description : string;
  icon : string;
  inputs : list PortDefinition;
  outputs : list PortDefinition;
  params : list ParamDefinition;
  worker_type : string }.

(** ** Registry ([registry.py])

    [_types] maps a type name to its definition, in registration order. *)

Abbreviation NodeTypeRegistry := (list (string * NodeTypeDefinition)).

Definition register (reg : NodeTypeRegistry) (d : NodeTypeDefinition) : NodeTypeRegistry :=
  reg.[type_name d <- d].

Definition get_type (reg : NodeTypeRegistry) (name : string) : option NodeTypeDefinition :=
  reg.[? name].

Definition list_types (reg : NodeTypeRegistry) : list NodeTypeDefinition := dvalues reg.

(** [next((p for p in ports if p.name == name), None)]. *)
Definition find_port (ports : list PortDefinition) (name : string) : option PortDefinition :=
  List.find (fun p => (port_name p =? name)%string) ports.

Definition validate_edge (reg : NodeTypeRegistry)
    (source_type source_port target_type target_port : string) : bool :=
  match get_type reg source_type, get_type reg target_type with
  | Some src_def, Some tgt_def =>
      match find_port (outputs src_def) source_port, find_port (inputs tgt_def) target_port with
      | Some src_port_def, Some tgt_port_def =>
          if decide (port_type tgt_port_def = ANY_MEDIA) then true
          else if decide (port_type src_port_def = ANY_MEDIA) then true
          else bool_decide (port_type src_port_def = port_type tgt_port_def)
      | _, _ => false
      end
  | _, _ => false
  end.

(** [_load_builtins]: register every module's [DEFINITION] in order. *)
Definition load_builtins (modules : list NodeTypeDefinition) : NodeTypeRegistry :=
  fold_left register modules [].
