(* ===== verification/Builtins.v ===== *)
(** * The built-in node types ([node_registry/builtin/*.py])

    One definition per module of the package, field by field, and the registry
    [NodeTypeRegistry.get] serves: every module registered in the order of
    [BUILTIN_MODULES]. *)

From stdpp Require Import base tactics list strings.
From Stdlib Require Import ZArith Lia.
From S2P Require Import Prelude PyStr PyValue NodeRegistry.

Open Scope string_scope.

Definition source_DEFINITION : NodeTypeDefinition := {|
    type_name := "source";
    display_name := "Source";
    category := "source";
    nt_description := "Input source referencing an uploaded asset";
    icon := "upload";
    inputs := [{| port_name := "asset_input"; port_type := ASSET_VALUE; port_required := false;
        port_description := "Optional planner-provided asset reference" |}];
    outputs := [{| port_name := "output"; port_type := ANY_MEDIA; port_required := true;
        port_description := "Source media output" |}];
    params := [{| param_name := "asset_id"; param_type := "string";
        param_default := VNone; param_required := true;
        param_description := "ID of the uploaded asset";
        param_options := None;
        param_min_value := None; param_max_value := None |};
      {| param_name := "media_type"; param_type := "select";
        param_default := VStr "video"; param_required := false;
        param_description := "Type of the source media";
        param_options := Some ["video"; "audio"; "image"; "subtitle"];
        param_min_value := None; param_max_value := None |}];
    worker_type := "none" |}.

Definition concat_horizontal_DEFINITION : NodeTypeDefinition := {|
    type_name := "concat_horizontal";
    display_name := "Horizontal Concat";
    category := "combine";
    nt_description := "Place two videos side by side horizontally";
    icon := "columns";
    inputs := [{| port_name := "video_left"; port_type := VIDEO; port_required := true;
        port_description := "Left video" |};
      {| port_name := "video_right"; port_type := VIDEO; port_required := true;
        port_description := "Right video" |}];
    outputs := [{| port_name := "output"; port_type := VIDEO; port_required := true;
        port_description := "Combined video" |}];
    params := [{| param_name := "output_format"; param_type := "select";
        param_default := VStr "mp4"; param_required := false;
        param_description := "";
        param_options := Some ["mp4"; "mkv"; "webm"];
        param_min_value := None; param_max_value := None |};
      {| param_name := "resize_mode"; param_type := "select";
        param_default := VStr "match_height"; param_required := false;
        param_description := "How to handle different resolutions";
        param_options := Some ["match_height"; "match_width"; "none"];
        param_min_value := None; param_max_value := None |}];
    worker_type := "ffmpeg_go" |}.

Definition concat_vertical_DEFINITION : NodeTypeDefinition := {|
    type_name := "concat_vertical";
    display_name := "Vertical Concat";
    category := "combine";
    nt_description := "Stack two videos vertically (top and bottom)";
    icon := "rows";
    inputs := [{| port_name := "video_top"; port_type := VIDEO; port_required := true;
        port_description := "Top video" |};
      {| port_name := "video_bottom"; port_type := VIDEO; port_required := true;
        port_description := "Bottom video" |}];
    outputs := [{| port_name := "output"; port_type := VIDEO; port_required := true;
        port_description := "Combined video" |}];
    params := [{| param_name := "output_format"; param_type := "select";
        param_default := VStr "mp4"; param_required := false;
        param_description := "";
        param_options := Some ["mp4"; "mkv"; "webm"];
        param_min_value := None; param_max_value := None |};
      {| param_name := "resize_mode"; param_type := "select";
        param_default := VStr "match_width"; param_required := false;
        param_description := "How to handle different resolutions";
        param_options := Some ["match_height"; "match_width"; "none"];
        param_min_value := None; param_max_value := None |}];
    worker_type := "ffmpeg_go" |}.

Definition concat_timeline_DEFINITION : NodeTypeDefinition := {|
    type_name := "concat_timeline";
    display_name := "Timeline Concat";
    category := "combine";
    nt_description := "Concatenate videos sequentially on a dynamic timeline.";
    icon := "git-merge";
    inputs := [{| port_name := "video_1"; port_type := VIDEO; port_required := true;
        port_description := "Video input 1" |};
      {| port_name := "video_2"; port_type := VIDEO; port_required := true;
        port_description := "Video input 2" |}];
    outputs := [{| port_name := "output"; port_type := VIDEO; port_required := true;
        port_description := "Concatenated video" |}];
    params := [{| param_name := "input_count"; param_type := "number";
        param_default := VInt (2); param_required := false;
        param_description := "Visible timeline input ports; expands automatically as inputs are connected";
        param_options := None;
        param_min_value := Some (VInt (2)); param_max_value := None |};
      {| param_name := "output_format"; param_type := "select";
        param_default := VStr "mp4"; param_required := false;
        param_description := "";
        param_options := Some ["mp4"; "mkv"; "webm"];
        param_min_value := None; param_max_value := None |};
      {| param_name := "transition"; param_type := "select";
        param_default := VStr "none"; param_required := false;
        param_description := "Transition effect between clips";
        param_options := Some ["none"; "fade"; "dissolve"];
        param_min_value := None; param_max_value := None |};
      {| param_name := "transition_duration"; param_type := "number";
        param_default := VFloat (float_of_dec false 5 (-1)); param_required := false;
        param_description := "Transition duration in seconds";
        param_options := None;
        param_min_value := Some (VFloat (float_of_dec false 0 (-1))); param_max_value := Some (VFloat (float_of_dec false 50 (-1))) |}];
    worker_type := "ffmpeg_go" |}.

Definition concat_many_DEFINITION : NodeTypeDefinition := {|
    type_name := "concat_many";
    display_name := "Concat Many";
    category := "combine";
    nt_description := "Concatenate videos sequentially with dynamic timeline inputs.";
    icon := "git-merge";
    inputs := [{| port_name := "video_1"; port_type := VIDEO; port_required := true;
        port_description := "Video input 1" |};
      {| port_name := "video_2"; port_type := VIDEO; port_required := true;
        port_description := "Video input 2" |}];
    outputs := [{| port_name := "output"; port_type := VIDEO; port_required := true;
        port_description := "Concatenated video" |}];
    params := [{| param_name := "input_count"; param_type := "number";
        param_default := VInt (2); param_required := false;
        param_description := "Visible timeline input ports; expands automatically as inputs are connected";
        param_options := None;
        param_min_value := Some (VInt (2)); param_max_value := None |};
      {| param_name := "output_format"; param_type := "select";
        param_default := VStr "mp4"; param_required := false;
        param_description := "";
        param_options := Some ["mp4"; "mkv"; "webm"];
        param_min_value := None; param_max_value := None |};
      {| param_name := "transition"; param_type := "select";
        param_default := VStr "none"; param_required := false;
        param_description := "";
        param_options := Some ["none"; "fade"; "dissolve"];
        param_min_value := None; param_max_value := None |};
      {| param_name := "transition_duration"; param_type := "number";
        param_default := VFloat (float_of_dec false 3 (-1)); param_required := false;
        param_description := "";
        param_options := None;
        param_min_value := Some (VInt (0)); param_max_value := Some (VInt (5)) |};
      {| param_name := "target_duration"; param_type := "number";
        param_default := VInt (30); param_required := false;
        param_description := "";
        param_options := None;
        param_min_value := Some (VInt (0)); param_max_value := Some (VInt (3600)) |};
      {| param_name := "normalize_resolution"; param_type := "boolean";
        param_default := VBool true; param_required := false;
        param_description := "";
        param_options := None;
        param_min_value := None; param_max_value := None |};
      {| param_name := "aspect_ratio"; param_type := "select";
        param_default := VStr "9:16"; param_required := false;
        param_description := "";
        param_options := Some ["9:16"; "16:9"; "1:1"; "auto"];
        param_min_value := None; param_max_value := None |};
      {| param_name := "width"; param_type := "number";
        param_default := VInt (1080); param_required := false;
        param_description := "";
        param_options := None;
        param_min_value := Some (VInt (64)); param_max_value := Some (VInt (7680)) |};
      {| param_name := "height"; param_type := "number";
        param_default := VInt (1920); param_required := false;
        param_description := "";
        param_options := None;
        param_min_value := Some (VInt (64)); param_max_value := Some (VInt (7680)) |}];
    worker_type := "ffmpeg_go" |}.

Definition montage_assembler_DEFINITION : NodeTypeDefinition := {|
    type_name := "montage_assembler";
    display_name := "Montage Assembler";
    category := "combine";
    nt_description := "Assemble 2 to 12 clips into a short-form montage.";
    icon := "film";
    inputs := map (fun index => {| port_name := "video_" +:+ str_of_Z index; port_type := VIDEO;
        port_required := (index <=? 2)%Z; port_description := "Video input " +:+ str_of_Z index |})
      (range 1 13);
    outputs := [{| port_name := "output"; port_type := VIDEO; port_required := true;
        port_description := "Assembled montage video" |}];
    params := [{| param_name := "style"; param_type := "select";
        param_default := VStr "fast_cuts"; param_required := false;
        param_description := "Montage pacing style";
        param_options := Some ["fast_cuts"; "balanced"; "cinematic"];
        param_min_value := None; param_max_value := None |};
      {| param_name := "target_duration"; param_type := "number";
        param_default := VInt (30); param_required := false;
        param_description := "";
        param_options := None;
        param_min_value := Some (VInt (0)); param_max_value := Some (VInt (3600)) |};
      {| param_name := "aspect_ratio"; param_type := "select";
        param_default := VStr "9:16"; param_required := false;
        param_description := "";
        param_options := Some ["9:16"; "16:9"; "1:1"; "auto"];
        param_min_value := None; param_max_value := None |};
      {| param_name := "beat_sync"; param_type := "boolean";
        param_default := VBool false; param_required := false;
        param_description := "";
        param_options := None;
        param_min_value := None; param_max_value := None |};
      {| param_name := "max_clip_duration"; param_type := "number";
        param_default := VInt (6); param_required := false;
        param_description := "";
        param_options := None;
        param_min_value := Some (VFloat (float_of_dec false 5 (-1))); param_max_value := Some (VInt (120)) |};
      {| param_name := "min_clip_duration"; param_type := "number";
        param_default := VInt (1); param_required := false;
        param_description := "";
        param_options := None;
        param_min_value := Some (VFloat (float_of_dec false 1 (-1))); param_max_value := Some (VInt (120)) |};
      {| param_name := "intro_hook"; param_type := "string";
        param_default := VStr ""; param_required := false;
        param_description := "";
        param_options := None;
        param_min_value := None; param_max_value := None |};
      {| param_name := "width"; param_type := "number";
        param_default := VInt (1080); param_required := false;
        param_description := "";
        param_options := None;
        param_min_value := Some (VInt (64)); param_max_value := Some (VInt (7680)) |};
      {| param_name := "height"; param_type := "number";
        param_default := VInt (1920); param_required := false;
        param_description := "";
        param_options := None;
        param_min_value := Some (VInt (64)); param_max_value := Some (VInt (7680)) |}];
    worker_type := "ffmpeg_go" |}.

Definition concat_vertical_timeline_DEFINITION : NodeTypeDefinition := {|
    type_name := "concat_vertical_timeline";
    display_name := "Vertical Timeline Concat";
    category := "combine";
    nt_description := "Play one video on top with a static bottom image, then switch to a second video on bottom with a static top image.";
    icon := "rows-3";
    inputs := [{| port_name := "video_first"; port_type := VIDEO; port_required := true;
        port_description := "Video shown in the first segment" |};
      {| port_name := "video_second"; port_type := VIDEO; port_required := true;
        port_description := "Video shown in the second segment" |};
      {| port_name := "image_top"; port_type := IMAGE; port_required := false;
        port_description := "Optional static image shown on top during the second segment. Defaults to the fifteenth frame from the end of the first video, or the last frame if the video is shorter." |};
      {| port_name := "image_bottom"; port_type := IMAGE; port_required := false;
        port_description := "Optional static image shown on bottom during the first segment. Defaults to the fifteenth frame of the second video, or the last frame if the video is shorter." |}];
    outputs := [{| port_name := "output"; port_type := VIDEO; port_required := true;
        port_description := "Combined vertical timeline video" |}];
    params := [{| param_name := "pane_width"; param_type := "number";
        param_default := VInt (640); param_required := false;
        param_description := "Width of each pane in pixels";
        param_options := None;
        param_min_value := Some (VInt (160)); param_max_value := Some (VInt (2160)) |};
      {| param_name := "pane_height"; param_type := "number";
        param_default := VInt (360); param_required := false;
        param_description := "Height of each pane in pixels";
        param_options := None;
        param_min_value := Some (VInt (90)); param_max_value := Some (VInt (2160)) |};
      {| param_name := "background_color"; param_type := "string";
        param_default := VStr "black"; param_required := false;
        param_description := "Pad color used when media aspect ratios do not match the pane size";
        param_options := None;
        param_min_value := None; param_max_value := None |};
      {| param_name := "output_format"; param_type := "select";
        param_default := VStr "mp4"; param_required := false;
        param_description := "";
        param_options := Some ["mp4"; "mkv"; "webm"];
        param_min_value := None; param_max_value := None |}];
    worker_type := "ffmpeg_go" |}.

Definition trim_DEFINITION : NodeTypeDefinition := {|
    type_name := "trim";
    display_name := "Trim";
    category := "transform";
    nt_description := "Trim a video to a specific time range";
    icon := "scissors";
    inputs := [{| port_name := "input"; port_type := VIDEO; port_required := true;
        port_description := "Input video" |}];
    outputs := [{| port_name := "output"; port_type := VIDEO; port_required := true;
        port_description := "Trimmed video" |}];
    params := [{| param_name := "start_time"; param_type := "string";
        param_default := VStr "00:00:00"; param_required := true;
        param_description := "Start time (HH:MM:SS or seconds)";
        param_options := None;
        param_min_value := None; param_max_value := None |};
      {| param_name := "end_time"; param_type := "string";
        param_default := VStr ""; param_required := false;
        param_description := "End time (HH:MM:SS or seconds, empty for end of video)";
        param_options := None;
        param_min_value := None; param_max_value := None |};
      {| param_name := "duration"; param_type := "string";
        param_default := VStr ""; param_required := false;
        param_description := "Duration (alternative to end_time)";
        param_options := None;
        param_min_value := None; param_max_value := None |}];
    worker_type := "ffmpeg_go" |}.

Definition watermark_DEFINITION : NodeTypeDefinition := {|
    type_name := "watermark";
    display_name := "Watermark";
    category := "transform";
    nt_description := "Add an image watermark overlay to a video";
    icon := "image";
    inputs := [{| port_name := "video"; port_type := VIDEO; port_required := true;
        port_description := "Input video" |};
      {| port_name := "overlay"; port_type := IMAGE; port_required := true;
        port_description := "Watermark image" |}];
    outputs := [{| port_name := "output"; port_type := VIDEO; port_required := true;
        port_description := "Watermarked video" |}];
    params := [{| param_name := "position"; param_type := "select";
        param_default := VStr "bottom_right"; param_required := false;
        param_description := "Watermark position";
        param_options := Some ["top_left"; "top_right"; "bottom_left"; "bottom_right"; "center"];
        param_min_value := None; param_max_value := None |};
      {| param_name := "opacity"; param_type := "number";
        param_default := VFloat (float_of_dec false 8 (-1)); param_required := false;
        param_description := "Watermark opacity (0-1)";
        param_options := None;
        param_min_value := Some (VFloat (float_of_dec false 0 (-1))); param_max_value := Some (VFloat (float_of_dec false 10 (-1))) |};
      {| param_name := "scale"; param_type := "number";
        param_default := VFloat (float_of_dec false 15 (-2)); param_required := false;
        param_description := "Watermark scale relative to video width";
        param_options := None;
        param_min_value := Some (VFloat (float_of_dec false 1 (-2))); param_max_value := Some (VFloat (float_of_dec false 10 (-1))) |};
      {| param_name := "margin"; param_type := "number";
        param_default := VInt (10); param_required := false;
        param_description := "Margin from edge in pixels";
        param_options := None;
        param_min_value := Some (VInt (0)); param_max_value := Some (VInt (500)) |}];
    worker_type := "ffmpeg_go" |}.

Definition subtitle_DEFINITION : NodeTypeDefinition := {|
    type_name := "subtitle";
    display_name := "Subtitle";
    category := "transform";
    nt_description := "Burn subtitles into a video";
    icon := "captions";
    inputs := [{| port_name := "video"; port_type := VIDEO; port_required := true;
        port_description := "Input video" |};
      {| port_name := "subtitle_file"; port_type := SUBTITLE; port_required := true;
        port_description := "Subtitle file (SRT/ASS)" |}];
    outputs := [{| port_name := "output"; port_type := VIDEO; port_required := true;
        port_description := "Video with subtitles" |}];
    params := [{| param_name := "font_size"; param_type := "number";
        param_default := VInt (24); param_required := false;
        param_description := "Subtitle font size";
        param_options := None;
        param_min_value := Some (VInt (8)); param_max_value := Some (VInt (72)) |};
      {| param_name := "font_color"; param_type := "string";
        param_default := VStr "white"; param_required := false;
        param_description := "Subtitle font color";
        param_options := None;
        param_min_value := None; param_max_value := None |};
      {| param_name := "outline_color"; param_type := "string";
        param_default := VStr "black"; param_required := false;
        param_description := "Subtitle outline color";
        param_options := None;
        param_min_value := None; param_max_value := None |};
      {| param_name := "position"; param_type := "select";
        param_default := VStr "bottom"; param_required := false;
        param_description := "Subtitle vertical position";
        param_options := Some ["top"; "center"; "bottom"];
        param_min_value := None; param_max_value := None |}];
    worker_type := "ffmpeg" |}.

Definition speech_to_subtitle_DEFINITION : NodeTypeDefinition := {|
    type_name := "speech_to_subtitle";
    display_name := "Speech To Subtitle";
    category := "audio";
    nt_description := "Transcribe spoken audio from a media input into an SRT subtitle file";
    icon := "mic";
    inputs := [{| port_name := "media"; port_type := ANY_MEDIA; port_required := true;
        port_description := "Audio or video source" |}];
    outputs := [{| port_name := "output"; port_type := SUBTITLE; port_required := true;
        port_description := "Generated subtitle file" |}];
    params := [{| param_name := "model"; param_type := "select";
        param_default := VStr "medium"; param_required := false;
        param_description := "Whisper model size";
        param_options := Some ["tiny"; "base"; "small"; "medium"; "large-v3"];
        param_min_value := None; param_max_value := None |};
      {| param_name := "language"; param_type := "string";
        param_default := VStr ""; param_required := false;
        param_description := "Optional language hint such as en or zh";
        param_options := None;
        param_min_value := None; param_max_value := None |};
      {| param_name := "beam_size"; param_type := "number";
        param_default := VInt (5); param_required := false;
        param_description := "Decoding beam size";
        param_options := None;
        param_min_value := Some (VInt (1)); param_max_value := Some (VInt (10)) |};
      {| param_name := "merge_adjacent"; param_type := "boolean";
        param_default := VBool true; param_required := false;
        param_description := "Merge adjacent short subtitle segments to make downstream translation/TTS smoother";
        param_options := None;
        param_min_value := None; param_max_value := None |};
      {| param_name := "merge_max_gap_seconds"; param_type := "number";
        param_default := VFloat (float_of_dec false 6 (-1)); param_required := false;
        param_description := "Maximum silence gap allowed when merging neighboring subtitle cues";
        param_options := None;
        param_min_value := Some (VInt (0)); param_max_value := Some (VInt (5)) |};
      {| param_name := "merge_min_chars"; param_type := "number";
        param_default := VInt (40); param_required := false;
        param_description := "Treat subtitle cues shorter than this as merge candidates";
        param_options := None;
        param_min_value := Some (VInt (1)); param_max_value := Some (VInt (200)) |};
      {| param_name := "merge_min_duration_seconds"; param_type := "number";
        param_default := VFloat (float_of_dec false 22 (-1)); param_required := false;
        param_description := "Treat subtitle cues shorter than this duration as merge candidates";
        param_options := None;
        param_min_value := Some (VFloat (float_of_dec false 1 (-1))); param_max_value := Some (VInt (10)) |};
      {| param_name := "merge_max_duration_seconds"; param_type := "number";
        param_default := VFloat (float_of_dec false 80 (-1)); param_required := false;
        param_description := "Never merge subtitle cues into a segment longer than this duration";
        param_options := None;
        param_min_value := Some (VFloat (float_of_dec false 5 (-1))); param_max_value := Some (VInt (30)) |}];
    worker_type := "ffmpeg" |}.

Definition smart_trim_DEFINITION : NodeTypeDefinition := {|
    type_name := "smart_trim";
    display_name := "Smart Trim";
    category := "ai_transform";
    nt_description := "Find and trim video segments by natural language prompt";
    icon := "sparkles-scissors";
    inputs := [{| port_name := "input"; port_type := VIDEO; port_required := true;
        port_description := "Input video" |}];
    outputs := [{| port_name := "output"; port_type := VIDEO; port_required := true;
        port_description := "Matched video clip, montage, or original video" |}];
    params := [{| param_name := "prompt"; param_type := "string";
        param_default := VNone; param_required := true;
        param_description := "Natural language segment description";
        param_options := None;
        param_min_value := None; param_max_value := None |};
      {| param_name := "negative_prompt"; param_type := "string";
        param_default := VStr ""; param_required := false;
        param_description := "Things that should not appear";
        param_options := None;
        param_min_value := None; param_max_value := None |};
      {| param_name := "mode"; param_type := "select";
        param_default := VStr "auto"; param_required := true;
        param_description := "Output selection policy";
        param_options := Some ["auto"; "best_clip"; "all_matches_montage"; "full_if_match"; "no_full_video"];
        param_min_value := None; param_max_value := None |};
      {| param_name := "target_duration"; param_type := "number";
        param_default := VInt (0); param_required := true;
        param_description := "";
        param_options := None;
        param_min_value := Some (VInt (0)); param_max_value := Some (VInt (600)) |};
      {| param_name := "min_clip_duration"; param_type := "number";
        param_default := VFloat (float_of_dec false 15 (-1)); param_required := true;
        param_description := "";
        param_options := None;
        param_min_value := Some (VFloat (float_of_dec false 3 (-1))); param_max_value := Some (VInt (30)) |};
      {| param_name := "max_clip_duration"; param_type := "number";
        param_default := VInt (8); param_required := true;
        param_description := "";
        param_options := None;
        param_min_value := Some (VInt (1)); param_max_value := Some (VInt (120)) |};
      {| param_name := "max_clips"; param_type := "number";
        param_default := VInt (8); param_required := true;
        param_description := "";
        param_options := None;
        param_min_value := Some (VInt (1)); param_max_value := Some (VInt (30)) |};
      {| param_name := "sample_fps"; param_type := "number";
        param_default := VInt (1); param_required := true;
        param_description := "";
        param_options := None;
        param_min_value := Some (VFloat (float_of_dec false 1 (-1))); param_max_value := Some (VInt (4)) |};
      {| param_name := "match_threshold"; param_type := "number";
        param_default := VFloat (float_of_dec false 35 (-2)); param_required := true;
        param_description := "";
        param_options := None;
        param_min_value := Some (VInt (0)); param_max_value := Some (VInt (1)) |};
      {| param_name := "return_full_threshold"; param_type := "number";
        param_default := VFloat (float_of_dec false 65 (-2)); param_required := true;
        param_description := "";
        param_options := None;
        param_min_value := Some (VInt (0)); param_max_value := Some (VInt (1)) |};
      {| param_name := "padding_before"; param_type := "number";
        param_default := VFloat (float_of_dec false 5 (-1)); param_required := true;
        param_description := "";
        param_options := None;
        param_min_value := Some (VInt (0)); param_max_value := Some (VInt (10)) |};
      {| param_name := "padding_after"; param_type := "number";
        param_default := VFloat (float_of_dec false 5 (-1)); param_required := true;
        param_description := "";
        param_options := None;
        param_min_value := Some (VInt (0)); param_max_value := Some (VInt (10)) |};
      {| param_name := "merge_gap"; param_type := "number";
        param_default := VFloat (float_of_dec false 10 (-1)); param_required := true;
        param_description := "";
        param_options := None;
        param_min_value := Some (VInt (0)); param_max_value := Some (VInt (10)) |};
      {| param_name := "use_visual"; param_type := "boolean";
        param_default := VBool true; param_required := false;
        param_description := "";
        param_options := None;
        param_min_value := None; param_max_value := None |};
      {| param_name := "use_asr"; param_type := "boolean";
        param_default := VBool true; param_required := false;
        param_description := "";
        param_options := None;
        param_min_value := None; param_max_value := None |};
      {| param_name := "use_vlm_verify"; param_type := "boolean";
        param_default := VBool false; param_required := false;
        param_description := "";
        param_options := None;
        param_min_value := None; param_max_value := None |};
      {| param_name := "language"; param_type := "string";
        param_default := VStr "zh"; param_required := false;
        param_description := "";
        param_options := None;
        param_min_value := None; param_max_value := None |};
      {| param_name := "whisper_model"; param_type := "select";
        param_default := VStr "medium"; param_required := false;
        param_description := "Whisper model used when ASR scoring is enabled";
        param_options := Some ["tiny"; "base"; "small"; "medium"; "large-v3"];
        param_min_value := None; param_max_value := None |};
      {| param_name := "output_format"; param_type := "select";
        param_default := VStr "mp4"; param_required := true;
        param_description := "";
        param_options := Some ["mp4"; "mkv"; "webm"];
        param_min_value := None; param_max_value := None |};
      {| param_name := "no_match_policy"; param_type := "select";
        param_default := VStr "placeholder"; param_required := true;
        param_description := "How to handle no matched segment";
        param_options := Some ["placeholder"; "fail"];
        param_min_value := None; param_max_value := None |}];
    worker_type := "vision" |}.

Definition subtitle_translate_DEFINITION : NodeTypeDefinition := {|
    type_name := "subtitle_translate";
    display_name := "Subtitle Translate";
    category := "audio";
    nt_description := "Translate an SRT subtitle file into another language";
    icon := "languages";
    inputs := [{| port_name := "subtitle_file"; port_type := SUBTITLE; port_required := true;
        port_description := "Input subtitle file" |}];
    outputs := [{| port_name := "output"; port_type := SUBTITLE; port_required := true;
        port_description := "Translated subtitle file" |}];
    params := [{| param_name := "target_language"; param_type := "string";
        param_default := VStr "en"; param_required := true;
        param_description := "Target language code or name";
        param_options := None;
        param_min_value := None; param_max_value := None |};
      {| param_name := "source_language"; param_type := "string";
        param_default := VStr ""; param_required := false;
        param_description := "Optional source language hint";
        param_options := None;
        param_min_value := None; param_max_value := None |};
      {| param_name := "model"; param_type := "string";
        param_default := VStr ""; param_required := false;
        param_description := "Optional watchdog route/model override";
        param_options := None;
        param_min_value := None; param_max_value := None |}];
    worker_type := "ffmpeg" |}.

Definition subtitle_to_speech_DEFINITION : NodeTypeDefinition := {|
    type_name := "subtitle_to_speech";
    display_name := "Subtitle To Speech";
    category := "audio";
    nt_description := "Generate a timed speech track from subtitle cues using the configured TTS service";
    icon := "audio-lines";
    inputs := [{| port_name := "subtitle_file"; port_type := SUBTITLE; port_required := true;
        port_description := "Input subtitle file" |};
      {| port_name := "reference_audio"; port_type := ANY_MEDIA; port_required := false;
        port_description := "Optional reference voice audio/video" |};
      {| port_name := "ref_text"; port_type := SUBTITLE; port_required := false;
        port_description := "Optional transcript/subtitle file matching the reference voice audio" |}];
    outputs := [{| port_name := "output"; port_type := AUDIO; port_required := true;
        port_description := "Generated speech audio" |}];
    params := [{| param_name := "language"; param_type := "string";
        param_default := VStr "en"; param_required := false;
        param_description := "TTS language code";
        param_options := None;
        param_min_value := None; param_max_value := None |};
      {| param_name := "block_merge_gap_seconds"; param_type := "number";
        param_default := VFloat (float_of_dec false 6 (-1)); param_required := false;
        param_description := "Merge nearby subtitle cues into one speech block when the gap is small";
        param_options := None;
        param_min_value := None; param_max_value := None |};
      {| param_name := "block_min_chars"; param_type := "number";
        param_default := VInt (70); param_required := false;
        param_description := "Try to merge short subtitle cues until each speech block is at least this long";
        param_options := None;
        param_min_value := None; param_max_value := None |};
      {| param_name := "block_max_chars"; param_type := "number";
        param_default := VInt (220); param_required := false;
        param_description := "Soft upper bound for text length inside one speech block";
        param_options := None;
        param_min_value := None; param_max_value := None |};
      {| param_name := "block_min_duration_seconds"; param_type := "number";
        param_default := VFloat (float_of_dec false 25 (-1)); param_required := false;
        param_description := "Try to merge subtitle cues until each speech block lasts at least this long";
        param_options := None;
        param_min_value := None; param_max_value := None |};
      {| param_name := "block_max_duration_seconds"; param_type := "number";
        param_default := VFloat (float_of_dec false 100 (-1)); param_required := false;
        param_description := "Soft upper bound for a single speech block duration";
        param_options := None;
        param_min_value := None; param_max_value := None |};
      {| param_name := "alignment_max_speedup"; param_type := "number";
        param_default := VFloat (float_of_dec false 110 (-2)); param_required := false;
        param_description := "Maximum atempo speed-up used to prevent overlap when generated speech runs long";
        param_options := None;
        param_min_value := None; param_max_value := None |};
      {| param_name := "alignment_max_leading_delay_ms"; param_type := "number";
        param_default := VInt (800); param_required := false;
        param_description := "Maximum extra delay before a short speech block when there is spare room";
        param_options := None;
        param_min_value := None; param_max_value := None |};
      {| param_name := "alignment_rewrite_with_llm"; param_type := "boolean";
        param_default := VBool true; param_required := false;
        param_description := "Use the LLM gateway to shorten long speech blocks before applying speed-up alignment";
        param_options := None;
        param_min_value := None; param_max_value := None |};
      {| param_name := "alignment_rewrite_min_speedup"; param_type := "number";
        param_default := VFloat (float_of_dec false 110 (-2)); param_required := false;
        param_description := "Required speed-up ratio that triggers LLM rewrite and re-synthesis";
        param_options := None;
        param_min_value := None; param_max_value := None |};
      {| param_name := "alignment_rewrite_model"; param_type := "string";
        param_default := VStr ""; param_required := false;
        param_description := "Optional model override for TTS alignment rewrite requests";
        param_options := None;
        param_min_value := None; param_max_value := None |}];
    worker_type := "ffmpeg" |}.

Definition bgm_DEFINITION : NodeTypeDefinition := {|
    type_name := "bgm";
    display_name := "Background Music";
    category := "audio";
    nt_description := "Add background music to a video";
    icon := "music";
    inputs := [{| port_name := "video"; port_type := VIDEO; port_required := true;
        port_description := "Input video" |};
      {| port_name := "audio"; port_type := AUDIO; port_required := true;
        port_description := "Background music" |}];
    outputs := [{| port_name := "output"; port_type := VIDEO; port_required := true;
        port_description := "Video with background music" |}];
    params := [{| param_name := "volume"; param_type := "number";
        param_default := VFloat (float_of_dec false 3 (-1)); param_required := false;
        param_description := "Background music volume (0-2)";
        param_options := None;
        param_min_value := Some (VFloat (float_of_dec false 0 (-1))); param_max_value := Some (VFloat (float_of_dec false 20 (-1))) |};
      {| param_name := "original_volume"; param_type := "number";
        param_default := VFloat (float_of_dec false 10 (-1)); param_required := false;
        param_description := "Original audio volume (0-2)";
        param_options := None;
        param_min_value := Some (VFloat (float_of_dec false 0 (-1))); param_max_value := Some (VFloat (float_of_dec false 20 (-1))) |};
      {| param_name := "loop"; param_type := "boolean";
        param_default := VBool true; param_required := false;
        param_description := "Loop music if shorter than video";
        param_options := None;
        param_min_value := None; param_max_value := None |};
      {| param_name := "fade_in"; param_type := "number";
        param_default := VFloat (float_of_dec false 0 (-1)); param_required := false;
        param_description := "Fade in duration in seconds";
        param_options := None;
        param_min_value := Some (VFloat (float_of_dec false 0 (-1))); param_max_value := Some (VFloat (float_of_dec false 100 (-1))) |};
      {| param_name := "fade_out"; param_type := "number";
        param_default := VFloat (float_of_dec false 0 (-1)); param_required := false;
        param_description := "Fade out duration in seconds";
        param_options := None;
        param_min_value := Some (VFloat (float_of_dec false 0 (-1))); param_max_value := Some (VFloat (float_of_dec false 100 (-1))) |}];
    worker_type := "ffmpeg_go" |}.

Definition replace_audio_DEFINITION : NodeTypeDefinition := {|
    type_name := "replace_audio";
    display_name := "Replace Audio";
    category := "audio";
    nt_description := "Replace a video's audio track with a supplied audio file";
    icon := "replace";
    inputs := [{| port_name := "video"; port_type := VIDEO; port_required := true;
        port_description := "Input video" |};
      {| port_name := "audio"; port_type := AUDIO; port_required := true;
        port_description := "Replacement audio" |}];
    outputs := [{| port_name := "output"; port_type := VIDEO; port_required := true;
        port_description := "Video with replaced audio" |}];
    params := [{| param_name := "loop_if_shorter"; param_type := "boolean";
        param_default := VBool true; param_required := false;
        param_description := "Loop the replacement audio when it is shorter than the video";
        param_options := None;
        param_min_value := None; param_max_value := None |};
      {| param_name := "audio_volume"; param_type := "number";
        param_default := VFloat (float_of_dec false 10 (-1)); param_required := false;
        param_description := "Replacement audio volume multiplier";
        param_options := None;
        param_min_value := Some (VFloat (float_of_dec false 0 (-1))); param_max_value := Some (VFloat (float_of_dec false 40 (-1))) |}];
    worker_type := "ffmpeg_go" |}.

Definition transcode_DEFINITION : NodeTypeDefinition := {|
    type_name := "transcode";
    display_name := "Transcode";
    category := "output";
    nt_description := "Transcode video to a different format or codec";
    icon := "file-output";
    inputs := [{| port_name := "input"; port_type := VIDEO; port_required := true;
        port_description := "Input video" |}];
    outputs := [{| port_name := "output"; port_type := VIDEO; port_required := true;
        port_description := "Transcoded video" |}];
    params := [{| param_name := "format"; param_type := "select";
        param_default := VStr "mp4"; param_required := false;
        param_description := "Output container format";
        param_options := Some ["mp4"; "mkv"; "webm"; "avi"; "mov"];
        param_min_value := None; param_max_value := None |};
      {| param_name := "video_codec"; param_type := "select";
        param_default := VStr "libx264"; param_required := false;
        param_description := "Video codec";
        param_options := Some ["libx264"; "libx265"; "h264_nvenc"; "hevc_nvenc"; "libvpx-vp9"; "copy"];
        param_min_value := None; param_max_value := None |};
      {| param_name := "audio_codec"; param_type := "select";
        param_default := VStr "aac"; param_required := false;
        param_description := "Audio codec";
        param_options := Some ["aac"; "libopus"; "libmp3lame"; "copy"];
        param_min_value := None; param_max_value := None |};
      {| param_name := "resolution"; param_type := "select";
        param_default := VStr "original"; param_required := false;
        param_description := "Output resolution";
        param_options := Some ["original"; "3840x2160"; "1920x1080"; "1280x720"; "854x480"];
        param_min_value := None; param_max_value := None |};
      {| param_name := "bitrate"; param_type := "string";
        param_default := VStr ""; param_required := false;
        param_description := "Video bitrate (e.g. 5M, 2000k, empty for auto)";
        param_options := None;
        param_min_value := None; param_max_value := None |};
      {| param_name := "crf"; param_type := "number";
        param_default := VInt (20); param_required := false;
        param_description := "Constant Rate Factor (lower = better quality)";
        param_options := None;
        param_min_value := Some (VInt (0)); param_max_value := Some (VInt (51)) |};
      {| param_name := "preset"; param_type := "select";
        param_default := VStr "medium"; param_required := false;
        param_description := "Encoding speed preset";
        param_options := Some ["ultrafast"; "superfast"; "veryfast"; "faster"; "fast"; "medium"; "slow"; "slower"; "veryslow"];
        param_min_value := None; param_max_value := None |}];
    worker_type := "ffmpeg_go" |}.

Definition title_overlay_DEFINITION : NodeTypeDefinition := {|
    type_name := "title_overlay";
    display_name := "Title Overlay";
    category := "transform";
    nt_description := "Overlay short title text on video.";
    icon := "type";
    inputs := [{| port_name := "input"; port_type := VIDEO; port_required := true;
        port_description := "Input video" |}];
    outputs := [{| port_name := "output"; port_type := VIDEO; port_required := true;
        port_description := "Titled video" |}];
    params := [{| param_name := "text"; param_type := "string";
        param_default := VStr ""; param_required := false;
        param_description := "Overlay text";
        param_options := None;
        param_min_value := None; param_max_value := None |};
      {| param_name := "position"; param_type := "select";
        param_default := VStr "top"; param_required := false;
        param_description := "";
        param_options := Some ["top"; "center"; "bottom"];
        param_min_value := None; param_max_value := None |};
      {| param_name := "start_time"; param_type := "number";
        param_default := VInt (0); param_required := false;
        param_description := "";
        param_options := None;
        param_min_value := Some (VInt (0)); param_max_value := None |};
      {| param_name := "duration"; param_type := "number";
        param_default := VInt (3); param_required := false;
        param_description := "";
        param_options := None;
        param_min_value := Some (VFloat (float_of_dec false 1 (-1))); param_max_value := Some (VInt (3600)) |};
      {| param_name := "font_size"; param_type := "number";
        param_default := VInt (72); param_required := false;
        param_description := "";
        param_options := None;
        param_min_value := Some (VInt (8)); param_max_value := Some (VInt (240)) |};
      {| param_name := "safe_area"; param_type := "boolean";
        param_default := VBool true; param_required := false;
        param_description := "";
        param_options := None;
        param_min_value := None; param_max_value := None |}];
    worker_type := "ffmpeg_go" |}.

Definition url_download_DEFINITION : NodeTypeDefinition := {|
    type_name := "url_download";
    display_name := "URL Download";
    category := "source";
    nt_description := "Download media from YouTube, X, Bilibili, Xiaohongshu, or direct URLs";
    icon := "download";
    inputs := [{| port_name := "url_input"; port_type := URL_VALUE; port_required := false;
        port_description := "Planner-provided URL" |}];
    outputs := [{| port_name := "output"; port_type := ANY_MEDIA; port_required := true;
        port_description := "Downloaded video" |}];
    params := [{| param_name := "url"; param_type := "string";
        param_default := VNone; param_required := true;
        param_description := "YouTube, X, Bilibili, Xiaohongshu, or direct media URL";
        param_options := None;
        param_min_value := None; param_max_value := None |};
      {| param_name := "format"; param_type := "select";
        param_default := VStr "best"; param_required := false;
        param_description := "Download quality";
        param_options := Some ["best"; "1080p"; "720p"; "480p"; "audio_only"];
        param_min_value := None; param_max_value := None |}];
    worker_type := "ffmpeg" |}.

Definition vertical_crop_DEFINITION : NodeTypeDefinition := {|
    type_name := "vertical_crop";
    display_name := "Vertical Crop";
    category := "transform";
    nt_description := "Convert video to a vertical frame with crop or blurred background.";
    icon := "crop";
    inputs := [{| port_name := "input"; port_type := VIDEO; port_required := true;
        port_description := "Input video" |}];
    outputs := [{| port_name := "output"; port_type := VIDEO; port_required := true;
        port_description := "Vertical video" |}];
    params := [{| param_name := "mode"; param_type := "select";
        param_default := VStr "center_crop"; param_required := false;
        param_description := "";
        param_options := Some ["center_crop"; "blur_bg"; "smart_subject"];
        param_min_value := None; param_max_value := None |};
      {| param_name := "width"; param_type := "number";
        param_default := VInt (1080); param_required := false;
        param_description := "";
        param_options := None;
        param_min_value := Some (VInt (64)); param_max_value := Some (VInt (4320)) |};
      {| param_name := "height"; param_type := "number";
        param_default := VInt (1920); param_required := false;
        param_description := "";
        param_options := None;
        param_min_value := Some (VInt (64)); param_max_value := Some (VInt (7680)) |};
      {| param_name := "background"; param_type := "select";
        param_default := VStr "blur"; param_required := false;
        param_description := "";
        param_options := Some ["blur"; "black"; "white"];
        param_min_value := None; param_max_value := None |}];
    worker_type := "ffmpeg_go" |}.

Definition material_library_ingest_DEFINITION : NodeTypeDefinition := {|
    type_name := "material_library_ingest";
    display_name := "Material Library Ingest";
    category := "transform";
    nt_description := "Slice a source video into indexed material clips and store them in one or more material libraries";
    icon := "database-zap";
    inputs := [{| port_name := "video"; port_type := VIDEO; port_required := true;
        port_description := "Source video asset to index" |}];
    outputs := [{| port_name := "output"; port_type := ANY_MEDIA; port_required := true;
        port_description := "JSON summary artifact" |}];
    params := [{| param_name := "target_library_ids"; param_type := "string";
        param_default := VNone; param_required := true;
        param_description := "Material libraries to ingest into";
        param_options := None;
        param_min_value := None; param_max_value := None |};
      {| param_name := "clip_len"; param_type := "number";
        param_default := VInt (8); param_required := true;
        param_description := "Clip length in seconds";
        param_options := None;
        param_min_value := Some (VInt (1)); param_max_value := Some (VInt (120)) |};
      {| param_name := "stride"; param_type := "number";
        param_default := VInt (4); param_required := true;
        param_description := "Sliding window stride in seconds";
        param_options := None;
        param_min_value := Some (VInt (1)); param_max_value := Some (VInt (120)) |};
      {| param_name := "subtitle_mode"; param_type := "select";
        param_default := VStr "asr_if_missing"; param_required := true;
        param_description := "How subtitles are generated for indexing";
        param_options := Some ["asr_if_missing"; "asr_always"];
        param_min_value := None; param_max_value := None |};
      {| param_name := "store_neighbors"; param_type := "boolean";
        param_default := VBool true; param_required := false;
        param_description := "Store neighboring clip ids for later expansion";
        param_options := None;
        param_min_value := None; param_max_value := None |}];
    worker_type := "ffmpeg" |}.

Definition material_search_DEFINITION : NodeTypeDefinition := {|
    type_name := "material_search";
    display_name := "Material Search";
    category := "planner";
    nt_description := "Search one or more material libraries with natural language and materialize refined clip assets";
    icon := "library";
    inputs := [];
    outputs := [{| port_name := "results"; port_type := SEARCH_RESULTS; port_required := true;
        port_description := "Material search result list for planner nodes" |}];
    params := [{| param_name := "query"; param_type := "string";
        param_default := VNone; param_required := true;
        param_description := "Natural language query";
        param_options := None;
        param_min_value := None; param_max_value := None |};
      {| param_name := "source_library_ids"; param_type := "string";
        param_default := VNone; param_required := true;
        param_description := "Material libraries to search";
        param_options := None;
        param_min_value := None; param_max_value := None |};
      {| param_name := "result_library_ids"; param_type := "string";
        param_default := VNone; param_required := false;
        param_description := "Material libraries to save refined clips into";
        param_options := None;
        param_min_value := None; param_max_value := None |};
      {| param_name := "top_k"; param_type := "number";
        param_default := VInt (50); param_required := true;
        param_description := "Coarse recall top-k";
        param_options := None;
        param_min_value := Some (VInt (1)); param_max_value := Some (VInt (200)) |};
      {| param_name := "merge_gap"; param_type := "number";
        param_default := VInt (5); param_required := true;
        param_description := "Cluster merge gap in seconds";
        param_options := None;
        param_min_value := Some (VInt (0)); param_max_value := Some (VInt (30)) |};
      {| param_name := "expand_left"; param_type := "number";
        param_default := VInt (4); param_required := true;
        param_description := "Context expansion before cluster";
        param_options := None;
        param_min_value := Some (VInt (0)); param_max_value := Some (VInt (30)) |};
      {| param_name := "expand_right"; param_type := "number";
        param_default := VInt (4); param_required := true;
        param_description := "Context expansion after cluster";
        param_options := None;
        param_min_value := Some (VInt (0)); param_max_value := Some (VInt (30)) |};
      {| param_name := "rerank_top_m"; param_type := "number";
        param_default := VInt (8); param_required := true;
        param_description := "Top windows to rerank/refine";
        param_options := None;
        param_min_value := Some (VInt (1)); param_max_value := Some (VInt (50)) |};
      {| param_name := "min_duration"; param_type := "number";
        param_default := VFloat (float_of_dec false 15 (-1)); param_required := true;
        param_description := "Minimum final duration";
        param_options := None;
        param_min_value := Some (VFloat (float_of_dec false 5 (-1))); param_max_value := Some (VInt (60)) |};
      {| param_name := "max_duration"; param_type := "number";
        param_default := VInt (20); param_required := true;
        param_description := "Maximum final duration";
        param_options := None;
        param_min_value := Some (VInt (1)); param_max_value := Some (VInt (120)) |};
      {| param_name := "dedupe_overlap_threshold"; param_type := "number";
        param_default := VFloat (float_of_dec false 6 (-1)); param_required := true;
        param_description := "Overlap ratio used to dedupe refined results";
        param_options := None;
        param_min_value := Some (VInt (0)); param_max_value := Some (VInt (1)) |}];
    worker_type := "planner" |}.

Definition youtube_search_DEFINITION : NodeTypeDefinition := {|
    type_name := "youtube_search";
    display_name := "YouTube Search";
    category := "planner";
    nt_description := "Search YouTube and prepare a selectable result list for batch planning";
    icon := "search";
    inputs := [];
    outputs := [{| port_name := "results"; port_type := SEARCH_RESULTS; port_required := true;
        port_description := "Search result list for planner nodes" |}];
    params := [{| param_name := "query"; param_type := "string";
        param_default := VNone; param_required := true;
        param_description := "YouTube search query";
        param_options := None;
        param_min_value := None; param_max_value := None |};
      {| param_name := "max_results"; param_type := "number";
        param_default := VInt (8); param_required := true;
        param_description := "Maximum number of search results to keep";
        param_options := None;
        param_min_value := Some (VInt (1)); param_max_value := Some (VInt (50)) |}];
    worker_type := "planner" |}.

Definition x_search_DEFINITION : NodeTypeDefinition := {|
    type_name := "x_search";
    display_name := "X Search";
    category := "planner";
    nt_description := "Search X and prepare a selectable result list for batch planning";
    icon := "search";
    inputs := [];
    outputs := [{| port_name := "results"; port_type := SEARCH_RESULTS; port_required := true;
        port_description := "Search result list for planner nodes" |}];
    params := [{| param_name := "query"; param_type := "string";
        param_default := VNone; param_required := true;
        param_description := "X search query";
        param_options := None;
        param_min_value := None; param_max_value := None |};
      {| param_name := "max_results"; param_type := "number";
        param_default := VInt (8); param_required := true;
        param_description := "Maximum number of search results to keep";
        param_options := None;
        param_min_value := Some (VInt (1)); param_max_value := Some (VInt (50)) |}];
    worker_type := "planner" |}.

Definition xiaohongshu_search_DEFINITION : NodeTypeDefinition := {|
    type_name := "xiaohongshu_search";
    display_name := "Xiaohongshu Search";
    category := "planner";
    nt_description := "Search Xiaohongshu and prepare a selectable result list for batch planning";
    icon := "search";
    inputs := [];
    outputs := [{| port_name := "results"; port_type := SEARCH_RESULTS; port_required := true;
        port_description := "Search result list for planner nodes" |}];
    params := [{| param_name := "query"; param_type := "string";
        param_default := VNone; param_required := true;
        param_description := "Xiaohongshu search query";
        param_options := None;
        param_min_value := None; param_max_value := None |};
      {| param_name := "max_results"; param_type := "number";
        param_default := VInt (8); param_required := true;
        param_description := "Maximum number of search results to keep";
        param_options := None;
        param_min_value := Some (VInt (1)); param_max_value := Some (VInt (50)) |}];
    worker_type := "planner" |}.

Definition bilibili_search_DEFINITION : NodeTypeDefinition := {|
    type_name := "bilibili_search";
    display_name := "Bilibili Search";
    category := "planner";
    nt_description := "Search Bilibili and prepare a selectable result list for batch planning";
    icon := "search";
    inputs := [];
    outputs := [{| port_name := "results"; port_type := SEARCH_RESULTS; port_required := true;
        port_description := "Search result list for planner nodes" |}];
    params := [{| param_name := "query"; param_type := "string";
        param_default := VNone; param_required := true;
        param_description := "Bilibili search query";
        param_options := None;
        param_min_value := None; param_max_value := None |};
      {| param_name := "max_results"; param_type := "number";
        param_default := VInt (8); param_required := true;
        param_description := "Maximum number of search results to keep";
        param_options := None;
        param_min_value := Some (VInt (1)); param_max_value := Some (VInt (50)) |}];
    worker_type := "planner" |}.

Definition zip_records_DEFINITION : NodeTypeDefinition := {|
    type_name := "zip_records";
    display_name := "Zip Records";
    category := "planner";
    nt_description := "Zip multiple search result channels into aligned batch records";
    icon := "workflow";
    inputs := [];
    outputs := [];
    params := [{| param_name := "channel_count"; param_type := "number";
        param_default := VInt (2); param_required := true;
        param_description := "Number of search channels to zip";
        param_options := None;
        param_min_value := Some (VInt (1)); param_max_value := Some (VInt (12)) |};
      {| param_name := "record_limit"; param_type := "number";
        param_default := VInt (0); param_required := true;
        param_description := "Maximum number of output records (0 = auto)";
        param_options := None;
        param_min_value := Some (VInt (0)); param_max_value := Some (VInt (500)) |}];
    worker_type := "planner" |}.

Definition export_DEFINITION : NodeTypeDefinition := {|
    type_name := "export";
    display_name := "Export";
    category := "output";
    nt_description := "Export processed video to a directory or destination";
    icon := "folder-output";
    inputs := [{| port_name := "input"; port_type := ANY_MEDIA; port_required := true;
        port_description := "File to export" |}];
    outputs := [];
    params := [{| param_name := "output_dir"; param_type := "string";
        param_default := VStr "/tmp/vp_export"; param_required := false;
        param_description := "Destination directory path";
        param_options := None;
        param_min_value := None; param_max_value := None |};
      {| param_name := "filename"; param_type := "string";
        param_default := VStr ""; param_required := false;
        param_description := "Output filename (empty = use original name)";
        param_options := None;
        param_min_value := None; param_max_value := None |};
      {| param_name := "enable_quality_qa"; param_type := "boolean";
        param_default := VBool true; param_required := false;
        param_description := "Run export quality QA";
        param_options := None;
        param_min_value := None; param_max_value := None |};
      {| param_name := "quality_gate_mode"; param_type := "select";
        param_default := VStr "soft_repair_once"; param_required := false;
        param_description := "Soft quality repair policy";
        param_options := Some ["soft_repair_once"];
        param_min_value := None; param_max_value := None |};
      {| param_name := "vmaf_min_score"; param_type := "number";
        param_default := VInt (80); param_required := false;
        param_description := "Minimum VMAF score before soft repair";
        param_options := None;
        param_min_value := Some (VInt (0)); param_max_value := Some (VInt (100)) |};
      {| param_name := "loudnorm_target_i"; param_type := "number";
        param_default := VInt (-16); param_required := false;
        param_description := "Integrated loudness target";
        param_options := None;
        param_min_value := Some (VInt (-40)); param_max_value := Some (VInt (0)) |};
      {| param_name := "loudnorm_target_lra"; param_type := "number";
        param_default := VInt (11); param_required := false;
        param_description := "Loudness range target";
        param_options := None;
        param_min_value := Some (VInt (1)); param_max_value := Some (VInt (30)) |};
      {| param_name := "loudnorm_target_tp"; param_type := "number";
        param_default := VFloat (float_of_dec true 15 (-1)); param_required := false;
        param_description := "True peak target";
        param_options := None;
        param_min_value := Some (VInt (-9)); param_max_value := Some (VInt (0)) |}];
    worker_type := "ffmpeg_go" |}.

Definition youtube_upload_DEFINITION : NodeTypeDefinition := {|
    type_name := "youtube_upload";
    display_name := "YouTube Upload";
    category := "output";
    nt_description := "Upload video to YouTube via API";
    icon := "upload";
    inputs := [{| port_name := "input"; port_type := ANY_MEDIA; port_required := true;
        port_description := "Video to upload" |}];
    outputs := [];
    params := [{| param_name := "title"; param_type := "string";
        param_default := VNone; param_required := true;
        param_description := "Video title";
        param_options := None;
        param_min_value := None; param_max_value := None |};
      {| param_name := "description"; param_type := "string";
        param_default := VStr ""; param_required := false;
        param_description := "Video description";
        param_options := None;
        param_min_value := None; param_max_value := None |};
      {| param_name := "privacy"; param_type := "select";
        param_default := VStr "private"; param_required := false;
        param_description := "Privacy status";
        param_options := Some ["public"; "unlisted"; "private"];
        param_min_value := None; param_max_value := None |};
      {| param_name := "made_for_kids"; param_type := "select";
        param_default := VStr "not_set"; param_required := false;
        param_description := "Set YouTube audience flag during upload";
        param_options := Some ["not_set"; "yes"; "no"];
        param_min_value := None; param_max_value := None |};
      {| param_name := "tags"; param_type := "string";
        param_default := VStr ""; param_required := false;
        param_description := "Comma-separated tags";
        param_options := None;
        param_min_value := None; param_max_value := None |}];
    worker_type := "youtube_publisher" |}.

Definition x_upload_DEFINITION : NodeTypeDefinition := {|
    type_name := "x_upload";
    display_name := "X Upload";
    category := "output";
    nt_description := "Publish a media post to X through the unified platform browser service";
    icon := "upload";
    inputs := [{| port_name := "input"; port_type := ANY_MEDIA; port_required := true;
        port_description := "Media file to attach to the X post" |}];
    outputs := [];
    params := [{| param_name := "text"; param_type := "string";
        param_default := VNone; param_required := true;
        param_description := "Post text to publish on X";
        param_options := None;
        param_min_value := None; param_max_value := None |};
      {| param_name := "reply_to_url"; param_type := "string";
        param_default := VStr ""; param_required := false;
        param_description := "Optional X post URL to reply to";
        param_options := None;
        param_min_value := None; param_max_value := None |}];
    worker_type := "ffmpeg" |}.

Definition xiaohongshu_upload_DEFINITION : NodeTypeDefinition := {|
    type_name := "xiaohongshu_upload";
    display_name := "Xiaohongshu Upload";
    category := "output";
    nt_description := "Publish a Xiaohongshu image note or video note through the unified platform browser service";
    icon := "upload";
    inputs := [{| port_name := "input"; port_type := ANY_MEDIA; port_required := true;
        port_description := "Primary media file for the Xiaohongshu note" |};
      {| port_name := "image_2"; port_type := ANY_MEDIA; port_required := false;
        port_description := "Optional second image for image-note publishing" |};
      {| port_name := "image_3"; port_type := ANY_MEDIA; port_required := false;
        port_description := "Optional third image for image-note publishing" |};
      {| port_name := "image_4"; port_type := ANY_MEDIA; port_required := false;
        port_description := "Optional fourth image for image-note publishing" |};
      {| port_name := "image_5"; port_type := ANY_MEDIA; port_required := false;
        port_description := "Optional fifth image for image-note publishing" |};
      {| port_name := "image_6"; port_type := ANY_MEDIA; port_required := false;
        port_description := "Optional sixth image for image-note publishing" |};
      {| port_name := "image_7"; port_type := ANY_MEDIA; port_required := false;
        port_description := "Optional seventh image for image-note publishing" |};
      {| port_name := "image_8"; port_type := ANY_MEDIA; port_required := false;
        port_description := "Optional eighth image for image-note publishing" |};
      {| port_name := "image_9"; port_type := ANY_MEDIA; port_required := false;
        port_description := "Optional ninth image for image-note publishing" |}];
    outputs := [];
    params := [{| param_name := "content"; param_type := "string";
        param_default := VNone; param_required := true;
        param_description := "Note body content";
        param_options := None;
        param_min_value := None; param_max_value := None |};
      {| param_name := "title"; param_type := "string";
        param_default := VStr ""; param_required := false;
        param_description := "Optional note title";
        param_options := None;
        param_min_value := None; param_max_value := None |};
      {| param_name := "topics"; param_type := "string";
        param_default := VStr ""; param_required := false;
        param_description := "Comma-separated Xiaohongshu topics without #";
        param_options := None;
        param_min_value := None; param_max_value := None |};
      {| param_name := "draft"; param_type := "boolean";
        param_default := VBool false; param_required := false;
        param_description := "Save as draft instead of publishing immediately";
        param_options := None;
        param_min_value := None; param_max_value := None |};
      {| param_name := "publish_mode"; param_type := "select";
        param_default := VStr "image_note"; param_required := false;
        param_description := "Choose whether to publish an image note or a video note";
        param_options := Some ["image_note"; "video_note"];
        param_min_value := None; param_max_value := None |}];
    worker_type := "ffmpeg" |}.

(** The tuple [BUILTIN_MODULES] of [builtin/__init__.py]. *)
Definition BUILTIN_MODULES : list NodeTypeDefinition :=
  [source_DEFINITION;
   concat_horizontal_DEFINITION;
   concat_vertical_DEFINITION;
   concat_timeline_DEFINITION;
   concat_many_DEFINITION;
   montage_assembler_DEFINITION;
   concat_vertical_timeline_DEFINITION;
   trim_DEFINITION;
   watermark_DEFINITION;
   subtitle_DEFINITION;
   speech_to_subtitle_DEFINITION;
   smart_trim_DEFINITION;
   subtitle_translate_DEFINITION;
   subtitle_to_speech_DEFINITION;
   bgm_DEFINITION;
   replace_audio_DEFINITION;
   transcode_DEFINITION;
   title_overlay_DEFINITION;
   url_download_DEFINITION;
   vertical_crop_DEFINITION;
   material_library_ingest_DEFINITION;
   material_search_DEFINITION;
   youtube_search_DEFINITION;
   x_search_DEFINITION;
   xiaohongshu_search_DEFINITION;
   bilibili_search_DEFINITION;
   zip_records_DEFINITION;
   export_DEFINITION;
   youtube_upload_DEFINITION;
   x_upload_DEFINITION;
   xiaohongshu_upload_DEFINITION].

(** [NodeTypeRegistry.get()]. *)
Definition builtin_registry : NodeTypeRegistry := load_builtins BUILTIN_MODULES.
