(* ===== verification/Pipeline.v ===== *)
(** * Pipeline documents ([schemas/pipeline.py]) and the planner rules
    ([orchestrator/planner.py])

    A pipeline is a list of typed nodes and of edges between named ports.
    Planner nodes (searches and [zip_records]) exist only at planning time;
    [compile_runtime_definition] removes them before execution. *)

From stdpp Require Import base tactics list strings.
From Stdlib Require Import ZArith Lia.
From S2P Require Import Prelude PyStr PyValue.

Open Scope string_scope.
Open Scope list_scope.

(** ** Schemas *)

Record PipelineNodeData := {
  d_label : string;
  d_config : config;
  d_asset_id : option string }.

Record PipelineNode := {
  n_id : string;
  n_type : string;
  n_position : list (string * pyfloat);
  n_data : PipelineNodeData }.

Record PipelineEdge := {
  e_id : string;
  e_source : string;
  e_target : string;
  e_sourceHandle : string;
  e_targetHandle : string }.

Record PipelineDefinition := {
  nodes : list PipelineNode;
  edges : list PipelineEdge;
  viewport : list (string * pyfloat) }.

Definition default_viewport : list (string * pyfloat) :=
  [("x", float_of_Z 0); ("y", float_of_Z 0); ("zoom", float_of_Z 1)].

Record ValidationError := {
  ve_type : string;
  ve_message : string;
  ve_node_id : option string;
  ve_edge_id : option string;
  ve_nodes : option (list string);
  ve_source_port : option string;
  ve_target_port : option string;
  ve_param_name : option string }.

Record ValidationWarning := {
  vw_type : string;
  vw_message : string;
  vw_node_id : option string }.

Record ValidationResult := {
  valid : bool;
  errors : list ValidationError;
  warnings : list ValidationWarning }.

(** [{n.id: n for n in definition.nodes}]. *)
Definition nodes_by_id (d : PipelineDefinition) : list (string * PipelineNode) :=
  dict_of (map (fun n => (n_id n, n)) (nodes d)).

(** [a or b] on strings. *)
Definition str_or (a b : string) : string := if is_empty a then b else a.

(** ** Planner node types and handles *)

Definition SEARCH_NODE_TYPES : list string :=
  ["youtube_search"; "x_search"; "xiaohongshu_search"; "bilibili_search"; "material_search"].
Definition PLANNER_NODE_TYPES : list string := SEARCH_NODE_TYPES ++ ["zip_records"].
Definition SEARCH_RESULTS_HANDLE : string := "results".
Definition ZIP_INPUT_PREFIX : string := "input_".
Definition ZIP_OUTPUT_PREFIX : string := "output_".
Definition URL_INPUT_HANDLE : string := "url_input".
Definition ASSET_INPUT_HANDLE : string := "asset_input".

Definition is_planner_node_type (t : string) : bool := bool_decide (t ∈ PLANNER_NODE_TYPES).

Definition is_search_node_type (t : string) : bool := bool_decide (t ∈ SEARCH_NODE_TYPES).

(** [TypeError] and [ValueError] of [int(raw)] fall back to 2; an infinite
    float escapes as [OverflowError]. *)
Definition get_zip_channel_count (c : config) : Res Z :=
  let raw := default (VInt 2) c.[? "channel_count"] in
  match py_int raw with
  | Ok value => Ok (Z.max 1 value)
  | Raise TypeError | Raise (ValueError _) => Ok 2%Z
  | Raise e => Raise e
  end.

Definition is_zip_handle (prefix handle : string) (channel_count : Z) : bool :=
  match strip_prefix prefix handle with
  | None => false
  | Some rest =>
      match int_of_string rest with
      | None => false
      | Some index => ((1 <=? index) && (index <=? channel_count))%Z
      end
  end.

Definition is_zip_input_handle : string -> Z -> bool := is_zip_handle ZIP_INPUT_PREFIX.

Definition is_zip_output_handle : string -> Z -> bool := is_zip_handle ZIP_OUTPUT_PREFIX.

(** ** [compile_runtime_definition] *)

Definition planner_node_ids (d : PipelineDefinition) : list string :=
  map n_id (List.filter (fun n => is_planner_node_type (n_type n)) (nodes d)).

Definition compile_runtime_definition (d : PipelineDefinition) : PipelineDefinition :=
  let ids := planner_node_ids d in
  {| nodes := List.filter (fun n => negb (bool_decide (n_id n ∈ ids))) (nodes d);
     edges := List.filter (fun e => negb (bool_decide (e_source e ∈ ids))
                                    && negb (bool_decide (e_target e ∈ ids))) (edges d);
     viewport := viewport d |}.

(** ** Lookup by identifier *)

Lemma nodes_by_id_elem d id n : (nodes_by_id d).[? id] = Some n -> n ∈ nodes d /\ n_id n = id.
Proof. intros (m & [= -> ->] & Hm)%dget_dict_of_elem%list_elem_of_fmap. done. Qed.

Lemma elem_of_node_ids d id : id ∈ dkeys (nodes_by_id d) <-> exists n, n ∈ nodes d /\ n_id n = id.
Proof.
  unfold nodes_by_id. rewrite elem_of_dkeys_dict_of, map_map, list_elem_of_fmap. naive_solver.
Qed.

Lemma nodes_by_id_lookup d n :
  NoDup (map n_id (nodes d)) -> n ∈ nodes d -> (nodes_by_id d).[? n_id n] = Some n.
Proof.
  intros Hnd Hn. destruct (nodes_by_id d).[? n_id n] as [m|] eqn:Hm.
  - apply nodes_by_id_elem in Hm as [Hm Hid]. f_equal. by eapply NoDup_map_inj.
  - apply dget_None_dkeys in Hm. destruct Hm. apply elem_of_node_ids. eauto.
Qed.
