(* ===== verification/RightsPolicy.v ===== *)
(** * Rights of AutoFlow clips ([autoflow/rights_policy.py], [schemas/autoflow.py])

    A plan is made of clip candidates with rights metadata of uneven quality.  The policy
    decides whether it may be executed and published: facts are merged so that the most
    restrictive status wins, and a decision is the first of a list of guards that
    applies. *)

From stdpp Require Import base tactics list strings.
From Stdlib Require Import ZArith Lia Ascii.
From S2P Require Import Prelude PyStr PyValue Pipeline.

Open Scope string_scope.
Open Scope list_scope.

(** ** Schemas *)

Record AutoFlowClipCandidate := {
  cc_id : string;
  cc_title : string;
  cc_source_type : string;
  cc_material_id : option string;
  cc_url : option string;
  cc_asset_id : option string;
  cc_start_sec : option pyfloat;
  cc_end_sec : option pyfloat;
  cc_score : pyfloat;
  cc_rights_status : string;
  cc_metadata : config }.

(** The fields of [AutoFlowRequest] the policies read. *)
Record AutoFlowRequest := {
  rq_prompt : string;
  rq_source_policy : string;
  rq_publish_mode : string }.

Record RightsDecision := {
  rd_status : string;
  rd_reasons : list string;
  rd_allowed_publish_modes : list string;
  rd_execute_allowed : bool;
  rd_publish_allowed : bool }.

(** ** Facts *)

Definition RIGHTS_METADATA_KEYS : list string :=
  ["license"; "provenance"; "evidence"; "rights_evidence"; "license_evidence"; "provenance_evidence"; "evidence_ref";
   "evidence_refs"; "license_scope"; "license_source"; "rights_source"; "rights_status"].
Definition OWNED_LICENSES : list string := ["owned"].
Definition LICENSED_LICENSES : list string :=
  ["licensed"; "standard_library"; "commercial"; "royalty_free"; "public_domain"; "creative_commons"; "cc0"; "cc_by";
   "cc_by_sa"].
Definition PUBLIC_DOMAIN_OR_CC_LICENSES : list string := ["public_domain"; "creative_commons"; "cc0"; "cc_by"; "cc_by_sa"].

Definition rights_metadata_from_mapping (metadata : config) : config :=
  omap (fun key => option_map (pair key) metadata.[? key]) RIGHTS_METADATA_KEYS.

(** [str(value or "")], with [None] for a missing key. *)
Definition _normalized_token (value : option pyval) : string :=
  let text := match value with Some v => if truthy v then py_str v else "" | None => "" end in
  replace_char " "%char "_"%char (replace_char "-"%char "_"%char (lower (strip text))).

Definition _most_restrictive_status (values : list pyval) : string :=
  let statuses := map (fun v => _normalized_token (Some v)) values in
  match find (fun status => bool_decide (status ∈ statuses)) ["blocked"; "review_required"; "unknown"; "allowed"] with
  | Some status => status
  | None => "unknown"
  end.

Definition update_dict (d e : config) : config := fold_left (fun acc p => acc.[p.1 <- p.2]) e d.

Definition merge_step (acc : config * list pyval) (source : config) : config * list pyval :=
  let facts := rights_metadata_from_mapping source in
  let statuses := match facts.[? "rights_status"] with
                  | Some VNone | None => acc.2
                  | Some status => acc.2 ++ [status]
                  end in
  (update_dict acc.1 (dpop facts "rights_status"), statuses).

Definition merge_rights_metadata (sources : list config) : config :=
  let '(merged, statuses) := fold_left merge_step sources ([], []) in
  match statuses with
  | [] => merged
  | _ => merged.["rights_status" <- VStr (_most_restrictive_status statuses)]
  end.

Definition candidate_rights_facts (c : AutoFlowClipCandidate) : config :=
  merge_rights_metadata [cc_metadata c; [("rights_status", VStr (cc_rights_status c))]].

Definition rights_status_from_metadata (metadata : config) : string :=
  let facts := rights_metadata_from_mapping metadata in
  let explicit_status := _normalized_token facts.[? "rights_status"] in
  if bool_decide (explicit_status ∈ ["blocked"; "review_required"; "unknown"]) then explicit_status
  else if bool_decide (_normalized_token facts.[? "license"] ∈ OWNED_LICENSES ++ LICENSED_LICENSES) then "allowed"
  else "unknown".

Definition effective_status (c : AutoFlowClipCandidate) : string := rights_status_from_metadata (candidate_rights_facts c).

Definition truthy_str (s : option string) : bool := match s with Some s => negb (is_empty s) | None => false end.

Definition _is_local_candidate (c : AutoFlowClipCandidate) : bool :=
  (effective_status c =? "allowed")%string && bool_decide (cc_url c = None)
  && bool_decide (cc_source_type c ∈ ["asset"; "material"]) && truthy_str (cc_asset_id c).

Definition _candidate_license (c : AutoFlowClipCandidate) : string := _normalized_token (cc_metadata c).[? "license"].

Definition candidate_is_owned (c : AutoFlowClipCandidate) : bool :=
  _is_local_candidate c && bool_decide (_candidate_license c ∈ OWNED_LICENSES).

Definition candidate_is_licensed (c : AutoFlowClipCandidate) : bool :=
  _is_local_candidate c && bool_decide (_candidate_license c ∈ LICENSED_LICENSES).

Definition candidate_is_public_domain_or_cc (c : AutoFlowClipCandidate) : bool :=
  _is_local_candidate c && bool_decide (_candidate_license c ∈ PUBLIC_DOMAIN_OR_CC_LICENSES).

Definition _candidate_has_known_license (c : AutoFlowClipCandidate) : bool :=
  bool_decide (_candidate_license c ∈ OWNED_LICENSES ++ LICENSED_LICENSES).

Definition _candidate_matches_policy (source_policy : string) (c : AutoFlowClipCandidate) : bool :=
  if (source_policy =? "owned_only")%string then candidate_is_owned c
  else if (source_policy =? "licensed_only")%string then candidate_is_licensed c
  else if (source_policy =? "public_domain_or_cc")%string then candidate_is_public_domain_or_cc c
  else (effective_status c =? "allowed")%string.

(** ** The policy *)

Definition external_sources : list string := ["youtube"; "x"; "bilibili"; "xiaohongshu"; "external_url"; "url"].
Definition STRICT_POLICIES : list string := ["owned_only"; "licensed_only"; "public_domain_or_cc"].
Definition PREVIEW_MODES : list string := ["preview_only"; "private_upload"; "unlisted_upload"].

Definition is_external (c : AutoFlowClipCandidate) : bool :=
  truthy_str (cc_url c) || bool_decide (cc_source_type c ∈ external_sources).

Definition blocked_decision (reason : string) : RightsDecision :=
  {| rd_status := "blocked"; rd_reasons := [reason]; rd_allowed_publish_modes := ["preview_only"];
     rd_execute_allowed := false; rd_publish_allowed := false |}.

Definition review_decision (reason : string) (modes : list string) : RightsDecision :=
  {| rd_status := "review_required"; rd_reasons := [reason]; rd_allowed_publish_modes := modes;
     rd_execute_allowed := true; rd_publish_allowed := false |}.

Definition evaluate (request : AutoFlowRequest) (candidates : list AutoFlowClipCandidate) : RightsDecision :=
  let policy := rq_source_policy request in
  let has_external := existsb is_external candidates in
  if match candidates with [] => true | _ => false end then blocked_decision "no_material"
  else if bool_decide ("blocked" ∈ map effective_status candidates) then
    blocked_decision "one or more candidates are blocked by rights policy"
  else if bool_decide (policy ∈ STRICT_POLICIES) && has_external then
    blocked_decision (policy +:+ " policy does not allow external URL candidates")
  else if has_external then
    review_decision "external URL candidates require human review and private/unlisted defaults" PREVIEW_MODES
  else if existsb (fun c => _candidate_has_known_license c && negb (_candidate_matches_policy policy c)) candidates then
    blocked_decision ("one or more candidates do not satisfy " +:+ policy)
  else if existsb (fun c => negb (effective_status c =? "allowed")%string || negb (_candidate_matches_policy policy c)) candidates then
    review_decision "unknown or review-required candidate rights require human review" PREVIEW_MODES
  else if (rq_publish_mode request =? "public_after_review")%string then
    review_decision "public publishing requires explicit human approval" (PREVIEW_MODES ++ ["public_after_review"])
  else
    {| rd_status := "allowed";
       rd_reasons := ["owned or library-backed candidates are allowed for preview/private execution"];
       rd_allowed_publish_modes := PREVIEW_MODES; rd_execute_allowed := true;
       rd_publish_allowed := bool_decide (rq_publish_mode request ∈ PREVIEW_MODES) |}.

(** ** Facts of a candidate *)

Lemma dget_omap_keys (m : string -> option pyval) (keys : list string) k :
  dget (omap (fun key => option_map (pair key) (m key)) keys) k = if decide (k ∈ keys) then m k else None.
Proof.
  induction keys as [|k0 keys IH]; [done|].
  change (omap ?f (k0 :: keys)) with (match f k0 with Some p => p :: omap f keys | None => omap f keys end). cbv beta.
  destruct (m k0) as [v|] eqn:Hm; simpl.
  - destruct (decide (k = k0)) as [->|Hne].
    + by rewrite decide_True by (by left).
    + rewrite IH. destruct (decide (k ∈ keys)); [by rewrite decide_True by (by right)|].
      rewrite decide_False; [done|]. by intros [?|?]%elem_of_cons.
  - rewrite IH. destruct (decide (k ∈ keys)); [by rewrite decide_True by (by right)|].
    destruct (decide (k ∈ k0 :: keys)) as [[->|?]%elem_of_cons|]; done.
Qed.

Lemma rights_metadata_get m k : k ∈ RIGHTS_METADATA_KEYS -> (rights_metadata_from_mapping m).[? k] = m.[? k].
Proof. intros Hk. unfold rights_metadata_from_mapping. rewrite dget_omap_keys. by rewrite decide_True. Qed.

Lemma rights_metadata_NoDup m : NoDup (dkeys (rights_metadata_from_mapping m)).
Proof.
  unfold rights_metadata_from_mapping. assert (Hn : NoDup RIGHTS_METADATA_KEYS) by (by apply (bool_decide_unpack _)).
  induction Hn as [|k keys Hk _ IH]; [apply NoDup_nil_2|].
  change (omap ?f (k :: keys)) with (match f k with Some p => p :: omap f keys | None => omap f keys end). cbv beta.
  destruct (m.[? k]); [|done]. simpl. apply NoDup_cons. split; [|done].
  rewrite elem_of_dkeys, dget_omap_keys. rewrite decide_False by done. by intros [? ?].
Qed.

(** The statuses of the metadata of a candidate: at most one. *)
Definition own_statuses (c : AutoFlowClipCandidate) : list pyval :=
  match (cc_metadata c).[? "rights_status"] with Some VNone | None => [] | Some s => [s] end.

Lemma candidate_facts_eq c :
  candidate_rights_facts c
  = (dpop (rights_metadata_from_mapping (cc_metadata c)) "rights_status").["rights_status" <-
      VStr (_most_restrictive_status (own_statuses c ++ [VStr (cc_rights_status c)]))].
Proof.
  unfold candidate_rights_facts, merge_rights_metadata. cbn [fold_left].
  assert (H1 : merge_step ([], []) (cc_metadata c)
             = (dpop (rights_metadata_from_mapping (cc_metadata c)) "rights_status", own_statuses c)).
  { unfold merge_step. cbn [fst snd].
    rewrite (rights_metadata_get _ "rights_status") by (by apply (bool_decide_unpack _)).
    change (update_dict [] ?e) with (dict_of e). rewrite dict_of_NoDup by (apply NoDup_dpop, rights_metadata_NoDup). done. }
  rewrite H1. unfold merge_step. cbn [fst snd].
  change ((rights_metadata_from_mapping [("rights_status", VStr (cc_rights_status c))]).[? "rights_status"])
    with (Some (VStr (cc_rights_status c))).
  cbv beta iota. destruct (own_statuses c); done.
Qed.

(** The status and the license that count for a candidate. *)
Lemma candidate_facts c :
  (candidate_rights_facts c).[? "license"] = (cc_metadata c).[? "license"]
  /\ (candidate_rights_facts c).[? "rights_status"]
     = Some (VStr (_most_restrictive_status (own_statuses c ++ [VStr (cc_rights_status c)]))).
Proof.
  rewrite candidate_facts_eq. split; [|apply dget_dset_eq]. rewrite dget_dset_ne, dget_dpop_ne by done.
  apply rights_metadata_get. by apply (bool_decide_unpack _).
Qed.

Definition RESTRICTIVE : list string := ["blocked"; "review_required"; "unknown"].

Lemma most_restrictive_cases vs :
  _most_restrictive_status vs ∈ RESTRICTIVE
  \/ (_most_restrictive_status vs = "allowed" /\ forall v, v ∈ vs -> _normalized_token (Some v) ∉ RESTRICTIVE).
Proof.
  unfold _most_restrictive_status. set (ts := map _ vs). cbn [find].
  case_bool_decide as H1; [left; by left|]. case_bool_decide as H2; [left; right; by left|].
  case_bool_decide as H3; [left; right; right; by left|]. case_bool_decide as H4; [right|left; right; right; by left].
  split; [done|]. intros v Hv Hin.
  assert (Ht : _normalized_token (Some v) ∈ ts) by (apply (elem_map (fun v => _normalized_token (Some v))), Hv).
  apply elem_of_cons in Hin as [Heq|[Heq|[Heq|[]%elem_of_nil]%elem_of_cons]%elem_of_cons]; by rewrite Heq in Ht.
Qed.

(** An allowed candidate has a known license and no restrictive status anywhere. *)
Lemma effective_allowed c :
  effective_status c = "allowed" ->
  _candidate_has_known_license c = true
  /\ forall v, v ∈ own_statuses c ++ [VStr (cc_rights_status c)] -> _normalized_token (Some v) ∉ RESTRICTIVE.
Proof.
  unfold effective_status, rights_status_from_metadata, _candidate_has_known_license, _candidate_license.
  rewrite !rights_metadata_get by (by apply (bool_decide_unpack _)). destruct (candidate_facts c) as [-> ->].
  set (r := _most_restrictive_status _). intros Heff.
  destruct (most_restrictive_cases (own_statuses c ++ [VStr (cc_rights_status c)])) as [Hr|[Hr Hall]]; fold r in Hr.
  - exfalso. apply elem_of_cons in Hr as [Hr|[Hr|[Hr|[]%elem_of_nil]%elem_of_cons]%elem_of_cons]; rewrite Hr in Heff;
      vm_compute in Heff; discriminate Heff.
  - split; [|done]. rewrite Hr in Heff. change (_normalized_token (Some (VStr "allowed"))) with "allowed" in Heff.
    cbv beta iota in Heff. destruct (bool_decide (_ ∈ OWNED_LICENSES ++ LICENSED_LICENSES)); [done|].
    vm_compute in Heff. discriminate Heff.
Qed.

(** ** The decision *)

Lemma existsb_false_all {A} (p : A -> bool) l a : existsb p l = false -> a ∈ l -> p a = false.
Proof. apply existsb_false_elem. Qed.

(** What an allowed decision rests on. *)
Lemma evaluate_allowed request candidates :
  rd_status (evaluate request candidates) = "allowed" ->
  candidates <> [] /\ rq_publish_mode request <> "public_after_review"
  /\ rd_publish_allowed (evaluate request candidates) = bool_decide (rq_publish_mode request ∈ PREVIEW_MODES)
  /\ forall c, c ∈ candidates ->
       is_external c = false /\ _candidate_has_known_license c = true
       /\ _candidate_matches_policy (rq_source_policy request) c = true
       /\ (forall v, v ∈ own_statuses c ++ [VStr (cc_rights_status c)] -> _normalized_token (Some v) ∉ RESTRICTIVE).
Proof.
  unfold evaluate. destruct candidates as [|c0 cs]; [done|]. set (l := c0 :: cs).
  destruct (bool_decide ("blocked" ∈ map effective_status l)); [done|].
  destruct (bool_decide (rq_source_policy request ∈ STRICT_POLICIES) && existsb is_external l); [done|].
  destruct (existsb is_external l) eqn:Hext; [done|].
  set (p2 := fun c => _candidate_has_known_license c && _). set (p3 := fun c => negb _ || _).
  destruct (existsb p2 l) eqn:Hmis; [done|]. destruct (existsb p3 l) eqn:Hst; [done|].
  destruct (String.eqb_spec (rq_publish_mode request) "public_after_review") as [|Hpub]; [done|].
  intros _. split_and!; [done..|]. intros c Hc.
  pose proof (existsb_false_all _ _ c Hst Hc) as [Heff Hpol]%orb_false_elim.
  apply negb_false_iff in Heff, Hpol. apply String.eqb_eq in Heff.
  destruct (effective_allowed c Heff) as [Hlic Hall]. split_and!; [by apply (existsb_false_all _ l)|done..].
Qed.

(** A decision that lets publish allows. *)
Lemma publish_allowed_status request candidates :
  rd_publish_allowed (evaluate request candidates) = true -> rd_status (evaluate request candidates) = "allowed".
Proof. unfold evaluate. repeat case_match; done. Qed.

(** What the rights policy allows is safe: there is material; no candidate comes from
    outside; every candidate has a recognised license, satisfies the source policy (an
    owned or licensed local asset for the strict policies) and has no blocking, review
    or unknown status, neither its own nor in its metadata; and publication is
    allowed for previews, private and unlisted uploads only. *)
Theorem rights_allowed_sound request candidates :
  (rd_status (evaluate request candidates) = "allowed" ->
     candidates <> [] /\ rq_publish_mode request <> "public_after_review"
     /\ forall c, c ∈ candidates ->
          is_external c = false /\ _candidate_has_known_license c = true
          /\ _candidate_matches_policy (rq_source_policy request) c = true
          /\ (forall v, v ∈ own_statuses c ++ [VStr (cc_rights_status c)] -> _normalized_token (Some v) ∉ RESTRICTIVE))
  /\ (rd_publish_allowed (evaluate request candidates) = true ->
        rd_status (evaluate request candidates) = "allowed" /\ rq_publish_mode request ∈ PREVIEW_MODES).
Proof.
  split; [intros Ha; by apply evaluate_allowed in Ha as (? & ? & _ & ?)|].
  intros Hp. pose proof (publish_allowed_status _ _ Hp) as Ha. split; [done|].
  apply evaluate_allowed in Ha as (_ & _ & Hpub & _). rewrite Hp in Hpub. symmetry in Hpub. by apply bool_decide_eq_true in Hpub.
Qed.

Lemma existsb_perm {A} (p : A -> bool) l l' : l ≡ₚ l' -> existsb p l = existsb p l'.
Proof. induction 1; simpl; [done|congruence| |congruence]. by rewrite !orb_assoc, (orb_comm (p y)). Qed.

(** The decision does not depend on the order of the candidates. *)
Theorem rights_order_irrelevant request candidates candidates' :
  candidates ≡ₚ candidates' -> evaluate request candidates = evaluate request candidates'.
Proof.
  intros Hp. unfold evaluate. rewrite !(existsb_perm _ _ _ Hp).
  assert (Hb : bool_decide ("blocked" ∈ map effective_status candidates)
             = bool_decide ("blocked" ∈ map effective_status candidates')).
  { apply bool_decide_ext. by rewrite Hp. }
  rewrite Hb. destruct candidates as [|c cs], candidates' as [|c' cs']; [done| | |done].
  - by apply Permutation_nil_l in Hp.
  - symmetry in Hp. by apply Permutation_nil_l in Hp.
Qed.

(** How restrictive a decision is. *)
Definition severity (d : RightsDecision) : nat :=
  if (rd_status d =? "blocked")%string then 2 else if (rd_status d =? "review_required")%string then 1 else 0.

Lemma severity_max d reason : severity d <= severity (blocked_decision reason).
Proof. unfold severity at 2. simpl. unfold severity. destruct (_ =? _)%string; [done|]. destruct (_ =? _)%string; lia. Qed.

Lemma existsb_mono {A} (p : A -> bool) l l' : l ⊆ l' -> existsb p l = true -> existsb p l' = true.
Proof.
  rewrite !existsb_exists. intros Hs (x & Hx & Hp). exists x. split; [|done].
  rewrite <-list_elem_of_In in *. by apply Hs.
Qed.

(** Under the strict source policies more material never relaxes a decision: with
    further candidates it is at least as restrictive. *)
Theorem strict_rights_monotone request candidates candidates' :
  rq_source_policy request ∈ STRICT_POLICIES -> candidates <> [] -> candidates ⊆ candidates' ->
  severity (evaluate request candidates) <= severity (evaluate request candidates').
Proof.
  intros Hpol Hne Hsub. unfold evaluate. rewrite (bool_decide_true (_ ∈ STRICT_POLICIES)) by done. cbn [andb].
  destruct candidates as [|c0 cs]; [done|]. set (l := c0 :: cs) in *.
  destruct candidates' as [|c1 cs']; [by apply (list_nil_subseteq) in Hsub|]. set (l' := c1 :: cs') in *.
  set (p2 := fun c => _candidate_has_known_license c && _). set (p3 := fun c => negb _ || _).
  pose proof (existsb_mono is_external l l' Hsub) as He. pose proof (existsb_mono p2 l l' Hsub) as H2.
  pose proof (existsb_mono p3 l l' Hsub) as H3.
  assert (Hb : "blocked" ∈ map effective_status l -> "blocked" ∈ map effective_status l').
  { intros (c & Hc & Hin)%list_elem_of_fmap. rewrite Hc. apply elem_map. by apply Hsub. }
  destruct (bool_decide ("blocked" ∈ map effective_status l')) eqn:Hb'; [apply severity_max|].
  apply bool_decide_eq_false in Hb'. rewrite (bool_decide_false ("blocked" ∈ map effective_status l)) by tauto.
  destruct (existsb is_external l'); [apply severity_max|].
  destruct (existsb is_external l); [by specialize (He eq_refl)|].
  destruct (existsb p2 l'); [apply severity_max|].
  destruct (existsb p2 l); [by specialize (H2 eq_refl)|].
  destruct (existsb p3 l), (existsb p3 l'); try by specialize (H3 eq_refl).
  all: destruct (_ =? "public_after_review")%string; unfold severity; simpl; lia.
Qed.

(** ** Samples *)

Definition sample_candidate (id source_type : string) (url asset : option string) (license status : string)
    : AutoFlowClipCandidate :=
  {| cc_id := id; cc_title := id; cc_source_type := source_type; cc_material_id := None; cc_url := url;
     cc_asset_id := asset; cc_start_sec := None; cc_end_sec := None; cc_score := float_of_Z 0;
     cc_rights_status := status; cc_metadata := [("license", VStr license)] |}.

Definition owned_clip : AutoFlowClipCandidate := sample_candidate "a" "asset" None (Some "as1") "Owned" "allowed".
Definition cc_clip : AutoFlowClipCandidate := sample_candidate "b" "material" None (Some "as2") "CC-BY" "allowed".
Definition pending_clip : AutoFlowClipCandidate := sample_candidate "c" "asset" None (Some "as3") "owned" "review_required".
Definition web_clip : AutoFlowClipCandidate := sample_candidate "d" "youtube" (Some "https://youtu.be/x") None "" "unknown".

Definition request_of (policy mode : string) : AutoFlowRequest :=
  {| rq_prompt := "p"; rq_source_policy := policy; rq_publish_mode := mode |}.

(** Outside the strict policies more material can relax a decision: a library clip whose
    status asks for review is blocked on its own, and only subject to review next to a
    clip from the web. *)
Theorem external_clip_relaxes_decision :
  evaluate (request_of "remix_with_review" "private_upload") [pending_clip]
  = blocked_decision "one or more candidates do not satisfy remix_with_review"
  /\ rd_status (evaluate (request_of "remix_with_review" "private_upload") [pending_clip; web_clip]) = "review_required"
  /\ rd_execute_allowed (evaluate (request_of "remix_with_review" "private_upload") [pending_clip; web_clip]) = true.
Proof. split_and!; vm_compute; reflexivity. Qed.

Lemma rights_allowed_sound_witness :
  rd_status (evaluate (request_of "owned_only" "unlisted_upload") [owned_clip]) = "allowed"
  /\ _candidate_matches_policy "owned_only" owned_clip = true
  /\ "unlisted_upload" ∈ PREVIEW_MODES.
Proof.
  destruct (rights_allowed_sound (request_of "owned_only" "unlisted_upload") [owned_clip]) as [Hall Hpub].
  split; [vm_compute; reflexivity|]. split.
  - destruct (Hall ltac:(vm_compute; reflexivity)) as (_ & _ & Hc). by apply (Hc owned_clip); left.
  - apply Hpub. vm_compute. reflexivity.
Defined.

Lemma rights_order_irrelevant_witness :
  evaluate (request_of "licensed_only" "preview_only") [owned_clip; cc_clip]
  = evaluate (request_of "licensed_only" "preview_only") [cc_clip; owned_clip].
Proof. apply rights_order_irrelevant. apply perm_swap. Defined.

Lemma strict_rights_monotone_witness :
  severity (evaluate (request_of "owned_only" "private_upload") [owned_clip]) = 0
  /\ severity (evaluate (request_of "owned_only" "private_upload") [owned_clip])
     <= severity (evaluate (request_of "owned_only" "private_upload") [owned_clip; web_clip]).
Proof.
  split; [vm_compute; reflexivity|]. apply strict_rights_monotone.
  - by left.
  - discriminate.
  - intros c Hc%list_elem_of_singleton. rewrite Hc. by left.
Defined.
