(* ===== verification/PipelinePolicy.v ===== *)
(** * Policies on generated pipelines ([autoflow/pipeline_policy.py],
    [autoflow/validation_repair.py])

    Before a generated pipeline is stored, the policy rejects external sources where only
    owned material is allowed, strips uploads from previews and forces the privacy of
    the others; the repair service answers validation errors by resetting parameters
    and filling in assets, or gives up. *)

From stdpp Require Import base tactics list strings sorting.
From Stdlib Require Import ZArith Lia.
From S2P Require Import Prelude PyStr PyValue NodeRegistry Pipeline RightsPolicy.

Open Scope string_scope.
Open Scope list_scope.

(** ** Policy *)

Definition EXTERNAL_SOURCE_NODE_TYPES : list string :=
  ["youtube_search"; "bilibili_search"; "x_search"; "xiaohongshu_search"; "url_download"].
Definition UPLOAD_NODE_TYPES : list string := ["youtube_upload"; "x_upload"; "xiaohongshu_upload"].

Record PipelinePolicyIssue := {
  pi_code : string;
  pi_message : string;
  pi_node_id : option string;
  pi_severity : string }.

Record PipelinePolicyResult := {
  pr_valid : bool;
  pr_definition : PipelineDefinition;
  pr_errors : list PipelinePolicyIssue;
  pr_warnings : list PipelinePolicyIssue;
  pr_repairs : list string;
  pr_requires_review : bool }.

Definition is_external_source (n : PipelineNode) : bool := bool_decide (n_type n ∈ EXTERNAL_SOURCE_NODE_TYPES).
Definition is_upload (n : PipelineNode) : bool := bool_decide (n_type n ∈ UPLOAD_NODE_TYPES).

Definition _desired_upload_privacy (publish_mode current_privacy : string) : string :=
  if (publish_mode =? "private_upload")%string then "private"
  else if (publish_mode =? "unlisted_upload")%string then
    if bool_decide (current_privacy ∈ ["private"; "unlisted"]) then current_privacy else "unlisted"
  else if (publish_mode =? "public_after_review")%string then "private"
  else current_privacy.

Definition set_node_config (c : config) (n : PipelineNode) : PipelineNode :=
  {| n_id := n_id n; n_type := n_type n; n_position := n_position n;
     n_data := {| d_label := d_label (n_data n); d_config := c; d_asset_id := d_asset_id (n_data n) |} |}.

Definition current_privacy (n : PipelineNode) : string :=
  match (d_config (n_data n)).[? "privacy"] with
  | Some v => if truthy v then py_str v else "private"
  | None => "private"
  end.

(** An upload node under a publish mode, and the repair this is. *)
Definition force_privacy (publish_mode : string) (n : PipelineNode) : PipelineNode * list string :=
  if negb (is_upload n) then (n, [])
  else
    let desired := _desired_upload_privacy publish_mode (current_privacy n) in
    let same := match (d_config (n_data n)).[? "privacy"] with Some v => py_eq v (VStr desired) | None => false end in
    if same then (n, [])
    else (set_node_config (d_config (n_data n)).["privacy" <- VStr desired] n,
          ["privacy:" +:+ n_id n +:+ ":" +:+ desired]).

Definition without_nodes (ids : list string) (d : PipelineDefinition) : PipelineDefinition :=
  {| nodes := List.filter (fun n => negb (bool_decide (n_id n ∈ ids))) (nodes d);
     edges := List.filter (fun e => negb (bool_decide (e_source e ∈ ids)) && negb (bool_decide (e_target e ∈ ids))) (edges d);
     viewport := viewport d |}.

Definition external_error (n : PipelineNode) : PipelinePolicyIssue :=
  {| pi_code := "external_source_blocked";
     pi_message := "Node '" +:+ n_id n +:+ "' uses external source '" +:+ n_type n +:+ "' under owned_only policy.";
     pi_node_id := Some (n_id n); pi_severity := "error" |}.

Definition public_warning (n : PipelineNode) : PipelinePolicyIssue :=
  {| pi_code := "public_requires_approval";
     pi_message := "Public publishing requires explicit public approval; upload privacy remains private.";
     pi_node_id := Some (n_id n); pi_severity := "warning" |}.

Definition validate_pipeline_policy (definition : PipelineDefinition) (request : AutoFlowRequest) : PipelinePolicyResult :=
  let mode := rq_publish_mode request in
  let errors := if (rq_source_policy request =? "owned_only")%string
                then map external_error (List.filter is_external_source (nodes definition)) else [] in
  let review := existsb is_external_source (nodes definition) in
  let '(data, warnings, repairs, review) :=
    if (mode =? "preview_only")%string then
      let upload_ids := uniq (map n_id (List.filter is_upload (nodes definition))) in
      match upload_ids with
      | [] => (definition, [], [], review)
      | _ => (without_nodes upload_ids definition, [],
              map (fun id => "removed_upload:" +:+ id) (merge_sort str_le upload_ids), review)
      end
    else
      ({| nodes := map (fun n => (force_privacy mode n).1) (nodes definition); edges := edges definition;
          viewport := viewport definition |},
       if (mode =? "public_after_review")%string then map public_warning (List.filter is_upload (nodes definition)) else [],
       concat (map (fun n => (force_privacy mode n).2) (nodes definition)),
       review || existsb is_upload (nodes definition)) in
  let ok := match errors with [] => true | _ => false end in
  {| pr_valid := ok; pr_definition := if ok then data else definition; pr_errors := errors; pr_warnings := warnings;
     pr_repairs := if ok then repairs else []; pr_requires_review := review || negb ok |}.

(** ** Repair *)

Record AutoFlowRepairResult := {
  ar_definition : PipelineDefinition;
  ar_repaired : bool;
  ar_applied_repairs : list string }.

(** The nodes of the data under repair: an error names a node by its identifier, and the
    first node with it is meant. *)
Fixpoint update_first (node_id : string) (f : PipelineNode -> PipelineNode) (ns : list PipelineNode) : list PipelineNode :=
  match ns with
  | [] => []
  | n :: ns' => if (n_id n =? node_id)%string then f n :: ns' else n :: update_first node_id f ns'
  end.

Definition _node (ns : list PipelineNode) (node_id : string) : option PipelineNode :=
  find (fun n => (n_id n =? node_id)%string) ns.

Definition _repair_invalid_param (registry : NodeTypeRegistry) (ns : list PipelineNode) (node_id name : string)
    : option (list PipelineNode) :=
  match _node ns node_id with
  | None => None
  | Some node =>
      match get_type registry (n_type node) with
      | None => None
      | Some node_def =>
          match find (fun p => (param_name p =? name)%string) (params node_def) with
          | None => None
          | Some param_def =>
              Some (update_first node_id
                (fun n => set_node_config (d_config (n_data n)).[name <- param_default param_def] n) ns)
          end
      end
  end.

Definition set_node_asset (asset_id : string) (n : PipelineNode) : PipelineNode :=
  {| n_id := n_id n; n_type := n_type n; n_position := n_position n;
     n_data := {| d_label := d_label (n_data n); d_config := (d_config (n_data n)).["asset_id" <- VStr asset_id];
                  d_asset_id := Some asset_id |} |}.

Definition _repair_missing_asset (ns : list PipelineNode) (node_id : string) (candidates : list AutoFlowClipCandidate)
    : option (list PipelineNode) :=
  match _node ns node_id, find (fun c => truthy_str (cc_asset_id c)) candidates with
  | Some _, Some candidate =>
      match cc_asset_id candidate with
      | Some asset_id => Some (update_first node_id (set_node_asset asset_id) ns)
      | None => None
      end
  | _, _ => None
  end.

(** [node_id] or [param_name] when it is a non-empty string. *)
Definition named (s : option string) : option string := if truthy_str s then s else None.

(** One error: the nodes after its repair, or why there is none. *)
Definition repair_error (registry : NodeTypeRegistry) (candidates : list AutoFlowClipCandidate) (ns : list PipelineNode)
    (error : ValidationError) : (list PipelineNode * string) + string :=
  if (ve_type error =? "cycle_detected")%string then inr "cycle_detected"
  else if (ve_type error =? "port_type_mismatch")%string then
    inr ("port_type_mismatch:" +:+ default "None" (ve_edge_id error))
  else
    match (ve_type error =? "invalid_param")%string, named (ve_node_id error), named (ve_param_name error) with
    | true, Some node_id, Some name =>
        let asset := if (name =? "asset_id")%string then _repair_missing_asset ns node_id candidates else None in
        match asset with
        | Some ns' => inl (ns', "missing_asset:" +:+ node_id)
        | None =>
            match _repair_invalid_param registry ns node_id name with
            | Some ns' => inl (ns', "invalid_param:" +:+ node_id +:+ "." +:+ name)
            | None => inr ("invalid_param:" +:+ node_id +:+ "." +:+ name)
            end
        end
    | _, node, _ =>
        match (ve_type error =? "missing_asset")%string, node with
        | true, Some node_id =>
            match _repair_missing_asset ns node_id candidates with
            | Some ns' => inl (ns', "missing_asset:" +:+ node_id)
            | None => inr ("missing_asset:" +:+ node_id)
            end
        | _, _ => inr (ve_type error)
        end
    end.

Definition repair_step (registry : NodeTypeRegistry) (candidates : list AutoFlowClipCandidate)
    (acc : list PipelineNode * list string * list string) (error : ValidationError)
    : list PipelineNode * list string * list string :=
  let '(ns, applied, unrepairable) := acc in
  match repair_error registry candidates ns error with
  | inl (ns', what) => (ns', applied ++ [what], unrepairable)
  | inr why => (ns, applied, unrepairable ++ [why])
  end.

(** [AutoFlowRepairService.repair]: the result, or the errors of [AutoFlowUnrepairableError]
    with the repairs made before. *)
Definition repair (registry : NodeTypeRegistry) (definition : PipelineDefinition) (errs : list ValidationError)
    (candidates : list AutoFlowClipCandidate) : AutoFlowRepairResult + (list string * list string) :=
  let '(ns, applied, unrepairable) := fold_left (repair_step registry candidates) errs (nodes definition, [], []) in
  match unrepairable with
  | [] => inl {| ar_definition := {| nodes := ns; edges := edges definition; viewport := viewport definition |};
                 ar_repaired := match applied with [] => false | _ => true end; ar_applied_repairs := applied |}
  | _ => inr (unrepairable, applied)
  end.

(** ** Privacy of uploads *)

Definition PUBLISH_MODES : list string := ["preview_only"; "private_upload"; "unlisted_upload"; "public_after_review"].

(** The privacies an upload may have under a mode. *)
Definition permitted_privacies (mode : string) : list string :=
  if (mode =? "preview_only")%string then []
  else if (mode =? "unlisted_upload")%string then ["private"; "unlisted"] else ["private"].

Lemma desired_permitted mode current :
  mode ∈ PUBLISH_MODES -> mode <> "preview_only" -> _desired_upload_privacy mode current ∈ permitted_privacies mode.
Proof.
  intros [->|[->|[->|[->|[]%elem_of_nil]%elem_of_cons]%elem_of_cons]%elem_of_cons]%elem_of_cons Hp; [done|by left| |by left].
  unfold _desired_upload_privacy, permitted_privacies. simpl. case_bool_decide; [done|]. right. by left.
Qed.

Lemma py_eq_str v s : py_eq v (VStr s) = true -> v = VStr s.
Proof. destruct v; simpl; try done. intros H. f_equal. by apply String.eqb_eq. Qed.

Lemma forced_privacy mode n :
  is_upload n = true ->
  (d_config (n_data (force_privacy mode n).1)).[? "privacy"]
  = Some (VStr (_desired_upload_privacy mode (current_privacy n))).
Proof.
  intros Hu. unfold force_privacy. rewrite Hu. simpl.
  destruct ((d_config (n_data n)).[? "privacy"]) as [v|] eqn:Hv; simpl; [|apply dget_dset_eq].
  destruct (py_eq v _) eqn:He; simpl; [|apply dget_dset_eq]. by apply py_eq_str in He as <-.
Qed.

Lemma force_identity mode n :
  n_id (force_privacy mode n).1 = n_id n /\ n_type (force_privacy mode n).1 = n_type n.
Proof. unfold force_privacy. destruct (is_upload n); simpl; [|done]. by destruct (match _ with Some _ => _ | None => _ end). Qed.

Lemma map_nil_filter {A B} (f : A -> B) (p : A -> bool) l x : map f (List.filter p l) = [] -> x ∈ l -> p x = false.
Proof.
  intros Hnil Hx. destruct (p x) eqn:Hp; [|done]. exfalso.
  assert (Hin : f x ∈ map f (List.filter p l)) by (apply elem_map; by apply elem_of_lfilter).
  rewrite Hnil in Hin. by apply elem_of_nil in Hin.
Qed.

Lemma uniq_nil {A} `{EqDecision A} (l : list A) : uniq l = [] -> l = [].
Proof.
  destruct l as [|x l _] using rev_ind; [done|]. unfold uniq. rewrite fold_left_app. cbn [fold_left].
  case_decide as H; intros Hn; [rewrite Hn in H; by apply elem_of_nil in H|by destruct (fold_left _ l [])].
Qed.

Lemma elem_of_uniq {A} `{EqDecision A} (l : list A) x : x ∈ uniq l <-> x ∈ l.
Proof.
  induction l as [|y l IH] using rev_ind; [done|]. unfold uniq in *. rewrite fold_left_app. cbn [fold_left].
  case_decide as H; rewrite elem_of_app, list_elem_of_singleton; [rewrite IH in *|rewrite elem_of_app, list_elem_of_singleton, IH];
    naive_solver.
Qed.

(** A generated pipeline that passes the policy publishes no more than was asked: a
    preview has no upload node at all, every other upload is private, or unlisted
    where unlisted uploads were requested, never public; under [owned_only] there is no
    external source; and no edge is left without its ends. *)
Theorem pipeline_policy_sound definition request :
  rq_publish_mode request ∈ PUBLISH_MODES ->
  (forall e, e ∈ edges definition -> e_source e ∈ map n_id (nodes definition) /\ e_target e ∈ map n_id (nodes definition)) ->
  let r := validate_pipeline_policy definition request in
  pr_valid r = true ->
  (forall n, n ∈ nodes (pr_definition r) -> is_upload n = true ->
     exists p, p ∈ permitted_privacies (rq_publish_mode request)
       /\ (d_config (n_data n)).[? "privacy"] = Some (VStr p))
  /\ (rq_source_policy request = "owned_only" -> forall n, n ∈ nodes (pr_definition r) -> is_external_source n = false)
  /\ (forall e, e ∈ edges (pr_definition r) ->
       e_source e ∈ map n_id (nodes (pr_definition r)) /\ e_target e ∈ map n_id (nodes (pr_definition r))).
Proof.
  intros Hmode Hedges r. unfold r, validate_pipeline_policy. clear r.
  set (errs := if (rq_source_policy request =? "owned_only")%string then _ else _).
  assert (Howned : errs = [] -> rq_source_policy request = "owned_only" ->
            forall n, n ∈ nodes definition -> is_external_source n = false).
  { unfold errs. intros He Hp n Hn. rewrite Hp, String.eqb_refl in He. by eapply map_nil_filter. }
  destruct (String.eqb_spec (rq_publish_mode request) "preview_only") as [Hpre|Hpre].
  - set (ids := uniq (map n_id (List.filter is_upload (nodes definition)))).
    assert (Hids : forall n, n ∈ nodes definition -> n_id n ∉ ids -> is_upload n = false).
    { intros n Hn Hnot. destruct (is_upload n) eqn:Hu; [|done]. destruct Hnot. unfold ids. apply elem_of_uniq.
      apply elem_map. by apply elem_of_lfilter. }
    destruct ids as [|i0 ids0] eqn:Hidsq; cbv beta iota zeta; destruct errs as [|e0 es] eqn:He; simpl; try done; intros _.
    + split_and!; [|by apply Howned|done]. intros n Hn Hu. rewrite Hids in Hu; [done|done|apply not_elem_of_nil].
    + rewrite <-Hidsq in *. split_and!.
      * intros n [Hn Hi%negb_true_iff%bool_decide_eq_false]%elem_of_lfilter Hu. by rewrite Hids in Hu.
      * intros Hp n [Hn _]%elem_of_lfilter. by apply Howned.
      * intros e [Hin [Hs%negb_true_iff%bool_decide_eq_false Ht%negb_true_iff%bool_decide_eq_false]%andb_prop]%elem_of_lfilter.
        destruct (Hedges e Hin) as [(a & Ha & Han)%list_elem_of_fmap (b & Hb & Hbn)%list_elem_of_fmap]. rewrite Ha in Hs |- *.
        rewrite Hb in Ht |- *. split; apply elem_map, elem_of_lfilter; (split; [done|by apply negb_true_iff, bool_decide_eq_false]).
  - cbv beta iota zeta. destruct errs as [|e0 es] eqn:He; simpl; [|done]. intros _.
    assert (Hnode : map n_id (map (fun n => (force_privacy (rq_publish_mode request) n).1) (nodes definition)) = map n_id (nodes definition)).
    { rewrite map_map. apply map_ext. intros n. apply force_identity. }
    split_and!.
    + intros n (n0 & -> & Hn0)%list_elem_of_fmap Hu.
      assert (Hu0 : is_upload n0 = true) by (unfold is_upload in *; by rewrite (proj2 (force_identity _ n0)) in Hu).
      eexists. split; [apply desired_permitted; done|by apply forced_privacy].
    + intros Hp n (n0 & -> & Hn0)%list_elem_of_fmap. unfold is_external_source.
      rewrite (proj2 (force_identity _ n0)). by apply Howned.
    + intros e Hin. rewrite Hnode. by apply Hedges.
Qed.

(** ** Repetition *)

Lemma desired_stable mode current :
  mode ∈ PUBLISH_MODES -> mode <> "preview_only" ->
  let d := _desired_upload_privacy mode current in is_empty d = false /\ _desired_upload_privacy mode d = d.
Proof.
  intros [->|[->|[->|[->|[]%elem_of_nil]%elem_of_cons]%elem_of_cons]%elem_of_cons]%elem_of_cons Hp; [done|done| |done].
  unfold _desired_upload_privacy. simpl. destruct (bool_decide (current ∈ _)) eqn:Hc; [|done]. rewrite Hc.
  apply bool_decide_eq_true in Hc. split; [|done].
  by apply elem_of_cons in Hc as [->|[->|[]%elem_of_nil]%elem_of_cons].
Qed.

Lemma forced_again mode n :
  mode ∈ PUBLISH_MODES -> mode <> "preview_only" ->
  force_privacy mode (force_privacy mode n).1 = ((force_privacy mode n).1, []).
Proof.
  intros Hm Hp. destruct (is_upload n) eqn:Hu.
  2:{ unfold force_privacy at 2 3. rewrite Hu. simpl. unfold force_privacy. by rewrite Hu. }
  pose proof (forced_privacy mode n Hu) as Hf. destruct (desired_stable mode (current_privacy n) Hm Hp) as [He Hs].
  set (m := (force_privacy mode n).1) in *.
  assert (Hum : is_upload m = true) by (unfold is_upload, m in *; by rewrite (proj2 (force_identity mode n))).
  unfold force_privacy at 1. rewrite Hum. unfold current_privacy at 1. rewrite Hf. simpl. rewrite He. simpl.
  rewrite Hs. by rewrite String.eqb_refl.
Qed.

Lemma filter_upload_none ids d :
  (forall n, n ∈ nodes d -> n_id n ∉ ids -> is_upload n = false) ->
  List.filter is_upload (nodes (without_nodes ids d)) = [].
Proof.
  intros Hids. destruct (List.filter is_upload _) as [|n l] eqn:Hf; [done|]. exfalso.
  assert (Hn : n ∈ List.filter is_upload (nodes (without_nodes ids d))) by (rewrite Hf; by left).
  apply elem_of_lfilter in Hn as [[Hn Hi%negb_true_iff%bool_decide_eq_false]%elem_of_lfilter Hu]. by rewrite Hids in Hu.
Qed.

(** Case analysis on the list of errors a verdict looks at. *)
Ltac destruct_verdict :=
  match goal with |- context [match ?errors with [] => true | _ :: _ => false end] => destruct errors end.

(** What the policy makes of a definition it accepts. *)
Lemma policy_accepts definition request :
  let r := validate_pipeline_policy definition request in
  pr_valid r = true ->
  let ids := uniq (map n_id (List.filter is_upload (nodes definition))) in
  pr_definition r =
    if (rq_publish_mode request =? "preview_only")%string
    then match ids with [] => definition | _ => without_nodes ids definition end
    else {| nodes := map (fun n => (force_privacy (rq_publish_mode request) n).1) (nodes definition);
            edges := edges definition; viewport := viewport definition |}.
Proof.
  simpl. unfold validate_pipeline_policy. destruct (_ =? "preview_only")%string.
  - destruct (uniq _); simpl; by destruct_verdict.
  - simpl. by destruct_verdict.
Qed.

(** A preview without uploads, or uploads that have their privacy. *)
Lemma policy_stable_preview d request :
  rq_publish_mode request = "preview_only" -> List.filter is_upload (nodes d) = [] ->
  pr_repairs (validate_pipeline_policy d request) = [] /\ pr_definition (validate_pipeline_policy d request) = d.
Proof.
  intros Hm Hf. unfold validate_pipeline_policy. rewrite Hm, Hf. simpl. by destruct_verdict.
Qed.

Lemma policy_stable_forced d request :
  rq_publish_mode request <> "preview_only" ->
  (forall n, n ∈ nodes d -> force_privacy (rq_publish_mode request) n = (n, [])) ->
  pr_repairs (validate_pipeline_policy d request) = [] /\ pr_definition (validate_pipeline_policy d request) = d.
Proof.
  intros Hm Hf. unfold validate_pipeline_policy. rewrite (proj2 (String.eqb_neq _ _) Hm).
  assert (Hrep : concat (map (fun n => (force_privacy (rq_publish_mode request) n).2) (nodes d)) = []).
  { apply concat_nil_Forall, Forall_map, Forall_forall. intros n Hn. simpl. by rewrite Hf. }
  assert (Hsame : map (fun n => (force_privacy (rq_publish_mode request) n).1) (nodes d) = nodes d).
  { rewrite <-(map_id (nodes d)) at 2. apply map_ext_in. intros n Hn%list_elem_of_In. by rewrite Hf. }
  rewrite Hrep, Hsame. destruct d. simpl. by destruct_verdict.
Qed.

(** The policy repairs once: checked again, the definition it returned needs no repair
    and is returned unchanged. *)
Theorem pipeline_policy_idempotent definition request :
  rq_publish_mode request ∈ PUBLISH_MODES ->
  let r := validate_pipeline_policy definition request in
  pr_valid r = true ->
  let r' := validate_pipeline_policy (pr_definition r) request in
  pr_repairs r' = [] /\ pr_definition r' = pr_definition r.
Proof.
  intros Hmode r Hvalid r'. subst r r'. rewrite (policy_accepts definition request Hvalid).
  destruct (String.eqb_spec (rq_publish_mode request) "preview_only") as [Hpre|Hpre].
  - apply policy_stable_preview; [done|].
    assert (Hids : forall n, n ∈ nodes definition -> n_id n ∉ uniq (map n_id (List.filter is_upload (nodes definition))) ->
              is_upload n = false).
    { intros n Hn Hnot. destruct (is_upload n) eqn:Hu; [|done]. destruct Hnot. apply elem_of_uniq.
      apply elem_map. by apply elem_of_lfilter. }
    destruct (uniq _) as [|i l] eqn:Hi; [|by apply filter_upload_none].
    apply uniq_nil in Hi. by destruct (List.filter is_upload (nodes definition)).
  - apply policy_stable_forced; [done|]. intros n (n0 & -> & _)%list_elem_of_fmap. by apply forced_again.
Qed.

(** ** Repairs keep the graph *)

Lemma update_first_identity id f ns :
  (forall n, n_id (f n) = n_id n /\ n_type (f n) = n_type n) ->
  map (fun n => (n_id n, n_type n)) (update_first id f ns) = map (fun n => (n_id n, n_type n)) ns.
Proof.
  intros Hf. induction ns as [|n ns IH]; [done|]. simpl. destruct (_ =? _)%string; simpl.
  - by destruct (Hf n) as [-> ->].
  - by rewrite IH.
Qed.

Lemma repair_error_identity registry candidates ns error ns' what :
  repair_error registry candidates ns error = inl (ns', what) ->
  map (fun n => (n_id n, n_type n)) ns' = map (fun n => (n_id n, n_type n)) ns.
Proof.
  unfold repair_error, _repair_missing_asset, _repair_invalid_param.
  repeat case_match; intros [= <- <-]; simplify_eq; by apply update_first_identity.
Qed.

Lemma repair_error_hopeless registry candidates ns error :
  ve_type error ∈ ["cycle_detected"; "port_type_mismatch"] -> exists why, repair_error registry candidates ns error = inr why.
Proof.
  intros [Ht|[Ht|[]%elem_of_nil]%elem_of_cons]%elem_of_cons; unfold repair_error; rewrite Ht; by eexists.
Qed.

Lemma repair_steps registry candidates errs ns applied bad ns' applied' bad' :
  fold_left (repair_step registry candidates) errs (ns, applied, bad) = (ns', applied', bad') ->
  map (fun n => (n_id n, n_type n)) ns' = map (fun n => (n_id n, n_type n)) ns
  /\ length applied' + length bad' = length applied + length bad + length errs
  /\ length bad <= length bad'
  /\ ((exists e, e ∈ errs /\ ve_type e ∈ ["cycle_detected"; "port_type_mismatch"]) -> length bad < length bad').
Proof.
  revert ns applied bad. induction errs as [|e errs IH]; intros ns applied bad; cbn [fold_left].
  { intros [= <- <- <-]. split_and!; simpl; [done|lia|lia|]. by intros (e & ?%elem_of_nil & _). }
  unfold repair_step at 2. destruct (repair_error registry candidates ns e) as [[ns1 what]|why] eqn:He; intros Hf;
    apply IH in Hf as (Hid & Hlen & Hle & Hbad); rewrite ?length_app in *; simpl in *.
  - split_and!; [rewrite Hid; by eapply repair_error_identity|lia|lia|].
    intros (e' & [->|Hin]%elem_of_cons & Ht); [|apply Hbad; by exists e'].
    destruct (repair_error_hopeless registry candidates ns e Ht) as [why Hw]. congruence.
  - split_and!; [done|lia|lia|]. intros _. lia.
Qed.

(** Repair never changes the shape of a pipeline and never hides an error: a repaired
    definition has the same nodes (identifiers and types), edges and viewport and one
    repair per validation error; when the errors include a cycle or a port mismatch it
    gives up; and when it gives up every error is accounted for as repaired or not. *)
Theorem repair_keeps_graph registry definition errs candidates :
  match repair registry definition errs candidates with
  | inl r =>
      map (fun n => (n_id n, n_type n)) (nodes (ar_definition r)) = map (fun n => (n_id n, n_type n)) (nodes definition)
      /\ edges (ar_definition r) = edges definition /\ viewport (ar_definition r) = viewport definition
      /\ length (ar_applied_repairs r) = length errs
      /\ Forall (fun e => ve_type e ∉ ["cycle_detected"; "port_type_mismatch"]) errs
  | inr (unrepairable, applied) => unrepairable <> [] /\ length unrepairable + length applied = length errs
  end.
Proof.
  unfold repair. destruct (fold_left _ errs _) as [[ns applied] bad] eqn:Hf.
  apply repair_steps in Hf as (Hid & Hlen & _ & Hbad). simpl in *. destruct bad as [|b bad]; simpl in *.
  - split_and!; [done..|lia|]. apply Forall_forall. intros e He Ht. assert (0 < 0); [apply Hbad; by exists e|lia].
  - split; [done|lia].
Qed.

(** ** Samples *)

Definition upload_node (privacy : string) : PipelineNode :=
  {| n_id := "u"; n_type := "youtube_upload"; n_position := [];
     n_data := {| d_label := "Upload"; d_config := [("privacy", VStr privacy)]; d_asset_id := None |} |}.

Definition upload_pipeline : PipelineDefinition :=
  {| nodes := [upload_node "public"]; edges := []; viewport := default_viewport |}.

Lemma pipeline_policy_sound_witness :
  exists p, p ∈ ["private"; "unlisted"]
    /\ (d_config (n_data (upload_node "unlisted"))).[? "privacy"] = Some (VStr p).
Proof.
  destruct (pipeline_policy_sound upload_pipeline (request_of "owned_only" "unlisted_upload")) as (Hup & _).
  - right. right. by left.
  - intros e []%elem_of_nil.
  - vm_compute. reflexivity.
  - apply (Hup (upload_node "unlisted")); [vm_compute; by left|vm_compute; reflexivity].
Defined.

Lemma pipeline_policy_idempotent_witness :
  let r := validate_pipeline_policy upload_pipeline (request_of "licensed_only" "public_after_review") in
  pr_repairs r = ["privacy:u:private"]
  /\ pr_repairs (validate_pipeline_policy (pr_definition r) (request_of "licensed_only" "public_after_review")) = [].
Proof.
  split; [vm_compute; reflexivity|].
  apply (pipeline_policy_idempotent upload_pipeline (request_of "licensed_only" "public_after_review")).
  - right. right. right. by left.
  - vm_compute. reflexivity.
Defined.
