(* ===== verification/Graph.v ===== *)
(** * Dependency graph and topological order ([orchestrator/dag.py])

    [_build_graph], [_kahn_topological_order], [topological_sort] and
    [build_dependency_map]. *)

From stdpp Require Import base tactics list strings relations.
From Stdlib Require Import ZArith Lia.
From S2P Require Import Prelude PyStr PyValue Pipeline.

Open Scope string_scope.
Open Scope list_scope.

(** ** [_build_graph] *)

Record Graph := {
  g_in_degree : list (string * Z);
  g_adjacency : list (string * list string);
  g_errors : list ValidationError }.

Definition edge_error (e : PipelineEdge) (msg : string) : ValidationError :=
  {| ve_type := "invalid_edge"; ve_message := msg; ve_node_id := None;
     ve_edge_id := Some (e_id e); ve_nodes := None; ve_source_port := None;
     ve_target_port := None; ve_param_name := None |}.

Definition build_graph_edge (ids : list string) (g : Graph) (e : PipelineEdge) : Graph :=
  if negb (bool_decide (e_source e ∈ ids)) then
    {| g_in_degree := g_in_degree g; g_adjacency := g_adjacency g;
       g_errors := g_errors g ++ [edge_error e ("Edge source '" +:+ e_source e +:+ "' does not exist")] |}
  else if negb (bool_decide (e_target e ∈ ids)) then
    {| g_in_degree := g_in_degree g; g_adjacency := g_adjacency g;
       g_errors := g_errors g ++ [edge_error e ("Edge target '" +:+ e_target e +:+ "' does not exist")] |}
  else
    {| g_in_degree := (g_in_degree g).[e_target e <- (dget_or (g_in_degree g) (e_target e) 0 + 1)%Z];
       g_adjacency := (g_adjacency g).[e_source e <- dget_or (g_adjacency g) (e_source e) [] ++ [e_target e]];
       g_errors := g_errors g |}.

Definition _build_graph (d : PipelineDefinition) : Graph :=
  let ids := dkeys (nodes_by_id d) in
  fold_left (build_graph_edge ids) (edges d)
    {| g_in_degree := dict_of (map (fun n => (n_id n, 0%Z)) (nodes d));
       g_adjacency := []; g_errors := [] |}.

(** ** [_kahn_topological_order] *)

(** The inner [for downstream in adjacency.get(node_id, [])]. *)
Fixpoint relax (ds queue : list string) (remaining : list (string * Z))
    : Res (list string * list (string * Z)) :=
  match ds with
  | [] => Ok (queue, remaining)
  | d :: ds' =>
      match remaining.[? d] with
      | None => Raise KeyError
      | Some r =>
          relax ds' (if (r - 1 =? 0)%Z then queue ++ [d] else queue) remaining.[d <- (r - 1)%Z]
      end
  end.

(** The [while queue] loop. *)
Fixpoint kahn_loop (fuel : nat) (adjacency : list (string * list string))
    (queue order : list string) (remaining : list (string * Z)) : Res (list string) :=
  match queue with
  | [] => Ok order
  | node_id :: queue' =>
      match fuel with
      | O => Raise Diverges
      | S fuel' =>
          match relax (dget_or adjacency node_id []) queue' remaining with
          | Raise e => Raise e
          | Ok (queue'', remaining') =>
              kahn_loop fuel' adjacency queue'' (order ++ [node_id]) remaining'
          end
      end
  end.

Definition zero_degree (in_degree : list (string * Z)) : list string :=
  map fst (List.filter (fun p => (p.2 =? 0)%Z) in_degree).

Definition _kahn_topological_order (in_degree : list (string * Z))
    (adjacency : list (string * list string)) : Res (list string) :=
  kahn_loop (length in_degree) adjacency (zero_degree in_degree) [] in_degree.

Definition topological_sort (d : PipelineDefinition) : Res (list string) :=
  let g := _build_graph d in
  _kahn_topological_order (g_in_degree g) (g_adjacency g).

(** ** [build_dependency_map] *)

Definition dependency_edge (deps : list (string * list string)) (e : PipelineEdge)
    : list (string * list string) :=
  match deps.[? e_target e] with
  | Some l => deps.[e_target e <- l ++ [e_source e]]
  | None => deps
  end.

Definition build_dependency_map (d : PipelineDefinition) : list (string * list string) :=
  fold_left dependency_edge (edges d) (dict_of (map (fun n => (n_id n, [])) (nodes d))).

(** ** Correctness of Kahn's loop

    Fixed: the node identifiers [K] without repetition and the successor lists
    [adj], all of whose targets are nodes. *)

Section Kahn.
Context (K : list string) (adjacency : list (string * list string)).
Let adj (u : string) : list string := dget_or adjacency u [].
Context (HK : NoDup K) (Hadj : forall u v, v ∈ adj u -> v ∈ K).

Let deg (v : string) : nat := occ v (K ≫= adj).

(** State of the traversal after the successors [pr] have been relaxed:
    [L] lists the nodes emitted so far followed by the queue. *)
Record kahn_inv (L pr : list string) (rem : list (string * Z)) : Prop := {
  ki_nodup : NoDup L;
  ki_sub : L ⊆ K;
  ki_rem : forall v, v ∈ K -> rem.[? v] = Some (Z.of_nat (deg v) - Z.of_nat (occ v pr))%Z;
  ki_ready : forall v, v ∈ K -> v ∈ L <-> deg v = occ v pr;
  ki_topo : forall l1 v l2, L = l1 ++ v :: l2 -> forall u, u ∈ K -> v ∈ adj u -> u ∈ l1 }.

Lemma occ_bind_le (v : string) (l : list string) :
  NoDup l -> l ⊆ K -> occ v (l ≫= adj) <= deg v.
Proof.
  intros Hnd Hsub. unfold deg.
  destruct (submseteq_Permutation l K) as [k Hk]; [by apply NoDup_submseteq|].
  rewrite (occ_perm v _ _ (bind_Permutation adj _ _ Hk)), bind_app, occ_app. lia.
Qed.

(** When all in-edges of [v] have been relaxed, every predecessor of [v] is
    among the nodes [l] whose successors were relaxed. *)
Lemma relaxed_preds (v u : string) (l pr rest : list string) :
  NoDup l -> l ⊆ K -> l ≫= adj = pr ++ rest -> deg v = occ v pr ->
  u ∈ K -> v ∈ adj u -> u ∈ l.
Proof.
  intros Hnd Hsub Hpr Hdeg Hu Hv. destruct (decide (u ∈ l)) as [|Hn]; [done|].
  assert (occ v ((u :: l) ≫= adj) <= deg v) as Hle.
  { apply occ_bind_le; [by apply NoDup_cons | set_solver]. }
  rewrite bind_cons, occ_app, Hpr, occ_app in Hle. apply occ_pos in Hv. lia.
Qed.

(** Bookkeeping of [remaining] when one more in-edge of [d] is relaxed. *)
Lemma remaining_step (d : string) (pr : list string) rem :
  (forall v, v ∈ K -> rem.[? v] = Some (Z.of_nat (deg v) - Z.of_nat (occ v pr))%Z) ->
  forall v, v ∈ K ->
    rem.[d <- (Z.of_nat (deg d) - Z.of_nat (occ d pr) - 1)%Z].[? v]
    = Some (Z.of_nat (deg v) - Z.of_nat (occ v (pr ++ [d])))%Z.
Proof.
  intros Hrem v Hv. rewrite dget_dset, occ_app, occ_single.
  destruct (decide (d = v)) as [->|Hne].
  - rewrite decide_True by done. f_equal. lia.
  - rewrite decide_False, (Hrem v Hv) by done. f_equal. lia.
Qed.

Lemma kahn_inv_enqueue (L pr rest l : list string) (d : string) rem rem' :
  kahn_inv L pr rem -> d ∈ K -> deg d = S (occ d pr) ->
  (forall v, v ∈ K -> rem'.[? v] = Some (Z.of_nat (deg v) - Z.of_nat (occ v (pr ++ [d])))%Z) ->
  NoDup l -> l ⊆ L -> l ≫= adj = pr ++ d :: rest ->
  kahn_inv (L ++ [d]) (pr ++ [d]) rem'.
Proof.
  intros [Hnd Hsub _ Hrd Htopo] Hd Hdeg Hrem Hl HlL Hpr.
  assert (Hocc : forall v, occ v (pr ++ [d]) = occ v pr + (if decide (v = d) then 1 else 0)).
  { intros v. by rewrite occ_app, occ_single. }
  assert (Hnew : d ∉ L) by (rewrite Hrd by done; lia). split; [| set_solver | done | |].
  - apply NoDup_app. split_and!; [done | set_solver | apply NoDup_singleton].
  - intros v Hv. rewrite elem_of_app, list_elem_of_singleton, Hocc, Hrd by done.
    case_decide; subst; naive_solver lia.
  - intros l1 v l2 Heq u Hu Hvu. destruct l2 as [|w l2 _] using rev_ind.
    + apply app_inj_tail in Heq as [<- <-]. apply HlL.
      eapply (relaxed_preds d u _ (pr ++ [d]) rest); eauto.
      * set_solver.
      * by rewrite Hpr, <- app_assoc.
      * rewrite Hocc, decide_True by done. lia.
    + rewrite app_comm_cons, app_assoc in Heq. apply app_inj_tail in Heq as [Heq _].
      by eapply Htopo.
Qed.

Lemma relax_step (ord q : list string) (node d : string) (ds pr : list string) rem :
  kahn_inv (ord ++ node :: q) pr rem ->
  (ord ++ [node]) ≫= adj = pr ++ d :: ds ->
  exists r, rem.[? d] = Some r
    /\ kahn_inv (ord ++ node :: (if (r - 1 =? 0)%Z then q ++ [d] else q)) (pr ++ [d])
         rem.[d <- (r - 1)%Z].
Proof.
  intros Hinv Hpr.
  assert (Hcur : NoDup (ord ++ [node]) /\ ord ++ [node] ⊆ K).
  { destruct Hinv as [Hnd Hsub _ _ _]. split; [|set_solver].
    apply (NoDup_app (ord ++ [node]) q). by rewrite <- app_assoc. }
  destruct Hcur as [Hnd Hsub].
  assert (HdK : d ∈ K).
  { assert (d ∈ (ord ++ [node]) ≫= adj) as Hd by (rewrite Hpr; set_solver).
    apply list_elem_of_bind in Hd as (u & Hd & _). by eapply Hadj. }
  pose proof (occ_bind_le d _ Hnd Hsub) as Hlt.
  rewrite Hpr, occ_app, occ_cons, decide_True in Hlt by done.
  eexists. split; [by apply (ki_rem _ _ _ Hinv)|].
  pose proof (remaining_step d pr rem (ki_rem _ _ _ Hinv)) as Hrem'.
  destruct (Z.eqb_spec (Z.of_nat (deg d) - Z.of_nat (occ d pr) - 1) 0) as [Hz|Hz].
  - rewrite app_comm_cons, app_assoc.
    eapply (kahn_inv_enqueue _ pr ds (ord ++ [node])); eauto; [lia | set_solver].
  - destruct Hinv as [Hnd' Hsub' _ Hrd Htopo]. split; [done | done | done | | done].
    intros v Hv. rewrite Hrd, occ_app, occ_single by done. case_decide; subst; lia.
Qed.

Lemma relax_inv (ord q : list string) (node : string) (ds pr : list string) rem :
  kahn_inv (ord ++ node :: q) pr rem ->
  (ord ++ [node]) ≫= adj = pr ++ ds ->
  exists q' rem', relax ds q rem = Ok (q', rem')
    /\ kahn_inv (ord ++ node :: q') ((ord ++ [node]) ≫= adj) rem'.
Proof.
  revert q pr rem. induction ds as [|d ds IH]; intros q pr rem Hinv Hpr; simpl.
  - exists q, rem. split; [done|]. by rewrite Hpr, app_nil_r.
  - destruct (relax_step ord q node d ds pr rem Hinv Hpr) as (r & -> & Hinv').
    apply (IH _ (pr ++ [d])); [done|]. by rewrite Hpr, <- app_assoc.
Qed.

Lemma kahn_loop_inv (fuel : nat) (ord q : list string) rem :
  kahn_inv (ord ++ q) (ord ≫= adj) rem -> length K <= fuel + length ord ->
  exists out rem', kahn_loop fuel adjacency q ord rem = Ok out
    /\ kahn_inv out (out ≫= adj) rem'.
Proof.
  revert ord q rem. induction fuel as [|fuel IH]; intros ord q rem Hinv Hfuel.
  - destruct q as [|node q]; simpl; [rewrite app_nil_r in Hinv; eauto|].
    destruct Hinv as [Hnd Hsub _ _ _].
    assert (length (ord ++ node :: q) <= length K) as Hlen.
    { by apply submseteq_length, NoDup_submseteq. }
    rewrite length_app in Hlen. simpl in Hlen. lia.
  - destruct q as [|node q]; simpl; [rewrite app_nil_r in Hinv; eauto|].
    destruct (relax_inv ord q node (adj node) (ord ≫= adj) rem) as (q' & rem' & Hrelax & Hinv');
      [done | by rewrite bind_app, bind_cons, app_nil_r|].
    fold (adj node). rewrite Hrelax. apply IH.
    + by rewrite <- app_assoc.
    + rewrite length_app. simpl. lia.
Qed.
End Kahn.

(** ** The graph of a pipeline *)

(** Identifiers of the nodes, in first-occurrence order. *)
Definition node_ids (d : PipelineDefinition) : list string := dkeys (nodes_by_id d).

(** [u -> v] when some edge goes from node [u] to node [v], both existing. *)
Definition graph_edge (d : PipelineDefinition) (u v : string) : Prop :=
  exists e, e ∈ edges d /\ e_source e = u /\ e_target e = v /\ u ∈ node_ids d /\ v ∈ node_ids d.

Lemma tc_edge_source d u v : tc (graph_edge d) u v -> u ∈ node_ids d.
Proof. intros [? ? (? & ? & ? & ? & ? & ?)|? ? ? (? & ? & ? & ? & ? & ?) _]; done. Qed.

Definition successors (g : Graph) (u : string) : list string := dget_or (g_adjacency g) u [].

Lemma NoDup_node_ids d : NoDup (node_ids d).
Proof. apply NoDup_dkeys_dict_of. Qed.

Lemma occ_bind_append (v t u : string) (a : list (string * list string)) (ids : list string) :
  NoDup ids -> u ∈ ids ->
  occ v (ids ≫= fun x => dget_or a.[u <- dget_or a u [] ++ [t]] x [])
  = occ v (ids ≫= fun x => dget_or a x []) + (if decide (v = t) then 1 else 0).
Proof.
  intros Hnd Hu. apply elem_of_Permutation in Hu as [k Hk].
  rewrite !(occ_perm v _ _ (bind_Permutation _ _ _ Hk)), !bind_cons, !occ_app.
  assert (Hn : u ∉ k) by (rewrite Hk in Hnd; by apply NoDup_cons in Hnd as [? _]).
  unfold dget_or at 1. rewrite dget_dset_eq. simpl. rewrite occ_app, occ_single.
  assert (k ≫= (fun x => dget_or a.[u <- dget_or a u [] ++ [t]] x []) = k ≫= fun x => dget_or a x []) as ->.
  { clear -Hn. induction k as [|y k IH]; [done|]. rewrite !bind_cons, IH by set_solver.
    unfold dget_or at 1. rewrite dget_dset_ne by set_solver. done. }
  lia.
Qed.

Lemma build_graph_fold (ids : list string) (es : list PipelineEdge) (g0 : Graph) :
  NoDup ids -> dkeys (g_in_degree g0) = ids ->
  (forall v, v ∈ ids -> (g_in_degree g0).[? v] = Some 0%Z) -> g_adjacency g0 = [] ->
  let g := fold_left (build_graph_edge ids) es g0 in
  dkeys (g_in_degree g) = ids
  /\ (forall v, v ∈ ids -> (g_in_degree g).[? v] = Some (Z.of_nat (occ v (ids ≫= successors g))))
  /\ (forall u v, v ∈ successors g u <->
        exists e, e ∈ es /\ e_source e = u /\ e_target e = v /\ u ∈ ids /\ v ∈ ids).
Proof.
  intros Hnd Hk0 Hz0 Ha0. induction es as [|e es IH] using rev_ind; simpl.
  - split_and!; [done | |].
    + intros v Hv. rewrite Hz0 by done. unfold successors. rewrite Ha0.
      rewrite (proj1 (occ_zero v _)); [done|]. rewrite list_elem_of_bind. set_solver.
    + intros u v. unfold successors. rewrite Ha0. set_solver.
  - rewrite fold_left_app. cbn [fold_left].
    destruct IH as (Hkeys & Hdeg & Hsucc). set (g := fold_left _ es g0) in *.
    unfold build_graph_edge.
    destruct (bool_decide_reflect (e_source e ∈ ids)) as [Hs|Hs]; simpl;
      [destruct (bool_decide_reflect (e_target e ∈ ids)) as [Ht|Ht]; simpl|].
    + split_and!.
      * rewrite dkeys_dset_old; [done | by rewrite Hkeys].
      * intros v Hv. unfold successors. simpl. rewrite occ_bind_append by done.
        fold (successors g). rewrite dget_dset. unfold dget_or. rewrite !Hdeg by done. simpl.
        destruct (decide (e_target e = v)) as [->|]; repeat case_decide; try congruence; f_equal; lia.
      * intros u v. unfold successors. simpl. unfold dget_or at 1. rewrite dget_dset.
        rewrite exists_snoc. specialize (Hsucc u v). unfold successors, dget_or in Hsucc.
        destruct (decide (e_source e = u)) as [<-|Hne]; simpl;
          rewrite ?elem_of_app, ?list_elem_of_singleton, Hsucc; naive_solver.
    + split_and!; [done | done |]. intros u v. rewrite exists_snoc. etransitivity; [apply (Hsucc u v) | naive_solver].
    + split_and!; [done | done |]. intros u v. rewrite exists_snoc. etransitivity; [apply (Hsucc u v) | naive_solver].
Qed.

Lemma dkeys_initial_deps {A} (f : A) (ns : list PipelineNode) v :
  v ∈ dkeys (dict_of (map (fun n => (n_id n, f)) ns)) ->
  (dict_of (map (fun n => (n_id n, f)) ns)).[? v] = Some f.
Proof.
  intros [z Hz]%elem_of_dkeys. rewrite Hz. apply dget_dict_of_elem in Hz.
  apply list_elem_of_fmap in Hz. naive_solver.
Qed.

Lemma build_graph_spec d :
  let g := _build_graph d in
  dkeys (g_in_degree g) = node_ids d
  /\ (forall v, v ∈ node_ids d ->
        (g_in_degree g).[? v] = Some (Z.of_nat (occ v (node_ids d ≫= successors g))))
  /\ (forall u v, v ∈ successors g u <-> graph_edge d u v).
Proof.
  apply build_graph_fold; simpl; [apply NoDup_node_ids | | | done].
  - unfold node_ids, nodes_by_id. by rewrite !dkeys_dict_of, !map_map.
  - intros v Hv.
    apply dkeys_initial_deps. unfold node_ids, nodes_by_id in Hv.
    rewrite dkeys_dict_of, map_map in Hv. by rewrite dkeys_dict_of, map_map.
Qed.

(** ** What [topological_sort] returns *)

Lemma elem_of_zero_degree (in_degree : list (string * Z)) v :
  NoDup (dkeys in_degree) -> v ∈ zero_degree in_degree <-> in_degree.[? v] = Some 0%Z.
Proof.
  intros Hnd. unfold zero_degree. rewrite list_elem_of_fmap. split.
  - intros ([v' z] & -> & Hin). apply elem_of_lfilter in Hin as [Hin Hz].
    apply elem_of_dget in Hin; [|done]. simpl in *. rewrite Hin. f_equal. lia.
  - intros Hv. exists (v, 0%Z). split; [done|]. apply elem_of_lfilter.
    split; [|done]. by apply elem_of_dget.
Qed.

Lemma initial_kahn_inv d :
  let g := _build_graph d in
  kahn_inv (node_ids d) (g_adjacency g) (zero_degree (g_in_degree g)) [] (g_in_degree g).
Proof.
  destruct (build_graph_spec d) as (Hkeys & Hdeg & Hsucc). intros g. fold g in Hkeys, Hdeg, Hsucc.
  pose proof (NoDup_node_ids d) as Hnd. rewrite <- Hkeys in Hnd.
  assert (Hz : forall v, v ∈ zero_degree (g_in_degree g) -> v ∈ node_ids d).
  { intros v Hv. apply elem_of_zero_degree in Hv; [|done]. rewrite <- Hkeys. by apply elem_of_dkeys. }
  split; [by apply NoDup_map_filter | done | | |].
  - intros v Hv. rewrite Hdeg by done. unfold successors. change (occ v []) with 0. f_equal. lia.
  - intros v Hv. rewrite elem_of_zero_degree, Hdeg by done. unfold successors.
    change (occ v []) with 0. split; [intros; simplify_eq; lia | intros ->; done].
  - intros l1 v l2 Heq u Hu Hv. exfalso.
    assert (Hin : v ∈ zero_degree (g_in_degree g)) by (rewrite Heq; set_solver).
    assert (0 < occ v (node_ids d ≫= successors g)).
    { apply occ_pos, list_elem_of_bind. by exists u. }
    pose proof (Hz _ Hin) as HvK. apply elem_of_zero_degree in Hin; [|done].
    rewrite Hdeg in Hin by done. simplify_eq. lia.
Qed.

Lemma topological_sort_inv d :
  exists order rem, topological_sort d = Ok order
    /\ kahn_inv (node_ids d) (g_adjacency (_build_graph d)) order
         (order ≫= successors (_build_graph d)) rem.
Proof.
  destruct (build_graph_spec d) as (Hkeys & _ & Hsucc).
  apply kahn_loop_inv; [apply NoDup_node_ids | | apply initial_kahn_inv |].
  - intros u v Hv. apply (Hsucc u v) in Hv as (? & ? & ? & ? & ? & ?). done.
  - rewrite <- Hkeys. unfold dkeys. rewrite length_map. lia.
Qed.

(** A node whose predecessors are all emitted is emitted. *)
Lemma order_closed d order rem v :
  kahn_inv (node_ids d) (g_adjacency (_build_graph d)) order
    (order ≫= successors (_build_graph d)) rem ->
  v ∈ node_ids d -> v ∉ order -> exists u, u ∈ node_ids d /\ u ∉ order /\ graph_edge d u v.
Proof.
  intros Hinv Hv Hn. destruct (build_graph_spec d) as (_ & _ & Hsucc).
  set (g := _build_graph d) in *. pose proof (NoDup_node_ids d) as Hnd.
  destruct (submseteq_Permutation order (node_ids d)) as [k Hk].
  { apply NoDup_submseteq; apply Hinv. }
  destruct (decide (Exists (fun u => v ∈ successors g u) k)) as [Hex|Hall].
  - apply Exists_exists in Hex as (u & Hu & Hvu). exists u. split_and!.
    + rewrite Hk. set_solver.
    + rewrite Hk in Hnd. apply NoDup_app in Hnd. set_solver.
    + by apply Hsucc.
  - destruct Hn. apply (ki_ready _ _ _ _ _ Hinv); [done|].
    rewrite (occ_perm v _ _ (bind_Permutation _ _ _ Hk)), bind_app, occ_app.
    rewrite (proj1 (occ_zero v (k ≫= _))); [unfold successors; lia|].
    rewrite list_elem_of_bind. intros (u & Hvu & Hu). apply Hall, Exists_exists. by exists u.
Qed.

Lemma order_precedes d order l1 v l2 u :
  NoDup order -> (forall l1 v l2, order = l1 ++ v :: l2 -> forall u, graph_edge d u v -> u ∈ l1) ->
  order = l1 ++ v :: l2 -> tc (graph_edge d) u v -> u ∈ l1.
Proof.
  intros Hnd Htopo Heq Hu. induction Hu as [u v Hu|u y v Hu _ IH]; [by eapply Htopo|].
  specialize (IH Heq). apply list_elem_of_split in IH as (a & b & ->).
  apply elem_of_app. left. eapply Htopo; [|done]. by rewrite Heq, <- app_assoc.
Qed.

(** The result of the sort, as the theorems below and the job engine use it. *)
Lemma topological_sort_spec d :
  exists order, topological_sort d = Ok order /\ NoDup order /\ order ⊆ node_ids d
    /\ (forall l1 v l2, order = l1 ++ v :: l2 -> forall u, graph_edge d u v -> u ∈ l1)
    /\ (forall v, v ∈ node_ids d -> v ∉ order ->
          exists u, u ∈ node_ids d /\ u ∉ order /\ graph_edge d u v).
Proof.
  destruct (topological_sort_inv d) as (order & rem & Hok & Hinv).
  destruct (build_graph_spec d) as (_ & _ & Hsucc).
  exists order. split_and!; [done | apply Hinv | apply Hinv | |].
  - intros l1 v l2 Heq u Hu. eapply (ki_topo _ _ _ _ _ Hinv); [done | |].
    + by destruct Hu as (? & ? & ? & ? & ? & ?).
    + by apply Hsucc.
  - intros v. by eapply order_closed.
Qed.

(** Nodes the sort never emits: those downstream of a cycle. *)
Lemma unsorted_iff d order v :
  topological_sort d = Ok order -> v ∈ node_ids d ->
  v ∉ order <-> exists w, tc (graph_edge d) w w /\ rtc (graph_edge d) w v.
Proof.
  destruct (topological_sort_spec d) as (order' & Hok & Hnd & Hsub & Htopo & Hclosed).
  rewrite Hok. intros [= <-] Hv. split.
  - intros Hn.
    destruct (finite_cycle (graph_edge d) (List.filter (fun x => negb (bool_decide (x ∈ order'))) (node_ids d)) v)
      as (w & _ & Hw & Hwv); [| |eauto].
    + apply elem_of_lfilter. rewrite bool_decide_false; done.
    + intros x Hx. apply elem_of_lfilter in Hx as [Hx Hxn].
      destruct (Hclosed x Hx) as (u & Hu & Hun & Hux); [by case_bool_decide|].
      exists u. split; [|done]. apply elem_of_lfilter. rewrite bool_decide_false; done.
  - intros (w & Hw & Hwv) Hin.
    assert (Hwin : w ∈ order').
    { apply rtc_tc in Hwv as [->|Hwv]; [done|]. apply list_elem_of_split in Hin as (a & b & Heq).
      rewrite Heq. apply elem_of_app. left. by eapply order_precedes. }
    apply list_elem_of_split in Hwin as (a & b & Heq).
    assert (w ∈ a) as Ha by (by eapply order_precedes).
    rewrite Heq in Hnd. apply NoDup_app in Hnd. set_solver.
Qed.

Lemma short_order_iff d order :
  topological_sort d = Ok order ->
  length order < length (node_ids d) <-> exists w, tc (graph_edge d) w w.
Proof.
  intros Hok. pose proof (fun v => unsorted_iff d order v Hok) as Hiff.
  destruct (topological_sort_spec d) as (order' & Hok' & Hnd & Hsub & _ & _).
  rewrite Hok in Hok'. simplify_eq. rewrite NoDup_missing_length; [|auto using NoDup_node_ids..].
  split.
  - intros (x & Hx & Hn). apply Hiff in Hn as (w & Hw & _); eauto.
  - intros (w & Hw). assert (w ∈ node_ids d) by (by eapply tc_edge_source).
    exists w. split; [done|]. apply Hiff; eauto using rtc_refl.
Qed.

(** Without [invalid_edge] errors every edge joins two nodes. *)
Lemma graph_errors_nil d :
  g_errors (_build_graph d) = [] ->
  forall e, e ∈ edges d -> e_source e ∈ node_ids d /\ e_target e ∈ node_ids d.
Proof.
  unfold _build_graph. fold (node_ids d). generalize (node_ids d) as ids. intros ids.
  induction (edges d) as [|e es IH] using rev_ind; [set_solver|].
  rewrite fold_left_app. simpl. set (g := fold_left _ es _) in *. unfold build_graph_edge.
  repeat case_bool_decide; simpl; intros Hnil;
    try (apply app_eq_nil in Hnil as [_ Hnil]; done).
  intros e' [He| ->%list_elem_of_singleton]%elem_of_app; auto.
Qed.

(** ** The dependency map *)

Lemma dependency_fold (es : list PipelineEdge) (d0 : list (string * list string)) :
  (forall v, v ∈ dkeys d0 -> d0.[? v] = Some []) ->
  let deps := fold_left dependency_edge es d0 in
  dkeys deps = dkeys d0
  /\ forall v, v ∈ dkeys d0 ->
       deps.[? v] = Some (map e_source (List.filter (fun e => (e_target e =? v)%string) es)).
Proof.
  intros H0. induction es as [|e es IH] using rev_ind; simpl; [by auto|].
  destruct IH as [Hkeys Hget]. rewrite fold_left_app. simpl.
  set (deps := fold_left dependency_edge es d0) in *. unfold dependency_edge.
  destruct (deps.[? e_target e]) as [l|] eqn:Hl.
  - assert (e_target e ∈ dkeys deps) as Hin by (apply elem_of_dkeys; eauto).
    split; [by rewrite dkeys_dset_old|]. intros v Hv.
    rewrite dget_dset, List.filter_app, map_app, Hget by done. simpl.
    destruct (String.eqb_spec (e_target e) v) as [Heq|Hne]; case_decide; try done.
    + rewrite Heq, Hget in Hl by done. by simplify_eq.
    + by rewrite app_nil_r.
  - split; [done|]. intros v Hv. rewrite List.filter_app, map_app, Hget by done. simpl.
    destruct (String.eqb_spec (e_target e) v) as [Heq|Hne]; simpl; [|by rewrite app_nil_r].
    rewrite Heq, Hget in Hl; done.
Qed.

Lemma build_dependency_map_spec d :
  dkeys (build_dependency_map d) = node_ids d
  /\ forall v, v ∈ node_ids d ->
       (build_dependency_map d).[? v]
       = Some (map e_source (List.filter (fun e => (e_target e =? v)%string) (edges d))).
Proof.
  destruct (dependency_fold (edges d) (dict_of (map (fun n => (n_id n, [])) (nodes d)))) as [Hk Hg].
  { intros v. apply dkeys_initial_deps. }
  assert (Hids : dkeys (dict_of (map (fun n => (n_id n, @nil string)) (nodes d))) = node_ids d).
  { unfold node_ids, nodes_by_id. by rewrite !dkeys_dict_of, !map_map. }
  rewrite Hids in *. split; [done|]. intros v Hv. by apply Hg.
Qed.

(** ** Theorems *)

(** C14.  [topological_sort] always returns (neither a missing key nor an endless
    loop is possible), and its result lists distinct nodes of the pipeline with
    every node after all of its predecessors. *)
Theorem topological_sort_correct (d : PipelineDefinition) :
  exists order, topological_sort d = Ok order
    /\ NoDup order
    /\ (forall v, v ∈ order -> v ∈ node_ids d)
    /\ (forall l1 v l2, order = l1 ++ v :: l2 -> forall u, graph_edge d u v -> u ∈ l1).
Proof.
  destruct (topological_sort_spec d) as (order & Hok & Hnd & Hsub & Htopo & _).
  exists order. split_and!; auto.
Qed.

(**  The nodes left out of the order are exactly those reachable from a
    dependency cycle; in particular the order is complete precisely for acyclic
    pipelines. *)
Theorem topological_sort_cycles (d : PipelineDefinition) (order : list string) :
  topological_sort d = Ok order ->
  (forall v, v ∈ node_ids d ->
     v ∉ order <-> exists w, tc (graph_edge d) w w /\ rtc (graph_edge d) w v)
  /\ (length order < length (node_ids d) <-> exists w, tc (graph_edge d) w w).
Proof.
  intros Hok. split; [intros v; by apply unsorted_iff | by apply short_order_iff].
Qed.

(**  [build_dependency_map] records for every node, and for nothing else, the
    sources of its incoming edges in edge order. *)
Theorem build_dependency_map_correct (d : PipelineDefinition) (v : string) :
  (build_dependency_map d).[? v]
  = if decide (v ∈ node_ids d)
    then Some (map e_source (List.filter (fun e => (e_target e =? v)%string) (edges d)))
    else None.
Proof.
  destruct (build_dependency_map_spec d) as [Hk Hg]. case_decide; [by apply Hg|].
  apply dget_None_dkeys. by rewrite Hk.
Qed.

(** Two nodes that feed each other. *)
Definition two_cycle : PipelineDefinition :=
  let node id := {| n_id := id; n_type := "trim"; n_position := [];
                    n_data := {| d_label := ""; d_config := []; d_asset_id := None |} |} in
  let edge s t := {| e_id := s +:+ t; e_source := s; e_target := t; e_sourceHandle := "output";
                     e_targetHandle := "input" |} in
  {| nodes := [node "a"; node "b"; node "c"]; edges := [edge "a" "b"; edge "b" "a"]; viewport := [] |}.

Lemma topological_sort_cycles_witness :
  topological_sort two_cycle = Ok ["c"] /\ exists w, tc (graph_edge two_cycle) w w.
Proof.
  split; [reflexivity|]. apply (topological_sort_cycles two_cycle ["c"]); [reflexivity|].
  vm_compute. repeat constructor.
Defined.
