(* ===== verification/Dag.v ===== *)
(** * Pipeline validation ([orchestrator/dag.py])

    [validate_pipeline] phase by phase: node types, graph shape and cycles, port
    types edge by edge, duplicate and missing inputs, disconnected outputs, source
    assets, node parameters and planner outputs.  Every phase appends to the list
    of errors; a Python exception raised while checking aborts the validation.
    [well_formed] says without the checks what a proper pipeline is, and
    [validate_pipeline_iff] that the phases report nothing exactly for those. *)

From stdpp Require Import base tactics list strings relations.
From Stdlib Require Import ZArith Lia Ascii SpecFloat.
From S2P Require Import Prelude PyStr PyValue NodeRegistry Pipeline Graph.

Open Scope string_scope.
Open Scope list_scope.

(** ** Dynamic video inputs *)

Definition DYNAMIC_VIDEO_INPUT_NODE_TYPES : list string := ["concat_timeline"; "concat_many"].
Definition DYNAMIC_VIDEO_INPUT_MAX_COUNTS : list (string * Z) :=
  [("concat_timeline", 64%Z); ("concat_many", 64%Z)].
Definition LEGACY_TIMELINE_INPUT_HANDLES : list (string * string) :=
  [("video_first", "video_1"); ("video_second", "video_2")].

(** Drops one final newline: the dollar sign of a regular expression also
    matches there. *)
Fixpoint chomp (s : string) : string :=
  match s with
  | EmptyString => EmptyString
  | String c EmptyString => if (ascii_code c =? 10)%Z then EmptyString else s
  | String c s' => String c (chomp s')
  end.

(** Group 1 of [VIDEO_INPUT_RE.match(handle)]. *)
Definition VIDEO_INPUT_RE_match (handle : string) : option string :=
  match strip_prefix "video_" handle with
  | None => None
  | Some rest =>
      let digits := chomp rest in
      if negb (is_empty digits) && sforall is_digit digits then Some digits else None
  end.

Definition is_dynamic (node_type : string) : bool :=
  bool_decide (node_type ∈ DYNAMIC_VIDEO_INPUT_NODE_TYPES).

Definition _canonical_target_handle (node_type handle : string) : string :=
  if (node_type =? "concat_timeline")%string
  then dget_or LEGACY_TIMELINE_INPUT_HANDLES handle handle
  else handle.

Definition _dynamic_video_input_index (node_type handle : string) : Res (option Z) :=
  if negb (is_dynamic node_type) then Ok None
  else
    let handle := if (node_type =? "concat_timeline")%string && dmem LEGACY_TIMELINE_INPUT_HANDLES handle
                  then dget_or LEGACY_TIMELINE_INPUT_HANDLES handle handle else handle in
    match VIDEO_INPUT_RE_match handle with
    | None => Ok None
    | Some digits =>
        match py_int (VStr digits) with
        | Raise e => Raise e
        | Ok index => Ok (if (1 <=? index)%Z then Some index else None)
        end
    end.

Definition _dynamic_video_input_limit_error (node_type handle : string) : Res (option string) :=
  if negb (is_dynamic node_type) then Ok None
  else
    match VIDEO_INPUT_RE_match (_canonical_target_handle node_type handle) with
    | None => Ok None
    | Some digits =>
        match py_int (VStr digits) with
        | Raise e => Raise e
        | Ok index =>
            match DYNAMIC_VIDEO_INPUT_MAX_COUNTS.[? node_type] with
            | Some max_count =>
                if (max_count <? index)%Z
                then Ok (Some ("Dynamic input '" +:+ handle +:+ "' exceeds max input count " +:+ str_of_Z max_count))
                else Ok None
            | None => Ok None
            end
        end
    end.

(** ** Actual output type of a source *)

Definition media_port_types : list (string * PortType) :=
  [("video", VIDEO); ("audio", AUDIO); ("image", IMAGE); ("subtitle", SUBTITLE)].

Definition _infer_actual_output_port_type (n : PipelineNode) : option PortType :=
  let config_word k := lower (strip (py_str (py_or (dict_get (d_config (n_data n)) k) (VStr "")))) in
  if (n_type n =? "source")%string then media_port_types.[? config_word "media_type"]
  else if (n_type n =? "url_download")%string then
    if (config_word "format" =? "audio_only")%string then Some AUDIO else Some VIDEO
  else None.

Section Validate.
Context (registry : NodeTypeRegistry).

Definition _validate_dynamic_video_input_edge (source_type source_port : string)
    (source_node : PipelineNode) : bool :=
  match get_type registry source_type with
  | None => false
  | Some def =>
      match find_port (outputs def) source_port with
      | None => false
      | Some p =>
          if negb (bool_decide (port_type p ∈ [VIDEO; ANY_MEDIA])) then false
          else match _infer_actual_output_port_type source_node with
               | None => true
               | Some t => bool_decide (t = VIDEO)
               end
      end
  end.

(** ** Error values *)

Definition node_error (ty : string) (n : PipelineNode) (msg : string) : ValidationError :=
  {| ve_type := ty; ve_message := msg; ve_node_id := Some (n_id n); ve_edge_id := None;
     ve_nodes := None; ve_source_port := None; ve_target_port := None; ve_param_name := None |}.

Definition port_error (ty : string) (e : PipelineEdge) (msg : string) : ValidationError :=
  {| ve_type := ty; ve_message := msg; ve_node_id := None; ve_edge_id := Some (e_id e);
     ve_nodes := None; ve_source_port := Some (e_sourceHandle e);
     ve_target_port := Some (e_targetHandle e); ve_param_name := None |}.

Definition input_error (ty nid port msg : string) : ValidationError :=
  {| ve_type := ty; ve_message := msg; ve_node_id := Some nid; ve_edge_id := None;
     ve_nodes := None; ve_source_port := None; ve_target_port := Some port; ve_param_name := None |}.

Definition output_error (ty nid port msg : string) : ValidationError :=
  {| ve_type := ty; ve_message := msg; ve_node_id := Some nid; ve_edge_id := None;
     ve_nodes := None; ve_source_port := Some port; ve_target_port := None; ve_param_name := None |}.

Definition param_error (n : PipelineNode) (p : ParamDefinition) (msg : string) : ValidationError :=
  {| ve_type := "invalid_param"; ve_message := msg; ve_node_id := Some (n_id n); ve_edge_id := None;
     ve_nodes := None; ve_source_port := None; ve_target_port := None;
     ve_param_name := Some (param_name p) |}.

(** [node.data.label or node.type]. *)
Definition node_title (n : PipelineNode) : string := str_or (d_label (n_data n)) (n_type n).

Section Definition_.
Context (d : PipelineDefinition).
Let by_id : list (string * PipelineNode) := nodes_by_id d.

(** [planner_bound_url_nodes] and [planner_bound_source_nodes]: targets of an
    edge from a [zip_records] node into [handle] of a node of type [ty]. *)
Definition planner_bound (ty handle : string) : list string :=
  map e_target
    (List.filter (fun e =>
       match by_id.[? e_source e], by_id.[? e_target e] with
       | Some s, Some t =>
           (n_type s =? "zip_records")%string && (n_type t =? ty)%string
           && (e_targetHandle e =? handle)%string
       | _, _ => false
       end) (edges d)).

Definition planner_bound_url_nodes : list string := planner_bound "url_download" URL_INPUT_HANDLE.
Definition planner_bound_source_nodes : list string := planner_bound "source" ASSET_INPUT_HANDLE.

(** ** 1. Node types *)
Definition unknown_type_errors : list ValidationError :=
  map (fun n => node_error "unknown_node_type" n ("Unknown node type '" +:+ n_type n +:+ "'"))
    (List.filter (fun n => match get_type registry (n_type n) with None => true | Some _ => false end)
       (nodes d)).

(** ** 3. Cycles *)
Definition cycle_errors (topo_order : list string) : list ValidationError :=
  if (length topo_order <? length by_id)%nat then
    let cycle_nodes := List.filter (fun nid => negb (bool_decide (nid ∈ topo_order))) (dkeys by_id) in
    let labels := map (fun nid => match by_id.[? nid] with
                                  | Some n => str_or (d_label (n_data n)) nid
                                  | None => nid
                                  end) cycle_nodes in
    [{| ve_type := "cycle_detected";
        ve_message := "Cycle detected involving nodes: " +:+ join ", " labels;
        ve_node_id := None; ve_edge_id := None; ve_nodes := Some cycle_nodes;
        ve_source_port := None; ve_target_port := None; ve_param_name := None |}]
  else [].

(** ** 4. Port types *)

Definition mismatch (e : PipelineEdge) : ValidationError :=
  port_error "port_type_mismatch" e
    ("Cannot connect '" +:+ e_sourceHandle e +:+ "' to '" +:+ e_targetHandle e +:+ "' (type mismatch)").

(** Connections that touch planner nodes. *)
Definition planner_valid (src tgt : PipelineNode) (e : PipelineEdge) : Res bool :=
  if is_search_node_type (n_type src) && (n_type tgt =? "zip_records")%string then
    match get_zip_channel_count (d_config (n_data tgt)) with
    | Raise x => Raise x
    | Ok n => Ok ((e_sourceHandle e =? SEARCH_RESULTS_HANDLE)%string
                  && is_zip_input_handle (e_targetHandle e) n)
    end
  else if (n_type src =? "zip_records")%string && (n_type tgt =? "url_download")%string then
    match get_zip_channel_count (d_config (n_data src)) with
    | Raise x => Raise x
    | Ok n => Ok (is_zip_output_handle (e_sourceHandle e) n
                  && (e_targetHandle e =? URL_INPUT_HANDLE)%string)
    end
  else if (n_type src =? "zip_records")%string && (n_type tgt =? "source")%string then
    match get_zip_channel_count (d_config (n_data src)) with
    | Raise x => Raise x
    | Ok n => Ok (is_zip_output_handle (e_sourceHandle e) n
                  && (e_targetHandle e =? ASSET_INPUT_HANDLE)%string)
    end
  else Ok false.

(** The concrete media type of a source must fit the input it feeds. *)
Definition actual_type_errors (src tgt : PipelineNode) (e : PipelineEdge) : list ValidationError :=
  match _infer_actual_output_port_type src, get_type registry (n_type tgt) with
  | Some actual, Some tgt_def =>
      match find_port (inputs tgt_def) (e_targetHandle e) with
      | Some p =>
          if negb (bool_decide (port_type p = ANY_MEDIA)) && negb (bool_decide (actual = port_type p)) then
            [port_error "port_type_mismatch" e
               ("Cannot connect '" +:+ node_title src +:+ "' (" +:+ PortType_value actual +:+ ") to '"
                  +:+ node_title tgt +:+ "' input '" +:+ e_targetHandle e +:+ "' ("
                  +:+ PortType_value (port_type p) +:+ ")")]
          else []
      | None => []
      end
  | _, _ => []
  end.

(** Connections between two existing nodes that touch no planner rule. *)
Definition typed_edge_errors (src tgt : PipelineNode) (e : PipelineEdge) : list ValidationError :=
  if negb (validate_edge registry (n_type src) (e_sourceHandle e) (n_type tgt) (e_targetHandle e))
  then [mismatch e]
  else actual_type_errors src tgt e.

Definition edge_port_errors (e : PipelineEdge) : Res (list ValidationError) :=
  match by_id.[? e_source e], by_id.[? e_target e] with
  | Some src, Some tgt =>
      match _dynamic_video_input_limit_error (n_type tgt) (e_targetHandle e) with
      | Raise x => Raise x
      | Ok (Some msg) => Ok [port_error "invalid_dynamic_input" e msg]
      | Ok None =>
          match _dynamic_video_input_index (n_type tgt) (e_targetHandle e) with
          | Raise x => Raise x
          | Ok (Some _) =>
              Ok (if negb (_validate_dynamic_video_input_edge (n_type src) (e_sourceHandle e) src)
                  then [mismatch e] else [])
          | Ok None =>
              if is_search_node_type (n_type src) || (n_type tgt =? "zip_records")%string
                 || (n_type src =? "zip_records")%string then
                match planner_valid src tgt e with
                | Raise x => Raise x
                | Ok true => Ok []
                | Ok false =>
                    Ok [port_error "port_type_mismatch" e
                          ("Invalid planner connection '" +:+ e_sourceHandle e +:+ "' -> '"
                             +:+ e_targetHandle e +:+ "'")]
                end
              else Ok (typed_edge_errors src tgt e)
          end
      end
  | _, _ => Ok []
  end.

(** ** 5. Duplicate and missing inputs *)

Definition edge_target_handle (e : PipelineEdge) : string :=
  match by_id.[? e_target e] with
  | Some tgt => _canonical_target_handle (n_type tgt) (e_targetHandle e)
  | None => e_targetHandle e
  end.

Definition duplicate_step (st : list (string * list string) * list ValidationError)
    (e : PipelineEdge) : list (string * list string) * list ValidationError :=
  let '(connected, errs) := st in
  let handle := edge_target_handle e in
  let seen := dget_or connected (e_target e) [] in
  let tgt_label := match by_id.[? e_target e] with Some t => node_title t | None => e_target e end in
  (connected.[e_target e <- seen ++ [handle]],
   if bool_decide (handle ∈ seen) then
     errs ++ [input_error "duplicate_input_port" (e_target e) handle
                ("Input port '" +:+ handle +:+ "' on '" +:+ tgt_label
                   +:+ "' has multiple connections (only one allowed)")]
   else errs).

Definition connected_inputs : list (string * list string) * list ValidationError :=
  fold_left duplicate_step (edges d) ([], []).

Definition missing_input (n : PipelineNode) (handle : string) : ValidationError :=
  input_error "missing_required_input" (n_id n) handle
    ("Required input '" +:+ handle +:+ "' on '" +:+ node_title n +:+ "' is not connected").

(** Distinct dynamic handles connected to [n]. *)
Definition connected_dynamic_inputs (n : PipelineNode) : Res (list string) :=
  match mapMR (fun e =>
          if (e_target e =? n_id n)%string then
            match _dynamic_video_input_index (n_type n) (e_targetHandle e) with
            | Raise x => Raise x
            | Ok (Some _) => Ok [_canonical_target_handle (n_type n) (e_targetHandle e)]
            | Ok None => Ok []
            end
          else Ok []) (edges d) with
  | Raise x => Raise x
  | Ok hs => Ok (remove_dups (concat hs))
  end.

Definition required_input_errors (connected : list (string * list string)) (n : PipelineNode)
    : Res (list ValidationError) :=
  match get_type registry (n_type n) with
  | None => Ok []
  | Some def =>
      let on := dget_or connected (n_id n) [] in
      if is_dynamic (n_type n) then
        match connected_dynamic_inputs n with
        | Raise x => Raise x
        | Ok hs =>
            Ok (if (length hs <? 2)%nat then
                  [input_error "missing_required_input" (n_id n) "video_*"
                     ("At least two video inputs on '" +:+ node_title n +:+ "' must be connected")]
                else [])
        end
      else if (n_type n =? "zip_records")%string then
        match get_zip_channel_count (d_config (n_data n)) with
        | Raise x => Raise x
        | Ok count =>
            Ok (map (missing_input n)
                  (List.filter (fun h => negb (bool_decide (h ∈ on)))
                     (map (fun i => "input_" +:+ str_of_Z i) (range 1 (count + 1)))))
        end
      else
        Ok (map (fun p => missing_input n (port_name p))
              (List.filter (fun p => port_required p && negb (bool_decide (port_name p ∈ on)))
                 (inputs def)))
  end.

(** ** 6. Disconnected outputs (warnings) *)

Definition terminal_types : list string := ["transcode"; "material_library_ingest"].

Definition disconnected_warnings : list ValidationWarning :=
  let has_outgoing := map e_source (edges d) in
  map (fun n => {| vw_type := "disconnected_node";
                   vw_message := "Node '" +:+ node_title n +:+ "' has outputs but none are connected";
                   vw_node_id := Some (n_id n) |})
    (List.filter (fun n =>
       match get_type registry (n_type n) with
       | None => false
       | Some def =>
           negb (is_planner_node_type (n_type n))
           && match outputs def with [] => false | _ => true end
           && negb (bool_decide (n_id n ∈ has_outgoing))
           && negb (bool_decide (n_type n ∈ terminal_types))
       end) (nodes d)).

(** ** 7. Source assets *)

Definition has_asset (n : PipelineNode) : bool :=
  truthy (py_or (dict_get (d_config (n_data n)) "asset_id")
            (match d_asset_id (n_data n) with Some a => VStr a | None => VNone end)).

Definition missing_asset_errors : list ValidationError :=
  map (fun n => node_error "missing_asset" n
         ("Source node '" +:+ str_or (d_label (n_data n)) "Source" +:+ "' has no asset_id configured"))
    (List.filter (fun n => (n_type n =? "source")%string && negb (has_asset n)
                           && negb (bool_decide (n_id n ∈ planner_bound_source_nodes))) (nodes d)).

(** ** 8. Parameters *)

Definition number_of (v : pyval) : pyfloat :=
  match v with VInt z => float_of_Z z | VFloat f => f | _ => S754_nan end.

Definition on_param (n : PipelineNode) (p : ParamDefinition) (rest : string) : ValidationError :=
  param_error n p ("Parameter '" +:+ param_name p +:+ "' on '" +:+ node_title n +:+ "' must be " +:+ rest).

Definition range_errors (n : PipelineNode) (p : ParamDefinition) (x : pyfloat) : list ValidationError :=
  match param_min_value p with
  | Some lo => if fltb x (number_of lo)
               then [on_param n p (">= " +:+ py_str lo +:+ " (got " +:+ float_repr x +:+ ")")] else []
  | None => []
  end ++
  match param_max_value p with
  | Some hi => if fltb (number_of hi) x
               then [on_param n p ("<= " +:+ py_str hi +:+ " (got " +:+ float_repr x +:+ ")")] else []
  | None => []
  end.

Definition select_errors (n : PipelineNode) (p : ParamDefinition) (v : pyval) : list ValidationError :=
  match param_options p with
  | Some opts =>
      if (param_type p =? "select")%string && negb (is_none v) && negb (existsb (is_str v) opts)
      then [on_param n p ("one of " +:+ py_repr (VList (map VStr opts)) +:+ " (got '" +:+ py_str v +:+ "')")]
      else []
  | None => []
  end.

(** [planner_bound] parameters are supplied when the batch is planned. *)
Definition planner_supplied (n : PipelineNode) (p : ParamDefinition) : bool :=
  ((n_type n =? "url_download")%string && (param_name p =? "url")%string
   && bool_decide (n_id n ∈ planner_bound_url_nodes))
  || ((n_type n =? "source")%string && (param_name p =? "asset_id")%string
      && bool_decide (n_id n ∈ planner_bound_source_nodes)).

Definition param_errors (n : PipelineNode) (p : ParamDefinition) : Res (list ValidationError) :=
  let v := dict_get (d_config (n_data n)) (param_name p) in
  if planner_supplied n p then Ok []
  else if param_required p && (is_none v || is_str v "") then
    Ok [param_error n p ("Required parameter '" +:+ param_name p +:+ "' on '" +:+ node_title n
                           +:+ "' is missing or empty")]
  else if (param_type p =? "number")%string && negb (is_none v) then
    match py_float v with
    | Ok x => Ok (range_errors n p x ++ select_errors n p v)
    | Raise TypeError | Raise (ValueError _) => Ok [on_param n p "a number"]
    | Raise x => Raise x
    end
  else Ok (select_errors n p v).

Definition node_param_errors (n : PipelineNode) : Res (list ValidationError) :=
  match get_type registry (n_type n) with
  | None => Ok []
  | Some def => fmap (@concat ValidationError) (mapMR (param_errors n) (params def))
  end.

(** ** 9. Outputs of [zip_records] *)

Definition zip_output_errors (n : PipelineNode) : Res (list ValidationError) :=
  if negb (n_type n =? "zip_records")%string then Ok []
  else
    match get_zip_channel_count (d_config (n_data n)) with
    | Raise x => Raise x
    | Ok count =>
        Ok (concat (map (fun i =>
          let handle := "output_" +:+ str_of_Z i in
          let targets := List.filter (fun e => (e_source e =? n_id n)%string
                                               && (e_sourceHandle e =? handle)%string) (edges d) in
          match targets with
          | [] => [output_error "missing_required_output" (n_id n) handle
                     ("Required output '" +:+ handle +:+ "' on '" +:+ node_title n +:+ "' is not connected")]
          | [_] => []
          | _ => [output_error "duplicate_output_port" (n_id n) handle
                    ("Output port '" +:+ handle +:+ "' on '" +:+ node_title n
                       +:+ "' has multiple connections (only one allowed)")]
          end) (range 1 (count + 1))))
    end.

(** ** [validate_pipeline] *)

Definition validate_pipeline : Res ValidationResult :=
  let g := _build_graph d in
  topo_order ← _kahn_topological_order (g_in_degree g) (g_adjacency g);
  port_errs ← mapMR edge_port_errors (edges d);
  let '(connected, duplicate_errs) := connected_inputs in
  required_errs ← mapMR (required_input_errors connected) (nodes d);
  param_errs ← mapMR node_param_errors (nodes d);
  zip_errs ← mapMR zip_output_errors (nodes d);
  let errs := unknown_type_errors ++ g_errors g ++ cycle_errors topo_order ++ concat port_errs
                ++ duplicate_errs ++ concat required_errs ++ missing_asset_errors
                ++ concat param_errs ++ concat zip_errs in
  Ok {| valid := match errs with [] => true | _ => false end;
        errors := errs; warnings := disconnected_warnings |}.
End Definition_.
End Validate.

(** ** Inversion of a completed validation *)

Section ValidateFacts.
Context (registry : NodeTypeRegistry) (d : PipelineDefinition).

Lemma validate_pipeline_inv r :
  validate_pipeline registry d = Ok r ->
  exists order ports required prms zips,
    topological_sort d = Ok order
    /\ mapMR (edge_port_errors registry d) (edges d) = Ok ports
    /\ mapMR (required_input_errors registry d (connected_inputs d).1) (nodes d) = Ok required
    /\ mapMR (node_param_errors registry d) (nodes d) = Ok prms
    /\ mapMR (zip_output_errors d) (nodes d) = Ok zips
    /\ errors r = unknown_type_errors registry d ++ g_errors (_build_graph d)
         ++ cycle_errors d order ++ concat ports ++ (connected_inputs d).2 ++ concat required
         ++ missing_asset_errors d ++ concat prms ++ concat zips
    /\ valid r = match errors r with [] => true | _ => false end.
Proof.
  unfold validate_pipeline, mbind, Res_bind, topological_sort.
  destruct (_kahn_topological_order _ _) as [order|]; [|done].
  destruct (mapMR (edge_port_errors _ _) _) as [ports|]; [|done].
  destruct (connected_inputs d) as [connected dups].
  destruct (mapMR (required_input_errors _ _ _) _) as [required|] eqn:Hreq; [|done].
  destruct (mapMR (node_param_errors _ _) _) as [prms|]; [|done].
  destruct (mapMR (zip_output_errors _) _) as [zips|]; [|done].
  intros [= <-]. exists order, ports, required, prms, zips. by split_and!.
Qed.

Lemma unknown_type_errors_nil :
  unknown_type_errors registry d = [] ->
  forall n, n ∈ nodes d -> is_Some (get_type registry (n_type n)).
Proof.
  intros Hnil n Hn. apply map_eq_nil in Hnil.
  destruct (get_type registry (n_type n)) eqn:Hty; [eauto|].
  exfalso. apply (not_elem_of_nil n). rewrite <- Hnil. apply elem_of_lfilter. by rewrite Hty.
Qed.

Lemma cycle_errors_nil order :
  topological_sort d = Ok order -> cycle_errors d order = [] -> acyclic (graph_edge d).
Proof.
  intros Hok. unfold cycle_errors.
  destruct (Nat.ltb_spec (length order) (length (nodes_by_id d))) as [Hlt|Hge]; [done|].
  intros _ w Hw. assert (length order < length (node_ids d)) as Hlt; [apply short_order_iff; eauto|].
  unfold node_ids, dkeys in Hlt. rewrite length_map in Hlt. lia.
Qed.

(** [connected_inputs] lists the canonical handles of the edges into a node. *)
Lemma connected_fold (es : list PipelineEdge) v :
  dget_or (fold_left (duplicate_step d) es ([], [])).1 v []
  = map (edge_target_handle d) (List.filter (fun e => (e_target e =? v)%string) es).
Proof.
  induction es as [|e es IH] using rev_ind; [done|].
  rewrite fold_left_app, List.filter_app, map_app, <- IH. cbn [fold_left].
  destruct (fold_left _ es _) as [connected errs]. simpl. unfold dget_or. rewrite dget_dset.
  destruct (String.eqb_spec (e_target e) v) as [->|Hne]; case_decide; simpl; try done.
  by rewrite app_nil_r.
Qed.

Lemma elem_of_connected (es : list PipelineEdge) v h :
  h ∈ dget_or (fold_left (duplicate_step d) es ([], [])).1 v [] <->
  exists e, e ∈ es /\ e_target e = v /\ edge_target_handle d e = h.
Proof.
  rewrite connected_fold, list_elem_of_fmap. setoid_rewrite elem_of_lfilter.
  setoid_rewrite String.eqb_eq. naive_solver.
Qed.

Lemma duplicate_errors_nil (es : list PipelineEdge) :
  (fold_left (duplicate_step d) es ([], [])).2 = [] ->
  NoDup (map (fun e => (e_target e, edge_target_handle d e)) es).
Proof.
  induction es as [|e es IH] using rev_ind; [intros; apply NoDup_nil_2|].
  pose proof (elem_of_connected es (e_target e) (edge_target_handle d e)) as Hin.
  rewrite fold_left_app, map_app. cbn [fold_left].
  destruct (fold_left _ es _) as [connected errs]. simpl in *.
  case_bool_decide as Hdup; [intros Hnil; apply app_eq_nil in Hnil as [_ Hnil]; done|].
  intros Hnil. apply NoDup_app. split_and!; [auto | | apply NoDup_singleton].
  intros x Hx ->%list_elem_of_singleton. apply Hdup, Hin.
  apply list_elem_of_fmap in Hx as (e' & [= Ht Hh] & He'). exists e'. auto.
Qed.

End ValidateFacts.

(** ** Well-formed pipelines

    What a pipeline must be to be accepted, stated of its nodes, its edges and
    the declarations in the registry, independently of the checks. *)

(** The output type [s] may feed an input of type [t]. *)
Inductive accepts : PortType -> PortType -> Prop :=
| accepts_same t : accepts t t
| accepts_any_input s : accepts ANY_MEDIA s
| accepts_any_output t : accepts t ANY_MEDIA.

(** A configured word, trimmed and in lower case. *)
Definition setting (n : PipelineNode) (k : string) : string :=
  lower (strip (py_str (py_or (dict_get (d_config (n_data n)) k) (VStr "")))).

(** The media a node is configured to produce, where its type leaves it open. *)
Inductive emits (n : PipelineNode) : PortType -> Prop :=
| emits_source t :
    n_type n = "source" ->
    (setting n "media_type", t) ∈ [("video", VIDEO); ("audio", AUDIO); ("image", IMAGE); ("subtitle", SUBTITLE)] ->
    emits n t
| emits_audio : n_type n = "url_download" -> setting n "format" = "audio_only" -> emits n AUDIO
| emits_video : n_type n = "url_download" -> setting n "format" <> "audio_only" -> emits n VIDEO.

(** [handle] is the [i]-th video input of a node with a variable number of
    them; a final newline is let through. *)
Definition video_slot (ty handle : string) (i : Z) : Prop :=
  is_dynamic ty = true
  /\ exists digits rest,
       _canonical_target_handle ty handle = "video_" +:+ rest
       /\ (rest = digits \/ rest = digits +:+ String "010" EmptyString)
       /\ digits <> "" /\ sforall is_digit digits = true /\ py_int (VStr digits) = Ok i.

(** [handle] is the [i]-th numbered handle of a [zip_records] node. *)
Definition zip_slot (prefix handle : string) (i : Z) : Prop :=
  exists s, handle = prefix +:+ s /\ int_of_string s = Some i.

(** The ports an edge names exist and fit. *)
Inductive edge_fits (registry : NodeTypeRegistry) (src tgt : PipelineNode) (e : PipelineEdge) : Prop :=
| fits_slot def p i :
    video_slot (n_type tgt) (e_targetHandle e) i -> (1 <= i <= 64)%Z ->
    get_type registry (n_type src) = Some def -> find_port (outputs def) (e_sourceHandle e) = Some p ->
    port_type p = VIDEO \/ port_type p = ANY_MEDIA -> (forall t, emits src t -> t = VIDEO) ->
    edge_fits registry src tgt e
| fits_search count i :
    n_type src ∈ SEARCH_NODE_TYPES -> n_type tgt = "zip_records" ->
    e_sourceHandle e = "results" ->
    get_zip_channel_count (d_config (n_data tgt)) = Ok count ->
    zip_slot "input_" (e_targetHandle e) i -> (1 <= i <= count)%Z ->
    edge_fits registry src tgt e
| fits_zip count i :
    n_type src = "zip_records" ->
    (n_type tgt, e_targetHandle e) ∈ [("url_download", "url_input"); ("source", "asset_input")] ->
    get_zip_channel_count (d_config (n_data src)) = Ok count ->
    zip_slot "output_" (e_sourceHandle e) i -> (1 <= i <= count)%Z ->
    edge_fits registry src tgt e
| fits_typed sdef tdef sp tp :
    n_type src ∉ SEARCH_NODE_TYPES -> n_type src <> "zip_records" -> n_type tgt <> "zip_records" ->
    (forall i, video_slot (n_type tgt) (e_targetHandle e) i -> (i < 1)%Z) ->
    get_type registry (n_type src) = Some sdef -> get_type registry (n_type tgt) = Some tdef ->
    find_port (outputs sdef) (e_sourceHandle e) = Some sp -> find_port (inputs tdef) (e_targetHandle e) = Some tp ->
    accepts (port_type tp) (port_type sp) ->
    (forall t, emits src t -> port_type tp = ANY_MEDIA \/ port_type tp = t) ->
    edge_fits registry src tgt e.

(** An edge from a [zip_records] node binds [handle] of the node [id], of type [ty]. *)
Definition zip_feeds (d : PipelineDefinition) (id ty handle : string) : Prop :=
  exists e s t, e ∈ edges d /\ e_target e = id /\ e_targetHandle e = handle
    /\ (nodes_by_id d).[? e_source e] = Some s /\ n_type s = "zip_records"
    /\ (nodes_by_id d).[? e_target e] = Some t /\ n_type t = ty.

(** The configured value of a declared parameter: present when required, a
    number within its bounds (a NaN is neither below nor above), one of the
    options of a selection. *)
Record param_fits (p : ParamDefinition) (v : pyval) : Prop := {
  pf_present : param_required p = true -> v <> VNone /\ v <> VStr "";
  pf_number : param_type p = "number" -> v <> VNone ->
    exists x, py_float v = Ok x
      /\ (forall lo, param_min_value p = Some lo -> fltb x (number_of lo) = false)
      /\ (forall hi, param_max_value p = Some hi -> fltb (number_of hi) x = false);
  pf_choice : param_type p = "select" -> v <> VNone ->
    forall opts, param_options p = Some opts -> exists o, o ∈ opts /\ v = VStr o }.

(** The parameter is filled in when the batch is planned. *)
Definition bound_by_planner (d : PipelineDefinition) (n : PipelineNode) (p : ParamDefinition) : Prop :=
  (n_type n = "url_download" /\ param_name p = "url" /\ zip_feeds d (n_id n) "url_download" "url_input")
  \/ (n_type n = "source" /\ param_name p = "asset_id" /\ zip_feeds d (n_id n) "source" "asset_input").

Record well_formed (registry : NodeTypeRegistry) (d : PipelineDefinition) : Prop := {
  wf_types : forall n, n ∈ nodes d -> is_Some (get_type registry (n_type n));
  wf_endpoints : forall e, e ∈ edges d -> e_source e ∈ node_ids d /\ e_target e ∈ node_ids d;
  wf_acyclic : acyclic (graph_edge d);
  wf_edges : forall e src tgt, e ∈ edges d ->
    (nodes_by_id d).[? e_source e] = Some src -> (nodes_by_id d).[? e_target e] = Some tgt ->
    edge_fits registry src tgt e;
  wf_single : NoDup (map (fun e => (e_target e, edge_target_handle d e)) (edges d));
  wf_required : forall n def p, n ∈ nodes d -> get_type registry (n_type n) = Some def ->
    is_dynamic (n_type n) = false -> n_type n <> "zip_records" ->
    p ∈ inputs def -> port_required p = true ->
    exists e, e ∈ edges d /\ e_target e = n_id n /\ edge_target_handle d e = port_name p;
  wf_videos : forall n, n ∈ nodes d -> is_dynamic (n_type n) = true ->
    exists e e' i i', e ∈ edges d /\ e' ∈ edges d /\ e_target e = n_id n /\ e_target e' = n_id n
      /\ video_slot (n_type n) (e_targetHandle e) i /\ video_slot (n_type n) (e_targetHandle e') i'
      /\ (1 <= i)%Z /\ (1 <= i')%Z
      /\ _canonical_target_handle (n_type n) (e_targetHandle e) <> _canonical_target_handle (n_type n) (e_targetHandle e');
  wf_zip_inputs : forall n count i, n ∈ nodes d -> n_type n = "zip_records" ->
    get_zip_channel_count (d_config (n_data n)) = Ok count -> (1 <= i <= count)%Z ->
    exists e, e ∈ edges d /\ e_target e = n_id n /\ edge_target_handle d e = "input_" +:+ str_of_Z i;
  wf_sources : forall n, n ∈ nodes d -> n_type n = "source" ->
    truthy (dict_get (d_config (n_data n)) "asset_id") = true
    \/ (exists a, d_asset_id (n_data n) = Some a /\ a <> "")
    \/ zip_feeds d (n_id n) "source" "asset_input";
  wf_params : forall n def p, n ∈ nodes d -> get_type registry (n_type n) = Some def -> p ∈ params def ->
    bound_by_planner d n p \/ param_fits p (dict_get (d_config (n_data n)) (param_name p));
  wf_zip_outputs : forall n count i, n ∈ nodes d -> n_type n = "zip_records" ->
    get_zip_channel_count (d_config (n_data n)) = Ok count -> (1 <= i <= count)%Z ->
    exists e, List.filter (fun e => (e_source e =? n_id n)%string
                                    && (e_sourceHandle e =? "output_" +:+ str_of_Z i)%string) (edges d) = [e] }.

(** ** The checks decide well-formedness *)

Lemma infer_emits n t : _infer_actual_output_port_type n = Some t <-> emits n t.
Proof.
  unfold _infer_actual_output_port_type. fold (setting n "media_type") (setting n "format").
  destruct (String.eqb_spec (n_type n) "source") as [Hs|Hs].
  { rewrite <- elem_of_dget by (apply (bool_decide_eq_true_1 _); vm_compute; done).
    split; [intros Hin; by apply emits_source|]. intros [t' _ Hin|Hu _|Hu _]; [done|congruence..]. }
  destruct (String.eqb_spec (n_type n) "url_download") as [Hu|Hu].
  - destruct (String.eqb_spec (setting n "format") "audio_only") as [Hf|Hf].
    + split; [intros [= <-]; by apply emits_audio|]. intros [t' ? _|_ _|_ ?]; congruence.
    + split; [intros [= <-]; by apply emits_video|]. intros [t' ? _|_ ?|_ _]; congruence.
  - split; [done|]. intros [t' ? _|? _|? _]; congruence.
Qed.

Lemma chomp_digits s : sforall is_digit s = true -> chomp s = s /\ chomp (s +:+ String "010" EmptyString) = s.
Proof.
  induction s as [|c s IH]; [done|]. simpl. intros [Hc Hs]%andb_prop. destruct (IH Hs) as [IH1 IH2]. destruct s as [|c' s].
  - simpl. split; [|done]. destruct (ascii_code c =? 10)%Z eqn:Hn; [|done].
    apply Z.eqb_eq in Hn. unfold is_digit in Hc. rewrite Hn in Hc. done.
  - split; f_equal; [exact IH1 | exact IH2].
Qed.

Lemma chomp_cases s : s = chomp s \/ s = chomp s +:+ String "010" EmptyString.
Proof.
  induction s as [|c s IH]; [by left|]. destruct s as [|c' s].
  - cbn [chomp]. destruct (ascii_code c =? 10)%Z eqn:Hn; [right|by left]. apply Z.eqb_eq in Hn.
    simpl. rewrite <- (ascii_N_embedding c). by replace (N_of_ascii c) with 10%N by (unfold ascii_code in Hn; lia).
  - change (chomp (String c (String c' s))) with (String c (chomp (String c' s))).
    destruct IH as [IH|IH]; [left|right]; [congruence|].
    change (String c (String c' s) = String c (chomp (String c' s) +:+ String "010" EmptyString)). by rewrite <- IH.
Qed.

Lemma video_re_spec h digits :
  VIDEO_INPUT_RE_match h = Some digits
  <-> exists rest, h = "video_" +:+ rest /\ (rest = digits \/ rest = digits +:+ String "010" EmptyString)
        /\ digits <> "" /\ sforall is_digit digits = true.
Proof.
  unfold VIDEO_INPUT_RE_match. split.
  - destruct (strip_prefix "video_" h) as [rest|] eqn:Hp; [|done]. apply strip_prefix_Some in Hp.
    destruct (chomp rest) as [|c s] eqn:Hc; [done|]. simpl. destruct (_ && _) eqn:Hd; [|done]. intros [= <-].
    exists rest. split_and!; [done | rewrite <- Hc; apply chomp_cases | done | done].
  - intros (rest & -> & Hr & Hne & Hd). rewrite strip_prefix_app. destruct (chomp_digits _ Hd) as [H1 H2].
    assert (chomp rest = digits) as -> by (destruct Hr as [->| ->]; done).
    rewrite Hd. by destruct digits.
Qed.

(** The two readings of a dynamic handle agree on its index. *)
Lemma video_slot_spec ty h i :
  video_slot ty h i <-> is_dynamic ty = true
    /\ exists digits, VIDEO_INPUT_RE_match (_canonical_target_handle ty h) = Some digits /\ py_int (VStr digits) = Ok i.
Proof. unfold video_slot. setoid_rewrite video_re_spec. naive_solver. Qed.

Lemma video_slot_fun ty h i j : video_slot ty h i -> video_slot ty h j -> i = j.
Proof. rewrite !video_slot_spec. intros (_ & s & Hs & Hi) (_ & s' & Hs' & Hj). congruence. Qed.

Lemma dynamic_index_spec ty h o :
  _dynamic_video_input_index ty h = Ok o ->
  match o with Some i => video_slot ty h i /\ (1 <= i)%Z | None => forall i, video_slot ty h i -> (i < 1)%Z end.
Proof.
  intros Hok. revert Hok. unfold _dynamic_video_input_index. destruct (is_dynamic ty) eqn:Hdyn; cbn [negb].
  2: { intros [= <-] i [? _]. congruence. }
  replace (if _ && _ then _ else _) with (_canonical_target_handle ty h).
  2: { unfold _canonical_target_handle, dmem, dget_or. destruct (ty =? _)%string; [|done]. by destruct (LEGACY_TIMELINE_INPUT_HANDLES.[? h]). }
  destruct (VIDEO_INPUT_RE_match _) as [digits|] eqn:Hre; [|intros [= <-] i; rewrite video_slot_spec; naive_solver].
  destruct (py_int _) as [index|] eqn:Hint; [|done]. intros [= <-].
  destruct (Z.leb_spec 1 index); [|intros i]; rewrite video_slot_spec; [split; eauto|].
  intros (_ & digits' & Hre' & Hint'). congruence.
Qed.

Lemma dynamic_limit_spec ty h o :
  _dynamic_video_input_limit_error ty h = Ok o ->
  match o with Some _ => exists i, video_slot ty h i /\ (64 < i)%Z | None => forall i, video_slot ty h i -> (i <= 64)%Z end.
Proof.
  intros Hok. revert Hok. unfold _dynamic_video_input_limit_error. destruct (is_dynamic ty) eqn:Hdyn; cbn [negb].
  2: { intros [= <-] i [? _]. congruence. }
  destruct (VIDEO_INPUT_RE_match _) as [digits|] eqn:Hre; [|intros [= <-] i; rewrite video_slot_spec; naive_solver].
  destruct (py_int _) as [index|] eqn:Hint; [|done].
  assert (DYNAMIC_VIDEO_INPUT_MAX_COUNTS.[? ty] = Some 64%Z) as ->.
  { unfold is_dynamic, DYNAMIC_VIDEO_INPUT_NODE_TYPES in Hdyn. rewrite bool_decide_eq_true in Hdyn.
    by apply elem_of_cons in Hdyn as [->| ->%list_elem_of_singleton]. }
  destruct (Z.ltb_spec 64 index); intros [= <-].
  - exists index. rewrite video_slot_spec. eauto.
  - intros i. rewrite video_slot_spec. intros (_ & digits' & Hre' & Hint'). congruence.
Qed.

Lemma zip_handle_spec prefix h count :
  is_zip_handle prefix h count = true <-> exists i, zip_slot prefix h i /\ (1 <= i <= count)%Z.
Proof.
  unfold is_zip_handle, zip_slot. split.
  - destruct (strip_prefix prefix h) as [rest|] eqn:Hp; [|done]. apply strip_prefix_Some in Hp.
    destruct (int_of_string rest) as [i|] eqn:Hi; [|done]. rewrite andb_true_iff, !Z.leb_le. eauto 6.
  - intros (i & (s & -> & Hi) & Hr). rewrite strip_prefix_app, Hi. rewrite andb_true_iff, !Z.leb_le. lia.
Qed.

Lemma validate_edge_spec registry ty h ty' h' :
  validate_edge registry ty h ty' h' = true
  <-> exists sdef tdef sp tp, get_type registry ty = Some sdef /\ get_type registry ty' = Some tdef
        /\ find_port (outputs sdef) h = Some sp /\ find_port (inputs tdef) h' = Some tp
        /\ accepts (port_type tp) (port_type sp).
Proof.
  unfold validate_edge. split.
  - destruct (get_type registry ty) as [sdef|]; [|done]. destruct (get_type registry ty') as [tdef|]; [|done].
    destruct (find_port (outputs sdef) h) as [sp|] eqn:Hsp; [|done]. destruct (find_port (inputs tdef) h') as [tp|] eqn:Htp; [|done].
    intros Ht. exists sdef, tdef, sp, tp. split_and!; try done. revert Ht.
    destruct (decide (port_type tp = ANY_MEDIA)) as [->|]; [constructor|].
    destruct (decide (port_type sp = ANY_MEDIA)) as [->|]; [constructor|].
    intros ->%bool_decide_eq_true. constructor.
  - intros (sdef & tdef & sp & tp & -> & -> & -> & -> & Hacc). repeat case_decide; try done.
    apply bool_decide_eq_true. by inversion Hacc.
Qed.

Lemma actual_type_spec registry src tgt e tdef tp :
  get_type registry (n_type tgt) = Some tdef -> find_port (inputs tdef) (e_targetHandle e) = Some tp ->
  actual_type_errors registry src tgt e = []
  <-> forall t, emits src t -> port_type tp = ANY_MEDIA \/ port_type tp = t.
Proof.
  intros Hty Hp. unfold actual_type_errors. setoid_rewrite <- infer_emits.
  destruct (_infer_actual_output_port_type src) as [t|]; [|naive_solver]. rewrite Hty, Hp.
  repeat case_bool_decide; simpl; naive_solver.
Qed.

Lemma dynamic_edge_spec registry src h :
  _validate_dynamic_video_input_edge registry (n_type src) h src = true
  <-> exists def p, get_type registry (n_type src) = Some def /\ find_port (outputs def) h = Some p
        /\ (port_type p = VIDEO \/ port_type p = ANY_MEDIA) /\ forall t, emits src t -> t = VIDEO.
Proof.
  unfold _validate_dynamic_video_input_edge. setoid_rewrite <- infer_emits.
  destruct (get_type registry (n_type src)) as [def|]; [|naive_solver].
  destruct (find_port (outputs def) h) as [p|] eqn:Hp; [|naive_solver].
  assert (Hin : port_type p ∈ [VIDEO; ANY_MEDIA] <-> port_type p = VIDEO \/ port_type p = ANY_MEDIA) by set_solver.
  case_bool_decide as Hv; simpl; [|naive_solver].
  destruct (_infer_actual_output_port_type src) as [t|]; rewrite ?bool_decide_eq_true; naive_solver.
Qed.

Lemma planner_valid_spec registry src tgt e b :
  planner_valid src tgt e = Ok b ->
  is_search_node_type (n_type src) || (n_type tgt =? "zip_records")%string || (n_type src =? "zip_records")%string = true ->
  (forall i, video_slot (n_type tgt) (e_targetHandle e) i -> (i < 1)%Z) ->
  b = true <-> edge_fits registry src tgt e.
Proof.
  intros Hok Hplan Hslot. split.
  - intros ->. revert Hok. unfold planner_valid.
    destruct (is_search_node_type (n_type src)) eqn:Hs, (String.eqb_spec (n_type tgt) "zip_records") as [Ht|Ht]; simpl.
    1: { destruct (get_zip_channel_count _) as [count|] eqn:Hc; [|done].
         intros [= [Hr (i & Hi & Hb)%zip_handle_spec]%andb_prop]. apply String.eqb_eq in Hr.
         apply bool_decide_eq_true in Hs. by eapply fits_search. }
    all: destruct (String.eqb_spec (n_type src) "zip_records") as [Hz|Hz]; simpl; try done.
    all: destruct (String.eqb_spec (n_type tgt) "url_download") as [Hu|Hu]; simpl; try done;
         [|destruct (String.eqb_spec (n_type tgt) "source") as [Hu'|Hu']; simpl; try done];
         (destruct (get_zip_channel_count _) as [count|] eqn:Hc; [|done]);
         intros [= [(i & Hi & Hb)%zip_handle_spec Hr]%andb_prop]; apply String.eqb_eq in Hr;
         eapply fits_zip; try done; rewrite Hr, ?Hu, ?Hu'; set_solver.
  - unfold planner_valid in Hok. intros [def p i Hi Hb _ _ _ _|count i Hs Ht Hr Hc Hi Hb|count i Hs Hin Hc Hi Hb|sdef tdef sp tp Hs Hz Ht _ _ _ _ _ _ _].
    + specialize (Hslot i Hi). lia.
    + apply (bool_decide_eq_true_2 _) in Hs. fold (is_search_node_type (n_type src)) in Hs.
      rewrite Hs, Ht in Hok. simpl in Hok. rewrite Hc, Hr in Hok. simplify_eq. simpl. apply zip_handle_spec. eauto.
    + rewrite Hs in Hok. cbn in Hok.
      rewrite !elem_of_cons, elem_of_nil in Hin. destruct Hin as [[= Ht Hh]|[[= Ht Hh]|[]]]; rewrite Ht in Hok; cbn in Hok;
        rewrite Hc, Hh in Hok; injection Hok as <-; apply andb_true_intro; (split; [apply zip_handle_spec; eauto | done]).
    + apply String.eqb_neq in Hz, Ht. apply (bool_decide_eq_false_2 _) in Hs. fold (is_search_node_type (n_type src)) in Hs.
      by rewrite Hs, Hz, Ht in Hplan.
Qed.

Lemma fits_slot_iff registry src tgt e i :
  video_slot (n_type tgt) (e_targetHandle e) i -> (1 <= i)%Z ->
  edge_fits registry src tgt e
  <-> (i <= 64)%Z /\ _validate_dynamic_video_input_edge registry (n_type src) (e_sourceHandle e) src = true.
Proof.
  intros Hi H1. rewrite dynamic_edge_spec. split; [|intros (H64 & def & p & Hd & Hp & Ht & He); by eapply fits_slot].
  pose proof Hi as [Hdyn _].
  intros [def p i' Hi' Hb Hd Hp Ht He|count i' Hs Ht _ _ _ _|count i' Hs Hin _ _ _|sdef tdef sp tp _ _ _ Hno _ _ _ _ _ _].
  - rewrite (video_slot_fun _ _ _ _ Hi Hi'). split; [lia|]. eauto 10.
  - by rewrite Ht in Hdyn.
  - rewrite !elem_of_cons, elem_of_nil in Hin. by destruct Hin as [[= Ht _]|[[= Ht _]|[]]]; rewrite Ht in Hdyn.
  - specialize (Hno i Hi). lia.
Qed.

Lemma fits_typed_iff registry src tgt e :
  n_type src ∉ SEARCH_NODE_TYPES -> n_type src <> "zip_records" -> n_type tgt <> "zip_records" ->
  (forall i, video_slot (n_type tgt) (e_targetHandle e) i -> (i < 1)%Z) ->
  edge_fits registry src tgt e <-> typed_edge_errors registry src tgt e = [].
Proof.
  intros Hs Hz Ht Hno. unfold typed_edge_errors. destruct (validate_edge _ _ _ _ _) eqn:Hv; simpl.
  - apply validate_edge_spec in Hv as (sdef & tdef & sp & tp & Hsd & Htd & Hsp & Htp & Hacc).
    rewrite (actual_type_spec registry src tgt e tdef tp Htd Htp). split; [|intros He; by eapply fits_typed].
    intros [def p i Hi Hb _ _ _ _|count i Hs' _ _ _ _ _|count i Hs' _ _ _ _|sdef' tdef' sp' tp' _ _ _ _ _ Htd' _ Htp' _ He]; [|done..|].
    + specialize (Hno i Hi). lia.
    + assert (tdef' = tdef) as -> by congruence. by assert (tp' = tp) as -> by congruence.
  - split; [|done]. intros [def p i Hi Hb _ _ _ _|count i Hs' _ _ _ _ _|count i Hs' _ _ _ _|sdef tdef sp tp _ _ _ _ Hsd Htd Hsp Htp Hacc _]; [|done..|].
    + specialize (Hno i Hi). lia.
    + cut (false = true); [done|]. rewrite <- Hv. apply validate_edge_spec. eauto 10.
Qed.

Lemma edge_ports_spec registry d e src tgt b :
  (nodes_by_id d).[? e_source e] = Some src -> (nodes_by_id d).[? e_target e] = Some tgt ->
  edge_port_errors registry d e = Ok b -> b = [] <-> edge_fits registry src tgt e.
Proof.
  intros Hsrc Htgt. unfold edge_port_errors. rewrite Hsrc, Htgt.
  destruct (_dynamic_video_input_limit_error _ _) as [o|] eqn:Hlim; [|done]. apply dynamic_limit_spec in Hlim.
  destruct o as [msg|].
  { intros [= <-]. destruct Hlim as (i & Hi & Hlt). rewrite (fits_slot_iff registry src tgt e i Hi) by lia.
    split; [done|]. intros [? _]. lia. }
  destruct (_dynamic_video_input_index _ _) as [o|] eqn:Hidx; [|done]. apply dynamic_index_spec in Hidx.
  destruct o as [i|].
  { destruct Hidx as [Hi H1]. specialize (Hlim i Hi). intros [= <-]. rewrite (fits_slot_iff registry src tgt e i Hi H1).
    destruct (_validate_dynamic_video_input_edge _ _ _ _); simpl; naive_solver. }
  destruct (is_search_node_type _ || _ || _) eqn:Hplan.
  { destruct (planner_valid src tgt e) as [ok|] eqn:Hv; [|done].
    rewrite <- (planner_valid_spec registry src tgt e ok Hv Hplan Hidx). destruct ok; intros [= <-]; naive_solver. }
  apply orb_false_iff in Hplan as [[Hs%bool_decide_eq_false Ht%String.eqb_neq]%orb_false_iff Hz%String.eqb_neq].
  intros [= <-]. by rewrite fits_typed_iff.
Qed.

Lemma planner_bound_spec d ty h id : id ∈ planner_bound d ty h <-> zip_feeds d id ty h.
Proof.
  unfold planner_bound, zip_feeds. rewrite list_elem_of_fmap. setoid_rewrite elem_of_lfilter. split.
  - intros (e & -> & He & Hb). destruct (nodes_by_id d).[? e_source e] as [s|] eqn:Hs; [|done].
    destruct (nodes_by_id d).[? e_target e] as [t|] eqn:Ht; [|done].
    apply andb_prop in Hb as [[Hz%String.eqb_eq Hty%String.eqb_eq]%andb_prop Hh%String.eqb_eq].
    exists e, s, t. by split_and!.
  - intros (e & s & t & He & <- & <- & Hs & Hz & Ht & <-). exists e. rewrite Hs, Ht, Hz, !String.eqb_refl. done.
Qed.

Lemma planner_supplied_spec d n p : planner_supplied d n p = true <-> bound_by_planner d n p.
Proof.
  unfold planner_supplied, bound_by_planner, planner_bound_url_nodes, planner_bound_source_nodes.
  rewrite orb_true_iff, !andb_true_iff, !bool_decide_eq_true, !planner_bound_spec, !String.eqb_eq.
  unfold URL_INPUT_HANDLE, ASSET_INPUT_HANDLE. tauto.
Qed.

Lemma is_none_spec v : is_none v = true <-> v = VNone.
Proof. by destruct v. Qed.

Lemma is_str_spec v s : is_str v s = true <-> v = VStr s.
Proof. destruct v; simpl; try (split; done). rewrite String.eqb_eq. split; congruence. Qed.

Lemma bound_errors_spec {A B} (o : option A) (bad : A -> bool) (err : A -> B) :
  match o with Some a => if bad a then [err a] else [] | None => [] end = [] <-> forall a, o = Some a -> bad a = false.
Proof.
  destruct o as [a|]; [|done]. destruct (bad a) eqn:Hbad; split; try done.
  - intros Hall. specialize (Hall a eq_refl). congruence.
  - by intros _ ? [= <-].
Qed.

Lemma range_errors_spec n p x :
  range_errors n p x = []
  <-> (forall lo, param_min_value p = Some lo -> fltb x (number_of lo) = false)
      /\ (forall hi, param_max_value p = Some hi -> fltb (number_of hi) x = false).
Proof. unfold range_errors. by rewrite app_nil_iff, !bound_errors_spec. Qed.

Lemma select_errors_spec n p v :
  select_errors n p v = []
  <-> (param_type p = "select" -> v <> VNone -> forall opts, param_options p = Some opts -> exists o, o ∈ opts /\ v = VStr o).
Proof.
  unfold select_errors. destruct (param_options p) as [opts|]; [|naive_solver].
  assert (Hin : existsb (is_str v) opts = true <-> exists o, o ∈ opts /\ v = VStr o).
  { rewrite existsb_exists. setoid_rewrite is_str_spec. by setoid_rewrite <- list_elem_of_In. }
  destruct (String.eqb_spec (param_type p) "select"); simpl; [|naive_solver].
  destruct (is_none v) eqn:Hv; simpl; [apply is_none_spec in Hv; naive_solver|].
  assert (v <> VNone) by (intros ->; done).
  destruct (existsb _ _); simpl; split; try done.
  - intros _ _ _ ? [= <-]. by apply Hin.
  - intros Hall. cut (false = true); [done|]. apply Hin. by apply Hall.
Qed.

Lemma param_errors_spec d n p b :
  param_errors d n p = Ok b ->
  b = [] <-> bound_by_planner d n p \/ param_fits p (dict_get (d_config (n_data n)) (param_name p)).
Proof.
  unfold param_errors. set (v := dict_get _ _). rewrite <- planner_supplied_spec.
  destruct (planner_supplied d n p); [intros [= <-]; naive_solver|].
  destruct (param_required p && _) eqn:Hreq.
  { intros [= <-]. split; [done|]. intros [|Hfit]; [done|].
    apply andb_prop in Hreq as [Hr Hor]. destruct (pf_present _ _ Hfit Hr) as [H1 H2].
    apply orb_prop in Hor as [Hv%is_none_spec|Hv%is_str_spec]; done. }
  assert (Hpres : param_required p = true -> v <> VNone /\ v <> VStr "").
  { intros Hr. rewrite Hr in Hreq. split; intros Hv; by rewrite Hv in Hreq. }
  destruct ((param_type p =? "number")%string && negb (is_none v)) eqn:Hnum.
  - apply andb_prop in Hnum as [Hn%String.eqb_eq Hv%negb_true_iff].
    assert (v <> VNone) by (intros Hv'; by rewrite Hv' in Hv).
    destruct (py_float v) as [x|x] eqn:Hx.
    + intros [= <-]. rewrite app_nil_iff, range_errors_spec, select_errors_spec. split.
      * intros [Hr Hs]. right. split; try done. eauto.
      * intros [|[_ Hr Hs]]; [done|]. split; [|done]. destruct (Hr Hn ltac:(done)) as (y & Hy & Hyr).
        by replace x with y by congruence.
    + intros Hb. assert (b <> []) by (destruct x; simplify_eq; done). split; [done|].
      intros [|[_ Hr _]]; [done|]. destruct (Hr Hn ltac:(done)) as (y & Hy & _). congruence.
  - intros [= <-]. rewrite select_errors_spec. split.
    + intros Hs. right. split; try done. intros Hn Hv. rewrite Hn in Hnum. simpl in Hnum.
      by apply negb_false_iff, is_none_spec in Hnum.
    + intros [|[_ _ Hs]]; done.
Qed.

Lemma node_params_spec registry d n def b :
  get_type registry (n_type n) = Some def -> node_param_errors registry d n = Ok b ->
  b = [] <-> forall p, p ∈ params def -> bound_by_planner d n p \/ param_fits p (dict_get (d_config (n_data n)) (param_name p)).
Proof.
  intros Hdef. unfold node_param_errors. rewrite Hdef. destruct (mapMR _ _) as [bs|] eqn:Hm; [|done]. intros [= <-].
  rewrite (mapMR_nil_iff _ _ _ Hm). split.
  - intros Hall p Hp. by apply (param_errors_spec d n p [] (Hall p Hp)).
  - intros Hall p Hp. destruct (mapMR_elem _ _ _ p Hm Hp) as [b Hb]. rewrite Hb. f_equal.
    by apply (param_errors_spec d n p b Hb), Hall.
Qed.

Lemma has_asset_spec n :
  has_asset n = true <-> truthy (dict_get (d_config (n_data n)) "asset_id") = true
                         \/ exists a, d_asset_id (n_data n) = Some a /\ a <> "".
Proof.
  unfold has_asset, py_or. destruct (truthy (dict_get _ _)) eqn:Ht; [rewrite Ht; tauto|].
  destruct (d_asset_id (n_data n)) as [[|c a]|]; simpl; split; try done.
  - by intros [|(? & [= <-] & ?)].
  - intros _. right. by exists (String c a).
  - by intros [|(? & ? & ?)].
Qed.

Lemma missing_assets_spec d :
  missing_asset_errors d = []
  <-> forall n, n ∈ nodes d -> n_type n = "source" ->
        truthy (dict_get (d_config (n_data n)) "asset_id") = true
        \/ (exists a, d_asset_id (n_data n) = Some a /\ a <> "") \/ zip_feeds d (n_id n) "source" "asset_input".
Proof.
  unfold missing_asset_errors. rewrite map_nil_iff, filter_nil_iff. apply forall_proper. intros n.
  unfold planner_bound_source_nodes. rewrite !andb_false_iff, !negb_false_iff, bool_decide_eq_true, planner_bound_spec, String.eqb_neq.
  rewrite has_asset_spec. unfold ASSET_INPUT_HANDLE. destruct (decide (n_type n = "source")); tauto.
Qed.

Lemma connected_dynamic_spec d n hs h :
  connected_dynamic_inputs d n = Ok hs ->
  NoDup hs /\ (h ∈ hs <-> exists e i, e ∈ edges d /\ e_target e = n_id n /\ video_slot (n_type n) (e_targetHandle e) i
                          /\ (1 <= i)%Z /\ _canonical_target_handle (n_type n) (e_targetHandle e) = h).
Proof.
  unfold connected_dynamic_inputs. destruct (mapMR _ _) as [bs|] eqn:Hm; [|done]. intros [= <-].
  split; [apply NoDup_remove_dups|]. rewrite elem_of_remove_dups. split.
  - intros Hh. destruct (mapMR_concat_elem _ _ _ _ Hm Hh) as (e & b & He & Hb & Hin).
    destruct (String.eqb_spec (e_target e) (n_id n)) as [Ht|]; [|simplify_eq; set_solver].
    destruct (_dynamic_video_input_index _ _) as [[i|]|] eqn:Hi; simplify_eq; [|set_solver].
    apply dynamic_index_spec in Hi as [Hi H1]. apply list_elem_of_singleton in Hin. exists e, i. by split_and!.
  - intros (e & i & He & Ht & Hi & H1 & <-). destruct (mapMR_elem _ _ _ e Hm He) as [b Hb].
    apply (mapMR_elem_concat _ _ _ e _ _ Hm He Hb). rewrite Ht, String.eqb_refl in Hb.
    destruct (_dynamic_video_input_index _ _) as [o|] eqn:Hidx; [|done]. apply dynamic_index_spec in Hidx.
    destruct o as [j|]; [|specialize (Hidx i Hi); lia]. injection Hb as <-. by left.
Qed.

Lemma two_distinct {A} `{EqDecision A} (l : list A) :
  NoDup l -> (2 <= length l)%nat <-> exists x y, x ∈ l /\ y ∈ l /\ x <> y.
Proof.
  intros Hnd. split.
  - destruct l as [|x [|y l]]; simpl; try lia. intros _. exists x, y. apply NoDup_cons in Hnd as [Hx _]. set_solver.
  - intros (x & y & Hx & Hy & Hne). destruct l as [|a [|b l]]; simpl; [set_solver| |lia].
    apply list_elem_of_singleton in Hx, Hy. congruence.
Qed.

(** What the fourth phase asks of one node. *)
Definition inputs_fed (registry : NodeTypeRegistry) (d : PipelineDefinition) (n : PipelineNode) : Prop :=
  (forall def p, get_type registry (n_type n) = Some def -> is_dynamic (n_type n) = false -> n_type n <> "zip_records" ->
     p ∈ inputs def -> port_required p = true ->
     exists e, e ∈ edges d /\ e_target e = n_id n /\ edge_target_handle d e = port_name p)
  /\ (is_dynamic (n_type n) = true ->
        exists e e' i i', e ∈ edges d /\ e' ∈ edges d /\ e_target e = n_id n /\ e_target e' = n_id n
          /\ video_slot (n_type n) (e_targetHandle e) i /\ video_slot (n_type n) (e_targetHandle e') i'
          /\ (1 <= i)%Z /\ (1 <= i')%Z
          /\ _canonical_target_handle (n_type n) (e_targetHandle e) <> _canonical_target_handle (n_type n) (e_targetHandle e'))
  /\ (forall count i, n_type n = "zip_records" -> get_zip_channel_count (d_config (n_data n)) = Ok count -> (1 <= i <= count)%Z ->
        exists e, e ∈ edges d /\ e_target e = n_id n /\ edge_target_handle d e = "input_" +:+ str_of_Z i).

Lemma required_inputs_spec registry d n b :
  is_Some (get_type registry (n_type n)) ->
  required_input_errors registry d (connected_inputs d).1 n = Ok b -> b = [] <-> inputs_fed registry d n.
Proof.
  intros [def Hdef]. unfold required_input_errors, inputs_fed. rewrite Hdef.
  destruct (is_dynamic (n_type n)) eqn:Hdyn.
  { assert (n_type n <> "zip_records") by (intros Hz; by rewrite Hz in Hdyn).
    destruct (connected_dynamic_inputs d n) as [hs|] eqn:Hhs; [|done]. intros [= <-].
    assert (Hnd : NoDup hs) by (by apply (connected_dynamic_spec d n hs "" Hhs)).
    trans (2 <= length hs)%nat; [destruct (Nat.ltb_spec (length hs) 2); split; (done || lia)|].
    rewrite (two_distinct hs Hnd). split.
    - intros (x & y & Hx & Hy & Hne). apply (connected_dynamic_spec d n hs x Hhs) in Hx as (e & i & ? & ? & ? & ? & <-).
      apply (connected_dynamic_spec d n hs y Hhs) in Hy as (e' & i' & ? & ? & ? & ? & <-).
      split_and!; [done| |done]. intros _. exists e, e', i, i'. by split_and!.
    - intros (_ & Hex & _). destruct (Hex eq_refl) as (e & e' & i & i' & He & He' & Ht & Ht' & Hi & Hi' & H1 & H1' & Hne).
      do 2 eexists. split_and!; [apply (connected_dynamic_spec d n hs _ Hhs); by exists e, i
        | apply (connected_dynamic_spec d n hs _ Hhs); by exists e', i' | done]. }
  destruct (String.eqb_spec (n_type n) "zip_records") as [Hz|Hz].
  - destruct (get_zip_channel_count _) as [count|] eqn:Hc; [|done]. intros [= <-].
    rewrite map_nil_iff, filter_nil_iff. setoid_rewrite negb_false_iff. setoid_rewrite bool_decide_eq_true. split.
    + intros Hall. split_and!; [done|done|]. intros count' i _ [= <-] Hi. apply elem_of_connected, Hall, list_elem_of_fmap.
      exists i. split; [done|]. apply elem_of_range_iff. lia.
    + intros (_ & _ & Hall) h (i & -> & Hi%elem_of_range_iff)%list_elem_of_fmap. apply elem_of_connected, (Hall count); (done || lia).
  - intros [= <-]. rewrite map_nil_iff, filter_nil_iff. split.
    + intros Hall. split_and!; [|done|done]. intros def' p [= <-] _ _ Hp Hr. apply elem_of_connected. specialize (Hall p Hp).
      rewrite Hr in Hall. simpl in Hall. by apply negb_false_iff, bool_decide_eq_true in Hall.
    + intros (Hall & _ & _) p Hp. destruct (port_required p) eqn:Hr; [|done]. simpl.
      apply negb_false_iff, bool_decide_eq_true, elem_of_connected. by apply (Hall def).
Qed.

Lemma zip_outputs_spec d n b :
  zip_output_errors d n = Ok b ->
  b = [] <-> forall count i, n_type n = "zip_records" -> get_zip_channel_count (d_config (n_data n)) = Ok count -> (1 <= i <= count)%Z ->
    exists e, List.filter (fun e => (e_source e =? n_id n)%string
                                    && (e_sourceHandle e =? "output_" +:+ str_of_Z i)%string) (edges d) = [e].
Proof.
  unfold zip_output_errors. destruct (String.eqb_spec (n_type n) "zip_records") as [Hz|Hz]; simpl.
  2: { intros [= <-]. split; [done|]. done. }
  destruct (get_zip_channel_count _) as [count|]; [|done]. intros [= <-]. rewrite concat_nil_iff. split.
  - intros Hall count' i _ [= <-] Hi. specialize (Hall _ (list_elem_of_fmap_2 _ _ i (proj2 (elem_of_range_iff 1 (count + 1) i) ltac:(lia)))).
    simpl in Hall. destruct (List.filter _ _) as [|e [|e' l]]; [done|eauto|done].
  - intros Hall l (i & -> & Hi%elem_of_range_iff)%list_elem_of_fmap.
    destruct (Hall count i) as [e ->]; (done || lia).
Qed.

Lemma duplicate_errors_spec d : (connected_inputs d).2 = [] <-> NoDup (map (fun e => (e_target e, edge_target_handle d e)) (edges d)).
Proof.
  split; [apply duplicate_errors_nil|]. unfold connected_inputs. induction (edges d) as [|e es IH] using rev_ind; [done|].
  pose proof (elem_of_connected d es (e_target e) (edge_target_handle d e)) as Hin.
  rewrite fold_left_app, map_app. cbn [fold_left]. destruct (fold_left _ es _) as [connected errs]. simpl in *.
  intros (Hnd & Hdisj & _)%NoDup_app. rewrite (IH Hnd), bool_decide_false; [done|].
  intros (e' & He' & Ht & Hh)%Hin. apply (Hdisj (e_target e, edge_target_handle d e)); [|by left].
  apply list_elem_of_fmap. exists e'. by rewrite Ht, Hh.
Qed.

Lemma graph_errors_spec d :
  g_errors (_build_graph d) = [] <-> forall e, e ∈ edges d -> e_source e ∈ node_ids d /\ e_target e ∈ node_ids d.
Proof.
  split; [apply graph_errors_nil|]. unfold _build_graph. fold (node_ids d). generalize (node_ids d) as ids. intros ids.
  induction (edges d) as [|e es IH] using rev_ind; [done|]. intros Hall.
  destruct (Hall e) as [Hs Ht]; [apply elem_of_app; right; by left|].
  rewrite fold_left_app. simpl. unfold build_graph_edge. rewrite !(bool_decide_true _ Hs), !(bool_decide_true _ Ht). simpl.
  apply IH. intros e' He'. apply Hall, elem_of_app. by left.
Qed.

Lemma cycle_errors_spec d order : topological_sort d = Ok order -> cycle_errors d order = [] <-> acyclic (graph_edge d).
Proof.
  intros Hok. split; [by apply cycle_errors_nil|]. intros Hac. unfold cycle_errors.
  destruct (Nat.ltb_spec (length order) (length (nodes_by_id d))) as [Hlt|]; [|done]. exfalso.
  destruct (proj1 (short_order_iff d order Hok)) as [w Hw]; [|by apply (Hac w)].
  unfold node_ids, dkeys. by rewrite length_map.
Qed.

Lemma unknown_types_spec registry d :
  unknown_type_errors registry d = [] <-> forall n, n ∈ nodes d -> is_Some (get_type registry (n_type n)).
Proof.
  split; [apply unknown_type_errors_nil|]. intros Hall. unfold unknown_type_errors. rewrite map_nil_iff, filter_nil_iff.
  intros n Hn. by destruct (Hall n Hn) as [def ->].
Qed.

(** The phases that run node by node or edge by edge. *)
Lemma phase_spec {A B} (f : A -> Res (list B)) (P : A -> Prop) l bs :
  mapMR f l = Ok bs -> (forall a b, a ∈ l -> f a = Ok b -> b = [] <-> P a) -> concat bs = [] <-> forall a, a ∈ l -> P a.
Proof.
  intros Hm Hf. rewrite (mapMR_nil_iff _ _ _ Hm). split; intros Hall a Ha.
  - by apply (Hf a [] Ha (Hall a Ha)).
  - destruct (mapMR_elem _ _ _ a Hm Ha) as [b Hb]. rewrite Hb. f_equal. by apply (Hf a b Ha Hb), Hall.
Qed.

Lemma port_phase registry d ports :
  mapMR (edge_port_errors registry d) (edges d) = Ok ports ->
  concat ports = [] <-> forall e src tgt, e ∈ edges d ->
    (nodes_by_id d).[? e_source e] = Some src -> (nodes_by_id d).[? e_target e] = Some tgt -> edge_fits registry src tgt e.
Proof.
  intros Hm. rewrite (phase_spec _ (fun e => forall src tgt,
    (nodes_by_id d).[? e_source e] = Some src -> (nodes_by_id d).[? e_target e] = Some tgt -> edge_fits registry src tgt e) _ _ Hm); [naive_solver|].
  intros e b He Hb. split.
  - intros Hnil src tgt Hs Ht. by apply (edge_ports_spec registry d e src tgt b Hs Ht Hb).
  - intros Hall. destruct (nodes_by_id d).[? e_source e] as [src|] eqn:Hs.
    + destruct (nodes_by_id d).[? e_target e] as [tgt|] eqn:Ht.
      * apply (edge_ports_spec registry d e src tgt b Hs Ht Hb). by apply Hall.
      * unfold edge_port_errors in Hb. rewrite Hs, Ht in Hb. congruence.
    + unfold edge_port_errors in Hb. rewrite Hs in Hb. congruence.
Qed.

(** A completed validation accepts exactly the well-formed pipelines. *)
Lemma validate_pipeline_iff registry d r :
  validate_pipeline registry d = Ok r -> valid r = true <-> well_formed registry d.
Proof.
  intros Hok. destruct (validate_pipeline_inv registry d r Hok)
    as (order & ports & required & prms & zips & Hsort & Hports & Hreq & Hprm & Hzip & Herr & Hv).
  trans (errors r = []); [rewrite Hv; by destruct (errors r)|]. rewrite Herr, !app_nil_iff.
  rewrite unknown_types_spec, graph_errors_spec, (cycle_errors_spec d order Hsort), (port_phase registry d ports Hports),
    duplicate_errors_spec, missing_assets_spec.
  assert (Hz := phase_spec _ _ _ _ Hzip (fun n b _ => zip_outputs_spec d n b)). rewrite Hz. clear Hz.
  split.
  - intros (Hty & Hend & Hac & He & Hdup & Hin & Hass & Hpar & Hzo).
    rewrite (phase_spec _ (inputs_fed registry d) _ _ Hreq) in Hin
      by (intros n b Hn; by apply required_inputs_spec, Hty).
    pose proof (mapMR_nil_iff _ _ _ Hprm) as [Hnil _]. specialize (Hnil Hpar).
    split; try done.
    + intros n def p Hn. by apply (Hin n Hn).
    + intros n Hn. by apply (Hin n Hn).
    + intros n count i Hn. by apply (Hin n Hn).
    + intros n def p Hn Hdef. by apply (node_params_spec registry d n def [] Hdef (Hnil n Hn)).
    + intros n count i Hn. by apply Hzo.
  - intros [Hty Hend Hac He Hdup Hst Hdy Hzi Hass Hpar Hzo]. split_and!; try done.
    + rewrite (phase_spec _ (inputs_fed registry d) _ _ Hreq) by (intros n b Hn; by apply required_inputs_spec, Hty).
      intros n Hn. split_and!; eauto.
    + apply (mapMR_nil_iff _ _ _ Hprm). intros n Hn. destruct (mapMR_elem _ _ _ n Hprm Hn) as [b Hb]. rewrite Hb. f_equal.
      destruct (Hty n Hn) as [def Hdef]. apply (node_params_spec registry d n def b Hdef Hb). eauto.
    + intros n Hn count i. by apply Hzo.
Qed.

Lemma validate_pipeline_wf registry d r :
  validate_pipeline registry d = Ok r -> valid r = true -> well_formed registry d.
Proof. intros Hok. by apply validate_pipeline_iff. Qed.

(** ** Error types

    No phase but the cycle check reports [cycle_detected]. *)

Definition no_cycle_type (errs : list ValidationError) : Prop :=
  Forall (fun e => ve_type e <> "cycle_detected") errs.

Section NoCycleType.
Context (registry : NodeTypeRegistry) (d : PipelineDefinition).

Lemma no_cycle_type_map {A} (f : A -> ValidationError) (l : list A) :
  (forall a, ve_type (f a) <> "cycle_detected") -> no_cycle_type (map f l).
Proof. intros Hf. apply Forall_fmap, Forall_true. intros a. apply Hf. Qed.

Lemma no_cycle_type_mapMR {A} (f : A -> Res (list ValidationError)) (l : list A) bs :
  (forall a b, f a = Ok b -> no_cycle_type b) -> mapMR f l = Ok bs -> no_cycle_type (concat bs).
Proof.
  intros Hf Hok. apply Forall_forall. intros x Hx.
  destruct (mapMR_concat_elem f l bs x Hok Hx) as (a & b & _ & Hb & Hin).
  specialize (Hf a b Hb). unfold no_cycle_type in Hf. rewrite Forall_forall in Hf. by apply Hf.
Qed.

Lemma no_cycle_graph_errors : no_cycle_type (g_errors (_build_graph d)).
Proof.
  unfold _build_graph. induction (edges d) as [|e es IH] using rev_ind; [by constructor|].
  rewrite fold_left_app. simpl. unfold build_graph_edge.
  repeat case_bool_decide; simpl; try done; apply Forall_app; split; try done; by repeat constructor.
Qed.

Lemma no_cycle_edge_ports e b : edge_port_errors registry d e = Ok b -> no_cycle_type b.
Proof.
  unfold edge_port_errors, typed_edge_errors, actual_type_errors. intros Hok.
  repeat case_match; simplify_eq; by repeat constructor.
Qed.

Lemma no_cycle_duplicates : no_cycle_type (connected_inputs d).2.
Proof.
  unfold connected_inputs. induction (edges d) as [|e es IH] using rev_ind; [by constructor|].
  rewrite fold_left_app. cbn [fold_left]. destruct (fold_left _ es _) as [connected errs]. simpl in *.
  case_bool_decide; [|done]. apply Forall_app. split; [done|]. by repeat constructor.
Qed.

Lemma no_cycle_required connected n b :
  required_input_errors registry d connected n = Ok b -> no_cycle_type b.
Proof.
  unfold required_input_errors. intros Hok.
  repeat case_match; simplify_eq; try (by apply no_cycle_type_map); by repeat constructor.
Qed.

Lemma no_cycle_param n p b : param_errors d n p = Ok b -> no_cycle_type b.
Proof.
  unfold param_errors, range_errors, select_errors. intros Hok.
  repeat case_match; simplify_eq; by repeat constructor.
Qed.

Lemma no_cycle_node_params n b : node_param_errors registry d n = Ok b -> no_cycle_type b.
Proof.
  unfold node_param_errors. destruct (get_type _ _); [|intros [= <-]; constructor].
  destruct (mapMR _ _) as [bs|] eqn:Hm; [|done]. intros [= <-].
  eapply no_cycle_type_mapMR; [apply no_cycle_param | done].
Qed.

Lemma no_cycle_zip_outputs n b : zip_output_errors d n = Ok b -> no_cycle_type b.
Proof.
  unfold zip_output_errors. case_match; [intros [= <-]; constructor|].
  destruct (get_zip_channel_count _); [|done]. intros [= <-].
  apply Forall_concat, Forall_fmap, Forall_true. intros i. simpl.
  destruct (List.filter _ _) as [|? [|? ?]]; by repeat constructor.
Qed.
End NoCycleType.

(** A completed validation reports [cycle_detected] only through its cycle check. *)
Lemma cycle_error_reported registry d r err :
  validate_pipeline registry d = Ok r -> err ∈ errors r -> ve_type err = "cycle_detected" ->
  exists order, topological_sort d = Ok order /\ err ∈ cycle_errors d order.
Proof.
  intros Hok Hin Hty.
  destruct (validate_pipeline_inv registry d r Hok)
    as (order & ports & required & prms & zips & Hsort & Hports & Hreq & Hprm & Hzip & Herr & _).
  exists order. split; [done|]. rewrite Herr, !elem_of_app in Hin.
  assert (Hno : forall errs, no_cycle_type errs -> err ∉ errs).
  { intros errs Hf Hi. unfold no_cycle_type in Hf. rewrite Forall_forall in Hf. by apply (Hf err). }
  pose proof (Hno _ (no_cycle_graph_errors d)). pose proof (Hno _ (no_cycle_duplicates d)).
  pose proof (Hno _ (no_cycle_type_mapMR _ _ _ (no_cycle_edge_ports registry d) Hports)).
  pose proof (Hno _ (no_cycle_type_mapMR _ _ _ (no_cycle_required registry d _) Hreq)).
  pose proof (Hno _ (no_cycle_type_mapMR _ _ _ (no_cycle_node_params registry d) Hprm)).
  pose proof (Hno _ (no_cycle_type_mapMR _ _ _ (no_cycle_zip_outputs d) Hzip)).
  assert (err ∉ unknown_type_errors registry d) by (apply Hno; by apply no_cycle_type_map).
  assert (err ∉ missing_asset_errors d) by (apply Hno; by apply no_cycle_type_map).
  naive_solver.
Qed.

Lemma cycle_errors_cons d order :
  topological_sort d = Ok order -> (exists w, tc (graph_edge d) w w) ->
  exists err, cycle_errors d order = [err] /\ ve_type err = "cycle_detected"
    /\ ve_nodes err = Some (List.filter (fun nid => negb (bool_decide (nid ∈ order))) (node_ids d)).
Proof.
  intros Hsort Hcyc. apply (short_order_iff d order Hsort) in Hcyc.
  unfold cycle_errors. destruct (Nat.ltb_spec (length order) (length (nodes_by_id d))) as [_|Hge].
  - eexists. by split_and!.
  - unfold node_ids, dkeys in Hcyc. rewrite length_map in Hcyc. lia.
Qed.
