(* ===== verification/Validation.v ===== *)
(** * What validation guarantees

    A pipeline validates exactly when it is well formed; the cycle report, and the pipelines
    [compile_runtime_definition] hands to the job engine. *)

From stdpp Require Import base tactics list strings relations.
From Stdlib Require Import ZArith Lia.
From S2P Require Import Prelude PyStr PyValue NodeRegistry Builtins Pipeline Graph Dag.

Open Scope string_scope.
Open Scope list_scope.

(** ** Sample pipelines *)

Definition sample_node (id ty : string) (c : config) : PipelineNode :=
  {| n_id := id; n_type := ty; n_position := [];
     n_data := {| d_label := ""; d_config := c; d_asset_id := None |} |}.

Definition sample_edge (id src h tgt h' : string) : PipelineEdge :=
  {| e_id := id; e_source := src; e_target := tgt; e_sourceHandle := h; e_targetHandle := h' |}.

(** A search zipped into a source, trimmed and exported. *)
Definition sample_pipeline : PipelineDefinition :=
  {| nodes := [sample_node "q" "youtube_search" [("query", VStr "cats"); ("max_results", VInt 5)];
               sample_node "z" "zip_records" [("channel_count", VInt 1); ("record_limit", VInt 0)];
               sample_node "s" "source" [("media_type", VStr "video")];
               sample_node "t" "trim" [("start_time", VStr "0"); ("end_time", VStr "5")];
               sample_node "x" "export" []];
     edges := [sample_edge "e1" "q" "results" "z" "input_1";
               sample_edge "e2" "z" "output_1" "s" "asset_input";
               sample_edge "e3" "s" "output" "t" "input";
               sample_edge "e4" "t" "output" "x" "input"];
     viewport := default_viewport |}.

(** A pipeline whose last two nodes feed each other. *)
Definition cyclic_pipeline : PipelineDefinition :=
  {| nodes := [sample_node "s" "source" [("asset_id", VStr "a1")]; sample_node "t" "trim" [("start_time", VStr "0")];
               sample_node "u" "trim" [("start_time", VStr "0")]; sample_node "x" "export" []];
     edges := [sample_edge "e1" "u" "output" "t" "input"; sample_edge "e2" "t" "output" "u" "input";
               sample_edge "e3" "u" "output" "x" "input"];
     viewport := default_viewport |}.

(** ** The built-in registry *)

Example builtin_types_unique : NoDup (map type_name BUILTIN_MODULES).
Proof. apply (bool_decide_eq_true_1 _). vm_compute. reflexivity. Qed.

Lemma get_builtin name def :
  get_type builtin_registry name = Some def -> def ∈ BUILTIN_MODULES /\ type_name def = name.
Proof.
  intros Hget. assert (Hin : (name, def) ∈ builtin_registry).
  { apply elem_of_dget; [|done]. apply (bool_decide_eq_true_1 _). vm_compute. reflexivity. }
  assert (Hreg : builtin_registry = map (fun m => (type_name m, m)) BUILTIN_MODULES) by (vm_compute; done).
  rewrite Hreg in Hin. apply list_elem_of_fmap in Hin as (m & [= -> ->] & Hm).
  split; [exact Hm | reflexivity].
Qed.

(** Decides a statement about every built-in type by running through them. *)
Lemma builtin_forall (P : NodeTypeDefinition -> bool) name def :
  forallb P BUILTIN_MODULES = true -> get_type builtin_registry name = Some def -> P def = true.
Proof.
  intros Hall Hget. destruct (get_builtin _ _ Hget) as [Hin _].
  rewrite forallb_forall in Hall. by apply Hall, list_elem_of_In.
Qed.

(** ** Edges out of planner nodes *)

Definition planner_handle (ty handle : string) : bool :=
  (ty =? "zip_records")%string
  || ((ty =? "url_download")%string && (handle =? URL_INPUT_HANDLE)%string)
  || ((ty =? "source")%string && (handle =? ASSET_INPUT_HANDLE)%string).

Lemma planner_type_cases ty :
  is_planner_node_type ty = is_search_node_type ty || (ty =? "zip_records")%string.
Proof.
  unfold is_planner_node_type, is_search_node_type, PLANNER_NODE_TYPES.
  destruct (String.eqb_spec ty "zip_records") as [->|Hne]; [reflexivity|].
  rewrite orb_false_r. apply bool_decide_ext. rewrite elem_of_app, list_elem_of_singleton. naive_solver.
Qed.

Lemma planner_no_media ty def port p :
  is_planner_node_type ty = true -> get_type builtin_registry ty = Some def ->
  find_port (outputs def) port = Some p -> port_type p <> VIDEO /\ port_type p <> ANY_MEDIA.
Proof.
  intros Hpl Hty Hp. destruct (get_builtin _ _ Hty) as [_ <-]. apply List.find_some in Hp as [Hin _].
  assert (Hall : negb (is_planner_node_type (type_name def))
     || forallb (fun p => bool_decide (port_type p <> VIDEO /\ port_type p <> ANY_MEDIA)) (outputs def) = true).
  { apply (builtin_forall (fun m => negb (is_planner_node_type (type_name m))
     || forallb (fun p => bool_decide (port_type p <> VIDEO /\ port_type p <> ANY_MEDIA)) (outputs m))
     (type_name def)); [by vm_compute | done]. }
  rewrite Hpl in Hall. simpl in Hall. rewrite forallb_forall in Hall. specialize (Hall p Hin). by apply bool_decide_eq_true in Hall.
Qed.

Lemma planner_edge_target e src tgt :
  edge_fits builtin_registry src tgt e -> is_planner_node_type (n_type src) = true ->
  planner_handle (n_type tgt) (e_targetHandle e) = true.
Proof.
  intros Hfit Hpl. unfold planner_handle, URL_INPUT_HANDLE, ASSET_INPUT_HANDLE.
  destruct Hfit as [def p i _ _ Hd Hp Ht _|count i _ -> _ _ _ _|count i _ Hin _ _ _|sdef tdef sp tp Hs Hz _ _ _ _ _ _ _ _].
  - destruct (planner_no_media _ _ _ _ Hpl Hd Hp). naive_solver.
  - done.
  - rewrite !elem_of_cons, elem_of_nil in Hin. by destruct Hin as [[= -> ->]|[[= -> ->]|[]]].
  - rewrite planner_type_cases in Hpl. apply String.eqb_neq in Hz. rewrite Hz, orb_false_r in Hpl.
    by apply bool_decide_eq_true in Hpl.
Qed.

(** ** The runtime pipeline *)

Lemma elem_of_planner_ids d n :
  NoDup (map n_id (nodes d)) -> n ∈ nodes d ->
  n_id n ∈ planner_node_ids d <-> is_planner_node_type (n_type n) = true.
Proof.
  intros Hnd Hn. unfold planner_node_ids. rewrite list_elem_of_fmap. setoid_rewrite elem_of_lfilter.
  split; [|naive_solver]. intros (m & Hid & Hm & Hpl).
  by rewrite (NoDup_map_inj n_id (nodes d) n m).
Qed.

Section Runtime.
Context (d : PipelineDefinition) (r : ValidationResult).
Context (Hnd : NoDup (map n_id (nodes d))).
Context (Hok : validate_pipeline builtin_registry d = Ok r) (Hvalid : valid r = true).
Let rt := compile_runtime_definition d.
Let wf : well_formed builtin_registry d := validate_pipeline_wf builtin_registry d r Hok Hvalid.

Lemma elem_of_runtime_nodes n :
  n ∈ nodes rt <-> n ∈ nodes d /\ is_planner_node_type (n_type n) = false.
Proof.
  unfold rt. simpl. rewrite elem_of_lfilter, negb_true_iff, bool_decide_eq_false.
  split; intros [Hn Hp]; (split; [done|]); rewrite (elem_of_planner_ids d n Hnd Hn) in *.
  - by destruct (is_planner_node_type _).
  - by rewrite Hp.
Qed.

Lemma runtime_id id : id ∈ node_ids rt <-> id ∈ node_ids d /\ id ∉ planner_node_ids d.
Proof.
  unfold node_ids. rewrite !elem_of_node_ids. unfold rt. simpl.
  setoid_rewrite elem_of_lfilter. setoid_rewrite negb_true_iff.
  setoid_rewrite bool_decide_eq_false. naive_solver.
Qed.

Lemma elem_of_runtime_edges e :
  e ∈ edges rt <-> e ∈ edges d /\ e_source e ∈ node_ids rt /\ e_target e ∈ node_ids rt.
Proof.
  rewrite !runtime_id. unfold rt. simpl.
  rewrite elem_of_lfilter, andb_true_iff, !negb_true_iff, !bool_decide_eq_false.
  split; [|naive_solver]. intros (He & Hs & Ht). destruct (wf_endpoints _ _ wf e He). auto.
Qed.

Lemma runtime_acyclic : acyclic (graph_edge rt).
Proof.
  intros w Hw. apply (wf_acyclic _ _ wf w). revert Hw. apply tc_mono.
  intros u v (e & He & Hs & Ht & _ & _). apply elem_of_runtime_edges in He as (He & Hsi & Hti).
  apply runtime_id in Hsi as [Hsi _], Hti as [Hti _]. exists e. subst. auto.
Qed.

(** An edge into a runtime node is lost only on a planner-fed handle. *)
Lemma runtime_keeps_edge e n :
  e ∈ edges d -> n ∈ nodes rt -> e_target e = n_id n ->
  planner_handle (n_type n) (e_targetHandle e) = false -> e ∈ edges rt.
Proof.
  intros He Hn Ht Hh. apply elem_of_runtime_nodes in Hn as [Hn Hpn].
  apply elem_of_runtime_edges. destruct (wf_endpoints _ _ wf e He) as [Hsi Hti].
  split; [done|]. rewrite !runtime_id. split_and!; try done.
  2: { rewrite Ht, (elem_of_planner_ids d n Hnd Hn). congruence. }
  intros Hpl. apply elem_of_dkeys in Hsi as [src Hsrc].
  destruct (nodes_by_id_elem _ _ _ Hsrc) as [Hsn Hsid].
  rewrite <- Hsid, (elem_of_planner_ids d src Hnd Hsn) in Hpl.
  assert (Htgt := nodes_by_id_lookup d n Hnd Hn). rewrite <- Ht in Htgt.
  rewrite (planner_edge_target e src n) in Hh; try done. by apply (wf_edges _ _ wf).
Qed.
End Runtime.

(** Required ports of the built-in types are never planner-fed. *)
Lemma required_not_planner ty def p :
  get_type builtin_registry ty = Some def -> is_planner_node_type ty = false ->
  p ∈ inputs def -> port_required p = true -> planner_handle ty (port_name p) = false.
Proof.
  intros Hty Hpl Hp Hreq. destruct (get_builtin _ _ Hty) as [_ <-].
  assert (Hall : is_planner_node_type (type_name def)
    || forallb (fun p => negb (port_required p && planner_handle (type_name def) (port_name p))) (inputs def) = true).
  { apply (builtin_forall (fun m => is_planner_node_type (type_name m)
     || forallb (fun p => negb (port_required p && planner_handle (type_name m) (port_name p))) (inputs m))
     (type_name def)); [by vm_compute | done]. }
  rewrite Hpl in Hall. simpl in Hall. rewrite forallb_forall in Hall.
  apply list_elem_of_In in Hp. specialize (Hall p Hp). rewrite Hreq in Hall. by apply negb_true_iff in Hall.
Qed.

Lemma planner_handle_dynamic ty h : is_dynamic ty = true -> planner_handle ty h = false.
Proof.
  unfold is_dynamic, DYNAMIC_VIDEO_INPUT_NODE_TYPES. rewrite bool_decide_eq_true.
  intros [-> | ->%list_elem_of_singleton]%elem_of_cons; reflexivity.
Qed.

Lemma canonical_static ty h : is_dynamic ty = false -> _canonical_target_handle ty h = h.
Proof.
  unfold _canonical_target_handle. destruct (String.eqb_spec ty "concat_timeline") as [->|]; done.
Qed.

Lemma edge_target_handle_node d e n :
  (nodes_by_id d).[? e_target e] = Some n ->
  edge_target_handle d e = _canonical_target_handle (n_type n) (e_targetHandle e).
Proof. unfold edge_target_handle. by intros ->. Qed.

Lemma sorted_all d order :
  topological_sort d = Ok order -> acyclic (graph_edge d) -> order ≡ₚ node_ids d.
Proof.
  intros Hsort Hac. destruct (topological_sort_spec d) as (o & Ho & Hnd & Hsub & _ & _).
  rewrite Hsort in Ho. simplify_eq. apply NoDup_Permutation; [done | apply NoDup_node_ids |].
  intros v. split; [apply Hsub|]. intros Hv. destruct (decide (v ∈ o)) as [|Hn]; [done|].
  apply (unsorted_iff d o v Hsort Hv) in Hn as (w & Hw & _). by destruct (Hac w).
Qed.

(** ** Theorems *)

(** C13.  A completed validation accepts a pipeline exactly when it is well
    formed: node types are registered, edges join existing nodes without a cycle
    and name ports whose types fit, no input is fed twice, every required input,
    every channel of a zip and two video inputs of a concatenation are fed, sources
    have an asset or are bound by a planner, parameters are present, within their
    bounds and among their options, and every output of a zip is used once.  The
    topological order of an accepted pipeline covers every node. *)
Theorem validate_pipeline_sound (registry : NodeTypeRegistry) (d : PipelineDefinition) r :
  validate_pipeline registry d = Ok r ->
  (valid r = true <-> well_formed registry d)
  /\ (valid r = true -> exists order, topological_sort d = Ok order /\ order ≡ₚ node_ids d).
Proof.
  intros Hok. pose proof (validate_pipeline_iff registry d r Hok) as Hiff. split; [done|].
  intros Hwf%Hiff. destruct (topological_sort_spec d) as (order & Hsort & _).
  exists order. split; [done|]. apply sorted_all; [done | apply Hwf].
Qed.

Lemma validate_pipeline_sound_witness :
  well_formed builtin_registry sample_pipeline /\ ~ well_formed builtin_registry cyclic_pipeline.
Proof.
  split.
  - apply (validate_pipeline_sound builtin_registry sample_pipeline
             {| valid := true; errors := []; warnings := [] |}); [vm_compute|]; reflexivity.
  - intros Hwf. destruct (validate_pipeline builtin_registry cyclic_pipeline) as [r|] eqn:Hr; [|vm_compute in Hr; congruence].
    destruct (validate_pipeline_sound builtin_registry cyclic_pipeline r Hr) as [[_ Hv] _].
    specialize (Hv Hwf). vm_compute in Hr. injection Hr as <-. vm_compute in Hv. congruence.
Defined.

(**  Validation reports [cycle_detected] exactly for pipelines with a
    dependency cycle, once, and the report lists exactly the nodes that are on a
    cycle or downstream of one. *)
Theorem cycle_report_exact (registry : NodeTypeRegistry) (d : PipelineDefinition) r :
  validate_pipeline registry d = Ok r ->
  ((exists err, err ∈ errors r /\ ve_type err = "cycle_detected") <-> exists w, tc (graph_edge d) w w)
  /\ forall err, err ∈ errors r -> ve_type err = "cycle_detected" ->
       exists ids, ve_nodes err = Some ids
         /\ forall v, v ∈ ids <-> v ∈ node_ids d /\ exists w, tc (graph_edge d) w w /\ rtc (graph_edge d) w v.
Proof.
  intros Hok.
  destruct (validate_pipeline_inv registry d r Hok) as (order & ? & ? & ? & ? & Hsort & _ & _ & _ & _ & Herr & _).
  assert (Hback : forall err, err ∈ errors r -> ve_type err = "cycle_detected" ->
            err ∈ cycle_errors d order /\ exists w, tc (graph_edge d) w w).
  { intros err Hin Hty. destruct (cycle_error_reported registry d r err Hok Hin Hty) as (o & Ho & Hcyc).
    rewrite Hsort in Ho. simplify_eq. split; [done|]. apply (short_order_iff d o Hsort).
    unfold cycle_errors in Hcyc. destruct (Nat.ltb_spec (length o) (length (nodes_by_id d))) as [Hlt|]; [|set_solver].
    unfold node_ids, dkeys. by rewrite length_map. }
  split; [split|].
  - intros (err & Hin & Hty). by apply (Hback err).
  - intros Hcyc. destruct (cycle_errors_cons d order Hsort Hcyc) as (err & Heq & Hty & _).
    exists err. split; [|done]. rewrite Herr, Heq, !elem_of_app. set_solver.
  - intros err Hin Hty. destruct (Hback err Hin Hty) as [Hcyc Hex].
    destruct (cycle_errors_cons d order Hsort Hex) as (err' & Heq & _ & Hnodes).
    rewrite Heq in Hcyc. apply list_elem_of_singleton in Hcyc as ->. eexists. split; [done|].
    intros v. rewrite elem_of_lfilter, negb_true_iff, bool_decide_eq_false.
    split; intros [Hv Hn]; (split; [done|]); by apply (unsorted_iff d order v Hsort Hv).
Qed.

Definition sample_errors (r : Res ValidationResult) : list (string * option (list string)) :=
  match r with Ok r => map (fun e => (ve_type e, ve_nodes e)) (errors r) | Raise _ => [] end.

Definition cyclic_result : ValidationResult :=
  match validate_pipeline builtin_registry cyclic_pipeline with
  | Ok r => r
  | Raise _ => {| valid := false; errors := []; warnings := [] |}
  end.

Lemma cycle_report_exact_witness :
  sample_errors (Ok cyclic_result) = [("cycle_detected", Some ["t"; "u"; "x"])]
  /\ exists w, tc (graph_edge cyclic_pipeline) w w.
Proof.
  split; [vm_compute; reflexivity|].
  apply (cycle_report_exact builtin_registry cyclic_pipeline cyclic_result).
  - vm_compute. reflexivity.
  - exists (hd {| ve_type := ""; ve_message := ""; ve_node_id := None; ve_edge_id := None; ve_nodes := None;
                  ve_source_port := None; ve_target_port := None; ve_param_name := None |} (errors cyclic_result)).
    split; [vm_compute; constructor | vm_compute; reflexivity].
Defined.

(**  The runtime form of a valid pipeline with distinct node identifiers has
    no planner node, its edges join runtime nodes, it is acyclic and sorts
    completely, every required input of a runtime node is still fed, and a
    dynamic-input node keeps all its edges. *)
Theorem runtime_definition_sound (d : PipelineDefinition) r :
  NoDup (map n_id (nodes d)) ->
  validate_pipeline builtin_registry d = Ok r -> valid r = true ->
  let rt := compile_runtime_definition d in
  (forall n, n ∈ nodes rt <-> n ∈ nodes d /\ is_planner_node_type (n_type n) = false)
  /\ (forall e, e ∈ edges rt -> e_source e ∈ node_ids rt /\ e_target e ∈ node_ids rt)
  /\ (exists order, topological_sort rt = Ok order /\ order ≡ₚ node_ids rt)
  /\ (forall n def p, n ∈ nodes rt -> get_type builtin_registry (n_type n) = Some def ->
        is_dynamic (n_type n) = false -> p ∈ inputs def -> port_required p = true ->
        exists e, e ∈ edges rt /\ e_target e = n_id n /\ e_targetHandle e = port_name p)
  /\ (forall n e, n ∈ nodes rt -> is_dynamic (n_type n) = true ->
        e ∈ edges d -> e_target e = n_id n -> e ∈ edges rt).
Proof.
  intros Hnd Hok Hvalid rt. pose proof (validate_pipeline_wf _ d r Hok Hvalid) as Hwf. split_and!.
  - intros n. by apply elem_of_runtime_nodes.
  - intros e He. by eapply elem_of_runtime_edges in He as (_ & ? & ?).
  - destruct (topological_sort_spec rt) as (order & Hsort & _). exists order. split; [done|].
    apply sorted_all; [done | by eapply runtime_acyclic].
  - intros n def p Hn Hty Hdyn Hp Hreq.
    pose proof Hn as [Hnd' Hpl]%elem_of_runtime_nodes; [|done..].
    destruct (wf_required _ _ Hwf n def p) as (e & He & Ht & Hh); try done.
    { intros Hz. by rewrite Hz in Hpl. }
    pose proof (nodes_by_id_lookup d n Hnd Hnd') as Hlook. rewrite <- Ht in Hlook.
    rewrite (edge_target_handle_node _ _ _ Hlook), canonical_static in Hh by done.
    exists e. split_and!; try done. eapply runtime_keeps_edge; eauto.
    rewrite Hh. eapply required_not_planner; eauto.
  - intros n e Hn Hdyn He Ht. eapply runtime_keeps_edge; eauto. by apply planner_handle_dynamic.
Qed.

Lemma runtime_definition_sound_witness :
  map n_id (nodes (compile_runtime_definition sample_pipeline)) = ["s"; "t"; "x"]
  /\ exists order, topological_sort (compile_runtime_definition sample_pipeline) = Ok order
       /\ order ≡ₚ node_ids (compile_runtime_definition sample_pipeline).
Proof.
  split; [reflexivity|].
  apply (runtime_definition_sound sample_pipeline {| valid := true; errors := []; warnings := [] |}).
  - apply (bool_decide_eq_true_1 _). vm_compute. reflexivity.
  - vm_compute. reflexivity.
  - reflexivity.
Defined.
