(* ===== verification/PipelineBuilder.v ===== *)
(** * Building pipelines from templates ([autoflow/pipeline_builder.py])

    A plan of clip candidates becomes a pipeline: a source or download and a trim per
    candidate, a vertical crop where the format asks for it, a montage when there are
    several clips, a title, a transcode, a preview export, and an upload when the plan
    is published.  The records are those of [schemas/autoflow.py]; text is ASCII. *)

From stdpp Require Import base tactics list strings.
From Stdlib Require Import ZArith Lia Ascii SpecFloat.
From S2P Require Import Prelude PyStr PyValue NodeRegistry Pipeline RightsPolicy.

Open Scope string_scope.
Open Scope list_scope.

(** ** Schemas *)

Record AutoFlowIntent := {
  in_intent_type : string;
  in_subject : string;
  in_style : string;
  in_duration_sec : Z;
  in_aspect_ratio : string;
  in_target_platforms : list string;
  in_source_policy : string;
  in_publish_mode : string;
  in_keywords : list string;
  in_negative_keywords : list string;
  in_needs_voiceover : bool;
  in_needs_subtitles : bool;
  in_needs_bgm : bool;
  in_user_confirmation_questions : list string }.

Record AutoFlowMetadata := {
  am_title_candidates : list string;
  am_selected_title : option string;
  am_description : string;
  am_tags : list string;
  am_hashtags : list string;
  am_thumbnail_text_candidates : list string;
  am_platform_payloads : config }.

Record WorkflowTemplate := {
  wt_id : string;
  wt_name : string;
  wt_description : string;
  wt_intent_types : list string;
  wt_required_capabilities : list string;
  wt_default_slots : config;
  wt_node_blueprint : list config;
  wt_edge_blueprint : list config;
  wt_slot_mapping : config }.

(** ** Values *)

(** [a or b] where [a] is an optional string. *)
Definition opt_or (a : option string) (b : string) : string := str_or (default "" a) b.

Definition float_is_integer (f : pyfloat) : bool :=
  match f with
  | S754_zero _ => true
  | S754_finite _ m e => (0 <=? e)%Z || (Zpos m mod 2 ^ (- e) =? 0)%Z
  | _ => false
  end.

(** [f"{f:.2f}"]: the exact value rounded to hundredths, ties to even. *)
Definition round_half_even (num den : Z) : Z :=
  let q := (num / den)%Z in
  match (2 * (num mod den) ?= den)%Z with
  | Lt => q
  | Gt => (q + 1)%Z
  | Eq => if Z.even q then q else (q + 1)%Z
  end.

Definition two_digits (z : Z) : string := (if (z <? 10)%Z then "0" else "") +:+ str_of_Z z.

Definition format_2f (f : pyfloat) : string :=
  match f with
  | S754_nan => "nan"
  | S754_infinity s => if s then "-inf" else "inf"
  | S754_zero s => if s then "-0.00" else "0.00"
  | S754_finite s m e =>
      let c := if (0 <=? e)%Z then (100 * (Zpos m * 2 ^ e))%Z else round_half_even (100 * Zpos m) (2 ^ (- e)) in
      (if s then "-" else "") +:+ str_of_Z (c / 100) +:+ "." +:+ two_digits (c mod 100)
  end.

Definition half : pyfloat := fdiv (float_of_Z 1) (float_of_Z 2).

(** [max(0.5, x)] keeps its first argument unless the second is greater. *)
Definition clip_duration (c : AutoFlowClipCandidate) : pyfloat :=
  match cc_start_sec c, cc_end_sec c with
  | Some start, Some end_ => let x := fsub end_ start in if fltb half x then x else half
  | _, _ => float_of_Z 5
  end.

Definition duration_text (f : pyfloat) : string :=
  if float_is_integer f then match int_of_float f with Ok z => str_of_Z z | Raise _ => "" end else format_2f f.

Definition start_text (start : option pyfloat) : string :=
  match start with Some f => if truthy (VFloat f) then float_repr f else "0" | None => "0" end.

Definition _needs_vertical_crop (intent : AutoFlowIntent) (template : WorkflowTemplate) : bool :=
  (in_aspect_ratio intent =? "9:16")%string || is_str (dict_get (wt_default_slots template) "aspect_ratio") "9:16".

Definition _target_duration (intent : AutoFlowIntent) (template : WorkflowTemplate) : Res Z :=
  py_int (py_or (VInt (in_duration_sec intent))
           (py_or (dict_get (wt_default_slots template) "target_duration") (VInt 30))).

Definition _target_dimensions (aspect_ratio : string) : Z * Z :=
  if (aspect_ratio =? "16:9")%string then (1920, 1080)%Z
  else if (aspect_ratio =? "1:1")%string then (1080, 1080)%Z
  else (1080, 1920)%Z.

Fixpoint keep_chars (p : ascii -> bool) (s : string) : string :=
  match s with
  | EmptyString => EmptyString
  | String c s' => if p c then String c (keep_chars p s') else keep_chars p s'
  end.

Definition _safe_filename (title : option string) : string :=
  if is_empty (default "" title) then "autoflow-preview.mp4"
  else
    let cleaned := strip (keep_chars (fun c => is_alnum c || (c =? "-")%char || (c =? "_")%char) (default "" title)) in
    str_or (stake 48 cleaned) "autoflow-preview" +:+ ".mp4".

(** ** Nodes *)

Definition _position (stage_index row_index : Z) : list (string * pyfloat) :=
  [("x", float_of_Z (stage_index * 260)); ("y", float_of_Z (row_index * 140))].

Definition numbered (prefix : string) (index : Z) : string := prefix +:+ str_of_Z index.

Definition make_node (id type : string) (position : list (string * pyfloat)) (label : string) (c : config)
    (asset_id : option string) : PipelineNode :=
  {| n_id := id; n_type := type; n_position := position;
     n_data := {| d_label := label; d_config := c; d_asset_id := asset_id |} |}.

Definition make_edge (source target target_handle : string) : PipelineEdge :=
  {| e_id := "e-" +:+ source +:+ "-" +:+ target; e_source := source; e_target := target;
     e_sourceHandle := "output"; e_targetHandle := target_handle |}.

Definition URL_POLICIES : list string := ["research_only"; "remix_with_review"; "public_domain_or_cc"].

Definition _source_node (index : Z) (c : AutoFlowClipCandidate) (intent : AutoFlowIntent) : PipelineNode :=
  match cc_url c, bool_decide (in_source_policy intent ∈ URL_POLICIES) with
  | Some url, true =>
      make_node (numbered "url_download_" index) "url_download" (_position 0 (index - 1)) (numbered "Download " index)
        [("url", VStr url); ("format", VStr "best")] None
  | _, _ =>
      let asset_id := opt_or (cc_asset_id c) (cc_id c) in
      make_node (numbered "source_" index) "source" (_position 0 (index - 1)) (numbered "Source " index)
        [("asset_id", VStr asset_id); ("media_type", VStr "video")] (Some asset_id)
  end.

Definition _trim_node (index : Z) (c : AutoFlowClipCandidate) : PipelineNode :=
  make_node (numbered "trim_" index) "trim" (_position 1 (index - 1)) (numbered "Trim " index)
    [("start_time", VStr (start_text (cc_start_sec c))); ("duration", VStr (duration_text (clip_duration c)))] None.

Definition _vertical_crop_node (index : Z) (intent : AutoFlowIntent) : PipelineNode :=
  let '(width, height) := _target_dimensions (in_aspect_ratio intent) in
  make_node (numbered "vertical_crop_" index) "vertical_crop" (_position 2 (index - 1)) (numbered "Vertical Crop " index)
    [("mode", VStr "smart_subject"); ("width", VInt width); ("height", VInt height); ("background", VStr "blur")] None.

Definition montage_config (intent : AutoFlowIntent) (target_duration width height : Z) (metadata : AutoFlowMetadata) : config :=
  [("style", VStr (if (in_style intent =? "auto")%string then "fast_cuts" else in_style intent));
   ("target_duration", VInt target_duration); ("aspect_ratio", VStr (in_aspect_ratio intent));
   ("beat_sync", VBool (in_needs_bgm intent)); ("max_clip_duration", VInt 6); ("min_clip_duration", VInt 1);
   ("intro_hook", VStr (opt_or (am_selected_title metadata) (in_subject intent)));
   ("width", VInt width); ("height", VInt height)].

Definition _assembly_node (registry : NodeTypeRegistry) (intent : AutoFlowIntent) (target_duration width height : Z)
    (input_count : nat) (metadata : AutoFlowMetadata) : PipelineNode :=
  match get_type registry "montage_assembler" with
  | Some _ =>
      make_node "montage_1" "montage_assembler" (_position 3 0) "Montage"
        (montage_config intent target_duration width height metadata) None
  | None =>
      make_node "concat_many_1" "concat_many" (_position 3 0) "Concat Many"
        [("input_count", VInt (Z.of_nat input_count)); ("output_format", VStr "mp4"); ("transition", VStr "none");
         ("transition_duration", VInt 0); ("target_duration", VInt target_duration); ("normalize_resolution", VBool true);
         ("aspect_ratio", VStr (in_aspect_ratio intent)); ("width", VInt width); ("height", VInt height)] None
  end.

Definition _title_node (metadata : AutoFlowMetadata) (target_duration : Z) : PipelineNode :=
  make_node "title_overlay_1" "title_overlay" (_position 4 0) "Title Overlay"
    [("text", VStr (opt_or (am_selected_title metadata) "AutoFlow Preview")); ("position", VStr "top");
     ("start_time", VInt 0); ("duration", VInt (Z.min 3 (Z.max 1 target_duration))); ("font_size", VInt 72);
     ("safe_area", VBool true)] None.

Definition transcode_node (stage : Z) : PipelineNode :=
  make_node "transcode_1" "transcode" (_position stage 0) "Transcode"
    [("format", VStr "mp4"); ("video_codec", VStr "libx264"); ("audio_codec", VStr "aac"); ("crf", VInt 20)] None.

Definition export_node (stage : Z) (title : option string) : PipelineNode :=
  make_node "export_1" "export" (_position stage 0) "Export Preview"
    [("output_dir", VStr "/tmp/vp_autoflow_exports"); ("filename", VStr (_safe_filename title))] None.

Definition upload_config (title description privacy : string) (tags : list string) : config :=
  [("title", VStr title); ("description", VStr description); ("privacy", VStr privacy);
   ("made_for_kids", VStr "not_set"); ("tags", VStr (join "," tags))].

Definition _upload_node (intent : AutoFlowIntent) (metadata : AutoFlowMetadata) : PipelineNode :=
  make_node "youtube_upload_1" "youtube_upload" (_position 7 0) "YouTube Upload"
    (upload_config (opt_or (am_selected_title metadata) "AutoFlow Preview") (am_description metadata)
       (if (in_publish_mode intent =? "unlisted_upload")%string then "unlisted" else "private") (am_tags metadata)) None.

(** ** [build] *)

Definition UPLOAD_MODES : list string := ["private_upload"; "unlisted_upload"; "public_after_review"].

(** [enumerate(l, start=1)] under a comprehension. *)
Definition imap1 {A B} (f : Z -> A -> B) (l : list A) : list B := imap (fun i a => f (Z.of_nat i + 1)%Z a) l.

Definition clip_output (vertical : bool) (index : Z) : string :=
  if vertical then numbered "vertical_crop_" index else numbered "trim_" index.

(** The edges of one turn of the loop over the candidates. *)
Definition clip_edges (vertical : bool) (intent : AutoFlowIntent) (index : Z) (c : AutoFlowClipCandidate) : list PipelineEdge :=
  make_edge (n_id (_source_node index c intent)) (numbered "trim_" index) "input"
  :: (if vertical then [make_edge (numbered "trim_" index) (numbered "vertical_crop_" index) "input"] else []).

Definition build (registry : NodeTypeRegistry) (template : WorkflowTemplate) (intent : AutoFlowIntent)
    (candidates : list AutoFlowClipCandidate) (metadata : AutoFlowMetadata) : Res PipelineDefinition :=
  match candidates with
  | [] => Raise (ValueError "AutoFlow requires at least one candidate to build a pipeline")
  | _ =>
      let vertical := _needs_vertical_crop intent template in
      let clips := imap1 (fun i c => _source_node i c intent) candidates ++ imap1 _trim_node candidates
                   ++ (if vertical then imap1 (fun i _ => _vertical_crop_node i intent) candidates else []) in
      let loop_edges := concat (imap1 (clip_edges vertical intent) candidates) in
      let assembly_inputs := imap1 (fun i _ => clip_output vertical i) candidates in
      target_duration ← _target_duration intent template;
      let '(width, height) := _target_dimensions (in_aspect_ratio intent) in
      let assembly := _assembly_node registry intent target_duration width height (length assembly_inputs) metadata in
      let several := (2 <=? length assembly_inputs)%nat in
      let assembly_edges :=
        imap1 (fun i source => make_edge source (n_id assembly) (numbered "video_" i)) assembly_inputs in
      let assembly_output := if several then n_id assembly else default "" (head assembly_inputs) in
      let upload := bool_decide (in_publish_mode intent ∈ UPLOAD_MODES) in
      Ok {| nodes := clips ++ (if several then [assembly] else [])
                     ++ [_title_node metadata target_duration; transcode_node 5; export_node 6 (am_selected_title metadata)]
                     ++ (if upload then [_upload_node intent metadata] else []);
            edges := loop_edges ++ (if several then assembly_edges else [])
                     ++ [make_edge assembly_output "title_overlay_1" "input"; make_edge "title_overlay_1" "transcode_1" "input";
                         make_edge "transcode_1" "export_1" "input"]
                     ++ (if upload then [make_edge "transcode_1" "youtube_upload_1" "input"] else []);
            viewport := default_viewport |}
  end.
