(* ===== verification/BuilderValid.v ===== *)
(** * Built pipelines validate

    [validate_checks] turns the conditions of [validate_pipeline] around: when every
    check passes, the only errors are those of the parameters.  A built pipeline passes
    them all, up to the parameters of its montage, which the repair service resets. *)

From stdpp Require Import base tactics list strings sets relations.
From Stdlib Require Import ZArith Lia SpecFloat.
From S2P Require Import Prelude PyStr PyValue PyJson NodeRegistry Builtins Pipeline RightsPolicy PipelinePolicy Graph Dag Validation PipelineBuilder.

Open Scope string_scope.
Open Scope list_scope.

(** ** When all checks pass *)

Section Checks.
Context (registry : NodeTypeRegistry) (d : PipelineDefinition).

Lemma known_types : (forall n, n ∈ nodes d -> is_Some (get_type registry (n_type n))) -> unknown_type_errors registry d = [].
Proof.
  intros H. unfold unknown_type_errors. rewrite filter_none; [done|]. intros n Hn. by destruct (H n Hn) as [def ->].
Qed.

Lemma joined_edges :
  (forall e, e ∈ edges d -> e_source e ∈ node_ids d /\ e_target e ∈ node_ids d) -> g_errors (_build_graph d) = [].
Proof.
  unfold _build_graph. fold (node_ids d). generalize (node_ids d) as ids. intros ids.
  induction (edges d) as [|e es IH] using rev_ind; [done|]. intros H. rewrite fold_left_app. simpl.
  assert (He : e_source e ∈ ids /\ e_target e ∈ ids) by (apply H; set_solver).
  unfold build_graph_edge at 1. rewrite !bool_decide_eq_true_2 by apply He. simpl. apply IH. set_solver.
Qed.

Lemma acyclic_sorted order : topological_sort d = Ok order -> acyclic (graph_edge d) -> cycle_errors d order = [].
Proof.
  intros Hok Hac. unfold cycle_errors. destruct (Nat.ltb_spec (length order) (length (nodes_by_id d))) as [Hlt|]; [|done].
  exfalso. destruct (proj1 (short_order_iff d order Hok)) as [w Hw]; [|by apply (Hac w)].
  unfold node_ids, dkeys. by rewrite length_map.
Qed.

Lemma single_inputs (es : list PipelineEdge) :
  NoDup (map (fun e => (e_target e, edge_target_handle d e)) es) -> (fold_left (duplicate_step d) es ([], [])).2 = [].
Proof.
  induction es as [|e es IH] using rev_ind; [done|]. intros Hnd.
  pose proof (elem_of_connected d es (e_target e) (edge_target_handle d e)) as Hin.
  rewrite map_app in Hnd. apply NoDup_app in Hnd as (Hnd & Hdis & _). specialize (IH Hnd).
  rewrite fold_left_app. cbn [fold_left]. destruct (fold_left _ es _) as [connected errs]. simpl in *. subst errs.
  rewrite bool_decide_eq_false_2; [done|]. intros (e' & He' & Ht & Hh)%Hin.
  apply (Hdis (e_target e, edge_target_handle d e)); [|by left].
  apply list_elem_of_fmap. exists e'. by rewrite Ht, Hh.
Qed.

Lemma required_ok n def :
  get_type registry (n_type n) = Some def -> is_dynamic (n_type n) = false -> n_type n <> "zip_records" ->
  (forall p, p ∈ inputs def -> port_required p = true ->
     exists e, e ∈ edges d /\ e_target e = n_id n /\ edge_target_handle d e = port_name p) ->
  required_input_errors registry d (connected_inputs d).1 n = Ok [].
Proof.
  intros Hdef Hdyn Hzip%String.eqb_neq Hreq. unfold required_input_errors. rewrite Hdef, Hdyn, Hzip.
  rewrite filter_none; [done|]. intros p Hp. destruct (port_required p) eqn:Hr; [|done]. simpl.
  rewrite bool_decide_eq_true_2; [done|]. by apply elem_of_connected, Hreq.
Qed.

Lemma mapMR_nil {A B} (f : A -> Res (list B)) (l : list A) :
  (forall x, x ∈ l -> f x = Ok []) -> exists ys, mapMR f l = Ok ys /\ concat ys = [].
Proof.
  induction l as [|x l IH]; intros H; [by exists []|]. simpl. rewrite H by (by left).
  destruct IH as (ys & -> & Hys); [intros y Hy; apply H; by right|]. by exists ([] :: ys).
Qed.

Lemma validate_checks prms :
  (forall n, n ∈ nodes d -> is_Some (get_type registry (n_type n))) ->
  (forall e, e ∈ edges d -> e_source e ∈ node_ids d /\ e_target e ∈ node_ids d) ->
  acyclic (graph_edge d) ->
  (forall e, e ∈ edges d -> edge_port_errors registry d e = Ok []) ->
  NoDup (map (fun e => (e_target e, edge_target_handle d e)) (edges d)) ->
  (forall n, n ∈ nodes d -> required_input_errors registry d (connected_inputs d).1 n = Ok []) ->
  missing_asset_errors d = [] ->
  (forall n, n ∈ nodes d -> n_type n <> "zip_records") ->
  mapMR (node_param_errors registry d) (nodes d) = Ok prms ->
  exists r, validate_pipeline registry d = Ok r /\ errors r = concat prms
    /\ valid r = match concat prms with [] => true | _ => false end.
Proof.
  intros Htypes Hjoin Hac Hports Hsingle Hreq Hassets Hzip Hprm.
  destruct (topological_sort_spec d) as (order & Hsort & _).
  destruct (mapMR_nil _ _ Hports) as (ports & Hports' & Hpn). destruct (mapMR_nil _ _ Hreq) as (required & Hreq' & Hrn).
  destruct (mapMR_nil (zip_output_errors d) (nodes d)) as (zips & Hzips & Hzn).
  { intros n Hn. unfold zip_output_errors. by rewrite (proj2 (String.eqb_neq _ _) (Hzip n Hn)). }
  unfold validate_pipeline, mbind, Res_bind. unfold topological_sort in Hsort. rewrite Hsort, Hports'.
  pose proof (single_inputs _ Hsingle) as Hdup. fold (connected_inputs d) in Hdup.
  destruct (connected_inputs d) as [connected dups]. simpl in *. rewrite Hreq', Hprm, Hzips. eexists. split; [reflexivity|].
  simpl. rewrite known_types, joined_edges, acyclic_sorted, Hpn, Hdup, Hrn, Hassets, Hzn by done.
  simpl. by rewrite app_nil_r.
Qed.
End Checks.

(** ** Numbered nodes *)

Lemma elem_imap1 {A B} (f : Z -> A -> B) (l : list A) x :
  x ∈ imap1 f l <-> exists i a, l !! i = Some a /\ x = f (Z.of_nat i + 1)%Z a.
Proof.
  unfold imap1. rewrite list_elem_of_lookup. split.
  - intros [i Hi]. rewrite list_lookup_imap in Hi. destruct (l !! i) as [a|] eqn:Ha; [|done]. injection Hi as <-. by exists i, a.
  - intros (i & a & Ha & ->). exists i. by rewrite list_lookup_imap, Ha.
Qed.

Lemma NoDup_imap1 {A B} (f : Z -> A -> B) (l : list A) :
  (forall i j a b, l !! i = Some a -> l !! j = Some b -> f (Z.of_nat i + 1)%Z a = f (Z.of_nat j + 1)%Z b -> i = j) ->
  NoDup (imap1 f l).
Proof.
  intros H. apply NoDup_alt. intros i j x Hi Hj. unfold imap1 in *. rewrite list_lookup_imap in Hi, Hj.
  destruct (l !! i) as [a|] eqn:Ha; [|done]. destruct (l !! j) as [b|] eqn:Hb; [|done]. simpl in *. eapply H; eauto. congruence.
Qed.

Lemma map_imap1 {A B C} (g : B -> C) (f : Z -> A -> B) (l : list A) : map g (imap1 f l) = imap1 (fun i a => g (f i a)) l.
Proof. unfold imap1. by rewrite fmap_imap. Qed.

Lemma length_imap1 {A B} (f : Z -> A -> B) (l : list A) : length (imap1 f l) = length l.
Proof. apply length_imap. Qed.

Lemma imap1_imap1 {A B C} (f : Z -> B -> C) (g : Z -> A -> B) (l : list A) :
  imap1 f (imap1 g l) = imap1 (fun i a => f i (g i a)) l.
Proof. apply list_eq. intros i. unfold imap1. rewrite !list_lookup_imap. by destruct (l !! i). Qed.

Lemma numbered_inj p i j : numbered p i = numbered p j -> i = j.
Proof. intros H. apply str_of_Z_inj. unfold numbered in H. by apply (inj (String.app p)) in H. Qed.

Lemma NoDup_concat_imap1 {A B} (f : Z -> A -> list B) (l : list A) :
  (forall i a, NoDup (f i a)) ->
  (forall i j a b x, l !! i = Some a -> l !! j = Some b -> x ∈ f (Z.of_nat i + 1)%Z a -> x ∈ f (Z.of_nat j + 1)%Z b -> i = j) ->
  NoDup (concat (imap1 f l)).
Proof.
  intros Hf. induction l as [|a l IH] using rev_ind; intros Hdis; [apply NoDup_nil_2|].
  unfold imap1. rewrite imap_app. fold (imap1 f l). rewrite concat_app. simpl. rewrite app_nil_r, Nat.add_0_r.
  apply NoDup_app. split_and!; [|intros x Hx Hx'|apply Hf].
  - apply IH. intros i j b b' x Hi Hj. apply Hdis; by apply lookup_app_l_Some.
  - apply elem_of_concat in Hx as (y & (i & b & Hb & ->)%elem_imap1 & Hxy).
    assert (i < length l)%nat by (by eapply lookup_lt_Some).
    assert (i = length l); [|lia]. eapply (Hdis i (length l) b a x); [by apply lookup_app_l_Some| |done|done].
    by rewrite lookup_app_r, Nat.sub_diag by lia.
Qed.

(** Membership in an explicit list. *)
Ltac in_list := first [by left | right; in_list].

(** ** The shape of a built pipeline *)

Definition montage_node (mc : config) : PipelineNode :=
  make_node "montage_1" "montage_assembler" (_position 3 0) "Montage" mc None.

Section Built.
Context (vertical : bool) (intent : AutoFlowIntent) (candidates : list AutoFlowClipCandidate) (metadata : AutoFlowMetadata).
Context (target_duration : Z).

Definition several : bool := (2 <=? length candidates)%nat.
Definition uploads : bool := bool_decide (in_publish_mode intent ∈ UPLOAD_MODES).
Definition final_clip : string := if several then "montage_1" else clip_output vertical 1.

(** What [build] returns, with the configuration of the montage left open. *)
Definition built (mc : config) : PipelineDefinition :=
  {| nodes := (imap1 (fun i c => _source_node i c intent) candidates ++ imap1 _trim_node candidates
               ++ (if vertical then imap1 (fun i _ => _vertical_crop_node i intent) candidates else []))
              ++ (if several then [montage_node mc] else [])
              ++ [_title_node metadata target_duration; transcode_node 5; export_node 6 (am_selected_title metadata)]
              ++ (if uploads then [_upload_node intent metadata] else []);
     edges := concat (imap1 (clip_edges vertical intent) candidates)
              ++ (if several then imap1 (fun i _ => make_edge (clip_output vertical i) "montage_1" (numbered "video_" i)) candidates
                  else [])
              ++ [make_edge final_clip "title_overlay_1" "input"; make_edge "title_overlay_1" "transcode_1" "input";
                  make_edge "transcode_1" "export_1" "input"]
              ++ (if uploads then [make_edge "transcode_1" "youtube_upload_1" "input"] else []);
     viewport := default_viewport |}.

Inductive built_node (mc : config) : PipelineNode -> Prop :=
| bn_source i c : candidates !! i = Some c -> built_node mc (_source_node (Z.of_nat i + 1) c intent)
| bn_trim i c : candidates !! i = Some c -> built_node mc (_trim_node (Z.of_nat i + 1) c)
| bn_vertical i c : vertical = true -> candidates !! i = Some c -> built_node mc (_vertical_crop_node (Z.of_nat i + 1) intent)
| bn_montage : several = true -> built_node mc (montage_node mc)
| bn_title : built_node mc (_title_node metadata target_duration)
| bn_transcode : built_node mc (transcode_node 5)
| bn_export : built_node mc (export_node 6 (am_selected_title metadata))
| bn_upload : uploads = true -> built_node mc (_upload_node intent metadata).

Lemma elem_built_nodes mc n : n ∈ nodes (built mc) <-> built_node mc n.
Proof.
  unfold built, several, uploads. cbn [nodes]. rewrite !elem_of_app, !elem_imap1. split.
  - intros [[(i & c & Hc & ->)|[(i & c & Hc & ->)|Hv]]|[Hm|[Ht|Hu]]]; try by econstructor.
    + destruct vertical eqn:Hver; [|by apply elem_of_nil in Hv]. apply elem_imap1 in Hv as (i & c & Hc & ->). by econstructor.
    + destruct (2 <=? length candidates)%nat eqn:Hs; [|by apply elem_of_nil in Hm].
      apply list_elem_of_singleton in Hm as ->. by constructor.
    + apply elem_of_cons in Ht as [-> |[-> |[-> |?%elem_of_nil]%elem_of_cons]%elem_of_cons]; by try constructor.
    + destruct (bool_decide _) eqn:Hb; [|by apply elem_of_nil in Hu]. apply list_elem_of_singleton in Hu as ->. by constructor.
  - intros H. destruct H as [i c Hc|i c Hc|i c Hv Hc|Hs| | | |Hu].
    + left; left. eauto.
    + left; right; left. eauto.
    + left; right; right. rewrite Hv. apply elem_imap1. eauto.
    + right; left. unfold several in Hs. rewrite Hs. by left.
    + right; right; left. by left.
    + right; right; left. by right; left.
    + right; right; left. by right; right; left.
    + right; right; right. unfold uploads in Hu. rewrite Hu. by left.
Qed.

Inductive built_edge : PipelineEdge -> Prop :=
| be_source i c : candidates !! i = Some c ->
    built_edge (make_edge (n_id (_source_node (Z.of_nat i + 1) c intent)) (numbered "trim_" (Z.of_nat i + 1)) "input")
| be_vertical i c : vertical = true -> candidates !! i = Some c ->
    built_edge (make_edge (numbered "trim_" (Z.of_nat i + 1)) (numbered "vertical_crop_" (Z.of_nat i + 1)) "input")
| be_montage i c : several = true -> candidates !! i = Some c ->
    built_edge (make_edge (clip_output vertical (Z.of_nat i + 1)) "montage_1" (numbered "video_" (Z.of_nat i + 1)))
| be_title : built_edge (make_edge final_clip "title_overlay_1" "input")
| be_transcode : built_edge (make_edge "title_overlay_1" "transcode_1" "input")
| be_export : built_edge (make_edge "transcode_1" "export_1" "input")
| be_upload : uploads = true -> built_edge (make_edge "transcode_1" "youtube_upload_1" "input").

Lemma elem_built_edges mc e : e ∈ edges (built mc) <-> built_edge e.
Proof.
  unfold built. cbn [edges]. rewrite !elem_of_app, elem_of_concat. split.
  - intros [(l & (i & c & Hc & ->)%elem_imap1 & He)|[Hm|[Ht|Hu]]].
    + apply elem_of_cons in He as [-> |He]; [by econstructor|]. destruct vertical eqn:Hv; [|by apply elem_of_nil in He].
      apply list_elem_of_singleton in He as ->. by eapply be_vertical.
    + destruct several eqn:Hs; [|by apply elem_of_nil in Hm]. apply elem_imap1 in Hm as (i & c & Hc & ->). by eapply be_montage.
    + apply elem_of_cons in Ht as [-> |[-> |[-> |?%elem_of_nil]%elem_of_cons]%elem_of_cons]; by try constructor.
    + destruct uploads eqn:Hb; [|by apply elem_of_nil in Hu]. apply list_elem_of_singleton in Hu as ->. by constructor.
  - intros H. destruct H as [i c Hc|i c Hv Hc|i c Hs Hc| | | |Hu].
    + left. exists (clip_edges vertical intent (Z.of_nat i + 1) c). split; [apply elem_imap1; eauto | by left].
    + left. exists (clip_edges vertical intent (Z.of_nat i + 1) c). split; [apply elem_imap1; eauto|]. unfold clip_edges.
      rewrite Hv. right. by left.
    + right; left. rewrite Hs. apply elem_imap1. eauto.
    + right; right; left. by left.
    + right; right; left. by right; left.
    + right; right; left. by right; right; left.
    + right; right; right. rewrite Hu. by left.
Qed.

(** *** Identifiers: the first letters tell the kind of node. *)

Definition rank (id : string) : nat :=
  let p := stake 3 id in
  if bool_decide (p ∈ ["sou"; "url"]) then 0
  else if (p =? "tri")%string then 1
  else if (p =? "ver")%string then 2
  else if (p =? "mon")%string then 3
  else if (p =? "tit")%string then 4
  else if (p =? "tra")%string then 5
  else 6.

Lemma source_id i c : n_id (_source_node i c intent) = numbered "url_download_" i \/ n_id (_source_node i c intent) = numbered "source_" i.
Proof. unfold _source_node. repeat case_match; auto. Qed.

Lemma source_rank i c : rank (n_id (_source_node i c intent)) = 0%nat.
Proof. by destruct (source_id i c) as [-> | ->]. Qed.

Lemma source_id_inj i j c c' :
  n_id (_source_node i c intent) = n_id (_source_node j c' intent) -> i = j.
Proof.
  destruct (source_id i c) as [-> | ->], (source_id j c') as [-> | ->]; try (by apply numbered_inj);
    by intros H%(f_equal (stake 3)).
Qed.

Lemma NoDup_clip_ids mc : NoDup (map n_id (nodes (built mc))).
Proof.
  unfold built. cbn [nodes]. rewrite !map_app, !map_imap1.
  assert (Hidx : forall i j : nat, (Z.of_nat i + 1 = Z.of_nat j + 1)%Z -> i = j) by lia.
  apply NoDup_app; split_and!; [apply NoDup_app; split_and!; [| |apply NoDup_app; split_and!]|..].
  - apply NoDup_imap1. intros i j a b _ _ H%source_id_inj. auto.
  - intros x (i & c & _ & ->)%elem_imap1 Hx. pose proof (source_rank (Z.of_nat i + 1) c) as Hr.
    apply elem_of_app in Hx as [(j & c' & _ & Hx)%elem_imap1|Hx]; [by rewrite Hx in Hr|].
    destruct vertical; [|by apply elem_of_nil in Hx]. rewrite map_imap1 in Hx.
    apply elem_imap1 in Hx as (j & c' & _ & Hx). unfold _vertical_crop_node in Hx.
    destruct (_target_dimensions _). by rewrite Hx in Hr.
  - apply NoDup_imap1. intros i j a b _ _ H%numbered_inj. auto.
  - intros x (i & c & _ & ->)%elem_imap1 Hx. destruct vertical; [|by apply elem_of_nil in Hx]. rewrite map_imap1 in Hx.
    apply elem_imap1 in Hx as (j & c' & _ & Hx). unfold _vertical_crop_node in Hx.
    destruct (_target_dimensions _). by apply (f_equal (stake 3)) in Hx.
  - destruct vertical; [|apply NoDup_nil_2]. rewrite map_imap1. apply NoDup_imap1. intros i j a b _ _ H.
    unfold _vertical_crop_node in H. destruct (_target_dimensions _). apply numbered_inj in H. auto.
  - intros x Hx Hy. assert (Hlow : (rank x <= 2)%nat).
    { apply elem_of_app in Hx as [(i & c & _ & ->)%elem_imap1|Hx]; [rewrite source_rank; lia|].
      apply elem_of_app in Hx as [(i & c & _ & ->)%elem_imap1|Hx]; [by vm_compute; lia|].
      destruct vertical; [|by apply elem_of_nil in Hx]. rewrite map_imap1 in Hx.
      apply elem_imap1 in Hx as (j & c' & _ & ->). unfold _vertical_crop_node. destruct (_target_dimensions _). vm_compute. lia. }
    destruct several, uploads; simpl in Hy; repeat (apply elem_of_cons in Hy as [-> |Hy]; [vm_compute in Hlow; lia|]);
      by apply elem_of_nil in Hy.
  - destruct several, uploads; apply (bool_decide_eq_true_1 _); vm_compute; reflexivity.
Qed.

Context (Hsome : candidates <> []) (mc : config).

Lemma built_lookup n : built_node mc n -> (nodes_by_id (built mc)).[? n_id n] = Some n.
Proof. intros Hn. apply nodes_by_id_lookup; [apply NoDup_clip_ids | by apply elem_built_nodes]. Qed.

Lemma built_id n : built_node mc n -> n_id n ∈ node_ids (built mc).
Proof. intros Hn. apply elem_of_dkeys. eexists. by apply built_lookup. Qed.

Lemma vertical_id i : n_id (_vertical_crop_node i intent) = numbered "vertical_crop_" i.
Proof. unfold _vertical_crop_node. by destruct (_target_dimensions _). Qed.

(** The node whose output is the clip of a candidate. *)
Lemma clip_node i c : candidates !! i = Some c ->
  exists n, built_node mc n /\ n_id n = clip_output vertical (Z.of_nat i + 1) /\ n_type n ∈ ["trim"; "vertical_crop"].
Proof.
  intros Hc. unfold clip_output. destruct vertical eqn:Hv.
  - exists (_vertical_crop_node (Z.of_nat i + 1) intent). split_and!; [by eapply bn_vertical | apply vertical_id|].
    unfold _vertical_crop_node. destruct (_target_dimensions _). by right; left.
  - exists (_trim_node (Z.of_nat i + 1) c). split_and!; [by constructor | done | by left].
Qed.

Lemma final_node : exists n, built_node mc n /\ n_id n = final_clip /\ n_type n ∈ ["trim"; "vertical_crop"; "montage_assembler"].
Proof.
  unfold final_clip. destruct several eqn:Hs; [exists (montage_node mc); split_and!; [by constructor | done | set_solver]|].
  destruct candidates as [|c cs] eqn:Hc; [done|].
  destruct (clip_node 0 c) as (n & Hn & Hid & Ht); [by rewrite Hc|]. exists n. split_and!; [done | done | set_solver].
Qed.

(** The two ends of an edge and their types. *)
Definition edge_ends (e : PipelineEdge) (sources : list string) (target : string) : Prop :=
  exists s t, built_node mc s /\ built_node mc t /\ n_id s = e_source e /\ n_id t = e_target e
    /\ n_type s ∈ sources /\ n_type t = target.

Lemma built_edge_ends e : built_edge e ->
  match rank (e_target e) with
  | 1%nat => edge_ends e ["source"; "url_download"] "trim" /\ e_targetHandle e = "input"
  | 2%nat => edge_ends e ["trim"] "vertical_crop" /\ e_targetHandle e = "input"
  | 3%nat => edge_ends e ["trim"; "vertical_crop"] "montage_assembler"
             /\ exists i, (i < length candidates)%nat /\ e_targetHandle e = numbered "video_" (Z.of_nat i + 1)
  | 4%nat => edge_ends e ["trim"; "vertical_crop"; "montage_assembler"] "title_overlay" /\ e_targetHandle e = "input"
  | 5%nat => edge_ends e ["title_overlay"] "transcode" /\ e_targetHandle e = "input"
  | _ => (edge_ends e ["transcode"] "export" \/ edge_ends e ["transcode"] "youtube_upload") /\ e_targetHandle e = "input"
  end /\ e_sourceHandle e = "output" /\ (rank (e_source e) < rank (e_target e))%nat.
Proof.
  intros He. destruct He as [i c Hc|i c Hv Hc|i c Hs Hc| | | |Hu]; cbn [e_target e_source e_sourceHandle e_targetHandle make_edge].
  - change (rank (numbered "trim_" _)) with 1%nat. rewrite source_rank. split_and!; [|done|done|lia].
    exists (_source_node (Z.of_nat i + 1) c intent), (_trim_node (Z.of_nat i + 1) c).
    split_and!; [by constructor | by constructor | done | done | | done].
    unfold _source_node. repeat case_match; set_solver.
  - change (rank (numbered "trim_" _)) with 1%nat. change (rank (numbered "vertical_crop_" _)) with 2%nat.
    split_and!; [|done|done|lia]. exists (_trim_node (Z.of_nat i + 1) c), (_vertical_crop_node (Z.of_nat i + 1) intent).
    split_and!; [by constructor | by eapply bn_vertical | done | apply vertical_id | by left |].
    unfold _vertical_crop_node. by destruct (_target_dimensions _).
  - change (rank "montage_1") with 3%nat. destruct (clip_node i c Hc) as (n & Hn & Hid & Ht). split_and!; [| |done|].
    + exists n, (montage_node mc). split_and!; [done | by constructor | done | done | done | done].
    + exists i. split; [by eapply lookup_lt_Some | done].
    + unfold clip_output. destruct vertical; vm_compute; lia.
  - change (rank "title_overlay_1") with 4%nat. destruct final_node as (n & Hn & Hid & Ht). split_and!; [|done|done|].
    + exists n, (_title_node metadata target_duration). split_and!; [done | constructor | done | done | done | done].
    + unfold final_clip, clip_output. destruct several, vertical; vm_compute; lia.
  - change (rank "transcode_1") with 5%nat. split_and!; [|done|done|vm_compute; lia]. exists (_title_node metadata target_duration), (transcode_node 5).
    split_and!; [constructor | constructor | done | done | by left | done].
  - change (rank "export_1") with 6%nat. split_and!; [left|done|done|vm_compute; lia]. exists (transcode_node 5), (export_node 6 (am_selected_title metadata)).
    split_and!; [constructor | constructor | done | done | by left | done].
  - change (rank "youtube_upload_1") with 6%nat. split_and!; [right|done|done|vm_compute; lia]. exists (transcode_node 5), (_upload_node intent metadata).
    split_and!; [constructor | by constructor | done | done | by left | done].
Qed.

Lemma built_acyclic : acyclic (graph_edge (built mc)).
Proof.
  assert (H : forall u v, tc (graph_edge (built mc)) u v -> (rank u < rank v)%nat).
  { intros u v Huv. induction Huv as [u v (e & He & <- & <- & _)|u v w (e & He & <- & <- & _) _ IH];
      apply elem_built_edges, built_edge_ends in He as (_ & _ & ?); lia. }
  intros u Hu%H. lia.
Qed.

(** *** Ports *)

Lemma static_edge_ok registry e s t :
  (nodes_by_id (built mc)).[? e_source e] = Some s -> (nodes_by_id (built mc)).[? e_target e] = Some t ->
  is_dynamic (n_type t) = false ->
  is_search_node_type (n_type s) || (n_type t =? "zip_records")%string || (n_type s =? "zip_records")%string = false ->
  validate_edge registry (n_type s) (e_sourceHandle e) (n_type t) (e_targetHandle e) = true ->
  actual_type_errors registry s t e = [] -> edge_port_errors registry (built mc) e = Ok [].
Proof.
  intros Hs Ht Hdyn Hplan Hval Hact. unfold edge_port_errors. rewrite Hs, Ht.
  unfold _dynamic_video_input_limit_error, _dynamic_video_input_index. rewrite Hdyn. simpl. rewrite Hplan.
  unfold typed_edge_errors. by rewrite Hval, Hact.
Qed.

Lemma infer_built s : built_node mc s ->
  _infer_actual_output_port_type s = if bool_decide (n_type s ∈ ["source"; "url_download"]) then Some VIDEO else None.
Proof.
  intros Hs. destruct Hs as [i c Hc|i c Hc|i c Hv Hc|Hs| | | |Hu]; try done.
  - unfold _source_node. repeat case_match; done.
  - unfold _vertical_crop_node. by destruct (_target_dimensions _).
Qed.

Lemma built_ports e : (length candidates <= 12)%nat -> built_edge e -> edge_port_errors builtin_registry (built mc) e = Ok [].
Proof.
  intros Hlen He. destruct (built_edge_ends e He) as (Hends & Hout & _).
  assert (Hports : exists sources target, edge_ends e sources target
    /\ forallb (fun s => validate_edge builtin_registry s "output" target (e_targetHandle e)
         && negb (is_search_node_type s || (target =? "zip_records")%string || (s =? "zip_records")%string)
         && negb (is_dynamic target)
         && (negb (bool_decide (s ∈ ["source"; "url_download"])) || (target =? "trim")%string && (e_targetHandle e =? "input")%string)) sources = true).
  { destruct (rank (e_target e)) as [|[|[|[|[|[|?]]]]]].
    all: try (destruct Hends as [Hends Hh]; eexists _, _; split; [exact Hends|]; rewrite Hh; vm_compute; reflexivity).
    - destruct Hends as [[Hends|Hends] Hh]; eexists _, _; (split; [exact Hends|]); rewrite Hh; vm_compute; reflexivity.
    - destruct Hends as [Hends (i & Hi & Hh)]. eexists _, _. split; [exact Hends|]. rewrite Hh.
      do 12 (destruct i as [|i]; [vm_compute; reflexivity|]). lia.
    - destruct Hends as [[Hends|Hends] Hh]; eexists _, _; (split; [exact Hends|]); rewrite Hh; vm_compute; reflexivity. }
  destruct Hports as (sources & target & (s & t & Hs & Ht & Hsid & Htid & Hsty & Htty) & Hall).
  rewrite forallb_forall in Hall. specialize (Hall _ (proj1 (list_elem_of_In _ _) Hsty)).
  apply andb_prop in Hall as [[[Hval Hplan%negb_true_iff]%andb_prop Hdyn%negb_true_iff]%andb_prop Hsrc].
  apply (static_edge_ok builtin_registry e s t); rewrite <- ?Hsid, <- ?Htid, ?Htty, ?Hout; try (by apply built_lookup); try done.
  unfold actual_type_errors. rewrite (infer_built s Hs). case_bool_decide as Hcase; [|done].
  apply andb_prop in Hsrc as [->%String.eqb_eq ->%String.eqb_eq]. rewrite Htty. vm_compute. reflexivity.
Qed.

(** *** Inputs *)

Definition BUILT_TYPES : list string :=
  ["source"; "url_download"; "trim"; "vertical_crop"; "montage_assembler"; "title_overlay"; "transcode"; "export";
   "youtube_upload"].

Lemma built_type n : built_node mc n -> n_type n ∈ BUILT_TYPES.
Proof.
  intros Hn. unfold BUILT_TYPES. destruct Hn as [i c Hc|i c Hc|i c Hv Hc|Hs| | | |Hu]; cbn [n_type];
    [|in_list| |in_list|in_list|in_list|in_list|in_list].
  - unfold _source_node. repeat case_match; cbn [n_type make_node]; in_list.
  - unfold _vertical_crop_node. destruct (_target_dimensions _). in_list.
Qed.

Lemma built_type_ok n : built_node mc n ->
  is_Some (get_type builtin_registry (n_type n)) /\ is_dynamic (n_type n) = false /\ n_type n <> "zip_records".
Proof.
  intros Hn%built_type. assert (H : forallb (fun ty => bool_decide (is_Some (get_type builtin_registry ty))
    && negb (is_dynamic ty) && negb (ty =? "zip_records")%string) BUILT_TYPES = true) by (vm_compute; reflexivity).
  rewrite forallb_forall in H. specialize (H _ (proj1 (list_elem_of_In _ _) Hn)).
  apply andb_prop in H as [[H1%bool_decide_eq_true H2%negb_true_iff]%andb_prop H3%negb_true_iff%String.eqb_neq]. done.
Qed.

Lemma edge_end_nodes e : built_edge e ->
  exists s t, built_node mc s /\ built_node mc t /\ n_id s = e_source e /\ n_id t = e_target e.
Proof.
  intros He. destruct (built_edge_ends e He) as (Hends & _ & _).
  destruct (rank (e_target e)) as [|[|[|[|[|[|?]]]]]];
    (destruct Hends as [[Hends|Hends] _] || destruct Hends as [Hends _]); destruct Hends as (s & t & ? & ? & ? & ? & _); eauto 10.
Qed.

Lemma built_handle e : built_edge e -> edge_target_handle (built mc) e = e_targetHandle e.
Proof.
  intros He. destruct (edge_end_nodes e He) as (s & t & _ & Ht & _ & Hid). unfold edge_target_handle.
  rewrite <- Hid, (built_lookup t Ht). apply canonical_static. by apply built_type_ok.
Qed.

(** The input an edge of the loop goes to. *)
Lemma clip_edge_key i c x : x ∈ map (fun e => (e_target e, e_targetHandle e)) (clip_edges vertical intent i c) ->
  x = (numbered "trim_" i, "input") \/ x = (numbered "vertical_crop_" i, "input").
Proof. unfold clip_edges. destruct vertical; simpl; rewrite ?elem_of_cons, elem_of_nil; tauto. Qed.

Lemma built_single : NoDup (map (fun e => (e_target e, edge_target_handle (built mc) e)) (edges (built mc))).
Proof.
  assert (Heq : map (fun e => (e_target e, edge_target_handle (built mc) e)) (edges (built mc))
                = map (fun e => (e_target e, e_targetHandle e)) (edges (built mc))).
  { apply map_ext_in. intros e He. by rewrite (built_handle e) by (apply (elem_built_edges mc), list_elem_of_In, He). }
  rewrite Heq. unfold built. cbn [edges]. rewrite map_app. apply NoDup_app. split_and!.
  - rewrite concat_map, map_imap1. apply NoDup_concat_imap1.
    + intros i c. unfold clip_edges. destruct vertical; simpl; [|apply NoDup_singleton].
      apply NoDup_cons. split; [|apply NoDup_singleton]. by intros [=]%list_elem_of_singleton.
    + intros i j c c' x _ _ Hi Hj. apply clip_edge_key in Hi as [Hi|Hi]; apply clip_edge_key in Hj as [Hj|Hj];
        rewrite Hi in Hj; try discriminate; apply (f_equal fst), numbered_inj in Hj; lia.
  - intros x Hx Hy. rewrite concat_map, map_imap1 in Hx.
    apply elem_of_concat in Hx as (l & (i & c & _ & ->)%elem_imap1 & Hx).
    assert (Hlow : (rank x.1 <= 2)%nat) by (apply clip_edge_key in Hx as [-> | ->]; vm_compute; lia).
    rewrite map_app in Hy. apply elem_of_app in Hy as [Hy|Hy].
    + destruct several; [|by apply elem_of_nil in Hy]. rewrite map_imap1 in Hy. apply elem_imap1 in Hy as (j & c' & _ & ->).
      vm_compute in Hlow. lia.
    + destruct uploads; simpl in Hy; repeat (apply elem_of_cons in Hy as [-> |Hy]; [vm_compute in Hlow; lia|]); by apply elem_of_nil in Hy.
  - rewrite map_app. apply NoDup_app. split_and!.
    + destruct several; [|apply NoDup_nil_2]. rewrite map_imap1. apply NoDup_imap1.
      intros i j a b _ _ H%(f_equal snd)%numbered_inj. lia.
    + intros x Hx Hy. destruct several; [|by apply elem_of_nil in Hx]. rewrite map_imap1 in Hx.
      apply elem_imap1 in Hx as (j & c' & _ & ->).
      destruct uploads; simpl in Hy; repeat (apply elem_of_cons in Hy as [[=]|Hy]); by apply elem_of_nil in Hy.
    + destruct uploads; apply (bool_decide_eq_true_1 _); vm_compute; reflexivity.
Qed.

Lemma required_built n : built_node mc n ->
  (forall h, h ∈ (match get_type builtin_registry (n_type n) with
                  | Some def => map port_name (List.filter port_required (inputs def)) | None => [] end) ->
     exists e, built_edge e /\ e_target e = n_id n /\ e_targetHandle e = h) ->
  required_input_errors builtin_registry (built mc) (connected_inputs (built mc)).1 n = Ok [].
Proof.
  intros Hn Hreq. destruct (built_type_ok n Hn) as ([def Hdef] & Hdyn & Hzip). apply (required_ok _ _ n def); [done..|].
  intros p Hp Hr. destruct (Hreq (port_name p)) as (e & He & Ht & Hh).
  { rewrite Hdef. apply elem_map, elem_of_lfilter. done. }
  exists e. split_and!; [by apply elem_built_edges | done | by rewrite built_handle].
Qed.

Lemma built_required n : built_node mc n ->
  required_input_errors builtin_registry (built mc) (connected_inputs (built mc)).1 n = Ok [].
Proof.
  intros Hn. apply (required_built n Hn). intros h Hh.
  assert (Hone : h = "input" -> forall e, built_edge e -> e_target e = n_id n -> e_targetHandle e = "input" ->
    exists e, built_edge e /\ e_target e = n_id n /\ e_targetHandle e = h) by (intros ->; eauto).
  destruct Hn as [i c Hc|i c Hc|i c Hv Hc|Hs| | | |Hu].
  - unfold _source_node in Hh. exfalso. revert Hh. repeat case_match; vm_compute; set_solver.
  - eapply Hone; [|by apply (be_source i c)|done|done]. vm_compute in Hh. set_solver.
  - eapply Hone; [|by apply (be_vertical i c)|by rewrite vertical_id|done].
    unfold _vertical_crop_node in Hh. destruct (_target_dimensions _). vm_compute in Hh. set_solver.
  - assert (Hh' : h ∈ ["video_1"; "video_2"]) by (vm_compute in Hh; exact Hh).
    assert (Hlen : (2 <= length candidates)%nat) by (by apply Nat.leb_le).
    destruct (lookup_lt_is_Some_2 candidates 0) as [c0 Hc0]; [lia|]. destruct (lookup_lt_is_Some_2 candidates 1) as [c1 Hc1]; [lia|].
    apply elem_of_cons in Hh' as [-> |Hh'%list_elem_of_singleton].
    + eexists. split; [by apply (be_montage 0 c0)|done].
    + subst h. eexists. split; [by apply (be_montage 1 c1)|done].
  - eapply Hone; [|by apply be_title|done|done]. vm_compute in Hh. set_solver.
  - eapply Hone; [|by apply be_transcode|done|done]. vm_compute in Hh. set_solver.
  - eapply Hone; [|by apply be_export|done|done]. vm_compute in Hh. set_solver.
  - eapply Hone; [|by apply be_upload|done|done]. vm_compute in Hh. set_solver.
Qed.

(** *** Parameters *)

Definition empty_pipeline : PipelineDefinition := {| nodes := []; edges := []; viewport := [] |}.

Lemma built_unbound ty h : planner_bound (built mc) ty h = [].
Proof.
  unfold planner_bound. rewrite filter_none; [done|]. intros e He%elem_built_edges.
  destruct (edge_end_nodes e He) as (s & t & Hs & Ht & <- & <-). rewrite !built_lookup by done.
  destruct (built_type_ok s Hs) as (_ & _ & Hzip). apply String.eqb_neq in Hzip. by rewrite Hzip.
Qed.

(** No parameter is supplied by a planner. *)
Lemma built_params n : node_param_errors builtin_registry (built mc) n = node_param_errors builtin_registry empty_pipeline n.
Proof.
  unfold node_param_errors, param_errors, planner_supplied, planner_bound_url_nodes, planner_bound_source_nodes.
  by rewrite !built_unbound.
Qed.

Lemma asset_nonempty c : cc_id c <> "" -> opt_or (cc_asset_id c) (cc_id c) <> "".
Proof. unfold opt_or, str_or. intros Hid. destruct (default "" (cc_asset_id c)); done. Qed.

Lemma built_assets : (forall c, c ∈ candidates -> cc_id c <> "") -> missing_asset_errors (built mc) = [].
Proof.
  intros Hids. unfold missing_asset_errors. rewrite filter_none; [done|]. intros n Hn%elem_built_nodes.
  destruct Hn as [i c Hc|i c Hc|i c Hv Hc|Hs| | | |Hu]; try done.
  - assert (Hid : cc_id c <> "") by (apply Hids; by eapply list_elem_of_lookup_2). apply asset_nonempty with (c := c) in Hid.
    unfold _source_node. destruct (opt_or (cc_asset_id c) (cc_id c)) as [|x a]; [done|]. repeat case_match; done.
  - unfold _vertical_crop_node. by destruct (_target_dimensions _).
Qed.
End Built.

(** The parameters of each kind of node, for any identifier, place and label. *)
Section NodeParams.
Context (id label : string) (pos : list (string * pyfloat)) (asset : option string).
Abbreviation params_of ty c := (node_param_errors builtin_registry empty_pipeline (make_node id ty pos label c asset)).

Lemma source_params a : a <> "" -> params_of "source" [("asset_id", VStr a); ("media_type", VStr "video")] = Ok [].
Proof. intros Ha. destruct a as [|x a]; [done|]. vm_compute. reflexivity. Qed.

Lemma download_params url : url <> "" -> params_of "url_download" [("url", VStr url); ("format", VStr "best")] = Ok [].
Proof. intros Ha. destruct url as [|x url]; [done|]. vm_compute. reflexivity. Qed.

Lemma trim_params start duration : start <> "" ->
  params_of "trim" [("start_time", VStr start); ("duration", VStr duration)] = Ok [].
Proof. intros Ha. destruct start as [|x start]; [done|]. vm_compute. reflexivity. Qed.

Lemma vertical_params aspect : let '(width, height) := _target_dimensions aspect in
  params_of "vertical_crop" [("mode", VStr "smart_subject"); ("width", VInt width); ("height", VInt height); ("background", VStr "blur")] = Ok [].
Proof.
  unfold _target_dimensions. destruct (aspect =? "16:9")%string; [|destruct (aspect =? "1:1")%string]; vm_compute; reflexivity.
Qed.

Lemma title_params text z : (1 <= z <= 3)%Z ->
  params_of "title_overlay" [("text", VStr text); ("position", VStr "top"); ("start_time", VInt 0); ("duration", VInt z);
    ("font_size", VInt 72); ("safe_area", VBool true)] = Ok [].
Proof.
  intros Hz. assert (z = 1 \/ z = 2 \/ z = 3)%Z as [-> | [-> | ->]] by lia; vm_compute; reflexivity.
Qed.

Lemma transcode_params :
  params_of "transcode" [("format", VStr "mp4"); ("video_codec", VStr "libx264"); ("audio_codec", VStr "aac"); ("crf", VInt 20)] = Ok [].
Proof. vm_compute. reflexivity. Qed.

Lemma export_params dir name : params_of "export" [("output_dir", VStr dir); ("filename", VStr name)] = Ok [].
Proof. vm_compute. reflexivity. Qed.

Lemma upload_params title description privacy tags : title <> "" -> privacy ∈ ["private"; "unlisted"] ->
  params_of "youtube_upload" (upload_config title description privacy tags) = Ok [].
Proof.
  intros Ht Hp. destruct title as [|x title]; [done|].
  apply elem_of_cons in Hp as [-> | ->%list_elem_of_singleton]; vm_compute; reflexivity.
Qed.
End NodeParams.

(** ** Texts are not empty *)

Lemma app_nonempty_l a b : a <> "" -> a +:+ b <> "".
Proof. by destruct a. Qed.

Lemma app_nonempty_r a b : b <> "" -> a +:+ b <> "".
Proof. by destruct a. Qed.

Lemma str_of_Z_nonempty z : str_of_Z z <> "".
Proof. destruct (str_of_Z_chars z) as [H _]. by destruct (str_of_Z z). Qed.

Lemma float_repr_nonempty f : float_repr f <> "".
Proof.
  destruct f as [[]|[]| |s m e]; [done..|]. unfold float_repr. destruct (repr_search _ _ _ _ _ _) as [c sc].
  destruct (drop_zeros _ _ _) as [c' sc']. apply app_nonempty_r. unfold format_digits. repeat case_match; try done;
    first [by apply app_nonempty_l, str_of_Z_nonempty | by apply app_nonempty_r | by do 2 apply app_nonempty_r].
Qed.

Lemma start_text_nonempty start : start_text start <> "".
Proof. unfold start_text. repeat case_match; try done. apply float_repr_nonempty. Qed.

(** ** Parameters depend on their own value *)

Lemma param_errors_ext d ty id pos label asset c c' p :
  dict_get c (param_name p) = dict_get c' (param_name p) ->
  param_errors d (make_node id ty pos label c asset) p = param_errors d (make_node id ty pos label c' asset) p.
Proof. intros H. unfold param_errors. cbn [make_node n_data d_config]. by rewrite H. Qed.

(** Only a number too large for a float raises. *)
Definition float_safe (v : pyval) : Prop :=
  match py_float v with Ok _ | Raise TypeError | Raise (ValueError _) => True | _ => False end.

Lemma param_errors_total d n p : float_safe (dict_get (d_config (n_data n)) (param_name p)) ->
  exists errs, param_errors d n p = Ok errs.
Proof.
  intros Hsafe. unfold param_errors, float_safe in *. destruct (planner_supplied d n p); [eauto|].
  destruct (_ && _); [eauto|]. destruct (_ && _); [|eauto]. destruct (py_float _) as [x|[]]; eauto; done.
Qed.

Lemma dict_get_safe (c : config) k : Forall (fun kv => float_safe kv.2) c -> float_safe (dict_get c k).
Proof.
  intros Hc. unfold dict_get. destruct (c.[? k]) as [v|] eqn:Hv; [|done]. simpl.
  induction Hc as [|[k' v'] c Hv' _ IH]; [done|]. simpl in Hv. case_decide; [by injection Hv as <-|auto].
Qed.

Lemma mapMR_total {A B} (f : A -> Res B) l : (forall x, x ∈ l -> exists y, f x = Ok y) -> exists ys, mapMR f l = Ok ys.
Proof.
  induction l as [|x l IH]; intros H; [by eexists|]. simpl. destruct (H x) as [y ->]; [by left|].
  destruct IH as [ys ->]; [intros z Hz; apply H; by right|]. by eexists.
Qed.

(** Every error about a parameter names its node and the parameter. *)
Lemma param_errors_named d n p errs err : param_errors d n p = Ok errs -> err ∈ errs ->
  ve_type err = "invalid_param" /\ ve_node_id err = Some (n_id n) /\ ve_param_name err = Some (param_name p).
Proof.
  unfold param_errors, range_errors, select_errors, on_param. intros Hok Herr.
  repeat (case_match; try discriminate); injection Hok as <-; set_solver.
Qed.

(** ** Repairing the montage *)

Definition reset_param (def : NodeTypeDefinition) (c : config) (name : string) : config :=
  match find (fun p => (param_name p =? name)%string) (params def) with
  | Some p => c.[name <- param_default p]
  | None => c
  end.

Lemma reset_get def names c k :
  dict_get (fold_left (reset_param def) names c) k
  = match find (fun p => (param_name p =? k)%string) (params def) with
    | Some p => if bool_decide (k ∈ names) then param_default p else dict_get c k
    | None => dict_get c k
    end.
Proof.
  revert c. induction names as [|name names IH]; intros c; simpl; [by destruct (find _ _)|].
  rewrite IH. unfold reset_param. destruct (decide (k = name)) as [->|Hne].
  - destruct (find _ _) as [p|]; [|done]. rewrite (bool_decide_eq_true_2 (name ∈ name :: names)) by (by left).
    case_bool_decide; [done|]. unfold dict_get. by rewrite dget_dset_eq.
  - assert (Hget : dict_get (match find (fun p => (param_name p =? name)%string) (params def) with
                            | Some p => c.[name <- param_default p] | None => c end) k = dict_get c k).
    { destruct (find (fun p => (param_name p =? name)%string) (params def)); [|done]. unfold dict_get. by rewrite dget_dset_ne. }
    rewrite Hget. destruct (find (fun p => (param_name p =? k)%string) (params def)); [|done].
    destruct (decide (k ∈ names)).
    + by rewrite !bool_decide_eq_true_2 by (done || by right).
    + rewrite !bool_decide_eq_false_2; [done| |done]. by intros [->|?]%elem_of_cons.
Qed.

Lemma update_first_app id f l n l' :
  (forall m, m ∈ l -> n_id m <> id) -> n_id n = id -> update_first id f (l ++ n :: l') = l ++ f n :: l'.
Proof.
  intros Hl Hn. induction l as [|m l IH]; simpl.
  - by rewrite (proj2 (String.eqb_eq _ _) Hn).
  - rewrite (proj2 (String.eqb_neq _ _)) by (apply Hl; by left). f_equal. apply IH. intros x Hx. apply Hl. by right.
Qed.

Section Repair.
Context (vertical : bool) (intent : AutoFlowIntent) (candidates : list AutoFlowClipCandidate) (metadata : AutoFlowMetadata).
Context (target_duration : Z) (Hseveral : several candidates = true).
Abbreviation result := (built vertical intent candidates metadata target_duration).

Lemma built_split : exists pre post, (forall m, m ∈ pre -> n_id m <> "montage_1")
  /\ forall mc, nodes (result mc) = pre ++ montage_node mc :: post.
Proof.
  eexists _, _. split; [|intros mc; unfold built; cbn [nodes]; rewrite Hseveral; reflexivity].
  intros m Hm Hid. assert (Hlow : (rank (n_id m) <= 2)%nat); [|rewrite Hid in Hlow; vm_compute in Hlow; lia].
  apply elem_of_app in Hm as [(i & c & _ & ->)%elem_imap1|Hm]; [rewrite source_rank; lia|].
  apply elem_of_app in Hm as [(i & c & _ & ->)%elem_imap1|Hm]; [vm_compute; lia|].
  destruct vertical; [|by apply elem_of_nil in Hm]. apply elem_imap1 in Hm as (i & c & _ & ->).
  rewrite vertical_id. vm_compute. lia.
Qed.

Lemma repair_montage mc err name def p :
  get_type builtin_registry "montage_assembler" = Some def ->
  ve_type err = "invalid_param" -> ve_node_id err = Some "montage_1" -> ve_param_name err = Some name ->
  name <> "" -> name <> "asset_id" -> find (fun p => (param_name p =? name)%string) (params def) = Some p ->
  exists what, repair_error builtin_registry candidates (nodes (result mc)) err
    = inl (nodes (result (reset_param def mc name)), what).
Proof.
  intros Hdef Hty Hnode Hparam Hne Hna%String.eqb_neq Hfind. unfold repair_error. rewrite Hty, Hnode, Hparam.
  assert (Hn : named (Some "montage_1") = Some "montage_1") by done.
  assert (Hp : named (Some name) = Some name) by (by destruct name).
  rewrite Hn, Hp. cbn [String.eqb Ascii.eqb Bool.eqb]. rewrite Hna.
  destruct built_split as (pre & post & Hpre & Hnodes). unfold _repair_invalid_param.
  assert (Hfirst : _node (nodes (result mc)) "montage_1" = Some (montage_node mc)).
  { rewrite Hnodes. unfold _node. clear -Hpre. induction pre as [|m pre IH]; [done|]. simpl.
    rewrite (proj2 (String.eqb_neq _ _)) by (apply Hpre; by left). apply IH. intros x Hx. apply Hpre. by right. }
  rewrite Hfirst. cbn [montage_node make_node n_type]. rewrite Hdef, Hfind. eexists. do 2 f_equal.
  rewrite !Hnodes. rewrite update_first_app by done. unfold reset_param. by rewrite Hfind.
Qed.
End Repair.

(** ** Validation of a built pipeline *)

Lemma mapMR_one {A B} (f : A -> Res (list B)) (pre : list A) a (post : list A) errs :
  (forall x, x ∈ pre -> f x = Ok []) -> (forall x, x ∈ post -> f x = Ok []) -> f a = Ok errs ->
  exists ys, mapMR f (pre ++ a :: post) = Ok ys /\ concat ys = errs.
Proof.
  intros Hpre Hpost Ha. induction pre as [|x pre IH]; simpl.
  - rewrite Ha. destruct (mapMR_nil f post Hpost) as (ys & -> & Hys). exists (errs :: ys). simpl. by rewrite Hys, app_nil_r.
  - rewrite (Hpre x) by (by left). destruct IH as (ys & -> & Hys); [intros y Hy; apply Hpre; by right|]. by exists ([] :: ys).
Qed.

(** What the plan must provide: clips, at most as many as the montage has inputs, each
    with an identifier and, where it has one, a proper address. *)
Definition buildable (candidates : list AutoFlowClipCandidate) : Prop :=
  candidates <> [] /\ (length candidates <= 12)%nat
  /\ forall c, c ∈ candidates -> cc_id c <> "" /\ cc_url c <> Some "".

Section Valid.
Context (vertical : bool) (intent : AutoFlowIntent) (candidates : list AutoFlowClipCandidate) (metadata : AutoFlowMetadata).
Context (target_duration : Z) (Hok : buildable candidates).
Abbreviation result := (built vertical intent candidates metadata target_duration).
Abbreviation montage_params mc := (node_param_errors builtin_registry empty_pipeline (montage_node mc)).

Lemma built_node_params mc n : built_node vertical intent candidates metadata target_duration mc n ->
  n = montage_node mc \/ node_param_errors builtin_registry (result mc) n = Ok [].
Proof.
  intros Hn. rewrite built_params by apply Hok. destruct Hok as (_ & _ & Hclips).
  destruct Hn as [i c Hc|i c Hc|i c Hv Hc|Hs| | | |Hu]; [right|right|right|by left|right..].
  - apply list_elem_of_lookup_2 in Hc. destruct (Hclips c Hc) as [Hid Hurl]. unfold _source_node.
    apply asset_nonempty with (c := c) in Hid.
    destruct (cc_url c) as [url|]; [destruct (bool_decide _)|]; by (apply download_params; congruence) || apply source_params.
  - apply trim_params, start_text_nonempty.
  - unfold _vertical_crop_node. pose proof (vertical_params (numbered "vertical_crop_" (Z.of_nat i + 1))
      (numbered "Vertical Crop " (Z.of_nat i + 1)) (_position 2 (Z.of_nat i + 1 - 1)) None (in_aspect_ratio intent)) as H.
    by destruct (_target_dimensions _).
  - apply title_params. lia.
  - apply transcode_params.
  - apply export_params.
  - apply upload_params; [unfold opt_or, str_or; by destruct (default "" _)|]. case_match; in_list.
Qed.

Lemma montage_several mc n : built_node vertical intent candidates metadata target_duration mc n ->
  n_type n = "montage_assembler" -> several candidates = true.
Proof.
  intros Hn. destruct Hn as [i c Hc|i c Hc|i c Hv Hc|Hs| | | |Hu]; try done.
  - unfold _source_node. repeat case_match; done.
  - unfold _vertical_crop_node. by destruct (_target_dimensions _).
Qed.

Lemma built_param_errors mc errs : montage_params mc = Ok errs ->
  exists prms, mapMR (node_param_errors builtin_registry (result mc)) (nodes (result mc)) = Ok prms
    /\ concat prms = if several candidates then errs else [].
Proof.
  intros Herrs. destruct (several candidates) eqn:Hs.
  - destruct (built_split vertical intent candidates metadata target_duration Hs) as (pre & post & Hpre & Hnodes).
    pose proof (NoDup_clip_ids vertical intent candidates metadata target_duration mc) as Hnd. rewrite Hnodes in *.
    assert (Hin : forall n, n ∈ pre ++ post -> built_node vertical intent candidates metadata target_duration mc n).
    { intros n Hn. apply elem_built_nodes. rewrite Hnodes. set_solver. }
    apply mapMR_one; [| |by rewrite built_params by apply Hok].
    + intros n Hn. destruct (built_node_params mc n) as [-> |?]; [apply Hin; set_solver|by apply Hpre in Hn|done].
    + intros n Hn. destruct (built_node_params mc n) as [-> |?]; [apply Hin; set_solver| |done].
      rewrite map_app in Hnd. apply NoDup_app in Hnd as (_ & _ & Hnd). apply NoDup_cons in Hnd as [Hnd _].
      by destruct Hnd; apply elem_map.
  - apply mapMR_nil. intros n Hn%elem_built_nodes. destruct (built_node_params mc n Hn) as [-> |?]; [|done].
    apply montage_several in Hn; [congruence | done].
Qed.

Lemma built_validates mc errs : montage_params mc = Ok errs ->
  exists r, validate_pipeline builtin_registry (result mc) = Ok r
    /\ errors r = (if several candidates then errs else [])
    /\ valid r = match errors r with [] => true | _ => false end.
Proof.
  intros (prms & Hprms & Hconcat)%built_param_errors. pose proof Hok as (Hsome & Hlen & Hclips).
  destruct (validate_checks builtin_registry (result mc) prms) as (r & Hr & Herr & Hval).
  - intros n Hn%elem_built_nodes. by eapply built_type_ok.
  - intros e He%elem_built_edges. destruct (edge_end_nodes vertical intent candidates metadata target_duration Hsome mc e He)
      as (s & t & Hs & Ht & <- & <-). split; by apply built_id.
  - by apply built_acyclic.
  - intros e He%elem_built_edges. by apply built_ports.
  - by apply built_single.
  - intros n Hn%elem_built_nodes. by apply built_required.
  - apply built_assets. intros c Hc. by apply Hclips.
  - intros n Hn%elem_built_nodes. by eapply built_type_ok.
  - done.
  - exists r. split_and!; [done | by rewrite Herr | by rewrite Hval, Herr].
Qed.
End Valid.

(** ** Build, validate, repair *)

(** The montage definition: distinct parameter names, none of them empty or [asset_id],
    and defaults that validate. *)
Definition montage_check (def : NodeTypeDefinition) : bool :=
  forallb (fun p =>
    negb (is_empty (param_name p)) && negb (param_name p =? "asset_id")%string
    && match find (fun q => (param_name q =? param_name p)%string) (params def) with
       | Some q => match param_errors empty_pipeline (montage_node [(param_name p, param_default q)]) p with
                   | Ok [] => true | _ => false end
       | None => false
       end) (params def).

Lemma montage_def : exists def, get_type builtin_registry "montage_assembler" = Some def /\ montage_check def = true.
Proof. eexists. split; [vm_compute; reflexivity|]. vm_compute. reflexivity. Qed.

Lemma montage_check_param def p : montage_check def = true -> p ∈ params def ->
  param_name p <> "" /\ param_name p <> "asset_id"
  /\ exists q, find (fun q => (param_name q =? param_name p)%string) (params def) = Some q
       /\ param_errors empty_pipeline (montage_node [(param_name p, param_default q)]) p = Ok [].
Proof.
  unfold montage_check. rewrite forallb_forall. intros H Hp. specialize (H p (proj1 (list_elem_of_In _ _) Hp)).
  apply andb_prop in H as [[He%negb_true_iff Ha%negb_true_iff%String.eqb_neq]%andb_prop H].
  split_and!; [by destruct (param_name p) | done|]. destruct (find _ _) as [q|]; [|done]. exists q. split; [done|].
  by destruct (param_errors _ _ _) as [[]|].
Qed.

Lemma montage_errors_named def mc errs : get_type builtin_registry "montage_assembler" = Some def ->
  node_param_errors builtin_registry empty_pipeline (montage_node mc) = Ok errs ->
  (forall err, err ∈ errs -> ve_type err = "invalid_param" /\ ve_node_id err = Some "montage_1"
     /\ exists p, p ∈ params def /\ ve_param_name err = Some (param_name p))
  /\ (forall p, p ∈ params def -> exists l, param_errors empty_pipeline (montage_node mc) p = Ok l /\ l ⊆ errs).
Proof.
  intros Hdef. unfold node_param_errors. cbn [montage_node make_node n_type]. rewrite Hdef.
  fold (montage_node mc). destruct (mapMR _ (params def)) as [ys|] eqn:Hm; [|done]. intros [= <-].
  apply mapMR_Forall2 in Hm. split.
  - intros err (l & Hl & Herr)%elem_of_concat. apply list_elem_of_lookup in Hl as [i Hi].
    destruct (Forall2_lookup_r _ _ _ _ _ Hm Hi) as (p & Hp & Hf).
    destruct (param_errors_named _ _ _ _ err Hf Herr) as (? & ? & ?). split_and!; [done | done|].
    exists p. split; [by eapply list_elem_of_lookup_2 | done].
  - intros p Hp. apply list_elem_of_lookup in Hp as [i Hi]. destruct (Forall2_lookup_l _ _ _ _ _ Hm Hi) as (l & Hl & Hf).
    exists l. split; [done|]. intros err Herr. apply elem_of_concat. exists l. split; [by eapply list_elem_of_lookup_2 | done].
Qed.

Definition error_names (errs : list ValidationError) : list string := omap ve_param_name errs.

(** Resetting every parameter with an error leaves none. *)
Lemma reset_valid def mc errs : get_type builtin_registry "montage_assembler" = Some def -> montage_check def = true ->
  node_param_errors builtin_registry empty_pipeline (montage_node mc) = Ok errs ->
  node_param_errors builtin_registry empty_pipeline (montage_node (fold_left (reset_param def) (error_names errs) mc)) = Ok [].
Proof.
  intros Hdef Hcheck Herrs. destruct (montage_errors_named _ _ _ Hdef Herrs) as [Hnamed Hall].
  unfold node_param_errors. cbn [montage_node make_node n_type]. rewrite Hdef.
  fold (montage_node (fold_left (reset_param def) (error_names errs) mc)).
  destruct (mapMR_nil (param_errors empty_pipeline (montage_node (fold_left (reset_param def) (error_names errs) mc))) (params def))
    as (ys & Hys & Hnil); [|unfold fmap, Res_fmap; by rewrite Hys, Hnil].
  intros p Hp. destruct (montage_check_param def p Hcheck Hp) as (_ & _ & q & Hq & Hdefault).
  pose proof (reset_get def (error_names errs) mc (param_name p)) as Hget. rewrite Hq in Hget.
  case_bool_decide as Hin.
  - rewrite <- Hdefault. apply param_errors_ext. rewrite Hget. unfold dict_get. simpl. by rewrite decide_True.
  - destruct (Hall p Hp) as (l & Hl & Hsub). etrans; [by apply (param_errors_ext _ _ _ _ _ _ _ mc)|]. fold (montage_node mc). rewrite Hl.
    destruct l as [|err l]; [done|]. exfalso. apply Hin. apply list_elem_of_omap. exists err.
    split; [apply Hsub; by left|]. by eapply param_errors_named; [done | left].
Qed.

Lemma repair_errors vertical intent candidates metadata td def errs : several candidates = true ->
  get_type builtin_registry "montage_assembler" = Some def -> montage_check def = true ->
  (forall err, err ∈ errs -> ve_type err = "invalid_param" /\ ve_node_id err = Some "montage_1"
     /\ exists p, p ∈ params def /\ ve_param_name err = Some (param_name p)) ->
  forall mc applied, exists applied',
    fold_left (repair_step builtin_registry candidates) errs (nodes (built vertical intent candidates metadata td mc), applied, [])
    = (nodes (built vertical intent candidates metadata td (fold_left (reset_param def) (error_names errs) mc)), applied', []).
Proof.
  intros Hs Hdef Hcheck. induction errs as [|err errs IH]; intros Hall mc applied; [by exists applied|].
  destruct (Hall err) as (Hty & Hnode & p & Hp & Hname); [by left|].
  destruct (montage_check_param def p Hcheck Hp) as (Hne & Hna & q & Hq & _).
  destruct (repair_montage vertical intent candidates metadata td Hs mc err _ def q Hdef Hty Hnode Hname Hne Hna Hq) as [what Hstep].
  cbn [fold_left]. unfold repair_step at 2. rewrite Hstep. unfold error_names. cbn [omap list_omap]. rewrite Hname. cbn [fold_left].
  apply IH. intros e He. apply Hall. by right.
Qed.

(** [build] with the built-in node types. *)
Lemma build_built template intent candidates metadata td : candidates <> [] -> _target_duration intent template = Ok td ->
  build builtin_registry template intent candidates metadata
  = Ok (built (_needs_vertical_crop intent template) intent candidates metadata td
          (let '(width, height) := _target_dimensions (in_aspect_ratio intent) in montage_config intent td width height metadata)).
Proof.
  intros Hne Htd. destruct candidates as [|c cs] eqn:Hc; [done|]. rewrite <- Hc in *. unfold build. rewrite Hc at 1.
  rewrite Htd. unfold mbind, Res_bind. destruct (_target_dimensions _) as [width height] eqn:Hdim.
  unfold built, several, uploads, final_clip, _assembly_node. rewrite length_imap1.
  destruct montage_def as (def & -> & _). cbn [n_id make_node]. unfold several.
  rewrite imap1_imap1. rewrite Hc. reflexivity.
Qed.

Lemma montage_config_safe intent td metadata : (exists x, float_of_int td = Ok x) ->
  Forall (fun kv => float_safe kv.2)
    (let '(width, height) := _target_dimensions (in_aspect_ratio intent) in montage_config intent td width height metadata).
Proof.
  intros [x Hx]. assert (Hstr : forall s, float_safe (VStr s)) by (intros s; unfold float_safe; simpl; by destruct (float_of_string s)).
  assert (Htd : float_safe (VInt td)) by (unfold float_safe; simpl; by rewrite Hx).
  unfold _target_dimensions. destruct (_ =? "16:9")%string; [|destruct (_ =? "1:1")%string];
    repeat (apply Forall_cons; split; [first [apply Hstr | exact Htd | by vm_compute]|]); by apply Forall_nil.
Qed.

Lemma montage_params_total mc : Forall (fun kv => float_safe kv.2) mc ->
  exists errs, node_param_errors builtin_registry empty_pipeline (montage_node mc) = Ok errs.
Proof.
  intros Hsafe. unfold node_param_errors. destruct montage_def as (def & Hdef & _). cbn [montage_node make_node n_type].
  rewrite Hdef. destruct (mapMR_total (param_errors empty_pipeline (montage_node mc)) (params def)) as [ys Hys].
  - intros p _. apply param_errors_total. by apply dict_get_safe.
  - unfold fmap, Res_fmap. fold (montage_node mc). rewrite Hys. by eexists.
Qed.

(** C31. What AutoFlow builds can be run.  For every plan with one to twelve clips that have
    identifiers and non-empty addresses, in any style, format and mode and of any
    duration a float can hold, [build] returns a pipeline and [validate_pipeline] an
    answer; if the pipeline is not valid as it is, [repair] succeeds with the reported
    errors, keeps the edges, and what it returns is valid. *)
Theorem built_pipeline_validates template intent candidates metadata td :
  buildable candidates -> _target_duration intent template = Ok td -> (exists x, float_of_int td = Ok x) ->
  exists d r, build builtin_registry template intent candidates metadata = Ok d
    /\ validate_pipeline builtin_registry d = Ok r
    /\ (valid r = false -> exists ar r', repair builtin_registry d (errors r) candidates = inl ar
          /\ edges (ar_definition ar) = edges d
          /\ validate_pipeline builtin_registry (ar_definition ar) = Ok r' /\ valid r' = true).
Proof.
  intros Hok Htd Hx. set (vertical := _needs_vertical_crop intent template).
  set (mc := let '(width, height) := _target_dimensions (in_aspect_ratio intent) in montage_config intent td width height metadata).
  destruct (montage_params_total mc (montage_config_safe intent td metadata Hx)) as [errs Herrs].
  destruct (built_validates vertical intent candidates metadata td Hok mc errs Herrs) as (r & Hr & Her & Hval).
  exists (built vertical intent candidates metadata td mc), r.
  split; [apply build_built; [apply Hok | done]|]. split; [done|]. rewrite Hval, Her.
  destruct (several candidates) eqn:Hs; [|done]. intros _.
  destruct montage_def as (def & Hdef & Hcheck). pose proof (reset_valid def mc errs Hdef Hcheck Herrs) as Hreset.
  destruct (repair_errors vertical intent candidates metadata td def errs Hs Hdef Hcheck) with (mc := mc) (applied := @nil string)
    as [applied Hfold]; [by eapply montage_errors_named|].
  destruct (built_validates vertical intent candidates metadata td Hok _ [] Hreset) as (r' & Hr' & Her' & Hval').
  unfold repair. rewrite Hfold. eexists _, r'. split; [reflexivity|]. split; [done|]. cbn [ar_definition].
  split; [exact Hr'|]. rewrite Hval', Her', Hs. done.
Qed.

(** ** More clips than inputs *)

Lemma extra_clip_error vertical intent candidates metadata td mc : (12 < length candidates)%nat ->
  exists e, e ∈ edges (built vertical intent candidates metadata td mc)
    /\ edge_port_errors builtin_registry (built vertical intent candidates metadata td mc) e = Ok [mismatch e].
Proof.
  intros Hlen. assert (Hsome : candidates <> []) by (by destruct candidates; [simpl in Hlen; lia|]).
  assert (Hs : several candidates = true) by (apply Nat.leb_le; lia).
  destruct (lookup_lt_is_Some_2 candidates 12) as [c Hc]; [lia|].
  destruct (clip_node vertical intent candidates metadata td mc 12 c Hc) as (s & Hs' & Hid & Hty).
  exists (make_edge (clip_output vertical (Z.of_nat 12 + 1)) "montage_1" (numbered "video_" (Z.of_nat 12 + 1))).
  split; [apply elem_built_edges; by eapply be_montage|]. unfold edge_port_errors.
  cbn [e_source e_target make_edge]. rewrite <- Hid, (built_lookup vertical intent candidates metadata td mc s Hs').
  change "montage_1" with (n_id (montage_node mc)) at 1.
  rewrite (built_lookup vertical intent candidates metadata td mc (montage_node mc)) by (by constructor).
  apply elem_of_cons in Hty as [Hty|Hty%list_elem_of_singleton]; cbn [n_type montage_node make_node e_targetHandle];
    unfold typed_edge_errors; rewrite Hty; vm_compute; reflexivity.
Qed.

Lemma repair_gives_up registry candidates errs : (exists err, err ∈ errs /\ ve_type err = "port_type_mismatch") ->
  forall ns applied why, exists ns' applied' w why', fold_left (repair_step registry candidates) errs (ns, applied, why) = (ns', applied', w :: why').
Proof.
  assert (Hkeep : forall errs ns applied w why, exists ns' applied' w' why',
    fold_left (repair_step registry candidates) errs (ns, applied, w :: why) = (ns', applied', w' :: why')).
  { clear errs. induction errs as [|err errs IH]; intros ns applied w why; [by do 4 eexists|]. cbn [fold_left].
    unfold repair_step at 2. destruct (repair_error _ _ _ _) as [[ns' what]|reason]; apply IH. }
  induction errs as [|err errs IH]; intros (e & He & Hty) ns applied why; [by apply elem_of_nil in He|].
  cbn [fold_left]. apply elem_of_cons in He as [->|He].
  - unfold repair_step at 2, repair_error. rewrite Hty. cbn [String.eqb Ascii.eqb Bool.eqb]. destruct why as [|w why]; apply Hkeep.
  - destruct (repair_step _ _ _ err) as [[ns1 applied1] why1]. apply IH. eauto.
Qed.

(** With a thirteenth clip the pipeline of [build] is never valid, whatever the plan, and
    cannot be repaired: the montage has twelve inputs, and the errors of the others are
    not repairable. *)
Theorem too_many_clips template intent candidates metadata d r :
  (12 < length candidates)%nat -> build builtin_registry template intent candidates metadata = Ok d ->
  validate_pipeline builtin_registry d = Ok r ->
  valid r = false /\ exists reasons, repair builtin_registry d (errors r) candidates = inr reasons.
Proof.
  intros Hlen Hbuild Hval. assert (Hsome : candidates <> []) by (by destruct candidates; [simpl in Hlen; lia|]).
  assert (Htd : exists td, _target_duration intent template = Ok td).
  { destruct candidates; [done|]. unfold build, mbind, Res_bind in Hbuild. destruct (_target_duration intent template); eauto. done. }
  destruct Htd as [td Htd]. rewrite (build_built template intent candidates metadata td Hsome Htd) in Hbuild. injection Hbuild as <-.
  destruct (extra_clip_error (_needs_vertical_crop intent template) intent candidates metadata td
    (let '(width, height) := _target_dimensions (in_aspect_ratio intent) in montage_config intent td width height metadata) Hlen)
    as (e & He & Hmis).
  destruct (validate_pipeline_inv _ _ r Hval) as (order & ports & required & prms & zips & _ & Hports & _ & _ & _ & Herr & Hv).
  assert (Hin : mismatch e ∈ errors r).
  { rewrite Herr. do 3 (apply elem_of_app; right). apply elem_of_app; left. apply elem_of_concat. exists [mismatch e].
    split; [|by left]. apply mapMR_Forall2 in Hports. apply list_elem_of_lookup in He as [i Hi].
    destruct (Forall2_lookup_l _ _ _ _ _ Hports Hi) as (l & Hl & Hf). rewrite Hmis in Hf. injection Hf as <-.
    by eapply list_elem_of_lookup_2. }
  split.
  - rewrite Hv. destruct (errors r); [by apply elem_of_nil in Hin | done].
  - unfold repair. destruct (repair_gives_up builtin_registry candidates (errors r)) with (ns := nodes (built (_needs_vertical_crop intent template)
      intent candidates metadata td (let '(width, height) := _target_dimensions (in_aspect_ratio intent) in montage_config intent td width height metadata)))
      (applied := @nil string) (why := @nil string) as (ns' & applied' & w & why' & Hfold); [eauto|].
    rewrite Hfold. by eexists.
Qed.

(** ** A plan *)

Definition cat_intent : AutoFlowIntent :=
  {| in_intent_type := "animal_compilation"; in_subject := "cats"; in_style := "cute_fast_montage"; in_duration_sec := 5000;
     in_aspect_ratio := "9:16"; in_target_platforms := []; in_source_policy := "owned_only"; in_publish_mode := "private_upload";
     in_keywords := []; in_negative_keywords := []; in_needs_voiceover := false; in_needs_subtitles := true;
     in_needs_bgm := true; in_user_confirmation_questions := [] |}.

Definition cat_metadata : AutoFlowMetadata :=
  {| am_title_candidates := []; am_selected_title := Some "Cats"; am_description := ""; am_tags := ["cat"; "kitten"];
     am_hashtags := []; am_thumbnail_text_candidates := []; am_platform_payloads := [] |}.

Definition cat_template : WorkflowTemplate :=
  {| wt_id := "animal_compilation"; wt_name := ""; wt_description := ""; wt_intent_types := []; wt_required_capabilities := [];
     wt_default_slots := [("target_duration", VInt 30)]; wt_node_blueprint := []; wt_edge_blueprint := []; wt_slot_mapping := [] |}.

Definition cat_clips (n : nat) : list AutoFlowClipCandidate := replicate n owned_clip.

Definition cat_pipeline (n : nat) : PipelineDefinition :=
  ok_or empty_pipeline (build builtin_registry cat_template cat_intent (cat_clips n) cat_metadata).

Definition cat_result (n : nat) : ValidationResult :=
  ok_or {| valid := true; errors := []; warnings := [] |} (validate_pipeline builtin_registry (cat_pipeline n)).

Lemma cat_buildable : buildable (cat_clips 3).
Proof. split_and!; [done | simpl; lia|]. intros c Hc. apply elem_of_replicate in Hc as [-> _]. done. Qed.

(** The style and the duration of this plan are not those of a montage. *)
Lemma built_pipeline_validates_witness :
  valid (cat_result 3) = false
  /\ exists ar r', repair builtin_registry (cat_pipeline 3) (errors (cat_result 3)) (cat_clips 3) = inl ar
       /\ edges (ar_definition ar) = edges (cat_pipeline 3)
       /\ validate_pipeline builtin_registry (ar_definition ar) = Ok r' /\ valid r' = true.
Proof.
  assert (Hbad : valid (cat_result 3) = false) by (vm_compute; reflexivity). split; [exact Hbad|].
  destruct (built_pipeline_validates cat_template cat_intent (cat_clips 3) cat_metadata 5000) as (d & r & Hd & Hr & Hrep).
  - exact cat_buildable.
  - exact eq_refl.
  - eexists. vm_compute. reflexivity.
  - assert (Hp : cat_pipeline 3 = d) by (unfold cat_pipeline; rewrite Hd; exact eq_refl).
    assert (Hres : cat_result 3 = r) by (unfold cat_result; rewrite Hp, Hr; exact eq_refl).
    rewrite Hres in Hbad. rewrite Hp, Hres. apply Hrep. exact Hbad.
Defined.

Lemma too_many_clips_witness :
  valid (cat_result 13) = false
  /\ exists reasons, repair builtin_registry (cat_pipeline 13) (errors (cat_result 13)) (cat_clips 13) = inr reasons.
Proof.
  apply (too_many_clips cat_template cat_intent (cat_clips 13) cat_metadata (cat_pipeline 13)).
  - simpl. lia.
  - vm_compute. reflexivity.
  - vm_compute. reflexivity.
Defined.
