(* ===== verification/Storyboard.v ===== *)
(** * Pipelines of storyboards ([autoflow/pipeline_builder.py])

    A storyboard becomes a pipeline in two ways: from one video, with a smart trim for
    each shot, or from the material library, with a source for each matched shot.
    Several clips are joined on a timeline; then come the transcode, the preview export
    and, when the plan is published, the upload.  The second builder also notes the shots
    it leaves out in the storyboard it is given, which is returned.

    Both builders put clips in front and the same nodes behind.  [finished_validates] takes
    the clips as they come: distinct nodes of two kinds, joined by edges from a source to
    the input of a trim.  Then every check of the validation passes, for up to as many
    clips as the timeline has inputs. *)

From stdpp Require Import base tactics list strings sets relations.
From Stdlib Require Import ZArith Lia SpecFloat.
From coqutil Require Import Datatypes.RecordSetters.
From S2P Require Import Prelude PyStr PyValue PyJson PyTime NodeRegistry Builtins Pipeline RightsPolicy Graph Dag Validation PipelineBuilder BuilderValid.
Import TriangleBracketNotations.

Open Scope string_scope.
Open Scope list_scope.

(** ** Schemas: the fields the builders use *)

Record ShotSpec := {
  sh_required : bool;
  sh_id : string;
  sh_search_query : string;
  sh_negative_queries : list string;
  sh_must_not_have : list string;
  sh_target_duration : pyfloat;
  sh_min_duration : pyfloat;
  sh_max_duration : pyfloat;
  sh_matched_asset_id : option string;
  sh_match_status : string }.

Record StoryboardPlan := {
  sb_title : string;
  sb_aspect_ratio : string;
  sb_total_duration : pyfloat;
  sb_shots : list ShotSpec;
  sb_description : string;
  sb_tags : list string;
  sb_warnings : list string;
  sb_extra : config }.

(** ** Numbers *)

Definition fabs (f : pyfloat) : pyfloat := SFabs f.

(** [sum] of floats, with the compensation of Python 3.12. *)
Definition sum_step (acc : pyfloat * pyfloat) (x : pyfloat) : pyfloat * pyfloat :=
  let '(total, c) := acc in
  let t := fadd total x in
  (t, fadd c (if fleb (fabs x) (fabs total) then fadd (fsub total t) x else fadd (fsub x t) total)).

Definition fsum (l : list pyfloat) : pyval :=
  match l with
  | [] => VInt 0
  | x :: l' =>
      let '(total, c) := fold_left sum_step l' (fadd (float_of_Z 0) x, float_of_Z 0) in
      VFloat (match c with S754_finite _ _ _ => fadd total c | _ => total end)
  end.

(** [round(x, 3)]: the exact value rounded to thousandths, ties to even. *)
Definition round3 (v : pyval) : pyval :=
  match v with
  | VFloat (S754_finite s m e) =>
      let c := if (0 <=? e)%Z then (1000 * (Zpos m * 2 ^ e))%Z else round_half_even (1000 * Zpos m) (2 ^ (- e)) in
      VFloat (float_of_dec s c (-3))
  | _ => v
  end.

Example round3_prints :
  map (fun z => round3 (VFloat (fdiv (float_of_Z z) (float_of_Z 3)))) [1; 2; 12]%Z
  = [VFloat (float_of_dec false 333 (-3)); VFloat (float_of_dec false 667 (-3)); VFloat (float_of_Z 4)].
Proof. vm_compute. reflexivity. Qed.

(** ** Texts *)

Definition storyboard_title (metadata : option AutoFlowMetadata) (sb : StoryboardPlan) : string :=
  opt_or (m ← metadata; am_selected_title m) (str_or (sb_title sb) "Storyboard Preview").

(** ** The end of the pipeline *)

Definition assembly_config (input_count : nat) (target_duration : pyval) (aspect_ratio : string) : config :=
  let '(width, height) := _target_dimensions aspect_ratio in
  [("input_count", VInt (Z.of_nat input_count)); ("output_format", VStr "mp4"); ("transition", VStr "none");
   ("transition_duration", VInt 0); ("target_duration", target_duration); ("normalize_resolution", VBool true);
   ("width", VInt width); ("height", VInt height)].

Definition timeline_node (input_count : nat) (target_duration : pyval) (aspect_ratio : string) : PipelineNode :=
  make_node "concat_timeline_1" "concat_timeline" (_position 3 0) "Storyboard Assembly"
    (assembly_config input_count target_duration aspect_ratio) None.

(** The nodes and edges added, and the identifier of the output; [input_node_ids[0]] raises
    when there is none. *)
Definition _append_storyboard_assembly (input_node_ids : list string) (sb : StoryboardPlan) (target_duration : option pyval)
    : Res (list PipelineNode * list PipelineEdge * string) :=
  match input_node_ids with
  | [] => Raise IndexError
  | [id] => Ok ([], [], id)
  | _ =>
      let duration := default (VFloat (sb_total_duration sb)) target_duration in
      Ok ([timeline_node (length input_node_ids) duration (sb_aspect_ratio sb)],
          imap1 (fun i source => make_edge source "concat_timeline_1" (numbered "video_" i)) input_node_ids,
          "concat_timeline_1")
  end.

Definition _append_storyboard_output (input_node_id : string) (sb : StoryboardPlan) (metadata : option AutoFlowMetadata)
    : list PipelineNode * list PipelineEdge :=
  ([transcode_node 4; export_node 5 (Some (storyboard_title metadata sb))],
   [make_edge input_node_id "transcode_1" "input"; make_edge "transcode_1" "export_1" "input"]).

Definition storyboard_upload_node (sb : StoryboardPlan) (metadata : option AutoFlowMetadata) (publish_mode : string) : PipelineNode :=
  make_node "youtube_upload_1" "youtube_upload" (_position 6 0) "YouTube Upload"
    (upload_config (storyboard_title metadata sb) (opt_or (am_description <$> metadata) (sb_description sb))
       (if (publish_mode =? "unlisted_upload")%string then "unlisted" else "private")
       (match metadata with Some m => am_tags m | None => sb_tags sb end)) None.

Definition _append_storyboard_upload (sb : StoryboardPlan) (metadata : option AutoFlowMetadata) (publish_mode : string)
    : list PipelineNode * list PipelineEdge :=
  if bool_decide (publish_mode ∈ UPLOAD_MODES)
  then ([storyboard_upload_node sb metadata publish_mode], [make_edge "transcode_1" "youtube_upload_1" "input"])
  else ([], []).

(** The clips, then the rest. *)
Definition finish_storyboard (clips : list PipelineNode) (clip_edges : list PipelineEdge) (input_node_ids : list string)
    (sb : StoryboardPlan) (metadata : option AutoFlowMetadata) (publish_mode : string) (target_duration : option pyval)
    : Res PipelineDefinition :=
  assembly ← _append_storyboard_assembly input_node_ids sb target_duration;
  let '(assembly_nodes, assembly_edges, assembly_output) := assembly in
  let '(output_nodes, output_edges) := _append_storyboard_output assembly_output sb metadata in
  let '(upload_nodes, upload_edges) := _append_storyboard_upload sb metadata publish_mode in
  Ok {| nodes := clips ++ assembly_nodes ++ output_nodes ++ upload_nodes;
        edges := clip_edges ++ assembly_edges ++ output_edges ++ upload_edges; viewport := default_viewport |}.

(** ** From one video *)

Definition input_node (input_asset_id : string) : PipelineNode :=
  make_node "source_1" "source" (_position 0 0) "Storyboard Source"
    [("asset_id", VStr input_asset_id); ("media_type", VStr "video")] (Some input_asset_id).

Definition shot_config (publish_mode : string) (shot : ShotSpec) : config :=
  [("prompt", VStr (sh_search_query shot));
   ("negative_prompt", VStr (join ", " (sh_negative_queries shot ++ sh_must_not_have shot)));
   ("mode", VStr "best_clip"); ("target_duration", VFloat (sh_target_duration shot));
   ("min_clip_duration", VFloat (sh_min_duration shot)); ("max_clip_duration", VFloat (sh_max_duration shot));
   ("max_clips", VInt 1); ("sample_fps", VInt 1); ("match_threshold", VFloat (float_of_dec false 35 (-2)));
   ("return_full_threshold", VFloat (float_of_dec false 65 (-2))); ("padding_before", VFloat (float_of_dec false 5 (-1)));
   ("padding_after", VFloat (float_of_dec false 5 (-1))); ("merge_gap", VFloat (float_of_dec false 10 (-1)));
   ("use_visual", VBool true); ("use_asr", VBool true); ("use_vlm_verify", VBool false); ("language", VStr "zh");
   ("output_format", VStr "mp4");
   ("no_match_policy", VStr (if (publish_mode =? "preview_only")%string then "placeholder" else "fail"));
   ("storyboard_shot_id", VStr (sh_id shot))].

Definition shot_node (publish_mode : string) (index : Z) (shot : ShotSpec) : PipelineNode :=
  make_node (numbered "smart_trim_" index) "smart_trim" (_position 1 (index - 1)) ("Smart Trim " +:+ sh_id shot)
    (shot_config publish_mode shot) None.

Definition build_storyboard_input_video (sb : StoryboardPlan) (input_asset_id : string) (metadata : option AutoFlowMetadata)
    (publish_mode : string) : Res PipelineDefinition :=
  finish_storyboard (input_node input_asset_id :: imap1 (shot_node publish_mode) (sb_shots sb))
    (imap1 (fun i _ => make_edge "source_1" (numbered "smart_trim_" i) "input") (sb_shots sb))
    (imap1 (fun i _ => numbered "smart_trim_" i) (sb_shots sb)) sb metadata publish_mode None.

(** ** From the material library *)

Definition matched (shot : ShotSpec) : bool :=
  (sh_match_status shot =? "matched")%string && negb (is_empty (default "" (sh_matched_asset_id shot))).

Definition OMITTED_PREFIX : string := "omitted_storyboard_shots:".

Definition matched_node (index : Z) (shot : ShotSpec) : PipelineNode :=
  let asset_id := default "" (sh_matched_asset_id shot) in
  make_node (numbered "source_" index) "source" (_position 0 (index - 1)) ("Matched " +:+ sh_id shot)
    [("asset_id", VStr asset_id); ("media_type", VStr "video")] (Some asset_id).

Definition matched_shots (sb : StoryboardPlan) : list ShotSpec := List.filter matched (sb_shots sb).
Definition omitted_shots (sb : StoryboardPlan) : list ShotSpec := List.filter (fun s => negb (matched s)) (sb_shots sb).
Definition missing_required (sb : StoryboardPlan) : list string := map sh_id (List.filter sh_required (omitted_shots sb)).
Definition effective_duration (sb : StoryboardPlan) : pyval := round3 (fsum (map sh_target_duration (matched_shots sb))).

(** What the builder notes in the storyboard. *)
Definition noted (sb : StoryboardPlan) : StoryboardPlan :=
  let omitted := map sh_id (omitted_shots sb) in
  sb <| sb_extra := (sb_extra sb).["omitted_shot_ids" <- VList (map VStr omitted)]
                      .["missing_required_shot_ids" <- VList (map VStr (missing_required sb))]
                      .["effective_duration" <- effective_duration sb] |>
     <| sb_warnings := List.filter (fun w => negb (startswith w OMITTED_PREFIX)) (sb_warnings sb)
                       ++ (match omitted with [] => [] | _ => [OMITTED_PREFIX +:+ " " +:+ join ", " omitted] end) |>.

(** The storyboard is changed whether or not the builder returns. *)
Definition build_storyboard_material_library (sb : StoryboardPlan) (metadata : option AutoFlowMetadata) (publish_mode : string)
    : StoryboardPlan * Res PipelineDefinition :=
  let sb' := noted sb in
  let missing := missing_required sb in
  (sb',
   if negb (publish_mode =? "preview_only")%string && (0 <? length missing)%nat
   then Raise (ValueError ("missing_required_shots: " +:+ join ", " missing))
   else
     match matched_shots sb with
     | [] => Ok {| nodes := []; edges := []; viewport := default_viewport |}
     | shots => finish_storyboard (imap1 matched_node shots) [] (imap1 (fun i _ => numbered "source_" i) shots) sb' metadata
                  publish_mode (Some (effective_duration sb))
     end).

(** ** Timeline inputs *)

(** The name of an input is read back; there are 64 of them. *)
Definition timeline_input (i : Z) : bool :=
  match _dynamic_video_input_index "concat_timeline" (numbered "video_" i),
        _dynamic_video_input_limit_error "concat_timeline" (numbered "video_" i) with
  | Ok (Some j), Ok None => (j =? i)%Z && (_canonical_target_handle "concat_timeline" (numbered "video_" i) =? numbered "video_" i)%string
  | _, _ => false
  end.

Lemma timeline_inputs i : (1 <= i <= 64)%Z ->
  _dynamic_video_input_index "concat_timeline" (numbered "video_" i) = Ok (Some i)
  /\ _dynamic_video_input_limit_error "concat_timeline" (numbered "video_" i) = Ok None
  /\ _canonical_target_handle "concat_timeline" (numbered "video_" i) = numbered "video_" i.
Proof.
  intros Hi. assert (forallb timeline_input (range 1 65) = true) as Hall by (vm_compute; reflexivity).
  rewrite forallb_forall in Hall. specialize (Hall i ltac:(apply list_elem_of_In, elem_of_range; lia)).
  unfold timeline_input in Hall. destruct (_dynamic_video_input_index _ _) as [[j|]|]; try done.
  destruct (_dynamic_video_input_limit_error _ _) as [[?|]|]; try done.
  apply andb_prop in Hall as [->%Z.eqb_eq Hc%String.eqb_eq]. done.
Qed.

(** ** Clips and what follows them *)

Definition place (id : string) : nat :=
  let p := stake 3 id in
  if (p =? "sou")%string then 0
  else if (p =? "sma")%string then 1
  else if (p =? "con")%string then 2
  else if (p =? "tra")%string then 3
  else 4.

Record clips_ok (clips : list PipelineNode) (links : list PipelineEdge) (inputs : list string) : Prop := {
  co_ids : NoDup (map n_id clips);
  co_place : forall n, n ∈ clips -> (place (n_id n) <= 1)%nat;
  co_kind : forall n, n ∈ clips ->
    (n_type n = "source" /\ _infer_actual_output_port_type n = Some VIDEO) \/ n_type n = "smart_trim";
  co_params : forall n, n ∈ clips -> node_param_errors builtin_registry empty_pipeline n = Ok [];
  co_assets : missing_asset_errors {| nodes := clips; edges := []; viewport := [] |} = [];
  co_links : forall e, e ∈ links -> exists s t, s ∈ clips /\ t ∈ clips /\ n_id s = e_source e /\ n_id t = e_target e
    /\ n_type s = "source" /\ n_type t = "smart_trim" /\ (place (n_id s) < place (n_id t))%nat
    /\ e_sourceHandle e = "output" /\ e_targetHandle e = "input";
  co_single : NoDup (map e_target links);
  co_linked : forall n, n ∈ clips -> n_type n = "smart_trim" -> exists e, e ∈ links /\ e_target e = n_id n;
  co_inputs : NoDup inputs /\ (1 <= length inputs <= 64)%nat /\ forall id, id ∈ inputs -> id ∈ map n_id clips }.

Section Finished.
Context (clips : list PipelineNode) (links : list PipelineEdge) (inputs : list string).
Context (sb : StoryboardPlan) (metadata : option AutoFlowMetadata) (mode : string) (duration : option pyval).
Context (Hok : clips_ok clips links inputs).

Definition joined : bool := (2 <=? length inputs)%nat.
Definition published : bool := bool_decide (mode ∈ UPLOAD_MODES).
Definition timeline : PipelineNode :=
  timeline_node (length inputs) (default (VFloat (sb_total_duration sb)) duration) (sb_aspect_ratio sb).
Definition tail_input : string := if joined then "concat_timeline_1" else default "" (head inputs).

Definition finished : PipelineDefinition :=
  {| nodes := clips ++ (if joined then [timeline] else [])
              ++ [transcode_node 4; export_node 5 (Some (storyboard_title metadata sb))]
              ++ (if published then [storyboard_upload_node sb metadata mode] else []);
     edges := links ++ (if joined then imap1 (fun i source => make_edge source "concat_timeline_1" (numbered "video_" i)) inputs else [])
              ++ [make_edge tail_input "transcode_1" "input"; make_edge "transcode_1" "export_1" "input"]
              ++ (if published then [make_edge "transcode_1" "youtube_upload_1" "input"] else []);
     viewport := default_viewport |}.

Lemma finish_finished : finish_storyboard clips links inputs sb metadata mode duration = Ok finished.
Proof.
  pose proof Hok as [_ _ _ _ _ _ _ _ (_ & Hlen & _)]. unfold finish_storyboard, _append_storyboard_assembly, finished, joined, tail_input, joined, published, timeline, _append_storyboard_upload.
  destruct inputs as [|a [|b l]]; [simpl in Hlen; lia| |]; cbn [mbind Res_bind length Nat.leb _append_storyboard_output];
    by destruct (bool_decide _).
Qed.

Inductive finished_node : PipelineNode -> Prop :=
| fn_clip n : n ∈ clips -> finished_node n
| fn_timeline : joined = true -> finished_node timeline
| fn_transcode : finished_node (transcode_node 4)
| fn_export : finished_node (export_node 5 (Some (storyboard_title metadata sb)))
| fn_upload : published = true -> finished_node (storyboard_upload_node sb metadata mode).

Lemma elem_nodes n : n ∈ nodes finished <-> finished_node n.
Proof.
  unfold finished. cbn [nodes]. rewrite !elem_of_app. split.
  - intros [H|[H|[H|H]]]; [by constructor| | |].
    + destruct joined eqn:Hj; [|by apply elem_of_nil in H]. apply list_elem_of_singleton in H as ->. by constructor.
    + apply elem_of_cons in H as [->|[->|?%elem_of_nil]%elem_of_cons]; by try constructor.
    + destruct published eqn:Hp; [|by apply elem_of_nil in H]. apply list_elem_of_singleton in H as ->. by constructor.
  - intros [m Hm|Hj| | |Hp]; [by left|right; left; rewrite Hj; by left|right; right; left; by left|right; right; left; by right; left|].
    right; right; right. rewrite Hp. by left.
Qed.

Inductive finished_edge : PipelineEdge -> Prop :=
| fe_link e : e ∈ links -> finished_edge e
| fe_join i source : joined = true -> inputs !! i = Some source ->
    finished_edge (make_edge source "concat_timeline_1" (numbered "video_" (Z.of_nat i + 1)))
| fe_transcode : finished_edge (make_edge tail_input "transcode_1" "input")
| fe_export : finished_edge (make_edge "transcode_1" "export_1" "input")
| fe_upload : published = true -> finished_edge (make_edge "transcode_1" "youtube_upload_1" "input").

Lemma elem_edges e : e ∈ edges finished <-> finished_edge e.
Proof.
  unfold finished. cbn [edges]. rewrite !elem_of_app. split.
  - intros [H|[H|[H|H]]]; [by constructor| | |].
    + destruct joined eqn:Hj; [|by apply elem_of_nil in H]. apply elem_imap1 in H as (i & a & Ha & ->). by constructor.
    + apply elem_of_cons in H as [->|[->|?%elem_of_nil]%elem_of_cons]; by try constructor.
    + destruct published eqn:Hp; [|by apply elem_of_nil in H]. apply list_elem_of_singleton in H as ->. by constructor.
  - intros [e' He|i a Hj Ha| | |Hp]; [by left| |right; right; left; by left|right; right; left; by right; left|].
    + right; left. rewrite Hj. apply elem_imap1. eauto.
    + right; right; right. rewrite Hp. by left.
Qed.

Lemma NoDup_ids : NoDup (map n_id (nodes finished)).
Proof.
  pose proof Hok as [Hids Hplace _ _ _ _ _ _ _]. unfold finished. cbn [nodes]. rewrite !map_app. apply NoDup_app. split_and!; [done| |].
  - intros x (n & -> & Hn)%list_elem_of_fmap Hx. pose proof (Hplace n Hn) as Hp.
    destruct joined, published; simpl in Hx; repeat (apply elem_of_cons in Hx as [He|Hx]; [rewrite He in Hp; vm_compute in Hp; lia|]); by apply elem_of_nil in Hx.
  - destruct joined, published; apply (bool_decide_eq_true_1 _); vm_compute; reflexivity.
Qed.

Lemma finished_lookup n : finished_node n -> (nodes_by_id finished).[? n_id n] = Some n.
Proof. intros Hn. apply nodes_by_id_lookup; [apply NoDup_ids|by apply elem_nodes]. Qed.
Lemma finished_id n : finished_node n -> n_id n ∈ node_ids finished.
Proof. intros Hn. apply elem_of_dkeys. eexists. by apply finished_lookup. Qed.

Lemma clip_of id : id ∈ inputs -> exists n, n ∈ clips /\ n_id n = id.
Proof. intros Hid. pose proof Hok as [_ _ _ _ _ _ _ _ (_ & _ & Hin)]. apply Hin in Hid. apply list_elem_of_fmap in Hid as (n & -> & Hn). eauto. Qed.

Lemma tail_node : exists n, finished_node n /\ n_id n = tail_input /\ (place tail_input <= 2)%nat
  /\ ((n ∈ clips) \/ n_type n = "concat_timeline").
Proof.
  unfold tail_input. destruct joined eqn:Hj; [exists timeline; split_and!; [by constructor|done|by vm_compute; lia|by right]|].
  pose proof Hok as [_ Hplace _ _ _ _ _ _ (_ & Hlen & _)].
  assert (exists a, head inputs = Some a /\ a ∈ inputs) as (a & Ha & Hin).
  { clear -Hlen. destruct inputs as [|a l]; [simpl in Hlen; lia|]. exists a. split; [done|by left]. }
  destruct (clip_of a Hin) as (n & Hn & Hid). exists n. rewrite Ha. cbn [default]. rewrite <- Hid. pose proof (Hplace n Hn).
  split_and!; [by constructor|done|unfold id; lia|by left].
Qed.

(** *** Ends of edges *)

(** What the two ends of an edge are, with the places of the nodes rising. *)
Inductive ends : PipelineEdge -> PipelineNode -> PipelineNode -> Prop :=
| en_link e s t : s ∈ clips -> n_type s = "source" -> n_type t = "smart_trim" -> e_targetHandle e = "input" -> ends e s t
| en_join i source s : joined = true -> inputs !! i = Some source -> s ∈ clips ->
    ends (make_edge source "concat_timeline_1" (numbered "video_" (Z.of_nat i + 1))) s timeline
| en_transcode s : s ∈ clips \/ n_type s = "concat_timeline" -> ends (make_edge tail_input "transcode_1" "input") s (transcode_node 4)
| en_export : ends (make_edge "transcode_1" "export_1" "input") (transcode_node 4) (export_node 5 (Some (storyboard_title metadata sb)))
| en_upload : ends (make_edge "transcode_1" "youtube_upload_1" "input") (transcode_node 4) (storyboard_upload_node sb metadata mode).

Lemma edge_ends_of e : finished_edge e -> exists s t, finished_node s /\ finished_node t /\ n_id s = e_source e /\ n_id t = e_target e
  /\ (place (e_source e) < place (e_target e))%nat /\ e_sourceHandle e = "output" /\ ends e s t.
Proof.
  pose proof Hok as [_ Hplace _ _ _ Hlinks _ _ _]. intros [e' He|i a Hj Ha| | |Hp].
  - destruct (Hlinks e' He) as (s & t & Hs & Ht & Hsid & Htid & Hst & Htt & Hlt & Hout & Hin). exists s, t.
    rewrite <- Hsid, <- Htid. split_and!; try done; [by constructor..|by constructor].
  - destruct (clip_of a) as (n & Hn & Hid); [by eapply list_elem_of_lookup_2|]. exists n, timeline. pose proof (Hplace n Hn) as Hp.
    cbn [e_source e_target make_edge]. rewrite <- Hid. change (place "concat_timeline_1") with 2%nat.
    split_and!; try done; [by constructor..|lia|]. rewrite Hid. by constructor.
  - destruct tail_node as (n & Hn & Hid & Hp & Hk). exists n, (transcode_node 4). cbn [e_source e_target make_edge].
    change (place "transcode_1") with 3%nat. split_and!; try done; [apply fn_transcode|lia|by constructor].
  - exists (transcode_node 4), (export_node 5 (Some (storyboard_title metadata sb))). split_and!; try done; [apply fn_transcode|apply fn_export|vm_compute; lia|apply en_export].
  - exists (transcode_node 4), (storyboard_upload_node sb metadata mode). split_and!; try done; [apply fn_transcode|by apply fn_upload|vm_compute; lia|apply en_upload].
Qed.

Lemma finished_acyclic : acyclic (graph_edge finished).
Proof.
  assert (H : forall u v, tc (graph_edge finished) u v -> (place u < place v)%nat).
  { intros u v Huv. induction Huv as [u v (e & He & <- & <- & _)|u v w (e & He & <- & <- & _) _ IH];
      apply elem_edges, edge_ends_of in He as (s & t & _ & _ & _ & _ & ? & _); lia. }
  intros u Hu%H. lia.
Qed.

(** *** Ports *)

Lemma clip_video n : n ∈ clips -> _validate_dynamic_video_input_edge builtin_registry (n_type n) "output" n = true.
Proof.
  intros Hn. pose proof Hok as [_ _ Hkind _ _ _ _ _ _]. unfold _validate_dynamic_video_input_edge.
  destruct (Hkind n Hn) as [[Ht Hi]|Ht].
  - rewrite Ht, Hi. vm_compute. reflexivity.
  - unfold _infer_actual_output_port_type. rewrite Ht. vm_compute. reflexivity.
Qed.

Lemma static_port e s t : (nodes_by_id finished).[? e_source e] = Some s -> (nodes_by_id finished).[? e_target e] = Some t ->
  is_dynamic (n_type t) = false ->
  is_search_node_type (n_type s) || (n_type t =? "zip_records")%string || (n_type s =? "zip_records")%string = false ->
  validate_edge builtin_registry (n_type s) (e_sourceHandle e) (n_type t) (e_targetHandle e) = true ->
  actual_type_errors builtin_registry s t e = [] -> edge_port_errors builtin_registry finished e = Ok [].
Proof.
  intros Hs Ht Hdyn Hplan Hval Hact. unfold edge_port_errors. rewrite Hs, Ht.
  unfold _dynamic_video_input_limit_error, _dynamic_video_input_index. rewrite Hdyn. simpl. rewrite Hplan.
  unfold typed_edge_errors. by rewrite Hval, Hact.
Qed.

(** An edge into an input called [input]. *)
Lemma plain_port e s t : (nodes_by_id finished).[? e_source e] = Some s -> (nodes_by_id finished).[? e_target e] = Some t ->
  e_sourceHandle e = "output" -> e_targetHandle e = "input" ->
  (n_type s, n_type t) ∈ [("source", "smart_trim"); ("source", "transcode"); ("smart_trim", "transcode"); ("concat_timeline", "transcode");
                          ("transcode", "export"); ("transcode", "youtube_upload")] ->
  (n_type s = "source" -> _infer_actual_output_port_type s = Some VIDEO) -> edge_port_errors builtin_registry finished e = Ok [].
Proof.
  intros Hs Ht Hout Hin Hty Hsrc.
  assert (Hact : _infer_actual_output_port_type s = if (n_type s =? "source")%string then Some VIDEO else None).
  { destruct (String.eqb_spec (n_type s) "source") as [He|Hne]; [by apply Hsrc|]. unfold _infer_actual_output_port_type.
    rewrite (proj2 (String.eqb_neq _ _) Hne). rewrite (proj2 (String.eqb_neq (n_type s) "url_download")); [done|]. intros He. rewrite He in Hty.
    rewrite !elem_of_cons, elem_of_nil in Hty. naive_solver. }
  apply (static_port e s t Hs Ht); unfold actual_type_errors; rewrite ?Hact, ?Hout, ?Hin; clear Hs Ht Hsrc Hact Hout Hin.
  all: rewrite !elem_of_cons, elem_of_nil in Hty; destruct Hty as [[= H1 H2]|[[= H1 H2]|[[= H1 H2]|[[= H1 H2]|[[= H1 H2]|[[= H1 H2]|[]]]]]]];
    rewrite ?H1, ?H2; vm_compute; reflexivity.
Qed.

Lemma finished_ports e : finished_edge e -> edge_port_errors builtin_registry finished e = Ok [].
Proof.
  intros He. pose proof Hok as [_ _ Hkind _ _ _ _ _ (_ & Hlen & _)].
  destruct (edge_ends_of e He) as (s & t & Hs & Ht & Hsid & Htid & _ & Hout & Hends).
  pose proof (finished_lookup s Hs) as Ls. pose proof (finished_lookup t Ht) as Lt. rewrite Hsid in Ls. rewrite Htid in Lt.
  assert (Hclip : s ∈ clips -> n_type s = "source" -> _infer_actual_output_port_type s = Some VIDEO).
  { intros Hc Hty. destruct (Hkind s Hc) as [[_ ?]|Hty']; [done|congruence]. }
  destruct Hends as [e s t Hc Hst Htt Hin|i source s Hj Ha Hc|s Hk| |].
  - apply (plain_port e s t); try done; [rewrite Hst, Htt; in_list|by auto].
  - unfold edge_port_errors. rewrite Ls, Lt. cbn [e_targetHandle make_edge e_sourceHandle].
    change (n_type timeline) with "concat_timeline". apply lookup_lt_Some in Ha.
    destruct (timeline_inputs (Z.of_nat i + 1)) as (-> & -> & _); [lia|]. by rewrite clip_video.
  - apply (plain_port _ s (transcode_node 4)); try done.
    + change (n_type (transcode_node 4)) with "transcode". destruct Hk as [Hc|Hty]; [destruct (Hkind s Hc) as [[Hty _]|Hty]|]; rewrite Hty; in_list.
    + intros Hty. destruct Hk as [Hc|Hty']; [by apply Hclip|congruence].
  - eapply plain_port; try done. in_list.
  - eapply plain_port; try done. in_list.
Qed.

(** *** Inputs *)

Definition FINISHED_TYPES : list string := ["source"; "smart_trim"; "concat_timeline"; "transcode"; "export"; "youtube_upload"].

Lemma finished_type n : finished_node n -> n_type n ∈ FINISHED_TYPES.
Proof.
  pose proof Hok as [_ _ Hkind _ _ _ _ _ _]. unfold FINISHED_TYPES. intros [m Hm|Hj| | |Hp]; cbn [n_type]; try in_list.
  destruct (Hkind m Hm) as [[-> _]| ->]; in_list.
Qed.

Lemma finished_type_ok n : finished_node n -> is_Some (get_type builtin_registry (n_type n)) /\ n_type n <> "zip_records"
  /\ (n_type n <> "concat_timeline" -> is_dynamic (n_type n) = false).
Proof.
  intros Hn%finished_type. assert (H : forallb (fun ty => bool_decide (is_Some (get_type builtin_registry ty)) && negb (ty =? "zip_records")%string
    && ((ty =? "concat_timeline")%string || negb (is_dynamic ty))) FINISHED_TYPES = true) by (vm_compute; reflexivity).
  rewrite forallb_forall in H. specialize (H _ (proj1 (list_elem_of_In _ _) Hn)).
  apply andb_prop in H as [[H1%bool_decide_eq_true H2%negb_true_iff%String.eqb_neq]%andb_prop H3]. split_and!; [done..|].
  intros Hne%String.eqb_neq. rewrite Hne in H3. by apply negb_true_iff.
Qed.

Lemma finished_handle e : finished_edge e -> edge_target_handle finished e = e_targetHandle e.
Proof.
  intros He. pose proof Hok as [_ _ _ _ _ _ _ _ (_ & Hlen & _)].
  destruct (edge_ends_of e He) as (s & t & _ & Ht & _ & Htid & _ & _ & Hends). unfold edge_target_handle.
  rewrite <- Htid, (finished_lookup t Ht). destruct Hends as [e s t Hc Hst Htt Hin|i source s Hj Ha Hc|s Hk| |]; try reflexivity.
  - apply canonical_static. rewrite Htt. reflexivity.
  - apply lookup_lt_Some in Ha. apply timeline_inputs. lia.
Qed.

Lemma finished_single : NoDup (map (fun e => (e_target e, edge_target_handle finished e)) (edges finished)).
Proof.
  pose proof Hok as [_ Hplace _ _ _ Hlinks Hsingle _ _].
  assert (Heq : map (fun e => (e_target e, edge_target_handle finished e)) (edges finished)
                = map (fun e => (e_target e, e_targetHandle e)) (edges finished)).
  { apply map_ext_in. intros e He. by rewrite (finished_handle e) by (apply elem_edges, list_elem_of_In, He). }
  rewrite Heq. unfold finished. cbn [edges]. rewrite map_app. apply NoDup_app. split_and!.
  - apply (NoDup_fmap_1 fst). change (NoDup (map fst (map (fun e => (e_target e, e_targetHandle e)) links))). by rewrite map_map.
  - intros x (e & -> & He)%list_elem_of_fmap Hy. destruct (Hlinks e He) as (_ & t & _ & Ht & _ & Htid & _). pose proof (Hplace t Ht) as Hp. rewrite Htid in Hp.
    rewrite map_app in Hy. apply elem_of_app in Hy as [Hy|Hy].
    + destruct joined; [|by apply elem_of_nil in Hy]. rewrite map_imap1 in Hy. apply elem_imap1 in Hy as (j & a & _ & [= Ht' _]).
      rewrite Ht' in Hp. vm_compute in Hp. lia.
    + destruct published; simpl in Hy; repeat (apply elem_of_cons in Hy as [[= Ht' _]|Hy]; [rewrite Ht' in Hp; vm_compute in Hp; lia|]);
        by apply elem_of_nil in Hy.
  - rewrite map_app. apply NoDup_app. split_and!.
    + destruct joined; [|apply NoDup_nil_2]. rewrite map_imap1. apply NoDup_imap1. intros i j a b _ _ H%(f_equal snd)%numbered_inj. lia.
    + intros x Hx Hy. destruct joined; [|by apply elem_of_nil in Hx]. rewrite map_imap1 in Hx. apply elem_imap1 in Hx as (j & a & _ & ->).
      destruct published; simpl in Hy; repeat (apply elem_of_cons in Hy as [[=]|Hy]); by apply elem_of_nil in Hy.
    + destruct published; apply (bool_decide_eq_true_1 _); vm_compute; reflexivity.
Qed.

(** The timeline has its inputs, two at least. *)
Lemma timeline_required : joined = true ->
  required_input_errors builtin_registry finished (connected_inputs finished).1 timeline = Ok [].
Proof.
  intros Hj. pose proof Hok as [_ _ _ _ _ _ _ _ (_ & Hlen & _)]. unfold required_input_errors.
  destruct (get_type builtin_registry (n_type timeline)) as [def|]; [|done]. change (is_dynamic (n_type timeline)) with true. cbv beta iota.
  unfold connected_dynamic_inputs. set (f := fun e : PipelineEdge => _).
  assert (Hf : forall e, finished_edge e -> f e = Ok (if (e_target e =? "concat_timeline_1")%string then [e_targetHandle e] else [])).
  { intros e He. unfold f. change (n_id timeline) with "concat_timeline_1". change (n_type timeline) with "concat_timeline".
    destruct (String.eqb_spec (e_target e) "concat_timeline_1") as [Ht|]; [|done].
    destruct (edge_ends_of e He) as (s & t & _ & Hn & _ & Htid & _ & _ & Hends).
    destruct Hends as [e s t Hc Hst Htt Hin|i source s _ Ha Hc|s Hk| |]; try discriminate Ht.
    - rewrite Ht in Htid. pose proof (finished_lookup t Hn) as L1. rewrite Htid in L1.
      pose proof (finished_lookup timeline (fn_timeline Hj)) as L2. change (n_id timeline) with "concat_timeline_1" in L2.
      rewrite L1 in L2. injection L2 as ->. discriminate Htt.
    - cbn [e_targetHandle make_edge]. apply lookup_lt_Some in Ha. by destruct (timeline_inputs (Z.of_nat i + 1)) as (-> & _ & ->); [lia|]. }
  destruct (mapMR_total f (edges finished)) as [hs Hhs]; [intros e He%elem_edges; rewrite Hf by done; by eexists|]. rewrite Hhs.
  apply mapMR_Forall2 in Hhs.
  assert (Hin : forall i, (i < 2)%nat -> numbered "video_" (Z.of_nat i + 1) ∈ concat hs).
  { intros i Hi. apply Nat.leb_le in Hj. destruct (lookup_lt_is_Some_2 inputs i) as [a Ha]; [lia|]. apply Nat.leb_le in Hj.
    assert (He : finished_edge (make_edge a "concat_timeline_1" (numbered "video_" (Z.of_nat i + 1)))) by (by constructor).
    pose proof (Hf _ He) as Hfe. apply elem_edges in He. apply list_elem_of_lookup in He as [k Hk].
    destruct (Forall2_lookup_l _ _ _ _ _ Hhs Hk) as (l & Hl & Hfl). rewrite Hfe in Hfl. injection Hfl as <-.
    apply elem_of_concat. eexists. split; [by eapply list_elem_of_lookup_2|by left]. }
  assert ([numbered "video_" 1; numbered "video_" 2] ⊆+ remove_dups (concat hs)) as Hsub%submseteq_length.
  { apply NoDup_submseteq; [apply (bool_decide_eq_true_1 _); vm_compute; reflexivity|]. intros x Hx. apply elem_of_remove_dups.
    apply elem_of_cons in Hx as [->|[->|?%elem_of_nil]%elem_of_cons]; [apply (Hin 0%nat); lia|apply (Hin 1%nat); lia|done]. }
  cbn [length] in Hsub. by destruct (Nat.ltb_spec (length (remove_dups (concat hs))) 2); [lia|].
Qed.

Lemma finished_required n : finished_node n -> required_input_errors builtin_registry finished (connected_inputs finished).1 n = Ok [].
Proof.
  intros Hn. pose proof Hok as [_ _ Hkind _ _ Hlinks _ Hlinked _]. destruct (finished_type_ok n Hn) as ([def Hdef] & Hzip & Hdyn).
  destruct (decide (n_type n = "concat_timeline")) as [Ht|Ht].
  { destruct Hn as [m Hm|Hj| | |Hp]; [|by apply timeline_required|done..]. destruct (Hkind m Hm) as [[Ht' _]|Ht']; congruence. }
  apply (required_ok _ _ n def); [done|by apply Hdyn|done|]. intros p Hp Hr.
  assert (Hone : forall e, finished_edge e -> e_target e = n_id n -> e_targetHandle e = "input" -> port_name p = "input" ->
    exists e, e ∈ edges finished /\ e_target e = n_id n /\ edge_target_handle finished e = port_name p).
  { intros e He Hte Hh ->. exists e. split_and!; [by apply elem_edges|done|by rewrite finished_handle]. }
  assert (Hname : n_type n <> "source" -> port_name p = "input").
  { intros Hns. pose proof (finished_type n Hn) as Hty. unfold FINISHED_TYPES in Hty. rewrite !elem_of_cons, elem_of_nil in Hty.
    destruct Hty as [?|[He|[?|[He|[He|[He|[]]]]]]]; try done; rewrite He in Hdef; vm_compute in Hdef; injection Hdef as <-; cbn [NodeRegistry.inputs] in Hp;
      repeat (apply elem_of_cons in Hp as [->|Hp]; [done|]); by apply elem_of_nil in Hp. }
  destruct Hn as [m Hm|Hj| | |Hpb].
  - destruct (Hkind m Hm) as [[He _]|He].
    + rewrite He in Hdef. vm_compute in Hdef. injection Hdef as <-. by apply list_elem_of_singleton in Hp as ->.
    + destruct (Hlinked m Hm He) as (e & Hel & Hte). destruct (Hlinks e Hel) as (s' & t' & _ & _ & _ & _ & _ & _ & _ & _ & Hin).
      apply (Hone e); [by constructor|done|done|apply Hname; by rewrite He].
  - done.
  - apply (Hone _ fe_transcode); [done..|by apply Hname].
  - apply (Hone _ fe_export); [done..|by apply Hname].
  - apply (Hone _ (fe_upload Hpb)); [done..|by apply Hname].
Qed.

(** *** Parameters and assets *)

Lemma finished_unbound ty h : planner_bound finished ty h = [].
Proof.
  unfold planner_bound. rewrite filter_none; [done|]. intros e He%elem_edges.
  destruct (edge_ends_of e He) as (s & t & Hs & Ht & <- & <- & _). rewrite !finished_lookup by done.
  destruct (finished_type_ok s Hs) as (_ & Hzip%String.eqb_neq & _). by rewrite Hzip.
Qed.

Lemma finished_params n : node_param_errors builtin_registry finished n = node_param_errors builtin_registry empty_pipeline n.
Proof.
  unfold node_param_errors, param_errors, planner_supplied, planner_bound_url_nodes, planner_bound_source_nodes.
  by rewrite !finished_unbound.
Qed.

Lemma timeline_params count target aspect : (2 <= count <= 64)%nat ->
  node_param_errors builtin_registry empty_pipeline (timeline_node count target aspect) = Ok [].
Proof.
  intros Hc. unfold timeline_node, assembly_config. destruct (_target_dimensions aspect) as [w h].
  do 65 (destruct count as [|count]; [first [lia|vm_compute; reflexivity]|]). lia.
Qed.

Lemma finished_node_params n : finished_node n -> node_param_errors builtin_registry finished n = Ok [].
Proof.
  intros Hn. rewrite finished_params. pose proof Hok as [_ _ _ Hparams _ _ _ _ (_ & Hlen & _)].
  destruct Hn as [m Hm|Hj| | |Hp].
  - by apply Hparams.
  - apply timeline_params. apply Nat.leb_le in Hj. lia.
  - apply transcode_params.
  - apply export_params.
  - apply upload_params; [|case_match; in_list]. unfold storyboard_title, opt_or, str_or.
    by destruct (default "" _); [destruct (sb_title sb)|].
Qed.

Lemma finished_assets : missing_asset_errors finished = [].
Proof.
  pose proof Hok as [_ _ _ _ Hassets _ _ _ _]. unfold missing_asset_errors in *. cbn [nodes] in Hassets.
  rewrite filter_none; [done|]. intros n Hn%elem_nodes. destruct Hn as [m Hm|Hj| | |Hp]; try done.
  unfold planner_bound_source_nodes. rewrite finished_unbound. destruct (_ && _) eqn:Hb; [|done]. exfalso.
  apply (f_equal length) in Hassets. rewrite length_map in Hassets. apply length_zero_iff_nil in Hassets.
  assert (m ∈ List.filter (fun n => (n_type n =? "source")%string && negb (has_asset n) && negb (bool_decide (n_id n ∈ @nil string))) clips) as Hin
    by (apply elem_of_lfilter; done).
  change (planner_bound_source_nodes _) with (@nil string) in Hassets. rewrite Hassets in Hin. by apply elem_of_nil in Hin.
Qed.

Lemma finished_validates : exists r, validate_pipeline builtin_registry finished = Ok r /\ valid r = true /\ errors r = [].
Proof.
  destruct (mapMR_nil (node_param_errors builtin_registry finished) (nodes finished)) as (prms & Hprms & Hnil).
  { intros n Hn%elem_nodes. by apply finished_node_params. }
  destruct (validate_checks builtin_registry finished prms) as (r & Hr & Herr & Hval).
  - intros n Hn%elem_nodes. by apply finished_type_ok.
  - intros e He%elem_edges. destruct (edge_ends_of e He) as (s & t & Hs & Ht & <- & <- & _). split; by apply finished_id.
  - apply finished_acyclic.
  - intros e He%elem_edges. by apply finished_ports.
  - apply finished_single.
  - intros n Hn%elem_nodes. by apply finished_required.
  - apply finished_assets.
  - intros n Hn%elem_nodes. by apply finished_type_ok.
  - done.
  - exists r. rewrite Hnil in *. done.
Qed.
End Finished.

(** ** Shots *)

(** The limits of a number parameter. *)
Definition within (lo hi : pyval) (x : pyfloat) : bool := negb (fltb x (number_of lo)) && negb (fltb (number_of hi) x).

Definition proper_shot (shot : ShotSpec) : bool :=
  negb (is_empty (sh_search_query shot)) && within (VInt 0) (VInt 600) (sh_target_duration shot)
  && within (VFloat (float_of_dec false 3 (-1))) (VInt 30) (sh_min_duration shot)
  && within (VInt 1) (VInt 120) (sh_max_duration shot).

Lemma float_param d n p x lo hi : planner_supplied d n p = false -> dict_get (d_config (n_data n)) (param_name p) = VFloat x ->
  param_type p = "number" -> param_min_value p = Some lo -> param_max_value p = Some hi -> param_options p = None ->
  within lo hi x = true -> param_errors d n p = Ok [].
Proof.
  intros Hs Hv Ht Hlo Hhi Hopt [H1%negb_true_iff H2%negb_true_iff]%andb_prop. unfold param_errors. rewrite Hs, Hv.
  cbn [is_none is_str orb]. rewrite andb_false_r, Ht. cbn [String.eqb Ascii.eqb Bool.eqb andb negb py_float].
  unfold range_errors, select_errors. by rewrite Hlo, Hhi, Hopt, H1, H2.
Qed.

Lemma shot_params mode i shot : proper_shot shot = true ->
  node_param_errors builtin_registry empty_pipeline (shot_node mode i shot) = Ok [].
Proof.
  intros [[[Hq%negb_true_iff Ht]%andb_prop Hmin]%andb_prop Hmax]%andb_prop. unfold node_param_errors. cbn [n_type shot_node make_node].
  assert (get_type builtin_registry "smart_trim" = Some smart_trim_DEFINITION) as -> by (vm_compute; reflexivity).
  fold (shot_node mode i shot).
  destruct (mapMR_nil (param_errors empty_pipeline (shot_node mode i shot)) (params smart_trim_DEFINITION)) as (ys & Hys & Hnil);
    [|unfold fmap, Res_fmap; by rewrite Hys, Hnil].
  intros p Hp. cbn [params smart_trim_DEFINITION] in Hp.
  repeat (apply elem_of_cons in Hp as [->|Hp];
    [first [eapply float_param; [reflexivity..|first [exact Ht|exact Hmin|exact Hmax]] |
            destruct (sh_search_query shot) eqn:Hquery; [done|unfold shot_node, shot_config; rewrite ?Hquery; destruct (mode =? "preview_only")%string; vm_compute; reflexivity]]|]).
  by apply elem_of_nil in Hp.
Qed.

Lemma input_clips_ok asset mode shots : asset <> "" -> (1 <= length shots <= 64)%nat -> Forall (fun s => proper_shot s = true) shots ->
  clips_ok (input_node asset :: imap1 (shot_node mode) shots)
    (imap1 (fun i _ => make_edge "source_1" (numbered "smart_trim_" i) "input") shots) (imap1 (fun i _ => numbered "smart_trim_" i) shots).
Proof.
  intros Ha Hlen Hshots. rewrite Forall_forall in Hshots.
  assert (Hids : NoDup (imap1 (fun i (_ : ShotSpec) => numbered "smart_trim_" i) shots)).
  { apply NoDup_imap1. intros i j a b _ _ H%numbered_inj. lia. }
  assert (Hnode : forall n, n ∈ input_node asset :: imap1 (shot_node mode) shots ->
    n = input_node asset \/ exists i s, shots !! i = Some s /\ n = shot_node mode (Z.of_nat i + 1) s).
  { intros n [->|Hn%elem_imap1]%elem_of_cons; [by left|by right]. }
  split.
  - cbn [map]. rewrite map_imap1. apply NoDup_cons. split; [|exact Hids]. by intros (i & s & _ & [=])%elem_imap1.
  - intros n Hn. destruct (Hnode n Hn) as [->|(i & s & _ & ->)]; apply Nat.leb_le; reflexivity.
  - intros n Hn. destruct (Hnode n Hn) as [->|(i & s & _ & ->)]; [by left|by right].
  - intros n Hn. destruct (Hnode n Hn) as [->|(i & s & Hs & ->)]; [by apply source_params|].
    apply shot_params, Hshots. by eapply list_elem_of_lookup_2.
  - unfold missing_asset_errors. cbn [nodes]. rewrite filter_none; [done|]. intros n Hn.
    destruct (Hnode n Hn) as [->|(i & s & _ & ->)]; [|done]. by destruct asset.
  - intros e (i & s & Hs & ->)%elem_imap1. exists (input_node asset), (shot_node mode (Z.of_nat i + 1) s).
    split_and!; try done; [by left|right; apply elem_imap1; eauto|apply Nat.ltb_lt; reflexivity].
  - by rewrite map_imap1.
  - intros n Hn Ht. destruct (Hnode n Hn) as [->|(i & s & Hs & ->)]; [done|].
    eexists. split; [apply elem_imap1; by eauto|done].
  - split; [done|split; [by rewrite length_imap1|]]. intros id (i & s & Hs & ->)%elem_imap1. right.
    apply list_elem_of_fmap. exists (shot_node mode (Z.of_nat i + 1) s). split; [done|]. apply elem_imap1. eauto.
Qed.

Lemma matched_clips_ok shots : (1 <= length shots <= 64)%nat -> Forall (fun s => matched s = true) shots ->
  clips_ok (imap1 matched_node shots) [] (imap1 (fun i _ => numbered "source_" i) shots).
Proof.
  intros Hlen Hshots. rewrite Forall_forall in Hshots.
  assert (Hasset : forall i s, shots !! i = Some s -> default "" (sh_matched_asset_id s) <> "").
  { intros i s Hs. assert (matched s = true) as [_ Hm%negb_true_iff]%andb_prop by (apply Hshots; by eapply list_elem_of_lookup_2).
    by destruct (default "" _). }
  assert (Hids : NoDup (imap1 (fun i (_ : ShotSpec) => numbered "source_" i) shots)).
  { apply NoDup_imap1. intros i j a b _ _ H%numbered_inj. lia. }
  split.
  - by rewrite map_imap1.
  - intros n (i & s & _ & ->)%elem_imap1. apply Nat.leb_le; reflexivity.
  - intros n (i & s & _ & ->)%elem_imap1. by left.
  - intros n (i & s & Hs & ->)%elem_imap1. by apply source_params, (Hasset i).
  - unfold missing_asset_errors. cbn [nodes]. rewrite filter_none; [done|]. intros n (i & s & Hs & ->)%elem_imap1.
    pose proof (Hasset i s Hs). unfold has_asset. cbn. by destruct (default "" (sh_matched_asset_id s)).
  - intros e He. by apply elem_of_nil in He.
  - apply NoDup_nil_2.
  - by intros n (i & s & _ & ->)%elem_imap1.
  - split; [done|split; [by rewrite length_imap1|]]. intros id (i & s & Hs & ->)%elem_imap1.
    apply list_elem_of_fmap. exists (matched_node (Z.of_nat i + 1) s). split; [done|]. apply elem_imap1. eauto.
Qed.

(** The assets a pipeline reads, in order. *)
Definition source_assets (d : PipelineDefinition) : list pyval :=
  map (fun n => dict_get (d_config (n_data n)) "asset_id") (List.filter (fun n => (n_type n =? "source")%string) (nodes d)).

Lemma finished_sources clips links inputs sb metadata mode duration :
  source_assets (finished clips links inputs sb metadata mode duration)
  = source_assets {| nodes := clips; edges := []; viewport := [] |}.
Proof.
  unfold source_assets, finished. cbn [nodes]. rewrite !List.filter_app, !map_app.
  destruct (joined inputs), (published mode); cbn; by rewrite app_nil_r.
Qed.

Lemma missing_required_elem sb id : id ∈ missing_required sb ->
  exists s, s ∈ sb_shots sb /\ sh_required s = true /\ matched s = false.
Proof.
  intros (s & -> & [[Hs Hm%negb_true_iff]%elem_of_lfilter Hr]%elem_of_lfilter)%list_elem_of_fmap. eauto.
Qed.

Lemma missing_required_spec sb : missing_required sb = [] -> forall s, s ∈ sb_shots sb -> sh_required s = true -> matched s = true.
Proof.
  intros Hm s Hs Hr. destruct (matched s) eqn:Hms; [done|]. assert (sh_id s ∈ missing_required sb) as Hin.
  { apply list_elem_of_fmap. exists s. split; [done|]. apply elem_of_lfilter. split; [|done]. apply elem_of_lfilter. by rewrite Hms. }
  rewrite Hm in Hin. by apply elem_of_nil in Hin.
Qed.

Lemma matched_sources sb : source_assets {| nodes := imap1 matched_node (matched_shots sb); edges := []; viewport := [] |}
  = map (fun s => VStr (default "" (sh_matched_asset_id s))) (matched_shots sb).
Proof.
  unfold source_assets. cbn [nodes]. rewrite forallb_filter_id.
  - rewrite map_imap1. unfold imap1. apply list_eq. intros i. rewrite list_lookup_imap. change (map ?f ?l) with (f <$> l).
    rewrite list_lookup_fmap. by destruct (_ !! i).
  - apply forallb_forall. by intros n (i & s & _ & ->)%list_elem_of_In%elem_imap1.
Qed.

(** C35. What the storyboard builders return can be run.  With one input video and one to 64
    proper shots (a query, durations within the limits of a trim) the pipeline validates and
    reads that video alone.  From the library, the builder refuses exactly when a shot that
    is required has no match and the plan is to be published; otherwise, with at most 64
    matches, the pipeline is empty when there is none and validates when there are, and reads
    the matched assets, in the order of the shots, and nothing else. *)
Theorem storyboard_pipelines_validate (sb : StoryboardPlan) (asset : string) (metadata : option AutoFlowMetadata) (mode : string) :
  (asset <> "" -> (1 <= length (sb_shots sb) <= 64)%nat -> Forall (fun s => proper_shot s = true) (sb_shots sb) ->
   exists d r, build_storyboard_input_video sb asset metadata mode = Ok d
     /\ validate_pipeline builtin_registry d = Ok r /\ valid r = true /\ source_assets d = [VStr asset])
  /\ ((length (matched_shots sb) <= 64)%nat ->
      match (build_storyboard_material_library sb metadata mode).2 with
      | Raise _ => mode <> "preview_only" /\ exists s, s ∈ sb_shots sb /\ sh_required s = true /\ matched s = false
      | Ok d =>
          (mode = "preview_only" \/ forall s, s ∈ sb_shots sb -> sh_required s = true -> matched s = true)
          /\ source_assets d = map (fun s => VStr (default "" (sh_matched_asset_id s))) (matched_shots sb)
          /\ match matched_shots sb with
             | [] => nodes d = []
             | _ => exists r, validate_pipeline builtin_registry d = Ok r /\ valid r = true
             end
      end).
Proof.
  split.
  - intros Ha Hlen Hshots. pose proof (input_clips_ok asset mode (sb_shots sb) Ha Hlen Hshots) as Hok.
    destruct (finished_validates _ _ _ sb metadata mode None Hok) as (r & Hr & Hv & _).
    eexists _, r. split; [apply (finish_finished _ _ _ sb metadata mode None Hok)|]. split_and!; [done..|].
    rewrite finished_sources. unfold source_assets. cbn [nodes List.filter map input_node make_node n_type String.eqb Ascii.eqb Bool.eqb].
    rewrite filter_none; [done|]. by intros n (i & s & _ & ->)%elem_imap1.
  - intros Hlen. unfold build_storyboard_material_library. cbn [snd].
    pose proof (missing_required_spec sb) as Hmiss. pose proof (matched_sources sb) as Hsrc.
    destruct (negb (mode =? "preview_only")%string && (0 <? length (missing_required sb))%nat) eqn:Hrefuse.
    + apply andb_prop in Hrefuse as [Hmode%negb_true_iff%String.eqb_neq Hlt%Nat.ltb_lt]. split; [done|].
      destruct (missing_required sb) as [|x l] eqn:Hm; [simpl in Hlt; lia|]. apply (missing_required_elem sb x). rewrite Hm. by left.
    + assert (mode = "preview_only" \/ forall s, s ∈ sb_shots sb -> sh_required s = true -> matched s = true) as Hmode.
      { apply andb_false_iff in Hrefuse as [->%negb_false_iff%String.eqb_eq|Hlt%Nat.ltb_ge]; [by left|right].
        apply Hmiss. by apply length_zero_iff_nil; lia. }
      destruct (matched_shots sb) as [|s0 l] eqn:Hshots; [done|].
      assert (Hok : clips_ok (imap1 matched_node (s0 :: l)) [] (imap1 (fun i _ => numbered "source_" i) (s0 :: l))).
      { apply matched_clips_ok; [simpl in *; lia|]. rewrite <- Hshots. apply Forall_forall. by intros s [_ ?]%elem_of_lfilter. }
      rewrite (finish_finished _ _ _ (noted sb) metadata mode (Some (effective_duration sb)) Hok).
      destruct (finished_validates _ _ _ (noted sb) metadata mode (Some (effective_duration sb)) Hok) as (r & Hr & Hv & _).
      split_and!; [done|by rewrite finished_sources|by exists r].
Qed.

Module StoryboardDemo.
Definition shot (id : string) (required : bool) (asset : option string) (status : string) : ShotSpec :=
  {| sh_required := required; sh_id := id; sh_search_query := "cat " +:+ id; sh_negative_queries := ["blur"]; sh_must_not_have := ["text"];
     sh_target_duration := float_of_Z 4; sh_min_duration := float_of_dec false 15 (-1); sh_max_duration := float_of_Z 8;
     sh_matched_asset_id := asset; sh_match_status := status |}.
Definition board : StoryboardPlan :=
  {| sb_title := "Cats"; sb_aspect_ratio := "9:16"; sb_total_duration := float_of_Z 30;
     sb_shots := [shot "hook" true (Some "asset-1") "matched"; shot "detail" true None "missing"; shot "ending" false (Some "asset-2") "matched"];
     sb_description := ""; sb_tags := []; sb_warnings := []; sb_extra := [] |}.
End StoryboardDemo.

(** A storyboard of three shots, from one video, in preview from the library, and refused for
    upload because a required shot is missing. *)
Lemma storyboard_pipelines_validate_witness :
  (exists d r, build_storyboard_input_video StoryboardDemo.board "asset-9" None "private_upload" = Ok d
     /\ validate_pipeline builtin_registry d = Ok r /\ valid r = true /\ source_assets d = [VStr "asset-9"])
  /\ (exists d r, (build_storyboard_material_library StoryboardDemo.board None "preview_only").2 = Ok d
     /\ validate_pipeline builtin_registry d = Ok r /\ valid r = true /\ source_assets d = [VStr "asset-1"; VStr "asset-2"])
  /\ (build_storyboard_material_library StoryboardDemo.board None "private_upload").2
     = Raise (ValueError "missing_required_shots: detail").
Proof.
  destruct (storyboard_pipelines_validate StoryboardDemo.board "asset-9" None "private_upload") as [Hin _].
  destruct (storyboard_pipelines_validate StoryboardDemo.board "asset-9" None "preview_only") as [_ Hlib].
  split; [apply Hin; [done|cbn; lia|repeat constructor]|]. split; [|vm_compute; reflexivity].
  assert (Hlen : (length (matched_shots StoryboardDemo.board) <= 64)%nat) by (vm_compute; lia). specialize (Hlib Hlen).
  destruct (build_storyboard_material_library StoryboardDemo.board None "preview_only").2 as [d|x] eqn:Hd.
  - destruct Hlib as (_ & Hs & r & Hr & Hv). exists d, r. split_and!; [done..|]. rewrite Hs. vm_compute. reflexivity.
  - destruct Hlib as [Hne _]. by destruct Hne.
Defined.
