(* ===== verification/JobModel.v ===== *)
(** * Jobs, node executions, artifacts and the runtime schedule
    ([models/job.py], [models/artifact.py], [models/schedule.py])

    Rows are records; a UUID is the string that prints it and a timestamp a
    number of microseconds since the epoch (so that normalising a time zone is
    the identity).  [pipeline_snapshot] is the parsed definition. *)

From stdpp Require Import base tactics list strings relations.
From Stdlib Require Import ZArith Lia.
From S2P Require Import Prelude PyStr PyValue Pipeline.

Open Scope string_scope.
Open Scope list_scope.

Abbreviation uuid := string.
Abbreviation datetime := Z.

Module JobStatus.
Inductive t : Set :=
| PENDING | WAITING_WINDOW | VALIDATING | PLANNING | RUNNING
| SUCCEEDED | FAILED | CANCELLED | PARTIALLY_FAILED.
#[export] Instance eq_dec : EqDecision t.
Proof. solve_decision. Defined.
End JobStatus.
Export (hints) JobStatus.

Module NodeStatus.
Inductive t : Set := PENDING | QUEUED | RUNNING | SUCCEEDED | FAILED | SKIPPED | CANCELLED.
#[export] Instance eq_dec : EqDecision t.
Proof. solve_decision. Defined.
End NodeStatus.
Export (hints) NodeStatus.

Record NodeExecution := {
  ne_id : uuid;
  ne_node_id : string;
  ne_node_type : string;
  ne_node_label : string;
  ne_node_config : config;
  ne_status : NodeStatus.t;
  ne_progress : Z;
  ne_worker_id : option string;
  ne_queued_at : option datetime;
  ne_started_at : option datetime;
  ne_completed_at : option datetime;
  ne_error_message : option string;
  ne_error_trace : option string;
  ne_retry_count : Z;
  ne_input_artifact_ids : list uuid;
  ne_output_artifact_id : option uuid;
  ne_worker_registration_id : option uuid;
  ne_worker_lease_epoch : option Z }.

Record ExecutionPlan := {
  topo_order : list string;
  dependencies : list (string * list string) }.

Record Job := {
  j_id : uuid;
  j_pipeline_id : uuid;
  j_pipeline_snapshot : PipelineDefinition;
  j_status : JobStatus.t;
  j_execution_plan : option ExecutionPlan;
  j_submitted_at : datetime;
  j_started_at : option datetime;
  j_completed_at : option datetime;
  j_error_message : option string;
  j_orchestrator_owner : string;
  j_node_executions : list NodeExecution }.

Inductive ArtifactKind : Set := INTERMEDIATE | FINAL.

Record Artifact := {
  a_id : uuid;
  a_job_id : uuid;
  a_node_execution_id : uuid;
  a_kind : ArtifactKind;
  a_filename : string;
  a_mime_type : option string;
  a_file_size : option Z;
  a_storage_backend : string;
  a_storage_path : string;
  a_media_info : config }.

Record Asset := {
  as_id : uuid;
  as_filename : string;
  as_original_name : string;
  as_mime_type : option string;
  as_file_size : option Z;
  as_storage_backend : string;
  as_storage_path : string;
  as_media_info : config }.

Record RuntimeSchedule := {
  s_state : string;
  s_guarded_job_id : option uuid;
  s_updated_by : string }.

Record ChannelProfile := {
  ch_id : uuid;
  ch_enabled : bool;
  ch_halted_at : option datetime;
  ch_halt_reason : option string;
  ch_intake_paused_at : option datetime;
  ch_tick_interval_minutes : option Z;
  ch_owned_seed_inventory_id : option uuid;
  ch_created_at : datetime }.

Record ProductionTask := {
  pt_id : uuid;
  pt_channel_profile_id : uuid;
  pt_job_id : option uuid;
  pt_state : string;
  pt_state_updated_at : option datetime;
  pt_blocked_by_guard : option string;
  pt_failure_reason : option string;
  pt_transition_history_json : list pyval }.

(** An enabled channel, and a task in production for one of its jobs. *)
Definition plain_channel (id : uuid) : ChannelProfile :=
  {| ch_id := id; ch_enabled := true; ch_halted_at := None; ch_halt_reason := None; ch_intake_paused_at := None;
     ch_tick_interval_minutes := Some 60%Z; ch_owned_seed_inventory_id := None; ch_created_at := 0 |}.

Definition producing_task (id channel : uuid) (job : option uuid) : ProductionTask :=
  {| pt_id := id; pt_channel_profile_id := channel; pt_job_id := job; pt_state := "producing";
     pt_state_updated_at := None; pt_blocked_by_guard := None; pt_failure_reason := None;
     pt_transition_history_json := [] |}.

(** ** Field updates *)

Definition set_ne_status (s : NodeStatus.t) (n : NodeExecution) : NodeExecution :=
  {| ne_id := ne_id n; ne_node_id := ne_node_id n; ne_node_type := ne_node_type n;
     ne_node_label := ne_node_label n; ne_node_config := ne_node_config n; ne_status := s;
     ne_progress := ne_progress n; ne_worker_id := ne_worker_id n; ne_queued_at := ne_queued_at n;
     ne_started_at := ne_started_at n; ne_completed_at := ne_completed_at n;
     ne_error_message := ne_error_message n; ne_error_trace := ne_error_trace n;
     ne_retry_count := ne_retry_count n; ne_input_artifact_ids := ne_input_artifact_ids n;
     ne_output_artifact_id := ne_output_artifact_id n;
     ne_worker_registration_id := ne_worker_registration_id n;
     ne_worker_lease_epoch := ne_worker_lease_epoch n |}.

Definition set_nodes (ns : list NodeExecution) (j : Job) : Job :=
  {| j_id := j_id j; j_pipeline_id := j_pipeline_id j; j_pipeline_snapshot := j_pipeline_snapshot j;
     j_status := j_status j; j_execution_plan := j_execution_plan j; j_submitted_at := j_submitted_at j;
     j_started_at := j_started_at j; j_completed_at := j_completed_at j;
     j_error_message := j_error_message j; j_orchestrator_owner := j_orchestrator_owner j;
     j_node_executions := ns |}.

(** Status, completion time and error message: the columns a transition of the
    job itself writes. *)
Definition set_job (s : JobStatus.t) (completed : option datetime) (err : option string) (j : Job) : Job :=
  {| j_id := j_id j; j_pipeline_id := j_pipeline_id j; j_pipeline_snapshot := j_pipeline_snapshot j;
     j_status := s; j_execution_plan := j_execution_plan j; j_submitted_at := j_submitted_at j;
     j_started_at := j_started_at j; j_completed_at := completed; j_error_message := err;
     j_orchestrator_owner := j_orchestrator_owner j; j_node_executions := j_node_executions j |}.

Definition set_job_status (s : JobStatus.t) (j : Job) : Job :=
  set_job s (j_completed_at j) (j_error_message j) j.

(** Mutation of the row with primary key [id]. *)
Definition update_node (id : uuid) (f : NodeExecution -> NodeExecution) (j : Job) : Job :=
  set_nodes (map (fun n => if decide (ne_id n = id) then f n else n) (j_node_executions j)) j.

Definition map_nodes (f : NodeExecution -> NodeExecution) (j : Job) : Job :=
  set_nodes (map f (j_node_executions j)) j.

(** [{ne.node_id: ne for ne in job.node_executions}]. *)
Definition ne_by_node_id (j : Job) : list (string * NodeExecution) :=
  dict_of (map (fun n => (ne_node_id n, n)) (j_node_executions j)).

Definition find_node (id : uuid) (j : Job) : option NodeExecution :=
  List.find (fun n => bool_decide (ne_id n = id)) (j_node_executions j).

Definition active (s : NodeStatus.t) : bool :=
  match s with NodeStatus.PENDING | NodeStatus.QUEUED | NodeStatus.RUNNING => true | _ => false end.

Definition failed_status (s : NodeStatus.t) : bool :=
  match s with NodeStatus.FAILED | NodeStatus.SKIPPED | NodeStatus.CANCELLED => true | _ => false end.

Definition has_status (s : NodeStatus.t) (n : NodeExecution) : bool := bool_decide (ne_status n = s).

(** ** Node updates keep the identity of the row *)

Class KeepsIdentity (f : NodeExecution -> NodeExecution) : Prop := {
  keeps_id : forall n, ne_id (f n) = ne_id n;
  keeps_node_id : forall n, ne_node_id (f n) = ne_node_id n;
  keeps_node_type : forall n, ne_node_type (f n) = ne_node_type n }.

#[export] Instance set_ne_status_identity s : KeepsIdentity (set_ne_status s).
Proof. by split. Qed.

Lemma find_node_elem id j n : find_node id j = Some n -> n ∈ j_node_executions j /\ ne_id n = id.
Proof.
  unfold find_node. intros Hf%List.find_some. rewrite bool_decide_eq_true in Hf.
  by rewrite list_elem_of_In.
Qed.

Lemma ne_by_node_id_elem j k n :
  (ne_by_node_id j).[? k] = Some n -> n ∈ j_node_executions j /\ ne_node_id n = k.
Proof. intros (m & [= -> ->] & Hm)%dget_dict_of_elem%list_elem_of_fmap. done. Qed.

(** The rows of two versions of a job, matched by position: [R] relates each old
    row to its new one and nothing changes identity. *)
Definition same_row (n n' : NodeExecution) : Prop :=
  ne_id n' = ne_id n /\ ne_node_id n' = ne_node_id n /\ ne_node_type n' = ne_node_type n.

Lemma ne_by_node_id_Forall2 (R : NodeExecution -> NodeExecution -> Prop) j j' k :
  Forall2 (fun n n' => same_row n n' /\ R n n') (j_node_executions j) (j_node_executions j') ->
  option_Forall2 (fun n n' => same_row n n' /\ R n n') (ne_by_node_id j).[? k] (ne_by_node_id j').[? k].
Proof.
  unfold ne_by_node_id. generalize (j_node_executions j), (j_node_executions j').
  intros ns. induction ns as [|n ns IH] using rev_ind; intros ns' HF.
  - apply Forall2_nil_inv_l in HF as ->. constructor.
  - apply Forall2_app_inv_l in HF as (l & l' & HF & Hl & ->).
    apply Forall2_cons_inv_l in Hl as (n' & l'' & [Hrow HR] & Hnil & ->).
    apply Forall2_nil_inv_l in Hnil as ->. destruct (Hrow) as (_ & Hk & _).
    rewrite !map_app. simpl. rewrite !dget_dict_of_snoc, Hk.
    case_decide; [by constructor | by apply IH].
Qed.

Lemma find_node_update id f j :
  KeepsIdentity f -> find_node id (update_node id f j) = f <$> find_node id j.
Proof.
  intros Hf. unfold find_node, update_node. simpl.
  induction (j_node_executions j) as [|n ns IH]; simpl; [done|].
  destruct (decide (ne_id n = id)) as [Heq|Hne]; simpl.
  - rewrite keeps_id, Heq. by rewrite !bool_decide_true by done.
  - by rewrite !bool_decide_false.
Qed.

Lemma find_node_update_ne id id' f j :
  KeepsIdentity f -> id <> id' -> find_node id' (update_node id f j) = find_node id' j.
Proof.
  intros Hf Hne. unfold find_node, update_node. simpl.
  induction (j_node_executions j) as [|n ns IH]; simpl; [done|].
  destruct (decide (ne_id n = id)) as [Heq|Hn]; simpl; [|by destruct (bool_decide _)].
  rewrite keeps_id, Heq. by rewrite !bool_decide_false.
Qed.

Lemma find_node_self j n :
  NoDup (map ne_id (j_node_executions j)) -> n ∈ j_node_executions j -> find_node (ne_id n) j = Some n.
Proof.
  intros Hnd Hn. unfold find_node. destruct (List.find _ _) as [m|] eqn:Hf.
  - apply List.find_some in Hf as [Hm Hid%bool_decide_eq_true]. f_equal.
    eapply NoDup_map_inj; eauto. by apply list_elem_of_In.
  - apply list_elem_of_In in Hn. pose proof (List.find_none _ _ Hf n Hn) as Hb.
    simpl in Hb. by rewrite bool_decide_true in Hb.
Qed.

Lemma update_node_ids id f j :
  KeepsIdentity f ->
  map ne_id (j_node_executions (update_node id f j)) = map ne_id (j_node_executions j)
  /\ map ne_node_id (j_node_executions (update_node id f j)) = map ne_node_id (j_node_executions j).
Proof.
  intros [H1 H2 _]. simpl. rewrite !map_map. split; apply map_ext; intros n; by case_decide.
Qed.
