(* ===== verification/MaterialUsage.v ===== *)
(** * Material references and their recent use ([channel_agent/material_usage.py])

    Plans, runs and upload reports mention material somewhere in nested JSON.
    [extract_material_references] collects the mentions, one per material and segment;
    [recent_usage_flags] compares them with the ledger of what was published.  SHA-256
    is a parameter. *)

From stdpp Require Import base tactics list strings sets.
From Stdlib Require Import ZArith Lia Ascii.
From S2P Require Import Prelude PyStr PyValue PyJson PyTime PyUuid Pipeline JobModel.

Open Scope string_scope.
Open Scope list_scope.

Record MaterialReference := {
  mr_material_id : string;
  mr_asset_id : option string;
  mr_start_ms : option Z;
  mr_end_ms : option Z;
  mr_segment_signature : string;
  mr_metadata : config }.

(** A row of the ledger ([models/channel_agent.py]). *)
Record MaterialUsageLedger := {
  ml_id : uuid;
  ml_material_id : string;
  ml_asset_id : option uuid;
  ml_channel_profile_id : uuid;
  ml_topic_lane_id : option uuid;
  ml_publishing_account_id : option uuid;
  ml_publication_id : option uuid;
  ml_used_at : datetime;
  ml_segment_signature : string;
  ml_metadata_json : config }.

Record UsageGuardResult := {
  ug_repetition_rejected : bool;
  ug_cross_account_rejected : bool;
  ug_hits : list config }.

Definition no_usage : UsageGuardResult :=
  {| ug_repetition_rejected := false; ug_cross_account_rejected := false; ug_hits := [] |}.

Definition blocked (r : UsageGuardResult) : bool := ug_repetition_rejected r || ug_cross_account_rejected r.

(** [d.get(a) or d.get(b) or ""], printed and stripped. *)
Definition text_of (d : config) (a b : string) : string :=
  strip (py_str (py_or (py_or (dict_get d a) (dict_get d b)) (VStr ""))).

(** [except (TypeError, ValueError): return None]. *)
Definition int_or_none (r : Res Z) : Res (option Z) :=
  match r with
  | Ok z => Ok (Some z)
  | Raise TypeError | Raise (ValueError _) => Ok None
  | Raise e => Raise e
  end.

Definition _millis (ms_value sec_value : pyval) : Res (option Z) :=
  if negb (is_none ms_value) then int_or_none (py_int ms_value)
  else if negb (is_none sec_value) then
    int_or_none (f ← py_float sec_value; int_of_float (fmul f (float_of_Z 1000)))
  else Ok None.

Definition optional_int_text (z : option Z) : string := match z with Some z => str_of_Z z | None => "" end.

Fixpoint _walk_dicts (value : pyval) : list config :=
  match value with
  | VDict d => d :: concat (map (fun kv => _walk_dicts kv.2) d)
  | VList l => concat (map _walk_dicts l)
  | _ => []
  end.

Definition reference_key (r : MaterialReference) : string * string := (mr_material_id r, mr_segment_signature r).

(** [value if isinstance(value, uuid.UUID) else uuid.UUID(str(value))], or nothing. *)
Definition _uuid_or_none (value : string) : option uuid :=
  if is_empty value then None else match uuid_of_string value with Ok u => Some u | Raise _ => None end.

Section MaterialUsage.
Context (sha256 : string -> string).

Definition segment_signature (material_id : string) (start_ms end_ms : option Z) : string :=
  sha256 (material_id +:+ ":" +:+ optional_int_text start_ms +:+ ":" +:+ optional_int_text end_ms).

Definition _reference_from_dict (item : config) : Res (option MaterialReference) :=
  let asset_id := py_or (dict_get item "asset_id") (dict_get item "assetId") in
  let material_id :=
    let m := text_of item "material_id" "materialId" in
    if is_empty m && truthy asset_id then strip (py_str asset_id) else m in
  if is_empty material_id then Ok None
  else
    start_ms ← _millis (dict_get item "start_ms") (dict_get item "start_sec");
    end_ms ← _millis (dict_get item "end_ms") (dict_get item "end_sec");
    let signature :=
      let s := text_of item "segment_signature" "segmentSignature" in
      if is_empty s then segment_signature material_id start_ms end_ms else s in
    Ok (Some {| mr_material_id := material_id;
                mr_asset_id := if truthy asset_id then Some (py_str asset_id) else None;
                mr_start_ms := start_ms; mr_end_ms := end_ms; mr_segment_signature := signature;
                mr_metadata := item |}).

(** One turn of the loop: the references so far are also the keys seen so far. *)
Definition extract_step (refs : list MaterialReference) (item : config) : Res (list MaterialReference) :=
  ref ← _reference_from_dict item;
  match ref with
  | None => Ok refs
  | Some r => if bool_decide (reference_key r ∈ map reference_key refs) then Ok refs else Ok (refs ++ [r])
  end.

Definition mentioned_dicts (plan_payload run_payload upload_metadata : config) : list config :=
  concat (map (fun p => _walk_dicts (VDict p)) [plan_payload; run_payload; upload_metadata]).

Definition extract_material_references (plan_payload run_payload upload_metadata : config)
    : Res (list MaterialReference) :=
  foldM extract_step [] (mentioned_dicts plan_payload run_payload upload_metadata).

(** ** The guards *)

Definition _hit (row : MaterialUsageLedger) (guard reason : string) : config :=
  [("guard", VStr guard); ("reason", VStr reason); ("material_id", VStr (ml_material_id row));
   ("segment_signature", VStr (ml_segment_signature row));
   ("publication_id", VStr (default "" (ml_publication_id row)));
   ("used_at", VStr (isoformat_utc (ml_used_at row)))].

Definition same_lane_window : Z := (7 * DAY_US)%Z.
Definition same_account_window : Z := (14 * DAY_US)%Z.
Definition sibling_account_window : Z := (30 * DAY_US)%Z.

Definition same_lane_hit (lane : option uuid) (signatures : list string) (now : datetime) (row : MaterialUsageLedger) : bool :=
  match lane with
  | None => false
  | Some l =>
      bool_decide (ml_topic_lane_id row = Some l) && bool_decide (ml_segment_signature row ∈ signatures)
      && (now - same_lane_window <=? ml_used_at row)%Z
  end.

Definition same_account_hit (account : option uuid) (materials : list string) (now : datetime) (row : MaterialUsageLedger)
    : bool :=
  match account with
  | None => false
  | Some a =>
      bool_decide (ml_publishing_account_id row = Some a) && bool_decide (ml_material_id row ∈ materials)
      && (now - same_account_window <=? ml_used_at row)%Z
  end.

Definition sibling_hit (account : option uuid) (materials : list string) (now : datetime) (row : MaterialUsageLedger) : bool :=
  match account, ml_publishing_account_id row with
  | Some a, Some b =>
      negb (bool_decide (b = a)) && bool_decide (ml_material_id row ∈ materials)
      && (now - sibling_account_window <=? ml_used_at row)%Z
  | _, _ => false
  end.

Definition row_hits (lane account : option uuid) (materials signatures : list string) (now : datetime)
    (row : MaterialUsageLedger) : list (string * config) :=
  (if same_lane_hit lane signatures now row
   then [("repetition_rejected", _hit row "repetition_rejected" "same_lane_segment_recently_used")] else [])
  ++ (if same_account_hit account materials now row
      then [("repetition_rejected", _hit row "repetition_rejected" "same_account_material_recently_used")] else [])
  ++ (if sibling_hit account materials now row
      then [("cross_account_rejected", _hit row "cross_account_rejected" "sibling_account_material_recently_used")] else []).

(** The windows are the defaults of the parameters; no caller passes others. *)
Definition recent_usage_flags (ledger : list MaterialUsageLedger) (channel_id : string) (lane_id account_id : option string)
    (references : list MaterialReference) (now : datetime) : UsageGuardResult :=
  match references with
  | [] => no_usage
  | _ =>
      match _uuid_or_none channel_id with
      | None => no_usage
      | Some channel =>
          let lane := lane_id ≫= _uuid_or_none in
          let account := account_id ≫= _uuid_or_none in
          let materials := map mr_material_id references in
          let signatures := List.filter (fun s => negb (is_empty s)) (map mr_segment_signature references) in
          let oldest := (now - Z.max (Z.max same_lane_window same_account_window) sibling_account_window)%Z in
          let rows := List.filter (fun r => bool_decide (ml_channel_profile_id r = channel)
                                            && (oldest <=? ml_used_at r)%Z) ledger in
          let hits := concat (map (row_hits lane account materials signatures now) rows) in
          {| ug_repetition_rejected := bool_decide ("repetition_rejected" ∈ map fst hits);
             ug_cross_account_rejected := bool_decide ("cross_account_rejected" ∈ map fst hits);
             ug_hits := map snd hits |}
      end
  end.
End MaterialUsage.

(** ** Extraction finds every mention, once *)

(** A dictionary occurs somewhere inside a value. *)
Inductive occurs (d : config) : pyval -> Prop :=
| occurs_here : occurs d (VDict d)
| occurs_value k v e : (k, v) ∈ e -> occurs d v -> occurs d (VDict e)
| occurs_item v l : v ∈ l -> occurs d v -> occurs d (VList l).

Lemma walk_dicts_occurs d v : d ∈ _walk_dicts v <-> occurs d v.
Proof.
  split.
  - induction v as [| | | | |l IH|e IH] using pyval_nested_ind; simpl; try by rewrite elem_of_nil.
    + intros (y & (w & -> & Hw)%list_elem_of_fmap & Hd)%elem_of_concat. rewrite Forall_forall in IH.
      econstructor 3; [done|]. by apply IH.
    + intros [->|(y & (w & -> & Hw)%list_elem_of_fmap & Hd)%elem_of_concat]%elem_of_cons; [constructor|].
      rewrite Forall_forall in IH. destruct w as [k w]. econstructor 2; [done|]. by apply (IH (k, w)).
  - induction 1 as [|k v e Hv _ IH|v l Hv _ IH]; simpl.
    + by left.
    + right. apply elem_of_concat. exists (_walk_dicts v). split; [|done]. apply list_elem_of_fmap. by exists (k, v).
    + apply elem_of_concat. exists (_walk_dicts v). split; [|done]. apply list_elem_of_fmap. by exists v.
Qed.

Section Extraction.
Context (sha256 : string -> string).
Implicit Types (refs : list MaterialReference) (ds : list config).

Lemma extract_step_Ok refs d refs' :
  extract_step sha256 refs d = Ok refs' ->
  exists r, _reference_from_dict sha256 d = Ok r
    /\ refs' = match r with
               | Some r => if bool_decide (reference_key r ∈ map reference_key refs) then refs else refs ++ [r]
               | None => refs
               end.
Proof.
  unfold extract_step. intros H. unbind H. eexists. split; [done|]. destruct a as [r|]; [|by simplify_eq].
  case_bool_decide; by simplify_eq.
Qed.

Lemma extract_loop ds : forall refs refs',
  foldM (extract_step sha256) refs ds = Ok refs' ->
  NoDup (map reference_key refs) ->
  NoDup (map reference_key refs') /\ refs ⊆ refs'
  /\ (forall d r, d ∈ ds -> _reference_from_dict sha256 d = Ok (Some r) -> reference_key r ∈ map reference_key refs')
  /\ (forall r, r ∈ refs' -> r ∈ refs \/ exists d, d ∈ ds /\ _reference_from_dict sha256 d = Ok (Some r)).
Proof.
  induction ds as [|d ds IH]; simpl; intros refs refs' H Hn.
  - simplify_eq. split_and!; [done..|set_solver|auto].
  - destruct (extract_step sha256 refs d) as [refs1|] eqn:Hd; [|done].
    apply extract_step_Ok in Hd as (o & Ho & ->).
    apply IH in H as (H1 & H2 & H3 & H4).
    + split_and!; [done| | |].
      * destruct o as [r|]; [case_bool_decide|]; set_solver.
      * intros d' r [->|Hd']%elem_of_cons Hr; [|by eapply H3]. rewrite Ho in Hr. injection Hr as ->.
        case_bool_decide as Hk.
        -- apply list_elem_of_fmap in Hk as (r' & -> & Hr'). apply list_elem_of_fmap. exists r'. auto.
        -- apply list_elem_of_fmap. exists r. split; [done|]. apply H2. set_solver.
      * intros r Hr. destruct (H4 r Hr) as [Hr'|(d' & Hd' & He)]; [|right; exists d'; split; [by right|done]].
        destruct o as [r0|]; [|auto]. case_bool_decide; [auto|].
        apply elem_of_app in Hr' as [?| ->%list_elem_of_singleton]; [auto|]. right. exists d. split; [by left|done].
    + destruct o as [r|]; [|done]. case_bool_decide as Hk; [done|]. rewrite map_app. apply NoDup_app.
      split_and!; [done| |apply NoDup_singleton]. intros x Hx ->%list_elem_of_singleton. done.
Qed.

(** The references found in the three payloads are distinct, stand for dictionaries
    that occur in them, and no such dictionary is missed. *)
Theorem extract_material_references_exact (plan run upload : config) refs :
  extract_material_references sha256 plan run upload = Ok refs ->
  NoDup (map reference_key refs)
  /\ (forall r, r ∈ refs -> exists p d, p ∈ [plan; run; upload] /\ occurs d (VDict p)
        /\ _reference_from_dict sha256 d = Ok (Some r))
  /\ (forall p d r, p ∈ [plan; run; upload] -> occurs d (VDict p) -> _reference_from_dict sha256 d = Ok (Some r) ->
        reference_key r ∈ map reference_key refs).
Proof.
  intros H. apply extract_loop in H as (H1 & _ & H3 & H4); [|apply NoDup_nil_2]. split_and!; [done| |].
  - intros r Hr. destruct (H4 r Hr) as [[]%elem_of_nil|(d & Hd & He)].
    apply elem_of_concat in Hd as (l & (p & -> & Hp)%list_elem_of_fmap & Hd). exists p, d.
    split; [done|]. by rewrite <- walk_dicts_occurs.
  - intros p d r Hp Hd%walk_dicts_occurs Hr. apply (H3 d); [|done]. apply elem_of_concat.
    exists (_walk_dicts (VDict p)). split; [|done]. apply list_elem_of_fmap. by exists p.
Qed.

End Extraction.

(** ** The guards are exact *)

Section Guards.
Implicit Types (refs : list MaterialReference).

(** What the ledger says about one earlier use. *)
Definition repeats (lane account : option uuid) (references : list MaterialReference) (now : datetime)
    (row : MaterialUsageLedger) : Prop :=
  (is_Some lane /\ ml_topic_lane_id row = lane /\ ml_segment_signature row <> ""
   /\ (exists r, r ∈ references /\ mr_segment_signature r = ml_segment_signature row)
   /\ (now - 7 * DAY_US <= ml_used_at row)%Z)
  \/ (is_Some account /\ ml_publishing_account_id row = account
      /\ (exists r, r ∈ references /\ mr_material_id r = ml_material_id row)
      /\ (now - 14 * DAY_US <= ml_used_at row)%Z).

Definition used_by_sibling (account : option uuid) (references : list MaterialReference) (now : datetime)
    (row : MaterialUsageLedger) : Prop :=
  is_Some account /\ is_Some (ml_publishing_account_id row) /\ ml_publishing_account_id row <> account
  /\ (exists r, r ∈ references /\ mr_material_id r = ml_material_id row)
  /\ (now - 30 * DAY_US <= ml_used_at row)%Z.

Lemma elem_of_field {A B} (f : A -> B) (l : list A) b : b ∈ map f l <-> exists a, a ∈ l /\ f a = b.
Proof. rewrite list_elem_of_fmap. naive_solver. Qed.

Lemma repetition_row lane account refs now row :
  "repetition_rejected" ∈ map fst (row_hits lane account (map mr_material_id refs)
      (List.filter (fun s => negb (is_empty s)) (map mr_segment_signature refs)) now row)
  <-> repeats lane account refs now row.
Proof.
  assert (Hs : forall b1 b2 b3 : bool, forall h1 h2 h3 : config,
    "repetition_rejected" ∈ map fst ((if b1 then [("repetition_rejected", h1)] else [])
      ++ (if b2 then [("repetition_rejected", h2)] else [])
      ++ (if b3 then [("cross_account_rejected", h3)] else [])) <-> b1 = true \/ b2 = true).
  { intros [] [] [] h1 h2 h3; simpl; rewrite ?elem_of_cons, ?elem_of_nil; naive_solver. }
  unfold row_hits. rewrite Hs. unfold repeats, same_lane_hit, same_account_hit. f_equiv.
  - destruct lane as [l|]; [|split; [done|by intros [[] _]]].
    rewrite !andb_true_iff, !bool_decide_eq_true, Z.leb_le, list_elem_of_In, filter_In, <- list_elem_of_In, elem_of_field.
    unfold same_lane_window, is_empty. destruct (ml_segment_signature row); simpl; naive_solver.
  - destruct account as [a|]; [|split; [done|by intros [[] _]]].
    rewrite !andb_true_iff, !bool_decide_eq_true, Z.leb_le, elem_of_field. unfold same_account_window. naive_solver.
Qed.

Lemma sibling_row lane account refs now row sigs :
  "cross_account_rejected" ∈ map fst (row_hits lane account (map mr_material_id refs) sigs now row)
  <-> used_by_sibling account refs now row.
Proof.
  assert (Hs : forall b1 b2 b3 : bool, forall h1 h2 h3 : config,
    "cross_account_rejected" ∈ map fst ((if b1 then [("repetition_rejected", h1)] else [])
      ++ (if b2 then [("repetition_rejected", h2)] else [])
      ++ (if b3 then [("cross_account_rejected", h3)] else [])) <-> b3 = true).
  { intros [] [] [] h1 h2 h3; simpl; rewrite ?elem_of_cons, ?elem_of_nil; naive_solver. }
  unfold row_hits. rewrite Hs. unfold used_by_sibling, sibling_hit.
  destruct account as [a|]; [|split; [done|by intros [[] _]]].
  destruct (ml_publishing_account_id row) as [b|]; [|split; [done|by intros (_ & [] & _)]].
  rewrite !andb_true_iff, negb_true_iff, bool_decide_eq_false, bool_decide_eq_true, Z.leb_le, elem_of_field.
  unfold sibling_account_window. naive_solver.
Qed.

(** The flags, row by row. *)
Lemma recent_usage_rows (ledger : list MaterialUsageLedger) (channel_id : string) (lane_id account_id : option string)
    (channel : uuid) refs (now : datetime) :
  refs <> [] -> _uuid_or_none channel_id = Some channel ->
  let result := recent_usage_flags ledger channel_id lane_id account_id refs now in
  let lane := lane_id ≫= _uuid_or_none in
  let account := account_id ≫= _uuid_or_none in
  (ug_repetition_rejected result = true
     <-> exists row, row ∈ ledger /\ ml_channel_profile_id row = channel /\ repeats lane account refs now row)
  /\ (ug_cross_account_rejected result = true
     <-> exists row, row ∈ ledger /\ ml_channel_profile_id row = channel /\ used_by_sibling account refs now row).
Proof.
  intros Hr Hc result lane account. unfold result, recent_usage_flags. destruct refs as [|r0 rs]; [done|].
  remember (r0 :: rs) as refs. rewrite Hc. cbn [ug_repetition_rejected ug_cross_account_rejected].
  rewrite !bool_decide_eq_true.
  assert (Hmap : forall g (P : MaterialUsageLedger -> Prop),
    (forall row, g ∈ map fst (row_hits lane account (map mr_material_id refs)
        (List.filter (fun s => negb (is_empty s)) (map mr_segment_signature refs)) now row) <-> P row) ->
    (forall row, P row -> (now - 30 * DAY_US <= ml_used_at row)%Z) ->
    g ∈ map fst (concat (map (row_hits lane account (map mr_material_id refs)
        (List.filter (fun s => negb (is_empty s)) (map mr_segment_signature refs)) now)
        (List.filter (fun r => bool_decide (ml_channel_profile_id r = channel)
           && (now - Z.max (Z.max same_lane_window same_account_window) sibling_account_window <=? ml_used_at r)%Z) ledger)))
    <-> exists row, row ∈ ledger /\ ml_channel_profile_id row = channel /\ P row).
  { intros g P HP Hw. rewrite elem_of_field. split.
    - intros (h & (l & (row & -> & Hrow)%list_elem_of_fmap & Hh)%elem_of_concat & <-).
      apply list_elem_of_In, filter_In in Hrow as [Hrow%list_elem_of_In [Hch%bool_decide_eq_true _]%andb_true_iff].
      exists row. split_and!; [done..|]. apply HP, elem_of_field. by exists h.
    - intros (row & Hrow & Hch & H). apply HP in H as Hh. apply elem_of_field in Hh as (h & Hh & <-). exists h.
      split; [|done]. apply elem_of_concat. eexists. split; [|exact Hh]. apply list_elem_of_fmap. exists row.
      split; [done|]. apply list_elem_of_In, filter_In. split; [by apply list_elem_of_In|].
      rewrite bool_decide_true by done. simpl. apply Z.leb_le. specialize (Hw _ H).
      assert (Z.max (Z.max same_lane_window same_account_window) sibling_account_window = 30 * DAY_US)%Z as -> by done. lia. }
  split; apply Hmap.
  - apply repetition_row.
  - intros row [(_ & _ & _ & _ & ?)|(_ & _ & _ & ?)]; unfold DAY_US in *; lia.
  - intros row. apply sibling_row.
  - intros row (_ & _ & _ & _ & ?). lia.
Qed.

(** The guard of recent use is exact: for a channel, lane and account given by their
    identifiers, [recent_usage_flags] rejects for repetition iff a row of the channel
    repeats a segment in the lane within 7 days or a material of the account within
    14, and across accounts iff another account used a material within 30 days. *)
Theorem recent_usage_exact (ledger : list MaterialUsageLedger) (channel_id : string) (lane_id account_id : option string)
    (channel : uuid) refs (now : datetime) :
  refs <> [] -> _uuid_or_none channel_id = Some channel ->
  let result := recent_usage_flags ledger channel_id lane_id account_id refs now in
  let lane := lane_id ≫= _uuid_or_none in
  let account := account_id ≫= _uuid_or_none in
  (ug_repetition_rejected result = true
     <-> exists row, row ∈ ledger /\ ml_channel_profile_id row = channel /\ repeats lane account refs now row)
  /\ (ug_cross_account_rejected result = true
     <-> exists row, row ∈ ledger /\ ml_channel_profile_id row = channel /\ used_by_sibling account refs now row).
Proof. exact (recent_usage_rows ledger channel_id lane_id account_id channel refs now). Qed.
End Guards.

(** Seconds are converted by [int(float(v) * 1000)], and only [TypeError] and
    [ValueError] are caught: an infinite number of seconds raises. *)
Lemma infinite_seconds_raise sha256 :
  extract_material_references sha256 [] []
    [("material_refs", VList [VDict [("material_id", VStr "m1"); ("start_sec", VStr "inf")]])] = Raise OverflowError.
Proof. vm_compute. reflexivity. Qed.

Definition demo_uuid (n : Z) : uuid := uuid_str n.

Definition used_row (id material : string) (account : Z) (used_at : datetime) : MaterialUsageLedger :=
  {| ml_id := id; ml_material_id := material; ml_asset_id := None; ml_channel_profile_id := demo_uuid 1;
     ml_topic_lane_id := Some (demo_uuid 2); ml_publishing_account_id := Some (demo_uuid account);
     ml_publication_id := Some (demo_uuid 9); ml_used_at := used_at; ml_segment_signature := "sig-" +:+ material;
     ml_metadata_json := [] |}.

Definition reference_to (material : string) : MaterialReference :=
  {| mr_material_id := material; mr_asset_id := None; mr_start_ms := None; mr_end_ms := None;
     mr_segment_signature := "other"; mr_metadata := [] |}.

Lemma recent_usage_exact_witness :
  let result := recent_usage_flags [used_row "u1" "m1" 3 0; used_row "u2" "m2" 4 0] (demo_uuid 1)
                  (Some (demo_uuid 2)) (Some (demo_uuid 3)) [reference_to "m2"] (20 * DAY_US)%Z in
  ug_repetition_rejected result = false /\ ug_cross_account_rejected result = true.
Proof.
  pose proof (recent_usage_exact [used_row "u1" "m1" 3 0; used_row "u2" "m2" 4 0] (demo_uuid 1)
    (Some (demo_uuid 2)) (Some (demo_uuid 3)) (demo_uuid 1) [reference_to "m2"] (20 * DAY_US)%Z
    ltac:(done) ltac:(vm_compute; reflexivity)) as [_ H].
  split; [vm_compute; reflexivity|]. apply H. exists (used_row "u2" "m2" 4 0). split; [set_solver|].
  split; [done|]. split_and!; [by eexists|by eexists|by vm_compute| |vm_compute; done].
  exists (reference_to "m2"). split; [set_solver|done].
Defined.
