(* ===== verification/PlanApproval.v ===== *)
(** * Approval of AutoFlow plans ([autoflow/service.py], migration 026)

    A plan is approved by a reviewer or by the agent, for its content as it is: the
    approval stores a digest of the content and the number of the revision.  Every write
    compares the digests before and after and drops approvals on a change; in the
    database a trigger does the same with the columns.  Execution asks whether the
    approval is for the content there is. *)

From stdpp Require Import base tactics list strings relations.
From Stdlib Require Import ZArith Lia SpecFloat.
From coqutil Require Import Datatypes.RecordSetters.
From S2P Require Import Prelude PyStr PyValue PyJson PyTime PyUuid Pipeline JobModel.
Import TriangleBracketNotations.

Open Scope string_scope.
Open Scope list_scope.

(** ** Plans *)

(** The parts of a plan that say what is executed, as JSON. *)
Record PlanContent := {
  pc_request : config;
  pc_intent : config;
  pc_template_id : string;
  pc_definition : config;
  pc_storyboard : pyval;
  pc_candidates : list pyval;
  pc_metadata : config;
  pc_validation : config }.

(** [AutoFlowPlan], as the schema and as the row; [needs_review] and [warnings] are
    computed from the other fields. *)
Record Plan := {
  pl_id : uuid;
  pl_content : PlanContent;
  pl_rights : config;
  pl_status : string;
  pl_execution_revision : Z;
  pl_review_approved_at : option datetime;
  pl_approved_revision_hash : option string;
  pl_approved_revision : option Z;
  pl_public_approved_at : option datetime;
  pl_agent_approved_by : option string;
  pl_review_notes : option string;
  pl_rejected_reason : option string }.

Definition publish_mode (p : Plan) : string := py_str (dict_get (pc_request (pl_content p)) "publish_mode").

(** [rights.get("status") == s]. *)
Definition rights_are (rights : config) (s : string) : bool := is_str (dict_get rights "status") s.

(** A string that is there and not empty. *)
Definition truthy_text (s : option string) : bool := match s with Some s => negb (is_empty s) | None => false end.
Definition is_some {A} (o : option A) : bool := match o with Some _ => true | None => false end.

Definition _status_for (rights : config) (mode : string) (review_approved_at public_approved_at : option datetime)
    (agent_approved_by : option string) : string :=
  if rights_are rights "blocked" then "blocked"
  else if is_some public_approved_at then "public_approved"
  else if is_some review_approved_at || truthy_text agent_approved_by then "review_approved"
  else if rights_are rights "review_required" || (mode =? "public_after_review")%string then "review_required"
  else "drafted".

Definition _needs_review (rights : config) (review_approved_at : option datetime) (agent_approved_by : option string) : bool :=
  negb (rights_are rights "allowed") && negb (is_some review_approved_at) && negb (truthy_text agent_approved_by).

Definition UPLOAD_MODES : list string := ["private_upload"; "unlisted_upload"; "public_after_review"].

Definition _requires_review_approval (p : Plan) : bool :=
  rights_are (pl_rights p) "review_required" || bool_decide (publish_mode p ∈ UPLOAD_MODES).

Definition _assert_not_blocked_or_rejected (p : Plan) (action : string) : Res unit :=
  if (pl_status p =? "blocked")%string || rights_are (pl_rights p) "blocked"
  then Raise (PermissionError ("Blocked AutoFlow plan cannot " +:+ action))
  else if (pl_status p =? "rejected")%string then Raise (PermissionError ("Rejected AutoFlow plan cannot " +:+ action))
  else Ok tt.

(** ** Revisions *)

Definition APPROVAL_FIELDS : list string := ["review_approved"; "public_approved"; "agent_approval"; "publish_allowed"].

(** The rights without what approvals write into them. *)
Definition canonical_rights (rights : config) : config := fold_left dpop APPROVAL_FIELDS rights.

Definition execution_revision_payload (p : Plan) : config :=
  let c := pl_content p in
  [("request", VDict (pc_request c)); ("intent", VDict (pc_intent c)); ("template_id", VStr (pc_template_id c));
   ("pipeline_definition", VDict (pc_definition c)); ("storyboard", pc_storyboard c); ("candidates", VList (pc_candidates c));
   ("metadata", VDict (pc_metadata c)); ("validation", VDict (pc_validation c));
   ("rights", VDict (canonical_rights (pl_rights p)))].

Definition _rights_without_approval_state (rights : config) (mode : string) : config :=
  let cleaned := dpop (dpop (dpop rights "review_approved") "public_approved") "agent_approval" in
  if (mode =? "public_after_review")%string then cleaned.["publish_allowed" <- VBool false] else cleaned.

(** Equality of [jsonb] values: numbers by value, objects regardless of order. *)
Fixpoint jsonb_eq (a b : pyval) : bool :=
  match a, b with
  | VNone, VNone => true
  | VStr s, VStr t => (s =? t)%string
  | VBool x, VBool y => Bool.eqb x y
  | VInt x, VInt y => (x =? y)%Z
  | VInt z, VFloat f | VFloat f, VInt z => int_eq_float z f
  | VFloat f, VFloat g => feqb f g
  | VList l, VList k =>
      (fix list_eq (l k : list pyval) :=
         match l, k with
         | [], [] => true
         | x :: l', y :: k' => jsonb_eq x y && list_eq l' k'
         | _, _ => false
         end) l k
  | VDict d, VDict e =>
      (length d =? length e)%nat
      && (fix dict_eq (d : list (string * pyval)) :=
            match d with
            | [] => true
            | (k, x) :: d' => match dget e k with Some y => jsonb_eq x y | None => false end && dict_eq d'
            end) d
  | _, _ => false
  end.

(** [canonical_changed] of the trigger; the prompt is part of the request. *)
Definition content_eq (a b : PlanContent) : bool :=
  jsonb_eq (VDict (pc_request a)) (VDict (pc_request b)) && jsonb_eq (VDict (pc_intent a)) (VDict (pc_intent b))
  && (pc_template_id a =? pc_template_id b)%string && jsonb_eq (VDict (pc_definition a)) (VDict (pc_definition b))
  && jsonb_eq (pc_storyboard a) (pc_storyboard b) && jsonb_eq (VList (pc_candidates a)) (VList (pc_candidates b))
  && jsonb_eq (VDict (pc_metadata a)) (VDict (pc_metadata b)) && jsonb_eq (VDict (pc_validation a)) (VDict (pc_validation b)).

Definition canonical_changed (old new : Plan) : bool :=
  negb (content_eq (pl_content old) (pl_content new)
        && jsonb_eq (VDict (canonical_rights (pl_rights old))) (VDict (canonical_rights (pl_rights new)))).

(** Texts of values that are not strings are not these words. *)
Definition invalid_state (p : Plan) : bool :=
  bool_decide (lower (pl_status p) ∈ ["blocked"; "rejected"])
  || match dict_get (pl_rights p) "status" with VStr s => bool_decide (lower s ∈ ["blocked"; "rejected"]) | _ => false end.

Definition approval_written (p : Plan) : bool :=
  is_some (pl_review_approved_at p) || is_some (pl_public_approved_at p) || is_some (pl_agent_approved_by p)
  || is_some (pl_approved_revision_hash p) || is_some (pl_approved_revision p).

Definition clear_approval (p : Plan) : Plan :=
  p <| pl_review_approved_at := None |> <| pl_public_approved_at := None |> <| pl_agent_approved_by := None |>
    <| pl_approved_revision_hash := None |> <| pl_approved_revision := None |>.

(** The trigger [autoflow_plan_authority_fence] on the row before and the row written. *)
Definition autoflow_plan_authority_fence (old : option Plan) (new : Plan) : Plan :=
  let '(new, changed) :=
    match old with
    | None => (new <| pl_execution_revision := 1%Z |>, false)
    | Some old =>
        let changed := canonical_changed old new in
        (new <| pl_execution_revision := if changed then (pl_execution_revision old + 1)%Z else pl_execution_revision old |>,
         changed)
    end in
  if changed || invalid_state new
     || (approval_written new && negb (bool_decide (pl_approved_revision new = Some (pl_execution_revision new))))
  then clear_approval new <| pl_rights ::= canonical_rights |>
  else new.

(** ** The service *)

Section Service.
Context (sha256 : string -> string) (postgres : bool).
(** [RightsPolicy.evaluate] of the request as a preview and the candidates: its status. *)
Context (automatic_rights : config -> list pyval -> string).

Definition execution_revision_hash (p : Plan) : string := sha256 (json_dumps json_compact (VDict (execution_revision_payload p))).

Definition _invalidate_approval_for_revision_change (previous updated : Plan) : Plan :=
  if (execution_revision_hash previous =? execution_revision_hash updated)%string then updated
  else
    let rights := _rights_without_approval_state (pl_rights updated) (publish_mode updated) in
    clear_approval updated <| pl_rights := rights |>
      <| pl_status := _status_for rights (publish_mode updated) None None None |>.

Definition find_plan (id : uuid) (db : list Plan) : option Plan := find (fun p => (pl_id p =? id)%string) db.

Definition put_plan (p : Plan) (db : list Plan) : list Plan :=
  map (fun q => if (pl_id q =? pl_id p)%string then p else q) db.

(** The row a write of [plan] over [previous] leaves. *)
Definition written_row (previous : option Plan) (plan : Plan) : Plan :=
  if postgres then autoflow_plan_authority_fence previous plan
  else
    match previous with
    | None => plan <| pl_execution_revision := 1%Z |>
    | Some prev =>
        plan <| pl_execution_revision :=
                  if (execution_revision_hash prev =? execution_revision_hash plan)%string then pl_execution_revision prev
                  else (pl_execution_revision prev + 1)%Z |>
    end.

Definition _planning_provenance (request : config) : pyval :=
  VDict [("requested_mode", dict_get request "planning_mode"); ("effective_mode", VStr "template"); ("provider_used", VNone);
         ("fallback_reason", VNone);
         ("source", if truthy (dict_get (match dict_get request "constraints" with VDict c => c | _ => [] end) "channelops")
                    then VStr "owned_inventory" else VNone)].

Definition with_planning (c : PlanContent) : PlanContent :=
  match (pc_validation c).[? "planning"] with
  | Some _ => c
  | None => c <| pc_validation ::= fun v => v.["planning" <- _planning_provenance (pc_request c)] |>
  end.

Definition _save_plan (plan : Plan) (db : list Plan) : Res (Plan * list Plan) :=
  match find_plan (pl_id plan) db with
  | Some previous =>
      if negb (pl_execution_revision plan =? pl_execution_revision previous)%Z
      then Raise (ValueError "AutoFlow plan changed concurrently; reload before writing")
      else
        let row := written_row (Some previous) (_invalidate_approval_for_revision_change previous plan) in
        Ok (row, put_plan row db)
  | None =>
      let row := written_row None (plan <| pl_content ::= with_planning |>) in
      Ok (row, db ++ [row])
  end.

(** Approving the content as it is. *)
Definition approve_revision (p : Plan) : Plan :=
  p <| pl_approved_revision_hash := Some (execution_revision_hash p) |> <| pl_approved_revision := Some (pl_execution_revision p) |>.

(** A write to a plan that is there; [None] when it is not. *)
Definition on_plan (id : uuid) (f : Plan -> Res Plan) (db : list Plan) : Res (option Plan * list Plan) :=
  match find_plan id db with
  | None => Ok (None, db)
  | Some plan =>
      updated ← f plan;
      r ← _save_plan updated db;
      Ok (Some r.1, r.2)
  end.

Definition approve_internal (id : uuid) (approved_by : string) (evidence : config) : list Plan -> Res (option Plan * list Plan) :=
  on_plan id (fun plan =>
    _ ← _assert_not_blocked_or_rejected plan "approve internally";
    if negb (automatic_rights (pc_request (pl_content plan)) (pc_candidates (pl_content plan)) =? "allowed")%string
    then Raise (PermissionError "Candidate rights require explicit human review before internal approval")
    else
      let rights := (pl_rights plan).["review_approved" <- VBool true]
                      .["agent_approval" <- VDict [("approved_by", VStr approved_by); ("evidence", VDict evidence)]] in
      Ok (approve_revision
            (plan <| pl_rights := rights |>
               <| pl_status := _status_for rights (publish_mode plan) (pl_review_approved_at plan) (pl_public_approved_at plan)
                                 (Some approved_by) |>
               <| pl_agent_approved_by := Some approved_by |> <| pl_rejected_reason := None |>))).

Definition approve (id : uuid) (now : datetime) (review_notes : option string) : list Plan -> Res (option Plan * list Plan) :=
  on_plan id (fun plan =>
    _ ← _assert_not_blocked_or_rejected plan "approve";
    let rights := (pl_rights plan).["review_approved" <- VBool true] in
    Ok (approve_revision
          (plan <| pl_rights := rights |>
             <| pl_status := _status_for rights (publish_mode plan) (Some now) (pl_public_approved_at plan) None |>
             <| pl_review_approved_at := Some now |> <| pl_agent_approved_by := None |> <| pl_review_notes := review_notes |>
             <| pl_rejected_reason := None |>))).

Definition approve_public (id : uuid) (now : datetime) (review_notes : option string) : list Plan -> Res (option Plan * list Plan) :=
  on_plan id (fun plan =>
    _ ← _assert_not_blocked_or_rejected plan "approve public publication";
    if _requires_review_approval plan && negb (is_some (pl_review_approved_at plan) || truthy_text (pl_agent_approved_by plan))
    then Raise (PermissionError "AutoFlow plan requires review approval before public approval")
    else
      let rights := (pl_rights plan).["review_approved" <- VBool true].["public_approved" <- VBool true]
                      .["publish_allowed" <- VBool true] in
      Ok (approve_revision
            (plan <| pl_rights := rights |> <| pl_status := "public_approved" |>
               <| pl_review_approved_at := Some (default now (pl_review_approved_at plan)) |>
               <| pl_public_approved_at := Some now |>
               <| pl_review_notes := match review_notes with Some n => Some n | None => pl_review_notes plan end |>
               <| pl_rejected_reason := None |>))).

Definition reject (id : uuid) (rejected_reason : option string) : list Plan -> Res (option Plan * list Plan) :=
  on_plan id (fun plan =>
    Ok (clear_approval plan <| pl_status := "rejected" |>
          <| pl_rejected_reason := Some (if truthy_text rejected_reason then default "" rejected_reason else "Rejected by reviewer") |>)).

(** [patch_plan] from the patched parts on: [content] and [rights] are what the patch,
    the builder, the validation and the rights policy make of the plan, and [approvals]
    of the plan are carried over for the save to judge. *)
Definition patch_plan (id : uuid) (content : PlanContent) (rights : config) : list Plan -> Res (option Plan * list Plan) :=
  on_plan id (fun plan =>
    let patched := plan <| pl_content := content |> <| pl_rights := rights |> in
    Ok (patched <| pl_status := _status_for rights (publish_mode patched) (pl_review_approved_at plan)
                                  (pl_public_approved_at plan) (pl_agent_approved_by plan) |>
          <| pl_rejected_reason := None |>)).

(** Execution marks the row; the trigger sees the write. *)
Definition mark_executed (id : uuid) (db : list Plan) : list Plan :=
  match find_plan id db with
  | None => db
  | Some row =>
      let new := row <| pl_status := "executed" |> in
      put_plan (if postgres then autoflow_plan_authority_fence (Some row) new else new) db
  end.

Definition _assert_execute_allowed (p : Plan) : Res unit :=
  if truthy (VDict (pc_validation (pl_content p)))
     && match dict_get (pc_validation (pl_content p)) "valid" with VBool true => false | _ => true end
  then Raise (PermissionError "AutoFlow plan must have a valid workflow before execution")
  else if (pl_status p =? "blocked")%string || rights_are (pl_rights p) "blocked"
  then Raise (PermissionError "AutoFlow plan is blocked by rights policy")
  else if (pl_status p =? "rejected")%string then Raise (PermissionError "AutoFlow plan was rejected and cannot be executed")
  else
    let upload_requested := bool_decide (publish_mode p ∈ UPLOAD_MODES) in
    let review_approved := is_some (pl_review_approved_at p) || truthy_text (pl_agent_approved_by p) in
    if review_approved
       && negb (truthy_text (pl_approved_revision_hash p)
                && bool_decide (pl_approved_revision_hash p = Some (execution_revision_hash p))
                && bool_decide (pl_approved_revision p = Some (pl_execution_revision p)))
    then Raise (PermissionError "AutoFlow plan approval does not match the current execution revision")
    else if rights_are (pl_rights p) "review_required" && upload_requested && negb review_approved
    then Raise (PermissionError "AutoFlow plan requires review approval before upload execution")
    else if (publish_mode p =? "public_after_review")%string && negb (is_some (pl_public_approved_at p))
    then Raise (PermissionError "AutoFlow plan requires public approval before public execution")
    else Ok tt.

Definition _assert_expected_execute_authority (p : Plan) (expected : option (string * Z)) : Res unit :=
  match expected with
  | None => Ok tt
  | Some (hash, revision) =>
      if bool_decide (pl_approved_revision_hash p = Some hash) && bool_decide (pl_approved_revision p = Some revision)
         && bool_decide (pl_approved_revision p = Some (pl_execution_revision p))
      then Ok tt
      else Raise (ValueError "AutoFlow expected approved revision does not match current plan authority")
  end.

(** ** Histories *)

Inductive plan_op :=
| OpPatch (content : PlanContent) (rights : config)
| OpApproveInternal (approved_by : string) (evidence : config)
| OpApprove (now : datetime) (review_notes : option string)
| OpApprovePublic (now : datetime) (review_notes : option string)
| OpReject (reason : option string)
| OpExecuted.

(** The database after an operation on a plan; one that raises changes nothing. *)
Definition run_op (id : uuid) (op : plan_op) (db : list Plan) : list Plan :=
  match op with
  | OpPatch content rights => (ok_or (None, db) (patch_plan id content rights db)).2
  | OpApproveInternal by_ evidence => (ok_or (None, db) (approve_internal id by_ evidence db)).2
  | OpApprove now notes => (ok_or (None, db) (approve id now notes db)).2
  | OpApprovePublic now notes => (ok_or (None, db) (approve_public id now notes db)).2
  | OpReject reason => (ok_or (None, db) (reject id reason db)).2
  | OpExecuted => mark_executed id db
  end.

Definition is_approval (op : plan_op) : bool :=
  match op with OpApproveInternal _ _ | OpApprove _ _ | OpApprovePublic _ _ => true | _ => false end.
Definition is_public (op : plan_op) : bool := match op with OpApprovePublic _ _ => true | _ => false end.

(** The log holds what a reviewer or the agent saw: the operation and the plan it was applied to. *)
Definition run_logged (id : uuid) (s : list Plan * list (plan_op * Plan)) (op : plan_op) : list Plan * list (plan_op * Plan) :=
  (run_op id op s.1,
   if is_approval op then match find_plan id s.1 with Some p => s.2 ++ [(op, p)] | None => s.2 end else s.2).

(** A plan as planning saves it, then any operations. *)
Definition history (p : Plan) (ops : list plan_op) : list Plan * list (plan_op * Plan) :=
  fold_left (run_logged (pl_id p)) ops ((ok_or (p, []) (_save_plan p [])).2, []).
End Service.

(** ** Digests *)

Lemma canonical_rights_filter d : canonical_rights d = List.filter (fun p => bool_decide (p.1 ∉ APPROVAL_FIELDS)) d.
Proof.
  unfold canonical_rights, APPROVAL_FIELDS, dpop. simpl. induction d as [|[k v] d IH]; simpl; [done|].
  repeat (case_bool_decide; simpl); try (by rewrite IH); try (f_equal; exact IH); exfalso;
    rewrite ?elem_of_cons, ?elem_of_nil in *; naive_solver.
Qed.

Lemma canonical_rights_set d k v : k ∈ APPROVAL_FIELDS -> canonical_rights (d.[k <- v]) = canonical_rights d.
Proof.
  intros Hk. rewrite !canonical_rights_filter. induction d as [|[k' v'] d IH]; simpl.
  - by rewrite bool_decide_eq_false_2 by (intros Hn; exact (Hn Hk)).
  - case_decide as Hkk; simpl.
    + subst k'. by rewrite bool_decide_eq_false_2 by (intros Hn; exact (Hn Hk)).
    + by rewrite IH.
Qed.

Lemma canonical_rights_idemp d : canonical_rights (canonical_rights d) = canonical_rights d.
Proof.
  rewrite !canonical_rights_filter. induction d as [|[k v] d IH]; simpl; [done|].
  case_bool_decide as Hk; simpl; [|done]. rewrite bool_decide_eq_true_2 by exact Hk. by rewrite IH.
Qed.

(** ** The table of plans *)

Lemma find_plan_id id db row : find_plan id db = Some row -> pl_id row = id.
Proof. intros [_ H]%find_some. by apply String.eqb_eq. Qed.

Lemma find_put_plan id row' db :
  find_plan id (put_plan row' db) = if (pl_id row' =? id)%string then (fun _ => row') <$> find_plan id db else find_plan id db.
Proof.
  unfold find_plan, put_plan. induction db as [|q db IH]; cbn [find map]; [by destruct (_ =? _)%string|].
  destruct (String.eqb_spec (pl_id q) (pl_id row')) as [He|Hne].
  - rewrite He. destruct (String.eqb_spec (pl_id row') id); [done|]. exact IH.
  - destruct (String.eqb_spec (pl_id q) id) as [Hq|Hq]; [|exact IH].
    destruct (String.eqb_spec (pl_id row') id); [congruence|done].
Qed.

Lemma put_same id db row : NoDup (map pl_id db) -> find_plan id db = Some row -> put_plan row db = db.
Proof.
  intros Hnd Hf. pose proof (find_plan_id _ _ _ Hf) as Hid. apply find_some in Hf as [Hin%list_elem_of_In _]. unfold put_plan.
  rewrite <- (map_id db) at 2. apply map_ext_in. intros q Hq%list_elem_of_In.
  destruct (String.eqb_spec (pl_id q) (pl_id row)); [|done]. by apply (NoDup_map_inj pl_id db).
Qed.

Section Facts.
Context (sha256 : string -> string) (postgres : bool) (automatic_rights : config -> list pyval -> string).
#[local] Abbreviation digest := (execution_revision_hash sha256).
#[local] Abbreviation saved := (fun row updated => written_row sha256 postgres (Some row) (_invalidate_approval_for_revision_change sha256 row updated)).

Lemma digest_ext p q :
  pl_content p = pl_content q -> canonical_rights (pl_rights p) = canonical_rights (pl_rights q) -> digest p = digest q.
Proof. intros Hc Hr. unfold execution_revision_hash, execution_revision_payload. by rewrite Hc, Hr. Qed.

(** A digest names the content, unless two texts collide. *)
Definition collision : Prop := exists a b, a <> b /\ sha256 a = sha256 b.
Definition same_payload (p q : Plan) : Prop :=
  json_tree (VDict (execution_revision_payload p)) = json_tree (VDict (execution_revision_payload q)).

Lemma digest_names_content p q : digest p = digest q -> same_payload p q \/ collision.
Proof.
  intros Heq. set (t := fun p => json_dumps json_compact (VDict (execution_revision_payload p))).
  destruct (decide (t p = t q)) as [Ht|Ht]; [left|right; by exists (t p), (t q)].
  exact (sorted_dumps_inj true _ _ Ht).
Qed.

Lemma cleared_unwritten p : approval_written (clear_approval p) = false.
Proof. reflexivity. Qed.

(** A write keeps what it was given for the same content, or leaves no approval. *)
Lemma saved_cases row updated :
  pl_execution_revision updated = pl_execution_revision row ->
  pl_id (saved row updated) = pl_id updated
  /\ (approval_written (saved row updated) = false
      \/ digest row = digest updated /\ saved row updated = updated).
Proof.
  intros Hrev. unfold _invalidate_approval_for_revision_change.
  destruct (digest row =? digest updated)%string eqn:Hd; unfold written_row.
  - pose proof (proj1 (String.eqb_eq _ _) Hd) as Hdd. destruct postgres.
    + unfold autoflow_plan_authority_fence. destruct (canonical_changed row updated); cbn [orb].
      { split; [reflexivity|left; reflexivity]. }
      match goal with |- context [if ?c then _ else _] => destruct c end.
      { split; [reflexivity|left; reflexivity]. }
      split; [reflexivity|right]. split; [exact Hdd|]. rewrite <- Hrev. by destruct updated.
    + rewrite Hd. split; [reflexivity|right]. split; [exact Hdd|]. rewrite <- Hrev. by destruct updated.
  - split; [|left]; destruct postgres; unfold autoflow_plan_authority_fence;
      try (match goal with |- context [if ?c then _ else _] => destruct c end); reflexivity.
Qed.

(** What one operation leaves of a plan's approvals. *)
Definition approved_as_is (row : Plan) : Prop :=
  pl_approved_revision_hash row = Some (digest row) /\ pl_approved_revision row = Some (pl_execution_revision row).

Definition op_outcome (op : plan_op) (row row' : Plan) : Prop :=
  approval_written row' = false
  \/ digest row = digest row' /\ pl_execution_revision row' = pl_execution_revision row
     /\ (is_some (pl_public_approved_at row') = true -> is_public op = true \/ is_some (pl_public_approved_at row) = true)
     /\ (is_approval op = true /\ approved_as_is row'
         \/ approval_written row' = approval_written row
            /\ pl_approved_revision_hash row' = pl_approved_revision_hash row
            /\ pl_approved_revision row' = pl_approved_revision row).

Lemma outcome_refl op row : op_outcome op row row.
Proof. right. repeat split; auto. Qed.

(** A method that updates a plan: the row it saves, when what it makes of the plan has the outcome. *)
Lemma on_plan_outcome op id f db row :
  NoDup (map pl_id db) -> find_plan id db = Some row ->
  (forall u, f row = Ok u ->
     pl_id u = id /\ pl_execution_revision u = pl_execution_revision row /\ (digest row = digest u -> op_outcome op row u)) ->
  exists row', (ok_or (None, db) (on_plan sha256 postgres id f db)).2 = put_plan row' db /\ pl_id row' = id /\ op_outcome op row row'.
Proof.
  intros Hnd Hfind Hf. pose proof (find_plan_id _ _ _ Hfind) as Hid. unfold on_plan. rewrite Hfind.
  destruct (f row) as [u|e]; [|exists row; split; [symmetry; by apply (put_same id)|]; split; [done|apply outcome_refl]].
  destruct (Hf u eq_refl) as (Hu & Hrev & Hout). cbn [mbind Res_bind]. unfold _save_plan. rewrite Hu, Hfind, Hrev, Z.eqb_refl.
  cbn [negb]. destruct (saved_cases row u Hrev) as [Hsid Hcases]. exists (saved row u). split; [reflexivity|].
  split; [by rewrite Hsid|]. destruct Hcases as [Hc|[Hd ->]]; [by left | by apply Hout].
Qed.

(** Marking the approval leaves the digest. *)
Lemma approved_outcome op row u :
  is_approval op = true -> digest row = digest u -> pl_execution_revision u = pl_execution_revision row ->
  (is_some (pl_public_approved_at u) = true -> is_public op = true \/ is_some (pl_public_approved_at row) = true) ->
  op_outcome op row (approve_revision sha256 u).
Proof.
  intros Hop Hd Hrev Hpub. right. split; [exact Hd|]. split; [exact Hrev|]. split; [exact Hpub|].
  left. split; [exact Hop|]. split; reflexivity.
Qed.

Lemma executed_outcome id db row : find_plan id db = Some row -> exists row',
  mark_executed postgres id db = put_plan row' db /\ pl_id row' = id /\ op_outcome OpExecuted row row'.
Proof.
  intros Hfind. pose proof (find_plan_id _ _ _ Hfind) as Hid. unfold mark_executed. rewrite Hfind.
  set (new := row <| pl_status := "executed" |>).
  assert (Hkept : op_outcome OpExecuted row new).
  { right. split; [by apply digest_ext|]. split; [reflexivity|]. split; [by right|]. right. repeat split. }
  destruct postgres; [|by exists new]. exists (autoflow_plan_authority_fence (Some row) new). split; [reflexivity|].
  unfold autoflow_plan_authority_fence. destruct (canonical_changed row new); cbn [orb].
  { split; [exact Hid|left; reflexivity]. }
  match goal with |- context [if ?c then _ else _] => destruct c end.
  { split; [exact Hid|left; reflexivity]. }
  split; [exact Hid|]. replace (new <| pl_execution_revision := pl_execution_revision row |>) with new; [exact Hkept|].
  unfold new. by destruct row.
Qed.

Lemma run_op_outcome id op db row :
  NoDup (map pl_id db) -> find_plan id db = Some row ->
  exists row', run_op sha256 postgres automatic_rights id op db = put_plan row' db /\ pl_id row' = id /\ op_outcome op row row'.
Proof.
  intros Hnd Hf. pose proof (find_plan_id _ _ _ Hf) as Hid. destruct op as [content rights|by_ evidence|now notes|now notes|reason|]; cbn [run_op].
  - apply on_plan_outcome; [done..|]. intros u [= <-]. split; [done|]. split; [reflexivity|]. intros Hd. right.
    split; [exact Hd|]. split; [reflexivity|]. split; [by right|]. right. repeat split.
  - apply on_plan_outcome; [done..|]. cbv beta. intros u. destruct (_assert_not_blocked_or_rejected row _); [|discriminate].
    cbn [mbind Res_bind]. destruct (negb _); [discriminate|]. intros [= <-]. split; [done|]. split; [reflexivity|]. intros _.
    apply approved_outcome; [done| |reflexivity|by right]. apply digest_ext; [reflexivity|]. cbn [pl_rights].
    symmetry. etrans; [apply canonical_rights_set; set_solver|apply canonical_rights_set; set_solver].
  - apply on_plan_outcome; [done..|]. cbv beta. intros u. destruct (_assert_not_blocked_or_rejected row _); [|discriminate].
    intros [= <-]. split; [done|]. split; [reflexivity|]. intros _.
    apply approved_outcome; [done| |reflexivity|by right]. apply digest_ext; [reflexivity|].
    symmetry. apply canonical_rights_set; set_solver.
  - apply on_plan_outcome; [done..|]. cbv beta. intros u. destruct (_assert_not_blocked_or_rejected row _); [|discriminate].
    cbn [mbind Res_bind]. destruct (_ && _); [discriminate|]. intros [= <-]. split; [done|]. split; [reflexivity|]. intros _.
    apply approved_outcome; [done| |reflexivity|by left]. apply digest_ext; [reflexivity|].
    symmetry. do 2 (etrans; [apply canonical_rights_set; set_solver|]). apply canonical_rights_set; set_solver.
  - apply on_plan_outcome; [done..|]. intros u [= <-]. split; [done|]. split; [reflexivity|]. intros _. left. reflexivity.
  - by apply executed_outcome.
Qed.

(** The approvals of a row are for its content and revision, and were given. *)
Definition given (public : bool) (log : list (plan_op * Plan)) (row : Plan) : Prop :=
  exists op q, (op, q) ∈ log /\ is_approval op = true /\ (public = true -> is_public op = true)
    /\ digest q = digest row /\ pl_execution_revision q = pl_execution_revision row.

Definition approvals_stand (log : list (plan_op * Plan)) (row : Plan) : Prop :=
  (approval_written row = true -> approved_as_is row /\ given false log row)
  /\ (is_some (pl_public_approved_at row) = true -> given true log row).

Lemma unwritten_stand log row : approval_written row = false -> approvals_stand log row.
Proof.
  intros Hw. split; [congruence|]. intros Hp. unfold approval_written in Hw. rewrite Hp in Hw.
  by destruct (is_some (pl_review_approved_at row)).
Qed.

Lemma given_mono public log entry row row' :
  digest row = digest row' -> pl_execution_revision row' = pl_execution_revision row ->
  given public log row -> given public (log ++ entry) row'.
Proof.
  intros Hd Hr (op & q & Hin & Ha & Hp & Hdq & Hrq). exists op, q. split; [set_solver|]. rewrite <- Hd, Hr. auto.
Qed.

(** The entry an operation adds to the log. *)
Definition log_entry (op : plan_op) (row : Plan) : list (plan_op * Plan) := if is_approval op then [(op, row)] else [].

Lemma outcome_stands op row row' log :
  op_outcome op row row' -> approvals_stand log row -> approvals_stand (log ++ log_entry op row) row'.
Proof.
  intros Hout [Hwritten Hpublic]. destruct Hout as [Hc|(Hd & Hrev & Hpub & Happ)]; [by apply unwritten_stand|].
  assert (Hnow : is_approval op = true -> forall public, (public = true -> is_public op = true) ->
            given public (log ++ log_entry op row) row').
  { intros Ha public Hp. exists op, row. unfold log_entry. rewrite Ha. split; [set_solver|]. rewrite <- Hd. auto. }
  assert (Hkeep : forall public, given public log row -> given public (log ++ log_entry op row) row').
  { intros public Hg. by apply (given_mono public log _ row). }
  split.
  - intros Hw. destruct Happ as [[Ha Has]|(Hwr & Hh & Hr)].
    + split; [exact Has|]. apply Hnow; [exact Ha|discriminate].
    + rewrite Hwr in Hw. destruct (Hwritten Hw) as [[Hh0 Hr0] Hg]. split; [|by apply Hkeep].
      split; [rewrite Hh, Hh0, Hd; reflexivity | rewrite Hr, Hr0, Hrev; reflexivity].
  - intros Hp. destruct (Hpub Hp) as [Hop|Hp0]; [|by apply Hkeep, Hpublic]. apply Hnow; [by destruct op|done].
Qed.

Lemma run_logged_found id op db log row :
  find_plan id db = Some row ->
  run_logged sha256 postgres automatic_rights id (db, log) op
  = (run_op sha256 postgres automatic_rights id op db, log ++ log_entry op row).
Proof.
  intros Hf. unfold run_logged, log_entry. cbn [fst snd]. rewrite Hf. by destruct (is_approval op); rewrite ?app_nil_r.
Qed.

Lemma run_logged_missing id op db log :
  find_plan id db = None -> run_logged sha256 postgres automatic_rights id (db, log) op = (db, log).
Proof.
  intros Hf. unfold run_logged. cbn [fst snd]. rewrite Hf.
  destruct op; cbn [run_op is_approval]; unfold patch_plan, approve_internal, approve, approve_public, reject, on_plan, mark_executed;
    by rewrite Hf.
Qed.

Lemma logged_step id op row log :
  pl_id row = id -> approvals_stand log row ->
  exists row' log', run_logged sha256 postgres automatic_rights id ([row], log) op = ([row'], log')
    /\ pl_id row' = id /\ approvals_stand log' row'.
Proof.
  intros Hid Hst. assert (Hfind : find_plan id [row] = Some row).
  { unfold find_plan. cbn [find]. by rewrite (proj2 (String.eqb_eq _ _) Hid). }
  destruct (run_op_outcome id op [row] row (NoDup_singleton _) Hfind) as (row' & Hrun & Hid' & Hout).
  exists row', (log ++ log_entry op row). split; [|split; [done|by apply outcome_stands]].
  rewrite (run_logged_found id op [row] log row Hfind), Hrun. unfold put_plan. cbn [map].
  by rewrite Hid, Hid', String.eqb_refl.
Qed.

Lemma first_save p db log :
  find_plan (pl_id p) db = None -> approval_written p = false ->
  exists row, _save_plan sha256 postgres p db = Ok (row, db ++ [row]) /\ pl_id row = pl_id p /\ approvals_stand log row.
Proof.
  intros Hf Hp. unfold _save_plan. rewrite Hf. eexists. split; [reflexivity|]. unfold written_row, autoflow_plan_authority_fence.
  destruct postgres; [|split; [reflexivity|by apply unwritten_stand]].
  cbn [orb]. match goal with |- context [if ?c then _ else _] => destruct c end;
    (split; [reflexivity|]); apply unwritten_stand; [reflexivity|exact Hp].
Qed.

(** A row that may be executed, with the approvals it needs given. *)
Lemma execution_given log row :
  approvals_stand log row -> _assert_execute_allowed sha256 row = Ok tt ->
  ((rights_are (pl_rights row) "review_required" = true /\ publish_mode row ∈ UPLOAD_MODES) \/ approval_written row = true ->
   given false log row)
  /\ (publish_mode row = "public_after_review" -> given true log row).
Proof.
  intros [Hw Hpub] Hx.
  assert (Happ : is_some (pl_review_approved_at row) || truthy_text (pl_agent_approved_by row) = true ->
                 approval_written row = true).
  { unfold approval_written. destruct (is_some (pl_review_approved_at row)); [done|].
    destruct (pl_agent_approved_by row); [|done]. intros _. by destruct (is_some (pl_public_approved_at row)). }
  unfold _assert_execute_allowed in Hx.
  repeat match type of Hx with (if ?c then Raise _ else _) = _ => destruct c eqn:?; [discriminate Hx|] end. split.
  - intros Hneed. apply Hw. destruct Hneed as [[Hr Hm]|?]; [|done]. apply Happ.
    apply not_false_is_true. intros Hn. rewrite Hn, Hr, (bool_decide_eq_true_2 _ Hm) in *. discriminate.
  - intros Hm. apply Hpub. apply not_false_is_true. intros Hn. rewrite Hm, Hn in *. discriminate.
Qed.

Lemma given_content public log row : given public log row ->
  exists op q, (op, q) ∈ log /\ is_approval op = true /\ (public = true -> is_public op = true)
    /\ pl_execution_revision q = pl_execution_revision row /\ (same_payload q row \/ collision).
Proof.
  intros (op & q & Hin & Ha & Hpb & Hd & Hr). exists op, q. split; [done|]. split; [done|]. split; [done|].
  split; [done|]. by apply digest_names_content.
Qed.

Lemma history_stands p ops :
  approval_written p = false ->
  exists row log, history sha256 postgres automatic_rights p ops = ([row], log)
    /\ pl_id row = pl_id p /\ approvals_stand log row.
Proof.
  intros Hp. unfold history.
  assert (H0 : exists row0, (ok_or (p, []) (_save_plan sha256 postgres p [])).2 = [row0]
                /\ pl_id row0 = pl_id p /\ approvals_stand [] row0).
  { destruct (first_save p [] [] eq_refl Hp) as (row0 & -> & Hid & Hst). by exists row0. }
  destruct H0 as (row0 & -> & Hid0 & Hst0). generalize (@nil (plan_op * Plan)) row0 Hid0 Hst0. clear row0 Hid0 Hst0.
  induction ops as [|op ops IH]; intros log row Hid Hst; cbn [fold_left]; [by exists row, log|].
  destruct (logged_step (pl_id p) op row log Hid Hst) as (row' & log' & -> & Hid' & Hst'). by apply IH.
Qed.
End Facts.

(** A plan that may be executed was approved as it is: in any history of patches,
    approvals, rejections and executions of a saved plan, on a database with the trigger or
    without, a row that [_assert_execute_allowed] lets through and that uploads material
    whose rights need review, or carries any approval, is one an approval was given for with
    the same revision number and the same canonical content (unless two texts collide under
    the digest); a public one, by a public approval. *)
Theorem executed_content_approved sha256 postgres automatic_rights p ops row log :
  approval_written p = false ->
  history sha256 postgres automatic_rights p ops = ([row], log) ->
  _assert_execute_allowed sha256 row = Ok tt ->
  let approved_as_executed public :=
    exists op q, (op, q) ∈ log /\ is_approval op = true /\ (public = true -> is_public op = true)
      /\ pl_execution_revision q = pl_execution_revision row /\ (same_payload q row \/ collision sha256) in
  ((rights_are (pl_rights row) "review_required" = true /\ publish_mode row ∈ UPLOAD_MODES) \/ approval_written row = true ->
   approved_as_executed false)
  /\ (publish_mode row = "public_after_review" -> approved_as_executed true).
Proof.
  intros Hp Hh Hx approved. destruct (history_stands sha256 postgres automatic_rights p ops Hp)
    as (row' & log' & Hh' & _ & Hst). rewrite Hh in Hh'. injection Hh' as <- <-.
  destruct (execution_given sha256 log row Hst Hx) as [Hneed Hpub].
  split; intros H; apply given_content; auto.
Qed.

(** ** Approved plans run *)

(** Values [jsonb] holds: no NaN, and one value for a key. *)
Fixpoint storable (v : pyval) : bool :=
  match v with
  | VFloat f => match f with S754_nan => false | _ => true end
  | VList l => forallb storable l
  | VDict d => bool_decide (NoDup (map fst d)) && forallb (fun kv => storable kv.2) d
  | _ => true
  end.

Lemma feqb_refl f : storable (VFloat f) = true -> feqb f f = true.
Proof.
  destruct f as [s|s| |s m e]; cbn [storable]; [done| |discriminate|]; intros _; unfold feqb, SFeqb; cbn [SFcompare].
  - by destruct s.
  - rewrite Z.compare_refl, Pos.compare_cont_refl. by destruct s.
Qed.

Lemma jsonb_eq_refl v : storable v = true -> jsonb_eq v v = true.
Proof.
  induction v as [|b|z|f|s|l IH|d IH] using pyval_nested_ind; cbn [jsonb_eq]; intros Hs; try done.
  - apply eqb_reflx.
  - apply Z.eqb_refl.
  - by apply feqb_refl.
  - apply String.eqb_refl.
  - cbn [storable] in Hs. induction IH as [|x l Hx _ IHl]; [done|]. cbn [forallb] in Hs.
    apply andb_prop in Hs as [Hx' Hl]. by rewrite Hx, IHl.
  - cbn [storable] in Hs. apply andb_prop in Hs as [Hnd%bool_decide_eq_true_1 Hs]. rewrite Nat.eqb_refl. cbn [andb].
    assert (Hget : forall kv, kv ∈ d -> dget d kv.1 = Some kv.2) by (intros [k x]; by apply elem_of_dget).
    revert Hget. generalize d at 2 3 as e. intros e Hget. clear Hnd. induction IH as [|[k x] d Hx _ IHd]; [done|].
    cbn [forallb] in Hs. apply andb_prop in Hs as [Hx' Hs]. pose proof (Hget (k, x) (list_elem_of_here _ _)) as Hk. cbn [fst snd] in *. rewrite Hk.
    rewrite Hx by done. apply IHd; [done|]. set_solver.
Qed.

(** A plan a reviewer can approve and run: stored, neither blocked nor rejected, with a
    status the rights policy gives and a valid workflow. *)
Record in_review (p : Plan) : Prop := {
  ir_stored : storable (VDict (execution_revision_payload p)) = true;
  ir_rights : exists st, dict_get (pl_rights p) "status" = VStr st /\ st ∈ ["allowed"; "review_required"];
  ir_status : pl_status p ∉ ["blocked"; "rejected"];
  ir_valid : dict_get (pc_validation (pl_content p)) "valid" = VBool true }.

Lemma approvable row action :
  in_review row -> rights_are (pl_rights row) "blocked" = false /\ _assert_not_blocked_or_rejected row action = Ok tt.
Proof.
  intros [_ (st & Hst & Hpol) Hstatus _].
  assert (Hb : rights_are (pl_rights row) "blocked" = false).
  { unfold rights_are. rewrite Hst. rewrite !elem_of_cons in Hpol. rewrite elem_of_nil in Hpol.
    by destruct Hpol as [->|[->|[]]]. }
  split; [exact Hb|]. unfold _assert_not_blocked_or_rejected. rewrite Hb.
  rewrite !elem_of_cons in Hstatus.
  by destruct (String.eqb_spec (pl_status row) "blocked"), (String.eqb_spec (pl_status row) "rejected"); cbn; naive_solver.
Qed.

Lemma rights_status_kept d k v : k ∈ APPROVAL_FIELDS -> dict_get (d.[k <- v]) "status" = dict_get d "status".
Proof.
  intros Hk. unfold dict_get, dget_or. rewrite dget_dset_ne; [done|]. intros ->.
  unfold APPROVAL_FIELDS in Hk. rewrite !elem_of_cons, elem_of_nil in Hk. naive_solver.
Qed.

(** A status the policy gives: not a blocked one, to the service and to the trigger. *)
Lemma policy_status p st :
  dict_get (pl_rights p) "status" = VStr st -> st ∈ ["allowed"; "review_required"] ->
  pl_status p ∈ ["review_approved"; "public_approved"] -> rights_are (pl_rights p) "blocked" = false /\ invalid_state p = false.
Proof.
  intros Hst Hin Hs. unfold rights_are, invalid_state. rewrite Hst.
  rewrite !elem_of_cons in Hin, Hs. rewrite elem_of_nil in Hin. rewrite elem_of_nil in Hs.
  destruct Hin as [->|[->|[]]], Hs as [->|[->|[]]]; by split.
Qed.

Lemma status_for_reviewed p rights now public :
  rights_are rights "blocked" = false ->
  _status_for rights (publish_mode p) (Some now) public None ∈ ["review_approved"; "public_approved"].
Proof. intros Hb. unfold _status_for. rewrite Hb. destruct public; cbn; set_solver. Qed.

Section Live.
Context (sha256 : string -> string) (postgres : bool).
Context (Hsha : forall s, sha256 s <> "").

Lemma unchanged row u :
  storable (VDict (execution_revision_payload row)) = true ->
  pl_content u = pl_content row -> canonical_rights (pl_rights u) = canonical_rights (pl_rights row) ->
  canonical_changed row u = false.
Proof.
  intros Hs Hc Hr. unfold canonical_changed, content_eq. rewrite Hc, Hr.
  cbn [storable execution_revision_payload forallb snd] in Hs.
  apply andb_prop in Hs as [_ Hs]. repeat (apply andb_prop in Hs as [? Hs]).
  rewrite !jsonb_eq_refl, String.eqb_refl by assumption. reflexivity.
Qed.

Lemma put_find id row row' db :
  find_plan id db = Some row -> pl_id row' = id -> find_plan id (put_plan row' db) = Some row'.
Proof. intros Hf Hid. by rewrite find_put_plan, Hid, String.eqb_refl, Hf.
Qed.

(** An approval of the content there is goes through the save and the trigger. *)
Lemma approval_saved db row u :
  find_plan (pl_id row) db = Some row -> in_review row -> pl_id u = pl_id row ->
  pl_content u = pl_content row -> canonical_rights (pl_rights u) = canonical_rights (pl_rights row) ->
  pl_execution_revision u = pl_execution_revision row -> invalid_state u = false ->
  _save_plan sha256 postgres (approve_revision sha256 u) db
  = Ok (approve_revision sha256 u, put_plan (approve_revision sha256 u) db).
Proof.
  intros Hf Hin Hid Hc Hr Hrev Hinv. set (v := approve_revision sha256 u).
  assert (Hdv : execution_revision_hash sha256 row = execution_revision_hash sha256 v) by (by apply digest_ext).
  unfold _save_plan. change (pl_id v) with (pl_id u). rewrite Hid, Hf. change (pl_execution_revision v) with (pl_execution_revision u).
  rewrite Hrev, Z.eqb_refl. cbn [negb]. unfold _invalidate_approval_for_revision_change. rewrite Hdv, String.eqb_refl.
  assert (Hw : written_row sha256 postgres (Some row) v = v); [|by rewrite Hw].
  assert (Hself : v <| pl_execution_revision := pl_execution_revision row |> = v) by (rewrite <- Hrev; by destruct u).
  unfold written_row. destruct postgres; [|by rewrite Hdv, String.eqb_refl].
  unfold autoflow_plan_authority_fence. rewrite (unchanged row v (ir_stored _ Hin) Hc Hr), Hself. cbn [orb].
  change (invalid_state v) with (invalid_state u). rewrite Hinv. cbn [orb].
  rewrite bool_decide_eq_true_2, andb_false_r; reflexivity.
Qed.

Lemma marks_allow u :
  dict_get (pc_validation (pl_content u)) "valid" = VBool true ->
  pl_status u ∈ ["review_approved"; "public_approved"] -> rights_are (pl_rights u) "blocked" = false ->
  is_some (pl_review_approved_at u) = true ->
  (publish_mode u = "public_after_review" -> is_some (pl_public_approved_at u) = true) ->
  _assert_execute_allowed sha256 (approve_revision sha256 u) = Ok tt.
Proof.
  intros Hv Hs Hb Hr Hp. set (v := approve_revision sha256 u). unfold _assert_execute_allowed.
  change (pl_content v) with (pl_content u). change (pl_status v) with (pl_status u). change (pl_rights v) with (pl_rights u).
  change (publish_mode v) with (publish_mode u). change (pl_review_approved_at v) with (pl_review_approved_at u).
  change (pl_public_approved_at v) with (pl_public_approved_at u).
  rewrite Hv, andb_false_r, Hb, Hr. cbn [orb andb negb]. rewrite andb_false_r.
  assert (Hns : (pl_status u =? "blocked")%string = false /\ (pl_status u =? "rejected")%string = false).
  { rewrite !elem_of_cons in Hs. rewrite elem_of_nil in Hs. destruct Hs as [->|[->|[]]]; by split. }
  destruct Hns as [-> ->]. cbn [orb].
  assert (Hh : truthy_text (pl_approved_revision_hash v) = true).
  { cbn. unfold execution_revision_hash at 1.
    destruct (sha256 _) eqn:Hsh; [by apply Hsha in Hsh|done]. }
  rewrite Hh, !bool_decide_eq_true_2 by reflexivity. cbn [andb negb].
  destruct (String.eqb_spec (publish_mode u) "public_after_review") as [Hm|]; [rewrite (Hp Hm)|]; reflexivity.
Qed.

(** The plan an approval saves is one that can be approved again. *)
Lemma approval_step db row u :
  find_plan (pl_id row) db = Some row -> in_review row -> pl_id u = pl_id row ->
  pl_content u = pl_content row -> canonical_rights (pl_rights u) = canonical_rights (pl_rights row) ->
  pl_execution_revision u = pl_execution_revision row -> dict_get (pl_rights u) "status" = dict_get (pl_rights row) "status" ->
  pl_status u ∈ ["review_approved"; "public_approved"] -> is_some (pl_review_approved_at u) = true ->
  let v := approve_revision sha256 u in
  _save_plan sha256 postgres v db = Ok (v, put_plan v db)
  /\ find_plan (pl_id row) (put_plan v db) = Some v /\ in_review v
  /\ ((publish_mode u = "public_after_review" -> is_some (pl_public_approved_at u) = true) ->
      _assert_execute_allowed sha256 v = Ok tt).
Proof.
  intros Hf Hin Hid Hc Hr Hrev Hst Hs Hra v. destruct Hin as [Hstored (st & Hrs & Hpol) Hstatus Hvalid] eqn:Hin'.
  assert (Hust : dict_get (pl_rights u) "status" = VStr st) by congruence.
  destruct (policy_status u st Hust Hpol Hs) as [Hb Hinv]. split; [|split; [|split]].
  - by apply (approval_saved db row u Hf Hin).
  - by apply (put_find _ row).
  - split; [|by exists st| |by change (pl_content v) with (pl_content u); rewrite Hc].
    + unfold execution_revision_payload. change (pl_content v) with (pl_content u). change (pl_rights v) with (pl_rights u).
      by rewrite Hc, Hr.
    + change (pl_status v) with (pl_status u). rewrite !elem_of_cons in Hs |- *. rewrite elem_of_nil in Hs |- *.
      intros Hbad. by destruct Hs as [Hs|[Hs|[]]], Hbad as [Hbad|[Hbad|[]]]; rewrite Hs in Hbad.
  - intros Hp. apply marks_allow; try done. by rewrite Hc.
Qed.
End Live.

(** Review leads to execution: a stored plan that is neither blocked nor rejected and
    has a valid workflow can be approved, on a database with the trigger or without, and
    then executed unless it is public; after a public approval it can be executed whatever
    its mode. *)
Theorem reviewed_plan_executes sha256 postgres db row now notes now' notes' :
  (forall s, sha256 s <> "") ->
  find_plan (pl_id row) db = Some row -> in_review row ->
  exists row1 db1, approve sha256 postgres (pl_id row) now notes db = Ok (Some row1, db1)
    /\ (publish_mode row <> "public_after_review" -> _assert_execute_allowed sha256 row1 = Ok tt)
    /\ exists row2 db2, approve_public sha256 postgres (pl_id row) now' notes' db1 = Ok (Some row2, db2)
         /\ _assert_execute_allowed sha256 row2 = Ok tt.
Proof.
  intros Hsha Hf Hin. destruct (approvable row "approve" Hin) as [Hb Ha].
  set (rights := (pl_rights row).["review_approved" <- VBool true]).
  set (u := row <| pl_rights := rights |>
             <| pl_status := _status_for rights (publish_mode row) (Some now) (pl_public_approved_at row) None |>
             <| pl_review_approved_at := Some now |> <| pl_agent_approved_by := None |> <| pl_review_notes := notes |>
             <| pl_rejected_reason := None |>).
  assert (Hrs : dict_get rights "status" = dict_get (pl_rights row) "status") by (apply rights_status_kept; set_solver).
  destruct (approval_step sha256 postgres Hsha db row u) as (Hsave & Hfind & Hin1 & Hex); try done.
  { apply canonical_rights_set. set_solver. }
  { apply status_for_reviewed. unfold rights_are in *. by rewrite Hrs. }
  set (v := approve_revision sha256 u) in *. exists v, (put_plan v db). split.
  { unfold approve, on_plan. rewrite Hf. cbv beta. rewrite Ha. cbn [mbind Res_bind]. fold rights. fold u. fold v. rewrite Hsave. reflexivity. }
  split; [intros Hm; by apply Hex|].
  destruct (approvable v "approve public publication" Hin1) as [_ Ha1].
  set (rights2 := (pl_rights v).["review_approved" <- VBool true].["public_approved" <- VBool true].["publish_allowed" <- VBool true]).
  set (u2 := v <| pl_rights := rights2 |> <| pl_status := "public_approved" |>
               <| pl_review_approved_at := Some (default now' (pl_review_approved_at v)) |>
               <| pl_public_approved_at := Some now' |>
               <| pl_review_notes := match notes' with Some n => Some n | None => pl_review_notes v end |>
               <| pl_rejected_reason := None |>).
  destruct (approval_step sha256 postgres Hsha (put_plan v db) v u2) as (Hsave2 & _ & _ & Hex2); try done.
  { do 2 (etrans; [apply canonical_rights_set; set_solver|]). apply canonical_rights_set. set_solver. }
  { do 2 (etrans; [apply rights_status_kept; set_solver|]). apply rights_status_kept. set_solver. }
  { set_solver. }
  exists (approve_revision sha256 u2), (put_plan (approve_revision sha256 u2) (put_plan v db)).
  split; [|by apply Hex2]. unfold approve_public, on_plan. rewrite Hfind. cbv beta. rewrite Ha1. cbn [mbind Res_bind].
  change (is_some (pl_review_approved_at v)) with true. cbn [orb negb]. rewrite andb_false_r.
  change ((r ← _save_plan sha256 postgres (approve_revision sha256 u2) (put_plan v db); Ok (Some r.1, r.2))
          = Ok (Some (approve_revision sha256 u2), put_plan (approve_revision sha256 u2) (put_plan v db))).
  rewrite Hsave2. reflexivity.
Qed.

(** ** A plan on its way *)

Module PlanDemo.
Definition digest (s : string) : string := "h" +:+ s.
Definition policy (request : config) (candidates : list pyval) : string := "review_required".

Definition content (title : string) : PlanContent :=
  {| pc_request := [("prompt", VStr "goals of the week"); ("publish_mode", VStr "public_after_review"); ("constraints", VDict [])];
     pc_intent := [("subject", VStr "goals")]; pc_template_id := "material_library_remix"; pc_definition := [("nodes", VList [])];
     pc_storyboard := VNone; pc_candidates := [VDict [("id", VStr "c1"); ("score", VFloat (S754_finite false 1 (-1)))]];
     pc_metadata := [("title", VStr title)]; pc_validation := [("valid", VBool true)] |}.

Definition plan : Plan :=
  {| pl_id := "p1"; pl_content := content "Goals"; pl_rights := [("status", VStr "review_required"); ("publish_allowed", VBool false)];
     pl_status := "review_required"; pl_execution_revision := 0; pl_review_approved_at := None; pl_approved_revision_hash := None;
     pl_approved_revision := None; pl_public_approved_at := None; pl_agent_approved_by := None; pl_review_notes := None;
     pl_rejected_reason := None |}.

Definition noon : datetime := 43200000000%Z.
Definition run (ops : list plan_op) : list Plan * list (plan_op * Plan) := history digest true policy plan ops.
Definition row (ops : list plan_op) : Plan := default plan (head (run ops).1).
Definition new_title : plan_op := OpPatch (with_planning (content "All goals")) (pl_rights plan).

(** An edit after the approvals undoes them; approved again, the plan runs as revision 2. *)
Example edit_undoes_approval :
  let ops := [OpApprove noon None; OpApprovePublic noon None] in
  _assert_execute_allowed digest (row ops) = Ok tt
  /\ _assert_execute_allowed digest (row (ops ++ [new_title]))
     = Raise (PermissionError "AutoFlow plan requires review approval before upload execution")
  /\ _assert_execute_allowed digest (row (ops ++ new_title :: ops)) = Ok tt
  /\ pl_execution_revision (row (ops ++ new_title :: ops)) = 2%Z.
Proof. vm_compute. repeat split. Qed.
End PlanDemo.

Lemma executed_content_approved_witness :
  let ops := [OpApprove PlanDemo.noon None; OpApprovePublic PlanDemo.noon None] in
  exists op q, (op, q) ∈ (PlanDemo.run ops).2 /\ is_approval op = true /\ (true = true -> is_public op = true)
    /\ pl_execution_revision q = pl_execution_revision (PlanDemo.row ops)
    /\ (same_payload q (PlanDemo.row ops) \/ collision PlanDemo.digest).
Proof.
  apply (executed_content_approved PlanDemo.digest true PlanDemo.policy PlanDemo.plan
           [OpApprove PlanDemo.noon None; OpApprovePublic PlanDemo.noon None] (PlanDemo.row [OpApprove PlanDemo.noon None; OpApprovePublic PlanDemo.noon None]) (PlanDemo.run [OpApprove PlanDemo.noon None; OpApprovePublic PlanDemo.noon None]).2);
    vm_compute; reflexivity.
Defined.

Lemma reviewed_plan_executes_witness :
  exists row1 db1, approve PlanDemo.digest true "p1" PlanDemo.noon None (PlanDemo.run []).1 = Ok (Some row1, db1)
    /\ (publish_mode (PlanDemo.row []) <> "public_after_review" -> _assert_execute_allowed PlanDemo.digest row1 = Ok tt)
    /\ exists row2 db2, approve_public PlanDemo.digest true "p1" PlanDemo.noon (Some "fine") db1 = Ok (Some row2, db2)
         /\ _assert_execute_allowed PlanDemo.digest row2 = Ok tt.
Proof.
  apply (reviewed_plan_executes PlanDemo.digest true (PlanDemo.run []).1 (PlanDemo.row [])).
  - intros s. discriminate.
  - vm_compute. reflexivity.
  - split; [vm_compute; reflexivity | | |vm_compute; reflexivity].
    + exists "review_required". split; [vm_compute; reflexivity | apply (bool_decide_unpack _); vm_compute; exact I].
    + apply (bool_decide_unpack _). vm_compute. exact I.
Defined.
