(* ===== verification/Outbox.v ===== *)
(** * The event outbox and its relay ([events/outbox.py], [events/relay.py],
    [events/schemas.py])

    Events are inserted into a table in the transaction that causes them; the relay
    claims a batch of undelivered rows, hands them to the producer in order and marks
    them.  The producer is a service outside the repository: [EventProducer] is its
    interface and [ProducerLaws] what a log broker documents (an acknowledged
    message is in the log; an unacknowledged one may be).  The caller of the relay
    commits or rolls back, so a cycle may reach the log without reaching the table. *)

From stdpp Require Import base tactics list strings sorting relations.
From Stdlib Require Import ZArith Lia.
From S2P Require Import Prelude PyStr PyValue PyTime Pipeline JobModel.

Open Scope string_scope.
Open Scope list_scope.

Record OutboxRow := {
  ob_id : string;
  ob_topic : string;
  ob_key : string;
  ob_payload : config;
  ob_created_at : datetime;
  ob_delivered_at : option datetime;
  ob_claimed_at : option datetime;
  ob_claim_token : option string;
  ob_attempt_count : Z;
  ob_last_error : option string }.

Record RelayCycleResult := { delivered : Z; relay_errors : Z }.

(** ** Events *)

Definition TOPIC_VP_ACTIONS : string := "vp.actor.actions.v1".
Definition SOURCE_CHANNEL_OPS : string := "videoprocess.channel_ops".

Definition build_actor_action_event (new_id : string) (now : datetime) (actor_id action_type platform : string)
    (metadata : option config) (occurred_at : option datetime) : config :=
  [("event_id", VStr new_id); ("topic_version", VStr TOPIC_VP_ACTIONS); ("actor_id", VStr actor_id);
   ("action_type", VStr action_type); ("platform", VStr platform);
   ("occurred_at", VStr (isoformat_utc (default now occurred_at))); ("source", VStr SOURCE_CHANNEL_OPS);
   ("metadata", VDict (default [] metadata))].

(** [str(payload.get("event_id") or uuid.uuid4())]. *)
Definition event_id_of (new_id : string) (payload : config) : string :=
  match payload.[? "event_id"] with
  | Some v => if truthy v then py_str v else new_id
  | None => new_id
  end.

(** The primary key rejects an event id that is already there. *)
Definition enqueue (new_id : string) (now : datetime) (table : list OutboxRow) (topic key : string) (payload : config)
    : Res (string * list OutboxRow) :=
  let event_id := event_id_of new_id payload in
  if bool_decide (event_id ∈ map ob_id table) then Raise IntegrityError
  else Ok (event_id, table ++
    [{| ob_id := event_id; ob_topic := topic; ob_key := key; ob_payload := payload.["event_id" <- VStr event_id];
        ob_created_at := now; ob_delivered_at := None; ob_claimed_at := None; ob_claim_token := None;
        ob_attempt_count := 0; ob_last_error := None |}]).

(** ** Rows *)

(** [order_by(created_at.asc(), id.asc())]. *)
Definition outbox_le (a b : OutboxRow) : Prop :=
  (ob_created_at a < ob_created_at b)%Z \/ (ob_created_at a = ob_created_at b /\ str_le (ob_id a) (ob_id b)).
#[export] Instance outbox_le_dec : RelDecision outbox_le.
Proof. intros a b. unfold outbox_le. apply _. Defined.

Definition set_claim (claimed_at : option datetime) (token : option string) (r : OutboxRow) : OutboxRow :=
  {| ob_id := ob_id r; ob_topic := ob_topic r; ob_key := ob_key r; ob_payload := ob_payload r;
     ob_created_at := ob_created_at r; ob_delivered_at := ob_delivered_at r; ob_claimed_at := claimed_at;
     ob_claim_token := token; ob_attempt_count := ob_attempt_count r; ob_last_error := ob_last_error r |}.

(** The outcome of an attempt: the time of delivery, or the error. *)
Definition set_attempt (delivered_at : option datetime) (error : option string) (r : OutboxRow) : OutboxRow :=
  {| ob_id := ob_id r; ob_topic := ob_topic r; ob_key := ob_key r; ob_payload := ob_payload r;
     ob_created_at := ob_created_at r;
     ob_delivered_at := match delivered_at with Some t => Some t | None => ob_delivered_at r end;
     ob_claimed_at := None; ob_claim_token := None; ob_attempt_count := ob_attempt_count r + 1;
     ob_last_error := error |}.

Definition unclaimed_row (r : OutboxRow) : bool :=
  bool_decide (ob_delivered_at r = None) && bool_decide (ob_claimed_at r = None)
  && bool_decide (ob_claim_token r = None).

Definition held (token : string) (r : OutboxRow) : bool := bool_decide (ob_claim_token r = Some token).

Definition update_row (row_id token : string) (f : OutboxRow -> OutboxRow) (table : list OutboxRow) : list OutboxRow :=
  map (fun r => if (ob_id r =? row_id)%string && held token r then f r else r) table.

Definition candidates (batch_size : nat) (table : list OutboxRow) : list string :=
  map ob_id (take batch_size (merge_sort outbox_le (List.filter unclaimed_row table))).

Definition _claim_batch (now : datetime) (token : string) (batch_size : nat) (table : list OutboxRow) : list OutboxRow :=
  let ids := candidates batch_size table in
  map (fun r => if bool_decide (ob_id r ∈ ids) && unclaimed_row r then set_claim (Some now) (Some token) r else r) table.

Definition _clear_claim (row_id token : string) (table : list OutboxRow) : list OutboxRow :=
  update_row row_id token (set_claim None None) table.

(** ** The relay *)

(** A message: topic, key, payload. *)
Abbreviation event_message := (string * string * config)%type.

Class EventProducer (P : Type) := {
  send : string -> string -> config -> P -> option string * P;
  sent : P -> list event_message }.

Class ProducerLaws (P : Type) `{!EventProducer P} := {
  send_acknowledged : forall t k p s s', send t k p s = (None, s') -> sent s' = sent s ++ [(t, k, p)];
  send_failed : forall t k p s e s', send t k p s = (Some e, s') -> sent s' = sent s \/ sent s' = sent s ++ [(t, k, p)] }.

Section Relay.
Context {P : Type} `{!EventProducer P}.

Record Cycle := {
  cy_table : list OutboxRow;
  cy_producer : P;
  cy_delivered : Z;
  cy_errors : Z;
  cy_blocked : list string }.

(** One row: skipped when an earlier row of its key failed. *)
Definition relay_row (now : datetime) (token : string) (c : Cycle) (row : OutboxRow) : Cycle :=
  if bool_decide (ob_key row ∈ cy_blocked c) then
    {| cy_table := _clear_claim (ob_id row) token (cy_table c); cy_producer := cy_producer c;
       cy_delivered := cy_delivered c; cy_errors := cy_errors c; cy_blocked := cy_blocked c |}
  else
    match send (ob_topic row) (ob_key row) (ob_payload row) (cy_producer c) with
    | (None, p') =>
        {| cy_table := update_row (ob_id row) token (set_attempt (Some now) None) (cy_table c); cy_producer := p';
           cy_delivered := cy_delivered c + 1; cy_errors := cy_errors c; cy_blocked := cy_blocked c |}
    | (Some error, p') =>
        {| cy_table := update_row (ob_id row) token (set_attempt None (Some error)) (cy_table c); cy_producer := p';
           cy_delivered := cy_delivered c; cy_errors := cy_errors c + 1; cy_blocked := cy_blocked c ++ [ob_key row] |}
    end.

Definition claimed_rows (token : string) (batch_size : nat) (table : list OutboxRow) : list OutboxRow :=
  take batch_size (merge_sort outbox_le
    (List.filter (fun r => held token r && bool_decide (ob_delivered_at r = None)) table)).

Definition run_once (now : datetime) (token : string) (batch_size : nat) (table : list OutboxRow) (p : P)
    : RelayCycleResult * (list OutboxRow * P) :=
  let table1 := _claim_batch now token batch_size table in
  let c := fold_left (relay_row now token) (claimed_rows token batch_size table1)
             {| cy_table := table1; cy_producer := p; cy_delivered := 0; cy_errors := 0; cy_blocked := [] |} in
  ({| delivered := cy_delivered c; relay_errors := cy_errors c |}, (cy_table c, cy_producer c)).
End Relay.

(** ** First in, first out per key, at least once *)

(** What never changes in a row. *)
Definition row_identity (r : OutboxRow) : string * string * string * config * datetime :=
  (ob_id r, ob_topic r, ob_key r, ob_payload r, ob_created_at r).

Definition row_message (r : OutboxRow) : event_message := (ob_topic r, ob_key r, ob_payload r).

(** [a] comes strictly before [b] in the order of the relay. *)
Definition before (a b : OutboxRow) : Prop := ~ outbox_le b a.

(** Every message from [start] on belongs to a row, and all the [seen] rows of its key that
    come before that row have their messages earlier in the log. *)
Definition fifo (seen : list OutboxRow) (start : nat) (table : list OutboxRow) (log : list event_message) : Prop :=
  forall l1 m l2, log = l1 ++ m :: l2 -> (start <= length l1)%nat ->
  exists r, r ∈ table /\ row_message r = m /\
    forall r', r' ∈ seen -> ob_key r' = ob_key r -> before r' r -> row_message r' ∈ l1.

Definition free (r : OutboxRow) : Prop := ob_claim_token r = None /\ ob_claimed_at r = None.

Record outbox_inv (seen : list OutboxRow) (start : nat) (table : list OutboxRow) (log : list event_message) : Prop := {
  oi_ids : NoDup (map ob_id table);
  oi_free : Forall free table;
  oi_named : Forall (fun r => (ob_payload r).[? "event_id"] = Some (VStr (ob_id r))) table;
  oi_sent : Forall (fun r => is_Some (ob_delivered_at r) -> row_message r ∈ log) table;
  oi_seen : forall r, r ∈ seen -> row_identity r ∈ map row_identity table;
  oi_fifo : fifo seen start table log }.

Lemma outbox_le_refl r : outbox_le r r.
Proof. right. split; [done|]. unfold str_le. apply str_ltb_irrefl. Qed.

#[export] Instance outbox_le_total : Total outbox_le.
Proof.
  intros a b. unfold outbox_le. destruct (Z.lt_trichotomy (ob_created_at a) (ob_created_at b)) as [|[Heq|]]; auto.
  destruct (str_ltb_total (ob_id a) (ob_id b)) as [H|[H|H]].
  - left. right. split; [done|]. unfold str_le. destruct (str_ltb (ob_id b) (ob_id a)) eqn:E; [|done].
    pose proof (str_ltb_trans _ _ _ H E) as Hx. by rewrite str_ltb_irrefl in Hx.
  - left. right. rewrite H. split; [done|]. unfold str_le. apply str_ltb_irrefl.
  - right. right. split; [done|]. unfold str_le. destruct (str_ltb (ob_id a) (ob_id b)) eqn:E; [|done].
    pose proof (str_ltb_trans _ _ _ H E) as Hx. by rewrite str_ltb_irrefl in Hx.
Qed.

#[export] Instance outbox_le_trans : Transitive outbox_le.
Proof.
  intros a b c. unfold outbox_le, str_le. intros [H1|[H1 S1]] [H2|[H2 S2]]; try (left; lia). right. split; [lia|].
  destruct (str_ltb (ob_id c) (ob_id a)) eqn:E; [|done].
  destruct (str_ltb_total (ob_id a) (ob_id b)) as [H|[H|H]]; [|congruence..].
  pose proof (str_ltb_trans _ _ _ E H). congruence.
Qed.

(** In a sorted batch, a row that comes before a member is among the earlier ones. *)
Lemma batch_before n l d r t r' :
  take n (merge_sort outbox_le l) = d ++ r :: t -> r' ∈ l -> before r' r -> r' ∈ d.
Proof.
  intros Htake Hin Hb. pose proof (StronglySorted_merge_sort outbox_le l) as Hs.
  rewrite <-(take_drop n (merge_sort outbox_le l)), Htake, <-app_assoc in Hs.
  assert (Hin' : r' ∈ d ++ (r :: t) ++ drop n (merge_sort outbox_le l)).
  { rewrite app_assoc, <-Htake, take_drop. by rewrite merge_sort_Permutation. }
  apply elem_of_app in Hin' as [|Hin']; [done|]. exfalso. apply Hb.
  apply StronglySorted_app_1_r in Hs. simpl in Hs, Hin'. apply StronglySorted_inv in Hs as [_ Hall].
  apply elem_of_cons in Hin' as [->|Hin']; [apply outbox_le_refl|].
  by rewrite Forall_forall in Hall; apply Hall.
Qed.

Lemma unclaimed_spec r : unclaimed_row r = true <-> ob_delivered_at r = None /\ free r.
Proof. unfold unclaimed_row, free. rewrite !andb_true_iff, !bool_decide_eq_true. naive_solver. Qed.

Lemma held_spec token r : held token r = true <-> ob_claim_token r = Some token.
Proof. unfold held. by rewrite bool_decide_eq_true. Qed.

Section Claim.
Context (now : datetime) (token : string) (n : nat) (table : list OutboxRow).
Context (Hids : NoDup (map ob_id table)) (Hfree : Forall free table).

Let claim (r : OutboxRow) : OutboxRow :=
  if bool_decide (ob_id r ∈ candidates n table) && unclaimed_row r then set_claim (Some now) (Some token) r else r.

Lemma claim_identity r : row_identity (claim r) = row_identity r.
Proof. unfold claim. by destruct (_ && _). Qed.

Lemma claim_delivered r : ob_delivered_at (claim r) = ob_delivered_at r.
Proof. unfold claim. by destruct (_ && _). Qed.

Lemma claim_map : _claim_batch now token n table = map claim table.
Proof. done. Qed.

Lemma claim_identities : map row_identity (_claim_batch now token n table) = map row_identity table.
Proof. rewrite claim_map, map_map. apply map_ext. apply claim_identity. Qed.

Lemma claim_elem r : r ∈ _claim_batch now token n table -> exists r0, r0 ∈ table /\ r = claim r0.
Proof. rewrite claim_map. intros (r0 & -> & H)%list_elem_of_fmap. eauto. Qed.

Lemma claim_held r0 : r0 ∈ table -> held token (claim r0) = true ->
  ob_id r0 ∈ candidates n table /\ unclaimed_row r0 = true.
Proof.
  intros Hr Hh%held_spec. unfold claim in Hh.
  destruct (bool_decide (ob_id r0 ∈ candidates n table)) eqn:Hc; simpl in Hh.
  - destruct (unclaimed_row r0) eqn:Hu; [by apply bool_decide_eq_true in Hc|].
    rewrite Forall_forall in Hfree. destruct (Hfree r0 Hr) as [Hn _]. congruence.
  - rewrite Forall_forall in Hfree. destruct (Hfree r0 Hr) as [Hn _]. congruence.
Qed.

Lemma claim_candidate r0 : r0 ∈ table -> ob_id r0 ∈ candidates n table -> unclaimed_row r0 = true ->
  claim r0 = set_claim (Some now) (Some token) r0.
Proof. intros _ Hc Hu. unfold claim. by rewrite bool_decide_true, Hu. Qed.

Lemma candidate_row r0 : r0 ∈ table -> ob_id r0 ∈ candidates n table ->
  r0 ∈ take n (merge_sort outbox_le (List.filter unclaimed_row table)).
Proof.
  unfold candidates. intros Hr (r1 & Hid & Hr1)%list_elem_of_fmap.
  assert (r1 ∈ table) as Hr1'.
  { apply elem_of_take in Hr1 as (i & Hi & _). apply list_elem_of_lookup_2 in Hi.
    rewrite merge_sort_Permutation in Hi. by apply elem_of_lfilter in Hi as [? _]. }
  by rewrite (NoDup_map_inj ob_id table r0 r1).
Qed.

(** The rows of the cycle, seen from one of them: what comes before it was
    delivered before the cycle or is handled earlier in it. *)
Lemma rows_prefix d r t r' :
  claimed_rows token n (_claim_batch now token n table) = d ++ r :: t ->
  r' ∈ _claim_batch now token n table -> before r' r -> is_Some (ob_delivered_at r') \/ r' ∈ d.
Proof.
  intros Hrows Hin Hb. destruct (ob_delivered_at r') as [t'|] eqn:Hdel; [left; by eexists|right].
  eapply batch_before; [exact Hrows| |done]. apply elem_of_lfilter. split; [done|].
  apply andb_true_iff. split; [|by apply bool_decide_eq_true].
  assert (Hr : r ∈ claimed_rows token n (_claim_batch now token n table)).
  { rewrite Hrows. apply elem_of_app. right. by left. }
  unfold claimed_rows in Hr. apply elem_of_take in Hr as (i & Hi & _). apply list_elem_of_lookup_2 in Hi.
  rewrite merge_sort_Permutation in Hi. apply elem_of_lfilter in Hi as [Hr [Hh _]%andb_prop].
  apply claim_elem in Hr as (r0 & Hr0 & ->). apply claim_elem in Hin as (r0' & Hr0' & ->).
  apply (claim_held r0 Hr0) in Hh as [Hc Hu]. apply (candidate_row r0 Hr0) in Hc.
  apply list_elem_of_split in Hc as (d0 & t0 & Hsplit).
  assert (Hu' : unclaimed_row r0' = true).
  { apply unclaimed_spec. rewrite claim_delivered in Hdel. split; [done|]. rewrite Forall_forall in Hfree. auto. }
  assert (Hb0 : before r0' r0).
  { unfold before, outbox_le in *. intros Hle. apply Hb.
    pose proof (claim_identity r0) as [= -> _ _ _ ->]. pose proof (claim_identity r0') as [= -> _ _ _ ->]. done. }
  assert (Hd0 : r0' ∈ d0).
  { eapply batch_before; [exact Hsplit| |done]. by apply elem_of_lfilter. }
  assert (Hc' : ob_id r0' ∈ candidates n table).
  { unfold candidates. apply list_elem_of_fmap_2. rewrite Hsplit. apply elem_of_app. by left. }
  rewrite (claim_candidate r0') by done. by apply held_spec.
Qed.

(** The batch holds every row that was claimed. *)
Lemma rows_complete r :
  r ∈ _claim_batch now token n table -> held token r = true -> r ∈ claimed_rows token n (_claim_batch now token n table).
Proof.
  intros Hr Hh. set (mine := List.filter (fun r => held token r && bool_decide (ob_delivered_at r = None))
                               (_claim_batch now token n table)).
  assert (Hid : forall x, x ∈ mine -> ob_id x ∈ candidates n table).
  { intros x [Hx [Hhx _]%andb_prop]%elem_of_lfilter. apply claim_elem in Hx as (x0 & Hx0 & ->).
    apply (claim_held x0 Hx0) in Hhx as [Hc _]. by pose proof (claim_identity x0) as [= -> _ _ _ _]. }
  assert (Hlen : (length mine <= n)%nat).
  { rewrite <-(length_map ob_id mine). etrans; [apply (NoDup_length_le _ (candidates n table))|].
    - apply NoDup_map_filter. assert (map ob_id (_claim_batch now token n table) = map ob_id table) as ->; [|done].
      rewrite claim_map, map_map. apply map_ext. intros x. by pose proof (claim_identity x) as [= -> _ _ _ _].
    - intros id (x & -> & Hx)%list_elem_of_fmap. by apply Hid.
    - unfold candidates. rewrite length_map. apply firstn_le_length. }
  unfold claimed_rows. rewrite take_ge by (by rewrite merge_sort_Permutation). rewrite merge_sort_Permutation.
  apply elem_of_lfilter. split; [done|]. rewrite Hh. simpl. apply bool_decide_eq_true.
  apply claim_elem in Hr as (r0 & Hr0 & ->). apply (claim_held r0 Hr0) in Hh as [_ Hu].
  rewrite claim_delivered. by apply unclaimed_spec in Hu as [? _].
Qed.
End Claim.

(** ** One cycle *)

Lemma update_identities id token f table :
  (forall r, row_identity (f r) = row_identity r) ->
  map row_identity (update_row id token f table) = map row_identity table.
Proof. intros Hf. unfold update_row. rewrite map_map. apply map_ext. intros r. by destruct (_ && _). Qed.

Lemma identity_ids t t' : map row_identity t = map row_identity t' -> map ob_id t = map ob_id t'.
Proof.
  intros H. apply (f_equal (map (fun x => x.1.1.1.1))) in H. by rewrite !map_map in H.
Qed.

Lemma message_identity r r' : row_identity r = row_identity r' -> row_message r = row_message r'.
Proof. unfold row_identity, row_message. intros H. by injection H as _ -> -> -> _. Qed.

(** Rows with the same key of tables with the same identities. *)
Lemma same_identity t t' r r' :
  map row_identity t = map row_identity t' -> NoDup (map ob_id t') -> r ∈ t -> r' ∈ t' -> ob_id r = ob_id r' ->
  row_identity r = row_identity r'.
Proof.
  intros Ht Hn Hr Hr' Hid. apply (elem_map row_identity) in Hr. rewrite Ht in Hr.
  apply list_elem_of_fmap in Hr as (x & Hx & Hxt). assert (x = r') as ->; [|done].
  eapply (NoDup_map_inj ob_id); [done..|]. injection Hx as Hi _ _ _ _. congruence.
Qed.

Lemma fifo_identities seen start t t' log :
  map row_identity t = map row_identity t' -> fifo seen start t log -> fifo seen start t' log.
Proof.
  intros Ht Hf l1 m l2 Hlog Hle. destruct (Hf l1 m l2 Hlog Hle) as (r & Hr & Hm & Hearlier).
  apply (elem_map row_identity) in Hr. rewrite Ht in Hr. apply list_elem_of_fmap in Hr as (x & Hx & Hxt).
  exists x. unfold row_message, before, outbox_le in *. injection Hx as Hi Hto Hk Hp Hc.
  by rewrite <-Hto, <-Hk, <-Hp, <-Hi, <-Hc.
Qed.

Lemma fifo_snoc seen start table log r :
  fifo seen start table log -> r ∈ table ->
  (forall r', r' ∈ seen -> ob_key r' = ob_key r -> before r' r -> row_message r' ∈ log) ->
  fifo seen start table (log ++ [row_message r]).
Proof.
  intros Hf Hr He l1 m l2 Hlog Hle. destruct l2 as [|y l2 _] using rev_ind.
  - apply app_inj_tail in Hlog as [<- <-]. by exists r.
  - rewrite app_comm_cons, app_assoc in Hlog. apply app_inj_tail in Hlog as [-> _]. by apply (Hf l1 m l2).
Qed.

Section CycleProof.
Context {P : Type} `{!EventProducer P, !ProducerLaws P}.
Context (now : datetime) (token : string) (base : list OutboxRow) (Hids : NoDup (map ob_id base)).
Context (log0 : list event_message) (seen : list OutboxRow) (start : nat).
Context (Hseen : forall r, r ∈ seen -> row_identity r ∈ map row_identity base).

(** The state after the rows [d] of the batch, [base] being the claimed table. *)
Record cycle_inv (d : list OutboxRow) (c : Cycle (P:=P)) : Prop := {
  ci_identities : map row_identity (cy_table c) = map row_identity base;
  ci_log : exists l, sent (cy_producer c) = log0 ++ l;
  ci_fifo : fifo seen start base (sent (cy_producer c));
  ci_handled : forall r, r ∈ d -> ob_key r ∈ cy_blocked c \/ row_message r ∈ sent (cy_producer c);
  ci_sent : Forall (fun r => is_Some (ob_delivered_at r) -> row_message r ∈ sent (cy_producer c)) (cy_table c);
  ci_claims : Forall (fun r => free r \/ (r ∈ base /\ held token r = true /\ ob_id r ∉ map ob_id d)) (cy_table c) }.

(** Updating the row at hand gives back its claim. *)
Lemma update_claims d row f table :
  row ∈ base -> (forall r, free (f r)) ->
  Forall (fun r => free r \/ (r ∈ base /\ held token r = true /\ ob_id r ∉ map ob_id d)) table ->
  Forall (fun r => free r \/ (r ∈ base /\ held token r = true /\ ob_id r ∉ map ob_id (d ++ [row])))
    (update_row (ob_id row) token f table).
Proof.
  intros Hrow Hf Ht. apply Forall_map. eapply Forall_impl; [exact Ht|]. intros r Hr. simpl.
  destruct (String.eqb_spec (ob_id r) (ob_id row)) as [Hid|Hid]; simpl.
  - destruct (held token r) eqn:Hh; [by left|]. destruct Hr as [|(_ & ? & _)]; [by left|congruence].
  - destruct Hr as [|(Hb & Hh & Hd)]; [by left|right]. split_and!; [done..|].
    rewrite map_app, not_elem_of_app. split; [done|]. simpl. intros H%list_elem_of_singleton. done.
Qed.

Lemma update_sent row f table (log : list event_message) :
  row ∈ base -> map row_identity table = map row_identity base ->
  (forall r, is_Some (ob_delivered_at (f r)) -> is_Some (ob_delivered_at r) \/ row_message row ∈ log) ->
  (forall r, row_identity (f r) = row_identity r) ->
  Forall (fun r => is_Some (ob_delivered_at r) -> row_message r ∈ log) table ->
  Forall (fun r => is_Some (ob_delivered_at r) -> row_message r ∈ log) (update_row (ob_id row) token f table).
Proof.
  intros Hrow Hi Hd Hf Ht. apply Forall_map. rewrite Forall_forall in Ht. apply Forall_forall. intros r Hr. simpl.
  destruct (String.eqb_spec (ob_id r) (ob_id row)) as [Hid|Hid]; simpl; [|by apply Ht].
  destruct (held token r); [|by apply Ht].
  pose proof (same_identity _ _ r row Hi Hids Hr Hrow Hid) as Hrr.
  intros [Hold|Hnew]%Hd.
  - rewrite (message_identity _ _ (Hf r)). by apply Ht.
  - by rewrite (message_identity _ _ (Hf r)), (message_identity _ _ Hrr).
Qed.

Lemma relay_row_inv d row c :
  (forall r, r ∈ base -> is_Some (ob_delivered_at r) -> row_message r ∈ log0) ->
  (forall r', r' ∈ base -> before r' row -> is_Some (ob_delivered_at r') \/ r' ∈ d) ->
  row ∈ base -> cycle_inv d c -> cycle_inv (d ++ [row]) (relay_row now token c row).
Proof.
  intros Hold Hearlier Hrow [Hi [l Hl] Hf Hh Hs Hc]. unfold relay_row.
  assert (Hupd : forall f, (forall r, row_identity (f r) = row_identity r) ->
            map row_identity (update_row (ob_id row) token f (cy_table c)) = map row_identity base).
  { intros f Hff. by rewrite update_identities. }
  destruct (bool_decide (ob_key row ∈ cy_blocked c)) eqn:Hb.
  - apply bool_decide_eq_true in Hb. constructor; simpl; [by apply Hupd|by eexists|done| | |].
    + intros r [Hr| ->%list_elem_of_singleton]%elem_of_app; [by apply Hh|by left].
    + unfold _clear_claim. apply update_sent; [done|done|by left|done|done].
    + unfold _clear_claim. by apply update_claims.
  - apply bool_decide_eq_false in Hb.
    assert (Hfifo : fifo seen start base (sent (cy_producer c) ++ [row_message row])).
    { apply fifo_snoc; [done..|]. intros r0 Hr0 Hk Hbe. pose proof (Hseen r0 Hr0) as (r' & Hid & Hr')%list_elem_of_fmap.
      rewrite (message_identity _ _ Hid). assert (Hbe' : before r' row).
      { unfold before, outbox_le in *. by injection Hid as <- _ _ _ <-. }
      assert (ob_key r' = ob_key row) as Hk' by (by injection Hid as _ _ <- _ _). destruct (Hearlier r' Hr' Hbe') as [Hd|Hd].
      - rewrite Hl. apply elem_of_app. left. by apply Hold.
      - destruct (Hh r' Hd) as [Hb'|]; [|done]. by rewrite Hk' in Hb'. }
    destruct (send _ _ _ _) as [[e|] p'] eqn:Hsend; simpl.
    + assert (Hlog : (sent p' = sent (cy_producer c) \/ sent p' = sent (cy_producer c) ++ [row_message row]))
        by (by eapply send_failed).
      assert (Hmono : forall m, m ∈ sent (cy_producer c) -> m ∈ sent p').
      { intros m Hm. destruct Hlog as [->| ->]; [done|]. apply elem_of_app. by left. }
      constructor; simpl; [by apply Hupd| | | | |].
      * destruct Hlog as [->| ->]; [by eexists|]. rewrite Hl, <-app_assoc. by eexists.
      * by destruct Hlog as [->| ->].
      * intros r [Hr| ->%list_elem_of_singleton]%elem_of_app; rewrite elem_of_app; [|left; right; by left].
        destruct (Hh r Hr); [by left; left|right; by apply Hmono].
      * apply update_sent; [done|done|by left|done|]. eapply Forall_impl; [exact Hs|]. auto.
      * by apply update_claims.
    + assert (Hlog : sent p' = sent (cy_producer c) ++ [row_message row]) by (by eapply send_acknowledged).
      constructor; simpl; rewrite ?Hlog; [by apply Hupd| |done| | |].
      * rewrite Hl, <-app_assoc. by eexists.
      * intros r [Hr| ->%list_elem_of_singleton]%elem_of_app; rewrite elem_of_app; [|right; right; by left].
        destruct (Hh r Hr); [by left|by right; left].
      * apply update_sent; [done|done| |done|].
        -- intros r _. right. apply elem_of_app. right. by left.
        -- eapply Forall_impl; [exact Hs|]. intros r Hr Hdel. apply elem_of_app. left. auto.
      * by apply update_claims.
Qed.
End CycleProof.

Lemma cycle_rows_inv {P} `{!EventProducer P, !ProducerLaws P} now token base log0 seen start rows d (c : Cycle (P:=P)) :
  NoDup (map ob_id base) -> (forall r, r ∈ seen -> row_identity r ∈ map row_identity base) ->
  (forall r, r ∈ base -> is_Some (ob_delivered_at r) -> row_message r ∈ log0) ->
  (forall d' row t' r', d ++ rows = d' ++ row :: t' -> r' ∈ base -> before r' row ->
     is_Some (ob_delivered_at r') \/ r' ∈ d') ->
  (forall r, r ∈ rows -> r ∈ base) ->
  cycle_inv token base log0 seen start d c ->
  cycle_inv token base log0 seen start (d ++ rows) (fold_left (relay_row now token) rows c).
Proof.
  intros Hids Hseen Hold. revert d c. induction rows as [|row rows IH]; intros d c Hearlier Hin Hc; simpl.
  { by rewrite app_nil_r. }
  rewrite cons_middle, app_assoc. apply IH.
  - intros d' r t' r' Heq. rewrite <-app_assoc in Heq. by eapply Hearlier.
  - intros r Hr. apply Hin. by right.
  - apply relay_row_inv; [done|done|done| |apply Hin; by left|done]. intros r' Hr' Hb. by eapply (Hearlier d row rows).
Qed.

Section Histories.
Context {P : Type} `{!EventProducer P, !ProducerLaws P}.

(** The log after a cycle, and the table if the caller commits. *)
Lemma run_once_inv seen start now token n table (p : P) res table' p' :
  outbox_inv seen start table (sent p) -> run_once now token n table p = (res, (table', p')) ->
  outbox_inv seen start table' (sent p') /\ outbox_inv seen start table (sent p').
Proof.
  intros [Hids Hfree Hnamed Hsent Hseen Hfifo] Hrun. unfold run_once in Hrun. simplify_eq/=.
  set (base := _claim_batch now token n table). set (rows := claimed_rows token n base).
  pose proof (claim_identities now token n table) as Hbi. fold base in Hbi.
  assert (Hbids : NoDup (map ob_id base)) by (by rewrite (identity_ids _ _ Hbi)).
  assert (Hmsg : forall r, r ∈ base -> is_Some (ob_delivered_at r) -> row_message r ∈ sent p).
  { intros r (r0 & Hr0 & ->)%claim_elem Hd. rewrite claim_delivered in Hd.
    rewrite (message_identity _ _ (claim_identity now token n table r0)). rewrite Forall_forall in Hsent. auto. }
  assert (Hrows : forall r, r ∈ rows -> r ∈ base).
  { intros r Hr. unfold rows, claimed_rows in Hr. apply elem_of_take in Hr as (i & Hi & _).
    apply list_elem_of_lookup_2 in Hi. rewrite merge_sort_Permutation in Hi. by apply elem_of_lfilter in Hi as [? _]. }
  destruct (cycle_rows_inv now token base (sent p) seen start rows []
    {| cy_table := base; cy_producer := p; cy_delivered := 0; cy_errors := 0; cy_blocked := [] |})
    as [Hi [l Hl] Hf _ Hs Hc]; [done|by rewrite Hbi|done| |done| |].
  { intros d row t r' Heq Hr' Hb. exact (rows_prefix now token n table Hids Hfree d row t r' Heq Hr' Hb). }
  { constructor; simpl; [done|by exists []; rewrite app_nil_r| |by intros r ?%not_elem_of_nil| |].
    - by apply (fifo_identities _ _ table).
    - apply Forall_forall. apply Hmsg.
    - apply Forall_forall. intros r Hr. destruct (held token r) eqn:Hh.
      + right. split_and!; [done..|]. apply not_elem_of_nil.
      + left. apply claim_elem in Hr as (r0 & Hr0 & ->). rewrite Forall_forall in Hfree.
        destruct (bool_decide _ && _); [|by apply Hfree]. by rewrite (proj2 (held_spec _ _)) in Hh. }
  simpl in *. split.
  - constructor.
    + by rewrite (identity_ids _ _ Hi).
    + eapply Forall_impl; [exact Hc|]. intros r [|(Hr & Hh & Hn)]; [done|]. exfalso. apply Hn.
      apply elem_map. by apply rows_complete.
    + apply Forall_forall. intros r Hr%(elem_map row_identity). rewrite Hi, Hbi in Hr.
      apply list_elem_of_fmap in Hr as (r0 & [= Hid _ _ Hp _] & Hr0). rewrite Forall_forall in Hnamed.
      rewrite Hp, Hid. auto.
    + done.
    + by rewrite Hi, Hbi.
    + eapply fifo_identities; [symmetry; exact Hi|done].
  - constructor; [done..| |done|].
    + eapply Forall_impl; [exact Hsent|]. intros r Hr Hd. rewrite Hl. apply elem_of_app. left. auto.
    + by apply (fifo_identities _ _ base).
Qed.

Lemma enqueue_inv seen start new_id now table topic key payload id table' log :
  outbox_inv seen start table log -> enqueue new_id now table topic key payload = Ok (id, table') ->
  outbox_inv seen start table' log.
Proof.
  intros [Hids Hfree Hnamed Hsent Hseen Hfifo] He. unfold enqueue in He.
  destruct (bool_decide (event_id_of new_id payload ∈ map ob_id table)) eqn:Hin; [done|].
  apply bool_decide_eq_false in Hin. injection He as <- <-. constructor.
  - rewrite map_app. apply NoDup_app. split_and!; [done| |apply NoDup_singleton].
    intros x Hx Hy%list_elem_of_singleton. by subst.
  - apply Forall_app. split; [done|]. by repeat constructor.
  - apply Forall_app. split; [done|]. constructor; [|done]. simpl. apply dget_dset_eq.
  - apply Forall_app. split; [done|]. constructor; [|done]. simpl. by intros [? ?].
  - intros r Hr. rewrite map_app. apply elem_of_app. left. by apply Hseen.
  - intros l1 m l2 Hlog Hle. destruct (Hfifo l1 m l2 Hlog Hle) as (r & Hr & Hm & Hearlier). exists r.
    split_and!; [apply elem_of_app; by left|done..].
Qed.

(** One transaction on the outbox: an event becomes visible, stamped with whatever time its
    transaction read, or a relay cycle is committed or rolled back. *)
Inductive outbox_step : list OutboxRow * P -> list OutboxRow * P -> Prop :=
| step_enqueue new_id now table p topic key payload id table' :
    enqueue new_id now table topic key payload = Ok (id, table') ->
    outbox_step (table, p) (table', p)
| step_cycle now token n table p res table' p' :
    run_once now token n table p = (res, (table', p')) -> outbox_step (table, p) (table', p')
| step_rollback now token n table p res table' p' :
    run_once now token n table p = (res, (table', p')) -> outbox_step (table, p) (table, p').

Lemma outbox_reach seen start s s' :
  rtc outbox_step s s' -> outbox_inv seen start s.1 (sent s.2) -> outbox_inv seen start s'.1 (sent s'.2).
Proof.
  induction 1 as [|s s1 s' Hstep _ IH]; [done|]. intros Hinv. apply IH. destruct Hstep; simpl in *.
  - by eapply enqueue_inv.
  - by destruct (run_once_inv _ _ _ _ _ _ _ _ _ _ Hinv H).
  - by destruct (run_once_inv _ _ _ _ _ _ _ _ _ _ Hinv H).
Qed.

(** What is in the log stays. *)
Lemma relay_log now token rows (c : Cycle (P:=P)) :
  exists l, sent (cy_producer (fold_left (relay_row now token) rows c)) = sent (cy_producer c) ++ l.
Proof.
  revert c. induction rows as [|row rows IH]; intros c; simpl; [by exists []; rewrite app_nil_r|].
  destruct (IH (relay_row now token c row)) as [l ->]. unfold relay_row. destruct (bool_decide _); [by exists l|].
  destruct (send _ _ _ _) as [[e|] p'] eqn:Hsend; simpl.
  - apply send_failed in Hsend as [->| ->]; [by exists l|]. rewrite <-app_assoc. by eexists.
  - apply send_acknowledged in Hsend as ->. rewrite <-app_assoc. by eexists.
Qed.

Lemma log_grows s s' : rtc outbox_step s s' -> exists l, sent s'.2 = sent s.2 ++ l.
Proof.
  induction 1 as [|s s1 s' Hstep _ [l ->]]; [by exists []; rewrite app_nil_r|].
  assert (exists k, sent s1.2 = sent s.2 ++ k) as [k ->]; [|rewrite <-app_assoc; by eexists].
  destruct Hstep as [| |]; simpl; [by exists []; rewrite app_nil_r|..];
    unfold run_once in H; simplify_eq/=; apply relay_log.
Qed.
End Histories.

(** C30. The relay delivers at least once and in order: after any history of events that
    become visible, in whatever order their transactions were stamped, and of relay
    cycles, committed or rolled back, whatever the producer answered, a row marked
    delivered is in the producer's log; and at whatever point of the history one looks,
    every message produced from then on is that of a row, with the messages of all rows
    of the same key that were visible at that point and are earlier in the relay's order
    (time stamp, then identifier) in front of it. *)
Theorem relay_fifo {P} `{!EventProducer P, !ProducerLaws P} (p0 : P) seen p table p' :
  sent p0 = [] -> rtc outbox_step ([], p0) (seen, p) -> rtc outbox_step (seen, p) (table, p') ->
  (forall r, r ∈ table -> is_Some (ob_delivered_at r) -> row_message r ∈ sent p')
  /\ exists l, sent p' = sent p ++ l
       /\ forall l1 m l2, l = l1 ++ m :: l2 ->
            exists r, r ∈ table /\ row_message r = m
              /\ forall r', r' ∈ seen -> ob_key r' = ob_key r -> before r' r -> row_message r' ∈ sent p ++ l1.
Proof.
  intros H0 Hreach Hlater.
  assert (outbox_inv [] 0 seen (sent p)) as [Hids Hfree Hnamed Hsent _ _].
  { apply (outbox_reach [] 0 _ _ Hreach). simpl. rewrite H0. split; try by constructor.
    - by intros r ?%not_elem_of_nil.
    - intros l1 m l2 Hl. by destruct l1. }
  destruct (outbox_reach seen (length (sent p)) _ _ Hlater) as [_ _ _ Hs _ Hf]; simpl in *.
  - split; try done; [intros r; apply elem_map|]. intros l1 m l2 Hl Hle. rewrite Hl, length_app in Hle. simpl in Hle. lia.
  - split; [by rewrite Forall_forall in Hs|]. destruct (log_grows _ _ Hlater) as [l Hl]. simpl in Hl. exists l. split; [done|].
    intros l1 m l2 ->. apply (Hf (sent p ++ l1) m l2); [by rewrite Hl, <-app_assoc|]. rewrite length_app. lia.
Qed.

(** ** A producer that acknowledges as scripted *)

Record ScriptedProducer := { sp_log : list event_message; sp_script : list bool }.

(** [true]: acknowledged; [false], or the end of the script: refused. *)
#[export] Instance scripted_producer : EventProducer ScriptedProducer := {
  send t k p s :=
    match sp_script s with
    | true :: rest => (None, {| sp_log := sp_log s ++ [(t, k, p)]; sp_script := rest |})
    | false :: rest => (Some "broker unavailable", {| sp_log := sp_log s; sp_script := rest |})
    | [] => (Some "broker unavailable", s)
    end;
  sent := sp_log }.

#[export] Instance scripted_laws : ProducerLaws ScriptedProducer.
Proof.
  split; intros t k p s; simpl; destruct (sp_script s) as [|[] rest]; intros; simplify_eq/=; auto.
Qed.

Definition outbox_example : list OutboxRow :=
  let t1 := match enqueue "e1" 10 [] TOPIC_VP_ACTIONS "actor" [] with Ok (_, t) => t | Raise _ => [] end in
  match enqueue "e2" 20 t1 TOPIC_VP_ACTIONS "actor" [] with Ok (_, t) => t | Raise _ => [] end.

(** Two events of one actor; a cycle that is sent and rolled back, one that the broker
    refuses, and one that succeeds: the first event is in the log twice. *)
Definition outbox_cycles : (list OutboxRow * ScriptedProducer) * (list OutboxRow * ScriptedProducer) :=
  let p0 := {| sp_log := []; sp_script := [true; false; false; true; true] |} in
  let p1 := (run_once 30 "c1" 100 outbox_example p0).2.2 in
  let s2 := (run_once 40 "c2" 100 outbox_example p1).2 in
  ((outbox_example, p1), (run_once 50 "c3" 100 s2.1 s2.2).2).

(** The second event becomes visible after the first and is stamped before it. *)
Definition late_example : list OutboxRow :=
  let t1 := match enqueue "e1" 20 [] TOPIC_VP_ACTIONS "actor" [] with Ok (_, t) => t | Raise _ => [] end in
  match enqueue "e2" 10 (run_once 30 "c1" 100 t1 {| sp_log := []; sp_script := [true] |}).2.1 TOPIC_VP_ACTIONS "actor" []
  with Ok (_, t) => t | Raise _ => [] end.

(** An event that becomes visible late can be overtaken by one stamped after it. *)
Example late_event_overtaken :
  rtc outbox_step ([], {| sp_log := []; sp_script := [true; true] |})
    (run_once 40 "c2" 100 late_example {| sp_log := [(TOPIC_VP_ACTIONS, "actor", [("event_id", VStr "e1")])]; sp_script := [true] |}).2
  /\ map (fun r => (ob_id r, ob_created_at r)) late_example = [("e1", 20%Z); ("e2", 10%Z)]
  /\ map (fun m => m.2.[? "event_id"])
       (sent (run_once 40 "c2" 100 late_example
                {| sp_log := [(TOPIC_VP_ACTIONS, "actor", [("event_id", VStr "e1")])]; sp_script := [true] |}).2.2)
     = [Some (VStr "e1"); Some (VStr "e2")].
Proof.
  split; [|split; vm_compute; reflexivity].
  eapply rtc_l; [eapply (step_enqueue "e1" 20 _ _ TOPIC_VP_ACTIONS "actor" []); vm_compute; reflexivity|].
  eapply rtc_l; [eapply (step_cycle 30 "c1" 100); vm_compute; reflexivity|].
  eapply rtc_l; [eapply (step_enqueue "e2" 10 _ _ TOPIC_VP_ACTIONS "actor" []); vm_compute; reflexivity|].
  eapply rtc_l; [eapply (step_cycle 40 "c2" 100); vm_compute; reflexivity|].
  vm_compute. apply rtc_refl.
Qed.

Lemma relay_fifo_witness :
  (exists l, sent outbox_cycles.2.2 = l
     /\ forall l1 m l2, l = l1 ++ m :: l2 ->
          exists r, r ∈ outbox_cycles.2.1 /\ row_message r = m
            /\ forall r', r' ∈ outbox_example -> ob_key r' = ob_key r -> before r' r -> row_message r' ∈ l1)
  /\ map (fun m => m.2.[? "event_id"]) (sent outbox_cycles.2.2) = [Some (VStr "e1"); Some (VStr "e1"); Some (VStr "e2")].
Proof.
  split; [|vm_compute; reflexivity].
  refine (proj2 (relay_fifo {| sp_log := []; sp_script := [true; false; false; true; true] |} outbox_example
    {| sp_log := []; sp_script := [true; false; false; true; true] |} outbox_cycles.2.1 outbox_cycles.2.2 eq_refl _ _)).
  - eapply rtc_l; [eapply (step_enqueue "e1" 10 _ _ TOPIC_VP_ACTIONS "actor" []); vm_compute; reflexivity|].
    eapply rtc_l; [eapply (step_enqueue "e2" 20 _ _ TOPIC_VP_ACTIONS "actor" []); vm_compute; reflexivity|].
    vm_compute. apply rtc_refl.
  - eapply rtc_l; [eapply (step_rollback 30 "c1" 100); vm_compute; reflexivity|].
    eapply rtc_l; [eapply (step_cycle 40 "c2" 100); vm_compute; reflexivity|].
    eapply rtc_l; [eapply (step_cycle 50 "c3" 100); vm_compute; reflexivity|].
    vm_compute. apply rtc_refl.
Defined.
