(* ===== verification/ChannelQueue.v ===== *)
(** * The ChannelOps queue and its scheduler ([channel_agent/queue.py],
    [channel_agent/scheduler.py], [channel_agent/constants.py])

    Work items of the channel agent sit in one table: [enqueue] inserts under a unique
    idempotency key, [claim_next] takes the most urgent ready item, and the outcome of
    the handler settles it, puts it back with a growing delay or dead-letters it.  The
    scheduler adds one [agent_tick] per channel and time bucket.

    A definition is one committed transaction on the table, a list in insertion order.
    The ORM writes the attributes that differ from what the session loaded
    ([orm_write]); for items with the same priority and creation time, between which
    the query does not choose, the model takes the one inserted first. *)

From stdpp Require Import base tactics list strings sorting relations.
From Stdlib Require Import ZArith Lia.
From S2P Require Import Prelude PyStr PyValue PyTime Pipeline JobModel.

Open Scope string_scope.
Open Scope list_scope.

(** ** Rows *)

Definition QUEUE_QUEUED : string := "queued".
Definition QUEUE_RUNNING : string := "running".
Definition QUEUE_SUCCEEDED : string := "succeeded".
Definition QUEUE_FAILED : string := "failed".
Definition QUEUE_HELD : string := "held".
Definition QUEUE_CANCELLED : string := "cancelled".
Definition QUEUE_DEAD_LETTERED : string := "dead_lettered".

Definition PYTHON_RUNNER_QUEUE_KINDS : list string :=
  ["agent_tick"; "plan_task"; "execute_task"; "observe_job"; "publish_task"; "promote_publication";
   "reconcile_publication"; "collect_metrics"; "account_health"; "send_alert"; "cleanup_expired"].

Record ChannelOpsQueueItem := {
  qi_id : uuid;
  qi_kind : string;
  qi_idempotency_key : string;
  qi_channel_profile_id : option uuid;
  qi_priority : Z;
  qi_parent_queue_item_id : option uuid;
  qi_payload_json : config;
  qi_status : string;
  qi_run_after : datetime;
  qi_locked_at : option datetime;
  qi_locked_by : option string;
  qi_attempt_count : Z;
  qi_max_attempts : Z;
  qi_last_error : option string;
  qi_dead_letter_at : option datetime;
  qi_created_at : datetime }.

Abbreviation queue_table := (list ChannelOpsQueueItem).

(** The columns that change after the insertion. *)
Record QueueState := {
  qs_status : string;
  qs_run_after : datetime;
  qs_locked_at : option datetime;
  qs_locked_by : option string;
  qs_attempt_count : Z;
  qs_last_error : option string;
  qs_dead_letter_at : option datetime }.

Definition queue_state (i : ChannelOpsQueueItem) : QueueState :=
  {| qs_status := qi_status i; qs_run_after := qi_run_after i; qs_locked_at := qi_locked_at i;
     qs_locked_by := qi_locked_by i; qs_attempt_count := qi_attempt_count i; qs_last_error := qi_last_error i;
     qs_dead_letter_at := qi_dead_letter_at i |}.

Definition set_queue_state (s : QueueState) (i : ChannelOpsQueueItem) : ChannelOpsQueueItem :=
  {| qi_id := qi_id i; qi_kind := qi_kind i; qi_idempotency_key := qi_idempotency_key i;
     qi_channel_profile_id := qi_channel_profile_id i; qi_priority := qi_priority i;
     qi_parent_queue_item_id := qi_parent_queue_item_id i; qi_payload_json := qi_payload_json i;
     qi_status := qs_status s; qi_run_after := qs_run_after s; qi_locked_at := qs_locked_at s;
     qi_locked_by := qs_locked_by s; qi_attempt_count := qs_attempt_count s; qi_max_attempts := qi_max_attempts i;
     qi_last_error := qs_last_error s; qi_dead_letter_at := qs_dead_letter_at s; qi_created_at := qi_created_at i |}.

(** What the unit of work sends for an attribute: nothing when the new value is the
    loaded one. *)
Definition orm_write {A} `{EqDecision A} (loaded new current : A) : A :=
  if decide (new = loaded) then current else new.

Definition write_queue_state (loaded new : QueueState) (i : ChannelOpsQueueItem) : ChannelOpsQueueItem :=
  set_queue_state
    {| qs_status := orm_write (qs_status loaded) (qs_status new) (qi_status i);
       qs_run_after := orm_write (qs_run_after loaded) (qs_run_after new) (qi_run_after i);
       qs_locked_at := orm_write (qs_locked_at loaded) (qs_locked_at new) (qi_locked_at i);
       qs_locked_by := orm_write (qs_locked_by loaded) (qs_locked_by new) (qi_locked_by i);
       qs_attempt_count := orm_write (qs_attempt_count loaded) (qs_attempt_count new) (qi_attempt_count i);
       qs_last_error := orm_write (qs_last_error loaded) (qs_last_error new) (qi_last_error i);
       qs_dead_letter_at := orm_write (qs_dead_letter_at loaded) (qs_dead_letter_at new) (qi_dead_letter_at i) |} i.

Definition update_item (id : uuid) (f : ChannelOpsQueueItem -> ChannelOpsQueueItem) (t : queue_table) : queue_table :=
  map (fun i => if (qi_id i =? id)%string then f i else i) t.

Definition find_item (id : uuid) (t : queue_table) : option ChannelOpsQueueItem :=
  find (fun i => (qi_id i =? id)%string) t.

(** Committing new values of a loaded item; its row may have been deleted. *)
Definition commit_item (item : ChannelOpsQueueItem) (new : QueueState) (t : queue_table) : Res queue_table :=
  match find_item (qi_id item) t with
  | None => Raise (RuntimeError "StaleDataError")
  | Some _ => Ok (update_item (qi_id item) (write_queue_state (queue_state item) new) t)
  end.

(** ** The service *)

Definition utc_hour_bucket (value : datetime) : string := strftime_hours value.

Definition get_by_key (idempotency_key : string) (t : queue_table) : option ChannelOpsQueueItem :=
  find (fun i => (qi_idempotency_key i =? idempotency_key)%string) t.

Record EnqueueRequest := {
  eq_kind : string;
  eq_idempotency_key : string;
  eq_payload : option config;
  eq_priority : Z;
  eq_run_after : option datetime;
  eq_channel_profile_id : option uuid;
  eq_parent_queue_item_id : option uuid;
  eq_max_attempts : Z }.

Definition new_item (new_id : uuid) (now : datetime) (r : EnqueueRequest) : ChannelOpsQueueItem :=
  {| qi_id := new_id; qi_kind := eq_kind r; qi_idempotency_key := eq_idempotency_key r;
     qi_channel_profile_id := eq_channel_profile_id r; qi_priority := eq_priority r;
     qi_parent_queue_item_id := eq_parent_queue_item_id r; qi_payload_json := default [] (eq_payload r);
     qi_status := QUEUE_QUEUED; qi_run_after := default now (eq_run_after r); qi_locked_at := None;
     qi_locked_by := None; qi_attempt_count := 0; qi_max_attempts := eq_max_attempts r; qi_last_error := None;
     qi_dead_letter_at := None; qi_created_at := now |}.

(** [enqueue]: [seen] is the table when the key was looked up, [current] the table at
    the commit, which other transactions may have changed.  With [commit] false the
    insertion is only flushed and a constraint it violates raises. *)
Definition enqueue_item (new_id : uuid) (now : datetime) (r : EnqueueRequest) (commit : bool)
    (seen current : queue_table) : Res (ChannelOpsQueueItem * queue_table) :=
  match get_by_key (eq_idempotency_key r) seen with
  | Some existing => Ok (existing, current)
  | None =>
      let item := new_item new_id now r in
      let violated := bool_decide (eq_idempotency_key r ∈ map qi_idempotency_key current)
                      || bool_decide (new_id ∈ map qi_id current) in
      if negb violated then Ok (item, current ++ [item])
      else if negb commit then Raise IntegrityError
      else
        match get_by_key (eq_idempotency_key r) current with
        | Some existing => Ok (existing, current)
        | None => Raise IntegrityError
        end
  end.

(** [order_by(priority.asc(), created_at.asc())]. *)
Definition queue_le (a b : ChannelOpsQueueItem) : Prop :=
  (qi_priority a < qi_priority b)%Z \/ (qi_priority a = qi_priority b /\ (qi_created_at a <= qi_created_at b)%Z).
#[export] Instance queue_le_dec : RelDecision queue_le.
Proof. intros a b. unfold queue_le. apply _. Defined.

Definition ready (now : datetime) (i : ChannelOpsQueueItem) : bool :=
  (qi_status i =? QUEUE_QUEUED)%string && (qi_run_after i <=? now)%Z
  && bool_decide (qi_kind i ∈ PYTHON_RUNNER_QUEUE_KINDS).

Definition claim_state (now : datetime) (worker_id : string) (i : ChannelOpsQueueItem) : QueueState :=
  {| qs_status := QUEUE_RUNNING; qs_run_after := qi_run_after i; qs_locked_at := Some now;
     qs_locked_by := Some worker_id; qs_attempt_count := qi_attempt_count i + 1; qs_last_error := qi_last_error i;
     qs_dead_letter_at := qi_dead_letter_at i |}.

Definition claim_next (now : datetime) (worker_id : string) (t : queue_table)
    : option ChannelOpsQueueItem * queue_table :=
  match merge_sort queue_le (List.filter (ready now) t) with
  | [] => (None, t)
  | i :: _ =>
      let item := set_queue_state (claim_state now worker_id i) i in
      (Some item, update_item (qi_id i) (fun _ => item) t)
  end.

Definition mark_succeeded (item : ChannelOpsQueueItem) (t : queue_table) : Res queue_table :=
  commit_item item
    {| qs_status := QUEUE_SUCCEEDED; qs_run_after := qi_run_after item; qs_locked_at := qi_locked_at item;
       qs_locked_by := qi_locked_by item; qs_attempt_count := qi_attempt_count item; qs_last_error := None;
       qs_dead_letter_at := qi_dead_letter_at item |} t.

(** Attempt counts are not negative; [2 ** -1] would be a fraction. *)
Definition backoff (attempt_count : Z) : Z :=
  let n := if (attempt_count =? 0)%Z then 1%Z else attempt_count in
  (Z.min (5 * 2 ^ (n - 1)) 30 * MINUTE_US)%Z.

Definition attempt_limit (max_attempts : option Z) (item : ChannelOpsQueueItem) : Z :=
  match max_attempts with
  | Some n => n
  | None => if (qi_max_attempts item =? 0)%Z then 3%Z else qi_max_attempts item
  end.

Definition failure_state (now : datetime) (error_message : string) (max_attempts : option Z)
    (retry_delay : option Z) (item : ChannelOpsQueueItem) : QueueState :=
  if (attempt_limit max_attempts item <=? qi_attempt_count item)%Z then
    {| qs_status := QUEUE_DEAD_LETTERED; qs_run_after := qi_run_after item; qs_locked_at := qi_locked_at item;
       qs_locked_by := qi_locked_by item; qs_attempt_count := qi_attempt_count item;
       qs_last_error := Some error_message; qs_dead_letter_at := Some now |}
  else
    {| qs_status := QUEUE_QUEUED; qs_run_after := now + default (backoff (qi_attempt_count item)) retry_delay;
       qs_locked_at := None; qs_locked_by := None; qs_attempt_count := qi_attempt_count item;
       qs_last_error := Some error_message; qs_dead_letter_at := qi_dead_letter_at item |}.

Definition mark_failed_or_retry (now : datetime) (item : ChannelOpsQueueItem) (error_message : string)
    (max_attempts : option Z) (retry_delay : option Z) (t : queue_table) : Res queue_table :=
  commit_item item (failure_state now error_message max_attempts retry_delay item) t.

Definition mark_failed (item : ChannelOpsQueueItem) (error_message : string) (t : queue_table) : Res queue_table :=
  commit_item item
    {| qs_status := QUEUE_FAILED; qs_run_after := qi_run_after item; qs_locked_at := qi_locked_at item;
       qs_locked_by := qi_locked_by item; qs_attempt_count := qi_attempt_count item;
       qs_last_error := Some error_message; qs_dead_letter_at := qi_dead_letter_at item |} t.

(** ** Operators: quarantine and cancellation *)

(** [_dead_letter_queue_item] of [services/channelops_quarantine.py]. *)
Definition _dead_letter_queue_item (now : datetime) (reason : string) (i : ChannelOpsQueueItem) : ChannelOpsQueueItem :=
  set_queue_state
    {| qs_status := "dead_lettered"; qs_run_after := qi_run_after i; qs_locked_at := None; qs_locked_by := None;
       qs_attempt_count := qi_attempt_count i; qs_last_error := Some reason; qs_dead_letter_at := Some now |} i.

Definition _NONTERMINAL_QUEUE_STATUSES : list string := ["queued"; "running"].

Definition quarantined_item (channel_id : uuid) (i : ChannelOpsQueueItem) : bool :=
  bool_decide (qi_channel_profile_id i = Some channel_id) && bool_decide (qi_status i ∈ _NONTERMINAL_QUEUE_STATUSES).

Definition quarantine_queue (channel_id : uuid) (now : datetime) (reason : string) (t : queue_table) : queue_table :=
  map (fun i => if quarantined_item channel_id i then _dead_letter_queue_item now reason i else i) t.

Definition publication_of (i : ChannelOpsQueueItem) : string :=
  match (qi_payload_json i).[? "publication_id"] with
  | Some v => if truthy v then py_str v else ""
  | None => ""
  end.

(** [_cancel_queued_publication_items] of [api/channel_agent.py]. *)
Definition _cancel_queued_publication_items (publication_id : uuid) (kinds : list string) (t : queue_table)
    : queue_table :=
  map (fun i =>
    if bool_decide (qi_kind i ∈ kinds) && (qi_status i =? QUEUE_QUEUED)%string
       && (publication_of i =? publication_id)%string
    then set_queue_state
           {| qs_status := QUEUE_CANCELLED; qs_run_after := qi_run_after i; qs_locked_at := qi_locked_at i;
              qs_locked_by := qi_locked_by i; qs_attempt_count := qi_attempt_count i; qs_last_error := qi_last_error i;
              qs_dead_letter_at := qi_dead_letter_at i |} i
    else i) t.

(** ** The scheduler *)

Record OwnedSeedInventory := {
  oi_id : uuid;
  oi_state : string;
  oi_approved_at : option datetime;
  oi_revoked_at : option datetime;
  oi_succession_released_at : option datetime }.

Record InternalSchedulerRun := {
  sr_channel_profile_id : uuid;
  sr_bucket : string;
  sr_enqueued_queue_item_id : option uuid;
  sr_ran_at : datetime;
  sr_status : string }.

Record SchedulerResult := { enqueued_count : Z; skipped_count : Z }.

(** [int(value or 60)] of the column, at least 15. *)
Definition _normalized_interval_minutes (value : option Z) : Z :=
  let interval := match value with Some v => if (v =? 0)%Z then 60%Z else v | None => 60%Z end in
  Z.max interval 15.

(** The start of the slot of the day an instant is in. *)
Definition bucket_start (value : datetime) (interval : Z) : Z :=
  (value mod DAY_US / MINUTE_US / interval * interval)%Z.

Definition scheduler_bucket (value : datetime) (interval_minutes : option Z) : string :=
  let interval := _normalized_interval_minutes interval_minutes in
  let start := bucket_start value interval in
  let bucket_time := (value / DAY_US * DAY_US + start * MINUTE_US)%Z in
  if (60 <=? interval)%Z && (start mod 60 =? 0)%Z then strftime_hours bucket_time else strftime_minutes bucket_time.

Record SchedulerDb := {
  sd_channels : list ChannelProfile;
  sd_inventories : list OwnedSeedInventory;
  sd_queue : queue_table;
  sd_runs : list InternalSchedulerRun }.

Definition channel_le (a b : ChannelProfile) : Prop := (ch_created_at a <= ch_created_at b)%Z.
#[export] Instance channel_le_dec : RelDecision channel_le.
Proof. intros a b. unfold channel_le. apply _. Defined.

Definition schedulable (c : ChannelProfile) : bool :=
  ch_enabled c && bool_decide (ch_halted_at c = None) && bool_decide (ch_intake_paused_at c = None).

(** An owned channel ticks only for an approved inventory. *)
Definition inventory_admits (inventories : list OwnedSeedInventory) (c : ChannelProfile) : bool :=
  match ch_owned_seed_inventory_id c with
  | None => true
  | Some id =>
      match find (fun i => (oi_id i =? id)%string) inventories with
      | None => false
      | Some i => (oi_state i =? "approved")%string && bool_decide (oi_approved_at i <> None)
                  && bool_decide (oi_revoked_at i = None) && bool_decide (oi_succession_released_at i = None)
      end
  end.

Definition channel_bucket (current : datetime) (c : ChannelProfile) : string :=
  if bool_decide (ch_owned_seed_inventory_id c <> None) && bool_decide (ch_tick_interval_minutes c = Some 1%Z)
  then strftime_minutes current
  else scheduler_bucket current (Some (_normalized_interval_minutes (ch_tick_interval_minutes c))).

Definition tick_key (c : ChannelProfile) (bucket : string) : string := "agent_tick:" +:+ ch_id c +:+ ":" +:+ bucket.

Definition tick_request (current : datetime) (c : ChannelProfile) (bucket : string) : EnqueueRequest :=
  {| eq_kind := "agent_tick"; eq_idempotency_key := tick_key c bucket;
     eq_payload := Some [("channel_id", VStr (ch_id c)); ("scheduler_bucket", VStr bucket)]; eq_priority := 40;
     eq_run_after := Some current; eq_channel_profile_id := Some (ch_id c); eq_parent_queue_item_id := None;
     eq_max_attempts := 3 |}.

Definition set_tick_interval (v : Z) (c : ChannelProfile) : ChannelProfile :=
  {| ch_id := ch_id c; ch_enabled := ch_enabled c; ch_halted_at := ch_halted_at c; ch_halt_reason := ch_halt_reason c;
     ch_intake_paused_at := ch_intake_paused_at c; ch_tick_interval_minutes := Some v;
     ch_owned_seed_inventory_id := ch_owned_seed_inventory_id c; ch_created_at := ch_created_at c |}.

(** The loop body for one channel. *)
Definition schedule_channel (new_id : string -> uuid) (current : datetime) (s : SchedulerDb * SchedulerResult)
    (c : ChannelProfile) : Res (SchedulerDb * SchedulerResult) :=
  let '(db, res) := s in
  let skipped db := Ok (db, {| enqueued_count := enqueued_count res; skipped_count := skipped_count res + 1 |}) in
  if negb (inventory_admits (sd_inventories db) c) then skipped db
  else
    let interval_minutes := _normalized_interval_minutes (ch_tick_interval_minutes c) in
    let bucket := channel_bucket current c in
    let channels :=
      if bool_decide (ch_owned_seed_inventory_id c = None)
         && bool_decide (ch_tick_interval_minutes c <> Some interval_minutes)
      then map (fun c' => if (ch_id c' =? ch_id c)%string then set_tick_interval interval_minutes c' else c')
             (sd_channels db)
      else sd_channels db in
    let db1 := {| sd_channels := channels; sd_inventories := sd_inventories db; sd_queue := sd_queue db;
                  sd_runs := sd_runs db |} in
    match get_by_key (tick_key c bucket) (sd_queue db1) with
    | Some _ => skipped db1
    | None =>
        match enqueue_item (new_id (tick_key c bucket)) current (tick_request current c bucket) false
                (sd_queue db1) (sd_queue db1) with
        | Raise e => Raise e
        | Ok (item, queue) =>
            if bool_decide ((ch_id c, bucket) ∈ map (fun r => (sr_channel_profile_id r, sr_bucket r)) (sd_runs db1))
            then Raise IntegrityError
            else Ok ({| sd_channels := sd_channels db1; sd_inventories := sd_inventories db1; sd_queue := queue;
                        sd_runs := sd_runs db1 ++
                          [{| sr_channel_profile_id := ch_id c; sr_bucket := bucket;
                              sr_enqueued_queue_item_id := Some (qi_id item); sr_ran_at := current;
                              sr_status := "enqueued" |}] |},
                     {| enqueued_count := enqueued_count res + 1; skipped_count := skipped_count res |})
        end
    end.

(** [ChannelOpsScheduler.run_once]: committed at the end, so a raised error leaves the
    database as it was. *)
Definition scheduler_run_once (new_id : string -> uuid) (current : datetime) (db : SchedulerDb)
    : Res (SchedulerDb * SchedulerResult) :=
  foldM (schedule_channel new_id current) (db, {| enqueued_count := 0; skipped_count := 0 |})
    (merge_sort channel_le (List.filter schedulable (sd_channels db))).

(** ** Buckets *)

Lemma normalized_idem v : _normalized_interval_minutes (Some (_normalized_interval_minutes v)) = _normalized_interval_minutes v.
Proof.
  unfold _normalized_interval_minutes. set (w := match v with Some v0 => _ | None => _ end).
  destruct (Z.eqb_spec (Z.max w 15) 0); lia.
Qed.

Lemma normalized_bound v : (15 <= _normalized_interval_minutes v)%Z.
Proof. unfold _normalized_interval_minutes. lia. Qed.

Lemma bucket_start_bound t i : (0 < i -> 0 <= bucket_start t i < 1440)%Z.
Proof.
  unfold bucket_start. set (a := (t mod DAY_US / MINUTE_US)%Z). intros Hi.
  assert (0 <= a < 1440)%Z by (unfold a, DAY_US, MINUTE_US; Z.to_euclidean_division_equations; lia).
  pose proof (Z.mul_div_le a i Hi). pose proof (Z.div_pos a i). lia.
Qed.

(** The start of a slot, as the fields printed. *)
Lemma bucket_time_fields t s :
  (0 <= s < 1440)%Z ->
  (((t / DAY_US * DAY_US + s * MINUTE_US) / DAY_US = t / DAY_US)
   /\ (t / DAY_US * DAY_US + s * MINUTE_US) mod DAY_US = s * MINUTE_US)%Z.
Proof. unfold DAY_US, MINUTE_US. intros Hs. Z.to_euclidean_division_equations. lia. Qed.

(** A scheduler bucket names exactly one slot: for instants Python can represent, two
    instants have the same bucket for an interval when and only when they are in the
    same day and in the same slot of that day, whichever of the two formats the
    bucket is printed in. *)
Theorem scheduler_bucket_exact t t' interval :
  representable t -> representable t' ->
  scheduler_bucket t interval = scheduler_bucket t' interval
  <-> ((t / DAY_US)%Z = (t' / DAY_US)%Z
       /\ bucket_start t (_normalized_interval_minutes interval)
          = bucket_start t' (_normalized_interval_minutes interval)).
Proof.
  unfold scheduler_bucket. set (i := _normalized_interval_minutes interval). intros Ht Ht'.
  pose proof (normalized_bound interval) as Hi. fold i in Hi.
  pose proof (bucket_start_bound t i ltac:(lia)) as Hs. pose proof (bucket_start_bound t' i ltac:(lia)) as Hs'.
  set (s := bucket_start t i) in *. set (s' := bucket_start t' i) in *.
  destruct (bucket_time_fields t s Hs) as [Hd Hm]. destruct (bucket_time_fields t' s' Hs') as [Hd' Hm'].
  unfold representable in *. rewrite <-Hd in Ht. rewrite <-Hd' in Ht'. split; [|by intros [-> ->]].
  destruct ((60 <=? i)%Z && (s mod 60 =? 0)%Z) eqn:Hf, ((60 <=? i)%Z && (s' mod 60 =? 0)%Z) eqn:Hf'.
  - intros [Hday Hh]%strftime_hours_inj; [|done..]. rewrite Hd, Hd' in Hday. rewrite Hm, Hm' in Hh.
    split; [done|]. apply andb_prop in Hf as [_ Hf%Z.eqb_eq], Hf' as [_ Hf'%Z.eqb_eq].
    unfold MINUTE_US in Hh. Z.to_euclidean_division_equations; lia.
  - by intros ?%strftime_lengths.
  - by intros ?%eq_sym%strftime_lengths.
  - intros Hmin%strftime_minutes_inj; [|done..]. rewrite <-Hd, <-Hd'.
    unfold DAY_US, MINUTE_US in *. Z.to_euclidean_division_equations; lia.
Qed.

Lemma scheduler_bucket_exact_witness :
  scheduler_bucket 1717243260000001 (Some 60%Z) = scheduler_bucket 1717246799999999 (Some 60%Z)
  /\ scheduler_bucket 1717243260000001 (Some 60%Z) <> scheduler_bucket 1717246800000000 (Some 60%Z).
Proof.
  split.
  - apply scheduler_bucket_exact; [unfold representable; vm_compute; split; discriminate..|by vm_compute].
  - intros H. apply scheduler_bucket_exact in H; [|unfold representable; vm_compute; split; discriminate..].
    destruct H as [_ H]. vm_compute in H. discriminate H.
Defined.
