(* ===== verification/QueueHistory.v ===== *)
(** * Histories of the ChannelOps queue

    The transactions of [ChannelQueue] in any order, with the items the runners were
    given.  However enqueueing, claims, outcomes, quarantine, cancellation and
    retention interleave, keys stay unique and no item is handed out more often than
    its attempt limit. *)

From stdpp Require Import base tactics list strings sorting relations.
From Stdlib Require Import ZArith Lia.
From S2P Require Import Prelude PyStr PyValue PyTime Pipeline JobModel ChannelQueue.

Open Scope string_scope.
Open Scope list_scope.

(** ** Rows under updates *)

(** What an update never touches. *)
Definition item_identity (i : ChannelOpsQueueItem) : uuid * string * Z := (qi_id i, qi_idempotency_key i, qi_max_attempts i).

Lemma set_state_identity s i : item_identity (set_queue_state s i) = item_identity i.
Proof. done. Qed.

Lemma write_state_identity s s' i : item_identity (write_queue_state s s' i) = item_identity i.
Proof. done. Qed.

Lemma map_identity (f : ChannelOpsQueueItem -> ChannelOpsQueueItem) t :
  (forall i, i ∈ t -> item_identity (f i) = item_identity i) -> map item_identity (map f t) = map item_identity t.
Proof.
  intros Hf. rewrite map_map. apply map_ext_in. intros i Hi%list_elem_of_In. auto.
Qed.

Lemma identity_maps t t' :
  map item_identity t = map item_identity t' ->
  map qi_id t = map qi_id t' /\ map qi_idempotency_key t = map qi_idempotency_key t'.
Proof.
  intros H. split.
  - apply (f_equal (map (fun x => x.1.1))) in H. by rewrite !map_map in H.
  - apply (f_equal (map (fun x => x.1.2))) in H. by rewrite !map_map in H.
Qed.

Lemma update_item_elem id f t i :
  i ∈ update_item id f t -> exists i0, i0 ∈ t /\ ((qi_id i0 = id /\ i = f i0) \/ (qi_id i0 <> id /\ i = i0)).
Proof.
  intros (i0 & -> & H)%list_elem_of_fmap. exists i0. split; [done|].
  destruct (String.eqb_spec (qi_id i0) id); auto.
Qed.

Lemma find_item_spec id t i : find_item id t = Some i -> i ∈ t /\ qi_id i = id.
Proof. intros [Hi He]%find_some. split; [by apply list_elem_of_In|]. by apply String.eqb_eq. Qed.

Lemma get_by_key_spec k t i : get_by_key k t = Some i -> i ∈ t /\ qi_idempotency_key i = k.
Proof. intros [Hi He]%find_some. split; [by apply list_elem_of_In|]. by apply String.eqb_eq. Qed.

Lemma get_by_key_None k t : get_by_key k t = None <-> k ∉ map qi_idempotency_key t.
Proof.
  unfold get_by_key. split.
  - intros Hf (i & -> & Hi)%list_elem_of_fmap.
    pose proof (find_none _ _ Hf i) as Hn. rewrite list_elem_of_In in Hi. specialize (Hn Hi).
    simpl in Hn. by rewrite String.eqb_refl in Hn.
  - intros Hk. destruct (find _ t) as [i|] eqn:Hf; [|done]. destruct Hk.
    apply get_by_key_spec in Hf as [Hi <-]. by apply elem_map.
Qed.

Lemma get_by_key_unique k t i :
  NoDup (map qi_idempotency_key t) -> i ∈ t -> qi_idempotency_key i = k -> get_by_key k t = Some i.
Proof.
  intros Hn Hi Hk. destruct (get_by_key k t) as [j|] eqn:Hg.
  - apply get_by_key_spec in Hg as [Hj Hjk]. f_equal. eapply (NoDup_map_inj qi_idempotency_key); [done..|congruence].
  - apply get_by_key_None in Hg. destruct Hg. rewrite <-Hk. by apply elem_map.
Qed.

(** ** Claims *)

Definition limit (i : ChannelOpsQueueItem) : Z := Z.max 1 (attempt_limit None i).

Definition claims_of (id : uuid) (claims : list ChannelOpsQueueItem) : Z :=
  Z.of_nat (length (List.filter (fun c => (qi_id c =? id)%string) claims)).

Lemma limit_identity i j : item_identity i = item_identity j -> limit i = limit j.
Proof. intros [= _ _ H]. unfold limit, attempt_limit. by rewrite H. Qed.

Lemma claims_of_snoc id claims c :
  claims_of id (claims ++ [c]) = (claims_of id claims + if (qi_id c =? id)%string then 1 else 0)%Z.
Proof.
  unfold claims_of. rewrite List.filter_app, length_app. simpl. destruct (_ =? _)%string; simpl; lia.
Qed.

Lemma claims_of_fresh id claims : id ∉ map qi_id claims -> claims_of id claims = 0%Z.
Proof.
  intros Hn. unfold claims_of. destruct (List.filter _ claims) as [|c l] eqn:Hf; [done|].
  destruct Hn. assert (Hc : c ∈ List.filter (fun c => (qi_id c =? id)%string) claims) by (rewrite Hf; by left).
  apply elem_of_lfilter in Hc as [Hc <-%String.eqb_eq]. by apply elem_map.
Qed.

(** The attempts of a row are the claims of its item; a queued row has one left. *)
Definition row_ok (claims : list ChannelOpsQueueItem) (i : ChannelOpsQueueItem) : Prop :=
  claims_of (qi_id i) claims = qi_attempt_count i
  /\ (qi_attempt_count i <= limit i)%Z
  /\ (qi_status i = QUEUE_QUEUED -> (qi_attempt_count i < limit i)%Z).

Record queue_inv (t : queue_table) (claims : list ChannelOpsQueueItem) : Prop := {
  qv_ids : NoDup (map qi_id t);
  qv_keys : NoDup (map qi_idempotency_key t);
  qv_rows : Forall (row_ok claims) t;
  qv_claims : Forall (fun c => (claims_of (qi_id c) claims <= limit c)%Z) claims;
  qv_same : forall i c, i ∈ t -> c ∈ claims -> qi_id i = qi_id c -> item_identity i = item_identity c }.

(** Updates that keep the identities and the attempts. *)
Lemma queue_inv_update f t claims :
  queue_inv t claims -> (forall i, i ∈ t -> item_identity (f i) = item_identity i) ->
  (forall i, i ∈ t -> row_ok claims i -> row_ok claims (f i)) -> queue_inv (map f t) claims.
Proof.
  intros [Hi Hk Hr Hc Hs] Hid Hok. destruct (identity_maps _ _ (map_identity f t Hid)) as [Hi' Hk'].
  constructor; [by rewrite Hi'|by rewrite Hk'| |done|].
  - apply Forall_map. rewrite Forall_forall in Hr |- *. intros i Hin. simpl. auto.
  - intros i c (i0 & -> & Hin)%list_elem_of_fmap Hcin Hid'. rewrite Hid by done.
    apply Hs; [done..|]. pose proof (Hid i0 Hin) as [= Hq _ _]. congruence.
Qed.

(** An update that leaves the attempts and does not queue. *)
Lemma row_ok_write claims i i' :
  item_identity i' = item_identity i -> qi_attempt_count i' = qi_attempt_count i ->
  (qi_status i' = QUEUE_QUEUED -> qi_status i = QUEUE_QUEUED \/ (qi_attempt_count i < limit i)%Z) ->
  row_ok claims i -> row_ok claims i'.
Proof.
  intros Hid Ha Hq (H1 & H2 & H3). pose proof (limit_identity _ _ Hid) as Hl. injection Hid as Hqi _ _.
  unfold row_ok. rewrite Hqi, Ha, Hl. split_and!; [done..|]. intros [?|?]%Hq; auto.
Qed.

Lemma orm_write_same {A} `{EqDecision A} (v c : A) : orm_write v v c = c.
Proof. unfold orm_write. by rewrite decide_True. Qed.

Lemma orm_write_new {A} `{EqDecision A} (loaded v c : A) : orm_write loaded v c = v \/ orm_write loaded v c = c.
Proof. unfold orm_write. case_decide; auto. Qed.

(** Committing a loaded item whose attempts are not written. *)
Lemma commit_inv t claims item new t' :
  queue_inv t claims -> commit_item item new t = Ok t' -> qs_attempt_count new = qi_attempt_count item ->
  (qs_status new = QUEUE_QUEUED -> find_item (qi_id item) t = Some item /\ (qi_attempt_count item < limit item)%Z) ->
  queue_inv t' claims.
Proof.
  intros Hinv Hc Ha Hq. unfold commit_item in Hc. destruct (find_item _ t) as [cur|] eqn:Hf; [|done].
  injection Hc as <-. apply queue_inv_update; [done|by intros i _; destruct (_ =? _)%string|].
  intros i Hi. destruct (String.eqb_spec (qi_id i) (qi_id item)) as [Hid|]; [|done].
  apply row_ok_write; [done| |]; simpl.
  - rewrite Ha. apply orm_write_same.
  - destruct (orm_write_new (qi_status item) (qs_status new) (qi_status i)) as [->| ->]; [|by left].
    intros [[= ->] Hlt]%Hq. right. apply find_item_spec in Hf as [Hf _].
    assert (i = item) as ->; [|done]. by eapply (NoDup_map_inj qi_id); [apply Hinv|..].
Qed.

Lemma filter_inv p t claims : queue_inv t claims -> queue_inv (List.filter p t) claims.
Proof.
  intros [Hi Hk Hr Hc Hs]. constructor; [by apply NoDup_map_filter..| |done|].
  - rewrite Forall_forall in Hr |- *. intros i [Hin _]%elem_of_lfilter. auto.
  - intros i c [Hin _]%elem_of_lfilter. by apply Hs.
Qed.

Lemma enqueue_item_cases new_id now r commit seen t i t' :
  enqueue_item new_id now r commit seen t = Ok (i, t') ->
  (t' = t /\ (get_by_key (eq_idempotency_key r) seen = Some i \/ get_by_key (eq_idempotency_key r) t = Some i))
  \/ (i = new_item new_id now r /\ t' = t ++ [i] /\ eq_idempotency_key r ∉ map qi_idempotency_key t
      /\ new_id ∉ map qi_id t).
Proof.
  unfold enqueue_item. destruct (get_by_key _ seen) as [e|]; [intros [= <- <-]; eauto|].
  destruct (bool_decide (eq_idempotency_key r ∈ _)) eqn:Hk, (bool_decide (new_id ∈ _)) eqn:Hi; simpl;
    [destruct commit; [destruct (get_by_key _ t) eqn:Hg|]; intros; simplify_eq/=; eauto..|].
  intros [= <- <-]. right. by apply bool_decide_eq_false in Hk, Hi.
Qed.

Lemma enqueue_item_inv new_id now r commit seen t claims i t' :
  queue_inv t claims -> new_id ∉ map qi_id claims ->
  enqueue_item new_id now r commit seen t = Ok (i, t') -> queue_inv t' claims.
Proof.
  intros [Hi Hk Hr Hc Hs] Hfresh [[-> _]|(-> & -> & Hkey & Hid)]%enqueue_item_cases; [done|].
  constructor.
  - rewrite map_app. apply NoDup_app. split_and!; [done| |apply NoDup_singleton].
    by intros x Hx ->%list_elem_of_singleton.
  - rewrite map_app. apply NoDup_app. split_and!; [done| |apply NoDup_singleton].
    by intros x Hx ->%list_elem_of_singleton.
  - apply Forall_app. split; [done|]. constructor; [|done]. unfold row_ok, limit. simpl.
    rewrite claims_of_fresh by done. split_and!; [done|lia|lia].
  - done.
  - intros i c [Hin| ->%list_elem_of_singleton]%elem_of_app Hcin Heq; [by apply Hs|].
    destruct Hfresh. simpl in Heq. rewrite Heq. by apply elem_map.
Qed.

(** ** Claiming *)

#[export] Instance queue_le_total : Total queue_le.
Proof. intros a b. unfold queue_le. lia. Qed.

#[export] Instance queue_le_trans : Transitive queue_le.
Proof. intros a b c. unfold queue_le. lia. Qed.

(** What [claim_next] takes: a ready item, before which no ready item comes. *)
Lemma claim_next_some now w t item t' :
  claim_next now w t = (Some item, t') ->
  exists i, i ∈ t /\ ready now i = true /\ (forall j, j ∈ t -> ready now j = true -> queue_le i j)
    /\ item = set_queue_state (claim_state now w i) i /\ t' = update_item (qi_id i) (fun _ => item) t.
Proof.
  unfold claim_next. destruct (merge_sort queue_le _) as [|i l] eqn:Hm; [done|]. intros [= <- <-].
  pose proof (merge_sort_Permutation queue_le (List.filter (ready now) t)) as Hp. rewrite Hm in Hp.
  assert (Hi : i ∈ List.filter (ready now) t) by (rewrite <-Hp; by left). apply elem_of_lfilter in Hi as [Hi Hrd].
  exists i. split_and!; [done..| |done|done]. intros j Hj Hjr.
  assert (Hj' : j ∈ i :: l) by (rewrite Hp; by apply elem_of_lfilter).
  apply elem_of_cons in Hj' as [->|Hj']; [unfold queue_le; lia|].
  pose proof (StronglySorted_merge_sort queue_le (List.filter (ready now) t)) as Hs. rewrite Hm in Hs.
  apply StronglySorted_inv in Hs as [_ Hs]. rewrite Forall_forall in Hs. auto.
Qed.

Lemma claim_next_none now w t t' :
  claim_next now w t = (None, t') -> t' = t /\ forall j, j ∈ t -> ready now j = false.
Proof.
  unfold claim_next. destruct (merge_sort queue_le _) as [|i l] eqn:Hm; [|done]. intros [= <-]. split; [done|].
  intros j Hj. destruct (ready now j) eqn:Hr; [|done].
  assert (Hj' : j ∈ List.filter (ready now) t) by (by apply elem_of_lfilter).
  rewrite <-(merge_sort_Permutation queue_le), Hm in Hj'. by apply elem_of_nil in Hj'.
Qed.

Lemma ready_queued now i : ready now i = true -> qi_status i = QUEUE_QUEUED.
Proof. unfold ready. rewrite !andb_true_iff, String.eqb_eq. tauto. Qed.

Lemma claim_inv now w t claims item t' :
  queue_inv t claims -> claim_next now w t = (Some item, t') -> queue_inv t' (claims ++ [item]).
Proof.
  intros [Hi Hk Hr Hc Hs] (i & Hin & Hready%ready_queued & _ & -> & ->)%claim_next_some.
  set (item := set_queue_state _ _). assert (Hident : item_identity item = item_identity i) by done.
  assert (Hmap : map item_identity (update_item (qi_id i) (fun _ => item) t) = map item_identity t).
  { apply map_identity. intros j Hj. destruct (String.eqb_spec (qi_id j) (qi_id i)) as [Hq|]; [|done].
    by rewrite (NoDup_map_inj qi_id t j i Hi Hj Hin Hq). }
  destruct (identity_maps _ _ Hmap) as [Hi' Hk'].
  rewrite Forall_forall in Hr. destruct (Hr i Hin) as (Hcount & Hle & Hlt). specialize (Hlt Hready).
  constructor; [by rewrite Hi'|by rewrite Hk'|..].
  - apply Forall_forall. intros j (j0 & Hj0 & [[Hq ->]|[Hq ->]])%update_item_elem.
    + unfold row_ok. rewrite claims_of_snoc. change (qi_id item) with (qi_id i). rewrite String.eqb_refl, Hcount.
      rewrite (limit_identity item i) by done. simpl. split_and!; [lia|lia|done].
    + destruct (Hr j0 Hj0) as (H1 & H2 & H3). unfold row_ok. rewrite claims_of_snoc. change (qi_id item) with (qi_id i).
      rewrite (proj2 (String.eqb_neq _ _)) by congruence. rewrite Z.add_0_r. done.
  - rewrite Forall_forall in Hc |- *. intros c [Hcin| ->%list_elem_of_singleton]%elem_of_app; rewrite claims_of_snoc;
      change (qi_id item) with (qi_id i).
    + specialize (Hc c Hcin). destruct (String.eqb_spec (qi_id i) (qi_id c)) as [Hq|]; [|lia].
      rewrite <-Hq, Hcount. rewrite <-(limit_identity i c); [lia|]. by apply Hs.
    + rewrite String.eqb_refl, Hcount, (limit_identity item i) by done. lia.
  - intros j c (j0 & Hj0 & Hj)%update_item_elem [Hcin| ->%list_elem_of_singleton]%elem_of_app Hq.
    + destruct Hj as [[Hji ->]|[_ ->]]; [rewrite Hident; by apply Hs|by apply Hs].
    + destruct Hj as [[_ ->]|[Hji ->]]; [done|]. done.
Qed.

(** ** Histories *)

(** One transaction on the queue; the second component lists the items handed to
    runners.  A failure is settled on the row as it is now, as the runner reloads it;
    a success on the item as it was claimed.  Identifiers of new rows are fresh.
    Retention deletes rows of its choice. *)
Inductive queue_step : queue_table * list ChannelOpsQueueItem -> queue_table * list ChannelOpsQueueItem -> Prop :=
| step_enqueue_item new_id now r commit seen t claims i t' :
    enqueue_item new_id now r commit seen t = Ok (i, t') -> new_id ∉ map qi_id claims ->
    queue_step (t, claims) (t', claims)
| step_claim now worker_id t claims item t' :
    claim_next now worker_id t = (Some item, t') -> queue_step (t, claims) (t', claims ++ [item])
| step_succeeded item t claims t' :
    mark_succeeded item t = Ok t' -> queue_step (t, claims) (t', claims)
| step_failed_or_retry now item error retry_delay t claims t' :
    find_item (qi_id item) t = Some item -> mark_failed_or_retry now item error None retry_delay t = Ok t' ->
    queue_step (t, claims) (t', claims)
| step_failed item error t claims t' :
    mark_failed item error t = Ok t' -> queue_step (t, claims) (t', claims)
| step_quarantine channel_id now reason t claims :
    queue_step (t, claims) (quarantine_queue channel_id now reason t, claims)
| step_cancel publication_id kinds t claims :
    queue_step (t, claims) (_cancel_queued_publication_items publication_id kinds t, claims)
| step_delete p t claims :
    queue_step (t, claims) (List.filter p t, claims).

Lemma queue_step_inv s s' : queue_step s s' -> queue_inv s.1 s.2 -> queue_inv s'.1 s'.2.
Proof.
  intros Hstep Hinv. destruct Hstep; simpl in *.
  - by eapply enqueue_item_inv.
  - by eapply claim_inv.
  - eapply commit_inv; [done..|]. by intros [=].
  - eapply commit_inv; [done|done| |]; unfold failure_state; destruct (Z.leb_spec (attempt_limit None item) (qi_attempt_count item));
      simpl; try done. intros _. split; [done|]. unfold limit. lia.
  - eapply commit_inv; [done..|]. by intros [=].
  - apply queue_inv_update; [done|by intros i _; destruct (quarantined_item _ i)|].
    intros i _ Hok. destruct (quarantined_item _ i); [|done]. by apply (row_ok_write _ i).
  - apply queue_inv_update; [done|by intros i _; destruct (_ && _)|].
    intros i _ Hok. destruct (_ && _); [|done]. by apply (row_ok_write _ i).
  - by apply filter_inv.
Qed.

Lemma queue_reach s s' : rtc queue_step s s' -> queue_inv s.1 s.2 -> queue_inv s'.1 s'.2.
Proof. induction 1; eauto using queue_step_inv. Qed.

Lemma queue_empty : queue_inv [] [].
Proof. constructor; try by constructor. by intros i c ?%elem_of_nil. Qed.

(** C29. In every history of the queue, from the empty table on, idempotency keys stay
    unique and no item is handed to a runner more often than its attempt limit (at
    least once), whatever was enqueued, failed, quarantined, cancelled or deleted in
    between. *)
Theorem attempts_bounded t claims :
  rtc queue_step ([], []) (t, claims) ->
  NoDup (map qi_idempotency_key t)
  /\ forall c, c ∈ claims -> (claims_of (qi_id c) claims <= Z.max 1 (attempt_limit None c))%Z.
Proof.
  intros Hreach. destruct (queue_reach _ _ Hreach queue_empty) as [_ Hk _ Hc _]. split; [done|].
  by rewrite Forall_forall in Hc.
Qed.

(** ** Keys and claims *)

Lemma filter_unique {A B} `{EqDecision B} (f : A -> B) (p : A -> bool) (b : B) (l : list A) :
  (forall a, p a = bool_decide (f a = b)) -> NoDup (map f l) -> b ∈ map f l -> length (List.filter p l) = 1%nat.
Proof.
  intros Hp Hn Hb. apply list_elem_of_fmap in Hb as (a & -> & Ha).
  assert (Hin : a ∈ List.filter p l).
  { apply elem_of_lfilter. split; [done|]. rewrite Hp. by apply bool_decide_eq_true. }
  assert (Hnd : NoDup (List.filter p l)).
  { apply (NoDup_fmap_1 f). by apply NoDup_map_filter. }
  destruct (List.filter p l) as [|x [|y k]] eqn:Hf; [by apply elem_of_nil in Hin|done|]. exfalso.
  assert (forall z, z ∈ List.filter p l -> z = a) as Hall.
  { intros z [Hz Hpz]%elem_of_lfilter. rewrite Hp in Hpz. apply bool_decide_eq_true in Hpz.
    by eapply (NoDup_map_inj f). }
  rewrite Hf in Hall. apply NoDup_cons in Hnd as [Hxy _]. destruct Hxy.
  rewrite (Hall x), <-(Hall y); [by left|right; by left|by left].
Qed.

Lemma enqueued_key new_id now r commit seen t i t' :
  (eq_idempotency_key r ∈ map qi_idempotency_key seen -> eq_idempotency_key r ∈ map qi_idempotency_key t) ->
  enqueue_item new_id now r commit seen t = Ok (i, t') -> eq_idempotency_key r ∈ map qi_idempotency_key t'.
Proof.
  intros Hseen [[-> [[Hi Hk]%get_by_key_spec|[Hi Hk]%get_by_key_spec]]|(-> & -> & _)]%enqueue_item_cases.
  - apply Hseen. rewrite <-Hk. by apply elem_map.
  - rewrite <-Hk. by apply elem_map.
  - rewrite map_app. apply elem_of_app. right. by left.
Qed.

(** Enqueueing is idempotent, races included: once a request has been enqueued, the
    table holds exactly one item with its key, and any later committed request with
    that key succeeds and leaves the table as it is, even one that looked the key up
    before the first was there. *)
Theorem enqueue_once new_id now r commit seen t i t' :
  NoDup (map qi_idempotency_key t) ->
  (eq_idempotency_key r ∈ map qi_idempotency_key seen -> eq_idempotency_key r ∈ map qi_idempotency_key t) ->
  enqueue_item new_id now r commit seen t = Ok (i, t') ->
  length (List.filter (fun j => (qi_idempotency_key j =? eq_idempotency_key r)%string) t') = 1%nat
  /\ forall new_id' now' r' seen', eq_idempotency_key r' = eq_idempotency_key r ->
     exists j, enqueue_item new_id' now' r' true seen' t' = Ok (j, t') /\ qi_idempotency_key j = eq_idempotency_key r.
Proof.
  intros Hn Hseen He. pose proof (enqueued_key _ _ _ _ _ _ _ _ Hseen He) as Hin. split.
  - eapply (filter_unique qi_idempotency_key _ (eq_idempotency_key r)); [..|done].
    { intros a. symmetry. destruct (String.eqb_spec (qi_idempotency_key a) (eq_idempotency_key r));
        [by apply bool_decide_eq_true|by apply bool_decide_eq_false]. }
    apply enqueue_item_cases in He as [[-> _]|(-> & -> & Hk & _)]; [done|]. rewrite map_app. apply NoDup_app.
    split_and!; [done| |apply NoDup_singleton]. by intros x Hx ->%list_elem_of_singleton.
  - intros new_id' now' r' seen' Hkey. unfold enqueue_item. rewrite Hkey.
    destruct (get_by_key _ seen') as [e|] eqn:Hg; [exists e; by apply get_by_key_spec in Hg as [_ ?]|].
    rewrite bool_decide_true by done. simpl.
    destruct (get_by_key (eq_idempotency_key r) t') as [e|] eqn:Hg'; [exists e; by apply get_by_key_spec in Hg' as [_ ?]|].
    by apply get_by_key_None in Hg'.
Qed.

(** A claim takes a ready item that no ready item precedes in priority and age, locks
    it for the worker with one more attempt, and leaves the other rows alone; the item
    it returns is not returned again by the next claim, whoever makes it. *)
Theorem claim_next_correct now worker_id t item t' :
  NoDup (map qi_id t) -> claim_next now worker_id t = (Some item, t') ->
  (exists i, i ∈ t /\ ready now i = true /\ item = set_queue_state (claim_state now worker_id i) i
     /\ forall j, j ∈ t -> ready now j = true -> queue_le i j)
  /\ find_item (qi_id item) t' = Some item
  /\ (forall j, qi_id j <> qi_id item -> j ∈ t' <-> j ∈ t)
  /\ forall now' worker_id' item' t'', claim_next now' worker_id' t' = (Some item', t'') -> qi_id item' <> qi_id item.
Proof.
  intros Hn (i & Hi & Hr & Hmin & -> & ->)%claim_next_some. set (item := set_queue_state _ _).
  assert (Hitem : item ∈ update_item (qi_id i) (fun _ => item) t).
  { apply list_elem_of_fmap. exists i. by rewrite String.eqb_refl. }
  split_and!; [by exists i| | |].
  - destruct (find_item (qi_id item) _) as [j|] eqn:Hf.
    + apply find_item_spec in Hf as [(j0 & Hj0 & [[_ ->]|[Hq ->]])%update_item_elem Hj]; [done|]. by destruct Hq.
    + pose proof (find_none _ _ Hf item) as Hx. rewrite list_elem_of_In in Hitem. specialize (Hx Hitem).
      simpl in Hx. by rewrite String.eqb_refl in Hx.
  - intros j Hj. split.
    + intros (j0 & Hj0 & [[_ ->]|[_ ->]])%update_item_elem; done.
    + intros Hin. apply list_elem_of_fmap. exists j. split; [|done].
      destruct (String.eqb_spec (qi_id j) (qi_id i)); [|done]. by destruct Hj.
  - intros now' w' item' t'' (i' & Hi' & Hr'%ready_queued & _ & -> & _)%claim_next_some. simpl. intros Heq.
    apply update_item_elem in Hi' as (j0 & Hj0 & [[_ ->]|[Hq ->]]); [done|]. by destruct Hq.
Qed.

(** Quarantine dead-letters a running item, but its runner does not look: when the
    handler then fails before the attempt limit, the item is queued again. *)
Theorem quarantined_item_requeued channel_id now now' reason error t i :
  NoDup (map qi_id t) -> i ∈ t -> qi_status i = QUEUE_RUNNING -> qi_channel_profile_id i = Some channel_id ->
  (qi_attempt_count i < attempt_limit None i)%Z ->
  let t1 := quarantine_queue channel_id now reason t in
  exists i1 t2 i2,
    find_item (qi_id i) t1 = Some i1 /\ qi_status i1 = QUEUE_DEAD_LETTERED
    /\ mark_failed_or_retry now' i1 error None None t1 = Ok t2
    /\ i2 ∈ t2 /\ qi_id i2 = qi_id i /\ qi_status i2 = QUEUE_QUEUED.
Proof.
  intros Hn Hi Hs Hc Ha t1. set (i1 := _dead_letter_queue_item now reason i).
  assert (Hq : quarantined_item channel_id i = true).
  { unfold quarantined_item. rewrite Hs, Hc. by rewrite bool_decide_true. }
  assert (Hi1 : i1 ∈ t1).
  { apply list_elem_of_fmap. exists i. by rewrite Hq. }
  assert (Hf : find_item (qi_id i) t1 = Some i1).
  { destruct (find_item (qi_id i) t1) as [j|] eqn:Hf.
    - apply find_item_spec in Hf as [(j0 & -> & Hj0)%list_elem_of_fmap Hid].
      assert (j0 = i) as ->; [|by rewrite Hq].
      eapply (NoDup_map_inj qi_id); [done..|]. by destruct (quarantined_item _ j0).
    - pose proof (find_none _ _ Hf i1) as Hx. rewrite list_elem_of_In in Hi1. specialize (Hx Hi1). simpl in Hx.
      by rewrite String.eqb_refl in Hx. }
  set (i2 := write_queue_state (queue_state i1) (failure_state now' error None None i1) i1).
  exists i1, (update_item (qi_id i1) (write_queue_state (queue_state i1) (failure_state now' error None None i1)) t1), i2.
  split_and!; [done|done| | |done|].
  - unfold mark_failed_or_retry, commit_item. change (qi_id i1) with (qi_id i). by rewrite Hf.
  - apply list_elem_of_fmap. exists i1. by rewrite String.eqb_refl.
  - unfold i2, failure_state. change (attempt_limit None i1) with (attempt_limit None i).
    change (qi_attempt_count i1) with (qi_attempt_count i). destruct (Z.leb_spec (attempt_limit None i) (qi_attempt_count i)); [lia|].
    simpl. unfold orm_write. by case_decide.
Qed.

(** ** A sample queue *)

Definition alert_request (key : string) (limit : Z) : EnqueueRequest :=
  {| eq_kind := "send_alert"; eq_idempotency_key := key; eq_payload := None; eq_priority := 5; eq_run_after := None;
     eq_channel_profile_id := Some "c"; eq_parent_queue_item_id := None; eq_max_attempts := limit |}.

Definition alert_table : queue_table := [new_item "q1" 10 (alert_request "a" 2)].

(** After the first claim, a failure, and the second claim ten minutes later. *)
Definition alert_claim (now : datetime) (t : queue_table) : ChannelOpsQueueItem * queue_table :=
  let '(o, t') := claim_next now "w" t in (default (new_item "" 0 (alert_request "" 0)) o, t').

Definition alert_failed (now : datetime) (s : ChannelOpsQueueItem * queue_table) : queue_table :=
  ok_or [] (mark_failed_or_retry now s.1 "smtp" None None s.2).

Definition alert_first : ChannelOpsQueueItem * queue_table := alert_claim 20 alert_table.
Definition alert_second : ChannelOpsQueueItem * queue_table := alert_claim 700000000 (alert_failed 30 alert_first).
Definition alert_dead : queue_table := alert_failed 700000010 alert_second.

Lemma attempts_bounded_witness :
  map qi_status alert_dead = [QUEUE_DEAD_LETTERED]
  /\ (claims_of "q1" [alert_first.1; alert_second.1] <= 2)%Z.
Proof.
  split; [vm_compute; reflexivity|].
  refine (proj2 (attempts_bounded alert_dead [alert_first.1; alert_second.1] _) alert_second.1 _);
    [|right; left].
  eapply rtc_l; [eapply (step_enqueue_item "q1" 10 (alert_request "a" 2) true []); [vm_compute; reflexivity|apply not_elem_of_nil]|].
  eapply rtc_l; [eapply (step_claim 20 "w"); vm_compute; reflexivity|].
  eapply rtc_l; [eapply (step_failed_or_retry 30 alert_first.1 "smtp" None); vm_compute; reflexivity|].
  eapply rtc_l; [eapply (step_claim 700000000 "w"); vm_compute; reflexivity|].
  eapply rtc_l; [eapply (step_failed_or_retry 700000010 alert_second.1 "smtp" None); vm_compute; reflexivity|].
  vm_compute. apply rtc_refl.
Defined.

Lemma enqueue_once_witness :
  exists j, enqueue_item "q2" 11 (alert_request "a" 2) true [] alert_table = Ok (j, alert_table) /\ qi_id j = "q1".
Proof.
  assert (He : enqueue_item "q1" 10 (alert_request "a" 2) true [] [] = Ok (new_item "q1" 10 (alert_request "a" 2), alert_table))
    by (vm_compute; reflexivity).
  destruct (enqueue_once "q1" 10 (alert_request "a" 2) true [] [] _ _ (NoDup_nil_2) (fun H => H) He) as [_ Hagain].
  destruct (Hagain "q2" 11%Z (alert_request "a" 2) [] eq_refl) as (j & Hj & _). exists j. split; [done|].
  vm_compute in Hj. by injection Hj as <-.
Defined.

Lemma claim_next_correct_witness :
  find_item "q1" alert_first.2 = Some alert_first.1 /\ (claim_next 20 "v" alert_first.2).1 = None.
Proof.
  split; [|vm_compute; reflexivity].
  assert (He : claim_next 20 "w" alert_table = (Some alert_first.1, alert_first.2)) by (vm_compute; reflexivity).
  exact (proj1 (proj2 (claim_next_correct 20 "w" alert_table _ _ (NoDup_singleton "q1") He))).
Defined.

Lemma quarantined_item_requeued_witness :
  exists (i2 : ChannelOpsQueueItem) (t2 : queue_table), i2 ∈ t2 /\ qi_id i2 = "q1" /\ qi_status i2 = QUEUE_QUEUED.
Proof.
  destruct (quarantined_item_requeued "c" 25 30 "operator" "smtp" alert_first.2 alert_first.1)
    as (_ & t2 & i2 & _ & _ & _ & H1 & H2 & H3).
  - vm_compute. apply NoDup_singleton.
  - left.
  - reflexivity.
  - reflexivity.
  - vm_compute. reflexivity.
  - by exists i2, t2.
Defined.
