(* ===== verification/SchedulerTicks.v ===== *)
(** * Ticks of the ChannelOps scheduler

    A committed run of [scheduler_run_once] leaves one [agent_tick] per channel that may
    tick and bucket, and a run in the same buckets adds none. *)

From stdpp Require Import base tactics list strings sorting relations.
From Stdlib Require Import ZArith Lia.
From S2P Require Import Prelude PyStr PyValue PyTime Pipeline JobModel ChannelQueue QueueHistory.

Open Scope string_scope.
Open Scope list_scope.

(** The key a channel ticks under. *)
Definition due_key (current : datetime) (c : ChannelProfile) : string := tick_key c (channel_bucket current c).

Definition due (inventories : list OwnedSeedInventory) (c : ChannelProfile) : bool :=
  schedulable c && inventory_admits inventories c.

Definition queue_keys (db : SchedulerDb) : list string := map qi_idempotency_key (sd_queue db).

(** Equal for the scheduler: normalising the interval does not move a bucket. *)
Definition same_tick (c c' : ChannelProfile) : Prop :=
  ch_id c = ch_id c' /\ schedulable c = schedulable c' /\ ch_owned_seed_inventory_id c = ch_owned_seed_inventory_id c'
  /\ forall current, channel_bucket current c = channel_bucket current c'.

Lemma same_tick_refl c : same_tick c c.
Proof. done. Qed.

Lemma same_tick_set c c' :
  same_tick c c' -> ch_owned_seed_inventory_id c = None ->
  same_tick c (set_tick_interval (_normalized_interval_minutes (ch_tick_interval_minutes c)) c').
Proof.
  intros (Hid & Hs & Ho & Hb) Hn. split_and!; [done|done|done|]. intros current. unfold channel_bucket. simpl.
  rewrite <-Ho, Hn. simpl. by rewrite normalized_idem.
Qed.

Lemma same_tick_due inv c c' : same_tick c c' -> due inv c = due inv c'.
Proof. intros (_ & Hs & Ho & _). unfold due, inventory_admits. by rewrite Hs, Ho. Qed.

Lemma same_tick_key current c c' : same_tick c c' -> due_key current c = due_key current c'.
Proof. intros (Hi & _ & _ & Hb). unfold due_key, tick_key. by rewrite Hi, Hb. Qed.

(** The state after some channels of [db0]. *)
Record ticks_inv (current : datetime) (db0 : SchedulerDb) (d : list ChannelProfile) (s : SchedulerDb * SchedulerResult)
    : Prop := {
  ti_inventories : sd_inventories s.1 = sd_inventories db0;
  ti_channels : Forall2 same_tick (sd_channels db0) (sd_channels s.1);
  ti_queue : exists added, sd_queue s.1 = sd_queue db0 ++ added
    /\ Z.of_nat (length added) = enqueued_count s.2
    /\ Forall (fun i => exists c, c ∈ d /\ due (sd_inventories db0) c = true
                        /\ qi_idempotency_key i = due_key current c /\ qi_kind i = "agent_tick"
                        /\ qi_channel_profile_id i = Some (ch_id c)) added;
  ti_due : forall c, c ∈ d -> due (sd_inventories db0) c = true -> due_key current c ∈ queue_keys s.1;
  ti_keys : NoDup (queue_keys db0) -> NoDup (queue_keys s.1) }.

Lemma normalise_channels c (channels0 channels : list ChannelProfile) :
  NoDup (map ch_id channels0) -> c ∈ channels0 -> ch_owned_seed_inventory_id c = None ->
  Forall2 same_tick channels0 channels ->
  Forall2 same_tick channels0
    (map (fun c' => if (ch_id c' =? ch_id c)%string
                    then set_tick_interval (_normalized_interval_minutes (ch_tick_interval_minutes c)) c' else c') channels).
Proof.
  intros Hn Hc Ho H. apply Forall2_fmap_r. eapply Forall2_impl_In; [exact H|]. intros c0 c' Hc0 _ Hs. simpl.
  destruct (String.eqb_spec (ch_id c') (ch_id c)) as [Heq|]; [|done].
  assert (c0 = c) as ->; [|by apply same_tick_set].
  eapply (NoDup_map_inj ch_id); [done..|]. destruct Hs as [Hs _]. congruence.
Qed.

Lemma tick_key_get current c t : get_by_key (tick_key c (channel_bucket current c)) t = None <-> due_key current c ∉ map qi_idempotency_key t.
Proof. apply get_by_key_None. Qed.

Lemma Forall_elem_mono {A B} (P : A -> B -> Prop) (d d' : list A) (l : list B) :
  (forall a, a ∈ d -> a ∈ d') -> Forall (fun b => exists a, a ∈ d /\ P a b) l -> Forall (fun b => exists a, a ∈ d' /\ P a b) l.
Proof. intros Hd Hl. eapply Forall_impl; [exact Hl|]. intros b (a & Ha & HP). eauto. Qed.

Lemma schedule_channel_inv new_id current db0 d s c s' :
  NoDup (map ch_id (sd_channels db0)) -> c ∈ sd_channels db0 -> schedulable c = true ->
  ticks_inv current db0 d s -> schedule_channel new_id current s c = Ok s' -> ticks_inv current db0 (d ++ [c]) s'.
Proof.
  intros Hn Hc Hsch [Hi Hch (added & Hq & Hlen & Hadd) Hdue Hk] Hrun.
  assert (Hmono : forall x, x ∈ d -> x ∈ d ++ [c]) by (intros x Hx; apply elem_of_app; by left).
  destruct s as [db res]. unfold schedule_channel in Hrun. simpl in *. rewrite Hi in Hrun.
  destruct (inventory_admits (sd_inventories db0) c) eqn:Ha; simpl in Hrun.
  2:{ injection Hrun as <-. constructor; simpl; [done|done| | |done].
      - exists added. split_and!; [done..|]. by eapply Forall_elem_mono.
      - intros x [Hx| ->%list_elem_of_singleton]%elem_of_app Hd; [by apply Hdue|].
        unfold due in Hd. rewrite Ha, andb_false_r in Hd. done. }
  assert (Hdc : due (sd_inventories db0) c = true) by (unfold due; by rewrite Hsch, Ha).
  set (channels := if _ && _ then _ else _) in Hrun.
  assert (Hchan : Forall2 same_tick (sd_channels db0) channels).
  { unfold channels. destruct (_ && _) eqn:Hset; [|done]. apply andb_prop in Hset as [Ho%bool_decide_eq_true _].
    by apply normalise_channels. }
  clearbody channels. destruct (get_by_key _ _) as [e|] eqn:Hg.
  - injection Hrun as <-. constructor; simpl; [done|done| | |done].
    + exists added. split_and!; [done..|]. by eapply Forall_elem_mono.
    + intros x [Hx| ->%list_elem_of_singleton]%elem_of_app Hd; [by apply Hdue|].
      apply get_by_key_spec in Hg as [He Hke]. unfold queue_keys, due_key. simpl. rewrite <-Hke. by apply elem_map.
  - destruct (enqueue_item _ _ _ _ _ _) as [[item queue]|] eqn:He; [|done]. case_bool_decide; [done|].
    injection Hrun as <-. apply enqueue_item_cases in He as [[_ He]|(-> & -> & Hkey & _)].
    { exfalso. simpl in He. rewrite Hg in He. by destruct He. }
    simpl in Hkey. constructor; simpl; [done|done| | |].
    + exists (added ++ [new_item (new_id (tick_key c (channel_bucket current c))) current
                          (tick_request current c (channel_bucket current c))]).
      rewrite Hq, app_assoc. split_and!; [done|rewrite length_app; simpl; lia|]. apply Forall_app. split.
      * by eapply Forall_elem_mono.
      * constructor; [|done]. exists c. split_and!; [apply elem_of_app; right; by left|done..].
    + intros x Hx Hd. unfold queue_keys. simpl. rewrite map_app. apply elem_of_app.
      apply elem_of_app in Hx as [Hx| ->%list_elem_of_singleton]; [left; by apply Hdue|right; by left].
    + intros Hk0. unfold queue_keys. simpl. rewrite map_app. apply NoDup_app. split_and!; [by apply Hk| |apply NoDup_singleton].
      by intros x Hx ->%list_elem_of_singleton.
Qed.

Lemma schedule_channels_inv new_id current db0 l d s s' :
  NoDup (map ch_id (sd_channels db0)) -> (forall c, c ∈ l -> c ∈ sd_channels db0 /\ schedulable c = true) ->
  ticks_inv current db0 d s -> foldM (schedule_channel new_id current) s l = Ok s' ->
  ticks_inv current db0 (d ++ l) s'.
Proof.
  intros Hn. revert d s. induction l as [|c l IH]; intros d s Hl Hinv Hrun; simpl in Hrun.
  { injection Hrun as <-. by rewrite app_nil_r. }
  destruct (schedule_channel new_id current s c) as [s1|] eqn:Hs; [|done].
  rewrite cons_middle, app_assoc. apply (IH _ s1); [|eapply schedule_channel_inv; [done|apply Hl; by left..|done|done]|done].
  intros x Hx. apply Hl. by right.
Qed.

Lemma scheduled_list db c :
  c ∈ merge_sort channel_le (List.filter schedulable (sd_channels db)) <-> c ∈ sd_channels db /\ schedulable c = true.
Proof. by rewrite merge_sort_Permutation, elem_of_lfilter. Qed.

Lemma run_once_ticks new_id current db db' res :
  NoDup (map ch_id (sd_channels db)) -> scheduler_run_once new_id current db = Ok (db', res) ->
  ticks_inv current db (merge_sort channel_le (List.filter schedulable (sd_channels db))) (db', res).
Proof.
  intros Hn Hrun. apply (schedule_channels_inv new_id current db _ [] (db, {| enqueued_count := 0; skipped_count := 0 |})); [done| | |done].
  - by intros c ?%scheduled_list.
  - constructor; simpl; [done| |by exists []; rewrite app_nil_r|by intros c ?%elem_of_nil|done].
    apply Forall_Forall2_diag. apply Forall_forall. intros c _. apply same_tick_refl.
Qed.

(** Channels whose ticks are there already. *)
Lemma schedule_again new_id current l db res :
  (forall c, c ∈ l -> inventory_admits (sd_inventories db) c = true -> due_key current c ∈ queue_keys db) ->
  exists db' res', foldM (schedule_channel new_id current) (db, res) l = Ok (db', res')
    /\ sd_queue db' = sd_queue db /\ sd_runs db' = sd_runs db /\ enqueued_count res' = enqueued_count res.
Proof.
  revert db res. induction l as [|c l IH]; intros db res Hl; [by exists db, res|].
  cbn [foldM]. unfold schedule_channel at 1.
  assert (Hl' : forall x, x ∈ l -> inventory_admits (sd_inventories db) x = true -> due_key current x ∈ queue_keys db).
  { intros x Hx. apply Hl. by right. }
  destruct (inventory_admits (sd_inventories db) c) eqn:Ha; simpl.
  - destruct (get_by_key _ _) as [e|] eqn:Hg.
    + by apply (IH {| sd_channels := _; sd_inventories := _; sd_queue := _; sd_runs := _ |}
                  {| enqueued_count := enqueued_count res; skipped_count := skipped_count res + 1 |}).
    + apply tick_key_get in Hg. destruct Hg. apply Hl; [by left|done].
  - by apply (IH db {| enqueued_count := enqueued_count res; skipped_count := skipped_count res + 1 |}).
Qed.

(** A committed scheduler run leaves a tick for every enabled channel that is neither
    halted nor paused and whose inventory, if it has one, is approved; it adds ticks
    of such channels only, at most one per key, and counts them; and a run in the same
    buckets, later in the slot or by another scheduler, adds nothing. *)
Theorem scheduler_one_tick new_id current db db' res :
  NoDup (map ch_id (sd_channels db)) -> NoDup (queue_keys db) ->
  scheduler_run_once new_id current db = Ok (db', res) ->
  (forall c, c ∈ sd_channels db -> due (sd_inventories db) c = true -> due_key current c ∈ queue_keys db')
  /\ NoDup (queue_keys db')
  /\ (exists added, sd_queue db' = sd_queue db ++ added /\ Z.of_nat (length added) = enqueued_count res
        /\ forall i, i ∈ added -> exists c, c ∈ sd_channels db /\ due (sd_inventories db) c = true
             /\ qi_idempotency_key i = due_key current c /\ qi_kind i = "agent_tick"
             /\ qi_channel_profile_id i = Some (ch_id c))
  /\ (forall new_id' current', (forall c, c ∈ sd_channels db -> channel_bucket current' c = channel_bucket current c) ->
        exists db'' res'', scheduler_run_once new_id' current' db' = Ok (db'', res'')
          /\ sd_queue db'' = sd_queue db' /\ sd_runs db'' = sd_runs db' /\ enqueued_count res'' = 0%Z).
Proof.
  intros Hn Hk Hrun. destruct (run_once_ticks _ _ _ _ _ Hn Hrun) as [Hi Hch (added & Hq & Hlen & Hadd) Hdue Hkeys].
  simpl in *. split_and!; [|by apply Hkeys| |].
  - intros c Hc Hd. apply Hdue; [|done]. apply scheduled_list. split; [done|]. by apply andb_prop in Hd as [? _].
  - exists added. split_and!; [done..|]. rewrite Forall_forall in Hadd. intros i Hin.
    destruct (Hadd i Hin) as (c & [Hc _]%scheduled_list & H). by exists c.
  - intros new_id' current' Hsame. apply (schedule_again new_id' current' _ db' {| enqueued_count := 0; skipped_count := 0 |}).
    intros c' [Hc' Hs']%scheduled_list Ha'. apply list_elem_of_lookup in Hc' as [n Hc'].
    destruct (Forall2_lookup_r _ _ _ _ _ Hch Hc') as (c & Hc%list_elem_of_lookup_2 & Hst).
    assert (Hd : due (sd_inventories db) c = true).
    { rewrite (same_tick_due _ _ _ Hst). unfold due. by rewrite Hs', <-Hi, Ha'. }
    rewrite <-(same_tick_key _ _ _ Hst). unfold due_key. rewrite (Hsame c Hc). apply Hdue; [|done].
    apply scheduled_list. split; [done|]. by apply andb_prop in Hd as [? _].
Qed.

Definition tick_db : SchedulerDb :=
  {| sd_channels := [plain_channel "c1"; set_tick_interval 5 (plain_channel "c2")]; sd_inventories := [];
     sd_queue := []; sd_runs := [] |}.

Definition ticked : SchedulerDb * SchedulerResult :=
  ok_or (tick_db, {| enqueued_count := 0; skipped_count := 0 |}) (scheduler_run_once (fun k => k) 1717243260000001 tick_db).

(** Two channels, one with an interval below the minimum. *)
Lemma scheduler_one_tick_witness :
  queue_keys ticked.1 = ["agent_tick:c1:2024-06-01-12"; "agent_tick:c2:2024-06-01-12-00"]
  /\ exists db'' res'', scheduler_run_once (fun k => k) 1717243320000000 ticked.1 = Ok (db'', res'')
       /\ sd_queue db'' = sd_queue ticked.1 /\ sd_runs db'' = sd_runs ticked.1 /\ enqueued_count res'' = 0%Z.
Proof.
  split; [vm_compute; reflexivity|].
  assert (Hrun : scheduler_run_once (fun k => k) 1717243260000001 tick_db = Ok (ticked.1, ticked.2))
    by (vm_compute; reflexivity).
  apply (scheduler_one_tick (fun k => k) 1717243260000001 tick_db ticked.1 ticked.2).
  - by apply (bool_decide_unpack _).
  - by apply (bool_decide_unpack _).
  - exact Hrun.
  - intros c [->|[->|[]%elem_of_nil]%elem_of_cons]%elem_of_cons; vm_compute; reflexivity.
Defined.
