(* ===== verification/ChannelRunner.v ===== *)
(** * The queue runner ([channel_agent/runner.py]) and its leases
    ([channel_agent/owned_producer.py], [channel_agent/owned_inventory.py])

    The runner claims an item, calls the handler of its kind and settles the item by
    the outcome.  Handlers of owned channels settle their item themselves, in the
    transaction of their own effects; they leave a lease in the session, and after a
    failure the runner touches the item only while the lease still matches the row.
    [ChannelServices] is the interface to the handlers: what one returns, the lease it
    leaves and the queue as committed when it returns. *)

From stdpp Require Import base tactics list strings sorting relations.
From Stdlib Require Import ZArith Lia.
From S2P Require Import Prelude PyStr PyValue PyJson PyTime Pipeline JobModel ChannelQueue QueueHistory.

Open Scope string_scope.
Open Scope list_scope.

(** ** Leases *)

Definition AUTHORITY_LOST : string := "owned_inventory_queue_authority".

(** The two classes called [QueueLease]: the producer's keeps the payload, the
    inventory's its digest. *)
Inductive QueueLease :=
| ProducerLease (id kind : string) (channel_id : option uuid) (owner : string) (locked_at : datetime) (payload : config)
| TickLease (id owner : string) (locked_at : datetime) (payload_sha : string).

Definition lease_id (l : QueueLease) : uuid :=
  match l with ProducerLease id _ _ _ _ _ => id | TickLease id _ _ _ => id end.

(** The owner and time of a claim that is still held. *)
Definition held_claim (item : ChannelOpsQueueItem) : option (string * datetime) :=
  if negb (qi_status item =? "running")%string then None
  else
    match qi_locked_by item, qi_locked_at item with
    | Some owner, Some at_ => if is_empty owner then None else Some (owner, at_)
    | _, _ => None
    end.

Section Leases.
Context (sha : string -> string).

Definition payload_sha256 (payload : config) : string := sha (json_dumps json_compact (VDict payload)).

Definition capture_producer (item : ChannelOpsQueueItem) : Res QueueLease :=
  match held_claim item with
  | None => Raise (ValueError AUTHORITY_LOST)
  | Some (owner, at_) =>
      Ok (ProducerLease (qi_id item) (qi_kind item) (qi_channel_profile_id item) owner at_ (qi_payload_json item))
  end.

Definition capture_tick (item : option ChannelOpsQueueItem) : Res (option QueueLease) :=
  match item with
  | None => Ok None
  | Some item =>
      match held_claim item with
      | None => Raise (ValueError AUTHORITY_LOST)
      | Some (owner, at_) => Ok (Some (TickLease (qi_id item) owner at_ (payload_sha256 (qi_payload_json item))))
      end
  end.

Definition lease_matches (l : QueueLease) (item : option ChannelOpsQueueItem) : bool :=
  match item with
  | None => false
  | Some i =>
      (qi_status i =? "running")%string
      && match l with
         | ProducerLease _ kind channel owner at_ payload =>
             (qi_kind i =? kind)%string && bool_decide (qi_channel_profile_id i = channel)
             && bool_decide (qi_locked_by i = Some owner) && bool_decide (qi_locked_at i = Some at_)
             && py_eq (VDict (qi_payload_json i)) (VDict payload)
         | TickLease _ owner at_ digest =>
             (qi_kind i =? "agent_tick")%string && bool_decide (qi_locked_by i = Some owner)
             && bool_decide (qi_locked_at i = Some at_) && (payload_sha256 (qi_payload_json i) =? digest)%string
         end
  end.

(** [QueueLease.lock]: the row, locked, or no authority. *)
Definition lease_lock (l : QueueLease) (t : queue_table) : Res ChannelOpsQueueItem :=
  match find_item (lease_id l) t with
  | Some i => if lease_matches l (Some i) then Ok i else Raise (ValueError AUTHORITY_LOST)
  | None => Raise (ValueError AUTHORITY_LOST)
  end.

Definition complete_queue (l : QueueLease) (t : queue_table) : Res queue_table :=
  match lease_lock l t with
  | Raise e => Raise e
  | Ok item =>
      commit_item item
        {| qs_status := "succeeded"; qs_run_after := qi_run_after item; qs_locked_at := None; qs_locked_by := None;
           qs_attempt_count := qi_attempt_count item; qs_last_error := None;
           qs_dead_letter_at := qi_dead_letter_at item |} t
  end.

(** ** Handlers *)

Inductive service_call :=
| Tick (channel_id : pyval) (plan_delay_seconds : Z)
| HandlePlanTask | HandleExecuteTask | HandleObserveJob | HandlePublishTask | HandlePromotePublication
| HandleReconcilePublication | HandleCollectMetrics | HandleAccountHealth
| SendAlert (payload : config)
| CleanupExpired.

(** The call of [handle_item], or the message of what it raises first. *)
Definition handle_item (item : ChannelOpsQueueItem) : string + service_call :=
  let kind := qi_kind item in
  if (kind =? "agent_tick")%string then
    let delay := dget_or (qi_payload_json item) "plan_delay_seconds" (VInt 0) in
    match delay with
    | VInt n =>
        if negb ((0 <=? n)%Z && (n <=? 3600)%Z) then inl "plan_delay_seconds must be an integer from 0 through 3600"
        else match (qi_payload_json item).[? "channel_id"] with
             | Some c => inr (Tick c n)
             | None => inl "'channel_id'"
             end
    | _ => inl "plan_delay_seconds must be an integer from 0 through 3600"
    end
  else if (kind =? "plan_task")%string then inr HandlePlanTask
  else if (kind =? "execute_task")%string then inr HandleExecuteTask
  else if (kind =? "observe_job")%string then inr HandleObserveJob
  else if (kind =? "publish_task")%string then inr HandlePublishTask
  else if (kind =? "promote_publication")%string then inr HandlePromotePublication
  else if (kind =? "reconcile_publication")%string then inr HandleReconcilePublication
  else if (kind =? "collect_metrics")%string then inr HandleCollectMetrics
  else if (kind =? "account_health")%string then inr HandleAccountHealth
  else if (kind =? "send_alert")%string then inr (SendAlert (qi_payload_json item))
  else if (kind =? "cleanup_expired")%string then inr CleanupExpired
  else inl ("Unsupported ChannelOps queue kind: " +:+ kind).

(** How a handler ends: the message of what it raises, the lease it leaves in the
    session, the queue as committed. *)
Record HandlerResult := {
  hr_error : option string;
  hr_lease : option QueueLease;
  hr_queue : queue_table }.

Class ChannelServices := serve : service_call -> ChannelOpsQueueItem -> queue_table -> HandlerResult.

Context `{!ChannelServices}.

Definition call_handler (item : ChannelOpsQueueItem) (t : queue_table) : HandlerResult :=
  match handle_item item with
  | inl message => {| hr_error := Some message; hr_lease := None; hr_queue := t |}
  | inr call => serve call item t
  end.

(** The part of [run_once] after the claim; [now] is the time of the settlement. *)
Definition settle_item (now : datetime) (item : ChannelOpsQueueItem) (r : HandlerResult) : Res queue_table :=
  match hr_error r with
  | None => match hr_lease r with None => mark_succeeded item (hr_queue r) | Some _ => Ok (hr_queue r) end
  | Some message =>
      let failed_item := find_item (qi_id item) (hr_queue r) in
      let retry :=
        match failed_item with
        | None => Raise (RuntimeError message)
        | Some i => mark_failed_or_retry now i message None None (hr_queue r)
        end in
      match hr_lease r with
      | None => retry
      | Some lease => if lease_matches lease failed_item then retry else Ok (hr_queue r)
      end
  end.

(** [ChannelAgentRunner.run_once]: whether something was handled. *)
Definition runner_run_once (new_id : string -> uuid) (claimed_at settled_at : datetime) (worker_id : string)
    (run_scheduler_when_idle : bool) (db : SchedulerDb) : Res (bool * SchedulerDb) :=
  match claim_next claimed_at worker_id (sd_queue db) with
  | (None, _) =>
      if negb run_scheduler_when_idle then Ok (false, db)
      else
        match scheduler_run_once new_id claimed_at db with
        | Raise e => Raise e
        | Ok (db', res) => Ok ((0 <? enqueued_count res)%Z, db')
        end
  | (Some item, queue) =>
      match settle_item settled_at item (call_handler item queue) with
      | Raise e => Raise e
      | Ok queue' =>
          Ok (true, {| sd_channels := sd_channels db; sd_inventories := sd_inventories db; sd_queue := queue';
                       sd_runs := sd_runs db |})
      end
  end.
End Leases.

(** ** Settlement *)

Lemma find_item_unique t i : NoDup (map qi_id t) -> i ∈ t -> find_item (qi_id i) t = Some i.
Proof.
  intros Hn Hi. destruct (find_item (qi_id i) t) as [j|] eqn:Hf.
  - apply find_item_spec in Hf as [Hj Hid]. f_equal. by eapply (NoDup_map_inj qi_id).
  - pose proof (find_none _ _ Hf i) as Hx. rewrite list_elem_of_In in Hi. specialize (Hx Hi).
    simpl in Hx. by rewrite String.eqb_refl in Hx.
Qed.

Lemma orm_write_loaded {A} `{EqDecision A} (loaded v : A) : orm_write loaded v loaded = v.
Proof. unfold orm_write. by case_decide. Qed.

Lemma write_queue_state_loaded i new : write_queue_state (queue_state i) new i = set_queue_state new i.
Proof. destruct new. unfold write_queue_state. by rewrite !orm_write_loaded. Qed.

(** Committing an item that is as it was loaded. *)
Lemma commit_loaded item new t :
  NoDup (map qi_id t) -> find_item (qi_id item) t = Some item ->
  exists t', commit_item item new t = Ok t' /\ find_item (qi_id item) t' = Some (set_queue_state new item)
    /\ forall j, qi_id j <> qi_id item -> j ∈ t' <-> j ∈ t.
Proof.
  intros Hn Hf. unfold commit_item. rewrite Hf. pose proof (find_item_spec _ _ _ Hf) as [Hi _].
  eexists. split_and!; [done| |].
  - apply (find_item_unique _ (set_queue_state new item)).
    + assert (map qi_id (update_item (qi_id item) (write_queue_state (queue_state item) new) t) = map qi_id t) as ->; [|done].
      unfold update_item. rewrite map_map. apply map_ext. intros j. by destruct (_ =? _)%string.
    + apply list_elem_of_fmap. exists item. by rewrite String.eqb_refl, write_queue_state_loaded.
  - intros j Hj. split.
    + intros (j0 & Hj0 & [[Hq ->]|[_ ->]])%update_item_elem; [by destruct Hj|done].
    + intros Hin. apply list_elem_of_fmap. exists j. split; [|done].
      destruct (String.eqb_spec (qi_id j) (qi_id item)); done.
Qed.

(** What the outcome of a handler makes of an item. *)
Definition settled (now : datetime) (error : option string) (item : ChannelOpsQueueItem) : ChannelOpsQueueItem :=
  set_queue_state
    match error with
    | None => {| qs_status := QUEUE_SUCCEEDED; qs_run_after := qi_run_after item; qs_locked_at := qi_locked_at item;
                 qs_locked_by := qi_locked_by item; qs_attempt_count := qi_attempt_count item; qs_last_error := None;
                 qs_dead_letter_at := qi_dead_letter_at item |}
    | Some message => failure_state now message None None item
    end item.

(** The runner settles what it claims: when a handler that holds no lease has left its
    item alone, one run of the runner takes the claimed item to [succeeded], or, when
    the handler raised, back to the queue after a delay between 5 and 30 minutes
    with its lock cleared, or to [dead_lettered] at the attempt limit; no other row
    changes. *)
Theorem runner_settles (sha : string -> string) `{!ChannelServices} new_id claimed_at settled_at worker_id idle db item queue :
  claim_next claimed_at worker_id (sd_queue db) = (Some item, queue) ->
  let r := call_handler item queue in
  hr_lease r = None -> NoDup (map qi_id (hr_queue r)) -> find_item (qi_id item) (hr_queue r) = Some item ->
  (1 <= qi_attempt_count item)%Z ->
  exists db' i,
    runner_run_once sha new_id claimed_at settled_at worker_id idle db = Ok (true, db')
    /\ find_item (qi_id item) (sd_queue db') = Some i
    /\ (match hr_error r with
        | None => qi_status i = QUEUE_SUCCEEDED
        | Some _ =>
            if (attempt_limit None item <=? qi_attempt_count item)%Z then qi_status i = QUEUE_DEAD_LETTERED
            else qi_status i = QUEUE_QUEUED /\ qi_locked_by i = None
                 /\ (settled_at + 5 * MINUTE_US <= qi_run_after i <= settled_at + 30 * MINUTE_US)%Z
        end)
    /\ forall j, qi_id j <> qi_id item -> j ∈ sd_queue db' <-> j ∈ hr_queue r.
Proof.
  intros Hclaim r Hlease Hn Hf Ha. set (i := settled settled_at (hr_error r) item).
  assert (Hset : exists t', settle_item sha settled_at item r = Ok t' /\ find_item (qi_id item) t' = Some i
            /\ forall j, qi_id j <> qi_id item -> j ∈ t' <-> j ∈ hr_queue r).
  { unfold settle_item, i, settled. rewrite Hlease, Hf.
    destruct (hr_error r) as [message|]; by apply commit_loaded. }
  destruct Hset as (t' & Hs & Hi & Hother). eexists _, i. split_and!.
  - unfold runner_run_once. rewrite Hclaim. fold r. by rewrite Hs.
  - done.
  - unfold i, settled. destruct (hr_error r) as [message|]; [|done]. unfold failure_state.
    destruct (Z.leb_spec (attempt_limit None item) (qi_attempt_count item)); [done|]. split_and!; [done..| |]; simpl;
      unfold backoff; destruct (Z.eqb_spec (qi_attempt_count item) 0); try lia;
      pose proof (Z.pow_pos_nonneg 2 (qi_attempt_count item - 1)); unfold MINUTE_US; nia.
  - done.
Qed.

(** A lease fences the runner off: when the row has been settled, quarantined or
    claimed again since the lease was captured, a failing handler leaves it as it is. *)
Theorem stale_lease_untouched (sha : string -> string) now captured lease item r message :
  capture_producer captured = Ok lease \/ capture_tick sha (Some captured) = Ok (Some lease) ->
  hr_error r = Some message -> hr_lease r = Some lease ->
  (forall i, find_item (qi_id item) (hr_queue r) = Some i ->
     qi_status i <> QUEUE_RUNNING \/ qi_locked_at i <> qi_locked_at captured \/ qi_locked_by i <> qi_locked_by captured) ->
  settle_item sha now item r = Ok (hr_queue r).
Proof.
  intros Hcap He Hl Hstale. unfold settle_item. rewrite He, Hl.
  destruct (lease_matches sha lease (find_item (qi_id item) (hr_queue r))) eqn:Hm; [|done]. exfalso.
  destruct (find_item _ _) as [i|] eqn:Hf; [|done]. specialize (Hstale i eq_refl).
  unfold capture_producer, capture_tick, held_claim in Hcap. simpl in Hm.
  destruct (negb (qi_status captured =? "running")%string); [by destruct Hcap|].
  destruct (qi_locked_by captured) as [o|], (qi_locked_at captured) as [a|]; try by destruct Hcap.
  destruct (is_empty o); [by destruct Hcap|].
  destruct Hcap as [[= <-]|[= <-]]; rewrite !andb_true_iff, !bool_decide_eq_true, !String.eqb_eq in Hm; naive_solver.
Qed.

(** A service that fails its first call, and one that leaves a lease. *)
Definition failing_services : ChannelServices := fun _ _ t =>
  {| hr_error := Some "timeout"; hr_lease := None; hr_queue := t |}.

Definition alert_db : SchedulerDb :=
  {| sd_channels := []; sd_inventories := []; sd_queue := alert_table; sd_runs := [] |}.

Lemma runner_settles_witness :
  exists db' i, @runner_run_once (fun s => s) failing_services (fun k => k) 20 30 "w" true alert_db = Ok (true, db')
    /\ find_item "q1" (sd_queue db') = Some i /\ qi_status i = QUEUE_QUEUED /\ qi_run_after i = 300000030%Z.
Proof.
  destruct (@runner_settles (fun s => s) failing_services (fun k => k) 20 30 "w" true alert_db alert_first.1 alert_first.2)
    as (db' & i & Hrun & Hf & Hst & _); [vm_compute; reflexivity|reflexivity| |vm_compute; reflexivity|vm_compute; discriminate|].
  - vm_compute. apply NoDup_singleton.
  - exists db', i. vm_compute in Hrun. injection Hrun as <-. vm_compute in Hf. injection Hf as <-.
    split_and!; vm_compute; reflexivity.
Defined.

Definition fenced_result : HandlerResult :=
  {| hr_error := Some "timeout"; hr_lease := Some (ok_or (TickLease "" "" 0 "") (capture_producer alert_first.1));
     hr_queue := quarantine_queue "c" 30 "operator" alert_first.2 |}.

Lemma stale_lease_untouched_witness :
  settle_item (fun s => s) 40 alert_first.1 fenced_result = Ok (hr_queue fenced_result).
Proof.
  apply (stale_lease_untouched (fun s => s) 40 alert_first.1 (ok_or (TickLease "" "" 0 "") (capture_producer alert_first.1))
           alert_first.1 fenced_result "timeout"); [left; vm_compute; reflexivity|reflexivity|reflexivity|].
  intros i Hi. left. vm_compute in Hi. injection Hi as <-. vm_compute. discriminate.
Defined.
