(* ===== verification/AgentModel.v ===== *)
(** * The channel agent's rows, session and clients

    The tables of [models/channel_agent.py] and [models/autoflow.py] that the handlers
    of [channel_agent/service.py] read and write, and the session they run in.  A
    handler works on what its session sees; a commit makes that the state others see,
    and an exception leaves the last committed state.  Clients of other services are an
    interface whose answers may depend on all calls made before; every call is recorded.
    The clock is read once per handler and UUIDs come from a supply. *)

From stdpp Require Import base tactics list strings sorting.
From Stdlib Require Import ZArith Lia Ascii.
From coqutil Require Export Datatypes.RecordSetters.
From S2P Require Import Prelude PyStr PyValue PyTime PyUuid Pipeline JobModel Outbox ChannelQueue MaterialUsage.
Export TriangleBracketNotations.

Open Scope string_scope.
Open Scope list_scope.

(** ** Rows *)

Record ChannelProfile := {
  cp_id : uuid;
  cp_default_aspect_ratio : string;
  cp_risk_policy_json : config;
  cp_content_mix_policy_json : config;
  cp_cadence_policy_json : config;
  cp_enabled : bool;
  cp_dry_run : bool;
  cp_halted_at : option datetime;
  cp_halt_reason : option string;
  cp_intake_paused_at : option datetime;
  cp_config_version : Z;
  cp_owned_seed_inventory_id : option uuid }.

Record TopicLane := {
  la_id : uuid;
  la_channel_profile_id : uuid;
  la_name : string;
  la_description : string;
  la_weight : pyfloat;
  la_keywords_json : pyval;
  la_max_posts_per_day : Z;
  la_max_consecutive_streak : Z;
  la_cooldown_after_post_minutes : Z;
  la_enabled : bool;
  la_paused_until : option datetime;
  la_created_at : datetime }.

Record PublishingAccount := {
  ac_id : uuid;
  ac_channel_profile_id : uuid;
  ac_platform : string;
  ac_account_label : string;
  ac_default_privacy : string;
  ac_external_asset_auto_publish : bool;
  ac_enabled : bool;
  ac_paused_until : option datetime;
  ac_last_token_check_at : option datetime;
  ac_last_token_check_status : option string;
  ac_created_at : datetime }.

Record LaneFormatMatrix := {
  lf_id : uuid;
  lf_topic_lane_id : uuid;
  lf_format_key : string;
  lf_enabled : bool;
  lf_weight : pyfloat;
  lf_target_duration_sec : Z;
  lf_template_pool_json : pyval;
  lf_source_platforms_json : pyval;
  lf_default_publish_visibility : string;
  lf_created_at : datetime }.

Record ManualSeed := {
  ms_id : uuid;
  ms_channel_profile_id : uuid;
  ms_topic_lane_id : option uuid;
  ms_target_account_id : option uuid;
  ms_prompt : string;
  ms_title_seed : string;
  ms_source_platforms_json : pyval;
  ms_material_library_ids_json : pyval;
  ms_constraints_json : pyval;
  ms_status : string;
  ms_created_at : datetime }.

Record AgentTickAudit := {
  au_id : uuid;
  au_channel_profile_id : uuid;
  au_tick_id : string;
  au_started_at : datetime;
  au_finished_at : option datetime;
  au_dry_run : bool;
  au_ideas_discovered : Z;
  au_candidates_scored : Z;
  au_tasks_selected : Z;
  au_tasks_rejected : Z;
  au_guards_triggered_json : list config;
  au_decision_summary_json : config }.

Record ProductionTask := {
  tk_id : uuid;
  tk_channel_profile_id : uuid;
  tk_topic_lane_id : option uuid;
  tk_lane_format_id : option uuid;
  tk_target_account_id : uuid;
  tk_manual_seed_id : option uuid;
  tk_source : string;
  tk_title_seed : string;
  tk_prompt : string;
  tk_rationale_json : config;
  tk_score_breakdown_json : config;
  tk_portfolio_bucket : string;
  tk_source_platforms_json : pyval;
  tk_material_library_ids_json : pyval;
  tk_uses_external_assets : bool;
  tk_approval_mode : string;
  tk_agent_approval_evidence_json : config;
  tk_human_review_evidence_json : pyval;
  tk_autoflow_plan_id : option uuid;
  tk_autoflow_run_id : option uuid;
  tk_pipeline_id : option uuid;
  tk_job_id : option uuid;
  tk_state : string;
  tk_state_updated_at : datetime;
  tk_failure_reason : option string;
  tk_failure_category : option string;
  tk_blocked_by_guard : option string;
  tk_channel_config_version_snapshot : Z;
  tk_channel_config_snapshot_json : pyval;
  tk_transition_history_json : list pyval;
  tk_created_at : datetime;
  tk_updated_at : datetime }.

Record PublicationRecord := {
  pu_id : uuid;
  pu_production_task_id : uuid;
  pu_platform : string;
  pu_account_id : uuid;
  pu_platform_content_id : string;
  pu_permalink : option string;
  pu_title : string;
  pu_description : string;
  pu_thumbnail_storage_path : option string;
  pu_desired_privacy : string;
  pu_current_privacy : string;
  pu_publish_status : string;
  pu_uploaded_at : option datetime;
  pu_scheduled_publish_at : option datetime;
  pu_public_at : option datetime;
  pu_compliance_disposition : string;
  pu_quota_units_estimated : Z;
  pu_last_metrics_polled_at : option datetime;
  pu_warnings_json : list string;
  pu_created_at : datetime }.

Record TakedownEvent := {
  te_id : uuid;
  te_publication_id : uuid;
  te_event_type : string;
  te_detected_at : datetime;
  te_severity : string;
  te_raw_payload_json : config;
  te_auto_actions_taken_json : list string }.

Record FeedbackSnapshot := {
  fe_id : uuid;
  fe_publication_id : uuid;
  fe_snapshot_stage : string;
  fe_collected_at : datetime;
  fe_views : Z;
  fe_likes : Z;
  fe_comments : Z;
  fe_shares : Z;
  fe_avg_view_duration_sec : pyfloat;
  fe_retention_curve_json : option (list pyval);
  fe_ctr : option pyfloat;
  fe_impressions : option Z;
  fe_virality_score : pyfloat;
  fe_raw_json : config }.

Record AutoFlowPlan := {
  ap_id : uuid;
  ap_status : string;
  ap_candidates_json : list pyval;
  ap_metadata_json : config;
  ap_rights_json : config;
  ap_execution_revision : Z;
  ap_review_approved_at : option datetime;
  ap_approved_revision_hash : option string;
  ap_approved_revision : option Z }.

Record AutoFlowRun := {
  ar_id : uuid;
  ar_artifacts_json : config;
  ar_publish_json : config }.

Record AgentDb := {
  a_channels : list ChannelProfile;
  a_lanes : list TopicLane;
  a_accounts : list PublishingAccount;
  a_formats : list LaneFormatMatrix;
  a_seeds : list ManualSeed;
  a_audits : list AgentTickAudit;
  a_tasks : list ProductionTask;
  a_publications : list PublicationRecord;
  a_ledger : list MaterialUsageLedger;
  a_takedowns : list TakedownEvent;
  a_feedback : list FeedbackSnapshot;
  a_plans : list AutoFlowPlan;
  a_runs : list AutoFlowRun;
  a_inventories : list OwnedSeedInventory;
  a_queue : queue_table;
  a_outbox : list OutboxRow }.

(** [db.get]: the row with a primary key. *)
Definition get_row {A} (key : A -> uuid) (id : uuid) (l : list A) : option A :=
  find (fun a => (key a =? id)%string) l.

Definition put_row {A} (key : A -> uuid) (a : A) (l : list A) : list A :=
  map (fun b => if (key b =? key a)%string then a else b) l.

Lemma get_put_row {A} (key : A -> uuid) (a b : A) (l : list A) : get_row key (key a) l = Some b ->
  get_row key (key a) (put_row key a l) = Some a.
Proof.
  unfold get_row, put_row. induction l as [|c l IH]; simpl; [done|].
  destruct (String.eqb_spec (key c) (key a)) as [He|Hne]; simpl; [by rewrite String.eqb_refl|].
  apply String.eqb_neq in Hne. rewrite Hne. apply IH.
Qed.

Lemma get_row_key {A} (key : A -> uuid) id (l : list A) a : get_row key id l = Some a -> a ∈ l /\ key a = id.
Proof. intros [H1%list_elem_of_In H2%String.eqb_eq]%find_some. done. Qed.

Lemma map_put_row {A} (key : A -> uuid) (a : A) (l : list A) : map key (put_row key a l) = map key l.
Proof.
  unfold put_row. rewrite map_map. apply map_ext. intros b. destruct (String.eqb_spec (key b) (key a)); congruence.
Qed.

Lemma get_put_row_ne {A} (key : A -> uuid) id (a : A) (l : list A) : key a <> id ->
  get_row key id (put_row key a l) = get_row key id l.
Proof.
  intros Hne. unfold get_row, put_row. induction l as [|c l IH]; [done|]. cbn [map find].
  destruct (String.eqb_spec (key c) (key a)) as [He|_]; [|by rewrite IH].
  apply String.eqb_neq in Hne. by rewrite He, Hne.
Qed.

(** ** States of a task ([channel_agent/constants.py]) *)

Definition TASK_SELECTED : string := "selected".
Definition TASK_PLANNING : string := "planning".
Definition TASK_PRODUCING : string := "producing".
Definition TASK_UPLOADED_PRIVATE : string := "uploaded_private".
Definition TASK_SCHEDULED : string := "scheduled".
Definition TASK_PUBLISHED : string := "published".
Definition TASK_MEASURED : string := "measured".
Definition TASK_HELD : string := "held".
Definition TASK_FAILED : string := "failed".
Definition TASK_CANCELLED : string := "cancelled".
Definition TASK_REJECTED : string := "rejected".

Definition ACTIVE_TASK_STATES : list string :=
  [TASK_SELECTED; TASK_PLANNING; TASK_PRODUCING; TASK_UPLOADED_PRIVATE; TASK_HELD; TASK_SCHEDULED].
Definition TERMINAL_TASK_STATES : list string :=
  [TASK_FAILED; TASK_REJECTED; TASK_CANCELLED; TASK_PUBLISHED; TASK_MEASURED].
Definition UPLOAD_FAILURE_KEYWORDS : list string :=
  ["upload"; "publish"; "youtube"; "quota"; "oauth"; "video_id"; "thumbnail"].

Definition ALERT_CONSECUTIVE_UPLOAD_FAILURE : string := "consecutive_upload_failure".
Definition ALERT_TOKEN_EXPIRING : string := "token_expiring_24h".
Definition ALERT_QUOTA_LOW : string := "quota_below_20pct".
Definition ALERT_TAKEDOWN : string := "takedown_event_logged".
Definition ALERT_MATERIAL_SUPPLY_LOW : string := "material_supply_low".

(** ** Clients *)

(** [pds_client.py]. *)
Record PDSDecisionRequest := {
  pr_actor_id : string;
  pr_action_type : string;
  pr_platform : string;
  pr_content : config;
  pr_context : config }.

Record PDSDecision := {
  pd_decision_id : string;
  pd_verdict : string;
  pd_score : pyfloat;
  pd_reasons : list pyval;
  pd_rules_version : string;
  pd_metadata : config }.

(** [channel_agent/clients.py]. *)
Record AutoFlowPlanObservation := { po_plan_id : string; po_nodes : list config }.

Record AutoFlowExecutionObservation := {
  xo_run_id : string;
  xo_pipeline_id : option string;
  xo_job_id : option string;
  xo_status : string;
  xo_error_message : option string }.

Record AutoFlowJobObservation := {
  jo_status : string;
  jo_error_message : option string;
  jo_youtube : option config }.

Definition upload_node_count (o : AutoFlowPlanObservation) : Z :=
  Z.of_nat (length (List.filter (fun n => is_str (dict_get n "type") "youtube_upload") (po_nodes o))).

Inductive client_call :=
| CallPlanTask (task : uuid) (request : config)
| CallExecuteTask (task : uuid) (request : config)
| CallObserveJob (run_id job_id : string)
| CallApprovePlan (plan_id approved_by : string) (evidence : config)
| CallQuota (account : uuid)
| CallSchedulePublish (video_id : string) (scheduled_at : datetime) (privacy : string)
| CallFetchMetrics (video_id : string)
| CallFetchStatus (video_id : string)
| CallRefreshToken (account : uuid)
| CallThumbnail (prompt title : string)
| CallDecide (request : PDSDecisionRequest).

(** Answers depend on the calls so far; a call may raise.  [model_validate] is the
    validation of an AutoFlow request, [new_uuid] the supply of identifiers, [sha256]
    the digest of segment signatures,
    [exception_text] is [str] of an exception. *)
Class AgentClients := {
  plan_task_answer : list client_call -> Res AutoFlowPlanObservation;
  execute_task_answer : list client_call -> Res AutoFlowExecutionObservation;
  observe_job_answer : list client_call -> Res AutoFlowJobObservation;
  approve_plan_answer : list client_call -> Res unit;
  quota_answer : list client_call -> Res pyfloat;
  schedule_publish_answer : list client_call -> Res config;
  fetch_metrics_answer : list client_call -> Res config;
  fetch_status_answer : list client_call -> Res config;
  refresh_token_answer : list client_call -> Res bool;
  thumbnail_answer : list client_call -> Res config;
  decide_answer : list client_call -> Res PDSDecision;
  model_validate : config -> Res config;
  new_uuid : nat -> uuid;
  sha256 : string -> string;
  exception_text : exn -> string;
  pds_health_monitor_enabled : bool }.

(** ** Sessions *)

(** What the service remembers about the decision service between calls. *)
Record PdsHealth := {
  ph_last_success_at : option datetime;
  ph_last_alert_buckets : list (string * string) }.

Record Session := {
  se_db : AgentDb;
  se_committed : AgentDb;
  se_calls : list client_call;
  se_health : PdsHealth;
  se_fresh : nat }.

Definition M (A : Type) : Type := Session -> Res A * Session.

#[export] Instance M_ret : MRet M := fun _ a s => (Ok a, s).
#[export] Instance M_bind : MBind M := fun _ _ k m s =>
  match m s with (Ok a, s') => k a s' | (Raise e, s') => (Raise e, s') end.

Definition raise {A} (e : exn) : M A := fun s => (Raise e, s).
Definition lift {A} (r : Res A) : M A := fun s => (r, s).
Definition gets {A} (f : AgentDb -> A) : M A := fun s => (Ok (f (se_db s)), s).
Definition modify (f : AgentDb -> AgentDb) : M unit := fun s => (Ok tt, s <| se_db := f (se_db s) |>).
Definition commit : M unit := fun s => (Ok tt, s <| se_committed := se_db s |>).
Definition when (b : bool) (m : M unit) : M unit := if b then m else mret tt.

(** [try: ... except Exception]. *)
Definition attempt {A} (m : M A) : M (Res A) := fun s => let '(r, s') := m s in (Ok r, s').

Definition call {A} (c : client_call) (answer : list client_call -> Res A) : M A :=
  fun s => let calls := se_calls s ++ [c] in (answer calls, s <| se_calls := calls |>).

(** A [for] loop with an accumulator. *)
Fixpoint forM {S A} (f : S -> A -> M S) (acc : S) (l : list A) : M S :=
  match l with
  | [] => mret acc
  | a :: l' => acc' ← f acc a; forM f acc' l'
  end.

Definition save_task (t : ProductionTask) : M unit := modify (fun db => db <| a_tasks ::= put_row tk_id t |>).
Definition save_publication (p : PublicationRecord) : M unit :=
  modify (fun db => db <| a_publications ::= put_row pu_id p |>).
Definition save_account (a : PublishingAccount) : M unit := modify (fun db => db <| a_accounts ::= put_row ac_id a |>).

(** A session on a database, and what is left of it when it is over. *)
Definition open_session (db : AgentDb) (health : PdsHealth) (n : nat) : Session :=
  {| se_db := db; se_committed := db; se_calls := []; se_health := health; se_fresh := n |}.

(** ** Alerts ([channel_agent/alerts.py]) *)

Definition build_alert_payload (alert_type resource_id severity message : string) (details : config)
    (channel_id : option string) (now : datetime) : config :=
  let bucket := utc_hour_bucket now in
  let payload := [("type", VStr alert_type); ("resource_id", VStr resource_id); ("severity", VStr severity);
                  ("message", VStr message); ("details", VDict details); ("created_at", VStr (isoformat_utc now))] in
  match channel_id with
  | Some c =>
      if is_empty c
      then payload ++ [("dedupe_key", VStr ("send_alert:" +:+ alert_type +:+ ":" +:+ resource_id +:+ ":" +:+ bucket))]
      else payload ++ [("channel_id", VStr c);
             ("dedupe_key", VStr ("send_alert:" +:+ alert_type +:+ ":" +:+ resource_id +:+ ":" +:+ c +:+ ":" +:+ bucket))]
  | None => payload ++ [("dedupe_key", VStr ("send_alert:" +:+ alert_type +:+ ":" +:+ resource_id +:+ ":" +:+ bucket))]
  end.

(** ** Values ([service.py], lower part) *)

Definition _dict_value (v : pyval) : config := match v with VDict d => d | _ => [] end.

Definition _string_list (v : pyval) : list string :=
  match v with
  | VStr s => if is_empty (strip s) then [] else [strip s]
  | VList l =>
      List.filter (fun s => negb (is_empty s))
        (map (fun x => strip (py_str x)) (List.filter (fun x => negb (is_none x)) l))
  | _ => []
  end.

Definition strings (l : list string) : pyval := VList (map VStr l).

(** [int(value)] with [TypeError] and [ValueError] caught, then a test of the number. *)
Definition int_such_that (p : Z -> bool) (v : pyval) : Res (option Z) :=
  z ← int_or_none (py_int v); Ok (match z with Some n => if p n then Some n else None | None => None end).

Definition _positive_int (v : pyval) (dflt : Z) : Res Z :=
  z ← int_such_that (fun n => 0 <? n)%Z v; Ok (default dflt z).
Definition _nonnegative_int (v : pyval) (dflt : Z) : Res Z :=
  z ← int_such_that (fun n => 0 <=? n)%Z v; Ok (default dflt z).
Definition _optional_int (v : pyval) : Res (option Z) :=
  if is_none v then Ok None else int_such_that (fun n => 0 <=? n)%Z v.

Definition float_or_none (r : Res pyfloat) : Res (option pyfloat) :=
  match r with
  | Ok f => Ok (Some f)
  | Raise TypeError | Raise (ValueError _) => Ok None
  | Raise e => Raise e
  end.

Definition nonnegative_float_or_none (v : pyval) : Res (option pyfloat) :=
  f ← float_or_none (py_float v);
  Ok (match f with Some x => if fleb (float_of_Z 0) x then Some x else None | None => None end).

Definition _nonnegative_float (v : pyval) (dflt : pyfloat) : Res pyfloat :=
  f ← nonnegative_float_or_none v; Ok (default dflt f).
Definition _optional_float (v : pyval) : Res (option pyfloat) :=
  if is_none v then Ok None else nonnegative_float_or_none v.

Definition _list_value (v : pyval) : option (list pyval) := match v with VList l => Some l | _ => None end.

Definition _SAFE_PRIVACY_VALUES : list string := ["private"; "unlisted"].

Definition _safe_privacy (v : pyval) : option string :=
  let desired := lower (strip (py_str (py_or v (VStr "")))) in
  if bool_decide (desired ∈ _SAFE_PRIVACY_VALUES) then Some desired else None.

Definition _status_value (v : string) : string := lower (strip v).

(** [uuid.UUID(str(value))]. *)
Definition _uuid (v : pyval) : Res uuid := uuid_of_string (py_str v).

Definition payload_uuid (item : ChannelOpsQueueItem) (key : string) : Res uuid :=
  match (qi_payload_json item).[? key] with Some v => _uuid v | None => Raise KeyError end.

Definition _transition (from_state to_state actor : string) (now : datetime) : pyval :=
  VDict [("from", VStr from_state); ("to", VStr to_state); ("actor", VStr actor); ("at", VStr (isoformat_utc now))].

(** [_publication_effective_time]. *)
Definition first_some (l : list (option datetime)) : option datetime :=
  match omap id l with t :: _ => Some t | [] => None end.

Definition _publication_effective_time (p : PublicationRecord) : option datetime :=
  if (pu_publish_status p =? "public")%string
  then first_some [pu_public_at p; pu_scheduled_publish_at p; pu_uploaded_at p; Some (pu_created_at p)]
  else first_some [pu_scheduled_publish_at p; pu_public_at p; pu_uploaded_at p; Some (pu_created_at p)].

(** ** Queue, events and decisions *)

Section Session.
Context {AC : AgentClients} (now : datetime).

Definition fresh : M uuid := fun s => (Ok (new_uuid (se_fresh s)), s <| se_fresh ::= S |>).

(** [ChannelOpsQueueService.enqueue] in a session. *)
Definition queue_enqueue (r : EnqueueRequest) (commit_now : bool) : M ChannelOpsQueueItem :=
  t ← gets a_queue;
  match get_by_key (eq_idempotency_key r) t with
  | Some existing => mret existing
  | None =>
      id ← fresh;
      p ← lift (enqueue_item id now r commit_now t t);
      _ ← modify (fun db => db <| a_queue := p.2 |>);
      _ ← when commit_now commit;
      mret p.1
  end.

Definition request (kind key : string) (payload : config) (priority : Z) (run_after : option datetime)
    (channel parent : option uuid) : EnqueueRequest :=
  {| eq_kind := kind; eq_idempotency_key := key; eq_payload := Some payload; eq_priority := priority;
     eq_run_after := run_after; eq_channel_profile_id := channel; eq_parent_queue_item_id := parent;
     eq_max_attempts := 3 |}.

(** [str(payload["dedupe_key"])]. *)
Definition dedupe_key (payload : config) : string := py_str (dict_get payload "dedupe_key").

Definition _enqueue_alert (alert_type resource_id severity message : string) (details : config)
    (channel_profile_id : option uuid) : M ChannelOpsQueueItem :=
  let payload := build_alert_payload alert_type resource_id severity message details channel_profile_id now in
  queue_enqueue (request "send_alert" (dedupe_key payload) payload 5 None channel_profile_id None) true.

Definition _emit_actor_action_event (actor_id action_type platform : string) (metadata : config) : M unit :=
  id ← fresh;
  let payload := build_actor_action_event id now actor_id action_type platform (Some metadata) (Some now) in
  table ← gets a_outbox;
  p ← lift (Outbox.enqueue id now table TOPIC_VP_ACTIONS (py_str (dict_get payload "actor_id")) payload);
  modify (fun db => db <| a_outbox := p.2 |>).

Definition _is_pds_fail_policy_decision (d : PDSDecision) : bool :=
  truthy (dict_get (pd_metadata d) "fail_policy")
  || bool_decide (py_str (py_or (dict_get (pd_metadata d) "warning") (VStr ""))
                  ∈ ["pds_disabled"; "pds_unavailable"; "pds_parse_failed"]).

(** [should_enqueue_pds_outage_alert] of [pds_health.py], with its five minutes. *)
Definition should_enqueue_pds_outage_alert (last_success_at : option datetime) (last_alert_bucket : option string) : bool :=
  negb (bool_decide (last_alert_bucket = Some (utc_hour_bucket now)))
  && match last_success_at with Some t => negb (now - t <=? 5 * MINUTE_US)%Z | None => true end.

Definition health : M PdsHealth := fun s => (Ok (se_health s), s).
Definition set_health (f : PdsHealth -> PdsHealth) : M unit := fun s => (Ok tt, s <| se_health ::= f |>).

Definition _maybe_enqueue_pds_outage_alert (d : PDSDecision) (r : PDSDecisionRequest) : M unit :=
  if negb pds_health_monitor_enabled then mret tt
  else
    h ← health;
    let channel_id := strip (py_str (py_or (dict_get (pr_context r) "channel_id") (VStr ""))) in
    let alert_scope := if is_empty channel_id then "global" else channel_id in
    if negb (should_enqueue_pds_outage_alert (ph_last_success_at h) (ph_last_alert_buckets h).[? alert_scope])
    then mret tt
    else
      let payload :=
        build_alert_payload "pds_outage" "service:pds" "critical"
          "Policy Decision Service is unavailable or returning fail-policy decisions"
          [("action_type", VStr (pr_action_type r)); ("verdict", VStr (pd_verdict d));
           ("decision_id", VStr (pd_decision_id d));
           ("warning", VStr (py_str (py_or (dict_get (pd_metadata d) "warning") (VStr ""))));
           ("fail_policy", VStr (py_str (py_or (dict_get (pd_metadata d) "fail_policy") (VStr ""))))]
          (if is_empty channel_id then None else Some channel_id) now in
      channel ← (if is_empty channel_id then mret None
                 else (u ← lift (uuid_of_string channel_id); mret (Some u)));
      _ ← queue_enqueue (request "send_alert" (dedupe_key payload) payload 5 None channel None) false;
      set_health (fun h => h <| ph_last_alert_buckets ::= fun b => b.[alert_scope <- utc_hour_bucket now] |>).

Definition _decide_pds (r : PDSDecisionRequest) : M PDSDecision :=
  d ← call (CallDecide r) decide_answer;
  if _is_pds_fail_policy_decision d then (_ ← _maybe_enqueue_pds_outage_alert d r; mret d)
  else (_ ← set_health (fun h => h <| ph_last_success_at := Some now |>); mret d).

(** The codes of the reasons that have one; [code not in {None, ...}] hashes the code. *)
Definition reason_code (r : pyval) : Res (list pyval) :=
  match r with
  | VDict e =>
      match dict_get e "code" with
      | VNone | VStr "" => Ok []
      | VList _ | VDict _ => Raise TypeError
      | code => Ok [VStr (py_str code)]
      end
  | _ => Ok []
  end.

Definition _pds_decision_event_metadata (d : PDSDecision) : Res config :=
  codes ← mapMR reason_code (pd_reasons d);
  let score := if truthy (VFloat (pd_score d)) then pd_score d else float_of_Z 0 in
  let base :=
    [("decision_id", VStr (pd_decision_id d)); ("verdict", VStr (pd_verdict d)); ("score", VFloat score);
     ("rules_version", VStr (pd_rules_version d)); ("reason_codes", VList (concat codes))] in
  match (pd_metadata d).[? "warning"] with
  | None | Some VNone => Ok base
  | Some w => Ok (base ++ [("warning", VStr (py_str w))])
  end.
End Session.
