(* ===== verification/HumanReview.v ===== *)
(** * Human review evidence ([channel_agent/human_review.py])

    A reviewer's approval of a plan or of a promotion is kept in the task as a
    dictionary that names the plan, the instant of its approval and the approved
    revision.  The checks recompute all of it from the plan as it is now.  Evidence is
    accepted exactly while the plan is the one that was reviewed. *)

From stdpp Require Import base tactics list strings.
From Stdlib Require Import ZArith Lia Ascii.
From S2P Require Import Prelude PyStr PyValue PyTime PyUuid Pipeline JobModel MaterialUsage AgentModel.

Open Scope string_scope.
Open Scope list_scope.

Definition PRE_UPLOAD_SCOPE : string := "external_asset_pre_upload".
Definition PROMOTION_SCOPE : string := "publication_promotion".
Definition _INVALID_PLAN_STATUSES : list string := ["blocked"; "rejected"].

Definition task_uses_external_assets (t : ProductionTask) : bool :=
  tk_uses_external_assets t
  || truthy (tk_source_platforms_json t)
  || match tk_channel_config_snapshot_json t with
     | VDict snapshot =>
         match dict_get snapshot "lane_format" with
         | VDict lane_format => truthy (dict_get lane_format "source_platforms_json")
         | _ => false
         end
     | _ => false
     end.

Definition merge_human_review_evidence (current : config) (key : string) (evidence : config) : config :=
  current.[key <- VDict evidence].

(** ** Values *)

(** [raw.replace("Z", "+00:00")]. *)
Fixpoint replace_zulu (s : string) : string :=
  match s with
  | EmptyString => EmptyString
  | String c r => if (c =? "Z")%char then "+00:00" +:+ replace_zulu r else String c (replace_zulu r)
  end.

(** [_parse_datetime]: the instant; a value without a zone is in UTC. *)
Definition evidence_datetime (raw : pyval) : option datetime :=
  match raw with
  | VStr s =>
      if is_empty (strip s) then None
      else match fromisoformat (replace_zulu (strip s)) with Some (t, _) => Some t | None => None end
  | _ => None
  end.

Definition _is_timestamp (raw : pyval) : bool := if evidence_datetime raw then true else false.

(** [_utc] of a parsed value: [astimezone] leaves the calendar at both ends. *)
Definition _utc (t : datetime) : Res datetime :=
  if (1 <=? t / DAY_US + EPOCH_ORDINAL)%Z && (t / DAY_US + EPOCH_ORDINAL <=? 3652059)%Z then Ok t else Raise OverflowError.

Definition _same_datetime (raw : pyval) (expected : datetime) : Res bool :=
  match evidence_datetime raw with
  | None => Ok false
  | Some parsed => t ← _utc parsed; e ← _utc expected; Ok (t =? e)%Z
  end.

Definition _datetime_token (t : datetime) : Res string := u ← _utc t; Ok (isoformat_utc u).

Definition _is_nonblank (v : pyval) : bool := match v with VStr s => negb (is_empty (strip s)) | _ => false end.

Definition _nonblank (value : string) : Res string :=
  if is_empty (strip value) then Raise (ValueError "human_actor must be nonblank") else Ok (strip value).

(** ** Plans *)

Definition _plan_is_currently_reviewable (p : AutoFlowPlan) : bool :=
  negb (bool_decide (lower (ap_status p) ∈ _INVALID_PLAN_STATUSES))
  && negb (bool_decide (lower (py_str (dget_or (ap_rights_json p) "status" (VStr ""))) ∈ _INVALID_PLAN_STATUSES)).

Definition _plan_approved_revision_hash (p : AutoFlowPlan) : option string :=
  match ap_approved_revision_hash p with
  | Some h => if (String.length h =? 64)%nat then Some h else None
  | None => None
  end.

Definition positive (z : Z) : option Z := if (z <? 1)%Z then None else Some z.
Definition _plan_execution_revision (p : AutoFlowPlan) : option Z := positive (ap_execution_revision p).
Definition _plan_approved_revision (p : AutoFlowPlan) : option Z := ap_approved_revision p ≫= positive.

(** The approval of a plan that can be executed: its instant, hash and revision.  Both
    builders raise in this order. *)
Definition plan_approval (p : AutoFlowPlan) : Res (datetime * string * Z) :=
  match ap_review_approved_at p with
  | None => Raise (ValueError "AutoFlow plan has no human review approval token")
  | Some approved_at =>
      match _plan_approved_revision_hash p with
      | None => Raise (ValueError "AutoFlow plan has no approved execution revision hash")
      | Some hash =>
          match _plan_approved_revision p with
          | Some revision =>
              if bool_decide (Some revision = _plan_execution_revision p) then Ok (approved_at, hash, revision)
              else Raise (ValueError "AutoFlow plan has no approved execution revision")
          | None => Raise (ValueError "AutoFlow plan has no approved execution revision")
          end
      end
  end.

Definition notes_entry (review_notes : option string) : config :=
  match review_notes with Some n => [("review_notes", VStr n)] | None => [] end.

Definition build_pre_upload_evidence (p : AutoFlowPlan) (human_actor : string) (review_notes : option string) : Res config :=
  approval ← plan_approval p;
  let '(approved_at, hash, revision) := approval in
  token ← _datetime_token approved_at;
  actor ← _nonblank human_actor;
  Ok ([("kind", VStr "human_review"); ("scope", VStr PRE_UPLOAD_SCOPE); ("human_actor", VStr actor);
       ("reviewed_at", VStr token); ("autoflow_plan_id", VStr (ap_id p)); ("plan_review_approved_at", VStr token);
       ("plan_approved_revision_hash", VStr hash); ("plan_approved_revision", VInt revision)]
      ++ notes_entry review_notes).

Definition build_promotion_evidence (task_id publication_id : uuid) (target_visibility human_actor : string)
    (reviewed_at : datetime) (review_notes : option string) (plan : option AutoFlowPlan) : Res config :=
  actor ← _nonblank human_actor;
  token ← _datetime_token reviewed_at;
  let base :=
    [("kind", VStr "human_review"); ("scope", VStr PROMOTION_SCOPE); ("human_actor", VStr actor);
     ("reviewed_at", VStr token); ("production_task_id", VStr task_id); ("publication_id", VStr publication_id);
     ("target_visibility", VStr target_visibility)] in
  match plan with
  | None => Ok (base ++ notes_entry review_notes)
  | Some p =>
      approval ← plan_approval p;
      let '(approved_at, hash, revision) := approval in
      approved ← _datetime_token approved_at;
      Ok (base ++ [("autoflow_plan_id", VStr (ap_id p)); ("plan_review_approved_at", VStr approved);
                   ("plan_approved_revision_hash", VStr hash); ("plan_approved_revision", VInt revision)]
          ++ notes_entry review_notes)
  end.

(** ** Checks *)

(** The dictionary under a key of the task's evidence. *)
Definition evidence_entry (root : pyval) (key : string) : option config :=
  match root with VDict r => match dict_get r key with VDict e => Some e | _ => None end | _ => None end.

(** [str(evidence.get(key, ""))]. *)
Definition entry_text (e : config) (key : string) : string := py_str (dget_or e key (VStr "")).

(** A review by somebody, at some time, in a scope. *)
Definition review_in_scope (e : config) (scope : string) : bool :=
  is_str (dict_get e "kind") "human_review" && is_str (dict_get e "scope") scope
  && _is_nonblank (dict_get e "human_actor") && _is_timestamp (dict_get e "reviewed_at").

Definition valid_pre_upload_evidence (t : ProductionTask) (plan : option AutoFlowPlan) : Res bool :=
  match plan with
  | None => Ok false
  | Some p =>
      if negb (_plan_is_currently_reviewable p) then Ok false
      else
        match tk_autoflow_plan_id t, plan_approval p with
        | Some task_plan_id, Ok (approved_at, hash, revision) =>
            if negb (task_plan_id =? ap_id p)%string then Ok false
            else
              match evidence_entry (tk_human_review_evidence_json t) "pre_upload" with
              | None => Ok false
              | Some e =>
                  if negb (review_in_scope e PRE_UPLOAD_SCOPE) then Ok false
                  else if negb (entry_text e "autoflow_plan_id" =? ap_id p)%string then Ok false
                  else
                    same ← _same_datetime (dict_get e "plan_review_approved_at") approved_at;
                    Ok (same && is_str (dict_get e "plan_approved_revision_hash") hash
                        && py_eq (dict_get e "plan_approved_revision") (VInt revision))
              end
        | _, _ => Ok false
        end
  end.

Definition same_entry (a b : config) (key : string) : bool := py_eq (dict_get a key) (dict_get b key).

Definition valid_promotion_evidence (t : ProductionTask) (plan : option AutoFlowPlan) (publication_id : uuid)
    (target_visibility : string) (require_plan : bool) : Res bool :=
  match evidence_entry (tk_human_review_evidence_json t) "promotion" with
  | None => Ok false
  | Some e =>
      if negb (review_in_scope e PROMOTION_SCOPE) then Ok false
      else if negb (entry_text e "production_task_id" =? tk_id t)%string then Ok false
      else if negb (entry_text e "publication_id" =? publication_id)%string then Ok false
      else if negb (is_str (dict_get e "target_visibility") target_visibility) then Ok false
      else if negb require_plan then Ok true
      else
        valid ← valid_pre_upload_evidence t plan;
        if negb valid then Ok false
        else
          match evidence_entry (tk_human_review_evidence_json t) "pre_upload" with
          | None => Ok false
          | Some pre_upload =>
              Ok (same_entry e pre_upload "autoflow_plan_id" && same_entry e pre_upload "plan_review_approved_at"
                  && same_entry e pre_upload "plan_approved_revision_hash"
                  && same_entry e pre_upload "plan_approved_revision")
          end
  end.

(** ** Tokens *)

Definition token_char (c : ascii) : bool := negb (is_space c) && negb (c =? "Z")%char.

Lemma digit_token_char d : (0 <= d < 10)%Z -> token_char (digit_char d) = true.
Proof.
  intros H. assert (forallb (fun d => token_char (digit_char d)) (range 0 10) = true) as Hall by reflexivity.
  rewrite forallb_forall in Hall. apply Hall. by apply list_elem_of_In, elem_of_range.
Qed.

Lemma pad_token_chars w z rest : sforall token_char (pad w z rest) = sforall token_char rest.
Proof.
  revert z rest. induction w as [|w IH]; intros z rest; simpl; [done|]. rewrite IH. simpl.
  rewrite digit_token_char; [done|]. apply Z.mod_pos_bound. lia.
Qed.

Lemma isoformat_token_chars t : sforall token_char (isoformat_utc t) = true.
Proof.
  unfold isoformat_utc. destruct (ord_to_ymd _) as [[y m] d].
  assert (forall c r, token_char c = true -> sforall token_char (String c r) = sforall token_char r) as Hc
    by (intros c r H; simpl; by rewrite H).
  do 6 (rewrite pad_token_chars, ?Hc by done). rewrite sforall_app, andb_true_r.
  destruct (_ =? 0)%Z; [done|]. rewrite Hc by done. by rewrite pad_token_chars.
Qed.

Lemma strip_token s : sforall token_char s = true -> strip s = s.
Proof. intros H. apply strip_nospace. eapply sforall_impl; [|exact H]. intros c [Hc _]%andb_prop. exact Hc. Qed.

Lemma replace_zulu_token s : sforall token_char s = true -> replace_zulu s = s.
Proof.
  induction s as [|c s IH]; simpl; [done|]. intros [Hc Hs]%andb_prop. rewrite IH by done.
  unfold token_char in Hc. apply andb_prop in Hc as [_ Hc]. by destruct (c =? "Z")%char.
Qed.

(** An instant survives its token. *)
Lemma token_instant t s : _datetime_token t = Ok s -> evidence_datetime (VStr s) = Some t /\ _utc t = Ok t /\ is_empty s = false.
Proof.
  unfold _datetime_token. destruct (_utc t) as [u|] eqn:Hu; [|done]. assert (u = t) as ->.
  { unfold _utc in Hu. destruct (_ && _); [by injection Hu|done]. }
  simpl. intros [= <-]. assert (representable t) as Hr.
  { unfold _utc in Hu. destruct (_ && _) eqn:Hb; [|done]. apply andb_prop in Hb as [H1 H2]. unfold representable. lia. }
  pose proof (isoformat_token_chars t) as Hc. pose proof (fromisoformat_isoformat t Hr) as Hf.
  unfold evidence_datetime. rewrite strip_token, replace_zulu_token, Hf by done.
  assert (is_empty (isoformat_utc t) = false) as -> by (destruct (isoformat_utc t); [by vm_compute in Hf|done]).
  done.
Qed.

Lemma same_token t s expected : _datetime_token t = Ok s -> _utc expected = Ok expected ->
  _same_datetime (VStr s) expected = Ok (t =? expected)%Z.
Proof. intros (Hd & Hu & _)%token_instant He. unfold _same_datetime. rewrite Hd. simpl. by rewrite Hu, He. Qed.

Lemma token_eqb t t' s s' : _datetime_token t = Ok s -> _datetime_token t' = Ok s' -> (s =? s')%string = (t =? t')%Z.
Proof.
  intros H H'. pose proof (token_instant _ _ H) as (Hd & _). pose proof (token_instant _ _ H') as (Hd' & _).
  destruct (String.eqb_spec s s') as [->|Hne], (Z.eqb_spec t t') as [->|Hn]; congruence.
Qed.

(** ** When evidence is accepted *)

(** A stripped text is blank exactly when it is empty. *)
Lemma is_empty_lstrip s : is_empty (lstrip s) = sforall is_space s.
Proof. induction s as [|c s IH]; simpl; [done|]. by destruct (is_space c). Qed.
Lemma blank_rstrip s : sforall is_space (rstrip s) = sforall is_space s.
Proof.
  induction s as [|c s IH]; simpl; [done|]. destruct (rstrip s) as [|d r] eqn:Hr; simpl in *.
  - rewrite <- IH. destruct (is_space c) eqn:Hc; simpl; by rewrite ?Hc.
  - by rewrite IH.
Qed.
Lemma blank_lstrip s : sforall is_space (lstrip s) = sforall is_space s.
Proof. induction s as [|c s IH]; simpl; [done|]. destruct (is_space c) eqn:Hc; simpl; by rewrite ?Hc. Qed.
Lemma strip_strip_blank s : is_empty (strip (strip s)) = is_empty (strip s).
Proof. unfold strip. by rewrite !is_empty_lstrip, !blank_rstrip, blank_lstrip, blank_rstrip. Qed.

(** The approval a plan has, as one condition. *)
Lemma plan_approval_Ok p a h r : plan_approval p = Ok (a, h, r) <->
  ap_review_approved_at p = Some a /\ ap_approved_revision_hash p = Some h /\ String.length h = 64
  /\ ap_approved_revision p = Some r /\ ap_execution_revision p = r /\ (1 <= r)%Z.
Proof.
  unfold plan_approval, _plan_approved_revision_hash, _plan_approved_revision, _plan_execution_revision, positive.
  destruct (ap_review_approved_at p) as [a'|]; [|naive_solver].
  destruct (ap_approved_revision_hash p) as [h'|]; [|naive_solver].
  destruct (Nat.eqb_spec (String.length h') 64); [|naive_solver].
  destruct (ap_approved_revision p) as [r'|]; simpl; [|naive_solver].
  destruct (Z.ltb_spec r' 1); [split; [done|naive_solver lia]|].
  case_bool_decide as Hb; (destruct (Z.ltb_spec (ap_execution_revision p) 1); naive_solver lia).
Qed.

(** What the builders write, as the checks read it. *)
Record approves (e : config) (p : AutoFlowPlan) : Prop := {
  as_plan : dict_get e "autoflow_plan_id" = VStr (ap_id p);
  as_approval : exists at_ token hash revision, plan_approval p = Ok (at_, hash, revision)
    /\ _datetime_token at_ = Ok token
    /\ dict_get e "plan_review_approved_at" = VStr token
    /\ dict_get e "plan_approved_revision_hash" = VStr hash
    /\ dict_get e "plan_approved_revision" = VInt revision }.

Lemma nonblank_actor a actor : _nonblank a = Ok actor -> _is_nonblank (VStr actor) = true.
Proof.
  unfold _nonblank. destruct (is_empty (strip a)) eqn:He; [done|]. intros [= <-]. simpl. by rewrite strip_strip_blank, He.
Qed.

Lemma token_timestamp t s : _datetime_token t = Ok s -> _is_timestamp (VStr s) = true.
Proof. intros (H & _)%token_instant. unfold _is_timestamp. by rewrite H. Qed.

Lemma reviewed_in_scope scope actor token : _is_nonblank (VStr actor) = true -> _is_timestamp (VStr token) = true ->
  forall rest, review_in_scope (("kind", VStr "human_review") :: ("scope", VStr scope) :: ("human_actor", VStr actor)
                                :: ("reviewed_at", VStr token) :: rest) scope = true.
Proof.
  intros Hn Ht rest. unfold review_in_scope.
  change (is_str (VStr "human_review") "human_review" && is_str (VStr scope) scope && _is_nonblank (VStr actor)
          && _is_timestamp (VStr token) = true). rewrite Hn, Ht. simpl. by rewrite String.eqb_refl.
Qed.

Lemma built_pre_upload p actor notes e : build_pre_upload_evidence p actor notes = Ok e ->
  review_in_scope e PRE_UPLOAD_SCOPE = true /\ approves e p.
Proof.
  unfold build_pre_upload_evidence. destruct (plan_approval p) as [[[a h] r]|] eqn:Hp; [|done]. simpl.
  destruct (_datetime_token a) as [token|] eqn:Ht; [|done]. simpl.
  destruct (_nonblank actor) as [w|] eqn:Hw; [|done]. simpl. intros [= <-]. split.
  - by apply (reviewed_in_scope _ w token (nonblank_actor _ _ Hw) (token_timestamp _ _ Ht)).
  - split; [done|]. by exists a, token, h, r.
Qed.

Lemma built_promotion tid pid vis actor at_ notes plan e :
  build_promotion_evidence tid pid vis actor at_ notes plan = Ok e ->
  review_in_scope e PROMOTION_SCOPE = true /\ entry_text e "production_task_id" = tid /\ entry_text e "publication_id" = pid
  /\ dict_get e "target_visibility" = VStr vis
  /\ match plan with Some p => approves e p | None => dict_get e "autoflow_plan_id" = VNone end.
Proof.
  unfold build_promotion_evidence. destruct (_nonblank actor) as [w|] eqn:Hw; [|done]. simpl.
  destruct (_datetime_token at_) as [token|] eqn:Ht; [|done]. simpl.
  pose proof (reviewed_in_scope PROMOTION_SCOPE w token (nonblank_actor _ _ Hw) (token_timestamp _ _ Ht)) as Hs.
  destruct plan as [p|].
  - destruct (plan_approval p) as [[[a h] r]|] eqn:Hp; [|done]. simpl.
    destruct (_datetime_token a) as [tok|] eqn:Ht'; [|done]. simpl. intros [= <-].
    split; [apply Hs|]. split_and!; [done..|]. split; [done|]. by exists a, tok, h, r.
  - intros [= <-]. split; [apply Hs|]. split_and!; [done..|]. by destruct notes.
Qed.

(** The plan is the one that was reviewed. *)
Definition same_review (p p' : AutoFlowPlan) : Prop := ap_id p' = ap_id p /\ plan_approval p' = plan_approval p.

Lemma utc_self t u : _utc t = Ok u -> u = t.
Proof. unfold _utc. destruct (_ && _); [by intros [= <-]|done]. Qed.

Lemma pre_upload_checks t p e p' : approves e p -> review_in_scope e PRE_UPLOAD_SCOPE = true ->
  evidence_entry (tk_human_review_evidence_json t) "pre_upload" = Some e ->
  valid_pre_upload_evidence t (Some p') = Ok true <->
    _plan_is_currently_reviewable p' = true /\ tk_autoflow_plan_id t = Some (ap_id p) /\ same_review p p'.
Proof.
  intros [Hid (a & token & h & r & Hp & Ht & Hat & Hh & Hr)] Hsc He. unfold valid_pre_upload_evidence, same_review.
  destruct (_plan_is_currently_reviewable p'); [|naive_solver]. destruct (tk_autoflow_plan_id t) as [tid|]; [|naive_solver].
  destruct (plan_approval p') as [[[a' h'] r']|] eqn:Hp'; [|rewrite Hp; naive_solver]. simpl.
  rewrite He, Hsc. unfold entry_text, dget_or, dict_get in *. rewrite Hp. simpl.
  destruct (e.[? "autoflow_plan_id"]) as [v|]; [|done]. simpl in Hid. subst v. simpl. rewrite Hat, Hh, Hr. simpl.
  destruct (String.eqb_spec tid (ap_id p')) as [->|]; [|naive_solver]. simpl.
  destruct (String.eqb_spec (ap_id p) (ap_id p')) as [->|]; [|naive_solver]. simpl.
  unfold _same_datetime. pose proof (token_instant _ _ Ht) as (-> & -> & _). simpl.
  destruct (_utc a') as [u|] eqn:Hu; simpl.
  - apply utc_self in Hu as ->. assert (forall b, Ok b = Ok true <-> b = true) as -> by (intros b; split; congruence).
    rewrite !andb_true_iff, !Z.eqb_eq, String.eqb_eq. naive_solver.
  - split; [done|]. intros (_ & _ & _ & [= -> -> ->]). pose proof (token_instant _ _ Ht) as (_ & Hu' & _). congruence.
Qed.

Lemma entry_merged cur key e : evidence_entry (VDict (merge_human_review_evidence cur key e)) key = Some e.
Proof. unfold evidence_entry, merge_human_review_evidence, dict_get. by rewrite dget_dset_eq. Qed.
Lemma entry_kept cur key key' e : key <> key' ->
  evidence_entry (VDict (merge_human_review_evidence cur key e)) key' = evidence_entry (VDict cur) key'.
Proof. intros Hne. unfold evidence_entry, merge_human_review_evidence, dict_get. by rewrite dget_dset_ne by congruence. Qed.

(** C36. Evidence of a review binds.  What the release of a task stores for a plan is
    accepted for a plan exactly when the task still points to the reviewed plan, the plan
    has the same identity, instant of approval, approved hash and approved revision, is
    still at that revision, and neither it nor its rights are blocked or rejected. *)
Theorem pre_upload_evidence_exact (p p' : AutoFlowPlan) (t : ProductionTask) (current e : config) (human_actor : string)
    (review_notes : option string) :
  build_pre_upload_evidence p human_actor review_notes = Ok e ->
  tk_human_review_evidence_json t = VDict (merge_human_review_evidence current "pre_upload" e) ->
  valid_pre_upload_evidence t (Some p') = Ok true <->
    _plan_is_currently_reviewable p' = true /\ tk_autoflow_plan_id t = Some (ap_id p) /\ same_review p p'.
Proof.
  intros [Hs Ha]%built_pre_upload Hroot. apply (pre_upload_checks t p e p' Ha Hs). rewrite Hroot. apply entry_merged.
Qed.

Lemma same_entry_approvals e p e' p' : approves e p -> approves e' p' ->
  forallb (same_entry e' e) ["autoflow_plan_id"; "plan_review_approved_at"; "plan_approved_revision_hash"; "plan_approved_revision"]
    = true <-> same_review p p'.
Proof.
  intros [Hid (a & tok & h & r & Hp & Ht & Hat & Hh & Hr)] [Hid' (a' & tok' & h' & r' & Hp' & Ht' & Hat' & Hh' & Hr')].
  unfold same_review, same_entry. cbn [forallb]. rewrite Hid, Hat, Hh, Hr, Hid', Hat', Hh', Hr', Hp, Hp'. cbn [py_eq].
  rewrite (token_eqb _ _ _ _ Ht' Ht), !andb_true_iff, !String.eqb_eq, !Z.eqb_eq. naive_solver.
Qed.

(** The part of a promotion's evidence that does not concern the plan. *)
Lemma promotion_names t plan pid vis actor reviewed_at notes e q :
  build_promotion_evidence (tk_id t) pid vis actor reviewed_at notes plan = Ok e ->
  evidence_entry (tk_human_review_evidence_json t) "promotion" = Some e ->
  valid_promotion_evidence t q pid vis false = Ok true.
Proof.
  intros (Hs & Ht & Hp & Hv & _)%built_promotion He. unfold valid_promotion_evidence. rewrite He, Hs, Ht, Hp, Hv. cbn [negb is_str].
  by rewrite !String.eqb_refl.
Qed.

Lemma promotion_checks t p p' plan e1 e2 actor reviewed_at notes tid pid pid' vis vis' require_plan :
  approves e1 p -> build_promotion_evidence tid pid vis actor reviewed_at notes plan = Ok e2 ->
  evidence_entry (tk_human_review_evidence_json t) "pre_upload" = Some e1 ->
  evidence_entry (tk_human_review_evidence_json t) "promotion" = Some e2 ->
  valid_promotion_evidence t (Some p') pid' vis' require_plan = Ok true <->
    tk_id t = tid /\ pid' = pid /\ vis' = vis
    /\ (require_plan = true ->
          valid_pre_upload_evidence t (Some p') = Ok true /\ exists q, plan = Some q /\ same_review p q).
Proof.
  intros Ha1 (Hs2 & Ht & Hp & Hv & Hplan)%built_promotion Hpre Hpro.
  unfold valid_promotion_evidence. rewrite Hpro, Hs2, Ht, Hp, Hv, Hpre. cbn [negb is_str].
  destruct (String.eqb_spec tid (tk_id t)) as [->|]; [|naive_solver]. cbn [negb].
  destruct (String.eqb_spec pid pid') as [->|]; [|naive_solver]. cbn [negb].
  destruct (String.eqb_spec vis vis') as [->|]; [|naive_solver]. cbn [negb].
  destruct require_plan; [|naive_solver]. cbn [negb].
  destruct (valid_pre_upload_evidence t (Some p')) as [[]|] eqn:Hval; simpl;
    [|split; [done|intros (_ & _ & _ & H); by destruct (H eq_refl)]..].
  assert (forall b, Ok b = Ok true <-> b = true) as -> by (intros b; split; congruence). rewrite <- !andb_assoc.
  destruct plan as [q|].
  - pose proof (same_entry_approvals e1 p e2 q Ha1 Hplan) as Hq. simpl in Hq. rewrite andb_true_r in Hq. naive_solver.
  - unfold same_entry at 1. rewrite Hplan, (as_plan _ _ Ha1). simpl. naive_solver.
Qed.

(** Evidence of a promotion binds.  It is accepted for the task, the publication and
    the visibility it was given for and no others; and where the plan counts, only
    together with accepted pre-upload evidence of the same review. *)
Theorem promotion_evidence_exact (t : ProductionTask) (p p' : AutoFlowPlan) (plan : option AutoFlowPlan)
    (current e1 e2 : config) (actor1 actor2 : string) (notes1 notes2 : option string) (reviewed_at : datetime)
    (tid pid pid' : uuid) (vis vis' : string) (require_plan : bool) :
  build_pre_upload_evidence p actor1 notes1 = Ok e1 ->
  build_promotion_evidence tid pid vis actor2 reviewed_at notes2 plan = Ok e2 ->
  tk_human_review_evidence_json t
    = VDict (merge_human_review_evidence (merge_human_review_evidence current "pre_upload" e1) "promotion" e2) ->
  valid_promotion_evidence t (Some p') pid' vis' require_plan = Ok true <->
    tk_id t = tid /\ pid' = pid /\ vis' = vis
    /\ (require_plan = true ->
          valid_pre_upload_evidence t (Some p') = Ok true /\ exists q, plan = Some q /\ same_review p q).
Proof.
  intros [Hs1 Ha1]%built_pre_upload Hb Hroot. apply (promotion_checks t p p' plan e1 e2 actor2 reviewed_at notes2); try done;
    rewrite Hroot; [rewrite entry_kept by done|]; apply entry_merged.
Qed.

(** ** Concrete reviews *)

Definition hash64 : string := String.concat "" (replicate 16 "abcd").
Definition reviewed_plan (revision : Z) : AutoFlowPlan :=
  {| ap_id := uuid_str 9; ap_status := "review_approved"; ap_candidates_json := []; ap_metadata_json := [];
     ap_rights_json := [("status", VStr "clear")]; ap_execution_revision := revision; ap_review_approved_at := Some DAY_US;
     ap_approved_revision_hash := Some hash64; ap_approved_revision := Some 2%Z |}.
Definition pre_upload_of (p : AutoFlowPlan) : config := ok_or [] (build_pre_upload_evidence p " ann " None).
Definition promotion_of (p : AutoFlowPlan) : config :=
  ok_or [] (build_promotion_evidence (uuid_str 7) (uuid_str 8) "unlisted" "ann" DAY_US None (Some p)).
Definition reviewed_task : ProductionTask :=
  {| tk_id := uuid_str 7; tk_channel_profile_id := uuid_str 1; tk_topic_lane_id := None; tk_lane_format_id := None;
     tk_target_account_id := uuid_str 3; tk_manual_seed_id := None; tk_source := "manual_seed"; tk_title_seed := "cat";
     tk_prompt := "a cat"; tk_rationale_json := []; tk_score_breakdown_json := []; tk_portfolio_bucket := "";
     tk_source_platforms_json := VList [VStr "youtube"]; tk_material_library_ids_json := VList [];
     tk_uses_external_assets := true; tk_approval_mode := "human"; tk_agent_approval_evidence_json := [];
     tk_human_review_evidence_json :=
       VDict (merge_human_review_evidence (merge_human_review_evidence [] "pre_upload" (pre_upload_of (reviewed_plan 2)))
                "promotion" (promotion_of (reviewed_plan 2)));
     tk_autoflow_plan_id := Some (uuid_str 9); tk_autoflow_run_id := None; tk_pipeline_id := None; tk_job_id := None;
     tk_state := TASK_PLANNING; tk_state_updated_at := 0; tk_failure_reason := None; tk_failure_category := None;
     tk_blocked_by_guard := None; tk_channel_config_version_snapshot := 1; tk_channel_config_snapshot_json := VDict [];
     tk_transition_history_json := []; tk_created_at := 0; tk_updated_at := 0 |}.

Example review_goes_stale :
  valid_pre_upload_evidence reviewed_task (Some (reviewed_plan 2)) = Ok true
  /\ valid_pre_upload_evidence reviewed_task (Some (reviewed_plan 3)) = Ok false
  /\ valid_promotion_evidence reviewed_task (Some (reviewed_plan 2)) (uuid_str 8) "unlisted" true = Ok true
  /\ valid_promotion_evidence reviewed_task (Some (reviewed_plan 2)) (uuid_str 8) "public" true = Ok false.
Proof. vm_compute. done. Qed.

Lemma pre_upload_evidence_exact_witness :
  valid_pre_upload_evidence
    (reviewed_task <| tk_human_review_evidence_json := VDict [("pre_upload", VDict (pre_upload_of (reviewed_plan 2)))] |>)
    (Some (reviewed_plan 2)) = Ok true.
Proof.
  apply (pre_upload_evidence_exact (reviewed_plan 2) _ _ [] (pre_upload_of (reviewed_plan 2)) " ann " None);
    [vm_compute; reflexivity..|]. split; [vm_compute; reflexivity|]. split; [reflexivity|]. split; reflexivity.
Defined.

Lemma promotion_evidence_exact_witness :
  valid_promotion_evidence reviewed_task (Some (reviewed_plan 2)) (uuid_str 8) "unlisted" true = Ok true.
Proof.
  apply (promotion_evidence_exact reviewed_task (reviewed_plan 2) (reviewed_plan 2) (Some (reviewed_plan 2)) []
    (pre_upload_of (reviewed_plan 2)) (promotion_of (reviewed_plan 2)) " ann " "ann" None None DAY_US (uuid_str 7)
    (uuid_str 8) (uuid_str 8) "unlisted" "unlisted" true);
    [vm_compute; reflexivity..|]. split_and!; [reflexivity..|]. intros _. split; [vm_compute; reflexivity|].
  exists (reviewed_plan 2). by split.
Defined.
