(* ===== verification/AgentLogic.v ===== *)
(** * Reasoning about sessions

    [wp m Q E s]: a run of [m] from [s] that returns ends in [Q], one that raises ends
    in [E].  [quiet] programs only add queue items and events: they leave the other
    tables as the session sees them and commit nothing else. *)

From stdpp Require Import base tactics list strings.
From Stdlib Require Import ZArith Lia.
From S2P Require Import Prelude PyStr PyValue PyTime Pipeline JobModel Outbox ChannelQueue MaterialUsage AgentModel.

Open Scope string_scope.
Open Scope list_scope.

Definition wp {A} (m : M A) (Q : A -> Session -> Prop) (E : Session -> Prop) (s : Session) : Prop :=
  match m s with (Ok a, s') => Q a s' | (Raise _, s') => E s' end.

Section Wp.
Context {A B : Type}.
Implicit Types (E : Session -> Prop) (s : Session).

Lemma wp_bind (m : M A) (k : A -> M B) Q E s : wp m (fun a => wp (k a) Q E) E s -> wp (m ≫= k) Q E s.
Proof. unfold wp, mbind, M_bind. destruct (m s) as [[a|e] s']; auto. Qed.

Lemma wp_mono (m : M A) (Q Q' : A -> Session -> Prop) E E' s :
  wp m Q E s -> (forall a s', Q a s' -> Q' a s') -> (forall s', E s' -> E' s') -> wp m Q' E' s.
Proof. unfold wp. destruct (m s) as [[a|e] s']; auto. Qed.

Lemma wp_and (m : M A) (Q Q' : A -> Session -> Prop) E E' s :
  wp m Q E s -> wp m Q' E' s -> wp m (fun a s' => Q a s' /\ Q' a s') (fun s' => E s' /\ E' s') s.
Proof. unfold wp. destruct (m s) as [[a|e] s']; auto. Qed.

Lemma wp_ret (a : A) (Q : A -> Session -> Prop) E s : Q a s -> wp (mret a) Q E s.
Proof. done. Qed.
Lemma wp_raise e (Q : A -> Session -> Prop) E s : E s -> wp (raise e) Q E s.
Proof. done. Qed.
Lemma wp_gets (f : AgentDb -> A) (Q : A -> Session -> Prop) E s : Q (f (se_db s)) s -> wp (gets f) Q E s.
Proof. done. Qed.
Lemma wp_lift (r : Res A) (Q : A -> Session -> Prop) E s : (forall a, r = Ok a -> Q a s) -> E s -> wp (lift r) Q E s.
Proof. unfold wp, lift. destruct r; auto. Qed.
Lemma wp_call c (answer : list client_call -> Res A) (Q : A -> Session -> Prop) E s :
  let s' := s <| se_calls := se_calls s ++ [c] |> in (forall a, Q a s') -> E s' -> wp (call c answer) Q E s.
Proof. unfold wp, call. destruct (answer _); auto. Qed.

(** From a run to its result. *)
Lemma wp_Ok (m : M A) (Q : A -> Session -> Prop) E s a s' : wp m Q E s -> m s = (Ok a, s') -> Q a s'.
Proof. unfold wp. intros H Hm. by rewrite Hm in H. Qed.
Lemma wp_run (m : M A) (Q : A -> Session -> Prop) E s : wp m Q E s -> forall r s', m s = (r, s') ->
  match r with Ok a => Q a s' | Raise _ => E s' end.
Proof. unfold wp. intros H r s' Hm. rewrite Hm in H. by destruct r. Qed.
End Wp.

Lemma wp_modify f (Q : unit -> Session -> Prop) E s : Q tt (s <| se_db := f (se_db s) |>) -> wp (modify f) Q E s.
Proof. done. Qed.
Lemma wp_commit (Q : unit -> Session -> Prop) E s : Q tt (s <| se_committed := se_db s |>) -> wp commit Q E s.
Proof. done. Qed.
Lemma wp_when b m (Q : unit -> Session -> Prop) E s : (b = true -> wp m Q E s) -> (b = false -> Q tt s) -> wp (when b m) Q E s.
Proof. unfold when. intros H1 H2. destruct b; [by apply H1|by apply wp_ret, H2]. Qed.
Lemma wp_attempt {A} (m : M A) (Q : Res A -> Session -> Prop) E s :
  wp m (fun a => Q (Ok a)) (fun s' => forall e, Q (Raise e) s') s -> wp (attempt m) Q E s.
Proof. unfold wp, attempt. destruct (m s) as [[a|e] s']; auto. Qed.
Lemma wp_fresh `{!AgentClients} (Q : uuid -> Session -> Prop) E s :
  Q (new_uuid (se_fresh s)) (s <| se_fresh ::= S |>) -> wp fresh Q E s.
Proof. done. Qed.

(** Loops: an invariant of the accumulator and the session. *)
Lemma wp_forM {S A} (f : S -> A -> M S) (I : list A -> S -> Session -> Prop) E (l : list A) :
  forall done acc s,
  (forall done a acc s, a ∈ l -> I done acc s -> wp (f acc a) (I (done ++ [a])) E s) ->
  I done acc s -> wp (forM f acc l) (I (done ++ l)) E s.
Proof.
  induction l as [|a l IH]; intros d acc s Hf Hi; simpl.
  - apply wp_ret. by rewrite app_nil_r.
  - apply wp_bind. eapply wp_mono; [apply (Hf d a); [by left|done]| |done].
    intros acc' s' Hi'. replace (d ++ a :: l) with ((d ++ [a]) ++ l) by (by rewrite <- app_assoc).
    apply IH; [|done]. intros d' b acc'' s'' Hb. apply Hf. by right.
Qed.

(** One step of symbolic execution. *)
Ltac wp_step :=
  lazymatch goal with
  | |- wp (_ ≫= _) _ _ _ => apply wp_bind
  | |- wp (mret _) _ _ _ => apply wp_ret
  | |- wp (raise _) _ _ _ => apply wp_raise
  | |- wp (gets _) _ _ _ => apply wp_gets
  | |- wp (modify _) _ _ _ => apply wp_modify
  | |- wp commit _ _ _ => apply wp_commit
  | |- wp fresh _ _ _ => apply wp_fresh
  | |- wp (when _ _) _ _ _ => apply wp_when
  | |- wp (attempt _) _ _ _ => apply wp_attempt
  | |- wp (let _ := _ in _) _ _ _ => cbv zeta
  end.

(** ** Quiet programs *)

(** Databases that differ in the queue and the outbox only. *)
Definition same_core (db db' : AgentDb) : Prop := exists q o, db' = db <| a_queue := q |> <| a_outbox := o |>.

Lemma same_core_refl db : same_core db db.
Proof. exists (a_queue db), (a_outbox db). by destruct db. Qed.
Lemma same_core_trans db1 db2 db3 : same_core db1 db2 -> same_core db2 db3 -> same_core db1 db3.
Proof. intros (q & o & ->) (q' & o' & ->). by exists q', o'. Qed.
Lemma same_core_queue db q : same_core db (db <| a_queue := q |>).
Proof. exists q, (a_outbox db). by destruct db. Qed.
Lemma same_core_outbox db o : same_core db (db <| a_outbox := o |>).
Proof. exists (a_queue db), o. by destruct db. Qed.

Record quiet_step (s s' : Session) : Prop := {
  quiet_db : same_core (se_db s) (se_db s');
  quiet_committed : se_committed s' = se_committed s \/ same_core (se_db s) (se_committed s');
  quiet_fresh : (se_fresh s <= se_fresh s')%nat }.

Lemma quiet_refl s : quiet_step s s.
Proof. split; [apply same_core_refl|by left|lia]. Qed.
Lemma quiet_trans s1 s2 s3 : quiet_step s1 s2 -> quiet_step s2 s3 -> quiet_step s1 s3.
Proof.
  intros [H1 H2 H3] [H4 H5 H6]. split; [by eapply same_core_trans| |lia].
  destruct H5 as [->|H5]; [done|]. right. by eapply same_core_trans.
Qed.

#[export] Instance quiet_preorder : PreOrder quiet_step.
Proof. split; [intros s; apply quiet_refl|intros s1 s2 s3; apply quiet_trans]. Qed.

(** ** Programs that respect a relation on sessions *)

Definition steps (R : Session -> Session -> Prop) {A} (m : M A) : Prop := forall s, R s (m s).2.

Lemma steps_wp R {A} (m : M A) s : steps R m -> wp m (fun _ s' => R s s') (fun s' => R s s') s.
Proof. intros H. specialize (H s). unfold wp. by destruct (m s) as [[a|e] s']. Qed.

Section Steps.
Context (R : Session -> Session -> Prop) `{!PreOrder R} {A B : Type}.

Lemma steps_bind (m : M A) (k : A -> M B) : steps R m -> (forall a, steps R (k a)) -> steps R (m ≫= k).
Proof.
  intros Hm Hk s. specialize (Hm s). unfold mbind, M_bind. destruct (m s) as [[a|e] s'] eqn:Hs; simpl in *; [|done].
  etrans; [done|apply Hk].
Qed.
Lemma steps_ret (a : A) : steps R (mret a).
Proof. intros s. reflexivity. Qed.
Lemma steps_raise e : steps R (raise (A:=A) e).
Proof. intros s. reflexivity. Qed.
Lemma steps_lift (r : Res A) : steps R (lift r).
Proof. intros s. reflexivity. Qed.
Lemma steps_gets (f : AgentDb -> A) : steps R (gets f).
Proof. intros s. reflexivity. Qed.
Lemma steps_forM {S} (f : S -> A -> M S) (l : list A) acc : (forall acc a, steps R (f acc a)) -> steps R (forM f acc l).
Proof.
  intros Hf. revert acc. induction l as [|a l IH]; intros acc s; simpl; [reflexivity|].
  specialize (Hf acc a s). unfold mbind, M_bind. destruct (f acc a s) as [[b|e] s']; simpl in *; [|done].
  etrans; [done|apply IH].
Qed.
Lemma steps_health : steps R health.
Proof. intros s. reflexivity. Qed.
Lemma steps_when b m : steps R m -> steps R (when b m).
Proof. intros Hm. unfold when. destruct b; [done|intros s; reflexivity]. Qed.
Lemma steps_attempt (m : M A) : steps R m -> steps R (attempt m).
Proof. intros Hm s. specialize (Hm s). unfold attempt. by destruct (m s). Qed.
End Steps.

Create HintDb steps.
#[export] Hint Extern 1 (steps _ (mret _)) => (apply steps_ret; apply _) : steps.
#[export] Hint Extern 1 (steps _ (raise _)) => (apply steps_raise; apply _) : steps.
#[export] Hint Extern 1 (steps _ (lift _)) => (apply steps_lift; apply _) : steps.
#[export] Hint Extern 1 (steps _ (gets _)) => (apply steps_gets; apply _) : steps.
#[export] Hint Extern 1 (steps _ health) => (apply steps_health; apply _) : steps.
#[export] Hint Extern 2 (steps _ (forM _ _ _)) => (apply steps_forM; [apply _|intros ? ?]) : steps.
#[export] Hint Extern 2 (steps _ (when _ _)) => (apply steps_when; [apply _|]) : steps.
#[export] Hint Extern 2 (steps _ (attempt _)) => (apply steps_attempt) : steps.
#[export] Hint Extern 2 (steps _ (_ ≫= _)) => (apply steps_bind; [apply _| |intros ?]) : steps.
#[export] Hint Extern 3 (steps _ (if ?b then _ else _)) => (destruct b) : steps.
#[export] Hint Extern 4 (steps _ (match ?x with _ => _ end)) => (destruct x) : steps.

Abbreviation quiet := (steps quiet_step).

Ltac quiet_leaf :=
  intros s; split; [first [apply same_core_refl | apply same_core_queue | apply same_core_outbox]
         | first [by left | right; apply same_core_refl]
         | first [apply Nat.le_refl | apply Nat.le_succ_diag_r]].

Lemma quiet_call {A} c (answer : list client_call -> Res A) : quiet (call c answer).
Proof. quiet_leaf. Qed.
Lemma quiet_commit : quiet commit.
Proof. quiet_leaf. Qed.
Lemma quiet_put_queue q : quiet (modify (fun db => db <| a_queue := q |>)).
Proof. quiet_leaf. Qed.
Lemma quiet_put_outbox o : quiet (modify (fun db => db <| a_outbox := o |>)).
Proof. quiet_leaf. Qed.
Lemma quiet_set_health f : quiet (set_health f).
Proof. quiet_leaf. Qed.
Lemma quiet_fresh_id `{!AgentClients} : quiet fresh.
Proof. quiet_leaf. Qed.
#[export] Hint Resolve quiet_call quiet_commit quiet_put_queue quiet_put_outbox quiet_set_health quiet_fresh_id : steps.

Section QuietServices.
Context {AC : AgentClients} (now : datetime).

Lemma quiet_enqueue r b : quiet (queue_enqueue now r b).
Proof. unfold queue_enqueue. auto 10 with steps. Qed.
Lemma quiet_emit actor action platform metadata : quiet (_emit_actor_action_event now actor action platform metadata).
Proof. unfold _emit_actor_action_event. auto 10 with steps. Qed.
Hint Resolve quiet_enqueue : steps.
Lemma quiet_alert t r sev msg d c : quiet (_enqueue_alert now t r sev msg d c).
Proof. unfold _enqueue_alert. auto with steps. Qed.
Lemma quiet_outage_alert d r : quiet (_maybe_enqueue_pds_outage_alert now d r).
Proof. unfold _maybe_enqueue_pds_outage_alert. auto 20 with steps. Qed.
Hint Resolve quiet_outage_alert : steps.
Lemma quiet_decide r : quiet (_decide_pds now r).
Proof. unfold _decide_pds. auto 10 with steps. Qed.
End QuietServices.
#[export] Hint Resolve quiet_enqueue quiet_emit quiet_alert quiet_decide : steps.

(** ** Silent programs *)

(** Nothing changes but the supply of identifiers. *)
Definition silent_step (s s' : Session) : Prop :=
  se_db s' = se_db s /\ se_committed s' = se_committed s /\ se_calls s' = se_calls s.

#[export] Instance silent_preorder : PreOrder silent_step.
Proof. split; [by intros s|]. intros s1 s2 s3 (? & ? & ?) (? & ? & ?). unfold silent_step. split_and!; congruence. Qed.

Abbreviation silent := (steps silent_step).

Lemma silent_fresh_id `{!AgentClients} : silent fresh.
Proof. by intros s. Qed.
#[export] Hint Resolve silent_fresh_id : steps.
