(* ===== verification/ChannelTick.v ===== *)
(** * The tick of a channel ([channel_agent/service.py], [candidate_scoring.py],
    [lane_prompts.py])

    A tick turns manual seeds and enabled lanes into candidates, evaluates the guards
    one candidate after the other, counting what it has accepted so far, and creates
    one production task with its first queue item per accepted candidate.  Everything
    it decides goes into an audit row. *)

From stdpp Require Import base tactics list strings sorting.
From Stdlib Require Import ZArith Lia Ascii SpecFloat.
From S2P Require Import Prelude PyStr PyValue PyTime PyUuid Pipeline JobModel Outbox ChannelQueue MaterialUsage AgentModel.

Open Scope string_scope.
Open Scope list_scope.

(** ** Candidates *)

(** A rejection decided while candidates are built: the guard, the reason and the
    identifier of the lane or account it is about. *)
Record EarlyRejection := { er_guard : string; er_reason : string; er_id : string }.

Record Candidate := {
  ca_candidate_id : string;
  ca_source : string;
  ca_seed : option ManualSeed;
  ca_lane : option TopicLane;
  ca_lane_format : option LaneFormatMatrix;
  ca_account : option PublishingAccount;
  ca_account_rejection : option EarlyRejection;
  ca_pre_rejection : option EarlyRejection;
  ca_prompt : string;
  ca_title_seed : string;
  ca_source_platforms_json : list string;
  ca_material_library_ids_json : list string;
  ca_constraints_json : config;
  ca_material_usage_guard : option UsageGuardResult;
  ca_pds_decision : option PDSDecision }.

Record Rejection := {
  rj_candidate_id : string;
  rj_lane_id : string;
  rj_format_id : string;
  rj_account_id : string;
  rj_guard : string;
  rj_reason : string }.

Definition rejection_json (r : Rejection) : config :=
  [("candidate_id", VStr (rj_candidate_id r)); ("lane_id", VStr (rj_lane_id r)); ("format_id", VStr (rj_format_id r));
   ("account_id", VStr (rj_account_id r)); ("guard", VStr (rj_guard r)); ("reason", VStr (rj_reason r))].

Definition or_text (a b : string) : string := if is_empty a then b else a.

Definition _candidate_rejection (c : Candidate) (guard reason : string) : Rejection :=
  {| rj_candidate_id := ca_candidate_id c;
     rj_lane_id := or_text (match ca_lane c with Some l => la_id l | None => "" end)
                     (match ca_pre_rejection c with Some r => er_id r | None => "" end);
     rj_format_id := match ca_lane_format c with Some f => lf_id f | None => "" end;
     rj_account_id := or_text (match ca_account c with Some a => ac_id a | None => "" end)
                        (match ca_account_rejection c with Some r => er_id r | None => "" end);
     rj_guard := guard; rj_reason := reason |}.

Definition id_or (o : option uuid) (dflt : string) : string := match o with Some u => u | None => dflt end.

Definition _candidate_id (source : string) (lane_id format_id : option uuid) (bucket : string) (seed_id : option uuid) : string :=
  match seed_id with
  | Some seed =>
      if (source =? "manual_seed")%string
      then source +:+ ":" +:+ seed +:+ ":lane:" +:+ id_or lane_id "unassigned" +:+ ":format:" +:+ id_or format_id "none"
           +:+ ":" +:+ bucket
      else source +:+ ":lane:" +:+ id_or lane_id "unassigned" +:+ ":format:" +:+ id_or format_id "none" +:+ ":" +:+ bucket
  | None => source +:+ ":lane:" +:+ id_or lane_id "unassigned" +:+ ":format:" +:+ id_or format_id "none" +:+ ":" +:+ bucket
  end.

(** [lane_prompts.py]. *)
Definition newline : string := String (ascii_of_N 10) "".
Definition quoted (s : string) : string := String dquote (s +:+ String dquote "").

Definition build_lane_prompt (lane_name lane_description : string) (keywords : list string) (format_key : string)
    (duration_sec : Z) (aspect_ratio : string) : string :=
  let keyword_text := or_text (join ", " (List.filter (fun k => negb (is_empty k)) keywords)) lane_name in
  strip ("Create a " +:+ format_key +:+ " video for the " +:+ quoted lane_name +:+ " topic." +:+ newline
    +:+ "Theme: " +:+ or_text lane_description lane_name +:+ newline
    +:+ "Keywords: " +:+ keyword_text +:+ newline
    +:+ "Target duration: " +:+ str_of_Z duration_sec +:+ "s, aspect ratio " +:+ aspect_ratio +:+ "." +:+ newline).

(** ** Scores ([candidate_scoring.py]) *)

(** [round(f, 4)]: the exact value to four decimals, halves to even. *)
Definition round_half_even (num den : Z) : Z :=
  let q := (num / den)%Z in
  let r := (num mod den)%Z in
  if (2 * r <? den)%Z then q else if (den <? 2 * r)%Z then (q + 1)%Z else if Z.even q then q else (q + 1)%Z.

Definition round4 (f : pyfloat) : pyfloat :=
  match f with
  | S754_finite s m e =>
      let num := if (0 <=? e)%Z then (Zpos m * 2 ^ e)%Z else Zpos m in
      let den := if (0 <=? e)%Z then 1%Z else (2 ^ (- e))%Z in
      float_of_dec s (round_half_even (num * 10000) den) (-4)
  | _ => f
  end.

Definition zero_to_one (f : pyfloat) : pyfloat :=
  if fltb f (float_of_Z 0) then float_of_Z 0 else if fltb (float_of_Z 1) f then float_of_Z 1 else f.

Definition dec (m e : Z) : pyfloat := float_of_dec false m e.

Section Tick.
Context {AC : AgentClients} (now : datetime).

Definition score_candidate (c : Candidate) : Res config :=
  let lane_weight := match ca_lane c with Some l => zero_to_one (la_weight l) | None => float_of_Z 1 end in
  refs ← extract_material_references sha256 [] []
           [("material_refs", py_or (py_or (dict_get (ca_constraints_json c) "material_refs")
                                      (dict_get (ca_constraints_json c) "material_references")) (VList []))];
  let repetition_risk :=
    match ca_material_usage_guard c with
    | Some g => if ug_repetition_rejected g then float_of_Z 1 else float_of_Z 0
    | None => float_of_Z 0
    end in
  let verdict := match ca_pds_decision c with Some d => pd_verdict d | None => "" end in
  let compliance_risk :=
    if (verdict =? "flag")%string then dec 5 (-1) else if (verdict =? "block")%string then float_of_Z 1 else float_of_Z 0 in
  let has_material := match refs, ca_material_library_ids_json c with [], [] => false | _, _ => true end in
  let material_fit := if has_material then float_of_Z 1 else dec 6 (-1) in
  let freshness := fsub (float_of_Z 1) repetition_risk in
  let account_fit := if ca_account c then float_of_Z 1 else float_of_Z 0 in
  let timing := dec 8 (-1) in
  let novelty := fsub (float_of_Z 1) repetition_risk in
  let total :=
    fsub (fsub (fadd (fadd (fadd (fadd (fadd (fmul (dec 25 (-2)) lane_weight) (fmul (dec 20 (-2)) material_fit))
      (fmul (dec 15 (-2)) freshness)) (fmul (dec 15 (-2)) account_fit)) (fmul (dec 10 (-2)) timing))
      (fmul (dec 10 (-2)) novelty)) (fmul (dec 20 (-2)) repetition_risk)) (fmul (dec 30 (-2)) compliance_risk) in
  Ok [("lane_weight", VFloat (round4 lane_weight)); ("material_fit", VFloat (round4 material_fit));
      ("freshness", VFloat (round4 freshness)); ("account_fit", VFloat (round4 account_fit));
      ("timing", VFloat (round4 timing)); ("novelty", VFloat (round4 novelty));
      ("repetition_risk", VFloat (round4 repetition_risk)); ("compliance_risk", VFloat (round4 compliance_risk));
      ("total_score", VFloat (round4 total))].

(** ** Lanes, accounts, seeds *)

(** [order_by(weight.desc(), created_at.asc())]. *)
Definition weight_le {A} (weight : A -> pyfloat) (created : A -> datetime) (a b : A) : Prop :=
  fltb (weight b) (weight a) = true
  \/ (fltb (weight a) (weight b) = false /\ fltb (weight b) (weight a) = false /\ (created a <= created b)%Z).
#[export] Instance weight_le_dec {A} (weight : A -> pyfloat) (created : A -> datetime) : RelDecision (weight_le weight created).
Proof. intros a b. unfold weight_le. apply _. Defined.

Definition created_le {A} (created : A -> datetime) (a b : A) : Prop := (created a <= created b)%Z.
#[local] Instance created_le_dec {A} (created : A -> datetime) : RelDecision (created_le created).
Proof. intros a b. unfold created_le. apply _. Defined.

Definition newest_le {A} (time : A -> datetime) (a b : A) : Prop := (time b <= time a)%Z.
#[export] Instance newest_le_dec {A} (time : A -> datetime) : RelDecision (newest_le time).
Proof. intros a b. unfold newest_le. apply _. Defined.

Definition unpaused (paused_until : option datetime) : bool :=
  match paused_until with None => true | Some t => (t <=? now)%Z end.

Definition tick_lanes (db : AgentDb) (channel : uuid) : list TopicLane :=
  merge_sort (weight_le la_weight la_created_at)
    (List.filter (fun l => (la_channel_profile_id l =? channel)%string && la_enabled l && unpaused (la_paused_until l))
       (a_lanes db)).

Definition tick_accounts (db : AgentDb) (channel : uuid) : list PublishingAccount :=
  merge_sort (created_le ac_created_at)
    (List.filter (fun a => (ac_channel_profile_id a =? channel)%string && ac_enabled a && unpaused (ac_paused_until a))
       (a_accounts db)).

Definition tick_seeds (db : AgentDb) (channel : uuid) : list ManualSeed :=
  merge_sort (created_le ms_created_at)
    (List.filter (fun s => (ms_channel_profile_id s =? channel)%string && (ms_status s =? "active")%string) (a_seeds db)).

Definition _lane_formats_by_lane (db : AgentDb) (lanes : list TopicLane) : list (string * list LaneFormatMatrix) :=
  let formats := merge_sort (weight_le lf_weight lf_created_at)
                   (List.filter (fun f => bool_decide (lf_topic_lane_id f ∈ map la_id lanes) && lf_enabled f) (a_formats db)) in
  dict_of (map (fun l => (la_id l, List.filter (fun f => (lf_topic_lane_id f =? la_id l)%string) formats)) lanes).

Definition _active_task_count_for_account (db : AgentDb) (account_id : uuid) : Z :=
  Z.of_nat (length (List.filter (fun t => (tk_target_account_id t =? account_id)%string
                                          && bool_decide (tk_state t ∈ ACTIVE_TASK_STATES)) (a_tasks db))).

Definition _account_available (a : PublishingAccount) : bool := ac_enabled a && unpaused (ac_paused_until a).

(** [prefer_unblocked] is true at every call. *)
Definition _select_candidate_account_for_tick (db : AgentDb) (accounts : list PublishingAccount) (claimed : list string)
    : option PublishingAccount :=
  let available := List.filter _account_available accounts in
  let unclaimed := List.filter (fun a => bool_decide (ac_id a ∉ claimed)) available in
  let candidate_accounts := match unclaimed with [] => available | _ => unclaimed end in
  match find (fun a => (_active_task_count_for_account db (ac_id a) <=? 0)%Z) candidate_accounts with
  | Some a => Some a
  | None => head candidate_accounts
  end.

Definition _resolve_candidate_account (db : AgentDb) (seed : ManualSeed) (accounts : list PublishingAccount)
    (claimed : list string) : option PublishingAccount * option EarlyRejection :=
  match ms_target_account_id seed with
  | None => (_select_candidate_account_for_tick db accounts claimed, None)
  | Some target =>
      match get_row ac_id target (a_accounts db) with
      | None =>
          (None, Some {| er_guard := "account_unavailable";
                         er_reason := "Target publishing account " +:+ target +:+ " was not found."; er_id := target |})
      | Some account =>
          if negb (ac_channel_profile_id account =? ms_channel_profile_id seed)%string then
            (None, Some {| er_guard := "account_unavailable";
                           er_reason := "Target publishing account " +:+ ac_id account +:+ " does not belong to channel "
                                        +:+ ms_channel_profile_id seed +:+ "."; er_id := ac_id account |})
          else if negb (_account_available account) then
            (None, Some {| er_guard := "account_unavailable";
                           er_reason := "Target publishing account " +:+ ac_id account +:+ " is disabled or paused.";
                           er_id := ac_id account |})
          else (Some account, None)
      end
  end.

(** One turn of the loop over the seeds: the candidate and the accounts claimed. *)
Definition seed_candidate (db : AgentDb) (lanes : list TopicLane) (accounts : list PublishingAccount)
    (formats : list (string * list LaneFormatMatrix)) (bucket : string) (acc : list Candidate * list string)
    (seed : ManualSeed) : list Candidate * list string :=
  let '(candidates, claimed) := acc in
  let lane := match ms_topic_lane_id seed with Some l => get_row la_id l lanes | None => head lanes end in
  let pre_rejection :=
    match ms_topic_lane_id seed, lane with
    | Some l, None =>
        Some {| er_guard := "lane_unavailable";
                er_reason := "Target topic lane " +:+ l +:+ " is disabled, paused, or unavailable."; er_id := l |}
    | _, _ => None
    end in
  let lane_format := match lane with Some l => head (dget_or formats (la_id l) []) | None => None end in
  let '(account, account_rejection) := _resolve_candidate_account db seed accounts claimed in
  let claimed' := match account, pre_rejection with Some a, None => claimed ++ [ac_id a] | _, _ => claimed end in
  let own_platforms := _string_list (ms_source_platforms_json seed) in
  let source_platforms :=
    match own_platforms with
    | [] => match lane_format with Some f => _string_list (lf_source_platforms_json f) | None => [] end
    | _ => own_platforms
    end in
  (candidates ++
     [{| ca_candidate_id :=
           _candidate_id "manual_seed" (match lane with Some l => Some (la_id l) | None => ms_topic_lane_id seed end)
             (lf_id <$> lane_format) bucket (Some (ms_id seed));
         ca_source := "manual_seed"; ca_seed := Some seed; ca_lane := lane; ca_lane_format := lane_format;
         ca_account := account; ca_account_rejection := account_rejection; ca_pre_rejection := pre_rejection;
         ca_prompt := ms_prompt seed; ca_title_seed := ms_title_seed seed; ca_source_platforms_json := source_platforms;
         ca_material_library_ids_json := _string_list (ms_material_library_ids_json seed);
         ca_constraints_json := _dict_value (ms_constraints_json seed);
         ca_material_usage_guard := None; ca_pds_decision := None |}], claimed').

Definition _build_tick_candidates (db : AgentDb) (lanes : list TopicLane) (accounts : list PublishingAccount)
    (seeds : list ManualSeed) (formats : list (string * list LaneFormatMatrix)) (bucket : string) : list Candidate :=
  (fold_left (seed_candidate db lanes accounts formats bucket) seeds ([], [])).1.

Definition _lane_source_platforms (channel : ChannelProfile) (f : LaneFormatMatrix) : list string :=
  match _string_list (lf_source_platforms_json f) with
  | [] =>
      match _string_list (dict_get (cp_risk_policy_json channel) "default_source_platforms") with
      | [] => ["youtube"]
      | l => l
      end
  | l => l
  end.

Definition positive_or (z dflt : Z) : Z := if (0 <? z)%Z then z else dflt.

Definition lane_candidate (channel : ChannelProfile) (bucket : string) (lane : TopicLane) (account : option PublishingAccount)
    (f : LaneFormatMatrix) : Candidate :=
  {| ca_candidate_id := _candidate_id "lane_seed" (Some (la_id lane)) (Some (lf_id f)) bucket None;
     ca_source := "lane_seed"; ca_seed := None; ca_lane := Some lane; ca_lane_format := Some f; ca_account := account;
     ca_account_rejection := None; ca_pre_rejection := None;
     ca_prompt := build_lane_prompt (la_name lane) (la_description lane) (_string_list (la_keywords_json lane))
                    (lf_format_key f) (positive_or (lf_target_duration_sec f) 30)
                    (or_text (cp_default_aspect_ratio channel) "9:16");
     ca_title_seed := la_name lane; ca_source_platforms_json := _lane_source_platforms channel f;
     ca_material_library_ids_json := [];
     ca_constraints_json := [("template_pool_json", strings (_string_list (lf_template_pool_json f)))];
     ca_material_usage_guard := None; ca_pds_decision := None |}.

Definition lane_turn (db : AgentDb) (channel : ChannelProfile) (accounts : list PublishingAccount)
    (formats : list (string * list LaneFormatMatrix)) (bucket : string) (lane_counts : list (string * Z))
    (suppressed : list string) (acc : list Candidate * list string) (lane : TopicLane) : list Candidate * list string :=
  if bool_decide (la_id lane ∈ suppressed) then acc
  else
    let lane_budget := Z.max (positive_or (la_max_posts_per_day lane) 1) 1 in
    let remaining := (lane_budget - dget_or lane_counts (la_id lane) 0)%Z in
    if (remaining <=? 0)%Z then acc
    else
      fold_left
        (fun '(candidates, claimed) f =>
           let account := _select_candidate_account_for_tick db accounts claimed in
           (candidates ++ [lane_candidate channel bucket lane account f],
            match account with Some a => claimed ++ [ac_id a] | None => claimed end))
        (take (Z.to_nat remaining) (dget_or formats (la_id lane) [])) acc.

Definition _build_lane_driven_candidates (db : AgentDb) (channel : ChannelProfile) (lanes : list TopicLane)
    (accounts : list PublishingAccount) (formats : list (string * list LaneFormatMatrix)) (bucket : string)
    (lane_counts : list (string * Z)) (claimed suppressed : list string) : list Candidate :=
  (fold_left (lane_turn db channel accounts formats bucket lane_counts suppressed) lanes ([], claimed)).1.

(** ** Guards *)

Definition contains (needle haystack : string) : bool :=
  match after_first needle haystack with Some _ => true | None => false end.

Definition _is_upload_failure_task (t : ProductionTask) : bool :=
  (tk_state t =? TASK_FAILED)%string
  && existsb (fun keyword => contains (lower keyword) (lower (default "" (tk_failure_reason t)))) UPLOAD_FAILURE_KEYWORDS.

Definition recent_tasks (db : AgentDb) (account : uuid) : list ProductionTask :=
  take 5 (merge_sort (newest_le tk_created_at)
    (List.filter (fun t => (tk_target_account_id t =? account)%string && bool_decide (tk_state t ∈ TERMINAL_TASK_STATES))
       (a_tasks db))).

Definition _enqueue_consecutive_upload_failure_alert (account : PublishingAccount) (failed : list ProductionTask)
    : M ChannelOpsQueueItem :=
  _enqueue_alert now ALERT_CONSECUTIVE_UPLOAD_FAILURE (ac_id account) "critical"
    ("Account " +:+ ac_id account +:+ " has repeated upload/publish failures; pause the account with "
     +:+ "POST /api/v1/channel-agent/accounts/" +:+ ac_id account +:+ "/pause, then inspect failed tasks at "
     +:+ "/api/v1/channel-agent/channels/" +:+ ac_channel_profile_id account +:+ "/tasks?account_id=" +:+ ac_id account
     +:+ "&state=failed.")
    [("account_id", VStr (ac_id account)); ("failed_task_ids", strings (map tk_id failed));
     ("failure_reasons", strings (map (fun t => default "" (tk_failure_reason t)) failed))]
    (Some (ac_channel_profile_id account)).

Definition _consecutive_upload_failure_guard (c : Candidate) (enqueue_alerts : bool) : M (option Rejection) :=
  match ca_account c with
  | None => mret None
  | Some account =>
      recent ← gets (fun db => recent_tasks db (ac_id account));
      match map tk_created_at recent with
      | [] => mret None
      | t :: ts =>
          if (foldr Z.min t ts <? now - DAY_US)%Z then mret None
          else
            let failed := List.filter _is_upload_failure_task recent in
            if (length failed <? 3)%nat then mret None
            else
              _ ← (if enqueue_alerts then (_ ← _enqueue_consecutive_upload_failure_alert account failed; mret tt) else mret tt);
              mret (Some (_candidate_rejection c "consecutive_upload_failure"
                ("Account " +:+ ac_id account +:+ " has " +:+ str_of_Z (Z.of_nat (length failed))
                 +:+ " upload-like failures in the recent task window.")))
      end
  end.

Definition _PUBLICATION_CADENCE_STATUSES : list string := ["public"; "scheduled"].

(** The inner join of publications and tasks, with the time a publication counts for. *)
Definition cadence_rows (db : AgentDb) (p : ProductionTask -> bool) : list (ProductionTask * datetime) :=
  concat (map (fun pub =>
    match _publication_effective_time pub with
    | Some at_ =>
        map (fun t => (t, at_))
          (List.filter (fun t => (tk_id t =? pu_production_task_id pub)%string && p t
                                 && bool_decide (pu_publish_status pub ∈ _PUBLICATION_CADENCE_STATUSES)) (a_tasks db))
    | None => []
    end) (a_publications db)).

Definition newest_rows (l : list (ProductionTask * datetime)) : list (ProductionTask * datetime) :=
  merge_sort (newest_le snd) l.

Definition _published_publications_for_lane (db : AgentDb) (lane : TopicLane) : list datetime :=
  map snd (newest_rows (cadence_rows db (fun t => bool_decide (tk_topic_lane_id t = Some (la_id lane))))).

Fixpoint leading (p : ProductionTask -> bool) (l : list (ProductionTask * datetime)) : Z :=
  match l with
  | [] => 0
  | (t, _) :: l' => if p t then (1 + leading p l')%Z else 0
  end.

Definition _current_lane_publication_streak (db : AgentDb) (lane : TopicLane) : Z :=
  leading (fun t => bool_decide (tk_topic_lane_id t = Some (la_id lane)))
    (newest_rows (cadence_rows db (fun t => (tk_channel_profile_id t =? la_channel_profile_id lane)%string))).

Definition recent_count (publications : list datetime) : Z :=
  Z.of_nat (length (List.filter (fun t => (now - DAY_US <=? t)%Z && (t <=? now)%Z) publications)).

Definition streak_guard (db : AgentDb) (c : Candidate) (lane : TopicLane) : option Rejection :=
  let max_streak := la_max_consecutive_streak lane in
  let streak := _current_lane_publication_streak db lane in
  if (0 <? max_streak)%Z && (max_streak <=? streak)%Z then
    Some (_candidate_rejection c "lane_cadence"
      ("Lane " +:+ la_id lane +:+ " has a publication streak of " +:+ str_of_Z streak +:+ "; max_consecutive_streak is "
       +:+ str_of_Z max_streak +:+ "."))
  else None.

Definition _lane_cadence_guard (db : AgentDb) (c : Candidate) (accepted_lane_count : Z) : option Rejection :=
  match ca_lane c with
  | None => None
  | Some lane =>
      let publications := _published_publications_for_lane db lane in
      let max_posts := la_max_posts_per_day lane in
      let effective := (recent_count publications + accepted_lane_count)%Z in
      if (0 <? max_posts)%Z && (max_posts <=? effective)%Z then
        Some (_candidate_rejection c "lane_cadence"
          ("Lane " +:+ la_id lane +:+ " has " +:+ str_of_Z effective +:+ " scheduled/public publications or "
           +:+ "same-tick reservations in the past 24 hours; max_posts_per_day is " +:+ str_of_Z max_posts +:+ "."))
      else
        let cooldown := la_cooldown_after_post_minutes lane in
        match head publications with
        | Some latest =>
            if (0 <? cooldown)%Z && (now - latest <? cooldown * MINUTE_US)%Z then
              Some (_candidate_rejection c "lane_cadence"
                ("Lane " +:+ la_id lane +:+ " is inside the " +:+ str_of_Z cooldown +:+ " minute post cooldown after "
                 +:+ isoformat_utc latest +:+ "."))
            else streak_guard db c lane
        | None => streak_guard db c lane
        end
  end.

Definition material_mentions (constraints : config) : pyval :=
  py_or (py_or (dict_get constraints "material_refs") (dict_get constraints "material_references")) (VList []).

Definition _candidate_material_references (c : Candidate) : Res (list MaterialReference) :=
  extract_material_references sha256 [] []
    (("material_refs", material_mentions (ca_constraints_json c))
     :: match ca_seed c with
        | Some seed => [("seed_material_refs", material_mentions (_dict_value (ms_constraints_json seed)))]
        | None => []
        end).

(** The guard also notes its finding on the candidate. *)
Definition _material_usage_guard (c : Candidate) : M (option Rejection * Candidate) :=
  refs ← lift (_candidate_material_references c);
  match refs, ca_account c with
  | [], _ | _, None => mret (None, c)
  | _, Some account =>
      ledger ← gets a_ledger;
      let result := recent_usage_flags ledger (ac_channel_profile_id account) (la_id <$> ca_lane c) (Some (ac_id account))
                      refs now in
      if negb (blocked result) then mret (None, c)
      else
        let c' := c <| ca_material_usage_guard := Some result |> in
        if (ca_source c =? "manual_seed")%string then mret (None, c')
        else
          let guard := if ug_cross_account_rejected result then "cross_account_rejected" else "repetition_rejected" in
          mret (Some (_candidate_rejection c' guard ("Material usage guard rejected candidate: " +:+ guard)), c')
  end.

Definition _account_platform (a : PublishingAccount) : string := or_text (ac_platform a) "youtube".
Definition lane_text (c : Candidate) : string := match ca_lane c with Some l => la_id l | None => "" end.

Definition _pds_candidate_guard (c : Candidate) (emit_outbox : bool) : M (option Rejection * Candidate) :=
  match ca_account c with
  | None => mret (None, c)
  | Some account =>
      decision ← _decide_pds now
        {| pr_actor_id := ac_id account; pr_action_type := "candidate_accept"; pr_platform := _account_platform account;
           pr_content := [("title", VStr (or_text (ca_title_seed c) (ca_prompt c))); ("description", VStr (ca_prompt c))];
           pr_context := [("lane_id", VStr (lane_text c)); ("candidate_id", VStr (ca_candidate_id c));
                          ("channel_id", VStr (ac_channel_profile_id account))] |};
      let c' := c <| ca_pds_decision := Some decision |> in
      if negb (bool_decide (pd_verdict decision ∈ ["block"; "flag"])) then mret (None, c')
      else
        let is_block := (pd_verdict decision =? "block")%string in
        let marker := if is_block then "pds_blocked" else "pds_flagged_for_review" in
        _ ← (if emit_outbox then
               (metadata ← lift (_pds_decision_event_metadata decision);
                _emit_actor_action_event now (ac_id account) (if is_block then "candidate_blocked" else "candidate_flagged")
                  (_account_platform account)
                  (fold_left (fun d p => d.[p.1 <- p.2]) metadata
                     [("lane_id", VStr (lane_text c)); ("candidate_id", VStr (ca_candidate_id c)); ("guard", VStr marker)]))
             else mret tt);
        mret (Some (_candidate_rejection c' marker
                      ("PDS " +:+ pd_verdict decision +:+ " candidate: " +:+ pd_decision_id decision)), c')
  end.

Definition count_of (counts : list (string * Z)) (k : string) : Z := dget_or counts k 0%Z.

Definition _evaluate_candidate_guards (c : Candidate) (account_counts lane_counts : list (string * Z))
    (enqueue_alerts pds_enabled : bool) : M (option Rejection * Candidate) :=
  match ca_pre_rejection c with
  | Some r => mret (Some (_candidate_rejection c (er_guard r) (er_reason r)), c)
  | None =>
      match ca_account c with
      | None =>
          mret (Some (match ca_account_rejection c with
                      | Some r => _candidate_rejection c (er_guard r) (er_reason r)
                      | None => _candidate_rejection c "no_enabled_account"
                                  "No enabled publishing account is available for this candidate."
                      end), c)
      | Some account =>
          stored ← gets (fun db => _active_task_count_for_account db (ac_id account));
          let active_count := (stored + count_of account_counts (ac_id account))%Z in
          if (0 <? active_count)%Z then
            mret (Some (_candidate_rejection c "account_concurrency"
              ("Account " +:+ ac_id account +:+ " has " +:+ str_of_Z active_count +:+ " active "
               +:+ (if (active_count =? 1)%Z then "task" else "tasks") +:+ "; account concurrency is limited to 1.")), c)
          else
            upload_failure ← _consecutive_upload_failure_guard c enqueue_alerts;
            match upload_failure with
            | Some r => mret (Some r, c)
            | None =>
                let accepted_lane := match ca_lane c with Some l => count_of lane_counts (la_id l) | None => 0%Z end in
                cadence ← gets (fun db => _lane_cadence_guard db c accepted_lane);
                match cadence with
                | Some r => mret (Some r, c)
                | None =>
                    usage ← _material_usage_guard c;
                    match usage with
                    | (Some r, c') => mret (Some r, c')
                    | (None, c') => if pds_enabled then _pds_candidate_guard c' enqueue_alerts else mret (None, c')
                    end
                end
            end
      end
  end.

Record Evaluation := {
  ev_accepted : list Candidate;
  ev_rejected : list Rejection;
  ev_account_counts : list (string * Z);
  ev_lane_counts : list (string * Z) }.

Definition evaluate_turn (enqueue_alerts pds_enabled : bool) (e : Evaluation) (c : Candidate) : M Evaluation :=
  outcome ← _evaluate_candidate_guards c (ev_account_counts e) (ev_lane_counts e) enqueue_alerts pds_enabled;
  match outcome with
  | (Some r, _) => mret (e <| ev_rejected ::= fun l => l ++ [r] |>)
  | (None, c') =>
      match ca_account c' with
      | None => raise (AttributeError "'NoneType' object has no attribute 'id'")
      | Some account =>
          let bump counts k := counts.[k <- (count_of counts k + 1)%Z] in
          mret {| ev_accepted := ev_accepted e ++ [c']; ev_rejected := ev_rejected e;
                  ev_account_counts := bump (ev_account_counts e) (ac_id account);
                  ev_lane_counts := match ca_lane c' with
                                    | Some l => bump (ev_lane_counts e) (la_id l)
                                    | None => ev_lane_counts e
                                    end |}
      end
  end.

Definition _evaluate_tick_candidates (candidates : list Candidate) (enqueue_alerts pds_enabled : bool)
    (account_counts lane_counts : list (string * Z)) : M Evaluation :=
  forM (evaluate_turn enqueue_alerts pds_enabled)
    {| ev_accepted := []; ev_rejected := []; ev_account_counts := account_counts; ev_lane_counts := lane_counts |} candidates.

Definition _suppressed_lane_ids_from_manual_rejections (rejected : list Rejection) : list string :=
  map rj_lane_id
    (List.filter (fun r => bool_decide (rj_guard r ∈ ["account_unavailable"; "lane_unavailable"]) && negb (is_empty (rj_lane_id r)))
       rejected).

(** ** The audit *)

Definition _per_lane_counts (lanes : list TopicLane) (candidates : list Candidate) : list (string * Z) :=
  fold_left (fun counts c => let k := match ca_lane c with Some l => la_id l | None => "unassigned" end in
                             counts.[k <- (count_of counts k + 1)%Z])
    candidates (dict_of (map (fun l => (la_id l, 0%Z)) lanes)).

(** [int((decision_summary_json or {}).get("per_lane_eligible_count", {}).get(lane_id, 0))]. *)
Definition eligible_count (lane_id : string) (a : AgentTickAudit) : Res Z :=
  match dget_or (au_decision_summary_json a) "per_lane_eligible_count" (VDict []) with
  | VDict d => py_int (dget_or d lane_id (VInt 0))
  | _ => Raise (AttributeError "object has no attribute 'get'")
  end.

(** [all(... < 1 for audit in recent)], which stops at the first audit that is not low. *)
Fixpoint all_low (lane_id : string) (l : list AgentTickAudit) : Res bool :=
  match l with
  | [] => Ok true
  | a :: l' => n ← eligible_count lane_id a; if (n <? 1)%Z then all_low lane_id l' else Ok false
  end.

Definition recent_audits (db : AgentDb) (channel : uuid) : list AgentTickAudit :=
  take 2 (merge_sort (newest_le au_started_at)
    (List.filter (fun a => (au_channel_profile_id a =? channel)%string) (a_audits db))).

Definition low_supply_turn (channel : ChannelProfile) (enqueue_alerts : bool) (triggered : list config)
    (entry : string * Z) : M (list config) :=
  let '(lane_id, count) := entry in
  if (1 <=? count)%Z then mret triggered
  else
    recent ← gets (fun db => recent_audits db (cp_id channel));
    previous_low ← lift (all_low lane_id recent);
    if (2 <=? length recent)%nat && previous_low then
      _ ← (if enqueue_alerts then
             (_ ← _enqueue_alert now ALERT_MATERIAL_SUPPLY_LOW lane_id "warning"
                    "Lane material supply below candidate threshold for three ticks"
                    [("channel_id", VStr (cp_id channel)); ("eligible_count", VInt count)] (Some (cp_id channel));
              mret tt)
           else mret tt);
      mret (triggered ++ [[("guard", VStr "material_supply_low"); ("lane_id", VStr lane_id)]])
    else mret triggered.

Definition _maybe_alert_low_supply (channel : ChannelProfile) (per_lane : list (string * Z)) (enqueue_alerts : bool)
    : M (list config) :=
  forM (low_supply_turn channel enqueue_alerts) [] per_lane.

(** ** Tasks *)

Definition optional_text (o : option string) : pyval := match o with Some s => VStr s | None => VNone end.

Definition _snapshot (channel : ChannelProfile) (account : PublishingAccount) (lane_format : option LaneFormatMatrix)
    (lane : option TopicLane) (manual_seed : option ManualSeed) : config :=
  let lane_id := match lane, lane_format with
                 | Some l, _ => Some (la_id l) | None, Some f => Some (lf_topic_lane_id f) | None, None => None end in
  [("channel", VDict [("id", VStr (cp_id channel)); ("dry_run", VBool (cp_dry_run channel));
      ("default_aspect_ratio", VStr (cp_default_aspect_ratio channel));
      ("risk_policy_json", VDict (cp_risk_policy_json channel));
      ("cadence_policy_json", VDict (cp_cadence_policy_json channel));
      ("content_mix_policy_json", VDict (cp_content_mix_policy_json channel))]);
   ("account", VDict [("id", VStr (ac_id account)); ("default_privacy", VStr (ac_default_privacy account));
      ("external_asset_auto_publish", VBool (ac_external_asset_auto_publish account))]);
   ("lane", VDict [("id", optional_text lane_id);
      ("name", VStr (match lane with Some l => la_name l | None => "" end));
      ("description", VStr (match lane with Some l => la_description l | None => "" end));
      ("keywords_json", strings (match lane with Some l => _string_list (la_keywords_json l) | None => [] end))]);
   ("lane_format", VDict [("id", optional_text (lf_id <$> lane_format));
      ("format_key", VStr (match lane_format with Some f => lf_format_key f | None => "" end));
      ("default_publish_visibility",
         VStr (match lane_format with Some f => lf_default_publish_visibility f | None => "private" end));
      ("target_duration_sec", VInt (match lane_format with Some f => lf_target_duration_sec f | None => 30 end));
      ("template_pool_json",
         strings (match lane_format with Some f => _string_list (lf_template_pool_json f) | None => [] end));
      ("source_platforms_json",
         strings (match lane_format with Some f => _string_list (lf_source_platforms_json f) | None => [] end))])]
  ++ match manual_seed with
     | Some seed => [("manual_seed", VDict [("constraints_json", VDict (_dict_value (ms_constraints_json seed)))])]
     | None => []
     end.

Definition _effective_source_platforms (t : ProductionTask) : list string :=
  match _string_list (tk_source_platforms_json t) with
  | [] => _string_list (dict_get (_dict_value (dict_get (_dict_value (tk_channel_config_snapshot_json t)) "lane_format"))
                          "source_platforms_json")
  | l => l
  end.

Definition _uses_external_assets (t : ProductionTask) : bool :=
  tk_uses_external_assets t || match _effective_source_platforms t with [] => false | _ => true end.

Definition usage_guard_json (manual_override : bool) (g : UsageGuardResult) : config :=
  [("manual_override", VBool manual_override); ("repetition_rejected", VBool (ug_repetition_rejected g));
   ("cross_account_rejected", VBool (ug_cross_account_rejected g)); ("hits", VList (map VDict (ug_hits g)))].

Definition _task_from_candidate (task_id : uuid) (channel : ChannelProfile) (c : Candidate) (account : PublishingAccount)
    (created_at : datetime) : Res ProductionTask :=
  scores ← score_candidate c;
  let manual := (ca_source c =? "manual_seed")%string in
  let task :=
    {| tk_id := task_id; tk_channel_profile_id := cp_id channel; tk_topic_lane_id := la_id <$> ca_lane c;
       tk_lane_format_id := lf_id <$> ca_lane_format c; tk_target_account_id := ac_id account;
       tk_manual_seed_id := ms_id <$> ca_seed c; tk_source := ca_source c; tk_title_seed := ca_title_seed c;
       tk_prompt := ca_prompt c;
       tk_rationale_json := match ca_material_usage_guard c with
                            | Some g => [("material_usage_guard", VDict (usage_guard_json manual g))]
                            | None => []
                            end;
       tk_score_breakdown_json := scores; tk_portfolio_bucket := "explore";
       tk_source_platforms_json := strings (ca_source_platforms_json c);
       tk_material_library_ids_json := strings (ca_material_library_ids_json c); tk_uses_external_assets := false;
       tk_approval_mode := if manual then "human" else "agent"; tk_agent_approval_evidence_json := [];
       tk_human_review_evidence_json := VDict []; tk_autoflow_plan_id := None; tk_autoflow_run_id := None;
       tk_pipeline_id := None; tk_job_id := None; tk_state := TASK_SELECTED; tk_state_updated_at := now;
       tk_failure_reason := None; tk_failure_category := None; tk_blocked_by_guard := None;
       tk_channel_config_version_snapshot := cp_config_version channel;
       tk_channel_config_snapshot_json := VDict (_snapshot channel account (ca_lane_format c) (ca_lane c) (ca_seed c));
       tk_transition_history_json := [_transition "seeded" TASK_SELECTED "agent_tick" now];
       tk_created_at := created_at; tk_updated_at := created_at |} in
  Ok (task <| tk_uses_external_assets := _uses_external_assets task |>).

Definition _emit_candidate_accepted (c : Candidate) (account : PublishingAccount) (task : ProductionTask) : M unit :=
  extra ← (match ca_pds_decision c with Some d => lift (_pds_decision_event_metadata d) | None => mret [] end);
  _emit_actor_action_event now (ac_id account) "candidate_accepted" (_account_platform account)
    (fold_left (fun d p => d.[p.1 <- p.2]) extra
       [("lane_id", VStr (lane_text c)); ("candidate_id", VStr (ca_candidate_id c)); ("task_id", VStr (tk_id task));
        ("source", VStr (ca_source c))]).

(** One accepted candidate: its task, its seed, its queue item and its event. *)
Definition create_turn (channel : ChannelProfile) (plan_delay_seconds : Z) (selected : Z) (c : Candidate) : M Z :=
  match ca_account c with
  | None => raise (AttributeError "'NoneType' object has no attribute 'id'")
  | Some account =>
      task_id ← fresh;
      task ← lift (_task_from_candidate task_id channel c account (now + selected)%Z);
      clash ← gets (fun db => bool_decide (task_id ∈ map tk_id (a_tasks db)));
      if clash : bool then raise IntegrityError
      else
        _ ← modify (fun db => db <| a_tasks ::= fun l => l ++ [task] |>);
        _ ← modify (fun db => match ca_seed c with
                              | Some seed => db <| a_seeds ::= map (fun s => if (ms_id s =? ms_id seed)%string
                                                                             then s <| ms_status := "exhausted" |> else s) |>
                              | None => db
                              end);
        _ ← queue_enqueue now
              (request "plan_task" ("plan_task:" +:+ tk_id task) [("production_task_id", VStr (tk_id task))] 50
                 (Some (now + plan_delay_seconds * 1000000)%Z) (Some (cp_id channel)) None) false;
        _ ← _emit_candidate_accepted c account task;
        mret (selected + 1)%Z
  end.

Definition counts_json (counts : list (string * Z)) : pyval := VDict (map (fun p => (p.1, VInt p.2)) counts).

(** The branch of channels with an owned inventory is [channel_agent/owned_inventory.py]. *)
Class OwnedTick := owned_tick : ChannelProfile -> uuid -> option ChannelOpsQueueItem -> Z -> M AgentTickAudit.

Definition add_audit (a : AgentTickAudit) : M unit :=
  clash ← gets (fun db => existsb (fun b => (au_channel_profile_id b =? au_channel_profile_id a)%string
                                            && (au_tick_id b =? au_tick_id a)%string) (a_audits db));
  if clash : bool then raise IntegrityError else modify (fun db => db <| a_audits ::= fun l => l ++ [a] |>).

Definition tick_audit (audit_id : uuid) (channel : ChannelProfile) (candidates : list Candidate) (selected : Z)
    (rejected : list Rejection) (per_lane : list (string * Z)) (low : list config) : AgentTickAudit :=
  {| au_id := audit_id; au_channel_profile_id := cp_id channel;
     au_tick_id := "tick:" +:+ cp_id channel +:+ ":" +:+ utc_hour_bucket now; au_started_at := now;
     au_finished_at := Some now; au_dry_run := cp_dry_run channel;
     au_ideas_discovered := Z.of_nat (length candidates); au_candidates_scored := Z.of_nat (length candidates);
     au_tasks_selected := selected; au_tasks_rejected := Z.of_nat (length rejected);
     au_guards_triggered_json :=
       low ++ map (fun r => [("guard", VStr (rj_guard r)); ("candidate_id", VStr (rj_candidate_id r));
                             ("lane_id", VStr (rj_lane_id r)); ("account_id", VStr (rj_account_id r))]) rejected;
     au_decision_summary_json :=
       [("per_lane_eligible_count", counts_json per_lane);
        ("rejected_candidates", VList (map (fun r => VDict (rejection_json r)) rejected));
        ("low_supply_alerts", VList (map VDict low))] |}.

Definition side_effects_disabled (channel : ChannelProfile) : bool :=
  cp_dry_run channel || bool_decide (is_Some (cp_halted_at channel)).

(** The tick of a channel without an owned inventory. *)
Definition tick_channel (channel : ChannelProfile) (plan_delay_seconds : Z) : M AgentTickAudit :=
  let bucket := utc_hour_bucket now in
  lanes ← gets (fun db => tick_lanes db (cp_id channel));
  accounts ← gets (fun db => tick_accounts db (cp_id channel));
  seeds ← gets (fun db => tick_seeds db (cp_id channel));
  formats ← gets (fun db => _lane_formats_by_lane db lanes);
  manual ← gets (fun db => _build_tick_candidates db lanes accounts seeds formats bucket);
  let disabled := side_effects_disabled channel in
  first ← _evaluate_tick_candidates manual (negb disabled) (negb disabled) [] [];
  lane_driven ← gets (fun db =>
    _build_lane_driven_candidates db channel lanes accounts formats bucket (ev_lane_counts first)
      (dkeys (ev_account_counts first)) (_suppressed_lane_ids_from_manual_rejections (ev_rejected first)));
  second ← _evaluate_tick_candidates lane_driven (negb disabled) (negb disabled) (ev_account_counts first)
             (ev_lane_counts first);
  let candidates := manual ++ lane_driven in
  let accepted := ev_accepted first ++ ev_accepted second in
  let rejected := ev_rejected first ++ ev_rejected second in
  let per_lane := _per_lane_counts lanes candidates in
  low ← _maybe_alert_low_supply channel per_lane (negb disabled);
  audit_id ← fresh;
  let audit := tick_audit audit_id channel candidates (if disabled then 0 else Z.of_nat (length accepted)) rejected per_lane low in
  _ ← add_audit audit;
  if disabled then (_ ← commit; mret audit)
  else
    selected ← forM (create_turn channel plan_delay_seconds) 0%Z accepted;
    let audit' := audit <| au_tasks_selected := selected |> in
    _ ← modify (fun db => db <| a_audits ::= put_row au_id audit' |>);
    _ ← commit;
    mret audit'.

Definition tick `{!OwnedTick} (channel_id : pyval) (plan_delay_seconds : Z) (queue_item : option ChannelOpsQueueItem)
    : M AgentTickAudit :=
  if negb ((0 <=? plan_delay_seconds)%Z && (plan_delay_seconds <=? 3600)%Z)
  then raise (ValueError "plan_delay_seconds must be an integer from 0 through 3600")
  else
    id ← lift (_uuid channel_id);
    row ← gets (fun db => get_row cp_id id (a_channels db));
    match row with
    | None => raise (ValueError "Channel not found")
    | Some channel =>
        match cp_owned_seed_inventory_id channel with
        | Some inventory => owned_tick channel inventory queue_item plan_delay_seconds
        | None => tick_channel channel plan_delay_seconds
        end
    end.
End Tick.
