(* ===== verification/TickSafe.v ===== *)
(** * What a tick guarantees

    Evaluation only reads the tables of tasks, accounts, lanes and publications, so the
    counts of a tick are those of one database.  A tick creates tasks for idle accounts
    of its channel only, one per account, within the daily budget of each lane, each
    with its first queue item; a halted or dry-run channel gets an audit row and
    nothing else. *)

From stdpp Require Import base tactics list strings sorting sets.
From Stdlib Require Import ZArith Lia.
From S2P Require Import Prelude PyStr PyValue PyTime PyUuid Pipeline JobModel Outbox ChannelQueue MaterialUsage AgentModel AgentLogic ChannelTick.

Open Scope string_scope.
Open Scope list_scope.

Section Evaluation.
Context {AC : AgentClients} (now : datetime).

(** ** Evaluation is quiet *)

Lemma quiet_upload_failure c b : quiet (_consecutive_upload_failure_guard now c b).
Proof.
  unfold _consecutive_upload_failure_guard, _enqueue_consecutive_upload_failure_alert. destruct (ca_account c); auto 10 with steps.
Qed.
Lemma quiet_usage c : quiet (_material_usage_guard now c).
Proof. unfold _material_usage_guard. auto 10 with steps. Qed.
Lemma quiet_pds c b : quiet (_pds_candidate_guard now c b).
Proof. unfold _pds_candidate_guard. auto 15 with steps. Qed.
Hint Resolve quiet_upload_failure quiet_usage quiet_pds : steps.
Lemma quiet_guards c ac lc b1 b2 : quiet (_evaluate_candidate_guards now c ac lc b1 b2).
Proof. unfold _evaluate_candidate_guards. auto 20 with steps. Qed.
Hint Resolve quiet_guards : steps.
Lemma quiet_evaluate l b1 b2 ac lc : quiet (_evaluate_tick_candidates now l b1 b2 ac lc).
Proof. unfold _evaluate_tick_candidates. apply steps_forM; [apply _|]. intros e c. unfold evaluate_turn. auto 20 with steps. Qed.
Lemma quiet_low_supply channel l b : quiet (_maybe_alert_low_supply now channel l b).
Proof. unfold _maybe_alert_low_supply. apply steps_forM; [apply _|]. intros acc [k n]. unfold low_supply_turn. auto 20 with steps. Qed.

(** ** What the guards let pass *)

(** A candidate with what the guards noted on it. *)
Definition annotated (c c' : Candidate) : Prop :=
  exists g d, c' = c <| ca_material_usage_guard := g |> <| ca_pds_decision := d |>.

Lemma annotated_refl c : annotated c c.
Proof. exists (ca_material_usage_guard c), (ca_pds_decision c). by destruct c. Qed.
Lemma annotated_usage c g : annotated c (c <| ca_material_usage_guard := g |>).
Proof. exists g, (ca_pds_decision c). by destruct c. Qed.
Lemma annotated_pds c d : annotated c (c <| ca_pds_decision := d |>).
Proof. exists (ca_material_usage_guard c), d. by destruct c. Qed.
Lemma annotated_trans c1 c2 c3 : annotated c1 c2 -> annotated c2 c3 -> annotated c1 c3.
Proof. intros (g & d & ->) (g' & d' & ->). by exists g', d'. Qed.

Lemma usage_annotates c s : wp (_material_usage_guard now c) (fun o _ => annotated c o.2) (fun _ => True) s.
Proof.
  unfold _material_usage_guard. wp_step. apply wp_lift; [|done]. intros refs _.
  destruct refs, (ca_account c); try (wp_step; apply annotated_refl).
  do 2 wp_step. cbv zeta. destruct (negb _); [wp_step; apply annotated_refl|].
  destruct (_ =? _)%string; wp_step; apply annotated_usage.
Qed.

Lemma pds_annotates c b s : wp (_pds_candidate_guard now c b) (fun o _ => annotated c o.2) (fun _ => True) s.
Proof.
  unfold _pds_candidate_guard. destruct (ca_account c); [|wp_step; apply annotated_refl]. wp_step.
  eapply wp_mono; [apply (steps_wp quiet_step); auto with steps| |done]. intros d s' _. cbv zeta. destruct (negb _).
  - wp_step. apply annotated_pds.
  - wp_step. eapply wp_mono; [apply (steps_wp quiet_step); auto 10 with steps| |done]. intros _ s'' _. wp_step. apply annotated_pds.
Qed.

(** The conditions under which a candidate passes, in terms of the database before. *)
Record passes (db : AgentDb) (account_counts lane_counts : list (string * Z)) (c : Candidate) (account : PublishingAccount)
    : Prop := {
  pass_account : ca_account c = Some account;
  pass_pre : ca_pre_rejection c = None;
  pass_idle : (_active_task_count_for_account db (ac_id account) + count_of account_counts (ac_id account) <= 0)%Z;
  pass_lane : forall lane, ca_lane c = Some lane -> (0 < la_max_posts_per_day lane)%Z ->
    (recent_count now (_published_publications_for_lane db lane) + count_of lane_counts (la_id lane)
     < la_max_posts_per_day lane)%Z }.

Lemma cadence_pass db c n lane :
  _lane_cadence_guard now db c n = None -> ca_lane c = Some lane -> (0 < la_max_posts_per_day lane)%Z ->
  (recent_count now (_published_publications_for_lane db lane) + n < la_max_posts_per_day lane)%Z.
Proof.
  unfold _lane_cadence_guard. intros Hc Hl Hm. rewrite Hl in Hc.
  destruct (Z.ltb_spec 0 (la_max_posts_per_day lane)) as [_|?]; [|lia].
  destruct (Z.leb_spec (la_max_posts_per_day lane)
    (recent_count now (_published_publications_for_lane db lane) + n)) as [?|?]; [done|lia].
Qed.

(** Functions of the tables a quiet program leaves alone. *)
Lemma active_same_core db db' a : same_core db db' -> _active_task_count_for_account db' a = _active_task_count_for_account db a.
Proof. by intros (q & o & ->). Qed.
Lemma cadence_same_core db db' c n : same_core db db' -> _lane_cadence_guard now db' c n = _lane_cadence_guard now db c n.
Proof. by intros (q & o & ->). Qed.
Lemma published_same_core db db' l :
  same_core db db' -> _published_publications_for_lane db' l = _published_publications_for_lane db l.
Proof. by intros (q & o & ->). Qed.

Lemma guards_pass c ac lc b1 b2 s :
  wp (_evaluate_candidate_guards now c ac lc b1 b2)
     (fun o _ => annotated c o.2 /\ (o.1 = None -> exists account, passes (se_db s) ac lc c account)) (fun _ => True) s.
Proof.
  unfold _evaluate_candidate_guards. destruct (ca_pre_rejection c) eqn:Hpre.
  { wp_step. split; [apply annotated_refl|done]. }
  destruct (ca_account c) as [account|] eqn:Hacc; [|wp_step; split; [apply annotated_refl|done]].
  do 2 wp_step. cbv zeta. destruct (Z.ltb_spec 0 (_active_task_count_for_account (se_db s) (ac_id account)
    + count_of ac (ac_id account))) as [Hlt|Hidle]; [wp_step; split; [apply annotated_refl|done]|].
  wp_step. eapply wp_mono; [apply (steps_wp quiet_step); auto with steps| |done]. intros o s1 [Hdb _ _].
  destruct o; [wp_step; split; [apply annotated_refl|done]|]. do 2 wp_step. rewrite (cadence_same_core _ _ _ _ Hdb).
  destruct (_lane_cadence_guard _ _ _ _) eqn:Hcad; [wp_step; split; [apply annotated_refl|done]|].
  assert (Hp : passes (se_db s) ac lc c account).
  { split; [done..|]. intros lane Hl Hm. eapply cadence_pass in Hcad; [|done..]. by rewrite Hl in Hcad. }
  wp_step. eapply wp_mono; [apply usage_annotates| |done]. intros [[r|] c1] s2 Ha; simpl in Ha.
  { wp_step. split; [done|]. eauto. }
  destruct b2; [|wp_step; eauto].
  eapply wp_mono; [apply pds_annotates| |done]. intros o s3 Ha'. split; [by eapply annotated_trans|eauto].
Qed.

(** ** The budget of a tick *)

Definition account_of (c : Candidate) : string := match ca_account c with Some a => ac_id a | None => "" end.
Definition in_lane (k : string) (c : Candidate) : bool :=
  match ca_lane c with Some l => (la_id l =? k)%string | None => false end.
Definition lane_load (k : string) (l : list Candidate) : Z := Z.of_nat (length (List.filter (in_lane k) l)).

(** What the counters of an evaluation say about the candidates accepted so far. *)
Record budgeted (db : AgentDb) (accepted : list Candidate) (account_counts lane_counts : list (string * Z)) : Prop := {
  bg_accounts : NoDup (map account_of accepted);
  bg_idle : forall c, c ∈ accepted ->
    exists a, ca_account c = Some a /\ _active_task_count_for_account db (ac_id a) = 0%Z;
  bg_counts : forall k, (0 <= count_of account_counts k)%Z
    /\ (k ∈ map account_of accepted -> (0 < count_of account_counts k)%Z);
  bg_loads : forall k, count_of lane_counts k = lane_load k accepted;
  bg_lanes : forall c lane, c ∈ accepted -> ca_lane c = Some lane -> (0 < la_max_posts_per_day lane)%Z ->
    (recent_count now (_published_publications_for_lane db lane) + lane_load (la_id lane) accepted
     <= la_max_posts_per_day lane)%Z }.

Definition lane_known (db : AgentDb) (c : Candidate) : Prop := forall l, ca_lane c = Some l -> l ∈ a_lanes db.

Lemma count_of_bump counts k v k' : count_of (counts.[k <- v]) k' = if decide (k = k') then v else count_of counts k'.
Proof. unfold count_of, dget_or. rewrite dget_dset. by case_decide. Qed.

Lemma active_nonneg db a : (0 <= _active_task_count_for_account db a)%Z.
Proof. unfold _active_task_count_for_account. lia. Qed.

Lemma annotated_account c c' : annotated c c' -> ca_account c' = ca_account c /\ ca_lane c' = ca_lane c.
Proof. by intros (g & d & ->). Qed.

Lemma lane_load_app k l c : lane_load k (l ++ [c]) = (lane_load k l + if in_lane k c then 1 else 0)%Z.
Proof. unfold lane_load. rewrite List.filter_app, length_app. simpl. destruct (in_lane k c); simpl; lia. Qed.

Lemma budgeted_nil db : budgeted db [] [] [].
Proof. split; [apply NoDup_nil_2|set_solver| |done|set_solver]. intros k. split; [done|]. set_solver. Qed.

Lemma budgeted_accept db A ac lc c c' account :
  NoDup (map la_id (a_lanes db)) -> Forall (lane_known db) (c :: A) ->
  budgeted db A ac lc -> passes db ac lc c account -> annotated c c' ->
  budgeted db (A ++ [c']) (ac.[ac_id account <- (count_of ac (ac_id account) + 1)%Z])
    (match ca_lane c' with Some l => lc.[la_id l <- (count_of lc (la_id l) + 1)%Z] | None => lc end).
Proof.
  intros Hids [Hkc HkA]%Forall_cons [H1 H2 H3 H4 H5] [Hacc Hpre Hidle Hlane] [Ha Hl]%annotated_account.
  pose proof (active_nonneg db (ac_id account)) as Hnn. destruct (H3 (ac_id account)) as [Hc0 Hcin].
  assert (Hof : account_of c' = ac_id account) by (unfold account_of; by rewrite Ha, Hacc). split.
  - rewrite map_app. apply NoDup_app. split_and!; [done| |apply NoDup_singleton].
    intros k Hk ->%list_elem_of_singleton. rewrite Hof in Hk. specialize (Hcin Hk). lia.
  - intros d [Hd| ->%list_elem_of_singleton]%elem_of_app; [by apply H2|]. exists account. rewrite Ha. split; [done|lia].
  - intros k. rewrite count_of_bump. destruct (H3 k) as [Hk0 Hkin]. case_decide as Hk; subst; [split; lia|].
    split; [done|]. rewrite map_app. intros [?| ->%list_elem_of_singleton]%elem_of_app; [auto|]. by rewrite Hof in Hk.
  - intros k. rewrite lane_load_app, <- H4. unfold in_lane. rewrite Hl. destruct (ca_lane c) as [l|]; [|lia].
    rewrite count_of_bump. case_decide as Hk; destruct (String.eqb_spec (la_id l) k); subst; (done || lia).
  - intros d lane Hd Hdl Hm. rewrite lane_load_app. unfold in_lane at 1. rewrite Hl.
    apply elem_of_app in Hd as [Hd| ->%list_elem_of_singleton].
    + specialize (H5 d lane Hd Hdl Hm). destruct (ca_lane c) as [l|] eqn:Hcl; [|lia].
      destruct (String.eqb_spec (la_id l) (la_id lane)) as [Heq|]; [|lia].
      assert (l = lane) as ->.
      { eapply (NoDup_map_inj la_id); [done|by apply Hkc| |done]. rewrite Forall_forall in HkA. by apply (HkA d). }
      specialize (Hlane lane eq_refl Hm). rewrite H4 in Hlane. lia.
    + rewrite Hdl in Hl. rewrite <- Hl. rewrite String.eqb_refl. specialize (Hlane lane (eq_sym Hl) Hm).
      rewrite H4 in Hlane. lia.
Qed.

Lemma evaluate_budgeted db A l b1 b2 ac lc s :
  NoDup (map la_id (a_lanes db)) -> Forall (lane_known db) A -> Forall (lane_known db) l ->
  same_core db (se_db s) -> budgeted db A ac lc ->
  wp (_evaluate_tick_candidates now l b1 b2 ac lc)
     (fun e s' => budgeted db (A ++ ev_accepted e) (ev_account_counts e) (ev_lane_counts e)
        /\ Forall (lane_known db) (A ++ ev_accepted e)
        /\ (forall c', c' ∈ ev_accepted e -> exists c, c ∈ l /\ annotated c c'))
     (fun _ => True) s.
Proof.
  intros Hids HkA Hkl Hs Hb. unfold _evaluate_tick_candidates.
  eapply (wp_mono _ (fun e s' => same_core db (se_db s')
    /\ (budgeted db (A ++ ev_accepted e) (ev_account_counts e) (ev_lane_counts e)
        /\ Forall (lane_known db) (A ++ ev_accepted e)
        /\ (forall c', c' ∈ ev_accepted e -> exists c, c ∈ l /\ annotated c c'))) _ (fun _ => True)); [| tauto |done].
  apply (wp_forM _ (fun _ e s' => same_core db (se_db s')
    /\ (budgeted db (A ++ ev_accepted e) (ev_account_counts e) (ev_lane_counts e)
        /\ Forall (lane_known db) (A ++ ev_accepted e)
        /\ (forall c', c' ∈ ev_accepted e -> exists c, c ∈ l /\ annotated c c'))) _ l []).
  2:{ simpl. rewrite app_nil_r. split_and!; [done..|]. set_solver. }
  intros _ c e s1 Hc (Hs1 & Hb1 & Hk1 & Hfrom). unfold evaluate_turn. wp_step.
  eapply wp_mono; [apply wp_and; [apply guards_pass|apply (steps_wp quiet_step), quiet_guards]| |done].
  intros [[r|] c'] s2 [[Hann Hpass] [Hdb _ _]]; simpl in Hann, Hpass.
  - wp_step. split; [by eapply same_core_trans|]. done.
  - destruct (Hpass eq_refl) as (account & Hp).
    assert (Hacc' : ca_account c' = Some account).
    { destruct (annotated_account _ _ Hann) as [-> _]. by apply Hp. }
    rewrite Hacc'. wp_step. cbn [ev_accepted ev_account_counts ev_lane_counts].
    assert (Hp' : passes db (ev_account_counts e) (ev_lane_counts e) c account).
    { destruct Hp as [Pa Pp Pi Pl]. split; [done..| |].
      - by rewrite (active_same_core _ _ _ Hs1) in Pi.
      - intros lane Hl Hm. specialize (Pl lane Hl Hm). by rewrite (published_same_core _ _ _ Hs1) in Pl. }
    assert (Hkc : lane_known db c) by (rewrite Forall_forall in Hkl; by apply Hkl).
    split; [by eapply same_core_trans|]. rewrite app_assoc. split_and!.
    + eapply budgeted_accept; [done|by apply Forall_cons|done..].
    + apply Forall_app. split; [done|]. apply Forall_singleton. intros lane. destruct (annotated_account _ _ Hann) as [_ ->].
      apply Hkc.
    + intros d [Hd| ->%list_elem_of_singleton]%elem_of_app; [by apply Hfrom|]. by exists c.
Qed.
End Evaluation.

(** ** Candidates are of the channel *)

Lemma elem_of_merge_sort {A} (R : A -> A -> Prop) `{!RelDecision R} (l : list A) x : x ∈ merge_sort R l <-> x ∈ l.
Proof. by rewrite (merge_sort_Permutation R l). Qed.

Lemma head_elem {A} (l : list A) x : head l = Some x -> x ∈ l.
Proof. destruct l; [done|]. intros [= ->]. by left. Qed.

Lemma get_row_elem {A} (key : A -> uuid) id (l : list A) a : get_row key id l = Some a -> a ∈ l /\ key a = id.
Proof. unfold get_row. intros [Ha%list_elem_of_In Hk%String.eqb_eq]%find_some. done. Qed.

Lemma fold_left_ind {A B} (P : A -> Prop) (f : A -> B -> A) (l : list B) a :
  P a -> (forall a b, b ∈ l -> P a -> P (f a b)) -> P (fold_left f l a).
Proof.
  revert a. induction l as [|b l IH]; intros a Ha Hf; simpl; [done|]. apply IH.
  - apply Hf; [by left|done].
  - intros a' b' Hb. apply Hf. by right.
Qed.

Section Candidates.
Context {AC : AgentClients} (now : datetime) (db : AgentDb) (channel : uuid).

Definition own_account (a : PublishingAccount) : Prop :=
  a ∈ a_accounts db /\ ac_channel_profile_id a = channel /\ _account_available now a = true.

Record sound_candidate (c : Candidate) : Prop := {
  sc_lane : lane_known db c;
  sc_account : forall a, ca_account c = Some a -> own_account a }.

Lemma tick_accounts_own a : a ∈ tick_accounts now db channel -> own_account a.
Proof.
  unfold tick_accounts. rewrite elem_of_merge_sort, elem_of_lfilter.
  intros [Ha [[Hc%String.eqb_eq He]%andb_true_iff Hp]%andb_true_iff]. unfold own_account, _account_available.
  by rewrite He, Hp.
Qed.

Lemma tick_lanes_known l : l ∈ tick_lanes now db channel -> l ∈ a_lanes db.
Proof. unfold tick_lanes. rewrite elem_of_merge_sort, elem_of_lfilter. by intros [? _]. Qed.

Lemma selected_account_own db' claimed a :
  _select_candidate_account_for_tick now db' (tick_accounts now db channel) claimed = Some a -> own_account a.
Proof.
  unfold _select_candidate_account_for_tick. set (av := List.filter _ (tick_accounts now db channel)).
  assert (Hav : forall x, x ∈ av -> own_account x) by (intros x [Hx _]%elem_of_lfilter; by apply tick_accounts_own).
  set (un := List.filter _ av). assert (Hun : forall x, x ∈ un -> own_account x).
  { intros x [Hx _]%elem_of_lfilter. auto. }
  set (ca := match un with [] => av | _ => un end). assert (Hca : forall x, x ∈ ca -> own_account x).
  { unfold ca. destruct un; auto. }
  destruct (find _ ca) as [x|] eqn:Hf.
  - intros [= <-]. apply find_some in Hf as [Hx%list_elem_of_In _]. auto.
  - intros Hh%head_elem. auto.
Qed.

Lemma resolved_account_own seed claimed a r :
  ms_channel_profile_id seed = channel ->
  _resolve_candidate_account now db seed (tick_accounts now db channel) claimed = (Some a, r) -> own_account a.
Proof.
  intros Hs. unfold _resolve_candidate_account. destruct (ms_target_account_id seed) as [t|].
  - destruct (get_row ac_id t (a_accounts db)) as [x|] eqn:Hg; [|done].
    destruct (String.eqb_spec (ac_channel_profile_id x) (ms_channel_profile_id seed)) as [Hc|]; simpl; [|done].
    destruct (_account_available now x) eqn:Hav; simpl; [|done]. intros [= <- <-].
    apply get_row_elem in Hg as [Hx _]. split_and!; [done|by rewrite Hc|done].
  - intros [= Hsel _]. by eapply selected_account_own.
Qed.

Lemma manual_candidates_sound formats bucket :
  Forall sound_candidate (_build_tick_candidates now db (tick_lanes now db channel) (tick_accounts now db channel)
                            (tick_seeds db channel) formats bucket).
Proof.
  unfold _build_tick_candidates.
  apply (fold_left_ind (fun acc : list Candidate * list string => Forall sound_candidate acc.1)); [by apply Forall_nil|].
  intros [cs claimed] seed Hseed Hcs. unfold tick_seeds in Hseed.
  rewrite elem_of_merge_sort, elem_of_lfilter in Hseed.
  destruct Hseed as [_ [Hch%String.eqb_eq _]%andb_true_iff]. unfold seed_candidate.
  destruct (_resolve_candidate_account _ _ _ _ _) as [account r] eqn:Hres. cbn [fst] in *.
  apply Forall_app. split; [done|]. apply Forall_singleton. split.
  - intros l Hl. cbn [ca_lane] in Hl. apply tick_lanes_known.
    destruct (ms_topic_lane_id seed); [by apply get_row_elem in Hl as [? _]|by apply head_elem].
  - intros a Ha. cbn [ca_account] in Ha. subst account. by eapply resolved_account_own.
Qed.

Lemma lane_candidates_sound db' chan formats bucket counts claimed suppressed :
  Forall sound_candidate (_build_lane_driven_candidates now db' chan (tick_lanes now db channel)
    (tick_accounts now db channel) formats bucket counts claimed suppressed).
Proof.
  unfold _build_lane_driven_candidates.
  apply (fold_left_ind (fun acc : list Candidate * list string => Forall sound_candidate acc.1)); [by apply Forall_nil|].
  intros acc lane Hlane Hacc. unfold lane_turn. case_bool_decide; [done|]. destruct (_ <=? 0)%Z; [done|].
  apply (fold_left_ind (fun acc : list Candidate * list string => Forall sound_candidate acc.1)); [done|].
  intros [cs cl] f _ Hcs. cbn [fst] in *. apply Forall_app. split; [done|]. apply Forall_singleton. split.
  - intros l [= <-]. by apply tick_lanes_known.
  - intros a Ha. cbn [ca_account lane_candidate] in Ha. by eapply selected_account_own.
Qed.
End Candidates.

(** ** A tick without side effects *)

Section Silent.
Context {AC : AgentClients} (now : datetime).

Lemma silent_upload_failure c : silent (_consecutive_upload_failure_guard now c false).
Proof. unfold _consecutive_upload_failure_guard. cbv iota. auto 15 with steps. Qed.
Lemma silent_usage c : silent (_material_usage_guard now c).
Proof. unfold _material_usage_guard. auto 15 with steps. Qed.
Hint Resolve silent_upload_failure silent_usage : steps.
Lemma silent_guards c ac lc : silent (_evaluate_candidate_guards now c ac lc false false).
Proof. unfold _evaluate_candidate_guards. cbv iota. auto 20 with steps. Qed.
Hint Resolve silent_guards : steps.
Lemma silent_evaluate l ac lc : silent (_evaluate_tick_candidates now l false false ac lc).
Proof. unfold _evaluate_tick_candidates, evaluate_turn. auto 20 with steps. Qed.
Lemma silent_low_supply channel l : silent (_maybe_alert_low_supply now channel l false).
Proof. unfold _maybe_alert_low_supply, low_supply_turn. cbv iota. auto 20 with steps. Qed.
End Silent.

(** ** Tasks *)

Section Creation.
Context {AC : AgentClients} (now : datetime) (channel : ChannelProfile).

(** The task of an accepted candidate. *)
Record created (c : Candidate) (t : ProductionTask) : Prop := {
  cr_account : tk_target_account_id t = account_of c;
  cr_has_account : is_Some (ca_account c);
  cr_lane : tk_topic_lane_id t = la_id <$> ca_lane c;
  cr_state : tk_state t = TASK_SELECTED;
  cr_channel : tk_channel_profile_id t = cp_id channel }.

Definition planned (q : queue_table) (t : ProductionTask) : Prop :=
  is_Some (get_by_key ("plan_task:" +:+ tk_id t) q).

Lemma get_by_key_app k q q' : is_Some (get_by_key k q) -> is_Some (get_by_key k (q ++ q')).
Proof.
  unfold get_by_key. induction q as [|i q IH]; simpl; [by intros []|]. destruct (_ =? _)%string; [done|]. apply IH.
Qed.

Lemma get_by_key_new k q i : get_by_key k q = None -> qi_idempotency_key i = k -> get_by_key k (q ++ [i]) = Some i.
Proof.
  unfold get_by_key. intros Hn Hk. induction q as [|j q IH]; simpl in *; [by rewrite Hk, String.eqb_refl|].
  destruct (_ =? _)%string; [done|]. auto.
Qed.

(** Enqueueing leaves an item with the key, and every earlier one. *)
Lemma enqueue_key r b s :
  wp (queue_enqueue now r b)
     (fun _ s' => is_Some (get_by_key (eq_idempotency_key r) (a_queue (se_db s')))
        /\ (forall k, is_Some (get_by_key k (a_queue (se_db s))) -> is_Some (get_by_key k (a_queue (se_db s')))))
     (fun _ => True) s.
Proof.
  unfold queue_enqueue. do 2 wp_step. destruct (get_by_key _ _) eqn:Hk; [wp_step; by eauto|].
  do 3 wp_step. apply wp_lift; [|done]. intros [i q] Hq. unfold enqueue_item in Hq.
  revert Hq. rewrite !Hk. destruct (negb (_ || _)); [|by destruct (negb b)]. intros [= <- <-].
  assert (Hgoal : is_Some (get_by_key (eq_idempotency_key r) (a_queue (se_db s) ++ [new_item (new_uuid (se_fresh s)) now r]))
    /\ (forall k, is_Some (get_by_key k (a_queue (se_db s))) ->
          is_Some (get_by_key k (a_queue (se_db s) ++ [new_item (new_uuid (se_fresh s)) now r])))).
  { split; [|intros k; apply get_by_key_app].
    rewrite (get_by_key_new _ (a_queue (se_db s)) (new_item _ now r)) by done. by eexists. }
  do 3 wp_step. wp_step; intros _; [wp_step|]; wp_step; exact Hgoal.
Qed.

Lemma task_of_candidate id c account t at_ :
  _task_from_candidate now id channel c account at_ = Ok t -> ca_account c = Some account -> created c t /\ tk_id t = id.
Proof.
  unfold _task_from_candidate. intros H Ha. unbind H. injection H as <-. split; [|done].
  split; simpl; [by unfold account_of; rewrite Ha|by rewrite Ha|done..].
Qed.

(** What creation has done so far. *)
Record creation (db0 committed : AgentDb) (accepted : list Candidate) (selected : Z) (s : Session) : Prop := {
  cn_count : selected = Z.of_nat (length accepted);
  cn_committed : se_committed s = committed;
  cn_audits : a_audits (se_db s) = a_audits db0;
  cn_tasks : exists tasks, a_tasks (se_db s) = a_tasks db0 ++ tasks /\ Forall2 created accepted tasks
    /\ Forall (planned (a_queue (se_db s))) tasks }.

Definition loud_free (s s' : Session) : Prop := same_core (se_db s) (se_db s') /\ se_committed s' = se_committed s.
#[local] Instance loud_free_preorder : PreOrder loud_free.
Proof.
  split; [intros s; split; [apply same_core_refl|done]|]. intros s1 s2 s3 [H1 H2] [H3 H4].
  split; [by eapply same_core_trans|congruence].
Qed.

Lemma uncommitted_enqueue r : steps loud_free (queue_enqueue now r false).
Proof.
  unfold queue_enqueue. assert (steps loud_free fresh) by (intros s; split; [apply same_core_refl|done]).
  assert (forall q, steps loud_free (modify (fun db => db <| a_queue := q |>))).
  { intros q s. split; [apply same_core_queue|done]. }
  cbv iota. auto 15 with steps.
Qed.
Lemma same_outbox db : db = db <| a_outbox := a_outbox db |>.
Proof. by destruct db. Qed.

Definition outbox_only (s s' : Session) : Prop :=
  (exists o, se_db s' = (se_db s) <| a_outbox := o |>) /\ se_committed s' = se_committed s.
#[local] Instance outbox_only_preorder : PreOrder outbox_only.
Proof.
  split.
  - intros s. split; [eexists; apply same_outbox|done].
  - intros s1 s2 s3 [(o & H1) H2] [(o' & H3) H4]. split; [exists o'; by rewrite H3, H1|congruence].
Qed.

Lemma outbox_only_emit a b c d : steps outbox_only (_emit_actor_action_event now a b c d).
Proof.
  unfold _emit_actor_action_event.
  assert (steps outbox_only fresh) by (intros s; split; [eexists; apply same_outbox|done]).
  assert (forall q, steps outbox_only (modify (fun db => db <| a_outbox := q |>))).
  { intros q s. split; [by exists q|done]. }
  auto 15 with steps.
Qed.

Lemma planned_more q q' t : (forall k, is_Some (get_by_key k q) -> is_Some (get_by_key k q')) -> planned q t -> planned q' t.
Proof. unfold planned. auto. Qed.

Lemma create_turn_creates db0 committed accepted selected c delay s :
  creation db0 committed accepted selected s ->
  wp (create_turn now channel delay selected c) (creation db0 committed (accepted ++ [c]))
     (fun s' => se_committed s' = committed) s.
Proof.
  intros [Hn Hc Ha (tasks & Ht & Hcr & Hpl)]. unfold create_turn.
  destruct (ca_account c) as [account|] eqn:Hacc; [|wp_step; done].
  do 3 wp_step. apply wp_lift; [|done]. intros task Htask. apply task_of_candidate in Htask as [Htask Hid]; [|done].
  do 2 wp_step. destruct (bool_decide _); [wp_step; done|]. do 4 wp_step. wp_step.
  set (s1 := _ <| se_db := _ |>).
  assert (Hs1 : se_committed s1 = committed /\ a_audits (se_db s1) = a_audits db0
    /\ a_tasks (se_db s1) = a_tasks db0 ++ (tasks ++ [task]) /\ a_queue (se_db s1) = a_queue (se_db s)).
  { unfold s1. destruct (ca_seed c); simpl; (split_and!; [done|done| |done]); by rewrite app_assoc, <- Ht. }
  clearbody s1. destruct Hs1 as (H1 & H2 & H3 & H4).
  eapply wp_mono; [apply wp_and; [apply enqueue_key|apply (steps_wp loud_free), uncommitted_enqueue]| |].
  2:{ intros s' [_ [_ Hl]]. by rewrite Hl. }
  intros _ s2 [[Hkey Hmore] [(q & o & Hdb2) Hl2]]. wp_step.
  eapply wp_mono; [apply (steps_wp outbox_only)| |].
  { unfold _emit_candidate_accepted. pose proof outbox_only_emit. auto 10 with steps. }
  2:{ intros s' [_ Hl]. by rewrite Hl, Hl2. }
  intros _ s3 [(o3 & Hdb3) Hl3]. wp_step. split.
  - rewrite length_app. simpl. lia.
  - by rewrite Hl3, Hl2.
  - by rewrite Hdb3, Hdb2.
  - exists (tasks ++ [task]). split_and!; [by rewrite Hdb3, Hdb2| |].
    + apply Forall2_app; [done|]. by constructor.
    + assert (Hq : a_queue (se_db s3) = a_queue (se_db s2)) by (by rewrite Hdb3). rewrite Hq.
      apply Forall_app. split; [|by apply Forall_singleton].
      eapply Forall_impl; [exact Hpl|]. intros t. apply planned_more. intros k Hk. apply Hmore. by rewrite H4.
Qed.

Lemma create_all db0 committed accepted delay s :
  creation db0 committed [] 0 s ->
  wp (forM (create_turn now channel delay) 0%Z accepted) (creation db0 committed accepted)
     (fun s' => se_committed s' = committed) s.
Proof.
  intros H0. apply (wp_forM _ (creation db0 committed) _ accepted []); [|done].
  intros d c selected s1 _ Hc. by apply create_turn_creates.
Qed.
End Creation.

(** ** The tick *)

Section TickTheorem.
Context {AC : AgentClients} {OT : OwnedTick} (now : datetime) (db : AgentDb) (channel : ChannelProfile).

(** Nothing but queue items and events so far, in the session and in what it committed. *)
Definition calm (s : Session) : Prop := same_core db (se_db s) /\ same_core db (se_committed s).

Lemma calm_quiet s s' : calm s -> quiet_step s s' -> calm s'.
Proof.
  intros [H1 H2] [H3 H4 _]. split; [exact (same_core_trans _ _ _ H1 H3)|]. destruct H4 as [->|H4]; [done|].
  exact (same_core_trans _ _ _ H1 H4).
Qed.

Lemma wp_calm {A} (m : M A) (Q : A -> Session -> Prop) s :
  calm s -> quiet m -> wp m Q (fun _ => True) s -> wp m (fun a s' => Q a s' /\ calm s') calm s.
Proof.
  intros Hs Hm Hq. eapply wp_mono; [apply wp_and; [exact Hq|apply (steps_wp quiet_step _ _ Hm)]| |].
  - intros a s' [? ?]. split; [done|by eapply calm_quiet].
  - intros s' [_ ?]. by eapply calm_quiet.
Qed.

Definition tasks_in_lane (k : string) (tasks : list ProductionTask) : Z :=
  Z.of_nat (length (List.filter (fun t => bool_decide (tk_topic_lane_id t = Some k)) tasks)).

(** What a tick leaves: the tasks it created. *)
Record selection (audit : AgentTickAudit) (db' : AgentDb) (tasks : list ProductionTask) : Prop := {
  sl_tasks : a_tasks db' = a_tasks db ++ tasks;
  sl_count : au_tasks_selected audit = Z.of_nat (length tasks);
  sl_accounts : NoDup (map tk_target_account_id tasks);
  sl_each : forall t, t ∈ tasks ->
    tk_state t = TASK_SELECTED /\ tk_channel_profile_id t = cp_id channel
    /\ _active_task_count_for_account db (tk_target_account_id t) = 0%Z
    /\ (exists a, own_account now db (cp_id channel) a /\ ac_id a = tk_target_account_id t)
    /\ planned (a_queue db') t;
  sl_lanes : forall lane, lane ∈ a_lanes db -> (0 < la_max_posts_per_day lane)%Z ->
    (0 < tasks_in_lane (la_id lane) tasks)%Z ->
    (recent_count now (_published_publications_for_lane db lane) + tasks_in_lane (la_id lane) tasks
     <= la_max_posts_per_day lane)%Z }.

Lemma created_lane_load k accepted tasks :
  Forall2 (created channel) accepted tasks -> tasks_in_lane k tasks = lane_load k accepted.
Proof.
  unfold tasks_in_lane, lane_load. induction 1 as [|c t cs ts Hc _ IH]; simpl; [done|].
  assert (bool_decide (tk_topic_lane_id t = Some k) = in_lane k c) as ->.
  { unfold in_lane. rewrite (cr_lane _ _ _ Hc). destruct (ca_lane c) as [l|]; simpl; [|done].
    destruct (String.eqb_spec (la_id l) k); case_bool_decide; naive_solver. }
  destruct (in_lane k c); simpl; lia.
Qed.

Lemma created_accounts accepted tasks :
  Forall2 (created channel) accepted tasks -> map tk_target_account_id tasks = map account_of accepted.
Proof. induction 1 as [|c t cs ts Hc _ IH]; simpl; [done|]. by rewrite (cr_account _ _ _ Hc), IH. Qed.

Lemma selection_of_budget accepted ac lc tasks audit db' :
  NoDup (map la_id (a_lanes db)) ->
  budgeted now db accepted ac lc -> Forall (lane_known db) accepted ->
  (forall c a, c ∈ accepted -> ca_account c = Some a -> own_account now db (cp_id channel) a) ->
  Forall2 (created channel) accepted tasks -> Forall (planned (a_queue db')) tasks ->
  a_tasks db' = a_tasks db ++ tasks -> au_tasks_selected audit = Z.of_nat (length accepted) ->
  selection audit db' tasks.
Proof.
  intros Hids [H1 H2 H3 H4 H5] Hk Hown Hcr Hpl Ht Hn. split; [done| | | |].
  - by rewrite Hn, (Forall2_length _ _ _ Hcr).
  - by rewrite (created_accounts _ _ Hcr).
  - intros t Hin. apply list_elem_of_lookup in Hin as [i Hi].
    destruct (Forall2_lookup_r _ _ _ _ _ Hcr Hi) as (c & Hc & Hct). apply list_elem_of_lookup_2 in Hc.
    destruct (H2 c Hc) as (a & Ha & Hact). rewrite Forall_forall in Hpl.
    assert (Hacc : tk_target_account_id t = ac_id a) by (rewrite (cr_account _ _ _ Hct); unfold account_of; by rewrite Ha).
    split_and!; [apply Hct|apply Hct|by rewrite Hacc| |eapply Hpl, list_elem_of_lookup_2, Hi]. exists a. split; [|done]. by eapply Hown.
  - intros lane Hl Hm. rewrite (created_lane_load _ _ _ Hcr). intros Hpos.
    assert (exists c, c ∈ accepted /\ in_lane (la_id lane) c = true) as (c & Hc & Hcl).
    { unfold lane_load in Hpos. destruct (List.filter (in_lane (la_id lane)) accepted) as [|c cs] eqn:Hf; [simpl in Hpos; lia|].
      exists c. apply elem_of_lfilter. rewrite Hf. by left. }
    unfold in_lane in Hcl. destruct (ca_lane c) as [l|] eqn:Hcc; [|done]. apply String.eqb_eq in Hcl.
    assert (l = lane) as ->.
    { eapply (NoDup_map_inj la_id); [done| |done|done]. rewrite Forall_forall in Hk. by apply (Hk c). }
    by eapply H5.
Qed.

Hypothesis lane_ids : NoDup (map la_id (a_lanes db)).

(** The outcome of a tick. *)
Definition ticked (s : Session) (audit : AgentTickAudit) (s' : Session) : Prop :=
  exists tasks, selection audit (se_committed s') tasks
    /\ (side_effects_disabled channel = true ->
          tasks = [] /\ se_committed s' = db <| a_audits ::= fun l => l ++ [audit] |> /\ se_calls s' = se_calls s).

Definition tasks_kept (s' : Session) : Prop := a_tasks (se_committed s') = a_tasks db.

Lemma calm_kept s : calm s -> tasks_kept s.
Proof. intros [_ (q & o & H)]. unfold tasks_kept. by rewrite H. Qed.

Lemma selection_nil audit db' : a_tasks db' = a_tasks db -> au_tasks_selected audit = 0%Z -> selection audit db' [].
Proof.
  intros Ht Hn. eapply (selection_of_budget [] [] []); [done|apply budgeted_nil|by apply Forall_nil|set_solver|constructor|
    by apply Forall_nil|by rewrite app_nil_r|done].
Qed.

Lemma sound_from l (accepted : list Candidate) :
  Forall (sound_candidate now db (cp_id channel)) l ->
  (forall c', c' ∈ accepted -> exists c, c ∈ l /\ annotated c c') ->
  forall c' a, c' ∈ accepted -> ca_account c' = Some a -> own_account now db (cp_id channel) a.
Proof.
  intros Hl Hf c' a Hc' Ha. destruct (Hf c' Hc') as (c & Hc & [Hacc _]%annotated_account). rewrite Forall_forall in Hl.
  apply (Hl c Hc). congruence.
Qed.

Lemma sound_known l : Forall (sound_candidate now db (cp_id channel)) l -> Forall (lane_known db) l.
Proof. intros Hl. eapply Forall_impl; [exact Hl|]. intros c Hc. apply Hc. Qed.

Lemma same_core_tick db' : same_core db db' ->
  tick_lanes now db' (cp_id channel) = tick_lanes now db (cp_id channel)
  /\ tick_accounts now db' (cp_id channel) = tick_accounts now db (cp_id channel)
  /\ tick_seeds db' (cp_id channel) = tick_seeds db (cp_id channel).
Proof. by intros (q & o & ->). Qed.

(** Halted or dry: an audit row and nothing else. *)
Lemma tick_disabled delay s :
  se_db s = db -> se_committed s = db -> side_effects_disabled channel = true ->
  wp (tick_channel now channel delay) (ticked s) tasks_kept s.
Proof.
  intros Hdb Hcom Hdis. unfold tick_channel. rewrite Hdis. cbv zeta. cbn [negb]. do 10 wp_step.
  assert (Hquiet : forall s', silent_step s s' -> tasks_kept s').
  { intros s' (_ & Hc & _). unfold tasks_kept. by rewrite Hc, Hcom. }
  wp_step. eapply wp_mono; [apply (steps_wp silent_step), silent_evaluate| |exact Hquiet]. intros first s1 H1. do 3 wp_step.
  eapply wp_mono; [apply (steps_wp silent_step), silent_evaluate| |intros s' H'; exact (Hquiet _ (transitivity H1 H'))].
  intros second s2 H2. wp_step.
  eapply wp_mono; [apply (steps_wp silent_step), silent_low_supply| |].
  2:{ intros s' H'. exact (Hquiet _ (transitivity H1 (transitivity H2 H'))). }
  intros low s3 H3. pose proof (transitivity H1 (transitivity H2 H3)) as Hs. clear H1 H2 H3. do 3 wp_step.
  set (audit := tick_audit _ _ _ _ _ _ _ _). unfold add_audit. do 2 wp_step.
  destruct (existsb _ _); [wp_step; by apply (Hquiet s3)|]. do 4 wp_step. destruct Hs as (H1 & _ & H3). exists [].
  split; [apply selection_nil; [change (a_tasks (se_db s3) = a_tasks db); by rewrite H1, Hdb|done]|]. intros _.
  split_and!; [done| |done].
  change ((se_db s3) <| a_audits ::= fun l => l ++ [audit] |> = db <| a_audits ::= fun l => l ++ [audit] |>).
  by rewrite H1, Hdb.
Qed.

(** The state in which tasks are created. *)
Lemma creation_start s1 audit : calm s1 ->
  let s2 := s1 <| se_fresh ::= S |> <| se_db ::= fun d => d <| a_audits ::= fun l => l ++ [audit] |> |> in
  creation channel (se_db s2) (se_committed s1) [] 0 s2 /\ a_tasks (se_db s2) = a_tasks db.
Proof.
  intros [(q & o & Hd) _] s2. split.
  - split; [done..|]. exists []. by rewrite app_nil_r.
  - change (a_tasks (se_db s1) = a_tasks db). by rewrite Hd.
Qed.

Lemma tick_enabled delay s :
  se_db s = db -> se_committed s = db -> side_effects_disabled channel = false ->
  wp (tick_channel now channel delay) (ticked s) tasks_kept s.
Proof.
  intros Hdb Hcom Hdis. unfold tick_channel. rewrite Hdis. cbv zeta. cbn [negb]. do 10 wp_step. rewrite Hdb. cbv beta.
  assert (Hcalm : calm s) by (split; rewrite ?Hdb, ?Hcom; apply same_core_refl).
  pose proof (manual_candidates_sound now db (cp_id channel) (_lane_formats_by_lane db (tick_lanes now db (cp_id channel)))
    (utc_hour_bucket now)) as Hman.
  set (manual := _build_tick_candidates _ _ _ _ _ _ _) in *. clearbody manual.
  wp_step. eapply wp_mono; [apply wp_calm; [done|apply quiet_evaluate|]| |apply calm_kept].
  { apply (evaluate_budgeted now db []); [done|by apply Forall_nil|by apply sound_known|apply Hcalm|apply budgeted_nil]. }
  intros first s1 [(Hb1 & Hk1 & Hf1) Hc1]. simpl in Hb1, Hk1. do 2 wp_step.
  pose proof (lane_candidates_sound now db (cp_id channel) (se_db s1) channel
    (_lane_formats_by_lane db (tick_lanes now db (cp_id channel))) (utc_hour_bucket now) (ev_lane_counts first)
    (dkeys (ev_account_counts first)) (_suppressed_lane_ids_from_manual_rejections (ev_rejected first))) as Hlane.
  set (driven := _build_lane_driven_candidates _ _ _ _ _ _ _ _ _ _) in *. clearbody driven.
  wp_step. eapply wp_mono; [apply wp_calm; [done|apply quiet_evaluate|]| |apply calm_kept].
  { apply (evaluate_budgeted now db (ev_accepted first)); [done|done|by apply sound_known|apply Hc1|done]. }
  intros second s2 [(Hb2 & Hk2 & Hf2) Hc2]. wp_step.
  eapply wp_mono; [apply (wp_calm _ (fun _ _ => True)); [done|apply quiet_low_supply|]| |apply calm_kept].
  { by eapply wp_mono; [apply (steps_wp quiet_step), quiet_low_supply| |]. }
  intros low s3 [_ Hc3]. do 3 wp_step. set (audit := tick_audit _ _ _ _ _ _ _ _). unfold add_audit. do 2 wp_step.
  destruct (existsb _ _); [wp_step; by apply calm_kept|]. do 2 wp_step.
  destruct (creation_start s3 audit Hc3) as [Hstart Htasks].
  eapply wp_mono; [by apply create_all| |intros s' Hs'; unfold tasks_kept; rewrite Hs'; by apply calm_kept].
  intros selected s4 [Hn _ _ (tasks & Ht & Hcr & Hpl)]. do 5 wp_step. exists tasks. split; [|by rewrite Hdis].
  eapply selection_of_budget; [done|exact Hb2|done| |exact Hcr|exact Hpl| |exact Hn].
  - intros c a [Hc|Hc]%elem_of_app Ha; [eapply (sound_from manual)|eapply (sound_from driven)]; done.
  - change (a_tasks (se_db s4) = a_tasks db ++ tasks). by rewrite Ht, Htasks.
Qed.
End TickTheorem.

Section TickClaims.
Context {AC : AgentClients} {OT : OwnedTick}.

(** Unfolding the checks in front of the tick of a plain channel. *)
Lemma tick_plain now db channel channel_id id delay item s :
  se_db s = db -> _uuid channel_id = Ok id -> get_row cp_id id (a_channels db) = Some channel ->
  cp_owned_seed_inventory_id channel = None ->
  tick now channel_id delay item s
  = if negb ((0 <=? delay)%Z && (delay <=? 3600)%Z)
    then (Raise (ValueError "plan_delay_seconds must be an integer from 0 through 3600"), s)
    else tick_channel now channel delay s.
Proof.
  intros Hdb Hid Hch Hown. unfold tick. destruct (negb _); [done|]. unfold mbind, M_bind, lift, gets. rewrite Hid. cbv beta iota.
  rewrite Hdb, Hch. by rewrite Hown.
Qed.

(** C12. A tick selects safely.  On a channel without an owned inventory it creates tasks
    for enabled accounts of that channel only, at most one per account and none for an
    account with an active task; in no lane do the new tasks and the publications of the
    last day exceed the daily budget; every task starts selected, with its [plan_task]
    item in the queue, and the audit counts them.  A channel that is halted or dry gets
    an audit row and nothing else, not even a call to a client; a tick that raises
    creates no task.  The tick of a channel with an owned inventory takes another path
    ([owned_tick]), which is left out; lane ids are unique. *)
Theorem tick_selects_safely (now : datetime) (db : AgentDb) (channel : ChannelProfile) (channel_id : pyval) (id : uuid)
    (delay : Z) (item : option ChannelOpsQueueItem) (h : PdsHealth) (n : nat) :
  NoDup (map la_id (a_lanes db)) -> _uuid channel_id = Ok id -> get_row cp_id id (a_channels db) = Some channel ->
  cp_owned_seed_inventory_id channel = None ->
  match tick now channel_id delay item (open_session db h n) with
  | (Ok audit, s') =>
      exists tasks, selection now db channel audit (se_committed s') tasks
        /\ (side_effects_disabled channel = true ->
              tasks = [] /\ se_committed s' = db <| a_audits ::= fun l => l ++ [audit] |> /\ se_calls s' = [])
  | (Raise _, s') => a_tasks (se_committed s') = a_tasks db
  end.
Proof.
  intros Hn Hid Hch Hown. rewrite (tick_plain now db channel _ id) by done. destruct (negb _); [done|].
  pose proof (if side_effects_disabled channel as b return (side_effects_disabled channel = b -> _)
              then tick_disabled now db channel Hn delay (open_session db h n) eq_refl eq_refl
              else tick_enabled now db channel Hn delay (open_session db h n) eq_refl eq_refl) as Hw.
  specialize (Hw eq_refl). unfold wp in Hw. by destruct (tick_channel _ _ _ _) as [[audit|e] s'].
Qed.

Lemma second_tick_wp now db channel delay s :
  se_db s = db ->
  existsb (fun b => (au_channel_profile_id b =? cp_id channel)%string
     && (au_tick_id b =? "tick:" +:+ cp_id channel +:+ ":" +:+ utc_hour_bucket now)%string) (a_audits db) = true ->
  wp (tick_channel now channel delay) (fun _ _ => False) (fun _ => True) s.
Proof.
  intros Hdb Hex. unfold tick_channel. cbv zeta. do 11 wp_step.
  eapply wp_mono; [apply (steps_wp quiet_step), quiet_evaluate| |done]. intros first s1 [(q1 & o1 & H1) _ _]. do 3 wp_step.
  eapply wp_mono; [apply (steps_wp quiet_step), quiet_evaluate| |done]. intros second s2 [(q2 & o2 & H2) _ _]. wp_step.
  eapply wp_mono; [apply (steps_wp quiet_step), quiet_low_supply| |done]. intros low s3 [(q3 & o3 & H3) _ _]. do 3 wp_step.
  unfold add_audit. do 2 wp_step. change (a_audits (se_db _)) with (a_audits (se_db s3)).
  assert (a_audits (se_db s3) = a_audits db) as -> by (by rewrite H3, H2, H1, Hdb). cbn [au_channel_profile_id au_tick_id tick_audit].
  rewrite Hex. by wp_step.
Qed.

(** The identifier of a tick names an hour and is unique per channel: a second tick of a
    channel in one hour never succeeds, though the scheduler makes one every 15 minutes
    when the channel asks for it. *)
Theorem second_tick_in_hour_fails (now : datetime) (db : AgentDb) (channel : ChannelProfile) (channel_id : pyval) (id : uuid)
    (delay : Z) (item : option ChannelOpsQueueItem) (h : PdsHealth) (n : nat) (audit : AgentTickAudit) :
  audit ∈ a_audits db -> au_channel_profile_id audit = cp_id channel ->
  au_tick_id audit = "tick:" +:+ cp_id channel +:+ ":" +:+ utc_hour_bucket now ->
  _uuid channel_id = Ok id -> get_row cp_id id (a_channels db) = Some channel -> cp_owned_seed_inventory_id channel = None ->
  exists e s', tick now channel_id delay item (open_session db h n) = (Raise e, s').
Proof.
  intros Ha Hac Hat Hid Hch Hown. rewrite (tick_plain now db channel _ id) by done. destruct (negb _); [by do 2 eexists|].
  pose proof (second_tick_wp now db channel delay (open_session db h n) eq_refl) as Hw. unfold wp in Hw.
  destruct (tick_channel _ _ _ _) as [[a|e] s']; [|by do 2 eexists]. destruct Hw.
  apply existsb_exists. exists audit. split; [by apply list_elem_of_In|]. by rewrite Hac, Hat, !String.eqb_refl.
Qed.
End TickClaims.

(** ** A channel with two accounts, a lane and a seed *)

Module TickDemo.
#[export] Instance clients : AgentClients :=
  {| plan_task_answer := fun _ => Ok {| po_plan_id := uuid_str 77; po_nodes := [[("type", VStr "youtube_upload")]] |};
     execute_task_answer := fun _ => Ok {| xo_run_id := uuid_str 78; xo_pipeline_id := None; xo_job_id := Some (uuid_str 79);
                                           xo_status := "running"; xo_error_message := None |};
     observe_job_answer := fun _ => Ok {| jo_status := "running"; jo_error_message := None; jo_youtube := None |};
     approve_plan_answer := fun _ => Ok tt; quota_answer := fun _ => Ok (float_of_Z 1);
     schedule_publish_answer := fun _ => Ok []; fetch_metrics_answer := fun _ => Ok [("views", VInt 10)];
     fetch_status_answer := fun _ => Ok [("privacy", VStr "unlisted")]; refresh_token_answer := fun _ => Ok true;
     thumbnail_answer := fun _ => Ok [];
     decide_answer := fun _ => Ok {| pd_decision_id := "d1"; pd_verdict := "allow"; pd_score := float_of_Z 0; pd_reasons := [];
                                     pd_rules_version := "1"; pd_metadata := [] |};
     model_validate := fun r => Ok r; new_uuid := fun n => uuid_str (1000 + Z.of_nat n); sha256 := fun s => "sha:" +:+ s;
     exception_text := fun _ => "error"; pds_health_monitor_enabled := true |}.
#[export] Instance no_owned_tick : OwnedTick := fun _ _ _ _ => raise KeyError.

Definition channel (halted : option datetime) : ChannelProfile :=
  {| cp_id := uuid_str 1; cp_default_aspect_ratio := "9:16"; cp_risk_policy_json := []; cp_content_mix_policy_json := [];
     cp_cadence_policy_json := []; cp_enabled := true; cp_dry_run := false; cp_halted_at := halted;
     cp_halt_reason := None; cp_intake_paused_at := None; cp_config_version := 1;
     cp_owned_seed_inventory_id := None |}.
Definition lane : TopicLane :=
  {| la_id := uuid_str 2; la_channel_profile_id := uuid_str 1; la_name := "cats"; la_description := "";
     la_weight := float_of_Z 1; la_keywords_json := VList [VStr "cat"]; la_max_posts_per_day := 2;
     la_max_consecutive_streak := 0; la_cooldown_after_post_minutes := 0; la_enabled := true; la_paused_until := None;
     la_created_at := 0 |}.
Definition account (id : Z) : PublishingAccount :=
  {| ac_id := uuid_str id; ac_channel_profile_id := uuid_str 1; ac_platform := "youtube"; ac_account_label := "a";
     ac_default_privacy := "unlisted"; ac_external_asset_auto_publish := false; ac_enabled := true; ac_paused_until := None;
     ac_last_token_check_at := None; ac_last_token_check_status := None; ac_created_at := id |}.
Definition lane_format : LaneFormatMatrix :=
  {| lf_id := uuid_str 5; lf_topic_lane_id := uuid_str 2; lf_format_key := "short"; lf_enabled := true;
     lf_weight := float_of_Z 1; lf_target_duration_sec := 30; lf_template_pool_json := VList [];
     lf_source_platforms_json := VList []; lf_default_publish_visibility := "unlisted"; lf_created_at := 0 |}.
Definition seed : ManualSeed :=
  {| ms_id := uuid_str 6; ms_channel_profile_id := uuid_str 1; ms_topic_lane_id := None; ms_target_account_id := None;
     ms_prompt := "a cat"; ms_title_seed := "cat"; ms_source_platforms_json := VList [];
     ms_material_library_ids_json := VList [VStr "lib"]; ms_constraints_json := VDict []; ms_status := "active";
     ms_created_at := 0 |}.
Definition db (halted : option datetime) : AgentDb :=
  {| a_channels := [channel halted]; a_lanes := [lane]; a_accounts := [account 3; account 4]; a_formats := [lane_format];
     a_seeds := [seed]; a_audits := []; a_tasks := []; a_publications := []; a_ledger := []; a_takedowns := [];
     a_feedback := []; a_plans := []; a_runs := []; a_inventories := []; a_queue := []; a_outbox := [] |}.
Definition no_health : PdsHealth := {| ph_last_success_at := None; ph_last_alert_buckets := [] |}.

(** The seed and the lane give one task to each account. *)
Definition run (halted : option datetime) := tick DAY_US (VStr (uuid_str 1)) 60 None (open_session (db halted) no_health 0).

Example two_tasks :
  map tk_target_account_id (a_tasks (se_committed (run None).2)) = [uuid_str 3; uuid_str 4]
  /\ map qi_kind (a_queue (se_committed (run None).2)) = ["plan_task"; "plan_task"]
  /\ a_tasks (se_committed (run (Some 0%Z)).2) = [].
Proof. vm_compute. done. Qed.
Lemma run_selects_two : match run None with (Ok a, _) => au_tasks_selected a = 2%Z | _ => False end.
Proof. vm_compute. reflexivity. Qed.
End TickDemo.
#[local] Existing Instances TickDemo.clients TickDemo.no_owned_tick.

Lemma tick_selects_safely_witness :
  exists audit s' tasks, TickDemo.run None = (Ok audit, s') /\ length tasks = 2
    /\ selection DAY_US (TickDemo.db None) (TickDemo.channel None) audit (se_committed s') tasks.
Proof.
  pose proof (tick_selects_safely DAY_US (TickDemo.db None) (TickDemo.channel None) (VStr (uuid_str 1)) (uuid_str 1) 60 None
    TickDemo.no_health 0 ltac:(apply NoDup_singleton) ltac:(vm_compute; reflexivity) ltac:(vm_compute; reflexivity) eq_refl) as H.
  change (tick _ _ _ _ _) with (TickDemo.run None) in H. pose proof TickDemo.run_selects_two as H2.
  destruct (TickDemo.run None) as [[audit|e] s']; [|destruct H2]. destruct H as (tasks & Hsel & _).
  exists audit, s', tasks. split; [reflexivity|]. split; [|exact Hsel]. pose proof (sl_count _ _ _ _ _ _ Hsel). lia.
Defined.

Definition hour_audit : AgentTickAudit :=
  tick_audit DAY_US "au" (TickDemo.channel None) [] 0 [] [] [].

Lemma second_tick_in_hour_fails_witness :
  exists e s', tick (DAY_US + 1200000000) (VStr (uuid_str 1)) 0 None
    (open_session ((TickDemo.db None) <| a_audits := [hour_audit] |>) TickDemo.no_health 0) = (Raise e, s').
Proof.
  apply (second_tick_in_hour_fails _ _ (TickDemo.channel None) _ (uuid_str 1) _ _ _ _ hour_audit);
    [by left|reflexivity|vm_compute; reflexivity|vm_compute; reflexivity|vm_compute; reflexivity|reflexivity].
Defined.
