(* ===== verification/ChannelTasks.v ===== *)
(** * The life of a production task ([channel_agent/service.py])

    The handlers of the queue: a task is planned, executed, observed until its job is
    over, published, promoted, reconciled and measured.  Each handler loads its rows,
    asks the clients, changes the rows and enqueues what comes next, in one session.
    Tasks of an owned inventory branch off to [owned_producer.py], an interface here. *)

From stdpp Require Import base tactics list strings sorting.
From Stdlib Require Import ZArith Lia Ascii.
From S2P Require Import Prelude PyStr PyValue PyTime PyUuid Pipeline JobModel Outbox ChannelQueue MaterialUsage AgentModel HumanReview ChannelTick.

Open Scope string_scope.
Open Scope list_scope.

Definition _MAX_AUTOFLOW_OBSERVE_POLLS : Z := 20.
Definition _MAX_METRICS_POLLS : Z := 24.
Definition _METRICS_POLL_DELAY : Z := (60 * MINUTE_US)%Z.
Definition _RECOGNIZED_METRIC_KEYS : list string :=
  ["views"; "likes"; "comments"; "shares"; "avg_view_duration_sec"; "retention_curve_json"; "retention_curve"; "ctr";
   "impressions"; "virality_score"].

Definition _has_real_metrics (metrics : config) : bool :=
  existsb (fun key => if metrics.[? key] then true else false) _RECOGNIZED_METRIC_KEYS.

(** ** Requests to AutoFlow *)

Definition _SOURCE_STRATEGY_ALIASES : list (string * string) := [("external_search", "external_research")].
Definition _ALLOWED_SOURCE_STRATEGIES : list string :=
  ["auto"; "input_video"; "material_library"; "external_research"; "generate_missing"; "hybrid"].
Definition _ALLOWED_PLANNING_MODES : list string := ["auto"; "template"; "storyboard"; "ai_graph"].

Definition _normalize_source_strategy (v : pyval) : string :=
  let requested := lower (strip (py_str (py_or v (VStr "auto")))) in
  let normalized := dget_or _SOURCE_STRATEGY_ALIASES requested requested in
  if bool_decide (normalized ∈ _ALLOWED_SOURCE_STRATEGIES) then normalized else "auto".

Definition _normalize_planning_mode (v : pyval) : string :=
  let requested := lower (strip (py_str (py_or v (VStr "auto")))) in
  if bool_decide (requested ∈ _ALLOWED_PLANNING_MODES) then requested else "auto".

(** [uuid.UUID(str(value))], or nothing. *)
Definition uuid_or_none (v : option string) : option uuid :=
  match v with
  | None => None
  | Some s => match uuid_of_string s with Ok u => Some u | Raise _ => None end
  end.

Definition _owned_input_asset_id (constraints : config) : option string * bool :=
  match constraints.[? "input_asset_id"] with
  | None => (None, false)
  | Some (VStr value) =>
      if is_empty value then (None, false)
      else match uuid_or_none (Some value) with
           | Some parsed => if (parsed =? value)%string then (Some value, true) else (None, true)
           | None => (None, true)
           end
  | Some _ => (None, true)
  end.

(** Parts of the configuration a task was created with. *)
Definition snapshot_part (t : ProductionTask) (key : string) : config :=
  _dict_value (dict_get (_dict_value (tk_channel_config_snapshot_json t)) key).

Definition _desired_privacy_from_snapshot (t : ProductionTask) : option string :=
  _safe_privacy (dict_get (snapshot_part t "lane_format") "default_publish_visibility").

Definition _account_default_privacy_from_snapshot (t : ProductionTask) : option string :=
  _safe_privacy (dict_get (snapshot_part t "account") "default_privacy").

Definition _desired_privacy (t : ProductionTask) (account : PublishingAccount) : string :=
  match _desired_privacy_from_snapshot t with
  | Some p => p
  | None => default "unlisted" (_safe_privacy (VStr (ac_default_privacy account)))
  end.

Definition _autoflow_publish_mode (t : ProductionTask) : string :=
  let privacy :=
    match _desired_privacy_from_snapshot t with
    | Some p => p
    | None => default "unlisted" (_account_default_privacy_from_snapshot t)
    end in
  if (privacy =? "unlisted")%string then "unlisted_upload" else "private_upload".

(** The dictionary before its validation. *)
Definition autoflow_request_fields (t : ProductionTask) : Res config :=
  let channel := snapshot_part t "channel" in
  let lane_format := snapshot_part t "lane_format" in
  let manual_seed := snapshot_part t "manual_seed" in
  let lane := snapshot_part t "lane" in
  let risk_policy := _dict_value (dict_get channel "risk_policy_json") in
  let seed_constraints := _dict_value (dict_get manual_seed "constraints_json") in
  let '(input_asset_id, owned_input_profile) := _owned_input_asset_id seed_constraints in
  let constraints :=
    (fold_left (fun d p => d.[p.1 <- p.2]) (List.filter (fun p => negb (p.1 =? "input_asset_id")%string) seed_constraints)
       [("lane_id", dict_get lane "id"); ("lane_format_id", dict_get lane_format "id");
        ("template_pool_json", strings (_string_list (dict_get lane_format "template_pool_json")))])
      .["channelops" <- VDict [("production_task_id", VStr (tk_id t)); ("channel_profile_id", VStr (tk_channel_profile_id t))]] in
  duration ← _positive_int (dict_get lane_format "target_duration_sec") 30;
  let three key := py_or (py_or (dict_get manual_seed key) (dict_get seed_constraints key)) (dict_get risk_policy key) in
  let request :=
    [("prompt", VStr (tk_prompt t)); ("target_platforms", strings ["youtube"]);
     ("source_platforms", strings (_effective_source_platforms t)); ("duration_sec", VInt duration);
     ("aspect_ratio", VStr (py_str (py_or (dict_get channel "default_aspect_ratio") (VStr "9:16"))));
     ("source_policy", VStr (if _uses_external_assets t then "remix_with_review" else "owned_only"));
     ("publish_mode", VStr (_autoflow_publish_mode t));
     ("material_library_ids", strings (_string_list (tk_material_library_ids_json t)));
     ("source_strategy", VStr (_normalize_source_strategy (three "source_strategy")));
     ("planning_mode", VStr (_normalize_planning_mode (three "planning_mode"))); ("constraints", VDict constraints)] in
  if owned_input_profile then
    let request := match input_asset_id with Some a => request.["input_asset_id" <- VStr a] | None => request end in
    Ok (request.["source_platforms" <- VList []].["source_policy" <- VStr "owned_only"]
          .["source_strategy" <- VStr "input_video"].["planning_mode" <- VStr "template"])
  else Ok request.

(** ** Owned tasks *)

(** The handlers of [owned_producer.py] and of the [_owned] methods; [None] is
    [NOT_OWNED].  They run when some inventory has been approved. *)
Class OwnedDownstream := {
  owned_plan : ChannelOpsQueueItem -> M (option ProductionTask);
  owned_task : ChannelOpsQueueItem -> M (option ProductionTask);
  owned_publication : ChannelOpsQueueItem -> M (option (option PublicationRecord));
  owned_metrics : ChannelOpsQueueItem -> M (option (option FeedbackSnapshot)) }.

Definition approved_inventory (db : AgentDb) : bool :=
  existsb (fun i => if oi_approved_at i then true else false) (a_inventories db).

(** The item is left to the plain handlers: no inventory is approved, or those of owned
    inventories answer [NOT_OWNED] and change nothing. *)
Definition unowned `{!OwnedDownstream} (item : ChannelOpsQueueItem) (s : Session) : Prop :=
  approved_inventory (se_db s) = false
  \/ (owned_plan item s = (Ok None, s) /\ owned_task item s = (Ok None, s)
      /\ owned_publication item s = (Ok None, s) /\ owned_metrics item s = (Ok None, s)).

Definition unless_owned {A} (owned : M (option A)) (plain : M A) : M A :=
  b ← gets approved_inventory;
  if b : bool then (r ← owned; match r with Some a => mret a | None => plain end) else plain.

Section Handlers.
Context {AC : AgentClients} {OD : OwnedDownstream} (now : datetime).

Definition _autoflow_request (t : ProductionTask) : Res config :=
  request ← autoflow_request_fields t; model_validate request.

(** ** Changes of a task *)

(** A new state, with its entry in the history. *)
Definition move_task (state actor : string) (t : ProductionTask) : ProductionTask :=
  t <| tk_state := state |> <| tk_state_updated_at := now |>
    <| tk_transition_history_json ::= fun h => h ++ [_transition (tk_state t) state actor now] |>.

Definition hold_task (guard reason actor : string) (t : ProductionTask) : ProductionTask :=
  move_task TASK_HELD actor t <| tk_blocked_by_guard := Some guard |> <| tk_failure_reason := Some reason |>.

Definition fail_task (reason actor : string) (t : ProductionTask) : ProductionTask :=
  move_task TASK_FAILED actor t <| tk_failure_reason := Some reason |>.

(** Store the task, commit, return it. *)
Definition finish_task (t : ProductionTask) : M ProductionTask := _ ← save_task t; _ ← commit; mret t.

Definition _task_from_item (item : ChannelOpsQueueItem) : M ProductionTask :=
  id ← lift (payload_uuid item "production_task_id");
  t ← gets (fun db => get_row tk_id id (a_tasks db));
  match t with Some t => mret t | None => raise (ValueError "Production task not found") end.

Definition plan_of (t : ProductionTask) (db : AgentDb) : option AutoFlowPlan :=
  tk_autoflow_plan_id t ≫= fun id => get_row ap_id id (a_plans db).

Definition _hold_task_for_review (t : ProductionTask) (actor : string) : M ProductionTask :=
  finish_task (hold_task "human_review_evidence_invalid" "External asset human review evidence is missing or stale" actor t).

(** The held task, or nothing when the review is in order. *)
Definition _hold_invalid_external_review (t : ProductionTask) (actor : string) : M (option ProductionTask) :=
  if negb (_uses_external_assets t) then mret None
  else
    plan ← gets (plan_of t);
    valid ← lift (valid_pre_upload_evidence t plan);
    if valid : bool then mret None else (t' ← _hold_task_for_review t actor; mret (Some t')).

Definition enqueue_next (item : ChannelOpsQueueItem) (kind key : string) (payload : config) (priority : Z)
    (run_after : option datetime) (channel : option uuid) : M unit :=
  _ ← queue_enqueue now (request kind key payload priority run_after channel (Some (qi_id item))) true; mret tt.

(** ** Planning and execution *)

Definition plan_approval_request (t : ProductionTask) (plan_id : uuid) (account : option PublishingAccount)
    : PDSDecisionRequest :=
  {| pr_actor_id := tk_target_account_id t; pr_action_type := "plan_approval";
     pr_platform := match account with Some a => _account_platform a | None => "youtube" end;
     pr_content := [("title", VStr (tk_title_seed t)); ("description", VStr (tk_prompt t))];
     pr_context := [("production_task_id", VStr (tk_id t)); ("autoflow_plan_id", VStr plan_id);
                    ("channel_id", VStr (tk_channel_profile_id t))] |}.

(** The approval of an agent: the evidence goes into the task when the decision allows. *)
Definition agent_approval (t : ProductionTask) (plan_id : uuid) : M ProductionTask :=
  if negb (tk_approval_mode t =? "agent")%string then mret t
  else
    account ← gets (fun db => get_row ac_id (tk_target_account_id t) (a_accounts db));
    decision ← _decide_pds now (plan_approval_request t plan_id account);
    evidence ← lift (_pds_decision_event_metadata decision);
    if negb (pd_verdict decision =? "allow")%string then mret t
    else
      _ ← call (CallApprovePlan plan_id "channel_agent" evidence) approve_plan_answer;
      mret (t <| tk_agent_approval_evidence_json := evidence |>).

Definition plan_plain (item : ChannelOpsQueueItem) : M ProductionTask :=
  t ← _task_from_item item;
  req ← lift (_autoflow_request t);
  observation ← call (CallPlanTask (tk_id t) req) plan_task_answer;
  if negb (upload_node_count observation =? 1)%Z then
    (* the state is set before the history reads it *)
    finish_task (hold_task "missing_youtube_upload_node" "AutoFlow plan must contain exactly one youtube_upload node"
                   "plan_task" (t <| tk_state := TASK_HELD |>))
  else
    plan_id ← lift (uuid_of_string (po_plan_id observation));
    let t := t <| tk_autoflow_plan_id := Some plan_id |> in
    if _uses_external_assets t then
      finish_task (hold_task "human_approval_required" "AutoFlow plan requires human approval before execution"
                     "plan_task_human_approval" (t <| tk_approval_mode := "human" |>))
    else
      _ ← save_task t;
      t ← agent_approval t plan_id;
      let t := t <| tk_state := TASK_PLANNING |> <| tk_state_updated_at := now |> in
      _ ← save_task t;
      _ ← enqueue_next item "execute_task" ("execute_task:" +:+ tk_id t) [("production_task_id", VStr (tk_id t))] 60 None
            (Some (tk_channel_profile_id t));
      _ ← commit;
      mret t.

Definition handle_plan_task (item : ChannelOpsQueueItem) : M ProductionTask :=
  unless_owned (owned_plan item) (plan_plain item).

Definition observe_key (t : ProductionTask) (run_id job_id : string) (count : Z) : string :=
  "observe_job:" +:+ tk_id t +:+ ":" +:+ run_id +:+ ":" +:+ job_id +:+ ":" +:+ str_of_Z count.

Definition enqueue_observe (item : ChannelOpsQueueItem) (t : ProductionTask) (run_id job_id : string) (count : Z)
    (run_after : option datetime) : M unit :=
  enqueue_next item "observe_job" (observe_key t run_id job_id count)
    [("production_task_id", VStr (tk_id t)); ("run_id", VStr run_id); ("job_id", VStr job_id); ("observe_count", VInt count)]
    65 run_after (Some (tk_channel_profile_id t)).

Definition nonempty (s : option string) : bool := match s with Some s => negb (is_empty s) | None => false end.

(** [error_message or default]. *)
Definition error_or (m : option string) (dflt : string) : string := match m with Some s => or_text s dflt | None => dflt end.

(** A task that already has its job is put back to producing, unless it is over or held. *)
Definition resume_producing (t : ProductionTask) : ProductionTask :=
  if bool_decide (tk_state t ∈ TERMINAL_TASK_STATES) || (tk_state t =? TASK_HELD)%string then t
  else if (tk_state t =? TASK_PRODUCING)%string then t <| tk_state := TASK_PRODUCING |> <| tk_state_updated_at := now |>
  else move_task TASK_PRODUCING "execute_task" t.

Definition execute_plain (item : ChannelOpsQueueItem) : M ProductionTask :=
  t ← _task_from_item item;
  held ← _hold_invalid_external_review t "execute_task_human_review";
  match held with
  | Some t' => mret t'
  | None =>
      match tk_autoflow_run_id t, tk_job_id t with
      | Some run_id, Some job_id =>
          let t := resume_producing t in
          _ ← save_task t;
          _ ← enqueue_observe item t run_id job_id 0 None;
          _ ← commit;
          mret t
      | _, _ =>
          req ← lift (_autoflow_request t);
          o ← call (CallExecuteTask (tk_id t) req) execute_task_answer;
          if (_status_value (xo_status o) =? "failed")%string then
            finish_task (fail_task (error_or (xo_error_message o) "AutoFlow execution failed") "execute_task" t)
          else
            let pipeline_id := if nonempty (xo_pipeline_id o) then uuid_or_none (xo_pipeline_id o) else None in
            match uuid_or_none (Some (xo_run_id o)), uuid_or_none (xo_job_id o) with
            | None, _ => finish_task (fail_task "AutoFlow execution observation missing valid run_id" "execute_task" t)
            | _, None => finish_task (fail_task "AutoFlow execution observation missing valid job_id" "execute_task" t)
            | Some run_id, Some job_id =>
                if nonempty (xo_pipeline_id o) && bool_decide (pipeline_id = None) then
                  finish_task (fail_task "AutoFlow execution observation contains invalid pipeline_id" "execute_task" t)
                else
                  let t := t <| tk_autoflow_run_id := Some run_id |> <| tk_job_id := Some job_id |> in
                  let t := match pipeline_id with Some p => t <| tk_pipeline_id := Some p |> | None => t end in
                  let t := move_task TASK_PRODUCING "execute_task" t in
                  _ ← save_task t;
                  _ ← enqueue_observe item t run_id job_id 0 None;
                  _ ← commit;
                  mret t
            end
      end
  end.

Definition handle_execute_task (item : ChannelOpsQueueItem) : M ProductionTask :=
  unless_owned (owned_task item) (execute_plain item).

(** ** Observation *)

Definition RUNNING_STATUSES : list string := ["pending"; "running"; "queued"; "waiting_window"; "validating"; "planning"].

Definition optional_value (o : option string) : pyval := match o with Some s => VStr s | None => VNone end.

Definition observe_delay (count : Z) : Z := (Z.min (30 * 2 ^ count) 300 * 1000000)%Z.

Definition observe_plain (item : ChannelOpsQueueItem) : M ProductionTask :=
  t ← _task_from_item item;
  let payload := qi_payload_json item in
  let run_id := py_str (py_or (py_or (dict_get payload "run_id") (optional_value (tk_autoflow_run_id t))) (VStr "")) in
  let job_id := py_str (py_or (py_or (dict_get payload "job_id") (optional_value (tk_job_id t))) (VStr "")) in
  count ← lift (_nonnegative_int (dict_get payload "observe_count") 0);
  if (_MAX_AUTOFLOW_OBSERVE_POLLS <=? count)%Z then
    finish_task (hold_task "autoflow_observe_timeout" "AutoFlow job observation timed out" "observe_job" t)
  else
    o ← call (CallObserveJob run_id job_id) observe_job_answer;
    let status := _status_value (jo_status o) in
    if bool_decide (status ∈ RUNNING_STATUSES) then
      _ ← enqueue_observe item t run_id job_id (count + 1) (Some (now + observe_delay count)%Z);
      _ ← commit;
      mret t
    else if (status =? "failed")%string then
      finish_task (fail_task (error_or (jo_error_message o) "AutoFlow job failed") "observe_job" t)
    else
      let youtube := default [] (jo_youtube o) in
      let video_id := strip (py_str (py_or (dict_get youtube "video_id") (VStr ""))) in
      if is_empty video_id then
        finish_task (hold_task "missing_youtube_observation"
                       "AutoFlow job succeeded without a YouTube video id observation" "observe_job" t)
      else
        _ ← enqueue_next item "publish_task" ("publish_task:" +:+ tk_id t)
              [("production_task_id", VStr (tk_id t)); ("youtube", VDict youtube)] 66 None (Some (tk_channel_profile_id t));
        _ ← commit;
        mret t.

Definition handle_observe_job (item : ChannelOpsQueueItem) : M ProductionTask :=
  unless_owned (owned_task item) (observe_plain item).

(** ** Material *)

Definition _material_payloads_for_task (t : ProductionTask) (db : AgentDb) : config * config :=
  (match plan_of t db with
   | Some p => [("candidates", VList (ap_candidates_json p)); ("metadata", VDict (ap_metadata_json p));
                ("rights", VDict (ap_rights_json p))]
   | None => []
   end,
   match tk_autoflow_run_id t ≫= fun id => get_row ar_id id (a_runs db) with
   | Some r => [("artifacts", VDict (ar_artifacts_json r)); ("publish", VDict (ar_publish_json r))]
   | None => []
   end).

Definition _material_references_for_publish (t : ProductionTask) (upload_metadata : config) : M (list MaterialReference) :=
  payloads ← gets (_material_payloads_for_task t);
  lift (extract_material_references sha256 payloads.1 payloads.2 upload_metadata).

(** The guard that blocks, and the task as the guard leaves it. *)
Definition _publish_time_material_usage_guard (t : ProductionTask) (references : list MaterialReference)
    : M (option string * ProductionTask) :=
  match references with
  | [] => mret (None, t)
  | _ =>
      ledger ← gets a_ledger;
      let result := recent_usage_flags ledger (tk_channel_profile_id t) (tk_topic_lane_id t)
                      (Some (tk_target_account_id t)) references now in
      if negb (blocked result) then mret (None, t)
      else
        let manual_override := (tk_source t =? "manual_seed")%string in
        let t := t <| tk_rationale_json ::=
                   fun r => r.["material_usage_guard" <- VDict (usage_guard_json manual_override result)] |> in
        if manual_override then mret (None, t)
        else
          let guard := if ug_cross_account_rejected result then "cross_account_rejected" else "repetition_rejected" in
          mret (Some guard,
                hold_task guard ("publish-time material usage guard rejected task: " +:+ guard) "publish_task_material_guard" t)
  end.

Definition ledger_row (id : uuid) (t : ProductionTask) (p : PublicationRecord) (r : MaterialReference) : MaterialUsageLedger :=
  {| ml_id := id; ml_material_id := mr_material_id r; ml_asset_id := uuid_or_none (mr_asset_id r);
     ml_channel_profile_id := tk_channel_profile_id t; ml_topic_lane_id := tk_topic_lane_id t;
     ml_publishing_account_id := Some (tk_target_account_id t); ml_publication_id := Some (pu_id p); ml_used_at := now;
     ml_segment_signature := mr_segment_signature r; ml_metadata_json := mr_metadata r |}.

Definition ledger_key (r : MaterialUsageLedger) : string * string := (ml_material_id r, ml_segment_signature r).

Definition of_publication (p : uuid) (r : MaterialUsageLedger) : bool := bool_decide (ml_publication_id r = Some p).

(** One turn of the loop: [existing] are the keys the publication has. *)
Definition ledger_turn (t : ProductionTask) (p : PublicationRecord) (existing : list (string * string))
    (r : MaterialReference) : M (list (string * string)) :=
  if bool_decide (reference_key r ∈ existing) then mret existing
  else
    id ← fresh;
    _ ← modify (fun db => db <| a_ledger ::= fun l => l ++ [ledger_row id t p r] |>);
    mret (reference_key r :: existing).

Definition _write_material_usage_ledger (t : ProductionTask) (p : PublicationRecord) (references : list MaterialReference)
    : M unit :=
  match references with
  | [] => mret tt
  | _ =>
      existing ← gets (fun db => map ledger_key (List.filter (of_publication (pu_id p)) (a_ledger db)));
      _ ← forM (ledger_turn t p) existing references;
      mret tt
  end.

(** ** Publication *)

Definition _publication_for_task (t : ProductionTask) (db : AgentDb) : option PublicationRecord :=
  find (fun p => (pu_production_task_id p =? tk_id t)%string) (a_publications db).

(** [db.add] and [db.flush]: one row per task and per platform content. *)
Definition add_publication (p : PublicationRecord) : M unit :=
  clash ← gets (fun db => existsb (fun q => (pu_id q =? pu_id p)%string
                 || (pu_production_task_id q =? pu_production_task_id p)%string
                 || ((pu_platform q =? pu_platform p)%string
                     && (pu_platform_content_id q =? pu_platform_content_id p)%string)) (a_publications db));
  if clash : bool then raise IntegrityError else modify (fun db => db <| a_publications ::= fun l => l ++ [p] |>).

Definition new_publication (id : uuid) (t : ProductionTask) (account : PublishingAccount) (video_id : string)
    : PublicationRecord :=
  {| pu_id := id; pu_production_task_id := tk_id t; pu_platform := "youtube"; pu_account_id := ac_id account;
     pu_platform_content_id := video_id; pu_permalink := None;
     pu_title := or_text (tk_title_seed t) (stake 80 (tk_prompt t)); pu_description := tk_prompt t;
     pu_thumbnail_storage_path := None; pu_desired_privacy := _desired_privacy t account;
     pu_current_privacy := "private"; pu_publish_status := "uploaded"; pu_uploaded_at := Some now;
     pu_scheduled_publish_at := None; pu_public_at := None;
     pu_compliance_disposition := if (tk_source t =? "manual_seed")%string then "assumed_fair_use" else "known_risk_accepted";
     pu_quota_units_estimated := 1600; pu_last_metrics_polled_at := None; pu_warnings_json := []; pu_created_at := now |}.

(** [dict(value or {})] of a payload entry. *)
Definition payload_dict (v : pyval) : Res config :=
  match py_or v (VDict []) with VDict d => Ok d | _ => Raise TypeError end.

(** The publication of the task and the task, or nothing when the guard held it. *)
Definition publication_or_create (t : ProductionTask) (account : PublishingAccount) (video_id : string)
    (references : list MaterialReference) : M (option PublicationRecord * ProductionTask) :=
  existing ← gets (_publication_for_task t);
  match existing with
  | Some p => mret (Some p, t)
  | None =>
      guard ← _publish_time_material_usage_guard t references;
      let '(blocked_guard, t) := guard in
      match blocked_guard with
      | Some _ => mret (None, t)
      | None =>
          id ← fresh;
          let p := new_publication id t account video_id in
          _ ← add_publication p;
          mret (Some p, t)
      end
  end.

Definition with_thumbnail (r : Res config) (p : PublicationRecord) : PublicationRecord :=
  match r with
  | Ok thumbnail =>
      p <| pu_thumbnail_storage_path :=
           Some (py_str (py_or (py_or (dict_get thumbnail "storage_path") (dict_get thumbnail "image_url")) (VStr ""))) |>
  | Raise e => p <| pu_warnings_json ::= fun w => w ++ ["thumbnail_failed:" +:+ exception_text e] |>
  end.

(** From the references on: the record, the ledger, the thumbnail, the promotion. *)
Definition record_publication (item : ChannelOpsQueueItem) (t : ProductionTask) (account : PublishingAccount)
    (video_id : string) (references : list MaterialReference) : M (option PublicationRecord) :=
  made ← publication_or_create t account video_id references;
  let '(publication, t) := made in
  match publication with
  | None => _ ← finish_task t; mret None
  | Some p =>
      _ ← save_task t;
      _ ← _write_material_usage_ledger t p references;
      thumbnail ← attempt (call (CallThumbnail (tk_prompt t) (pu_title p)) thumbnail_answer);
      let p := with_thumbnail thumbnail p in
      let t := t <| tk_state := TASK_UPLOADED_PRIVATE |> <| tk_state_updated_at := now |> in
      _ ← save_publication p;
      _ ← save_task t;
      _ ← (if _uses_external_assets t then mret tt
           else
             let scheduled := isoformat_utc (now + 60 * MINUTE_US)%Z in
             enqueue_next item "promote_publication"
               ("promote_publication:" +:+ pu_id p +:+ ":" +:+ pu_desired_privacy p +:+ ":" +:+ scheduled)
               [("publication_id", VStr (pu_id p)); ("scheduled_at", VStr scheduled);
                ("target_visibility", VStr (pu_desired_privacy p))] 70 None (Some (tk_channel_profile_id t)));
      _ ← commit;
      mret (Some p)
  end.

Definition publish_plain (item : ChannelOpsQueueItem) : M (option PublicationRecord) :=
  t ← _task_from_item item;
  held ← _hold_invalid_external_review t "publish_task_human_review";
  match held with
  | Some _ => mret None
  | None =>
      account ← gets (fun db => get_row ac_id (tk_target_account_id t) (a_accounts db));
      match account with
      | None => raise (ValueError "Publishing account not found")
      | Some account =>
          remaining ← call (CallQuota (ac_id account)) quota_answer;
          if fltb remaining (dec 2 (-1)) then
            _ ← save_task (t <| tk_state := TASK_HELD |> <| tk_blocked_by_guard := Some "quota_below_20pct" |>
                             <| tk_failure_reason := Some "YouTube quota remaining below 20%" |>);
            _ ← _enqueue_alert now ALERT_QUOTA_LOW (ac_id account) "warning" "YouTube quota remaining below 20%"
                  [("remaining_fraction", VFloat remaining)] (Some (tk_channel_profile_id t));
            _ ← commit;
            mret None
          else
            youtube ← lift (payload_dict (dict_get (qi_payload_json item) "youtube"));
            let video_id := py_str (py_or (dict_get youtube "video_id") (VStr "")) in
            if is_empty video_id then
              _ ← finish_task (t <| tk_state := TASK_FAILED |>
                                 <| tk_failure_reason := Some "publish_task missing YouTube video id" |>);
              mret None
            else
              references ← _material_references_for_publish t youtube;
              record_publication item t account video_id references
      end
  end.

Definition handle_publish_task (item : ChannelOpsQueueItem) : M (option PublicationRecord) :=
  unless_owned (owned_publication item) (publish_plain item).

(** ** Promotion *)

(** [_parse_datetime] of the service. *)
Definition _parse_datetime (value : string) : Res datetime :=
  match fromisoformat value with
  | None => Raise (ValueError ("Invalid isoformat string: " +:+ str_repr value))
  | Some (t, _) => _utc t
  end.

Definition _publication_from_item (item : ChannelOpsQueueItem) : M PublicationRecord :=
  id ← lift (payload_uuid item "publication_id");
  p ← gets (fun db => get_row pu_id id (a_publications db));
  match p with Some p => mret p | None => raise (ValueError "Publication not found") end.

Definition task_of_publication (p : PublicationRecord) (db : AgentDb) : option ProductionTask :=
  get_row tk_id (pu_production_task_id p) (a_tasks db).

Definition rejected_publication (p : PublicationRecord) (task : option ProductionTask) : bool :=
  (pu_publish_status p =? "rejected")%string
  || match task with Some t => (tk_state t =? TASK_REJECTED)%string | None => false end.

Definition publish_request (p : PublicationRecord) (t : ProductionTask) (visibility : string) : PDSDecisionRequest :=
  {| pr_actor_id := pu_account_id p; pr_action_type := "publish"; pr_platform := or_text (pu_platform p) "youtube";
     pr_content := [("title", VStr (pu_title p)); ("description", VStr (pu_description p))];
     pr_context := [("publication_id", VStr (pu_id p)); ("task_id", VStr (tk_id t)); ("target_visibility", VStr visibility);
                    ("channel_id", VStr (tk_channel_profile_id t))] |}.

Definition emit_promotion (p : PublicationRecord) (action : string) (metadata : config) : M unit :=
  _emit_actor_action_event now (pu_account_id p) action (or_text (pu_platform p) "youtube") metadata.

(** The branch of a blocked or flagged publication. *)
Definition pds_hold (p : PublicationRecord) (t : ProductionTask) (metadata : config) (decision : PDSDecision)
    : M PublicationRecord :=
  let marker := if (pd_verdict decision =? "block")%string then "pds_blocked" else "pds_flagged_for_review" in
  let t := hold_task marker ("PDS verdict: " +:+ pd_verdict decision) "pds_gate" t <| tk_failure_category := Some "pds" |> in
  let p := p <| pu_warnings_json ::= fun w => w ++ [marker +:+ ":" +:+ pd_decision_id decision] |> in
  _ ← save_task t;
  _ ← save_publication p;
  extra ← lift (_pds_decision_event_metadata decision);
  _ ← emit_promotion p "publication_promotion_blocked" (metadata ++ [("guard", VStr marker)] ++ extra);
  _ ← commit;
  mret p.

(** The branch that schedules: the platform first, then the rows, the event and the
    items that follow the publication. *)
Definition schedule_publication (item : ChannelOpsQueueItem) (p : PublicationRecord) (t : ProductionTask)
    (scheduled_at : datetime) (visibility : string) (metadata : config) (decision : PDSDecision) : M PublicationRecord :=
  _ ← call (CallSchedulePublish (pu_platform_content_id p) scheduled_at visibility) schedule_publish_answer;
  let p := p <| pu_publish_status := "scheduled" |> <| pu_desired_privacy := visibility |>
             <| pu_scheduled_publish_at := Some scheduled_at |> in
  let t := move_task TASK_SCHEDULED "promote_publication" t in
  _ ← save_publication p;
  _ ← save_task t;
  extra ← lift (_pds_decision_event_metadata decision);
  _ ← emit_promotion p "publication_scheduled" (metadata ++ extra);
  first_poll ← lift (_utc (scheduled_at + _METRICS_POLL_DELAY)%Z);
  _ ← enqueue_next item "collect_metrics" ("collect_metrics:" +:+ pu_id p +:+ ":poll:0")
        [("publication_id", VStr (pu_id p)); ("metrics_poll_count", VInt 0)] 90 (Some first_poll)
        (Some (tk_channel_profile_id t));
  reconcile_at ← lift (_utc (scheduled_at + 30 * MINUTE_US)%Z);
  _ ← enqueue_next item "reconcile_publication"
        ("reconcile_publication:" +:+ pu_id p +:+ ":" +:+ isoformat_utc scheduled_at)
        [("publication_id", VStr (pu_id p))] 80 (Some reconcile_at) (Some (tk_channel_profile_id t));
  _ ← commit;
  mret p.

(** Whether the review a promotion needs is missing or stale. *)
Definition promotion_review_missing (item : ChannelOpsQueueItem) (p : PublicationRecord) (t : ProductionTask)
    (plan : option AutoFlowPlan) (visibility : string) : Res bool :=
  let external_assets := _uses_external_assets t in
  pre ← (if external_assets then valid_pre_upload_evidence t plan else Ok true);
  if negb pre then Ok true
  else if external_assets || truthy (dict_get (qi_payload_json item) "manual_review") then
    valid ← valid_promotion_evidence t plan (pu_id p) visibility external_assets; Ok (negb valid)
  else Ok false.

Definition target_visibility (item : ChannelOpsQueueItem) (p : PublicationRecord) : string :=
  default "unlisted"
    (_safe_privacy (py_or (dict_get (qi_payload_json item) "target_visibility") (VStr (pu_desired_privacy p)))).

Definition promote_plain (item : ChannelOpsQueueItem) : M PublicationRecord :=
  p ← _publication_from_item item;
  task ← gets (task_of_publication p);
  if rejected_publication p task then mret p
  else
    match task with
    | None => raise (ValueError "Publication is not ready for promotion")
    | Some t =>
        if negb (pu_publish_status p =? "uploaded")%string
           || negb (bool_decide (tk_state t ∈ [TASK_UPLOADED_PRIVATE; TASK_HELD]))
        then raise (ValueError "Publication is not ready for promotion")
        else
          scheduled_at ← lift (_parse_datetime (py_str (py_or (dict_get (qi_payload_json item) "scheduled_at")
                                                          (VStr (isoformat_utc now)))));
          let visibility := target_visibility item p in
          plan ← gets (plan_of t);
          missing ← lift (promotion_review_missing item p t plan visibility);
          if missing : bool then (_ ← _hold_task_for_review t "promote_publication_human_review"; mret p)
          else
            let metadata := [("task_id", VStr (tk_id t)); ("publication_id", VStr (pu_id p));
                             ("target_visibility", VStr visibility); ("scheduled_at", VStr (isoformat_utc scheduled_at))] in
            _ ← emit_promotion p "publication_promotion_attempted" metadata;
            decision ← _decide_pds now (publish_request p t visibility);
            if bool_decide (pd_verdict decision ∈ ["block"; "flag"]) then pds_hold p t metadata decision
            else schedule_publication item p t scheduled_at visibility metadata decision
    end.

Definition handle_promote_publication (item : ChannelOpsQueueItem) : M (option PublicationRecord) :=
  unless_owned (owned_publication item) (p ← promote_plain item; mret (Some p)).

(** ** Reconciliation *)

(** [str(status.get(a) or status.get(b) or dflt).strip()]. *)
Definition status_text (status : config) (keys : list string) (dflt : string) : string :=
  strip (py_str (foldr (fun key v => py_or (dict_get status key) v) (VStr dflt) keys)).

Definition SEVERE_STATES : list string := ["rejected"; "removed"; "failed"; "claim"; "claimed"; "blocked"].

Definition reconciled (p : PublicationRecord) (status : config) : PublicationRecord :=
  let privacy := lower (status_text status ["privacy"; "current_privacy"] "") in
  let publish_status := lower (status_text status ["publish_status"; "processing_state"; "upload_status"] (pu_publish_status p)) in
  let permalink := status_text status ["permalink"; "url"] "" in
  let error_message := status_text status ["error_message"; "failure_reason"] "" in
  let p := if is_empty privacy then p else p <| pu_current_privacy := privacy |> in
  let p := if is_empty publish_status then p else p <| pu_publish_status := publish_status |> in
  let p := if is_empty permalink then p else p <| pu_permalink := Some permalink |> in
  let p := if is_empty error_message then p
           else p <| pu_warnings_json ::= fun w => w ++ ["platform_status:" +:+ error_message] |> in
  if bool_decide (publish_status ∈ SEVERE_STATES) then
    p <| pu_publish_status := if bool_decide (publish_status ∈ ["removed"; "claim"; "claimed"]) then "removed" else "rejected" |>
  else p.

Definition reconciled_task (p : PublicationRecord) (status : config) (t : ProductionTask) : ProductionTask :=
  let publish_status := lower (status_text status ["publish_status"; "processing_state"; "upload_status"] (pu_publish_status p)) in
  let error_message := status_text status ["error_message"; "failure_reason"] "" in
  let t := if is_empty error_message then t else t <| tk_failure_reason := Some error_message |> in
  if bool_decide (publish_status ∈ SEVERE_STATES) then
    hold_task "platform_rejected" (or_text error_message ("YouTube reported " +:+ publish_status)) "reconcile_publication" t
  else t.

Definition reconcile_plain (item : ChannelOpsQueueItem) : M PublicationRecord :=
  p ← _publication_from_item item;
  status ← call (CallFetchStatus (pu_platform_content_id p)) fetch_status_answer;
  task ← gets (task_of_publication p);
  let p' := reconciled p status in
  _ ← save_publication p';
  _ ← (match task with Some t => save_task (reconciled_task p status t) | None => mret tt end);
  let publish_status := lower (status_text status ["publish_status"; "processing_state"; "upload_status"] (pu_publish_status p)) in
  _ ← (if bool_decide (publish_status ∈ SEVERE_STATES) then
         id ← fresh;
         modify (fun db => db <| a_takedowns ::= fun l => l ++
           [{| te_id := id; te_publication_id := pu_id p; te_event_type := publish_status; te_detected_at := now;
               te_severity := "severe"; te_raw_payload_json := status; te_auto_actions_taken_json := [] |}] |>)
       else mret tt);
  _ ← commit;
  mret p'.

Definition handle_reconcile_publication (item : ChannelOpsQueueItem) : M (option PublicationRecord) :=
  unless_owned (owned_publication item) (p ← reconcile_plain item; mret (Some p)).

(** ** Metrics *)

Definition _feedback_snapshot_for_publication (p : uuid) (db : AgentDb) : option FeedbackSnapshot :=
  head (merge_sort (newest_le fe_collected_at) (List.filter (fun f => (fe_publication_id f =? p)%string) (a_feedback db))).

Definition measured_snapshot (id publication : uuid) (stage : string) (metrics payload : config) : Res FeedbackSnapshot :=
  views ← _nonnegative_int (dict_get metrics "views") 0;
  likes ← _nonnegative_int (dict_get metrics "likes") 0;
  comments ← _nonnegative_int (dict_get metrics "comments") 0;
  shares ← _nonnegative_int (dict_get metrics "shares") 0;
  duration ← _nonnegative_float (dict_get metrics "avg_view_duration_sec") (float_of_Z 0);
  ctr ← _optional_float (dict_get metrics "ctr");
  impressions ← _optional_int (dict_get metrics "impressions");
  virality ← _nonnegative_float (dict_get metrics "virality_score") (float_of_Z 0);
  Ok {| fe_id := id; fe_publication_id := publication; fe_snapshot_stage := stage; fe_collected_at := now;
        fe_views := views; fe_likes := likes; fe_comments := comments; fe_shares := shares;
        fe_avg_view_duration_sec := duration;
        fe_retention_curve_json := _list_value (py_or (dict_get metrics "retention_curve_json") (dict_get metrics "retention_curve"));
        fe_ctr := ctr; fe_impressions := impressions; fe_virality_score := virality; fe_raw_json := payload |}.

(** The metrics of the payload, or of the platform; with the payload that records them. *)
Definition find_metrics (p : PublicationRecord) (payload : config) : M (config * config) :=
  let metrics := _dict_value (dict_get payload "metrics") in
  if _has_real_metrics metrics || is_empty (pu_platform_content_id p) then mret (metrics, payload)
  else
    r ← attempt (call (CallFetchMetrics (pu_platform_content_id p)) fetch_metrics_answer);
    let fetched := ok_or [] r in
    if _has_real_metrics fetched
    then mret (fetched, payload.["metrics" <- VDict fetched].["metrics_source" <- VStr "youtube_manager"])
    else mret (metrics, payload).

Definition save_optional (t : option ProductionTask) : M unit :=
  match t with Some t => save_task t | None => mret tt end.

(** Without metrics: another poll, or the task is held. *)
Definition metrics_missing (item : ChannelOpsQueueItem) (p : PublicationRecord) (task : option ProductionTask)
    (payload : config) : M unit :=
  count ← lift (_nonnegative_int (dict_get payload "metrics_poll_count") 0);
  _ ← save_publication (p <| pu_last_metrics_polled_at := Some now |>);
  if (_MAX_METRICS_POLLS <=? count + 1)%Z then
    _ ← save_optional (hold_task "metrics_unavailable" "Publication metrics were unavailable after polling" "collect_metrics"
                         <$> task);
    commit
  else
    _ ← enqueue_next item "collect_metrics" ("collect_metrics:" +:+ pu_id p +:+ ":poll:" +:+ str_of_Z (count + 1))
          [("publication_id", VStr (pu_id p)); ("metrics_poll_count", VInt (count + 1))] 90
          (Some (now + _METRICS_POLL_DELAY)%Z)
          (match task with Some t => Some (tk_channel_profile_id t) | None => qi_channel_profile_id item end);
    commit.

Definition save_feedback (f : FeedbackSnapshot) (is_new : bool) : M unit :=
  if is_new then modify (fun db => db <| a_feedback ::= fun l => l ++ [f] |>)
  else modify (fun db => db <| a_feedback ::= put_row fe_id f |>).

(** The metrics that were found go into the snapshot of the publication. *)
Definition store_metrics (item : ChannelOpsQueueItem) (p : PublicationRecord) (task : option ProductionTask)
    (found : config * config) : M (option FeedbackSnapshot) :=
  let '(metrics, payload) := found in
  if negb (_has_real_metrics metrics) then (_ ← metrics_missing item p task payload; mret None)
  else
    existing ← gets (_feedback_snapshot_for_publication (pu_id p));
    f ← (match existing with
         | Some f => lift (measured_snapshot (fe_id f) (pu_id p) (fe_snapshot_stage f) metrics payload)
         | None => id ← fresh; lift (measured_snapshot id (pu_id p) "24h" metrics payload)
         end);
    _ ← save_feedback f (bool_decide (existing = None));
    _ ← save_publication (p <| pu_last_metrics_polled_at := Some now |>);
    _ ← save_optional (move_task TASK_MEASURED "collect_metrics" <$> task);
    _ ← commit;
    mret (Some f).

Definition collect_plain (item : ChannelOpsQueueItem) : M (option FeedbackSnapshot) :=
  p ← _publication_from_item item;
  task ← gets (task_of_publication p);
  if rejected_publication p task then mret None
  else
    found ← find_metrics p (qi_payload_json item);
    store_metrics item p task found.

Definition handle_collect_metrics (item : ChannelOpsQueueItem) : M (option FeedbackSnapshot) :=
  unless_owned (owned_metrics item) (collect_plain item).

(** ** Accounts *)

Definition handle_account_health (item : ChannelOpsQueueItem) : M PublishingAccount :=
  id ← lift (payload_uuid item "account_id");
  account ← gets (fun db => get_row ac_id id (a_accounts db));
  match account with
  | None => raise (ValueError "Account not found")
  | Some account =>
      ok ← call (CallRefreshToken (ac_id account)) refresh_token_answer;
      let account := account <| ac_last_token_check_at := Some now |>
                       <| ac_last_token_check_status := Some (if ok : bool then "ok" else "invalid") |> in
      let account := if ok then account else account <| ac_enabled := false |> in
      _ ← save_account account;
      _ ← when (negb ok)
            (_ ← _enqueue_alert now ALERT_TOKEN_EXPIRING (ac_id account) "warning" "YouTube OAuth token refresh failed"
                   [("account_label", VStr (ac_account_label account))] (Some (ac_channel_profile_id account)); mret tt);
      _ ← commit;
      mret account
  end.

Definition log_takedown_event (publication_id : pyval) (event_type severity : string) (raw_payload : config)
    : M TakedownEvent :=
  pid ← lift (_uuid publication_id);
  publication ← gets (fun db => get_row pu_id pid (a_publications db));
  match publication with
  | None => raise (ValueError "Publication not found")
  | Some p =>
      id ← fresh;
      account ← gets (fun db => get_row ac_id (pu_account_id p) (a_accounts db));
      task ← gets (task_of_publication p);
      let channel := match task with Some t => Some (tk_channel_profile_id t) | None => ac_channel_profile_id <$> account end in
      let severe := (severity =? "severe")%string in
      let actions := match account with
                     | Some a => if severe then ["paused_account:" +:+ ac_id a] else []
                     | None => []
                     end in
      let event := {| te_id := id; te_publication_id := pu_id p; te_event_type := event_type; te_detected_at := now;
                      te_severity := severity; te_raw_payload_json := raw_payload; te_auto_actions_taken_json := actions |} in
      _ ← modify (fun db => db <| a_takedowns ::= fun l => l ++ [event] |>);
      _ ← (match account with
           | Some a => when severe (save_account (a <| ac_enabled := false |>))
           | None => mret tt
           end);
      _ ← _enqueue_alert now ALERT_TAKEDOWN (pu_id p) severity ("YouTube takedown event logged: " +:+ event_type)
            [("event_type", VStr event_type); ("publication_id", VStr (pu_id p))] channel;
      _ ← commit;
      mret event
  end.

(** ** Dispatch ([runner.py]) *)

(** The handlers of the life of a task, by the kind of their item. *)
Definition TASK_KINDS : list string :=
  ["plan_task"; "execute_task"; "observe_job"; "publish_task"; "promote_publication"; "reconcile_publication";
   "collect_metrics"; "account_health"].

Definition handle_task_item (item : ChannelOpsQueueItem) : M unit :=
  let kind := qi_kind item in
  if (kind =? "plan_task")%string then (_ ← handle_plan_task item; mret tt)
  else if (kind =? "execute_task")%string then (_ ← handle_execute_task item; mret tt)
  else if (kind =? "observe_job")%string then (_ ← handle_observe_job item; mret tt)
  else if (kind =? "publish_task")%string then (_ ← handle_publish_task item; mret tt)
  else if (kind =? "promote_publication")%string then (_ ← handle_promote_publication item; mret tt)
  else if (kind =? "reconcile_publication")%string then (_ ← handle_reconcile_publication item; mret tt)
  else if (kind =? "collect_metrics")%string then (_ ← handle_collect_metrics item; mret tt)
  else if (kind =? "account_health")%string then (_ ← handle_account_health item; mret tt)
  else raise (ValueError ("Unsupported ChannelOps queue kind: " +:+ kind)).
End Handlers.
