(* ===== verification/TaskSafe.v ===== *)
(** * What the handlers may do outside ([channel_agent/service.py])

    Executions and publications are the effects that cannot be taken back.  Which calls
    a handler makes is tracked by [calls_only]; the two calls that matter are followed
    back to the checks before them. *)

From stdpp Require Import base tactics list strings.
From Stdlib Require Import ZArith Lia.
From S2P Require Import Prelude PyStr PyValue PyTime PyUuid Pipeline JobModel Outbox ChannelQueue MaterialUsage AgentModel HumanReview AgentLogic ChannelTick ChannelTasks.

Open Scope string_scope.
Open Scope list_scope.

(** ** Calls *)

Definition calls_only (P : client_call -> Prop) (s s' : Session) : Prop :=
  exists extra, se_calls s' = se_calls s ++ extra /\ Forall P extra.

#[export] Instance calls_only_preorder P : PreOrder (calls_only P).
Proof.
  split.
  - intros s. exists []. by rewrite app_nil_r.
  - intros s1 s2 s3 (e1 & H1 & F1) (e2 & H2 & F2). exists (e1 ++ e2). rewrite H2, H1, app_assoc. split; [done|].
    by apply Forall_app.
Qed.

Lemma calls_only_same P s s' : se_calls s' = se_calls s -> calls_only P s s'.
Proof. intros H. exists []. by rewrite app_nil_r. Qed.

(** Calls that change nothing outside for good. *)
Definition harmless (c : client_call) : Prop :=
  match c with CallExecuteTask _ _ | CallSchedulePublish _ _ _ => False | _ => True end.

Abbreviation gentle := (steps (calls_only harmless)).

Lemma gentle_call {A} c (answer : list client_call -> Res A) : harmless c -> gentle (call c answer).
Proof. intros Hc s. exists [c]. split; [done|]. by constructor. Qed.
Lemma gentle_modify f : gentle (modify f).
Proof. intros s. by apply calls_only_same. Qed.
Lemma gentle_commit : gentle commit.
Proof. intros s. by apply calls_only_same. Qed.
Lemma gentle_fresh `{!AgentClients} : gentle fresh.
Proof. intros s. by apply calls_only_same. Qed.
Lemma gentle_set_health f : gentle (set_health f).
Proof. intros s. by apply calls_only_same. Qed.
#[export] Hint Resolve gentle_modify gentle_commit gentle_fresh gentle_set_health : steps.
#[export] Hint Extern 1 (gentle (call _ _)) => (apply gentle_call; exact I) : steps.

(** The handlers of owned inventories do not take the item. *)
Ltac not_taken H := destruct H as [?|(?&?&?&?)]; solve [by left | by right].

Section Gentle.
Context {AC : AgentClients} {OD : OwnedDownstream} (now : datetime).

Lemma gentle_enqueue r b : gentle (queue_enqueue now r b).
Proof. unfold queue_enqueue. auto 10 with steps. Qed.
Hint Resolve gentle_enqueue : steps.
Lemma gentle_emit actor action platform metadata : gentle (_emit_actor_action_event now actor action platform metadata).
Proof. unfold _emit_actor_action_event. auto 10 with steps. Qed.
Lemma gentle_alert t r sev msg d c : gentle (_enqueue_alert now t r sev msg d c).
Proof. unfold _enqueue_alert. auto with steps. Qed.
Lemma gentle_decide r : gentle (_decide_pds now r).
Proof. unfold _decide_pds, _maybe_enqueue_pds_outage_alert. auto 30 with steps. Qed.
Lemma gentle_next item kind key payload priority run_after channel :
  gentle (enqueue_next now item kind key payload priority run_after channel).
Proof. unfold enqueue_next. auto with steps. Qed.
Lemma gentle_save_task t : gentle (save_task t).
Proof. apply gentle_modify. Qed.
Lemma gentle_save_publication p : gentle (save_publication p).
Proof. apply gentle_modify. Qed.
Lemma gentle_save_account a : gentle (save_account a).
Proof. apply gentle_modify. Qed.
Hint Resolve gentle_emit gentle_alert gentle_decide gentle_next gentle_save_task gentle_save_publication gentle_save_account : steps.
Lemma gentle_finish t : gentle (finish_task t).
Proof. unfold finish_task. auto with steps. Qed.
Hint Resolve gentle_finish : steps.
Lemma gentle_task_from_item item : gentle (_task_from_item item).
Proof. unfold _task_from_item. auto 10 with steps. Qed.
Lemma gentle_publication_from_item item : gentle (_publication_from_item item).
Proof. unfold _publication_from_item. auto 10 with steps. Qed.
Lemma gentle_hold_review t actor : gentle (_hold_task_for_review now t actor).
Proof. unfold _hold_task_for_review. auto with steps. Qed.
Hint Resolve gentle_task_from_item gentle_publication_from_item gentle_hold_review : steps.
Lemma gentle_invalid_review t actor : gentle (_hold_invalid_external_review now t actor).
Proof. unfold _hold_invalid_external_review. auto 10 with steps. Qed.
Hint Resolve gentle_invalid_review : steps.

Lemma gentle_plan item : gentle (plan_plain now item).
Proof. unfold plan_plain, agent_approval. auto 30 with steps. Qed.
Lemma gentle_observe item : gentle (observe_plain now item).
Proof. unfold observe_plain, enqueue_observe. auto 30 with steps. Qed.
Lemma gentle_ledger t p refs : gentle (_write_material_usage_ledger now t p refs).
Proof. unfold _write_material_usage_ledger, ledger_turn. auto 30 with steps. Qed.
Hint Resolve gentle_ledger : steps.
Lemma gentle_create t account video refs : gentle (publication_or_create now t account video refs).
Proof. unfold publication_or_create, _publish_time_material_usage_guard, add_publication. auto 30 with steps. Qed.
Hint Resolve gentle_create : steps.
Lemma gentle_publish item : gentle (publish_plain now item).
Proof. unfold publish_plain, record_publication, _material_references_for_publish. auto 40 with steps. Qed.
Lemma gentle_reconcile item : gentle (reconcile_plain now item).
Proof. unfold reconcile_plain. auto 30 with steps. Qed.
Lemma gentle_collect item : gentle (collect_plain now item).
Proof. unfold collect_plain, find_metrics, store_metrics, metrics_missing, save_feedback, save_optional. auto 40 with steps. Qed.
Lemma gentle_health item : gentle (handle_account_health now item).
Proof. unfold handle_account_health. auto 30 with steps. Qed.
#[local] Hint Resolve gentle_plan gentle_observe gentle_publish gentle_reconcile gentle_collect gentle_health : steps.

(** ** Executions *)

(** The review a task needs before its plan is executed. *)
Definition review_in_order (db : AgentDb) (t : ProductionTask) : Prop :=
  _uses_external_assets t = true -> valid_pre_upload_evidence t (plan_of t db) = Ok true.

Definition execution_reviewed (db : AgentDb) (c : client_call) : Prop :=
  match c with
  | CallExecuteTask tid _ => exists t, t ∈ a_tasks db /\ tk_id t = tid /\ review_in_order db t
  | CallSchedulePublish _ _ _ => False
  | _ => True
  end.

Lemma calls_only_mono (P Q : client_call -> Prop) s s' : (forall c, P c -> Q c) -> calls_only P s s' -> calls_only Q s s'.
Proof. intros H (e & He & HF). exists e. split; [done|]. eapply Forall_impl; eauto. Qed.

Lemma harmless_execution db c : harmless c -> execution_reviewed db c.
Proof. by destruct c. Qed.

(** A gentle program, as a precondition of what follows it. *)
Lemma wp_gentle {A} (m : M A) s : gentle m -> wp m (fun _ => calls_only harmless s) (calls_only harmless s) s.
Proof. apply steps_wp. Qed.

Lemma wp_task_from_item item s : wp (_task_from_item item)
  (fun t s' => s' = s /\ t ∈ a_tasks (se_db s)) (fun s' => s' = s) s.
Proof.
  unfold _task_from_item. repeat wp_step. apply wp_lift; [|done]. intros id _. repeat wp_step.
  destruct (get_row tk_id id _) as [t|] eqn:Hg; repeat wp_step; [|done]. split; [done|]. by apply find_some in Hg as [?%list_elem_of_In _].
Qed.

Lemma wp_invalid_review t actor s : wp (_hold_invalid_external_review now t actor)
  (fun r s' => match r with None => s' = s /\ review_in_order (se_db s) t | Some _ => calls_only harmless s s' end)
  (calls_only harmless s) s.
Proof.
  unfold _hold_invalid_external_review, review_in_order. destruct (_uses_external_assets t) eqn:Hu; simpl; [|by repeat wp_step].
  repeat wp_step. apply wp_lift; [|reflexivity]. intros [] Hv; repeat wp_step; [done|].
  eapply wp_mono; [apply wp_gentle, gentle_hold_review|intros t' s' Hs; by repeat wp_step|done].
Qed.

Lemma wp_gentle_after (P : client_call -> Prop) {A} (m : M A) s s1 : (forall c, harmless c -> P c) -> gentle m ->
  calls_only P s s1 -> wp m (fun _ => calls_only P s) (calls_only P s) s1.
Proof.
  intros HP Hm H1. eapply wp_mono; [by apply wp_gentle|intros a s' H|intros s' H];
    (etrans; [exact H1|apply (calls_only_mono _ _ _ _ HP H)]).
Qed.

Lemma execute_reviewed item s :
  wp (execute_plain now item) (fun _ => calls_only (execution_reviewed (se_db s)) s) (calls_only (execution_reviewed (se_db s)) s) s.
Proof.
  pose proof (harmless_execution (se_db s)) as Hex.
  unfold execute_plain. wp_step. eapply wp_mono; [apply wp_task_from_item| |by intros s' ->].
  intros t s' [-> Ht]. wp_step. eapply wp_mono; [apply wp_invalid_review| |intros s'; by apply calls_only_mono].
  intros [t'|] s'; [intros H; wp_step; by eapply calls_only_mono|]. intros [-> Hr].
  assert (forall req, calls_only (execution_reviewed (se_db s)) s
            (s <| se_calls := se_calls s ++ [CallExecuteTask (tk_id t) req] |>)) as Hcall.
  { intros req. eexists. split; [done|]. repeat constructor. by exists t. }
  destruct (tk_autoflow_run_id t), (tk_job_id t);
    [apply wp_gentle_after; [done|unfold enqueue_observe; auto 20 with steps|reflexivity]|..];
    (wp_step; apply wp_lift; [|reflexivity]; intros req _; wp_step; apply wp_call; [|apply Hcall];
     intros o; apply wp_gentle_after; [done|unfold enqueue_observe; auto 30 with steps|apply Hcall]).
Qed.

(** ** Publications *)

(** What stands behind a publication that is scheduled: the upload of a task that is
    ready, a visibility that is not public, the reviews, and the decision on it. *)
Record publication_gated (db : AgentDb) (item : ChannelOpsQueueItem) (vid vis : string) : Prop := {
  pg_rows : exists p t, p ∈ a_publications db /\ pu_platform_content_id p = vid /\ pu_publish_status p = "uploaded"
    /\ task_of_publication p db = Some t /\ tk_state t ∈ [TASK_UPLOADED_PRIVATE; TASK_HELD]
    /\ review_in_order db t
    /\ (_uses_external_assets t || truthy (dict_get (qi_payload_json item) "manual_review") = true ->
          valid_promotion_evidence t (plan_of t db) (pu_id p) vis (_uses_external_assets t) = Ok true)
    /\ exists d, decide_answer [CallDecide (publish_request p t vis)] = Ok d /\ pd_verdict d ∉ ["block"; "flag"];
  pg_visibility : vis ∈ _SAFE_PRIVACY_VALUES }.

Definition effect_gated (db : AgentDb) (item : ChannelOpsQueueItem) (c : client_call) : Prop :=
  match c with CallSchedulePublish vid _ vis => publication_gated db item vid vis | _ => execution_reviewed db c end.

Lemma harmless_gated db item c : harmless c -> effect_gated db item c.
Proof. by destruct c. Qed.
Lemma execution_gated db item c : execution_reviewed db c -> effect_gated db item c.
Proof. by destruct c. Qed.

Lemma target_visibility_safe item p : target_visibility item p ∈ _SAFE_PRIVACY_VALUES.
Proof.
  unfold target_visibility, _safe_privacy. case_bool_decide; simpl; [done|]. by repeat constructor.
Qed.

Lemma review_not_missing item p t plan vis : promotion_review_missing item p t plan vis = Ok false ->
  (_uses_external_assets t = true -> valid_pre_upload_evidence t plan = Ok true)
  /\ (_uses_external_assets t || truthy (dict_get (qi_payload_json item) "manual_review") = true ->
        valid_promotion_evidence t plan (pu_id p) vis (_uses_external_assets t) = Ok true).
Proof.
  unfold promotion_review_missing. destruct (_uses_external_assets t).
  - destruct (valid_pre_upload_evidence t plan) as [[]|]; simpl; [|done..].
    destruct (valid_promotion_evidence _ _ _ _ _) as [[]|]; simpl; done.
  - simpl. destruct (truthy _); [|done]. destruct (valid_promotion_evidence _ _ _ _ _) as [[]|]; simpl; done.
Qed.

(** Programs without any call. *)
Definition no_call (_ : client_call) : Prop := False.
Lemma no_call_calls s s' : calls_only no_call s s' -> se_calls s' = se_calls s.
Proof. intros (e & -> & He). destruct e; [by rewrite app_nil_r|by inversion He]. Qed.

Lemma emit_no_call actor action platform metadata : steps (calls_only no_call) (_emit_actor_action_event now actor action platform metadata).
Proof.
  assert (steps (calls_only no_call) fresh) by (intros s; by apply calls_only_same).
  assert (forall f, steps (calls_only no_call) (modify f)) by (intros f s; by apply calls_only_same).
  unfold _emit_actor_action_event. auto 10 with steps.
Qed.

Lemma outage_no_call d r : steps (calls_only no_call) (_maybe_enqueue_pds_outage_alert now d r).
Proof.
  assert (steps (calls_only no_call) fresh) by (intros s; by apply calls_only_same).
  assert (steps (calls_only no_call) commit) by (intros s; by apply calls_only_same).
  assert (forall f, steps (calls_only no_call) (modify f)) by (intros f s; by apply calls_only_same).
  assert (forall f, steps (calls_only no_call) (set_health f)) by (intros f s; by apply calls_only_same).
  unfold _maybe_enqueue_pds_outage_alert, queue_enqueue. auto 30 with steps.
Qed.

Lemma wp_decide r s : wp (_decide_pds now r)
  (fun d s' => se_calls s' = se_calls s ++ [CallDecide r] /\ decide_answer (se_calls s') = Ok d)
  (calls_only harmless s) s.
Proof.
  pose proof (gentle_decide r s) as Hg. unfold wp. destruct (_decide_pds now r s) as [[d|e] s'] eqn:Hd; [|done].
  unfold _decide_pds, call, mbind, M_bind in Hd. cbv zeta in Hd.
  destruct (decide_answer (se_calls s ++ [CallDecide r])) as [d0|] eqn:Ha; [|done].
  destruct (_is_pds_fail_policy_decision d0).
  - set (s1 := s <| se_calls := _ |>) in Hd. pose proof (outage_no_call d0 r s1) as Ho%no_call_calls.
    destruct (_maybe_enqueue_pds_outage_alert now d0 r s1) as [[]  s2]; [|done]. injection Hd as <- <-.
    simpl in Ho. by rewrite Ho.
  - injection Hd as <- <-. done.
Qed.

Lemma wp_publication_from_item item s : wp (_publication_from_item item)
  (fun p s' => s' = s /\ p ∈ a_publications (se_db s)) (fun s' => s' = s) s.
Proof.
  unfold _publication_from_item. repeat wp_step. apply wp_lift; [|done]. intros id _. repeat wp_step.
  destruct (get_row pu_id id _) as [t|] eqn:Hg; repeat wp_step; [|done]. split; [done|].
  by apply find_some in Hg as [?%list_elem_of_In _].
Qed.

Lemma promote_gated item s : se_calls s = [] ->
  wp (promote_plain now item) (fun _ => calls_only (effect_gated (se_db s) item) s)
    (calls_only (effect_gated (se_db s) item) s) s.
Proof.
  intros Hnil. pose proof (harmless_gated (se_db s) item) as Hh.
  assert (calls_only (effect_gated (se_db s) item) s s) as H0 by reflexivity.
  unfold promote_plain. wp_step. eapply wp_mono; [apply wp_publication_from_item| |by intros s' ->].
  intros p s' [-> Hp]. repeat wp_step. destruct (rejected_publication p _); [by wp_step|].
  destruct (task_of_publication p (se_db s)) as [t|] eqn:Ht; [|by wp_step].
  destruct (negb (pu_publish_status p =? "uploaded")%string || _) eqn:Hready; [by wp_step|].
  apply orb_false_elim in Hready as [Hst%negb_false_iff%String.eqb_eq Hts%negb_false_iff%bool_decide_eq_true].
  wp_step. apply wp_lift; [|done]. intros at_ _. repeat wp_step. apply wp_lift; [|done]. intros [] Hmiss.
  { apply wp_gentle_after; [done|auto 10 using gentle_hold_review with steps|done]. }
  apply review_not_missing in Hmiss as [Hpre Hpro].
  wp_step. eapply wp_mono; [apply steps_wp, emit_no_call| |intros s1 H1; etrans; [exact H0|]; eapply calls_only_mono; [|done]; done].
  intros _ s1 H1%no_call_calls. wp_step.
  eapply wp_mono; [apply wp_decide| |].
  2: { intros s2 H2. eapply (calls_only_mono _ _ _ _ Hh). destruct H2 as (e & He & HF). exists e. by rewrite He, H1. }
  intros d s2 [H2 Hd]. rewrite H1, Hnil in H2. simpl in H2. rewrite H2 in Hd.
  assert (calls_only (effect_gated (se_db s) item) s s2) as H3.
  { exists [CallDecide (publish_request p t (target_visibility item p))]. rewrite H2, Hnil. split; [done|]. by repeat constructor. }
  case_bool_decide as Hv.
  { apply wp_gentle_after; [done| |done]. unfold pds_hold, emit_promotion.
    auto 20 using gentle_save_task, gentle_save_publication, gentle_emit with steps. }
  assert (publication_gated (se_db s) item (pu_platform_content_id p) (target_visibility item p)) as Hgate.
  { split; [|apply target_visibility_safe]. exists p, t. split_and!; try done. by exists d. }
  assert (calls_only (effect_gated (se_db s) item) s
    (s2 <| se_calls := se_calls s2 ++ [CallSchedulePublish (pu_platform_content_id p) at_ (target_visibility item p)] |>)) as H4.
  { etrans; [exact H3|]. eexists. split; [reflexivity|]. by apply Forall_singleton. }
  unfold schedule_publication. wp_step. apply wp_call; [|done]. intros _.
  apply wp_gentle_after; [done| |done]. unfold emit_promotion.
  auto 30 using gentle_save_task, gentle_save_publication, gentle_emit, gentle_next with steps.
Qed.

Lemma unless_owned_plain {A} (owned : M (option A)) (plain : M A) s :
  approved_inventory (se_db s) = false \/ owned s = (Ok None, s) -> unless_owned owned plain s = plain s.
Proof.
  intros [H|H]; unfold unless_owned, mbind, M_bind, gets; [by rewrite H|]. destruct (approved_inventory (se_db s)); [by rewrite H|done].
Qed.

(** Every handler, on an item that is not owned. *)
Lemma handlers_gated item s : se_calls s = [] -> unowned item s ->
  calls_only (effect_gated (se_db s) item) s (handle_task_item now item s).2.
Proof.
  intros Hnil Hown. pose proof (harmless_gated (se_db s) item) as Hh.
  assert (forall {A B} (m : M A) (f : A -> B), calls_only (effect_gated (se_db s) item) s (m s).2 ->
    calls_only (effect_gated (se_db s) item) s ((a ← m; mret (f a)) s).2) as Hret.
  { intros A B m f H. unfold mbind, M_bind. by destruct (m s) as [[] s']. }
  assert (forall {A} (m : M A), gentle m -> calls_only (effect_gated (se_db s) item) s (m s).2) as Hg.
  { intros A m Hm. apply (calls_only_mono _ _ _ _ Hh), Hm. }
  assert (forall {A} (m : M A) P, wp m (fun _ => calls_only P s) (calls_only P s) s -> (forall c, P c -> effect_gated (se_db s) item c) ->
    calls_only (effect_gated (se_db s) item) s (m s).2) as Hwp.
  { intros A m P H HP. unfold wp in H. apply (calls_only_mono P); [done|]. by destruct (m s) as [[] s']. }
  unfold handle_task_item, handle_plan_task, handle_execute_task, handle_observe_job, handle_publish_task,
    handle_promote_publication, handle_reconcile_publication, handle_collect_metrics.
  repeat case_match; try (apply (Hret _ _ _ (fun _ => tt)); rewrite ?unless_owned_plain by not_taken Hown).
  - apply Hg, gentle_plan.
  - eapply Hwp; [apply execute_reviewed|apply execution_gated].
  - apply Hg, gentle_observe.
  - apply Hg, gentle_publish.
  - apply (Hret _ _ _ Some). eapply Hwp; [by apply promote_gated|done].
  - apply (Hret _ _ _ Some), Hg, gentle_reconcile.
  - apply Hg, gentle_collect.
  - apply Hg, gentle_health.
  - simpl. reflexivity.
Qed.

(** C5. Nothing leaves without its checks.  On an item that is not owned (no inventory is
    approved, or the handlers of owned inventories leave the item alone), a handler asks for
    the execution of a plan only for a task that uses no external assets or whose
    review is valid for the plan as it is now; and it schedules a publication only for
    the upload of a task that is ready, privately or unlisted, with the reviews it needs,
    and after a decision on this very publication that neither blocks nor flags it. *)
Theorem effects_gated (item : ChannelOpsQueueItem) (db : AgentDb) (h : PdsHealth) (n : nat) (c : client_call) :
  unowned item (open_session db h n) -> c ∈ se_calls (handle_task_item now item (open_session db h n)).2 -> effect_gated db item c.
Proof.
  intros Hown Hc. destruct (handlers_gated item (open_session db h n) eq_refl Hown) as (e & He & HF).
  rewrite He in Hc. rewrite Forall_forall in HF. by apply HF.
Qed.
End Gentle.
