(* ===== verification/TaskPublish.v ===== *)
(** * Publications and the material they use

    A publication is recorded once per task, and with it every piece of material the
    upload refers to.  Handling the item of a publication again records nothing twice;
    and what is in the ledger keeps other accounts of the channel from publishing the
    same material. *)

From stdpp Require Import base tactics list strings sets.
From Stdlib Require Import ZArith Lia.
From S2P Require Import Prelude PyStr PyValue PyTime PyUuid Pipeline JobModel Outbox ChannelQueue MaterialUsage AgentModel HumanReview AgentLogic ChannelTick ChannelTasks TaskSafe.

Open Scope string_scope.
Open Scope list_scope.

(** ** Programs that keep part of the database *)

(** [f] of the database stays, and what is committed has it. *)
Definition keeps {X} (f : AgentDb -> X) (s s' : Session) : Prop :=
  f (se_db s') = f (se_db s) /\ (f (se_committed s') = f (se_committed s) \/ f (se_committed s') = f (se_db s)).

#[export] Instance keeps_preorder {X} (f : AgentDb -> X) : PreOrder (keeps f).
Proof.
  split; [intros s; split; auto|]. intros s1 s2 s3 [H1 H2] [H3 H4]. split; [congruence|].
  destruct H4 as [->| ->]; [done|right; congruence].
Qed.

Lemma keeps_modify {X} (f : AgentDb -> X) g : (forall db, f (g db) = f db) -> steps (keeps f) (modify g).
Proof. intros H s. split; simpl; [apply H|by left]. Qed.
Lemma keeps_commit {X} (f : AgentDb -> X) : steps (keeps f) commit.
Proof. intros s. split; simpl; auto. Qed.
Lemma keeps_call {X} (f : AgentDb -> X) {A} c (answer : list client_call -> Res A) : steps (keeps f) (call c answer).
Proof. intros s. split; simpl; auto. Qed.
Lemma keeps_fresh {X} (f : AgentDb -> X) `{!AgentClients} : steps (keeps f) fresh.
Proof. intros s. split; simpl; auto. Qed.
Lemma keeps_set_health {X} (f : AgentDb -> X) g : steps (keeps f) (set_health g).
Proof. intros s. split; simpl; auto. Qed.
#[export] Hint Resolve keeps_commit keeps_call keeps_fresh keeps_set_health : steps.
#[export] Hint Extern 1 (steps (keeps _) (modify _)) => (apply keeps_modify; reflexivity) : steps.

(** Tables the queue and the events have no part in. *)
Record table_view := {
  tv_tasks : list ProductionTask;
  tv_publications : list PublicationRecord;
  tv_ledger : list MaterialUsageLedger;
  tv_plans : list AutoFlowPlan;
  tv_runs : list AutoFlowRun;
  tv_inventories : list OwnedSeedInventory }.
Definition view (db : AgentDb) : table_view :=
  {| tv_tasks := a_tasks db; tv_publications := a_publications db; tv_ledger := a_ledger db; tv_plans := a_plans db;
     tv_runs := a_runs db; tv_inventories := a_inventories db |}.

(** The publication of a task, after the row is stored again. *)
Lemma publication_put (t t' : ProductionTask) (p p' : PublicationRecord) db : tk_id t' = tk_id t ->
  _publication_for_task t db = Some p -> pu_id p' = pu_id p -> pu_production_task_id p' = pu_production_task_id p ->
  _publication_for_task t' (db <| a_publications ::= put_row pu_id p' |>) = Some p'.
Proof.
  intros Ht Hp Hid Htask. unfold _publication_for_task in *. rewrite Ht. pose proof (find_some _ _ Hp) as [_ Hpt].
  change (a_publications (db <| a_publications ::= put_row pu_id p' |>)) with (put_row pu_id p' (a_publications db)).
  revert Hp. unfold put_row. generalize (a_publications db) as l. induction l as [|c l IH]; [done|]. cbn [map find].
  destruct (pu_id c =? pu_id p')%string eqn:He.
  - intros _. rewrite Htask. by rewrite Hpt.
  - destruct (pu_production_task_id c =? tk_id t)%string eqn:Hc; [|done]. intros [= ->]. by rewrite Hid, String.eqb_refl in He.
Qed.

(** ** The ledger of a publication *)

Section Publish.
Context {AC : AgentClients} {OD : OwnedDownstream} (now : datetime).

(** Every piece of material is in the ledger under the publication. *)
Definition covered (ledger : list MaterialUsageLedger) (p : PublicationRecord) (refs : list MaterialReference) : Prop :=
  forall r, r ∈ refs -> reference_key r ∈ map ledger_key (List.filter (of_publication (pu_id p)) ledger).

(** A row that a publication of the task adds. *)
Definition recorded (t : ProductionTask) (p : PublicationRecord) (refs : list MaterialReference) (row : MaterialUsageLedger) : Prop :=
  exists id r, r ∈ refs /\ row = ledger_row now id t p r.

Lemma ledger_loop t p (refs : list MaterialReference) s0 :
  wp (forM (ledger_turn now t p) (map ledger_key (List.filter (of_publication (pu_id p)) (a_ledger (se_db s0)))) refs)
    (fun _ s' => exists new, se_db s' = (se_db s0) <| a_ledger ::= fun l => l ++ new |>
       /\ Forall (recorded t p refs) new /\ covered (a_ledger (se_db s')) p refs
       /\ NoDup (map ledger_key new)
       /\ (forall k, k ∈ map ledger_key new -> k ∉ map ledger_key (List.filter (of_publication (pu_id p)) (a_ledger (se_db s0)))))
    (fun _ => True) s0.
Proof.
  eapply wp_mono; [apply (wp_forM _ (fun d existing s => exists new, se_db s = (se_db s0) <| a_ledger ::= fun l => l ++ new |>
     /\ Forall (recorded t p refs) new
     /\ (forall k, k ∈ existing <-> k ∈ map ledger_key new \/ k ∈ map ledger_key (List.filter (of_publication (pu_id p)) (a_ledger (se_db s0))))
     /\ (forall r, r ∈ d -> reference_key r ∈ existing)
     /\ NoDup (map ledger_key new)
     /\ (forall k, k ∈ map ledger_key new -> k ∉ map ledger_key (List.filter (of_publication (pu_id p)) (a_ledger (se_db s0)))))
     (fun _ => True) refs [])| |done].
  - intros d r existing s Hr (new & Hdb & Hrec & Hex & Hd & Hnd & Hnew). unfold ledger_turn. case_bool_decide as Hk; repeat wp_step.
    + exists new. split_and!; [done..| |done|done]. intros r' [?| ->%list_elem_of_singleton]%elem_of_app; auto.
    + exists (new ++ [ledger_row now (new_uuid (se_fresh s)) t p r]). split_and!.
      * trans ((se_db s) <| a_ledger ::= fun l => l ++ [ledger_row now (new_uuid (se_fresh s)) t p r] |>); [done|].
        rewrite Hdb. by destruct (se_db s0); simpl; rewrite <- app_assoc.
      * apply Forall_app. split; [done|]. apply Forall_singleton. by exists (new_uuid (se_fresh s)), r.
      * intros k. rewrite map_app, elem_of_app, elem_of_cons, Hex. simpl. rewrite list_elem_of_singleton.
        unfold ledger_key at 2, reference_key. simpl. naive_solver.
      * intros r' [?| ->%list_elem_of_singleton]%elem_of_app; [right; auto|by left].
      * rewrite map_app. apply NoDup_app. split_and!; [done| |apply NoDup_singleton].
        intros k Hk1 ->%list_elem_of_singleton. apply Hk, Hex. by left.
      * intros k. rewrite map_app, elem_of_app. intros [?| ->%list_elem_of_singleton]; [auto|]. intros Hin. apply Hk, Hex. by right.
  - exists []. simpl. split_and!; [by destruct (se_db s0); simpl; rewrite app_nil_r|done|set_solver|set_solver|apply NoDup_nil_2|set_solver].
  - simpl. intros existing s (new & Hdb & Hrec & Hex & Hd & Hnd & Hnew). exists new. split_and!; [done..| |done|done].
    intros r Hr. specialize (Hd r Hr). rewrite Hdb. simpl. rewrite List.filter_app, map_app, elem_of_app. apply Hex in Hd as [Hn|Ho]; [|by left].
    right. apply list_elem_of_fmap in Hn as (row & -> & Hrow). apply list_elem_of_fmap. exists row. split; [done|].
    apply elem_of_lfilter. split; [done|]. rewrite Forall_forall in Hrec. destruct (Hrec row Hrow) as (id & r' & _ & ->).
    unfold of_publication. simpl. by apply bool_decide_eq_true.
Qed.

(** ** From the item to the record *)

(** Programs before the record change no table but the tasks. *)
Definition rows (db : AgentDb) : list PublicationRecord * list MaterialUsageLedger := (a_publications db, a_ledger db).

Lemma rows_enqueue r b : steps (keeps rows) (queue_enqueue now r b).
Proof. unfold queue_enqueue. auto 10 with steps. Qed.
Lemma view_enqueue r b : steps (keeps view) (queue_enqueue now r b).
Proof. unfold queue_enqueue. auto 10 with steps. Qed.
Hint Resolve rows_enqueue view_enqueue : steps.
Lemma rows_save_task t : steps (keeps rows) (save_task t).
Proof. unfold save_task. auto with steps. Qed.
Hint Resolve rows_save_task : steps.
Lemma rows_finish t : steps (keeps rows) (finish_task t).
Proof. unfold finish_task. auto with steps. Qed.
Hint Resolve rows_finish : steps.
Lemma rows_alert t r sev msg d c : steps (keeps rows) (_enqueue_alert now t r sev msg d c).
Proof. unfold _enqueue_alert. auto with steps. Qed.
Hint Resolve rows_alert : steps.

(** What a record is made for. *)
Record publish_input (item : ChannelOpsQueueItem) (db : AgentDb) (t : ProductionTask) (refs : list MaterialReference) : Prop := {
  pi_task : exists id, payload_uuid item "production_task_id" = Ok id /\ get_row tk_id id (a_tasks db) = Some t;
  pi_refs : exists youtube, payload_dict (dict_get (qi_payload_json item) "youtube") = Ok youtube
    /\ extract_material_references sha256 (_material_payloads_for_task t db).1 (_material_payloads_for_task t db).2 youtube
       = Ok refs }.

Lemma publish_input_inj item db t t' refs refs' : publish_input item db t refs -> publish_input item db t' refs' ->
  t = t' /\ refs = refs'.
Proof.
  intros [(i & Hi & Ht) (y & Hy & Hf)] [(i' & Hi' & Ht') (y' & Hy' & Hf')]. rewrite Hi in Hi'. injection Hi' as <-.
  rewrite Ht in Ht'. injection Ht' as <-. rewrite Hy in Hy'. injection Hy' as <-. rewrite Hf in Hf'. by injection Hf' as <-.
Qed.

(** Either nothing is recorded, or a record is made in a session that has changed no row. *)
Lemma wp_publish item (Q : option PublicationRecord -> Session -> Prop) (E : Session -> Prop) s :
  (forall s', keeps rows s s' -> Q None s' /\ E s') ->
  (forall t account video refs s1, publish_input item (se_db s) t refs -> se_db s1 = se_db s -> se_committed s1 = se_committed s ->
     wp (record_publication now item t account video refs) Q E s1) ->
  wp (publish_plain now item) Q E s.
Proof.
  intros Hout Hrec.
  assert (E s) as HE by (apply Hout; reflexivity).
  assert (forall {A} (m : M A) (k : A -> M (option PublicationRecord)) s1, steps (keeps rows) m -> keeps rows s s1 ->
    (forall a s2, keeps rows s s2 -> wp (k a) Q E s2) -> wp (m ≫= k) Q E s1) as Hthen.
  { intros A m k s1 Hm H1 Hk. wp_step. eapply wp_mono; [by apply steps_wp|intros a s' H|intros s' H].
    - apply Hk. by etrans.
    - apply Hout. by etrans. }
  unfold publish_plain, _task_from_item. repeat wp_step. apply wp_lift; [|done]. intros id Hid. repeat wp_step.
  destruct (get_row tk_id id (a_tasks (se_db s))) as [t|] eqn:Ht; repeat wp_step; [|done].
  assert (wp (_hold_invalid_external_review now t "publish_task_human_review")
    (fun r s' => match r with None => s' = s | Some _ => keeps rows s s' end) (keeps rows s) s) as Hhold.
  { unfold _hold_invalid_external_review, _hold_task_for_review. destruct (negb _); [by wp_step|]. repeat wp_step.
    apply wp_lift; [|reflexivity]. intros [] _; repeat wp_step; [done|].
    eapply wp_mono; [apply steps_wp, rows_finish|intros t' s' H; by wp_step|done]. }
  eapply wp_mono; [exact Hhold| |intros s' H; by apply Hout]. intros [t'|] s'; [intros H; wp_step; by apply Hout|intros ->].
  repeat wp_step. destruct (get_row ac_id _ _) as [account|]; [|by wp_step]. wp_step.
  apply wp_call; [|apply Hout; split; auto]. intros remaining.
  set (s1 := s <| se_calls := _ |>). assert (keeps rows s s1) as Hs1 by (split; auto).
  destruct (fltb remaining _).
  { apply Hthen; [auto with steps|done|intros _ s2 H2]. apply Hthen; [auto with steps|done|intros _ s3 H3].
    apply Hthen; [auto with steps|done|intros _ s4 H4]. wp_step. by apply Hout. }
  wp_step. apply wp_lift; [|by apply Hout]. intros youtube Hy. cbv zeta. destruct (is_empty _).
  { apply Hthen; [auto with steps|done|intros _ s2 H2]. wp_step. by apply Hout. }
  unfold _material_references_for_publish. wp_step. wp_step. wp_step. apply wp_lift; [|by apply Hout]. intros refs Hrefs.
  apply Hrec; [|done|done]. split; [by exists id|]. by exists youtube.
Qed.

(** ** The record *)

Definition usage_of (t : ProductionTask) (refs : list MaterialReference) (db : AgentDb) : UsageGuardResult :=
  recent_usage_flags (a_ledger db) (tk_channel_profile_id t) (tk_topic_lane_id t) (Some (tk_target_account_id t)) refs now.

(** Material that may be published: not used recently, or chosen by hand. *)
Definition material_allowed (t : ProductionTask) (refs : list MaterialReference) (db : AgentDb) : Prop :=
  tk_source t = "manual_seed" \/ blocked (usage_of t refs db) = false.

Lemma wp_guard t refs s : wp (_publish_time_material_usage_guard now t refs)
  (fun r s' => s' = s /\ (exists x, r.1 = None -> r.2 = t <| tk_rationale_json := x |>)
     /\ (r.1 = None <-> material_allowed t refs (se_db s))) (fun _ => False) s.
Proof.
  unfold _publish_time_material_usage_guard, material_allowed, usage_of.
  assert (exists x, t = t <| tk_rationale_json := x |>) as [x0 Hx0] by (exists (tk_rationale_json t); by destruct t).
  destruct refs as [|r refs]; [wp_step; split_and!; [done|by exists x0|split; [by right|done]]|]. repeat wp_step.
  remember (recent_usage_flags _ _ _ _ _ _) as result eqn:Hres. destruct (blocked result); cbn [negb].
  - destruct (String.eqb_spec (tk_source t) "manual_seed") as [Hm|Hm]; wp_step.
    + split_and!; [done|eexists; intros _; reflexivity|naive_solver].
    + split_and!; [done|by exists x0|]. simpl. split; [done|]. naive_solver.
  - wp_step. split_and!; [done|by exists x0|naive_solver].
Qed.

Lemma publication_added t p db : _publication_for_task t db = None -> pu_production_task_id p = tk_id t ->
  _publication_for_task t (db <| a_publications ::= fun l => l ++ [p] |>) = Some p.
Proof.
  unfold _publication_for_task. intros Hn Hp.
  change (a_publications (db <| a_publications ::= fun l => l ++ [p] |>)) with (a_publications db ++ [p]).
  revert Hn. generalize (a_publications db) as l. induction l as [|c l IH]; simpl.
  - by rewrite Hp, String.eqb_refl.
  - by destruct (_ =? _)%string.
Qed.

(** The publication of a task: the one there was, or a new one. *)
Definition has_publication (t : ProductionTask) (refs : list MaterialReference) (db : AgentDb) (p : PublicationRecord)
    (db' : AgentDb) : Prop :=
  (_publication_for_task t db = Some p /\ db' = db)
  \/ (_publication_for_task t db = None /\ material_allowed t refs db
      /\ (pu_production_task_id p = tk_id t /\ pu_id p ∉ map pu_id (a_publications db))
      /\ db' = db <| a_publications ::= fun l => l ++ [p] |>).

Lemma wp_create t account video refs s : wp (publication_or_create now t account video refs)
  (fun r s' => match r.1 with
     | Some p => (exists x, r.2 = t <| tk_rationale_json := x |>) /\ has_publication t refs (se_db s) p (se_db s')
     | None => s' = s /\ ~ material_allowed t refs (se_db s)
     end) (fun s' => keeps rows s s') s.
Proof.
  unfold publication_or_create. repeat wp_step. destruct (_publication_for_task t (se_db s)) as [p|] eqn:Hp.
  { wp_step. simpl. split; [exists (tk_rationale_json t); by destruct t|]. by left. }
  wp_step. eapply wp_mono; [apply wp_guard| |done]. intros [[g|] t'] s' (-> & [x Hx] & Ha); simpl in *.
  { wp_step. simpl. split; [done|]. intros H. by apply Ha in H. }
  repeat wp_step. unfold add_publication. repeat wp_step. destruct (existsb _ _) eqn:Hc; [wp_step; split; auto|]. repeat wp_step.
  cbn [fst snd]. rewrite (Hx eq_refl). split; [by exists x|]. right. split_and!; [done|by apply Ha|done| |done].
  intros (q & Hq & Hin)%list_elem_of_fmap. apply not_true_iff_false in Hc. apply Hc, existsb_exists. exists q.
  split; [by apply list_elem_of_In|].
  apply orb_true_iff. left. apply orb_true_iff. left. apply String.eqb_eq. symmetry. exact Hq.
Qed.

(** What a record leaves behind. *)
Record published (t : ProductionTask) (refs : list MaterialReference) (db : AgentDb) (p : PublicationRecord) (db' : AgentDb)
    : Prop := {
  pb_task : exists t', get_row tk_id (tk_id t) (a_tasks db') = Some t' /\ tk_autoflow_plan_id t' = tk_autoflow_plan_id t
              /\ tk_autoflow_run_id t' = tk_autoflow_run_id t;
  pb_sources : a_plans db' = a_plans db /\ a_runs db' = a_runs db /\ a_inventories db' = a_inventories db;
  pb_publication : _publication_for_task t db' = Some p;
  pb_publications :
    (is_Some (_publication_for_task t db) /\ map pu_id (a_publications db') = map pu_id (a_publications db))
    \/ (_publication_for_task t db = None /\ material_allowed t refs db
        /\ pu_id p ∉ map pu_id (a_publications db)
        /\ map pu_id (a_publications db') = map pu_id (a_publications db) ++ [pu_id p]);
  pb_ledger : exists new, a_ledger db' = a_ledger db ++ new /\ Forall (recorded t p refs) new /\ NoDup (map ledger_key new)
    /\ (forall k, k ∈ map ledger_key new -> k ∉ map ledger_key (List.filter (of_publication (pu_id p)) (a_ledger db)));
  pb_covered : covered (a_ledger db') p refs }.

Lemma published_view t refs db p db1 db2 : view db2 = view db1 -> published t refs db p db1 -> published t refs db p db2.
Proof.
  intros [= H1 H2 H3 H4 H5 H6] [P1 P2 P3 P4 P5 P6]. split; unfold _publication_for_task in *; rewrite ?H1, ?H2, ?H3, ?H4, ?H5, ?H6; done.
Qed.

Lemma wp_ledger t p refs s : wp (_write_material_usage_ledger now t p refs)
    (fun _ s' => exists new, se_db s' = (se_db s) <| a_ledger ::= fun l => l ++ new |>
       /\ Forall (recorded t p refs) new /\ covered (a_ledger (se_db s')) p refs
       /\ NoDup (map ledger_key new)
       /\ (forall k, k ∈ map ledger_key new -> k ∉ map ledger_key (List.filter (of_publication (pu_id p)) (a_ledger (se_db s)))))
    (fun _ => True) s.
Proof.
  unfold _write_material_usage_ledger. destruct refs as [|r refs].
  - wp_step. exists []. split_and!; [by destruct (se_db s); simpl; rewrite app_nil_r|done|by intros r ?%elem_of_nil|apply NoDup_nil_2|].
    by intros k ?%elem_of_nil.
  - repeat wp_step. eapply wp_mono; [apply ledger_loop| |done]. intros existing s' H. wp_step. done.
Qed.

Lemma thumbnail_keeps r p : pu_id (with_thumbnail r p) = pu_id p
  /\ pu_production_task_id (with_thumbnail r p) = pu_production_task_id p.
Proof. by destruct r. Qed.

Lemma covered_put ledger p p' refs : pu_id p' = pu_id p -> covered ledger p refs -> covered ledger p' refs.
Proof. unfold covered. by intros ->. Qed.

Lemma recorded_thumbnail t x p p' refs row : pu_id p' = pu_id p -> recorded (t <| tk_rationale_json := x |>) p refs row -> recorded t p' refs row.
Proof. intros Hp (id & r & Hr & ->). exists id, r. split; [done|]. unfold ledger_row. by rewrite Hp. Qed.

(** The rows after the record, before the promotion is enqueued. *)
Lemma published_rows t refs db p db1 x new r t2 :
  is_Some (get_row tk_id (tk_id t) (a_tasks db)) -> has_publication t refs db p db1 ->
  let t1 := t <| tk_rationale_json := x |> in
  let db2 := db1 <| a_tasks ::= put_row tk_id t1 |> <| a_ledger ::= fun l => l ++ new |> in
  Forall (recorded t1 p refs) new -> covered (a_ledger db2) p refs -> NoDup (map ledger_key new) ->
  (forall k, k ∈ map ledger_key new -> k ∉ map ledger_key (List.filter (of_publication (pu_id p)) (a_ledger db))) ->
  tk_id t2 = tk_id t -> tk_autoflow_plan_id t2 = tk_autoflow_plan_id t -> tk_autoflow_run_id t2 = tk_autoflow_run_id t ->
  published t refs db (with_thumbnail r p)
    (db2 <| a_publications ::= put_row pu_id (with_thumbnail r p) |> <| a_tasks ::= put_row tk_id t2 |>).
Proof.
  intros [t0 Ht0] Hpub t1 db2 Hrec Hcov Hnd Hdis Hid Hplan Hrun. destruct (thumbnail_keeps r p) as [Hpid Hptask].
  assert (a_plans db1 = a_plans db /\ a_runs db1 = a_runs db /\ a_inventories db1 = a_inventories db /\ a_tasks db1 = a_tasks db
          /\ a_ledger db1 = a_ledger db) as (E1 & E2 & E3 & E4 & E5) by (destruct Hpub as [(_ & ->)|(_ & _ & _ & ->)]; done).
  assert (_publication_for_task t db1 = Some p) as Hp1.
  { destruct Hpub as [(? & ->)|(? & _ & [? _] & ->)]; [done|by apply publication_added]. }
  split.
  - exists t2. split; [|done]. change (get_row tk_id (tk_id t) (put_row tk_id t2 (put_row tk_id t1 (a_tasks db1))) = Some t2).
    rewrite <- Hid. rewrite E4. apply (get_put_row tk_id t2 t1). rewrite Hid. by apply (get_put_row tk_id t1 t0).
  - done.
  - apply (publication_put t t p _ db1); done.
  - pose proof (map_put_row pu_id (with_thumbnail r p) (a_publications db1)) as Hm.
    destruct Hpub as [(H & ->)|(H & Ha & [_ Hf] & ->)]; [left; split; [by rewrite H|exact Hm]|right].
    rewrite Hpid. split_and!; [done..|]. etrans; [exact Hm|]. apply (map_app pu_id (a_publications db) [p]).
  - exists new. split_and!; [by change (a_ledger db1 ++ new = a_ledger db ++ new); rewrite E5| |done|by rewrite Hpid].
    eapply Forall_impl; [exact Hrec|]. intros row. by apply recorded_thumbnail.
  - by apply (covered_put _ p).
Qed.

Lemma wp_record item t account video refs s : is_Some (get_row tk_id (tk_id t) (a_tasks (se_db s))) ->
  wp (record_publication now item t account video refs)
    (fun r s' => match r with Some p => published t refs (se_db s) p (se_committed s') | None => ~ material_allowed t refs (se_db s) end)
    (fun _ => True) s.
Proof.
  intros Ht. unfold record_publication. wp_step. eapply wp_mono; [apply wp_create| |done].
  intros [[p|] t1] s1 H1; cbn [fst snd] in H1.
  2: { destruct H1 as [-> H1]. unfold finish_task. by repeat wp_step. }
  destruct H1 as [[x ->] Hpub]. wp_step. unfold save_task. wp_step. wp_step.
  eapply wp_mono; [apply wp_ledger| |done]. intros _ s2 (new & Hdb & Hrec & Hcov & Hnd & Hdis).
  assert (a_ledger (se_db s1) = a_ledger (se_db s)) as Hl by (destruct Hpub as [(_ & ->)|(_ & _ & _ & ->)]; done).
  wp_step. wp_step.
  assert (forall r s3, se_db s3 = se_db s2 ->
    published t refs (se_db s) (with_thumbnail r p)
      ((se_db s3) <| a_publications ::= put_row pu_id (with_thumbnail r p) |>
         <| a_tasks ::= put_row tk_id (t <| tk_rationale_json := x |> <| tk_state := TASK_UPLOADED_PRIVATE |> <| tk_state_updated_at := now |>) |>)) as Hrows.
  { intros r s3 ->. rewrite Hdb. rewrite Hdb in Hcov. apply (published_rows t refs (se_db s) p (se_db s1) x new); try done.
    intros k Hk. specialize (Hdis k Hk). change (a_ledger (se_db _)) with (a_ledger (se_db s1)) in Hdis. by rewrite Hl in Hdis. }
  apply wp_call.
  all: (cbv zeta; unfold save_publication; intros; wp_step; wp_step; wp_step; wp_step; wp_step).
  all: eapply wp_mono; [apply (steps_wp (keeps view))|intros _ s4 [H4 _]|done].
  1, 3: unfold enqueue_next; auto with steps.
  all: wp_step; wp_step; wp_step; (eapply published_view; [exact H4|]); by apply Hrows.
Qed.

(** A publication the handler returns was recorded for the input of the item. *)
Lemma publish_recorded item s p s' : unowned item s ->
  handle_publish_task now item s = (Ok (Some p), s') ->
  exists t refs, publish_input item (se_db s) t refs /\ published t refs (se_db s) p (se_committed s').
Proof.
  intros Hown Hrun. unfold handle_publish_task in Hrun.
  rewrite unless_owned_plain in Hrun by not_taken Hown.
  refine (wp_Ok _ (fun r s' => match r with
    | Some p => exists t refs, publish_input item (se_db s) t refs /\ published t refs (se_db s) p (se_committed s')
    | None => True end) (fun _ => True) _ _ _ _ Hrun).
  apply wp_publish; [done|]. intros t account video refs s1 Hin Hdb _.
  assert (is_Some (get_row tk_id (tk_id t) (a_tasks (se_db s1)))) as Ht.
  { destruct Hin as [(id & _ & Hg) _]. apply get_row_key in Hg as Hk. destruct Hk as [_ ->]. rewrite Hdb, Hg. by eexists. }
  eapply wp_mono; [by apply wp_record| |done]. intros [q|] s2 H; [|done].
  rewrite Hdb in H. by exists t, refs.
Qed.

(** ** Again *)

Definition ids_and_ledger (db : AgentDb) : list uuid * list MaterialUsageLedger := (map pu_id (a_publications db), a_ledger db).

Lemma keeps_weaker {X Y} (f : AgentDb -> X) (g : X -> Y) s s' : keeps f s s' -> keeps (fun db => g (f db)) s s'.
Proof. intros [H1 H2]. split; [congruence|]. destruct H2; [left|right]; congruence. Qed.
Lemma rows_ids s s' : keeps rows s s' -> keeps ids_and_ledger s s'.
Proof. apply (keeps_weaker rows (fun r => (map pu_id r.1, r.2))). Qed.

Lemma ledger_covered t p refs s : covered (a_ledger (se_db s)) p refs ->
  wp (_write_material_usage_ledger now t p refs) (fun _ s' => s' = s) (fun _ => False) s.
Proof.
  intros Hc. unfold _write_material_usage_ledger. destruct refs as [|r refs]; [by wp_step|]. repeat wp_step.
  set (keys := map ledger_key _). eapply wp_mono;
    [apply (wp_forM _ (fun _ existing s' => existing = keys /\ s' = s) (fun _ => False) (r :: refs) [])| |done].
  - intros d r' existing s1 Hr [-> ->]. unfold ledger_turn. rewrite bool_decide_true by (by apply Hc). by wp_step.
  - done.
  - intros existing s1 [_ ->]. by wp_step.
Qed.

(** A task that has its publication and its ledger. *)
Lemma record_again item t account video refs p s : _publication_for_task t (se_db s) = Some p -> covered (a_ledger (se_db s)) p refs ->
  wp (record_publication now item t account video refs) (fun _ => keeps ids_and_ledger s) (keeps ids_and_ledger s) s.
Proof.
  intros Hp Hc. unfold record_publication, publication_or_create. repeat wp_step. rewrite Hp. wp_step. cbv beta iota.
  assert (forall t, steps (keeps ids_and_ledger) (save_task t)) as Hst.
  { intros t'. unfold save_task. auto with steps. }
  assert (forall q, steps (keeps ids_and_ledger) (save_publication q)) as Hsp.
  { intros q. apply keeps_modify. intros db. unfold ids_and_ledger. f_equal. apply map_put_row. }
  assert (forall r b, steps (keeps ids_and_ledger) (queue_enqueue now r b)) as Hq by (unfold queue_enqueue; auto 10 with steps).
  wp_step. eapply wp_mono; [by apply (steps_wp (keeps ids_and_ledger))| |done]. intros u s1 H1; cbv beta in H1. wp_step.
  assert (covered (a_ledger (se_db s1)) p refs) as Hc1 by (destruct H1 as [H1 _]; apply (f_equal snd) in H1; cbn in H1; by rewrite H1).
  eapply wp_mono; [by apply ledger_covered| |done]. intros _ s2 ->.
  eapply wp_mono; [apply (steps_wp (keeps ids_and_ledger))|intros r s3 H3; cbv beta in H3; by trans s1|intros s3 H3; by trans s1].
  unfold enqueue_next. auto 20 with steps.
Qed.

Lemma publish_again item s t refs p : unowned item s -> publish_input item (se_db s) t refs ->
  _publication_for_task t (se_db s) = Some p -> covered (a_ledger (se_db s)) p refs ->
  keeps ids_and_ledger s (handle_publish_task now item s).2.
Proof.
  intros Hown Hin Hp Hc.
  unfold handle_publish_task. rewrite unless_owned_plain by not_taken Hown.
  assert (wp (publish_plain now item) (fun _ => keeps ids_and_ledger s) (keeps ids_and_ledger s) s) as H;
    [|unfold wp in H; by destruct (publish_plain now item s) as [[] s']].
  apply wp_publish; [intros s' H; split; by apply rows_ids|].
  intros t' account video refs' s1 Hin' Hdb Hcom. destruct (publish_input_inj item (se_db s) t' t refs' refs Hin' Hin) as [-> ->].
  assert (keeps ids_and_ledger s s1) as Hs1 by (split; rewrite ?Hdb, ?Hcom; auto).
  eapply wp_mono; [apply (record_again item t account video refs p); by rewrite Hdb|intros r s2 H; by etrans|intros s2 H; by etrans].
Qed.

(** The input of an item in the state its publication leaves. *)
Lemma input_after item db t refs p db' : publish_input item db t refs -> published t refs db p db' ->
  exists t', publish_input item db' t' refs /\ _publication_for_task t' db' = Some p.
Proof.
  intros [(id & Hid & Ht) (y & Hy & Hrefs)] [(t' & Ht' & Hplan & Hrun) (Hp & Hr & _) Hpub _ _ _].
  apply get_row_key in Ht as Hk. destruct Hk as [_ Hk]. apply get_row_key in Ht' as Hk'. destruct Hk' as [_ Hk'].
  exists t'. split; [split|].
  - exists id. split; [done|]. by rewrite <- Hk.
  - exists y. split; [done|]. rewrite <- Hrefs. unfold _material_payloads_for_task, plan_of. by rewrite Hplan, Hrun, Hp, Hr.
  - unfold _publication_for_task in *. by rewrite Hk'.
Qed.
End Publish.

(** A publication is recorded once.  Once [publish_task] has returned a
    publication, handling the same item again, at any time and whatever the clients
    answer, adds no publication and no row of the ledger. *)
Theorem publish_redelivered {AC AC2 : AgentClients} {OD : OwnedDownstream} (now now2 : datetime) (item : ChannelOpsQueueItem)
    (db : AgentDb) (h h2 : PdsHealth) (n n2 : nat) (p : PublicationRecord) (s1 : Session) :
  approved_inventory db = false -> @sha256 AC2 = @sha256 AC ->
  handle_publish_task (AC:=AC) now item (open_session db h n) = (Ok (Some p), s1) ->
  let db1 := se_committed s1 in
  let db2 := se_committed (handle_publish_task (AC:=AC2) now2 item (open_session db1 h2 n2)).2 in
  map pu_id (a_publications db2) = map pu_id (a_publications db1) /\ a_ledger db2 = a_ledger db1.
Proof.
  intros Hown Hsha Hrun db1 db2. destruct (publish_recorded now item (open_session db h n) p s1 (or_introl Hown) Hrun) as (t & refs & Hin & Hpub).
  destruct (input_after now item db t refs p db1 Hin Hpub) as (t' & Hin' & Hp').
  assert (publish_input (AC:=AC2) item db1 t' refs) as Hin2.
  { destruct Hin' as [Ht (y & Hy & Hr)]. split; [done|]. exists y. by rewrite Hsha. }
  assert (approved_inventory db1 = false) as Hown1.
  { destruct Hpub as [_ (_ & _ & Hi) _ _ _ _]. rewrite <- Hown. unfold approved_inventory, db1. by rewrite Hi. }
  pose proof (publish_again (AC:=AC2) now2 item (open_session db1 h2 n2) t' refs p (or_introl Hown1) Hin2 Hp' (pb_covered _ _ _ _ _ _ Hpub)) as [_ H].
  assert (ids_and_ledger db2 = ids_and_ledger db1) as Heq by (by destruct H). by injection Heq.
Qed.

(** ** Other accounts *)

Section Reuse.
Context {AC : AgentClients} {OD : OwnedDownstream}.

(** Without a publication, material that is not allowed is not published. *)
Lemma record_refused now item t account video refs s : _publication_for_task t (se_db s) = None ->
  ~ material_allowed now t refs (se_db s) ->
  wp (record_publication now item t account video refs) (fun _ => keeps rows s) (keeps rows s) s.
Proof.
  intros Hp Ha. unfold record_publication. wp_step. eapply wp_mono; [apply wp_create| |done].
  intros [[p|] t1] s1 H1; cbn [fst snd] in H1.
  { destruct H1 as [_ [[H _]|[_ [H _]]]]; congruence. }
  destruct H1 as [-> _]. eapply wp_mono; [apply (steps_wp (keeps rows))|done|done].
  assert (forall t', steps (keeps rows) (finish_task t')) by (intros t'; unfold finish_task, save_task; auto with steps).
  auto with steps.
Qed.

Lemma publish_refused now item s t refs : unowned item s -> publish_input item (se_db s) t refs ->
  _publication_for_task t (se_db s) = None -> ~ material_allowed now t refs (se_db s) ->
  keeps rows s (handle_publish_task now item s).2.
Proof.
  intros Hown Hin Hp Ha.
  unfold handle_publish_task. rewrite unless_owned_plain by not_taken Hown.
  assert (wp (publish_plain now item) (fun _ => keeps rows s) (keeps rows s) s) as H;
    [|unfold wp in H; by destruct (publish_plain now item s) as [[] s']].
  apply wp_publish; [done|].
  intros t' account video refs' s1 Hin' Hdb Hcom. destruct (publish_input_inj item (se_db s) t' t refs' refs Hin' Hin) as [-> ->].
  assert (keeps rows s s1) as Hs1 by (split; rewrite ?Hdb, ?Hcom; auto).
  eapply wp_mono; [apply (record_refused now item t account video refs); by rewrite Hdb|intros r s2 H|intros s2 H]; by trans s1.
Qed.

(** The row of a new publication for a piece of material. *)
Lemma new_publication_row now t refs db p db' r : published now t refs db p db' -> _publication_for_task t db = None ->
  (forall row, row ∈ a_ledger db -> forall pid, ml_publication_id row = Some pid -> pid ∈ map pu_id (a_publications db)) ->
  r ∈ refs -> exists row, row ∈ a_ledger db' /\ ml_channel_profile_id row = tk_channel_profile_id t
    /\ ml_publishing_account_id row = Some (tk_target_account_id t) /\ ml_material_id row = mr_material_id r /\ ml_used_at row = now.
Proof.
  intros Hpub Hnone Hfk Hr. pose proof (pb_covered _ _ _ _ _ _ Hpub r Hr) as Hc.
  apply list_elem_of_fmap in Hc as (row & Hkey & [Hrow Hof]%elem_of_lfilter). exists row. split; [done|].
  destruct (pb_ledger _ _ _ _ _ _ Hpub) as (new & Hl & Hrec & _). rewrite Hl in Hrow.
  apply elem_of_app in Hrow as [Hold|Hnew].
  - apply bool_decide_eq_true in Hof. pose proof (Hfk row Hold _ Hof) as Hin.
    destruct (pb_publications _ _ _ _ _ _ Hpub) as [[Hs _]|(_ & _ & Hf & _)]; [rewrite Hnone in Hs; by destruct Hs|done].
  - rewrite Forall_forall in Hrec. destruct (Hrec row Hnew) as (id & r' & Hr' & ->). unfold ledger_key, reference_key in Hkey.
    simpl in *. by injection Hkey as -> _.
Qed.

(** C22. Published material is not published again by another account.  Once a
    publication of a task has been recorded, a task of another account of the channel
    that was not chosen by hand and whose upload refers to one of the same materials
    gets no publication and no row of the ledger for thirty days.  Neither item is owned,
    neither task had a publication before, the rows of the ledger name stored publications
    and are kept in between, and the identifiers of the second task are well formed. *)
Theorem published_material_blocked (now now2 : datetime) (item item2 : ChannelOpsQueueItem) (db db2 : AgentDb)
    (h h2 : PdsHealth) (n n2 : nat) (p : PublicationRecord) (s1 : Session) (t t2 : ProductionTask)
    (refs refs2 : list MaterialReference) (r r2 : MaterialReference) :
  unowned item (open_session db h n) -> publish_input item db t refs -> _publication_for_task t db = None ->
  (forall row, row ∈ a_ledger db -> forall pid, ml_publication_id row = Some pid -> pid ∈ map pu_id (a_publications db)) ->
  handle_publish_task now item (open_session db h n) = (Ok (Some p), s1) ->
  unowned item2 (open_session db2 h2 n2) -> a_ledger (se_committed s1) ⊆ a_ledger db2 ->
  publish_input item2 db2 t2 refs2 -> _publication_for_task t2 db2 = None -> tk_source t2 <> "manual_seed" ->
  tk_channel_profile_id t2 = tk_channel_profile_id t -> tk_target_account_id t2 <> tk_target_account_id t ->
  _uuid_or_none (tk_channel_profile_id t2) = Some (tk_channel_profile_id t2) ->
  _uuid_or_none (tk_target_account_id t2) = Some (tk_target_account_id t2) ->
  r ∈ refs -> r2 ∈ refs2 -> mr_material_id r2 = mr_material_id r -> (now2 <= now + 30 * DAY_US)%Z ->
  rows (se_committed (handle_publish_task now2 item2 (open_session db2 h2 n2)).2) = rows db2.
Proof.
  intros Hown Hin Hnone Hfk Hrun Hown2 Hl Hin2 Hnone2 Hman Hch Hacc Huc Hua Hr Hr2 Hmat Hnow.
  destruct (publish_recorded now item (open_session db h n) p s1 Hown Hrun) as (t' & refs' & Hin' & Hpub).
  assert (t' = t /\ refs' = refs) as [-> ->].
  { by apply (publish_input_inj item db). }
  destruct (new_publication_row now t refs db p _ r Hpub Hnone Hfk Hr) as (row & Hrow & Hrc & Hra & Hrm & Hru).
  assert (refs2 <> []) as Hne by (intros ->; by apply elem_of_nil in Hr2).
  assert (~ material_allowed now2 t2 refs2 db2) as Hna.
  { intros [Hm|Hb]; [done|]. unfold usage_of, blocked in Hb. apply orb_false_elim in Hb as [_ Hb]. apply not_true_iff_false in Hb.
    apply Hb. apply (proj2 (recent_usage_rows (a_ledger db2) (tk_channel_profile_id t2) (tk_topic_lane_id t2)
      (Some (tk_target_account_id t2)) (tk_channel_profile_id t2) refs2 now2 Hne Huc)).
    exists row. split_and!; [by apply Hl|congruence|]. simpl. rewrite Hua. unfold used_by_sibling.
    split_and!; [done|by rewrite Hra|rewrite Hra; congruence| |lia]. exists r2. split; [done|congruence]. }
  destruct (publish_refused now2 item2 (open_session db2 h2 n2) t2 refs2 Hown2 Hin2 Hnone2 Hna) as [_ [H|H]]; exact H.
Qed.
End Reuse.
