(* ===== verification/TaskFlow.v ===== *)
(** * The workflow drains

    Handling an item enqueues only items further down the life of a task, and at most
    three of them.  With the bound on attempts of the queue this gives every workflow a
    measure: without new ticks and without operators the runner comes to an end. *)

From stdpp Require Import base tactics list strings relations.
From Stdlib Require Import ZArith Lia.
From S2P Require Import Prelude PyStr PyValue PyTime PyUuid Pipeline JobModel Outbox ChannelQueue QueueHistory ChannelRunner MaterialUsage AgentModel HumanReview AgentLogic ChannelTick ChannelTasks TaskSafe TaskPublish.

Open Scope string_scope.
Open Scope list_scope.

(** ** Ranks *)

Definition poll_count (i : ChannelOpsQueueItem) (key : string) : Z :=
  ok_or 0%Z (_nonnegative_int (dict_get (qi_payload_json i) key) 0).

(** How far an item is from the end of its workflow. *)
Definition rank (i : ChannelOpsQueueItem) : Z :=
  let kind := qi_kind i in
  (if (kind =? "plan_task")%string then 50
   else if (kind =? "execute_task")%string then 49
   else if (kind =? "observe_job")%string then 48 - Z.min 20 (poll_count i "observe_count")
   else if (kind =? "publish_task")%string then 27
   else if (kind =? "promote_publication")%string then 26
   else if (kind =? "collect_metrics")%string then 25 - Z.min 24 (poll_count i "metrics_poll_count")
   else if (kind =? "reconcile_publication")%string then 1
   else if (kind =? "account_health")%string then 1
   else 0)%Z.

Lemma nonnegative_int_bound v z : _nonnegative_int v 0 = Ok z -> (0 <= z)%Z.
Proof.
  unfold _nonnegative_int, int_such_that. destruct (int_or_none (py_int v)) as [[w|]|]; simpl; [|naive_solver lia..].
  destruct (Z.leb_spec 0 w); naive_solver lia.
Qed.

(** ** What a program enqueues *)

(** Items of [P] come after what the queue held, at most [k] of them; identifiers stay
    distinct; what is committed is a state on the way. *)
Record grows (P : ChannelOpsQueueItem -> Prop) (k : nat) (s s' : Session) : Prop := {
  gr_new : exists new, a_queue (se_db s') = a_queue (se_db s) ++ new /\ length new <= k /\ Forall P new
    /\ (a_queue (se_committed s') = a_queue (se_committed s)
        \/ exists kept, a_queue (se_committed s') = a_queue (se_db s) ++ kept /\ kept `prefix_of` new);
  gr_ids : NoDup (map qi_id (a_queue (se_db s))) -> NoDup (map qi_id (a_queue (se_db s'))) }.

Lemma grows_trans P k1 k2 s1 s2 s3 : grows P k1 s1 s2 -> grows P k2 s2 s3 -> grows P (k1 + k2) s1 s3.
Proof.
  intros [(n1 & H1 & L1 & F1 & C1) I1] [(n2 & H2 & L2 & F2 & C2) I2]. split; [|auto]. exists (n1 ++ n2).
  rewrite H2, H1, app_assoc, length_app. split_and!; [done|lia|by apply Forall_app|].
  destruct C2 as [->|(kept & -> & [rest ->])].
  - destruct C1 as [->|(kept & -> & Hk)]; [by left|right]. exists kept. split; [done|]. by apply prefix_app_r.
  - right. exists (n1 ++ kept). rewrite H1, app_assoc. split; [done|]. exists rest. by rewrite app_assoc.
Qed.

Lemma grows_same P s s' : a_queue (se_db s') = a_queue (se_db s) ->
  (a_queue (se_committed s') = a_queue (se_committed s) \/ a_queue (se_committed s') = a_queue (se_db s)) -> grows P 0 s s'.
Proof.
  intros H C. split; [|by rewrite H]. exists []. rewrite H, app_nil_r. split_and!; [done|simpl; lia|by apply Forall_nil|].
  destruct C as [->| ->]; [by left|right]. exists []. split; [by rewrite app_nil_r|done].
Qed.

Lemma grows_mono P k k' s s' : k <= k' -> grows P k s s' -> grows P k' s s'.
Proof. intros Hk [(n & H1 & H2 & H3) I]. split; [|done]. exists n. split; [done|]. split; [lia|done]. Qed.

#[export] Instance grows_preorder P : PreOrder (grows P 0).
Proof. split; [intros s; apply grows_same; auto|intros s1 s2 s3 H1 H2; apply (grows_trans P 0 0 _ _ _ H1 H2)]. Qed.

Section Adds.
Context {AC : AgentClients} {OD : OwnedDownstream} (now : datetime) (P : ChannelOpsQueueItem -> Prop).

Lemma still_modify f : (forall db, a_queue (f db) = a_queue db) -> steps (grows P 0) (modify f).
Proof. intros H s. apply grows_same; [apply H|by left]. Qed.
Lemma still_commit : steps (grows P 0) commit.
Proof. intros s. apply grows_same; [done|by auto]. Qed.
Lemma still_call {A} c (answer : list client_call -> Res A) : steps (grows P 0) (call c answer).
Proof. intros s. apply grows_same; [done|by auto]. Qed.
Lemma still_fresh : steps (grows P 0) fresh.
Proof. intros s. apply grows_same; [done|by auto]. Qed.
Lemma still_set_health f : steps (grows P 0) (set_health f).
Proof. intros s. apply grows_same; [done|by auto]. Qed.

Definition adds (k : nat) {A} (m : M A) : Prop := forall s, grows P k s (m s).2.

Lemma adds_still k {A} (m : M A) : steps (grows P 0) m -> adds k m.
Proof. intros H s. eapply grows_mono; [|apply H]. lia. Qed.
Lemma adds_mono k k' {A} (m : M A) : k <= k' -> adds k m -> adds k' m.
Proof. intros Hk H s. by eapply grows_mono. Qed.

Lemma adds_bind k1 k2 {A B} (m : M A) (f : A -> M B) : adds k1 m -> (forall a, adds k2 (f a)) -> adds (k1 + k2) (m ≫= f).
Proof.
  intros Hm Hf s. specialize (Hm s). unfold mbind, M_bind. destruct (m s) as [[a|e] s']; simpl in *.
  - eapply grows_trans; [done|apply Hf].
  - eapply grows_mono; [|done]. lia.
Qed.
Lemma adds_bind0 k {A B} (m : M A) (f : A -> M B) : steps (grows P 0) m -> (forall a, adds k (f a)) -> adds k (m ≫= f).
Proof. intros Hm Hf. apply (adds_bind 0 k); [by apply adds_still|done]. Qed.
Lemma adds_bindS k {A B} (m : M A) (f : A -> M B) : adds 1 m -> (forall a, adds k (f a)) -> adds (S k) (m ≫= f).
Proof. apply (adds_bind 1 k). Qed.
Lemma adds_lift k {A B} (r : Res A) (f : A -> M B) : (forall a, r = Ok a -> adds k (f a)) -> adds k (lift r ≫= f).
Proof.
  intros Hf s. unfold mbind, M_bind, lift. destruct r as [a|e]; [by apply Hf|]. apply (grows_mono P 0); [lia|]. reflexivity.
Qed.

Lemma adds_enqueue r b : (forall id, P (new_item id now r)) -> adds 1 (queue_enqueue now r b).
Proof.
  intros HP s. unfold queue_enqueue, mbind, M_bind, gets, lift, modify, fresh. cbv beta iota.
  destruct (get_by_key _ _) as [e|] eqn:Hk; [apply (grows_mono P 0); [lia|reflexivity]|]. simpl.
  destruct (enqueue_item _ _ _ _ _ _) as [[i t']|e] eqn:He; simpl.
  - apply enqueue_item_cases in He as [[-> _]|(-> & -> & _ & Hid)].
    + apply (grows_mono P 0); [lia|]. unfold when. destruct b; apply grows_same; simpl; auto.
    + set (i := new_item _ _ _) in *. assert (NoDup (map qi_id (a_queue (se_db s))) -> NoDup (map qi_id (a_queue (se_db s) ++ [i]))) as Hnd.
      { intros Hn. rewrite map_app. apply NoDup_app. split_and!; [done| |apply NoDup_singleton].
        by intros x Hx ->%list_elem_of_singleton. }
      unfold when. destruct b; (split; [exists [i]; split; [reflexivity|]; split; [simpl; lia|]; split; [apply Forall_singleton, HP|]|exact Hnd]).
      * right. by exists [i].
      * by left.
  - apply (grows_mono P 0); [lia|]. apply grows_same; simpl; auto.
Qed.
End Adds.
#[export] Hint Resolve still_commit still_call still_fresh still_set_health : steps.
#[export] Hint Extern 1 (steps (grows _ 0) (modify _)) => (apply still_modify; reflexivity) : steps.

(** ** What the handlers enqueue *)

(** A new item of a lower rank. *)
Record spawned (bound : Z) (i : ChannelOpsQueueItem) : Prop := {
  sp_rank : (0 <= rank i < bound)%Z;
  sp_state : qi_status i = QUEUE_QUEUED /\ qi_attempt_count i = 0%Z /\ qi_max_attempts i = 3%Z }.

Section Spawns.
Context {AC : AgentClients} {OD : OwnedDownstream} (now : datetime).

Ltac adds_tac :=
  repeat (cbv zeta; cbv beta;
    lazymatch goal with
    | |- adds _ _ (lift _ ≫= _) => apply adds_lift; intros ? ?
    | |- adds _ _ (_ ≫= _) =>
        first [apply adds_bind0; [solve [auto 30 with steps]|intros ?] | apply adds_bindS; [|intros ?]]
    | |- adds _ _ (match ?x with _ => _ end) => first [solve [apply adds_still; auto 30 with steps] | destruct x eqn:?]
    | |- adds _ _ _ => apply adds_still; solve [auto 30 with steps]
    end).

Lemma still_emit P actor action platform metadata : steps (grows P 0) (_emit_actor_action_event now actor action platform metadata).
Proof. unfold _emit_actor_action_event. auto 10 with steps. Qed.
Lemma still_save_task P t : steps (grows P 0) (save_task t).
Proof. unfold save_task. auto with steps. Qed.
Lemma still_save_publication P p : steps (grows P 0) (save_publication p).
Proof. unfold save_publication. auto with steps. Qed.
Lemma still_save_account P a : steps (grows P 0) (save_account a).
Proof. unfold save_account. auto with steps. Qed.
Hint Resolve still_emit still_save_task still_save_publication still_save_account : steps.
Lemma still_finish P t : steps (grows P 0) (finish_task t).
Proof. unfold finish_task. auto with steps. Qed.
Hint Resolve still_finish : steps.
Lemma still_invalid_review P t actor : steps (grows P 0) (_hold_invalid_external_review now t actor).
Proof. unfold _hold_invalid_external_review, _hold_task_for_review. auto 10 with steps. Qed.
Lemma still_task_from_item P item : steps (grows P 0) (_task_from_item item).
Proof. unfold _task_from_item. auto 10 with steps. Qed.
Lemma still_publication_from_item P item : steps (grows P 0) (_publication_from_item item).
Proof. unfold _publication_from_item. auto 10 with steps. Qed.
Hint Resolve still_invalid_review still_task_from_item still_publication_from_item : steps.

Lemma adds_next bound item kind key payload priority run_after channel :
  (forall id, spawned bound (new_item id now (request kind key payload priority run_after channel (Some (qi_id item))))) ->
  adds (spawned bound) 1 (enqueue_next now item kind key payload priority run_after channel).
Proof. intros H. unfold enqueue_next. apply adds_bindS; [by apply adds_enqueue|intros i]. apply adds_still. auto with steps. Qed.

Lemma adds_alert bound t r sev msg d c : (0 < bound)%Z -> adds (spawned bound) 1 (_enqueue_alert now t r sev msg d c).
Proof. intros Hb. apply adds_enqueue. intros id. split; [|done]. unfold rank. simpl. lia. Qed.

Lemma adds_decide bound r : (0 < bound)%Z -> adds (spawned bound) 1 (_decide_pds now r).
Proof.
  intros Hb. unfold _decide_pds, _maybe_enqueue_pds_outage_alert. adds_tac.
  apply adds_enqueue. intros id. split; [|done]. unfold rank. simpl. lia.
Qed.

Lemma spawns_plan item : adds (spawned 50) 3 (plan_plain now item).
Proof.
  unfold plan_plain. adds_tac.
  - unfold agent_approval. adds_tac. by apply adds_decide.
  - apply adds_next. intros id. by split.
Qed.

Lemma adds_observe bound item t run job count run_after : (0 <= count)%Z -> (48 - Z.min 20 count < bound)%Z ->
  adds (spawned bound) 1 (enqueue_observe now item t run job count run_after).
Proof.
  intros H0 Hb. unfold enqueue_observe. apply adds_next. intros id. split; [|done]. unfold rank, poll_count. simpl.
  unfold _nonnegative_int, int_such_that. simpl. destruct (Z.leb_spec 0 count); simpl; lia.
Qed.

Lemma spawns_execute item : adds (spawned 49) 3 (execute_plain now item).
Proof. unfold execute_plain. adds_tac; apply adds_observe; lia. Qed.

Lemma spawns_observe item : adds (spawned (48 - Z.min 20 (poll_count item "observe_count"))) 3 (observe_plain now item).
Proof.
  unfold observe_plain. adds_tac;
    (match goal with H : _nonnegative_int _ _ = Ok ?c |- _ =>
       pose proof (nonnegative_int_bound _ _ H); assert (poll_count item "observe_count" = c) as -> by (unfold poll_count; by rewrite H)
     end).
  - apply Z.leb_gt in Heqb. unfold _MAX_AUTOFLOW_OBSERVE_POLLS in Heqb. apply adds_observe; lia.
  - apply adds_next. intros id. split; [|done]. unfold rank. simpl. lia.
Qed.

Lemma still_ledger P t p refs : steps (grows P 0) (_write_material_usage_ledger now t p refs).
Proof. unfold _write_material_usage_ledger, ledger_turn. auto 20 with steps. Qed.
Lemma still_create P t account video refs : steps (grows P 0) (publication_or_create now t account video refs).
Proof. unfold publication_or_create, _publish_time_material_usage_guard, add_publication. auto 30 with steps. Qed.
Hint Resolve still_ledger still_create : steps.

Lemma spawns_publish item : adds (spawned 27) 3 (publish_plain now item).
Proof.
  unfold publish_plain, _material_references_for_publish, record_publication. adds_tac.
  - by apply adds_alert.
  - apply adds_next. intros id. by split.
Qed.

Lemma still_promotion_event P p action metadata : steps (grows P 0) (emit_promotion now p action metadata).
Proof. apply still_emit. Qed.
Hint Resolve still_promotion_event : steps.

Lemma spawns_promote item : adds (spawned 26) 3 (promote_plain now item).
Proof.
  unfold promote_plain, _hold_task_for_review, pds_hold, schedule_publication. adds_tac.
  - by apply adds_decide.
  - apply adds_next. intros id. by split.
  - apply adds_next. intros id. by split.
Qed.

Lemma spawns_reconcile item : adds (spawned 1) 3 (reconcile_plain now item).
Proof. unfold reconcile_plain. adds_tac. Qed.

Lemma spawns_collect item : adds (spawned (25 - Z.min 24 (poll_count item "metrics_poll_count"))) 3 (collect_plain now item).
Proof.
  set (count := poll_count item "metrics_poll_count").
  assert (forall p task, adds (spawned (25 - Z.min 24 count)) 3
    (_ ← metrics_missing now item p task (qi_payload_json item); mret (A:=option FeedbackSnapshot) None)) as Hmissing.
  { intros p task. apply (adds_bind _ 3 0); [|intros ?; apply adds_still; auto with steps].
    unfold metrics_missing, save_optional. adds_tac. assert (count = a) as -> by (unfold count, poll_count; by rewrite H).
    pose proof (nonnegative_int_bound _ _ H) as Hc. apply Z.leb_gt in Heqb. unfold _MAX_METRICS_POLLS in Heqb. apply adds_next. intros id. split; [|done].
    unfold rank, poll_count. simpl. unfold _nonnegative_int, int_such_that. simpl. destruct (Z.leb_spec 0 (a + 1)); simpl; lia. }
  assert (forall p task metrics payload, _has_real_metrics metrics = true \/ payload = qi_payload_json item ->
    adds (spawned (25 - Z.min 24 count)) 3 (store_metrics now item p task (metrics, payload))) as Hrest.
  { intros p task metrics payload Hm. unfold store_metrics. destruct (_has_real_metrics metrics) eqn:Hreal; cbn [negb].
    - unfold save_feedback, save_optional. adds_tac.
    - destruct Hm as [?| ->]; [done|]. apply Hmissing. }
  unfold collect_plain. apply adds_bind0; [auto with steps|intros p]. apply adds_bind0; [auto with steps|intros task].
  destruct (rejected_publication p task); [apply adds_still; auto with steps|].
  intros s. unfold find_metrics. cbv zeta. unfold mbind, M_bind.
  destruct (_has_real_metrics _ || _) eqn:Hr; [apply Hrest; auto|].
  unfold attempt, call. set (s' := s <| se_calls := _ |>).
  assert (grows (spawned (25 - Z.min 24 count)) 0 s s') as Hs by (apply grows_same; auto).
  destruct (fetch_metrics_answer _) as [fetched|e]; cbn [ok_or]; (destruct (_has_real_metrics _) eqn:Hf in |- *);
    (eapply (grows_trans _ 0 3); [exact Hs|]); apply Hrest; auto.
Qed.

Lemma spawns_health item : adds (spawned 1) 3 (handle_account_health now item).
Proof. unfold handle_account_health, when. adds_tac. by apply adds_alert. Qed.

Lemma adds_unit P k {A B} (m : M A) (f : A -> B) : adds P k m -> adds P k (a ← m; mret (f a)).
Proof. intros H. rewrite <- (Nat.add_0_r k). apply adds_bind; [done|]. intros a. apply adds_still. auto with steps. Qed.

(** Handling an item enqueues at most three, all of lower rank. *)
Lemma handler_spawns item s : unowned item s -> qi_kind item ∈ TASK_KINDS ->
  grows (spawned (rank item)) 3 s (handle_task_item now item s).2.
Proof.
  intros Hown Hk.
  assert (forall {A} (owned : M (option A)) (plain : M A), approved_inventory (se_db s) = false \/ owned s = (Ok None, s) ->
    adds (spawned (rank item)) 3 plain ->
    grows (spawned (rank item)) 3 s ((_ ← unless_owned owned plain; mret tt) s).2) as Hun.
  { intros A owned plain Ho H. pose proof (adds_unit _ _ _ (fun _ => tt) H s) as Hs. unfold mbind, M_bind in *.
    by rewrite unless_owned_plain. }
  unfold handle_task_item, handle_plan_task, handle_execute_task, handle_observe_job, handle_publish_task,
    handle_promote_publication, handle_reconcile_publication, handle_collect_metrics.
  unfold TASK_KINDS in Hk. rewrite !elem_of_cons, elem_of_nil in Hk. unfold rank in *.
  destruct Hk as [Hk|[Hk|[Hk|[Hk|[Hk|[Hk|[Hk|[Hk|[]]]]]]]]]; rewrite Hk in *; cbn [String.eqb Ascii.eqb Bool.eqb] in *.
  - apply Hun; [not_taken Hown|]. apply spawns_plan.
  - apply Hun; [not_taken Hown|]. apply spawns_execute.
  - apply Hun; [not_taken Hown|]. apply spawns_observe.
  - apply Hun; [not_taken Hown|]. apply spawns_publish.
  - apply Hun; [not_taken Hown|]. apply adds_unit, spawns_promote.
  - apply Hun; [not_taken Hown|]. apply adds_unit, spawns_reconcile.
  - apply Hun; [not_taken Hown|]. apply spawns_collect.
  - apply (adds_unit _ _ _ (fun _ => tt) (spawns_health item)).
Qed.
End Spawns.

(** ** The runner *)

(** One turn of the runner on an item it has claimed, without a lease: the handler, then
    the settlement of [ChannelRunner].  [alert] is what the alert service does. *)
Definition run_claimed {AC : AgentClients} {OD : OwnedDownstream} (now settled_at : datetime) (h : PdsHealth) (n : nat)
    (alert : Res unit) (item : ChannelOpsQueueItem) (db : AgentDb) : Res AgentDb :=
  let '(r, s) :=
    if (qi_kind item =? "send_alert")%string then (alert, open_session db h n)
    else handle_task_item now item (open_session db h n) in
  q ← settle_item sha256 settled_at item
        {| hr_error := match r with Ok _ => None | Raise e => Some (exception_text e) end; hr_lease := None;
           hr_queue := a_queue (se_committed s) |};
  Ok ((se_committed s) <| a_queue := q |>).

(** The runner takes the next item of the life of a task, or an alert. *)
Definition agent_step {AC : AgentClients} {OD : OwnedDownstream} (db db' : AgentDb) : Prop :=
  exists now settled_at worker h n alert item q,
    claim_next now worker (a_queue db) = (Some item, q) /\ qi_kind item ∈ "send_alert" :: TASK_KINDS
    /\ unowned item (open_session (db <| a_queue := q |>) h n)
    /\ run_claimed now settled_at h n alert item (db <| a_queue := q |>) = Ok db'.

(** ** The measure *)

(** Attempts an item has left. *)
Definition attempts_left (i : ChannelOpsQueueItem) : Z := (1 + Z.max 0 (attempt_limit None i - 1 - qi_attempt_count i))%Z.

Definition weight (i : ChannelOpsQueueItem) : Z :=
  if (qi_status i =? QUEUE_QUEUED)%string then (attempts_left i * 10 ^ rank i)%Z else 0%Z.

Definition load (t : queue_table) : Z := fold_right Z.add 0%Z (map weight t).

Lemma rank_nonneg i : (0 <= rank i)%Z.
Proof.
  unfold rank, poll_count. repeat case_match; try lia.
Qed.

Lemma weight_nonneg i : (0 <= weight i)%Z.
Proof. unfold weight, attempts_left. destruct (_ =? _)%string; [|lia]. pose proof (Z.pow_nonneg 10 (rank i)). nia. Qed.

Lemma load_app t t' : load (t ++ t') = (load t + load t')%Z.
Proof. unfold load. induction t as [|i t IH]; simpl; [done|]. lia. Qed.

Lemma load_cons i t : load (i :: t) = (weight i + load t)%Z.
Proof. done. Qed.

Lemma load_nonneg t : (0 <= load t)%Z.
Proof. induction t as [|i t IH]; [done|]. rewrite load_cons. pose proof (weight_nonneg i). lia. Qed.

(** Three items of lower rank weigh less than one attempt. *)
Lemma spawned_load bound t : (0 <= bound)%Z -> Forall (spawned bound) t -> length t <= 3 -> (load t < 10 ^ bound)%Z.
Proof.
  intros Hb HF Hl.
  assert (load t <= Z.of_nat (length t) * (3 * 10 ^ (bound - 1)))%Z as H.
  { clear Hl. induction HF as [|i t [Hr (Hs & Ha & Hm)] HF IH]; [done|]. rewrite load_cons. simpl length.
    assert (weight i <= 3 * 10 ^ (bound - 1))%Z; [|lia]. unfold weight, attempts_left, attempt_limit. rewrite Hs, Ha, Hm. simpl.
    pose proof (Z.pow_le_mono_r 10 (rank i) (bound - 1)). lia. }
  destruct (Z.eq_dec bound 0) as [->|Hne].
  - destruct t as [|i t]; [done|]. inversion HF as [|x y [Hr _] _]; subst. lia.
  - replace bound with (Z.succ (bound - 1)) at 1 by lia. rewrite Z.pow_succ_r by lia.
    pose proof (Z.pow_pos_nonneg 10 (bound - 1)). nia.
Qed.

Lemma update_item_split id f l1 i l2 : id ∉ map qi_id l1 -> id ∉ map qi_id l2 -> qi_id i = id ->
  update_item id f (l1 ++ i :: l2) = l1 ++ f i :: l2.
Proof.
  intros H1 H2 Hi. unfold update_item.
  assert (forall l, id ∉ map qi_id l -> map (fun j => if (qi_id j =? id)%string then f j else j) l = l) as Hid.
  { intros l Hl. rewrite <- (map_id l) at 2. apply map_ext_in. intros j Hj%list_elem_of_In.
    destruct (String.eqb_spec (qi_id j) id) as [He|]; [|done]. destruct Hl. rewrite <- He. by apply elem_map. }
  rewrite map_app. simpl. by rewrite !Hid, Hi, String.eqb_refl.
Qed.

Lemma find_item_split id l1 i l2 : id ∉ map qi_id l1 -> qi_id i = id -> find_item id (l1 ++ i :: l2) = Some i.
Proof.
  intros H1 Hi. unfold find_item. induction l1 as [|j l1 IH]; simpl in *; [by rewrite Hi, String.eqb_refl|].
  apply not_elem_of_cons in H1 as [Hj H1]. destruct (String.eqb_spec (qi_id j) id) as [He|]; [congruence|by apply IH].
Qed.

Lemma rank_state st i : rank (set_queue_state st i) = rank i.
Proof. done. Qed.

Lemma limit_state st i : attempt_limit None (set_queue_state st i) = attempt_limit None i.
Proof. done. Qed.

(** Settling a claimed item takes an attempt from it, or everything. *)
Lemma settled_weight sha settled_at now worker i error l1 l2 q' : ready now i = true ->
  qi_id i ∉ map qi_id l1 -> qi_id i ∉ map qi_id l2 ->
  let item := set_queue_state (claim_state now worker i) i in
  settle_item sha settled_at item {| hr_error := error; hr_lease := None; hr_queue := l1 ++ item :: l2 |} = Ok q' ->
  exists item', q' = l1 ++ item' :: l2 /\ qi_id item' = qi_id i /\ (weight item' <= weight i - 10 ^ rank i)%Z.
Proof.
  intros Hready%ready_queued H1 H2 item. unfold settle_item. simpl hr_error. simpl hr_lease. simpl hr_queue.
  assert (qi_id item = qi_id i) as Hid by done.
  assert (forall new, commit_item item new (l1 ++ item :: l2) = Ok (l1 ++ set_queue_state new item :: l2)) as Hcommit.
  { intros new. unfold commit_item. rewrite Hid, find_item_split by done. by rewrite update_item_split, write_queue_state_loaded. }
  assert (10 ^ rank i <= weight i)%Z as Hone.
  { unfold weight, attempts_left. rewrite Hready. simpl. pose proof (Z.pow_nonneg 10 (rank i)). nia. }
  destruct error as [message|].
  - rewrite Hid, find_item_split by done. unfold mark_failed_or_retry. rewrite Hcommit. intros [= <-]. eexists.
    split_and!; [reflexivity|done|]. unfold weight at 1, failure_state. rewrite !rank_state.
    assert (attempt_limit None item = attempt_limit None i) as -> by done. change (qi_attempt_count item) with (qi_attempt_count i + 1)%Z.
    destruct (Z.leb_spec (attempt_limit None i) (qi_attempt_count i + 1)); simpl; [lia|].
    unfold weight, attempts_left. rewrite Hready, !limit_state. simpl. change (rank item) with (rank i).
    pose proof (Z.pow_nonneg 10 (rank i)). unfold attempt_limit in *. nia.
  - unfold mark_succeeded. rewrite Hcommit. intros [= <-]. eexists. split_and!; [reflexivity|done|]. unfold weight at 1. simpl. lia.
Qed.

(** ** Steps decrease the load *)

Section Drain.
Context {AC : AgentClients} {OD : OwnedDownstream}.

(** What a turn leaves in the queue before the settlement. *)
Lemma turn_queue now h n alert item (db : AgentDb) : unowned item (open_session db h n) -> NoDup (map qi_id (a_queue db)) ->
  qi_kind item ∈ "send_alert" :: TASK_KINDS ->
  let s := (if (qi_kind item =? "send_alert")%string then (alert, open_session db h n)
            else handle_task_item now item (open_session db h n)).2 in
  exists kept, a_queue (se_committed s) = a_queue db ++ kept /\ length kept <= 3 /\ Forall (spawned (rank item)) kept
    /\ NoDup (map qi_id (a_queue db ++ kept)).
Proof.
  intros Hown Hnd Hkind s. destruct (String.eqb_spec (qi_kind item) "send_alert") as [He|Hne].
  { exists []. rewrite app_nil_r. split_and!; [done|simpl; lia|done..]. }
  apply elem_of_cons in Hkind as [?|Hkind]; [done|].
  destruct (handler_spawns now item (open_session db h n) Hown Hkind) as [(new & Hnew & Hlen & HF & Hc) Hids].
  specialize (Hids Hnd). rewrite Hnew in Hids. change (a_queue (se_db (open_session db h n))) with (a_queue db) in *.
  destruct Hc as [Hc|(kept & Hc & [rest ->])].
  - exists []. rewrite app_nil_r. split_and!; [exact Hc|simpl; lia|done..].
  - rewrite length_app in Hlen. apply Forall_app in HF as [HF _]. rewrite app_assoc, map_app in Hids. apply NoDup_app in Hids as [Hids _].
    exists kept. split_and!; [exact Hc|lia|done..].
Qed.

(** A turn keeps the queue in shape and makes its load smaller. *)
Lemma step_decreases db db' : agent_step db db' -> NoDup (map qi_id (a_queue db)) ->
  NoDup (map qi_id (a_queue db')) /\ (load (a_queue db') < load (a_queue db))%Z.
Proof.
  intros (now & settled_at & worker & h & n & alert & item & q & Hclaim & Hkind & Hown & Hrun) Hnd.
  apply claim_next_some in Hclaim as (i & Hi & Hready & _ & Hitem & Hq).
  apply list_elem_of_split in Hi as (l1 & l2 & Hl). rewrite Hl, map_app in Hnd. simpl in Hnd.
  pose proof Hnd as (_ & Hx & [Hn2 _]%NoDup_cons)%NoDup_app.
  assert (qi_id i ∉ map qi_id l1) as H1 by (intros H; apply (Hx _ H); by left).
  rewrite Hl, update_item_split in Hq by done.
  assert (NoDup (map qi_id (a_queue (db <| a_queue := q |>)))) as Hq'.
  { change (NoDup (map qi_id q)). rewrite Hq, Hitem, map_app. exact Hnd. }
  destruct (turn_queue now h n alert item _ Hown Hq' Hkind) as (kept & Hcom & Hlen & HF & Hndk).
  unfold run_claimed in Hrun. destruct (if (qi_kind item =? _)%string then _ else _) as [r s]. cbn [snd] in Hcom.
  change (a_queue (db <| a_queue := q |>)) with q in Hcom, Hndk.
  unbind Hrun. injection Hrun as <-. rewrite Hcom, Hq, <- app_assoc in Ha. simpl in Ha. rewrite Hitem in Ha.
  rewrite Hq, <- app_assoc, map_app in Hndk. simpl in Hndk.
  assert (qi_id i ∉ map qi_id (l2 ++ kept)) as H2.
  { apply NoDup_app in Hndk as (_ & _ & [Hk _]%NoDup_cons). by rewrite Hitem in Hk. }
  apply settled_weight in Ha as (item' & -> & Hid & Hw); [|done..].
  assert (rank item = rank i) as Hr by (by rewrite Hitem). rewrite Hr in HF.
  pose proof (spawned_load (rank i) kept (rank_nonneg i) HF Hlen) as Hlt.
  change (a_queue ((se_committed s) <| a_queue := l1 ++ item' :: l2 ++ kept |>)) with (l1 ++ item' :: l2 ++ kept). split.
  - change (NoDup (map qi_id (l1 ++ item' :: l2 ++ kept))). rewrite map_app. simpl. rewrite Hid. by rewrite Hitem in Hndk.
  - change (load (l1 ++ item' :: l2 ++ kept) < load (a_queue db))%Z. rewrite Hl, !load_app, !load_cons, !load_app. lia.
Qed.

(** C11. Workflows come to an end.  Left to itself, without ticks and operators, the runner
    can take only as many turns on items that are not owned as the load of the queue, the
    sum over the queued items of the attempts they have left times ten to the power of
    their rank, whatever the clients answer, whether handlers return or raise, and at
    whatever times.  Turns that the handlers of owned inventories take over are left out. *)
Theorem workflow_drains (db db' : AgentDb) (k : nat) : NoDup (map qi_id (a_queue db)) ->
  nsteps agent_step k db db' -> (Z.of_nat k <= load (a_queue db))%Z.
Proof.
  intros Hd Hs. induction Hs as [db|k db1 db2 db3 H1 Hs IH]; [pose proof (load_nonneg (a_queue db)); lia|].
  destruct (step_decreases _ _ H1 Hd) as [Hd2 Hlt]. specialize (IH Hd2). lia.
Qed.
End Drain.
