(* ===== verification/TaskDemo.v ===== *)
(** * A concrete workflow

    Clients that answer, two accounts of one channel, a task taken from its plan to its
    metrics; and the theorems on the handlers applied to it. *)

From stdpp Require Import base tactics list strings relations.
From Stdlib Require Import ZArith Lia.
From S2P Require Import Prelude PyStr PyValue PyTime PyUuid Pipeline JobModel Outbox ChannelQueue QueueHistory ChannelRunner MaterialUsage AgentModel HumanReview AgentLogic ChannelTick TickSafe ChannelTasks TaskSafe TaskPublish TaskFlow.

Open Scope string_scope.
Open Scope list_scope.

Module TaskDemo.
Definition video : config := [("video_id", VStr "v1"); ("material_id", VStr "m1")].

#[export] Instance clients : AgentClients :=
  {| plan_task_answer := fun _ => Ok {| po_plan_id := uuid_str 9; po_nodes := [[("type", VStr "youtube_upload")]] |};
     execute_task_answer := fun _ => Ok {| xo_run_id := uuid_str 20; xo_pipeline_id := None; xo_job_id := Some (uuid_str 21);
                                           xo_status := "running"; xo_error_message := None |};
     observe_job_answer := fun _ => Ok {| jo_status := "succeeded"; jo_error_message := None; jo_youtube := Some video |};
     approve_plan_answer := fun _ => Ok tt; quota_answer := fun _ => Ok (float_of_Z 1);
     schedule_publish_answer := fun _ => Ok []; fetch_metrics_answer := fun _ => Ok [("views", VInt 5)];
     fetch_status_answer := fun _ => Ok [("privacy", VStr "unlisted")]; refresh_token_answer := fun _ => Ok true;
     thumbnail_answer := fun _ => Raise (ValueError "no thumbnail");
     decide_answer := fun _ => Ok {| pd_decision_id := "d1"; pd_verdict := "allow"; pd_score := float_of_Z 0; pd_reasons := [];
                                     pd_rules_version := "1"; pd_metadata := [] |};
     model_validate := fun r => Ok r; new_uuid := fun n => uuid_str (1000 + Z.of_nat n); sha256 := fun s => "sha:" +:+ s;
     exception_text := fun _ => "error"; pds_health_monitor_enabled := true |}.

#[export] Instance no_owned : OwnedDownstream :=
  {| owned_plan := fun _ => raise KeyError; owned_task := fun _ => raise KeyError; owned_publication := fun _ => raise KeyError;
     owned_metrics := fun _ => raise KeyError |}.

Definition task (id account : Z) : ProductionTask :=
  reviewed_task <| tk_id := uuid_str id |> <| tk_target_account_id := uuid_str account |> <| tk_source := "lane_seed" |>
    <| tk_source_platforms_json := VList [] |> <| tk_uses_external_assets := false |> <| tk_approval_mode := "agent" |>
    <| tk_human_review_evidence_json := VDict [] |> <| tk_autoflow_plan_id := None |> <| tk_state := TASK_SELECTED |>.

Definition item (id task : Z) (kind : string) (payload : config) : ChannelOpsQueueItem :=
  new_item (uuid_str id) DAY_US
    (request kind (kind +:+ ":" +:+ uuid_str task) (("production_task_id", VStr (uuid_str task)) :: payload) 50 None None None).

Definition db : AgentDb :=
  (TickDemo.db None) <| a_tasks := [task 40 3; task 41 4] |> <| a_queue := [item 50 40 "plan_task" []] |>.

(** A turn of the runner at a time, if there is something to do. *)
Definition turn (db : AgentDb) (now : datetime) : AgentDb :=
  match claim_next now "w" (a_queue db) with
  | (Some item, q) => ok_or db (run_claimed now now TickDemo.no_health (Z.to_nat (now / MINUTE_US) mod 100) (Ok tt) item (db <| a_queue := q |>))
  | (None, _) => db
  end.

Definition run (times : list Z) : AgentDb := fold_left turn (map (fun m => DAY_US + m * MINUTE_US)%Z times) db.

(** From the plan to the metrics. *)
Example life_of_a_task :
  map tk_state (a_tasks (run [1; 2; 3; 4]%Z)) = [TASK_UPLOADED_PRIVATE; TASK_SELECTED]
  /\ map pu_publish_status (a_publications (run [1; 2; 3; 4; 5]%Z)) = ["scheduled"]
  /\ map pu_current_privacy (a_publications (run [1; 2; 3; 4; 5; 150]%Z)) = ["unlisted"]
  /\ map tk_state (a_tasks (run [1; 2; 3; 4; 5; 150; 151]%Z)) = [TASK_MEASURED; TASK_SELECTED]
  /\ map qi_status (a_queue (run [1; 2; 3; 4; 5; 150; 151]%Z)) = replicate 7 QUEUE_SUCCEEDED
  /\ map fe_views (a_feedback (run [1; 2; 3; 4; 5; 150; 151]%Z)) = [5%Z].
Proof. vm_compute. done. Qed.
End TaskDemo.
#[local] Existing Instances TaskDemo.clients TaskDemo.no_owned.

(** ** The theorems at work *)

(** Before the promotion, and its item. *)
Definition uploaded_db : AgentDb := Eval vm_compute in TaskDemo.run [1; 2; 3; 4]%Z.
Definition promote_item : ChannelOpsQueueItem :=
  Eval vm_compute in List.last (a_queue uploaded_db) (TaskDemo.item 0 0 "" []).

Lemma effects_gated_witness : exists at_ : datetime,
  CallSchedulePublish "v1" at_ "unlisted"
    ∈ se_calls (handle_task_item DAY_US promote_item (open_session uploaded_db TickDemo.no_health 90)).2
  /\ publication_gated uploaded_db promote_item "v1" "unlisted".
Proof.
  assert (forall at_, CallSchedulePublish "v1" at_ "unlisted"
      ∈ se_calls (handle_task_item DAY_US promote_item (open_session uploaded_db TickDemo.no_health 90)).2 ->
    publication_gated uploaded_db promote_item "v1" "unlisted") as H.
  { intros at_ Hc. apply (effects_gated DAY_US promote_item uploaded_db TickDemo.no_health 90 _ (or_introl eq_refl) Hc). }
  assert (exists at_, CallSchedulePublish "v1" at_ "unlisted"
      ∈ se_calls (handle_task_item DAY_US promote_item (open_session uploaded_db TickDemo.no_health 90)).2) as [at_ Hc].
  { eexists. vm_compute. right. left. }
  exists at_. split; [exact Hc|exact (H at_ Hc)].
Defined.

(** Before the publication, and its item. *)
Definition produced_db : AgentDb := Eval vm_compute in TaskDemo.run [1; 2; 3]%Z.
Definition publish_item : ChannelOpsQueueItem :=
  Eval vm_compute in List.last (a_queue produced_db) (TaskDemo.item 0 0 "" []).

(** The publication of the first task. *)
Definition published_s : Session :=
  Eval vm_compute in (handle_publish_task DAY_US publish_item (open_session produced_db TickDemo.no_health 80)).2.
Definition sibling_db : AgentDb := Eval vm_compute in se_committed published_s.
Definition the_account : PublishingAccount := TickDemo.account 3.
Definition produced_task : ProductionTask := Eval vm_compute in List.hd (TaskDemo.task 40 3) (a_tasks produced_db).
Definition published_p : PublicationRecord :=
  Eval vm_compute in List.hd (new_publication DAY_US "" produced_task the_account "") (a_publications sibling_db).

Lemma published_once :
  handle_publish_task DAY_US publish_item (open_session produced_db TickDemo.no_health 80) = (Ok (Some published_p), published_s).
Proof. vm_compute. reflexivity. Qed.

Lemma publish_redelivered_witness :
  let db2 := se_committed (handle_publish_task (2 * DAY_US)%Z publish_item
                             (open_session (se_committed published_s) TickDemo.no_health 85)).2 in
  length (a_publications (se_committed published_s)) = 1
  /\ map pu_id (a_publications db2) = map pu_id (a_publications (se_committed published_s))
  /\ a_ledger db2 = a_ledger (se_committed published_s).
Proof.
  split; [vm_compute; reflexivity|].
  exact (publish_redelivered DAY_US (2 * DAY_US)%Z publish_item produced_db TickDemo.no_health TickDemo.no_health 80 85
    published_p published_s eq_refl eq_refl published_once).
Defined.

(** The other task, after the publication: its account wants the same material. *)
Definition sibling_item : ChannelOpsQueueItem := TaskDemo.item 60 41 "publish_task" [("youtube", VDict TaskDemo.video)].
Definition the_reference : MaterialReference :=
  {| mr_material_id := "m1"; mr_asset_id := None; mr_start_ms := None; mr_end_ms := None; mr_segment_signature := "sha:m1::";
     mr_metadata := TaskDemo.video |}.

Lemma first_input : publish_input publish_item produced_db produced_task [the_reference].
Proof. split; [exists (uuid_str 40); split; vm_compute; reflexivity|]. exists TaskDemo.video. split; vm_compute; reflexivity. Qed.
Lemma sibling_input : publish_input sibling_item sibling_db (TaskDemo.task 41 4) [the_reference].
Proof. split; [exists (uuid_str 41); split; vm_compute; reflexivity|]. exists TaskDemo.video. split; vm_compute; reflexivity. Qed.
Lemma no_ledger_yet row : row ∈ a_ledger produced_db ->
  forall pid, ml_publication_id row = Some pid -> pid ∈ map pu_id (a_publications produced_db).
Proof. intros []%elem_of_nil. Qed.
Lemma sibling_ledger : a_ledger (se_committed published_s) ⊆ a_ledger sibling_db.
Proof. intros x Hx. exact Hx. Qed.

Lemma published_material_blocked_witness :
  rows (se_committed (handle_publish_task (10 * DAY_US)%Z sibling_item (open_session sibling_db TickDemo.no_health 95)).2)
    = rows sibling_db /\ length (a_publications sibling_db) = 1.
Proof.
  split; [|vm_compute; reflexivity].
  exact (published_material_blocked DAY_US (10 * DAY_US)%Z publish_item sibling_item produced_db sibling_db TickDemo.no_health
    TickDemo.no_health 80 95 published_p published_s produced_task (TaskDemo.task 41 4) [the_reference] [the_reference]
    the_reference the_reference (or_introl eq_refl) first_input eq_refl no_ledger_yet published_once (or_introl eq_refl) sibling_ledger sibling_input eq_refl
    ltac:(discriminate) eq_refl ltac:(discriminate) ltac:(vm_compute; reflexivity) ltac:(vm_compute; reflexivity)
    ltac:(by left) ltac:(by left) eq_refl ltac:(vm_compute; discriminate)).
Defined.

Lemma workflow_drains_witness : exists db', nsteps agent_step 2 TaskDemo.db db' /\ (Z.of_nat 2 <= load (a_queue TaskDemo.db))%Z.
Proof.
  assert (exists db', nsteps agent_step 2 TaskDemo.db db') as [db' H].
  { eexists. eapply nsteps_l; [|eapply nsteps_l; [|apply nsteps_O]].
    - exists (DAY_US + MINUTE_US)%Z, (DAY_US + MINUTE_US)%Z, "w", TickDemo.no_health, 1, (Ok tt). do 2 eexists.
      split; [vm_compute; reflexivity|]. split; [vm_compute; right; left|split; [left; vm_compute; reflexivity|vm_compute; reflexivity]].
    - exists (DAY_US + 2 * MINUTE_US)%Z, (DAY_US + 2 * MINUTE_US)%Z, "w", TickDemo.no_health, 2, (Ok tt). do 2 eexists.
      split; [vm_compute; reflexivity|]. split; [vm_compute; right; right; left|split; [left; vm_compute; reflexivity|vm_compute; reflexivity]]. }
  exists db'. split; [exact H|]. apply (workflow_drains TaskDemo.db db' 2); [apply NoDup_singleton|exact H].
Defined.
