(* ===== verification/DiscoveryIngest.v ===== *)
(** * Ingestion of discovery signals
    ([services/discovery_ingestion.py], [trend_ingesters/youtube_search.py])

    A worker that holds the claim of an [ingest_discovery] item asks the service to search
    for the lanes of a channel.  The service commits a claim of its own on the run of the
    bucket, searches, and commits signals and result together if the claim still stands;
    a run that is left running can be claimed again after fifteen minutes.

    An ingestion is two transactions, the claim and the work; anything may happen in
    between.  The searching client is a parameter. *)

From stdpp Require Import base tactics list strings sorting relations.
From Stdlib Require Import ZArith Lia.
From coqutil Require Import Datatypes.RecordSetters.
From S2P Require Import Prelude PyStr PyValue PyJson PyTime PyUuid DiscoveryPolicy JobModel Outbox ChannelQueue AgentModel ChannelTick.
Import TriangleBracketNotations.

Open Scope string_scope.
Open Scope list_scope.

(** ** Rows *)

(** The columns of a channel the service reads. *)
Record DiscoveryChannel := {
  dc_id : uuid;
  dc_enabled : bool;
  dc_halted_at : option datetime;
  dc_intake_paused_at : option datetime;
  dc_content_mix_policy_json : pyval }.

Record DiscoverySignal := {
  ds_id : uuid;
  ds_channel_profile_id : uuid;
  ds_topic_lane_id : option uuid;
  ds_source : string;
  ds_source_url : string;
  ds_source_external_id : string;
  ds_title : string;
  ds_summary : string;
  ds_keywords_json : list pyval;
  ds_observed_at : datetime;
  ds_expires_at : option datetime;
  ds_trend_score : pyfloat;
  ds_novelty_score : pyfloat;
  ds_raw_json : config;
  ds_status : string }.

Record DiscoveryIngestionRun := {
  dr_id : uuid;
  dr_channel_profile_id : uuid;
  dr_queue_item_id : option uuid;
  dr_source : string;
  dr_scheduler_bucket : string;
  dr_query_version : string;
  dr_status : string;
  dr_attempt_count : Z;
  dr_query_count : Z;
  dr_created_count : Z;
  dr_refreshed_count : Z;
  dr_expired_count : Z;
  dr_quota_units_estimated : Z;
  dr_policy_snapshot_json : DiscoveryPolicy;
  dr_started_at : datetime;
  dr_finished_at : option datetime;
  dr_last_error_code : option string }.

Record DiscoveryDb := {
  d_channels : list DiscoveryChannel;
  d_lanes : list TopicLane;
  d_queue : queue_table;
  d_signals : list DiscoverySignal;
  d_runs : list DiscoveryIngestionRun }.

Record DiscoveryIngestionRequest := {
  dq_channel_id : uuid;
  dq_queue_item_id : uuid;
  dq_source : string;
  dq_scheduler_bucket : string;
  dq_attempt_count : Z;
  dq_locked_by : string;
  dq_locked_at : datetime }.

Record DiscoveryIngestionResult := {
  di_run_id : uuid;
  di_channel_id : uuid;
  di_source : string;
  di_scheduler_bucket : string;
  di_status : string;
  di_query_count : Z;
  di_created_count : Z;
  di_refreshed_count : Z;
  di_expired_count : Z;
  di_quota_units_estimated : Z }.

Record RunClaim := { rc_run_id : uuid; rc_generation : Z }.

Definition SOURCE_YOUTUBE_SEARCH : string := "youtube_search".
Definition QUERY_VERSION : string := "youtube-lane-keyword-v1".
Definition RUN_STALE_AFTER : Z := (15 * MINUTE_US)%Z.
Definition SEED_TTL : Z := DAY_US.

(** ** Searching *)

(** What the client raises, as far as the service looks at it. *)
Inductive ProviderCause := CauseTimeout | CausePermission | CauseHttpStatus (code : Z) | CauseOther.

Definition _provider_error_code (cause : ProviderCause) : string :=
  match cause with
  | CauseTimeout => "provider_timeout"
  | CausePermission => "provider_auth"
  | CauseHttpStatus code =>
      if (code =? 401)%Z || (code =? 403)%Z then "provider_auth"
      else if (code =? 429)%Z then "provider_quota"
      else "provider_contract"
  | CauseOther => "provider_contract"
  end.

Record SearchCall := {
  sc_number : Z;
  sc_query : string;
  sc_published_after : datetime;
  sc_region_code : string;
  sc_max_results : Z }.

Definition keyword_list (v : pyval) : list pyval := match v with VList l => l | _ => [] end.

Definition _lane_query (l : TopicLane) : string :=
  match keyword_list (la_keywords_json l) with k :: _ => py_str k | [] => la_name l end.

Definition _view_count (result : config) : Res Z :=
  match py_int (py_or (py_or (dict_get result "view_count") (dict_get result "views")) (VInt 0)) with
  | Raise TypeError | Raise (ValueError _) => Ok 0%Z
  | r => r
  end.

Definition _source_external_id (result : config) : string :=
  strip (py_str (py_or (py_or (py_or (dict_get result "video_id") (dict_get result "id")) (dict_get result "url")) (VStr ""))).

Definition result_text (result : config) (key dflt : string) : string := py_str (py_or (dict_get result key) (VStr dflt)).

(** Signals of the channel from this source. *)
Definition of_source (channel : uuid) (s : DiscoverySignal) : bool :=
  (ds_channel_profile_id s =? channel)%string && (ds_source s =? SOURCE_YOUTUBE_SEARCH)%string.

Definition stale_signal (channel : uuid) (now : datetime) (s : DiscoverySignal) : bool :=
  of_source channel s && (ds_status s =? "active")%string
  && match ds_expires_at s with Some e => (e <? now)%Z | None => false end.

(** The signals, and how many of them expired. *)
Definition _expire_stale (channel : uuid) (now : datetime) (signals : list DiscoverySignal) : list DiscoverySignal * Z :=
  (map (fun s => if stale_signal channel now s then s <| ds_status := "expired" |> else s) signals,
   Z.of_nat (length (List.filter (stale_signal channel now) signals))).

(** A query flushes what the session has added, so it finds these signals too. *)
Definition _existing_signal (channel : uuid) (external_id : string) (signals : list DiscoverySignal) : option DiscoverySignal :=
  find (fun s => of_source channel s && (ds_source_external_id s =? external_id)%string) signals.

Record Ingested := {
  in_signals : list DiscoverySignal;
  in_created : Z;
  in_refreshed : Z;
  in_query_count : Z }.

Section Ingest.
(** Identifiers drawn for new rows; the searching client. *)
Context (salt : nat -> uuid) (search : SearchCall -> pyval + ProviderCause).
Context (now : datetime) (policy : DiscoveryPolicy).

Definition refreshed (lane : TopicLane) (result : config) (score : pyfloat) (s : DiscoverySignal) : DiscoverySignal :=
  s <| ds_topic_lane_id := Some (la_id lane) |> <| ds_source_url := result_text result "url" "" |>
    <| ds_title := result_text result "title" "YouTube trend" |> <| ds_summary := result_text result "description" "" |>
    <| ds_keywords_json := keyword_list (la_keywords_json lane) |> <| ds_observed_at := now |>
    <| ds_expires_at := Some (now + SEED_TTL)%Z |> <| ds_trend_score := score |> <| ds_raw_json := result |>
    <| ds_status ::= fun st => if (st =? "expired")%string then "active" else st |>.

Definition new_signal (id channel : uuid) (lane : TopicLane) (external_id : string) (result : config) (score : pyfloat) : DiscoverySignal :=
  {| ds_id := id; ds_channel_profile_id := channel; ds_topic_lane_id := Some (la_id lane); ds_source := SOURCE_YOUTUBE_SEARCH;
     ds_source_url := result_text result "url" ""; ds_source_external_id := external_id;
     ds_title := result_text result "title" "YouTube trend"; ds_summary := result_text result "description" "";
     ds_keywords_json := keyword_list (la_keywords_json lane); ds_observed_at := now; ds_expires_at := Some (now + SEED_TTL)%Z;
     ds_trend_score := score; ds_novelty_score := float_of_Z 0; ds_raw_json := result; ds_status := "active" |}.

Definition put_signal (s : DiscoverySignal) (l : list DiscoverySignal) : list DiscoverySignal :=
  map (fun q => if (ds_id q =? ds_id s)%string then s else q) l.

Definition ingest_result (channel : uuid) (lane : TopicLane) (st : Ingested) (result : config) : Res Ingested :=
  views ← _view_count result;
  if (views <? dp_min_view_count policy)%Z then Ok st
  else
    let external_id := _source_external_id result in
    if is_empty external_id then Ok st
    else
      score ← float_of_int views;
      match _existing_signal channel external_id (in_signals st) with
      | Some s => Ok (st <| in_signals ::= put_signal (refreshed lane result score s) |> <| in_refreshed ::= Z.succ |>)
      | None =>
          let s := new_signal (salt (S (length (in_signals st)))) channel lane external_id result score in
          if bool_decide (ds_id s ∈ map ds_id (in_signals st)) then Raise IntegrityError
          else Ok (st <| in_signals ::= fun l => l ++ [s] |> <| in_created ::= Z.succ |>)
      end.

Definition as_results (v : pyval) : option (list config) :=
  match v with VList l => mapM (fun r => match r with VDict d => Some d | _ => None end) l | _ => None end.

(** The loop over the lanes; a failing client ends it with the number of queries made. *)
Fixpoint ingest_lanes (channel : uuid) (region : string) (lanes : list TopicLane) (st : Ingested) : Res (Ingested + (ProviderCause * Z)) :=
  match lanes with
  | [] => Ok (inl st)
  | lane :: lanes' =>
      let st := st <| in_query_count ::= Z.succ |> in
      match search {| sc_number := in_query_count st; sc_query := _lane_query lane; sc_published_after := (now - DAY_US)%Z;
                      sc_region_code := region; sc_max_results := dp_max_results_per_query policy |} with
      | inr cause => Ok (inr (cause, in_query_count st))
      | inl v =>
          match as_results v with
          | None => Ok (inr (CauseOther, in_query_count st))
          | Some results =>
              st' ← foldM (ingest_result channel lane) st (take (Z.to_nat (dp_max_results_per_query policy)) results);
              ingest_lanes channel region lanes' st'
          end
      end
  end.

Definition discovery_lanes (channel : uuid) (lanes : list TopicLane) : list TopicLane :=
  take (Z.to_nat (dp_max_queries_per_run policy))
    (merge_sort (weight_le la_weight la_created_at)
       (List.filter (fun l => (la_channel_profile_id l =? channel)%string && la_enabled l) lanes)).

Definition find_channel (id : uuid) (db : DiscoveryDb) : option DiscoveryChannel :=
  find (fun c => (dc_id c =? id)%string) (d_channels db).

Definition channel_region (c : DiscoveryChannel) : string :=
  py_str (py_or (dict_get (_dict_value (dc_content_mix_policy_json c)) "region_code") (VStr "US")).

(** The signals after the ingestion with their counts, the number expired first. *)
Definition ingest_channel (channel_id : uuid) (db : DiscoveryDb) : Res ((Ingested * Z) + (ProviderCause * Z)) :=
  match find_channel channel_id db with
  | None => Raise (ValueError "Channel not found")
  | Some channel =>
      let '(signals, expired) := _expire_stale channel_id now (d_signals db) in
      r ← ingest_lanes channel_id (or_text (dp_region_code policy) (channel_region channel)) (discovery_lanes channel_id (d_lanes db))
            {| in_signals := signals; in_created := 0; in_refreshed := 0; in_query_count := 0 |};
      Ok (match r with inl st => inl (st, expired) | inr f => inr f end)
  end.
End Ingest.

(** ** The service *)

(** The first instant there is, year one. *)
Definition MIN_DATETIME : datetime := (-62135596800000000)%Z.

Definition _normalize_request (r : DiscoveryIngestionRequest) : Res DiscoveryIngestionRequest :=
  if negb (dq_source r =? SOURCE_YOUTUBE_SEARCH)%string then Raise (ValueError "source must be youtube_search")
  else if is_empty (dq_scheduler_bucket r) || (64 <? String.length (dq_scheduler_bucket r))%nat
  then Raise (ValueError "scheduler_bucket must be a non-empty string of at most 64 characters")
  else if (dq_attempt_count r <? 1)%Z then Raise (ValueError "attempt_count must be an integer greater than or equal to 1")
  else if is_empty (strip (dq_locked_by r)) || (255 <? String.length (dq_locked_by r))%nat
  then Raise (ValueError "locked_by must be a nonblank string of at most 255 characters")
  else if (dq_locked_at r =? MIN_DATETIME)%Z then Raise (ValueError "locked_at must not be zero")
  else Ok r.

Definition _same_identity (run : DiscoveryIngestionRun) (r : DiscoveryIngestionRequest) : bool :=
  (dr_channel_profile_id run =? dq_channel_id r)%string && bool_decide (dr_queue_item_id run = Some (dq_queue_item_id r))
  && (dr_source run =? dq_source r)%string && (dr_scheduler_bucket run =? dq_scheduler_bucket r)%string
  && (dr_query_version run =? QUERY_VERSION)%string.

Definition _same_queue_authority (i : ChannelOpsQueueItem) (r : DiscoveryIngestionRequest) : bool :=
  let payload := qi_payload_json i in
  (qi_kind i =? "ingest_discovery")%string && (qi_status i =? "running")%string
  && bool_decide (qi_channel_profile_id i = Some (dq_channel_id r)) && (qi_attempt_count i =? dq_attempt_count r)%Z
  && bool_decide (qi_locked_by i = Some (dq_locked_by r)) && bool_decide (qi_locked_at i = Some (dq_locked_at r))
  && is_str (dict_get payload "channel_id") (dq_channel_id r) && is_str (dict_get payload "source") (dq_source r)
  && is_str (dict_get payload "bucket") (dq_scheduler_bucket r)
  && is_str (dict_get payload "scheduler_bucket") (dq_scheduler_bucket r).

Definition _result_from_run (run : DiscoveryIngestionRun) : DiscoveryIngestionResult :=
  {| di_run_id := dr_id run; di_channel_id := dr_channel_profile_id run; di_source := dr_source run;
     di_scheduler_bucket := dr_scheduler_bucket run; di_status := dr_status run; di_query_count := dr_query_count run;
     di_created_count := dr_created_count run; di_refreshed_count := dr_refreshed_count run;
     di_expired_count := dr_expired_count run; di_quota_units_estimated := dr_quota_units_estimated run |}.

Definition _validated_policy (channel_id : uuid) (db : DiscoveryDb) : Res DiscoveryPolicy :=
  match find_channel channel_id db with
  | None => Raise (LookupError "channel_not_found")
  | Some c =>
      if negb (dc_enabled c) || (if dc_halted_at c then true else false) then Raise (RuntimeError "channel_unavailable")
      else
        match from_content_mix (dc_content_mix_policy_json c) with
        | Raise _ => Raise (RuntimeError "invalid_discovery_policy")
        | Ok policy => if dp_enabled policy then Ok policy else Raise (RuntimeError "discovery_disabled")
        end
  end.

Definition _lock_queue_authority (r : DiscoveryIngestionRequest) (db : DiscoveryDb) : Res unit :=
  match find_item (dq_queue_item_id r) (d_queue db) with
  | Some i => if _same_queue_authority i r then Ok tt else Raise (RuntimeError "queue_authority_changed")
  | None => Raise (RuntimeError "queue_authority_changed")
  end.

Definition of_bucket (r : DiscoveryIngestionRequest) (run : DiscoveryIngestionRun) : bool :=
  (dr_channel_profile_id run =? dq_channel_id r)%string && (dr_source run =? dq_source r)%string
  && (dr_scheduler_bucket run =? dq_scheduler_bucket r)%string.
Definition of_item (r : DiscoveryIngestionRequest) (run : DiscoveryIngestionRun) : bool :=
  bool_decide (dr_queue_item_id run = Some (dq_queue_item_id r)).

Definition _locked_run (r : DiscoveryIngestionRequest) (db : DiscoveryDb) : option DiscoveryIngestionRun :=
  match find (of_bucket r) (d_runs db) with Some run => Some run | None => find (of_item r) (d_runs db) end.

Definition put_discovery_run (run : DiscoveryIngestionRun) (db : DiscoveryDb) : DiscoveryDb :=
  db <| d_runs ::= map (fun q => if (dr_id q =? dr_id run)%string then run else q) |>.

(** A run claimed again: the next generation, with nothing counted yet. *)
Definition claimed_again (policy : DiscoveryPolicy) (now : datetime) (run : DiscoveryIngestionRun) : DiscoveryIngestionRun :=
  run <| dr_status := "running" |> <| dr_attempt_count ::= Z.succ |> <| dr_query_count := 0%Z |> <| dr_created_count := 0%Z |>
      <| dr_refreshed_count := 0%Z |> <| dr_expired_count := 0%Z |> <| dr_quota_units_estimated := 0%Z |>
      <| dr_policy_snapshot_json := policy |> <| dr_started_at := now |> <| dr_finished_at := None |> <| dr_last_error_code := None |>.

Definition _claim_existing (run : DiscoveryIngestionRun) (r : DiscoveryIngestionRequest) (policy : DiscoveryPolicy) (now : datetime)
    (db : DiscoveryDb) : Res ((RunClaim + DiscoveryIngestionResult) * DiscoveryDb) :=
  if negb (_same_identity run r) then Raise (RuntimeError "run_identity_conflict")
  else if (dr_status run =? "succeeded")%string then Ok (inr (_result_from_run run), db)
  else if (dr_status run =? "running")%string && (now - RUN_STALE_AFTER <? dr_started_at run)%Z
  then Raise (RuntimeError "discovery_run_in_progress")
  else if negb (bool_decide (dr_status run ∈ ["running"; "failed"])) then Raise (RuntimeError "invalid_run_status")
  else
    let run := claimed_again policy now run in
    Ok (inl {| rc_run_id := dr_id run; rc_generation := dr_attempt_count run |}, put_discovery_run run db).

Definition first_claim (id : uuid) (r : DiscoveryIngestionRequest) (policy : DiscoveryPolicy) (now : datetime) : DiscoveryIngestionRun :=
  {| dr_id := id; dr_channel_profile_id := dq_channel_id r; dr_queue_item_id := Some (dq_queue_item_id r); dr_source := dq_source r;
     dr_scheduler_bucket := dq_scheduler_bucket r; dr_query_version := QUERY_VERSION; dr_status := "running"; dr_attempt_count := 1;
     dr_query_count := 0; dr_created_count := 0; dr_refreshed_count := 0; dr_expired_count := 0; dr_quota_units_estimated := 0;
     dr_policy_snapshot_json := policy; dr_started_at := now; dr_finished_at := None; dr_last_error_code := None |}.

(** The claim; a run that another transaction inserts first is found by the second look,
    and is then the run there is. *)
Definition _claim_run (id : uuid) (r : DiscoveryIngestionRequest) (policy : DiscoveryPolicy) (now : datetime) (db : DiscoveryDb)
    : Res ((RunClaim + DiscoveryIngestionResult) * DiscoveryDb) :=
  _ ← _lock_queue_authority r db;
  match _locked_run r db with
  | Some run => _claim_existing run r policy now db
  | None =>
      let run := first_claim id r policy now in
      if bool_decide (id ∈ map dr_id (d_runs db)) then Raise IntegrityError
      else Ok (inl {| rc_run_id := id; rc_generation := 1 |}, db <| d_runs ::= fun l => l ++ [run] |>)
  end.

Definition owned_run (c : RunClaim) (run : DiscoveryIngestionRun) : bool :=
  (dr_id run =? rc_run_id c)%string && (dr_status run =? "running")%string && (dr_attempt_count run =? rc_generation c)%Z.

Definition _lock_owned_run (c : RunClaim) (db : DiscoveryDb) : Res DiscoveryIngestionRun :=
  match find (owned_run c) (d_runs db) with Some run => Ok run | None => Raise (RuntimeError "run_authority_changed") end.

Definition failed_run (now : datetime) (error_code : string) (query_count : Z) (run : DiscoveryIngestionRun) : DiscoveryIngestionRun :=
  run <| dr_status := "failed" |> <| dr_query_count := query_count |> <| dr_created_count := 0%Z |> <| dr_refreshed_count := 0%Z |>
      <| dr_expired_count := 0%Z |> <| dr_quota_units_estimated := (query_count * 100)%Z |> <| dr_finished_at := Some now |>
      <| dr_last_error_code := Some error_code |>.

(** What the call raises, and the rows. *)
Definition _mark_failed (c : RunClaim) (now : datetime) (error_code : string) (query_count : Z) (db : DiscoveryDb)
    : Res DiscoveryIngestionResult * DiscoveryDb :=
  match _lock_owned_run c db with
  | Raise e => (Raise e, db)
  | Ok run => (Raise (RuntimeError error_code), put_discovery_run (failed_run now error_code query_count run) db)
  end.

Definition succeeded_run (now : datetime) (st : Ingested) (expired : Z) (run : DiscoveryIngestionRun) : DiscoveryIngestionRun :=
  run <| dr_status := "succeeded" |> <| dr_query_count := in_query_count st |> <| dr_created_count := in_created st |>
      <| dr_refreshed_count := in_refreshed st |> <| dr_expired_count := expired |>
      <| dr_quota_units_estimated := (in_query_count st * 100)%Z |> <| dr_finished_at := Some now |> <| dr_last_error_code := None |>.

Definition terminal_error (c : option DiscoveryChannel) : option string :=
  match c with
  | None => Some "channel_unavailable"
  | Some c =>
      if negb (dc_enabled c) || (if dc_halted_at c then true else false) then Some "channel_unavailable"
      else if dc_intake_paused_at c then Some "channel_intake_paused" else None
  end.

(** The work after a claim: [client] is whether a client could be had. *)
Definition ingest_claimed (salt : nat -> uuid) (search : SearchCall -> pyval + ProviderCause) (client : bool) (now : datetime)
    (policy : DiscoveryPolicy) (channel_id : uuid) (c : RunClaim) (db : DiscoveryDb) : Res DiscoveryIngestionResult * DiscoveryDb :=
  if negb client then _mark_failed c now "provider_unavailable" 0 db
  else
    match ingest_channel salt search now policy channel_id db with
    | Raise e => (Raise e, db)
    | Ok (inr (cause, query_count)) => _mark_failed c now (_provider_error_code cause) query_count db
    | Ok (inl (st, expired)) =>
        match terminal_error (find_channel channel_id db) with
        | Some code => _mark_failed c now code (in_query_count st) db
        | None =>
            match _lock_owned_run c db with
            | Raise e => (Raise e, db)
            | Ok run =>
                let run := succeeded_run now st expired run in
                (Ok (_result_from_run run), put_discovery_run run (db <| d_signals := in_signals st |>))
            end
        end
    end.

(** [ingest] up to the claim. *)
Definition begin_ingest (id : uuid) (r : DiscoveryIngestionRequest) (now : datetime) (db : DiscoveryDb)
    : Res ((RunClaim + DiscoveryIngestionResult) * DiscoveryPolicy * DiscoveryDb) :=
  r ← _normalize_request r;
  policy ← _validated_policy (dq_channel_id r) db;
  claim ← _claim_run id r policy now db;
  Ok (claim.1, policy, claim.2).

(** [ingest] when nothing comes in between. *)
Definition ingest (salt : nat -> uuid) (search : SearchCall -> pyval + ProviderCause) (client : bool) (r : DiscoveryIngestionRequest)
    (now : datetime) (db : DiscoveryDb) : Res DiscoveryIngestionResult * DiscoveryDb :=
  match begin_ingest (salt 0) r now db with
  | Raise e => (Raise e, db)
  | Ok (inr result, _, db) => (Ok result, db)
  | Ok (inl c, policy, db) => ingest_claimed salt search client now policy (dq_channel_id r) c db
  end.
