(* ===== verification/DiscoveryOnce.v ===== *)
(** * Discovery runs finish once

    Histories of ingestions by any number of workers, which may stop anywhere, be slow
    enough for their run to be claimed again, or do the work of a claim more than once,
    while leases of running runs are recovered. *)

From stdpp Require Import base tactics list strings sorting relations.
From Stdlib Require Import ZArith Lia.
From coqutil Require Import Datatypes.RecordSetters.
From S2P Require Import Prelude PyStr PyValue PyJson PyTime PyUuid DiscoveryPolicy JobModel Outbox ChannelQueue AgentModel ChannelTick DiscoveryIngest.
Import TriangleBracketNotations.

Open Scope string_scope.
Open Scope list_scope.

(** ** Signals *)

(** The unique key of a signal. *)
Definition signal_key (s : DiscoverySignal) : uuid * string * string :=
  (ds_channel_profile_id s, ds_source s, ds_source_external_id s).

Record signals_wf (l : list DiscoverySignal) : Prop := {
  sw_ids : NoDup (map ds_id l);
  sw_keys : NoDup (map signal_key l) }.

Lemma expire_keys channel now l :
  map signal_key (_expire_stale channel now l).1 = map signal_key l /\ map ds_id (_expire_stale channel now l).1 = map ds_id l.
Proof.
  unfold _expire_stale. cbn [fst]. rewrite !map_map. split; apply map_ext; intros s; by destruct (stale_signal channel now s).
Qed.

Lemma put_signal_keys s q l :
  NoDup (map ds_id l) -> q ∈ l -> ds_id s = ds_id q -> signal_key s = signal_key q ->
  map signal_key (put_signal s l) = map signal_key l /\ map ds_id (put_signal s l) = map ds_id l.
Proof.
  intros Hnd Hq Hid Hk. unfold put_signal. rewrite !map_map. split; apply map_ext_in; intros x Hx%list_elem_of_In.
  - destruct (String.eqb_spec (ds_id x) (ds_id s)) as [He|]; [|done].
    assert (x = q) as -> by (apply (NoDup_map_inj ds_id l); congruence). done.
  - by destruct (String.eqb_spec (ds_id x) (ds_id s)).
Qed.

Section Ingested.
Context (salt : nat -> uuid) (search : SearchCall -> pyval + ProviderCause) (now : datetime) (policy : DiscoveryPolicy).

(** What the ingestion of results does: keys are only added, as many as are counted. *)
Record extends (st st' : Ingested) : Prop := {
  ext_wf : signals_wf (in_signals st) -> signals_wf (in_signals st');
  ext_keys : map signal_key (in_signals st) `prefix_of` map signal_key (in_signals st');
  ext_created : (Z.of_nat (length (in_signals st')) - Z.of_nat (length (in_signals st)) = in_created st' - in_created st)%Z;
  ext_monotone : (in_created st <= in_created st' /\ in_refreshed st <= in_refreshed st')%Z }.

Lemma extends_refl st : extends st st.
Proof. split; [done|done|lia|lia]. Qed.

Lemma extends_trans st1 st2 st3 : extends st1 st2 -> extends st2 st3 -> extends st1 st3.
Proof.
  intros [H1 H2 H3 H4] [K1 K2 K3 K4]. split; [auto|by trans (map signal_key (in_signals st2))|lia|lia].
Qed.

Lemma existing_signal_Some channel ext l s :
  _existing_signal channel ext l = Some s -> s ∈ l /\ signal_key s = (channel, SOURCE_YOUTUBE_SEARCH, ext).
Proof.
  intros [Hin%list_elem_of_In Hp]%find_some. split; [done|]. unfold of_source in Hp.
  apply andb_prop in Hp as [[Hc%String.eqb_eq Hs%String.eqb_eq]%andb_prop He%String.eqb_eq]. unfold signal_key. congruence.
Qed.

Lemma existing_signal_None channel ext l :
  _existing_signal channel ext l = None -> (channel, SOURCE_YOUTUBE_SEARCH, ext) ∉ map signal_key l.
Proof.
  intros Hn (s & Hk & Hs%list_elem_of_In)%list_elem_of_fmap. pose proof (find_none _ _ Hn _ Hs) as Hf. cbv beta in Hf.
  unfold signal_key in Hk. injection Hk as Hc Hsrc He. unfold of_source in Hf.
  by rewrite <- Hc, <- Hsrc, <- He, !String.eqb_refl in Hf.
Qed.

Lemma ingest_result_extends channel lane st result st' :
  signals_wf (in_signals st) -> ingest_result salt now policy channel lane st result = Ok st' ->
  extends st st' /\ in_query_count st' = in_query_count st.
Proof.
  intros Hwf H. unfold ingest_result in H. apply bind_Ok in H as (views & _ & H).
  destruct (views <? _)%Z; [injection H as <-; split; [apply extends_refl|done]|].
  destruct (is_empty _); [injection H as <-; split; [apply extends_refl|done]|]. apply bind_Ok in H as (score & _ & H).
  destruct (_existing_signal channel _ (in_signals st)) as [s|] eqn:He.
  - injection H as <-. split; [|reflexivity]. apply existing_signal_Some in He as [Hs Hk].
    destruct (put_signal_keys (refreshed now lane result score s) s (in_signals st) (sw_ids _ Hwf) Hs eq_refl eq_refl) as [Hkeys Hids].
    split.
    + intros [Hi Hn]. split; [change (NoDup (map ds_id (put_signal (refreshed now lane result score s) (in_signals st))))
                              | change (NoDup (map signal_key (put_signal (refreshed now lane result score s) (in_signals st))))];
        [by rewrite Hids | by rewrite Hkeys].
    + change (map signal_key (in_signals st) `prefix_of` map signal_key (put_signal (refreshed now lane result score s) (in_signals st))).
      by rewrite Hkeys.
    + change (Z.of_nat (length (put_signal (refreshed now lane result score s) (in_signals st))) - Z.of_nat (length (in_signals st))
              = in_created st - in_created st)%Z. unfold put_signal. rewrite length_map. lia.
    + change (in_created st <= in_created st /\ in_refreshed st <= Z.succ (in_refreshed st))%Z. lia.
  - set (s := new_signal _ _ _ _ _ _ _) in H. case_bool_decide as Hid; [discriminate|]. injection H as <-. split; [|reflexivity].
    apply existing_signal_None in He. split.
    + intros [Hi Hn]. change (in_signals _) with (in_signals st ++ [s]). split; rewrite map_app; apply NoDup_app;
        (split; [done|]; split; [|apply NoDup_singleton]); intros x Hx ->%list_elem_of_singleton; [done|].
      by change (signal_key s) with (channel, SOURCE_YOUTUBE_SEARCH, _source_external_id result) in Hx.
    + change (map signal_key (in_signals st) `prefix_of` map signal_key (in_signals st ++ [s])). rewrite map_app. by apply prefix_app_r.
    + change (Z.of_nat (length (in_signals st ++ [s])) - Z.of_nat (length (in_signals st)) = Z.succ (in_created st) - in_created st)%Z.
      rewrite length_app. cbn [length]. lia.
    + change (in_created st <= Z.succ (in_created st) /\ in_refreshed st <= in_refreshed st)%Z. lia.
Qed.

Lemma ingest_results_extend channel lane results st st' :
  signals_wf (in_signals st) -> foldM (ingest_result salt now policy channel lane) st results = Ok st' ->
  extends st st' /\ in_query_count st' = in_query_count st.
Proof.
  revert st. induction results as [|result results IH]; intros st Hwf H; cbn [foldM] in H.
  { injection H as <-. split; [apply extends_refl|done]. }
  destruct (ingest_result salt now policy channel lane st result) as [st1|] eqn:H1; [|discriminate].
  apply ingest_result_extends in H1 as [He Hq]; [|done]. apply IH in H as [He' Hq']; [|by apply He].
  split; [by apply (extends_trans _ st1) | congruence].
Qed.

(** The queries made: one for a lane, also when the client fails. *)
Definition queries (r : Ingested + (ProviderCause * Z)) : Z := match r with inl st => in_query_count st | inr f => f.2 end.

Lemma ingest_lanes_extend channel region lanes st r :
  signals_wf (in_signals st) -> ingest_lanes salt search now policy channel region lanes st = Ok r ->
  (in_query_count st <= queries r <= in_query_count st + Z.of_nat (length lanes))%Z
  /\ match r with inl st' => extends st st' | inr _ => True end.
Proof.
  revert st. induction lanes as [|lane lanes IH]; intros st Hwf H; cbn [ingest_lanes] in H.
  { injection H as <-. cbn. split; [lia|apply extends_refl]. }
  set (st1 := st <| in_query_count ::= Z.succ |>) in H.
  assert (Hq1 : in_query_count st1 = Z.succ (in_query_count st)) by done.
  assert (Hsame : in_signals st1 = in_signals st /\ in_created st1 = in_created st /\ in_refreshed st1 = in_refreshed st) by done.
  destruct Hsame as (E1 & E2 & E3). assert (He1 : extends st st1) by (split; rewrite ?E1, ?E2, ?E3; [done|done|lia|lia]). clearbody st1.
  destruct (search _) as [v|cause].
  - destruct (as_results v) as [results|].
    + apply bind_Ok in H as (st2 & H2 & H). apply ingest_results_extend in H2 as [He2 Hq2]; [|by rewrite E1].
      apply IH in H as [Hq Hr]; [|by apply He2, He1]. cbn [length]. split; [lia|]. destruct r; [|done].
      apply (extends_trans _ st1); [done|]. by apply (extends_trans _ st2).
    + injection H as <-. cbn [queries snd length]. split; [lia|done].
  - injection H as <-. cbn [queries snd length]. split; [lia|done].
Qed.

(** The signals an ingestion leaves and the queries it made. *)
Lemma ingest_channel_extends channel db r :
  signals_wf (d_signals db) -> policy_wf policy -> ingest_channel salt search now policy channel db = Ok r ->
  match r with
  | inl (st, expired) =>
      (0 <= in_query_count st <= 5)%Z /\ signals_wf (in_signals st)
      /\ map signal_key (d_signals db) `prefix_of` map signal_key (in_signals st)
      /\ in_created st = (Z.of_nat (length (in_signals st)) - Z.of_nat (length (d_signals db)))%Z
      /\ (0 <= in_refreshed st)%Z
  | inr (_, n) => (0 <= n <= 5)%Z
  end.
Proof.
  intros Hwf Hpol H. unfold ingest_channel in H. destruct (find_channel channel db) as [c|]; [|discriminate].
  destruct (_expire_stale channel now (d_signals db)) as [signals expired] eqn:Hexp.
  pose proof (expire_keys channel now (d_signals db)) as [Hk Hi]. rewrite Hexp in Hk, Hi. cbn [fst] in Hk, Hi.
  apply bind_Ok in H as (r0 & H & [= <-]). apply ingest_lanes_extend in H as [Hq He].
  2: { split; cbn [in_signals]; [rewrite Hi; apply Hwf | rewrite Hk; apply Hwf]. }
  assert (Hlen : (Z.of_nat (length (discovery_lanes policy channel (d_lanes db))) <= 5)%Z).
  { unfold discovery_lanes. rewrite length_take. destruct Hpol. lia. }
  destruct r0 as [st|[cause n]]; cbn [queries in_query_count snd] in Hq; [|lia]. destruct He as [H1 H2 H3 H4].
  cbn [in_signals in_created in_refreshed] in *. split; [lia|].
  split; [apply H1; split; [rewrite Hi; apply Hwf | rewrite Hk; apply Hwf]|].
  split; [by rewrite <- Hk|]. split; [|lia]. rewrite <- (length_map signal_key (d_signals db)), <- Hk, length_map. lia.
Qed.
End Ingested.

(** ** Histories *)

(** The database, the claims handed to workers with their policy and channel, the results
    that were committed, and the claims that ended their run, in success or failure. *)
Record world := {
  w_db : DiscoveryDb;
  w_flights : list (RunClaim * DiscoveryPolicy * uuid);
  w_successes : list (RunClaim * DiscoveryIngestionResult);
  w_ended : list RunClaim }.

(** The claim held its run and does so no more. *)
Definition ends (c : RunClaim) (db db' : DiscoveryDb) : list RunClaim :=
  match _lock_owned_run c db, _lock_owned_run c db' with Ok _, Raise _ => [c] | _, _ => [] end.

(** What the recovery of stale leases writes to a run that is still running. *)
Definition recovered_run (now : datetime) (code : string) (run : DiscoveryIngestionRun) : DiscoveryIngestionRun :=
  run <| dr_status := "failed" |> <| dr_finished_at := Some now |> <| dr_last_error_code := Some code |>.

Definition bucket (run : DiscoveryIngestionRun) : uuid * string * string :=
  (dr_channel_profile_id run, dr_source run, dr_scheduler_bucket run).

(** A worker begins, works on a claim it was handed; the lease of a run is recovered;
    another transaction writes other tables and columns. *)
Inductive ingest_step : world -> world -> Prop :=
| Begin id r now c policy db' w :
    begin_ingest id r now (w_db w) = Ok (inl c, policy, db') ->
    ingest_step w {| w_db := db'; w_flights := w_flights w ++ [(c, policy, dq_channel_id r)]; w_successes := w_successes w;
                     w_ended := w_ended w |}
| Work salt search client now c policy channel res db' w :
    (c, policy, channel) ∈ w_flights w ->
    ingest_claimed salt search client now policy channel c (w_db w) = (res, db') ->
    ingest_step w {| w_db := db'; w_flights := w_flights w;
                     w_successes := w_successes w ++ match res with Ok r => [(c, r)] | Raise _ => [] end;
                     w_ended := w_ended w ++ ends c (w_db w) db' |}
| Recover now code run w :
    run ∈ d_runs (w_db w) -> dr_status run = "running" ->
    ingest_step w {| w_db := put_discovery_run (recovered_run now code run) (w_db w); w_flights := w_flights w;
                     w_successes := w_successes w; w_ended := w_ended w |}
| Elsewhere db' w :
    d_runs db' = d_runs (w_db w) -> map signal_key (d_signals db') = map signal_key (d_signals (w_db w)) ->
    map ds_id (d_signals db') = map ds_id (d_signals (w_db w)) ->
    ingest_step w {| w_db := db'; w_flights := w_flights w; w_successes := w_successes w; w_ended := w_ended w |}.

(** At most five queries, each a hundred units. *)
Record run_ok (run : DiscoveryIngestionRun) : Prop := {
  ro_queries : (0 <= dr_query_count run <= 5)%Z;
  ro_quota : dr_quota_units_estimated run = (dr_query_count run * 100)%Z }.

Definition reported (run : DiscoveryIngestionRun) (s : RunClaim * DiscoveryIngestionResult) : Prop :=
  rc_run_id s.1 = dr_id run /\ rc_generation s.1 = dr_attempt_count run /\ dr_status run = "succeeded" /\ s.2 = _result_from_run run.

Record runs_inv (runs : list DiscoveryIngestionRun) (flights : list (RunClaim * DiscoveryPolicy * uuid))
    (su : list (RunClaim * DiscoveryIngestionResult)) : Prop := {
  ri_ids : NoDup (map dr_id runs);
  ri_buckets : NoDup (map bucket runs);
  ri_runs : Forall run_ok runs;
  ri_flights : forall f, f ∈ flights -> policy_wf f.1.2
                 /\ exists run, run ∈ runs /\ dr_id run = rc_run_id f.1.1 /\ (rc_generation f.1.1 <= dr_attempt_count run)%Z;
  ri_claims : NoDup (map (fun f => f.1.1) flights);
  ri_reported : forall s, s ∈ su -> exists run, run ∈ runs /\ reported run s;
  ri_succeeded : forall run, run ∈ runs -> dr_status run = "succeeded" -> exists s, s ∈ su /\ reported run s;
  ri_once : NoDup (map (fun s => rc_run_id s.1) su) }.

Definition put_run_row (run : DiscoveryIngestionRun) (runs : list DiscoveryIngestionRun) : list DiscoveryIngestionRun :=
  map (fun q => if (dr_id q =? dr_id run)%string then run else q) runs.

Lemma elem_put_run run run' runs q :
  NoDup (map dr_id runs) -> run ∈ runs -> dr_id run' = dr_id run ->
  q ∈ put_run_row run' runs <-> q = run' \/ (q ∈ runs /\ q <> run).
Proof.
  intros Hnd Hrun Hid. unfold put_run_row. split.
  - intros (p & -> & Hp)%list_elem_of_fmap. destruct (String.eqb_spec (dr_id p) (dr_id run')) as [He|Hne]; [by left|].
    right. split; [done|]. intros ->. congruence.
  - intros [->|[Hq Hne]]; apply list_elem_of_fmap.
    + exists run. split; [|done]. by rewrite Hid, String.eqb_refl.
    + exists q. split; [|done]. destruct (String.eqb_spec (dr_id q) (dr_id run')) as [He|]; [|done].
      destruct Hne. apply (NoDup_map_inj dr_id runs); congruence.
Qed.

(** A row that was not finished is written again; when it is finished now, with its report. *)
Lemma put_inv runs flights su run run' new :
  runs_inv runs flights su -> run ∈ runs -> dr_id run' = dr_id run -> bucket run' = bucket run ->
  (dr_attempt_count run <= dr_attempt_count run')%Z -> run_ok run' -> dr_status run <> "succeeded" ->
  match new with
  | None => dr_status run' <> "succeeded"
  | Some s => reported run' s
  end ->
  runs_inv (put_run_row run' runs) flights (su ++ option_list new).
Proof.
  intros [Hids Hbk Hok Hfl Hcl Hrep Hsucc Honce] Hrun Hid Hb Hatt Hok' Hns Hnew.
  pose proof (fun q => elem_put_run run run' runs q Hids Hrun Hid) as Helem.
  assert (Hother : forall s r, s ∈ su -> r ∈ runs -> reported r s -> r <> run).
  { intros s r _ _ (_ & _ & Hst & _) ->. done. }
  split.
  - unfold put_run_row. rewrite map_map. erewrite map_ext_in; [exact Hids|]. intros q Hq. cbv beta.
    by destruct (String.eqb_spec (dr_id q) (dr_id run')).
  - unfold put_run_row. rewrite map_map. erewrite map_ext_in; [exact Hbk|]. intros q Hq%list_elem_of_In. cbv beta.
    destruct (String.eqb_spec (dr_id q) (dr_id run')); [|done].
    assert (q = run) as -> by (apply (NoDup_map_inj dr_id runs); congruence). done.
  - rewrite Forall_forall in *. intros q Hq%Helem. destruct Hq as [->|[Hq _]]; [done|]. by apply Hok.
  - intros f Hf. destruct (Hfl f Hf) as (Hp & r & Hr & Hrid & Hg). split; [done|]. destruct (decide (dr_id r = dr_id run)) as [He|Hne].
    + assert (r = run) as -> by (by apply (NoDup_map_inj dr_id runs)). exists run'. split; [apply Helem; by left|]. split; [congruence|lia].
    + exists r. split; [|done]. apply Helem. right. split; [done|]. by intros ->.
  - done.
  - intros s [Hs|Hs]%elem_of_app.
    + destruct (Hrep s Hs) as (r & Hr & Hrr). exists r. split; [|done]. apply Helem. right. split; [done|]. by apply (Hother s).
    + destruct new as [s0|]; [|by apply elem_of_nil in Hs]. apply list_elem_of_singleton in Hs as ->. exists run'.
      split; [apply Helem; by left|done].
  - intros q Hq%Helem Hst. destruct Hq as [->|[Hq _]].
    + destruct new as [s0|]; [|done]. exists s0. split; [|done]. apply elem_of_app. right. by apply list_elem_of_singleton.
    + destruct (Hsucc q Hq Hst) as (s & Hs & Hr). exists s. split; [|done]. apply elem_of_app. by left.
  - destruct new as [s0|]; cbn [option_list]; [|by rewrite app_nil_r]. rewrite map_app. apply NoDup_app. split; [done|].
    split; [|apply NoDup_singleton]. intros x Hx ->%list_elem_of_singleton. apply list_elem_of_fmap in Hx as (s & Hsx & Hs).
    destruct (Hrep s Hs) as (r & Hr & Hrr). apply (Hother s r Hs Hr Hrr). apply (NoDup_map_inj dr_id runs); try done.
    destruct Hrr as (Hr1 & _), Hnew as (Hn1 & _). congruence.
Qed.

Lemma flight_inv runs flights su run c policy channel :
  runs_inv runs flights su -> policy_wf policy -> run ∈ runs -> dr_id run = rc_run_id c ->
  (rc_generation c <= dr_attempt_count run)%Z -> c ∉ map (fun f => f.1.1) flights ->
  runs_inv runs (flights ++ [(c, policy, channel)]) su.
Proof.
  intros [Hids Hbk Hok Hfl Hcl Hrep Hsucc Honce] Hp Hrun Hid Hg Hc. split; try done.
  - intros f [Hf| ->%list_elem_of_singleton]%elem_of_app; [by apply Hfl|]. split; [done|]. by exists run.
  - rewrite map_app. apply NoDup_app. split; [done|]. split; [|apply NoDup_singleton]. intros x Hx ->%list_elem_of_singleton. done.
Qed.

Lemma append_inv runs flights su run :
  runs_inv runs flights su -> dr_id run ∉ map dr_id runs -> bucket run ∉ map bucket runs -> run_ok run ->
  dr_status run <> "succeeded" -> runs_inv (runs ++ [run]) flights su.
Proof.
  intros [Hids Hbk Hok Hfl Hcl Hrep Hsucc Honce] Hid Hb Hrok Hst.
  assert (Hsnoc : forall {A} (f : DiscoveryIngestionRun -> A), f run ∉ map f runs -> NoDup (map f runs) -> NoDup (map f (runs ++ [run]))).
  { intros A f Hn Hnd. rewrite map_app. apply NoDup_app. split; [done|]. split; [|apply NoDup_singleton].
    intros x Hx ->%list_elem_of_singleton. done. }
  split; try done; try by apply Hsnoc.
  - apply Forall_app. split; [done|]. by apply Forall_singleton.
  - intros f Hf. destruct (Hfl f Hf) as (Hp & r & Hr & Hrest). split; [done|]. exists r. split; [apply elem_of_app; by left|done].
  - intros s Hs. destruct (Hrep s Hs) as (r & Hr & Hrr). exists r. split; [apply elem_of_app; by left|done].
  - intros r [Hr| ->%list_elem_of_singleton]%elem_of_app Hs; [by apply Hsucc|done].
Qed.

(** A claim with the run's number is not one of the earlier ones. *)
Lemma fresh_claim runs flights su c :
  runs_inv runs flights su ->
  (forall run, run ∈ runs -> dr_id run = rc_run_id c -> (dr_attempt_count run < rc_generation c)%Z) ->
  c ∉ map (fun f => f.1.1) flights.
Proof.
  intros Hinv Hlt (f & -> & Hf)%list_elem_of_fmap. destruct (ri_flights _ _ _ Hinv f Hf) as (_ & run & Hrun & Hid & Hg).
  specialize (Hlt run Hrun Hid). lia.
Qed.

Lemma validated_policy_wf channel db policy : _validated_policy channel db = Ok policy -> policy_wf policy.
Proof.
  unfold _validated_policy. destruct (find_channel channel db) as [c|]; [|discriminate]. destruct (_ || _); [discriminate|].
  destruct (from_content_mix _) as [p|] eqn:Hp; [|discriminate]. destruct (dp_enabled p); [|discriminate]. intros [= <-].
  by apply from_content_mix_wf in Hp.
Qed.

Lemma locked_run_Some r db run : _locked_run r db = Some run -> run ∈ d_runs db.
Proof.
  unfold _locked_run. destruct (find (of_bucket r) (d_runs db)) as [q|] eqn:Hf.
  - intros [= <-]. apply find_some in Hf as [Hf _]. by apply list_elem_of_In.
  - intros [Hin _]%find_some. by apply list_elem_of_In.
Qed.

Lemma locked_run_None r db : _locked_run r db = None ->
  (dq_channel_id r, dq_source r, dq_scheduler_bucket r) ∉ map bucket (d_runs db).
Proof.
  unfold _locked_run. destruct (find (of_bucket r) (d_runs db)) eqn:Hf; [discriminate|]. intros _ (q & Hb & Hq%list_elem_of_In)%list_elem_of_fmap.
  pose proof (find_none _ _ Hf _ Hq) as Hn. unfold of_bucket in Hn. unfold bucket in Hb. injection Hb as H1 H2 H3.
  by rewrite <- H1, <- H2, <- H3, !String.eqb_refl in Hn.
Qed.

(** Runs keep their identity; their number grows, and a run that is not running gets to run
    again under a new number only. *)
Definition advances (runs runs' : list DiscoveryIngestionRun) : Prop :=
  forall run, run ∈ runs -> exists run', run' ∈ runs' /\ dr_id run' = dr_id run
    /\ ((dr_attempt_count run < dr_attempt_count run')%Z
        \/ (dr_attempt_count run = dr_attempt_count run' /\ (dr_status run <> "running" -> dr_status run' <> "running"))).

Lemma advances_refl runs : advances runs runs.
Proof. intros run Hrun. exists run. split_and!; [done..|]. by right. Qed.

Lemma put_advances runs run run' :
  NoDup (map dr_id runs) -> run ∈ runs -> dr_id run' = dr_id run ->
  (dr_attempt_count run < dr_attempt_count run')%Z \/ (dr_attempt_count run = dr_attempt_count run' /\ dr_status run = "running") ->
  advances runs (put_run_row run' runs).
Proof.
  intros Hnd Hrun Hid Hatt q Hq. pose proof (fun x => elem_put_run run run' runs x Hnd Hrun Hid) as Helem.
  destruct (decide (dr_id q = dr_id run)) as [He|Hne].
  - assert (q = run) as -> by (by apply (NoDup_map_inj dr_id runs)). exists run'. split_and!; [apply Helem; by left|done|].
    destruct Hatt as [|[? Hs]]; [by left|right]. by split.
  - exists q. split_and!; [|done|by right]. apply Helem. right. split; [done|]. by intros ->.
Qed.

(** A claim whose run goes on without it. *)
Definition left_behind (runs : list DiscoveryIngestionRun) (c : RunClaim) : Prop :=
  exists run, run ∈ runs /\ dr_id run = rc_run_id c
    /\ ((rc_generation c < dr_attempt_count run)%Z \/ (rc_generation c = dr_attempt_count run /\ dr_status run <> "running")).

Lemma left_behind_advances runs runs' c : advances runs runs' -> left_behind runs c -> left_behind runs' c.
Proof.
  intros Hadv (run & Hrun & Hid & Hst). destruct (Hadv run Hrun) as (run' & Hrun' & Hid' & Hatt). exists run'.
  split_and!; [done|congruence|]. destruct Hst as [?|[? Hs]], Hatt as [?|[? Hs']]; [left; lia..|right]. split; [congruence|by apply Hs'].
Qed.

(** A claim is handed out: the run is new or was left behind, and the claim is a new one. *)
Lemma begin_inv id r now c policy db db' flights su :
  runs_inv (d_runs db) flights su -> begin_ingest id r now db = Ok (inl c, policy, db') ->
  runs_inv (d_runs db') (flights ++ [(c, policy, dq_channel_id r)]) su /\ d_signals db' = d_signals db
  /\ advances (d_runs db) (d_runs db').
Proof.
  intros Hinv H. unfold begin_ingest in H. apply bind_Ok in H as (r' & Hr' & H).
  assert (r' = r) as ->.
  { unfold _normalize_request in Hr'.
    repeat match type of Hr' with (if ?x then Raise _ else _) = _ => destruct x; [discriminate Hr'|] end. by injection Hr'. }
  apply bind_Ok in H as (p & Hp%validated_policy_wf & H). apply bind_Ok in H as ([cl db1] & Hc & [= -> <- <-]).
  unfold _claim_run in Hc. apply bind_Ok in Hc as (u & _ & Hc). destruct (_locked_run r db) as [run|] eqn:Hl.
  - apply locked_run_Some in Hl. unfold _claim_existing in Hc. destruct (negb _); [discriminate|].
    destruct (String.eqb_spec (dr_status run) "succeeded") as [|Hns]; [discriminate|]. destruct (_ && _); [discriminate|].
    destruct (negb _); [discriminate|]. injection Hc as <- <-.
    split; [|split; [reflexivity|apply (put_advances _ run); [apply Hinv|done|done|left; apply Z.lt_succ_diag_r]]].
    assert (Hput : runs_inv (put_run_row (claimed_again p now run) (d_runs db)) flights (su ++ option_list None)).
    { apply (put_inv _ _ _ run); try done. change (dr_attempt_count run <= Z.succ (dr_attempt_count run))%Z. lia. }
    cbn [option_list] in Hput. rewrite app_nil_r in Hput.
    pose proof (fun q => elem_put_run run (claimed_again p now run) (d_runs db) q (ri_ids _ _ _ Hinv) Hl eq_refl) as Helem.
    apply (flight_inv _ _ _ (claimed_again p now run)); [done|done|apply Helem; by left|done|done|].
    apply (fresh_claim (d_runs db) flights su); [done|]. intros q Hq Hid.
    assert (q = run) as -> by (by apply (NoDup_map_inj dr_id (d_runs db)); [apply Hinv|..]).
    change (dr_attempt_count run < Z.succ (dr_attempt_count run))%Z. lia.
  - apply locked_run_None in Hl. case_bool_decide as Hid; [discriminate|]. injection Hc as <- <-. split; [|split; [reflexivity|]].
    2: { intros q Hq. exists q. split_and!; [apply elem_of_app; by left|done|by right]. }
    change (runs_inv (d_runs db ++ [first_claim id r p now]) (flights ++ [({| rc_run_id := id; rc_generation := 1 |}, p, dq_channel_id r)]) su).
    apply (flight_inv _ _ _ (first_claim id r p now)); [by apply append_inv|done| |done|done|].
    + apply elem_of_app. right. by apply list_elem_of_singleton.
    + apply (fresh_claim (d_runs db) flights su); [done|]. intros q Hq Hqid. cbn [rc_run_id] in Hqid. destruct Hid. rewrite <- Hqid.
      by apply elem_map.
Qed.

Lemma owned_run_Some c db run : _lock_owned_run c db = Ok run ->
  run ∈ d_runs db /\ dr_id run = rc_run_id c /\ dr_status run = "running" /\ dr_attempt_count run = rc_generation c.
Proof.
  unfold _lock_owned_run. destruct (find (owned_run c) (d_runs db)) as [q|] eqn:Hf; [|discriminate]. intros [= <-].
  apply find_some in Hf as [Hin%list_elem_of_In Ho]. unfold owned_run in Ho.
  apply andb_prop in Ho as [[Hid%String.eqb_eq Hs%String.eqb_eq]%andb_prop Hg%Z.eqb_eq]. done.
Qed.

Lemma mark_failed_inv c now code n db res db' flights su :
  runs_inv (d_runs db) flights su -> (0 <= n <= 5)%Z -> _mark_failed c now code n db = (res, db') ->
  runs_inv (d_runs db') flights su /\ d_signals db' = d_signals db /\ exists e, res = Raise e.
Proof.
  intros Hinv Hn. unfold _mark_failed. destruct (_lock_owned_run c db) as [run|e] eqn:Ho.
  - intros [= <- <-]. apply owned_run_Some in Ho as (Hrun & _ & Hs & _). split; [|split; [reflexivity|by eexists]].
    change (d_runs _) with (put_run_row (failed_run now code n run) (d_runs db)). rewrite <- (app_nil_r su).
    apply (put_inv _ _ _ run _ None); try done. by rewrite Hs.
  - intros [= <- <-]. split; [done|]. split; [done|]. by eexists.
Qed.

(** The work of a claim: only the holder of the run's present claim finishes it. *)
Lemma work_inv salt search client now c policy channel res db db' flights su :
  runs_inv (d_runs db) flights su -> signals_wf (d_signals db) -> policy_wf policy ->
  ingest_claimed salt search client now policy channel c db = (res, db') ->
  runs_inv (d_runs db') flights (su ++ match res with Ok r => [(c, r)] | Raise _ => [] end) /\ signals_wf (d_signals db').
Proof.
  intros Hinv Hsig Hpol H. unfold ingest_claimed in H.
  assert (Hfailed : forall code n, (0 <= n <= 5)%Z -> _mark_failed c now code n db = (res, db') ->
            runs_inv (d_runs db') flights (su ++ match res with Ok r => [(c, r)] | Raise _ => [] end) /\ signals_wf (d_signals db')).
  { intros code n Hn Hm. destruct (mark_failed_inv _ _ _ _ _ _ _ _ _ Hinv Hn Hm) as (H1 & H2 & e & ->). by rewrite app_nil_r, H2. }
  destruct client; [|by apply (Hfailed "provider_unavailable" 0%Z)]. cbn [negb] in H.
  destruct (ingest_channel salt search now policy channel db) as [r|e] eqn:Hi; [|injection H as <- <-; by rewrite app_nil_r].
  pose proof (ingest_channel_extends salt search now policy channel db r Hsig Hpol Hi) as Hext.
  destruct r as [[st expired]|[cause n]]; [|by apply (Hfailed (_provider_error_code cause) n)].
  destruct Hext as (Hq & Hwf & _). destruct (terminal_error (find_channel channel db)) as [code|]; [by apply (Hfailed code (in_query_count st))|].
  destruct (_lock_owned_run c db) as [run|e] eqn:Ho; [|injection H as <- <-; by rewrite app_nil_r].
  injection H as <- <-. apply owned_run_Some in Ho as (Hrun & Hid & Hs & Hg). split; [|done].
  change (runs_inv (put_run_row (succeeded_run now st expired run) (d_runs db)) flights
            (su ++ option_list (Some (c, _result_from_run (succeeded_run now st expired run))))).
  apply (put_inv _ _ _ run); try done. by rewrite Hs.
Qed.

(** The work of a claim writes its run only while it holds it. *)
Lemma work_advances salt search client now c policy channel res db db' :
  NoDup (map dr_id (d_runs db)) -> ingest_claimed salt search client now policy channel c db = (res, db') ->
  advances (d_runs db) (d_runs db').
Proof.
  intros Hnd H.
  assert (Hput : forall run run' db1, _lock_owned_run c db = Ok run -> d_runs db1 = put_run_row run' (d_runs db) ->
            dr_id run' = dr_id run -> dr_attempt_count run' = dr_attempt_count run -> advances (d_runs db) (d_runs db1)).
  { intros run run' db1 (Hrun & _ & Hs & _)%owned_run_Some -> Hid Hatt. apply (put_advances _ run); try done. right. by split. }
  assert (Hfailed : forall code n, _mark_failed c now code n db = (res, db') -> advances (d_runs db) (d_runs db')).
  { intros code n. unfold _mark_failed. destruct (_lock_owned_run c db) as [run|e] eqn:Ho; intros [= <- <-]; [|apply advances_refl].
    by apply (Hput run (failed_run now code n run)). }
  unfold ingest_claimed in H. destruct (negb client); [by eapply Hfailed|].
  destruct (ingest_channel salt search now policy channel db) as [[[st expired]|[cause n]]|e]; [|by eapply Hfailed|].
  2: { injection H as <- <-. apply advances_refl. }
  destruct (terminal_error _); [by eapply Hfailed|].
  destruct (_lock_owned_run c db) as [run|e] eqn:Ho; injection H as <- <-; [|apply advances_refl].
  by apply (Hput run (succeeded_run now st expired run)).
Qed.

(** A claim that ended its run has not done so before, and is left behind. *)
Lemma ends_once c db db' :
  NoDup (map dr_id (d_runs db)) -> advances (d_runs db) (d_runs db') ->
  forall c', c' ∈ ends c db db' -> c' = c /\ ~ left_behind (d_runs db) c /\ left_behind (d_runs db') c.
Proof.
  intros Hnd Hadv c'. unfold ends. destruct (_lock_owned_run c db) as [run|] eqn:Ho; [|by intros ?%elem_of_nil].
  destruct (_lock_owned_run c db') as [|e] eqn:Ho'; [by intros ?%elem_of_nil|]. intros ->%list_elem_of_singleton.
  apply owned_run_Some in Ho as (Hrun & Hid & Hs & Hg). split_and!; [done| |].
  - intros (q & Hq & Hqid & Hst). assert (q = run) as -> by (apply (NoDup_map_inj dr_id (d_runs db)); congruence).
    destruct Hst as [?|[_ Hns]]; [lia|done].
  - destruct (Hadv run Hrun) as (run' & Hrun' & Hid' & Hatt). exists run'. split_and!; [done|congruence|].
    destruct Hatt as [?|[Hatt _]]; [left; lia|right]. split; [lia|]. intros Hs'.
    unfold _lock_owned_run in Ho'. destruct (find (owned_run c) (d_runs db')) eqn:Hf; [done|].
    pose proof (find_none _ _ Hf run' (proj1 (list_elem_of_In _ _) Hrun')) as Hn. unfold owned_run in Hn.
    rewrite Hid', Hid, Hs', !String.eqb_refl in Hn. cbn in Hn. apply Z.eqb_neq in Hn. congruence.
Qed.

Record world_inv (w : world) : Prop := {
  wi_runs : runs_inv (d_runs (w_db w)) (w_flights w) (w_successes w);
  wi_signals : signals_wf (d_signals (w_db w));
  wi_ended : NoDup (w_ended w) /\ forall c, c ∈ w_ended w -> left_behind (d_runs (w_db w)) c }.

Lemma recover_inv now code run db flights su :
  runs_inv (d_runs db) flights su -> run ∈ d_runs db -> dr_status run = "running" ->
  runs_inv (d_runs (put_discovery_run (recovered_run now code run) db)) flights su
  /\ advances (d_runs db) (d_runs (put_discovery_run (recovered_run now code run) db)).
Proof.
  intros Hinv Hrun Hs. change (d_runs (put_discovery_run ?r db)) with (put_run_row r (d_runs db)). split.
  - rewrite <- (app_nil_r su). apply (put_inv _ _ _ run _ None); try done; [|by rewrite Hs].
    pose proof (ri_runs _ _ _ Hinv) as Hok. rewrite Forall_forall in Hok. by destruct (Hok run Hrun).
  - apply (put_advances _ run); [apply Hinv|done|done|]. right. by split.
Qed.

Lemma ingest_step_inv w w' : ingest_step w w' -> world_inv w -> world_inv w'.
Proof.
  intros [id r now c policy db' w0 Hb|salt search client now c policy channel res db' w0 Hf Hw|now code run w0 Hr Hs|db' w0 Hr Hk Hi]
    [Hruns Hsig [Hend Hleft]].
  - destruct (begin_inv _ _ _ _ _ _ _ _ _ Hruns Hb) as (H1 & H2 & H3). split; cbn [w_db w_flights w_successes w_ended]; [done|by rewrite H2|].
    split; [done|]. intros c' Hc'. by eapply left_behind_advances, Hleft.
  - destruct (ri_flights _ _ _ Hruns _ Hf) as [Hp _]. cbn [fst snd] in Hp.
    destruct (work_inv _ _ _ _ _ _ _ _ _ _ _ _ Hruns Hsig Hp Hw) as [H1 H2].
    pose proof (work_advances _ _ _ _ _ _ _ _ _ _ (ri_ids _ _ _ Hruns) Hw) as Hadv.
    pose proof (ends_once c _ _ (ri_ids _ _ _ Hruns) Hadv) as Hends. split; [done|done|]. cbn [w_db w_ended]. split.
    + apply NoDup_app. split_and!; [done| |unfold ends; repeat case_match; repeat constructor; by apply not_elem_of_nil].
      intros x Hx (-> & Hn & _)%Hends. by apply Hn, Hleft.
    + intros x [Hx|(-> & _ & Hl)%Hends]%elem_of_app; [|done]. by eapply left_behind_advances, Hleft.
  - destruct (recover_inv now code run _ _ _ Hruns Hr Hs) as [H1 H2]. split; [done|done|]. cbn [w_db w_ended]. split; [done|].
    intros c' Hc'. by eapply left_behind_advances, Hleft.
  - split; cbn [w_db w_flights w_successes w_ended]; [by rewrite Hr| |by rewrite Hr]. destruct Hsig as [H1 H2]. split; [by rewrite Hi|by rewrite Hk].
Qed.

Definition fresh_world (db : DiscoveryDb) : world := {| w_db := db; w_flights := []; w_successes := []; w_ended := [] |}.

(** C38. Discovery runs succeed once.  From a database without runs, whatever workers begin
    ingestions and do the work of their claims, in whatever order and however often, with
    any answers of the search, stopping anywhere, while leases of running runs are
    recovered and other transactions write other tables and columns: there is one run for a
    bucket of a channel and no claim is handed out twice; a claim ends its run, in success
    or failure, at most once; a run succeeds at most once, with the claim it has in the end,
    and then stays with the result that was reported; no signal is stored twice; and what a
    run records of its present claim is at most five queries, at a hundred units each (a run
    that is claimed again starts counting anew). *)
Theorem discovery_finishes_once db0 w :
  d_runs db0 = [] -> signals_wf (d_signals db0) -> rtc ingest_step (fresh_world db0) w ->
  NoDup (map bucket (d_runs (w_db w)))
  /\ NoDup (map (fun f => f.1.1) (w_flights w))
  /\ NoDup (w_ended w)
  /\ NoDup (map (fun s => rc_run_id s.1) (w_successes w))
  /\ (forall s, s ∈ w_successes w -> exists run, run ∈ d_runs (w_db w) /\ reported run s)
  /\ (forall run, run ∈ d_runs (w_db w) -> dr_status run = "succeeded" -> exists s, s ∈ w_successes w /\ reported run s)
  /\ NoDup (map signal_key (d_signals (w_db w)))
  /\ (forall run, run ∈ d_runs (w_db w) ->
        (0 <= dr_query_count run <= 5)%Z /\ dr_quota_units_estimated run = (dr_query_count run * 100)%Z).
Proof.
  intros Hruns Hsig Hsteps. assert (Hinv : world_inv w).
  { assert (H0 : world_inv (fresh_world db0)).
    { split; [|done|split; [apply NoDup_nil_2|by intros c ?%elem_of_nil]]. cbn [w_db w_flights w_successes fresh_world]. rewrite Hruns.
      split; [apply NoDup_nil_2|apply NoDup_nil_2|apply Forall_nil_2| |apply NoDup_nil_2| | |apply NoDup_nil_2];
        intros x Hx; by apply elem_of_nil in Hx. }
    induction Hsteps; eauto using ingest_step_inv. }
  destruct Hinv as [[_ Hbk Hok _ Hcl Hrep Hsucc Honce] [_ Hkeys] [Hend _]]. do 7 (split; [done|]).
  rewrite Forall_forall in Hok. intros run Hrun. destruct (Hok run Hrun). done.
Qed.

(** ** Two workers on one run *)

Module DiscoveryDemo.
Definition channel : DiscoveryChannel :=
  {| dc_id := uuid_str 1; dc_enabled := true; dc_halted_at := None; dc_intake_paused_at := None;
     dc_content_mix_policy_json := VDict [("youtube_discovery", VDict [("enabled", VBool true); ("max_queries_per_run", VInt 1)])] |}.
Definition lane : TopicLane :=
  {| la_id := uuid_str 2; la_channel_profile_id := uuid_str 1; la_name := "cats"; la_description := ""; la_weight := float_of_Z 1;
     la_keywords_json := VList [VStr "cat videos"]; la_max_posts_per_day := 0; la_max_consecutive_streak := 0;
     la_cooldown_after_post_minutes := 0; la_enabled := true; la_paused_until := None; la_created_at := 0 |}.
Definition item (attempt : Z) (locked_at : datetime) : ChannelOpsQueueItem :=
  {| qi_id := uuid_str 3; qi_kind := "ingest_discovery"; qi_idempotency_key := "k"; qi_channel_profile_id := Some (uuid_str 1);
     qi_priority := 0; qi_parent_queue_item_id := None;
     qi_payload_json := [("channel_id", VStr (uuid_str 1)); ("source", VStr "youtube_search"); ("bucket", VStr "b");
                         ("scheduler_bucket", VStr "b")];
     qi_status := "running"; qi_run_after := 0; qi_locked_at := Some locked_at; qi_locked_by := Some "w"; qi_attempt_count := attempt;
     qi_max_attempts := 3; qi_last_error := None; qi_dead_letter_at := None; qi_created_at := 0 |}.
Definition db (attempt : Z) (locked_at : datetime) : DiscoveryDb :=
  {| d_channels := [channel]; d_lanes := [lane]; d_queue := [item attempt locked_at]; d_signals := []; d_runs := [] |}.
Definition request (attempt : Z) (locked_at : datetime) : DiscoveryIngestionRequest :=
  {| dq_channel_id := uuid_str 1; dq_queue_item_id := uuid_str 3; dq_source := "youtube_search"; dq_scheduler_bucket := "b";
     dq_attempt_count := attempt; dq_locked_by := "w"; dq_locked_at := locked_at |}.
Definition salt (n i : nat) : uuid := uuid_str (Z.of_nat (100 * n + i)).
Definition video (id : string) (views : Z) : pyval := VDict [("video_id", VStr id); ("view_count", VInt views)].
(** Twice the same video, and one with too few views. *)
Definition search (c : SearchCall) : pyval + ProviderCause := inl (VList [video "v1" 5000; video "v1" 6000; video "v2" 10]).
Definition policy : DiscoveryPolicy := ok_or default_policy (_validated_policy (uuid_str 1) (db 1 5)).
Definition later : datetime := (20 * MINUTE_US)%Z.

(** The first worker claims and stalls; the second claims the run twenty minutes later. *)
Definition db1 : DiscoveryDb := Eval vm_compute in
  match begin_ingest (salt 1 0) (request 1 5) 5 (db 1 5) with Ok (_, _, db) => db | Raise _ => db 1 5 end.
Definition db1' : DiscoveryDb := Eval vm_compute in db1 <| d_queue := [item 2 later] |>.
Definition db2 : DiscoveryDb := Eval vm_compute in
  match begin_ingest (salt 2 0) (request 2 later) later db1' with Ok (_, _, db) => db | Raise _ => db1' end.
Definition claim (n : Z) : RunClaim := {| rc_run_id := salt 1 0; rc_generation := n |}.
Definition work (n : nat) (c : RunClaim) (db : DiscoveryDb) : Res DiscoveryIngestionResult * DiscoveryDb :=
  ingest_claimed (salt n) search true later policy (uuid_str 1) c db.

(** The first worker's signals are lost with its claim; the second stores one signal. *)
Example stalled_worker :
  work 1 (claim 1) db2 = (Raise (RuntimeError "run_authority_changed"), db2)
  /\ (fun r => (di_created_count r, di_refreshed_count r, di_quota_units_estimated r)) <$> (work 2 (claim 2) db2).1
     = Ok (1, 1, 100)%Z
  /\ map ds_source_external_id (d_signals (work 2 (claim 2) db2).2) = ["v1"]
  /\ (work 1 (claim 1) (work 2 (claim 2) db2).2).1 = Raise (RuntimeError "run_authority_changed").
Proof. vm_compute. repeat split. Qed.

(** Both workers finish their work, the first one last. *)
Definition last_world : world :=
  {| w_db := (work 1 (claim 1) (work 2 (claim 2) db2).2).2; w_flights := [(claim 1, policy, uuid_str 1); (claim 2, policy, uuid_str 1)];
     w_successes := [(claim 2, ok_or {| di_run_id := ""; di_channel_id := ""; di_source := ""; di_scheduler_bucket := ""; di_status := "";
       di_query_count := 0; di_created_count := 0; di_refreshed_count := 0; di_expired_count := 0; di_quota_units_estimated := 0 |}
       (work 2 (claim 2) db2).1)]; w_ended := [claim 2] |}.
End DiscoveryDemo.

Lemma discovery_finishes_once_witness :
  let w := DiscoveryDemo.last_world in
  map dr_status (d_runs (w_db w)) = ["succeeded"] /\ NoDup (map (fun s => rc_run_id s.1) (w_successes w)).
Proof.
  split; [vm_compute; reflexivity|].
  assert (Hsteps : rtc ingest_step (fresh_world (DiscoveryDemo.db 1 5)) DiscoveryDemo.last_world).
  { eapply rtc_l.
    { apply (Begin (DiscoveryDemo.salt 1 0) (DiscoveryDemo.request 1 5) 5 (DiscoveryDemo.claim 1) DiscoveryDemo.policy DiscoveryDemo.db1).
      vm_compute. reflexivity. }
    eapply rtc_l. { apply (Elsewhere DiscoveryDemo.db1'); reflexivity. }
    eapply rtc_l.
    { apply (Begin (DiscoveryDemo.salt 2 0) (DiscoveryDemo.request 2 DiscoveryDemo.later) DiscoveryDemo.later (DiscoveryDemo.claim 2)
               DiscoveryDemo.policy DiscoveryDemo.db2). vm_compute. reflexivity. }
    eapply rtc_l.
    { apply (Work (DiscoveryDemo.salt 2) DiscoveryDemo.search true DiscoveryDemo.later (DiscoveryDemo.claim 2) DiscoveryDemo.policy (uuid_str 1)
               (DiscoveryDemo.work 2 (DiscoveryDemo.claim 2) DiscoveryDemo.db2).1 (DiscoveryDemo.work 2 (DiscoveryDemo.claim 2) DiscoveryDemo.db2).2);
        [right; left | apply surjective_pairing]. }
    eapply rtc_l.
    { apply (Work (DiscoveryDemo.salt 1) DiscoveryDemo.search true DiscoveryDemo.later (DiscoveryDemo.claim 1) DiscoveryDemo.policy (uuid_str 1)
               (DiscoveryDemo.work 1 (DiscoveryDemo.claim 1) (DiscoveryDemo.work 2 (DiscoveryDemo.claim 2) DiscoveryDemo.db2).2).1
               (DiscoveryDemo.work 1 (DiscoveryDemo.claim 1) (DiscoveryDemo.work 2 (DiscoveryDemo.claim 2) DiscoveryDemo.db2).2).2);
        [left | apply surjective_pairing]. }
    match goal with |- rtc _ ?a ?b => replace b with a by (vm_compute; reflexivity) end. apply rtc_refl. }
  refine (proj1 (proj2 (proj2 (proj2 (discovery_finishes_once (DiscoveryDemo.db 1 5) DiscoveryDemo.last_world eq_refl _ Hsteps))))).
  split; apply NoDup_nil_2.
Defined.
