(* ===== verification/Features.v ===== *)
(** * Actor features ([services/vp-feature-aggregator/feature_aggregator])

    A separate service consumes the actions of actors and the decisions about them from
    Kafka and answers with counts over sliding windows: [windows.py] keeps pruned lists of
    times per actor, [store/memory.py] drops redelivered events, [consumer.py] decodes
    messages, sends malformed ones to a dead-letter topic and commits.

    The clock readings of an operation are arguments, in the order in which the code
    takes them.  Decoding of the events is pydantic's and an interface ([EventCodec]). *)

From stdpp Require Import base tactics list strings sorting sets.
From Stdlib Require Import ZArith Lia.
From S2P Require Import Prelude PyStr PyValue PyTime JobModel.

Open Scope string_scope.
Open Scope list_scope.

(** ** Events and answers ([schemas.py]) *)

Record VPActorActionEvent := {
  va_event_id : string;
  va_topic_version : string;
  va_actor_id : string;
  va_action_type : string;
  va_platform : string;
  va_occurred_at : datetime;
  va_source : string;
  va_metadata : config }.

Record PDSDecisionReason := { dr_code : string; dr_rule : string; dr_detail : string }.

Record PDSDecisionEvent := {
  pd_event_id : string;
  pd_topic_version : string;
  pd_actor_id : string;
  pd_action_type : string;
  pd_platform : string;
  pd_verdict : string;
  pd_score : pyfloat;
  pd_reasons : list PDSDecisionReason;
  pd_decision_id : string;
  pd_client : string;
  pd_occurred_at : datetime }.

Record FeatureResponse := {
  fr_actor_id : string;
  publishes_5m : Z;
  publishes_1h : Z;
  publishes_24h : Z;
  blocks_24h : Z;
  flags_7d : Z;
  comment_burst_1m : Z;
  as_of : datetime;
  from_cache : bool }.

(** ** Windows ([windows.py]) *)

Definition minutes (n : Z) : Z := n * MINUTE_US.
Definition hours (n : Z) : Z := minutes (60 * n).
Definition days (n : Z) : Z := n * DAY_US.

Definition PUBLISH_ACTIONS : list string := ["candidate_accepted"; "publication_scheduled"].
Definition COMMENT_ACTIONS : list string := ["post_comment"].

Record ActorCounters := {
  publishes : list datetime;
  blocks : list datetime;
  flags : list datetime;
  comments : list datetime }.

Definition empty_counters : ActorCounters := {| publishes := []; blocks := []; flags := []; comments := [] |}.

Definition counters_empty (c : ActorCounters) : bool :=
  match publishes c, blocks c, flags c, comments c with [], [], [], [] => true | _, _, _, _ => false end.

(** [WindowAggregator._actors]. *)
Abbreviation actors := (list (string * ActorCounters)).

Definition _count_since (values : list datetime) (since : datetime) : Z :=
  Z.of_nat (length (List.filter (fun v => (since <=? v)%Z) values)).

Definition _prune (values : list datetime) (since : datetime) : list datetime :=
  List.filter (fun v => (since <=? v)%Z) values.

Definition prune_counters (now : datetime) (c : ActorCounters) : ActorCounters :=
  {| publishes := _prune (publishes c) (now - hours 24); blocks := _prune (blocks c) (now - hours 24);
     flags := _prune (flags c) (now - days 7); comments := _prune (comments c) (now - minutes 1) |}.

(** [counters] is the object the dictionary holds under [actor_id]. *)
Definition _prune_actor (now : datetime) (actor_id : string) (counters : ActorCounters) (d : actors) : actors :=
  let pruned := prune_counters now counters in
  if counters_empty pruned then dpop d actor_id else d.[actor_id <- pruned].

Definition _prune_all (now : datetime) (d : actors) : actors :=
  fold_left (fun d' p => _prune_actor now p.1 p.2 d') d d.

Definition counters (d : actors) (actor_id : string) : ActorCounters := dget_or d actor_id empty_counters.

Definition add_publish (t : datetime) (c : ActorCounters) : ActorCounters :=
  {| publishes := publishes c ++ [t]; blocks := blocks c; flags := flags c; comments := comments c |}.
Definition add_block (t : datetime) (c : ActorCounters) : ActorCounters :=
  {| publishes := publishes c; blocks := blocks c ++ [t]; flags := flags c; comments := comments c |}.
Definition add_flag (t : datetime) (c : ActorCounters) : ActorCounters :=
  {| publishes := publishes c; blocks := blocks c; flags := flags c ++ [t]; comments := comments c |}.
Definition add_comment (t : datetime) (c : ActorCounters) : ActorCounters :=
  {| publishes := publishes c; blocks := blocks c; flags := flags c; comments := comments c ++ [t] |}.

(** The counters of an actor, created when missing, with one more time, pruned. *)
Definition append_time (now : datetime) (actor_id : string) (add : ActorCounters -> ActorCounters) (d : actors) : actors :=
  let c := add (counters d actor_id) in
  _prune_actor now actor_id c d.[actor_id <- c].

Definition apply_vp_action (now : datetime) (event : VPActorActionEvent) (d : actors) : actors :=
  _prune_all now
    (if bool_decide (va_action_type event ∈ PUBLISH_ACTIONS)
     then append_time now (va_actor_id event) (add_publish (va_occurred_at event)) d
     else if bool_decide (va_action_type event ∈ COMMENT_ACTIONS)
     then append_time now (va_actor_id event) (add_comment (va_occurred_at event)) d
     else d).

Definition apply_pds_decision (now : datetime) (event : PDSDecisionEvent) (d : actors) : actors :=
  _prune_all now
    (if (pd_verdict event =? "block")%string
     then append_time now (pd_actor_id event) (add_block (pd_occurred_at event)) d
     else if (pd_verdict event =? "flag")%string
     then append_time now (pd_actor_id event) (add_flag (pd_occurred_at event)) d
     else d).

Definition features_for (now : datetime) (actor_id : string) (d : actors) : FeatureResponse :=
  let c := counters d actor_id in
  {| fr_actor_id := actor_id;
     publishes_5m := _count_since (publishes c) (now - minutes 5);
     publishes_1h := _count_since (publishes c) (now - hours 1);
     publishes_24h := _count_since (publishes c) (now - hours 24);
     blocks_24h := _count_since (blocks c) (now - hours 24);
     flags_7d := _count_since (flags c) (now - days 7);
     comment_burst_1m := _count_since (comments c) (now - minutes 1);
     as_of := now; from_cache := false |}.

(** ** The store ([store/__init__.py], [store/memory.py]) *)

Definition dedupe_key (topic_version event_id : string) : string := topic_version +:+ ":" +:+ event_id.

Definition DEFAULT_DEDUPE_TTL : Z := days 7.

Record MemoryFeatureStore := {
  aggregator : actors;
  seen_event_ids : list (string * datetime) }.

Definition _prune_seen (ttl : Z) (now : datetime) (seen : list (string * datetime)) : list (string * datetime) :=
  List.filter (fun p => (now - ttl <=? p.2)%Z) seen.

(** The readings of the clock: for the duplicate check, for the mark, in the aggregator. *)
Record Readings := { r_check : datetime; r_seen : datetime; r_apply : datetime }.

Definition store_apply (ttl : Z) (r : Readings) (key : string) (apply : actors -> actors) (s : MemoryFeatureStore)
    : bool * MemoryFeatureStore :=
  let seen := _prune_seen ttl (r_check r) (seen_event_ids s) in
  if dmem seen key then (false, {| aggregator := aggregator s; seen_event_ids := seen |})
  else (true, {| aggregator := apply (aggregator s); seen_event_ids := seen.[key <- r_seen r] |}).

Definition store_apply_vp_action (ttl : Z) (r : Readings) (event : VPActorActionEvent) (s : MemoryFeatureStore)
    : bool * MemoryFeatureStore :=
  store_apply ttl r (dedupe_key (va_topic_version event) (va_event_id event)) (apply_vp_action (r_apply r) event) s.

Definition store_apply_pds_decision (ttl : Z) (r : Readings) (event : PDSDecisionEvent) (s : MemoryFeatureStore)
    : bool * MemoryFeatureStore :=
  store_apply ttl r (dedupe_key (pd_topic_version event) (pd_event_id event)) (apply_pds_decision (r_apply r) event) s.

(** ** The consumer ([consumer.py]) *)

(** [model_validate_json] of the two event classes: the event, or the text of the error. *)
Class EventCodec := {
  validate_vp_action : string -> VPActorActionEvent + string;
  validate_pds_decision : string -> PDSDecisionEvent + string }.

Record Topics := { vp_actions_topic : string; pds_decisions_topic : string; dead_letter_topic : string }.

Record ProcessResult := {
  applied : bool;
  dlq_topic : option string;
  dlq_value : option string;
  process_error : option string }.

Section Consumer.
Context `{!EventCodec} (ttl : Z) (topics : Topics).

Definition plain_result (b : bool) : ProcessResult :=
  {| applied := b; dlq_topic := None; dlq_value := None; process_error := None |}.

Definition _dlq_result (value error : string) : ProcessResult :=
  {| applied := false; dlq_topic := Some (dead_letter_topic topics); dlq_value := Some value; process_error := Some error |}.

Definition process_message (r : Readings) (topic value : string) (s : MemoryFeatureStore)
    : ProcessResult * MemoryFeatureStore :=
  if (topic =? vp_actions_topic topics)%string then
    match validate_vp_action value with
    | inr error => (_dlq_result value error, s)
    | inl event => let '(b, s') := store_apply_vp_action ttl r event s in (plain_result b, s')
    end
  else if (topic =? pds_decisions_topic topics)%string then
    match validate_pds_decision value with
    | inr error => (_dlq_result value error, s)
    | inl event => let '(b, s') := store_apply_pds_decision ttl r event s in (plain_result b, s')
    end
  else (plain_result false, s).

(** A message of the log with the readings taken while it is handled; [value] is
    [None] for a tombstone. *)
Record KafkaMessage := { km_topic : string; km_value : option string; km_readings : Readings }.

(** The dead-letter producer: [Some error] when the send raised. *)
Context {P : Type} (dlq_send : string -> string -> P -> option string * P).

Record ConsumerState := { cs_store : MemoryFeatureStore; cs_producer : P; cs_committed : nat }.

(** One turn of the loop: [Some error] when it stops with an exception. *)
Definition consume_message (m : KafkaMessage) (s : ConsumerState) : option string * ConsumerState :=
  let value := default "" (km_value m) in
  let '(result, store) := process_message (km_readings m) (km_topic m) value (cs_store s) in
  match dlq_topic result, dlq_value result with
  | Some topic, Some dead =>
      match dlq_send topic dead (cs_producer s) with
      | (Some error, p) => (Some error, {| cs_store := store; cs_producer := p; cs_committed := cs_committed s |})
      | (None, p) => (None, {| cs_store := store; cs_producer := p; cs_committed := S (cs_committed s) |})
      end
  | _, _ => (None, {| cs_store := store; cs_producer := cs_producer s; cs_committed := S (cs_committed s) |})
  end.

Fixpoint run_consumer (messages : list KafkaMessage) (s : ConsumerState) : option string * ConsumerState :=
  match messages with
  | [] => (None, s)
  | m :: messages' =>
      match consume_message m s with
      | (Some error, s') => (Some error, s')
      | (None, s') => run_consumer messages' s'
      end
  end.
End Consumer.

(** ** What is counted *)

(** A decoded message of either topic. *)
Inductive FeatureEvent := ActionEvent (e : VPActorActionEvent) | DecisionEvent (e : PDSDecisionEvent).

Inductive metric := Publish | Block | Flag | Comment.

#[export] Instance metric_eq_dec : EqDecision metric.
Proof. solve_decision. Defined.

Definition event_actor (e : FeatureEvent) : string :=
  match e with ActionEvent e => va_actor_id e | DecisionEvent e => pd_actor_id e end.
Definition event_time (e : FeatureEvent) : datetime :=
  match e with ActionEvent e => va_occurred_at e | DecisionEvent e => pd_occurred_at e end.
Definition event_key (e : FeatureEvent) : string :=
  match e with
  | ActionEvent e => dedupe_key (va_topic_version e) (va_event_id e)
  | DecisionEvent e => dedupe_key (pd_topic_version e) (pd_event_id e)
  end.
Definition event_metric (e : FeatureEvent) : option metric :=
  match e with
  | ActionEvent e => if bool_decide (va_action_type e ∈ PUBLISH_ACTIONS) then Some Publish
                     else if bool_decide (va_action_type e ∈ COMMENT_ACTIONS) then Some Comment else None
  | DecisionEvent e => if (pd_verdict e =? "block")%string then Some Block
                       else if (pd_verdict e =? "flag")%string then Some Flag else None
  end.

Definition apply_event (now : datetime) (e : FeatureEvent) (d : actors) : actors :=
  match e with ActionEvent e => apply_vp_action now e d | DecisionEvent e => apply_pds_decision now e d end.

Definition counted (m : metric) (actor_id : string) (since : datetime) (e : FeatureEvent) : bool :=
  bool_decide (event_actor e = actor_id) && bool_decide (event_metric e = Some m) && (since <=? event_time e)%Z.

Definition count_events (m : metric) (actor_id : string) (since : datetime) (log : list FeatureEvent) : Z :=
  Z.of_nat (length (List.filter (counted m actor_id since) log)).

(** The answer computed from a whole log of events, with no windows kept. *)
Definition features_spec (log : list FeatureEvent) (actor_id : string) (now : datetime) : FeatureResponse :=
  {| fr_actor_id := actor_id;
     publishes_5m := count_events Publish actor_id (now - minutes 5) log;
     publishes_1h := count_events Publish actor_id (now - hours 1) log;
     publishes_24h := count_events Publish actor_id (now - hours 24) log;
     blocks_24h := count_events Block actor_id (now - hours 24) log;
     flags_7d := count_events Flag actor_id (now - days 7) log;
     comment_burst_1m := count_events Comment actor_id (now - minutes 1) log;
     as_of := now; from_cache := false |}.

(** ** Windows keep what a later question asks for *)

Definition values_of (m : metric) (c : ActorCounters) : list datetime :=
  match m with Publish => publishes c | Block => blocks c | Flag => flags c | Comment => comments c end.

Definition retention (m : metric) : Z :=
  match m with Publish | Block => hours 24 | Flag => days 7 | Comment => minutes 1 end.

Lemma counters_ext c c' : (forall m, values_of m c = values_of m c') -> c = c'.
Proof.
  intros H. destruct c, c'. pose proof (H Publish). pose proof (H Block). pose proof (H Flag). pose proof (H Comment).
  simpl in *. by subst.
Qed.

Lemma prune_values m now c : values_of m (prune_counters now c) = _prune (values_of m c) (now - retention m).
Proof. by destruct m. Qed.

Lemma prune_prune values s s' : (s <= s')%Z -> _prune (_prune values s) s' = _prune values s'.
Proof.
  intros Hs. unfold _prune. induction values as [|v l IH]; [done|]. simpl.
  destruct (Z.leb_spec s v); simpl; destruct (Z.leb_spec s' v); try lia; by rewrite IH.
Qed.

Lemma empty_counters_eq c : counters_empty c = true -> c = empty_counters.
Proof. destruct c as [[|??] [|??] [|??] [|??]]; done. Qed.

Lemma counters_prune_actor now a c d b :
  counters (_prune_actor now a c d) b = if decide (b = a) then prune_counters now c else counters d b.
Proof.
  unfold _prune_actor, counters, dget_or. destruct (counters_empty (prune_counters now c)) eqn:He.
  - destruct (decide (b = a)) as [->|Hne]; [by rewrite dget_dpop_eq, (empty_counters_eq _ He) | by rewrite dget_dpop_ne].
  - rewrite dget_dset. destruct (decide (b = a)), (decide (a = b)); try congruence; done.
Qed.

Lemma counters_dset d a c b : counters d.[a <- c] b = if decide (b = a) then c else counters d b.
Proof. unfold counters, dget_or. rewrite dget_dset. destruct (decide (b = a)), (decide (a = b)); try congruence; done. Qed.

Lemma prune_fold now (l d : actors) b :
  NoDup (dkeys l) -> (forall a c, (a, c) ∈ l -> counters d a = c) ->
  counters (fold_left (fun d' p => _prune_actor now p.1 p.2 d') l d) b
  = if bool_decide (b ∈ dkeys l) then prune_counters now (counters d b) else counters d b.
Proof.
  revert d. induction l as [|[a c] l IH]; intros d Hnd Hd; [done|]. inversion Hnd as [|?? Ha Hl]; subst.
  simpl. rewrite IH; [|done|].
  - change (dkeys ((a, c) :: l)) with (a :: dkeys l). rewrite !counters_prune_actor. destruct (decide (b = a)) as [->|Hne].
    + rewrite (bool_decide_eq_true_2 (a ∈ a :: dkeys l)) by (by left). rewrite bool_decide_eq_false_2 by done.
      by rewrite (Hd a c) by (by left).
    + destruct (decide (b ∈ dkeys l)).
      * by rewrite !bool_decide_eq_true_2 by (done || by right).
      * rewrite !bool_decide_eq_false_2; [done| |done]. by intros [->|?]%elem_of_cons.
  - intros a' c' Hin. rewrite counters_prune_actor. rewrite decide_False; [by apply Hd; right|].
    intros ->. apply Ha. change a with ((a, c').1). by apply elem_map.
Qed.

Lemma counters_prune_all now d b : NoDup (dkeys d) -> counters (_prune_all now d) b = prune_counters now (counters d b).
Proof.
  intros Hnd. unfold _prune_all. rewrite prune_fold; [|done|].
  - case_bool_decide as Hb; [done|]. unfold counters, dget_or. by apply dget_None_dkeys in Hb as ->.
  - intros a c Hac. unfold counters, dget_or. by apply elem_of_dget in Hac as ->.
Qed.

Lemma NoDup_prune_actor now a c d : NoDup (dkeys d) -> NoDup (dkeys (_prune_actor now a c d)).
Proof. unfold _prune_actor. destruct (counters_empty _); eauto using NoDup_dpop, NoDup_dkeys_dset. Qed.

Lemma NoDup_prune_all now d : NoDup (dkeys d) -> NoDup (dkeys (_prune_all now d)).
Proof.
  unfold _prune_all. generalize d at 2 as l. intros l. revert d.
  induction l as [|p l IH]; intros d Hd; [done|]. simpl. by apply IH, NoDup_prune_actor.
Qed.

Lemma NoDup_append now a add d : NoDup (dkeys d) -> NoDup (dkeys (append_time now a add d)).
Proof. intros H. by apply NoDup_prune_actor, NoDup_dkeys_dset. Qed.

Lemma _prune_app l l' s : _prune (l ++ l') s = _prune l s ++ _prune l' s.
Proof. unfold _prune. apply List.filter_app. Qed.

(** The times an event adds to a metric of an actor. *)
Definition event_times (m : metric) (actor_id : string) (e : FeatureEvent) : list datetime :=
  if bool_decide (event_actor e = actor_id) && bool_decide (event_metric e = Some m) then [event_time e] else [].

Lemma counters_append now a add d b :
  counters (append_time now a add d) b = if decide (b = a) then prune_counters now (add (counters d a)) else counters d b.
Proof. unfold append_time. rewrite counters_prune_actor, counters_dset. by destruct (decide (b = a)). Qed.

Lemma append_values now d m b a t add m0 :
  NoDup (dkeys d) ->
  (forall c m', values_of m' (add c) = values_of m' c ++ (if decide (m' = m0) then [t] else [])) ->
  values_of m (counters (_prune_all now (append_time now a add d)) b)
  = _prune (values_of m (counters d b) ++ (if bool_decide (a = b) && bool_decide (Some m0 = Some m) then [t] else []))
      (now - retention m).
Proof.
  intros Hnd Hadd. rewrite counters_prune_all by (by apply NoDup_append). rewrite prune_values, counters_append.
  destruct (decide (b = a)) as [->|Hne].
  - rewrite prune_values, prune_prune by lia. rewrite Hadd. rewrite (bool_decide_eq_true_2 (a = a)) by done. simpl.
    destruct (decide (m = m0)) as [->|Hm]; [by rewrite bool_decide_eq_true_2|].
    rewrite (bool_decide_eq_false_2 (Some m0 = Some m)); congruence.
  - rewrite (bool_decide_eq_false_2 (a = b)) by congruence. simpl. by rewrite app_nil_r.
Qed.

Lemma prune_only now d m b : NoDup (dkeys d) ->
  values_of m (counters (_prune_all now d) b) = _prune (values_of m (counters d b) ++ []) (now - retention m).
Proof. intros Hnd. by rewrite counters_prune_all, prune_values, app_nil_r. Qed.

Lemma apply_event_values now e d m b : NoDup (dkeys d) ->
  values_of m (counters (apply_event now e d) b)
  = _prune (values_of m (counters d b) ++ event_times m b e) (now - retention m).
Proof.
  intros Hnd. unfold event_times. destruct e as [e|e]; cbn [apply_event event_actor event_metric event_time].
  - unfold apply_vp_action. case_bool_decide; [|case_bool_decide].
    + apply append_values; [done | intros c []; simpl; by rewrite ?app_nil_r].
    + apply append_values; [done | intros c []; simpl; by rewrite ?app_nil_r].
    + rewrite (bool_decide_eq_false_2 (None = Some m)), andb_false_r by done. by apply prune_only.
  - unfold apply_pds_decision. destruct (pd_verdict e =? "block")%string; [|destruct (pd_verdict e =? "flag")%string].
    + apply append_values; [done | intros c []; simpl; by rewrite ?app_nil_r].
    + apply append_values; [done | intros c []; simpl; by rewrite ?app_nil_r].
    + rewrite (bool_decide_eq_false_2 (None = Some m)), andb_false_r by done. by apply prune_only.
Qed.

Lemma NoDup_apply now e d : NoDup (dkeys d) -> NoDup (dkeys (apply_event now e d)).
Proof.
  intros H. destruct e as [e|e]; simpl; unfold apply_vp_action, apply_pds_decision; apply NoDup_prune_all;
    repeat case_match; auto using NoDup_append.
Qed.

(** At time [T], the aggregator answers like the log to any question asked later. *)
Record windows_inv (log : list FeatureEvent) (T : datetime) (d : actors) : Prop := {
  wi_keys : NoDup (dkeys d);
  wi_values m a s : (T - retention m <= s)%Z ->
    _prune (values_of m (counters d a)) s = _prune (concat (map (event_times m a) log)) s }.

Lemma windows_apply log T d now e :
  windows_inv log T d -> (T <= now)%Z -> windows_inv (log ++ [e]) now (apply_event now e d).
Proof.
  intros [Hk Hv] Hnow. split; [by apply NoDup_apply|]. intros m a s Hs.
  rewrite apply_event_values, prune_prune by (done || lia).
  rewrite map_app, concat_app, !_prune_app, Hv by lia. simpl. by rewrite app_nil_r.
Qed.

Lemma windows_later log T d now : windows_inv log T d -> (T <= now)%Z -> windows_inv log now d.
Proof. intros [Hk Hv] Hnow. split; [done|]. intros m a s Hs. apply Hv. lia. Qed.

Lemma count_since_events m a s log :
  Z.of_nat (length (_prune (concat (map (event_times m a) log)) s)) = count_events m a s log.
Proof.
  unfold count_events. f_equal. induction log as [|e log IH]; [done|]. simpl. rewrite _prune_app, length_app, IH.
  unfold event_times, counted. destruct (bool_decide _ && bool_decide _); simpl; [|done]. by destruct (s <=? event_time e)%Z.
Qed.

Lemma windows_features log T d now a :
  windows_inv log T d -> (T <= now)%Z -> features_for now a d = features_spec log a now.
Proof.
  intros [_ Hv] Hnow.
  assert (H : forall m s, (T - retention m <= s)%Z -> _count_since (values_of m (counters d a)) s = count_events m a s log).
  { intros m s Hs. unfold _count_since. fold (_prune (values_of m (counters d a)) s). by rewrite Hv, count_since_events. }
  unfold features_for, features_spec.
  f_equal; [apply (H Publish)..|apply (H Block)|apply (H Flag)|apply (H Comment)]; cbn [retention];
    unfold hours, days, minutes, MINUTE_US, DAY_US; lia.
Qed.

(** ** Each event counts once *)

Lemma same_elements_length {A} (key : A -> string) (l1 l2 : list A) :
  NoDup (map key l1) -> NoDup (map key l2) -> (forall x, x ∈ l1 <-> x ∈ l2) -> length l1 = length l2.
Proof. intros H1%NoDup_fmap_1 H2%NoDup_fmap_1 He. by apply Permutation_length, NoDup_Permutation. Qed.

Lemma filter_filter_impl {A} (p q : A -> bool) l :
  (forall x, p x = true -> q x = true) -> List.filter p (List.filter q l) = List.filter p l.
Proof.
  intros H. induction l as [|x l IH]; [done|]. simpl. destruct (q x) eqn:Hq; simpl; rewrite IH; [done|].
  destruct (p x) eqn:Hp; [by rewrite H in Hq | done].
Qed.

Lemma dget_prune_seen ttl now seen k : NoDup (dkeys seen) ->
  (_prune_seen ttl now seen).[? k] = match seen.[? k] with
                                    | Some t => if (now - ttl <=? t)%Z then Some t else None
                                    | None => None end.
Proof.
  induction seen as [|[k' t] seen IH]; [done|]. intros Hnd. inversion Hnd as [|?? Hk Hnd']; subst.
  simpl. destruct (decide (k = k')) as [->|Hne].
  - destruct (Z.leb_spec (now - ttl) t); simpl; [by rewrite decide_True|].
    rewrite IH by done. by apply dget_None_dkeys in Hk as ->.
  - destruct (Z.leb_spec (now - ttl) t); simpl; [rewrite decide_False by done|]; by apply IH.
Qed.

Lemma NoDup_prune_seen ttl now seen : NoDup (dkeys seen) -> NoDup (dkeys (_prune_seen ttl now seen)).
Proof. intros H. by apply NoDup_map_filter. Qed.

Definition recent (s : datetime) (log : list FeatureEvent) : list FeatureEvent :=
  List.filter (fun e => (s <=? event_time e)%Z) log.

(** [log]: the events applied so far with the times of their marks; [delivered]: all
    events handed over. *)
Record store_inv (ttl : Z) (log : list (FeatureEvent * datetime)) (delivered : list FeatureEvent) (T : datetime)
    (s : MemoryFeatureStore) : Prop := {
  si_windows : windows_inv (map fst log) T (aggregator s);
  si_seen : NoDup (dkeys (seen_event_ids s));
  si_marked k : k ∈ dkeys (seen_event_ids s) -> exists e, e ∈ map fst log /\ event_key e = k;
  si_times e t : (e, t) ∈ log -> (event_time e <= t <= T)%Z;
  si_kept e t : (e, t) ∈ log ->
    (exists t', (seen_event_ids s).[? event_key e] = Some t' /\ (t <= t')%Z) \/ (t < T - ttl)%Z;
  si_recent since : (T - ttl <= since)%Z -> NoDup (map event_key (recent since (map fst log)));
  si_delivered e : e ∈ map fst log <-> e ∈ delivered }.

Section Store.
Context (ttl : Z) (r : Readings) (e : FeatureEvent) (log : list (FeatureEvent * datetime)).
Context (delivered : list FeatureEvent) (T : datetime) (s : MemoryFeatureStore).
Hypothesis Hinv : store_inv ttl log delivered T s.
Hypothesis Hclock : (T <= r_check r <= r_seen r)%Z /\ (r_seen r <= r_apply r)%Z.
Hypothesis Htime : (event_time e <= r_check r)%Z.
Hypothesis Hsame : forall e', e' ∈ delivered -> event_key e' = event_key e -> e' = e.

(** What an event was marked with is still there, or too old to matter. *)
Lemma kept_prune e0 t : (e0, t) ∈ log ->
  (exists t', (_prune_seen ttl (r_check r) (seen_event_ids s)).[? event_key e0] = Some t' /\ (t <= t')%Z)
  \/ (t < r_check r - ttl)%Z.
Proof.
  intros Hin. destruct (si_kept _ _ _ _ _ Hinv _ _ Hin) as [(t' & Ht' & Hle)|Hold]; [|right; lia].
  rewrite dget_prune_seen, Ht' by apply Hinv. destruct (Z.leb_spec (r_check r - ttl) t'); [left; by exists t' | right; lia].
Qed.

Lemma marked_prune k : k ∈ dkeys (_prune_seen ttl (r_check r) (seen_event_ids s)) ->
  exists e, e ∈ map fst log /\ event_key e = k.
Proof.
  intros Hk. apply (si_marked _ _ _ _ _ Hinv). apply elem_of_dkeys in Hk as [t Ht]. apply elem_of_dkeys.
  rewrite dget_prune_seen in Ht by apply Hinv. destruct ((seen_event_ids s).[? k]); [by eexists | done].
Qed.

Lemma duplicate_inv : dmem (_prune_seen ttl (r_check r) (seen_event_ids s)) (event_key e) = true ->
  store_inv ttl log (delivered ++ [e]) (r_apply r)
    {| aggregator := aggregator s; seen_event_ids := _prune_seen ttl (r_check r) (seen_event_ids s) |}.
Proof.
  intros Hdup. destruct Hinv as [Hw Hnd Hm Ht Hk Hr Hd]. split; cbn [aggregator seen_event_ids].
  - eapply windows_later; [done | lia].
  - by apply NoDup_prune_seen.
  - by apply marked_prune.
  - intros e0 t Hin. apply Ht in Hin. lia.
  - intros e0 t Hin. destruct (kept_prune e0 t Hin) as [?|?]; [by left | right; lia].
  - intros since Hs. apply Hr. lia.
  - intros e0. rewrite elem_of_app, list_elem_of_singleton, Hd. split; [by left|]. intros [?| ->]; [done|].
    apply dmem_true, marked_prune in Hdup as (e1 & He1 & Heq). apply Hd in He1. by rewrite <- (Hsame e1 He1 Heq).
Qed.

Lemma fresh_recent since : dmem (_prune_seen ttl (r_check r) (seen_event_ids s)) (event_key e) = false ->
  (r_apply r - ttl <= since)%Z -> NoDup (map event_key (recent since (map fst log ++ [e]))).
Proof.
  intros Hnew Hs. unfold recent. rewrite List.filter_app, map_app. apply NoDup_app. split_and!.
  - apply (si_recent _ _ _ _ _ Hinv). lia.
  - intros k Hk1 Hk2. simpl in Hk2. destruct (Z.leb_spec since (event_time e)); [|by inversion Hk2].
    apply list_elem_of_singleton in Hk2 as ->. apply list_elem_of_fmap in Hk1 as (e0 & Hkey & [Hin Hrec]%elem_of_lfilter).
    apply list_elem_of_fmap in Hin as ([e1 t] & -> & Hin). simpl in *.
    destruct (kept_prune e1 t Hin) as [(t' & Ht' & _)|Hold].
    + rewrite <- Hkey in Ht'. apply not_true_iff_false in Hnew. apply Hnew, dmem_true, elem_of_dkeys. by eexists.
    + apply (si_times _ _ _ _ _ Hinv) in Hin. lia.
  - simpl. destruct (since <=? event_time e)%Z; simpl; repeat constructor. apply not_elem_of_nil.
Qed.

Lemma fresh_inv : dmem (_prune_seen ttl (r_check r) (seen_event_ids s)) (event_key e) = false ->
  store_inv ttl (log ++ [(e, r_seen r)]) (delivered ++ [e]) (r_apply r)
    {| aggregator := apply_event (r_apply r) e (aggregator s);
       seen_event_ids := (_prune_seen ttl (r_check r) (seen_event_ids s)).[event_key e <- r_seen r] |}.
Proof.
  intros Hnew. pose proof Hinv as [Hw Hnd Hm Ht Hk Hr Hd]. split; cbn [aggregator seen_event_ids].
  - rewrite map_app. eapply windows_apply; [done | lia].
  - by apply NoDup_dkeys_dset, NoDup_prune_seen.
  - intros k [->|Hin]%elem_of_dkeys_dset; rewrite map_app; setoid_rewrite elem_of_app.
    + exists e. split; [right; by left | done].
    + destruct (marked_prune k Hin) as (e0 & He0 & <-). exists e0. auto.
  - intros e0 t [Hin|[= -> ->]%list_elem_of_singleton]%elem_of_app; [apply Ht in Hin|]; lia.
  - intros e0 t [Hin|[= -> ->]%list_elem_of_singleton]%elem_of_app; [|left; exists (r_seen r); by rewrite dget_dset_eq].
    destruct (decide (event_key e0 = event_key e)) as [Heq|Hne].
    + left. exists (r_seen r). rewrite Heq, dget_dset_eq. split; [done|]. apply Ht in Hin. lia.
    + destruct (kept_prune e0 t Hin) as [?|?]; [left; by rewrite dget_dset_ne by congruence | right; lia].
  - intros since Hs. rewrite map_app. by apply fresh_recent.
  - intros e0. rewrite map_app, !elem_of_app, Hd. simpl. done.
Qed.

Lemma store_apply_inv : exists log',
  store_inv ttl log' (delivered ++ [e]) (r_apply r) (store_apply ttl r (event_key e) (apply_event (r_apply r) e) s).2.
Proof.
  unfold store_apply. destruct (dmem _ _) eqn:Hdup; simpl; eexists; [by apply duplicate_inv | by apply fresh_inv].
Qed.
End Store.

Lemma store_later ttl log delivered T T' s : store_inv ttl log delivered T s -> (T <= T')%Z -> store_inv ttl log delivered T' s.
Proof.
  intros [Hw Hnd Hm Ht Hk Hr Hd] Hle. split; try done.
  - by eapply windows_later.
  - intros e t Hin. apply Ht in Hin. lia.
  - intros e t Hin. destruct (Hk e t Hin) as [?|?]; [by left | right; lia].
  - intros since Hs. apply Hr. lia.
Qed.

(** With a time to live that covers every window, the answers are those of the log of
    distinct events. *)
Lemma store_features ttl log delivered T s now a distinct :
  store_inv ttl log delivered T s -> (days 7 <= ttl)%Z -> (T <= now)%Z ->
  NoDup (map event_key distinct) -> (forall e, e ∈ distinct <-> e ∈ delivered) ->
  features_for now a (aggregator s) = features_spec distinct a now.
Proof.
  intros Hinv Httl Hnow Hnd Hd. rewrite (windows_features (map fst log) T) by (done || apply Hinv).
  assert (H : forall m since, (now - days 7 <= since)%Z ->
    count_events m a since (map fst log) = count_events m a since distinct).
  { intros m since Hs. unfold count_events. f_equal. apply (same_elements_length event_key).
    - pose proof (si_recent _ _ _ _ _ Hinv since ltac:(lia)) as Hr.
      apply (NoDup_map_filter _ (counted m a since)) in Hr. unfold recent in Hr.
      rewrite filter_filter_impl in Hr; [done|]. by intros e [_ ?]%andb_prop.
    - by apply NoDup_map_filter.
    - intros e. rewrite !elem_of_lfilter, (si_delivered _ _ _ _ _ Hinv e), Hd. done. }
  unfold features_spec. f_equal; apply H; unfold hours, days, minutes, MINUTE_US, DAY_US; lia.
Qed.

(** ** The consumer *)

Section Runs.
Context `{!EventCodec} (ttl : Z) (topics : Topics) {P : Type} (dlq_send : string -> string -> P -> option string * P).

Definition decode (m : KafkaMessage) : option FeatureEvent :=
  let value := default "" (km_value m) in
  if (km_topic m =? vp_actions_topic topics)%string then
    match validate_vp_action value with inl e => Some (ActionEvent e) | inr _ => None end
  else if (km_topic m =? pds_decisions_topic topics)%string then
    match validate_pds_decision value with inl e => Some (DecisionEvent e) | inr _ => None end
  else None.

(** The clock does not run backwards from [T] on. *)
Fixpoint clock_ok (T : datetime) (ms : list KafkaMessage) : Prop :=
  match ms with
  | [] => True
  | m :: ms' => let r := km_readings m in
                ((T <= r_check r <= r_seen r)%Z /\ (r_seen r <= r_apply r)%Z) /\ clock_ok (r_apply r) ms'
  end.

Lemma omap_cons_list m ms : omap decode (m :: ms) = option_list (decode m) ++ omap decode ms.
Proof. cbn [omap list_omap]. by destruct (decode m). Qed.

(** A message has a store effect exactly when it decodes, and stops the loop exactly when
    it does not and the dead-letter topic refuses it. *)
Lemma consume_cases m s :
  let '(error, s') := consume_message ttl topics dlq_send m s in
  cs_store s' = match decode m with
                | Some e => (store_apply ttl (km_readings m) (event_key e) (apply_event (r_apply (km_readings m)) e) (cs_store s)).2
                | None => cs_store s
                end
  /\ cs_committed s' = match error with None => S (cs_committed s) | Some _ => cs_committed s end
  /\ (error <> None -> decode m = None).
Proof.
  unfold consume_message, process_message, decode, store_apply_vp_action, store_apply_pds_decision.
  destruct (km_topic m =? vp_actions_topic topics)%string; [|destruct (km_topic m =? pds_decisions_topic topics)%string; [|done]].
  - destruct (validate_vp_action _) as [e|error]; cbn [event_key apply_event].
    + by destruct (store_apply _ _ _ _ _).
    + simpl. by destruct (dlq_send _ _ _) as [[?|] ?].
  - destruct (validate_pds_decision _) as [e|error]; cbn [event_key apply_event].
    + by destruct (store_apply _ _ _ _ _).
    + simpl. by destruct (dlq_send _ _ _) as [[?|] ?].
Qed.

Lemma run_consumer_inv ms : forall log delivered T s error s',
  store_inv ttl log delivered T (cs_store s) -> clock_ok T ms ->
  (forall m e, m ∈ ms -> decode m = Some e -> (event_time e <= r_check (km_readings m))%Z) ->
  (forall e e', e ∈ delivered ++ omap decode ms -> e' ∈ delivered ++ omap decode ms -> event_key e = event_key e' -> e = e') ->
  run_consumer ttl topics dlq_send ms s = (error, s') ->
  exists k log' T', cs_committed s' = (cs_committed s + k)%nat /\ (k <= length ms)%nat /\ (error = None <-> k = length ms)
    /\ store_inv ttl log' (delivered ++ omap decode (take k ms)) T' (cs_store s')
    /\ (T' = T \/ exists m, m ∈ ms /\ T' = r_apply (km_readings m)).
Proof.
  induction ms as [|m ms IH]; intros log delivered T s error s' Hinv Hclock Htime Hsame Hrun.
  { injection Hrun as <- <-. exists 0%nat, log, T. rewrite app_nil_r. split_and!; [lia | done | done | done | by left]. }
  destruct Hclock as [Hc Hclock]. cbn [run_consumer] in Hrun. pose proof (consume_cases m s) as Hm.
  destruct (consume_message _ _ _ m s) as [[error1|] s1]; destruct Hm as (Hstore & Hcommit & Hdec).
  { injection Hrun as <- <-. exists 0%nat, log, T. rewrite Hdec in Hstore by done. rewrite Hstore, app_nil_r.
    split_and!; [lia | simpl; lia | done | done | by left]. }
  assert (Hstep : exists log1, store_inv ttl log1 (delivered ++ option_list (decode m)) (r_apply (km_readings m)) (cs_store s1)).
  { rewrite Hstore. destruct (decode m) as [e|] eqn:He; simpl.
    - apply (store_apply_inv ttl _ e log delivered T); [done | done | |].
      + apply (Htime m e); [by left | done].
      + intros e' He' Hk. apply Hsame; [by apply elem_of_app; left | | done].
        apply elem_of_app. right. cbn [omap list_omap]. rewrite He. by left.
    - exists log. rewrite app_nil_r. eapply store_later; [done | lia]. }
  destruct Hstep as [log1 Hlog1].
  destruct (IH log1 _ _ s1 error s' Hlog1 Hclock) as (k & log' & T' & Hk & Hle & Hall & Hinv' & HT'); [| |done|].
  - intros m' e' Hm'. apply Htime. by right.
  - intros e e'. rewrite <- app_assoc, <- omap_cons_list. apply Hsame.
  - exists (S k), log', T'. rewrite <- app_assoc, <- omap_cons_list in Hinv'. simpl.
    split_and!; [lia | lia | rewrite Hall; lia | done |]. right. destruct HT' as [->|(m' & Hm' & ->)].
    + exists m. split; [by left | done].
    + exists m'. split; [by right | done].
Qed.

Definition empty_store : MemoryFeatureStore := {| aggregator := []; seen_event_ids := [] |}.

Lemma empty_store_inv T : store_inv ttl [] [] T empty_store.
Proof.
  split; [|apply NoDup_nil_2|..].
  - split; [apply NoDup_nil_2 | intros m a s _; by destruct m].
  - by intros k Hk%not_elem_of_nil.
  - by intros e t Hk%not_elem_of_nil.
  - by intros e t Hk%not_elem_of_nil.
  - intros since _. apply NoDup_nil_2.
  - done.
Qed.

(** C32. Counting is exactly once over at-least-once delivery.  The consumer starts on an
    empty store and reads any messages, redelivered and malformed ones included, with a
    dead-letter topic that may fail: it commits the messages it has handled, all of
    them unless it stops with an error, and from then on every answer is the one
    computed from the whole log of the distinct events in the committed messages:
    neither the pruning of the windows nor a duplicate, however late it comes, shows.
    Required are a clock that does not run backwards, events that do not lie in the
    future when they are read, identifiers that name one event each, and a time to live of
    at least the longest window (the default is equal); the code checks none of these (see
    [future_event_counted_twice]). *)
Theorem features_exactly_once ms T p error s' now actor_id distinct :
  (days 7 <= ttl)%Z -> clock_ok T ms -> (T <= now)%Z ->
  (forall m, m ∈ ms -> (r_apply (km_readings m) <= now)%Z) ->
  (forall m e, m ∈ ms -> decode m = Some e -> (event_time e <= r_check (km_readings m))%Z) ->
  (forall e e', e ∈ omap decode ms -> e' ∈ omap decode ms -> event_key e = event_key e' -> e = e') ->
  run_consumer ttl topics dlq_send ms {| cs_store := empty_store; cs_producer := p; cs_committed := 0 |} = (error, s') ->
  NoDup (map event_key distinct) ->
  (forall e, e ∈ distinct <-> e ∈ omap decode (take (cs_committed s') ms)) ->
  (cs_committed s' <= length ms)%nat /\ (error = None <-> cs_committed s' = length ms)
  /\ features_for now actor_id (aggregator (cs_store s')) = features_spec distinct actor_id now.
Proof.
  intros Httl Hclock HT Hnow Htime Hsame Hrun Hnd Hdist.
  eapply run_consumer_inv in Hrun as (k & log & T' & Hk & Hle & Hall & Hinv & HT'); [|apply (empty_store_inv T)|done..].
  simpl in *. rewrite Hk in *. split_and!; [done..|]. eapply store_features; [done | done | | done | done].
  destruct HT' as [->|(m & Hm & ->)]; [done | by apply Hnow].
Qed.
End Runs.

(** ** A run *)

Definition accepted_event (id : string) : VPActorActionEvent :=
  {| va_event_id := id; va_topic_version := "vp.actor.actions.v1"; va_actor_id := "lane-1";
     va_action_type := "candidate_accepted"; va_platform := "youtube"; va_occurred_at := days 100;
     va_source := "videoprocess.channel_ops"; va_metadata := [] |}.

#[export] Instance sample_codec : EventCodec := {
  validate_vp_action v := if (v =? "")%string then inr "empty" else inl (accepted_event v);
  validate_pds_decision v := inr v }.

Definition sample_topics : Topics :=
  {| vp_actions_topic := "vp.actor.actions"; pds_decisions_topic := "pds.decisions"; dead_letter_topic := "dlq" |}.

(** An event, the same again after a second, a tombstone, another one, and the first
    once more after eight days. *)
Definition sample_message (value : option string) (t : datetime) : KafkaMessage :=
  {| km_topic := "vp.actor.actions"; km_value := value;
     km_readings := {| r_check := t; r_seen := t; r_apply := t |} |}.

Definition sample_messages : list KafkaMessage :=
  [sample_message (Some "e1") (days 100); sample_message (Some "e1") (days 100 + 1000000);
   sample_message None (days 100 + 2000000); sample_message (Some "e2") (days 100 + 3000000);
   sample_message (Some "e1") (days 108)].

Abbreviation first_event := (ActionEvent (accepted_event "e1")).
Abbreviation second_event := (ActionEvent (accepted_event "e2")).

Lemma sample_events :
  omap (decode sample_topics) (take 5 sample_messages) = [first_event; first_event; second_event; first_event].
Proof. reflexivity. Qed.

Lemma sample_distinct : NoDup (map event_key [first_event; second_event]).
Proof. apply NoDup_cons. split; [|apply NoDup_singleton]. by intros H%list_elem_of_singleton. Qed.

Definition keep_dead (topic value : string) (p : list (string * string)) : option string * list (string * string) :=
  (None, p ++ [(topic, value)]).

Definition sample_run (n : nat) : option string * ConsumerState :=
  run_consumer DEFAULT_DEDUPE_TTL sample_topics keep_dead (take n sample_messages)
    {| cs_store := empty_store; cs_producer := []; cs_committed := 0 |}.

Lemma features_exactly_once_witness :
  publishes_24h (features_for (days 100 + 3000000) "lane-1" (aggregator (cs_store (sample_run 4).2))) = 2%Z
  /\ cs_producer (sample_run 4).2 = [("dlq", "")]
  /\ features_for (days 108) "lane-1" (aggregator (cs_store (sample_run 5).2))
     = features_spec [first_event; second_event] "lane-1" (days 108).
Proof.
  split; [vm_compute; reflexivity|]. split; [vm_compute; reflexivity|].
  refine (proj2 (proj2 (features_exactly_once DEFAULT_DEDUPE_TTL sample_topics keep_dead (take 5 sample_messages) 0 []
    (sample_run 5).1 _ _ _ _ _ _ _ _ _ _ _ _ _))).
  - done.
  - vm_compute. intuition discriminate.
  - done.
  - apply Forall_forall. repeat (apply Forall_cons; split; [vm_compute; discriminate|]). by apply Forall_nil.
  - intros m e Hm He. assert (Hok : Forall (fun m => match decode sample_topics m with
      | Some e => (event_time e <=? r_check (km_readings m))%Z = true | None => True end) (take 5 sample_messages))
      by (repeat (apply Forall_cons; split; [vm_compute; exact eq_refl || exact I|]); by apply Forall_nil).
    rewrite Forall_forall in Hok. specialize (Hok m Hm). rewrite He in Hok. by apply Z.leb_le.
  - rewrite sample_events. intros e e' He He' Heq. apply (NoDup_map_inj event_key [first_event; second_event]); [exact sample_distinct | set_solver.. | done].
  - unfold sample_run. by rewrite <- surjective_pairing.
  - exact sample_distinct.
  - intros e. change (cs_committed _) with 5%nat. rewrite firstn_all2 by (simpl; lia). rewrite sample_events. set_solver.
Defined.

(** Without the condition on the future: an event dated eight days ahead and delivered
    again after a week is counted twice. *)
Example future_event_counted_twice :
  let s := (run_consumer DEFAULT_DEDUPE_TTL sample_topics keep_dead
              [sample_message (Some "e1") (days 92); sample_message (Some "e1") (days 99 + 1000000)]
              {| cs_store := empty_store; cs_producer := []; cs_committed := 0 |}).2 in
  publishes_24h (features_for (days 100) "lane-1" (aggregator (cs_store s))) = 2%Z
  /\ publishes_24h (features_spec [first_event] "lane-1" (days 100)) = 1%Z.
Proof. split; vm_compute; reflexivity. Qed.
