(* ===== verification/WorkerModel.v ===== *)
(** * Rows of the worker protocol ([models/registered_worker_event_receipt.py],
    [models/worker_registration.py], the cache row of [models/artifact.py]) and
    the database

    A task is staged as a dispatch row, delivered over Redis, claimed by a
    registered worker with an attestation of the delivery, and reported back by
    an event that is accepted as a delivery and applied through a receipt.  JSON
    columns keep the decoded value.  Columns that no modelled operation reads or
    writes (the identity of a worker and its grant beyond the stream and group, the
    times of an emission's preparation) are left out. *)

From stdpp Require Import base tactics list strings.
From Stdlib Require Import ZArith.
From S2P Require Import Prelude PyStr PyValue PyJson Pipeline JobModel.

Open Scope string_scope.
Open Scope list_scope.

Record WorkerAdmissionGrant := {
  wg_id : uuid;
  wg_redis_stream : string;
  wg_redis_group : string }.

Record WorkerRegistration := {
  wr_id : uuid;
  wr_grant_id : uuid;
  wr_lease_epoch : Z;
  wr_status : string;
  wr_lease_expires_at : datetime }.

Record WorkerTaskDispatch := {
  wd_id : uuid;
  wd_origin_receipt_id : option uuid;
  wd_dispatch_key : uuid;
  wd_job_id : uuid;
  wd_node_execution_id : uuid;
  wd_redis_stream : string;
  wd_consumer_group : string;
  wd_payload_sha256 : string;
  wd_payload_json : pyval;
  wd_delivery_state : string;
  wd_delivery_attempted_at : option datetime;
  wd_delivery_error : option string;
  wd_redis_message_id : option string;
  wd_delivered_at : option datetime;
  wd_resolution_state : string;
  wd_acknowledged_at : option datetime;
  wd_cancelled_at : option datetime;
  wd_created_at : datetime }.

Record WorkerTaskDeliveryAttestation := {
  at_id : uuid;
  at_redis_stream : string;
  at_consumer_group : string;
  at_message_id : string;
  at_payload_sha256 : string;
  at_dispatch_key : uuid;
  at_job_id : uuid;
  at_node_execution_id : uuid;
  at_worker_registration_id : uuid;
  at_worker_lease_epoch : Z;
  at_worker_id : string;
  at_worker_started_at : datetime;
  at_ack_state : string;
  at_acknowledged_at : option datetime;
  at_attested_at : datetime }.

Record WorkerEventEmission := {
  em_id : uuid;
  em_source_task_attestation_id : uuid;
  em_redis_stream : string;
  em_consumer_group : string;
  em_message_id : option string;
  em_payload_sha256 : string;
  em_payload_json : config;
  em_event_type : string;
  em_job_id : uuid;
  em_node_execution_id : uuid;
  em_worker_registration_id : uuid;
  em_worker_lease_epoch : Z;
  em_worker_id : string;
  em_worker_started_at : datetime;
  em_emission_state : string;
  em_emitted_at : option datetime;
  em_resolved_at : option datetime }.

(** A receipt has no key before it is flushed. *)
Record RegisteredWorkerEventReceipt := {
  rc_id : option uuid;
  rc_source_task_attestation_id : uuid;
  rc_redis_stream : string;
  rc_consumer_group : string;
  rc_message_id : string;
  rc_payload_sha256 : string;
  rc_payload_json : config;
  rc_event_type : string;
  rc_job_id : uuid;
  rc_node_execution_id : uuid;
  rc_worker_registration_id : uuid;
  rc_worker_lease_epoch : Z;
  rc_worker_id : string;
  rc_worker_started_at : datetime;
  rc_source_task_stream : string;
  rc_source_task_group : string;
  rc_source_task_message_id : string;
  rc_application_state : string;
  rc_ack_state : string;
  rc_source_task_ack_state : string;
  rc_accepted_at : datetime;
  rc_applied_at : option datetime;
  rc_acknowledged_at : option datetime;
  rc_source_task_acknowledged_at : option datetime }.

Record RegisteredWorkerEventDelivery := {
  dl_id : uuid;
  dl_source_task_attestation_id : uuid;
  dl_receipt_id : option uuid;
  dl_redis_stream : string;
  dl_consumer_group : string;
  dl_message_id : string;
  dl_payload_sha256 : string;
  dl_resolution_state : string;
  dl_reason_code : option string;
  dl_ack_state : string;
  dl_accepted_at : datetime;
  dl_acknowledged_at : option datetime }.

Record IntermediateArtifactCache := {
  ic_cache_key : string;
  ic_node_type : string;
  ic_node_config_hash : string;
  ic_input_signature_hash : string;
  ic_output_artifact_id : option uuid;
  ic_storage_backend : option string;
  ic_storage_path : option string;
  ic_filename : option string;
  ic_mime_type : option string;
  ic_file_size : option Z;
  ic_media_info : config;
  ic_last_used_at : datetime;
  ic_hit_count : Z;
  ic_metadata_json : config }.

(** The tables of the worker protocol. *)
Record WorkerRows := {
  w_registrations : list (uuid * WorkerRegistration);
  w_grants : list (uuid * WorkerAdmissionGrant);
  w_dispatches : list WorkerTaskDispatch;
  w_attestations : list WorkerTaskDeliveryAttestation;
  w_emissions : list WorkerEventEmission;
  w_receipts : list RegisteredWorkerEventReceipt;
  w_deliveries : list RegisteredWorkerEventDelivery }.

(** [db_tasks] is kept in the order of [ProductionTask.id]; [db_cache] is keyed
    by the unique [cache_key]. *)
Record Db := {
  db_tasks : list ProductionTask;
  db_channels : list (uuid * ChannelProfile);
  db_schedule : option RuntimeSchedule;
  db_jobs : list (uuid * Job);
  db_workers : WorkerRows;
  db_artifacts : list (uuid * Artifact);
  db_assets : list (uuid * Asset);
  db_cache : list (string * IntermediateArtifactCache) }.

Definition db_registrations (db : Db) := w_registrations (db_workers db).
Definition db_grants (db : Db) := w_grants (db_workers db).
Definition db_dispatches (db : Db) := w_dispatches (db_workers db).
Definition db_attestations (db : Db) := w_attestations (db_workers db).
Definition db_emissions (db : Db) := w_emissions (db_workers db).
Definition db_receipts (db : Db) := w_receipts (db_workers db).
Definition db_deliveries (db : Db) := w_deliveries (db_workers db).

(** ** Updates of one table *)

Definition put_jobs (jobs : list (uuid * Job)) (db : Db) : Db :=
  {| db_tasks := db_tasks db; db_channels := db_channels db; db_schedule := db_schedule db;
     db_jobs := jobs; db_workers := db_workers db; db_artifacts := db_artifacts db;
     db_assets := db_assets db; db_cache := db_cache db |}.

Definition put_job (j : Job) (db : Db) : Db := put_jobs (db_jobs db).[j_id j <- j] db.

Definition put_schedule (s : RuntimeSchedule) (db : Db) : Db :=
  {| db_tasks := db_tasks db; db_channels := db_channels db; db_schedule := Some s;
     db_jobs := db_jobs db; db_workers := db_workers db; db_artifacts := db_artifacts db;
     db_assets := db_assets db; db_cache := db_cache db |}.

Definition put_artifacts (arts : list (uuid * Artifact)) (db : Db) : Db :=
  {| db_tasks := db_tasks db; db_channels := db_channels db; db_schedule := db_schedule db;
     db_jobs := db_jobs db; db_workers := db_workers db; db_artifacts := arts;
     db_assets := db_assets db; db_cache := db_cache db |}.

Definition put_cache (cache : list (string * IntermediateArtifactCache)) (db : Db) : Db :=
  {| db_tasks := db_tasks db; db_channels := db_channels db; db_schedule := db_schedule db;
     db_jobs := db_jobs db; db_workers := db_workers db; db_artifacts := db_artifacts db;
     db_assets := db_assets db; db_cache := cache |}.

Definition put_workers (w : WorkerRows) (db : Db) : Db :=
  {| db_tasks := db_tasks db; db_channels := db_channels db; db_schedule := db_schedule db;
     db_jobs := db_jobs db; db_workers := w; db_artifacts := db_artifacts db;
     db_assets := db_assets db; db_cache := db_cache db |}.

Definition set_dispatches (ds : list WorkerTaskDispatch) (w : WorkerRows) : WorkerRows :=
  {| w_registrations := w_registrations w; w_grants := w_grants w; w_dispatches := ds;
     w_attestations := w_attestations w; w_emissions := w_emissions w; w_receipts := w_receipts w;
     w_deliveries := w_deliveries w |}.

Definition set_attestations (ats : list WorkerTaskDeliveryAttestation) (w : WorkerRows) : WorkerRows :=
  {| w_registrations := w_registrations w; w_grants := w_grants w; w_dispatches := w_dispatches w;
     w_attestations := ats; w_emissions := w_emissions w; w_receipts := w_receipts w;
     w_deliveries := w_deliveries w |}.

Definition set_receipts (rcs : list RegisteredWorkerEventReceipt) (w : WorkerRows) : WorkerRows :=
  {| w_registrations := w_registrations w; w_grants := w_grants w; w_dispatches := w_dispatches w;
     w_attestations := w_attestations w; w_emissions := w_emissions w; w_receipts := rcs;
     w_deliveries := w_deliveries w |}.

Definition set_deliveries (dls : list RegisteredWorkerEventDelivery) (w : WorkerRows) : WorkerRows :=
  {| w_registrations := w_registrations w; w_grants := w_grants w; w_dispatches := w_dispatches w;
     w_attestations := w_attestations w; w_emissions := w_emissions w; w_receipts := w_receipts w;
     w_deliveries := dls |}.

Definition put_dispatch (d : WorkerTaskDispatch) (db : Db) : Db :=
  put_workers (set_dispatches (db_dispatches db ++ [d]) (db_workers db)) db.

Definition put_attestation (a : WorkerTaskDeliveryAttestation) (db : Db) : Db :=
  put_workers (set_attestations (db_attestations db ++ [a]) (db_workers db)) db.

Definition no_workers : WorkerRows :=
  {| w_registrations := []; w_grants := []; w_dispatches := []; w_attestations := []; w_emissions := [];
     w_receipts := []; w_deliveries := [] |}.

(** ** Queries *)

(** [one_or_none()]. *)
Definition one_or_none {A} (rows : list A) : Res (option A) :=
  match rows with
  | [] => Ok None
  | [a] => Ok (Some a)
  | _ => Raise (RuntimeError "MultipleResultsFound")
  end.

Definition get_receipt (db : Db) (receipt_id : uuid) : option RegisteredWorkerEventReceipt :=
  List.find (fun r => bool_decide (rc_id r = Some receipt_id)) (db_receipts db).

(** ** What a transaction takes from outside

    [fresh purpose owner] is the UUID drawn for [owner]; [sha256] the hexadecimal
    digest of a text. *)
Record Env := {
  fresh : string -> uuid -> uuid;
  sha256 : string -> string }.

(** Samples. *)
Definition plain_env : Env :=
  {| fresh := fun table seed => table +:+ seed; sha256 := fun s => s |}.

Definition bare_db : Db :=
  {| db_tasks := []; db_channels := []; db_schedule := None; db_jobs := []; db_workers := no_workers;
     db_artifacts := []; db_assets := []; db_cache := [] |}.
