(* ===== verification/RedisModel.v ===== *)
(** * Redis

    Redis is a service outside the repository.  [RedisStore] lists the commands the
    orchestrator sends and two observations of the server ([XRANGE] of a stream,
    [XPENDING] of a group); [RedisLaws] is their documented behaviour on keys that
    are used either as a string or as a stream.  The programs are written against
    the first class and their theorems against the second; [RedisMem] is an
    instance. *)

From stdpp Require Import base tactics list strings pretty.
From Stdlib Require Import ZArith Lia Ascii.
From S2P Require Import Prelude PyStr PyValue PyJson.

Open Scope string_scope.
Open Scope list_scope.

Class RedisStore (R : Type) := {
  redis_get : R -> string -> option string;
  redis_set : string -> string -> R -> R;
  redis_xadd : string -> list string -> R -> string * R;
  redis_xack : string -> string -> string -> R -> Z * R;
  redis_xrange : R -> string -> list (string * list string);
  redis_xpending : R -> string -> string -> list string }.

Class RedisLaws (R : Type) `{!RedisStore R} := {
  get_set : forall r k v k', redis_get (redis_set k v r) k' = if decide (k = k') then Some v else redis_get r k';
  get_xadd : forall r s f k, s <> k -> redis_get (redis_xadd s f r).2 k = redis_get r k;
  get_xack : forall r s g m k, redis_get (redis_xack s g m r).2 k = redis_get r k;
  xrange_set : forall r k v s, s <> k -> redis_xrange (redis_set k v r) s = redis_xrange r s;
  xrange_xadd : forall r s f s',
    redis_xrange (redis_xadd s f r).2 s'
    = if decide (s = s') then redis_xrange r s ++ [((redis_xadd s f r).1, f)] else redis_xrange r s';
  xrange_xack : forall r s g m s', redis_xrange (redis_xack s g m r).2 s' = redis_xrange r s';
  xadd_id_stripped : forall r s f, strip (redis_xadd s f r).1 = (redis_xadd s f r).1;
  xadd_id_nonempty : forall r s f, is_empty (redis_xadd s f r).1 = false;
  xadd_id_fresh : forall r s f, (redis_xadd s f r).1 ∉ map fst (redis_xrange r s);
  xack_result : forall r s g m,
    (redis_xack s g m r).1 = if bool_decide (m ∈ redis_xpending r s g) then 1%Z else 0%Z;
  xpending_xack : forall r s g m s' g',
    redis_xpending (redis_xack s g m r).2 s' g'
    = if decide (s = s' /\ g = g') then List.filter (fun x => negb (x =? m)%string) (redis_xpending r s' g')
      else redis_xpending r s' g';
  xpending_set : forall r k v s g, s <> k -> redis_xpending (redis_set k v r) s g = redis_xpending r s g;
  xpending_xadd : forall r s f s' g, redis_xpending (redis_xadd s f r).2 s' g = redis_xpending r s' g }.

(** ** An instance *)

Record RedisMem := {
  mem_strings : list (string * string);
  mem_streams : list (string * list (string * list string));
  mem_pending : list (string * string * string) }.

Definition mem_entries (r : RedisMem) (s : string) : list (string * list string) :=
  default [] (mem_streams r).[? s].

Fixpoint ones (n : nat) : string := match n with O => EmptyString | S n => String "1" (ones n) end.

(** Longer than every identifier of the stream. *)
Definition mem_fresh (r : RedisMem) (s : string) : string :=
  ones (S (list_max (map (fun e => String.length e.1) (mem_entries r s)))).

Definition group_entry (s g : string) (p : string * string * string) : bool :=
  (p.1.1 =? s)%string && (p.1.2 =? g)%string.

Definition group_pending (r : RedisMem) (s g : string) : list string :=
  map snd (List.filter (group_entry s g) (mem_pending r)).

#[export] Instance RedisMem_store : RedisStore RedisMem := {
  redis_get r k := (mem_strings r).[? k];
  redis_set k v r := {| mem_strings := (mem_strings r).[k <- v]; mem_streams := mem_streams r;
                        mem_pending := mem_pending r |};
  redis_xadd s f r :=
    (mem_fresh r s, {| mem_strings := mem_strings r;
                       mem_streams := (mem_streams r).[s <- mem_entries r s ++ [(mem_fresh r s, f)]];
                       mem_pending := mem_pending r |});
  redis_xack s g m r :=
    (if bool_decide (m ∈ group_pending r s g) then 1%Z else 0%Z,
     {| mem_strings := mem_strings r; mem_streams := mem_streams r;
        mem_pending := List.filter (fun p => negb (group_entry s g p && (p.2 =? m)%string)) (mem_pending r) |});
  redis_xrange r s := mem_entries r s;
  redis_xpending r s g := group_pending r s g }.

Lemma length_ones n : String.length (ones n) = n.
Proof. induction n as [|n IH]; [done|]. simpl. by rewrite IH. Qed.

Lemma strip_ones n : strip (ones n) = ones n.
Proof.
  assert (Hr : rstrip (ones n) = ones n).
  { induction n as [|[|n] IH]; [done..|]. change (ones (S (S n))) with (String "1" (ones (S n))).
    cbn [rstrip]. by rewrite IH. }
  unfold strip. rewrite Hr. by destruct n.
Qed.

Lemma mem_fresh_fresh r s : mem_fresh r s ∉ map fst (mem_entries r s).
Proof.
  intros ([id f] & Hid & Hin)%list_elem_of_fmap. simpl in Hid.
  assert (Hlen : String.length id <= list_max (map (fun e => String.length e.1) (mem_entries r s))).
  { pose proof (proj1 (list_max_le _ _) (Nat.le_refl (list_max (map (fun e => String.length e.1) (mem_entries r s)))))
      as Hall.
    rewrite List.Forall_forall in Hall. apply Hall. apply in_map_iff. exists (id, f). split; [done|].
    by apply list_elem_of_In. }
  rewrite <- Hid in Hlen. unfold mem_fresh in Hlen. rewrite length_ones in Hlen. lia.
Qed.

Lemma filter_filter_pending s g m s' g' l :
  map snd (List.filter (group_entry s' g') (List.filter (fun p => negb (group_entry s g p && (p.2 =? m)%string)) l))
  = if decide (s = s' /\ g = g')
    then List.filter (fun x => negb (x =? m)%string) (map snd (List.filter (group_entry s' g') l))
    else map snd (List.filter (group_entry s' g') l).
Proof.
  assert (Hsame : forall p, group_entry s' g' p = true -> group_entry s g p = bool_decide (s = s' /\ g = g')).
  { intros [[a b] c]. unfold group_entry. simpl. intros [->%String.eqb_eq ->%String.eqb_eq]%andb_prop.
    case_bool_decide as Hd; [destruct Hd as [-> ->]; by rewrite !String.eqb_refl|].
    apply andb_false_iff. destruct (String.eqb_spec s' s); [|by left]. right.
    apply String.eqb_neq. naive_solver. }
  induction l as [|p l IH]; [by destruct (decide _)|]. simpl. destruct (group_entry s' g' p) eqn:Hg.
  - rewrite (Hsame p Hg), (bool_decide_decide (s = s' /\ g = g')).
    destruct (decide (s = s' /\ g = g')) as [Hd|Hd]; simpl.
    + destruct (p.2 =? m)%string eqn:Hm; simpl; rewrite ?Hg, ?Hm; simpl; by rewrite IH.
    + rewrite Hg. simpl. by rewrite IH.
  - destruct (negb _); simpl; rewrite ?Hg; exact IH.
Qed.

#[export] Instance RedisMem_laws : RedisLaws RedisMem.
Proof.
  split; simpl.
  - intros r k v k'. by rewrite dget_dset.
  - done.
  - done.
  - done.
  - intros r s f s'. unfold mem_entries at 1. simpl. rewrite dget_dset. case_decide; by subst.
  - done.
  - intros r s f. exact (strip_ones (S _)).
  - done.
  - intros r s _. exact (mem_fresh_fresh r s).
  - done.
  - intros r s g m s' g'. apply filter_filter_pending.
  - done.
  - done.
Qed.
