(* ===== verification/Schedule.v ===== *)
(** * Video schedule windows ([services/schedule_service.py])

    The runtime schedule is [OPEN], [DRAINING] or [CLOSED], possibly guarded for
    one job.  Jobs wait for their window in state [WAITING_WINDOW]. *)

From stdpp Require Import base tactics list strings relations sorting.
From Stdlib Require Import ZArith Lia.
From S2P Require Import Prelude PyStr PyValue Pipeline JobModel.

Open Scope string_scope.
Open Scope list_scope.

Inductive VideoScheduleState : Set := OPEN | DRAINING | CLOSED.

#[export] Instance VideoScheduleState_eq_dec : EqDecision VideoScheduleState.
Proof. solve_decision. Defined.

Definition VideoScheduleState_value (s : VideoScheduleState) : string :=
  match s with OPEN => "OPEN" | DRAINING => "DRAINING" | CLOSED => "CLOSED" end.

(** [VideoScheduleState(raw)]; [None] is its [ValueError]. *)
Definition parse_VideoScheduleState (raw : string) : option VideoScheduleState :=
  List.find (fun s => (VideoScheduleState_value s =? raw)%string) [OPEN; DRAINING; CLOSED].

Definition ACTIVE_JOB_STATUSES : list JobStatus.t :=
  [JobStatus.PENDING; JobStatus.VALIDATING; JobStatus.PLANNING; JobStatus.RUNNING].
Definition GUARDED_OPEN_JOB_STATUSES : list JobStatus.t :=
  ACTIVE_JOB_STATUSES ++ [JobStatus.WAITING_WINDOW].
Definition GUARDED_OPEN_NODE_STATUSES : list NodeStatus.t := [NodeStatus.QUEUED; NodeStatus.RUNNING].

(** [settings.video_schedule_default_state] is the argument. *)
Definition default_video_schedule_state (setting : string) : VideoScheduleState :=
  default OPEN (parse_VideoScheduleState (upper (str_or setting (VideoScheduleState_value OPEN)))).

Definition schedule_state (setting : string) (s : RuntimeSchedule) : VideoScheduleState :=
  default (default_video_schedule_state setting) (parse_VideoScheduleState (s_state s)).

Definition is_job_fresh_submission (j : Job) : bool :=
  match j_started_at j with
  | Some _ => false
  | None => forallb (has_status NodeStatus.PENDING) (j_node_executions j)
  end.

Definition should_defer_job_start (j : Job) (state : VideoScheduleState) (guarded_job_id : option uuid) : bool :=
  match state with
  | OPEN => match guarded_job_id with Some g => negb (bool_decide (j_id j = g)) | None => false end
  | CLOSED => true
  | DRAINING => if bool_decide (j_status j = JobStatus.WAITING_WINDOW) then true else is_job_fresh_submission j
  end.

(** The [runtime_schedules] row is created with the default state when absent. *)
Definition get_or_create_and_lock_runtime_schedule (setting : string) (row : option RuntimeSchedule)
    : RuntimeSchedule * bool :=
  match row with
  | Some s => (s, false)
  | None => ({| s_state := VideoScheduleState_value (default_video_schedule_state setting);
                s_guarded_job_id := None; s_updated_by := "system" |}, true)
  end.

Definition set_video_schedule_state (state : VideoScheduleState) (updated_by : string) : RuntimeSchedule :=
  {| s_state := VideoScheduleState_value state; s_guarded_job_id := None; s_updated_by := updated_by |}.

Definition park_job_for_window (j : Job) : Job := set_job JobStatus.WAITING_WINDOW None None j.

Definition park_jobs_for_window (jobs : list Job) : list Job := map park_job_for_window jobs.

(** What deferring a job does to a node that is not finished. *)
Definition reset_node (n : NodeExecution) : NodeExecution :=
  {| ne_id := ne_id n; ne_node_id := ne_node_id n; ne_node_type := ne_node_type n;
     ne_node_label := ne_node_label n; ne_node_config := ne_node_config n;
     ne_status := NodeStatus.PENDING; ne_progress := 0; ne_worker_id := None; ne_queued_at := None;
     ne_started_at := None; ne_completed_at := None; ne_error_message := None; ne_error_trace := None;
     ne_retry_count := ne_retry_count n; ne_input_artifact_ids := ne_input_artifact_ids n;
     ne_output_artifact_id := ne_output_artifact_id n;
     ne_worker_registration_id := ne_worker_registration_id n;
     ne_worker_lease_epoch := ne_worker_lease_epoch n |}.

#[export] Instance reset_node_identity : KeepsIdentity reset_node.
Proof. by split. Qed.

Definition reset_active_node (n : NodeExecution) : NodeExecution :=
  if active (ne_status n) then reset_node n else n.

Definition defer_job_until_next_window (j : Job) : Job :=
  set_job JobStatus.WAITING_WINDOW None None (map_nodes reset_active_node j).

(** ** Queries and updates over the jobs table *)

(** Order of [submitted_at], then [id]. *)
Definition submitted_le (a b : Job) : Prop :=
  (j_submitted_at a < j_submitted_at b)%Z
  \/ (j_submitted_at a = j_submitted_at b /\ str_le (j_id a) (j_id b)).

#[export] Instance submitted_le_dec : RelDecision submitted_le.
Proof. intros a b. unfold submitted_le. apply _. Defined.

Definition is_waiting_python (j : Job) : bool :=
  bool_decide (j_status j = JobStatus.WAITING_WINDOW) && (j_orchestrator_owner j =? "python")%string.

Definition list_waiting_video_jobs (jobs : list Job) : list Job :=
  merge_sort submitted_le (List.filter is_waiting_python jobs).

Definition release_job (j : Job) : Job := set_job JobStatus.PENDING None None j.

(** The jobs table after the release and the identifiers released. *)
Definition release_waiting_video_jobs (jobs : list Job) : list Job * list uuid :=
  (map (fun j => if is_waiting_python j then release_job j else j) jobs,
   map j_id (list_waiting_video_jobs jobs)).

Definition open_video_schedule_for_job (setting : string) (row : option RuntimeSchedule)
    (jobs : list Job) (expected_job_id : uuid) : Res (RuntimeSchedule * list Job * list uuid) :=
  let schedule := (get_or_create_and_lock_runtime_schedule setting row).1 in
  if negb (s_state schedule =? VideoScheduleState_value CLOSED)%string then
    Raise (GuardedScheduleOpenConflict "video schedule is not closed")
  else
    let open_jobs := List.filter (fun j => bool_decide (j_status j ∈ GUARDED_OPEN_JOB_STATUSES)) jobs in
    let active_nodes := List.filter (fun n => bool_decide (ne_status n ∈ GUARDED_OPEN_NODE_STATUSES))
                          (concat (map j_node_executions jobs)) in
    let expected_jobs := List.filter (fun j => bool_decide (j_id j = expected_job_id) && is_waiting_python j)
                           open_jobs in
    match expected_jobs, open_jobs, active_nodes with
    | [_], [_], [] =>
        Ok ({| s_state := VideoScheduleState_value OPEN; s_guarded_job_id := Some expected_job_id;
               s_updated_by := "internal_api_guarded" |},
            map (fun j => if bool_decide (j_id j = expected_job_id) && is_waiting_python j
                          then release_job j else j) jobs,
            [expected_job_id])
    | _, _, _ => Raise (GuardedScheduleOpenConflict "guarded schedule open authority mismatch")
    end.

Definition load_video_jobs_for_recovery (jobs : list Job) : list Job :=
  List.filter (fun j => bool_decide (j_status j ∈ [JobStatus.PENDING; JobStatus.WAITING_WINDOW;
                                                    JobStatus.RUNNING; JobStatus.PLANNING])
                        && (j_orchestrator_owner j =? "python")%string) jobs.

(** Counts of [build_video_schedule_status]. *)
Record VideoScheduleStatus := {
  vs_state : string;
  vs_guarded_job_id : option uuid;
  vs_waiting_jobs : Z;
  vs_active_jobs : Z;
  vs_queued_nodes : Z;
  vs_running_nodes : Z;
  vs_updated_by : string;
  vs_released_jobs : Z }.

Definition count {A} (p : A -> bool) (l : list A) : Z := Z.of_nat (length (List.filter p l)).

Definition build_video_schedule_status (schedule : RuntimeSchedule) (jobs : list Job) (released_jobs : Z)
    : VideoScheduleStatus :=
  let all_nodes := concat (map j_node_executions jobs) in
  {| vs_state := s_state schedule; vs_guarded_job_id := s_guarded_job_id schedule;
     vs_waiting_jobs := count (fun j => bool_decide (j_status j = JobStatus.WAITING_WINDOW)) jobs;
     vs_active_jobs := count (fun j => bool_decide (j_status j ∈ ACTIVE_JOB_STATUSES)) jobs;
     vs_queued_nodes := count (has_status NodeStatus.QUEUED) all_nodes;
     vs_running_nodes := count (has_status NodeStatus.RUNNING) all_nodes;
     vs_updated_by := s_updated_by schedule; vs_released_jobs := released_jobs |}.

(** ** Facts *)

#[export] Instance submitted_le_trans : Transitive submitted_le.
Proof.
  intros a b c [H1|[H1 H1']] [H2|[H2 H2']]; unfold submitted_le; [left; lia..|].
  right. split; [lia | by etrans].
Qed.

#[export] Instance submitted_le_total : Total submitted_le.
Proof.
  intros a b. unfold submitted_le.
  destruct (Z.lt_trichotomy (j_submitted_at a) (j_submitted_at b)) as [?|[?|?]]; [auto | | auto].
  destruct (total str_le (j_id a) (j_id b)); auto.
Qed.

Lemma filter_singleton_elem {A} (p : A -> bool) (l : list A) (x y : A) :
  List.filter p l = [x] -> y ∈ l -> p y = true -> y = x.
Proof.
  intros Hf Hy Hp. apply list_elem_of_singleton. rewrite <- Hf. by apply elem_of_lfilter.
Qed.

Lemma filter_nil_elem {A} (p : A -> bool) (l : list A) (y : A) :
  List.filter p l = [] -> y ∈ l -> p y = false.
Proof.
  intros Hf Hy. destruct (p y) eqn:Hp; [|done]. exfalso. apply (not_elem_of_nil y).
  rewrite <- Hf. by apply elem_of_lfilter.
Qed.

(** ** Theorems *)

(**  A guarded opening succeeds only from a closed schedule with exactly one
    unfinished job, the expected one, waiting and without queued or running
    nodes.  Afterwards that job is pending, every other job is finished, and the
    new schedule defers the start of every job but the expected one. *)
Theorem guarded_open_exclusive setting row jobs id schedule jobs' released :
  open_video_schedule_for_job setting row jobs id = Ok (schedule, jobs', released) ->
  s_state (get_or_create_and_lock_runtime_schedule setting row).1 = "CLOSED"
  /\ released = [id]
  /\ (exists j, j ∈ jobs /\ j_id j = id /\ j_status j = JobStatus.WAITING_WINDOW)
  /\ (forall j, j ∈ jobs' -> j_status j ∈ GUARDED_OPEN_JOB_STATUSES ->
        j_id j = id /\ j_status j = JobStatus.PENDING)
  /\ (forall j n, j ∈ jobs' -> n ∈ j_node_executions j -> ne_status n ∉ GUARDED_OPEN_NODE_STATUSES)
  /\ (forall j, should_defer_job_start j (schedule_state setting schedule) (s_guarded_job_id schedule) = false
        <-> j_id j = id).
Proof.
  unfold open_video_schedule_for_job. change (VideoScheduleState_value CLOSED) with "CLOSED". cbv zeta.
  destruct (String.eqb_spec (s_state (get_or_create_and_lock_runtime_schedule setting row).1) "CLOSED")
    as [Hst|]; simpl negb; cbv iota; [|done].
  set (open_jobs := List.filter _ jobs). set (nodes := List.filter _ (concat _)).
  set (expected := List.filter _ open_jobs).
  destruct expected as [|ej [|]] eqn:Hex; try done.
  destruct open_jobs as [|oj [|]] eqn:Hopen; try done.
  destruct nodes as [|] eqn:Hnodes; try done. intros [= <- <- <-].
  assert (Hej : ej ∈ [ej]) by (by apply list_elem_of_singleton).
  rewrite <- Hex in Hej. unfold expected in Hej. apply elem_of_lfilter in Hej as [Hoj Hp].
  apply list_elem_of_singleton in Hoj as ->.
  assert (Hin : oj ∈ jobs) by (apply (elem_of_lfilter (fun j => bool_decide (j_status j ∈ GUARDED_OPEN_JOB_STATUSES)));
    fold open_jobs; rewrite Hopen; by apply list_elem_of_singleton).
  pose proof Hp as [Hid Hw]%andb_prop. apply bool_decide_eq_true in Hid.
  pose proof Hw as [Hws _]%andb_prop. apply bool_decide_eq_true in Hws.
  split_and!; [done | done | eauto | | |].
  - intros j Hj Hst'. apply list_elem_of_fmap in Hj as (j0 & -> & Hj0). revert Hst'.
    destruct (bool_decide (j_id j0 = id) && is_waiting_python j0) eqn:Hj0p.
    + intros _. apply andb_prop in Hj0p as [Hj0id _]. apply bool_decide_eq_true in Hj0id. by split.
    + intros Hst'. rewrite (filter_singleton_elem _ _ oj j0 Hopen Hj0) in Hj0p; [congruence|].
      by apply bool_decide_eq_true.
  - intros j n Hj Hn. apply list_elem_of_fmap in Hj as (j0 & -> & Hj0).
    assert (Hn0 : n ∈ j_node_executions j0) by (by destruct (bool_decide (j_id j0 = id) && is_waiting_python j0)).
    assert (Hnil := filter_nil_elem _ _ n Hnodes). rewrite bool_decide_eq_false in Hnil. apply Hnil.
    apply list_elem_of_In, in_concat. exists (j_node_executions j0).
    split; apply list_elem_of_In; [by apply list_elem_of_fmap_2 | done].
  - intros j. simpl. rewrite negb_false_iff. apply bool_decide_eq_true.
Qed.

(**  Opening the window releases exactly the waiting jobs of the Python
    orchestrator, reports them in submission order, leaves every other job as it
    was and no such job waiting. *)
Theorem release_waiting_exact jobs :
  let jobs' := (release_waiting_video_jobs jobs).1 in
  let ids := (release_waiting_video_jobs jobs).2 in
  (exists released, ids = map j_id released /\ StronglySorted submitted_le released
     /\ forall j, j ∈ released <-> j ∈ jobs /\ is_waiting_python j = true)
  /\ Forall2 (fun j j' => if is_waiting_python j then j' = release_job j else j' = j) jobs jobs'
  /\ (forall j, j ∈ jobs' -> is_waiting_python j = false).
Proof.
  simpl. split_and!.
  - exists (list_waiting_video_jobs jobs). split_and!; [done | apply StronglySorted_merge_sort; apply _ |].
    intros j. unfold list_waiting_video_jobs. by rewrite merge_sort_Permutation, elem_of_lfilter.
  - apply Forall2_map_self. intros j. by destruct (is_waiting_python j).
  - intros j Hj. apply list_elem_of_fmap in Hj as (j0 & -> & _).
    by destruct (is_waiting_python j0) eqn:Hw.
Qed.

(** ** Witness *)

Definition waiting_job (id : uuid) (n : NodeStatus.t) (s : JobStatus.t) : Job :=
  {| j_id := id; j_pipeline_id := "p"; j_pipeline_snapshot := {| nodes := []; edges := []; viewport := [] |};
     j_status := s; j_execution_plan := None; j_submitted_at := 10; j_started_at := None;
     j_completed_at := None; j_error_message := None; j_orchestrator_owner := "python";
     j_node_executions :=
       [{| ne_id := id +:+ "-n"; ne_node_id := "n"; ne_node_type := "trim"; ne_node_label := "n";
           ne_node_config := []; ne_status := n; ne_progress := 0; ne_worker_id := None;
           ne_queued_at := None; ne_started_at := None; ne_completed_at := None; ne_error_message := None;
           ne_error_trace := None; ne_retry_count := 0; ne_input_artifact_ids := [];
           ne_output_artifact_id := None; ne_worker_registration_id := None;
           ne_worker_lease_epoch := None |}] |}.

Definition sample_jobs : list Job :=
  [waiting_job "a" NodeStatus.SUCCEEDED JobStatus.SUCCEEDED;
   waiting_job "b" NodeStatus.PENDING JobStatus.WAITING_WINDOW].

Definition closed_schedule : RuntimeSchedule := set_video_schedule_state CLOSED "operator".

Definition opened_schedule : RuntimeSchedule :=
  {| s_state := "OPEN"; s_guarded_job_id := Some "b"; s_updated_by := "internal_api_guarded" |}.

Lemma guarded_open_exclusive_witness :
  should_defer_job_start (waiting_job "b" NodeStatus.PENDING JobStatus.PENDING)
    (schedule_state "" opened_schedule) (s_guarded_job_id opened_schedule) = false.
Proof.
  apply (guarded_open_exclusive "" (Some closed_schedule) sample_jobs "b" opened_schedule
           [waiting_job "a" NodeStatus.SUCCEEDED JobStatus.SUCCEEDED;
            waiting_job "b" NodeStatus.PENDING JobStatus.PENDING] ["b"]); [vm_compute|]; reflexivity.
Defined.
