(* ===== verification/Authority.v ===== *)
(** * Execution authority ([services/job_execution_authority.py], the claim of
    [worker/main.py])

    Before it changes a job a transaction locks channel, schedule, task, job and
    node rows and checks that the job may still run.  [Db] holds the rows these
    checks read; the statements of one transaction see one [Db].  An absent
    schedule row reads as the default row that locking creates. *)

From stdpp Require Import base tactics list strings relations sorting.
From Stdlib Require Import ZArith Lia.
From S2P Require Import Prelude PyStr PyValue PyJson Pipeline JobModel WorkerModel Schedule.

Open Scope string_scope.
Open Scope list_scope.

Record LockedJobExecutionAuthority := {
  au_channel : option ChannelProfile;
  au_schedule : RuntimeSchedule;
  au_task : option ProductionTask;
  au_job : Job;
  au_node : option NodeExecution }.

Record NodeExecutionClaim := {
  cl_job_id : uuid;
  cl_node_execution_id : uuid;
  cl_worker_id : string;
  cl_started_at : datetime;
  cl_worker_registration_id : option uuid;
  cl_worker_lease_epoch : option Z }.

Definition blocked {A} (msg : string) : Res A := Raise (JobExecutionAuthorityBlocked msg).

(** Rows locked with [FOR UPDATE], in the order of the statements. *)
Inductive LockedRow : Set :=
| LockChannel (id : uuid)
| LockSchedule
| LockTask (id : uuid)
| LockJob (id : uuid)
| LockNode (id : uuid)
| LockRegistration (id : uuid)
| LockDispatch (key : uuid).

(** ** Locking *)

Section Lock.
Context (setting : string).

(** Rows [(task id, channel id, job id)] of the tasks of [job_ids]. *)
Definition task_references (db : Db) (job_ids : list uuid) : list (uuid * uuid * uuid) :=
  take (2 * length job_ids + 1)
    (concat (map (fun t => match pt_job_id t with
                           | Some j => if bool_decide (j ∈ job_ids)
                                       then [(pt_id t, pt_channel_profile_id t, j)] else []
                           | None => []
                           end) (db_tasks db))).

(** The channels in lock order; [None] when one is missing. *)
Fixpoint load_channels (rows : list (uuid * ChannelProfile)) (ids : list uuid)
    : option (list (uuid * ChannelProfile)) :=
  match ids with
  | [] => Some []
  | id :: ids' =>
      match rows.[? id], load_channels rows ids' with
      | Some c, Some cs => Some ((id, c) :: cs)
      | _, _ => None
      end
  end.

Definition lock_job_execution_entries (db : Db) (job_ids : list uuid) (create_schedule : bool)
    : Res (list (uuid * ChannelProfile) * list (uuid * uuid * uuid) * RuntimeSchedule * list LockedRow) :=
  let task_refs := task_references db job_ids in
  if negb (bool_decide (length task_refs = length (uniq (map (fun r => r.2) task_refs)))) then
    blocked "job is linked to multiple production tasks"
  else
    let channel_ids := merge_sort str_le (uniq (map (fun r => r.1.2) task_refs)) in
    match load_channels (db_channels db) channel_ids with
    | None => blocked "production task channel was not found"
    | Some channels =>
        let locks := map LockChannel channel_ids ++ [LockSchedule] in
        if create_schedule then
          Ok (channels, task_refs, (get_or_create_and_lock_runtime_schedule setting (db_schedule db)).1, locks)
        else
          match db_schedule db with
          | None => blocked "runtime schedule was not found"
          | Some schedule => Ok (channels, task_refs, schedule, locks)
          end
    end.

Definition lock_job_execution_entry (db : Db) (job_id : uuid)
    : Res (option ChannelProfile * list (uuid * uuid) * RuntimeSchedule * list LockedRow) :=
  match lock_job_execution_entries db [job_id] true with
  | Raise e => Raise e
  | Ok (channels, references, schedule, locks) =>
      let refs := map (fun r => r.1) references in
      Ok (match refs with [] => None | r :: _ => channels.[? r.2] end, refs, schedule, locks)
  end.

(** The production task of the job, still linked to the same job and channel. *)
Definition lock_task (db : Db) (job_id : uuid) (channel : option ChannelProfile)
    (refs : list (uuid * uuid)) : Res (option ProductionTask * list LockedRow) :=
  match refs with
  | [] => Ok (None, [])
  | (task_id, discovered_channel_id) :: _ =>
      match List.find (fun t => bool_decide (pt_id t = task_id)) (db_tasks db), channel with
      | Some task, Some c =>
          if bool_decide (pt_job_id task = Some job_id)
             && bool_decide (pt_channel_profile_id task = discovered_channel_id)
             && bool_decide (pt_channel_profile_id task = ch_id c)
          then Ok (Some task, [LockTask task_id])
          else blocked "production task authority changed while locking"
      | _, _ => blocked "production task authority changed while locking"
      end
  end.

Definition lock_nodes (job : Job) (node_execution_id : option uuid) (lock_all_nodes : bool)
    : Res (option NodeExecution * list LockedRow) :=
  if lock_all_nodes then
    let locks := map LockNode (merge_sort str_le (map ne_id (j_node_executions job))) in
    match node_execution_id with
    | None => Ok (None, locks)
    | Some id =>
        match find_node id job with
        | None => blocked "node execution authority changed while locking"
        | Some n => Ok (Some n, locks)
        end
    end
  else
    match node_execution_id with
    | None => Ok (None, [])
    | Some id =>
        match find_node id job with
        | None => blocked "node execution authority changed while locking"
        | Some n => Ok (Some n, [LockNode id])
        end
    end.

Definition lock_job_execution_authority (db : Db) (job_id : uuid)
    (node_execution_id : option uuid) (lock_all_nodes : bool)
    : Res (LockedJobExecutionAuthority * list LockedRow) :=
  match lock_job_execution_entry db job_id with
  | Raise e => Raise e
  | Ok (channel, task_refs, schedule, locks1) =>
      match lock_task db job_id channel task_refs with
      | Raise e => Raise e
      | Ok (task, locks2) =>
          match (db_jobs db).[? job_id] with
          | None => blocked "job was not found"
          | Some job =>
              match lock_nodes job node_execution_id lock_all_nodes with
              | Raise e => Raise e
              | Ok (node, locks3) =>
                  Ok ({| au_channel := channel; au_schedule := schedule; au_task := task;
                         au_job := job; au_node := node |},
                      locks1 ++ locks2 ++ [LockJob job_id] ++ locks3)
              end
          end
      end
  end.
End Lock.

(** ** Checks *)

Definition channel_blocked (c : option ChannelProfile) : bool :=
  match c with
  | Some c => negb (ch_enabled c) || match ch_halted_at c with Some _ => true | None => false end
  | None => false
  end.

Definition task_blocked (t : option ProductionTask) : bool :=
  match t with Some t => negb (pt_state t =? "producing")%string | None => false end.

Definition require_active_execution_authority (au : LockedJobExecutionAuthority)
    (job_statuses : list JobStatus.t) (node_statuses : option (list NodeStatus.t)) : Res () :=
  if channel_blocked (au_channel au) then blocked "channel execution is blocked"
  else if task_blocked (au_task au) then blocked "production task is not producing"
  else if (s_state (au_schedule au) =? "DRAINING")%string
          && negb (bool_decide (j_status (au_job au) = JobStatus.RUNNING)) then
    blocked "runtime schedule is draining"
  else if negb (bool_decide (s_state (au_schedule au) ∈ ["OPEN"; "DRAINING"])) then
    blocked "runtime schedule is not open"
  else if match s_guarded_job_id (au_schedule au) with
          | Some g => negb (bool_decide (j_id (au_job au) = g))
          | None => false
          end then blocked "job does not hold guarded schedule authority"
  else if negb (bool_decide (j_status (au_job au) ∈ job_statuses)) then
    blocked "job status no longer permits execution"
  else
    match node_statuses with
    | None => Ok ()
    | Some statuses =>
        match au_node au with
        | Some n => if bool_decide (ne_status n ∈ statuses) then Ok ()
                    else blocked "node status no longer permits execution"
        | None => blocked "node status no longer permits execution"
        end
    end.

Definition require_matching_node_execution_claim (au : LockedJobExecutionAuthority)
    (claim : NodeExecutionClaim) : Res () :=
  match au_node au with
  | None => blocked "node execution claim changed"
  | Some n =>
      if bool_decide (j_id (au_job au) = cl_job_id claim)
         && bool_decide (ne_id n = cl_node_execution_id claim)
         && bool_decide (ne_worker_id n = Some (cl_worker_id claim))
         && bool_decide (ne_started_at n = Some (cl_started_at claim))
         && bool_decide (ne_worker_registration_id n = cl_worker_registration_id claim)
         && bool_decide (ne_worker_lease_epoch n = cl_worker_lease_epoch claim)
      then Ok ()
      else blocked "node execution claim changed"
  end.

Definition _validated_registration_identity (registration_id : option uuid) (lease_epoch : option Z)
    : Res (uuid * Z) :=
  match registration_id, lease_epoch with
  | Some r, Some e => if (0 <? e)%Z then Ok (r, e)
                      else blocked "node execution has no durable worker registration lease"
  | _, _ => blocked "node execution has no durable worker registration lease"
  end.

Definition _validated_registration_claim (claim : NodeExecutionClaim) : Res (uuid * Z) :=
  _validated_registration_identity (cl_worker_registration_id claim) (cl_worker_lease_epoch claim).

Definition hex_chars : string := "0123456789abcdef".

Definition is_sha256 (s : string) : bool :=
  (String.length s =? 64)%nat && sforall (fun c => contains_char c hex_chars) s.

Definition nonblank (s : string) : bool := negb (is_empty (strip s)).

Definition _validate_task_delivery_identity (claim : NodeExecutionClaim)
    (redis_stream consumer_group message_id payload_sha256 : string) : Res () :=
  if forallb nonblank [cl_worker_id claim; redis_stream; consumer_group; message_id]
     && is_sha256 payload_sha256
  then Ok () else blocked "worker task delivery identity is invalid".

(** ** Claims *)

Definition start_node (worker_id : string) (now : datetime) (registration : option uuid)
    (epoch : option Z) (n : NodeExecution) : NodeExecution :=
  {| ne_id := ne_id n; ne_node_id := ne_node_id n; ne_node_type := ne_node_type n;
     ne_node_label := ne_node_label n; ne_node_config := ne_node_config n;
     ne_status := NodeStatus.RUNNING; ne_progress := ne_progress n; ne_worker_id := Some worker_id;
     ne_queued_at := ne_queued_at n; ne_started_at := Some now; ne_completed_at := ne_completed_at n;
     ne_error_message := ne_error_message n; ne_error_trace := ne_error_trace n;
     ne_retry_count := ne_retry_count n; ne_input_artifact_ids := ne_input_artifact_ids n;
     ne_output_artifact_id := ne_output_artifact_id n;
     ne_worker_registration_id := registration; ne_worker_lease_epoch := epoch |}.

#[export] Instance start_node_identity w t r e : KeepsIdentity (start_node w t r e).
Proof. by split. Qed.

(** The claim of an unregistered worker. *)
Definition _claim_node_execution (setting : string) (db : Db) (job_id node_execution_id : uuid)
    (worker_id : string) (now : datetime) : Res (NodeExecutionClaim * Db) :=
  match lock_job_execution_authority setting db job_id (Some node_execution_id) false with
  | Raise e => Raise e
  | Ok (au, _) =>
      match require_active_execution_authority au [JobStatus.RUNNING] (Some [NodeStatus.QUEUED]) with
      | Raise e => Raise e
      | Ok _ =>
          Ok ({| cl_job_id := job_id; cl_node_execution_id := node_execution_id; cl_worker_id := worker_id;
                 cl_started_at := now; cl_worker_registration_id := None; cl_worker_lease_epoch := None |},
              put_job (update_node node_execution_id (start_node worker_id now None None) (au_job au)) db)
      end
  end.

Definition dispatch_matches (job_id node_execution_id dispatch_key : uuid)
    (redis_stream consumer_group message_id payload_sha256 : string) (d : WorkerTaskDispatch) : bool :=
  bool_decide (wd_dispatch_key d = dispatch_key) && bool_decide (wd_job_id d = job_id)
  && bool_decide (wd_node_execution_id d = node_execution_id)
  && (wd_redis_stream d =? redis_stream)%string && (wd_consumer_group d =? consumer_group)%string
  && bool_decide (wd_redis_message_id d = Some message_id) && (wd_payload_sha256 d =? payload_sha256)%string
  && (wd_delivery_state d =? "delivered")%string && (wd_resolution_state d =? "unresolved")%string.

Definition lease_live (r : WorkerRegistration) (lease_epoch : Z) (now : datetime) : bool :=
  (wr_lease_epoch r =? lease_epoch)%Z && (wr_status r =? "active")%string
  && (now <? wr_lease_expires_at r)%Z.

Definition unclaimed (n : NodeExecution) : bool :=
  match ne_worker_id n, ne_worker_registration_id n, ne_worker_lease_epoch n, ne_started_at n with
  | None, None, None, None => true
  | _, _, _, _ => false
  end.

(** The claim of a registered worker, as written for a database without the
    stored procedures.  [attestation_id] is the key of the new attestation. *)
Definition claim_registered_worker_node (db : Db) (job_id node_execution_id : uuid)
    (registration_id : option uuid) (lease_epoch : option Z)
    (worker_id redis_stream consumer_group message_id payload_sha256 : string)
    (dispatch_key attestation_id : uuid) (now : datetime)
    : Res (NodeExecutionClaim * uuid * Db) :=
  match _validated_registration_identity registration_id lease_epoch with
  | Raise e => Raise e
  | Ok (registration_id, lease_epoch) =>
      if negb (forallb nonblank [worker_id; redis_stream; consumer_group; message_id]
               && is_sha256 payload_sha256) then
        blocked "registered worker node claim identity is invalid"
      else
        let claim := {| cl_job_id := job_id; cl_node_execution_id := node_execution_id;
                        cl_worker_id := worker_id; cl_started_at := now;
                        cl_worker_registration_id := Some registration_id;
                        cl_worker_lease_epoch := Some lease_epoch |} in
        let attestation :=
          {| at_id := attestation_id; at_redis_stream := redis_stream; at_consumer_group := consumer_group;
             at_message_id := message_id; at_payload_sha256 := payload_sha256;
             at_dispatch_key := dispatch_key; at_job_id := job_id;
             at_node_execution_id := node_execution_id; at_worker_registration_id := registration_id;
             at_worker_lease_epoch := lease_epoch; at_worker_id := worker_id;
             at_worker_started_at := now; at_ack_state := "pending"; at_acknowledged_at := None;
             at_attested_at := now |} in
        match (db_jobs db).[? job_id], (db_registrations db).[? registration_id] with
        | Some job, Some registration =>
            match find_node node_execution_id job,
                  List.filter (dispatch_matches job_id node_execution_id dispatch_key redis_stream
                                 consumer_group message_id payload_sha256) (db_dispatches db) with
            | _, _ :: _ :: _ => Raise (RuntimeError "MultipleResultsFound")
            | Some node, [_] =>
                if bool_decide (j_status job = JobStatus.RUNNING) && has_status NodeStatus.QUEUED node
                   && unclaimed node && lease_live registration lease_epoch now
                then Ok (claim, attestation_id,
                         put_attestation attestation
                           (put_job (update_node node_execution_id
                              (start_node worker_id now (Some registration_id) (Some lease_epoch)) job) db))
                else blocked "registered worker node claim is no longer authoritative"
            | _, _ => blocked "registered worker node claim is no longer authoritative"
            end
        | _, _ => blocked "registered worker node claim is no longer authoritative"
        end
  end.

Definition recover_node (n : NodeExecution) : NodeExecution :=
  {| ne_id := ne_id n; ne_node_id := ne_node_id n; ne_node_type := ne_node_type n;
     ne_node_label := ne_node_label n; ne_node_config := ne_node_config n;
     ne_status := NodeStatus.PENDING; ne_progress := 0; ne_worker_id := None; ne_queued_at := None;
     ne_started_at := None; ne_completed_at := None; ne_error_message := None;
     ne_error_trace := ne_error_trace n; ne_retry_count := ne_retry_count n;
     ne_input_artifact_ids := []; ne_output_artifact_id := ne_output_artifact_id n;
     ne_worker_registration_id := None; ne_worker_lease_epoch := None |}.

#[export] Instance recover_node_identity : KeepsIdentity recover_node.
Proof. by split. Qed.

Definition unresolved (d : WorkerTaskDispatch) : bool :=
  bool_decide (wd_resolution_state d ∈ ["unresolved"; "cancel_authorized"]).

Definition recover_registered_worker_node (db : Db) (job_id node_execution_id : uuid) (now : datetime)
    : Res (string * Db) :=
  match (db_jobs db).[? job_id] with
  | None => blocked "registered worker recovery authority is missing"
  | Some job =>
      match find_node node_execution_id job with
      | None => blocked "registered worker recovery authority is missing"
      | Some node =>
          match ne_worker_registration_id node, ne_worker_lease_epoch node with
          | Some registration_id, Some lease_epoch =>
              if match (db_registrations db).[? registration_id] with
                 | Some registration => lease_live registration lease_epoch now
                 | None => false
                 end then Ok ("live", db)
              else
                match List.filter (fun d => bool_decide (wd_node_execution_id d = node_execution_id)
                                            && unresolved d) (db_dispatches db) with
                | [] => Ok ("recovered", put_job (update_node node_execution_id recover_node job) db)
                | [_] => Ok ("held_unresolved", db)
                | _ => Raise (RuntimeError "MultipleResultsFound")
                end
          | _, _ => Ok ("not_registered", db)
          end
      end
  end.

(** ** Facts *)

Definition lock_rank (l : LockedRow) : nat :=
  match l with
  | LockChannel _ => 0 | LockSchedule => 1 | LockTask _ => 2 | LockJob _ => 3
  | LockNode _ => 4 | LockRegistration _ => 5 | LockDispatch _ => 6
  end.

Definition lock_key (l : LockedRow) : string :=
  match l with
  | LockChannel k | LockTask k | LockJob k | LockNode k | LockRegistration k | LockDispatch k => k
  | LockSchedule => ""
  end.

(** The global order: by table, then by key. *)
Definition lock_le (a b : LockedRow) : Prop :=
  lock_rank a < lock_rank b \/ (lock_rank a = lock_rank b /\ str_le (lock_key a) (lock_key b)).

Lemma StronglySorted_locks (f : uuid -> LockedRow) (ids : list uuid) :
  (forall k, lock_key (f k) = k) -> (forall a b, lock_rank (f a) = lock_rank (f b)) ->
  StronglySorted lock_le (map f (merge_sort str_le ids)).
Proof.
  intros Hk Hr. assert (Hs : StronglySorted str_le (merge_sort str_le ids)).
  { apply StronglySorted_merge_sort; apply _. }
  induction Hs as [|a l _ IH Ha]; simpl; constructor; [done|].
  apply Forall_fmap. eapply Forall_impl; [exact Ha|]. intros b Hab. right. simpl. by rewrite !Hk.
Qed.

Lemma StronglySorted_ranks (l1 l2 : list LockedRow) :
  StronglySorted lock_le l1 -> StronglySorted lock_le l2 ->
  (forall a b, a ∈ l1 -> b ∈ l2 -> lock_rank a < lock_rank b) -> StronglySorted lock_le (l1 ++ l2).
Proof.
  intros H1 H2 Hlt. apply StronglySorted_app_2; [|done|done]. intros a b Ha Hb. left. auto.
Qed.

Lemma lock_task_rows db job_id channel refs task locks :
  lock_task db job_id channel refs = Ok (task, locks) ->
  StronglySorted lock_le locks /\ forall a, a ∈ locks -> lock_rank a = 2.
Proof.
  unfold lock_task. intros Hok. repeat case_match; simplify_eq; (split; [repeat constructor | set_solver]).
Qed.

Lemma lock_nodes_rows job nid all node locks :
  lock_nodes job nid all = Ok (node, locks) ->
  StronglySorted lock_le locks /\ forall a, a ∈ locks -> lock_rank a = 4.
Proof.
  unfold lock_nodes. intros Hok.
  repeat case_match; simplify_eq; (split; [try by apply StronglySorted_locks; repeat constructor|]);
    try (by repeat constructor); try (intros a (? & -> & _)%list_elem_of_fmap; done); set_solver.
Qed.

Lemma lock_entries_rows setting db ids create channels refs schedule locks :
  lock_job_execution_entries setting db ids create = Ok (channels, refs, schedule, locks) ->
  StronglySorted lock_le locks /\ forall a, a ∈ locks -> lock_rank a <= 1.
Proof.
  unfold lock_job_execution_entries. intros Hok.
  assert (Hlocks : locks = map LockChannel (merge_sort str_le (uniq (map (fun r => r.1.2) (task_references db ids))))
            ++ [LockSchedule]) by (repeat case_match; simplify_eq; done).
  subst locks. split.
  - apply StronglySorted_ranks; [by apply StronglySorted_locks | repeat constructor |].
    intros a b (? & -> & _)%list_elem_of_fmap ->%list_elem_of_singleton. simpl. lia.
  - intros a [(? & -> & _)%list_elem_of_fmap | ->%list_elem_of_singleton]%elem_of_app; simpl; lia.
Qed.

(** The rows a lock returns are those of the database. *)
Lemma lock_authority_job setting db job_id nid all au locks :
  lock_job_execution_authority setting db job_id (Some nid) all = Ok (au, locks) ->
  (db_jobs db).[? job_id] = Some (au_job au) /\ find_node nid (au_job au) = au_node au
  /\ is_Some (au_node au).
Proof.
  unfold lock_job_execution_authority, lock_nodes. intros Hok. repeat case_match; simplify_eq; by eauto.
Qed.

(** Rewriting the nodes of the job leaves the rest of the authority in place. *)
Lemma lock_authority_update setting db job_id nid all au locks f :
  lock_job_execution_authority setting db job_id (Some nid) all = Ok (au, locks) ->
  KeepsIdentity f -> j_id (au_job au) = job_id ->
  exists locks' n, find_node nid (au_job au) = Some n
    /\ lock_job_execution_authority setting (put_job (update_node nid f (au_job au)) db) job_id (Some nid) all
       = Ok ({| au_channel := au_channel au; au_schedule := au_schedule au; au_task := au_task au;
                au_job := update_node nid f (au_job au); au_node := Some (f n) |}, locks').
Proof.
  intros Hok Hf Hid. revert Hok. unfold lock_job_execution_authority.
  change (lock_job_execution_entry setting (put_job _ db) job_id) with (lock_job_execution_entry setting db job_id).
  destruct (lock_job_execution_entry setting db job_id) as [[[[ch refs] sch] l1]|]; [|done].
  change (lock_task (put_job (update_node nid f (au_job au)) db) job_id ch refs) with (lock_task db job_id ch refs).
  destruct (lock_task db job_id ch refs) as [[task l2]|]; [|done].
  destruct (db_jobs db).[? job_id] as [job|] eqn:Hjob; [|done].
  unfold lock_nodes. destruct (find_node nid job) as [n|] eqn:Hn; [|by destruct all].
  intros Hok. destruct au as [c0 s0 t0 j0 n0]. simpl in *.
  assert (c0 = ch /\ s0 = sch /\ t0 = task /\ j0 = job) as (-> & -> & -> & ->)
    by (destruct all; by simplify_eq).
  rewrite Hid, dget_dset_eq, find_node_update, Hn by done. simpl.
  destruct all; eexists _, n; done.
Qed.

(** Once the job-level checks pass, they pass for every node of the job. *)
Lemma require_active_swap au au' js ns n' ns' :
  require_active_execution_authority au js ns = Ok () ->
  au_channel au' = au_channel au -> au_schedule au' = au_schedule au -> au_task au' = au_task au ->
  j_id (au_job au') = j_id (au_job au) -> j_status (au_job au') = j_status (au_job au) ->
  au_node au' = Some n' ->
  require_active_execution_authority au' js (Some ns')
  = if bool_decide (ne_status n' ∈ ns') then Ok () else blocked "node status no longer permits execution".
Proof.
  unfold require_active_execution_authority. intros Hok -> -> -> -> -> ->. by repeat case_match.
Qed.

Lemma require_active_node au js ns :
  require_active_execution_authority au js (Some ns) = Ok () ->
  exists n, au_node au = Some n /\ ne_status n ∈ ns /\ j_status (au_job au) ∈ js.
Proof.
  unfold require_active_execution_authority, blocked. intros Hok.
  repeat case_match; simplify_eq;
    repeat match goal with
      | H : bool_decide _ = true |- _ => apply bool_decide_eq_true in H
      | H : negb (bool_decide _) = false |- _ => apply negb_false_iff, bool_decide_eq_true in H
      end; eauto.
Qed.

(** ** Theorems *)

(** *** Lock order *)

Lemma lock_le_trans a b c : lock_le a b -> lock_le b c -> lock_le a c.
Proof.
  unfold lock_le. intros [H1|[H1 S1]] [H2|[H2 S2]]; [left; lia..|]. right. split; [lia|]. by trans (lock_key b).
Qed.

Lemma lock_le_antisym a b : lock_le a b -> lock_le b a -> a = b.
Proof.
  intros [H1|[H1 S1]] [H2|[H2 S2]]; [lia..|]. pose proof (str_le_antisym _ _ S1 S2) as Hk.
  destruct a, b; simpl in *; try lia; congruence.
Qed.

Lemma authority_locks_sorted setting db job_id nid all au locks :
  lock_job_execution_authority setting db job_id nid all = Ok (au, locks) -> StronglySorted lock_le locks.
Proof.
  unfold lock_job_execution_authority, lock_job_execution_entry. intros Hok.
  destruct (lock_job_execution_entries setting db [job_id] true) as [[[[ch rf] sch] l1]|] eqn:He; [|done].
  apply lock_entries_rows in He as [Hs1 Hr1].
  destruct (lock_task _ _ _ _) as [[task l2]|] eqn:Ht; [|done]. apply lock_task_rows in Ht as [Hs2 Hr2].
  destruct (db_jobs db).[? job_id] as [job|]; [|done].
  destruct (lock_nodes _ _ _) as [[node l3]|] eqn:Hn; [|done]. apply lock_nodes_rows in Hn as [Hs3 Hr3].
  simplify_eq. apply StronglySorted_ranks; [done | apply StronglySorted_ranks;
    [done | apply (StronglySorted_ranks [_]); [by repeat constructor | done |] |] |].
  - intros a b ->%list_elem_of_singleton Hb. rewrite (Hr3 b Hb). simpl. lia.
  - intros a b Ha [->|Hb]%elem_of_cons; rewrite (Hr2 a Ha); [simpl; lia|].
    rewrite (Hr3 b Hb). lia.
  - intros a b Ha%Hr1 [Hb|[->|Hb]%elem_of_cons]%elem_of_app.
    + rewrite (Hr2 b Hb). lia.
    + simpl. lia.
    + rewrite (Hr3 b Hb). lia.
Qed.

(** A transaction in the middle of its locking: the rows it has, and those it has still to
    lock, in order. *)
Record locking := { lw_held : list LockedRow; lw_wanted : list LockedRow }.

(** It locks what [lock_job_execution_authority] locks, for some job of some state of the
    database. *)
Definition takes_authority (setting : string) (t : locking) : Prop :=
  exists db job_id nid all au, lock_job_execution_authority setting db job_id nid all = Ok (au, lw_held t ++ lw_wanted t).

(** The next row of [t] is locked by [u] (a row of its own it can lock again). *)
Definition waits_for (t u : locking) : Prop :=
  exists r rest, lw_wanted t = r :: rest /\ r ∉ lw_held t /\ r ∈ lw_held u.

Lemma held_before setting t r rest x :
  takes_authority setting t -> lw_wanted t = r :: rest -> x ∈ lw_held t -> lock_le x r.
Proof.
  intros (db & job_id & nid & all & au & Hok%authority_locks_sorted) Hw Hx. rewrite Hw in Hok.
  revert Hx Hok. induction (lw_held t) as [|y l IH]; [set_solver|].
  intros [->|Hx]%elem_of_cons [Hs Hall]%StronglySorted_inv; [|by apply IH].
  rewrite Forall_forall in Hall. apply Hall. set_solver.
Qed.

Lemma waits_climb setting t u :
  tc (fun t u => takes_authority setting t /\ takes_authority setting u /\ waits_for t u) t u ->
  exists r rest x, lw_wanted t = r :: rest /\ r ∉ lw_held t /\ x ∈ lw_held u /\ lock_le r x.
Proof.
  induction 1 as [t u (_ & _ & r & rest & Hw & Hn & Hin)|t m u (_ & Hm & r & rest & Hw & Hn & Hin) _ IH].
  - exists r, rest, r. split_and!; try done. right. split; [done|]. unfold str_le. apply str_ltb_irrefl.
  - destruct IH as (r' & rest' & x & Hw' & Hn' & Hx & Hle). exists r, rest, x. split_and!; try done.
    apply (lock_le_trans _ r'); [|done]. by apply (held_before setting m r' rest').
Qed.

(** C24.  Transactions that lock through [lock_job_execution_authority] take the rows it
    locks in one global order - channels (by key), schedule, task, job, nodes (by key) -
    and so cannot deadlock with each other on those rows: whatever jobs they lock and
    wherever each of them is in its sequence, none of them waits, directly or through
    others, for itself. *)
Theorem execution_locks_ordered setting :
  (forall db job_id nid all au locks,
     lock_job_execution_authority setting db job_id nid all = Ok (au, locks) -> StronglySorted lock_le locks)
  /\ forall t, ~ tc (fun t u => takes_authority setting t /\ takes_authority setting u /\ waits_for t u) t t.
Proof.
  split; [apply authority_locks_sorted|]. intros t Hcyc.
  destruct (waits_climb setting t t Hcyc) as (r & rest & x & Hw & Hn & Hx & Hle).
  assert (takes_authority setting t) as Ht by (inversion Hcyc; naive_solver).
  pose proof (held_before setting t r rest x Ht Hw Hx) as Hle'. by rewrite (lock_le_antisym r x Hle Hle') in Hn.
Qed.

(** C23.  A successful claim makes the node run for exactly that worker: the
    returned claim passes the authority checks on the new rows, and a second
    claim of the node, by whichever worker, is refused. *)
Theorem claim_exclusive setting db job_id nid worker now claim db' :
  (forall j, (db_jobs db).[? job_id] = Some j -> j_id j = job_id) ->
  _claim_node_execution setting db job_id nid worker now = Ok (claim, db') ->
  (exists au locks, lock_job_execution_authority setting db' job_id (Some nid) false = Ok (au, locks)
     /\ require_active_execution_authority au [JobStatus.RUNNING] (Some [NodeStatus.RUNNING]) = Ok ()
     /\ require_matching_node_execution_claim au claim = Ok ())
  /\ (forall worker' now', exists msg,
        _claim_node_execution setting db' job_id nid worker' now' = Raise (JobExecutionAuthorityBlocked msg)).
Proof.
  unfold _claim_node_execution. intros Hkey Hok.
  destruct (lock_job_execution_authority setting db job_id (Some nid) false) as [[au locks]|] eqn:Hlock; [|done].
  destruct (require_active_execution_authority _ _ _) as [[]|] eqn:Hreq; [|done]. simplify_eq.
  destruct (lock_authority_job _ _ _ _ _ _ _ Hlock) as (Hjob & Hfind & _).
  destruct (lock_authority_update _ _ _ _ _ _ _ (start_node worker now None None) Hlock) as (locks' & n & Hn & Hlock');
    [apply _ | by apply Hkey |].
  destruct (find_node_elem _ _ _ Hn) as [_ Hnid]. rewrite Hlock'.
  split.
  - exists {| au_channel := au_channel au; au_schedule := au_schedule au; au_task := au_task au;
              au_job := update_node nid (start_node worker now None None) (au_job au);
              au_node := Some (start_node worker now None None n) |}, locks'.
    split; [done|]. split.
    + by rewrite (require_active_swap au _ _ _ (start_node worker now None None n) _ Hreq).
    + unfold require_matching_node_execution_claim. simpl. rewrite !bool_decide_true; auto.
  - intros worker' now'. rewrite (require_active_swap au _ _ _ (start_node worker now None None n) _ Hreq) by done.
    simpl. by eexists.
Qed.

Lemma find_dispatch job_id nid key rs cg mid sha d dispatches :
  List.filter (dispatch_matches job_id nid key rs cg mid sha) dispatches = [d] ->
  d ∈ dispatches /\ wd_node_execution_id d = nid /\ unresolved d = true.
Proof.
  intros Hf. assert (Hd : d ∈ [d]) by (by apply list_elem_of_singleton).
  rewrite <- Hf in Hd. apply elem_of_lfilter in Hd as [Hin Hm]. unfold dispatch_matches in Hm.
  rewrite !andb_true_iff, !bool_decide_eq_true in Hm. split_and!; [done | naive_solver|].
  unfold unresolved. apply bool_decide_eq_true.
  destruct Hm as [_ ->%String.eqb_eq]. by left.
Qed.

(**  A registered claim needs the running job, the queued and unclaimed node,
    a live lease and the delivered, unresolved dispatch.  Once it succeeds the
    node belongs to that registration, and recovery never takes it away while the
    dispatch of the claim is unresolved, however long ago the lease expired. *)
Theorem registered_claim_not_stolen db job_id nid reg epoch w rs cg mid sha key att now claim a db' later :
  (forall j, (db_jobs db).[? job_id] = Some j -> j_id j = job_id) ->
  claim_registered_worker_node db job_id nid reg epoch w rs cg mid sha key att now = Ok (claim, a, db') ->
  (exists j n, (db_jobs db').[? job_id] = Some j /\ find_node nid j = Some n
     /\ ne_status n = NodeStatus.RUNNING /\ ne_worker_id n = Some w
     /\ ne_worker_registration_id n = reg /\ ne_worker_lease_epoch n = epoch
     /\ reg = cl_worker_registration_id claim /\ epoch = cl_worker_lease_epoch claim)
  /\ forall outcome db'', recover_registered_worker_node db' job_id nid later = Ok (outcome, db'') ->
       db'' = db' /\ outcome <> "recovered".
Proof.
  unfold claim_registered_worker_node, _validated_registration_identity. intros Hkey Hok.
  destruct reg as [r|]; [|done]. destruct epoch as [e|]; [|done].
  destruct (0 <? e)%Z; [|done]. destruct (negb _); [done|].
  destruct (db_jobs db).[? job_id] as [job|] eqn:Hjob; [|done].
  destruct (db_registrations db).[? r] as [registration|]; [|done].
  destruct (find_node nid job) as [node|] eqn:Hn; [|by destruct (List.filter _ _) as [|? [|]]].
  destruct (List.filter _ _) as [|d [|]] eqn:Hd; [done | | done]. apply find_dispatch in Hd as (Hd & Hdn & Hun).
  destruct (_ && _); [|done]. injection Hok as <- <- <-. simpl. specialize (Hkey job eq_refl). rewrite Hkey, dget_dset_eq.
  assert (Hn' : find_node nid (update_node nid (start_node w now (Some r) (Some e)) job)
                = Some (start_node w now (Some r) (Some e) node)) by (by rewrite find_node_update, Hn by apply _).
  split; [by eexists _, _; eauto 10|].
  intros outcome db''. unfold recover_registered_worker_node. simpl. rewrite Hkey, dget_dset_eq, Hn'. simpl.
  destruct (match _ with Some _ => _ | None => _ end); [by intros [= <- <-]|].
  destruct (List.filter _ _) as [|? [|]] eqn:Hf; [intros _ | by intros [= <- <-] | done].
  assert (Hnil := filter_nil_elem _ _ d Hf Hd). simpl in Hnil.
  by rewrite Hun, bool_decide_true in Hnil.
Qed.

(** ** Witnesses *)

Definition sha_zero : string := "0000000000000000000000000000000000000000000000000000000000000000".

Definition sample_dispatch : WorkerTaskDispatch :=
  {| wd_id := "d1"; wd_origin_receipt_id := None; wd_dispatch_key := "k1"; wd_job_id := "b";
     wd_node_execution_id := "b-n"; wd_redis_stream := "vp:tasks:ffmpeg";
     wd_consumer_group := "ffmpeg-workers"; wd_payload_sha256 := sha_zero; wd_payload_json := VDict [];
     wd_delivery_state := "delivered"; wd_delivery_attempted_at := Some 1%Z; wd_delivery_error := None;
     wd_redis_message_id := Some "1-0"; wd_delivered_at := Some 2%Z; wd_resolution_state := "unresolved";
     wd_acknowledged_at := None; wd_cancelled_at := None; wd_created_at := 1 |}.

Definition sample_db : Db :=
  {| db_tasks := [producing_task "t1" "c1" (Some "b")];
     db_channels := [("c1", plain_channel "c1")];
     db_schedule := Some (set_video_schedule_state OPEN "operator");
     db_jobs := [("b", waiting_job "b" NodeStatus.QUEUED JobStatus.RUNNING)];
     db_workers :=
       {| w_registrations := [("r1", {| wr_id := "r1"; wr_grant_id := "g1"; wr_lease_epoch := 3;
                                        wr_status := "active"; wr_lease_expires_at := 100 |})];
          w_grants := []; w_dispatches := [sample_dispatch]; w_attestations := []; w_emissions := [];
          w_receipts := []; w_deliveries := [] |};
     db_artifacts := []; db_assets := []; db_cache := [] |}.

Definition sample_locked : LockedJobExecutionAuthority * list LockedRow :=
  ok_or ({| au_channel := None; au_schedule := closed_schedule; au_task := None;
            au_job := waiting_job "b" NodeStatus.QUEUED JobStatus.RUNNING; au_node := None |}, [])
    (lock_job_execution_authority "" sample_db "b" (Some "b-n") true).

(** One holds the channel of the job, another waits for it. *)
Lemma execution_locks_ordered_witness :
  let t := {| lw_held := []; lw_wanted := sample_locked.2 |} in
  let u := {| lw_held := take 1 sample_locked.2; lw_wanted := drop 1 sample_locked.2 |} in
  sample_locked.2 = [LockChannel "c1"; LockSchedule; LockTask "t1"; LockJob "b"; LockNode "b-n"]
  /\ StronglySorted lock_le sample_locked.2 /\ waits_for t u /\ ~ waits_for u t
  /\ ~ tc (fun t u => takes_authority "" t /\ takes_authority "" u /\ waits_for t u) t t.
Proof.
  destruct (execution_locks_ordered "") as [Hord Hfree]. cbv zeta. split_and!.
  - vm_compute. reflexivity.
  - apply (Hord sample_db "b" (Some "b-n") true sample_locked.1). vm_compute. reflexivity.
  - eexists _, _. split_and!; [reflexivity|apply not_elem_of_nil|left].
  - intros (r & rest & _ & _ & Hin). by apply elem_of_nil in Hin.
  - apply Hfree.
Defined.

Definition sample_claimed : NodeExecutionClaim * Db :=
  ok_or ({| cl_job_id := ""; cl_node_execution_id := ""; cl_worker_id := ""; cl_started_at := 0;
            cl_worker_registration_id := None; cl_worker_lease_epoch := None |}, sample_db)
    (_claim_node_execution "" sample_db "b" "b-n" "worker@host:1" 50).

Lemma claim_exclusive_witness :
  exists msg, _claim_node_execution "" sample_claimed.2 "b" "b-n" "other@host:2" 60
                = Raise (JobExecutionAuthorityBlocked msg).
Proof.
  apply (claim_exclusive "" sample_db "b" "b-n" "worker@host:1" 50 sample_claimed.1).
  - intros j Hj. vm_compute in Hj. injection Hj as <-. reflexivity.
  - vm_compute. reflexivity.
Defined.

Definition sample_registered : NodeExecutionClaim * uuid * Db :=
  ok_or (sample_claimed.1, "", sample_db)
    (claim_registered_worker_node sample_db "b" "b-n" (Some "r1") (Some 3%Z) "worker@host:1" "vp:tasks:ffmpeg"
       "ffmpeg-workers" "1-0" sha_zero "k1" "a1" 50).

Definition sample_recovered : string * Db :=
  ok_or ("", sample_db) (recover_registered_worker_node sample_registered.2 "b" "b-n" 500).

Lemma registered_claim_not_stolen_witness :
  sample_recovered.2 = sample_registered.2 /\ sample_recovered.1 <> "recovered".
Proof.
  apply (registered_claim_not_stolen sample_db "b" "b-n" (Some "r1") (Some 3%Z) "worker@host:1" "vp:tasks:ffmpeg"
           "ffmpeg-workers" "1-0" sha_zero "k1" "a1" 50 sample_registered.1.1 sample_registered.1.2
           sample_registered.2) with (later := 500%Z).
  - intros j Hj. vm_compute in Hj. injection Hj as <-. reflexivity.
  - vm_compute. reflexivity.
  - vm_compute. reflexivity.
Defined.
