(* ===== verification/Quarantine.v ===== *)
(** * Channel quarantine ([services/channelops_quarantine.py])

    An operator takes one channel out of service in one transaction: the channel is
    halted, its open production tasks are held, their jobs and node executions are
    cancelled and its queue items are dead-lettered; the runtime schedule can be closed
    in the same step.  Without [apply] the function only reports. *)

From stdpp Require Import base tactics list strings sorting relations.
From Stdlib Require Import ZArith Lia.
From S2P Require Import Prelude PyStr PyValue PyTime Pipeline JobModel ChannelQueue QueueHistory WorkerModel Schedule Authority.

Open Scope string_scope.
Open Scope list_scope.

Definition TERMINAL_TASK_STATES : list string := ["failed"; "rejected"; "cancelled"; "published"; "measured"].

Definition _NONTERMINAL_JOB_STATUSES : list JobStatus.t :=
  [JobStatus.PENDING; JobStatus.WAITING_WINDOW; JobStatus.VALIDATING; JobStatus.PLANNING; JobStatus.RUNNING].

Definition _NONTERMINAL_NODE_STATUSES : list NodeStatus.t := [NodeStatus.PENDING; NodeStatus.QUEUED; NodeStatus.RUNNING].

(** The tables read: a publication is its id and production task, a feedback snapshot
    its id and publication. *)
Record QuarantineDb := {
  qd_db : Db;
  qd_queue : queue_table;
  qd_publications : list (uuid * uuid);
  qd_feedback : list (uuid * uuid) }.

Record ChangedIds := {
  changed_channel_ids : list uuid;
  changed_task_ids : list uuid;
  changed_job_ids : list uuid;
  changed_node_execution_ids : list uuid;
  changed_queue_item_ids : list uuid }.

Record RetainedIds := {
  retained_task_ids : list uuid;
  retained_job_ids : list uuid;
  retained_node_execution_ids : list uuid;
  retained_queue_item_ids : list uuid;
  retained_publication_ids : list uuid;
  retained_feedback_snapshot_ids : list uuid }.

Record QuarantineReport := {
  qr_channel_id : uuid;
  qr_applied : bool;
  qr_reason : string;
  qr_generated_at : string;
  qr_requested_close : bool;
  qr_schedule_changed : bool;
  qr_previous_state : option string;
  qr_final_state : option string;
  qr_changed : ChangedIds;
  qr_retained : RetainedIds }.

Definition _sorted_ids (ids : list uuid) : list uuid := merge_sort str_le ids.

Definition _already_quarantined (reason : string) (t : ProductionTask) : bool :=
  (pt_state t =? "held")%string && bool_decide (pt_blocked_by_guard t = Some reason)
  && bool_decide (pt_failure_reason t = Some reason).

Definition _apply_channel_halt (now : datetime) (reason : string) (c : ChannelProfile) : ChannelProfile :=
  {| ch_id := ch_id c; ch_enabled := ch_enabled c;
     ch_halted_at := match ch_halted_at c with None => Some now | Some t => Some t end;
     ch_halt_reason := Some reason; ch_intake_paused_at := ch_intake_paused_at c;
     ch_tick_interval_minutes := ch_tick_interval_minutes c;
     ch_owned_seed_inventory_id := ch_owned_seed_inventory_id c; ch_created_at := ch_created_at c |}.

Definition _hold_task (now : datetime) (reason : string) (t : ProductionTask) : ProductionTask :=
  {| pt_id := pt_id t; pt_channel_profile_id := pt_channel_profile_id t; pt_job_id := pt_job_id t;
     pt_state := "held"; pt_state_updated_at := Some now; pt_blocked_by_guard := Some reason;
     pt_failure_reason := Some reason;
     pt_transition_history_json := pt_transition_history_json t ++
       [VDict [("from", VStr (pt_state t)); ("to", VStr "held"); ("actor", VStr reason);
               ("at", VStr (isoformat_utc now))]] |}.

Definition _cancel_job (now : datetime) (reason : string) (j : Job) : Job :=
  set_job JobStatus.CANCELLED (Some now) (Some reason) j.

Definition _cancel_node (now : datetime) (reason : string) (n : NodeExecution) : NodeExecution :=
  {| ne_id := ne_id n; ne_node_id := ne_node_id n; ne_node_type := ne_node_type n; ne_node_label := ne_node_label n;
     ne_node_config := ne_node_config n; ne_status := NodeStatus.CANCELLED; ne_progress := ne_progress n;
     ne_worker_id := None; ne_queued_at := ne_queued_at n; ne_started_at := ne_started_at n;
     ne_completed_at := Some now; ne_error_message := Some reason; ne_error_trace := ne_error_trace n;
     ne_retry_count := ne_retry_count n; ne_input_artifact_ids := ne_input_artifact_ids n;
     ne_output_artifact_id := ne_output_artifact_id n; ne_worker_registration_id := ne_worker_registration_id n;
     ne_worker_lease_epoch := ne_worker_lease_epoch n |}.

(** ** What is selected *)

Definition channel_tasks (db : Db) (channel_id : uuid) : list ProductionTask :=
  List.filter (fun t => bool_decide (pt_channel_profile_id t = channel_id)) (db_tasks db).

Definition changes_task (reason : string) (t : ProductionTask) : bool :=
  negb (bool_decide (pt_state t ∈ TERMINAL_TASK_STATES)) && negb (_already_quarantined reason t).

Definition job_ids_of (tasks : list ProductionTask) : list uuid := omap pt_job_id tasks.

(** The jobs of the channel, and those it may not touch: a retained task needs them. *)
Definition linked_job_ids (db : Db) (channel_id : uuid) : list uuid := job_ids_of (channel_tasks db channel_id).

Definition protected_job_ids (db : Db) (channel_id : uuid) (reason : string) : list uuid :=
  let changed_task_ids := map pt_id (List.filter (changes_task reason) (channel_tasks db channel_id)) in
  job_ids_of (List.filter (fun t => negb (bool_decide (pt_id t ∈ changed_task_ids)) && negb (_already_quarantined reason t))
                (channel_tasks db channel_id)).

Definition linked_jobs (db : Db) (channel_id : uuid) : list Job :=
  List.filter (fun j => bool_decide (j_id j ∈ linked_job_ids db channel_id)) (dvalues (db_jobs db)).

Section Select.
Context (db : Db) (channel_id : uuid) (reason : string).

Definition repairable (j : Job) : bool :=
  bool_decide (j_id j ∈ linked_job_ids db channel_id) && negb (bool_decide (j_id j ∈ protected_job_ids db channel_id reason)).

Definition changes_job (j : Job) : bool := repairable j && bool_decide (j_status j ∈ _NONTERMINAL_JOB_STATUSES).

Definition changes_node (j : Job) (n : NodeExecution) : bool :=
  repairable j && bool_decide (ne_status n ∈ _NONTERMINAL_NODE_STATUSES).

(** A job row and its nodes under the quarantine. *)
Definition quarantine_job (now : datetime) (j : Job) : Job :=
  let j1 := set_nodes (map (fun n => if changes_node j n then _cancel_node now reason n else n) (j_node_executions j)) j in
  if changes_job j then _cancel_job now reason j1 else j1.

Definition quarantine_task (now : datetime) (t : ProductionTask) : ProductionTask :=
  if bool_decide (pt_channel_profile_id t = channel_id) && changes_task reason t then _hold_task now reason t else t.
End Select.

Definition put_quarantine (db : Db) (tasks : list ProductionTask) (channels : list (uuid * ChannelProfile))
    (schedule : option RuntimeSchedule) (jobs : list (uuid * Job)) : Db :=
  {| db_tasks := tasks; db_channels := channels; db_schedule := schedule; db_jobs := jobs;
     db_workers := db_workers db; db_artifacts := db_artifacts db; db_assets := db_assets db; db_cache := db_cache db |}.

(** The rows written with [apply]. *)
Definition apply_quarantine (q : QuarantineDb) (channel : ChannelProfile) (now : datetime) (reason : string)
    (close_schedule : bool) : QuarantineDb :=
  let db := qd_db q in
  let id := ch_id channel in
  {| qd_db := put_quarantine db
       (map (quarantine_task id reason now) (db_tasks db))
       (db_channels db).[id <- _apply_channel_halt now reason channel]
       (if close_schedule then Some (set_video_schedule_state CLOSED reason) else db_schedule db)
       (map (fun p => (p.1, quarantine_job db id reason now p.2)) (db_jobs db));
     qd_queue := quarantine_queue id now reason (qd_queue q);
     qd_publications := qd_publications q; qd_feedback := qd_feedback q |}.

Definition job_nodes (jobs : list Job) : list (Job * NodeExecution) :=
  mjoin (map (fun j => map (pair j) (j_node_executions j)) jobs).

Definition changed_ids (q : QuarantineDb) (channel : ChannelProfile) (reason : string) : ChangedIds :=
  let db := qd_db q in
  let id := ch_id channel in
  {| changed_channel_ids :=
       if bool_decide (ch_halted_at channel = None) || negb (bool_decide (ch_halt_reason channel = Some reason))
       then [id] else [];
     changed_task_ids := _sorted_ids (map pt_id (List.filter (changes_task reason) (channel_tasks db id)));
     changed_job_ids := _sorted_ids (map j_id (List.filter (changes_job db id reason) (linked_jobs db id)));
     changed_node_execution_ids :=
       _sorted_ids (map (fun p => ne_id p.2)
         (List.filter (fun p => changes_node db id reason p.1 p.2) (job_nodes (linked_jobs db id))));
     changed_queue_item_ids := _sorted_ids (map qi_id (List.filter (quarantined_item id) (qd_queue q))) |}.

(** [retained_*]: what was selected and not changed. *)
Definition retained (changed all : list uuid) : list uuid :=
  _sorted_ids (List.filter (fun x => negb (bool_decide (x ∈ changed))) all).

Definition retained_ids (q : QuarantineDb) (channel : ChannelProfile) (reason : string) : RetainedIds :=
  let db := qd_db q in
  let id := ch_id channel in
  let changed := changed_ids q channel reason in
  let task_ids := map pt_id (channel_tasks db id) in
  let publications := List.filter (fun p => bool_decide (p.2 ∈ task_ids)) (qd_publications q) in
  {| retained_task_ids := retained (changed_task_ids changed) task_ids;
     retained_job_ids := retained (changed_job_ids changed) (map j_id (linked_jobs db id));
     retained_node_execution_ids :=
       retained (changed_node_execution_ids changed) (map (fun p => ne_id p.2) (job_nodes (linked_jobs db id)));
     retained_queue_item_ids :=
       retained (changed_queue_item_ids changed)
         (map qi_id (List.filter (fun i => bool_decide (qi_channel_profile_id i = Some id)) (qd_queue q)));
     retained_publication_ids := _sorted_ids (map fst publications);
     retained_feedback_snapshot_ids :=
       _sorted_ids (map fst (List.filter (fun f => bool_decide (f.2 ∈ map fst publications)) (qd_feedback q))) |}.

Definition quarantine_channelops_backlog (q : QuarantineDb) (channel_id : uuid) (apply : bool) (now : datetime)
    (reason : string) (close_schedule : bool) : Res (QuarantineReport * QuarantineDb) :=
  if is_empty reason || (255 <? String.length reason)%nat then
    Raise (ValueError "reason must be between 1 and 255 characters")
  else
    match (db_channels (qd_db q)).[? channel_id] with
    | None => Raise (ValueError ("Unknown channel: " +:+ channel_id))
    | Some channel =>
        let previous := if close_schedule then option_map s_state (db_schedule (qd_db q)) else None in
        Ok ({| qr_channel_id := ch_id channel; qr_applied := apply; qr_reason := reason;
               qr_generated_at := isoformat_utc now; qr_requested_close := close_schedule;
               qr_schedule_changed := close_schedule && negb (bool_decide (previous = Some "CLOSED"));
               qr_previous_state := previous;
               qr_final_state := if close_schedule then Some "CLOSED" else previous;
               qr_changed := changed_ids q channel reason; qr_retained := retained_ids q channel reason |},
            if apply then apply_quarantine q channel now reason close_schedule else q)
    end.

(** ** Authority of a job linked to a channel *)

Lemma uniq_const {A} `{EqDecision A} (x : A) (l : list A) : Forall (eq x) l -> l <> [] -> uniq l = [x].
Proof.
  intros Hl. induction l as [|y l IH] using rev_ind; [done|]. intros _.
  apply Forall_app in Hl as [Hl Hy]. apply Forall_inv in Hy as <-. unfold uniq in *. rewrite fold_left_app.
  cbn [fold_left]. destruct l as [|z l].
  - cbn [fold_left]. case_decide as H; [by apply elem_of_nil in H|done].
  - rewrite IH by done. by rewrite decide_True by (by left).
Qed.

(** References of a job: those of its tasks. *)
Lemma task_reference_rows db job_id :
  let refs := concat (map (fun t => match pt_job_id t with
                           | Some j => if bool_decide (j ∈ [job_id]) then [(pt_id t, pt_channel_profile_id t, j)] else []
                           | None => []
                           end) (db_tasks db)) in
  Forall (eq job_id) (map (fun r => r.2) refs)
  /\ forall t, t ∈ db_tasks db -> pt_job_id t = Some job_id -> (pt_id t, pt_channel_profile_id t, job_id) ∈ refs.
Proof.
  intros refs. split.
  - apply Forall_forall.
    intros x (r & -> & (l & (t & -> & Ht)%list_elem_of_fmap & Hl)%elem_of_concat)%list_elem_of_fmap.
    destruct (pt_job_id t) as [j|]; [|by apply elem_of_nil in Hl]. case_bool_decide as Hj; [|by apply elem_of_nil in Hl].
    apply list_elem_of_singleton in Hl as ->. by apply list_elem_of_singleton in Hj as ->.
  - intros t Ht Hj. apply elem_of_concat. eexists. split; [apply list_elem_of_fmap; by exists t|].
    rewrite Hj, bool_decide_true by (by left). by left.
Qed.

Lemma singleton_take {A} (l : list A) (n : nat) (x : A) : (1 < n)%nat -> length (take n l) = 1%nat -> x ∈ l -> l = [x].
Proof.
  intros Hn Hlen Hx. rewrite length_take in Hlen. destruct l as [|y [|z l]]; simpl in *; [lia| |lia].
  by apply list_elem_of_singleton in Hx as ->.
Qed.

(** The channel of a job that has a production task. *)
Lemma lock_authority_channel setting db job_id nid all au locks t :
  lock_job_execution_authority setting db job_id nid all = Ok (au, locks) ->
  t ∈ db_tasks db -> pt_job_id t = Some job_id ->
  exists c, au_channel au = Some c /\ (db_channels db).[? pt_channel_profile_id t] = Some c.
Proof.
  intros Hlock Ht Hj. unfold lock_job_execution_authority, lock_job_execution_entry, lock_job_execution_entries in Hlock.
  destruct (task_reference_rows db job_id) as [Hall Hin]. specialize (Hin t Ht Hj).
  unfold task_references in Hlock. set (refs := concat _) in *. change (2 * length [job_id] + 1)%nat with 3%nat in Hlock.
  destruct (bool_decide (length (take 3 refs) = _)) eqn:Hlen; simpl in Hlock; [|done].
  apply bool_decide_eq_true in Hlen.
  rewrite (uniq_const job_id) in Hlen; [|by rewrite <-firstn_map; apply Forall_take|by destruct refs; [apply elem_of_nil in Hin|]].
  pose proof (singleton_take refs 3 _ ltac:(lia) Hlen Hin) as ->. simpl in Hlock.
  cbn in Hlock. destruct (dget (db_channels db) (pt_channel_profile_id t)) as [c|] eqn:Hc; [|done].
  exists c. split; [|done]. cbn [map dget fst snd] in Hlock. rewrite decide_True in Hlock by done.
  destruct (lock_task _ _ _ _) as [[task l2]|]; [|done]. destruct (dget (db_jobs db) job_id) as [job|]; [|done].
  destruct (lock_nodes job nid all) as [[node l3]|]; [|done]. by injection Hlock as <- _.
Qed.

(** ** What the quarantine leaves *)

Section Quarantined.
Context (q : QuarantineDb) (channel : ChannelProfile) (now : datetime) (reason : string) (close_schedule : bool).
#[local] Abbreviation id := (ch_id channel).
#[local] Abbreviation q' := (apply_quarantine q channel now reason close_schedule).
Context (Hids : NoDup (map pt_id (db_tasks (qd_db q)))).

Lemma quarantine_task_fields t :
  pt_id (quarantine_task id reason now t) = pt_id t /\ pt_job_id (quarantine_task id reason now t) = pt_job_id t
  /\ pt_channel_profile_id (quarantine_task id reason now t) = pt_channel_profile_id t.
Proof. unfold quarantine_task. by destruct (_ && _). Qed.

Lemma held_already t : _already_quarantined reason (_hold_task now reason t) = true.
Proof. unfold _already_quarantined. simpl. by rewrite !bool_decide_true. Qed.

Lemma quarantined_tasks t :
  t ∈ channel_tasks (qd_db q') id -> changes_task reason t = false.
Proof.
  unfold channel_tasks. intros [(t0 & -> & _)%list_elem_of_fmap Hc%bool_decide_eq_true]%elem_of_lfilter.
  destruct (quarantine_task_fields t0) as (_ & _ & Hch). rewrite Hch in Hc. unfold quarantine_task.
  rewrite (bool_decide_true (pt_channel_profile_id t0 = id)) by done. simpl.
  destruct (changes_task reason t0) eqn:Hx; [|done]. unfold changes_task. by rewrite held_already, andb_false_r.
Qed.

Lemma channel_tasks_after :
  channel_tasks (qd_db q') id = map (quarantine_task id reason now) (channel_tasks (qd_db q) id).
Proof.
  unfold channel_tasks. simpl. clear Hids. induction (db_tasks (qd_db q)) as [|t l IH]; [done|]. simpl.
  destruct (quarantine_task_fields t) as (_ & _ & ->). destruct (bool_decide _); simpl; by rewrite IH.
Qed.

Lemma omap_cons {A B} (f : A -> option B) a l :
  omap f (a :: l) = match f a with Some b => b :: omap f l | None => omap f l end.
Proof. done. Qed.

Lemma omap_map_same {A B} (f : A -> option B) (g : A -> A) l : (forall a, f (g a) = f a) -> omap f (map g l) = omap f l.
Proof.
  intros Hfg. induction l as [|a l IH]; [done|]. cbn [map]. rewrite !omap_cons, Hfg. by destruct (f a); rewrite IH.
Qed.

Lemma linked_after : linked_job_ids (qd_db q') id = linked_job_ids (qd_db q) id.
Proof.
  unfold linked_job_ids, job_ids_of. rewrite channel_tasks_after. apply omap_map_same. intros t. apply quarantine_task_fields.
Qed.

(** A task is retained when it does not change: identifiers are unique. *)
Lemma protected_tasks (db : Db) :
  NoDup (map pt_id (db_tasks db)) ->
  protected_job_ids db id reason
  = job_ids_of (List.filter (fun t => negb (changes_task reason t) && negb (_already_quarantined reason t)) (channel_tasks db id)).
Proof.
  intros Hn. unfold protected_job_ids. f_equal. apply filter_ext_in. intros t Ht%list_elem_of_In. f_equal. f_equal.
  assert (Hn' : NoDup (map pt_id (channel_tasks db id))) by (by apply NoDup_map_filter).
  destruct (changes_task reason t) eqn:Hc.
  - apply bool_decide_eq_true. apply elem_map. by apply elem_of_lfilter.
  - apply bool_decide_eq_false. intros (t' & Hid & [Ht' Hc']%elem_of_lfilter)%list_elem_of_fmap.
    rewrite (NoDup_map_inj pt_id _ t t' Hn' Ht Ht' Hid) in Hc. congruence.
Qed.

Lemma task_ids_after : map pt_id (db_tasks (qd_db q')) = map pt_id (db_tasks (qd_db q)).
Proof. simpl. rewrite map_map. apply map_ext. intros t. apply quarantine_task_fields. Qed.

Lemma protected_after : protected_job_ids (qd_db q') id reason = protected_job_ids (qd_db q) id reason.
Proof.
  rewrite !protected_tasks by (rewrite ?task_ids_after; done). rewrite channel_tasks_after. unfold job_ids_of.
  assert (Hall : forall t, t ∈ channel_tasks (qd_db q) id -> pt_channel_profile_id t = id).
  { by intros t [_ ?%bool_decide_eq_true]%elem_of_lfilter. }
  induction (channel_tasks (qd_db q) id) as [|t l IH]; [done|]. simpl.
  assert (IH' := IH (fun x Hx => Hall x (list_elem_of_further _ _ _ Hx))). specialize (Hall t (list_elem_of_here _ _)).
  unfold quarantine_task at 1 2. rewrite (bool_decide_true (pt_channel_profile_id t = id)) by done. simpl.
  destruct (changes_task reason t) eqn:Hc; simpl.
  - by rewrite held_already, andb_false_r.
  - rewrite Hc. destruct (_already_quarantined reason t); cbn [negb andb]; [done|].
    rewrite !omap_cons, (proj1 (proj2 (quarantine_task_fields t))). by rewrite IH'.
Qed.

Lemma repairable_after j j' : j_id j' = j_id j -> repairable (qd_db q') id reason j' = repairable (qd_db q) id reason j.
Proof. intros Hj. unfold repairable. by rewrite linked_after, protected_after, Hj. Qed.

Lemma quarantine_job_id db j : j_id (quarantine_job db id reason now j) = j_id j.
Proof. unfold quarantine_job. by destruct (changes_job _ _ _ _). Qed.

(** A job of the channel that no retained task needs. *)
Lemma quarantined_job j :
  repairable (qd_db q) id reason j = true ->
  (j_status (quarantine_job (qd_db q) id reason now j) ∉ _NONTERMINAL_JOB_STATUSES)
  /\ Forall (fun n => ne_status n ∉ _NONTERMINAL_NODE_STATUSES)
       (j_node_executions (quarantine_job (qd_db q) id reason now j)).
Proof.
  intros Hr. unfold quarantine_job, changes_job. rewrite Hr. simpl.
  assert (Hnodes : Forall (fun n => ne_status n ∉ _NONTERMINAL_NODE_STATUSES)
            (map (fun n => if changes_node (qd_db q) id reason j n then _cancel_node now reason n else n) (j_node_executions j))).
  { apply Forall_map, Forall_forall. intros n _. simpl. unfold changes_node. rewrite Hr. simpl.
    case_bool_decide; [|done]. simpl. by apply (bool_decide_unpack _). }
  case_bool_decide; simpl; split; try done. by apply (bool_decide_unpack _).
Qed.
End Quarantined.

(** Rows of a quarantined database. *)
Definition channel_row (q : QuarantineDb) (channel_id : uuid) (c : ChannelProfile) : Prop :=
  (db_channels (qd_db q)).[? channel_id] = Some c /\ ch_id c = channel_id.

Lemma quarantine_apply q channel_id now reason close report q' c :
  channel_row q channel_id c ->
  quarantine_channelops_backlog q channel_id true now reason close = Ok (report, q') ->
  q' = apply_quarantine q c now reason close /\ qr_changed report = changed_ids q c reason.
Proof.
  intros [Hc _] Hq. unfold quarantine_channelops_backlog in Hq. destruct (_ || _); [done|]. rewrite Hc in Hq.
  by injection Hq as <- <-.
Qed.

(** C34. An applied quarantine takes the channel out of service at once: the channel is
    halted for the given reason; each of its tasks is terminal or held for that
    reason; none of its queue items is queued or running; a job linked to one of its
    tasks, unless a retained task needs it, and all node executions of such a job, have
    reached a terminal status; and no job linked to the channel, retained or not, can
    obtain execution authority. *)
Theorem quarantine_complete q channel_id now reason close report q' c :
  channel_row q channel_id c -> NoDup (map pt_id (db_tasks (qd_db q))) ->
  quarantine_channelops_backlog q channel_id true now reason close = Ok (report, q') ->
  let db' := qd_db q' in
  (exists c', (db_channels db').[? channel_id] = Some c' /\ ch_halted_at c' <> None /\ ch_halt_reason c' = Some reason)
  /\ (forall t, t ∈ db_tasks db' -> pt_channel_profile_id t = channel_id ->
       pt_state t ∈ TERMINAL_TASK_STATES \/ _already_quarantined reason t = true)
  /\ (forall i, i ∈ qd_queue q' -> qi_channel_profile_id i = Some channel_id ->
       qi_status i ∉ _NONTERMINAL_QUEUE_STATUSES)
  /\ (forall j, j ∈ dvalues (db_jobs db') -> j_id j ∈ linked_job_ids db' channel_id ->
       j_id j ∉ protected_job_ids db' channel_id reason ->
       (j_status j ∉ _NONTERMINAL_JOB_STATUSES)
       /\ Forall (fun n => ne_status n ∉ _NONTERMINAL_NODE_STATUSES) (j_node_executions j))
  /\ (forall setting job_id node_id all_nodes au locks t job_statuses node_statuses,
       t ∈ db_tasks db' -> pt_channel_profile_id t = channel_id -> pt_job_id t = Some job_id ->
       lock_job_execution_authority setting db' job_id node_id all_nodes = Ok (au, locks) ->
       require_active_execution_authority au job_statuses node_statuses
       = Raise (JobExecutionAuthorityBlocked "channel execution is blocked")).
Proof.
  intros Hrow Hids Hq. destruct (quarantine_apply _ _ _ _ _ _ _ _ Hrow Hq) as [-> _]. destruct Hrow as [Hc <-].
  assert (Hhalt : ch_halted_at (_apply_channel_halt now reason c) <> None) by (simpl; by destruct (ch_halted_at c)).
  intros db'. split_and!.
  - exists (_apply_channel_halt now reason c). split_and!; [apply dget_dset_eq|done|done].
  - intros t Ht Hch. assert (Hn : changes_task reason t = false).
    { eapply (quarantined_tasks q c now reason close). apply elem_of_lfilter. split; [exact Ht|].
      by apply bool_decide_eq_true. }
    unfold changes_task in Hn. destruct (bool_decide (pt_state t ∈ _)) eqn:Hb; [left; by apply bool_decide_eq_true in Hb|].
    right. by destruct (_already_quarantined reason t).
  - intros i (i0 & -> & _)%list_elem_of_fmap. unfold quarantined_item.
    destruct (bool_decide (qi_channel_profile_id i0 = Some (ch_id c))) eqn:Hch; simpl.
    + destruct (bool_decide (qi_status i0 ∈ _)) eqn:Hst; [|by apply bool_decide_eq_false in Hst].
      simpl. intros _ [?|[?|?%elem_of_nil]%elem_of_cons]%elem_of_cons; done.
    + by apply bool_decide_eq_false in Hch.
  - intros j ((k & j0) & -> & ((k0 & j1) & [= _ ->] & Hj1)%list_elem_of_fmap)%list_elem_of_fmap Hl Hp.
    cbn [snd] in Hl, Hp |- *.
    apply quarantined_job. rewrite <-(repairable_after q c now reason close Hids j1 _ (quarantine_job_id c now reason (qd_db q) j1)).
    unfold repairable. by rewrite (bool_decide_true (_ ∈ linked_job_ids _ _)), (bool_decide_false (_ ∈ protected_job_ids _ _ _)).
  - intros setting job_id nid all au locks t js ns Ht Hch Hj Hlock.
    destruct (lock_authority_channel _ _ _ _ _ _ _ _ Hlock Ht Hj) as (c' & Hau & Hc').
    rewrite Hch in Hc'. unfold db' in Hc'. simpl in Hc'. rewrite dget_dset_eq in Hc'. injection Hc' as <-.
    unfold require_active_execution_authority. rewrite Hau. unfold channel_blocked.
    destruct (ch_halted_at (_apply_channel_halt now reason c)) eqn:Hx; [|done]. by rewrite orb_true_r.
Qed.

(** ** Repetition *)

Lemma map_unchanged {A} (f : A -> A) (l : list A) : (forall a, a ∈ l -> f a = a) -> map f l = l.
Proof.
  intros H. rewrite <-(map_id l) at 2. apply map_ext_in. intros a Ha%list_elem_of_In. auto.
Qed.

Lemma set_nodes_same j : set_nodes (j_node_executions j) j = j.
Proof. by destruct j. Qed.

Section Repeated.
Context (q : QuarantineDb) (c : ChannelProfile) (now now' : datetime) (reason : string) (close : bool).
Context (Hids : NoDup (map pt_id (db_tasks (qd_db q)))).
#[local] Abbreviation id := (ch_id c).
#[local] Abbreviation q' := (apply_quarantine q c now reason close).

Lemma job_settled j :
  j ∈ dvalues (db_jobs (qd_db q')) ->
  changes_job (qd_db q') id reason j = false
  /\ forall n, n ∈ j_node_executions j -> changes_node (qd_db q') id reason j n = false.
Proof.
  intros ((k & j0) & -> & ((k0 & j1) & [= _ ->] & Hj1)%list_elem_of_fmap)%list_elem_of_fmap. cbn [snd].
  unfold changes_job, changes_node.
  rewrite (repairable_after q c now reason close Hids j1 _ (quarantine_job_id c now reason (qd_db q) j1)).
  destruct (repairable (qd_db q) id reason j1) eqn:Hr; [|done].
  destruct (quarantined_job q c now reason j1 Hr) as [Hs Hn]. simpl. split; [by apply bool_decide_eq_false|].
  intros n Hin. rewrite Forall_forall in Hn. apply bool_decide_eq_false. auto.
Qed.

Lemma quarantine_jobs_again :
  map (fun p => (p.1, quarantine_job (qd_db q') id reason now' p.2)) (db_jobs (qd_db q')) = db_jobs (qd_db q').
Proof.
  apply map_unchanged. intros [k j] Hp. destruct (job_settled j) as [Hj Hn].
  { by apply (elem_map snd) in Hp. }
  cbn [fst snd]. f_equal. unfold quarantine_job. rewrite Hj. rewrite map_unchanged; [apply set_nodes_same|].
  intros n Hin. by rewrite (Hn n Hin).
Qed.

Lemma quarantine_tasks_again : map (quarantine_task id reason now') (db_tasks (qd_db q')) = db_tasks (qd_db q').
Proof.
  apply map_unchanged. intros t Ht. unfold quarantine_task.
  destruct (bool_decide (pt_channel_profile_id t = id)) eqn:Hc; [|done]. simpl.
  rewrite (quarantined_tasks q c now reason close t); [done|]. by apply elem_of_lfilter.
Qed.

Lemma queue_settled i : i ∈ qd_queue q' -> quarantined_item id i = false.
Proof.
  intros (i0 & -> & _)%list_elem_of_fmap. destruct (quarantined_item id i0) eqn:Hq; [|done].
  unfold quarantined_item. simpl. by rewrite andb_false_r.
Qed.

Lemma quarantine_again :
  apply_quarantine q' (_apply_channel_halt now reason c) now' reason close = q'.
Proof.
  unfold apply_quarantine at 1. change (ch_id (_apply_channel_halt now reason c)) with id.
  rewrite quarantine_jobs_again, quarantine_tasks_again.
  assert (quarantine_queue id now' reason (qd_queue q') = qd_queue q') as ->.
  { apply map_unchanged. intros i Hi. by rewrite queue_settled. }
  unfold apply_quarantine, put_quarantine. simpl. rewrite dset_dset.
  assert (_apply_channel_halt now' reason (_apply_channel_halt now reason c) = _apply_channel_halt now reason c) as ->.
  { unfold _apply_channel_halt. simpl. by destruct (ch_halted_at c). }
  by destruct close.
Qed.

Lemma nothing_changes :
  changed_ids q' (_apply_channel_halt now reason c) reason
  = {| changed_channel_ids := []; changed_task_ids := []; changed_job_ids := []; changed_node_execution_ids := [];
       changed_queue_item_ids := [] |}.
Proof.
  unfold changed_ids. change (ch_id (_apply_channel_halt now reason c)) with id.
  rewrite (filter_none (changes_task reason)) by (intros t Ht; by eapply quarantined_tasks).
  rewrite (filter_none (quarantined_item id)) by (apply queue_settled).
  assert (Hj : forall j, j ∈ linked_jobs (qd_db q') id -> j ∈ dvalues (db_jobs (qd_db q'))).
  { by intros j [? _]%elem_of_lfilter. }
  rewrite (filter_none (changes_job (qd_db q') id reason)) by (intros j Hjl; by apply job_settled, Hj).
  rewrite (filter_none (fun p => changes_node (qd_db q') id reason p.1 p.2)).
  - f_equal. simpl. rewrite bool_decide_false by (by destruct (ch_halted_at c)). by rewrite bool_decide_true.
  - intros [j n] (l & Hl & (j' & -> & Hj')%list_elem_of_fmap)%list_elem_of_join.
    apply list_elem_of_fmap in Hl as (n' & [= -> ->] & Hn'). by apply job_settled; [apply Hj|].
Qed.
End Repeated.

(** Quarantine is idempotent: applied again for the same reason, at any later time, it
    succeeds, reports that nothing changes and leaves every row as it is, the time of
    the halt and the histories of the tasks included. *)
Theorem quarantine_idempotent q channel_id now now' reason close report q' c :
  channel_row q channel_id c -> NoDup (map pt_id (db_tasks (qd_db q))) ->
  quarantine_channelops_backlog q channel_id true now reason close = Ok (report, q') ->
  exists report', quarantine_channelops_backlog q' channel_id true now' reason close = Ok (report', q')
    /\ qr_changed report' = {| changed_channel_ids := []; changed_task_ids := []; changed_job_ids := [];
                               changed_node_execution_ids := []; changed_queue_item_ids := [] |}
    /\ qr_schedule_changed report' = false.
Proof.
  intros Hrow Hids Hq. destruct (quarantine_apply _ _ _ _ _ _ _ _ Hrow Hq) as [-> _].
  unfold quarantine_channelops_backlog in *. destruct (_ || _); [done|]. destruct Hrow as [_ <-].
  simpl db_channels. rewrite dget_dset_eq.
  rewrite (quarantine_again q c now now' reason close Hids), nothing_changes by done.
  eexists. split_and!; [done..|]. simpl. by destruct close.
Qed.

(** A channel with a producing task, its running job and a queued item. *)
Definition quarantine_db : QuarantineDb :=
  {| qd_db := sample_db; qd_queue := alert_table ++ [new_item "q2" 10
       {| eq_kind := "agent_tick"; eq_idempotency_key := "b"; eq_payload := None; eq_priority := 40; eq_run_after := None;
          eq_channel_profile_id := Some "c1"; eq_parent_queue_item_id := None; eq_max_attempts := 3 |}];
     qd_publications := []; qd_feedback := [] |}.

Definition quarantined : Res (QuarantineReport * QuarantineDb) :=
  quarantine_channelops_backlog quarantine_db "c1" true 50 "incident" true.

Definition quarantined_db : QuarantineDb :=
  match quarantined with Ok (_, q) => q | Raise _ => quarantine_db end.

Lemma quarantine_complete_witness :
  (exists report, quarantined = Ok (report, quarantined_db))
  /\ map qi_status (qd_queue quarantined_db) = [QUEUE_QUEUED; QUEUE_DEAD_LETTERED]
  /\ forall i, i ∈ qd_queue quarantined_db -> qi_channel_profile_id i = Some "c1" ->
       qi_status i ∉ _NONTERMINAL_QUEUE_STATUSES.
Proof.
  assert (Hq : exists report, quarantined = Ok (report, quarantined_db)) by (eexists; vm_compute; reflexivity).
  split; [exact Hq|]. split; [vm_compute; reflexivity|]. destruct Hq as [report Hq].
  destruct (quarantine_complete quarantine_db "c1" 50 "incident" true report quarantined_db (plain_channel "c1"))
    as (_ & _ & Hqueue & _); [split; reflexivity|vm_compute; apply NoDup_singleton|exact Hq|exact Hqueue].
Defined.

Lemma quarantine_idempotent_witness :
  exists report', quarantine_channelops_backlog quarantined_db "c1" true 60 "incident" true = Ok (report', quarantined_db)
    /\ qr_schedule_changed report' = false.
Proof.
  assert (Hq : exists report, quarantined = Ok (report, quarantined_db)) by (eexists; vm_compute; reflexivity).
  destruct Hq as [report Hq].
  destruct (quarantine_idempotent quarantine_db "c1" 50 60 "incident" true report quarantined_db (plain_channel "c1"))
    as (report' & H & _ & Hs); [split; reflexivity|vm_compute; apply NoDup_singleton|exact Hq|]. by exists report'.
Defined.
