(* ===== verification/UploadOps.v ===== *)
(** * YouTube upload operations ([services/youtube_upload_operations.py],
    [models/youtube_upload_operation.py])

    An upload cannot be taken back, so every upload node has one durable operation row:
    reserved, marked as attempted before the request is sent, submitted with the
    manager's task, and then succeeded, failed or uncertain.  This is the local path of
    the store; registered workers on PostgreSQL go through stored procedures instead.
    [UploadGuards] stands for the checks of owned inventories and of worker leases, which
    read and may refuse ([lock_producer] also tells whether the task is an owned
    production): no theorem depends on what they answer. *)

From stdpp Require Import base tactics list strings.
From Stdlib Require Import ZArith Lia SpecFloat.
From S2P Require Import Prelude PyStr PyValue PyUuid Pipeline JobModel WorkerModel Schedule Authority.

Open Scope string_scope.
Open Scope list_scope.

(** ** Rows *)

Record YouTubeUploadOperation := {
  yo_id : uuid;
  yo_production_task_id : option uuid;
  yo_job_id : uuid;
  yo_node_execution_id : uuid;
  yo_input_artifact_id : uuid;
  yo_content_sha256 : string;
  yo_title : string;
  yo_privacy : string;
  yo_status : string;
  yo_manager_task_id : option string;
  yo_platform_video_id : option string;
  yo_receipt_json : config;
  yo_error_message : option string;
  yo_request_attempted_at : option datetime;
  yo_completed_at : option datetime }.

Record UploadOperationContext := {
  uc_job_id : uuid;
  uc_node_execution_id : uuid;
  uc_execution_claim : NodeExecutionClaim;
  uc_input_artifact_id : uuid;
  uc_content_sha256 : string;
  uc_title : string;
  uc_privacy : string }.

Abbreviation operations := (list YouTubeUploadOperation).

(** The columns a transition writes; the others never change. *)
Definition write_operation (status : string) (manager video : option string) (receipt : config)
    (error : option string) (attempted completed : option datetime) (o : YouTubeUploadOperation)
    : YouTubeUploadOperation :=
  {| yo_id := yo_id o; yo_production_task_id := yo_production_task_id o; yo_job_id := yo_job_id o;
     yo_node_execution_id := yo_node_execution_id o; yo_input_artifact_id := yo_input_artifact_id o;
     yo_content_sha256 := yo_content_sha256 o; yo_title := yo_title o; yo_privacy := yo_privacy o;
     yo_status := status; yo_manager_task_id := manager; yo_platform_video_id := video; yo_receipt_json := receipt;
     yo_error_message := error; yo_request_attempted_at := attempted; yo_completed_at := completed |}.

Definition _operation (ops : operations) (operation_id : uuid) : Res YouTubeUploadOperation :=
  match find (fun o => (yo_id o =? operation_id)%string) ops with
  | Some o => Ok o
  | None => Raise (LookupError ("YouTube upload operation " +:+ operation_id +:+ " was not found"))
  end.

Definition _operation_for_node (ops : operations) (node_execution_id : uuid) : option YouTubeUploadOperation :=
  find (fun o => (yo_node_execution_id o =? node_execution_id)%string) ops.

Definition _operation_for_production_task (ops : operations) (task : uuid) : option YouTubeUploadOperation :=
  find (fun o => bool_decide (yo_production_task_id o = Some task)) ops.

Definition _operation_for_platform_video (ops : operations) (video : string) : option YouTubeUploadOperation :=
  find (fun o => bool_decide (yo_platform_video_id o = Some video)) ops.

Definition _production_task_id (db : Db) (job_id : uuid) : Res (option uuid) :=
  match take 2 (List.filter (fun t => bool_decide (pt_job_id t = Some job_id)) (db_tasks db)) with
  | [] => Ok None
  | [t] => Ok (Some (pt_id t))
  | _ => Raise (UploadOperationConflictError "job is linked to multiple production tasks")
  end.

(** ** Values *)

Definition _canonical_manager_task_id (value : option string) : option string :=
  match value with
  | None => None
  | Some s => match uuid_of_string s with
              | Ok canonical => if (s =? canonical)%string then Some canonical else None
              | Raise _ => None
              end
  end.

Definition _action_for (o : YouTubeUploadOperation) : string :=
  let manager_task_id := _canonical_manager_task_id (yo_manager_task_id o) in
  if (yo_status o =? "reserved")%string && bool_decide (yo_request_attempted_at o = None) then "submit"
  else if (yo_status o =? "submitted")%string && bool_decide (manager_task_id <> None) then "resume"
  else if (yo_status o =? "succeeded")%string && bool_decide (manager_task_id <> None) then "replay"
  else "block".

Definition _is_nonblank_string (s : string) : bool := negb (is_empty (strip s)).

Definition float_finite (f : pyfloat) : bool :=
  match f with S754_nan | S754_infinity _ => false | _ => true end.

Definition _finite_number_or_none (value : pyval) : pyval :=
  match value with
  | VNone | VBool _ => VNone
  | VInt z => VInt z
  | _ => match py_float value with Ok f => if float_finite f then VFloat f else VNone | Raise _ => VNone end
  end.

Definition str_of (v : option pyval) : option string := match v with Some (VStr s) => Some s | _ => None end.

Definition _receipt_for (title privacy platform_video_id : string) (receipt : config) : config :=
  let tags := match dget_or receipt "tags" (VList []) with
              | VList l => List.filter (fun v => match v with VStr _ => true | _ => false end) l
              | _ => []
              end in
  let url := match str_of receipt.[? "url"] with Some u => Some u | None => str_of receipt.[? "video_url"] end in
  let quota := match receipt.[? "quota_estimate"] with
               | Some v => v
               | None => default VNone receipt.[? "quota_units_estimated"]
               end in
  [("video_id", VStr platform_video_id); ("url", VStr (default "" url));
   ("title", VStr (default title (str_of receipt.[? "title"])));
   ("privacy", VStr (default privacy (str_of receipt.[? "privacy"])));
   ("tags", VList tags); ("quota_estimate", _finite_number_or_none quota)].

(** ** Guards *)

Class UploadGuards := {
  lock_producer : Db -> option uuid -> string -> Res bool;
  require_local_upload : Db -> bool -> UploadOperationContext -> Res ();
  require_worker_registration_lease : Db -> NodeExecutionClaim -> Res () }.

Section Store.
Context (setting : string) `{!UploadGuards}.

Definition require_upload_authority (db : Db) (context : UploadOperationContext) : Res () :=
  '(authority, _) ← lock_job_execution_authority setting db (uc_job_id context) (Some (uc_node_execution_id context)) false;
  _ ← require_active_execution_authority authority [JobStatus.RUNNING] (Some [NodeStatus.RUNNING]);
  require_matching_node_execution_claim authority (uc_execution_claim context).

Definition require_lease (db : Db) (context : UploadOperationContext) : Res () :=
  match cl_worker_registration_id (uc_execution_claim context) with
  | Some _ => require_worker_registration_lease db (uc_execution_claim context)
  | None => Ok ()
  end.

Definition _require_operation_context (o : YouTubeUploadOperation) (context : UploadOperationContext) : Res () :=
  if (yo_job_id o =? uc_job_id context)%string && (yo_node_execution_id o =? uc_node_execution_id context)%string
     && (yo_input_artifact_id o =? uc_input_artifact_id context)%string
     && (yo_content_sha256 o =? uc_content_sha256 context)%string && (yo_title o =? uc_title context)%string
     && (yo_privacy o =? uc_privacy context)%string
  then Ok () else blocked "upload operation execution context changed".

Definition _require_local_claim_and_lineage (db : Db) (producer : bool) (context : UploadOperationContext) : Res () :=
  _ ← require_upload_authority db context;
  _ ← require_lease db context;
  require_local_upload db producer context.

(** Entering the submission fence, and taking its locks again before the request. *)
Definition _require_local_submission_authority (db : Db) (ops : operations) (context : UploadOperationContext) : Res () :=
  task ← _production_task_id db (uc_job_id context);
  producer ← lock_producer db task (uc_content_sha256 context);
  _ ← _require_local_claim_and_lineage db producer context;
  match _operation_for_node ops (uc_node_execution_id context) with
  | Some o => _require_operation_context o context
  | None => Ok ()
  end.

(** [fenced]: the caller is inside the submission fence of this context. *)
Definition _require_transition_context (db : Db) (ops : operations) (operation_id : uuid)
    (context : option UploadOperationContext) (fenced : bool) : Res () :=
  o ← _operation ops operation_id;
  match context with
  | None =>
      let node := find (fun n => (ne_id n =? yo_node_execution_id o)%string)
                    (concat (map j_node_executions (dvalues (db_jobs db)))) in
      match node ≫= ne_worker_registration_id with
      | Some _ => blocked "registered upload operation requires execution context"
      | None => Ok ()
      end
  | Some context =>
      if negb ((yo_job_id o =? uc_job_id context)%string && (yo_node_execution_id o =? uc_node_execution_id context)%string)
      then blocked "upload operation execution context changed"
      else if fenced then Ok () else require_upload_authority db context
  end.

(** ** Transactions *)

Definition reserve (new_id : uuid) (task : option uuid) (context : UploadOperationContext) : YouTubeUploadOperation :=
  {| yo_id := new_id; yo_production_task_id := task; yo_job_id := uc_job_id context;
     yo_node_execution_id := uc_node_execution_id context; yo_input_artifact_id := uc_input_artifact_id context;
     yo_content_sha256 := uc_content_sha256 context; yo_title := uc_title context; yo_privacy := uc_privacy context;
     yo_status := "reserved"; yo_manager_task_id := None; yo_platform_video_id := None; yo_receipt_json := [];
     yo_error_message := None; yo_request_attempted_at := None; yo_completed_at := None |}.

(** The unique constraints an insertion can violate. *)
Definition insert_violates (o : YouTubeUploadOperation) (ops : operations) : bool :=
  bool_decide (yo_id o ∈ map yo_id ops) || bool_decide (yo_node_execution_id o ∈ map yo_node_execution_id ops)
  || match yo_production_task_id o with Some t => bool_decide (Some t ∈ map yo_production_task_id ops) | None => false end.

(** [claim]: [seen] are the rows its queries read, [current] the rows at the commit. *)
Definition claim_upload (new_id : uuid) (db : Db) (seen current : operations) (context : UploadOperationContext)
    : Res (string * YouTubeUploadOperation * operations) :=
  let node := uc_node_execution_id context in
  producer ← (if match _operation_for_node seen node with Some o => (_action_for o =? "submit")%string | None => true end
       then task ← _production_task_id db (uc_job_id context); lock_producer db task (uc_content_sha256 context)
       else Ok false);
  _ ← require_upload_authority db context;
  _ ← require_local_upload db producer context;
  _ ← require_lease db context;
  match _operation_for_node seen node with
  | Some existing =>
      _ ← (if (_action_for existing =? "submit")%string then _require_operation_context existing context else Ok ());
      Ok (_action_for existing, existing, current)
  | None =>
      task ← _production_task_id db (uc_job_id context);
      let operation := reserve new_id task context in
      if negb (insert_violates operation current) then Ok ("submit", operation, current ++ [operation])
      else
        match _operation_for_node current node with
        | Some existing => Ok (_action_for existing, existing, current)
        | None =>
            match task with
            | Some t => match _operation_for_production_task current t with
                        | Some _ => Raise (UploadOperationConflictError "production task already has a YouTube upload operation")
                        | None => Raise IntegrityError
                        end
            | None => Raise IntegrityError
            end
        end
  end.

(** [UPDATE ... WHERE id = ... AND p ... RETURNING]. *)
Definition update_where (operation_id : uuid) (p : YouTubeUploadOperation -> bool)
    (f : YouTubeUploadOperation -> YouTubeUploadOperation) (ops : operations)
    : option YouTubeUploadOperation * operations :=
  (option_map f (find (fun o => (yo_id o =? operation_id)%string && p o) ops),
   map (fun o => if (yo_id o =? operation_id)%string && p o then f o else o) ops).

Definition attempt_row (now : datetime) (o : YouTubeUploadOperation) : YouTubeUploadOperation :=
  write_operation (yo_status o) (yo_manager_task_id o) (yo_platform_video_id o) (yo_receipt_json o)
    (yo_error_message o) (Some now) (yo_completed_at o) o.

Definition unattempted (o : YouTubeUploadOperation) : bool :=
  (yo_status o =? "reserved")%string && bool_decide (yo_request_attempted_at o = None).

Definition _mark_attempting_local (now : datetime) (db : Db) (ops : operations) (operation_id : uuid)
    (context : option UploadOperationContext) (fenced : bool) : Res operations :=
  o ← _operation ops operation_id;
  producer ← lock_producer db (yo_production_task_id o) (yo_content_sha256 o);
  _ ← (match context with
       | Some c => _ ← _require_local_claim_and_lineage db producer c; _require_operation_context o c
       | None => if producer then Raise (ValueError "owned_inventory_execution_context_missing") else Ok ()
       end);
  _ ← _require_transition_context db ops operation_id context fenced;
  match update_where operation_id unattempted (attempt_row now) ops with
  | (Some _, ops') => Ok ops'
  | (None, _) => Raise (ValueError "cannot begin submission from current operation")
  end.

(** The second half of [mark_attempting] inside the fence: the row as it was attempted. *)
Definition fence_attempted (db : Db) (ops : operations) (operation_id : uuid) (context : UploadOperationContext) : Res () :=
  _ ← _require_local_submission_authority db ops context;
  o ← _operation ops operation_id;
  if negb (yo_status o =? "reserved")%string || bool_decide (yo_request_attempted_at o = None)
     || bool_decide (yo_manager_task_id o <> None)
  then blocked "upload operation final fence changed" else Ok ().

Definition submit_row (manager : string) (attempted : option datetime) (o : YouTubeUploadOperation) : YouTubeUploadOperation :=
  write_operation "submitted" (Some manager) (yo_platform_video_id o) (yo_receipt_json o) None attempted
    (yo_completed_at o) o.

(** [mark_submitted] in the fence, after the request. *)
Definition mark_submitted_fenced (ops : operations) (operation_id : uuid) (manager_task_id : string) : Res operations :=
  match _canonical_manager_task_id (Some manager_task_id) with
  | None => Raise (ValueError "manager task id must be a canonical UUID")
  | Some canonical =>
      match update_where operation_id
              (fun o => (yo_status o =? "reserved")%string && bool_decide (yo_request_attempted_at o <> None))
              (fun o => submit_row canonical (yo_request_attempted_at o) o) ops with
      | (Some _, ops') => Ok ops'
      | (None, _) => blocked "upload operation final fence changed"
      end
  end.

Definition mark_submitted (now : datetime) (db : Db) (ops : operations) (operation_id : uuid) (manager_task_id : string)
    (context : option UploadOperationContext) : Res operations :=
  match _canonical_manager_task_id (Some manager_task_id) with
  | None => Raise (ValueError "manager task id must be a canonical UUID")
  | Some canonical =>
      _ ← _require_transition_context db ops operation_id context false;
      match update_where operation_id (fun o => (yo_status o =? "reserved")%string)
              (submit_row canonical (Some now)) ops with
      | (Some _, ops') => Ok ops'
      | (None, _) =>
          current ← _operation ops operation_id;
          if (yo_status current =? "submitted")%string && bool_decide (yo_manager_task_id current = Some canonical)
          then Ok ops
          else Raise (ValueError ("cannot mark " +:+ yo_status current +:+ " operation submitted"))
      end
  end.

Definition succeed_row (now : datetime) (video : string) (receipt : config) (o : YouTubeUploadOperation)
    : YouTubeUploadOperation :=
  write_operation "succeeded" (yo_manager_task_id o) (Some video) receipt None (yo_request_attempted_at o) (Some now) o.

Definition mark_upload_succeeded (now : datetime) (db : Db) (ops : operations) (operation_id : uuid)
    (platform_video_id : string) (receipt : config) (context : option UploadOperationContext) : Res operations :=
  if negb (_is_nonblank_string platform_video_id) then Raise (ValueError "platform video id is required")
  else
    _ ← _require_transition_context db ops operation_id context false;
    o ← _operation ops operation_id;
    let receipt_json := _receipt_for (yo_title o) (yo_privacy o) platform_video_id receipt in
    if (yo_status o =? "submitted")%string then
      if bool_decide (Some platform_video_id ∈ map yo_platform_video_id
           (List.filter (fun o' => negb (yo_id o' =? operation_id)%string) ops))
      then Raise (UploadOperationConflictError "platform video id already belongs to a YouTube upload operation")
      else Ok (update_where operation_id (fun o => (yo_status o =? "submitted")%string)
                 (succeed_row now platform_video_id receipt_json) ops).2
    else if (yo_status o =? "succeeded")%string then
      if bool_decide (yo_platform_video_id o = Some platform_video_id) then Ok ops
      else Raise (UploadOperationConflictError "operation already belongs to a different platform video id")
    else Raise (ValueError ("cannot mark " +:+ yo_status o +:+ " operation succeeded")).

Definition terminal_row (status error : string) (o : YouTubeUploadOperation) : YouTubeUploadOperation :=
  write_operation status (yo_manager_task_id o) (yo_platform_video_id o) (yo_receipt_json o) (Some error)
    (yo_request_attempted_at o) (yo_completed_at o) o.

Definition open_row (o : YouTubeUploadOperation) : bool :=
  bool_decide (yo_status o ∈ ["reserved"; "submitted"]).

(** [_mark_terminal] for [uncertain] and [failed]; in the fence a row that is no longer
    open is an error, outside of it repeating the status is not. *)
Definition _mark_terminal (db : Db) (ops : operations) (operation_id : uuid) (status error : string)
    (context : option UploadOperationContext) (fenced : bool) : Res operations :=
  _ ← _require_transition_context db ops operation_id context fenced;
  match update_where operation_id open_row (terminal_row status error) ops with
  | (Some _, ops') => Ok ops'
  | (None, _) =>
      if fenced then blocked "upload operation final fence changed"
      else
        current ← _operation ops operation_id;
        if (yo_status current =? status)%string then Ok ops
        else Raise (ValueError ("cannot mark " +:+ yo_status current +:+ " operation " +:+ status))
  end.

Definition mark_upload_uncertain (db : Db) (ops : operations) (operation_id : uuid) (error : string)
    (context : option UploadOperationContext) (fenced : bool) : Res operations :=
  _mark_terminal db ops operation_id "uncertain" error context fenced.

Definition mark_upload_failed (db : Db) (ops : operations) (operation_id : uuid) (error : string)
    (context : option UploadOperationContext) (fenced : bool) : Res operations :=
  _mark_terminal db ops operation_id "failed" error context fenced.
End Store.
