(* ===== verification/UploadOnce.v ===== *)
(** * Uploads are posted at most once

    Handlers of upload nodes run concurrently, restart and stop anywhere; every call of
    the operation store is one committed transaction.  A handler posts after its
    attempt was committed and the fence taken again.  In every history an operation is
    posted at most once, and so is a production task. *)

From stdpp Require Import base tactics list strings relations.
From Stdlib Require Import ZArith Lia.
From S2P Require Import Prelude PyStr PyValue PyUuid Pipeline JobModel WorkerModel Schedule Authority UploadOps.

Open Scope string_scope.
Open Scope list_scope.

(** ** Rows of one table *)

(** What no transition changes. *)
Definition operation_identity (o : YouTubeUploadOperation) : uuid * option uuid * uuid :=
  (yo_id o, yo_production_task_id o, yo_node_execution_id o).

(** The forward steps of a row. *)
Definition row_forward (o o' : YouTubeUploadOperation) : Prop :=
  operation_identity o' = operation_identity o
  /\ (yo_request_attempted_at o <> None -> yo_request_attempted_at o' <> None)
  /\ (open_row o = false -> o' = o).

#[export] Instance row_forward_refl : Reflexive row_forward.
Proof. by intros o. Qed.

#[export] Instance row_forward_trans : Transitive row_forward.
Proof.
  intros a b c (Hi & Ha & Ho) (Hi' & Ha' & Ho'). split_and!; [congruence|auto|].
  intros Hc. pose proof (Ho Hc) as ->. auto.
Qed.

(** The CHECK constraints, and what a finished upload has. *)
Definition row_ok (o : YouTubeUploadOperation) : Prop :=
  (yo_status o ∈ ["submitted"; "succeeded"] ->
     _canonical_manager_task_id (yo_manager_task_id o) <> None /\ yo_request_attempted_at o <> None)
  /\ (yo_status o = "succeeded" -> yo_platform_video_id o <> None /\ yo_completed_at o <> None).

Definition task_keys (ops : operations) : list uuid := omap yo_production_task_id ops.
#[global] Arguments task_keys : simpl never.

Record ops_inv (ops : operations) : Prop := {
  oi_ids : NoDup (map yo_id ops);
  oi_nodes : NoDup (map yo_node_execution_id ops);
  oi_tasks : NoDup (task_keys ops);
  oi_rows : Forall row_ok ops }.

Lemma task_keys_cons o ops :
  task_keys (o :: ops) = match yo_production_task_id o with Some t => t :: task_keys ops | None => task_keys ops end.
Proof. done. Qed.

Lemma task_keys_app ops ops' : task_keys (ops ++ ops') = task_keys ops ++ task_keys ops'.
Proof.
  induction ops as [|o ops IH]; [done|]. rewrite <-app_comm_cons, !task_keys_cons, IH.
  by destruct (yo_production_task_id o).
Qed.

Lemma elem_of_task_keys t ops : t ∈ task_keys ops <-> Some t ∈ map yo_production_task_id ops.
Proof.
  induction ops as [|o ops IH]; [by rewrite !elem_of_nil|]. rewrite task_keys_cons. simpl.
  destruct (yo_production_task_id o); rewrite ?elem_of_cons, IH; naive_solver.
Qed.

(** Rows updated in place. *)
Lemma forall2_identity ops ops' :
  Forall2 row_forward ops ops' ->
  map yo_id ops' = map yo_id ops /\ map yo_node_execution_id ops' = map yo_node_execution_id ops
  /\ task_keys ops' = task_keys ops.
Proof.
  induction 1 as [|o o' ops ops' (Hi & _) _ (H1 & H2 & H3)]; [done|]. injection Hi as Hid Ht Hn. simpl.
  rewrite !task_keys_cons, Hid, Ht, Hn, H1, H2, H3. done.
Qed.

Lemma ops_inv_forward ops ops' :
  ops_inv ops -> Forall2 row_forward ops ops' -> Forall row_ok ops' -> ops_inv ops'.
Proof.
  intros [H1 H2 H3 _] HF Hok. destruct (forall2_identity _ _ HF) as (E1 & E2 & E3).
  constructor; [by rewrite E1|by rewrite E2|by rewrite E3|done].
Qed.

(** An update by identifier and condition. *)
Lemma update_where_spec id p f ops ops' o' :
  update_where id p f ops = (o', ops') ->
  (forall o, p o = true -> row_forward o (f o)) -> (forall o, row_ok o -> p o = true -> row_ok (f o)) ->
  Forall2 row_forward ops ops' /\ (Forall row_ok ops -> Forall row_ok ops').
Proof.
  intros [= _ <-] Hfw Hok. split.
  - apply Forall2_map_self. intros o. destruct (_ && _) eqn:Hc; [|reflexivity]. apply andb_prop in Hc as [_ Hc]. auto.
  - intros Hall. apply Forall_map. eapply Forall_impl; [exact Hall|]. intros o Ho. simpl.
    destruct (_ && _) eqn:Hc; [|done]. apply andb_prop in Hc as [_ Hc]. auto.
Qed.

Definition good_update (p : YouTubeUploadOperation -> bool) (f : YouTubeUploadOperation -> YouTubeUploadOperation) : Prop :=
  (forall o, p o = true -> row_forward o (f o)) /\ (forall o, row_ok o -> p o = true -> row_ok (f o)).

Lemma open_reserved o : yo_status o = "reserved" -> open_row o = true.
Proof. intros H. unfold open_row. rewrite H. by apply bool_decide_eq_true; left. Qed.

Lemma open_submitted o : yo_status o = "submitted" -> open_row o = true.
Proof. intros H. unfold open_row. rewrite H. apply bool_decide_eq_true. right. by left. Qed.

Lemma good_attempt now : good_update unattempted (attempt_row now).
Proof.
  split; intros o; unfold unattempted.
  - intros [Hs%String.eqb_eq _]%andb_prop. split_and!; [done|done|]. by rewrite open_reserved.
  - intros [H1 H2] [Hs%String.eqb_eq _]%andb_prop. split; simpl; rewrite Hs.
    + by intros [?|[?|?%elem_of_nil]%elem_of_cons]%elem_of_cons.
    + done.
Qed.

Lemma canonical_again s c : _canonical_manager_task_id (Some s) = Some c -> _canonical_manager_task_id (Some c) <> None.
Proof.
  unfold _canonical_manager_task_id. destruct (uuid_of_string s) as [x|] eqn:Hx; [|done].
  destruct (String.eqb_spec s x) as [->|]; [|done]. intros [= <-]. rewrite Hx. by rewrite String.eqb_refl.
Qed.

Lemma good_submit p s c att :
  _canonical_manager_task_id (Some s) = Some c -> (forall o, p o = true -> yo_status o = "reserved" /\ att o <> None) ->
  good_update p (fun o => submit_row c (att o) o).
Proof.
  intros Hc Hp. split; intros o.
  - intros [Hs Ha]%Hp. split_and!; [done|done|]. by rewrite open_reserved.
  - intros _ [Hs Ha]%Hp. split; [|done]. intros _. simpl. split; [by eapply canonical_again|done].
Qed.

Lemma good_succeed now video receipt : good_update (fun o => (yo_status o =? "submitted")%string) (succeed_row now video receipt).
Proof.
  split; intros o.
  - intros Hs%String.eqb_eq. split_and!; [done|done|]. by rewrite open_submitted.
  - intros [H1 H2] Hs%String.eqb_eq. split; simpl; [|done]. intros _. apply H1. rewrite Hs. by left.
Qed.

Lemma good_terminal status error : status ∈ ["uncertain"; "failed"] -> good_update open_row (terminal_row status error).
Proof.
  intros Hst. split; intros o.
  - intros Ho. split_and!; [done|done|]. by rewrite Ho.
  - intros _ _. split; simpl; [|by apply elem_of_cons in Hst as [->|[->|[]%elem_of_nil]%elem_of_cons]].
    intros [->|[->|[]%elem_of_nil]%elem_of_cons]%elem_of_cons;
      by apply elem_of_cons in Hst as [?|[?|[]%elem_of_nil]%elem_of_cons].
Qed.

(** ** Transactions *)

Definition rows_move (ops ops' : operations) : Prop :=
  Forall2 row_forward ops ops' /\ (Forall row_ok ops -> Forall row_ok ops').

Lemma rows_stay ops : rows_move ops ops.
Proof. split; [|done]. apply Forall_Forall2_diag, Forall_forall. intros o _. reflexivity. Qed.

Lemma update_move id p f ops o' ops' : update_where id p f ops = (o', ops') -> good_update p f -> rows_move ops ops'.
Proof. intros Hu [H1 H2]. by eapply update_where_spec. Qed.

Section Moves.
Context (setting : string) `{!UploadGuards}.

Lemma attempt_moves now db ops id context fenced ops' :
  _mark_attempting_local setting now db ops id context fenced = Ok ops' -> rows_move ops ops'.
Proof.
  unfold _mark_attempting_local. intros Hok. unbind Hok.
  destruct (update_where _ _ _ _) as [[o'|] ops1] eqn:Hu; [|done]. injection Hok as <-.
  eapply update_move; [exact Hu|apply good_attempt].
Qed.

(** The attempt is granted to one caller: the row was not attempted before and is now. *)
Lemma attempt_grants now db ops id context fenced ops' :
  NoDup (map yo_id ops) -> _mark_attempting_local setting now db ops id context fenced = Ok ops' ->
  (forall o, o ∈ ops -> yo_id o = id -> yo_request_attempted_at o = None)
  /\ exists o', o' ∈ ops' /\ yo_id o' = id /\ yo_request_attempted_at o' <> None.
Proof.
  unfold _mark_attempting_local. intros Hn Hok. unbind Hok.
  destruct (update_where _ _ _ _) as [[o'|] ops1] eqn:Hu; [|done]. injection Hok as <-. unfold update_where in Hu.
  injection Hu as Hf <-. destruct (find _ ops) as [o0|] eqn:Hfind; [|done]. apply find_some in Hfind as [Hin Hc].
  apply list_elem_of_In in Hin. pose proof Hc as [Hid%String.eqb_eq [_ Hnone%bool_decide_eq_true]%andb_prop]%andb_prop. split.
  - intros o Ho Hoid. by rewrite (NoDup_map_inj yo_id ops o o0 Hn Ho Hin (eq_trans Hoid (eq_sym Hid))).
  - exists (attempt_row now o0). split_and!; [|done|done]. apply list_elem_of_fmap. exists o0. by rewrite Hc.
Qed.

Lemma submitted_fenced_moves ops id manager ops' : mark_submitted_fenced ops id manager = Ok ops' -> rows_move ops ops'.
Proof.
  unfold mark_submitted_fenced. destruct (_canonical_manager_task_id _) as [c|] eqn:Hc; [|done].
  destruct (update_where _ _ _ _) as [[o'|] ops1] eqn:Hu; [|done]. intros [= <-]. eapply update_move; [exact Hu|].
  eapply (good_submit _ _ _ yo_request_attempted_at); [exact Hc|]. intros o [Hs%String.eqb_eq Ha%bool_decide_eq_true]%andb_prop. done.
Qed.

Lemma submitted_moves now db ops id manager context ops' :
  mark_submitted setting now db ops id manager context = Ok ops' -> rows_move ops ops'.
Proof.
  unfold mark_submitted. destruct (_canonical_manager_task_id _) as [c|] eqn:Hc; [|done]. intros Hok. unbind Hok.
  destruct (update_where _ _ _ _) as [[o'|] ops1] eqn:Hu.
  - injection Hok as <-. eapply update_move; [exact Hu|]. apply (good_submit _ _ _ (fun _ => Some now) Hc).
    by intros o Hs%String.eqb_eq.
  - unbind Hok. destruct (_ && _); [|done]. injection Hok as <-. apply rows_stay.
Qed.

Lemma succeeded_moves now db ops id video receipt context ops' :
  mark_upload_succeeded setting now db ops id video receipt context = Ok ops' -> rows_move ops ops'.
Proof.
  unfold mark_upload_succeeded. destruct (negb _); [done|]. intros Hok. unbind Hok. destruct (_ =? "submitted")%string.
  - case_bool_decide; [done|]. injection Hok as <-. eapply update_move; [reflexivity|apply good_succeed].
  - destruct (_ =? "succeeded")%string; [|done]. case_bool_decide; [|done]. injection Hok as <-. apply rows_stay.
Qed.

Lemma terminal_moves db ops id status error context fenced ops' :
  status ∈ ["uncertain"; "failed"] -> _mark_terminal setting db ops id status error context fenced = Ok ops' -> rows_move ops ops'.
Proof.
  unfold _mark_terminal. intros Hst Hok. unbind Hok. destruct (update_where _ _ _ _) as [[o'|] ops1] eqn:Hu.
  - injection Hok as <-. eapply update_move; [exact Hu|by apply good_terminal].
  - destruct fenced; [done|]. unbind Hok. destruct (_ =? status)%string; [|done]. injection Hok as <-. apply rows_stay.
Qed.

(** A claim leaves the rows, or adds a reserved one. *)
Lemma claim_cases new_id db seen ops context action o ops' :
  claim_upload setting new_id db seen ops context = Ok (action, o, ops') ->
  ops' = ops \/ (exists task, o = reserve new_id task context /\ ops' = ops ++ [o] /\ insert_violates o ops = false).
Proof.
  unfold claim_upload. intros Hok. unbind Hok. destruct (_operation_for_node seen _) as [e|].
  - unbind Hok. injection Hok as _ _ <-. by left.
  - unbind Hok. destruct (insert_violates _ ops) eqn:Hv; simpl in Hok.
    + destruct (_operation_for_node ops _) as [e|]; [injection Hok as _ _ <-; by left|]. by repeat case_match.
    + injection Hok as _ <- <-. right. eauto.
Qed.
End Moves.

Lemma insert_inv o ops :
  ops_inv ops -> insert_violates o ops = false -> row_ok o -> ops_inv (ops ++ [o]).
Proof.
  intros [H1 H2 H3 H4] Hv Hok. unfold insert_violates in Hv.
  apply orb_false_elim in Hv as [[Hi%bool_decide_eq_false Hn%bool_decide_eq_false]%orb_false_elim Ht]. constructor.
  - rewrite map_app. apply NoDup_app. split_and!; [done| |apply NoDup_singleton]. by intros x Hx ->%list_elem_of_singleton.
  - rewrite map_app. apply NoDup_app. split_and!; [done| |apply NoDup_singleton]. by intros x Hx ->%list_elem_of_singleton.
  - rewrite task_keys_app, task_keys_cons. destruct (yo_production_task_id o) as [t|]; [|by rewrite app_nil_r].
    apply bool_decide_eq_false in Ht. rewrite <-elem_of_task_keys in Ht. apply NoDup_app.
    split_and!; [done| |apply NoDup_singleton]. by intros x Hx ->%list_elem_of_singleton.
  - apply Forall_app. by split; [|constructor].
Qed.

Lemma moved_inv ops ops' : ops_inv ops -> rows_move ops ops' -> ops_inv ops'.
Proof. intros Hinv [HF Hok]. eapply ops_inv_forward; [done..|]. apply Hok, Hinv. Qed.

(** ** Histories *)

(** Where a handler is inside its submission fence. *)
Inductive fence_phase := Initial | AttemptedUnfenced | PostFenced | RequestSent.

Record UploadHandler := {
  uh_context : UploadOperationContext;
  uh_operation : uuid;
  uh_phase : fence_phase }.

Record UploadState := {
  us_db : Db;
  us_operations : operations;
  us_handlers : list UploadHandler;
  us_posts : list uuid }.

Definition at_phase (h : UploadHandler) (p : fence_phase) : UploadHandler :=
  {| uh_context := uh_context h; uh_operation := uh_operation h; uh_phase := p |}.

Section History.
Context (setting : string) `{!UploadGuards}.

(** One event: a transaction of the store, a step of a handler, the end of a handler at
    any point, or a change of the other tables.  [mark_attempting] is the attempt and,
    in a second transaction, the fence; the request is sent between the fence and the
    transaction that records its outcome. *)
Inductive upload_step : UploadState -> UploadState -> Prop :=
| us_environment db' s :
    upload_step s {| us_db := db'; us_operations := us_operations s; us_handlers := us_handlers s; us_posts := us_posts s |}
| us_claim new_id seen context action o ops' s :
    claim_upload setting new_id (us_db s) seen (us_operations s) context = Ok (action, o, ops') ->
    upload_step s {| us_db := us_db s; us_operations := ops'; us_handlers := us_handlers s; us_posts := us_posts s |}
| us_enter context id s :
    _require_local_submission_authority setting (us_db s) (us_operations s) context = Ok () ->
    upload_step s {| us_db := us_db s; us_operations := us_operations s;
                     us_handlers := {| uh_context := context; uh_operation := id; uh_phase := Initial |} :: us_handlers s;
                     us_posts := us_posts s |}
| us_attempt now h l1 l2 ops' s :
    us_handlers s = l1 ++ h :: l2 -> uh_phase h = Initial ->
    _mark_attempting_local setting now (us_db s) (us_operations s) (uh_operation h) (Some (uh_context h)) true = Ok ops' ->
    upload_step s {| us_db := us_db s; us_operations := ops'; us_handlers := l1 ++ at_phase h AttemptedUnfenced :: l2;
                     us_posts := us_posts s |}
| us_fence h l1 l2 s :
    us_handlers s = l1 ++ h :: l2 -> uh_phase h = AttemptedUnfenced ->
    fence_attempted setting (us_db s) (us_operations s) (uh_operation h) (uh_context h) = Ok () ->
    upload_step s {| us_db := us_db s; us_operations := us_operations s; us_handlers := l1 ++ at_phase h PostFenced :: l2;
                     us_posts := us_posts s |}
| us_post h l1 l2 s :
    us_handlers s = l1 ++ h :: l2 -> uh_phase h = PostFenced ->
    upload_step s {| us_db := us_db s; us_operations := us_operations s; us_handlers := l1 ++ at_phase h RequestSent :: l2;
                     us_posts := us_posts s ++ [uh_operation h] |}
| us_submitted_fenced manager h l1 l2 ops' s :
    us_handlers s = l1 ++ h :: l2 -> uh_phase h = RequestSent ->
    mark_submitted_fenced (us_operations s) (uh_operation h) manager = Ok ops' ->
    upload_step s {| us_db := us_db s; us_operations := ops'; us_handlers := l1 ++ l2; us_posts := us_posts s |}
| us_terminal_fenced status error h l1 l2 ops' s :
    us_handlers s = l1 ++ h :: l2 -> status ∈ ["uncertain"; "failed"] ->
    _mark_terminal setting (us_db s) (us_operations s) (uh_operation h) status error (Some (uh_context h)) true = Ok ops' ->
    upload_step s {| us_db := us_db s; us_operations := ops'; us_handlers := l1 ++ l2; us_posts := us_posts s |}
| us_handler_ends h l1 l2 s :
    us_handlers s = l1 ++ h :: l2 ->
    upload_step s {| us_db := us_db s; us_operations := us_operations s; us_handlers := l1 ++ l2; us_posts := us_posts s |}
| us_attempt_unfenced now id context ops' s :
    _mark_attempting_local setting now (us_db s) (us_operations s) id context false = Ok ops' ->
    upload_step s {| us_db := us_db s; us_operations := ops'; us_handlers := us_handlers s; us_posts := us_posts s |}
| us_submitted now id manager context ops' s :
    mark_submitted setting now (us_db s) (us_operations s) id manager context = Ok ops' ->
    upload_step s {| us_db := us_db s; us_operations := ops'; us_handlers := us_handlers s; us_posts := us_posts s |}
| us_succeeded now id video receipt context ops' s :
    mark_upload_succeeded setting now (us_db s) (us_operations s) id video receipt context = Ok ops' ->
    upload_step s {| us_db := us_db s; us_operations := ops'; us_handlers := us_handlers s; us_posts := us_posts s |}
| us_terminal id status error context ops' s :
    status ∈ ["uncertain"; "failed"] ->
    _mark_terminal setting (us_db s) (us_operations s) id status error context false = Ok ops' ->
    upload_step s {| us_db := us_db s; us_operations := ops'; us_handlers := us_handlers s; us_posts := us_posts s |}.

(** ** One attempt, one request *)

Definition may_post (h : UploadHandler) : bool :=
  match uh_phase h with AttemptedUnfenced | PostFenced => true | Initial | RequestSent => false end.

(** Requests of an operation that were sent or may still be. *)
Definition requests (id : uuid) (hs : list UploadHandler) (posts : list uuid) : nat :=
  length (List.filter (fun h => (uh_operation h =? id)%string && may_post h) hs)
  + length (List.filter (String.eqb id) posts).

Record upload_inv (s : UploadState) : Prop := {
  ui_ops : ops_inv (us_operations s);
  ui_requests : forall id, requests id (us_handlers s) (us_posts s) <= 1;
  ui_attempted : forall id, 1 <= requests id (us_handlers s) (us_posts s) ->
    exists o, o ∈ us_operations s /\ yo_id o = id /\ yo_request_attempted_at o <> None }.

Lemma requests_middle id l1 h l2 posts :
  requests id (l1 ++ h :: l2) posts
  = requests id (l1 ++ l2) posts + (if (uh_operation h =? id)%string && may_post h then 1 else 0).
Proof.
  unfold requests. rewrite !List.filter_app, !length_app. simpl. destruct (_ && _); simpl; lia.
Qed.

Lemma requests_snoc id hs posts x :
  requests id hs (posts ++ [x]) = requests id hs posts + (if (id =? x)%string then 1 else 0).
Proof. unfold requests. rewrite List.filter_app, length_app. simpl. destruct (_ =? _)%string; simpl; lia. Qed.

(** Rows that moved forward still witness the attempts. *)
Lemma moved_attempted ops ops' id :
  Forall2 row_forward ops ops' ->
  (exists o, o ∈ ops /\ yo_id o = id /\ yo_request_attempted_at o <> None) ->
  exists o, o ∈ ops' /\ yo_id o = id /\ yo_request_attempted_at o <> None.
Proof.
  intros HF (o & Ho & Hid & Ha). apply list_elem_of_lookup in Ho as [i Hi].
  destruct (Forall2_lookup_l _ _ _ _ _ HF Hi) as (o' & Ho' & (Hident & Hatt & _)).
  exists o'. injection Hident as Hi' _ _. split_and!; [by eapply list_elem_of_lookup_2|congruence|auto].
Qed.

(** A transaction that moves rows and frees at most requests. *)
Lemma moves_inv s ops' hs' :
  upload_inv s -> rows_move (us_operations s) ops' ->
  (forall id, requests id hs' (us_posts s) <= requests id (us_handlers s) (us_posts s)) ->
  upload_inv {| us_db := us_db s; us_operations := ops'; us_handlers := hs'; us_posts := us_posts s |}.
Proof.
  intros [Hops Hreq Hatt] Hm Hle. constructor; simpl.
  - by eapply moved_inv.
  - intros id. etrans; [apply Hle|apply Hreq].
  - intros id Hid. eapply moved_attempted; [apply Hm|]. apply Hatt. specialize (Hle id). lia.
Qed.

Lemma attempt_inv s now h l1 l2 ops' :
  upload_inv s -> us_handlers s = l1 ++ h :: l2 -> uh_phase h = Initial ->
  _mark_attempting_local setting now (us_db s) (us_operations s) (uh_operation h) (Some (uh_context h)) true = Ok ops' ->
  upload_inv {| us_db := us_db s; us_operations := ops'; us_handlers := l1 ++ at_phase h AttemptedUnfenced :: l2;
                us_posts := us_posts s |}.
Proof.
  intros [Hops Hreq Hatt] Hh Hp Ha. pose proof (attempt_moves _ _ _ _ _ _ _ _ Ha) as Hm.
  destruct (attempt_grants _ _ _ _ _ _ _ _ (oi_ids _ Hops) Ha) as [Hnone Hsome].
  assert (Hfree : requests (uh_operation h) (l1 ++ l2) (us_posts s) = 0).
  { specialize (Hatt (uh_operation h)). rewrite Hh, requests_middle in Hatt. unfold may_post in Hatt. rewrite Hp, andb_false_r in Hatt.
    destruct (requests (uh_operation h) (l1 ++ l2) (us_posts s)) as [|k]; [done|]. exfalso.
    destruct Hatt as (o & Ho & Hid & Hx); [lia|]. by rewrite (Hnone o Ho Hid) in Hx. }
  constructor; simpl.
  - by eapply moved_inv.
  - intros id. rewrite requests_middle. cbn [at_phase uh_operation may_post uh_phase].
    destruct (String.eqb_spec (uh_operation h) id) as [<-|Hne]; simpl; [lia|].
    specialize (Hreq id). rewrite Hh, requests_middle in Hreq. lia.
  - intros id Hid. destruct (String.eqb_spec (uh_operation h) id) as [<-|Hne]; [done|].
    eapply moved_attempted; [apply Hm|]. apply Hatt. rewrite Hh. rewrite requests_middle in Hid |- *.
    cbn [at_phase uh_operation] in Hid. rewrite (proj2 (String.eqb_neq _ _) Hne) in Hid. simpl in Hid. lia.
Qed.

Lemma post_inv s h l1 l2 :
  upload_inv s -> us_handlers s = l1 ++ h :: l2 -> uh_phase h = PostFenced ->
  upload_inv {| us_db := us_db s; us_operations := us_operations s; us_handlers := l1 ++ at_phase h RequestSent :: l2;
                us_posts := us_posts s ++ [uh_operation h] |}.
Proof.
  intros [Hops Hreq Hatt] Hh Hp.
  assert (Hsame : forall id, requests id (l1 ++ at_phase h RequestSent :: l2) (us_posts s ++ [uh_operation h])
                           = requests id (us_handlers s) (us_posts s)).
  { intros id. rewrite Hh, requests_snoc, !requests_middle. cbn [at_phase uh_operation]. unfold may_post at 1. simpl.
    unfold may_post. rewrite Hp, andb_false_r, andb_true_r, (String.eqb_sym id). lia. }
  constructor; simpl; [done|by intros id; rewrite Hsame|intros id; rewrite Hsame; apply Hatt].
Qed.

Lemma upload_step_inv s s' : upload_step s s' -> upload_inv s -> upload_inv s'.
Proof.
  intros Hstep Hinv. destruct Hstep.
  - by destruct Hinv.
  - apply claim_cases in H0 as [->|(task & -> & -> & Hv)]; [by destruct Hinv|]. destruct Hinv as [Hops Hreq Hatt].
    constructor; simpl; [apply insert_inv; [done|done|]|done|].
    + split; simpl; [by intros [?|[?|?%elem_of_nil]%elem_of_cons]%elem_of_cons|done].
    + intros id (o & Ho & Hid)%Hatt. exists o. split; [apply elem_of_app; by left|done].
  - destruct Hinv as [Hops Hreq Hatt].
    assert (Hsame : forall i, requests i ({| uh_context := context; uh_operation := id; uh_phase := Initial |} :: us_handlers s)
                                (us_posts s) = requests i (us_handlers s) (us_posts s)).
    { intros i. unfold requests. simpl. by rewrite andb_false_r. }
    constructor; simpl; [done|by intros i; rewrite Hsame|intros i; rewrite Hsame; apply Hatt].
  - by eapply attempt_inv.
  - destruct Hinv as [Hops Hreq Hatt].
    assert (Hsame : forall id, requests id (l1 ++ at_phase h PostFenced :: l2) (us_posts s) = requests id (us_handlers s) (us_posts s)).
    { intros id. rewrite H0, !requests_middle. cbn [at_phase uh_operation]. unfold may_post. by rewrite H1. }
    constructor; simpl; [done|by intros id; rewrite Hsame|intros id; rewrite Hsame; apply Hatt].
  - by eapply post_inv.
  - apply moves_inv; [done|by eapply submitted_fenced_moves|]. intros id. rewrite H0, requests_middle. lia.
  - apply moves_inv; [done|by eapply terminal_moves|]. intros id. rewrite H0, requests_middle. lia.
  - apply moves_inv; [done|apply rows_stay|]. intros id. rewrite H0, requests_middle. lia.
  - apply moves_inv; [done|by eapply attempt_moves|done].
  - apply moves_inv; [done|by eapply submitted_moves|done].
  - apply moves_inv; [done|by eapply succeeded_moves|done].
  - apply moves_inv; [done|by eapply terminal_moves|done].
Qed.

Lemma upload_reach s s' : rtc upload_step s s' -> upload_inv s -> upload_inv s'.
Proof. induction 1; eauto using upload_step_inv. Qed.
End History.

Definition upload_start (db : Db) : UploadState :=
  {| us_db := db; us_operations := []; us_handlers := []; us_posts := [] |}.

Lemma upload_start_inv db : upload_inv (upload_start db).
Proof.
  constructor; simpl; [|unfold requests; simpl; lia|unfold requests; simpl; lia].
  constructor; simpl; [apply NoDup_nil_2..|constructor].
Qed.

Lemma filter_count_NoDup (l : list uuid) : (forall id, length (List.filter (String.eqb id) l) <= 1) -> NoDup l.
Proof.
  induction l as [|x l IH]; intros H; [apply NoDup_nil_2|]. apply NoDup_cons. split.
  - intros Hx. specialize (H x). simpl in H. rewrite String.eqb_refl in H. simpl in H.
    assert (Hin : x ∈ List.filter (String.eqb x) l) by (apply elem_of_lfilter; by rewrite String.eqb_refl).
    destruct (List.filter _ l); [by apply elem_of_nil in Hin|simpl in H; lia].
  - apply IH. intros id. specialize (H id). simpl in H. destruct (_ =? _)%string; simpl in H; lia.
Qed.

Lemma task_keys_inj ops o o' t :
  NoDup (task_keys ops) -> o ∈ ops -> o' ∈ ops -> yo_production_task_id o = Some t -> yo_production_task_id o' = Some t -> o = o'.
Proof.
  induction ops as [|x ops IH]; [by intros _ ?%elem_of_nil|]. rewrite task_keys_cons.
  intros Hn [->|Ho]%elem_of_cons [->|Ho']%elem_of_cons Ht Ht'; [done| | |].
  - rewrite Ht in Hn. apply NoDup_cons in Hn as [Hx _]. destruct Hx. apply elem_of_task_keys. rewrite <-Ht'. by apply elem_map.
  - rewrite Ht' in Hn. apply NoDup_cons in Hn as [Hx _]. destruct Hx. apply elem_of_task_keys. rewrite <-Ht. by apply elem_map.
  - apply IH; try done. destruct (yo_production_task_id x); [by apply NoDup_cons in Hn as [_ ?]|done].
Qed.

(** C10. An upload is posted at most once.  In every history of handlers that run at the
    same time, start again and stop anywhere, no operation is posted twice, every
    posted operation was recorded as attempted before, and two posted operations never
    belong to the same production task or to the same node execution. *)
Theorem upload_posted_once setting `{!UploadGuards} db s :
  rtc (upload_step setting) (upload_start db) s ->
  NoDup (us_posts s)
  /\ (forall id, id ∈ us_posts s ->
        exists o, o ∈ us_operations s /\ yo_id o = id /\ yo_request_attempted_at o <> None)
  /\ (forall o o', o ∈ us_operations s -> o' ∈ us_operations s -> yo_id o ∈ us_posts s -> yo_id o' ∈ us_posts s ->
        (exists t, yo_production_task_id o = Some t /\ yo_production_task_id o' = Some t)
        \/ yo_node_execution_id o = yo_node_execution_id o' -> o = o').
Proof.
  intros Hreach. destruct (upload_reach _ _ _ Hreach (upload_start_inv db)) as [[_ Hnodes Htasks _] Hreq Hatt].
  split_and!.
  - apply filter_count_NoDup. intros id. specialize (Hreq id). unfold requests in Hreq. lia.
  - intros id Hid. apply Hatt. unfold requests.
    assert (Hin : id ∈ List.filter (String.eqb id) (us_posts s)) by (apply elem_of_lfilter; by rewrite String.eqb_refl).
    destruct (List.filter (String.eqb id) _); [by apply elem_of_nil in Hin|simpl; lia].
  - intros o o' Ho Ho' _ _ [(t & Ht & Ht')|Hnode]; [by eapply task_keys_inj|by eapply (NoDup_map_inj yo_node_execution_id)].
Qed.

(** ** The life of an operation *)

Lemma upload_step_forward setting `{!UploadGuards} s s' :
  upload_step setting s s' -> exists added, Forall2 row_forward (us_operations s ++ added) (us_operations s').
Proof.
  assert (Hmove : forall ops ops', rows_move ops ops' -> exists added, Forall2 row_forward (ops ++ added) ops').
  { intros ops ops' [HF _]. exists []. by rewrite app_nil_r. }
  destruct 1; simpl; try (apply Hmove, rows_stay); try (apply Hmove; eauto using attempt_moves, submitted_fenced_moves,
    submitted_moves, succeeded_moves, terminal_moves; done).
  apply claim_cases in H0 as [->|(task & -> & -> & _)]; [apply Hmove, rows_stay|].
  exists [reserve new_id task context]. apply rows_stay.
Qed.

(** Operations only move forward, and an attempt is never offered again: in every
    history a row stays, with the same production task and node execution; once
    attempted it remains attempted, and a later claim does not answer [submit] for it; and
    an operation that succeeded, failed or became uncertain never changes. *)
Theorem upload_operations_forward setting `{!UploadGuards} s s' o :
  rtc (upload_step setting) s s' -> o ∈ us_operations s ->
  exists o', o' ∈ us_operations s' /\ operation_identity o' = operation_identity o
    /\ (yo_request_attempted_at o <> None -> yo_request_attempted_at o' <> None /\ _action_for o' <> "submit")
    /\ (open_row o = false -> o' = o).
Proof.
  intros Hreach Ho.
  assert (Hex : exists o', o' ∈ us_operations s' /\ row_forward o o').
  { revert o Ho. induction Hreach as [s|s s1 s' Hstep _ IH]; intros o Ho; [by exists o|].
    destruct (upload_step_forward _ _ _ Hstep) as [added HF].
    assert (Hin : o ∈ us_operations s ++ added) by (apply elem_of_app; by left).
    apply list_elem_of_lookup in Hin as [i Hi]. destruct (Forall2_lookup_l _ _ _ _ _ HF Hi) as (o1 & Ho1 & Hf1).
    destruct (IH o1) as (o' & Ho' & Hf'); [by eapply list_elem_of_lookup_2|]. exists o'. split; [done|by etrans]. }
  destruct Hex as (o' & Ho' & Hid & Ha & Hopen). exists o'. split_and!; [done..| |done]. intros Hatt%Ha. split; [done|].
  unfold _action_for. rewrite (bool_decide_false (yo_request_attempted_at o' = None)) by done. rewrite andb_false_r.
  by repeat case_match.
Qed.

(** ** A sample upload: claimed, attempted, posted, submitted, and claimed again *)

#[local] Instance open_guards : UploadGuards := {
  lock_producer _ _ _ := Ok false;
  require_local_upload _ _ _ := Ok ();
  require_worker_registration_lease _ _ := Ok () }.

Definition no_claim : NodeExecutionClaim :=
  {| cl_job_id := ""; cl_node_execution_id := ""; cl_worker_id := ""; cl_started_at := 0;
     cl_worker_registration_id := None; cl_worker_lease_epoch := None |}.

Definition running : NodeExecutionClaim * Db :=
  ok_or (no_claim, sample_db) (_claim_node_execution "" sample_db "b" "b-n" "w" 5).

Definition upload_context : UploadOperationContext :=
  {| uc_job_id := "b"; uc_node_execution_id := "b-n"; uc_execution_claim := running.1; uc_input_artifact_id := "a1";
     uc_content_sha256 := "sha"; uc_title := "Clip"; uc_privacy := "private" |}.

Definition manager_task : string := "00000000-0000-0000-0000-000000000001".

Definition reserved_operation : YouTubeUploadOperation := reserve "y1" (Some "t1") upload_context.

Definition posted_state : UploadState :=
  {| us_db := running.2; us_operations := [submit_row manager_task (Some 7%Z) (attempt_row 7 reserved_operation)];
     us_handlers := []; us_posts := ["y1"] |}.

Lemma posted_run : rtc (upload_step "") (upload_start running.2) posted_state.
Proof.
  eapply rtc_l; [eapply (us_claim "" "y1" [] upload_context "submit"); vm_compute; reflexivity|].
  eapply rtc_l; [eapply (us_enter "" upload_context "y1"); vm_compute; reflexivity|].
  eapply rtc_l; [eapply (us_attempt "" 7 _ [] []); [reflexivity|reflexivity|vm_compute; reflexivity]|].
  eapply rtc_l; [eapply (us_fence "" _ [] []); [reflexivity|reflexivity|vm_compute; reflexivity]|].
  eapply rtc_l; [eapply (us_post "" _ [] []); reflexivity|].
  eapply rtc_l; [eapply (us_submitted_fenced "" manager_task _ [] []); [reflexivity|reflexivity|vm_compute; reflexivity]|].
  vm_compute. apply rtc_refl.
Defined.

Lemma upload_posted_once_witness : us_posts posted_state = ["y1"] /\ NoDup (us_posts posted_state).
Proof. split; [reflexivity|]. exact (proj1 (upload_posted_once "" running.2 posted_state posted_run)). Defined.

(** A second claim of the submitted operation resumes it. *)
Lemma upload_operations_forward_witness :
  (exists o, claim_upload "" "y2" running.2 (us_operations posted_state) (us_operations posted_state) upload_context
             = Ok ("resume", o, us_operations posted_state))
  /\ exists o', o' ∈ us_operations posted_state /\ _action_for o' <> "submit".
Proof.
  split; [eexists; vm_compute; reflexivity|].
  destruct (upload_operations_forward "" posted_state posted_state (submit_row manager_task (Some 7%Z) (attempt_row 7 reserved_operation)))
    as (o' & Ho' & _ & Ha & _); [apply rtc_refl|by left|].
  exists o'. split; [exact Ho'|]. apply Ha. vm_compute. discriminate.
Defined.
