(* ===== verification/Retention.v ===== *)
(** * Retention ([channel_agent/retention.py])

    Old queue items, tick audits and feedback are deleted, except for what documents a
    publication: every task with a YouTube publication or upload operation, its
    publications, their metric schedules, the queue items whose payload names one of
    them, and all queue items connected to those through parents and children.

    The recursive query is a least fixed point: it is iterated once per row of the table,
    and [related_exact] shows that this reaches it.  The tables hold the columns the
    queries read. *)

From stdpp Require Import base tactics list strings relations sets.
From Stdlib Require Import ZArith Lia Ascii.
From S2P Require Import Prelude PyStr PyValue PyJson PyTime JobModel ChannelQueue UploadOps.

Open Scope string_scope.
Open Scope list_scope.

(** ** Rows *)

Record PublicationRecord := { pb_id : uuid; pb_production_task_id : uuid; pb_platform : string }.
Record PublicationMetricSchedule := { pm_id : uuid; pm_publication_id : uuid }.
Record AgentTickAudit := { ta_id : uuid; ta_started_at : datetime; ta_replay_status : string }.
Record FeedbackSnapshot := { fs_id : uuid; fs_publication_id : uuid; fs_collected_at : datetime }.

Record RetentionDb := {
  rt_queue : queue_table;
  rt_publications : list PublicationRecord;
  rt_operations : list YouTubeUploadOperation;
  rt_metrics : list PublicationMetricSchedule;
  rt_audits : list AgentTickAudit;
  rt_feedback : list FeedbackSnapshot }.

Record RetentionResult := {
  deleted_queue_items : Z;
  deleted_audits : Z;
  deleted_feedback : Z }.

(** ** Evidence *)

Definition evidence_tasks (db : RetentionDb) : list uuid :=
  map pb_production_task_id (List.filter (fun p => (lower (pb_platform p) =? "youtube")%string) (rt_publications db))
  ++ omap yo_production_task_id (rt_operations db).

Definition evidence_publications (db : RetentionDb) : list uuid :=
  map pb_id (List.filter (fun p => bool_decide (pb_production_task_id p ∈ evidence_tasks db)) (rt_publications db)).

Definition evidence_metrics (db : RetentionDb) : list uuid :=
  map pm_id (List.filter (fun m => bool_decide (pm_publication_id m ∈ evidence_publications db)) (rt_metrics db)).

(** [replace(cast(value, String), '-', '')]. *)
Fixpoint reference (s : string) : string :=
  match s with
  | EmptyString => EmptyString
  | String c s' => if (c =? "-")%char then reference s' else String c (reference s')
  end.

(** [payload_json[key].as_string()]: SQL [NULL] for a missing key and for [null]. *)
Definition json_text (payload : config) (key : string) : option string :=
  match payload.[? key] with
  | None | Some VNone => None
  | Some (VStr s) => Some s
  | Some v => Some (json_dumps json_default v)
  end.

Definition refers (ids : list uuid) (key : string) (item : ChannelOpsQueueItem) : bool :=
  match json_text (qi_payload_json item) key with
  | Some s => bool_decide (reference s ∈ map reference ids)
  | None => false
  end.

Definition direct_evidence (db : RetentionDb) (item : ChannelOpsQueueItem) : bool :=
  refers (evidence_tasks db) "production_task_id" item
  || refers (evidence_publications db) "publication_id" item
  || refers (evidence_metrics db) "metric_schedule_id" item.

(** [a] is the parent or a child of [b]. *)
Definition linked (a b : ChannelOpsQueueItem) : bool :=
  bool_decide (qi_parent_queue_item_id b = Some (qi_id a)) || bool_decide (qi_parent_queue_item_id a = Some (qi_id b)).

(** One turn of the recursive query. *)
Definition grow (t rows : queue_table) : queue_table :=
  List.filter (fun q => bool_decide (qi_id q ∈ map qi_id rows) || existsb (linked q) rows) t.

Fixpoint related (fuel : nat) (t rows : queue_table) : queue_table :=
  match fuel with O => rows | S fuel' => related fuel' t (grow t rows) end.

Definition _publication_evidence (db : RetentionDb) : list uuid * queue_table :=
  let t := rt_queue db in
  (evidence_publications db, related (length t) t (List.filter (direct_evidence db) t)).

(** ** Cleanup *)

Definition CLEANED_STATUSES : list string := [QUEUE_SUCCEEDED; QUEUE_DEAD_LETTERED; QUEUE_CANCELLED].

Definition cutoff (now : datetime) (retention_days : Z) : datetime := now - Z.max retention_days 0 * DAY_US.

Definition expired_item (now : datetime) (retention_days : Z) (protected : queue_table) (i : ChannelOpsQueueItem) : bool :=
  bool_decide (qi_status i ∈ CLEANED_STATUSES) && (qi_created_at i <? cutoff now retention_days)%Z
  && negb (bool_decide (qi_id i ∈ map qi_id protected)).

Definition expired_audit (now : datetime) (retention_days : Z) (a : AgentTickAudit) : bool :=
  (ta_started_at a <? cutoff now retention_days)%Z && (ta_replay_status a =? "legacy_unreplayable")%string.

Definition expired_feedback (now : datetime) (retention_days : Z) (publications : list uuid) (f : FeedbackSnapshot) : bool :=
  (fs_collected_at f <? cutoff now retention_days)%Z && negb (bool_decide (fs_publication_id f ∈ publications)).

Definition cleanup_expired (now : datetime) (queue_days audit_days feedback_days : Z) (db : RetentionDb)
    : RetentionResult * RetentionDb :=
  let '(publications, protected) := _publication_evidence db in
  let queue_expired := expired_item now queue_days protected in
  let audit_expired := expired_audit now audit_days in
  let feedback_expired := expired_feedback now feedback_days publications in
  let count {A} (p : A -> bool) l := Z.of_nat (length (List.filter p l)) in
  let keep {A} (p : A -> bool) l := List.filter (fun x => negb (p x)) l in
  ({| deleted_queue_items := count queue_expired (rt_queue db); deleted_audits := count audit_expired (rt_audits db);
      deleted_feedback := count feedback_expired (rt_feedback db) |},
   {| rt_queue := keep queue_expired (rt_queue db); rt_publications := rt_publications db;
      rt_operations := rt_operations db; rt_metrics := rt_metrics db; rt_audits := keep audit_expired (rt_audits db);
      rt_feedback := keep feedback_expired (rt_feedback db) |}).

(** ** The recursive query reaches its fixed point *)

(** Neighbours in the table, and the items connected to evidence. *)
Definition neighbour (t : queue_table) (a b : ChannelOpsQueueItem) : Prop := a ∈ t /\ b ∈ t /\ linked a b = true.

Definition documented (db : RetentionDb) (i : ChannelOpsQueueItem) : Prop :=
  exists b, b ∈ rt_queue db /\ direct_evidence db b = true /\ rtc (neighbour (rt_queue db)) b i.

Lemma linked_sym a b : linked a b = linked b a.
Proof. unfold linked. by rewrite orb_comm. Qed.

Lemma filter_shorter {A} (p q : A -> bool) (l : list A) :
  (forall x, x ∈ l -> p x = true -> q x = true) ->
  (length (List.filter p l) < length (List.filter q l))%nat \/ List.filter p l = List.filter q l.
Proof.
  induction l as [|x l IH]; [by right|]. intros Hpq. simpl.
  destruct IH as [IH|IH]; [intros y Hy; apply Hpq; by right|..]; destruct (p x) eqn:Hp, (q x) eqn:Hq; simpl; try lia.
  all: try (rewrite Hpq in Hq; [done | by left | done]).
  - right. by rewrite IH.
  - left. rewrite IH. lia.
  - by right.
Qed.

Section Closure.
Context (t : queue_table) (Hnd : NoDup (map qi_id t)).

Lemma elem_grow rows q : rows ⊆ t -> q ∈ grow t rows <-> q ∈ t /\ (q ∈ rows \/ exists r, r ∈ rows /\ linked q r = true).
Proof.
  intros Hsub. unfold grow. rewrite elem_of_lfilter, orb_true_iff, bool_decide_eq_true, existsb_exists.
  setoid_rewrite <- list_elem_of_In. split; intros [Hq [Hr|Hr]]; split; auto.
  - left. apply list_elem_of_fmap in Hr as (r & Hid & Hr). by rewrite (NoDup_map_inj qi_id t q r) by auto.
  - left. by apply elem_map.
Qed.

Lemma grow_sub rows : grow t rows ⊆ t.
Proof. intros q. unfold grow. by intros [? _]%elem_of_lfilter. Qed.

Lemma related_step n rows : related n t (grow t rows) = grow t (related n t rows).
Proof. revert rows. induction n as [|n IH]; intros rows; [done|]. simpl. apply IH. Qed.

Lemma grow_filter p : exists q, grow t (List.filter p t) = List.filter q t
  /\ forall x, x ∈ t -> p x = true -> q x = true.
Proof.
  eexists. split; [reflexivity|]. intros x Hx Hp. apply orb_true_iff. left. apply bool_decide_eq_true.
  apply elem_map, elem_of_lfilter. done.
Qed.

(** After [n] turns the query is at rest or has [n] rows. *)
Lemma related_grows n p : exists q, related n t (List.filter p t) = List.filter q t
  /\ (forall x, x ∈ t -> p x = true -> q x = true)
  /\ (grow t (List.filter q t) = List.filter q t \/ (n <= length (List.filter q t))%nat).
Proof.
  induction n as [|n (q & Hr & Hmono & Hrest)]; [exists p; split_and!; auto with lia|]. cbn [related].
  rewrite related_step, Hr. destruct Hrest as [Hrest|Hlen]; [rewrite Hrest; exists q; auto|].
  destruct (grow_filter q) as (q' & Hg & Hmono'). exists q'. split_and!; [done | auto |].
  destruct (filter_shorter q q' t Hmono') as [Hlt|Heq]; [right; lia|]. left. by rewrite <- Heq, Hg.
Qed.

Lemma related_rest p : exists q, related (length t) t (List.filter p t) = List.filter q t
  /\ (forall x, x ∈ t -> p x = true -> q x = true) /\ grow t (List.filter q t) = List.filter q t.
Proof.
  destruct (related_grows (length t) p) as (q & Hr & Hmono & [Hrest|Hlen]); [by exists q|].
  exists q. split_and!; [done..|]. destruct (grow_filter q) as (q' & Hg & Hmono'). rewrite Hg.
  destruct (filter_shorter q q' t Hmono') as [Hlt|Heq]; [|done].
  pose proof (List.filter_length_le q' t). lia.
Qed.

Lemma related_sound n p i : i ∈ related n t (List.filter p t) ->
  i ∈ t /\ exists b, b ∈ t /\ p b = true /\ rtc (neighbour t) b i.
Proof.
  revert i. induction n as [|n IH]; intros i.
  - intros [Hi Hp]%elem_of_lfilter. split; [done|]. exists i. split_and!; [done | done | apply rtc_refl].
  - cbn [related]. rewrite related_step. intros Hi. rewrite elem_grow in Hi by (intros x Hx; by apply IH).
    destruct Hi as [Hi [Hr|(r & Hr & Hl)]]; [by apply IH|]. split; [done|].
    destruct (IH r Hr) as (Hrt & b & Hb & Hp & Hpath). exists b. split_and!; [done | done|].
    eapply rtc_r; [done|]. split_and!; [done | done | by rewrite linked_sym].
Qed.

(** The recursive query finds exactly the rows connected to its first ones. *)
Lemma related_exact p i : i ∈ related (length t) t (List.filter p t) <->
  i ∈ t /\ exists b, b ∈ t /\ p b = true /\ rtc (neighbour t) b i.
Proof.
  split; [apply related_sound|]. intros (_ & b & Hb & Hp & Hpath).
  destruct (related_rest p) as (q & -> & Hmono & Hrest).
  assert (Hq : b ∈ List.filter q t) by (apply elem_of_lfilter; auto). clear Hb Hp.
  induction Hpath as [b|b c i (Hb & Hc & Hl) _ IH]; [done|]. apply IH. rewrite <- Hrest.
  apply elem_grow; [intros x; by intros [? _]%elem_of_lfilter|]. split; [done|]. right. exists b. by rewrite linked_sym.
Qed.
End Closure.

(** ** Cleanup keeps the evidence *)

Section Cleanup.
Context (now : datetime) (queue_days audit_days feedback_days : Z) (db : RetentionDb).
Context (Hnd : NoDup (map qi_id (rt_queue db))).

Abbreviation cleaned := (cleanup_expired now queue_days audit_days feedback_days db).2.

Lemma documented_elem i : documented db i -> i ∈ rt_queue db.
Proof.
  intros (b & Hb & _ & Hpath). apply rtc_inv_r in Hpath; destruct Hpath as [->|(c & _ & _ & Hi & _)]; done.
Qed.

Lemma protected_documented i : i ∈ (_publication_evidence db).2 <-> documented db i.
Proof.
  simpl. rewrite related_exact by done. split; [by intros [_ ?]|]. intros H. split; [by apply documented_elem | done].
Qed.

Lemma protected_id i : i ∈ rt_queue db -> qi_id i ∈ map qi_id (_publication_evidence db).2 <-> documented db i.
Proof.
  intros Hi. rewrite <- protected_documented. split; [|apply elem_map].
  intros (j & Hid & Hj)%list_elem_of_fmap. rewrite (NoDup_map_inj qi_id (rt_queue db) i j); [done | done | done | | done].
  by apply documented_elem, protected_documented.
Qed.

Lemma cleaned_item i : i ∈ rt_queue cleaned <->
  i ∈ rt_queue db /\ (documented db i \/ qi_status i ∉ CLEANED_STATUSES \/ (cutoff now queue_days <= qi_created_at i)%Z).
Proof.
  unfold cleanup_expired. rewrite (surjective_pairing (_publication_evidence db)). cbn [rt_queue snd].
  rewrite elem_of_lfilter. split; intros [Hi H]; (split; [done|]).
  - unfold expired_item in H. rewrite <- protected_id by done.
    apply negb_true_iff, andb_false_iff in H as [[H|H]%andb_false_iff|H].
    + right; left. by apply bool_decide_eq_false in H.
    + right; right. by apply Z.ltb_ge.
    + left. by apply negb_false_iff, bool_decide_eq_true in H.
  - apply negb_true_iff. unfold expired_item. destruct H as [H|[H|H]].
    + rewrite (bool_decide_eq_true_2 (qi_id i ∈ _)) by (by apply protected_id). by rewrite andb_false_r.
    + by rewrite bool_decide_eq_false_2.
    + apply Z.ltb_ge in H as ->. by rewrite andb_false_r.
Qed.

Lemma path_documented b i : documented db b -> rtc (neighbour (rt_queue db)) b i -> rtc (neighbour (rt_queue cleaned)) b i.
Proof.
  intros Hb Hpath. induction Hpath as [b|b c i Hbc _ IH]; [apply rtc_refl|].
  assert (Hc : documented db c) by (destruct Hb as (a & ? & ? & Ha); exists a; split_and!; [done | done | by eapply rtc_r]).
  eapply rtc_l; [|by apply IH]. destruct Hbc as (? & ? & ?).
  split_and!; [by apply cleaned_item; auto.. | done].
Qed.

Lemma documented_cleaned i : documented db i -> documented cleaned i.
Proof.
  intros (b & Hb & Hd & Hpath). assert (Hdoc : documented db b) by (exists b; split_and!; [done | done | apply rtc_refl]).
  exists b. split_and!; [apply cleaned_item; auto | done | by apply path_documented].
Qed.

Lemma cleaned_ids : NoDup (map qi_id (rt_queue cleaned)).
Proof. by apply NoDup_map_filter. Qed.
End Cleanup.

Lemma filter_all {A} (p : A -> bool) l : (forall x, x ∈ l -> p x = false) -> List.filter (fun x => negb (p x)) l = l.
Proof.
  induction l as [|x l IH]; [done|]. intros H. simpl. rewrite (H x), IH by (by left || (intros; apply H; by right)). done.
Qed.

Lemma kept_false {A} (p : A -> bool) l x : x ∈ List.filter (fun x => negb (p x)) l -> p x = false.
Proof. by intros [_ ?%negb_true_iff]%elem_of_lfilter. Qed.

(** A second run at the same time finds nothing to delete. *)
Lemma cleanup_twice now qd ad fd db : NoDup (map qi_id (rt_queue db)) ->
  let db' := (cleanup_expired now qd ad fd db).2 in
  cleanup_expired now qd ad fd db' = ({| deleted_queue_items := 0; deleted_audits := 0; deleted_feedback := 0 |}, db').
Proof.
  intros Hnd db'.
  assert (Hq : forall i, i ∈ rt_queue db' -> expired_item now qd (_publication_evidence db').2 i = false).
  { intros i Hi. assert (Hi' := Hi). apply cleaned_item in Hi' as [Hin Hkeep]; [|done]. unfold expired_item.
    destruct Hkeep as [H|[H|H]].
    - rewrite (bool_decide_eq_true_2 (qi_id i ∈ _)); [by rewrite andb_false_r|].
      apply protected_id; [by apply cleaned_ids | done | by apply documented_cleaned].
    - by rewrite bool_decide_eq_false_2.
    - apply Z.ltb_ge in H as ->. by rewrite andb_false_r. }
  assert (Ha : forall a, a ∈ rt_audits db' -> expired_audit now ad a = false) by (intros a; apply kept_false).
  assert (Hf : forall f, f ∈ rt_feedback db' -> expired_feedback now fd (evidence_publications db') f = false)
    by (intros f; apply kept_false).
  unfold cleanup_expired at 1. rewrite (surjective_pairing (_publication_evidence db')).
  rewrite !filter_none, !filter_all by done. by destruct db'.
Qed.

(** C33. Retention deletes what is old and settled, and never the evidence of a
    publication.  A queue item goes exactly when it succeeded, was dead-lettered or
    cancelled, is older than the limit, and no chain of parents and children connects it
    to an item that names a published or uploaded task, one of its publications or a
    metric schedule of one; feedback goes exactly when it is old and not about such a
    publication; the documented items stay documented; and a second run deletes
    nothing. *)
Theorem retention_keeps_evidence now qd ad fd db res db' :
  NoDup (map qi_id (rt_queue db)) -> cleanup_expired now qd ad fd db = (res, db') ->
  (forall i, i ∈ rt_queue db' <->
     i ∈ rt_queue db /\ (documented db i \/ qi_status i ∉ CLEANED_STATUSES \/ (cutoff now qd <= qi_created_at i)%Z))
  /\ (forall f, f ∈ rt_feedback db' <->
     f ∈ rt_feedback db /\ (fs_publication_id f ∈ evidence_publications db \/ (cutoff now fd <= fs_collected_at f)%Z))
  /\ (forall i, documented db i -> documented db' i)
  /\ cleanup_expired now qd ad fd db'
     = ({| deleted_queue_items := 0; deleted_audits := 0; deleted_feedback := 0 |}, db').
Proof.
  intros Hnd Hc. assert (Hdb' : db' = (cleanup_expired now qd ad fd db).2) by (by rewrite Hc). rewrite Hdb'. split_and!.
  - intros i. by apply cleaned_item.
  - intros f. unfold cleanup_expired. rewrite (surjective_pairing (_publication_evidence db)). cbn [rt_feedback snd].
    rewrite elem_of_lfilter, negb_true_iff. unfold expired_feedback.
    rewrite andb_false_iff, negb_false_iff, bool_decide_eq_true, Z.ltb_ge. tauto.
  - intros i. by apply documented_cleaned.
  - by apply cleanup_twice.
Qed.

(** A published task: the item that names the publication, its child and an unrelated
    item, all settled long ago. *)
Definition settled_item (id : uuid) (parent : option uuid) (payload : config) : ChannelOpsQueueItem :=
  let i := new_item id 0 {| eq_kind := "collect_metrics"; eq_idempotency_key := id; eq_payload := Some payload;
                            eq_priority := 100; eq_run_after := None; eq_channel_profile_id := None;
                            eq_parent_queue_item_id := parent; eq_max_attempts := 3 |} in
  set_queue_state {| qs_status := QUEUE_SUCCEEDED; qs_run_after := 0; qs_locked_at := None; qs_locked_by := None;
                     qs_attempt_count := 1; qs_last_error := None; qs_dead_letter_at := None |} i.

Definition published_db : RetentionDb :=
  {| rt_queue := [settled_item "q3" None []; settled_item "q2" (Some "q1") [];
                  settled_item "q1" None [("publication_id", VStr "9a-b")]];
     rt_publications := [{| pb_id := "9-ab"; pb_production_task_id := "t1"; pb_platform := "YouTube" |}];
     rt_operations := []; rt_metrics := []; rt_audits := [];
     rt_feedback := [{| fs_id := "f1"; fs_publication_id := "9-ab"; fs_collected_at := 0 |};
                     {| fs_id := "f2"; fs_publication_id := "gone"; fs_collected_at := 0 |}] |}.

Definition published_cleanup := cleanup_expired (400 * DAY_US) 30 90 365 published_db.

Lemma retention_keeps_evidence_witness :
  map qi_id (rt_queue published_cleanup.2) = ["q2"; "q1"]
  /\ published_cleanup.1 = {| deleted_queue_items := 1; deleted_audits := 0; deleted_feedback := 1 |}
  /\ cleanup_expired (400 * DAY_US) 30 90 365 published_cleanup.2
     = ({| deleted_queue_items := 0; deleted_audits := 0; deleted_feedback := 0 |}, published_cleanup.2).
Proof.
  split; [vm_compute; reflexivity|]. split; [vm_compute; reflexivity|].
  refine (proj2 (proj2 (proj2 (retention_keeps_evidence (400 * DAY_US) 30 90 365 published_db published_cleanup.1 _ _ _)))).
  - apply (bool_decide_eq_true_1 (NoDup (map qi_id (rt_queue published_db)))). vm_compute. reflexivity.
  - apply surjective_pairing.
Defined.
