(* ===== verification/ArtifactCache.v ===== *)
(** * The cache of intermediate artifacts ([orchestrator/artifact_cache.py])

    The result of a deterministic node is stored under a digest of the node type,
    its configuration without transient keys and the identity of its inputs, and
    reused by later nodes with the same digest. *)

From stdpp Require Import base tactics list strings sorting.
From Stdlib Require Import ZArith Lia Ascii.
From S2P Require Import Prelude PyStr PyValue PyJson PyUrl ExternalUrl Pipeline JobModel WorkerModel.

Open Scope string_scope.
Open Scope list_scope.

Definition CACHE_SCHEMA_VERSION : Z := 1.

Definition DETERMINISTIC_NODE_TYPES : list string :=
  ["trim"; "transcode"; "vertical_crop"; "concat_many"; "montage_assembler"; "subtitle"; "title_overlay";
   "bgm"; "watermark"; "concat_timeline"; "concat_vertical_timeline"; "url_download"].

Definition TRANSIENT_CONFIG_KEYS : list string :=
  ["disable_cache"; "cache_key"; "retry_count"; "worker_id"; "queued_at"; "started_at"; "completed_at"; "debug"].

Definition _truthy (v : pyval) : bool :=
  match v with
  | VStr s => bool_decide (lower (strip s) ∈ ["1"; "true"; "yes"; "on"])
  | _ => truthy v
  end.

Definition is_cache_eligible (node_type : string) (node_config : config) (input_handles : list string) : bool :=
  if negb (bool_decide (node_type ∈ DETERMINISTIC_NODE_TYPES)) then false
  else if _truthy (dict_get node_config "disable_cache") then false
  else if (node_type =? "url_download")%string then
    match dict_get node_config "url" with
    | VStr url => negb (is_empty (strip url)) && match input_handles with [] => true | _ => false end
    | _ => false
    end
  else match input_handles with [] => false | _ => true end.

Definition _stable_config (c : config) : config :=
  List.filter (fun kv => negb (startswith kv.1 "_" || bool_decide (kv.1 ∈ TRANSIENT_CONFIG_KEYS))) c.

(** ** Natural order of handles *)

(** Maximal runs of digits and of other characters. *)
Fixpoint digit_runs (s : string) : list (bool * string) :=
  match s with
  | EmptyString => []
  | String c s' =>
      match digit_runs s' with
      | (b, r) :: rest =>
          if Bool.eqb b (is_digit c) then (b, String c r) :: rest
          else (is_digit c, String c EmptyString) :: (b, r) :: rest
      | [] => [(is_digit c, String c EmptyString)]
      end
  end.

Definition key_part (p : bool * string) : Res (Z + string) :=
  if p.1 then match int_of_string p.2 with
              | Some z => Ok (inl z)
              | None => Raise (ValueError "Exceeds the limit for integer string conversion")
              end
  else Ok (inr p.2).

Definition _natural_key (value : string) : Res (list (Z + string)) := mapMR key_part (digit_runs value).

(** [k <= k'] on keys whose parts have the same kinds: the first difference
    decides. *)
Fixpoint natural_le (k k' : list (Z + string)) : bool :=
  match k, k' with
  | [], _ => true
  | _ :: _, [] => false
  | inl x :: r, inl y :: r' => if (x =? y)%Z then natural_le r r' else (x <? y)%Z
  | inr x :: r, inr y :: r' => if (x =? y)%string then natural_le r r' else str_ltb x y
  | inl _ :: _, inr _ :: _ => true
  | inr _ :: _, inl _ :: _ => false
  end.

(** Runs alternate, so two keys compare a number with a string exactly when one
    begins with a digit and the other does not; a sort of such keys compares the
    two groups and raises. *)
Definition starts_with_number (k : list (Z + string)) : bool :=
  match k with inl _ :: _ => true | _ => false end.
Definition starts_with_text (k : list (Z + string)) : bool :=
  match k with inr _ :: _ => true | _ => false end.

Fixpoint insert_by_key {A} (x : list (Z + string) * A) (l : list (list (Z + string) * A))
    : list (list (Z + string) * A) :=
  match l with
  | [] => [x]
  | y :: l' => if natural_le x.1 y.1 then x :: l else y :: insert_by_key x l'
  end.

(** The stable sort of [sorted(..., key=...)]. *)
Definition sort_by_key {A} (l : list (list (Z + string) * A)) : list (list (Z + string) * A) :=
  foldr insert_by_key [] l.

Definition _ordered_inputs (inputs : list (string * Artifact)) : Res (list (string * Artifact)) :=
  keyed ← mapMR (fun p => k ← _natural_key p.1; Ok (k, p)) inputs;
  if existsb (fun p => starts_with_number p.1) keyed && existsb (fun p => starts_with_text p.1) keyed
  then Raise TypeError
  else Ok (map snd (sort_by_key keyed)).

(** ** Digests *)

Section Cache.
Context (env : Env).

Definition _sha256_json (v : pyval) : string := sha256 env (json_dumps json_compact_text v).

Definition _stable_config_for_node (node_type : string) (c : config) : Res config :=
  let result := _stable_config c in
  if (node_type =? "url_download")%string then
    match result.[? "url"] with
    | Some (VStr url) =>
        u ← normalize_external_media_url url; Ok result.["url" <- VStr u]
    | _ => Ok result
    end
  else Ok result.

Definition opt_int (z : option Z) : pyval := match z with Some z => VInt z | None => VNone end.

Definition signature_item (p : string * Artifact) : pyval :=
  VDict [("handle", VStr p.1); ("artifact_id", VStr (a_id p.2)); ("storage_backend", VStr (a_storage_backend p.2));
         ("storage_path", VStr (a_storage_path p.2)); ("file_size", opt_int (a_file_size p.2));
         ("media_info_hash", VStr (_sha256_json (VDict (a_media_info p.2))))].

Definition _input_signature (inputs : list (string * Artifact)) : Res pyval :=
  ordered ← _ordered_inputs inputs; Ok (VList (map signature_item ordered)).

Definition cache_payload (node_type : string) (node_config : config) (inputs : list (string * Artifact))
    : Res pyval :=
  stable ← _stable_config_for_node node_type node_config;
  signature ← _input_signature inputs;
  Ok (VDict [("schema_version", VInt CACHE_SCHEMA_VERSION); ("node_type", VStr node_type);
             ("node_config", VDict stable); ("inputs", signature)]).

Definition cache_key (node_type : string) (node_config : config) (inputs : list (string * Artifact)) : Res string :=
  p ← cache_payload node_type node_config inputs; Ok (_sha256_json p).

Definition node_config_hash (node_type : string) (node_config : config) : Res string :=
  stable ← _stable_config_for_node node_type node_config; Ok (_sha256_json (VDict stable)).

Definition input_signature_hash (inputs : list (string * Artifact)) : Res string :=
  signature ← _input_signature inputs; Ok (_sha256_json signature).

(** ** Rows *)

Definition set_output (o : option uuid) (e : IntermediateArtifactCache) : IntermediateArtifactCache :=
  {| ic_cache_key := ic_cache_key e; ic_node_type := ic_node_type e; ic_node_config_hash := ic_node_config_hash e;
     ic_input_signature_hash := ic_input_signature_hash e; ic_output_artifact_id := o;
     ic_storage_backend := ic_storage_backend e; ic_storage_path := ic_storage_path e;
     ic_filename := ic_filename e; ic_mime_type := ic_mime_type e; ic_file_size := ic_file_size e;
     ic_media_info := ic_media_info e; ic_last_used_at := ic_last_used_at e; ic_hit_count := ic_hit_count e;
     ic_metadata_json := ic_metadata_json e |}.

Definition count_hit (now : datetime) (e : IntermediateArtifactCache) : IntermediateArtifactCache :=
  {| ic_cache_key := ic_cache_key e; ic_node_type := ic_node_type e; ic_node_config_hash := ic_node_config_hash e;
     ic_input_signature_hash := ic_input_signature_hash e; ic_output_artifact_id := ic_output_artifact_id e;
     ic_storage_backend := ic_storage_backend e; ic_storage_path := ic_storage_path e;
     ic_filename := ic_filename e; ic_mime_type := ic_mime_type e; ic_file_size := ic_file_size e;
     ic_media_info := ic_media_info e; ic_last_used_at := now; ic_hit_count := ic_hit_count e + 1;
     ic_metadata_json := ic_metadata_json e |}.

Definition filled (s : option string) : bool := match s with Some s => negb (is_empty s) | None => false end.

(** The entry says where a durable copy of the artifact is. *)
Definition durable (e : IntermediateArtifactCache) : bool :=
  filled (ic_storage_backend e) && filled (ic_storage_path e) && filled (ic_filename e).

Definition put_entry (e : IntermediateArtifactCache) (db : Db) : Db :=
  put_cache (db_cache db).[ic_cache_key e <- e] db.

(** Forgets an output artifact that no longer exists. *)
Definition check_output (e : IntermediateArtifactCache) (db : Db) : IntermediateArtifactCache * Db :=
  match ic_output_artifact_id e with
  | Some o =>
      match (db_artifacts db).[? o] with
      | Some _ => (e, db)
      | None => (set_output None e, put_entry (set_output None e) db)
      end
  | None => (e, db)
  end.

Definition lookup (db : Db) (node_type : string) (node_config : config) (inputs : list (string * Artifact))
    (registered : bool) : Res (option IntermediateArtifactCache * Db) :=
  if negb (is_cache_eligible node_type node_config (dkeys inputs)) then Ok (None, db)
  else
    key ← cache_key node_type node_config inputs;
    match (db_cache db).[? key] with
    | None => Ok (None, db)
    | Some entry =>
        if registered && negb (durable entry) then Ok (None, db)
        else
          let '(entry, db) := check_output entry db in
          if negb (durable entry) then Ok (None, put_cache (dpop (db_cache db) key) db)
          else Ok (Some entry, db)
    end.

Definition record_hit (now : datetime) (db : Db) (entry : IntermediateArtifactCache) : Db :=
  put_entry (count_hit now entry) db.

Definition store_metadata (node_id : string) (job_id : uuid) (ordered : list (string * Artifact)) (stable : config)
    : config :=
  [("cache_schema_version", VInt CACHE_SCHEMA_VERSION); ("node_id", VStr node_id);
   ("input_artifact_ids", VList (map (fun p => VStr (a_id p.2)) ordered));
   ("config_keys", VList (map VStr (merge_sort str_le (dkeys stable)))); ("created_by_job_id", VStr job_id)].

(** The entry of the key is created, or overwritten except for its use counts. *)
Definition store (now : datetime) (db : Db) (node_type : string) (node_config : config)
    (inputs : list (string * Artifact)) (output : Artifact) (node_id : string) (job_id : uuid) : Res Db :=
  if negb (is_cache_eligible node_type node_config (dkeys inputs)) then Ok db
  else
    key ← cache_key node_type node_config inputs;
    ordered ← _ordered_inputs inputs;
    stable ← _stable_config_for_node node_type node_config;
    config_hash ← node_config_hash node_type node_config;
    signature_hash ← input_signature_hash inputs;
    let entry := (db_cache db).[? key] in
    Ok (put_entry
          {| ic_cache_key := key; ic_node_type := node_type; ic_node_config_hash := config_hash;
             ic_input_signature_hash := signature_hash; ic_output_artifact_id := Some (a_id output);
             ic_storage_backend := Some (a_storage_backend output);
             ic_storage_path := Some (a_storage_path output); ic_filename := Some (a_filename output);
             ic_mime_type := a_mime_type output; ic_file_size := a_file_size output;
             ic_media_info := a_media_info output;
             ic_last_used_at := match entry with Some e => ic_last_used_at e | None => now end;
             ic_hit_count := match entry with Some e => ic_hit_count e | None => 0 end;
             ic_metadata_json := store_metadata node_id job_id ordered stable |} db).

Definition opt_string (s : option string) : string := default EmptyString s.

(** An artifact of the job for a cache hit: the cached row itself when it belongs
    to the job, or a new row for the same file. *)
Definition materialize_hit (db : Db) (entry : IntermediateArtifactCache) (job_id node_execution_id : uuid)
    : Res (Artifact * Db) :=
  if negb (durable entry) then Raise (ValueError "cache entry has no durable artifact snapshot")
  else
    let artifact :=
      {| a_id := fresh env "artifact" node_execution_id; a_job_id := job_id;
         a_node_execution_id := node_execution_id; a_kind := INTERMEDIATE;
         a_filename := opt_string (ic_filename entry); a_mime_type := ic_mime_type entry;
         a_file_size := ic_file_size entry; a_storage_backend := opt_string (ic_storage_backend entry);
         a_storage_path := opt_string (ic_storage_path entry); a_media_info := ic_media_info entry |} in
    let create := (artifact, put_artifacts (db_artifacts db).[a_id artifact <- artifact] db) in
    match ic_output_artifact_id entry with
    | Some o =>
        match (db_artifacts db).[? o] with
        | Some existing => Ok (if (a_job_id existing =? job_id)%string then (existing, db) else create)
        | None => Ok create
        end
    | None => Ok create
    end.
End Cache.

(** ** Which tables the cache touches *)

Lemma lookup_tables env db t c inputs reg e db' :
  lookup env db t c inputs reg = Ok (e, db') -> db_jobs db' = db_jobs db /\ db_artifacts db' = db_artifacts db.
Proof.
  unfold lookup, check_output. destruct (negb _); [by intros [= <- <-]|].
  destruct (cache_key _ _ _ _) as [key|]; simpl; [|done]. repeat case_match; intros [= <- <-]; simplify_eq; done.
Qed.

Lemma materialize_jobs env db e jid nid a db' :
  materialize_hit env db e jid nid = Ok (a, db') -> db_jobs db' = db_jobs db.
Proof. unfold materialize_hit. repeat case_match; by intros [= <- <-]. Qed.

Lemma store_tables env now db t c inputs out node_id jid db' :
  store env now db t c inputs out node_id jid = Ok db' ->
  db_jobs db' = db_jobs db /\ db_artifacts db' = db_artifacts db.
Proof.
  unfold store. destruct (negb _); [by intros [= <-]|].
  destruct (cache_key _ _ _ _); simpl; [|done]. destruct (_ordered_inputs _); simpl; [|done].
  destruct (_stable_config_for_node _ _); simpl; [|done]. destruct (node_config_hash _ _ _); simpl; [|done].
  destruct (input_signature_hash _ _); simpl; [|done]. by intros [= <-].
Qed.

(** The digests raise Python exceptions only. *)
Lemma cache_key_raise env t c inputs e : cache_key env t c inputs = Raise e -> e <> Diverges.
Proof.
  assert (Hkey : forall s e, _natural_key s = Raise e -> e <> Diverges).
  { intros s e' (p & _ & Hp)%mapMR_raise. unfold key_part in Hp. repeat case_match; by simplify_eq. }
  unfold cache_key, cache_payload, _input_signature, _ordered_inputs.
  destruct (_stable_config_for_node t c) as [st|] eqn:Hs; simpl.
  2: { unfold _stable_config_for_node in Hs. intros [= <-]. repeat case_match; try done.
       destruct (normalize_external_media_url _) eqn:Hu; simplify_eq/=. by eapply normalize_raise. }
  destruct (mapMR _ inputs) as [keyed|e'] eqn:Hm; simpl.
  - destruct (_ && _); simpl; [by intros [= <-] | done].
  - intros [= <-]. apply mapMR_raise in Hm as (p & _ & Hp).
    destruct (_natural_key p.1) eqn:Hk; [done|]. simpl in Hp. simplify_eq. by eapply Hkey.
Qed.

Lemma lookup_raise env db t c inputs reg e : lookup env db t c inputs reg = Raise e -> e <> Diverges.
Proof.
  unfold lookup. destruct (negb _); [done|]. destruct (cache_key env t c inputs) as [k|e'] eqn:Hk; simpl.
  - by repeat case_match.
  - intros [= <-]. by eapply cache_key_raise.
Qed.

(** ** What a hit returns *)

(** The file an artifact row points to. *)
Definition artifact_file (a : Artifact)
    : string * option string * option Z * string * string * config :=
  (a_filename a, a_mime_type a, a_file_size a, a_storage_backend a, a_storage_path a, a_media_info a).

Definition located (a : Artifact) : Prop :=
  a_storage_backend a <> EmptyString /\ a_storage_path a <> EmptyString /\ a_filename a <> EmptyString.

#[export] Instance located_dec a : Decision (located a).
Proof. unfold located. apply _. Defined.

(** An entry that describes the file of [a]. *)
Definition entry_of (a : Artifact) (e : IntermediateArtifactCache) : Prop :=
  (ic_output_artifact_id e = None \/ ic_output_artifact_id e = Some (a_id a)) /\
  ic_filename e = Some (a_filename a) /\ ic_mime_type e = a_mime_type a /\ ic_file_size e = a_file_size a /\
  ic_storage_backend e = Some (a_storage_backend a) /\ ic_storage_path e = Some (a_storage_path a) /\
  ic_media_info e = a_media_info a.

Lemma entry_of_durable a e : located a -> entry_of a e -> durable e = true.
Proof.
  intros (Hb & Hp & Hf) (_ & Hn & _ & _ & Hsb & Hsp & _). unfold durable. rewrite Hn, Hsb, Hsp. simpl.
  destruct (a_storage_backend a), (a_storage_path a), (a_filename a); done.
Qed.

Lemma store_entry env now db t c inputs out node_id jid db' :
  is_cache_eligible t c (dkeys inputs) = true ->
  store env now db t c inputs out node_id jid = Ok db' ->
  exists key e, cache_key env t c inputs = Ok key /\ (db_cache db').[? key] = Some e /\
    ic_cache_key e = key /\ entry_of out e.
Proof.
  unfold store. intros ->. simpl. destruct (cache_key env t c inputs) as [key|] eqn:Hkey; simpl; [|done].
  destruct (_ordered_inputs _); simpl; [|done].
  destruct (_stable_config_for_node _ _); simpl; [|done]. destruct (node_config_hash _ _ _); simpl; [|done].
  destruct (input_signature_hash _ _); simpl; [|done]. intros [= <-]. eexists _, _. split; [done|].
  unfold put_entry. simpl. rewrite dget_dset_eq. split; [done|]. split; [done|]. unfold entry_of. simpl. auto 10.
Qed.

Lemma lookup_entry env db t c inputs registered key e a :
  is_cache_eligible t c (dkeys inputs) = true -> cache_key env t c inputs = Ok key ->
  (db_cache db).[? key] = Some e -> located a -> entry_of a e ->
  exists e' db', lookup env db t c inputs registered = Ok (Some e', db') /\ entry_of a e'.
Proof.
  intros He Hkey Hget Hloc Hent. pose proof (entry_of_durable a e Hloc Hent) as Hd.
  unfold lookup. rewrite He, Hkey. simpl. rewrite Hget, Hd. simpl. rewrite andb_false_r.
  assert (Hnone : entry_of a (set_output None e)) by (destruct Hent as [_ Hrest]; split; [by left | exact Hrest]).
  unfold check_output. destruct (ic_output_artifact_id e) as [o|]; [destruct ((db_artifacts db).[? o])|]; simpl;
    rewrite ?Hd, ?(entry_of_durable a _ Hloc Hnone); eauto.
Qed.

Lemma materialize_entry env db e a jid nid :
  located a -> entry_of a e -> (forall b, (db_artifacts db).[? a_id a] = Some b -> b = a) ->
  exists b db', materialize_hit env db e jid nid = Ok (b, db') /\ artifact_file b = artifact_file a /\ a_job_id b = jid.
Proof.
  intros Hloc Hent Hrow. unfold materialize_hit. rewrite (entry_of_durable a e Hloc Hent). simpl.
  destruct Hent as (Hout & Hn & Hm & Hs & Hsb & Hsp & Hmi). rewrite Hn, Hm, Hs, Hsb, Hsp, Hmi.
  destruct Hout as [-> | ->]; [by eauto|].
  destruct ((db_artifacts db).[? a_id a]) as [b|] eqn:Hb; [|by eauto].
  destruct (String.eqb_spec (a_job_id b) jid); [|by eauto]. rewrite (Hrow b eq_refl) in *. eauto.
Qed.

(** What identifies an input of a node. *)
Definition input_identity (p : string * Artifact) : string * string * string * string * option Z :=
  (p.1, a_id p.2, a_storage_backend p.2, a_storage_path p.2, a_file_size p.2).

Lemma opt_int_inj a b : json_tree (opt_int a) = json_tree (opt_int b) -> a = b.
Proof.
  destruct a, b; cbn [opt_int json_tree]; intros Heq; try done; injection Heq as Heq.
  - f_equal. by apply str_of_Z_inj.
  - by apply str_of_Z_not_null in Heq.
  - symmetry in Heq. by apply str_of_Z_not_null in Heq.
Qed.

(** Dictionaries with the keys of the code print their items in key order. *)
Lemma signature_tree env p :
  json_tree (signature_item env p)
  = JObject [("artifact_id", JString (a_id p.2)); ("file_size", json_tree (opt_int (a_file_size p.2)));
             ("handle", JString p.1); ("media_info_hash", JString (_sha256_json env (VDict (a_media_info p.2))));
             ("storage_backend", JString (a_storage_backend p.2)); ("storage_path", JString (a_storage_path p.2))].
Proof.
  unfold signature_item. generalize (_sha256_json env (VDict (a_media_info p.2))) as h. intros h.
  cbn [json_tree map]. generalize (json_tree (opt_int (a_file_size p.2))) as z. intros z. reflexivity.
Qed.

Lemma signature_tree_inj env p q :
  json_tree (signature_item env p) = json_tree (signature_item env q) -> input_identity p = input_identity q.
Proof.
  rewrite !signature_tree. intros [= Hid Hz Hh _ Hb Hp]. unfold input_identity.
  by rewrite Hid, Hh, Hb, Hp, (opt_int_inj _ _ Hz).
Qed.

Definition payload_document (t : string) (stable : config) (env : Env) (ordered : list (string * Artifact)) : pyval :=
  VDict [("schema_version", VInt CACHE_SCHEMA_VERSION); ("node_type", VStr t); ("node_config", VDict stable);
         ("inputs", VList (map (signature_item env) ordered))].

Lemma payload_tree env t stable ordered :
  json_tree (payload_document t stable env ordered)
  = JObject [("inputs", JArray (map (fun p => json_tree (signature_item env p)) ordered));
             ("node_config", json_tree (VDict stable)); ("node_type", JString t); ("schema_version", JToken "1")].
Proof.
  unfold payload_document. cbn [json_tree map]. rewrite map_map.
  generalize (map (fun p => json_tree (signature_item env p)) ordered) as l.
  generalize (map (fun '(k, x) => (k, json_tree x)) stable) as d. intros d l. reflexivity.
Qed.

Lemma map_determines {A B C} (f : A -> B) (g : A -> C) l l' :
  (forall p q, f p = f q -> g p = g q) -> map f l = map f l' -> map g l = map g l'.
Proof.
  intros Hfg. revert l'. induction l as [|p l IH]; intros [|q l']; try done. cbn [map]. intros [= Hp%Hfg Hl%IH].
  by rewrite Hp, Hl.
Qed.

Lemma cache_payload_inv env t c inputs d :
  cache_payload env t c inputs = Ok d ->
  exists stable ordered, _stable_config_for_node t c = Ok stable /\ _ordered_inputs inputs = Ok ordered /\
    d = payload_document t stable env ordered.
Proof.
  unfold cache_payload, _input_signature. destruct (_stable_config_for_node t c) as [st|]; simpl; [|done].
  destruct (_ordered_inputs inputs) as [o|]; simpl; [|done]. intros [= <-]. by exists st, o.
Qed.

(** C27. Two nodes get the same cache key only if they compute the same thing: when the
    digest does not identify two different documents of the two nodes, equal keys
    imply the same node type, configurations that encode to the same JSON tree
    once transient keys are dropped, and the same inputs in the same order
    (handle, artifact, location and size). *)
Theorem cache_key_sound env t c inputs t' c' inputs' key d d' :
  cache_payload env t c inputs = Ok d -> cache_payload env t' c' inputs' = Ok d' ->
  (sha256 env (json_dumps json_compact_text d) = sha256 env (json_dumps json_compact_text d') ->
   json_dumps json_compact_text d = json_dumps json_compact_text d') ->
  cache_key env t c inputs = Ok key -> cache_key env t' c' inputs' = Ok key ->
  exists stable stable' ordered ordered',
    t = t' /\
    _stable_config_for_node t c = Ok stable /\ _stable_config_for_node t' c' = Ok stable' /\
    json_tree (VDict stable) = json_tree (VDict stable') /\
    _ordered_inputs inputs = Ok ordered /\ _ordered_inputs inputs' = Ok ordered' /\
    map input_identity ordered = map input_identity ordered'.
Proof.
  intros Hd Hd' Hfree. unfold cache_key. rewrite Hd, Hd'. simpl. intros [= Hk] [= Hk'].
  apply cache_payload_inv in Hd as (st & o & Hst & Ho & ->), Hd' as (st' & o' & Hst' & Ho' & ->).
  exists st, st', o, o'. pose proof (dumps_inj _ _ (Hfree (eq_trans Hk (eq_sym Hk')))) as Hdoc.
  rewrite !payload_tree in Hdoc. injection Hdoc as Hin Hcfg Ht.
  apply (map_determines _ _ _ _ (signature_tree_inj env)) in Hin.
  repeat split; try done. exact (f_equal JObject Hcfg).
Qed.

(** What is stored is what a later hit returns: once the result of an eligible
    node was stored, a lookup with the same node type, configuration and inputs
    hits, for registered and unregistered jobs, and materializing the hit for any
    node of any job gives a row of that job that points to the same file with the
    same metadata; the row of the stored artifact may be gone by then. *)
Theorem store_lookup_materialize env now db t c inputs output node_id job_id db1 db2 registered jid nid :
  is_cache_eligible t c (dkeys inputs) = true -> located output ->
  store env now db t c inputs output node_id job_id = Ok db1 ->
  db_cache db2 = db_cache db1 ->
  (forall a, (db_artifacts db2).[? a_id output] = Some a -> a = output) ->
  exists e db3 a db4,
    lookup env db2 t c inputs registered = Ok (Some e, db3) /\
    materialize_hit env db3 e jid nid = Ok (a, db4) /\
    artifact_file a = artifact_file output /\ a_job_id a = jid.
Proof.
  intros He Hloc Hstore Hcache Hrow. destruct (store_entry _ _ _ _ _ _ _ _ _ _ He Hstore) as (key & e & Hk & Hget & _ & Hent).
  rewrite <- Hcache in Hget.
  destruct (lookup_entry env db2 t c inputs registered key e output He Hk Hget Hloc Hent) as (e' & db3 & Hl & Hent').
  destruct (lookup_tables _ _ _ _ _ _ _ _ Hl) as [_ Ha]. rewrite <- Ha in Hrow.
  destruct (materialize_entry env db3 e' output jid nid Hloc Hent' Hrow) as (a & db4 & Hm & Hf & Hj).
  eauto 10.
Qed.

(** Samples: two encodings of the same trim node, and a stored result. *)
Definition sample_artifact (id job : uuid) : Artifact :=
  {| a_id := id; a_job_id := job; a_node_execution_id := "n0"; a_kind := INTERMEDIATE; a_filename := "out.mp4";
     a_mime_type := Some "video/mp4"; a_file_size := Some 7%Z; a_storage_backend := "local";
     a_storage_path := "/out.mp4"; a_media_info := [("duration", VInt 3)] |}.

Definition sample_inputs : list (string * Artifact) :=
  [("video10", sample_artifact "a1" "j1"); ("video9", sample_artifact "a2" "j1")].

Definition trim_config : config := [("start", VInt 1); ("end", VFloat (float_of_Z 2)); ("debug", VBool true)].
Definition trim_config' : config := [("end", VFloat (float_of_Z 2)); ("_note", VNone); ("start", VInt 1)].

Example natural_order : _ordered_inputs sample_inputs = Ok (reverse sample_inputs).
Proof. vm_compute. reflexivity. Qed.

Lemma cache_key_sound_witness :
  exists stable stable' ordered ordered',
    "trim" = "trim" /\
    _stable_config_for_node "trim" trim_config = Ok stable /\
    _stable_config_for_node "trim" trim_config' = Ok stable' /\
    json_tree (VDict stable) = json_tree (VDict stable') /\
    _ordered_inputs sample_inputs = Ok ordered /\ _ordered_inputs (reverse sample_inputs) = Ok ordered' /\
    map input_identity ordered = map input_identity ordered'.
Proof.
  apply (cache_key_sound plain_env "trim" trim_config sample_inputs "trim" trim_config' (reverse sample_inputs)
           (ok_or "" (cache_key plain_env "trim" trim_config sample_inputs))
           (ok_or VNone (cache_payload plain_env "trim" trim_config sample_inputs))
           (ok_or VNone (cache_payload plain_env "trim" trim_config' (reverse sample_inputs))));
    [vm_compute; reflexivity | vm_compute; reflexivity | intros H; exact H | vm_compute; reflexivity
    | vm_compute; reflexivity].
Defined.

Definition stored_db : Db :=
  ok_or bare_db (store plain_env 5 bare_db "trim" trim_config sample_inputs (sample_artifact "a3" "j1") "n" "j1").

Lemma store_lookup_materialize_witness :
  exists e db3 a db4,
    lookup plain_env stored_db "trim" trim_config sample_inputs true = Ok (Some e, db3) /\
    materialize_hit plain_env db3 e "j2" "n2" = Ok (a, db4) /\
    artifact_file a = artifact_file (sample_artifact "a3" "j1") /\ a_job_id a = "j2".
Proof.
  apply (store_lookup_materialize plain_env 5 bare_db "trim" trim_config sample_inputs (sample_artifact "a3" "j1")
           "n" "j1" stored_db stored_db true "j2" "n2").
  - vm_compute. reflexivity.
  - repeat split; discriminate.
  - vm_compute. reflexivity.
  - reflexivity.
  - intros a Ha. vm_compute in Ha. discriminate Ha.
Defined.
