(* ===== verification/WorkerEvents.v ===== *)
(** * Worker events and task dispatch rows
    ([services/registered_worker_event_receipt.py], first part)

    The digest of a Redis payload, the parsing of an event of a registered worker
    and the staging of a task. *)

From stdpp Require Import base tactics list strings sorting.
From Stdlib Require Import ZArith Lia Ascii.
From S2P Require Import Prelude PyStr PyValue PyJson PyTime PyUuid Pipeline JobModel WorkerModel Schedule Authority.

Open Scope string_scope.
Open Scope list_scope.

Record RegisteredWorkerEvent := {
  ev_redis_stream : string;
  ev_consumer_group : string;
  ev_message_id : string;
  ev_payload : payload;
  ev_payload_sha256 : string;
  ev_event_type : string;
  ev_job_id : uuid;
  ev_node_execution_id : uuid;
  ev_claim : NodeExecutionClaim;
  ev_source_task_stream : string;
  ev_source_task_group : string;
  ev_source_task_message_id : string;
  ev_source_task_payload_sha256 : string;
  ev_source_task_dispatch_key : uuid }.

Definition event_error {A} (msg : string) : Res A := Raise (RegisteredWorkerEventError msg).

(** The payload as strings; [None] when a value is not a string. *)
Fixpoint string_items (d : config) : option payload :=
  match d with
  | [] => Some []
  | (k, VStr v) :: d' => match string_items d' with Some p => Some ((k, v) :: p) | None => None end
  | _ => None
  end.

Lemma string_items_payload p : string_items (map (fun kv => (kv.1, VStr kv.2)) p) = Some p.
Proof. induction p as [|[k v] p IH]; [done|]. simpl. by rewrite IH. Qed.

Section Events.
Context (env : Env).

Definition payload_digest (p : payload) : string := sha256 env (json_dumps json_compact (payload_value p)).

Definition canonical_redis_payload_sha256 (d : config) : Res string :=
  match string_items d with
  | None => event_error "Redis event payload must contain strings"
  | Some p => Ok (payload_digest p)
  end.

(** [isinstance(v, str) and v.strip()] of [payload.get(k)]. *)
Definition nonblank_field (p : payload) (k : string) : bool :=
  match p.[? k] with Some v => nonblank v | None => false end.

Definition field (p : payload) (k : string) : string := default EmptyString p.[? k].

(** [uuid.UUID(payload[k])]; [None] for a missing key or a [ValueError]. *)
Definition uuid_field (p : payload) (k : string) : option uuid :=
  match p.[? k] with
  | Some v => match uuid_of_string v with Ok u => Some u | Raise _ => None end
  | None => None
  end.

(** [str.isdigit()]. *)
Definition isdigit (s : string) : bool := negb (is_empty s) && sforall is_digit s.

Definition parse_lease_epoch (s : string) : Res Z :=
  if negb (isdigit s) then event_error "registered event lease epoch is invalid"
  else
    match int_of_string s with
    | None => Raise (ValueError "Exceeds the limit for integer string conversion")
    | Some z => if (z <=? 0)%Z then event_error "registered event lease epoch is invalid" else Ok z
    end.

Definition claim_fields : list string :=
  ["worker_id"; "started_at"; "worker_lease_epoch"; "task_stream"; "task_group"; "task_message_id";
   "task_payload_sha256"].

Definition parse_registered_worker_event (redis_stream consumer_group message_id : string) (p : payload)
    : Res RegisteredWorkerEvent :=
  if negb (nonblank redis_stream) then event_error "redis stream is invalid"
  else if negb (nonblank consumer_group) then event_error "consumer group is invalid"
  else if negb (nonblank message_id) then event_error "message id is invalid"
  else
    let event_type := field p "event" in
    if negb (bool_decide (p.[? "event"] ∈ [Some "node_completed"; Some "node_failed"])) then
      event_error "registered event type is invalid"
    else
      match uuid_field p "job_id", uuid_field p "node_execution_id", uuid_field p "worker_registration_id" with
      | Some job_id, Some node_execution_id, Some registration_id =>
          if negb (forallb (nonblank_field p) claim_fields) then
            event_error "registered event claim or task delivery is invalid"
          else if negb (is_sha256 (field p "task_payload_sha256")) then
            event_error "registered event task payload hash is invalid"
          else if negb (nonblank_field p "task_dispatch_key") then
            event_error "registered event task dispatch key is invalid"
          else
            match uuid_field p "task_dispatch_key" with
            | None => event_error "registered event task dispatch key is invalid"
            | Some dispatch_key =>
                match parse_lease_epoch (field p "worker_lease_epoch") with
                | Raise e => Raise e
                | Ok lease_epoch =>
                    match fromisoformat (field p "started_at") with
                    | Some (started_at, true) =>
                        Ok {| ev_redis_stream := strip redis_stream; ev_consumer_group := strip consumer_group;
                              ev_message_id := strip message_id; ev_payload := p;
                              ev_payload_sha256 := payload_digest p; ev_event_type := event_type;
                              ev_job_id := job_id; ev_node_execution_id := node_execution_id;
                              ev_claim := {| cl_job_id := job_id; cl_node_execution_id := node_execution_id;
                                             cl_worker_id := strip (field p "worker_id");
                                             cl_started_at := started_at;
                                             cl_worker_registration_id := Some registration_id;
                                             cl_worker_lease_epoch := Some lease_epoch |};
                              ev_source_task_stream := strip (field p "task_stream");
                              ev_source_task_group := strip (field p "task_group");
                              ev_source_task_message_id := strip (field p "task_message_id");
                              ev_source_task_payload_sha256 := field p "task_payload_sha256";
                              ev_source_task_dispatch_key := dispatch_key |}
                    | _ => event_error "registered event worker start time is invalid"
                    end
                end
            end
      | _, _, _ => event_error "registered event identifiers are invalid"
      end.

(** Stages a task for delivery in the transaction of its caller. *)
Definition stage_worker_task_dispatch (now : datetime) (db : Db) (origin_receipt_id : option uuid)
    (job_id node_execution_id : uuid) (redis_stream consumer_group : string) (task : payload) : Res Db :=
  if dmem task "dispatch_key" then event_error "worker task payload already has a dispatch key"
  else if negb (nonblank redis_stream && nonblank consumer_group) then
    event_error "worker task dispatch Redis identity is invalid"
  else
    let dispatch_key := fresh env "dispatch_key" node_execution_id in
    let initial d := bool_decide (wd_node_execution_id d = node_execution_id)
                     && bool_decide (wd_origin_receipt_id d = None) && unresolved d in
    let dispatched := task.["dispatch_key" <- dispatch_key] in
    let row := {| wd_id := fresh env "dispatch" node_execution_id; wd_origin_receipt_id := origin_receipt_id;
                  wd_dispatch_key := dispatch_key; wd_job_id := job_id;
                  wd_node_execution_id := node_execution_id; wd_redis_stream := strip redis_stream;
                  wd_consumer_group := strip consumer_group; wd_payload_sha256 := payload_digest dispatched;
                  wd_payload_json := payload_value dispatched; wd_delivery_state := "pending";
                  wd_delivery_attempted_at := None; wd_delivery_error := None; wd_redis_message_id := None;
                  wd_delivered_at := None; wd_resolution_state := "unresolved"; wd_acknowledged_at := None;
                  wd_cancelled_at := None; wd_created_at := now |} in
    match origin_receipt_id, List.filter initial (db_dispatches db) with
    | None, [_] => event_error "node already has an unresolved initial dispatch"
    | None, _ :: _ :: _ => Raise (RuntimeError "MultipleResultsFound")
    | _, _ => Ok (put_dispatch row db)
    end.
End Events.

(** The digest of a Redis payload identifies it: unless the digest function
    maps the two canonical documents to the same value, payloads with the same
    digest have the same items. *)
Theorem payload_digest_sound env (p q : payload) h :
  (sha256 env (json_dumps json_compact (payload_value p)) = sha256 env (json_dumps json_compact (payload_value q)) ->
   json_dumps json_compact (payload_value p) = json_dumps json_compact (payload_value q)) ->
  canonical_redis_payload_sha256 env (map (fun kv => (kv.1, VStr kv.2)) p) = Ok h ->
  canonical_redis_payload_sha256 env (map (fun kv => (kv.1, VStr kv.2)) q) = Ok h ->
  p ≡ₚ q.
Proof.
  unfold canonical_redis_payload_sha256, payload_digest. rewrite !string_items_payload. intros Hfree Hp Hq.
  apply dumps_payload_inj, Hfree. rewrite <-Hq in Hp. injection Hp as Hp. exact Hp.
Qed.

Lemma payload_digest_sound_witness : [("b", "2"); ("a", "1")] ≡ₚ [("a", "1"); ("b", "2")].
Proof.
  apply (payload_digest_sound plain_env [("b", "2"); ("a", "1")] [("a", "1"); ("b", "2")]
           (payload_digest plain_env [("a", "1"); ("b", "2")])).
  - intros H. exact H.
  - vm_compute. reflexivity.
  - vm_compute. reflexivity.
Defined.
