(* ===== verification/WorkerReport.v ===== *)
(** * What a registered worker reports ([worker/main.py]: [_report_success],
    [_report_failure], [_bind_registered_event_to_task_delivery])

    The payload of the event is a dictionary of strings; the orchestrator parses it
    back into the claim and the task delivery it was made from. *)

From stdpp Require Import base tactics list strings pretty.
From Stdlib Require Import ZArith Lia Ascii.
From S2P Require Import Prelude PyStr PyValue PyJson PyTime PyUuid Pipeline JobModel WorkerModel Schedule Authority WorkerEvents.

Open Scope string_scope.
Open Scope list_scope.

Record WorkerTaskDelivery := {
  td_redis_stream : string;
  td_consumer_group : string;
  td_message_id : string;
  td_payload_sha256 : string;
  td_dispatch_key : option uuid;
  td_attestation_id : option uuid;
  td_event_emission_id : option uuid }.

Definition _claim_started_at_utc (claim : NodeExecutionClaim) : string := isoformat_utc (cl_started_at claim).

Definition _bind_registered_event_to_task_delivery (delivery : option WorkerTaskDelivery) (p : payload) : Res payload :=
  match delivery with
  | None => blocked "registered worker event has no task delivery"
  | Some d =>
      if negb (forallb nonblank [td_redis_stream d; td_consumer_group d; td_message_id d]) then
        blocked "registered worker event task delivery is invalid"
      else
        let p := p.["task_stream" <- td_redis_stream d].["task_group" <- td_consumer_group d]
                  .["task_message_id" <- td_message_id d] in
        match is_sha256 (td_payload_sha256 d), td_dispatch_key d with
        | true, Some key => Ok p.["task_payload_sha256" <- td_payload_sha256 d].["task_dispatch_key" <- key]
        | _, _ => blocked "registered worker event task dispatch is invalid"
        end
  end.

Definition bind_claim (delivery : option WorkerTaskDelivery) (claim : NodeExecutionClaim) (p : payload) : Res payload :=
  match cl_worker_registration_id claim with
  | None => Ok p
  | Some registration_id =>
      match cl_worker_lease_epoch claim with
      | None => Raise (RuntimeError "AssertionError")
      | Some lease_epoch =>
          _bind_registered_event_to_task_delivery delivery
            p.["worker_registration_id" <- registration_id].["worker_lease_epoch" <- str_of_Z lease_epoch]
      end
  end.

Definition _report_success (delivery : option WorkerTaskDelivery) (job_id node_execution_id artifact_id : string)
    (claim : NodeExecutionClaim) : Res payload :=
  bind_claim delivery claim
    [("event", "node_completed"); ("job_id", job_id); ("node_execution_id", node_execution_id);
     ("output_artifact_id", artifact_id); ("worker_id", cl_worker_id claim);
     ("started_at", _claim_started_at_utc claim)].

Definition _report_failure (delivery : option WorkerTaskDelivery) (job_id node_execution_id error : string)
    (claim : NodeExecutionClaim) : Res payload :=
  bind_claim delivery claim
    [("event", "node_failed"); ("job_id", job_id); ("node_execution_id", node_execution_id);
     ("error", stake 2000 error); ("worker_id", cl_worker_id claim);
     ("started_at", _claim_started_at_utc claim)].

(** ** [int(str(n))] *)

Lemma pretty_char_digit x :
  (x < 10)%N -> is_digit (pretty_N_char x) = true /\ digit_val (pretty_N_char x) = Z.of_N x.
Proof. intros Hx. destruct x as [|p]; [done|]. do 4 (destruct p as [p|p|]; try done). Qed.

(** Scanning the digits of [x] in front of [s]. *)
Lemma scan_pretty_go x :
  exists k : nat, ((10 ^ Z.of_nat k <= 10 * Z.of_N x)%Z \/ k = 0%nat) /\ ((0 < x)%N -> (0 < k)%nat) /\
    forall s prev acc n, exists prev',
      scan_digits (pretty_N_go x s) prev acc n = scan_digits s prev' (acc * 10 ^ Z.of_nat k + Z.of_N x)%Z (n + k)%nat.
Proof.
  induction (N.lt_wf_0 x) as [x _ IH]. destruct (decide (0 < x)%N) as [Hx|Hx].
  - destruct (IH (x / 10)%N (N.div_lt x 10 Hx eq_refl)) as (k & Hk & Hpos & Hscan). exists (S k).
    pose proof (N.div_mod' x 10) as Hdm. pose proof (N.mod_lt x 10 ltac:(done)) as Hm.
    pose proof (N.le_0_l (x mod 10)) as Hm0. split; [|split; [lia|]].
    + left. rewrite Nat2Z.inj_succ, Z.pow_succ_r by lia. apply (Z.mul_le_mono_nonneg_l _ _ 10); [lia|].
      destruct Hk as [Hk | ->]; [|simpl; lia]. etrans; [exact Hk|]. lia.
    + intros s prev acc n. rewrite pretty_N_go_step by done.
      destruct (Hscan (String (pretty_N_char (x mod 10)) s) prev acc n) as [prev' ->]. exists true. simpl.
      destruct (pretty_char_digit (x mod 10) Hm) as [-> ->]. f_equal; [|lia].
      rewrite Nat2Z.inj_succ, Z.pow_succ_r by lia. lia.
  - assert (x = 0)%N as -> by lia. exists 0%nat. split; [by right|]. split; [lia|]. intros s prev acc n.
    exists prev. rewrite pretty_N_go_0. f_equal; lia.
Qed.

Lemma int_char_nospace c : int_char c = true -> negb (is_space c) = true.
Proof. by destruct c as [[] [] [] [] [] [] [] []]. Qed.

Lemma int_of_str z : (0 < z < 2 ^ 63)%Z -> int_of_string (str_of_Z z) = Some z /\ isdigit (str_of_Z z) = true.
Proof.
  intros Hz. destruct z as [|p|p]; [lia| |lia]. pose proof (str_of_Z_chars (Z.pos p)) as [_ Hc].
  unfold int_of_string. rewrite strip_nospace by (eapply sforall_impl; [exact int_char_nospace | exact Hc]).
  change (str_of_Z (Z.pos p)) with (pretty (N.pos p)) in *.
  destruct (token_of_N (N.pos p)) as [Hd He]. unfold isdigit. rewrite He, Hd. split; [|done].
  assert (Hs : split_sign (pretty (N.pos p)) = (false, pretty (N.pos p))).
  { destruct (pretty (N.pos p)) as [|c s]; [done|]. simpl in Hd. apply andb_prop in Hd as [Hd _].
    by destruct c as [[] [] [] [] [] [] [] []]. }
  rewrite Hs. change (pretty (N.pos p)) with (pretty_N_go (N.pos p) "").
  destruct (scan_pretty_go (N.pos p)) as (k & Hk & Hpos & Hscan). destruct (Hscan "" false 0%Z 0%nat) as [prev' ->].
  simpl. assert (Hk0 : (0 < k)%nat) by (apply Hpos; lia).
  assert (Hk1 : (k <= 19)%nat).
  { destruct Hk as [Hk|]; [|lia]. destruct (decide (k <= 19)%nat) as [|Hgt]; [done|]. exfalso.
    assert (10 ^ 20 <= 10 ^ Z.of_nat k)%Z by (apply Z.pow_le_mono_r; lia). simpl in Hk. lia. }
  assert ((k =? 0)%nat = false) as -> by (by apply Nat.eqb_neq; lia).
  assert ((max_str_digits <? k)%nat = false) as ->; [|done]. apply Nat.ltb_ge. unfold max_str_digits. lia.
Qed.

(** ** The orchestrator reads back what the worker wrote *)

(** A key as [str(uuid)] prints it. *)
Definition canonical_uuid (u : uuid) : Prop := uuid_of_string u = Ok u.

Definition plain (s : string) : Prop := nonblank s = true /\ strip s = s.

(** A claim of a registered worker. *)
Record registered_claim (claim : NodeExecutionClaim) (registration_id : uuid) (lease_epoch : Z) : Prop := {
  rcl_job : canonical_uuid (cl_job_id claim);
  rcl_node : canonical_uuid (cl_node_execution_id claim);
  rcl_worker : plain (cl_worker_id claim);
  rcl_started : representable (cl_started_at claim);
  rcl_registration : cl_worker_registration_id claim = Some registration_id;
  rcl_registration_key : canonical_uuid registration_id;
  rcl_epoch : cl_worker_lease_epoch claim = Some lease_epoch;
  rcl_epoch_range : (0 < lease_epoch < 2 ^ 63)%Z }.

Record proper_delivery (d : WorkerTaskDelivery) (key : uuid) : Prop := {
  pd_stream : plain (td_redis_stream d);
  pd_group : plain (td_consumer_group d);
  pd_message : plain (td_message_id d);
  pd_sha256 : is_sha256 (td_payload_sha256 d) = true;
  pd_key : td_dispatch_key d = Some key;
  pd_key_form : canonical_uuid key;
  pd_key_text : nonblank key = true }.

(** What the parsed event says. *)
Definition reports (ev : RegisteredWorkerEvent) (event_type : string) (claim : NodeExecutionClaim)
    (d : WorkerTaskDelivery) (p : payload) : Prop :=
  ev_event_type ev = event_type /\ ev_claim ev = claim /\ ev_job_id ev = cl_job_id claim /\
  ev_node_execution_id ev = cl_node_execution_id claim /\ ev_payload ev = p /\
  ev_source_task_stream ev = td_redis_stream d /\ ev_source_task_group ev = td_consumer_group d /\
  ev_source_task_message_id ev = td_message_id d /\ ev_source_task_payload_sha256 ev = td_payload_sha256 d /\
  Some (ev_source_task_dispatch_key ev) = td_dispatch_key d.

(** The fields the parser reads. *)
Definition report_fields (event_type : string) (claim : NodeExecutionClaim) (registration_id : uuid) (lease_epoch : Z)
    (d : WorkerTaskDelivery) (p : payload) : Prop :=
  p.[? "event"] = Some event_type /\ p.[? "job_id"] = Some (cl_job_id claim) /\
  p.[? "node_execution_id"] = Some (cl_node_execution_id claim) /\
  p.[? "worker_registration_id"] = Some registration_id /\ p.[? "worker_id"] = Some (cl_worker_id claim) /\
  p.[? "started_at"] = Some (isoformat_utc (cl_started_at claim)) /\
  p.[? "worker_lease_epoch"] = Some (str_of_Z lease_epoch) /\ p.[? "task_stream"] = Some (td_redis_stream d) /\
  p.[? "task_group"] = Some (td_consumer_group d) /\ p.[? "task_message_id"] = Some (td_message_id d) /\
  p.[? "task_payload_sha256"] = Some (td_payload_sha256 d) /\ p.[? "task_dispatch_key"] = td_dispatch_key d.

Lemma nonempty_nonblank s : strip s = s -> is_empty s = false -> nonblank s = true.
Proof. intros Hs He. unfold nonblank. by rewrite Hs, He. Qed.

(** A text that parses as one of these is not blank. *)
Lemma isdigit_nonblank s : isdigit s = true -> nonblank s = true.
Proof.
  unfold isdigit. intros [He%negb_true_iff Hd]%andb_prop. apply nonempty_nonblank; [|done]. apply strip_nospace.
  eapply sforall_impl; [|exact Hd]. intros c. by destruct c as [[] [] [] [] [] [] [] []].
Qed.

Lemma sha256_nonblank s : is_sha256 s = true -> nonblank s = true.
Proof.
  unfold is_sha256. intros [Hl Hc]%andb_prop. apply nonempty_nonblank; [|by destruct s].
  apply strip_nospace. eapply sforall_impl; [|exact Hc]. intros c. by destruct c as [[] [] [] [] [] [] [] []].
Qed.

Lemma nonblank_cons c s : is_space c = false -> nonblank (String c s) = true.
Proof.
  intros Hc. unfold nonblank, strip. simpl. destruct (rstrip s) as [|c' r]; simpl; by rewrite Hc; simpl; rewrite ?Hc.
Qed.

Lemma isoformat_nonblank t : nonblank (isoformat_utc t) = true.
Proof.
  unfold isoformat_utc. destruct (ord_to_ymd _) as [[y m] d]. cbn [pad]. apply nonblank_cons.
  pose proof (Z.mod_pos_bound (y / 10 / 10 / 10) 10 ltac:(lia)) as Hr.
  destruct (digit_char_ok (y / 10 / 10 / 10 mod 10) Hr) as [Hd _]. revert Hd. generalize (digit_char (y / 10 / 10 / 10 mod 10)).
  intros c. by destruct c as [[] [] [] [] [] [] [] []].
Qed.

Lemma report_parsed env stream group m p event_type claim registration_id lease_epoch d key :
  nonblank stream = true -> nonblank group = true -> nonblank m = true ->
  event_type = "node_completed" \/ event_type = "node_failed" ->
  registered_claim claim registration_id lease_epoch -> proper_delivery d key ->
  report_fields event_type claim registration_id lease_epoch d p ->
  exists ev, parse_registered_worker_event env stream group m p = Ok ev /\ reports ev event_type claim d p.
Proof.
  intros Hs Hg Hm Hty [Hj Hn [Hw Hws] Hst Hr Hrk He Her] [[Hps Hps'] [Hpg Hpg'] [Hpm Hpm'] Hsha Hd Hkey Hkb]
    (Fe & Fj & Fn & Fr & Fw & Fst & Fep & Fts & Ftg & Ftm & Fsha & Fk).
  rewrite Hd in Fk. destruct (int_of_str lease_epoch Her) as [Hint Hdig].
  unfold parse_registered_worker_event. rewrite Hs, Hg, Hm. cbn [negb].
  assert (bool_decide (p.[? "event"] ∈ [Some "node_completed"; Some "node_failed"]) = true) as ->.
  { apply bool_decide_true. rewrite Fe. rewrite !elem_of_cons. destruct Hty as [-> | ->]; auto. }
  cbn [negb]. unfold uuid_field. rewrite Fj, Fn, Fr, Fk, Hj, Hn, Hrk, Hkey. cbn [forallb claim_fields].
  unfold nonblank_field, field. rewrite Fe, Fw, Fst, Fep, Fts, Ftg, Ftm, Fsha, Fk.
  cbn [default from_option id]. rewrite Hw, (isoformat_nonblank (cl_started_at claim)), (isdigit_nonblank _ Hdig), Hps, Hpg, Hpm,
    (sha256_nonblank _ Hsha), Hsha, Hkb. cbn [andb negb]. unfold parse_lease_epoch. rewrite Hdig, Hint. cbn [negb].
  assert ((lease_epoch <=? 0)%Z = false) as -> by (apply Z.leb_gt; lia).
  rewrite (fromisoformat_isoformat _ Hst). eexists. split; [reflexivity|].
  unfold reports. cbn. rewrite Hws, Hps', Hpg', Hpm', Hd. split_and!; try done.
  destruct claim as [cj cn cw ct cr ce]. simpl in *. by rewrite Hr, He.
Qed.

(** The bound payload, for either event. *)
Lemma bind_claim_fields event_type field_key text claim registration_id lease_epoch d key :
  field_key = "output_artifact_id" \/ field_key = "error" -> registered_claim claim registration_id lease_epoch ->
  proper_delivery d key ->
  exists p, bind_claim (Some d) claim
      [("event", event_type); ("job_id", cl_job_id claim); ("node_execution_id", cl_node_execution_id claim);
       (field_key, text); ("worker_id", cl_worker_id claim); ("started_at", _claim_started_at_utc claim)] = Ok p /\
    report_fields event_type claim registration_id lease_epoch d p.
Proof.
  intros Hkey Hc Hd. unfold bind_claim, _claim_started_at_utc. rewrite (rcl_registration _ _ _ Hc), (rcl_epoch _ _ _ Hc).
  unfold _bind_registered_event_to_task_delivery. cbn [forallb].
  rewrite (proj1 (pd_stream _ _ Hd)), (proj1 (pd_group _ _ Hd)), (proj1 (pd_message _ _ Hd)), (pd_sha256 _ _ Hd), (pd_key _ _ Hd). cbn [andb negb].
  eexists. split; [reflexivity|]. unfold report_fields. rewrite (pd_key _ _ Hd). generalize (isoformat_utc (cl_started_at claim)) (str_of_Z lease_epoch).
  intros t e. destruct Hkey as [-> | ->]; split_and!; reflexivity.
Qed.

(** C26. The orchestrator reads back exactly what a registered worker reports: the
    report of a success or a failure is built without an exception and, published
    under any message id, parses to an event with the worker's claim (start time to
    the microsecond, registration, lease epoch) and the delivery of its task. *)
Theorem report_roundtrip env stream group m claim registration_id lease_epoch d key text :
  nonblank stream = true -> nonblank group = true -> nonblank m = true ->
  registered_claim claim registration_id lease_epoch -> proper_delivery d key ->
  (exists p ev, _report_success (Some d) (cl_job_id claim) (cl_node_execution_id claim) text claim = Ok p /\
     parse_registered_worker_event env stream group m p = Ok ev /\ reports ev "node_completed" claim d p) /\
  (exists p ev, _report_failure (Some d) (cl_job_id claim) (cl_node_execution_id claim) text claim = Ok p /\
     parse_registered_worker_event env stream group m p = Ok ev /\ reports ev "node_failed" claim d p).
Proof.
  intros Hs Hg Hm Hc Hd. split.
  - destruct (bind_claim_fields "node_completed" "output_artifact_id" text claim registration_id lease_epoch d key)
      as (p & Hp & Hf); auto.
    destruct (report_parsed env stream group m p "node_completed" claim registration_id lease_epoch d key) as (ev & Hev & Hr); eauto.
  - destruct (bind_claim_fields "node_failed" "error" (stake 2000 text) claim registration_id lease_epoch d key)
      as (p & Hp & Hf); auto.
    destruct (report_parsed env stream group m p "node_failed" claim registration_id lease_epoch d key) as (ev & Hev & Hr); eauto.
Qed.

Definition sample_report_claim : NodeExecutionClaim :=
  {| cl_job_id := "00000000-0000-0000-0000-000000000001"; cl_node_execution_id := "00000000-0000-0000-0000-000000000002";
     cl_worker_id := "worker@h:1"; cl_started_at := 1717243200000001;
     cl_worker_registration_id := Some "00000000-0000-0000-0000-000000000003"; cl_worker_lease_epoch := Some 4%Z |}.

Definition sample_delivery : WorkerTaskDelivery :=
  {| td_redis_stream := "vp:tasks:ffmpeg"; td_consumer_group := "ffmpeg-workers"; td_message_id := "1-0";
     td_payload_sha256 := "0123456789abcdef0123456789abcdef0123456789abcdef0123456789abcdef";
     td_dispatch_key := Some "00000000-0000-0000-0000-000000000005"; td_attestation_id := None;
     td_event_emission_id := None |}.

Lemma report_roundtrip_witness :
  (exists p ev, _report_success (Some sample_delivery) (cl_job_id sample_report_claim)
       (cl_node_execution_id sample_report_claim) "a" sample_report_claim = Ok p /\
     parse_registered_worker_event plain_env "vp:events" "orchestrator" "7-0" p = Ok ev /\
     reports ev "node_completed" sample_report_claim sample_delivery p) /\
  (exists p ev, _report_failure (Some sample_delivery) (cl_job_id sample_report_claim)
       (cl_node_execution_id sample_report_claim) "a" sample_report_claim = Ok p /\
     parse_registered_worker_event plain_env "vp:events" "orchestrator" "7-0" p = Ok ev /\
     reports ev "node_failed" sample_report_claim sample_delivery p).
Proof.
  apply (report_roundtrip plain_env "vp:events" "orchestrator" "7-0" sample_report_claim
           "00000000-0000-0000-0000-000000000003" 4 sample_delivery
           "00000000-0000-0000-0000-000000000005" "a"); try (vm_compute; reflexivity).
  - split; try (vm_compute; reflexivity); try (split; vm_compute; reflexivity).
    unfold representable. vm_compute. split; discriminate.
  - split; try (vm_compute; reflexivity); split; vm_compute; reflexivity.
Defined.
