(* ===== verification/WorkerTask.v ===== *)
(** * A node execution on a worker ([worker/main.py]: [process_task] and its helpers)

    After its claim a worker runs the handler, names the output after the claim, stores it
    and commits an artifact row while the claim still holds; what is not committed is
    deleted again.  The bucket is a dictionary from paths to modification times.  The
    claims are those of workers without registration; the others are checked by stored
    functions.  The handler, the download of inputs and the watcher that cancels a handler
    are outside: a task here starts from what its handler returned. *)

From stdpp Require Import base tactics list strings.
From Stdlib Require Import ZArith Lia Ascii.
From S2P Require Import Prelude PyStr PyValue PyTime PyUuid JobModel WorkerModel Schedule Authority WorkerEvents WorkerReport.

Open Scope string_scope.
Open Scope list_scope.

(** ** Names *)

Definition NUL : string := String Ascii.zero "".

Definition token_material (c : NodeExecutionClaim) : string :=
  join NUL [cl_job_id c; cl_node_execution_id c; cl_worker_id c; _claim_started_at_utc c].

Definition _get_output_extension (node_type : string) (c : config) : string :=
  if bool_decide (node_type ∈ ["speech_to_subtitle"; "subtitle_translate"]) then ".srt"
  else if (node_type =? "subtitle_to_speech")%string then ".wav"
  else if (node_type =? "material_library_ingest")%string then ".json"
  else if (node_type =? "transcode")%string then "." +:+ py_str (dget_or c "format" (VStr "mp4"))
  else
    let fmt := dget_or c "output_format" (VStr "mp4") in
    if truthy fmt then "." +:+ py_str fmt else ".mp4".

Definition _guess_mime (ext : string) : string :=
  dget_or [(".mp4", "video/mp4"); (".mkv", "video/x-matroska"); (".json", "application/json"); (".webm", "video/webm");
           (".avi", "video/x-msvideo"); (".mov", "video/quicktime"); (".srt", "application/x-subrip"); (".wav", "audio/wav");
           (".mp3", "audio/mpeg")] ext "video/mp4".

Definition _resolve_artifact_storage (storage_backend output_local_path output_storage_path : string) : string * string :=
  if (storage_backend =? "local")%string then (storage_backend, output_local_path) else (storage_backend, output_storage_path).

Section Names.
Context (sha256 : string -> string).

Definition _claim_generation_token (c : NodeExecutionClaim) : string := String.substring 0 16 (sha256 (token_material c)).

Definition output_filename (c : NodeExecutionClaim) (ext : string) : string :=
  cl_node_execution_id c +:+ "-" +:+ _claim_generation_token c +:+ ext.

Definition storage_prefix (storage_backend : string) : string :=
  if (storage_backend =? "local")%string then "artifacts" else "staging/artifacts".

Definition output_storage_path (storage_backend : string) (c : NodeExecutionClaim) (ext : string) : string :=
  storage_prefix storage_backend +:+ "/" +:+ cl_job_id c +:+ "/" +:+ output_filename c ext.

(** [local_root] is the directory of local artifacts. *)
Definition output_local_path (local_root : string) (c : NodeExecutionClaim) (ext : string) : string :=
  local_root +:+ "/artifacts/" +:+ cl_job_id c +:+ "/" +:+ output_filename c ext.
End Names.

(** ** What a handler returns *)

Record Placement := {
  pm_backend : string;
  pm_path : string;
  pm_media_info : option config;
  pm_skip_upload : bool }.

Definition output_placement (storage_backend local_path storage_path : string) (handler_result : pyval) : Placement :=
  let '(backend, path) := _resolve_artifact_storage storage_backend local_path storage_path in
  match handler_result with
  | VDict d =>
      let override := dict_get d "_storage_path" in
      {| pm_backend := backend; pm_path := if truthy override then py_str override else path;
         pm_media_info := Some (List.filter (fun p => negb (startswith p.1 "_")) d);
         pm_skip_upload := truthy (dget_or d "_skip_upload" (VBool false)) |}
  | _ => {| pm_backend := backend; pm_path := path; pm_media_info := None; pm_skip_upload := false |}
  end.

(** ** Transactions under a claim *)

Section Claimed.
Context (setting : string).

Definition _require_current_node_execution_claim (c : NodeExecutionClaim) (db : Db) : Res unit :=
  locked ← lock_job_execution_authority setting db (cl_job_id c) (Some (cl_node_execution_id c)) false;
  _ ← require_active_execution_authority locked.1 [JobStatus.RUNNING] (Some [NodeStatus.RUNNING]);
  require_matching_node_execution_claim locked.1 c.

Definition claimed_artifact (id : uuid) (c : NodeExecutionClaim) (filename : string) (mime_type : string) (file_size : Z) (pm : Placement)
    : Artifact :=
  {| a_id := id; a_job_id := cl_job_id c; a_node_execution_id := cl_node_execution_id c; a_kind := INTERMEDIATE;
     a_filename := filename; a_mime_type := Some mime_type; a_file_size := Some file_size; a_storage_backend := pm_backend pm;
     a_storage_path := pm_path pm; a_media_info := default [] (pm_media_info pm) |}.

(** The locks are held from the check to the commit. *)
Definition _persist_artifact_for_current_claim (c : NodeExecutionClaim) (a : Artifact) (db : Db) : Res Db :=
  _ ← _require_current_node_execution_claim c db;
  if dmem (db_artifacts db) (a_id a) then Raise IntegrityError else Ok (put_artifacts (db_artifacts db).[a_id a <- a] db).

(** What becomes of a commit: it is confirmed, it fails, or it takes effect and the worker
    is not told (a connection that breaks before the answer). *)
Inductive commit_reply := Confirmed | Failed | Unanswered.

(** The end of [process_task] when nothing comes in between: the claim is checked again,
    the output stored inside the transaction that commits its row, and deleted when that
    raises.  [save] is whether the storage took it, [commit] what becomes of the commit; the
    result is the artifact to report. *)
Definition finish_task (sha256 : string -> string) (storage_backend local_root : string) (now : datetime) (c : NodeExecutionClaim)
    (ext : string) (handler_result : pyval) (file_size : Z) (id : uuid) (save : bool) (commit : commit_reply) (db : Db) (bucket : list (string * datetime))
    : Res uuid * Db * list (string * datetime) :=
  match _require_current_node_execution_claim c db with
  | Raise e => (Raise e, db, bucket)
  | Ok _ =>
      let pm := output_placement storage_backend (output_local_path sha256 local_root c ext)
                  (output_storage_path sha256 storage_backend c ext) handler_result in
      let remote := negb (storage_backend =? "local")%string && negb (pm_skip_upload pm) in
      let a := claimed_artifact id c (output_filename sha256 c ext) (_guess_mime ext) file_size pm in
      if remote && negb save then (Raise (RuntimeError "storage"), db, dpop bucket (pm_path pm))
      else
        match _persist_artifact_for_current_claim c a db with
        | Ok db' =>
            match commit with
            | Confirmed => (Ok id, db', if remote then bucket.[pm_path pm <- now] else bucket)
            | Failed => (Raise (RuntimeError "commit"), db, if remote then dpop bucket (pm_path pm) else bucket)
            | Unanswered => (Raise (RuntimeError "commit"), db', if remote then dpop bucket (pm_path pm) else bucket)
            end
        | Raise e => (Raise e, db, if remote then dpop bucket (pm_path pm) else bucket)
        end
  end.
End Claimed.

(** A task that reports success has committed its artifact under a claim that held, and
    the output is stored; one that fails at most deletes its own output, and leaves no row
    unless its commit went unanswered. *)
Lemma finish_task_sound setting sha256 backend root now c ext result size id save commit db bucket r db' bucket' :
  finish_task setting sha256 backend root now c ext result size id save commit db bucket = (r, db', bucket') ->
  let pm := output_placement backend (output_local_path sha256 root c ext) (output_storage_path sha256 backend c ext) result in
  match r with
  | Ok id' => id' = id /\ _require_current_node_execution_claim setting c db = Ok tt
      /\ exists a, (db_artifacts db').[? id] = Some a /\ a_job_id a = cl_job_id c /\ a_node_execution_id a = cl_node_execution_id c
           /\ a_storage_path a = pm_path pm
           /\ (backend <> "local" -> pm_skip_upload pm = false -> bucket'.[? a_storage_path a] = Some now)
  | Raise _ => (commit <> Unanswered -> db' = db) /\ (bucket' = bucket \/ bucket' = dpop bucket (pm_path pm))
  end.
Proof.
  intros H pm. revert H. unfold finish_task. destruct (_require_current_node_execution_claim setting c db) as [[]|] eqn:Hc.
  2:{ intros [= <- <- <-]. split; [done|by left]. }
  fold pm. cbv zeta. set (a := claimed_artifact _ _ _ _ _ pm). destruct (_ && negb save) eqn:Hs.
  { intros [= <- <- <-]. split; [done|by right]. }
  destruct (_persist_artifact_for_current_claim setting c a db) as [db1|] eqn:Hp.
  2:{ intros [= <- <- <-]. split; [done|]. case_match; [by right|by left]. }
  destruct commit.
  2,3: intros [= <- <- <-]; (split; [done|]); case_match; [by right|by left].
  intros [= <- <- <-]. split; [done|]. split; [done|]. exists a. split_and!; try done.
  - revert Hp. unfold _persist_artifact_for_current_claim. rewrite Hc. change (Ok () ≫= ?f) with (f tt). cbv beta.
    destruct (dmem _ _); [done|]. intros [= <-]. apply dget_dset_eq.
  - intros Hb Hk. rewrite (proj2 (String.eqb_neq _ _) Hb), Hk. apply dget_dset_eq.
Qed.
