(* ===== verification/StagingJanitor.v ===== *)
(** * The janitor of staged outputs ([services/staging_object_janitor.py])

    Outputs that a worker stored and never committed stay in the bucket.  The janitor reads
    the paths that artifacts and cache entries name, lists the bucket, and removes the
    staged objects that are named by nobody and are older than a day.  The objects of
    the bucket have a name and a time; writing the report to a file is not modelled. *)

From stdpp Require Import base tactics list strings.
From Stdlib Require Import ZArith Lia Ascii.
From coqutil Require Import Datatypes.RecordSetters.
From S2P Require Import Prelude PyStr PyValue PyTime JobModel WorkerModel Authority WorkerTask.
Import TriangleBracketNotations.

Open Scope string_scope.
Open Scope list_scope.

Definition STAGING_PREFIX : string := "staging/artifacts/".
Definition STAGING_GRACE_SECONDS : Z := (24 * 60 * 60)%Z.

(** ** The paths of workers *)

Definition hex_lower (c : ascii) : bool := is_digit c || between 97 102 (ascii_code c).

(** Exactly [n] characters of a class, and the rest. *)
Fixpoint take (p : ascii -> bool) (n : nat) (s : string) : option string :=
  match n, s with
  | O, _ => Some s
  | S n', String c s' => if p c then take p n' s' else None
  | S _, EmptyString => None
  end.

Definition take_uuid (s : string) : option string :=
  s ← take hex_lower 8 s; s ← strip_prefix "-" s; s ← take hex_lower 4 s; s ← strip_prefix "-" s; s ← take hex_lower 4 s;
  s ← strip_prefix "-" s; s ← take hex_lower 4 s; s ← strip_prefix "-" s; take hex_lower 12 s.

Definition _CLAIM_STAGING_PATH (path : string) : bool :=
  match (s ← strip_prefix STAGING_PREFIX path; s ← take_uuid s; s ← strip_prefix "/" s; s ← take_uuid s; s ← strip_prefix "-" s;
         s ← take hex_lower 16 s; strip_prefix "." s) with
  | Some ext => negb (is_empty ext) && sforall is_alnum ext
  | None => false
  end.

(** ** One run *)

(** The storage paths of artifacts and of cache entries under the prefix. *)
Definition staged_paths (db : Db) : list string :=
  List.filter (fun p => startswith p STAGING_PREFIX)
    (map a_storage_path (dvalues (db_artifacts db)) ++ omap ic_storage_path (dvalues (db_cache db))).

Definition list_objects (bucket : list (string * datetime)) : list (string * datetime) :=
  List.filter (fun o => startswith o.1 STAGING_PREFIX) bucket.

Inductive verdict := Invalid | Protected | TooYoung | Removable.

#[export] Instance verdict_eq_dec : EqDecision verdict.
Proof. solve_decision. Defined.

Definition judge (grace_seconds : Z) (checked_at : datetime) (protected : list string) (item : string * datetime) : verdict :=
  if negb (_CLAIM_STAGING_PATH item.1) then Invalid
  else if bool_decide (item.1 ∈ protected) then Protected
  else if (checked_at - item.2 <=? grace_seconds * 1000000)%Z then TooYoung
  else Removable.

Record JanitorResult := {
  jr_scanned : Z;
  jr_deleted : Z;
  jr_protected : Z;
  jr_too_young : Z;
  jr_invalid : Z;
  jr_errors : Z }.

Definition no_result : JanitorResult :=
  {| jr_scanned := 0; jr_deleted := 0; jr_protected := 0; jr_too_young := 0; jr_invalid := 0; jr_errors := 0 |}.

(** [fails] tells which removals the storage refuses. *)
Definition janitor_turn (grace_seconds : Z) (checked_at : datetime) (protected : list string) (fails : string -> bool)
    (acc : JanitorResult * list (string * datetime)) (item : string * datetime) : JanitorResult * list (string * datetime) :=
  let '(r, bucket) := acc in
  let r := r <| jr_scanned ::= Z.succ |> in
  match judge grace_seconds checked_at protected item with
  | Invalid => (r <| jr_invalid ::= Z.succ |>, bucket)
  | Protected => (r <| jr_protected ::= Z.succ |>, bucket)
  | TooYoung => (r <| jr_too_young ::= Z.succ |>, bucket)
  | Removable => if fails item.1 then (r <| jr_errors ::= Z.succ |>, bucket) else (r <| jr_deleted ::= Z.succ |>, dpop bucket item.1)
  end.

(** [run_once] when nothing comes in between. *)
Definition run_once (grace_seconds : Z) (checked_at : datetime) (fails : string -> bool) (db : Db) (bucket : list (string * datetime))
    : Res (JanitorResult * list (string * datetime)) :=
  if (grace_seconds <? STAGING_GRACE_SECONDS)%Z then Raise (ValueError "staging grace is below the reviewed minimum")
  else Ok (fold_left (janitor_turn grace_seconds checked_at (staged_paths db) fails) (list_objects bucket) (no_result, bucket)).

(** The last report, if it can be read. *)
Record JanitorStatus := { js_schema_version : Z; js_grace_seconds : Z; js_errors : Z; js_checked_at : datetime }.

Definition staging_janitor_ready (status : option JanitorStatus) (now : datetime) (max_age_seconds : Z) : bool :=
  if (max_age_seconds <=? 0)%Z then false
  else
    match status with
    | None => false
    | Some s =>
        (js_schema_version s =? 1)%Z && (js_grace_seconds s =? STAGING_GRACE_SECONDS)%Z && (js_errors s =? 0)%Z
        && (0 <=? now - js_checked_at s)%Z && (now - js_checked_at s <=? max_age_seconds * 1000000)%Z
    end.
