(* ===== verification/StagingKept.v ===== *)
(** * Committed outputs stay

    Workers and janitors act on one bucket and one database at the same time.  A worker
    stores an output under a name of its claim, commits its row within a day or deletes the
    output or stops; a janitor reads the named paths, lists the bucket and removes objects
    one by one, each at its own time.  Rows of other transactions take their paths over
    from rows that exist.  A worker whose commit took effect but was not confirmed to it
    deletes its output all the same.  No history loses an output that a row names for any
    other reason, as long as no two of its claims share their token. *)

From stdpp Require Import base tactics list strings relations.
From Stdlib Require Import ZArith Lia Ascii.
From coqutil Require Import Datatypes.RecordSetters.
From S2P Require Import Prelude PyStr PyValue PyTime PyUuid JobModel WorkerModel Schedule Authority WorkerEvents WorkerReport ArtifactCache WorkerTask StagingJanitor.
Import TriangleBracketNotations.

Open Scope string_scope.
Open Scope list_scope.

(** ** Histories *)

(** An output under way: its claim, extension, and when it was stored. *)
Record flight := { fl_claim : NodeExecutionClaim; fl_ext : string; fl_saved : option datetime }.

(** A run of the janitor: what it has read, and what it has still to look at. *)
Record sweep := { sw_checked_at : datetime; sw_protected : list string; sw_objects : option (list (string * datetime)) }.

(** [wo_used] are the claims there have been, by the text that identifies them;
    [wo_doubtful] the paths whose commit took effect without the worker being told. *)
Record world := {
  wo_now : datetime;
  wo_db : Db;
  wo_bucket : list (string * datetime);
  wo_used : list string;
  wo_doubtful : list string;
  wo_flights : list flight;
  wo_sweeps : list sweep }.

Definition GRACE_US : Z := (STAGING_GRACE_SECONDS * 1000000)%Z.

(** Identifiers are printed UUIDs. *)
Definition proper_claim (c : NodeExecutionClaim) : Prop :=
  String.length (cl_job_id c) = 36 /\ String.length (cl_node_execution_id c) = 36.

Section Kept.
Context (sha256 : string -> string) (setting : string) (grace_seconds : Z).

Definition staging_path (c : NodeExecutionClaim) (ext : string) : string := output_storage_path sha256 "minio" c ext.
Definition fl_path (f : flight) : string := staging_path (fl_claim f) (fl_ext f).
Definition token (material : string) : string := String.substring 0 16 (sha256 material).

Inductive staging_step : world -> world -> Prop :=
| st_clock w t : (wo_now w <= t)%Z -> staging_step w (w <| wo_now := t |>)
| st_start w c ext :
    token_material c ∉ wo_used w -> proper_claim c ->
    staging_step w (w <| wo_used ::= cons (token_material c) |>
                      <| wo_flights ::= cons {| fl_claim := c; fl_ext := ext; fl_saved := None |} |>)
| st_save w l1 f l2 :
    wo_flights w = l1 ++ f :: l2 -> fl_saved f = None ->
    _require_current_node_execution_claim setting (fl_claim f) (wo_db w) = Ok tt ->
    staging_step w (w <| wo_bucket ::= fun b => b.[fl_path f <- wo_now w] |>
                      <| wo_flights := l1 ++ (f <| fl_saved := Some (wo_now w) |>) :: l2 |>)
| st_commit w l1 f l2 t a db' :
    wo_flights w = l1 ++ f :: l2 -> fl_saved f = Some t -> (wo_now w - t <= GRACE_US)%Z ->
    a_storage_path a = fl_path f -> _persist_artifact_for_current_claim setting (fl_claim f) a (wo_db w) = Ok db' ->
    staging_step w (w <| wo_db := db' |> <| wo_flights := l1 ++ l2 |>)
| st_unanswered w l1 f l2 t a db' :
    wo_flights w = l1 ++ f :: l2 -> fl_saved f = Some t -> (wo_now w - t <= GRACE_US)%Z ->
    a_storage_path a = fl_path f -> _persist_artifact_for_current_claim setting (fl_claim f) a (wo_db w) = Ok db' ->
    staging_step w (w <| wo_db := db' |> <| wo_flights := l1 ++ l2 |> <| wo_doubtful ::= cons (fl_path f) |>)
| st_cleanup w p :
    p ∈ wo_doubtful w -> staging_step w (w <| wo_bucket ::= fun b => dpop b p |>)
| st_discard w l1 f l2 t :
    wo_flights w = l1 ++ f :: l2 -> fl_saved f = Some t ->
    staging_step w (w <| wo_bucket ::= fun b => dpop b (fl_path f) |> <| wo_flights := l1 ++ l2 |>)
| st_stop w l1 f l2 : wo_flights w = l1 ++ f :: l2 -> staging_step w (w <| wo_flights := l1 ++ l2 |>)
| st_elsewhere w db' : staged_paths db' ⊆ staged_paths (wo_db w) -> staging_step w (w <| wo_db := db' |>)
| st_sweep w :
    staging_step w (w <| wo_sweeps ::= cons {| sw_checked_at := wo_now w; sw_protected := staged_paths (wo_db w); sw_objects := None |} |>)
| st_list w l1 s l2 :
    wo_sweeps w = l1 ++ s :: l2 -> sw_objects s = None ->
    staging_step w (w <| wo_sweeps := l1 ++ (s <| sw_objects := Some (list_objects (wo_bucket w)) |>) :: l2 |>)
| st_turn w l1 s l2 item rest (removed : bool) :
    wo_sweeps w = l1 ++ s :: l2 -> sw_objects s = Some (item :: rest) ->
    (removed = true -> judge grace_seconds (sw_checked_at s) (sw_protected s) item = Removable) ->
    staging_step w (w <| wo_bucket ::= fun b => if removed then dpop b item.1 else b |>
                      <| wo_sweeps := l1 ++ (s <| sw_objects := Some rest |>) :: l2 |>).
End Kept.

(** ** Names *)



Section Names.
Context (sha256 : string -> string) (Hsha : forall s, (16 <= String.length (sha256 s))%nat).


Lemma path_staged c e : startswith (staging_path sha256 c e) STAGING_PREFIX = true.
Proof.
  change (staging_path sha256 c e) with (STAGING_PREFIX +:+ (cl_job_id c +:+ "/" +:+ output_filename sha256 c e)).
  unfold startswith. by rewrite strip_prefix_app.
Qed.
End Names.

(** ** The invariant *)

Section Invariant.
Context (sha256 : string -> string) (setting : string) (grace_seconds : Z).
Context (Hsha : forall s, (16 <= String.length (sha256 s))%nat) (Hgrace : (STAGING_GRACE_SECONDS <= grace_seconds)%Z).
Local Notation path := (staging_path sha256).
Local Notation fpath := (fl_path sha256).



















Lemma elem_of_dset {K A} `{EqDecision K} (d : list (K * A)) k v x : x ∈ dset d k v -> x = (k, v) \/ x ∈ d.
Proof.
  induction d as [|[k' v'] d IH]; simpl; [intros ->%list_elem_of_singleton; by left|].
  case_decide as Hk; intros [->|Hx]%elem_of_cons; subst; [by left|right; by right|right; by left|].
  destruct (IH Hx); [by left|right; by right].
Qed.








End Invariant.




Definition quiet_world (now : datetime) (db : Db) : world :=
  {| wo_now := now; wo_db := db; wo_bucket := []; wo_used := []; wo_doubtful := []; wo_flights := []; wo_sweeps := [] |}.


(** ** Rows take paths over *)

Lemma staged_artifact db k a : (k, a) ∈ db_artifacts db -> startswith (a_storage_path a) STAGING_PREFIX = true -> a_storage_path a ∈ staged_paths db.
Proof.
  intros Ha Hs. apply elem_of_lfilter. split; [|done]. apply elem_of_app. left. apply list_elem_of_fmap. exists a. split; [done|].
  apply list_elem_of_fmap. by exists (k, a).
Qed.

Lemma staged_cache db k e p : (k, e) ∈ db_cache db -> ic_storage_path e = Some p -> startswith p STAGING_PREFIX = true -> p ∈ staged_paths db.
Proof.
  intros He Hp Hs. apply elem_of_lfilter. split; [|done]. apply elem_of_app. right. apply list_elem_of_omap. exists e. split; [|done].
  apply list_elem_of_fmap. by exists (k, e).
Qed.

Lemma staged_cases db p : p ∈ staged_paths db -> startswith p STAGING_PREFIX = true
  /\ ((exists k a, (k, a) ∈ db_artifacts db /\ a_storage_path a = p) \/ (exists k e, (k, e) ∈ db_cache db /\ ic_storage_path e = Some p)).
Proof.
  intros [[(a & -> & ([k a'] & -> & Hka)%list_elem_of_fmap)%list_elem_of_fmap|(e & ([k e'] & -> & Hke)%list_elem_of_fmap & He)%list_elem_of_omap]%elem_of_app
    Hs]%elem_of_lfilter; (split; [done|]); [left|right]; eauto.
Qed.

Lemma store_takes_over env now db node_type c inputs output node_id job_id db' k :
  store env now db node_type c inputs output node_id job_id = Ok db' -> (k, output) ∈ db_artifacts db ->
  staged_paths db' ⊆ staged_paths db.
Proof.
  unfold store. intros H Hk. destruct (negb _); [by injection H as <-|].
  apply bind_Ok in H as (key & _ & H). apply bind_Ok in H as (ordered & _ & H). apply bind_Ok in H as (stable & _ & H).
  apply bind_Ok in H as (ch & _ & H). apply bind_Ok in H as (sh & _ & H). cbv zeta in H. injection H as <-.
  intros p (Hs & [(k' & a & Ha & <-)|(k' & e & He & Hp)])%staged_cases; [by eapply staged_artifact|].
  unfold put_entry in He. change (db_cache (put_cache ?l db)) with l in He.
  apply elem_of_dset in He as [[= -> ->]|He]; [|by eapply staged_cache]. injection Hp as <-. by eapply staged_artifact.
Qed.

Lemma materialize_takes_over env db entry job_id nid a db' k :
  materialize_hit env db entry job_id nid = Ok (a, db') -> (k, entry) ∈ db_cache db -> staged_paths db' ⊆ staged_paths db.
Proof.
  unfold materialize_hit. intros H Hk. destruct (durable entry) eqn:Hd; [|done]. cbn [negb] in H. cbv zeta in H.
  assert (Hcreate : forall key art, a_storage_path art = opt_string (ic_storage_path entry) ->
            staged_paths (put_artifacts (db_artifacts db).[key <- art] db) ⊆ staged_paths db).
  { intros key art Hart p (Hs & [(k' & b & Hb & <-)|(k' & e & He & Hp)])%staged_cases; [|by eapply staged_cache].
    change (db_artifacts (put_artifacts ?l db)) with l in Hb. apply elem_of_dset in Hb as [[= -> ->]|Hb]; [|by eapply staged_artifact].
    rewrite Hart in *. destruct (ic_storage_path entry) as [q|] eqn:Hq; [|done]. by eapply staged_cache. }
  destruct (ic_output_artifact_id entry) as [o|]; [|injection H as <- <-; by apply Hcreate].
  destruct (_.[? o]) as [existing|]; [|injection H as <- <-; by apply Hcreate].
  destruct (_ =? _)%string; injection H as <- <-; [done|by apply Hcreate].
Qed.

(** ** What nobody commits is removed *)

Lemma take_app p n s r t : take p n s = Some r -> take p n (s +:+ t) = Some (r +:+ t).
Proof.
  revert s. induction n as [|n IH]; intros s; simpl; [by intros [= ->]|]. destruct s as [|c s]; [done|]. simpl. destruct (p c); [apply IH|done].
Qed.

Lemma strip_app q s r t : strip_prefix q s = Some r -> strip_prefix q (s +:+ t) = Some (r +:+ t).
Proof.
  revert s. induction q as [|c q IH]; intros s; simpl; [by intros [= ->]|]. destruct s as [|c' s]; [done|]. simpl. destruct (c =? c')%char; [apply IH|done].
Qed.

Lemma take_uuid_app s r t : take_uuid s = Some r -> take_uuid (s +:+ t) = Some (r +:+ t).
Proof.
  unfold take_uuid. intros H.
  repeat match type of H with
  | mbind _ (take ?p ?n ?x) = _ => let y := fresh "s" in let Hy := fresh in
      destruct (take p n x) as [y|] eqn:Hy; [|done]; change (mbind ?f (Some y)) with (f y) in H; rewrite (take_app p n x y t Hy); change (mbind ?f (Some ?z)) with (f z); cbv beta in H |- *
  | mbind _ (strip_prefix ?q ?x) = _ => let y := fresh "s" in let Hy := fresh in
      destruct (strip_prefix q x) as [y|] eqn:Hy; [|done]; change (mbind ?f (Some y)) with (f y) in H; rewrite (strip_app q x y t Hy); change (mbind ?f (Some ?z)) with (f z); cbv beta in H |- *
  end.
  by apply take_app.
Qed.

(** The janitor recognises the outputs of workers. *)
Lemma worker_path_recognised sha256 c ext :
  take_uuid (cl_job_id c) = Some "" -> take_uuid (cl_node_execution_id c) = Some "" ->
  take hex_lower 16 (token sha256 (token_material c)) = Some "" -> is_empty ext = false -> sforall is_alnum ext = true ->
  _CLAIM_STAGING_PATH (staging_path sha256 c ("." +:+ ext)) = true.
Proof.
  intros Hj Hn Ht He Ha. unfold _CLAIM_STAGING_PATH.
  change (staging_path sha256 c ("." +:+ ext)) with
    (STAGING_PREFIX +:+ (cl_job_id c +:+ ("/" +:+ (cl_node_execution_id c +:+ ("-" +:+ (token sha256 (token_material c) +:+ ("." +:+ ext))))))).
  rewrite strip_prefix_app. change (mbind ?f (Some ?z)) with (f z). cbv beta.
  rewrite (take_uuid_app _ _ _ Hj). change (mbind ?f (Some ("" +:+ ?z))) with (f z). cbv beta.
  rewrite strip_prefix_app. change (mbind ?f (Some ?z)) with (f z). cbv beta.
  rewrite (take_uuid_app _ _ _ Hn). change (mbind ?f (Some ("" +:+ ?z))) with (f z). cbv beta.
  rewrite strip_prefix_app. change (mbind ?f (Some ?z)) with (f z). cbv beta.
  rewrite (take_app _ _ _ _ _ Ht). change (mbind ?f (Some ("" +:+ ?z))) with (f z). cbv beta.
  rewrite strip_prefix_app. by rewrite He, Ha.
Qed.

Lemma turn_bucket grace checked protected fails r b item :
  (janitor_turn grace checked protected fails (r, b) item).2
  = if bool_decide (judge grace checked protected item = Removable) && negb (fails item.1) then dpop b item.1 else b.
Proof. unfold janitor_turn. destruct (judge _ _ _ item); try done. simpl. by destruct (fails item.1). Qed.

Lemma turns_bucket grace checked protected l r b p :
  ((fold_left (janitor_turn grace checked protected (fun _ => false)) l (r, b)).2).[? p]
  = if existsb (fun o => (o.1 =? p)%string && bool_decide (judge grace checked protected o = Removable)) l then None else b.[? p].
Proof.
  revert r b. induction l as [|o l IH]; intros r b; [done|]. cbn [fold_left existsb].
  pose proof (turn_bucket grace checked protected (fun _ => false) r b o) as Hb.
  destruct (janitor_turn grace checked protected (fun _ => false) (r, b) o) as [r' b']. cbn [snd] in Hb. rewrite IH, Hb.
  destruct (existsb _ l); [by rewrite orb_true_r|]. rewrite orb_false_r, andb_true_r.
  destruct (bool_decide (judge _ _ _ o = Removable)); [|by rewrite andb_false_r]. rewrite andb_true_r.
  destruct (String.eqb_spec o.1 p) as [->|Hne]; [by rewrite dget_dpop_eq|]. by rewrite dget_dpop_ne by done.
Qed.

(** A run removes exactly the staged objects it judges removable. *)
Lemma run_once_exact grace checked db bucket r bucket' p m :
  NoDup (dkeys bucket) -> run_once grace checked (fun _ => false) db bucket = Ok (r, bucket') -> bucket.[? p] = Some m ->
  bucket'.[? p] = if bool_decide (judge grace checked (staged_paths db) (p, m) = Removable) then None else Some m.
Proof.
  intros Hnd H Hp. unfold run_once in H. destruct (_ <? _)%Z; [done|]. injection H as H. apply (f_equal snd) in H. cbn [snd] in H.
  rewrite <- H, turns_bucket, Hp. set (keep := fun o => _ && _).
  assert (Hin : existsb keep (list_objects bucket) = bool_decide (judge grace checked (staged_paths db) (p, m) = Removable)); [|by rewrite Hin].
  apply Bool.eq_iff_eq_true. rewrite existsb_exists, bool_decide_eq_true. split.
  - intros ([q m'] & [Hq _]%list_elem_of_In%elem_of_lfilter & [Heq%String.eqb_eq Hj%bool_decide_eq_true]%andb_prop). cbn [fst] in Heq. subst q.
    apply elem_of_dget in Hq; [|done]. congruence.
  - intros Hj. exists (p, m). split; [|unfold keep; cbn [fst]; by rewrite String.eqb_refl, bool_decide_true].
    apply list_elem_of_In, elem_of_lfilter. split; [by apply elem_of_dget|]. revert Hj. unfold judge. cbn [fst].
    destruct (_CLAIM_STAGING_PATH p) eqn:Hpath; [|done]. intros _. revert Hpath. unfold _CLAIM_STAGING_PATH, startswith.
    by destruct (strip_prefix STAGING_PREFIX p).
Qed.

(** An output that was stored and never committed is gone after a run a day later. *)
Lemma abandoned_output_removed sha256 c ext t checked db bucket :
  take_uuid (cl_job_id c) = Some "" -> take_uuid (cl_node_execution_id c) = Some "" ->
  take hex_lower 16 (token sha256 (token_material c)) = Some "" -> is_empty ext = false -> sforall is_alnum ext = true ->
  let p := staging_path sha256 c ("." +:+ ext) in
  NoDup (dkeys bucket) -> bucket.[? p] = Some t -> p ∉ staged_paths db -> (GRACE_US < checked - t)%Z ->
  exists r bucket', run_once STAGING_GRACE_SECONDS checked (fun _ => false) db bucket = Ok (r, bucket') /\ bucket'.[? p] = None.
Proof.
  intros Hj Hn Ht He Ha p Hnd Hp Hfree Hold. destruct (run_once STAGING_GRACE_SECONDS checked (fun _ => false) db bucket) as [[r b]|] eqn:Hrun.
  2:{ unfold run_once in Hrun. by rewrite Z.ltb_irrefl in Hrun. }
  exists r, b. split; [done|]. rewrite (run_once_exact _ _ _ _ _ _ p t Hnd Hrun Hp). rewrite bool_decide_true; [done|].
  unfold judge. cbn [fst snd]. rewrite (worker_path_recognised sha256 c ext Hj Hn Ht He Ha : _CLAIM_STAGING_PATH p = true). cbn [negb].
  rewrite bool_decide_false by done. unfold GRACE_US in Hold. by destruct (Z.leb_spec (checked - t) (STAGING_GRACE_SECONDS * 1000000)); [lia|].
Qed.

(** ** A history *)

Module StagingDemo.
Definition digest (s : string) : string :=
  smap (fun c => if is_digit c then c else "a"%char) (String.substring (String.length s - 32) 16 s) +:+ "0123456789abcdef".
Definition job : Job :=
  (waiting_job (uuid_str 1) NodeStatus.QUEUED JobStatus.RUNNING) <| j_node_executions ::= map (fun n => n <| ne_id := uuid_str 2 |>) |>.
Definition db (jobs : Job) : Db :=
  bare_db <| db_schedule := Some (set_video_schedule_state OPEN "operator") |> <| db_jobs := [(uuid_str 1, jobs)] |>.
Definition claimed (worker : string) (now : datetime) : Res (NodeExecutionClaim * Db) :=
  _claim_node_execution "" (db job) (uuid_str 1) (uuid_str 2) worker now.
Definition claim (worker : string) (now : datetime) : NodeExecutionClaim :=
  {| cl_job_id := uuid_str 1; cl_node_execution_id := uuid_str 2; cl_worker_id := worker; cl_started_at := now;
     cl_worker_registration_id := None; cl_worker_lease_epoch := None |}.
Definition claimed_db (worker : string) (now : datetime) : Db :=
  Eval cbv beta iota delta [claimed] in match claimed worker now with Ok (_, d) => d | Raise _ => db job end.
Definition later : datetime := (2 * DAY_US)%Z.
Definition output : Artifact :=
  claimed_artifact (uuid_str 7) (claim "b" later) "f" "video/mp4" 1
    {| pm_backend := "minio"; pm_path := staging_path digest (claim "b" later) ".mp4"; pm_media_info := None; pm_skip_upload := false |}.
End StagingDemo.




(** A commit that took effect and was not confirmed: the worker deletes the output its row names. *)
Example unanswered_commit_loses_output :
  exists w, rtc (staging_step StagingDemo.digest "" STAGING_GRACE_SECONDS)
              (quiet_world StagingDemo.later (StagingDemo.claimed_db "b" StagingDemo.later)) w
    /\ a_storage_path StagingDemo.output ∈ staged_paths (wo_db w) /\ wo_bucket w = [].
Proof.
  eexists. split; [|split].
  - eapply rtc_l; [eapply (st_start _ _ _ _ (StagingDemo.claim "b" StagingDemo.later) ".mp4"); [apply not_elem_of_nil|by split]|].
    eapply rtc_l; [eapply (st_save _ _ _ _ [] _ []); [reflexivity|reflexivity|vm_compute; reflexivity]|].
    eapply rtc_l; [eapply (st_unanswered _ _ _ _ [] _ [] _ StagingDemo.output); [reflexivity|reflexivity|vm_compute; discriminate|reflexivity|vm_compute; reflexivity]|].
    eapply rtc_l; [eapply (st_cleanup _ _ _ _ (a_storage_path StagingDemo.output)); by left|]. eapply rtc_refl.
  - by apply (bool_decide_unpack _).
  - vm_compute. reflexivity.
Qed.
