(* ===== verification/Delivery.v ===== *)
(** * Delivery of staged tasks ([services/registered_worker_event_receipt.py],
    the dispatch half of [RegisteredWorkerEventReceiptService])

    Staged rows are marked as attempted in one transaction, published to Redis by a
    script that remembers the message of each dispatch key, and marked as
    delivered in a second transaction.  Attempts that never got their second
    transaction are recovered from the script's memory; dispatches of cancelled
    nodes are cancelled or acknowledged.  A program is a sequence of committed
    transactions and Redis commands: what was done before an exception stays
    done. *)

From stdpp Require Import base tactics list strings sorting relations.
From Stdlib Require Import ZArith Lia.
From S2P Require Import Prelude PyStr PyValue PyJson Pipeline JobModel WorkerModel RedisModel Schedule Authority WorkerEvents.

Open Scope string_scope.
Open Scope list_scope.

(** ** Programs *)

Section Io.
Context {R : Type}.

Definition World : Type := Db * R.
Definition Io (A : Type) : Type := World -> Res A * World.

Definition io_ret {A} (a : A) : Io A := fun w => (Ok a, w).
Definition io_raise {A} (e : exn) : Io A := fun w => (Raise e, w).
Definition io_res {A} (r : Res A) : Io A := fun w => (r, w).

Definition io_bind {A B} (m : Io A) (k : A -> Io B) : Io B := fun w =>
  match m w with
  | (Ok a, w') => k a w'
  | (Raise e, w') => (Raise e, w')
  end.

(** A transaction: committed, or rolled back by an exception. *)
Definition transaction {A} (f : Db -> Res (A * Db)) : Io A := fun w =>
  match f w.1 with
  | Ok (a, db') => (Ok a, (db', w.2))
  | Raise e => (Raise e, w)
  end.

Definition read {A} (f : Db -> A) : Io A := fun w => (Ok (f w.1), w).

(** One Redis command or script. *)
Definition command {A} (f : R -> A * R) : Io A := fun w => let '(a, r') := f w.2 in (Ok a, (w.1, r')).

(** A transaction that also sends Redis commands: these stay when it rolls back. *)
Definition transaction_redis {A} (f : Db -> R -> Res (A * Db) * R) : Io A := fun w =>
  match f w.1 w.2 with
  | (Ok (a, db'), r') => (Ok a, (db', r'))
  | (Raise e, r') => (Raise e, (w.1, r'))
  end.

Fixpoint io_for {A} (l : list A) (body : A -> Io ()) : Io () :=
  match l with
  | [] => io_ret ()
  | a :: l' => io_bind (body a) (fun _ => io_for l' body)
  end.
End Io.
Arguments World R : clear implicits.
Arguments Io R A : clear implicits.

Notation "'let!' x := m 'in' k" := (io_bind m (fun x => k))
  (at level 200, x binder, m at level 100, k at level 200, right associativity) : vp_scope.

(** ** Columns *)

Definition with_delivery (state : string) (attempted : option datetime) (error : option string)
    (message : option string) (delivered : option datetime) (d : WorkerTaskDispatch) : WorkerTaskDispatch :=
  {| wd_id := wd_id d; wd_origin_receipt_id := wd_origin_receipt_id d; wd_dispatch_key := wd_dispatch_key d;
     wd_job_id := wd_job_id d; wd_node_execution_id := wd_node_execution_id d;
     wd_redis_stream := wd_redis_stream d; wd_consumer_group := wd_consumer_group d;
     wd_payload_sha256 := wd_payload_sha256 d; wd_payload_json := wd_payload_json d;
     wd_delivery_state := state; wd_delivery_attempted_at := attempted; wd_delivery_error := error;
     wd_redis_message_id := message; wd_delivered_at := delivered;
     wd_resolution_state := wd_resolution_state d; wd_acknowledged_at := wd_acknowledged_at d;
     wd_cancelled_at := wd_cancelled_at d; wd_created_at := wd_created_at d |}.

Definition with_resolution (state : string) (acknowledged cancelled : option datetime) (d : WorkerTaskDispatch)
    : WorkerTaskDispatch :=
  {| wd_id := wd_id d; wd_origin_receipt_id := wd_origin_receipt_id d; wd_dispatch_key := wd_dispatch_key d;
     wd_job_id := wd_job_id d; wd_node_execution_id := wd_node_execution_id d;
     wd_redis_stream := wd_redis_stream d; wd_consumer_group := wd_consumer_group d;
     wd_payload_sha256 := wd_payload_sha256 d; wd_payload_json := wd_payload_json d;
     wd_delivery_state := wd_delivery_state d; wd_delivery_attempted_at := wd_delivery_attempted_at d;
     wd_delivery_error := wd_delivery_error d; wd_redis_message_id := wd_redis_message_id d;
     wd_delivered_at := wd_delivered_at d; wd_resolution_state := state; wd_acknowledged_at := acknowledged;
     wd_cancelled_at := cancelled; wd_created_at := wd_created_at d |}.

Definition attempt (now : datetime) (d : WorkerTaskDispatch) : WorkerTaskDispatch :=
  with_delivery "attempting" (Some now) None (wd_redis_message_id d) (wd_delivered_at d) d.

Definition mark_delivered (now : datetime) (message : string) (d : WorkerTaskDispatch) : WorkerTaskDispatch :=
  with_delivery "delivered" (wd_delivery_attempted_at d) (wd_delivery_error d) (Some message) (Some now) d.

Definition mark_uncertain (reason : string) (d : WorkerTaskDispatch) : WorkerTaskDispatch :=
  with_delivery "uncertain" (wd_delivery_attempted_at d) (Some reason) (wd_redis_message_id d) (wd_delivered_at d) d.

Definition cancel_dispatch (now : datetime) (d : WorkerTaskDispatch) : WorkerTaskDispatch :=
  with_resolution "cancelled" (wd_acknowledged_at d) (Some now)
    (with_delivery "cancelled" (wd_delivery_attempted_at d) (wd_delivery_error d) (wd_redis_message_id d)
       (wd_delivered_at d) d).

Definition authorize_dispatch (d : WorkerTaskDispatch) : WorkerTaskDispatch :=
  if (wd_resolution_state d =? "unresolved")%string
  then with_resolution "cancel_authorized" (wd_acknowledged_at d) (wd_cancelled_at d) d else d.

Definition acknowledge_dispatch (now : datetime) (d : WorkerTaskDispatch) : WorkerTaskDispatch :=
  with_resolution "acknowledged" (Some now) (wd_cancelled_at d) d.

Definition acknowledge_attestation (now : datetime) (a : WorkerTaskDeliveryAttestation)
    : WorkerTaskDeliveryAttestation :=
  {| at_id := at_id a; at_redis_stream := at_redis_stream a; at_consumer_group := at_consumer_group a;
     at_message_id := at_message_id a; at_payload_sha256 := at_payload_sha256 a;
     at_dispatch_key := at_dispatch_key a; at_job_id := at_job_id a;
     at_node_execution_id := at_node_execution_id a;
     at_worker_registration_id := at_worker_registration_id a;
     at_worker_lease_epoch := at_worker_lease_epoch a; at_worker_id := at_worker_id a;
     at_worker_started_at := at_worker_started_at a; at_ack_state := "acknowledged";
     at_acknowledged_at := Some now; at_attested_at := at_attested_at a |}.

(** [f] on the dispatches that satisfy [p]. *)
Definition update_dispatches (p : WorkerTaskDispatch -> bool) (f : WorkerTaskDispatch -> WorkerTaskDispatch)
    (db : Db) : Db :=
  put_workers (set_dispatches (map (fun d => if p d then f d else d) (db_dispatches db)) (db_workers db)) db.

Definition update_attestations (p : WorkerTaskDeliveryAttestation -> bool)
    (f : WorkerTaskDeliveryAttestation -> WorkerTaskDeliveryAttestation) (db : Db) : Db :=
  put_workers (set_attestations (map (fun a => if p a then f a else a) (db_attestations db)) (db_workers db)) db.

Definition has_id (id : uuid) (d : WorkerTaskDispatch) : bool := (wd_id d =? id)%string.

Definition in_batch (batch : list WorkerTaskDispatch) (d : WorkerTaskDispatch) : bool :=
  existsb (fun b => has_id (wd_id b) d) batch.

Definition created_le (a b : WorkerTaskDispatch) : Prop := (wd_created_at a <= wd_created_at b)%Z.
#[export] Instance created_le_dec : RelDecision created_le.
Proof. intros a b. unfold created_le. apply _. Defined.

Definition attempted_at (d : WorkerTaskDispatch) : Z := default 0%Z (wd_delivery_attempted_at d).
Definition attempted_le (a b : WorkerTaskDispatch) : Prop := (attempted_at a <= attempted_at b)%Z.
#[export] Instance attempted_le_dec : RelDecision attempted_le.
Proof. intros a b. unfold attempted_le. apply _. Defined.

(** [origin_receipt_id == receipt_id] when a receipt is given. *)
Definition of_receipt (receipt_id : option uuid) (d : WorkerTaskDispatch) : bool :=
  match receipt_id with
  | None => true
  | Some rid => bool_decide (wd_origin_receipt_id d = Some rid)
  end.

Definition node_row (db : Db) (node_execution_id : uuid) : option NodeExecution :=
  match omap (fun j => find_node node_execution_id j.2) (db_jobs db) with
  | n :: _ => Some n
  | [] => None
  end.

Definition cancelled_rows (db : Db) (d : WorkerTaskDispatch) : bool :=
  match (db_jobs db).[? wd_job_id d], node_row db (wd_node_execution_id d) with
  | Some j, Some n => bool_decide (j_status j = JobStatus.CANCELLED) && has_status NodeStatus.CANCELLED n
  | _, _ => false
  end.

Definition marker_prefix : string := "vp:worker-task-dispatch:".
Definition marker_key (dispatch_key : uuid) : string := marker_prefix +:+ dispatch_key.

(** The arguments of [XADD]: keys and values in the order of the keys. *)
Definition message_fields (p : payload) : list string :=
  concat (map (fun kv => [kv.1; kv.2]) (sorted_items p)).

(** ** Operations *)

Section Delivery.
Context {R : Type} `{!RedisStore R}.
Context (setting : string) (now : datetime) (env : Env).
(** [dispatch_attempt_recovery_seconds], in microseconds. *)
Context (recovery : Z).

(** [_IDEMPOTENT_XADD_SCRIPT]. *)
Definition idempotent_xadd (stream marker : string) (fields : list string) (r : R) : string * R :=
  match redis_get r marker with
  | Some existing => (existing, r)
  | None => let '(message_id, r1) := redis_xadd stream fields r in (message_id, redis_set marker message_id r1)
  end.

Definition _validated_dispatch_payload (d : WorkerTaskDispatch) : Res payload :=
  match wd_payload_json d with
  | VDict p =>
      if negb (is_str (dict_get p "dispatch_key") (wd_dispatch_key d)) then
        event_error "worker task dispatch key mismatch"
      else
        payload_hash ← canonical_redis_payload_sha256 env p;
        if negb (payload_hash =? wd_payload_sha256 d)%string then
          event_error "worker task dispatch payload hash mismatch"
        else Ok (default [] (string_items p))
  | _ => event_error "worker task dispatch payload is invalid"
  end.

(** Locks the channels and the schedule of the jobs of the observed rows. *)
Definition _locked_dispatch_batch (db : Db) (observed : list WorkerTaskDispatch) : Res (list WorkerTaskDispatch) :=
  match observed with
  | [] => Ok []
  | _ =>
      _ ← lock_job_execution_entries setting db (merge_sort str_le (uniq (map wd_job_id observed))) true;
      Ok observed
  end.

Definition dispatch_rows (db : Db) (dispatch_id : uuid) : list WorkerTaskDispatch :=
  List.filter (has_id dispatch_id) (db_dispatches db).

Definition _mark_dispatch_delivered (dispatch_id : uuid) (message_id : string) (db : Db) : Res (() * Db) :=
  rows ← _locked_dispatch_batch db (dispatch_rows db dispatch_id);
  match rows with
  | [] => event_error "worker task dispatch is missing"
  | d :: _ =>
      if (wd_delivery_state d =? "delivered")%string then
        if bool_decide (wd_redis_message_id d = Some message_id) then Ok ((), db)
        else event_error "worker task dispatch message mismatch"
      else if negb (wd_delivery_state d =? "attempting")%string then
        event_error "worker task dispatch is not attempting delivery"
      else Ok ((), update_dispatches (has_id dispatch_id) (mark_delivered now message_id) db)
  end.

Definition _mark_dispatch_uncertain (dispatch_id : uuid) (reason : string) (db : Db) : Res (() * Db) :=
  rows ← _locked_dispatch_batch db (dispatch_rows db dispatch_id);
  match rows with
  | [] => event_error "worker task dispatch is missing"
  | d :: _ =>
      if (wd_delivery_state d =? "delivered")%string then Ok ((), db)
      else if negb (wd_delivery_state d =? "attempting")%string then
        event_error "worker task dispatch is not attempting delivery"
      else Ok ((), update_dispatches (has_id dispatch_id) (mark_uncertain reason) db)
  end.

Definition pending_dispatch (d : WorkerTaskDispatch) : bool :=
  (wd_delivery_state d =? "pending")%string && (wd_resolution_state d =? "unresolved")%string.

Definition _begin_dispatch_attempts (receipt_id : option uuid) (limit : nat) (db : Db)
    : Res (list WorkerTaskDispatch * Db) :=
  let applied := match receipt_id with
                 | None => true
                 | Some rid => match get_receipt db rid with
                               | Some r => (rc_application_state r =? "applied")%string
                               | None => false
                               end
                 end in
  if negb applied then event_error "dispatch has no applied event receipt"
  else
    let observed := take limit (merge_sort created_le
                      (List.filter (fun d => pending_dispatch d && of_receipt receipt_id d) (db_dispatches db))) in
    dispatches ← _locked_dispatch_batch db observed;
    Ok (map (attempt now) dispatches, update_dispatches (in_batch dispatches) (attempt now) db).

Definition stale_attempts (receipt_id : option uuid) (limit : nat) (db : Db) : list WorkerTaskDispatch :=
  let stale d := (wd_delivery_state d =? "attempting")%string
                 && match wd_delivery_attempted_at d with Some t => (t <=? now - recovery)%Z | None => false end
                 && of_receipt receipt_id d in
  take limit (merge_sort attempted_le (List.filter stale (db_dispatches db))).

Definition nonblank_message (m : option string) : option string :=
  match m with Some s => if nonblank s then Some (strip s) else None | None => None end.

Definition recover_attempt (d : WorkerTaskDispatch) : Io R () :=
  let! message_id := command (fun r => (redis_get r (marker_key (wd_dispatch_key d)), r)) in
  match nonblank_message message_id with
  | Some m => transaction (_mark_dispatch_delivered (wd_id d) m)
  | None => transaction (_mark_dispatch_uncertain (wd_id d) "dispatch_marker_missing_after_attempt")
  end.

Definition _recover_stale_dispatch_attempts (receipt_id : option uuid) (limit : nat) : Io R () :=
  let! attempts := read (stale_attempts receipt_id limit) in
  io_for attempts recover_attempt.

Definition deliver_dispatch (d : WorkerTaskDispatch) : Io R () :=
  let! payload := io_res (_validated_dispatch_payload d) in
  let! message_id := command (idempotent_xadd (wd_redis_stream d) (marker_key (wd_dispatch_key d))
                                (message_fields payload)) in
  if negb (nonblank message_id) then io_res (event_error "Redis dispatch message id is invalid")
  else transaction (_mark_dispatch_delivered (wd_id d) (strip message_id)).

Definition deliver_pending_dispatches (receipt_id : option uuid) (limit : Z) : Io R () :=
  if (limit <=? 0)%Z then io_raise (ValueError "limit must be positive")
  else
    let! _ := _recover_stale_dispatch_attempts receipt_id (Z.to_nat limit) in
    let! dispatches := transaction (_begin_dispatch_attempts receipt_id (Z.to_nat limit)) in
    io_for dispatches deliver_dispatch.

Definition reconcile_pending_dispatches (limit : Z) : Io R () := deliver_pending_dispatches None limit.

(** *** Dispatches of cancelled nodes *)

Definition _cancel_pending_dispatches (limit : nat) (db : Db) : Res (() * Db) :=
  let observed := take limit (merge_sort created_le
                    (List.filter (fun d => pending_dispatch d && cancelled_rows db d) (db_dispatches db))) in
  dispatches ← _locked_dispatch_batch db observed;
  Ok ((), update_dispatches (in_batch dispatches) (cancel_dispatch now) db).

Definition _authorize_cancelled_dispatches (limit : nat) (db : Db) : Res (list uuid * Db) :=
  let observed := take limit (merge_sort created_le
                    (List.filter (fun d => (wd_delivery_state d =? "delivered")%string && unresolved d
                                           && cancelled_rows db d) (db_dispatches db))) in
  dispatches ← _locked_dispatch_batch db observed;
  Ok (map wd_id dispatches, update_dispatches (in_batch dispatches) authorize_dispatch db).

Definition _require_xack_result (result : Z) (label : string) : Res () :=
  if (result =? 0)%Z || (result =? 1)%Z then Ok ()
  else event_error ("Redis " +:+ label +:+ " acknowledgement result is invalid").

Definition _mark_cancelled_dispatch_acknowledged (d : WorkerTaskDispatch) (db : Db) : Db :=
  update_attestations (fun a => bool_decide (at_dispatch_key a = wd_dispatch_key d)
                                && negb (at_ack_state a =? "acknowledged")%string) (acknowledge_attestation now)
    (update_dispatches (has_id (wd_id d)) (acknowledge_dispatch now) db).

Definition _acknowledge_cancelled_dispatch (dispatch_id : uuid) (db : Db) (r : R) : Res (() * Db) * R :=
  match _locked_dispatch_batch db (dispatch_rows db dispatch_id) with
  | Raise e => (Raise e, r)
  | Ok [] => (Ok ((), db), r)
  | Ok (d :: _) =>
      if (wd_resolution_state d =? "acknowledged")%string then (Ok ((), db), r)
      else
        match wd_redis_message_id d with
        | Some message_id =>
            if negb (wd_delivery_state d =? "delivered")%string
               || negb (wd_resolution_state d =? "cancel_authorized")%string then
              (event_error "cancelled worker task acknowledgement is not authorized", r)
            else if negb (cancelled_rows db d) then
              (event_error "worker task cancellation authority changed", r)
            else
              let '(result, r') := redis_xack (wd_redis_stream d) (wd_consumer_group d) message_id r in
              match _require_xack_result result "cancelled worker task" with
              | Raise e => (Raise e, r')
              | Ok _ => (Ok ((), _mark_cancelled_dispatch_acknowledged d db), r')
              end
        | None => (event_error "cancelled worker task acknowledgement is not authorized", r)
        end
  end.

Definition reconcile_cancelled_dispatches (limit : Z) : Io R () :=
  if (limit <=? 0)%Z then io_raise (ValueError "limit must be positive")
  else
    let! _ := _recover_stale_dispatch_attempts None (Z.to_nat limit) in
    let! _ := transaction (_cancel_pending_dispatches (Z.to_nat limit)) in
    let! dispatch_ids := transaction (_authorize_cancelled_dispatches (Z.to_nat limit)) in
    io_for dispatch_ids (fun id => transaction_redis (_acknowledge_cancelled_dispatch id)).
End Delivery.

(** ** The life of a dispatch row *)

Inductive dispatch_step : WorkerTaskDispatch -> WorkerTaskDispatch -> Prop :=
| step_attempt now d : pending_dispatch d = true -> dispatch_step d (attempt now d)
| step_delivered now m d : wd_delivery_state d = "attempting" -> dispatch_step d (mark_delivered now m d)
| step_uncertain reason d : wd_delivery_state d = "attempting" -> dispatch_step d (mark_uncertain reason d)
| step_cancel now d : pending_dispatch d = true -> dispatch_step d (cancel_dispatch now d)
| step_authorize d :
    wd_delivery_state d = "delivered" -> wd_resolution_state d = "unresolved" -> dispatch_step d (authorize_dispatch d)
| step_acknowledge now d :
    wd_delivery_state d = "delivered" -> unresolved d = true -> dispatch_step d (acknowledge_dispatch now d).

(** The [CHECK] constraints of [worker_task_dispatches] on states and times. *)
Definition absent {A} (o : option A) : bool := match o with None => true | Some _ => false end.
Definition present {A} (o : option A) : bool := match o with None => false | Some _ => true end.

Definition check_delivery (d : WorkerTaskDispatch) : bool :=
  ((wd_delivery_state d =? "pending")%string && absent (wd_delivery_attempted_at d)
   && absent (wd_redis_message_id d) && absent (wd_delivered_at d))
  || (((wd_delivery_state d =? "attempting")%string || (wd_delivery_state d =? "uncertain")%string)
      && present (wd_delivery_attempted_at d) && absent (wd_redis_message_id d) && absent (wd_delivered_at d))
  || ((wd_delivery_state d =? "delivered")%string && present (wd_delivery_attempted_at d)
      && present (wd_redis_message_id d) && present (wd_delivered_at d))
  || ((wd_delivery_state d =? "cancelled")%string && absent (wd_redis_message_id d) && absent (wd_delivered_at d)).

Definition check_resolution (d : WorkerTaskDispatch) : bool :=
  (unresolved d && absent (wd_acknowledged_at d) && absent (wd_cancelled_at d))
  || ((wd_resolution_state d =? "acknowledged")%string && present (wd_acknowledged_at d) && absent (wd_cancelled_at d))
  || ((wd_resolution_state d =? "cancelled")%string && absent (wd_acknowledged_at d) && present (wd_cancelled_at d)).

Definition dispatch_checks (d : WorkerTaskDispatch) : bool := check_delivery d && check_resolution d.

Lemma dispatch_step_checks d d' : dispatch_step d d' -> dispatch_checks d = true -> dispatch_checks d' = true.
Proof.
  intros Hstep [Hd Hr]%andb_prop. unfold dispatch_checks, check_delivery, check_resolution, unresolved in *.
  destruct Hstep as [now d Hp|now m d Hs|reason d Hs|now d Hp|d Hs Hu|now d Hs Hu];
    try apply andb_prop in Hp as [Hs%String.eqb_eq Hu%String.eqb_eq];
    unfold authorize_dispatch, unresolved in *; rewrite ?Hu; simpl; rewrite ?Hs in *; simpl in *;
    destruct (wd_delivery_attempted_at d), (wd_redis_message_id d), (wd_delivered_at d); try done;
    try (rewrite Hu in Hr; simpl in Hr); try done;
    destruct (wd_acknowledged_at d), (wd_cancelled_at d); simpl in *; try done;
    repeat (rewrite ?andb_false_r, ?andb_true_r, ?orb_false_r in *); try done;
    try (destruct (String.eqb_spec (wd_resolution_state d) "acknowledged") as [He|];
         [rewrite He in Hu|]; done);
    try (destruct (String.eqb_spec (wd_resolution_state d) "cancelled") as [He|];
         [rewrite He in Hu|]; done).
Qed.

(** What a step keeps. *)
Definition dispatch_identity (d : WorkerTaskDispatch)
    : uuid * option uuid * uuid * uuid * uuid * string * string * string * pyval :=
  (wd_id d, wd_origin_receipt_id d, wd_dispatch_key d, wd_job_id d, wd_node_execution_id d, wd_redis_stream d,
   wd_consumer_group d, wd_payload_sha256 d, wd_payload_json d).

Lemma dispatch_step_identity d d' : dispatch_step d d' -> dispatch_identity d' = dispatch_identity d.
Proof. destruct 1; try done. unfold authorize_dispatch. by case_match. Qed.

Lemma dispatch_steps_identity d d' : rtc dispatch_step d d' -> dispatch_identity d' = dispatch_identity d.
Proof. induction 1 as [|d d1 d' Hs _ IH]; [done|]. rewrite IH. by apply dispatch_step_identity. Qed.

Lemma dispatch_steps_id d d' : rtc dispatch_step d d' -> wd_id d' = wd_id d.
Proof. intros H%dispatch_steps_identity. by injection H. Qed.

Lemma dispatch_steps_checks d d' : rtc dispatch_step d d' -> dispatch_checks d = true -> dispatch_checks d' = true.
Proof. induction 1; [done|]. eauto using dispatch_step_checks. Qed.

(** Tables other than those of dispatches and attestations. *)
Definition other_tables (db : Db) :=
  (db_tasks db, db_channels db, db_schedule db, db_jobs db, (db_artifacts db, db_assets db, db_cache db),
   (db_registrations db, db_grants db, db_emissions db, db_receipts db, db_deliveries db)).

(** From [db] to [db'] rows only progressed. *)
Definition progress (db db' : Db) : Prop :=
  Forall2 (rtc dispatch_step) (db_dispatches db) (db_dispatches db') /\ other_tables db' = other_tables db.

#[export] Instance progress_preorder : PreOrder progress.
Proof.
  split.
  - intros db. split; [|done]. induction (db_dispatches db); by constructor.
  - intros a b c [Hab Hab'] [Hbc Hbc']. split; [|congruence]. revert Hbc. generalize (db_dispatches c) as lc.
    induction Hab as [|x y l l' Hxy _ IH]; intros lc Hc; inversion Hc as [|? z ? ? Hyz Hc']; subst; constructor; eauto.
    by trans y.
Qed.

Definition ids_unique (db : Db) : Prop := NoDup (map wd_id (db_dispatches db)).

Lemma progress_ids db db' : progress db db' -> map wd_id (db_dispatches db') = map wd_id (db_dispatches db).
Proof.
  intros [Hf _]. induction Hf as [|d d' l l' Hd _ IH]; [done|]. simpl. by rewrite IH, (dispatch_steps_id _ _ Hd).
Qed.

Lemma progress_unique db db' : progress db db' -> ids_unique db -> ids_unique db'.
Proof. unfold ids_unique. intros H. by rewrite (progress_ids _ _ H). Qed.

Lemma unique_row db d d' :
  ids_unique db -> d ∈ db_dispatches db -> d' ∈ db_dispatches db -> wd_id d = wd_id d' -> d = d'.
Proof.
  unfold ids_unique. intros Hnd Hd Hd' Heq.
  apply list_elem_of_lookup in Hd as [i Hi], Hd' as [k Hk].
  assert (i = k) as ->; [|congruence]. eapply NoDup_lookup; [exact Hnd| |].
  - rewrite list_lookup_fmap, Hi. done.
  - rewrite list_lookup_fmap, Hk. simpl. by rewrite Heq.
Qed.

Lemma update_progress p f db :
  (forall d, d ∈ db_dispatches db -> p d = true -> dispatch_step d (f d) \/ f d = d) -> progress db (update_dispatches p f db).
Proof.
  intros Hstep. split; [|done]. unfold update_dispatches. simpl. change (w_dispatches (db_workers db)) with (db_dispatches db).
  induction (db_dispatches db) as [|d l IH]; [constructor|]. simpl. constructor.
  - destruct (p d) eqn:Hp; [|done]. destruct (Hstep d) as [Hs | ->]; [constructor|done|by apply rtc_once|done].
  - apply IH. intros d' Hd'. apply Hstep. by right.
Qed.

Lemma in_batch_iff batch d : in_batch batch d = true <-> exists b, b ∈ batch /\ wd_id d = wd_id b.
Proof.
  unfold in_batch. rewrite existsb_exists. unfold has_id. setoid_rewrite String.eqb_eq.
  by setoid_rewrite list_elem_of_In.
Qed.

Lemma batch_progress batch f db :
  ids_unique db -> (forall d, d ∈ batch -> d ∈ db_dispatches db /\ (dispatch_step d (f d) \/ f d = d)) ->
  progress db (update_dispatches (in_batch batch) f db).
Proof.
  intros Hu Hb. apply update_progress. intros d Hd (b & Hin & Hid)%in_batch_iff.
  destruct (Hb b Hin) as [Hb' Hs]. by rewrite (unique_row db d b Hu Hd Hb' Hid).
Qed.

(** A row found by its key. *)
Lemma dispatch_rows_in db id d l : dispatch_rows db id = d :: l -> d ∈ db_dispatches db /\ wd_id d = id.
Proof.
  intros Hrows. assert (Hin : d ∈ dispatch_rows db id) by (rewrite Hrows; left).
  unfold dispatch_rows in Hin. apply list_elem_of_In, filter_In in Hin as [Hin Hid%String.eqb_eq].
  split; [by apply list_elem_of_In | done].
Qed.

Lemma id_progress db id d f :
  ids_unique db -> d ∈ db_dispatches db -> wd_id d = id -> dispatch_step d (f d) ->
  progress db (update_dispatches (has_id id) f db).
Proof.
  intros Hu Hd Hid Hs. apply update_progress. intros d' Hd' Hid'%String.eqb_eq. left.
  rewrite (unique_row db d' d Hu Hd' Hd); [done|congruence].
Qed.

(** The rows a statement selects. *)
Lemma selected_in {A} (Rel : relation A) `{!RelDecision Rel} n p (l : list A) d :
  d ∈ take n (merge_sort Rel (List.filter p l)) -> d ∈ l /\ p d = true.
Proof.
  intros Hd. rewrite list_elem_of_In, <- filter_In, <- list_elem_of_In.
  assert (Hs : d ∈ merge_sort Rel (List.filter p l)).
  { rewrite <- (take_drop n (merge_sort Rel (List.filter p l))). apply elem_of_app. by left. }
  by rewrite merge_sort_Permutation in Hs.
Qed.

Lemma locked_batch setting db observed batch :
  _locked_dispatch_batch setting db observed = Ok batch -> batch = observed.
Proof.
  unfold _locked_dispatch_batch. destruct observed as [|d l]; [by intros [= <-]|].
  by destruct (lock_job_execution_entries _ _ _ _); intros [= <-].
Qed.

(** ** Every program only moves rows forward *)

Section Progress.
Context {R : Type} `{!RedisStore R}.
Context (setting : string) (now : datetime) (env : Env) (recovery : Z).

Lemma mark_delivered_progress id m db db' :
  ids_unique db -> _mark_dispatch_delivered setting now id m db = Ok ((), db') -> progress db db'.
Proof.
  intros Hu (rows & Hrows%locked_batch & Hm)%bind_Ok. subst rows.
  destruct (dispatch_rows db id) as [|d l] eqn:Hr; [done|]. apply dispatch_rows_in in Hr as [Hd Hid].
  destruct (String.eqb_spec (wd_delivery_state d) "delivered"); [case_bool_decide; by simplify_eq|].
  destruct (String.eqb_spec (wd_delivery_state d) "attempting"); [|done]. simpl in Hm. simplify_eq.
  eapply id_progress; [done|exact Hd|done|by constructor].
Qed.

Lemma mark_uncertain_progress id reason db db' :
  ids_unique db -> _mark_dispatch_uncertain setting id reason db = Ok ((), db') -> progress db db'.
Proof.
  intros Hu (rows & Hrows%locked_batch & Hm)%bind_Ok. subst rows.
  destruct (dispatch_rows db id) as [|d l] eqn:Hr; [done|]. apply dispatch_rows_in in Hr as [Hd Hid].
  destruct (String.eqb_spec (wd_delivery_state d) "delivered"); [by simplify_eq|].
  destruct (String.eqb_spec (wd_delivery_state d) "attempting"); [|done]. simpl in Hm. simplify_eq.
  eapply id_progress; [done|exact Hd|done|by constructor].
Qed.

Lemma begin_progress rid limit db batch db' :
  ids_unique db -> _begin_dispatch_attempts setting now rid limit db = Ok (batch, db') -> progress db db'.
Proof.
  intros Hu. unfold _begin_dispatch_attempts. destruct (negb _); [done|].
  intros (rows & Hrows%locked_batch & [= <- <-])%bind_Ok. apply batch_progress; [done|]. intros d Hd.
  rewrite Hrows in Hd. apply selected_in in Hd as [Hd [Hp _]%andb_prop]. split; [done|]. left. by constructor.
Qed.

Lemma cancel_progress limit db db' :
  ids_unique db -> _cancel_pending_dispatches setting now limit db = Ok ((), db') -> progress db db'.
Proof.
  intros Hu (rows & Hrows%locked_batch & [= <-])%bind_Ok. apply batch_progress; [done|]. intros d Hd.
  rewrite Hrows in Hd. apply selected_in in Hd as [Hd [Hp _]%andb_prop]. split; [done|]. left. by constructor.
Qed.

Lemma authorize_progress limit db ids db' :
  ids_unique db -> _authorize_cancelled_dispatches setting limit db = Ok (ids, db') -> progress db db'.
Proof.
  intros Hu (rows & Hrows%locked_batch & [= _ <-])%bind_Ok. apply batch_progress; [done|]. intros d Hd.
  rewrite Hrows in Hd. apply selected_in in Hd as [Hd [[Hs%String.eqb_eq _]%andb_prop _]%andb_prop].
  split; [done|]. destruct (String.eqb_spec (wd_resolution_state d) "unresolved") as [Hr|Hr].
  - left. by constructor.
  - right. unfold authorize_dispatch. by apply String.eqb_neq in Hr as ->.
Qed.

Lemma update_attestations_progress p f db : progress db (update_attestations p f db).
Proof. split; [|done]. exact (proj1 (reflexivity (R:=progress) db)). Qed.

Lemma acknowledge_cancelled_progress id db r db' r' :
  ids_unique db -> _acknowledge_cancelled_dispatch setting now id db r = (Ok ((), db'), r') -> progress db db'.
Proof.
  intros Hu. unfold _acknowledge_cancelled_dispatch.
  destruct (_locked_dispatch_batch setting db (dispatch_rows db id)) as [rows|] eqn:Hrows; [|done].
  apply locked_batch in Hrows. destruct rows as [|d l]; [by intros [= <- _]|].
  symmetry in Hrows. apply dispatch_rows_in in Hrows as [Hd Hid].
  destruct (_ =? _)%string; [by intros [= <- _]|]. destruct (wd_redis_message_id d) as [m|]; [|done].
  destruct (String.eqb_spec (wd_delivery_state d) "delivered"); [|done].
  destruct (String.eqb_spec (wd_resolution_state d) "cancel_authorized") as [Hc|]; [|done]. simpl.
  destruct (negb _); [done|]. destruct (redis_xack _ _ _ _) as [z r1]. destruct (_require_xack_result _ _); [|done].
  intros [= <- _]. etrans; [|apply update_attestations_progress].
  eapply id_progress; [done|exact Hd|done|constructor; [done|]]. unfold unresolved. by rewrite Hc.
Qed.

(** Programs whose every transaction makes progress. *)
Definition advances {A} (m : Io R A) : Prop := forall w, ids_unique w.1 -> progress w.1 (m w).2.1.

Lemma advances_bind {A B} (m : Io R A) (k : A -> Io R B) :
  advances m -> (forall a, advances (k a)) -> advances (io_bind m k).
Proof.
  intros Hm Hk w Hw. unfold io_bind. pose proof (Hm w Hw) as Hp. destruct (m w) as [[a|e] w']; [|done]. simpl in Hp.
  etrans; [exact Hp|]. apply Hk. by eapply progress_unique.
Qed.

Lemma advances_transaction {A} (f : Db -> Res (A * Db)) :
  (forall db a db', ids_unique db -> f db = Ok (a, db') -> progress db db') -> advances (transaction f).
Proof. intros Hf w Hw. unfold transaction. destruct (f w.1) as [[a db']|] eqn:Hok; [by eapply Hf | done]. Qed.

Lemma advances_transaction_redis {A} (f : Db -> R -> Res (A * Db) * R) :
  (forall db r a db' r', ids_unique db -> f db r = (Ok (a, db'), r') -> progress db db') -> advances (transaction_redis f).
Proof.
  intros Hf w Hw. unfold transaction_redis. destruct (f w.1 w.2) as [[[a db']|] r'] eqn:Hok; [by eapply Hf | done].
Qed.

Lemma advances_for {A} (l : list A) (body : A -> Io R ()) : (forall a, advances (body a)) -> advances (io_for l body).
Proof. intros Hb. induction l as [|a l IH]; [by intros w Hw|]. simpl. by apply advances_bind. Qed.

Lemma advances_command {A} (f : R -> A * R) : advances (command f).
Proof. intros w Hw. unfold command. by destruct (f w.2). Qed.

Lemma advances_recover rid limit : advances (_recover_stale_dispatch_attempts setting now recovery rid limit).
Proof.
  apply advances_bind; [by intros w Hw|]. intros attempts. apply advances_for. intros d.
  apply advances_bind; [apply advances_command|]. intros m. destruct (nonblank_message m); apply advances_transaction;
    intros db [] db'; eauto using mark_delivered_progress, mark_uncertain_progress.
Qed.

Lemma advances_deliver_one d : advances (deliver_dispatch setting now env d).
Proof.
  apply advances_bind; [by intros w Hw|]. intros p. apply advances_bind; [apply advances_command|]. intros m.
  destruct (negb _); [by intros w Hw|]. apply advances_transaction. intros db [] db'. apply mark_delivered_progress.
Qed.

Lemma advances_deliver rid limit : advances (deliver_pending_dispatches setting now env recovery rid limit).
Proof.
  unfold deliver_pending_dispatches. destruct (_ <=? _)%Z; [by intros w Hw|].
  apply advances_bind; [apply advances_recover|]. intros _. apply advances_bind.
  - apply advances_transaction. intros db batch db'. apply begin_progress.
  - intros batch. apply advances_for, advances_deliver_one.
Qed.

Lemma advances_cancelled limit : advances (reconcile_cancelled_dispatches setting now recovery limit).
Proof.
  unfold reconcile_cancelled_dispatches. destruct (_ <=? _)%Z; [by intros w Hw|].
  apply advances_bind; [apply advances_recover|]. intros _. apply advances_bind.
  - apply advances_transaction. intros db [] db'. apply cancel_progress.
  - intros _. apply advances_bind; [apply advances_transaction; intros db ids db'; apply authorize_progress|].
    intros ids. apply advances_for. intros id. apply advances_transaction_redis. intros db r [] db' r'.
    apply acknowledge_cancelled_progress.
Qed.
End Progress.

(** A delivered row keeps its message. *)
Lemma dispatch_steps_delivered d d' :
  rtc dispatch_step d d' -> wd_delivery_state d = "delivered" ->
  wd_delivery_state d' = "delivered" /\ wd_redis_message_id d' = wd_redis_message_id d.
Proof.
  induction 1 as [|d d1 d' Hs _ IH]; [done|]. intros Hd.
  assert (wd_delivery_state d1 = "delivered" /\ wd_redis_message_id d1 = wd_redis_message_id d) as [H1 <-].
  { destruct Hs as [n d Hp|? ? d Hs|? d Hs|n d Hp|d ? ?|n d ? ?]; try congruence; unfold pending_dispatch in *;
      rewrite ?Hd in *; try done. unfold authorize_dispatch. by case_match. }
  by apply IH.
Qed.

(** Delivery and reconciliation move dispatch rows forward only: whatever
    happens in between (exceptions included), every row keeps its identity and
    payload and satisfies the table's constraints on states and times, a
    delivered row stays delivered under the same message id, no row appears or
    disappears, and no other table but the attestations changes. *)
Theorem delivery_lifecycle {R} `{!RedisStore R} setting now env recovery rid limit (m : Io R ()) w :
  m = deliver_pending_dispatches setting now env recovery rid limit
  \/ m = reconcile_cancelled_dispatches setting now recovery limit ->
  ids_unique w.1 -> Forall (fun d => dispatch_checks d = true) (db_dispatches w.1) ->
  let db' := (m w).2.1 in
  Forall2 (fun d d' => dispatch_identity d' = dispatch_identity d /\ dispatch_checks d' = true /\
             (wd_delivery_state d = "delivered" ->
              wd_delivery_state d' = "delivered" /\ wd_redis_message_id d' = wd_redis_message_id d))
    (db_dispatches w.1) (db_dispatches db') /\
  other_tables db' = other_tables w.1.
Proof.
  intros Hm Hu Hc db'. assert (Hp : progress w.1 db').
  { unfold db'. destruct Hm as [-> | ->]; [by apply advances_deliver | by apply advances_cancelled]. }
  destruct Hp as [Hp Ho]. split; [|done]. clear Ho. induction Hp as [|d d' l l' Hd _ IH]; [constructor|].
  apply Forall_cons in Hc as [Hc Hl]. constructor; [|by apply IH].
  split_and!; [by apply dispatch_steps_identity | by eapply dispatch_steps_checks | by apply dispatch_steps_delivered].
Qed.
