(* ===== verification/DeliveryOnce.v ===== *)
(** * Delivery over Redis: at most once per dispatch

    Several deliverers may run the programs of [Delivery] at the same time and
    stop at any point.  [delivery_step] interleaves their transactions and Redis
    commands; the theorem is that no interleaving publishes a dispatch twice, and
    that a row marked as delivered names the one message that carries it. *)

From stdpp Require Import base tactics list strings sorting relations.
From Stdlib Require Import ZArith Lia.
From S2P Require Import Prelude PyStr PyValue PyJson Pipeline JobModel WorkerModel RedisModel Schedule Authority WorkerEvents Delivery.

Open Scope string_scope.
Open Scope list_scope.

(** The value of a field of a stream entry. *)
Fixpoint field_value (k : string) (fields : list string) : option string :=
  match fields with
  | a :: b :: rest => if (a =? k)%string then Some b else field_value k rest
  | _ => None
  end.

Definition carries (k : uuid) (e : string * list string) : bool :=
  bool_decide (field_value "dispatch_key" e.2 = Some k).

(** The entries of a stream that carry a dispatch key. *)
Definition entries_of {R} `{!RedisStore R} (r : R) (stream : string) (k : uuid) : list (string * list string) :=
  List.filter (carries k) (redis_xrange r stream).

(** Names of streams: not those of the script's markers. *)
Definition stream_name (s : string) : bool := negb (startswith s marker_prefix).

Definition keyed_once (p : payload) (k : uuid) : Prop :=
  List.filter (fun kv => (kv.1 =? "dispatch_key")%string) p = [("dispatch_key", k)].

Lemma field_value_fields p k :
  field_value k (concat (map (fun kv => [kv.1; kv.2]) p)) = p.[? k].
Proof.
  induction p as [|[a b] p IH]; [done|]. simpl. rewrite IH. destruct (String.eqb_spec a k) as [->|Hne].
  - by rewrite decide_True.
  - by rewrite decide_False.
Qed.

Lemma filter_dget {A} (p : list (string * A)) k v :
  List.filter (fun kv => (kv.1 =? k)%string) p = [(k, v)] -> p.[? k] = Some v.
Proof.
  induction p as [|[a b] p IH]; [done|]. simpl. destruct (String.eqb_spec a k) as [->|Hne].
  - intros [= -> _]. by rewrite decide_True.
  - intros Hf. rewrite decide_False by done. by apply IH.
Qed.

Lemma message_fields_key p k : keyed_once p k -> field_value "dispatch_key" (message_fields p) = Some k.
Proof.
  intros Hk. unfold message_fields. rewrite field_value_fields. apply filter_dget.
  apply Permutation_singleton_r. rewrite <- Hk. apply Permutation_filter_bool.
  unfold sorted_items. by rewrite merge_sort_Permutation.
Qed.

Lemma keyed_once_dset (task : payload) k : dmem task "dispatch_key" = false -> keyed_once task.["dispatch_key" <- k] k.
Proof.
  unfold keyed_once. induction task as [|[a b] task IH]; [done|]. unfold dmem. simpl.
  destruct (decide (a = "dispatch_key")) as [->|Hne]; [by rewrite decide_True|]. rewrite !decide_False by done.
  intros Hm. simpl. apply String.eqb_neq in Hne as ->. by apply IH.
Qed.

(** A row as [stage_worker_task_dispatch] writes it. *)
Record staged_row (d : WorkerTaskDispatch) (p : payload) : Prop := {
  staged_payload : wd_payload_json d = payload_value p;
  staged_key : keyed_once p (wd_dispatch_key d);
  staged_stream : stream_name (wd_redis_stream d) = true }.

Lemma validated_staged env d p q : staged_row d p -> _validated_dispatch_payload env d = Ok q -> q = p.
Proof.
  intros [Hp _ _]. unfold _validated_dispatch_payload. rewrite Hp. unfold payload_value. destruct (negb _); [done|].
  intros (h & _ & Hq)%bind_Ok. destruct (negb _); [done|]. injection Hq as <-. by rewrite string_items_payload.
Qed.

(** ** Interleavings *)

Section Steps.
Context {R : Type} `{!RedisStore R}.
Context (setting : string) (env : Env).

(** [dv_batches]: rows a deliverer took in its first transaction.  [dv_messages]:
    the message of a dispatch as some deliverer read it from Redis. *)
Record Deliverers := {
  dv_db : Db;
  dv_redis : R;
  dv_batches : list WorkerTaskDispatch;
  dv_messages : list (uuid * string) }.

Definition at_db (db : Db) (s : Deliverers) : Deliverers :=
  {| dv_db := db; dv_redis := dv_redis s; dv_batches := dv_batches s; dv_messages := dv_messages s |}.

Definition add_batch (batch : list WorkerTaskDispatch) (s : Deliverers) : Deliverers :=
  {| dv_db := dv_db s; dv_redis := dv_redis s; dv_batches := dv_batches s ++ batch; dv_messages := dv_messages s |}.

Definition add_message (id : uuid) (message : option string) (r : R) (s : Deliverers) : Deliverers :=
  {| dv_db := dv_db s; dv_redis := r; dv_batches := dv_batches s;
     dv_messages := match nonblank_message message with
                    | Some m => (id, m) :: dv_messages s
                    | None => dv_messages s
                    end |}.

(** Rows of dispatches up to their resolution columns. *)
Definition same_delivery (d d' : WorkerTaskDispatch) : Prop :=
  dispatch_identity d' = dispatch_identity d /\ wd_delivery_state d' = wd_delivery_state d /\
  wd_redis_message_id d' = wd_redis_message_id d.

(** New keys are drawn at random: they differ from those in use. *)
Definition unused (db : Db) (node_execution_id : uuid) : Prop :=
  fresh env "dispatch" node_execution_id ∉ map wd_id (db_dispatches db) /\
  fresh env "dispatch_key" node_execution_id ∉ map wd_dispatch_key (db_dispatches db).

Inductive delivery_step : Deliverers -> Deliverers -> Prop :=
| ds_stage now origin job node stream group task db' s :
    stage_worker_task_dispatch env now (dv_db s) origin job node stream group task = Ok db' ->
    unused (dv_db s) node -> stream_name (strip stream) = true ->
    delivery_step s (at_db db' s)
| ds_begin now rid limit batch db' s :
    _begin_dispatch_attempts setting now rid limit (dv_db s) = Ok (batch, db') ->
    delivery_step s (add_batch batch (at_db db' s))
| ds_send d p m r' s :
    d ∈ dv_batches s -> _validated_dispatch_payload env d = Ok p ->
    idempotent_xadd (wd_redis_stream d) (marker_key (wd_dispatch_key d)) (message_fields p) (dv_redis s) = (m, r') ->
    delivery_step s (add_message (wd_id d) (Some m) r' s)
| ds_observe d s :
    d ∈ db_dispatches (dv_db s) ->
    delivery_step s (add_message (wd_id d) (redis_get (dv_redis s) (marker_key (wd_dispatch_key d))) (dv_redis s) s)
| ds_delivered now id m db' s :
    (id, m) ∈ dv_messages s -> _mark_dispatch_delivered setting now id m (dv_db s) = Ok ((), db') ->
    delivery_step s (at_db db' s)
| ds_uncertain id reason db' s :
    _mark_dispatch_uncertain setting id reason (dv_db s) = Ok ((), db') -> delivery_step s (at_db db' s)
| ds_cancel now limit db' s :
    _cancel_pending_dispatches setting now limit (dv_db s) = Ok ((), db') -> delivery_step s (at_db db' s)
(** Any other transaction: acknowledgements and changes of other tables. *)
| ds_elsewhere db' s :
    Forall2 same_delivery (db_dispatches (dv_db s)) (db_dispatches db') -> delivery_step s (at_db db' s)
(** Any other client of Redis acknowledging messages. *)
| ds_xack stream group m s :
    delivery_step s {| dv_db := dv_db s; dv_redis := (redis_xack stream group m (dv_redis s)).2;
                       dv_batches := dv_batches s; dv_messages := dv_messages s |}.

(** Nothing dispatched yet. *)
Definition initial (s : Deliverers) : Prop :=
  db_dispatches (dv_db s) = [] /\ dv_batches s = [] /\ dv_messages s = [] /\
  forall k, redis_get (dv_redis s) (marker_key k) = None /\
    forall stream, stream_name stream = true -> entries_of (dv_redis s) stream k = [].

Definition marker (r : R) (d : WorkerTaskDispatch) : option string := redis_get r (marker_key (wd_dispatch_key d)).

(** What Redis holds for a row. *)
Definition published (r : R) (d : WorkerTaskDispatch) (p : payload) : Prop :=
  match marker r d with
  | None => forall stream, stream_name stream = true -> entries_of r stream (wd_dispatch_key d) = []
  | Some m =>
      nonblank m = true /\ strip m = m /\
      forall stream, stream_name stream = true ->
        entries_of r stream (wd_dispatch_key d)
        = if decide (stream = wd_redis_stream d) then [(m, message_fields p)] else []
  end.

Record delivery_inv (s : Deliverers) : Prop := {
  inv_ids : ids_unique (dv_db s);
  inv_keys : NoDup (map wd_dispatch_key (db_dispatches (dv_db s)));
  inv_rows : forall d, d ∈ db_dispatches (dv_db s) -> exists p, staged_row d p /\ published (dv_redis s) d p;
  inv_free : forall k, k ∉ map wd_dispatch_key (db_dispatches (dv_db s)) ->
    redis_get (dv_redis s) (marker_key k) = None /\
    forall stream, stream_name stream = true -> entries_of (dv_redis s) stream k = [];
  inv_batches : forall b, b ∈ dv_batches s ->
    exists d, d ∈ db_dispatches (dv_db s) /\ dispatch_identity d = dispatch_identity b;
  inv_messages : forall id m, (id, m) ∈ dv_messages s ->
    exists d, d ∈ db_dispatches (dv_db s) /\ wd_id d = id /\ marker (dv_redis s) d = Some m;
  inv_delivered : forall d, d ∈ db_dispatches (dv_db s) -> wd_delivery_state d = "delivered" ->
    exists m, wd_redis_message_id d = Some m /\ marker (dv_redis s) d = Some m }.
End Steps.

Lemma initial_inv {R} `{!RedisStore R} (s : Deliverers (R:=R)) : initial s -> delivery_inv s.
Proof.
  intros (Hd & Hb & Hm & Hfree). split; rewrite ?Hd, ?Hb, ?Hm; try (by intros ? ?%not_elem_of_nil).
  - unfold ids_unique. rewrite Hd. constructor.
  - constructor.
  - intros k _. apply Hfree.
  - by intros ? ? ?%not_elem_of_nil.
Qed.

(** ** The invariant is kept *)

Section Preservation.
Context {R : Type} `{!RedisStore R, !RedisLaws R}.
Context (setting : string) (env : Env).

Ltac identity H := unfold dispatch_identity in H; injection H as ? ? ? ? ? ? ? ? ?.

Lemma staged_row_identity d d' p : dispatch_identity d' = dispatch_identity d -> staged_row d p -> staged_row d' p.
Proof. intros H [Hp Hk Hs]. identity H. split; congruence. Qed.

Lemma marker_identity (r : R) d d' : dispatch_identity d' = dispatch_identity d -> marker r d' = marker r d.
Proof. intros H. identity H. unfold marker. congruence. Qed.

Lemma published_identity (r : R) d d' p :
  dispatch_identity d' = dispatch_identity d -> published r d p -> published r d' p.
Proof.
  intros H. unfold published. rewrite (marker_identity _ _ _ H). identity H.
  by replace (wd_dispatch_key d') with (wd_dispatch_key d); replace (wd_redis_stream d') with (wd_redis_stream d).
Qed.

Definition same_identity (d d' : WorkerTaskDispatch) : Prop := dispatch_identity d' = dispatch_identity d.

Lemma same_identity_map {B} (f : WorkerTaskDispatch -> B) l l' :
  (forall d d', same_identity d d' -> f d' = f d) -> Forall2 same_identity l l' -> map f l' = map f l.
Proof. intros Hf. induction 1; [done|]. simpl. f_equal; auto. Qed.

(** A transaction that keeps identities and marks as delivered only what Redis
    holds. *)
Lemma inv_transaction (s : Deliverers (R:=R)) db' :
  delivery_inv s -> Forall2 same_identity (db_dispatches (dv_db s)) (db_dispatches db') ->
  (forall d, d ∈ db_dispatches db' -> wd_delivery_state d = "delivered" ->
     exists m, wd_redis_message_id d = Some m /\ marker (dv_redis s) d = Some m) ->
  delivery_inv (at_db db' s).
Proof.
  intros [Hids Hkeys Hrows Hfree Hbatch Hmsg Hdel] Hf Hnew.
  assert (Hk : map wd_dispatch_key (db_dispatches db') = map wd_dispatch_key (db_dispatches (dv_db s))).
  { apply same_identity_map; [|done]. intros d d' H. unfold same_identity in H. by identity H. }
  assert (Hi : map wd_id (db_dispatches db') = map wd_id (db_dispatches (dv_db s))).
  { apply same_identity_map; [|done]. intros d d' H. unfold same_identity in H. by identity H. }
  assert (Hfwd : forall d, d ∈ db_dispatches (dv_db s) -> exists d', d' ∈ db_dispatches db' /\ same_identity d d').
  { intros d [i Hi']%list_elem_of_lookup. destruct (Forall2_lookup_l _ _ _ _ _ Hf Hi') as (d' & Hd' & Hs).
    exists d'. split; [by eapply list_elem_of_lookup_2 | done]. }
  assert (Hbwd : forall d', d' ∈ db_dispatches db' -> exists d, d ∈ db_dispatches (dv_db s) /\ same_identity d d').
  { intros d' [i Hi']%list_elem_of_lookup. destruct (Forall2_lookup_r _ _ _ _ _ Hf Hi') as (d & Hd & Hs).
    exists d. split; [by eapply list_elem_of_lookup_2 | done]. }
  split; simpl.
  - unfold ids_unique in *. by rewrite Hi.
  - by rewrite Hk.
  - intros d' (d & Hd & Hs)%Hbwd. destruct (Hrows d Hd) as (p & Hst & Hpub). exists p.
    split; [by eapply staged_row_identity | by eapply published_identity].
  - by rewrite Hk.
  - intros b (d & Hd & Hb)%Hbatch. destruct (Hfwd d Hd) as (d' & Hd' & Hs). exists d'. split; [done|].
    by rewrite Hs.
  - intros id m (d & Hd & Hid & Hm)%Hmsg. destruct (Hfwd d Hd) as (d' & Hd' & Hs). exists d'. split; [done|].
    rewrite (marker_identity _ _ _ Hs). split; [|done]. unfold same_identity in Hs. identity Hs. congruence.
  - exact Hnew.
Qed.

Lemma progress_same_identity db db' : progress db db' -> Forall2 same_identity (db_dispatches db) (db_dispatches db').
Proof. intros [Hf _]. eapply Forall2_impl; [exact Hf|]. intros d d'. apply dispatch_steps_identity. Qed.

(** An update that delivers nothing. *)
Lemma inv_update (s : Deliverers (R:=R)) p f :
  delivery_inv s -> progress (dv_db s) (update_dispatches p f (dv_db s)) ->
  (forall d, wd_delivery_state (f d) = "delivered" -> False) -> delivery_inv (at_db (update_dispatches p f (dv_db s)) s).
Proof.
  intros Hinv Hp Hf. apply inv_transaction; [done | by apply progress_same_identity|].
  intros d' (d & Hd & Hin)%list_elem_of_fmap Hs. destruct (p d); subst d'; [by apply Hf in Hs|].
  by eapply inv_delivered.
Qed.

Lemma stream_not_marker s k : stream_name s = true -> s <> marker_key k.
Proof. intros Hs ->. unfold stream_name, startswith, marker_key in Hs. by rewrite strip_prefix_app in Hs. Qed.

Lemma marker_key_inj k k' : marker_key k = marker_key k' -> k = k'.
Proof.
  unfold marker_key. intros Heq. apply (f_equal (strip_prefix marker_prefix)) in Heq.
  rewrite !strip_prefix_app in Heq. congruence.
Qed.

Lemma filter_app_bool {A} (f : A -> bool) l l' : List.filter f (l ++ l') = List.filter f l ++ List.filter f l'.
Proof. apply List.filter_app. Qed.

(** The effect of publishing a new message. *)
Section Sent.
Context (r : R) (stream : string) (k0 : uuid) (fields : list string).
Context (Hstream : stream_name stream = true) (Hk0 : field_value "dispatch_key" fields = Some k0).
Let m := (redis_xadd stream fields r).1.
Let r' := redis_set (marker_key k0) m (redis_xadd stream fields r).2.

Lemma get_sent k : redis_get r' (marker_key k) = if decide (k0 = k) then Some m else redis_get r (marker_key k).
Proof.
  unfold r'. rewrite get_set. destruct (decide (k0 = k)) as [->|Hne].
  - by rewrite decide_True.
  - rewrite decide_False by (intros ?%marker_key_inj; done). apply get_xadd. by apply stream_not_marker.
Qed.

Lemma entries_sent s k :
  stream_name s = true ->
  entries_of r' s k = entries_of r s k ++ (if decide (s = stream /\ k = k0) then [(m, fields)] else []).
Proof.
  intros Hs. unfold entries_of, r'. rewrite xrange_set by (by apply stream_not_marker). rewrite xrange_xadd.
  destruct (decide (stream = s)) as [<-|Hne].
  - rewrite filter_app_bool. f_equal. simpl. unfold carries. simpl. rewrite Hk0.
    destruct (decide (k = k0)) as [->|Hne].
    + by rewrite bool_decide_true, decide_True.
    + rewrite bool_decide_false by congruence. by rewrite decide_False by naive_solver.
  - rewrite decide_False by naive_solver. by rewrite app_nil_r.
Qed.
End Sent.

Lemma nonblank_stripped m : strip m = m -> is_empty m = false -> nonblank_message (Some m) = Some m.
Proof. intros Hs He. unfold nonblank_message, nonblank. by rewrite Hs, He. Qed.

(** Redis answers about a key it holds. *)
Lemma inv_observe (s : Deliverers (R:=R)) d m :
  delivery_inv s -> d ∈ db_dispatches (dv_db s) -> marker (dv_redis s) d = m ->
  delivery_inv (add_message (wd_id d) m (dv_redis s) s).
Proof.
  intros [Hids Hkeys Hrows Hfree Hbatch Hmsg Hdel] Hd Hm. split; try done. simpl.
  destruct m as [m|]; [|done]. destruct (Hrows d Hd) as (p & _ & Hpub). unfold published in Hpub. rewrite Hm in Hpub.
  destruct Hpub as (Hnb & Hst & _). unfold nonblank_message. rewrite Hnb, Hst.
  intros id m' [Heq|Hin]%elem_of_cons; [|by apply Hmsg]. injection Heq as -> ->. eauto.
Qed.

Lemma key_row (s : Deliverers (R:=R)) d d' :
  delivery_inv s -> d ∈ db_dispatches (dv_db s) -> d' ∈ db_dispatches (dv_db s) ->
  wd_dispatch_key d = wd_dispatch_key d' -> d = d'.
Proof.
  intros Hinv Hd Hd' Heq. apply list_elem_of_lookup in Hd as [i Hi], Hd' as [k Hk].
  assert (i = k) as ->; [|congruence]. eapply NoDup_lookup; [exact (inv_keys _ Hinv)| |].
  - rewrite list_lookup_fmap, Hi. done.
  - rewrite list_lookup_fmap, Hk. simpl. by rewrite Heq.
Qed.

(** A first message for a row. *)
Lemma inv_sent (s : Deliverers (R:=R)) d p :
  delivery_inv s -> d ∈ db_dispatches (dv_db s) -> staged_row d p -> marker (dv_redis s) d = None ->
  let sent := redis_xadd (wd_redis_stream d) (message_fields p) (dv_redis s) in
  delivery_inv (add_message (wd_id d) (Some sent.1) (redis_set (marker_key (wd_dispatch_key d)) sent.1 sent.2) s).
Proof.
  intros Hinv Hd Hst Hnone sent. pose proof (message_fields_key p _ (staged_key _ _ Hst)) as Hkey.
  pose proof (get_sent (dv_redis s) _ (wd_dispatch_key d) (message_fields p) (staged_stream _ _ Hst) Hkey) as Hget.
  pose proof (entries_sent (dv_redis s) (wd_redis_stream d) _ (message_fields p) Hkey) as Hent. fold sent in Hget, Hent.
  assert (Hid : strip sent.1 = sent.1 /\ is_empty sent.1 = false)
    by (split; [apply xadd_id_stripped | apply xadd_id_nonempty]).
  assert (Hmk : forall d', marker (dv_redis s) d' = None \/ wd_dispatch_key d <> wd_dispatch_key d').
  { intros d'. destruct (decide (wd_dispatch_key d = wd_dispatch_key d')) as [He|]; [left | by right].
    unfold marker in *. by rewrite <- He. }
  set (r' := redis_set _ _ _) in *. pose proof Hinv as [Hids Hkeys Hrows Hfree Hbatch Hmsg Hdel].
  split; try done; cbn [add_message dv_db dv_redis dv_messages].
  - intros d' Hd'. destruct (decide (wd_dispatch_key d = wd_dispatch_key d')) as [He|Hne].
    + rewrite <- (key_row s d d' Hinv Hd Hd' He). exists p. split; [done|]. unfold published, marker in *.
      rewrite Hget, decide_True by done. destruct Hid as [Hs He']. split; [unfold nonblank; by rewrite Hs, He'|].
      split; [done|]. intros st Hstn. rewrite (Hent st _ Hstn).
      destruct (Hrows d Hd) as (p' & _ & Hpub). unfold published, marker in Hpub. rewrite Hnone in Hpub.
      rewrite (Hpub st Hstn). simpl. destruct (decide (st = wd_redis_stream d)).
      * by rewrite decide_True.
      * by rewrite decide_False by (intros [? _]; done).
    + destruct (Hrows d' Hd') as (p' & Hst' & Hpub). exists p'. split; [done|]. unfold published, marker in *.
      rewrite Hget, decide_False by done. destruct (redis_get (dv_redis s) (marker_key (wd_dispatch_key d'))) as [m'|].
      * destruct Hpub as (Hnb & Hsm & Hpub). split; [done|]. split; [done|]. intros st Hstn.
        rewrite (Hent st _ Hstn), decide_False, app_nil_r by (intros [_ ?]; congruence). by apply Hpub.
      * intros st Hstn. rewrite (Hent st _ Hstn), decide_False, app_nil_r by (intros [_ ?]; congruence). by apply Hpub.
  - intros k Hk. destruct (Hfree k Hk) as [Hg He].
    assert (Hne : wd_dispatch_key d <> k) by (intros <-; apply Hk, list_elem_of_fmap; eauto).
    rewrite Hget, decide_False by done. split; [done|]. intros st Hstn.
    rewrite (Hent st _ Hstn), decide_False, app_nil_r by (intros [_ ?]; congruence). by apply He.
  - rewrite (nonblank_stripped sent.1) by apply Hid. intros id m' [Heq|Hin]%elem_of_cons.
    + injection Heq as -> ->. exists d. unfold marker. rewrite Hget, decide_True by done. done.
    + destruct (Hmsg id m' Hin) as (d' & Hd' & Hid' & Hm). exists d'. split; [done|]. split; [done|].
      destruct (Hmk d') as [Hn|Hne]; [congruence|]. unfold marker in *. by rewrite Hget, decide_False.
  - intros d' Hd' Hs. destruct (Hdel d' Hd' Hs) as (m' & Hm' & Hmark). exists m'. split; [done|].
    destruct (Hmk d') as [Hn|Hne]; [congruence|]. unfold marker in *. by rewrite Hget, decide_False.
Qed.

Lemma identity_staged d b p : dispatch_identity d = dispatch_identity b -> staged_row d p -> staged_row b p.
Proof. intros H. by apply staged_row_identity. Qed.

Lemma inv_send (s : Deliverers (R:=R)) b p m r' :
  delivery_inv s -> b ∈ dv_batches s -> _validated_dispatch_payload env b = Ok p ->
  idempotent_xadd (wd_redis_stream b) (marker_key (wd_dispatch_key b)) (message_fields p) (dv_redis s) = (m, r') ->
  delivery_inv (add_message (wd_id b) (Some m) r' s).
Proof.
  intros Hinv Hb Hv Hsend. destruct (inv_batches _ Hinv b Hb) as (d & Hd & Hid).
  destruct (inv_rows _ Hinv d Hd) as (p' & Hst & _).
  pose proof (validated_staged env b p' p (identity_staged d b p' Hid Hst) Hv) as ->.
  identity Hid. unfold idempotent_xadd in Hsend.
  replace (wd_dispatch_key b) with (wd_dispatch_key d) in Hsend by done.
  replace (wd_redis_stream b) with (wd_redis_stream d) in Hsend by done.
  replace (wd_id b) with (wd_id d) by done.
  change (redis_get (dv_redis s) (marker_key (wd_dispatch_key d))) with (marker (dv_redis s) d) in Hsend.
  destruct (marker (dv_redis s) d) as [m'|] eqn:Hm; simplify_eq.
  - by apply inv_observe.
  - pose proof (inv_sent s d p' Hinv Hd Hst Hm) as Hs. destruct (redis_xadd _ _ _) as [id r1].
    simpl in Hs. by simplify_eq.
Qed.

Lemma inv_stage (s : Deliverers (R:=R)) now origin job node stream group task db' :
  delivery_inv s -> stage_worker_task_dispatch env now (dv_db s) origin job node stream group task = Ok db' ->
  unused env (dv_db s) node -> stream_name (strip stream) = true -> delivery_inv (at_db db' s).
Proof.
  intros [Hids Hkeys Hrows Hfree Hbatch Hmsg Hdel] Hstage [Hnid Hnk] Hs.
  unfold stage_worker_task_dispatch in Hstage. destruct (dmem task "dispatch_key") eqn:Hmem; [done|].
  destruct (negb _); [done|]. set (row := {| wd_id := _ |}) in Hstage.
  assert (db' = put_dispatch row (dv_db s)) as -> by (by repeat case_match; simplify_eq).
  assert (Hrow : forall d, d ∈ db_dispatches (put_dispatch row (dv_db s)) <-> d ∈ db_dispatches (dv_db s) \/ d = row).
  { intros d. unfold put_dispatch, db_dispatches. simpl. rewrite elem_of_app, list_elem_of_singleton. done. }
  assert (Hold : forall d, d ∈ db_dispatches (dv_db s) -> d ∈ db_dispatches (put_dispatch row (dv_db s)))
    by (intros d Hd; apply Hrow; by left).
  destruct (Hfree (wd_dispatch_key row) Hnk) as [Hgetrow Hentrow].
  split; cbn [at_db dv_db dv_redis dv_batches dv_messages].
  - unfold ids_unique, put_dispatch, db_dispatches in *. simpl. rewrite map_app. apply NoDup_app.
    split_and!; [done| |apply NoDup_singleton]. intros x Hx ->%list_elem_of_singleton. by apply Hnid.
  - unfold put_dispatch, db_dispatches in *. simpl. rewrite map_app. apply NoDup_app.
    split_and!; [done| |apply NoDup_singleton]. intros x Hx ->%list_elem_of_singleton. by apply Hnk.
  - intros d [Hd | ->]%Hrow; [by apply Hrows|]. exists (task.["dispatch_key" <- fresh env "dispatch_key" node]).
    split; [split; [done| by apply keyed_once_dset | done]|]. unfold published, marker. rewrite Hgetrow. exact Hentrow.
  - intros k Hk. apply Hfree. intros Hin. apply Hk. unfold put_dispatch, db_dispatches in *. simpl.
    rewrite map_app. apply elem_of_app. by left.
  - intros b (d & Hd & Hb)%Hbatch. eauto.
  - intros id m (d & Hd & Hid & Hm)%Hmsg. eauto.
  - intros d [Hd | ->]%Hrow; [by apply Hdel|]. done.
Qed.

Lemma inv_xack (s : Deliverers (R:=R)) stream group m :
  delivery_inv s ->
  delivery_inv {| dv_db := dv_db s; dv_redis := (redis_xack stream group m (dv_redis s)).2;
                  dv_batches := dv_batches s; dv_messages := dv_messages s |}.
Proof.
  intros [Hids Hkeys Hrows Hfree Hbatch Hmsg Hdel].
  assert (Hmk : forall d, marker (redis_xack stream group m (dv_redis s)).2 d = marker (dv_redis s) d)
    by (intros d; apply get_xack).
  assert (Hen : forall st k, entries_of (redis_xack stream group m (dv_redis s)).2 st k = entries_of (dv_redis s) st k)
    by (intros st k; unfold entries_of; by rewrite xrange_xack).
  split; try done; simpl.
  - intros d Hd. destruct (Hrows d Hd) as (p & Hst & Hpub). exists p. split; [done|].
    unfold published in *. rewrite Hmk. destruct (marker (dv_redis s) d); by setoid_rewrite Hen.
  - intros k Hk. rewrite get_xack. setoid_rewrite Hen. by apply Hfree.
  - intros id m' (d & Hd & Hid & Hm)%Hmsg. exists d. by rewrite Hmk.
  - intros d Hd Hs. rewrite Hmk. by apply Hdel.
Qed.

(** The row a deliverer marks carries the message it names. *)
Lemma inv_mark (s : Deliverers (R:=R)) now id m db' :
  delivery_inv s -> (id, m) ∈ dv_messages s -> _mark_dispatch_delivered setting now id m (dv_db s) = Ok ((), db') ->
  delivery_inv (at_db db' s).
Proof.
  intros Hinv Hm Hmark. pose proof (mark_delivered_progress _ _ _ _ _ _ (inv_ids _ Hinv) Hmark) as Hp.
  apply inv_transaction; [done | by apply progress_same_identity|].
  destruct (inv_messages _ Hinv id m Hm) as (d0 & Hd0 & Hid0 & Hmk).
  apply bind_Ok in Hmark as (rows & _ & Hmark). destruct rows as [|row l]; [done|].
  destruct (_ =? _)%string; [case_bool_decide; simplify_eq; by apply inv_delivered|].
  destruct (negb _); simplify_eq. intros d' (d & -> & Hin)%list_elem_of_fmap.
  destruct (has_id (wd_id d0) d) eqn:Hid; [|intros Hs; by apply inv_delivered]. intros _. exists m. split; [done|].
  apply String.eqb_eq in Hid. rewrite (unique_row _ d d0 (inv_ids _ Hinv) Hin Hd0) by congruence. exact Hmk.
Qed.

Lemma inv_uncertain (s : Deliverers (R:=R)) id reason db' :
  delivery_inv s -> _mark_dispatch_uncertain setting id reason (dv_db s) = Ok ((), db') -> delivery_inv (at_db db' s).
Proof.
  intros Hinv Hm. pose proof (mark_uncertain_progress _ _ _ _ _ (inv_ids _ Hinv) Hm) as Hp.
  apply bind_Ok in Hm as (rows & _ & Hm). destruct rows as [|row l]; [done|].
  destruct (_ =? _)%string; simplify_eq; [by destruct s|]. destruct (negb _); simplify_eq. by apply inv_update.
Qed.

Lemma inv_cancel (s : Deliverers (R:=R)) now limit db' :
  delivery_inv s -> _cancel_pending_dispatches setting now limit (dv_db s) = Ok ((), db') -> delivery_inv (at_db db' s).
Proof.
  intros Hinv Hm. pose proof (cancel_progress _ _ _ _ _ (inv_ids _ Hinv) Hm) as Hp.
  apply bind_Ok in Hm as (rows & _ & [= <-]). by apply inv_update.
Qed.

Lemma inv_begin (s : Deliverers (R:=R)) now rid limit batch db' :
  delivery_inv s -> _begin_dispatch_attempts setting now rid limit (dv_db s) = Ok (batch, db') ->
  delivery_inv (add_batch batch (at_db db' s)).
Proof.
  intros Hinv Hm. pose proof (begin_progress _ _ _ _ _ _ _ (inv_ids _ Hinv) Hm) as Hp.
  unfold _begin_dispatch_attempts in Hm. destruct (negb _); [done|].
  apply bind_Ok in Hm as (rows & Hrows%locked_batch & [= <- <-]).
  pose proof (inv_update s _ _ Hinv Hp ltac:(done)) as [Hids Hkeys Hr Hfree Hbatch Hmsg Hdel]. split; try done.
  intros b [Hb|Hb]%elem_of_app; [by apply Hbatch|]. apply list_elem_of_fmap in Hb as (d & -> & Hd).
  rewrite Hrows in Hd. apply selected_in in Hd as [Hd _].
  pose proof (progress_same_identity _ _ Hp) as Hf. apply list_elem_of_lookup in Hd as [i Hi].
  destruct (Forall2_lookup_l _ _ _ _ _ Hf Hi) as (d' & Hd' & Hs). exists d'.
  split; [by eapply list_elem_of_lookup_2 | exact Hs].
Qed.

Lemma delivery_step_inv (s s' : Deliverers (R:=R)) : delivery_step setting env s s' -> delivery_inv s -> delivery_inv s'.
Proof.
  destruct 1; intros Hinv; eauto using inv_stage, inv_begin, inv_send, inv_observe, inv_mark, inv_uncertain, inv_cancel, inv_xack.
  apply inv_transaction; [done | |].
  - eapply Forall2_impl; [eassumption|]. by intros d d' [? _].
  - intros d' Hd' Hs. apply list_elem_of_lookup in Hd' as [i Hi].
    destruct (Forall2_lookup_r _ _ _ _ _ H Hi) as (d & Hd & Hid & Hst & Hm).
    rewrite (marker_identity _ _ _ Hid), Hm. apply inv_delivered; [done | by eapply list_elem_of_lookup_2 | congruence].
Qed.
End Preservation.

(** C9. Whatever the interleaving of deliverers and wherever they stop, a
    dispatch is published at most once: at most one entry of one stream carries
    its key, and a row marked as delivered names that entry, which is in the
    row's stream and has exactly the row's payload. *)
Theorem dispatch_published_once {R} `{!RedisStore R, !RedisLaws R} setting env (s0 s : Deliverers (R:=R)) d :
  initial s0 -> rtc (delivery_step setting env) s0 s -> d ∈ db_dispatches (dv_db s) ->
  exists p, wd_payload_json d = payload_value p /\
    (forall stream, stream_name stream = true ->
       entries_of (dv_redis s) stream (wd_dispatch_key d) = []
       \/ (stream = wd_redis_stream d /\
           exists m, entries_of (dv_redis s) stream (wd_dispatch_key d) = [(m, message_fields p)])) /\
    (wd_delivery_state d = "delivered" ->
       exists m, wd_redis_message_id d = Some m /\
         entries_of (dv_redis s) (wd_redis_stream d) (wd_dispatch_key d) = [(m, message_fields p)]).
Proof.
  intros Hinit Hreach Hd. assert (Hinv : delivery_inv s).
  { apply initial_inv in Hinit. induction Hreach; eauto using delivery_step_inv. }
  destruct (inv_rows _ Hinv d Hd) as (p & Hst & Hpub). exists p. split; [apply Hst|]. unfold published in Hpub.
  split.
  - intros stream Hs. destruct (marker (dv_redis s) d) as [m|]; [|left; by apply Hpub].
    destruct Hpub as (_ & _ & Hpub). rewrite (Hpub stream Hs). case_decide; eauto.
  - intros Hdel. destruct (inv_delivered _ Hinv d Hd Hdel) as (m & Hm & Hmk). exists m. split; [done|].
    rewrite Hmk in Hpub. destruct Hpub as (_ & _ & Hpub). rewrite Hpub by apply Hst. by rewrite decide_True.
Qed.

(** ** A run: one task staged, taken, published and marked *)

Definition empty_redis : RedisMem := {| mem_strings := []; mem_streams := []; mem_pending := [] |}.

Definition sample_task : payload := [("job_id", "j"); ("node_id", "t")].

Definition staged_db : Db :=
  ok_or bare_db (stage_worker_task_dispatch plain_env 3 bare_db None "j" "n" "vp:tasks:ffmpeg" "ffmpeg-workers" sample_task).

Definition begun : list WorkerTaskDispatch * Db := ok_or ([], bare_db) (_begin_dispatch_attempts "" 4 None 100 staged_db).

Definition sample_payload : payload := sample_task.["dispatch_key" <- "dispatch_keyn"].

Definition sent_redis : string * RedisMem :=
  idempotent_xadd "vp:tasks:ffmpeg" (marker_key "dispatch_keyn") (message_fields sample_payload) empty_redis.

Definition marked_db : Db := (ok_or ((), bare_db) (_mark_dispatch_delivered "" 5 "dispatchn" sent_redis.1 begun.2)).2.

Definition delivery_run0 : Deliverers := {| dv_db := bare_db; dv_redis := empty_redis; dv_batches := []; dv_messages := [] |}.
Definition delivery_run4 : Deliverers :=
  {| dv_db := marked_db; dv_redis := sent_redis.2; dv_batches := begun.1; dv_messages := [("dispatchn", sent_redis.1)] |}.

Definition marked_row : WorkerTaskDispatch :=
  default (attempt 0 {| wd_id := ""; wd_origin_receipt_id := None; wd_dispatch_key := ""; wd_job_id := "";
             wd_node_execution_id := ""; wd_redis_stream := ""; wd_consumer_group := ""; wd_payload_sha256 := "";
             wd_payload_json := VNone; wd_delivery_state := ""; wd_delivery_attempted_at := None;
             wd_delivery_error := None; wd_redis_message_id := None; wd_delivered_at := None;
             wd_resolution_state := ""; wd_acknowledged_at := None; wd_cancelled_at := None; wd_created_at := 0 |})
    (head (db_dispatches marked_db)).

Lemma delivery_run_steps : rtc (delivery_step "" plain_env) delivery_run0 delivery_run4.
Proof.
  eapply rtc_l; [apply (ds_stage "" plain_env 3 None "j" "n" "vp:tasks:ffmpeg" "ffmpeg-workers" sample_task staged_db delivery_run0);
                 [vm_compute; reflexivity | split; apply not_elem_of_nil | vm_compute; reflexivity]|].
  eapply rtc_l; [apply (ds_begin "" plain_env 4 None 100 begun.1 begun.2); vm_compute; reflexivity|].
  eapply rtc_l; [apply (ds_send "" plain_env (default marked_row (head begun.1)) sample_payload sent_redis.1 sent_redis.2);
                 [vm_compute; left | vm_compute; reflexivity | vm_compute; reflexivity]|].
  eapply rtc_l; [apply (ds_delivered "" plain_env 5 "dispatchn" sent_redis.1 marked_db);
                 [vm_compute; left | vm_compute; reflexivity]|].
  apply rtc_refl.
Qed.

Lemma dispatch_published_once_witness :
  exists p, wd_payload_json marked_row = payload_value p /\
    (forall stream, stream_name stream = true ->
       entries_of (dv_redis delivery_run4) stream (wd_dispatch_key marked_row) = []
       \/ (stream = wd_redis_stream marked_row /\
           exists m, entries_of (dv_redis delivery_run4) stream (wd_dispatch_key marked_row) = [(m, message_fields p)])) /\
    (wd_delivery_state marked_row = "delivered" ->
       exists m, wd_redis_message_id marked_row = Some m /\
         entries_of (dv_redis delivery_run4) (wd_redis_stream marked_row) (wd_dispatch_key marked_row) = [(m, message_fields p)]).
Proof.
  apply (dispatch_published_once "" plain_env delivery_run0 delivery_run4 marked_row).
  - repeat split.
  - exact delivery_run_steps.
  - vm_compute. left.
Defined.

Example marked_row_delivered : wd_delivery_state marked_row = "delivered".
Proof. vm_compute. reflexivity. Qed.
