(* ===== verification/DeliveryLive.v ===== *)
(** * Delivery over Redis: staged tasks do get published

    An undisturbed run of [deliver_pending_dispatches] returns and leaves the oldest
    selected rows, as many as its limit, delivered. *)

From stdpp Require Import base tactics list strings sorting relations.
From Stdlib Require Import ZArith Lia.
From S2P Require Import Prelude PyStr PyValue PyJson Pipeline JobModel WorkerModel RedisModel Schedule Authority WorkerEvents Delivery DeliveryOnce.

Open Scope string_scope.
Open Scope list_scope.

Section Live.
Context {R : Type} `{!RedisStore R, !RedisLaws R}.
Context (setting : string) (now : datetime) (env : Env) (recovery : Z).

(** The channels of the jobs can be locked: a job has at most one task, and its
    channel exists. *)
Definition lockable (db : Db) : Prop :=
  forall ids, exists x, lock_job_execution_entries setting db ids true = Ok x.

Lemma lockable_tables db db' : other_tables db' = other_tables db -> lockable db -> lockable db'.
Proof.
  intros Ht Hl ids. destruct (Hl ids) as [x Hx]. exists x. rewrite <- Hx.
  unfold other_tables in Ht. injection Ht as Htasks Hch Hs _ _ _ _ _ _ _ _ _.
  unfold lock_job_execution_entries, task_references. by rewrite Htasks, Hch, Hs.
Qed.

Lemma locked_batch_ok db l : lockable db -> _locked_dispatch_batch setting db l = Ok l.
Proof.
  intros Hl. unfold _locked_dispatch_batch. destruct l as [|d l]; [done|].
  destruct (Hl (merge_sort str_le (uniq (map wd_job_id (d :: l))))) as [x Hx]. by rewrite Hx.
Qed.

Lemma dispatch_rows_unique db d : ids_unique db -> d ∈ db_dispatches db -> dispatch_rows db (wd_id d) = [d].
Proof.
  unfold ids_unique, dispatch_rows. induction (db_dispatches db) as [|x l IH]; [by intros _ ?%not_elem_of_nil|].
  simpl. intros [Hx Hnd]%NoDup_cons Hd. unfold has_id at 1. destruct (String.eqb_spec (wd_id x) (wd_id d)) as [He|Hne].
  - apply elem_of_cons in Hd as [-> | Hd].
    + f_equal. apply filter_none. intros y Hy. apply String.eqb_neq. intros Hxy. apply Hx.
      apply list_elem_of_fmap. eauto.
    + exfalso. apply Hx. rewrite He. apply list_elem_of_fmap. eauto.
  - apply elem_of_cons in Hd as [-> | Hd]; [done|]. by apply IH.
Qed.

(** What the script remembers of a key, if anything, is a message id. *)
Definition marker_fine (r : R) (d : WorkerTaskDispatch) : Prop :=
  match marker r d with Some m => nonblank m = true | None => True end.

Definition deliverable (r : R) (d : WorkerTaskDispatch) : Prop :=
  stream_name (wd_redis_stream d) = true /\ (exists p, _validated_dispatch_payload env d = Ok p) /\ marker_fine r d.

Lemma xadd_nonblank r s f : nonblank (redis_xadd s f r).1 = true.
Proof. unfold nonblank. by rewrite xadd_id_stripped, xadd_id_nonempty. Qed.

(** The script returns a message id and keeps what it remembers in order. *)
Lemma idempotent_xadd_fine r d p m r' :
  stream_name (wd_redis_stream d) = true -> marker_fine r d ->
  idempotent_xadd (wd_redis_stream d) (marker_key (wd_dispatch_key d)) (message_fields p) r = (m, r') ->
  nonblank m = true /\ forall d', marker_fine r d' -> marker_fine r' d'.
Proof.
  intros Hs Hf. unfold idempotent_xadd. unfold marker_fine, marker in *.
  destruct (redis_get r (marker_key (wd_dispatch_key d))) as [m0|] eqn:Hg; [by intros [= <- <-]|].
  pose proof (xadd_nonblank r (wd_redis_stream d) (message_fields p)) as Hnb.
  destruct (redis_xadd _ _ r) as [m1 r1] eqn:Hx. intros [= <- <-]. split; [done|]. intros d' Hd'.
  rewrite get_set. case_decide; [done|]. replace r1 with (redis_xadd (wd_redis_stream d) (message_fields p) r).2 by (by rewrite Hx).
  by rewrite get_xadd by (by apply stream_not_marker).
Qed.

Definition delivered_in (db : Db) (id : uuid) : Prop :=
  exists d, d ∈ db_dispatches db /\ wd_id d = id /\ wd_delivery_state d = "delivered".

Lemma delivered_progress db db' id : progress db db' -> delivered_in db id -> delivered_in db' id.
Proof.
  intros [Hf _] (d & Hd & Hid & Hs). apply list_elem_of_lookup in Hd as [i Hi].
  destruct (Forall2_lookup_l _ _ _ _ _ Hf Hi) as (d' & Hd' & Hstep). exists d'.
  split; [by eapply list_elem_of_lookup_2|]. rewrite (dispatch_steps_id _ _ Hstep).
  by destruct (dispatch_steps_delivered _ _ Hstep Hs).
Qed.

Lemma deliver_one db r d :
  ids_unique db -> lockable db -> d ∈ db_dispatches db -> wd_delivery_state d = "attempting" -> deliverable r d ->
  exists db' r', deliver_dispatch setting now env d (db, r) = (Ok (), (db', r')) /\ progress db db' /\
    delivered_in db' (wd_id d) /\ (forall x, x ∈ db_dispatches db -> wd_id x <> wd_id d -> x ∈ db_dispatches db') /\
    (forall x, marker_fine r x -> marker_fine r' x).
Proof.
  intros Hu Hl Hd Hs (Hstream & [p Hp] & Hm). unfold deliver_dispatch, io_bind, io_res, command. rewrite Hp. simpl.
  destruct (idempotent_xadd _ _ _ r) as [m r'] eqn:Hx.
  destruct (idempotent_xadd_fine r d p m r' Hstream Hm Hx) as [Hnb Hfine]. rewrite Hnb. simpl. unfold transaction. simpl.
  unfold _mark_dispatch_delivered. rewrite (dispatch_rows_unique db d Hu Hd), (locked_batch_ok db _ Hl). simpl.
  rewrite Hs. simpl. eexists _, r'. split; [done|].
  assert (Hprog : progress db (update_dispatches (has_id (wd_id d)) (mark_delivered now (strip m)) db)).
  { eapply id_progress; [done|exact Hd|done|by constructor]. }
  split; [done|]. split_and!; [| |done].
  - exists (mark_delivered now (strip m) d). split; [|done]. unfold update_dispatches, db_dispatches. simpl.
    apply list_elem_of_fmap. exists d. split; [|done]. unfold has_id. by rewrite String.eqb_refl.
  - intros x Hx' Hne. unfold update_dispatches, db_dispatches. simpl. apply list_elem_of_fmap. exists x.
    split; [|done]. unfold has_id. by apply String.eqb_neq in Hne as ->.
Qed.

Lemma deliver_all batch db r :
  ids_unique db -> lockable db -> NoDup (map wd_id batch) ->
  Forall (fun d => d ∈ db_dispatches db /\ wd_delivery_state d = "attempting" /\ deliverable r d) batch ->
  exists db' r', io_for batch (deliver_dispatch setting now env) (db, r) = (Ok (), (db', r')) /\ progress db db' /\
    Forall (fun d => delivered_in db' (wd_id d)) batch.
Proof.
  revert db r. induction batch as [|d batch IH]; intros db r Hu Hl Hnd Hb.
  - exists db, r. by split_and!.
  - apply Forall_cons in Hb as [(Hd & Hs & Hdel) Hb]. apply NoDup_cons in Hnd as [Hnid Hnd].
    destruct (deliver_one db r d Hu Hl Hd Hs Hdel) as (db1 & r1 & Hrun & Hp & Hdone & Hkeep & Hfine).
    destruct (IH db1 r1) as (db2 & r2 & Hrun2 & Hp2 & Hdone2).
    + by eapply progress_unique.
    + eapply lockable_tables; [apply Hp | done].
    + done.
    + rewrite Forall_forall in Hb |- *. intros x Hx. destruct (Hb x Hx) as (Hin & Hsx & Hstr & Hval & Hmx).
      split_and!; [|done|split_and!; auto]. apply Hkeep; [done|]. intros He. apply Hnid. rewrite <- He.
      apply list_elem_of_fmap. eauto.
    + exists db2, r2. split_and!.
      * simpl. unfold io_bind. by rewrite Hrun.
      * by trans db1.
      * constructor; [by eapply delivered_progress | done].
Qed.

Definition selected (rid : option uuid) (d : WorkerTaskDispatch) : bool := pending_dispatch d && of_receipt rid d.

Definition receipt_applied (rid : option uuid) (db : Db) : Prop :=
  match rid with
  | None => True
  | Some id => exists r, get_receipt db id = Some r /\ rc_application_state r = "applied"
  end.

Lemma NoDup_filter_ids p (l : list WorkerTaskDispatch) : NoDup (map wd_id l) -> NoDup (map wd_id (List.filter p l)).
Proof.
  induction l as [|d l IH]; [done|]. simpl. intros [Hd Hl]%NoDup_cons. destruct (p d); [|by apply IH]. simpl.
  apply NoDup_cons. split; [|by apply IH]. intros Hin. apply Hd. apply list_elem_of_fmap in Hin as (x & Hx & Hin).
  apply list_elem_of_In, filter_In in Hin as [Hin _]. apply list_elem_of_fmap. exists x. by rewrite list_elem_of_In.
Qed.

(** The first transaction takes every selected row. *)
(** The rows one run takes up: the oldest selected ones, [limit] at most. *)
Definition oldest (rid : option uuid) (limit : nat) (db : Db) : list WorkerTaskDispatch :=
  take limit (merge_sort created_le (List.filter (selected rid) (db_dispatches db))).

Lemma elem_of_oldest rid limit db d : d ∈ oldest rid limit db -> d ∈ db_dispatches db /\ selected rid d = true.
Proof.
  unfold oldest. intros Hd. apply (subseteq_take limit) in Hd.
  by rewrite merge_sort_Permutation, elem_of_lfilter in Hd.
Qed.

Lemma oldest_all rid limit db d :
  (length (List.filter (selected rid) (db_dispatches db)) <= limit)%nat ->
  d ∈ db_dispatches db -> selected rid d = true -> d ∈ oldest rid limit db.
Proof.
  intros Hlen Hd Hs. unfold oldest. rewrite take_ge; rewrite merge_sort_Permutation; [|done].
  by rewrite elem_of_lfilter.
Qed.

Lemma begin_all rid limit db :
  ids_unique db -> lockable db -> receipt_applied rid db ->
  let batch := oldest rid limit db in
  exists db', _begin_dispatch_attempts setting now rid limit db = Ok (map (attempt now) batch, db') /\
    progress db db' /\ NoDup (map wd_id batch) /\ (forall d, d ∈ batch -> attempt now d ∈ db_dispatches db').
Proof.
  intros Hu Hl Hr batch.
  exists (update_dispatches (in_batch batch) (attempt now) db).
  assert (Hbegin : _begin_dispatch_attempts setting now rid limit db
                   = Ok (map (attempt now) batch, update_dispatches (in_batch batch) (attempt now) db)).
  { unfold _begin_dispatch_attempts.
    assert (match rid with Some id => match get_receipt db id with
              | Some r => (rc_application_state r =? "applied")%string | None => false end | None => true end = true) as ->.
    { destruct rid as [id|]; [|done]. destruct Hr as (r & -> & ->). done. }
    simpl. change (List.filter (fun d => pending_dispatch d && of_receipt rid d)) with (List.filter (selected rid)).
    fold (oldest rid limit db). fold batch. by rewrite locked_batch_ok. }
  split_and!; [done| |..].
  - by eapply begin_progress.
  - unfold batch, oldest. set (l := merge_sort _ _).
    apply (sublist_NoDup _ (map wd_id l)); [|apply (fmap_sublist wd_id), sublist_take].
    unfold l. rewrite merge_sort_Permutation. by apply NoDup_filter_ids.
  - intros d Hd. unfold update_dispatches, db_dispatches. simpl. apply list_elem_of_fmap. exists d.
    split; [|by apply elem_of_oldest in Hd as [? _]].
    assert (in_batch batch d = true) as ->; [|done]. apply in_batch_iff. eauto.
Qed.

Lemma deliverable_attempt r d : deliverable r d -> deliverable r (attempt now d).
Proof. intros (Hs & Hp & Hm). by split_and!. Qed.
End Live.

(** C25. Staged tasks are published: when row identifiers are unique, no attempt is left
    over from an earlier run, the jobs' channels can be locked, the receipt, if one is
    given, is applied, and the rows to be taken up have a stream, an intact payload and no
    corrupt marker, [deliver_pending_dispatches] with a positive limit returns without an
    exception and leaves the oldest pending rows (of the given receipt), as many as the
    limit, delivered: all of them when they are no more than the limit. *)
Theorem deliver_pending_delivers {R} `{!RedisStore R, !RedisLaws R} setting now env recovery rid limit db (r : R) :
  (0 < limit)%Z -> ids_unique db -> lockable setting db -> receipt_applied rid db ->
  stale_attempts now recovery rid (Z.to_nat limit) db = [] ->
  (forall d, d ∈ oldest rid (Z.to_nat limit) db -> deliverable env r d) ->
  exists db' r',
    deliver_pending_dispatches setting now env recovery rid limit (db, r) = (Ok (), (db', r')) /\
    progress db db' /\
    (forall d, d ∈ oldest rid (Z.to_nat limit) db -> delivered_in db' (wd_id d)) /\
    ((length (List.filter (selected rid) (db_dispatches db)) <= Z.to_nat limit)%nat ->
     forall d, d ∈ db_dispatches db -> selected rid d = true -> delivered_in db' (wd_id d)).
Proof.
  intros Hlim Hu Hl Hr Hstale Hdel.
  destruct (begin_all setting now rid (Z.to_nat limit) db Hu Hl Hr) as (db1 & Hbegin & Hp & Hnd & Hrows).
  set (batch := oldest rid (Z.to_nat limit) db) in *.
  destruct (deliver_all setting now env (map (attempt now) batch) db1 r) as (db2 & r2 & Hrun & Hp2 & Hdone).
  - by eapply progress_unique.
  - eapply lockable_tables; [apply Hp | done].
  - by rewrite map_map.
  - apply Forall_fmap, Forall_forall. intros d Hd.
    split_and!; [by apply Hrows | | by apply deliverable_attempt, Hdel]. by apply elem_of_oldest in Hd as [_ Hsel].
  - rewrite Forall_fmap, Forall_forall in Hdone. exists db2, r2. split_and!.
    + unfold deliver_pending_dispatches. rewrite (proj2 (Z.leb_gt _ _) Hlim). unfold io_bind at 1.
      unfold _recover_stale_dispatch_attempts, io_bind at 1, read. simpl. rewrite Hstale. simpl.
      unfold io_bind, transaction. simpl. by rewrite Hbegin.
    + by trans db1.
    + exact Hdone.
    + intros Hlen d Hd Hsel. apply (Hdone d). by apply oldest_all.
Qed.

Lemma bare_lockable : lockable "" staged_db.
Proof. intros ids. unfold lock_job_execution_entries, task_references. simpl. rewrite take_nil. simpl. eauto. Qed.

Lemma deliver_pending_delivers_witness :
  oldest None 100 staged_db = db_dispatches staged_db
  /\ exists db' r',
    deliver_pending_dispatches "" 5 plain_env 60 None 100 (staged_db, empty_redis) = (Ok (), (db', r')) /\
    progress staged_db db' /\
    (forall d, d ∈ oldest None (Z.to_nat 100) staged_db -> delivered_in db' (wd_id d)) /\
    ((length (List.filter (selected None) (db_dispatches staged_db)) <= Z.to_nat 100)%nat ->
     forall d, d ∈ db_dispatches staged_db -> selected None d = true -> delivered_in db' (wd_id d)).
Proof.
  split; [vm_compute; reflexivity|].
  apply (deliver_pending_delivers "" 5 plain_env 60 None 100 staged_db empty_redis).
  - lia.
  - unfold ids_unique. vm_compute. apply NoDup_singleton.
  - exact bare_lockable.
  - exact I.
  - vm_compute. reflexivity.
  - intros d Hd. change (d ∈ [default marked_row (head (db_dispatches staged_db))]) in Hd.
    apply list_elem_of_singleton in Hd. subst d. split_and!; [vm_compute; reflexivity | | exact I].
    exists sample_payload. vm_compute. reflexivity.
Defined.

Lemma delivery_lifecycle_witness :
  let db' := (reconcile_cancelled_dispatches "" 9 0 100 (begun.2, sent_redis.2)).2.1 in
  Forall2 (fun d d' => dispatch_identity d' = dispatch_identity d /\ dispatch_checks d' = true /\
             (wd_delivery_state d = "delivered" ->
              wd_delivery_state d' = "delivered" /\ wd_redis_message_id d' = wd_redis_message_id d))
    (db_dispatches begun.2) (db_dispatches db') /\
  other_tables db' = other_tables begun.2.
Proof.
  apply (delivery_lifecycle "" 9 plain_env 0 None 100 (reconcile_cancelled_dispatches "" 9 0 100) (begun.2, sent_redis.2)).
  - right. reflexivity.
  - unfold ids_unique. vm_compute. apply NoDup_singleton.
  - vm_compute. constructor; [reflexivity | constructor].
Defined.
