(* ===== verification/Receipts.v ===== *)
(** * Receipts ([services/registered_worker_event_receipt.py], the event half of
    [RegisteredWorkerEventReceiptService])

    An event of a registered worker is accepted, applied and recorded in one
    transaction; its Redis messages are acknowledged afterwards, in transactions of
    their own.  This is the code for a database without the stored procedures:
    advisory locks do nothing and there are no emission rows. *)

From stdpp Require Import base tactics list strings sorting relations.
From Stdlib Require Import ZArith Lia.
From S2P Require Import Prelude PyStr PyValue PyJson PyTime PyUuid Pipeline JobModel WorkerModel RedisModel Schedule Authority WorkerEvents Delivery.

Open Scope string_scope.
Open Scope list_scope.

(** ** Rows *)

Definition config_of_payload (p : payload) : config := map (fun kv => (kv.1, VStr kv.2)) p.

Definition put_receipts (rcs : list RegisteredWorkerEventReceipt) (db : Db) : Db :=
  put_workers (set_receipts rcs (db_workers db)) db.

Definition put_deliveries (dls : list RegisteredWorkerEventDelivery) (db : Db) : Db :=
  put_workers (set_deliveries dls (db_workers db)) db.

Definition is_receipt (rid : option uuid) (r : RegisteredWorkerEventReceipt) : bool := bool_decide (rc_id r = rid).

Definition update_receipts (p : RegisteredWorkerEventReceipt -> bool)
    (f : RegisteredWorkerEventReceipt -> RegisteredWorkerEventReceipt) (db : Db) : Db :=
  put_receipts (map (fun r => if p r then f r else r) (db_receipts db)) db.

Definition update_deliveries (p : RegisteredWorkerEventDelivery -> bool)
    (f : RegisteredWorkerEventDelivery -> RegisteredWorkerEventDelivery) (db : Db) : Db :=
  put_deliveries (map (fun d => if p d then f d else d) (db_deliveries db)) db.

(** The columns of a receipt that change. *)
Definition with_states (application ack task_ack : string) (applied acknowledged task_acknowledged : option datetime)
    (r : RegisteredWorkerEventReceipt) : RegisteredWorkerEventReceipt :=
  {| rc_id := rc_id r; rc_source_task_attestation_id := rc_source_task_attestation_id r;
     rc_redis_stream := rc_redis_stream r; rc_consumer_group := rc_consumer_group r;
     rc_message_id := rc_message_id r; rc_payload_sha256 := rc_payload_sha256 r;
     rc_payload_json := rc_payload_json r; rc_event_type := rc_event_type r; rc_job_id := rc_job_id r;
     rc_node_execution_id := rc_node_execution_id r;
     rc_worker_registration_id := rc_worker_registration_id r;
     rc_worker_lease_epoch := rc_worker_lease_epoch r; rc_worker_id := rc_worker_id r;
     rc_worker_started_at := rc_worker_started_at r; rc_source_task_stream := rc_source_task_stream r;
     rc_source_task_group := rc_source_task_group r;
     rc_source_task_message_id := rc_source_task_message_id r; rc_application_state := application;
     rc_ack_state := ack; rc_source_task_ack_state := task_ack; rc_accepted_at := rc_accepted_at r;
     rc_applied_at := applied; rc_acknowledged_at := acknowledged;
     rc_source_task_acknowledged_at := task_acknowledged |}.

Definition mark_applied (now : datetime) (r : RegisteredWorkerEventReceipt) : RegisteredWorkerEventReceipt :=
  with_states "applied" (rc_ack_state r) (rc_source_task_ack_state r) (Some now) (rc_acknowledged_at r)
    (rc_source_task_acknowledged_at r) r.

Definition mark_task_acknowledged (at_ : datetime) (r : RegisteredWorkerEventReceipt) : RegisteredWorkerEventReceipt :=
  with_states (rc_application_state r) (rc_ack_state r) "acknowledged" (rc_applied_at r) (rc_acknowledged_at r)
    (Some at_) r.

Definition mark_event_acknowledged (now : datetime) (r : RegisteredWorkerEventReceipt) : RegisteredWorkerEventReceipt :=
  with_states (rc_application_state r) "acknowledged" (rc_source_task_ack_state r) (rc_applied_at r) (Some now)
    (rc_source_task_acknowledged_at r) r.

Definition acknowledge_delivery (now : datetime) (d : RegisteredWorkerEventDelivery) : RegisteredWorkerEventDelivery :=
  {| dl_id := dl_id d; dl_source_task_attestation_id := dl_source_task_attestation_id d;
     dl_receipt_id := dl_receipt_id d; dl_redis_stream := dl_redis_stream d;
     dl_consumer_group := dl_consumer_group d; dl_message_id := dl_message_id d;
     dl_payload_sha256 := dl_payload_sha256 d; dl_resolution_state := dl_resolution_state d;
     dl_reason_code := dl_reason_code d; dl_ack_state := "acknowledged"; dl_accepted_at := dl_accepted_at d;
     dl_acknowledged_at := Some now |}.

(** ** Queries *)

Definition _locked_event_delivery (db : Db) (event : RegisteredWorkerEvent) : Res (option RegisteredWorkerEventDelivery) :=
  one_or_none (List.filter (fun d => (dl_redis_stream d =? ev_redis_stream event)%string
                                     && (dl_consumer_group d =? ev_consumer_group event)%string
                                     && (dl_message_id d =? ev_message_id event)%string) (db_deliveries db)).

Definition _locked_task_attestation (db : Db) (event : RegisteredWorkerEvent)
    : Res (option WorkerTaskDeliveryAttestation) :=
  one_or_none (List.filter (fun a => (at_redis_stream a =? ev_source_task_stream event)%string
                                     && (at_consumer_group a =? ev_source_task_group event)%string
                                     && (at_message_id a =? ev_source_task_message_id event)%string
                                     && (at_dispatch_key a =? ev_source_task_dispatch_key event)%string)
                 (db_attestations db)).

Definition for_attestation (attestation_id : uuid) (r : RegisteredWorkerEventReceipt) : bool :=
  (rc_source_task_attestation_id r =? attestation_id)%string.

Definition _locked_receipt_for_attestation (db : Db) (attestation_id : uuid)
    : Res (option RegisteredWorkerEventReceipt) :=
  one_or_none (List.filter (for_attestation attestation_id) (db_receipts db)).

Definition _receipt_for_delivery (db : Db) (d : RegisteredWorkerEventDelivery) : Res RegisteredWorkerEventReceipt :=
  match dl_receipt_id d with
  | None => event_error "accepted registered event delivery has no receipt"
  | Some rid =>
      match get_receipt db rid with
      | Some r => Ok r
      | None => event_error "registered event receipt is missing"
      end
  end.

(** ** Comparisons *)

Definition _attestation_mismatch_reason (a : WorkerTaskDeliveryAttestation) (event : RegisteredWorkerEvent)
    : option string :=
  let claim := ev_claim event in
  if negb (at_payload_sha256 a =? ev_source_task_payload_sha256 event)%string then Some "source_task_payload_mismatch"
  else if negb (at_job_id a =? ev_job_id event)%string
          || negb (at_node_execution_id a =? ev_node_execution_id event)%string then
    Some "source_task_authority_mismatch"
  else if negb (bool_decide (cl_worker_registration_id claim = Some (at_worker_registration_id a)))
          || negb (bool_decide (cl_worker_lease_epoch claim = Some (at_worker_lease_epoch a)))
          || negb (at_worker_id a =? cl_worker_id claim)%string
          || negb (at_worker_started_at a =? cl_started_at claim)%Z then
    Some "worker_claim_mismatch"
  else None.

Definition _require_matching_event_delivery_identity (d : RegisteredWorkerEventDelivery)
    (event : RegisteredWorkerEvent) : Res () :=
  if (dl_redis_stream d =? ev_redis_stream event)%string
     && (dl_consumer_group d =? ev_consumer_group event)%string
     && (dl_message_id d =? ev_message_id event)%string
     && (dl_payload_sha256 d =? ev_payload_sha256 event)%string
  then Ok () else event_error "registered event delivery fact or payload hash mismatch".

Section Receipts.
Context (setting : string) (now : datetime) (env : Env).

(** The facts of the event in order; the first that differs gives the reason. *)
Definition _source_receipt_mismatch_reason (r : RegisteredWorkerEventReceipt) (event : RegisteredWorkerEvent)
    (attestation_id : uuid) : Res (option string) :=
  let claim := ev_claim event in
  match cl_worker_registration_id claim, cl_worker_lease_epoch claim with
  | Some registration_id, Some lease_epoch =>
      if negb (rc_source_task_attestation_id r =? attestation_id)%string then Ok (Some "worker_claim_mismatch")
      else if negb (rc_payload_sha256 r =? ev_payload_sha256 event)%string then Ok (Some "event_payload_mismatch")
      else
        digest ← canonical_redis_payload_sha256 env (rc_payload_json r);
        if negb (digest =? ev_payload_sha256 event)%string then Ok (Some "event_payload_mismatch")
        else if negb (rc_event_type r =? ev_event_type event)%string then Ok (Some "event_payload_mismatch")
        else if (rc_job_id r =? ev_job_id event)%string
                && (rc_node_execution_id r =? ev_node_execution_id event)%string
                && (rc_worker_registration_id r =? registration_id)%string
                && (rc_worker_lease_epoch r =? lease_epoch)%Z
                && (rc_worker_id r =? cl_worker_id claim)%string
                && (rc_worker_started_at r =? cl_started_at claim)%Z
                && (rc_source_task_stream r =? ev_source_task_stream event)%string
                && (rc_source_task_group r =? ev_source_task_group event)%string
                && (rc_source_task_message_id r =? ev_source_task_message_id event)%string
        then Ok None else Ok (Some "worker_claim_mismatch")
  | _, _ => event_error "registered event has no worker registration claim"
  end.

Definition _require_matching_delivery (d : RegisteredWorkerEventDelivery) (r : RegisteredWorkerEventReceipt)
    (event : RegisteredWorkerEvent) : Res () :=
  _ ← _require_matching_event_delivery_identity d event;
  reason ← _source_receipt_mismatch_reason r event (rc_source_task_attestation_id r);
  match reason with
  | None => Ok ()
  | Some _ => event_error "registered event receipt fact or payload hash mismatch"
  end.

Definition _add_event_delivery (db : Db) (receipt_id : option uuid) (attestation_id : uuid)
    (event : RegisteredWorkerEvent) (resolution_state : string) (reason_code : option string) : Db :=
  put_deliveries
    (db_deliveries db ++
     [{| dl_id := fresh env "event_delivery" (ev_message_id event);
         dl_source_task_attestation_id := attestation_id; dl_receipt_id := receipt_id;
         dl_redis_stream := ev_redis_stream event; dl_consumer_group := ev_consumer_group event;
         dl_message_id := ev_message_id event; dl_payload_sha256 := ev_payload_sha256 event;
         dl_resolution_state := resolution_state; dl_reason_code := reason_code; dl_ack_state := "pending";
         dl_accepted_at := now; dl_acknowledged_at := None |}]) db.

Definition not_applied {A} : Res A := event_error "registered event receipt is not durably applied".

(** The event of an attestation that has a receipt already. *)
Definition accept_again (db : Db) (existing : RegisteredWorkerEventReceipt) (attestation_id : uuid)
    (event : RegisteredWorkerEvent) : Res (option uuid * Db) :=
  reason ← _source_receipt_mismatch_reason existing event attestation_id;
  match reason with
  | Some reason =>
      Ok (None, _add_event_delivery db (rc_id existing) attestation_id event "quarantined" (Some reason))
  | None =>
      if negb (rc_application_state existing =? "applied")%string then not_applied
      else Ok (rc_id existing, _add_event_delivery db (rc_id existing) attestation_id event "accepted" None)
  end.

Definition new_receipt (event : RegisteredWorkerEvent) (attestation_id registration_id : uuid) (lease_epoch : Z)
    : RegisteredWorkerEventReceipt :=
  {| rc_id := Some (fresh env "receipt" attestation_id); rc_source_task_attestation_id := attestation_id;
     rc_redis_stream := ev_redis_stream event; rc_consumer_group := ev_consumer_group event;
     rc_message_id := ev_message_id event; rc_payload_sha256 := ev_payload_sha256 event;
     rc_payload_json := config_of_payload (ev_payload event); rc_event_type := ev_event_type event;
     rc_job_id := ev_job_id event; rc_node_execution_id := ev_node_execution_id event;
     rc_worker_registration_id := registration_id; rc_worker_lease_epoch := lease_epoch;
     rc_worker_id := cl_worker_id (ev_claim event); rc_worker_started_at := cl_started_at (ev_claim event);
     rc_source_task_stream := ev_source_task_stream event;
     rc_source_task_group := ev_source_task_group event;
     rc_source_task_message_id := ev_source_task_message_id event; rc_application_state := "accepted";
     rc_ack_state := "pending"; rc_source_task_ack_state := "pending"; rc_accepted_at := now;
     rc_applied_at := None; rc_acknowledged_at := None; rc_source_task_acknowledged_at := None |}.

(** *** Acceptance *)

(** [delivery_observer]: the attestation id of the delivery the event reports, as
    the database observes it. *)
Context (delivery_observer : Db -> RegisteredWorkerEvent -> Res uuid).
Context (apply_event : Db -> RegisteredWorkerEventReceipt -> RegisteredWorkerEvent -> Res Db).

(** The receipt is written, the event applied, and the receipt marked. *)
Definition accept_new (db : Db) (au : LockedJobExecutionAuthority) (attestation_id : uuid)
    (observed : option uuid) (event : RegisteredWorkerEvent) : Res (option uuid * Db) :=
  observed ← match observed with Some o => Ok o | None => delivery_observer db event end;
  if negb (observed =? attestation_id)%string then
    event_error "registered event task delivery attestation mismatch"
  else
    _ ← require_active_execution_authority au [JobStatus.RUNNING] (Some [NodeStatus.RUNNING]);
    _ ← require_matching_node_execution_claim au (ev_claim event);
    existing ← _locked_receipt_for_attestation db attestation_id;
    match existing with
    | Some existing => accept_again db existing attestation_id event
    | None =>
        match cl_worker_registration_id (ev_claim event), cl_worker_lease_epoch (ev_claim event) with
        | Some registration_id, Some lease_epoch =>
            let receipt := new_receipt event attestation_id registration_id lease_epoch in
            let db1 := put_receipts (db_receipts db ++ [receipt]) db in
            let db2 := _add_event_delivery db1 (rc_id receipt) attestation_id event "accepted" None in
            db3 ← apply_event db2 receipt event;
            Ok (rc_id receipt, update_receipts (is_receipt (rc_id receipt)) (mark_applied now) db3)
        | _, _ => event_error "registered event has no worker registration claim"
        end
    end.

Definition accept_and_apply (db : Db) (event : RegisteredWorkerEvent) : Res (option uuid * Db) :=
  locked ← lock_job_execution_authority setting db (ev_job_id event) (Some (ev_node_execution_id event)) true;
  match cl_worker_registration_id (ev_claim event) with
  | None => event_error "registered event worker registration is invalid"
  | Some _ =>
      attestation ← _locked_task_attestation db event;
      observed ← match attestation with
                 | Some _ => Ok None
                 | None => o ← delivery_observer db event; Ok (Some o)
                 end;
      let attestation_id := match attestation with Some a => at_id a | None => default EmptyString observed end in
      existing_delivery ← _locked_event_delivery db event;
      match existing_delivery with
      | Some d =>
          _ ← _require_matching_event_delivery_identity d event;
          if (dl_resolution_state d =? "quarantined")%string then Ok (None, db)
          else
            r ← _receipt_for_delivery db d;
            _ ← _require_matching_delivery d r event;
            if negb (rc_application_state r =? "applied")%string then not_applied
            else Ok (rc_id r, db)
      | None =>
          match match attestation with Some a => _attestation_mismatch_reason a event | None => None end with
          | Some reason =>
              existing ← _locked_receipt_for_attestation db attestation_id;
              Ok (None, _add_event_delivery db (match existing with Some r => rc_id r | None => None end)
                          attestation_id event "quarantined" (Some reason))
          | None =>
              existing ← _locked_receipt_for_attestation db attestation_id;
              match existing with
              | Some existing => accept_again db existing attestation_id event
              | None => accept_new db locked.1 attestation_id observed event
              end
          end
      end
  end.
End Receipts.

(** ** Acknowledgements *)

Definition is_attestation (id : uuid) (a : WorkerTaskDeliveryAttestation) : bool := (at_id a =? id)%string.

Definition is_delivery (id : uuid) (d : RegisteredWorkerEventDelivery) : bool := (dl_id d =? id)%string.

(** The dispatch an attestation acknowledges. *)
Definition attested_dispatch (a : WorkerTaskDeliveryAttestation) (d : WorkerTaskDispatch) : bool :=
  (wd_dispatch_key d =? at_dispatch_key a)%string && (wd_redis_stream d =? at_redis_stream a)%string
  && (wd_consumer_group d =? at_consumer_group a)%string
  && bool_decide (wd_redis_message_id d = Some (at_message_id a))
  && (wd_payload_sha256 d =? at_payload_sha256 a)%string && (wd_job_id d =? at_job_id a)%string
  && (wd_node_execution_id d =? at_node_execution_id a)%string.

(** A message to acknowledge: stream, group, id. *)
Abbreviation message := (string * string * string)%type.

Section Acknowledge.
Context {R : Type} `{!RedisStore R}.
Context (setting : string) (now : datetime) (env : Env).

Definition _lock_dispatch_for_attestation (db : Db) (a : WorkerTaskDeliveryAttestation) : Res () :=
  _ ← one_or_none (List.filter (fun d => attested_dispatch a d && (wd_delivery_state d =? "delivered")%string
                                         && bool_decide (wd_resolution_state d
                                              ∈ ["unresolved"; "cancel_authorized"; "acknowledged"])) (db_dispatches db));
  Ok ().

(** The attestation and its dispatch become acknowledged. *)
Definition _mark_proven_task_acknowledged (db : Db) (a : WorkerTaskDeliveryAttestation) : Res (datetime * Db) :=
  let db1 := update_attestations (is_attestation (at_id a)) (acknowledge_attestation now) db in
  dispatch ← one_or_none (List.filter (attested_dispatch a) (db_dispatches db1));
  match dispatch with
  | None => event_error "worker task dispatch acknowledgement identity mismatch"
  | Some d =>
      if negb (wd_delivery_state d =? "delivered")%string then
        event_error "worker task dispatch acknowledgement identity mismatch"
      else if (wd_resolution_state d =? "cancelled")%string then
        event_error "cancelled-undelivered dispatch cannot be acknowledged"
      else if (wd_resolution_state d =? "acknowledged")%string then Ok (now, db1)
      else Ok (now, update_dispatches (has_id (wd_id d)) (acknowledge_dispatch now) db1)
  end.

(** Sends [XACK] for the messages in order, stopping at an invalid answer. *)
Fixpoint xack_all (messages : list (message * string)) (r : R) : Res () * R :=
  match messages with
  | [] => (Ok (), r)
  | ((stream, group, id), label) :: messages' =>
      let '(result, r') := redis_xack stream group id r in
      match _require_xack_result result label with
      | Raise e => (Raise e, r')
      | Ok _ => xack_all messages' r'
      end
  end.

Definition task_message (a : WorkerTaskDeliveryAttestation) : message :=
  (at_redis_stream a, at_consumer_group a, at_message_id a).
Definition event_message (d : RegisteredWorkerEventDelivery) : message :=
  (dl_redis_stream d, dl_consumer_group d, dl_message_id d).

Definition acknowledged (state : string) : bool := (state =? "acknowledged")%string.

(** The row changes after the messages are acknowledged. *)
Definition record_acknowledged (db : Db) (a : WorkerTaskDeliveryAttestation)
    (receipt : option RegisteredWorkerEventReceipt) (d : RegisteredWorkerEventDelivery) : Res Db :=
  '(task_acknowledged_at, db1) ←
    match receipt with
    | Some _ => if acknowledged (at_ack_state a) then Ok (at_acknowledged_at a, db)
                else '(t, db1) ← _mark_proven_task_acknowledged db a; Ok (Some t, db1)
    | None => Ok (at_acknowledged_at a, db)
    end;
  let db2 := match receipt with
             | Some r => update_receipts (is_receipt (rc_id r))
                           (mark_task_acknowledged (default now task_acknowledged_at)) db1
             | None => db1
             end in
  if acknowledged (dl_ack_state d) then Ok db2
  else
    let db3 := update_deliveries (is_delivery (dl_id d)) (acknowledge_delivery now) db2 in
    Ok match receipt with
       | Some r => if bool_decide ((rc_redis_stream r, rc_consumer_group r, rc_message_id r) = event_message d)
                   then update_receipts (is_receipt (rc_id r)) (mark_event_acknowledged now) db3 else db3
       | None => db3
       end.

Definition _acknowledge_locked_delivery (db : Db) (r : R) (a : WorkerTaskDeliveryAttestation)
    (receipt : option RegisteredWorkerEventReceipt) (d : RegisteredWorkerEventDelivery) : Res (() * Db) * R :=
  if match receipt with
     | Some rc => negb (rc_source_task_attestation_id rc =? dl_source_task_attestation_id d)%string
     | None => false
     end then (event_error "registered event task attestation mismatch", r)
  else
    let task := match receipt with
                | Some _ => if acknowledged (at_ack_state a) then [] else [(task_message a, "worker task")]
                | None => []
                end in
    let event := if acknowledged (dl_ack_state d) then [] else [(event_message d, "worker event")] in
    match xack_all (task ++ event) r with
    | (Raise e, r') => (Raise e, r')
    | (Ok _, r') => (db' ← record_acknowledged db a receipt d; Ok ((), db'), r')
    end.

Definition _lock_job_node_registration (db : Db) (job_id : uuid) : Res () :=
  _ ← lock_job_execution_entry setting db job_id; Ok ().

(** The rows an acknowledgement needs. *)
Definition _lock_delivery_ack_authority (db : Db) (delivery_id : uuid)
    : Res (WorkerTaskDeliveryAttestation * option RegisteredWorkerEventReceipt * RegisteredWorkerEventDelivery) :=
  identity ← one_or_none (List.filter (is_delivery delivery_id) (db_deliveries db));
  match identity with
  | None => event_error "registered event delivery is missing"
  | Some identity =>
      joined ← one_or_none (List.filter (is_attestation (dl_source_task_attestation_id identity)) (db_attestations db));
      match joined with
      | None => event_error "registered event delivery is missing"
      | Some a =>
          _ ← _lock_job_node_registration db (at_job_id a);
          let receipts := List.filter (for_attestation (at_id a)) (db_receipts db) in
          let receipt := match dl_receipt_id identity with
                         | Some rid => List.find (is_receipt (Some rid)) receipts
                         | None => None
                         end in
          match dl_receipt_id identity, receipt with
          | Some _, None => event_error "registered event receipt is missing"
          | _, _ => _ ← _lock_dispatch_for_attestation db a; Ok (a, receipt, identity)
          end
      end
  end.

Definition applied_receipt (receipt : option RegisteredWorkerEventReceipt) : Res () :=
  match receipt with
  | Some r => if (rc_application_state r =? "applied")%string then Ok () else not_applied
  | None => Ok ()
  end.

Definition _acknowledge_delivery_id (delivery_id : uuid) (db : Db) (r : R) : Res (() * Db) * R :=
  match _lock_delivery_ack_authority db delivery_id with
  | Raise e => (Raise e, r)
  | Ok (a, receipt, d) =>
      let receipt := if (dl_resolution_state d =? "accepted")%string then receipt else None in
      match applied_receipt receipt with
      | Raise e => (Raise e, r)
      | Ok _ => _acknowledge_locked_delivery db r a receipt d
      end
  end.

Definition acknowledge_applied (event : RegisteredWorkerEvent) (db : Db) (r : R) : Res (() * Db) * R :=
  match _locked_event_delivery db event with
  | Raise e => (Raise e, r)
  | Ok None => (event_error "registered event delivery is missing", r)
  | Ok (Some found) =>
      match _lock_delivery_ack_authority db (dl_id found) with
      | Raise e => (Raise e, r)
      | Ok (a, receipt, d) =>
          let checked :=
            _ ← _require_matching_event_delivery_identity d event;
            receipt ← (if negb (dl_resolution_state d =? "accepted")%string then Ok None
                       else match receipt with
                            | None => event_error "accepted registered event delivery has no receipt"
                            | Some rc => Ok (Some rc)
                            end);
            _ ← match receipt with Some rc => _require_matching_delivery env d rc event | None => Ok () end;
            _ ← applied_receipt receipt;
            Ok receipt in
          match checked with
          | Raise e => (Raise e, r)
          | Ok receipt => _acknowledge_locked_delivery db r a receipt d
          end
      end
  end.

Definition accepted_le (a b : RegisteredWorkerEventDelivery) : Prop := (dl_accepted_at a <= dl_accepted_at b)%Z.
#[local] Instance accepted_le_dec : RelDecision accepted_le.
Proof. intros a b. unfold accepted_le. apply _. Defined.

Definition attested_le (a b : WorkerTaskDeliveryAttestation) : Prop := (at_attested_at a <= at_attested_at b)%Z.
#[local] Instance attested_le_dec : RelDecision attested_le.
Proof. intros a b. unfold attested_le. apply _. Defined.

(** Deliveries whose acknowledgement was interrupted. *)
Definition pending_deliveries (limit : nat) (db : Db) : list uuid :=
  let applied d := match dl_receipt_id d with
                   | Some rid => match get_receipt db rid with
                                 | Some r => (rc_application_state r =? "applied")%string
                                 | None => false
                                 end
                   | None => false
                   end in
  map dl_id (take limit (merge_sort accepted_le
    (List.filter (fun d => negb (acknowledged (dl_ack_state d))
                           && ((dl_resolution_state d =? "quarantined")%string || applied d)) (db_deliveries db)))).

Definition reconcile_pending_acknowledgements (limit : Z) : Io R () :=
  if (limit <=? 0)%Z then io_raise (ValueError "limit must be positive")
  else
    let! delivery_ids := read (pending_deliveries (Z.to_nat limit)) in
    io_for delivery_ids (fun id => transaction_redis (_acknowledge_delivery_id id)).

Definition _acknowledge_authorized_task (attestation_id : uuid) (db : Db) (r : R) : Res (() * Db) * R :=
  match one_or_none (List.filter (is_attestation attestation_id) (db_attestations db)) with
  | Raise e => (Raise e, r)
  | Ok None => (Ok ((), db), r)
  | Ok (Some a) =>
      match _lock_job_node_registration db (at_job_id a) with
      | Raise e => (Raise e, r)
      | Ok _ =>
          if acknowledged (at_ack_state a) then (Ok ((), db), r)
          else if negb (at_ack_state a =? "authorized")%string then
            (event_error "worker task acknowledgement is not authorized", r)
          else
            match _lock_dispatch_for_attestation db a with
            | Raise e => (Raise e, r)
            | Ok _ =>
                match xack_all [(task_message a, "worker task")] r with
                | (Raise e, r') => (Raise e, r')
                | (Ok _, r') => ('(_, db') ← _mark_proven_task_acknowledged db a; Ok ((), db'), r')
                end
            end
      end
  end.

Definition authorized_attestations (limit : nat) (db : Db) : list uuid :=
  map at_id (take limit (merge_sort attested_le
    (List.filter (fun a => (at_ack_state a =? "authorized")%string) (db_attestations db)))).

Definition reconcile_authorized_task_acknowledgements (limit : Z) : Io R () :=
  if (limit <=? 0)%Z then io_raise (ValueError "limit must be positive")
  else
    let! attestation_ids := read (authorized_attestations (Z.to_nat limit)) in
    io_for attestation_ids (fun id => transaction_redis (_acknowledge_authorized_task id)).
End Acknowledge.
