(* ===== verification/ReceiptsOnce.v ===== *)
(** * Receipts: each task delivery is applied once

    [acceptance] lists what [accept_and_apply] can do when it returns; the invariant
    of the receipt and delivery tables follows from it, and with it that an event is
    applied at most once per attested task delivery. *)

From stdpp Require Import base tactics list strings sorting relations.
From Stdlib Require Import ZArith Lia.
From S2P Require Import Prelude PyStr PyValue PyJson PyTime PyUuid Pipeline JobModel WorkerModel RedisModel Schedule Authority WorkerEvents Delivery Receipts.

Open Scope string_scope.
Open Scope list_scope.

Definition event_identity (ev : RegisteredWorkerEvent) : string * string * string :=
  (ev_redis_stream ev, ev_consumer_group ev, ev_message_id ev).

Definition receipt_attestations (db : Db) : list uuid := map rc_source_task_attestation_id (db_receipts db).

Lemma one_or_none_None {A} (l : list A) : one_or_none l = Ok None -> l = [].
Proof. by destruct l as [|a [|b l]]. Qed.

Lemma one_or_none_Some {A} (l : list A) a : one_or_none l = Ok (Some a) -> l = [a].
Proof. destruct l as [|x [|y l]]; [done| |done]. by intros [= ->]. Qed.

Lemma filter_single_in {A} (f : A -> bool) l a : List.filter f l = [a] -> a ∈ l /\ f a = true.
Proof. intros Hf. rewrite list_elem_of_In. apply filter_In. rewrite Hf. by left. Qed.

Lemma delivery_absent db ev : _locked_event_delivery db ev = Ok None -> event_identity ev ∉ map event_message (db_deliveries db).
Proof.
  intros Hf%one_or_none_None (d & Hd & Hin)%list_elem_of_fmap. rewrite filter_nil_iff in Hf. specialize (Hf d Hin).
  unfold event_identity, event_message in Hd. injection Hd as Hs Hg Hm. rewrite Hs, Hg, Hm, !String.eqb_refl in Hf. done.
Qed.

Lemma receipt_absent db a : _locked_receipt_for_attestation db a = Ok None -> a ∉ receipt_attestations db.
Proof.
  intros Hf%one_or_none_None (r & -> & Hin)%list_elem_of_fmap. rewrite filter_nil_iff in Hf. specialize (Hf r Hin).
  unfold for_attestation in Hf. by rewrite String.eqb_refl in Hf.
Qed.

Lemma receipt_present db a r :
  _locked_receipt_for_attestation db a = Ok (Some r) -> r ∈ db_receipts db /\ rc_source_task_attestation_id r = a.
Proof. intros [Hin Ha%String.eqb_eq]%one_or_none_Some%filter_single_in. done. Qed.

(** The [CHECK] constraints of receipts on states and times. *)
Definition check_pair (state : string) (time : option datetime) (applied : bool) : bool :=
  ((state =? "pending")%string && absent time) || ((state =? "acknowledged")%string && applied && present time).

Definition receipt_checks (r : RegisteredWorkerEventReceipt) : bool :=
  let applied := (rc_application_state r =? "applied")%string in
  (((rc_application_state r =? "accepted")%string && absent (rc_applied_at r)) || (applied && present (rc_applied_at r)))
  && check_pair (rc_ack_state r) (rc_acknowledged_at r) applied
  && check_pair (rc_source_task_ack_state r) (rc_source_task_acknowledged_at r) applied.

(** Committed receipts are applied, one per attested delivery; a message is
    recorded once, and an accepted one belongs to the receipt of its attestation. *)
Record receipts_inv (db : Db) : Prop := {
  ri_attestations : NoDup (receipt_attestations db);
  ri_ids : NoDup (map rc_id (db_receipts db));
  ri_applied : Forall (fun r => rc_application_state r = "applied" /\ receipt_checks r = true) (db_receipts db);
  ri_messages : NoDup (map event_message (db_deliveries db));
  ri_linked : Forall (fun d => dl_resolution_state d = "accepted" ->
                exists r, r ∈ db_receipts db /\ dl_receipt_id d = rc_id r /\
                  rc_source_task_attestation_id r = dl_source_task_attestation_id d) (db_deliveries db) }.

Lemma NoDup_snoc {A} (l : list A) x : NoDup l -> x ∉ l -> NoDup (l ++ [x]).
Proof.
  intros Hl Hx. apply NoDup_app. split_and!; [done| |apply NoDup_singleton].
  by intros y Hy ->%list_elem_of_singleton.
Qed.

Section Once.
Context (setting : string) (now : datetime) (env : Env).
Context (delivery_observer : Db -> RegisteredWorkerEvent -> Res uuid).
Context (apply_event : Db -> RegisteredWorkerEventReceipt -> RegisteredWorkerEvent -> Res Db).

Abbreviation add_delivery := (_add_event_delivery now env).

(** The tables when the event is applied. *)
Definition accepted_db (db : Db) (ev : RegisteredWorkerEvent) (attestation_id : uuid)
    (receipt : RegisteredWorkerEventReceipt) : Db :=
  add_delivery (put_receipts (db_receipts db ++ [receipt]) db) (rc_id receipt) attestation_id ev "accepted" None.

Inductive acceptance (db : Db) (ev : RegisteredWorkerEvent) : option uuid -> Db -> Prop :=
(** The delivery is known. *)
| acc_duplicate d res :
    d ∈ db_deliveries db -> event_message d = event_identity ev ->
    (res = None /\ dl_resolution_state d = "quarantined"
     \/ dl_resolution_state d <> "quarantined" /\
        exists r, r ∈ db_receipts db /\ dl_receipt_id d = rc_id r /\ rc_application_state r = "applied" /\ res = rc_id r /\
          _require_matching_delivery env d r ev = Ok ()) ->
    acceptance db ev res db
(** The event contradicts the attested delivery or the receipt. *)
| acc_quarantine rid attestation_id reason :
    event_identity ev ∉ map event_message (db_deliveries db) ->
    acceptance db ev None (add_delivery db rid attestation_id ev "quarantined" (Some reason))
(** Another message with the event of the receipt. *)
| acc_again r :
    event_identity ev ∉ map event_message (db_deliveries db) ->
    r ∈ db_receipts db -> rc_application_state r = "applied" ->
    _source_receipt_mismatch_reason env r ev (rc_source_task_attestation_id r) = Ok None ->
    acceptance db ev (rc_id r) (add_delivery db (rc_id r) (rc_source_task_attestation_id r) ev "accepted" None)
(** The first event of the attested delivery. *)
| acc_new attestation_id registration_id lease_epoch db' :
    event_identity ev ∉ map event_message (db_deliveries db) ->
    attestation_id ∉ receipt_attestations db ->
    cl_worker_registration_id (ev_claim ev) = Some registration_id ->
    cl_worker_lease_epoch (ev_claim ev) = Some lease_epoch ->
    let receipt := new_receipt now env ev attestation_id registration_id lease_epoch in
    apply_event (accepted_db db ev attestation_id receipt) receipt ev = Ok db' ->
    acceptance db ev (rc_id receipt) (update_receipts (is_receipt (rc_id receipt)) (mark_applied now) db').

Lemma accept_again_inv db r a ev res db' :
  event_identity ev ∉ map event_message (db_deliveries db) ->
  r ∈ db_receipts db -> rc_source_task_attestation_id r = a ->
  accept_again now env db r a ev = Ok (res, db') -> acceptance db ev res db'.
Proof.
  intros Hnew Hr <- ([reason|] & Hm & Hok)%bind_Ok.
  - injection Hok as <- <-. by constructor.
  - destruct (String.eqb_spec (rc_application_state r) "applied"); [|done]. injection Hok as <- <-. by constructor.
Qed.

Lemma accept_new_inv db au a observed ev res db' :
  event_identity ev ∉ map event_message (db_deliveries db) ->
  accept_new now env delivery_observer apply_event db au a observed ev = Ok (res, db') -> acceptance db ev res db'.
Proof.
  intros Hnew (o & _ & Hok)%bind_Ok. destruct (negb _); [done|].
  apply bind_Ok in Hok as ([] & _ & Hok). apply bind_Ok in Hok as ([] & _ & Hok).
  apply bind_Ok in Hok as ([r|] & Hex & Hok).
  - apply receipt_present in Hex as [Hr Ha]. by eapply accept_again_inv.
  - apply receipt_absent in Hex. destruct (cl_worker_registration_id _) as [reg|] eqn:Hreg; [|done].
    destruct (cl_worker_lease_epoch _) as [ep|] eqn:Hep; [|done].
    apply bind_Ok in Hok as (db3 & Happ & [= <- <-]). by eapply acc_new.
Qed.

Lemma accept_inv db ev res db' :
  accept_and_apply setting now env delivery_observer apply_event db ev = Ok (res, db') -> acceptance db ev res db'.
Proof.
  intros (locked & _ & Hok)%bind_Ok. destruct (cl_worker_registration_id _); [|done].
  apply bind_Ok in Hok as (att & _ & Hok). apply bind_Ok in Hok as (obs & _ & Hok).
  apply bind_Ok in Hok as ([d|] & Hd & Hok).
  - apply one_or_none_Some, filter_single_in in Hd as [Hin Hd].
    apply andb_prop in Hd as [[Hs%String.eqb_eq Hg%String.eqb_eq]%andb_prop Hm%String.eqb_eq].
    apply bind_Ok in Hok as ([] & _ & Hok).
    assert (Hid : event_message d = event_identity ev) by (unfold event_message, event_identity; congruence).
    destruct (String.eqb_spec (dl_resolution_state d) "quarantined") as [Hq|Hq].
    { injection Hok as <- <-. eapply acc_duplicate; [done..|]. by left. }
    apply bind_Ok in Hok as (r & Hr & Hok). apply bind_Ok in Hok as ([] & Hmatch & Hok).
    destruct (String.eqb_spec (rc_application_state r) "applied") as [Ha|]; [|done]. injection Hok as <- <-.
    eapply acc_duplicate; [done..|]. right. split; [done|]. exists r. unfold _receipt_for_delivery, get_receipt in Hr.
    destruct (dl_receipt_id d) as [rid|]; [|done]. destruct (List.find _ _) as [r'|] eqn:Hf; [|done].
    injection Hr as ->. apply List.find_some in Hf as [Hin' Hrid%bool_decide_eq_true_1].
    rewrite list_elem_of_In. by rewrite Hrid.
  - apply delivery_absent in Hd. destruct (match att with Some a => _ | None => _ end) as [reason|].
    + apply bind_Ok in Hok as (ex & _ & [= <- <-]). by constructor.
    + apply bind_Ok in Hok as ([r|] & Hex & Hok); [|by eapply accept_new_inv].
      apply receipt_present in Hex as [Hr Ha]. by eapply accept_again_inv.
Qed.

(** Recording a message that was not recorded. *)
Lemma add_delivery_inv db rid a ev state reason :
  receipts_inv db -> event_identity ev ∉ map event_message (db_deliveries db) ->
  (state = "accepted" -> exists r, r ∈ db_receipts db /\ rid = rc_id r /\ rc_source_task_attestation_id r = a) ->
  receipts_inv (add_delivery db rid a ev state reason).
Proof.
  intros [Ha Hi Hap Hm Hl] Hnew Hacc. split; [done..| |]; unfold _add_event_delivery, db_deliveries; simpl.
  - rewrite map_app. by apply NoDup_snoc.
  - apply Forall_app. split; [exact Hl|]. constructor; [|constructor]. simpl. intros Hs. by apply Hacc.
Qed.

Context (Hkeep : forall db r ev db', apply_event db r ev = Ok db' ->
  db_receipts db' = db_receipts db /\ db_deliveries db' = db_deliveries db).

(** New keys differ from those in use. *)
Definition receipt_ids_free (db : Db) : Prop :=
  forall a, a ∉ receipt_attestations db -> Some (fresh env "receipt" a) ∉ map rc_id (db_receipts db).

Lemma mark_new_receipt l r :
  rc_id r ∉ map rc_id l ->
  map (fun x => if is_receipt (rc_id r) x then mark_applied now x else x) (l ++ [r]) = l ++ [mark_applied now r].
Proof.
  intros Hfree. rewrite map_app. f_equal.
  - rewrite <- (map_id l) at 2. apply map_ext_in. intros x Hx. unfold is_receipt. case_bool_decide as Hid; [|done].
    exfalso. apply Hfree. rewrite <- Hid. apply list_elem_of_fmap. exists x. by rewrite list_elem_of_In.
  - simpl. unfold is_receipt. by rewrite bool_decide_true.
Qed.

(** The receipt table after a first application. *)
Lemma new_receipts db ev a reg ep db' :
  receipt_ids_free db -> a ∉ receipt_attestations db ->
  let receipt := new_receipt now env ev a reg ep in
  apply_event (accepted_db db ev a receipt) receipt ev = Ok db' ->
  let final := update_receipts (is_receipt (rc_id receipt)) (mark_applied now) db' in
  db_receipts final = db_receipts db ++ [mark_applied now receipt] /\
  db_deliveries final = db_deliveries (accepted_db db ev a receipt).
Proof.
  intros Hfree Ha receipt Happ final. apply Hkeep in Happ as [Hr Hd]. split; [|exact Hd].
  change (db_receipts final) with (map (fun x => if is_receipt (rc_id receipt) x then mark_applied now x else x) (db_receipts db')).
  rewrite Hr. apply (mark_new_receipt (db_receipts db) receipt). by apply Hfree.
Qed.

Lemma acceptance_inv db ev res db' :
  receipts_inv db -> receipt_ids_free db -> acceptance db ev res db' -> receipts_inv db'.
Proof.
  intros Hinv Hfree Hacc. destruct Hacc as [d res Hd Hid _|rid a reason Hnew|r Hnew Hr Hap Hmatch|a reg ep db3 Hnew Ha Hreg Hep receipt Happ].
  - done.
  - by apply add_delivery_inv.
  - apply add_delivery_inv; eauto.
  - destruct (new_receipts db ev a reg ep db3 Hfree Ha Happ) as [Hr Hd]. fold receipt in Hr, Hd.
    destruct Hinv as [Hatt Hids Happlied Hmsg Hlink].
    split; unfold receipt_attestations; rewrite ?Hr, ?Hd.
    + rewrite map_app. by apply NoDup_snoc.
    + rewrite map_app. apply NoDup_snoc; [done|]. by apply Hfree.
    + apply Forall_app. split; [done|]. by repeat constructor.
    + unfold accepted_db, _add_event_delivery, db_deliveries. simpl. rewrite map_app. by apply NoDup_snoc.
    + unfold accepted_db, _add_event_delivery, db_deliveries. simpl. apply Forall_app. split.
      * eapply Forall_impl; [exact Hlink|]. intros d Hl Hs. destruct (Hl Hs) as (r & Hin & Hrest). exists r.
        split; [apply elem_of_app; by left | done].
      * constructor; [|constructor]. intros _. exists (mark_applied now receipt).
        split; [apply elem_of_app; right; by apply list_elem_of_singleton | done].
Qed.
End Once.

(** Each attested task delivery is applied at most once: a call of
    [accept_and_apply] that returns keeps the invariant of the tables (receipts
    applied and unique per delivery, messages recorded once), and either changes
    nothing but the record of messages, or adds the one receipt of a delivery that
    had none, after applying the event once. *)
Lemma accept_applies_once setting now env observer apply_event db ev res db' :
  (forall d r e d', apply_event d r e = Ok d' -> db_receipts d' = db_receipts d /\ db_deliveries d' = db_deliveries d) ->
  receipts_inv db -> receipt_ids_free env db ->
  accept_and_apply setting now env observer apply_event db ev = Ok (res, db') ->
  receipts_inv db' /\
  (db_receipts db' = db_receipts db /\ db_jobs db' = db_jobs db /\ db_dispatches db' = db_dispatches db
   \/ exists a receipt before after,
        a ∉ receipt_attestations db /\ receipt_attestations db' = receipt_attestations db ++ [a] /\
        res = rc_id receipt /\ apply_event before receipt ev = Ok after /\
        db_jobs before = db_jobs db /\ db_jobs db' = db_jobs after).
Proof.
  intros Hkeep Hinv Hfree Hok%accept_inv. split; [by eapply acceptance_inv|].
  destruct Hok as [d res Hd Hid _|rid a reason Hnew|r Hnew Hr Hap Hmatch|a reg ep db3 Hnew Ha Hreg Hep receipt Happ]; [by left..|].
  right. exists a, receipt, (accepted_db now env db ev a receipt), db3.
  destruct (new_receipts now env apply_event Hkeep db ev a reg ep db3 Hfree Ha Happ) as [Hrec _].
  fold receipt in Hrec. split_and!; try done. unfold receipt_attestations. by rewrite Hrec, map_app.
Qed.

(** ** Redelivery *)

(** The event is recorded as accepted under the receipt [rid]. *)
Definition recognised (env : Env) (db : Db) (ev : RegisteredWorkerEvent) (rid : option uuid) : Prop :=
  exists d r, d ∈ db_deliveries db /\ event_message d = event_identity ev /\
    dl_resolution_state d <> "quarantined" /\ r ∈ db_receipts db /\ is_Some (rc_id r) /\
    dl_receipt_id d = rc_id r /\ rid = rc_id r /\ rc_application_state r = "applied" /\
    _require_matching_delivery env d r ev = Ok ().

Lemma NoDup_find {A B} `{!EqDecision B} (f : A -> B) l x :
  NoDup (map f l) -> x ∈ l -> List.find (fun y => bool_decide (f y = f x)) l = Some x.
Proof.
  induction l as [|y l IH]; [by intros _ ?%not_elem_of_nil|]. simpl. intros [Hy Hl]%NoDup_cons Hx.
  case_bool_decide as He.
  - apply elem_of_cons in Hx as [-> | Hx]; [done|]. exfalso. apply Hy. rewrite He. apply list_elem_of_fmap. eauto.
  - apply elem_of_cons in Hx as [-> | Hx]; [done|]. by apply IH.
Qed.

Lemma NoDup_filter_one {A B} (f : A -> B) (p : A -> bool) l x :
  NoDup (map f l) -> x ∈ l -> p x = true -> (forall y, y ∈ l -> p y = true -> f y = f x) -> List.filter p l = [x].
Proof.
  induction l as [|y l IH]; [by intros _ ?%not_elem_of_nil|]. simpl. intros [Hy Hl]%NoDup_cons Hx Hp Hall.
  apply elem_of_cons in Hx as [<- | Hx].
  - rewrite Hp. f_equal. apply filter_nil_iff. intros z Hz. destruct (p z) eqn:Hpz; [|done]. exfalso. apply Hy.
    rewrite <- (Hall z) by (by right || done). apply list_elem_of_fmap. eauto.
  - destruct (p y) eqn:Hpy.
    + exfalso. apply Hy. rewrite (Hall y) by (by left || done). apply list_elem_of_fmap. eauto.
    + apply IH; try done. intros z Hz. apply Hall. by right.
Qed.

Lemma recorded_delivery db ev d :
  NoDup (map event_message (db_deliveries db)) -> d ∈ db_deliveries db -> event_message d = event_identity ev ->
  _locked_event_delivery db ev = Ok (Some d).
Proof.
  intros Hnd Hd Hid. unfold _locked_event_delivery. unfold event_message, event_identity in *.
  injection Hid as Hs Hg Hm. erewrite (NoDup_filter_one event_message); [done|done|exact Hd| |].
  - by rewrite Hs, Hg, Hm, !String.eqb_refl.
  - intros y _ [[Hs'%String.eqb_eq Hg'%String.eqb_eq]%andb_prop Hm'%String.eqb_eq]%andb_prop.
    unfold event_message. congruence.
Qed.

(** A recorded event returns its receipt and changes nothing. *)
Lemma accept_recognised setting now env observer apply_event db ev rid locked a :
  receipts_inv db -> recognised env db ev rid ->
  lock_job_execution_authority setting db (ev_job_id ev) (Some (ev_node_execution_id ev)) true = Ok locked ->
  is_Some (cl_worker_registration_id (ev_claim ev)) -> _locked_task_attestation db ev = Ok (Some a) ->
  accept_and_apply setting now env observer apply_event db ev = Ok (rid, db).
Proof.
  intros Hinv (d & r & Hd & Hid & Hq & Hr & [i Hi] & Hlink & -> & Hap & Hmatch) Hlock [reg Hreg] Hatt.
  unfold accept_and_apply. rewrite Hlock, Hreg, Hatt. simpl.
  rewrite (recorded_delivery db ev d (ri_messages _ Hinv) Hd Hid). simpl.
  pose proof Hmatch as (u & Hident & _)%bind_Ok. rewrite Hident. simpl. apply String.eqb_neq in Hq as ->.
  unfold _receipt_for_delivery. rewrite Hlink, Hi.
  assert (get_receipt db i = Some r) as ->.
  { unfold get_receipt. rewrite <- Hi. by apply (NoDup_find rc_id), Hr; apply Hinv. }
  simpl. rewrite Hmatch. simpl. by rewrite Hap, Hi.
Qed.

Lemma new_receipt_matches now env ev a reg ep d :
  ev_payload_sha256 ev = payload_digest env (ev_payload ev) ->
  cl_worker_registration_id (ev_claim ev) = Some reg -> cl_worker_lease_epoch (ev_claim ev) = Some ep ->
  event_message d = event_identity ev -> dl_payload_sha256 d = ev_payload_sha256 ev ->
  _require_matching_delivery env d (mark_applied now (new_receipt now env ev a reg ep)) ev = Ok ().
Proof.
  intros Hsha Hreg Hep Hid Hpay. unfold event_message, event_identity in Hid. injection Hid as Hs Hg Hm.
  unfold _require_matching_delivery, _require_matching_event_delivery_identity.
  rewrite Hs, Hg, Hm, Hpay, !String.eqb_refl. simpl.
  unfold _source_receipt_mismatch_reason. rewrite Hreg, Hep. simpl. rewrite !String.eqb_refl. simpl.
  unfold canonical_redis_payload_sha256, config_of_payload. rewrite string_items_payload. simpl.
  rewrite Hsha, !String.eqb_refl, !Z.eqb_refl. done.
Qed.

Lemma identity_matches (d : RegisteredWorkerEventDelivery) ev :
  event_message d = event_identity ev -> dl_payload_sha256 d = ev_payload_sha256 ev ->
  _require_matching_event_delivery_identity d ev = Ok ().
Proof.
  unfold event_message, event_identity. intros [= Hs Hg Hm] Hp. unfold _require_matching_event_delivery_identity.
  by rewrite Hs, Hg, Hm, Hp, !String.eqb_refl.
Qed.

(** An acceptance leaves its event recorded. *)
Lemma acceptance_recognised now env apply_event db ev rid db' :
  (forall d r e d', apply_event d r e = Ok d' -> db_receipts d' = db_receipts d /\ db_deliveries d' = db_deliveries d) ->
  receipt_ids_free env db -> ev_payload_sha256 ev = payload_digest env (ev_payload ev) ->
  acceptance now env apply_event db ev (Some rid) db' -> recognised env db' ev (Some rid).
Proof.
  intros Hkeep Hfree Hsha Hacc. remember (Some rid) as res eqn:Hres.
  destruct Hacc as [d res Hd Hid [[-> _] | (Hq & r & Hr & Hlink & Hap & -> & Hmatch)]|?|r Hnew Hr Hap Hmatch
                   |a reg ep db3 Hnew Ha Hreg Hep receipt Happ]; try done.
  - exists d, r. by split_and!.
  - eexists _, r. split; [unfold _add_event_delivery, db_deliveries; simpl; apply elem_of_app; right;
                          by apply list_elem_of_singleton|].
    split_and!; try done.
    unfold _require_matching_delivery. rewrite identity_matches by done. simpl. by rewrite Hmatch.
  - destruct (new_receipts now env apply_event Hkeep db ev a reg ep db3 Hfree Ha Happ) as [Hrec Hdel].
    fold receipt in Hrec, Hdel. eexists _, (mark_applied now receipt).
    split; [rewrite Hdel; unfold accepted_db, _add_event_delivery, db_deliveries; simpl; apply elem_of_app; right;
            by apply list_elem_of_singleton|].
    split_and!; try done.
    + rewrite Hrec. apply elem_of_app. right. by apply list_elem_of_singleton.
    + by apply new_receipt_matches.
Qed.

Lemma parsed_digest env stream group m p ev :
  parse_registered_worker_event env stream group m p = Ok ev ->
  ev_payload_sha256 ev = payload_digest env (ev_payload ev) /\ is_Some (cl_worker_registration_id (ev_claim ev)).
Proof. unfold parse_registered_worker_event. intros H. repeat case_match; by simplify_eq. Qed.

(** Redelivery is harmless: once an event was accepted, handing over the same
    event again, at any later time, returns the same receipt and changes nothing,
    as long as the job's rows can still be locked. *)
Lemma accept_idempotent setting now now' env observer apply_event apply_event' stream group message p ev db rid db' locked a :
  (forall d r e d', apply_event d r e = Ok d' -> db_receipts d' = db_receipts d /\ db_deliveries d' = db_deliveries d) ->
  receipts_inv db -> receipt_ids_free env db ->
  parse_registered_worker_event env stream group message p = Ok ev ->
  accept_and_apply setting now env observer apply_event db ev = Ok (Some rid, db') ->
  lock_job_execution_authority setting db' (ev_job_id ev) (Some (ev_node_execution_id ev)) true = Ok locked ->
  _locked_task_attestation db' ev = Ok (Some a) ->
  accept_and_apply setting now' env observer apply_event' db' ev = Ok (Some rid, db').
Proof.
  intros Hkeep Hinv Hfree [Hsha Hreg]%parsed_digest Hacc%accept_inv Hlock Hatt.
  eapply accept_recognised; [|by eapply acceptance_recognised|done|done|done]. by eapply acceptance_inv.
Qed.
