(* ===== verification/ReceiptsAck.v ===== *)
(** * Receipts: acknowledgement follows application

    A Redis message stays pending, and is handed over again, until [XACK].  The
    theorems say which rows justify an [XACK] and what an acknowledgement that
    returns has recorded. *)

From stdpp Require Import base tactics list strings sorting relations.
From Stdlib Require Import ZArith Lia.
From S2P Require Import Prelude PyStr PyValue PyJson PyTime PyUuid Pipeline JobModel WorkerModel RedisModel Schedule Authority WorkerEvents Delivery Receipts ReceiptsOnce.

Open Scope string_scope.
Open Scope list_scope.

Definition is_applied (r : RegisteredWorkerEventReceipt) : Prop := rc_application_state r = "applied".

(** The rows that allow a message to be acknowledged. *)
Inductive justified (db : Db) : message -> Prop :=
(** An event that is not accepted, or whose receipt is applied. *)
| just_quarantined d :
    d ∈ db_deliveries db -> dl_resolution_state d <> "accepted" -> justified db (event_message d)
| just_applied d r :
    d ∈ db_deliveries db -> r ∈ db_receipts db -> dl_receipt_id d = rc_id r -> is_applied r ->
    justified db (event_message d)
(** A task whose event is applied, or that the database released. *)
| just_task a r :
    a ∈ db_attestations db -> r ∈ db_receipts db -> rc_source_task_attestation_id r = at_id a -> is_applied r ->
    justified db (task_message a)
| just_authorized a :
    a ∈ db_attestations db -> at_ack_state a = "authorized" -> justified db (task_message a)
(** A delivered task of a cancelled node. *)
| just_cancelled d m :
    d ∈ db_dispatches db -> wd_redis_message_id d = Some m -> wd_resolution_state d = "cancel_authorized" ->
    cancelled_rows db d = true -> justified db (wd_redis_stream d, wd_consumer_group d, m).

Section Ack.
Context {R : Type} `{!RedisStore R, !RedisLaws R}.
Context (setting : string) (now : datetime) (env : Env).

(** [msg] is no longer pending in [r']. *)
Definition acked (r r' : R) (msg : message) : Prop :=
  msg.2 ∈ redis_xpending r msg.1.1 msg.1.2 /\ msg.2 ∉ redis_xpending r' msg.1.1 msg.1.2.

Lemma xack_acked r s g m msg : acked r (redis_xack s g m r).2 msg -> msg = (s, g, m).
Proof.
  intros [Hin Hout]. destruct msg as [[s' g'] m']. simpl in *. rewrite xpending_xack in Hout.
  destruct (decide (s = s' /\ g = g')) as [[-> ->]|]; [|done].
  destruct (String.eqb_spec m' m) as [->|Hne]; [done|]. exfalso. apply Hout.
  apply list_elem_of_In, filter_In. split; [by apply list_elem_of_In|]. by apply String.eqb_neq in Hne as ->.
Qed.

Lemma xack_all_acked l r res r' msg : xack_all l r = (res, r') -> acked r r' msg -> msg ∈ map fst l.
Proof.
  revert r. induction l as [|[[[s g] m] label] l IH]; intros r; simpl; [by intros [= _ <-] [? []]|].
  destruct (redis_xack s g m r) as [z r1] eqn:Hx. intros Hrun Hacked.
  destruct (decide (msg.2 ∈ redis_xpending r1 msg.1.1 msg.1.2)) as [Hin|Hout].
  - right. destruct (_require_xack_result z label); [|simplify_eq; by destruct Hacked].
    apply (IH r1); [done|]. by destruct Hacked.
  - apply elem_of_cons. left. apply (xack_acked r s g m). rewrite Hx. by destruct Hacked.
Qed.

(** What the lock of an acknowledgement returns. *)
Lemma lock_ack_spec db id a receipt d :
  _lock_delivery_ack_authority setting db id = Ok (a, receipt, d) ->
  d ∈ db_deliveries db /\ dl_id d = id /\ a ∈ db_attestations db /\ at_id a = dl_source_task_attestation_id d /\
  (forall r, receipt = Some r -> r ∈ db_receipts db /\ rc_source_task_attestation_id r = at_id a /\ dl_receipt_id d = rc_id r) /\
  (receipt = None -> dl_receipt_id d = None).
Proof.
  intros ([d0|] & Hd & Hok)%bind_Ok; [|done]. apply one_or_none_Some, filter_single_in in Hd as [Hd Hid%String.eqb_eq].
  apply bind_Ok in Hok as ([a0|] & Ha & Hok); [|done].
  apply one_or_none_Some, filter_single_in in Ha as [Ha Haid%String.eqb_eq].
  apply bind_Ok in Hok as ([] & _ & Hok).
  destruct (dl_receipt_id d0) as [rid|] eqn:Hrid.
  - cbv zeta in Hok. destruct (List.find _ _) as [r|] eqn:Hf; [|done]. apply bind_Ok in Hok as ([] & _ & [= <- <- <-]).
    apply List.find_some in Hf as [Hin Hr%bool_decide_eq_true_1].
    apply filter_In in Hin as [Hin Hatt%String.eqb_eq]. split_and!; try done.
    intros r' [= <-]. split_and!; [by apply list_elem_of_In | done | by rewrite Hr].
  - apply bind_Ok in Hok as ([] & _ & [= <- <- <-]). by split_and!.
Qed.

Lemma acknowledge_locked_justified db r a receipt d res r' msg :
  a ∈ db_attestations db -> d ∈ db_deliveries db ->
  (forall rc, receipt = Some rc ->
     rc ∈ db_receipts db /\ rc_source_task_attestation_id rc = at_id a /\ dl_receipt_id d = rc_id rc /\ is_applied rc) ->
  (receipt = None -> dl_resolution_state d <> "accepted") ->
  _acknowledge_locked_delivery now db r a receipt d = (res, r') -> acked r r' msg -> justified db msg.
Proof.
  intros Ha Hd Hrc Hnone Hrun Hacked. unfold _acknowledge_locked_delivery in Hrun.
  assert (Hself : acked r r msg -> False) by (by intros [? []]).
  destruct (match receipt with Some _ => _ | None => _ end); [cbn [negb orb] in Hrun; simplify_eq; by destruct (Hself Hacked)|].
  destruct (xack_all _ r) as [[[]|e] r1] eqn:Hx.
  all: simplify_eq; apply (xack_all_acked _ _ _ _ _ Hx) in Hacked; rewrite map_app in Hacked;
    apply elem_of_app in Hacked as [Hin|Hin].
  all: destruct receipt as [rc|]; repeat case_match; simpl in Hin;
    try (by apply not_elem_of_nil in Hin); apply list_elem_of_singleton in Hin as ->;
    try destruct (Hrc rc eq_refl) as (? & ? & ? & ?);
    first [by eapply just_task | by eapply just_applied | by eapply just_quarantined; auto].
Qed.

Lemma applied_receipt_Ok receipt : applied_receipt receipt = Ok () -> forall r, receipt = Some r -> is_applied r.
Proof.
  intros Hok r ->. simpl in Hok. by destruct (String.eqb_spec (rc_application_state r) "applied").
Qed.

(** The [CHECK] constraint on accepted deliveries. *)
Definition accepted_have_receipt (db : Db) : Prop :=
  Forall (fun d => dl_resolution_state d = "accepted" -> is_Some (dl_receipt_id d)) (db_deliveries db).

Lemma acknowledge_delivery_justified db id r res r' msg :
  accepted_have_receipt db -> _acknowledge_delivery_id setting now id db r = (res, r') -> acked r r' msg -> justified db msg.
Proof.
  intros Hcheck Hrun Hacked. unfold _acknowledge_delivery_id in Hrun.
  destruct (_lock_delivery_ack_authority setting db id) as [[[a receipt] d]|e] eqn:Hlock;
    [|simplify_eq; by destruct Hacked as [? []]].
  apply lock_ack_spec in Hlock as (Hd & _ & Ha & _ & Hsome & Hnone).
  destruct (applied_receipt _) as [[]|e] eqn:Happ; [|simplify_eq; by destruct Hacked as [? []]].
  eapply acknowledge_locked_justified; [exact Ha|exact Hd| | |exact Hrun|exact Hacked].
  - intros rc Hrc. pose proof (applied_receipt_Ok _ Happ rc Hrc) as Hap.
    destruct (_ =? _)%string; [|done]. destruct (Hsome rc Hrc) as (? & ? & ?). done.
  - intros Hrc. destruct (String.eqb_spec (dl_resolution_state d) "accepted") as [Hacc|]; [|done].
    unfold accepted_have_receipt in Hcheck. rewrite Forall_forall in Hcheck.
    destruct (Hcheck d Hd Hacc) as [x Hx]. by rewrite (Hnone Hrc) in Hx.
Qed.

Lemma acknowledge_applied_justified db ev r res r' msg :
  acknowledge_applied setting now env ev db r = (res, r') -> acked r r' msg -> justified db msg.
Proof.
  intros Hrun Hacked. unfold acknowledge_applied in Hrun.
  destruct (_locked_event_delivery db ev) as [[found|]|e]; [|simplify_eq; by destruct Hacked as [? []]..].
  destruct (_lock_delivery_ack_authority setting db (dl_id found)) as [[[a receipt] d]|e] eqn:Hlock;
    [|simplify_eq; by destruct Hacked as [? []]].
  apply lock_ack_spec in Hlock as (Hd & _ & Ha & _ & Hsome & _).
  match goal with H : match ?c with Ok _ => _ | Raise _ => _ end = _ |- _ => destruct c as [rc|e] eqn:Hc end;
    [|simplify_eq; by destruct Hacked as [? []]].
  apply bind_Ok in Hc as ([] & _ & Hc). apply bind_Ok in Hc as (receipt' & Hsel & Hc).
  apply bind_Ok in Hc as ([] & _ & Hc). apply bind_Ok in Hc as ([] & Happ & [= <-]).
  eapply acknowledge_locked_justified; [exact Ha|exact Hd| | |exact Hrun|exact Hacked].
  - intros x ->. pose proof (applied_receipt_Ok _ Happ x eq_refl) as Hap. destruct (negb _); [done|].
    destruct receipt as [y|]; [|done]. injection Hsel as ->. destruct (Hsome x eq_refl) as (? & ? & ?). done.
  - intros ->. destruct (String.eqb_spec (dl_resolution_state d) "accepted"); [|done]. simpl in Hsel. by destruct receipt.
Qed.

Lemma acknowledge_task_justified db id r res r' msg :
  _acknowledge_authorized_task setting now id db r = (res, r') -> acked r r' msg -> justified db msg.
Proof.
  intros Hrun Hacked. unfold _acknowledge_authorized_task in Hrun.
  assert (Hself : acked r r msg -> False) by (by intros [? []]).
  destruct (one_or_none _) as [[a|]|e] eqn:Ha; [|cbn [negb orb] in Hrun; simplify_eq; by destruct (Hself Hacked)..].
  apply one_or_none_Some, filter_single_in in Ha as [Ha _].
  destruct (_lock_job_node_registration _ _ _); [|cbn [negb orb] in Hrun; simplify_eq; by destruct (Hself Hacked)].
  destruct (acknowledged _); [cbn [negb orb] in Hrun; simplify_eq; by destruct (Hself Hacked)|].
  destruct (String.eqb_spec (at_ack_state a) "authorized") as [Hauth|]; [|cbn [negb orb] in Hrun; simplify_eq; by destruct (Hself Hacked)].
  cbn [negb] in Hrun. destruct (_lock_dispatch_for_attestation _ _); [|cbn [negb orb] in Hrun; simplify_eq; by destruct (Hself Hacked)].
  destruct (xack_all _ r) as [res1 r1] eqn:Hx. assert (r1 = r') as -> by (by destruct res1; simplify_eq).
  apply (xack_all_acked _ _ _ _ _ Hx), list_elem_of_singleton in Hacked as ->. by apply just_authorized.
Qed.

Lemma acknowledge_cancelled_justified db id r res r' msg :
  _acknowledge_cancelled_dispatch setting now id db r = (res, r') -> acked r r' msg -> justified db msg.
Proof.
  intros Hrun Hacked. unfold _acknowledge_cancelled_dispatch in Hrun.
  assert (Hself : acked r r msg -> False) by (by intros [? []]).
  destruct (_locked_dispatch_batch setting db _) as [rows|e] eqn:Hb; [|cbn [negb orb] in Hrun; simplify_eq; by destruct (Hself Hacked)].
  apply locked_batch in Hb. destruct rows as [|d l]; [cbn [negb orb] in Hrun; simplify_eq; by destruct (Hself Hacked)|].
  symmetry in Hb. apply dispatch_rows_in in Hb as [Hd _].
  destruct (wd_resolution_state d =? "acknowledged")%string; [cbn [negb orb] in Hrun; simplify_eq; by destruct (Hself Hacked)|].
  destruct (wd_redis_message_id d) as [m|] eqn:Hm; [|cbn [negb orb] in Hrun; simplify_eq; by destruct (Hself Hacked)].
  destruct (negb (wd_delivery_state d =? "delivered")%string); [cbn [negb orb] in Hrun; simplify_eq; by destruct (Hself Hacked)|].
  destruct (String.eqb_spec (wd_resolution_state d) "cancel_authorized") as [Hc|]; [|cbn [negb orb] in Hrun; simplify_eq; by destruct (Hself Hacked)].
  cbn [negb orb] in Hrun. destruct (cancelled_rows db d) eqn:Hcan; [|cbn [negb orb] in Hrun; simplify_eq; by destruct (Hself Hacked)].
  cbn [negb] in Hrun. destruct (redis_xack _ _ _ r) as [z r1] eqn:Hx.
  assert (r1 = r') as -> by (by destruct (_require_xack_result z _); simplify_eq).
  replace r' with (redis_xack (wd_redis_stream d) (wd_consumer_group d) m r).2 in Hacked by (by rewrite Hx).
  apply xack_acked in Hacked as ->. by eapply just_cancelled.
Qed.
End Ack.

(** The four acknowledging transactions. *)
Definition acknowledging {R} `{!RedisStore R} (setting : string) (now : datetime) (env : Env)
    (tx : Db -> R -> Res (() * Db) * R) : Prop :=
  (exists ev, tx = acknowledge_applied setting now env ev)
  \/ (exists id, tx = _acknowledge_delivery_id setting now id)
  \/ (exists id, tx = _acknowledge_authorized_task setting now id)
  \/ (exists id, tx = _acknowledge_cancelled_dispatch setting now id).

(** No message is acknowledged early: if an acknowledging transaction (of an
    event, an interrupted event, a released task or a cancelled task) takes a
    message out of a group's pending list, then before it the database held the
    rows that justify it: a quarantined event, an event or a task whose receipt is
    applied, a task the database released, or the delivered task of a cancelled
    node.  This holds whether or not the transaction then commits. *)
Theorem acknowledged_after_applied {R} `{!RedisStore R, !RedisLaws R} setting now env db (r : R) msg tx :
  acknowledging setting now env tx -> accepted_have_receipt db -> acked r (tx db r).2 msg -> justified db msg.
Proof.
  intros Htx Hcheck Hacked. destruct (tx db r) as [res r'] eqn:Hrun. simpl in Hacked.
  destruct Htx as [[ev ->] | [[id ->] | [[id ->] | [id ->]]]].
  - by eapply acknowledge_applied_justified.
  - by eapply acknowledge_delivery_justified.
  - by eapply acknowledge_task_justified.
  - by eapply acknowledge_cancelled_justified.
Qed.

(** ** Acknowledgements keep the tables in order *)

(** What an acknowledgement may do to the two tables. *)
Definition ack_receipt (r r' : RegisteredWorkerEventReceipt) : Prop :=
  rc_id r' = rc_id r /\ rc_source_task_attestation_id r' = rc_source_task_attestation_id r /\
  rc_application_state r' = rc_application_state r /\
  (is_applied r -> receipt_checks r = true -> receipt_checks r' = true).

Definition ack_delivery (d d' : RegisteredWorkerEventDelivery) : Prop :=
  event_message d' = event_message d /\ dl_source_task_attestation_id d' = dl_source_task_attestation_id d /\
  dl_receipt_id d' = dl_receipt_id d /\ dl_resolution_state d' = dl_resolution_state d.

Definition ack_tables (db db' : Db) : Prop :=
  Forall2 ack_receipt (db_receipts db) (db_receipts db') /\ Forall2 ack_delivery (db_deliveries db) (db_deliveries db').

#[export] Instance ack_receipt_preorder : PreOrder ack_receipt.
Proof.
  split; [by intros r|]. intros a b c (Hi & Ha & Hs & Hc) (Hi' & Ha' & Hs' & Hc'). unfold ack_receipt, is_applied in *.
  split_and!; [congruence..|]. intros Hap Hch. apply Hc'; [congruence | by apply Hc].
Qed.

#[export] Instance ack_delivery_preorder : PreOrder ack_delivery.
Proof. split; [by intros r|]. unfold ack_delivery. intros a b c (? & ? & ? & ?) (? & ? & ? & ?). split_and!; congruence. Qed.

#[export] Instance ack_tables_preorder : PreOrder ack_tables.
Proof.
  split; [by intros db; split|]. intros a b c [Hr Hd] [Hr' Hd'].
  split; [by trans (db_receipts b) | by trans (db_deliveries b)].
Qed.

Lemma Forall2_map_if {A} (Rel : relation A) `{!Reflexive Rel} (p : A -> bool) f (l : list A) :
  (forall x, Rel x (f x)) -> Forall2 Rel l (map (fun x => if p x then f x else x) l).
Proof. intros Hf. induction l as [|x l IH]; constructor; [by destruct (p x) | done]. Qed.

Lemma ack_update_receipts p f db : (forall r, ack_receipt r (f r)) -> ack_tables db (update_receipts p f db).
Proof. intros Hf. split; [by apply (Forall2_map_if ack_receipt) | reflexivity]. Qed.

Lemma ack_update_deliveries p f db : (forall d, ack_delivery d (f d)) -> ack_tables db (update_deliveries p f db).
Proof. intros Hf. split; [reflexivity | by apply (Forall2_map_if ack_delivery)]. Qed.

Lemma mark_task_acknowledged_ack t r : ack_receipt r (mark_task_acknowledged t r).
Proof.
  split_and!; [done..|]. unfold is_applied, receipt_checks. simpl. intros ->. simpl.
  intros [[-> ->]%andb_prop _]%andb_prop. done.
Qed.

Lemma mark_event_acknowledged_ack t r : ack_receipt r (mark_event_acknowledged t r).
Proof.
  split_and!; [done..|]. unfold is_applied, receipt_checks. simpl. intros ->. simpl.
  intros [[-> _]%andb_prop ->]%andb_prop. done.
Qed.

Lemma mark_proven_ack now db a t db' : _mark_proven_task_acknowledged now db a = Ok (t, db') -> ack_tables db db'.
Proof.
  intros ([d|] & _ & Hok)%bind_Ok; [|done]. repeat case_match; simplify_eq; by split.
Qed.

Lemma record_acknowledged_ack now db a receipt d db' : record_acknowledged now db a receipt d = Ok db' -> ack_tables db db'.
Proof.
  intros ([t db1] & Hmark & Hok)%bind_Ok.
  assert (H1 : ack_tables db db1).
  { destruct receipt; [|by simplify_eq]. destruct (acknowledged _); [by simplify_eq|].
    apply bind_Ok in Hmark as ([t' db2] & Hmark & [= _ <-]). by eapply mark_proven_ack. }
  cbv zeta in Hok. match type of Hok with context [update_deliveries _ _ ?db2] => set (db2' := db2) in Hok end.
  assert (H2 : ack_tables db db2').
  { unfold db2'. destruct receipt; [|done]. etrans; [exact H1|]. apply ack_update_receipts, mark_task_acknowledged_ack. }
  destruct (acknowledged (dl_ack_state d)); [by injection Hok as <-|].
  assert (H3 : ack_tables db (update_deliveries (is_delivery (dl_id d)) (acknowledge_delivery now) db2')).
  { etrans; [exact H2|]. by apply ack_update_deliveries. }
  injection Hok as <-. destruct receipt; [|done]. case_bool_decide; [|done].
  etrans; [exact H3|]. apply ack_update_receipts, mark_event_acknowledged_ack.
Qed.

Lemma acknowledge_locked_ack {R} `{!RedisStore R} now db (r : R) a receipt d db' r' :
  _acknowledge_locked_delivery now db r a receipt d = (Ok ((), db'), r') -> ack_tables db db'.
Proof.
  unfold _acknowledge_locked_delivery. destruct (match receipt with Some _ => _ | None => _ end); [done|].
  destruct (xack_all _ r) as [[[]|e] r1]; [|done]. destruct (record_acknowledged _ _ _ _ _) as [db1|] eqn:Hrec; [|done].
  intros [= <- _]. by eapply record_acknowledged_ack.
Qed.

Lemma acknowledging_ack {R} `{!RedisStore R} setting now env (tx : Db -> R -> Res (() * Db) * R) db r db' r' :
  acknowledging setting now env tx -> tx db r = (Ok ((), db'), r') -> ack_tables db db'.
Proof.
  intros [[ev ->] | [[id ->] | [[id ->] | [id ->]]]].
  - unfold acknowledge_applied. destruct (_locked_event_delivery db ev) as [[found|]|]; [|done..].
    destruct (_lock_delivery_ack_authority _ _ _) as [[[a receipt] d]|]; [|done].
    match goal with |- match ?c with Ok _ => _ | Raise _ => _ end = _ -> _ => destruct c as [rc|e] end; [|done].
    apply acknowledge_locked_ack.
  - unfold _acknowledge_delivery_id. destruct (_lock_delivery_ack_authority _ _ _) as [[[a receipt] d]|]; [|done].
    destruct (applied_receipt _); [|done]. apply acknowledge_locked_ack.
  - unfold _acknowledge_authorized_task. destruct (one_or_none _) as [[a|]|]; [|by intros [= <- _]|done].
    destruct (_lock_job_node_registration _ _ _); [|done]. destruct (acknowledged _); [by intros [= <- _]|].
    destruct (negb _); [done|]. destruct (_lock_dispatch_for_attestation _ _); [|done].
    destruct (xack_all _ r) as [[[]|] r1]; [|done].
    destruct (_mark_proven_task_acknowledged _ _ _) as [[t db1]|] eqn:Hm; [|done]. intros [= <- _].
    by eapply mark_proven_ack.
  - unfold _acknowledge_cancelled_dispatch. destruct (_locked_dispatch_batch _ _ _) as [[|d l]|]; [by intros [= <- _]| |done].
    destruct (_ =? _)%string; [by intros [= <- _]|]. destruct (wd_redis_message_id d); [|done].
    destruct (_ || _); [done|]. destruct (negb _); [done|]. destruct (redis_xack _ _ _ r) as [z r1].
    destruct (_require_xack_result _ _); [|done]. by intros [= <- _].
Qed.

Lemma Forall2_map_eq {A B} (Rel : relation A) (f : A -> B) l l' :
  (forall a b, Rel a b -> f b = f a) -> Forall2 Rel l l' -> map f l' = map f l.
Proof. intros Hf. induction 1; [done|]. simpl. f_equal; auto. Qed.

Lemma ack_tables_inv db db' : ack_tables db db' -> receipts_inv db -> receipts_inv db'.
Proof.
  intros [Hr Hd] [Ha Hi Hap Hm Hl].
  assert (Hatt : receipt_attestations db' = receipt_attestations db).
  { eapply Forall2_map_eq; [|exact Hr]. by intros a b (_ & ? & _). }
  split.
  - by rewrite Hatt.
  - rewrite (Forall2_map_eq ack_receipt rc_id _ _ ltac:(by intros a b (? & _)) Hr). done.
  - clear Hl Hi Ha Hatt. induction Hr as [|r r' l l' (_ & _ & Hs & Hc) _ IH]; [constructor|].
    apply Forall_cons in Hap as [[Hap Hch] Hl]. constructor; [|by apply IH]. split; [congruence | by apply Hc].
  - rewrite (Forall2_map_eq ack_delivery event_message _ _ ltac:(by intros a b (? & _)) Hd). done.
  - rewrite Forall_forall in Hl |- *. intros d' [i Hi']%list_elem_of_lookup Hacc.
    destruct (Forall2_lookup_r _ _ _ _ _ Hd Hi') as (d & Hdi & _ & Hda & Hdr & Hds).
    destruct (Hl d) as (r & [k Hk]%list_elem_of_lookup & Hrid & Hra); [by eapply list_elem_of_lookup_2 | congruence|].
    destruct (Forall2_lookup_l _ _ _ _ _ Hr Hk) as (r' & Hrk & Hid & Hat & _). exists r'.
    split; [by eapply list_elem_of_lookup_2 | split; congruence].
Qed.

(** ** Any history *)

Section History.
Context {R : Type} `{!RedisStore R}.
Context (setting : string) (env : Env).
Context (observer : Db -> RegisteredWorkerEvent -> Res uuid).
Context (apply_event : Db -> RegisteredWorkerEventReceipt -> RegisteredWorkerEvent -> Res Db).

Inductive receipt_step : Db -> Db -> Prop :=
| rs_accept now ev res db db' :
    receipt_ids_free env db ->
    accept_and_apply setting now env observer apply_event db ev = Ok (res, db') -> receipt_step db db'
| rs_acknowledge now tx db (r : R) db' r' :
    acknowledging setting now env tx -> tx db r = (Ok ((), db'), r') -> receipt_step db db'
(** Any transaction of another component. *)
| rs_elsewhere db db' :
    db_receipts db' = db_receipts db -> db_deliveries db' = db_deliveries db -> receipt_step db db'.

Lemma same_tables db db' : db_receipts db' = db_receipts db -> db_deliveries db' = db_deliveries db -> ack_tables db db'.
Proof. intros Hr Hd. split; [rewrite Hr | rewrite Hd]; reflexivity. Qed.

Lemma ack_tables_attestations db db' : ack_tables db db' -> receipt_attestations db' = receipt_attestations db.
Proof. intros [Hr _]. eapply Forall2_map_eq; [|exact Hr]. by intros a b (_ & ? & _). Qed.

Context (Hkeep : forall d r e d', apply_event d r e = Ok d' ->
  db_receipts d' = db_receipts d /\ db_deliveries d' = db_deliveries d).

Lemma acceptance_prefix now db ev res db' :
  receipt_ids_free env db -> acceptance now env apply_event db ev res db' ->
  receipt_attestations db `prefix_of` receipt_attestations db'.
Proof.
  intros Hfree Hacc. destruct Hacc as [d res Hd Hid _|rid a reason Hnew|r Hnew Hr Hap Hm|a reg ep db3 Hnew Ha Hreg Hep receipt Happ].
  - done.
  - reflexivity.
  - reflexivity.
  - destruct (new_receipts now env apply_event Hkeep db ev a reg ep db3 Hfree Ha Happ) as [Hrec _].
    fold receipt in Hrec. unfold receipt_attestations. rewrite Hrec, map_app. by eexists.
Qed.

Lemma receipt_step_inv db db' :
  receipt_step db db' -> receipts_inv db -> receipts_inv db' /\ receipt_attestations db `prefix_of` receipt_attestations db'.
Proof.
  assert (Hack : forall a b, ack_tables a b -> receipts_inv a ->
    receipts_inv b /\ receipt_attestations a `prefix_of` receipt_attestations b).
  { intros a b Hab Hinv. split; [by eapply ack_tables_inv | by rewrite (ack_tables_attestations _ _ Hab)]. }
  intros Hstep Hinv. destruct Hstep as [now ev res db db' Hfree Hacc%accept_inv|now tx db r db' r' Htx Hrun|db db' Hr Hd].
  - split; [by eapply acceptance_inv | by eapply acceptance_prefix].
  - apply Hack; [by eapply acknowledging_ack | done].
  - apply Hack; [by apply same_tables | done].
Qed.
End History.

(** Over any history of acceptances, acknowledgements and other transactions
    the tables stay in order: every committed receipt is applied and satisfies the
    table's constraints, a task delivery has one receipt at most and keeps it, a
    message is recorded once, and an accepted message belongs to the receipt of its
    task delivery. *)
Lemma receipts_history {R} `{!RedisStore R} setting env observer apply_event db db' :
  (forall d r e d', apply_event d r e = Ok d' -> db_receipts d' = db_receipts d /\ db_deliveries d' = db_deliveries d) ->
  receipts_inv db -> rtc (receipt_step (R:=R) setting env observer apply_event) db db' ->
  receipts_inv db' /\ receipt_attestations db `prefix_of` receipt_attestations db'.
Proof.
  intros Hkeep Hinv Hsteps. induction Hsteps as [|a b c Hab _ IH]; [done|].
  destruct (receipt_step_inv setting env observer apply_event Hkeep a b Hab Hinv) as [Hb Hpre].
  destruct (IH Hb) as [Hc Hpre']. split; [done|]. by trans (receipt_attestations b).
Qed.
