(* ===== verification/Retry.v ===== *)
(** * Releasing a claim for its retry ([services/registered_worker_retry.py])

    Inside the application of a first failure the node is queued again under its
    old claim and a new dispatch is staged; the claim columns are cleared only if
    every row of the original delivery and of the retry agrees.  This is the code
    for a database without the stored procedures. *)

From stdpp Require Import base tactics list strings.
From Stdlib Require Import ZArith Lia.
From S2P Require Import Prelude PyStr PyValue PyJson PyTime Pipeline JobModel WorkerModel Schedule Authority WorkerEvents.

Open Scope string_scope.
Open Scope list_scope.

Definition mismatch {A} : Res A := blocked "registered retry release authority mismatch".

Definition _require (condition : bool) : Res () := if condition then Ok () else mismatch.

Definition _required {A} (value : option A) : Res A :=
  match value with Some a => Ok a | None => mismatch end.

Definition get_attestation (db : Db) (attestation_id : uuid) : option WorkerTaskDeliveryAttestation :=
  List.find (fun a => bool_decide (at_id a = attestation_id)) (db_attestations db).

(** The node still carries the claim the receipt reports. *)
Definition retry_node_matches (r : RegisteredWorkerEventReceipt) (n : NodeExecution) : bool :=
  (rc_application_state r =? "accepted")%string && bool_decide (rc_applied_at r = None)
  && (rc_event_type r =? "node_failed")%string && (rc_ack_state r =? "pending")%string
  && (rc_source_task_ack_state r =? "pending")%string && (ne_retry_count n =? 1)%Z
  && match ne_queued_at n with Some _ => true | None => false end
  && bool_decide (ne_worker_id n = Some (rc_worker_id r))
  && bool_decide (ne_worker_registration_id n = Some (rc_worker_registration_id r))
  && bool_decide (ne_worker_lease_epoch n = Some (rc_worker_lease_epoch r))
  && bool_decide (ne_started_at n = Some (rc_worker_started_at r)).

Definition attestation_matches (r : RegisteredWorkerEventReceipt) (a : WorkerTaskDeliveryAttestation) : bool :=
  (at_job_id a =? rc_job_id r)%string && (at_node_execution_id a =? rc_node_execution_id r)%string
  && (at_worker_registration_id a =? rc_worker_registration_id r)%string
  && (at_worker_lease_epoch a =? rc_worker_lease_epoch r)%Z && (at_worker_id a =? rc_worker_id r)%string
  && (at_worker_started_at a =? rc_worker_started_at r)%Z
  && (at_redis_stream a =? rc_source_task_stream r)%string
  && (at_consumer_group a =? rc_source_task_group r)%string
  && (at_message_id a =? rc_source_task_message_id r)%string.

Definition grant_matches (a : WorkerTaskDeliveryAttestation) (g : option WorkerAdmissionGrant) : bool :=
  match g with
  | Some g => (wg_redis_stream g =? at_redis_stream a)%string && (wg_redis_group g =? at_consumer_group a)%string
  | None => false
  end.

Definition original_matches (a : WorkerTaskDeliveryAttestation) (d : WorkerTaskDispatch) : bool :=
  (wd_job_id d =? at_job_id a)%string && (wd_node_execution_id d =? at_node_execution_id a)%string
  && (wd_redis_stream d =? at_redis_stream a)%string && (wd_consumer_group d =? at_consumer_group a)%string
  && bool_decide (wd_redis_message_id d = Some (at_message_id a))
  && (wd_payload_sha256 d =? at_payload_sha256 a)%string && (wd_delivery_state d =? "delivered")%string
  && bool_decide (wd_resolution_state d ∈ ["unresolved"; "acknowledged"]).

Definition emission_matches (r : RegisteredWorkerEventReceipt) (e : WorkerEventEmission) : bool :=
  (em_job_id e =? rc_job_id r)%string && (em_node_execution_id e =? rc_node_execution_id r)%string
  && (em_worker_registration_id e =? rc_worker_registration_id r)%string
  && (em_worker_lease_epoch e =? rc_worker_lease_epoch r)%Z && (em_worker_id e =? rc_worker_id r)%string
  && (em_redis_stream e =? rc_redis_stream r)%string && (em_consumer_group e =? rc_consumer_group r)%string
  && bool_decide (em_message_id e = Some (rc_message_id r))
  && (em_payload_sha256 e =? rc_payload_sha256 r)%string
  && py_eq (VDict (em_payload_json e)) (VDict (rc_payload_json r)) && (em_event_type e =? rc_event_type r)%string
  && (em_worker_started_at e =? rc_worker_started_at r)%Z && (em_emission_state e =? "emitted")%string
  && match em_emitted_at e with Some _ => true | None => false end
  && match em_resolved_at e with Some _ => false | None => true end.

Definition has_fields (d : config) (expected : payload) : bool :=
  forallb (fun kv => is_str (dict_get d kv.1) kv.2) expected.

Definition receipt_payload_fields (r : RegisteredWorkerEventReceipt) (a : WorkerTaskDeliveryAttestation) : payload :=
  [("event", "node_failed"); ("job_id", rc_job_id r); ("node_execution_id", rc_node_execution_id r);
   ("worker_id", rc_worker_id r); ("worker_registration_id", rc_worker_registration_id r);
   ("worker_lease_epoch", str_of_Z (rc_worker_lease_epoch r)); ("task_stream", rc_source_task_stream r);
   ("task_group", rc_source_task_group r); ("task_message_id", rc_source_task_message_id r);
   ("task_payload_sha256", at_payload_sha256 a); ("task_dispatch_key", at_dispatch_key a)].

(** The instant of the payload's [started_at]; a value without an offset is UTC. *)
Definition payload_started_at (d : config) : option datetime :=
  match default (VStr EmptyString) d.[? "started_at"] with
  | VStr s => match fromisoformat s with Some (t, _) => Some t | None => None end
  | _ => None
  end.

Definition delivery_matches (r : RegisteredWorkerEventReceipt) (a : WorkerTaskDeliveryAttestation)
    (d : RegisteredWorkerEventDelivery) : bool :=
  bool_decide (dl_receipt_id d = rc_id r) && (dl_source_task_attestation_id d =? at_id a)%string
  && (dl_payload_sha256 d =? rc_payload_sha256 r)%string && (dl_resolution_state d =? "accepted")%string
  && (dl_ack_state d =? "pending")%string && bool_decide (dl_reason_code d = None).

Definition undelivered (d : WorkerTaskDispatch) : bool :=
  match wd_delivery_attempted_at d, wd_delivery_error d, wd_redis_message_id d, wd_delivered_at d,
        wd_acknowledged_at d, wd_cancelled_at d with
  | None, None, None, None, None, None => true
  | _, _, _, _, _, _ => false
  end.

Definition retry_matches (r : RegisteredWorkerEventReceipt) (original retry : WorkerTaskDispatch) : bool :=
  negb (wd_id retry =? wd_id original)%string && (wd_job_id retry =? rc_job_id r)%string
  && (wd_node_execution_id retry =? rc_node_execution_id r)%string
  && (wd_redis_stream retry =? wd_redis_stream original)%string
  && (wd_consumer_group retry =? wd_consumer_group original)%string
  && (wd_delivery_state retry =? "pending")%string && (wd_resolution_state retry =? "unresolved")%string
  && undelivered retry && (rc_accepted_at r <=? wd_created_at retry)%Z
  && match wd_payload_json retry with
     | VDict d => has_fields d [("job_id", rc_job_id r); ("node_execution_id", rc_node_execution_id r);
                                ("dispatch_key", wd_dispatch_key retry)]
     | _ => false
     end.

(** [setattr(node, field, None)] for the ownership columns. *)
Definition release_node (n : NodeExecution) : NodeExecution :=
  {| ne_id := ne_id n; ne_node_id := ne_node_id n; ne_node_type := ne_node_type n;
     ne_node_label := ne_node_label n; ne_node_config := ne_node_config n; ne_status := ne_status n;
     ne_progress := ne_progress n; ne_worker_id := None; ne_queued_at := ne_queued_at n;
     ne_started_at := None; ne_completed_at := ne_completed_at n; ne_error_message := ne_error_message n;
     ne_error_trace := ne_error_trace n; ne_retry_count := ne_retry_count n;
     ne_input_artifact_ids := ne_input_artifact_ids n; ne_output_artifact_id := ne_output_artifact_id n;
     ne_worker_registration_id := None; ne_worker_lease_epoch := None |}.

#[export] Instance release_node_identity : KeepsIdentity release_node.
Proof. by split. Qed.

Section Release.
Context (setting : string) (now : datetime).

(** The checks on the worker rows, in order. *)
Definition release_authorized (db : Db) (r : RegisteredWorkerEventReceipt) (n : NodeExecution) : Res () :=
  a ← _required (get_attestation db (rc_source_task_attestation_id r));
  _ ← _require (attestation_matches r a);
  registration ← _required (db_registrations db).[? rc_worker_registration_id r];
  _ ← _require (lease_live registration (rc_worker_lease_epoch r) now);
  _ ← _require (grant_matches a (db_grants db).[? wr_grant_id registration]);
  found ← one_or_none (List.filter (fun d => bool_decide (wd_dispatch_key d = at_dispatch_key a)) (db_dispatches db));
  original ← _required found;
  _ ← _require (original_matches a original);
  found ← one_or_none (List.filter (fun e => bool_decide (em_source_task_attestation_id e = at_id a)) (db_emissions db));
  emission ← _required found;
  _ ← _require (emission_matches r emission);
  _ ← _require (has_fields (rc_payload_json r) (receipt_payload_fields r a));
  _ ← _require (bool_decide (payload_started_at (rc_payload_json r) = Some (rc_worker_started_at r)));
  found ← one_or_none (List.filter (fun d => (dl_redis_stream d =? rc_redis_stream r)%string
                                             && (dl_consumer_group d =? rc_consumer_group r)%string
                                             && (dl_message_id d =? rc_message_id r)%string) (db_deliveries db));
  delivery ← _required found;
  _ ← _require (delivery_matches r a delivery);
  match List.filter (fun d => bool_decide (is_Some (wd_origin_receipt_id d))
                              && bool_decide (wd_origin_receipt_id d = rc_id r)) (db_dispatches db) with
  | [retry] =>
      _ ← _require (retry_matches r original retry);
      _require (negb (existsb (fun d => bool_decide (wd_node_execution_id d = ne_id n)
                                        && negb (wd_id d =? wd_id original)%string
                                        && negb (wd_id d =? wd_id retry)%string && unresolved d) (db_dispatches db))
                && negb (existsb (fun x => bool_decide (at_dispatch_key x = wd_dispatch_key retry)) (db_attestations db)))
  | _ => mismatch
  end.

Definition _release_sqlite (db : Db) (receipt_id : uuid) : Res (uuid * Db) :=
  receipt ← _required (get_receipt db receipt_id);
  locked ← lock_job_execution_authority setting db (rc_job_id receipt) (Some (rc_node_execution_id receipt)) false;
  let au := locked.1 in
  _ ← require_active_execution_authority au [JobStatus.RUNNING] (Some [NodeStatus.QUEUED]);
  node ← _required (au_node au);
  _ ← _require (retry_node_matches receipt node);
  _ ← release_authorized db receipt node;
  Ok (ne_id node, put_job (update_node (ne_id node) release_node (au_job au)) db).
End Release.

(** ** What a release changes *)


Lemma required_Ok {A} (o : option A) a : _required o = Ok a -> o = Some a.
Proof. destruct o; [by intros [= ->] | done]. Qed.

Lemma require_Ok b : _require b = Ok () -> b = true.
Proof. by destruct b. Qed.

Lemma release_spec setting now db rid nid db' :
  _release_sqlite setting now db rid = Ok (nid, db') ->
  exists r j n, get_receipt db rid = Some r /\ (db_jobs db).[? rc_job_id r] = Some j
    /\ find_node (rc_node_execution_id r) j = Some n /\ ne_status n = NodeStatus.QUEUED
    /\ retry_node_matches r n = true /\ release_authorized now db r n = Ok ()
    /\ nid = ne_id n /\ db' = put_job (update_node (ne_id n) release_node j) db.
Proof.
  unfold _release_sqlite. intros (r & Hr%required_Ok & H)%bind_Ok.
  apply bind_Ok in H as ([au locks] & Hlock & H). apply bind_Ok in H as ([] & Hreq & H).
  apply bind_Ok in H as (n & Hn%required_Ok & H). apply bind_Ok in H as ([] & Hm%require_Ok & H).
  apply bind_Ok in H as ([] & Ha & [= <- <-]).
  apply lock_authority_job in Hlock as (Hj & Hnode & _). apply require_active_node in Hreq as (m & Hm' & Hs & _).
  simpl in Hn, Hm'. rewrite Hm' in Hn, Hnode. injection Hn as ->.
  exists r, (au_job au), n. split_and!; try done. by apply list_elem_of_singleton in Hs.
Qed.
