(* ===== verification/JobService.v ===== *)
(** * Creating, cancelling and deleting jobs ([services/job_service.py])

    Input overrides address nested configuration values by dotted paths.  The
    dictionaries involved are private copies, so updating them in place is
    modelled by returning the new dictionary. *)

From stdpp Require Import base tactics list strings relations.
From Stdlib Require Import ZArith Lia Ascii.
From S2P Require Import Prelude PyStr PyValue NodeRegistry Builtins Pipeline Graph Dag Validation JobModel WorkerModel Schedule Authority.

Open Scope string_scope.
Open Scope list_scope.

(** ** Overrides *)

(** [d if isinstance(d, dict) else {}]. *)
Definition dict_or_empty (v : option pyval) : config :=
  match v with Some (VDict d) => d | _ => [] end.

Fixpoint set_path (target : config) (parts : list string) (value : pyval) : config :=
  match parts with
  | [] => target
  | [p] => target.[p <- value]
  | p :: rest => target.[p <- VDict (set_path (dict_or_empty target.[? p]) rest value)]
  end.

Definition _set_nested_value (target : config) (path : string) (value : pyval) : config :=
  if negb (contains_char "." path) then target.[path <- value]
  else set_path target (split_char "." path) value.

(** [override] is a dictionary value: its entries are merged in order, nested
    dictionaries recursively. *)
Fixpoint merge_value (override : pyval) (target : config) : config :=
  match override with
  | VDict items =>
      (fix go (items : config) (target : config) : config :=
         match items with
         | [] => target
         | (key, value) :: rest =>
             go rest
               (match value with
                | VDict _ =>
                    if contains_char "." key then _set_nested_value target key value
                    else target.[key <- VDict (merge_value value (dict_or_empty target.[? key]))]
                | _ => _set_nested_value target key value
                end)
         end) items target
  | _ => target
  end.

Definition _merge_override_dict (target override : config) : config := merge_value (VDict override) target.

Definition normalize_step (acc : list (string * config)) (kv : string * pyval) : list (string * config) :=
  let '(key, value) := kv in
  if (key =? "asset_id")%string then acc
  else
    match value with
    | VDict d => acc.[key <- _merge_override_dict (dget_or acc key []) d]
    | _ =>
        match partition_char "." key with
        | (node_id, Some param_name) =>
            acc.[node_id <- _set_nested_value (dget_or acc node_id []) param_name value]
        | (_, None) => acc.[key <- (dget_or acc key []).["asset_id" <- value]]
        end
    end.

Definition _normalize_node_overrides (input_overrides : config) : list (string * config) :=
  fold_left normalize_step input_overrides [].

(** The [asset_id] field of a node accepts a string or [None]. *)
Definition asset_field (v : pyval) : Res (option string) :=
  match v with
  | VStr s => Ok (Some s)
  | VNone => Ok None
  | _ => Raise (ValueError "asset_id")
  end.

Definition override_config (overrides : list (string * config)) (n : PipelineNode) : config :=
  let c := d_config (n_data n) in
  match overrides.[? n_id n] with
  | Some [] | None => c
  | Some o => _merge_override_dict c o
  end.

Definition with_config (n : PipelineNode) (c : config) : Res PipelineNode :=
  match c.[? "asset_id"] with
  | None =>
      Ok {| n_id := n_id n; n_type := n_type n; n_position := n_position n;
            n_data := {| d_label := d_label (n_data n); d_config := c; d_asset_id := d_asset_id (n_data n) |} |}
  | Some v =>
      match asset_field v with
      | Raise e => Raise e
      | Ok a => Ok {| n_id := n_id n; n_type := n_type n; n_position := n_position n;
                      n_data := {| d_label := d_label (n_data n); d_config := c; d_asset_id := a |} |}
      end
  end.

(** The loop over the nodes; [applied] is [top_level_asset_applied]. *)
Fixpoint override_nodes (input_overrides : config) (overrides : list (string * config))
    (applied : bool) (ns : list PipelineNode) : Res (list PipelineNode) :=
  match ns with
  | [] => Ok []
  | n :: ns' =>
      let c := override_config overrides n in
      let top := (n_type n =? "source")%string && dmem input_overrides "asset_id" && negb applied in
      let c := if top then c.["asset_id" <- dict_get input_overrides "asset_id"] else c in
      match with_config n c, override_nodes input_overrides overrides (applied || top) ns' with
      | Ok n', Ok rest => Ok (n' :: rest)
      | Raise e, _ => Raise e
      | _, Raise e => Raise e
      end
  end.

Definition _apply_input_overrides (d : PipelineDefinition) (input_overrides : option config)
    : Res PipelineDefinition :=
  match input_overrides with
  | None | Some [] => Ok d
  | Some o =>
      match override_nodes o (_normalize_node_overrides o) false (nodes d) with
      | Raise e => Raise e
      | Ok ns => Ok {| nodes := ns; edges := edges d; viewport := viewport d |}
      end
  end.

(** ** Creation *)

Definition validation_message (r : ValidationResult) : string :=
  "Pipeline validation failed: " +:+ join "; " (map ve_message (errors r)).

Definition require_valid (registry : NodeTypeRegistry) (d : PipelineDefinition) : Res () :=
  match validate_pipeline registry d with
  | Raise e => Raise e
  | Ok r => if valid r then Ok () else Raise (ValueError (validation_message r))
  end.

Definition job_node_config (n : PipelineNode) : config :=
  let c := d_config (n_data n) in
  if (n_type n =? "source")%string then
    let asset := py_or (dict_get c "asset_id")
                   (match d_asset_id (n_data n) with Some a => VStr a | None => VNone end) in
    if truthy asset then c.["asset_id" <- asset] else c
  else c.

Definition new_node_execution (id : uuid) (n : PipelineNode) : NodeExecution :=
  {| ne_id := id; ne_node_id := n_id n; ne_node_type := n_type n;
     ne_node_label := str_or (d_label (n_data n)) (n_type n); ne_node_config := job_node_config n;
     ne_status := NodeStatus.PENDING; ne_progress := 0; ne_worker_id := None; ne_queued_at := None;
     ne_started_at := None; ne_completed_at := None; ne_error_message := None; ne_error_trace := None;
     ne_retry_count := 0; ne_input_artifact_ids := []; ne_output_artifact_id := None;
     ne_worker_registration_id := None; ne_worker_lease_epoch := None |}.

(** [new_uuid] numbers the keys drawn for the job and for its nodes. *)
Definition _create_job_from_definition (registry : NodeTypeRegistry) (new_uuid : nat -> uuid)
    (now : datetime) (pipeline_id : uuid) (d : PipelineDefinition) : Res Job :=
  match require_valid registry d with
  | Raise e => Raise e
  | Ok _ =>
      Ok {| j_id := new_uuid 0; j_pipeline_id := pipeline_id; j_pipeline_snapshot := d;
            j_status := JobStatus.PENDING; j_execution_plan := None; j_submitted_at := now;
            j_started_at := None; j_completed_at := None; j_error_message := None;
            j_orchestrator_owner := "python";
            j_node_executions := imap (fun i n => new_node_execution (new_uuid (S i)) n) (nodes d) |}
  end.

(** [pipeline] is the stored definition of [pipeline_id], if there is one. *)
Definition create_job (registry : NodeTypeRegistry) (new_uuid : nat -> uuid) (now : datetime)
    (pipeline : option PipelineDefinition) (pipeline_id : uuid) (input_overrides : option config) : Res Job :=
  match pipeline with
  | None => Raise (ValueError ("Pipeline " +:+ pipeline_id +:+ " not found"))
  | Some definition =>
      match _apply_input_overrides definition input_overrides with
      | Raise e => Raise e
      | Ok effective =>
          match require_valid registry effective with
          | Raise e => Raise e
          | Ok _ =>
              _create_job_from_definition registry new_uuid now pipeline_id
                (compile_runtime_definition effective)
          end
      end
  end.

Definition create_job_from_snapshot (registry : NodeTypeRegistry) (new_uuid : nat -> uuid) (now : datetime)
    (pipeline_id : uuid) (pipeline_snapshot : PipelineDefinition) : Res Job :=
  _create_job_from_definition registry new_uuid now pipeline_id pipeline_snapshot.

(** ** Queries *)

Definition get_job (db : Db) (job_id : uuid) : option Job := (db_jobs db).[? job_id].

(** ** Cancellation *)

(** No row is locked: the job is read, then its executions, and the commit writes the
    status of the job and of the executions that were read as active, whatever they have
    become since.  [EngineReach] lets other transactions run in between. *)

Definition cancel_refused (j : Job) : bool :=
  bool_decide (j_status j ∈ [JobStatus.SUCCEEDED; JobStatus.FAILED; JobStatus.CANCELLED]).

Definition cancel_targets (j : Job) : list uuid :=
  map ne_id (List.filter (fun n => active (ne_status n)) (j_node_executions j)).

Definition cancel_row (targets : list uuid) (n : NodeExecution) : NodeExecution :=
  if bool_decide (ne_id n ∈ targets) then set_ne_status NodeStatus.CANCELLED n else n.

Definition cancel_write (targets : list uuid) (j : Job) : Job :=
  map_nodes (cancel_row targets) (set_job_status JobStatus.CANCELLED j).

(** A request that nothing interferes with. *)
Definition cancel (j : Job) : Job :=
  if cancel_refused j then j else cancel_write (cancel_targets j) j.

Definition cancel_job (db : Db) (job_id : uuid) : option Job * Db :=
  match get_job db job_id with
  | None => (None, db)
  | Some j => (Some (cancel j), put_job (cancel j) db)
  end.

(** ** Deletion *)

(** The rows left once those of the job are deleted. *)
Definition _resolve_worker_event_authority_for_job_deletion (rows : WorkerRows) (job_id : uuid)
    : Res WorkerRows :=
  let attestations := List.filter (fun a => bool_decide (at_job_id a = job_id)) (w_attestations rows) in
  let attestation_ids := map at_id attestations in
  let receipts := List.filter (fun r => bool_decide (rc_job_id r = job_id)) (w_receipts rows) in
  let of_job d := bool_decide (dl_source_task_attestation_id d ∈ attestation_ids) in
  let deliveries := List.filter of_job (w_deliveries rows) in
  let dispatches := List.filter (fun d => bool_decide (wd_job_id d = job_id)) (w_dispatches rows) in
  if existsb (fun a => negb (at_ack_state a =? "acknowledged")%string) attestations
     || existsb (fun r => negb (rc_application_state r =? "applied")%string
                          || negb (rc_ack_state r =? "acknowledged")%string) receipts
     || existsb (fun d => negb (dl_ack_state d =? "acknowledged")%string) deliveries
     || existsb (fun d => negb ((wd_resolution_state d =? "acknowledged")%string
                                || ((wd_delivery_state d =? "cancelled")%string
                                    && (wd_resolution_state d =? "cancelled")%string))) dispatches
  then Raise (ValueError "Worker event authority is unresolved")
  else
    Ok {| w_registrations := w_registrations rows; w_grants := w_grants rows; w_emissions := w_emissions rows;
          w_attestations := List.filter (fun a => negb (bool_decide (at_job_id a = job_id))) (w_attestations rows);
          w_receipts := List.filter (fun r => negb (bool_decide (rc_job_id r = job_id))) (w_receipts rows);
          w_deliveries := List.filter (fun d => negb (of_job d)) (w_deliveries rows);
          w_dispatches := List.filter (fun d => negb (bool_decide (wd_job_id d = job_id))) (w_dispatches rows) |}.

Definition delete_job (jobs : list (uuid * Job)) (rows : WorkerRows) (job_id : uuid)
    : Res (bool * list (uuid * Job) * WorkerRows) :=
  match jobs.[? job_id] with
  | None => Ok (false, jobs, rows)
  | Some j =>
      if bool_decide (j_status j ∈ [JobStatus.PENDING; JobStatus.PLANNING; JobStatus.RUNNING]) then
        Raise (ValueError "Only terminal jobs can be deleted")
      else
        match _resolve_worker_event_authority_for_job_deletion rows job_id with
        | Raise e => Raise e
        | Ok rows' => Ok (true, dpop jobs job_id, rows')
        end
  end.

(** ** Facts about overrides *)

(** The value at a path, the specification of [set_path]. *)
Fixpoint get_path (c : config) (parts : list string) : option pyval :=
  match parts with
  | [] => None
  | [p] => c.[? p]
  | p :: rest => match c.[? p] with Some (VDict d) => get_path d rest | _ => None end
  end.

Lemma set_path_cons c p q rest v :
  set_path c (p :: q :: rest) v = c.[p <- VDict (set_path (dict_or_empty c.[? p]) (q :: rest) v)].
Proof. done. Qed.

Lemma get_path_cons c p q rest :
  get_path c (p :: q :: rest) = match c.[? p] with Some (VDict d) => get_path d (q :: rest) | _ => None end.
Proof. done. Qed.

Lemma get_set_path parts c v : parts <> [] -> get_path (set_path c parts v) parts = Some v.
Proof.
  revert c. induction parts as [|p [|q rest] IH]; intros c Hne; [done | apply dget_dset_eq |].
  rewrite set_path_cons, get_path_cons, dget_dset_eq. by apply IH.
Qed.

Lemma get_path_dict_or_empty c p q rest :
  get_path c (p :: q :: rest) = get_path (dict_or_empty c.[? p]) (q :: rest).
Proof. rewrite get_path_cons. destruct c.[? p] as [[]|]; try done; by destruct rest. Qed.

Lemma get_set_path_other parts other c v :
  ~ parts `prefix_of` other -> ~ other `prefix_of` parts ->
  get_path (set_path c parts v) other = get_path c other.
Proof.
  revert other c. induction parts as [|p parts IH]; intros [|o other] c Hn Hn'.
  1-2: by destruct Hn; apply prefix_nil.
  { by destruct Hn'; apply prefix_nil. }
  destruct (decide (p = o)) as [->|Hpo].
  - assert (~ parts `prefix_of` other) by (intros Hp; by apply Hn, prefix_cons).
    assert (~ other `prefix_of` parts) by (intros Hp; by apply Hn', prefix_cons).
    destruct parts as [|q rest]; [by destruct Hn; apply prefix_cons, prefix_nil|].
    destruct other as [|q' rest']; [by destruct Hn'; apply prefix_cons, prefix_nil|].
    rewrite set_path_cons, get_path_cons, dget_dset_eq, get_path_dict_or_empty. by apply IH.
  - assert (Hget : (set_path c (p :: parts) v).[? o] = c.[? o])
      by (destruct parts; [|rewrite set_path_cons]; by apply dget_dset_ne).
    destruct other as [|q' rest']; [done|]. by rewrite !get_path_cons, Hget.
Qed.

Lemma merge_single target key value :
  (forall d, value <> VDict d) -> _merge_override_dict target [(key, value)] = _set_nested_value target key value.
Proof. intros Hv. destruct value as [| | | | | |kvs]; try done. by destruct (Hv kvs). Qed.

(** ** Facts about creation *)

Lemma require_valid_wf registry d : require_valid registry d = Ok () -> well_formed registry d.
Proof.
  unfold require_valid. destruct (validate_pipeline registry d) as [r|] eqn:Hr; [|done].
  destruct (valid r) eqn:Hv; [|done]. intros _. by eapply validate_pipeline_wf.
Qed.

Lemma runtime_no_planner d n :
  n ∈ nodes (compile_runtime_definition d) -> is_planner_node_type (n_type n) = false.
Proof.
  simpl. rewrite elem_of_lfilter, negb_true_iff, bool_decide_eq_false. intros [Hn Hid].
  destruct (is_planner_node_type (n_type n)) eqn:Hpl; [|done]. destruct Hid.
  unfold planner_node_ids. apply list_elem_of_fmap_2, elem_of_lfilter. done.
Qed.

Lemma override_nodes_shape o ov applied ns ns' :
  override_nodes o ov applied ns = Ok ns' ->
  Forall2 (fun n n' => n_id n' = n_id n /\ n_type n' = n_type n /\ n_position n' = n_position n
                       /\ d_label (n_data n') = d_label (n_data n)) ns ns'.
Proof.
  revert applied ns'. induction ns as [|n ns IH]; intros applied ns'; simpl; [intros [= <-]; constructor|].
  unfold with_config. repeat case_match; intros [= <-]; simplify_eq; constructor; try (by eauto); by split_and!.
Qed.

(** ** Theorems *)

(** C17.  A job is created only from a pipeline that validates after the overrides
    and whose runtime form validates again: the stored snapshot is well formed
    and free of planner nodes, and the job starts pending with one fresh pending
    execution per snapshot node, in node order. *)
Theorem create_job_sound registry new_uuid now pipeline pid overrides j :
  create_job registry new_uuid now pipeline pid overrides = Ok j ->
  well_formed registry (j_pipeline_snapshot j)
  /\ (forall n, n ∈ nodes (j_pipeline_snapshot j) -> is_planner_node_type (n_type n) = false)
  /\ j_status j = JobStatus.PENDING /\ j_execution_plan j = None
  /\ map ne_node_id (j_node_executions j) = map n_id (nodes (j_pipeline_snapshot j))
  /\ map ne_node_type (j_node_executions j) = map n_type (nodes (j_pipeline_snapshot j))
  /\ Forall (fun n => ne_status n = NodeStatus.PENDING /\ unclaimed n = true /\ ne_retry_count n = 0%Z
                      /\ ne_output_artifact_id n = None) (j_node_executions j)
  /\ exists definition effective, pipeline = Some definition
       /\ _apply_input_overrides definition overrides = Ok effective
       /\ well_formed registry effective
       /\ j_pipeline_snapshot j = compile_runtime_definition effective.
Proof.
  unfold create_job, _create_job_from_definition. intros Hok.
  destruct pipeline as [definition|]; [|done].
  destruct (_apply_input_overrides definition overrides) as [effective|] eqn:Happ; [|done].
  destruct (require_valid registry effective) as [[]|] eqn:Hv; [|done].
  destruct (require_valid registry (compile_runtime_definition effective)) as [[]|] eqn:Hv'; [|done].
  injection Hok as <-. cbn [j_pipeline_snapshot j_status j_execution_plan j_node_executions].
  split_and!; try done.
  - by apply require_valid_wf.
  - intros n. apply runtime_no_planner.
  - etrans; [apply fmap_imap | apply imap_const].
  - etrans; [apply fmap_imap | apply imap_const].
  - apply Forall_forall. intros n (i & m & -> & _)%elem_of_lookup_imap. done.
  - exists definition, effective. split_and!; auto. by apply require_valid_wf.
Qed.

Definition index_uuid (i : nat) : uuid := "u" +:+ str_of_Z (Z.of_nat i).

Definition sample_runtime : PipelineDefinition :=
  {| nodes := [sample_node "s" "source" [("media_type", VStr "video")];
               sample_node "t" "trim" [("start_time", VStr "0")]; sample_node "x" "export" []];
     edges := [sample_edge "e1" "s" "output" "t" "input"; sample_edge "e2" "t" "output" "x" "input"];
     viewport := default_viewport |}.

Definition sample_overrides : config := [("asset_id", VStr "a1"); ("t.end_time", VStr "5")].

Definition sample_created : Job :=
  ok_or (waiting_job "b" NodeStatus.PENDING JobStatus.PENDING)
    (create_job builtin_registry index_uuid 7 (Some sample_runtime) "p" (Some sample_overrides)).

Lemma create_job_sound_witness :
  map (fun n => (ne_node_id n, ne_node_config n)) (j_node_executions sample_created)
  = [("s", [("media_type", VStr "video"); ("asset_id", VStr "a1")]);
     ("t", [("start_time", VStr "0"); ("end_time", VStr "5")]); ("x", [])]
  /\ well_formed builtin_registry (j_pipeline_snapshot sample_created).
Proof.
  split; [vm_compute; reflexivity|].
  apply (create_job_sound builtin_registry index_uuid 7 (Some sample_runtime) "p" (Some sample_overrides)).
  vm_compute. reflexivity.
Defined.

(**  Setting a dotted path makes the value readable at that path and changes
    no value at a path that is neither a prefix nor an extension of it. *)
Theorem set_nested_value_frame (c : config) (path : string) (value : pyval) (other : list string) :
  let parts := split_char "." path in
  get_path (_set_nested_value c path value) parts = Some value
  /\ (~ parts `prefix_of` other -> ~ other `prefix_of` parts ->
      get_path (_set_nested_value c path value) other = get_path c other).
Proof.
  intros parts.
  assert (Hset : _set_nested_value c path value = set_path c parts value).
  { unfold _set_nested_value. destruct (contains_char "." path) eqn:Hdot; [done|].
    unfold parts. by rewrite split_char_none. }
  rewrite Hset. split.
  - apply get_set_path, split_char_nonnil.
  - apply get_set_path_other.
Qed.

(** The dotted form of an override, [node.param], means the same as the
    nested form, a dictionary of parameters per node. *)
Theorem dotted_override_equiv (acc : list (string * config)) (node param : string) (value : pyval) :
  contains_char "." node = false -> node <> "asset_id" -> (forall d, value <> VDict d) ->
  normalize_step acc (node +:+ "." +:+ param, value) = normalize_step acc (node, VDict [(param, value)]).
Proof.
  intros Hdot Hne Hv. unfold normalize_step.
  assert (Hk : (node +:+ "." +:+ param =? "asset_id")%string = false).
  { apply String.eqb_neq. intros Heq. apply (f_equal (contains_char ".")) in Heq.
    by rewrite !contains_char_app, orb_true_r in Heq. }
  rewrite Hk, (proj2 (String.eqb_neq node "asset_id")) by done.
  change ("." +:+ param) with (String "." param).
  rewrite (partition_char_app "." node param), merge_single by done.
  destruct value as [| | | | | |kvs]; try done. by destruct (Hv kvs).
Qed.

Lemma dotted_override_equiv_witness :
  _normalize_node_overrides [("trim.start_time", VStr "1")]
  = _normalize_node_overrides [("trim", VDict [("start_time", VStr "1")])].
Proof.
  apply (dotted_override_equiv [] "trim" "start_time" (VStr "1")); [reflexivity | discriminate | discriminate].
Defined.

(**  Overrides change configurations only: the nodes keep identifiers, types,
    positions and labels, and the edges stay. *)
Theorem overrides_keep_graph (d d' : PipelineDefinition) (o : option config) :
  _apply_input_overrides d o = Ok d' ->
  map n_id (nodes d') = map n_id (nodes d) /\ map n_type (nodes d') = map n_type (nodes d)
  /\ edges d' = edges d /\ build_dependency_map d' = build_dependency_map d.
Proof.
  intros Hok. assert (Hshape : map n_id (nodes d') = map n_id (nodes d)
    /\ map n_type (nodes d') = map n_type (nodes d) /\ edges d' = edges d).
  { destruct o as [[|kv o]|]; [by simplify_eq/= | | by simplify_eq/=]. simpl in Hok.
    destruct (override_nodes _ _ _ _) as [ns|] eqn:Hns; [|done]. injection Hok as <-. simpl.
    apply override_nodes_shape in Hns.
    induction Hns as [|n n' l l' (Hi & Ht & _) _ (IH1 & IH2 & _)]; simpl; [done|].
    by rewrite Hi, Ht, IH1, IH2. }
  destruct Hshape as (Hid & Hty & He). split_and!; try done. unfold build_dependency_map.
  rewrite He. f_equal. f_equal.
  rewrite <- (map_map n_id (fun i => (i, [])) (nodes d')), <- (map_map n_id (fun i => (i, [])) (nodes d)).
  by rewrite Hid.
Qed.

Lemma overrides_keep_graph_witness :
  map n_id (nodes (ok_or sample_runtime (_apply_input_overrides sample_runtime (Some sample_overrides))))
  = ["s"; "t"; "x"].
Proof.
  apply (overrides_keep_graph sample_runtime _ (Some sample_overrides)). vm_compute. reflexivity.
Defined.

Lemma cancel_targets_spec j n :
  NoDup (map ne_id (j_node_executions j)) -> n ∈ j_node_executions j ->
  ne_id n ∈ cancel_targets j <-> active (ne_status n) = true.
Proof.
  intros Hnd Hn. unfold cancel_targets. split.
  - intros (m & Hid & [Hm Ha]%elem_of_lfilter)%list_elem_of_fmap.
    by assert (n = m) as -> by (eapply NoDup_map_inj; eauto).
  - intros Ha. apply list_elem_of_fmap. exists n. split; [done|]. by apply elem_of_lfilter.
Qed.

(**  A cancellation without interference leaves no pending, queued or running node, does
    not touch a finished one, is idempotent, and changes nothing but a job that has not
    finished (a partially failed job counts as unfinished here). *)
Theorem cancel_correct (j : Job) :
  NoDup (map ne_id (j_node_executions j)) ->
  (j_status j ∉ [JobStatus.SUCCEEDED; JobStatus.FAILED; JobStatus.CANCELLED] ->
     j_status (cancel j) = JobStatus.CANCELLED
     /\ Forall (fun n => active (ne_status n) = false) (j_node_executions (cancel j)))
  /\ Forall2 (fun n n' => active (ne_status n) = false -> n' = n) (j_node_executions j) (j_node_executions (cancel j))
  /\ cancel (cancel j) = cancel j
  /\ (j_status j ∈ [JobStatus.SUCCEEDED; JobStatus.FAILED; JobStatus.CANCELLED] -> cancel j = j).
Proof.
  intros Hnd. unfold cancel, cancel_refused. case_bool_decide as Hterm.
  - rewrite bool_decide_true by done. split_and!; try done. by apply Forall_Forall2_diag, Forall_true.
  - simpl. split_and!; try done.
    + intros _. split; [done|]. apply Forall_fmap, Forall_forall. intros n Hn. simpl. unfold cancel_row.
      case_bool_decide as Hin; [done|]. rewrite cancel_targets_spec in Hin by done. by destruct (active _).
    + apply Forall2_fmap_r, Forall_Forall2_diag, Forall_forall. intros n Hn Ha. unfold cancel_row.
      rewrite bool_decide_eq_false_2; [done|]. rewrite cancel_targets_spec by done. by rewrite Ha.
Qed.

Lemma cancel_correct_witness :
  j_status (cancel (waiting_job "b" NodeStatus.RUNNING JobStatus.PARTIALLY_FAILED)) = JobStatus.CANCELLED.
Proof.
  apply (cancel_correct (waiting_job "b" NodeStatus.RUNNING JobStatus.PARTIALLY_FAILED));
    apply (bool_decide_eq_true_1 _); vm_compute; reflexivity.
Defined.

(**  Deletion removes the job and exactly its worker-event rows, and only when
    all of these are settled and the job is neither pending, planning nor running. *)
Theorem delete_job_settled jobs rows id jobs' rows' :
  delete_job jobs rows id = Ok (true, jobs', rows') ->
  (exists j, jobs.[? id] = Some j
     /\ j_status j ∉ [JobStatus.PENDING; JobStatus.PLANNING; JobStatus.RUNNING])
  /\ jobs'.[? id] = None
  /\ (forall a, a ∈ w_attestations rows -> a ∉ w_attestations rows' ->
        at_job_id a = id /\ at_ack_state a = "acknowledged")
  /\ (forall r, r ∈ w_receipts rows -> r ∉ w_receipts rows' ->
        rc_job_id r = id /\ rc_application_state r = "applied" /\ rc_ack_state r = "acknowledged")
  /\ (forall w, w ∈ w_dispatches rows -> w ∉ w_dispatches rows' ->
        wd_job_id w = id /\ (wd_resolution_state w = "acknowledged" \/ wd_resolution_state w = "cancelled"))
  /\ (forall k, k <> id -> jobs'.[? k] = jobs.[? k]).
Proof.
  unfold delete_job. destruct jobs.[? id] as [j|] eqn:Hj; [|done].
  case_bool_decide as Hst; [done|]. unfold _resolve_worker_event_authority_for_job_deletion. cbv zeta.
  destruct (_ || _ || _ || _) eqn:Hset; [done|]. intros [= <- <-].
  apply orb_false_iff in Hset as [Hset Hdis]. apply orb_false_iff in Hset as [Hset _].
  apply orb_false_iff in Hset as [Hatt Hrec]. split_and!; simpl; [eauto | apply dget_dpop_eq | | | |].
  - intros a Ha Hna. assert (Hid : at_job_id a = id) by (by eapply filtered_out).
    split; [done|]. apply (existsb_false_elem _ _ a) in Hatt; [by apply negb_false_iff, String.eqb_eq in Hatt|].
    apply elem_of_lfilter. by rewrite bool_decide_true.
  - intros r Hr Hnr. assert (Hid : rc_job_id r = id) by (by eapply filtered_out).
    split; [done|]. apply (existsb_false_elem _ _ r) in Hrec.
    2: { apply elem_of_lfilter. by rewrite bool_decide_true. }
    apply orb_false_iff in Hrec as [H1%negb_false_iff%String.eqb_eq H2%negb_false_iff%String.eqb_eq]. done.
  - intros w Hw Hnw. assert (Hid : wd_job_id w = id) by (by eapply filtered_out).
    split; [done|]. apply (existsb_false_elem _ _ w) in Hdis.
    2: { apply elem_of_lfilter. by rewrite bool_decide_true. }
    apply negb_false_iff, orb_true_iff in Hdis as [H1|H1].
    + left. by apply String.eqb_eq.
    + right. apply andb_prop in H1 as [_ H1]. by apply String.eqb_eq.
  - intros k Hk. by apply dget_dpop_ne.
Qed.

Lemma delete_job_settled_witness :
  (dpop [("b", waiting_job "b" NodeStatus.PENDING JobStatus.WAITING_WINDOW)] "b").[? "b"] = None.
Proof.
  apply (delete_job_settled [("b", waiting_job "b" NodeStatus.PENDING JobStatus.WAITING_WINDOW)]
    no_workers "b"
    (dpop [("b", waiting_job "b" NodeStatus.PENDING JobStatus.WAITING_WINDOW)] "b")
    no_workers).
  vm_compute. reflexivity.
Defined.
