(* ===== verification/PipelineService.v ===== *)
(** * Stored pipelines and the start of jobs
    ([services/pipeline_service.py], [services/job_runtime.py])

    The definition column holds the dump of a parsed definition, which reads back as
    itself, so a row holds the definition, or nothing when it holds the JSON null.  Listing and the responses of the API are
    not modelled. *)

From stdpp Require Import base tactics list strings relations.
From Stdlib Require Import ZArith Lia.
From coqutil Require Import Datatypes.RecordSetters.
From S2P Require Import Prelude PyStr PyValue NodeRegistry Builtins Pipeline Graph Dag Validation JobModel WorkerModel Schedule Authority JobService.
Import TriangleBracketNotations.

Open Scope string_scope.
Open Scope list_scope.

(** ** Rows *)

Record PipelineRow := {
  pp_id : uuid;
  pp_name : string;
  pp_description : string;
  pp_definition : option PipelineDefinition;
  pp_is_template : bool;
  pp_template_tags : list string;
  pp_version : Z }.

Record PipelineCreate := {
  cr_name : string;
  cr_description : string;
  cr_definition : PipelineDefinition;
  cr_is_template : bool;
  cr_template_tags : list string }.

(** A field of an update is unset, null or given. *)
Inductive field (A : Type) : Type := Unset | Null | Given (a : A).
Arguments Unset {A}.
Arguments Null {A}.
Arguments Given {A} a.

Record PipelineUpdate := {
  up_name : field string;
  up_description : field string;
  up_definition : field PipelineDefinition;
  up_is_template : field bool;
  up_template_tags : field (list string) }.

Definition find_pipeline (id : uuid) (l : list PipelineRow) : option PipelineRow :=
  find (fun p => (pp_id p =? id)%string) l.
Definition put_pipeline (p : PipelineRow) (l : list PipelineRow) : list PipelineRow :=
  map (fun q => if (pp_id q =? pp_id p)%string then p else q) l.

(** ** Operations *)

Definition new_pipeline (id : uuid) (data : PipelineCreate) : PipelineRow :=
  {| pp_id := id; pp_name := cr_name data; pp_description := cr_description data; pp_definition := Some (cr_definition data);
     pp_is_template := cr_is_template data; pp_template_tags := cr_template_tags data; pp_version := 1 |}.

Definition add_pipeline (p : PipelineRow) (l : list PipelineRow) : Res (list PipelineRow) :=
  if bool_decide (pp_id p ∈ map pp_id l) then Raise IntegrityError else Ok (l ++ [p]).

Definition create_pipeline (id : uuid) (data : PipelineCreate) (l : list PipelineRow) : Res (PipelineRow * list PipelineRow) :=
  l' ← add_pipeline (new_pipeline id data) l; Ok (new_pipeline id data, l').

(** No column may be null; the JSON column of the definition takes the JSON null instead. *)
Definition set_column {A} (f : field A) (old : A) : Res A :=
  match f with Unset => Ok old | Null => Raise IntegrityError | Given a => Ok a end.

Definition set_definition (f : field PipelineDefinition) (old : option PipelineDefinition) : option PipelineDefinition :=
  match f with Unset => old | Null => None | Given d => Some d end.

Definition update_pipeline (id : uuid) (data : PipelineUpdate) (l : list PipelineRow) : Res (option PipelineRow * list PipelineRow) :=
  match find_pipeline id l with
  | None => Ok (None, l)
  | Some p =>
      name ← set_column (up_name data) (pp_name p);
      description ← set_column (up_description data) (pp_description p);
      let definition := set_definition (up_definition data) (pp_definition p) in
      is_template ← set_column (up_is_template data) (pp_is_template p);
      tags ← set_column (up_template_tags data) (pp_template_tags p);
      let p' := {| pp_id := pp_id p; pp_name := name; pp_description := description; pp_definition := definition;
                   pp_is_template := is_template; pp_template_tags := tags; pp_version := (pp_version p + 1)%Z |} in
      Ok (Some p', put_pipeline p' l)
  end.

Definition referenced (id : uuid) (jobs : list Job) : bool := existsb (fun j => (j_pipeline_id j =? id)%string) jobs.

(** [seen] are the jobs the query saw, [jobs] those at the commit: the foreign key of a
    job that came in between makes the delete fail. *)
Definition delete_pipeline (id : uuid) (seen jobs : list Job) (l : list PipelineRow) : Res (bool * list PipelineRow) :=
  match find_pipeline id l with
  | None => Ok (false, l)
  | Some p =>
      if referenced id seen then
        if negb (pp_is_template p) then Raise (ValueError "Pipeline is referenced by existing jobs and cannot be deleted")
        else
          let p' := p <| pp_is_template := false |> <| pp_template_tags := [] |> <| pp_version ::= fun v => (v + 1)%Z |> in
          Ok (true, put_pipeline p' l)
      else if referenced id jobs
      then Raise (ValueError "Pipeline could not be deleted because it was referenced while the delete was in progress")
      else Ok (true, List.filter (fun q => negb (pp_id q =? id)%string) l)
  end.

Definition duplicate_pipeline (id copy_id : uuid) (l : list PipelineRow) : Res (option PipelineRow * list PipelineRow) :=
  match find_pipeline id l with
  | None => Ok (None, l)
  | Some p =>
      let copy := {| pp_id := copy_id; pp_name := pp_name p +:+ " (copy)"; pp_description := pp_description p;
                     pp_definition := pp_definition p; pp_is_template := false; pp_template_tags := pp_template_tags p;
                     pp_version := 1 |} in
      l' ← add_pipeline copy l;
      Ok (Some copy, l')
  end.

Definition validate_definition (registry : NodeTypeRegistry) (d : PipelineDefinition) : Res ValidationResult :=
  validate_pipeline registry d.

(** ** Starting jobs *)

(** The state returned, the jobs as they are committed, and those handed to the engine. *)
Definition start_or_defer_jobs (setting : string) (schedule : option RuntimeSchedule) (jobs : list Job)
    : VideoScheduleState * list Job * list uuid :=
  match jobs with
  | [] => (OPEN, [], [])
  | _ =>
      let row := (get_or_create_and_lock_runtime_schedule setting schedule).1 in
      let state := schedule_state setting row in
      let deferred j := should_defer_job_start j state (s_guarded_job_id row) in
      (state, map (fun j => if deferred j then park_job_for_window j else j) jobs,
       map j_id (List.filter (fun j => negb (deferred j)) jobs))
  end.

(** ** Facts *)

(** Jobs keep their pipeline. *)
Definition jobs_have_pipelines (jobs : list Job) (l : list PipelineRow) : Prop :=
  forall j, j ∈ jobs -> j_pipeline_id j ∈ map pp_id l.

Lemma map_put_pipeline p l : map pp_id (put_pipeline p l) = map pp_id l.
Proof.
  unfold put_pipeline. rewrite map_map. apply map_ext. intros q.
  by destruct (String.eqb_spec (pp_id q) (pp_id p)) as [->|].
Qed.

Lemma find_pipeline_Some id l p : find_pipeline id l = Some p -> p ∈ l /\ pp_id p = id.
Proof. intros [Hin Hid%String.eqb_eq]%find_some. split; [by apply list_elem_of_In|done]. Qed.

Lemma referenced_spec id jobs : referenced id jobs = true <-> exists j, j ∈ jobs /\ j_pipeline_id j = id.
Proof.
  unfold referenced. rewrite existsb_exists. split; intros (j & Hj & Hid); exists j.
  - apply String.eqb_eq in Hid. by apply list_elem_of_In in Hj.
  - split; [by apply list_elem_of_In|by apply String.eqb_eq].
Qed.

(** Deleting never takes the pipeline of a job: a referenced template stops being one, and
    a pipeline that goes away is one without jobs. *)
Theorem delete_keeps_references id seen jobs l b l' :
  seen ⊆ jobs -> jobs_have_pipelines jobs l -> delete_pipeline id seen jobs l = Ok (b, l') ->
  jobs_have_pipelines jobs l'
  /\ (b = true -> id ∈ map pp_id l' -> exists p', p' ∈ l' /\ pp_id p' = id /\ pp_is_template p' = false)
  /\ (forall q, q ∈ l -> pp_id q <> id -> q ∈ l').
Proof.
  intros Hseen Hfk. unfold delete_pipeline. destruct (find_pipeline id l) as [p|] eqn:Hf; [|intros [= <- <-]; by repeat split].
  apply find_pipeline_Some in Hf as [Hp Hid]. destruct (referenced id seen) eqn:Hs.
  - destruct (negb (pp_is_template p)); [discriminate|]. intros [= <- <-]. set (p' := _ : PipelineRow). split; [|split].
    + intros j Hj. rewrite map_put_pipeline. by apply Hfk.
    + intros _ _. exists p'. split; [|by split]. apply list_elem_of_fmap. exists p. split; [|done].
      change (pp_id p') with (pp_id p). by rewrite String.eqb_refl.
    + intros q Hq Hne. apply list_elem_of_fmap. exists q. split; [|done]. change (pp_id p') with (pp_id p).
      by destruct (String.eqb_spec (pp_id q) (pp_id p)); [congruence|].
  - destruct (referenced id jobs) eqn:Hj; [discriminate|]. intros [= <- <-]. split; [|split].
    + intros j Hin. pose proof (Hfk j Hin) as (q & Hq & Hql)%list_elem_of_fmap. apply list_elem_of_fmap. exists q.
      split; [done|]. apply elem_of_lfilter. split; [done|]. apply negb_true_iff, String.eqb_neq. intros Heq.
      enough (referenced id jobs = true) by congruence. apply referenced_spec. exists j. split; [done|]. congruence.
    + intros _ (q & Hq & (_ & Hn)%elem_of_lfilter)%list_elem_of_fmap. subst id. by rewrite Hq, String.eqb_refl in Hn.
    + intros q Hq Hne. apply elem_of_lfilter. split; [done|]. by apply negb_true_iff, String.eqb_neq.
Qed.

(** Every job is either started or parked for the window, never both. *)
Lemma started_or_parked setting schedule jobs state jobs' started j :
  start_or_defer_jobs setting schedule jobs = (state, jobs', started) -> NoDup (map j_id jobs) -> j ∈ jobs ->
  (j_id j ∈ started /\ j ∈ jobs') \/ (j_id j ∉ started /\ park_job_for_window j ∈ jobs').
Proof.
  unfold start_or_defer_jobs. intros H Hnd Hj. destruct jobs as [|j0 js] eqn:Hjobs; [by apply elem_of_nil in Hj|].
  rewrite <- Hjobs in *. clear Hjobs j0 js. injection H as <- <- <-.
  set (row := (get_or_create_and_lock_runtime_schedule setting schedule).1).
  destruct (should_defer_job_start j (schedule_state setting row) (s_guarded_job_id row)) eqn:Hd; [right|left].
  - split.
    + intros (k & Hk & (Hin & Hn)%elem_of_lfilter)%list_elem_of_fmap.
      assert (k = j) as -> by (apply (NoDup_map_inj j_id jobs); auto).
      by rewrite Hd in Hn.
    + apply list_elem_of_fmap. exists j. by rewrite Hd.
  - split.
    + apply list_elem_of_fmap. exists j. split; [done|]. apply elem_of_lfilter. by rewrite Hd.
    + apply list_elem_of_fmap. exists j. by rewrite Hd.
Qed.
