(* ===== verification/GraphPlanner.v ===== *)
(** * Planning from drafts ([autoflow/graph_planner.py])

    A pipeline draft comes from the request, from a language model or from one built-in
    rule.  It is compiled to a definition, which is validated, repaired once, put under
    the policy and validated again; what does not pass raises.  The model that writes
    drafts and the parsing of drafts are parameters. *)

From stdpp Require Import base tactics list strings.
From Stdlib Require Import ZArith Lia.
From coqutil Require Import Datatypes.RecordSetters.
From S2P Require Import Prelude PyStr PyValue PyUuid NodeRegistry Builtins Pipeline RightsPolicy PipelinePolicy Graph Dag Validation PipelineBuilder JobModel PlanApproval.
Import TriangleBracketNotations.

Open Scope string_scope.
Open Scope list_scope.

(** ** Records ([schemas/autoflow.py]) *)

Record DraftNode := {
  dn_id : string;
  dn_type : string;
  dn_label : string;
  dn_config : config;
  dn_asset_id : option string;
  dn_position : option (list (string * pyfloat)) }.

Record DraftEdge := {
  de_id : option string;
  de_source : string;
  de_sourceHandle : string;
  de_target : string;
  de_targetHandle : string }.

Record PipelineDraft := {
  dr_name : string;
  dr_description : string;
  dr_nodes : list DraftNode;
  dr_edges : list DraftEdge;
  dr_planner_notes : list string;
  dr_assumptions : list string;
  dr_risk_flags : list string }.

(** The fields of the request the planner reads. *)
Record GraphRequest := {
  gr_request : AutoFlowRequest;
  gr_constraints : config;
  gr_allow_experimental : bool;
  gr_provider_config_id : option string;
  gr_model : option string }.

(** The issues of an attempt: of the validation, then of the policy. *)
Record GraphPlanningAttempt := {
  ga_source : string;
  ga_valid : bool;
  ga_errors : list ValidationError * list PipelinePolicyIssue;
  ga_warnings : list ValidationWarning * list PipelinePolicyIssue;
  ga_repairs : list string;
  ga_notes : list string }.

Record GraphPlanningOutcome := {
  go_draft : PipelineDraft;
  go_definition : PipelineDefinition;
  go_validation : ValidationResult;
  go_policy : PipelinePolicyResult;
  go_attempt : GraphPlanningAttempt;
  go_candidates : list AutoFlowClipCandidate;
  go_metadata : AutoFlowMetadata;
  go_warnings : list string }.

(** ** Compiling a draft *)

Definition _default_position (index : nat) : list (string * pyfloat) :=
  [("x", float_of_Z (Z.of_nat (index mod 6 * 260))); ("y", float_of_Z (Z.of_nat (index / 6 * 140)))].

Definition _string_or_none (v : pyval) : option string := match v with VNone => None | _ => Some (py_str v) end.

(** [node.asset_id or _string_or_none(node.config.get("asset_id"))]. *)
Definition draft_asset (n : DraftNode) : option string :=
  if truthy_str (dn_asset_id n) then dn_asset_id n else _string_or_none (dict_get (dn_config n) "asset_id").

Definition compile_node (index : nat) (n : DraftNode) : PipelineNode :=
  {| n_id := dn_id n; n_type := dn_type n;
     n_position := match dn_position n with Some (p :: ps) => p :: ps | _ => _default_position index end;
     n_data := {| d_label := str_or (dn_label n) (dn_type n); d_config := dn_config n; d_asset_id := draft_asset n |} |}.

Definition node_turn (registry : NodeTypeRegistry) (acc : list PipelineNode) (n : DraftNode) : Res (list PipelineNode) :=
  if negb (is_some (get_type registry (dn_type n))) then Raise (DraftCompileError ("Unknown node type '" +:+ dn_type n +:+ "'"))
  else if bool_decide (dn_id n ∈ map n_id acc) then Raise (DraftCompileError ("Duplicate node id '" +:+ dn_id n +:+ "'"))
  else Ok (acc ++ [compile_node (length acc) n]).

(** [index] counts from one. *)
Definition edge_id (index : nat) (e : DraftEdge) : string :=
  opt_or (de_id e) ("e-" +:+ de_source e +:+ "-" +:+ de_target e +:+ "-" +:+ str_of_Z (Z.of_nat index)).

Definition edge_turn (ids : list string) (acc : list PipelineEdge) (e : DraftEdge) : Res (list PipelineEdge) :=
  if negb (bool_decide (de_source e ∈ ids)) then Raise (DraftCompileError ("Edge source '" +:+ de_source e +:+ "' does not exist"))
  else if negb (bool_decide (de_target e ∈ ids)) then Raise (DraftCompileError ("Edge target '" +:+ de_target e +:+ "' does not exist"))
  else
    let id := edge_id (S (length acc)) e in
    if bool_decide (id ∈ map e_id acc) then Raise (DraftCompileError ("Duplicate edge id '" +:+ id +:+ "'"))
    else Ok (acc ++ [{| e_id := id; e_source := de_source e; e_target := de_target e; e_sourceHandle := de_sourceHandle e;
                        e_targetHandle := de_targetHandle e |}]).

Definition pipeline_definition_from_draft (registry : NodeTypeRegistry) (draft : PipelineDraft) : Res PipelineDefinition :=
  ns ← foldM (node_turn registry) [] (dr_nodes draft);
  es ← foldM (edge_turn (map n_id ns)) [] (dr_edges draft);
  Ok {| nodes := ns; edges := es; viewport := default_viewport |}.

(** ** The built-in rule *)

Definition str_in (needle text : string) : bool := match String.index 0 needle text with Some _ => true | None => false end.
Definition any_in (needles : list string) (text : string) : bool := existsb (fun n => str_in n text) needles.

Definition _source_node (node_id label asset_id : string) : DraftNode :=
  {| dn_id := node_id; dn_type := "source"; dn_label := label;
     dn_config := [("asset_id", VStr asset_id); ("media_type", VStr "video")]; dn_asset_id := Some asset_id; dn_position := None |}.

Definition _smart_trim_node (node_id label prompt : string) (include_upload : bool) : DraftNode :=
  let dec m e := VFloat (float_of_dec false m e) in
  {| dn_id := node_id; dn_type := "smart_trim"; dn_label := label;
     dn_config := [("prompt", VStr prompt); ("negative_prompt", VStr "watermark, unsafe scene, blurry"); ("mode", VStr "best_clip");
       ("target_duration", VInt 4); ("min_clip_duration", dec 15%Z (-1)%Z); ("max_clip_duration", VInt 8); ("max_clips", VInt 1);
       ("sample_fps", VInt 1); ("match_threshold", dec 35%Z (-2)%Z); ("return_full_threshold", dec 65%Z (-2)%Z);
       ("padding_before", dec 5%Z (-1)%Z); ("padding_after", dec 5%Z (-1)%Z); ("merge_gap", VInt 1); ("use_visual", VBool true);
       ("use_asr", VBool true); ("use_vlm_verify", VBool false); ("language", VStr "zh"); ("output_format", VStr "mp4");
       ("no_match_policy", VStr (if include_upload then "fail" else "placeholder"))];
     dn_asset_id := None; dn_position := None |}.

Definition plain_node (id ty label : string) (c : config) : DraftNode :=
  {| dn_id := id; dn_type := ty; dn_label := label; dn_config := c; dn_asset_id := None; dn_position := None |}.
Definition plain_edge (source target target_handle : string) : DraftEdge :=
  {| de_id := None; de_source := source; de_sourceHandle := "output"; de_target := target; de_targetHandle := target_handle |}.

(** Whether the prompt asks for a dog above and a cat below, one after the other. *)
Definition dog_cat_prompt (text : string) : bool :=
  let prompt := lower text in
  (any_in ["小狗"; "狗狗"] text || any_in ["dog"; "puppy"] prompt)
  && (any_in ["小猫"; "猫咪"] text || any_in ["cat"; "kitten"] prompt)
  && (any_in ["上半"; "下半"; "上面"; "下面"] text || (str_in "top" prompt && str_in "bottom" prompt))
  && (any_in ["先播放"; "后播放"; "先播"; "后播"] text || str_in "first" prompt).

Definition dog_cat_draft (publish_mode : string) : PipelineDraft :=
  let include_upload := bool_decide (publish_mode ∈ UPLOAD_MODES) in
  {| dr_name := "Dog Cat Vertical Timeline";
     dr_description := "Dog clip plays in the top pane first, then cat clip plays in the bottom pane.";
     dr_nodes :=
       [_source_node "source_dog" "Dog source" "autoflow-ai-graph-dog";
        _smart_trim_node "smart_trim_dog" "Dog smart trim" "cute puppy, dog playing, clear subject" include_upload;
        _source_node "source_cat" "Cat source" "autoflow-ai-graph-cat";
        _smart_trim_node "smart_trim_cat" "Cat smart trim" "cute kitten, cat playing, clear subject" include_upload;
        plain_node "concat_vertical_timeline_1" "concat_vertical_timeline" "Top dog first, bottom cat second"
          [("pane_width", VInt 960); ("pane_height", VInt 540); ("background_color", VStr "black"); ("output_format", VStr "mp4")];
        plain_node "transcode_1" "transcode" "Transcode"
          [("format", VStr "mp4"); ("video_codec", VStr "libx264"); ("audio_codec", VStr "aac"); ("crf", VInt 23)];
        plain_node "export_1" "export" "Export Preview"
          [("output_dir", VStr "/tmp/vp_autoflow_exports"); ("filename", VStr "dog-cat-vertical-timeline.mp4")]]
       ++ (if include_upload then
             [plain_node "youtube_upload_1" "youtube_upload" "YouTube Upload"
               [("title", VStr "Dog and Cat Split Timeline");
                ("description", VStr "AutoFlow AI graph plan: dog top pane first, cat bottom pane second.");
                ("privacy", VStr (if (publish_mode =? "unlisted_upload")%string then "unlisted" else "private"));
                ("made_for_kids", VStr "not_set"); ("tags", VStr "dog,cat,autoflow")]]
           else []);
     dr_edges :=
       [plain_edge "source_dog" "smart_trim_dog" "input"; plain_edge "source_cat" "smart_trim_cat" "input";
        plain_edge "smart_trim_dog" "concat_vertical_timeline_1" "video_first";
        plain_edge "smart_trim_cat" "concat_vertical_timeline_1" "video_second";
        plain_edge "concat_vertical_timeline_1" "transcode_1" "input"; plain_edge "transcode_1" "export_1" "input"]
       ++ (if include_upload then [plain_edge "transcode_1" "youtube_upload_1" "input"] else []);
     dr_planner_notes :=
       ["Selected concat_vertical_timeline because the prompt asks for top/bottom sequential playback.";
        "Used owned placeholder asset ids until material search selects concrete assets."];
     dr_assumptions := ["Dog is the first/top subject; cat is the second/bottom subject."];
     dr_risk_flags := if include_upload then ["upload_requires_review"] else [] |}.

Definition _dog_cat_vertical_timeline_draft (r : AutoFlowRequest) : option PipelineDraft :=
  if dog_cat_prompt (rq_prompt r) then Some (dog_cat_draft (rq_publish_mode r)) else None.

(** ** What a draft brings with it *)

Definition graph_candidate (n : DraftNode) (source_type : string) (url asset_id : option string) : AutoFlowClipCandidate :=
  {| cc_id := "graph-" +:+ dn_id n; cc_title := str_or (dn_label n) (dn_id n); cc_source_type := source_type; cc_material_id := None;
     cc_url := url; cc_asset_id := asset_id; cc_start_sec := None; cc_end_sec := None; cc_score := float_of_Z 0;
     cc_rights_status := "unknown"; cc_metadata := [("graph_node_id", VStr (dn_id n))] |}.

Definition node_candidate (n : DraftNode) : option AutoFlowClipCandidate :=
  if (dn_type n =? "url_download")%string
  then Some (graph_candidate n "external_url" (_string_or_none (dict_get (dn_config n) "url")) None)
  else if negb (dn_type n =? "source")%string then None
  else if truthy_str (draft_asset n) then Some (graph_candidate n "asset" None (draft_asset n)) else None.

Definition _candidates_from_draft (draft : PipelineDraft) : list AutoFlowClipCandidate := omap node_candidate (dr_nodes draft).

Definition _metadata_from_draft (draft : PipelineDraft) : AutoFlowMetadata :=
  {| am_title_candidates := [dr_name draft]; am_selected_title := Some (dr_name draft); am_description := dr_description draft;
     am_tags := ["autoflow"; "ai_graph"]; am_hashtags := ["#AutoFlow"]; am_thumbnail_text_candidates := [dr_name draft];
     am_platform_payloads := [] |}.

Definition _warnings_from_outcome (draft : PipelineDraft) (policy : PipelinePolicyResult) : list string :=
  dr_risk_flags draft ++ map pi_message (pr_warnings policy)
  ++ (if pr_requires_review policy
      then ["AI graph plan requires human review before platform upload or public publishing."] else []).

(** ** The planner *)

Section Planner.
Context (registry : NodeTypeRegistry) (autoflow_ai_enabled : bool).
Context (read_draft : pyval -> Res PipelineDraft) (provider : GraphRequest -> Res (option (PipelineDraft * string))).

Definition _draft_for_request (r : GraphRequest) : Res (PipelineDraft * string) :=
  let raw_draft := dict_get (gr_constraints r) "pipeline_draft" in
  if truthy raw_draft then draft ← read_draft raw_draft; Ok (draft, "constraints.pipeline_draft")
  else
    provided ← (if gr_allow_experimental r && autoflow_ai_enabled then provider r else Ok None);
    match provided with
    | Some result => Ok result
    | None =>
        match _dog_cat_vertical_timeline_draft (gr_request r) with
        | Some draft => Ok (draft, "rule.dog_cat_vertical_timeline")
        | None =>
            let unavailable reason := Raise (GraphPlanningUnavailable reason) in
            if negb (gr_allow_experimental r) then unavailable "experimental_graph_planning_disabled"
            else if negb autoflow_ai_enabled then unavailable "autoflow_ai_disabled"
            else if negb (truthy_str (gr_provider_config_id r)) || negb (truthy_str (gr_model r))
            then unavailable "graph_provider_configuration_missing"
            else unavailable "No AI graph planner provider produced a draft"
        end
    end.

(** The definition after one round of repair, with its validation and the repairs. *)
Definition repair_once (definition : PipelineDefinition) : Res (PipelineDefinition * ValidationResult * list string) :=
  validation ← validate_pipeline registry definition;
  if valid validation then Ok (definition, validation, [])
  else
    match repair registry definition (errors validation) [] with
    | inr _ => Raise (RuntimeError "AutoFlow workflow could not be repaired")
    | inl r =>
        validation ← validate_pipeline registry (ar_definition r);
        Ok (ar_definition r, validation, ar_applied_repairs r)
    end.

Definition plan (r : GraphRequest) : Res GraphPlanningOutcome :=
  drafted ← _draft_for_request r;
  let '(draft, source) := drafted in
  compiled ← pipeline_definition_from_draft registry draft;
  repaired ← repair_once compiled;
  let '(definition, validation, repairs) := repaired in
  let policy := validate_pipeline_policy definition (gr_request r) in
  settled ← (match pr_repairs policy with
             | [] => Ok (definition, validation)
             | _ => validation ← validate_pipeline registry (pr_definition policy); Ok (pr_definition policy, validation)
             end);
  let '(definition, validation) := settled in
  let attempt :=
    {| ga_source := source; ga_valid := valid validation && pr_valid policy; ga_errors := (errors validation, pr_errors policy);
       ga_warnings := (warnings validation, pr_warnings policy); ga_repairs := repairs ++ pr_repairs policy;
       ga_notes := dr_planner_notes draft |} in
  if negb (ga_valid attempt) then Raise (GraphPlanningFailed "Generated graph failed validation")
  else Ok {| go_draft := draft; go_definition := definition; go_validation := validation; go_policy := policy;
             go_attempt := attempt; go_candidates := _candidates_from_draft draft; go_metadata := _metadata_from_draft draft;
             go_warnings := _warnings_from_outcome draft policy |}.
End Planner.

(** ** The rights of a graph plan ([autoflow/service.py]) *)

Definition uuid_or_none (s : string) : option uuid := match uuid_of_string s with Ok u => Some u | Raise _ => None end.

(** Only stored evidence can establish the rights of an asset. *)
Definition _asset_candidate_rights (assets : list Asset) (c : AutoFlowClipCandidate) : AutoFlowClipCandidate :=
  match cc_asset_id c with
  | None => c
  | Some "" => c
  | Some text =>
      match (id ← uuid_or_none text; find (fun a => (as_id a =? id)%string) assets) with
      | None => c <| cc_rights_status := "unknown" |>
      | Some a =>
          let facts := rights_metadata_from_mapping (as_media_info a) in
          let status := if (effective_status c =? "blocked")%string then "blocked" else rights_status_from_metadata facts in
          c <| cc_rights_status := status |>
            <| cc_metadata ::= fun m => update_dict (List.filter (fun p => negb (bool_decide (p.1 ∈ RIGHTS_METADATA_KEYS))) m) facts |>
      end
  end.

Definition graph_rights (r : AutoFlowRequest) (assets : list Asset) (o : GraphPlanningOutcome) : RightsDecision :=
  let d := evaluate r (map (_asset_candidate_rights assets) (go_candidates o)) in
  if pr_requires_review (go_policy o) && (rd_status d =? "allowed")%string
  then {| rd_status := "review_required";
          rd_reasons := rd_reasons d ++ ["AI graph policy requires human review before upload or public publishing"];
          rd_allowed_publish_modes := rd_allowed_publish_modes d; rd_execute_allowed := rd_execute_allowed d;
          rd_publish_allowed := bool_decide (rq_publish_mode r ∈ ["preview_only"; "private_upload"; "unlisted_upload"]) |}
  else d.
