(* ===== verification/GraphSound.v ===== *)
(** * What the graph planner returns is sound

    A compiled draft has distinct identifiers and closed edges; repair and policy keep
    them and change parameters only.  Rights are grounded in stored assets. *)

From stdpp Require Import base tactics list strings relations sorting.
From Stdlib Require Import ZArith Lia.
From coqutil Require Import Datatypes.RecordSetters.
From S2P Require Import Prelude PyStr PyValue PyUuid NodeRegistry Builtins Pipeline RightsPolicy PipelinePolicy Graph Dag Validation PipelineBuilder BuilderValid JobModel PlanApproval WorkerModel Authority JobService GraphPlanner.
Import TriangleBracketNotations.

Open Scope string_scope.
Open Scope list_scope.

(** ** Compilation *)

Lemma compiled_nodes registry l acc ns :
  foldM (node_turn registry) acc l = Ok ns ->
  ns = acc ++ imap (fun i => compile_node (length acc + i)) l
  /\ (NoDup (map n_id acc) -> NoDup (map n_id ns)).
Proof.
  revert acc. induction l as [|n l IH]; intros acc; cbn [foldM].
  { intros [= <-]. by rewrite app_nil_r. }
  destruct (node_turn registry acc n) as [acc'|] eqn:Ht; [|done]. intros [-> Hnd]%IH. revert Ht Hnd. unfold node_turn.
  destruct (negb (is_some _)); [done|]. case_bool_decide as Hin; [done|]. intros [= <-] Hnd. split.
  - rewrite <- app_assoc. f_equal. rewrite length_app. simpl. rewrite Nat.add_0_r. f_equal. apply imap_ext. intros i x _. simpl.
    f_equal. lia.
  - intros Ha. apply Hnd. rewrite map_app. apply NoDup_app. split; [done|]. split; [|apply NoDup_singleton].
    intros x Hx Hs. apply list_elem_of_singleton in Hs as ->. done.
Qed.

Lemma compiled_edges ids l acc es :
  foldM (edge_turn ids) acc l = Ok es ->
  (NoDup (map e_id acc) -> NoDup (map e_id es))
  /\ (Forall (fun e => e_source e ∈ ids /\ e_target e ∈ ids) acc -> Forall (fun e => e_source e ∈ ids /\ e_target e ∈ ids) es).
Proof.
  revert acc. induction l as [|e l IH]; intros acc; cbn [foldM].
  { by intros [= <-]. }
  destruct (edge_turn ids acc e) as [acc'|] eqn:Ht; [|done]. intros [Hnd Hcl]%IH. revert Ht Hnd Hcl. unfold edge_turn.
  case_bool_decide as Hs; [|done]. simpl. case_bool_decide as Hg; [|done]. simpl. case_bool_decide as Hin; [done|].
  intros [= <-] Hnd Hcl. split.
  - intros Ha. apply Hnd. rewrite map_app. apply NoDup_app. split; [done|]. split; [|apply NoDup_singleton].
    intros x Hx Hx'. apply list_elem_of_singleton in Hx' as ->. done.
  - intros Ha. apply Hcl, Forall_app. split; [done|]. by constructor.
Qed.

(** A node of the definition and the draft node it comes from: parameters may have been
    reset, the asset beside them is the draft's. *)
Record comes_from (n : PipelineNode) (dn : DraftNode) : Prop := {
  cf_id : n_id n = dn_id dn;
  cf_type : n_type n = dn_type dn;
  cf_asset : d_asset_id (n_data n) = draft_asset dn;
  cf_config : n_type n = "source" ->
    let v := dict_get (d_config (n_data n)) "asset_id" in v = dict_get (dn_config dn) "asset_id" \/ v = VNone }.

Definition drafted (draft : PipelineDraft) (d : PipelineDefinition) : Prop :=
  NoDup (map n_id (nodes d)) /\ NoDup (map e_id (edges d))
  /\ (forall e, e ∈ edges d -> e_source e ∈ map n_id (nodes d) /\ e_target e ∈ map n_id (nodes d))
  /\ (forall n, n ∈ nodes d -> exists dn, dn ∈ dr_nodes draft /\ comes_from n dn).

Lemma compiled_drafted registry draft d : pipeline_definition_from_draft registry draft = Ok d -> drafted draft d.
Proof.
  unfold pipeline_definition_from_draft. intros H. apply bind_Ok in H as (ns & Hns & H). apply bind_Ok in H as (es & Hes & H).
  injection H as <-. cbn [nodes edges]. destruct (compiled_nodes _ _ _ _ Hns) as [-> Hnd]. destruct (compiled_edges _ _ _ _ Hes) as [Hne Hcl].
  split; [|split; [|split]]; cbn [nodes edges].
  - apply Hnd, NoDup_nil_2.
  - apply Hne, NoDup_nil_2.
  - intros e He. specialize (Hcl (Forall_nil_2 _)). rewrite Forall_forall in Hcl. by apply Hcl.
  - intros n (i & dn & -> & Hi)%elem_of_lookup_imap. exists dn. split; [by eapply list_elem_of_lookup_2|]. by split; [..|left].
Qed.

(** ** Repair and policy *)

Definition reset_asset (name : string) (v : pyval) (n : PipelineNode) : Prop := n_type n = "source" -> name = "asset_id" -> v = VNone.

Lemma set_param_comes name v n dn : reset_asset name v n -> comes_from n dn ->
  comes_from (set_node_config (d_config (n_data n)).[name <- v] n) dn.
Proof.
  intros Hr [Hid Hty Has Hc]. split; cbn [set_node_config n_id n_type n_data d_asset_id d_config]; [done..|].
  intros Hs. unfold dict_get. rewrite dget_dset. case_decide as Hn; [right; by apply Hr|by apply Hc].
Qed.

Lemma elem_update_first id f ns n : n ∈ update_first id f ns -> n ∈ ns \/ exists m, _node ns id = Some m /\ m ∈ ns /\ n = f m.
Proof.
  induction ns as [|m ns IH]; simpl; [by intros ?%elem_of_nil|]. destruct (n_id m =? id)%string eqn:Hm.
  - intros [->|Hn]%elem_of_cons; [right; exists m; split_and!; [done|by left|done]|left; by right].
  - intros [->|Hn]%elem_of_cons; [left; by left|]. destruct (IH Hn) as [?|(k & Hk & Hin & ->)]; [left; by right|].
    right. exists k. split_and!; [done|by right|done].
Qed.

Lemma source_asset_default def p :
  get_type builtin_registry "source" = Some def -> find (fun p => (param_name p =? "asset_id")%string) (params def) = Some p ->
  param_default p = VNone.
Proof. intros H1 H2. vm_compute in H1. injection H1 as <-. vm_compute in H2. by injection H2 as <-. Qed.

Lemma repaired_node ns err ns' what n :
  repair_error builtin_registry [] ns err = inl (ns', what) -> n ∈ ns' ->
  n ∈ ns \/ exists m name v, m ∈ ns /\ reset_asset name v m /\ n = set_node_config (d_config (n_data m)).[name <- v] m.
Proof.
  assert (Hnone : forall id, _repair_missing_asset ns id [] = None) by (intros id; unfold _repair_missing_asset; by destruct (_node ns id)).
  intros H Hn. assert (Hp : exists id name, _repair_invalid_param builtin_registry ns id name = Some ns').
  { revert H. unfold repair_error. repeat case_match; intros [= <- <-]; simplify_eq; eauto; exfalso; by rewrite Hnone in *. }
  destruct Hp as (id & name & Hp). revert Hp. unfold _repair_invalid_param. destruct (_node ns id) as [node|] eqn:Hnode; [|done].
  destruct (get_type _ _) as [def|] eqn:Hdef; [|done]. destruct (find _ _) as [p|] eqn:Hfind; [|done]. intros [= <-].
  apply elem_update_first in Hn as [?|(m & Hm & Hin & ->)]; [by left|]. right. rewrite Hnode in Hm. injection Hm as ->.
  exists m, name, (param_default p). split_and!; [done| |done]. intros Hs ->. rewrite Hs in Hdef. by eapply source_asset_default.
Qed.

Definition nodes_drafted (draft : PipelineDraft) (ns : list PipelineNode) : Prop :=
  forall n, n ∈ ns -> exists dn, dn ∈ dr_nodes draft /\ comes_from n dn.

Lemma repair_drafted_nodes draft errs ns applied bad ns' applied' bad' :
  fold_left (repair_step builtin_registry []) errs (ns, applied, bad) = (ns', applied', bad') ->
  nodes_drafted draft ns -> nodes_drafted draft ns'.
Proof.
  revert ns applied bad. induction errs as [|e errs IH]; intros ns applied bad; cbn [fold_left]; [by intros [= <- _ _]|].
  unfold repair_step at 2. destruct (repair_error _ _ ns e) as [[ns1 what]|why] eqn:He; intros Hf Hns; eapply IH; try exact Hf; [|done].
  intros n Hn. destruct (repaired_node _ _ _ _ _ He Hn) as [?|(m & name & v & Hm & Hr & ->)]; [by apply Hns|].
  destruct (Hns m Hm) as (dn & Hdn & Hc). exists dn. split; [done|]. by apply set_param_comes.
Qed.

Lemma repair_drafted draft d errs r :
  drafted draft d -> repair builtin_registry d errs [] = inl r -> drafted draft (ar_definition r).
Proof.
  intros (Hnd & Hne & Hcl & Hns). unfold repair. destruct (fold_left _ errs _) as [[ns applied] bad] eqn:Hf.
  pose proof (repair_drafted_nodes _ _ _ _ _ _ _ _ Hf Hns) as Hns'. apply repair_steps in Hf as (Hid & _).
  destruct bad; [|done]. intros [= <-]. cbn [ar_definition].
  assert (Hids : map n_id ns = map n_id (nodes d)) by (apply (f_equal (map fst)) in Hid; by rewrite !map_map in Hid).
  unfold drafted. cbn [nodes edges]. by rewrite Hids.
Qed.

Lemma drafted_sub draft d ids : drafted draft d -> drafted draft (without_nodes ids d).
Proof.
  intros (Hnd & Hne & Hcl & Hns). unfold drafted, without_nodes. cbn [nodes edges]. split_and!.
  - by apply NoDup_map_filter.
  - by apply NoDup_map_filter.
  - intros e [He [Hs%negb_true_iff%bool_decide_eq_false Ht%negb_true_iff%bool_decide_eq_false]%andb_prop]%elem_of_lfilter.
    destruct (Hcl e He) as [(a & Ha & Hina)%list_elem_of_fmap (b & Hb & Hinb)%list_elem_of_fmap].
    split; apply list_elem_of_fmap; eexists; (split; [done|]); apply elem_of_lfilter; (split; [done|]);
      by rewrite <- ?Ha, <- ?Hb, negb_true_iff, bool_decide_eq_false.
  - intros n [Hn _]%elem_of_lfilter. by apply Hns.
Qed.

Lemma forced_comes mode n dn : comes_from n dn -> comes_from (force_privacy mode n).1 dn.
Proof.
  unfold force_privacy. destruct (is_upload n) eqn:Hu; [|done]. simpl. destruct (match _ with Some _ => _ | None => _ end); [done|].
  simpl. apply set_param_comes. intros Hs. unfold is_upload in Hu. rewrite Hs in Hu. by vm_compute in Hu.
Qed.

Lemma policy_drafted draft d r : drafted draft d ->
  pr_valid (validate_pipeline_policy d r) = true -> drafted draft (pr_definition (validate_pipeline_policy d r)).
Proof.
  intros Hd Hv. rewrite (policy_accepts _ _ Hv). destruct (_ =? "preview_only")%string.
  - destruct (uniq _); [done|]. by apply drafted_sub.
  - destruct Hd as (Hnd & Hne & Hcl & Hns). unfold drafted. cbn [nodes edges].
    assert (Hids : map n_id (map (fun n => (force_privacy (rq_publish_mode r) n).1) (nodes d)) = map n_id (nodes d)).
    { rewrite map_map. apply map_ext. intros n. apply force_identity. }
    rewrite Hids. split_and!; [done..|]. intros n (m & -> & Hm)%list_elem_of_fmap. destruct (Hns m Hm) as (dn & Hdn & Hc).
    exists dn. split; [done|]. by apply forced_comes.
Qed.

(** Without repairs the policy returns the definition it was given. *)
Lemma policy_unrepaired d r :
  pr_valid (validate_pipeline_policy d r) = true -> pr_repairs (validate_pipeline_policy d r) = [] ->
  pr_definition (validate_pipeline_policy d r) = d.
Proof.
  intros Hv. rewrite (policy_accepts _ _ Hv). revert Hv. unfold validate_pipeline_policy.
  destruct (_ =? "preview_only")%string.
  - destruct (uniq _) as [|i l]; [done|]. simpl. destruct_verdict; [|done]. intros _ Hr%map_eq_nil.
    pose proof (merge_sort_Permutation str_le (i :: l)) as Hp. rewrite Hr in Hp. by apply Permutation_nil_l in Hp.
  - simpl. destruct_verdict; [|done]. intros _ Hr. destruct d as [ns es vp]. simpl in *. f_equal.
    apply concat_nil_Forall in Hr. rewrite Forall_map in Hr. rewrite <-(map_id ns) at 2. apply map_ext_in.
    intros n Hn%list_elem_of_In. rewrite Forall_forall in Hr. specialize (Hr n Hn). simpl in Hr. revert Hr. unfold force_privacy.
    destruct (is_upload n); [|done]. simpl. by destruct (match _ with Some _ => _ | None => _ end).
Qed.

(** A definition the policy does not send to review has no upload and nothing from outside. *)
Lemma policy_unreviewed d r :
  pr_valid (validate_pipeline_policy d r) = true -> pr_requires_review (validate_pipeline_policy d r) = false ->
  forall n, n ∈ nodes (pr_definition (validate_pipeline_policy d r)) -> is_external_source n = false /\ is_upload n = false.
Proof.
  intros Hv. rewrite (policy_accepts _ _ Hv). revert Hv. unfold validate_pipeline_policy.
  destruct (_ =? "preview_only")%string.
  - assert (Hids : forall n, n ∈ nodes d -> n_id n ∉ uniq (map n_id (List.filter is_upload (nodes d))) -> is_upload n = false).
    { intros n Hn Hnot. destruct (is_upload n) eqn:Hu; [|done]. destruct Hnot. apply elem_of_uniq, elem_map. by apply elem_of_lfilter. }
    destruct (uniq _) as [|i l] eqn:Hu; simpl; destruct_verdict; simpl; try done; intros _; rewrite orb_false_r; intros Hext n.
    + intros Hn. split; [by eapply existsb_false_all|]. apply Hids; [done|apply not_elem_of_nil].
    + intros [Hn Hi%negb_true_iff%bool_decide_eq_false]%elem_of_lfilter. split; [by eapply existsb_false_all|]. by apply Hids.
  - simpl. destruct_verdict; [|done]. intros _. rewrite orb_false_r. intros [Hext Hup]%orb_false_elim n (m & -> & Hm)%list_elem_of_fmap.
    unfold is_external_source, is_upload. rewrite !(proj2 (force_identity _ m)).
    split; [by apply (existsb_false_all is_external_source (nodes d))|by apply (existsb_false_all is_upload (nodes d))].
Qed.

(** ** Outcomes *)

Section Outcome.
Context (ai : bool) (read_draft : pyval -> Res PipelineDraft) (provider : GraphRequest -> Res (option (PipelineDraft * string))).

Lemma repair_once_inv draft d d' v repairs :
  drafted draft d -> repair_once builtin_registry d = Ok (d', v, repairs) ->
  drafted draft d' /\ validate_pipeline builtin_registry d' = Ok v.
Proof.
  intros Hd. unfold repair_once. intros H. apply bind_Ok in H as (v0 & Hv0 & H). destruct (valid v0).
  { injection H as <- <- <-. done. }
  destruct (repair builtin_registry d _ _) as [r|] eqn:Hr; [|done]. apply bind_Ok in H as (v1 & Hv1 & H). injection H as <- <- <-.
  split; [|done]. by eapply repair_drafted.
Qed.

Lemma plan_inv r o :
  plan builtin_registry ai read_draft provider r = Ok o ->
  exists d, drafted (go_draft o) d /\ go_policy o = validate_pipeline_policy d (gr_request r)
    /\ pr_valid (go_policy o) = true /\ go_definition o = pr_definition (go_policy o)
    /\ validate_pipeline builtin_registry (go_definition o) = Ok (go_validation o) /\ valid (go_validation o) = true
    /\ go_candidates o = _candidates_from_draft (go_draft o).
Proof.
  unfold plan. intros H. apply bind_Ok in H as ([draft source] & _ & H). apply bind_Ok in H as (d0 & Hd0 & H).
  apply compiled_drafted in Hd0. apply bind_Ok in H as ([[d v] repairs] & Hr & H).
  destruct (repair_once_inv _ _ _ _ _ Hd0 Hr) as [Hd Hv]. set (policy := validate_pipeline_policy d (gr_request r)) in H.
  apply bind_Ok in H as ([d1 v1] & Hs & H). cbn [ga_valid] in H. destruct (valid v1 && pr_valid policy) eqn:Hok; [|done].
  apply andb_prop in Hok as [Hv1 Hp]. injection H as <-. exists d.
  cbn [go_draft go_policy go_definition go_validation go_candidates]. fold policy.
  assert (Hdef : d1 = pr_definition policy /\ validate_pipeline builtin_registry d1 = Ok v1).
  { destruct (pr_repairs policy) as [|x l] eqn:Hrep.
    - injection Hs as <- <-. split; [|done]. symmetry. by apply policy_unrepaired.
    - apply bind_Ok in Hs as (v2 & Hv2 & Hs). by injection Hs as <- <-. }
  destruct Hdef as [-> Hval]. done.
Qed.

Lemma runtime_same d : (forall n, n ∈ nodes d -> is_planner_node_type (n_type n) = false) -> compile_runtime_definition d = d.
Proof.
  intros Hn. unfold compile_runtime_definition.
  assert (planner_node_ids d = []) as ->.
  { unfold planner_node_ids. by rewrite filter_none. }
  destruct d as [ns es vp]. cbn [nodes edges viewport]. f_equal; by apply filter_keep.
Qed.
End Outcome.

(** C20. What the planner returns can be used.  A plan has a definition that validates, with
    distinct node and edge identifiers and only nodes of the draft; uploads have a privacy
    the publish mode permits, and under [owned_only] nothing comes from outside; and when
    it has no node left to plan, a job is created from it. *)
Theorem graph_plan_sound ai read_draft provider r o :
  rq_publish_mode (gr_request r) ∈ PUBLISH_MODES ->
  plan builtin_registry ai read_draft provider r = Ok o ->
  let d := go_definition o in
  validate_pipeline builtin_registry d = Ok (go_validation o) /\ well_formed builtin_registry d
  /\ NoDup (map n_id (nodes d)) /\ NoDup (map e_id (edges d))
  /\ (forall n, n ∈ nodes d -> exists dn, dn ∈ dr_nodes (go_draft o) /\ n_id n = dn_id dn /\ n_type n = dn_type dn)
  /\ (forall n, n ∈ nodes d -> is_upload n = true ->
       exists p, p ∈ permitted_privacies (rq_publish_mode (gr_request r)) /\ (d_config (n_data n)).[? "privacy"] = Some (VStr p))
  /\ (rq_source_policy (gr_request r) = "owned_only" -> forall n, n ∈ nodes d -> is_external_source n = false)
  /\ ((forall n, n ∈ nodes d -> is_planner_node_type (n_type n) = false) ->
      forall new_uuid now pid, exists j, create_job builtin_registry new_uuid now (Some d) pid None = Ok j
        /\ j_pipeline_snapshot j = d).
Proof.
  intros Hmode Hplan d0. subst d0. destruct (plan_inv _ _ _ _ _ Hplan) as (d & Hd & Hpol & Hpv & Hdef & Hval & Hv & _).
  rewrite Hpol in Hpv, Hdef. pose proof (policy_drafted _ _ _ Hd Hpv) as (Hnd & Hne & _ & Hns).
  destruct Hd as (_ & _ & Hcl & _). destruct (pipeline_policy_sound d (gr_request r) Hmode Hcl Hpv) as (Hup & Hext & _).
  rewrite <- Hdef in *. split_and!; [done|by eapply validate_pipeline_wf|done|done| |done|done|].
  - intros n Hn. destruct (Hns n Hn) as (dn & Hdn & [Hid Hty _ _]). by exists dn.
  - intros Hp new_uuid now pid. assert (Hrv : require_valid builtin_registry (go_definition o) = Ok tt) by (unfold require_valid; by rewrite Hval, Hv).
    eexists. unfold create_job. cbn [_apply_input_overrides]. rewrite Hrv. unfold _create_job_from_definition.
    rewrite runtime_same by done. rewrite Hrv. done.
Qed.

(** ** Rights come from stored assets *)

Lemma rights_status_facts m : rights_status_from_metadata (rights_metadata_from_mapping m) = rights_status_from_metadata m.
Proof. unfold rights_status_from_metadata. by rewrite !rights_metadata_get by set_solver. Qed.

Lemma rights_status_cases m : rights_status_from_metadata m = "allowed" \/ rights_status_from_metadata m ∈ RESTRICTIVE.
Proof.
  unfold rights_status_from_metadata. case_bool_decide as Hs; [by right|]. case_bool_decide; [by left|right; set_solver].
Qed.

Lemma restrictive_token s : s ∈ RESTRICTIVE -> _normalized_token (Some (VStr s)) ∈ RESTRICTIVE.
Proof. intros [->|[->|[->|[]%elem_of_nil]%elem_of_cons]%elem_of_cons]%elem_of_cons; vm_compute; set_solver. Qed.

(** An asset that was found and whose own metadata says it may be used. *)
Definition grounded (assets : list Asset) (text : string) : Prop :=
  exists a, a ∈ assets /\ uuid_of_string text = Ok (as_id a) /\ rights_status_from_metadata (as_media_info a) = "allowed".

Lemma candidate_grounded assets c text :
  cc_asset_id c = Some text -> text <> "" ->
  _normalized_token (Some (VStr (cc_rights_status (_asset_candidate_rights assets c)))) ∉ RESTRICTIVE -> grounded assets text.
Proof.
  intros Hc Ht. unfold _asset_candidate_rights. rewrite Hc. destruct text as [|a0 text0]; [done|]. set (text := String a0 text0).
  unfold uuid_or_none. destruct (uuid_of_string text) as [id|] eqn:Hid.
  2:{ intros []. vm_compute. set_solver. }
  change (Some id ≫= ?f) with (f id). cbv beta. destruct (find _ assets) as [a|] eqn:Hf.
  2:{ intros []. vm_compute. set_solver. }
  apply find_some in Hf as [Hin Ha%String.eqb_eq]. apply list_elem_of_In in Hin.
  intros Hres. exists a. split; [done|]. split; [by rewrite Ha|]. revert Hres.
  destruct (_ =? "blocked")%string; [intros []; vm_compute; set_solver|].
  match goal with |- context [cc_rights_status ?x] => change (cc_rights_status x) with (rights_status_from_metadata (rights_metadata_from_mapping (as_media_info a))) end.
  rewrite rights_status_facts. intros Hres. destruct (rights_status_cases (as_media_info a)) as [?|Hbad]; [done|].
  destruct Hres. by apply restrictive_token.
Qed.

Lemma graph_rights_allowed r assets o : rd_status (graph_rights r assets o) = "allowed" ->
  pr_requires_review (go_policy o) = false
  /\ forall c, c ∈ go_candidates o ->
       _normalized_token (Some (VStr (cc_rights_status (_asset_candidate_rights assets c)))) ∉ RESTRICTIVE.
Proof.
  unfold graph_rights. destruct (pr_requires_review (go_policy o)); simpl.
  - destruct (String.eqb_spec (rd_status (evaluate r (map (_asset_candidate_rights assets) (go_candidates o)))) "allowed"); [done|congruence].
  - intros (_ & _ & _ & Hall)%evaluate_allowed. split; [done|]. intros c Hc.
    destruct (Hall (_asset_candidate_rights assets c)) as (_ & _ & _ & Hst); [by apply elem_map|]. apply Hst, elem_of_app. right. by left.
Qed.

Lemma source_grounded r assets o dn :
  rd_status (graph_rights r assets o) = "allowed" -> go_candidates o = _candidates_from_draft (go_draft o) ->
  dn ∈ dr_nodes (go_draft o) -> dn_type dn = "source" -> truthy_str (draft_asset dn) = true ->
  exists text, draft_asset dn = Some text /\ grounded assets text.
Proof.
  intros Ha Hc Hdn Hty Htr. apply graph_rights_allowed in Ha as [_ Ha].
  assert (Hcand : graph_candidate dn "asset" None (draft_asset dn) ∈ go_candidates o).
  { rewrite Hc. apply list_elem_of_omap. exists dn. split; [done|]. unfold node_candidate. rewrite Hty. simpl. by rewrite Htr. }
  specialize (Ha _ Hcand). destruct (draft_asset dn) as [text|] eqn:Hd; [|done]. exists text. split; [done|].
  eapply candidate_grounded; [|by destruct text|exact Ha]. done.
Qed.

(** ** The assets a job reads *)

Lemma unplanned_unbound d ty h :
  (forall n, n ∈ nodes d -> is_planner_node_type (n_type n) = false) -> planner_bound d ty h = [].
Proof.
  intros Hn. unfold planner_bound. rewrite filter_none; [done|]. intros e _.
  destruct ((nodes_by_id d).[? e_source e]) as [s|] eqn:Hs; [|done]. destruct ((nodes_by_id d).[? e_target e]) as [t|]; [|done].
  apply nodes_by_id_elem in Hs as [Hs _]. destruct (String.eqb_spec (n_type s) "zip_records") as [Hz|]; [|done].
  specialize (Hn s Hs). by rewrite Hz in Hn.
Qed.

(** A source of a valid runtime definition names its asset in its parameters. *)
Lemma source_param d n :
  well_formed builtin_registry d -> (forall n, n ∈ nodes d -> is_planner_node_type (n_type n) = false) ->
  n ∈ nodes d -> n_type n = "source" ->
  let v := dict_get (d_config (n_data n)) "asset_id" in is_none v = false /\ is_str v "" = false.
Proof.
  intros Hwf Hpl Hn Hty v.
  assert (Hdef : exists def p, get_type builtin_registry "source" = Some def /\ p ∈ params def
            /\ param_name p = "asset_id" /\ param_required p = true).
  { do 2 eexists. split; [vm_compute; reflexivity|]. split; [left|]. done. }
  destruct Hdef as (def & p & Hdef & Hp & Hname & Hreq). rewrite <- Hty in Hdef.
  destruct (wf_params _ _ Hwf n def p Hn Hdef Hp) as [Hb|Hfit].
  - exfalso. apply planner_supplied_spec in Hb. revert Hb.
    unfold planner_supplied, planner_bound_url_nodes, planner_bound_source_nodes. rewrite !unplanned_unbound by done.
    rewrite !bool_decide_false, !andb_false_r by apply not_elem_of_nil. done.
  - rewrite Hname in Hfit. fold v in Hfit. destruct (pf_present _ _ Hfit Hreq) as [H1 H2].
    split; apply not_true_is_false; [by rewrite is_none_spec | by rewrite is_str_spec].
Qed.

(** The two places of an asset in a draft node agree. *)
Definition consistent (dn : DraftNode) : Prop :=
  let v := dict_get (dn_config dn) "asset_id" in
  truthy v = true -> truthy_str (dn_asset_id dn) = true -> dn_asset_id dn = Some (py_str v).

Lemma py_str_nonempty v : is_str v "" = false -> py_str v <> "".
Proof.
  destruct v; simpl; try done.
  - by destruct b.
  - intros _. apply str_of_Z_nonempty.
  - intros _. apply float_repr_nonempty.
  - intros H ->. done.
Qed.

Lemma source_asset n dn : comes_from n dn -> consistent dn -> n_type n = "source" ->
  let v := dict_get (d_config (n_data n)) "asset_id" in is_none v = false -> is_str v "" = false ->
  truthy_str (draft_asset dn) = true /\ draft_asset dn = Some (py_str (dict_get (job_node_config n) "asset_id")).
Proof.
  intros [_ _ Has Hcfg] Hcon Hty v Hnone Hstr. destruct (Hcfg Hty) as [Hv|Hv]; [|fold v in Hv; by rewrite Hv in Hnone].
  fold v in Hv. unfold consistent in Hcon. rewrite <- Hv in Hcon.
  assert (Hsome : draft_asset dn = if truthy_str (dn_asset_id dn) then dn_asset_id dn else Some (py_str v)).
  { unfold draft_asset. rewrite <- Hv. destruct (truthy_str _); [done|]. by destruct v. }
  assert (Htr : truthy_str (draft_asset dn) = true).
  { rewrite Hsome. destruct (truthy_str (dn_asset_id dn)) eqn:Ht; [done|]. simpl. pose proof (py_str_nonempty v Hstr). by destruct (py_str v). }
  split; [done|]. unfold job_node_config. rewrite Hty. cbn [String.eqb Ascii.eqb Bool.eqb]. fold v. unfold py_or. rewrite Has.
  destruct (truthy v) eqn:Hv1.
  - rewrite Hv1. unfold dict_get at 1. rewrite dget_dset_eq. cbn [default]. rewrite Hsome.
    destruct (truthy_str (dn_asset_id dn)) eqn:Ht; [|done]. by apply Hcon.
  - destruct (draft_asset dn) as [text|]; [|done]. cbn [truthy] in *. unfold truthy_str in Htr. rewrite Htr.
    unfold dict_get at 1. by rewrite dget_dset_eq.
Qed.

(** C39. Rights are grounded in what is stored.  When the rights of a graph plan are allowed,
    nothing of the definition comes from outside or uploads; and, provided the drafts
    of sources do not name one asset beside and another in their parameters, every source
    of a job created from the plan reads a stored asset whose own metadata allows its
    use, whatever the draft claims. *)
Theorem graph_sources_grounded ai read_draft provider r o assets new_uuid now pid j :
  plan builtin_registry ai read_draft provider r = Ok o ->
  rd_status (graph_rights (gr_request r) assets o) = "allowed" ->
  (forall dn, dn ∈ dr_nodes (go_draft o) -> dn_type dn = "source" -> consistent dn) ->
  create_job builtin_registry new_uuid now (Some (go_definition o)) pid None = Ok j ->
  (forall n, n ∈ nodes (go_definition o) -> is_external_source n = false /\ is_upload n = false)
  /\ forall ne, ne ∈ j_node_executions j -> ne_node_type ne = "source" ->
       grounded assets (py_str (dict_get (ne_node_config ne) "asset_id")).
Proof.
  intros Hplan Hall Hcon Hjob. destruct (plan_inv _ _ _ _ _ Hplan) as (d & Hd & Hpol & Hpv & Hdef & Hval & Hv & Hcand).
  pose proof (graph_rights_allowed _ _ _ Hall) as [Hrev _].
  assert (Hns : drafted (go_draft o) (go_definition o)) by (rewrite Hdef, Hpol; rewrite Hpol in Hpv; by apply policy_drafted).
  split.
  - rewrite Hdef, Hpol in *. by apply policy_unreviewed.
  - intros ne Hne Hty. revert Hjob. unfold create_job. cbn [_apply_input_overrides]. unfold _create_job_from_definition.
    destruct (require_valid _ (go_definition o)); [|done]. set (rt := compile_runtime_definition (go_definition o)).
    destruct (require_valid _ rt) as [[]|] eqn:Hrv; [|done]. intros [= <-]. cbn [j_node_executions] in Hne.
    apply elem_of_lookup_imap in Hne as (i & n & -> & Hi). apply list_elem_of_lookup_2 in Hi as Hn.
    change (ne_node_type _) with (n_type n) in Hty. change (ne_node_config _) with (job_node_config n).
    pose proof (require_valid_wf _ _ Hrv) as Hwf.
    destruct (source_param rt n Hwf) as [Hv1 Hv2]; [intros m; apply runtime_no_planner|done|done|].
    assert (Hnd : n ∈ nodes (go_definition o)) by (unfold rt in Hn; cbn [compile_runtime_definition nodes] in Hn; by apply elem_of_lfilter in Hn as [? _]).
    destruct Hns as (_ & _ & _ & Hns). destruct (Hns n Hnd) as (dn & Hdn & Hc).
    assert (Hdt : dn_type dn = "source") by (by rewrite <- (cf_type _ _ Hc)).
    destruct (source_asset n dn Hc (Hcon dn Hdn Hdt) Hty Hv1 Hv2) as [Htr Hsome].
    destruct (source_grounded _ _ _ dn Hall Hcand Hdn Hdt Htr) as (text & Ht & Hg). congruence.
Qed.

(** ** The built-in rule always plans *)

Definition request_of (mode : string) (owned : bool) : AutoFlowRequest :=
  {| rq_prompt := ""; rq_source_policy := if owned then "owned_only" else "remix_with_review"; rq_publish_mode := mode |}.

Lemma policy_reads d r :
  validate_pipeline_policy d r
  = validate_pipeline_policy d (request_of (rq_publish_mode r) (rq_source_policy r =? "owned_only")%string).
Proof. unfold validate_pipeline_policy, request_of. cbn [rq_publish_mode rq_source_policy]. by destruct (rq_source_policy r =? "owned_only")%string. Qed.

Definition rule_checked (mode : string) (owned : bool) : bool :=
  match pipeline_definition_from_draft builtin_registry (dog_cat_draft mode) with
  | Ok d =>
      match validate_pipeline builtin_registry d with
      | Ok v => let p := validate_pipeline_policy d (request_of mode owned) in
                valid v && pr_valid p && match pr_repairs p with [] => true | _ => false end
      | Raise _ => false
      end
  | Raise _ => false
  end.

Lemma rule_checks mode owned : mode ∈ PUBLISH_MODES -> rule_checked mode owned = true.
Proof.
  intros [->|[->|[->|[->|[]%elem_of_nil]%elem_of_cons]%elem_of_cons]%elem_of_cons]%elem_of_cons; destruct owned; by vm_compute.
Qed.

(** A prompt for the rule is planned without repairs, whatever the source policy. *)
Lemma rule_draft_plans read_draft provider r :
  rq_publish_mode (gr_request r) ∈ PUBLISH_MODES -> dog_cat_prompt (rq_prompt (gr_request r)) = true ->
  truthy (dict_get (gr_constraints r) "pipeline_draft") = false ->
  exists o, plan builtin_registry false read_draft provider r = Ok o
    /\ go_draft o = dog_cat_draft (rq_publish_mode (gr_request r)) /\ ga_repairs (go_attempt o) = [].
Proof.
  intros Hm Hp Hc. pose proof (rule_checks (rq_publish_mode (gr_request r)) (rq_source_policy (gr_request r) =? "owned_only")%string Hm) as H.
  unfold plan, _draft_for_request, repair_once. rewrite Hc, andb_false_r. change (Ok None ≫= ?f) with (f (@None (PipelineDraft * string))).
  cbv beta iota. unfold _dog_cat_vertical_timeline_draft. rewrite Hp. unfold mbind, Res_bind. unfold rule_checked in H.
  destruct (pipeline_definition_from_draft _ _) as [d|]; [|done]. destruct (validate_pipeline _ d) as [v|]; [|done].
  cbv zeta in H. apply andb_prop in H as [[Hv Hpv]%andb_prop Hr]. cbv beta iota zeta. rewrite Hv. rewrite (policy_reads d (gr_request r)).
  set (policy := validate_pipeline_policy d _) in *. destruct (pr_repairs policy) as [|]; [|done].
  eexists. cbn [ga_valid]. rewrite Hv, Hpv. done.
Qed.

(** ** Examples *)

Module GraphDemo.
Definition owned : Asset :=
  {| as_id := uuid_str 1; as_filename := "a"; as_original_name := "a"; as_mime_type := Some "video/mp4"; as_file_size := None;
     as_storage_backend := "local"; as_storage_path := "a"; as_media_info := [("license", VStr "owned")] |}.
Definition foreign : Asset := owned <| as_id := uuid_str 2 |> <| as_media_info := [("rights_status", VStr "blocked")] |>.
Definition assets : list Asset := [owned; foreign].

(** A preview of one source, whose parameters may name another asset. *)
Definition draft (in_config : string) : PipelineDraft :=
  {| dr_name := "demo"; dr_description := "";
     dr_nodes := [{| dn_id := "s"; dn_type := "source"; dn_label := ""; dn_config := [("asset_id", VStr in_config); ("media_type", VStr "video")];
                     dn_asset_id := Some (uuid_str 1); dn_position := None |};
                  plain_node "t" "transcode" "" [("format", VStr "mp4"); ("video_codec", VStr "libx264"); ("audio_codec", VStr "aac"); ("crf", VInt 23)]];
     dr_edges := [plain_edge "s" "t" "input"]; dr_planner_notes := []; dr_assumptions := []; dr_risk_flags := [] |}.
Definition request : GraphRequest :=
  {| gr_request := {| rq_prompt := "demo"; rq_source_policy := "owned_only"; rq_publish_mode := "preview_only" |};
     gr_constraints := [("pipeline_draft", VBool true)]; gr_allow_experimental := false; gr_provider_config_id := None; gr_model := None |}.
Definition no_provider (r : GraphRequest) : Res (option (PipelineDraft * string)) := Ok None.
Definition planned (in_config : string) : Res GraphPlanningOutcome :=
  plan builtin_registry false (fun _ => Ok (draft in_config)) no_provider request.
Definition started (in_config : string) : Res Job :=
  o ← planned in_config; create_job builtin_registry (fun i => uuid_str (Z.of_nat (10 + i))) 0%Z (Some (go_definition o)) (uuid_str 9) None.
End GraphDemo.

Lemma graph_plan_sound_witness :
  exists o, GraphDemo.planned (uuid_str 1) = Ok o /\ NoDup (map n_id (nodes (go_definition o))).
Proof.
  eexists. split; [vm_compute; reflexivity|].
  eapply (graph_plan_sound false (fun _ => Ok (GraphDemo.draft (uuid_str 1))) GraphDemo.no_provider GraphDemo.request);
    [by apply (bool_decide_unpack _)|vm_compute; reflexivity].
Defined.

Lemma graph_sources_grounded_witness :
  exists o j, GraphDemo.planned (uuid_str 1) = Ok o /\ GraphDemo.started (uuid_str 1) = Ok j
    /\ forall ne, ne ∈ j_node_executions j -> ne_node_type ne = "source" ->
         grounded GraphDemo.assets (py_str (dict_get (ne_node_config ne) "asset_id")).
Proof.
  eexists _, _. split; [vm_compute; reflexivity|]. split; [vm_compute; reflexivity|].
  eapply (graph_sources_grounded false (fun _ => Ok (GraphDemo.draft (uuid_str 1))) GraphDemo.no_provider GraphDemo.request _ GraphDemo.assets
            (fun i => uuid_str (Z.of_nat (10 + i))) 0%Z (uuid_str 9));
    [vm_compute; reflexivity|vm_compute; reflexivity| |vm_compute; reflexivity].
  intros dn [->|[->|[]%elem_of_nil]%elem_of_cons]%elem_of_cons Hty; [vm_compute; reflexivity|discriminate].
Defined.

(** The two places of an asset are not compared: a draft that names an owned asset beside
    and a blocked one in its parameters is allowed, and the job reads the blocked one. *)
Example swapped_asset_allowed :
  (exists o, GraphDemo.planned (uuid_str 2) = Ok o /\ rd_status (graph_rights (gr_request GraphDemo.request) GraphDemo.assets o) = "allowed")
  /\ (j ← GraphDemo.started (uuid_str 2); Ok (map (fun ne => dict_get (ne_node_config ne) "asset_id") (j_node_executions j)))
     = Ok [VStr (as_id GraphDemo.foreign); VNone]
  /\ rights_status_from_metadata (as_media_info GraphDemo.foreign) = "blocked".
Proof.
  split_and!; [eexists; split; [vm_compute; reflexivity|vm_compute; reflexivity]|vm_compute; reflexivity..].
Qed.
