(* ===== verification/PlanExecute.v ===== *)
(** * Execution of AutoFlow plans ([autoflow/service.py], [autoflow/recent_usage.py])

    A request to execute a plan creates a run, a pipeline and a job, once for each
    idempotency key; a repeated request gets the run there is.  A request of the channel
    agent is bound to a production task and to the claim of its queue item.

    A call is one transaction: it returns with the rows it commits, or raises and leaves
    none.  The reading of stored JSON into a pipeline definition (pydantic) and the locks of
    owned inventories are parameters. *)

From stdpp Require Import base tactics list strings relations.
From Stdlib Require Import ZArith Lia.
From coqutil Require Import Datatypes.RecordSetters.
From S2P Require Import Prelude PyStr PyValue PyJson PyTime PyUuid NodeRegistry Pipeline JobModel PlanApproval Outbox ChannelQueue ChannelRunner AgentModel Schedule JobService PipelineService.
Import TriangleBracketNotations.

Open Scope string_scope.
Open Scope list_scope.

(** ** Rows and requests *)

Record AutoFlowRunModel := {
  rn_id : uuid;
  rn_plan_id : uuid;
  rn_pipeline_id : option uuid;
  rn_job_id : option uuid;
  rn_status : string;
  rn_artifacts_json : config;
  rn_publish_json : config;
  rn_error_message : option string;
  rn_execute_idempotency_key : option string;
  rn_request_fingerprint : option string }.

Record AutoFlowUsedClip := {
  uc_run_id : uuid;
  uc_asset_id : string;
  uc_source_platform : option string;
  uc_candidate_title : pyval;
  uc_selected_at : datetime;
  uc_metadata_json : config }.

Record AutoFlowExecuteRequest := {
  xr_plan_id : string;
  xr_save_as_template : bool;
  xr_execute : bool;
  xr_review_approved : bool;
  xr_public_approved : bool;
  xr_idempotency_key : option string;
  xr_expected_approved_revision_hash : option string;
  xr_expected_approved_revision : option Z;
  xr_production_task_id : option string;
  xr_queue_item_id : option string;
  xr_queue_locked_by : option string;
  xr_queue_locked_at : option datetime }.

Record ExecDb := {
  x_plans : list Plan;
  x_runs : list AutoFlowRunModel;
  x_pipelines : list PipelineRow;
  x_jobs : list Job;
  x_schedule : option RuntimeSchedule;
  x_tasks : list AgentModel.ProductionTask;
  x_channels : list JobModel.ChannelProfile;
  x_queue : queue_table;
  x_assets : list Asset;
  x_clips : list AutoFlowUsedClip }.

Definition JobStatus_value (s : JobStatus.t) : string :=
  match s with
  | JobStatus.PENDING => "PENDING" | JobStatus.WAITING_WINDOW => "WAITING_WINDOW" | JobStatus.VALIDATING => "VALIDATING"
  | JobStatus.PLANNING => "PLANNING" | JobStatus.RUNNING => "RUNNING" | JobStatus.SUCCEEDED => "SUCCEEDED"
  | JobStatus.FAILED => "FAILED" | JobStatus.CANCELLED => "CANCELLED" | JobStatus.PARTIALLY_FAILED => "PARTIALLY_FAILED"
  end.

Definition or_none (o : option string) : pyval := match o with Some s => VStr s | None => VNone end.

(** ** Keys, authority and replay *)

(** [one_shot] is the key drawn for a request without one. *)
Definition _execute_idempotency_key (one_shot : uuid) (r : AutoFlowExecuteRequest) : Res string :=
  match xr_idempotency_key r with
  | None => Ok ("autoflow-one-shot:" +:+ one_shot)
  | Some k =>
      if is_empty (strip k) then Raise (ValueError "AutoFlow execute idempotency_key must not be blank") else Ok (strip k)
  end.

Definition _expected_execute_authority (r : AutoFlowExecuteRequest) : Res (option (string * Z)) :=
  match xr_expected_approved_revision_hash r, xr_expected_approved_revision r with
  | None, None => Ok None
  | Some h, Some n => Ok (Some (h, n))
  | _, _ => Raise (ValueError "AutoFlow expected approved revision hash and revision must be provided together")
  end.

Definition binding_parts (r : AutoFlowExecuteRequest) : option (string * string * string * datetime) :=
  match xr_production_task_id r, xr_queue_item_id r, xr_queue_locked_by r, xr_queue_locked_at r with
  | Some t, Some q, Some by_, Some at_ => Some (t, q, by_, at_)
  | _, _, _, _ => None
  end.

Definition unbound (r : AutoFlowExecuteRequest) : bool :=
  match xr_production_task_id r, xr_queue_item_id r, xr_queue_locked_by r, xr_queue_locked_at r with
  | None, None, None, None => true
  | _, _, _, _ => false
  end.

(** Times carry their zone. *)
Definition _channelops_execute_binding (r : AutoFlowExecuteRequest) : Res (option (uuid * uuid * string * datetime)) :=
  if unbound r then Ok None
  else
    match binding_parts r with
    | None => Raise (ValueError "ChannelOps production task, queue item, and queue lease authority must be provided together")
    | Some (t, q, by_, at_) =>
        if is_empty (strip by_) then Raise (ValueError "ChannelOps queue lease owner must not be blank")
        else
          match uuid_of_string t, uuid_of_string q with
          | Ok task_id, Ok item_id => Ok (Some (task_id, item_id, strip by_, at_))
          | _, _ => Raise (ValueError "ChannelOps execution authority ids must be valid UUIDs")
          end
    end.

Definition given_entry (key : string) (v : option pyval) : config := match v with Some v => [(key, v)] | None => [] end.

Section Digest.
Context (sha256 : string -> string).

Definition fingerprint_payload (r : AutoFlowExecuteRequest) (plan_id : uuid) : config :=
  [("plan_id", VStr plan_id); ("save_as_template", VBool (xr_save_as_template r)); ("execute", VBool (xr_execute r));
   ("review_approved", VBool (xr_review_approved r)); ("public_approved", VBool (xr_public_approved r))]
  ++ given_entry "expected_approved_revision_hash" (VStr <$> xr_expected_approved_revision_hash r)
  ++ given_entry "expected_approved_revision" (VInt <$> xr_expected_approved_revision r)
  ++ given_entry "production_task_id" (VStr <$> xr_production_task_id r)
  ++ given_entry "channelops_queue_item_id" (VStr <$> xr_queue_item_id r).

Definition execute_request_fingerprint (r : AutoFlowExecuteRequest) (plan_id : uuid) : string :=
  sha256 (json_dumps json_compact (VDict (fingerprint_payload r plan_id))).
End Digest.

Definition find_run (key : string) (runs : list AutoFlowRunModel) : option AutoFlowRunModel :=
  find (fun r => bool_decide (rn_execute_idempotency_key r = Some key)) runs.

Definition OTHER_PLAN : exn := ValueError "AutoFlow execute idempotency key was already used for a different plan or revision".

Definition _validate_idempotent_replay (row : AutoFlowRunModel) (plan_id : uuid) (expected : option (string * Z))
    (request_fingerprint : string) : Res AutoFlowRunModel :=
  if negb (rn_plan_id row =? plan_id)%string then Raise OTHER_PLAN
  else if match expected with
          | None => false
          | Some (h, n) => negb (py_eq (dict_get (rn_publish_json row) "approved_revision_hash") (VStr h))
                           || negb (py_eq (dict_get (rn_publish_json row) "approved_revision") (VInt n))
          end
  then Raise OTHER_PLAN
  else if negb (truthy_text (rn_request_fingerprint row))
  then Raise (ValueError "AutoFlow execute idempotency key has no request fingerprint and cannot be replayed")
  else if negb (bool_decide (rn_request_fingerprint row = Some request_fingerprint))
  then Raise (ValueError "AutoFlow execute idempotency key was already used for a different request")
  else Ok row.

(** ** The authority of a queue item *)

Definition _parse_channelops_revision (value : pyval) (error_message : string) : Res Z :=
  match value with
  | VInt _ | VStr _ =>
      match py_int value with
      | Ok z => if (z <? 1)%Z then Raise (PermissionError error_message) else Ok z
      | Raise _ => Raise (PermissionError error_message)
      end
  | _ => Raise (PermissionError error_message)
  end.

(** [str(d.get(key) or "")]. *)
Definition text_field (d : config) (key : string) : string := py_str (py_or (dict_get d key) (VStr "")).

Definition task_plan_payload (t : AgentModel.ProductionTask) : config := _dict_value (dict_get (tk_rationale_json t) "autoflow_plan_payload").

Definition item_claimed (i : ChannelOpsQueueItem) : bool :=
  (qi_status i =? "running")%string && match qi_locked_by i with Some b => negb (is_empty (strip b)) | None => false end
  && is_some (qi_locked_at i) && (1 <=? qi_attempt_count i)%Z && negb (is_some (qi_dead_letter_at i)).

Definition _assert_channelops_execute_queue_authority (t : AgentModel.ProductionTask) (queue_item : option ChannelOpsQueueItem)
    (channel_id plan_id : uuid) (expected : string * Z) (locked_by : string) (locked_at : datetime) : Res unit :=
  let deny msg := Raise (PermissionError ("ChannelOps " +:+ msg)) in
  match queue_item with
  | None => deny "execute queue item was not found"
  | Some i =>
      let payload := qi_payload_json i in
      let snapshot := task_plan_payload t in
      if negb (qi_kind i =? "execute_task")%string then deny "queue item is not an execute request"
      else if negb (item_claimed i) then deny "execute queue item is not claimed"
      else if negb (bool_decide (qi_locked_by i = Some locked_by)) || negb (bool_decide (qi_locked_at i = Some locked_at))
      then deny "execute queue lease authority changed"
      else if negb (bool_decide (qi_channel_profile_id i = Some channel_id)) then deny "execute queue channel authority changed"
      else if negb (bool_decide (tk_state t ∈ ["planning"; "producing"])) then deny "production task is not executable"
      else if negb (bool_decide (tk_autoflow_plan_id t = Some plan_id)) then deny "production task plan authority changed"
      else if negb (text_field payload "production_task_id" =? tk_id t)%string then deny "execute queue task authority changed"
      else if negb (text_field payload "autoflow_plan_id" =? plan_id)%string then deny "execute queue plan authority changed"
      else if negb (text_field payload "expected_approved_revision_hash" =? expected.1)%string
      then deny "execute queue revision authority changed"
      else
        queue_revision ← _parse_channelops_revision (dict_get payload "expected_approved_revision")
                           "ChannelOps execute queue revision authority is invalid";
        if negb (queue_revision =? expected.2)%Z then deny "execute queue revision authority changed"
        else if negb (text_field snapshot "plan_id" =? plan_id)%string
                || negb (text_field snapshot "expected_approved_revision_hash" =? expected.1)%string
        then deny "production task revision authority changed"
        else
          task_revision ← _parse_channelops_revision (dict_get snapshot "expected_approved_revision")
                            "ChannelOps production task revision authority is invalid";
          if negb (task_revision =? expected.2)%Z then deny "production task revision authority changed"
          else Ok tt
  end.

(** ** Binding a task *)

(** [isoformat().replace("+00:00", "Z")]. *)
Definition isoformat_zulu (t : datetime) : string :=
  let s := isoformat_utc t in String.substring 0 (String.length s - 6) s +:+ "Z".

Definition conflicts (current : option uuid) (value : uuid) : bool :=
  match current with Some c => negb (c =? value)%string | None => false end.

Definition _bind_channelops_execution (now : datetime) (t : AgentModel.ProductionTask) (run : AutoFlowRunModel)
    : Res (uuid * AgentModel.ProductionTask) :=
  match rn_pipeline_id run, rn_job_id run with
  | Some pipeline_id, Some job_id =>
      let conflicting field := Raise (PermissionError ("ChannelOps production task has conflicting " +:+ field)) in
      if conflicts (tk_autoflow_run_id t) (rn_id run) then conflicting "autoflow_run_id"
      else if conflicts (tk_pipeline_id t) pipeline_id then conflicting "pipeline_id"
      else if conflicts (tk_job_id t) job_id then conflicting "job_id"
      else
        let already_bound :=
          (tk_state t =? "producing")%string && bool_decide (tk_autoflow_run_id t = Some (rn_id run))
          && bool_decide (tk_pipeline_id t = Some pipeline_id) && bool_decide (tk_job_id t = Some job_id) in
        let moved :=
          if already_bound then t
          else
            t <| tk_transition_history_json ::= fun h =>
                   h ++ [VDict [("from", VStr (tk_state t)); ("to", VStr "producing"); ("reason", VStr "execute_task");
                                ("at", VStr (isoformat_zulu now))]] |>
              <| tk_state := "producing" |> <| tk_state_updated_at := now |> <| tk_blocked_by_guard := None |>
              <| tk_failure_reason := None |> <| tk_failure_category := None |> in
        Ok (job_id, moved <| tk_autoflow_run_id := Some (rn_id run) |> <| tk_pipeline_id := Some pipeline_id |>
                          <| tk_job_id := Some job_id |>)
  | _, _ => Raise (ValueError "ChannelOps-bound AutoFlow execution has no pipeline or job")
  end.

Definition _bind_guarded_channelops_execution (now : datetime) (t : AgentModel.ProductionTask) (run : AutoFlowRunModel)
    (schedule : RuntimeSchedule) (job : Job) : Res (uuid * AgentModel.ProductionTask) :=
  if conflicts (s_guarded_job_id schedule) (j_id job)
  then Raise (PermissionError "ChannelOps job does not hold guarded schedule authority")
  else _bind_channelops_execution now t run.

(** ** Clips in use *)

Definition _source_platform (candidate : config) : option string :=
  let metadata := _dict_value (dict_get candidate "metadata") in
  let value := py_or (py_or (dict_get metadata "source_platform") (dict_get metadata "platform")) (dict_get candidate "source_type") in
  if truthy value then Some (py_str value) else None.

Definition _candidate_metadata (candidate : config) : config :=
  [("candidate_id", dict_get candidate "id"); ("source_type", dict_get candidate "source_type"); ("score", dict_get candidate "score");
   ("score_breakdown", dict_get candidate "score_breakdown"); ("start_sec", dict_get candidate "start_sec");
   ("end_sec", dict_get candidate "end_sec")].

Definition used_clip (run_id : uuid) (selected_at : datetime) (asset_id : string) (candidate : config) : AutoFlowUsedClip :=
  {| uc_run_id := run_id; uc_asset_id := asset_id; uc_source_platform := _source_platform candidate;
     uc_candidate_title := dict_get candidate "title"; uc_selected_at := selected_at; uc_metadata_json := _candidate_metadata candidate |}.

Definition record_turn (run_id : uuid) (selected_at : datetime) (acc : list string * list AutoFlowUsedClip) (candidate : pyval)
    : list string * list AutoFlowUsedClip :=
  let c := _dict_value candidate in
  match dict_get c "asset_id" with
  | VStr asset_id =>
      if is_empty asset_id || bool_decide (asset_id ∈ acc.1) then acc
      else (asset_id :: acc.1, acc.2 ++ [used_clip run_id selected_at asset_id c])
  | _ => acc
  end.

Definition record_selected_clips (run_id : uuid) (selected_at : datetime) (candidates : list pyval) : list AutoFlowUsedClip :=
  (fold_left (record_turn run_id selected_at) candidates ([], [])).2.

Definition LOOKBACK_DAYS : Z := 7.

Definition load_recent_asset_ids (now : datetime) (clips : list AutoFlowUsedClip) : list string :=
  remove_dups (List.filter (fun a => negb (is_empty a))
    (map uc_asset_id (List.filter (fun c => (now - LOOKBACK_DAYS * DAY_US <=? uc_selected_at c)%Z) clips))).

(** ** Execution *)

(** What the locks of a plan find: the task and the inventory of its producer. *)
Abbreviation producer := (uuid * option uuid)%type.

(** What a call commits: the run, the jobs it starts, the rows. *)
Record Executed := { ex_run : AutoFlowRunModel; ex_started : list uuid; ex_db : ExecDb }.

Section Execute.
Context (sha256 : string -> string) (postgres : bool) (registry : NodeTypeRegistry) (setting : string).
Context (read_definition : config -> Res PipelineDefinition).
Context (lock_plan : ExecDb -> uuid -> option QueueLease -> Res (option producer)).

Definition _get_plan_for_update (plan_id : uuid) (db : ExecDb) : Res (option (Plan * PipelineDefinition)) :=
  match find_plan plan_id (x_plans db) with
  | None => Ok None
  | Some p => d ← read_definition (pc_definition (pl_content p)); Ok (Some (p, d))
  end.

Definition publish_json (p : Plan) : config :=
  [("mode", VStr (publish_mode p)); ("review_approved", VBool (is_some (pl_review_approved_at p) || truthy_text (pl_agent_approved_by p)));
   ("agent_approved_by", or_none (pl_agent_approved_by p)); ("public_approved", VBool (is_some (pl_public_approved_at p)));
   ("approved_revision_hash", or_none (pl_approved_revision_hash p));
   ("approved_revision", match pl_approved_revision p with Some z => VInt z | None => VNone end)].

(** The reservation: the key and the identifier are unique. *)
Definition reservation (id : uuid) (p : Plan) (key fingerprint : string) : AutoFlowRunModel :=
  {| rn_id := id; rn_plan_id := pl_id p; rn_pipeline_id := None; rn_job_id := None; rn_status := "pending";
     rn_artifacts_json := []; rn_publish_json := publish_json p; rn_error_message := None;
     rn_execute_idempotency_key := Some key; rn_request_fingerprint := Some fingerprint |}.

Definition add_run (r : AutoFlowRunModel) (runs : list AutoFlowRunModel) : Res (list AutoFlowRunModel) :=
  if bool_decide (rn_id r ∈ map rn_id runs)
     || bool_decide (rn_execute_idempotency_key r ∈ map rn_execute_idempotency_key runs)
  then Raise IntegrityError else Ok (runs ++ [r]).

Definition _validate_owned_input_asset (request : config) (assets : list Asset) : Res unit :=
  let input := dict_get request "input_asset_id" in
  if negb (truthy input) then Ok tt
  else
    let text := py_str input in
    match uuid_of_string text with
    | Raise _ => Raise (ValueError "input_asset_id must be a canonical owned video asset UUID")
    | Ok asset_id =>
        if negb (asset_id =? text)%string then Raise (ValueError "input_asset_id must be a canonical owned video asset UUID")
        else
          match find (fun a => (as_id a =? asset_id)%string) assets with
          | None => Raise (ValueError "Owned input asset was not found")
          | Some a =>
              let video := match as_mime_type a with Some m => startswith m "video/" | None => false end in
              if negb video || negb (is_str (dict_get (as_media_info a) "license") "owned")
                 || negb (is_str (dget_or (as_media_info a) "rights_status" (VStr "allowed")) "allowed")
              then Raise (ValueError "Input asset must be an owned video with allowed rights")
              else Ok tt
          end
    end.

Definition plan_pipeline (r : AutoFlowExecuteRequest) (p : Plan) (d : PipelineDefinition) : PipelineCreate :=
  let c := pl_content p in
  {| cr_name := "AutoFlow " +:+ py_str (dict_get (pc_intent c) "subject");
     cr_description := "Generated from prompt: " +:+ py_str (dict_get (pc_request c) "prompt");
     cr_definition := d; cr_is_template := xr_save_as_template r; cr_template_tags := ["autoflow"; pc_template_id c] |}.

Definition put_run (r : AutoFlowRunModel) (runs : list AutoFlowRunModel) : list AutoFlowRunModel :=
  map (fun q => if (rn_id q =? rn_id r)%string then r else q) runs.
Definition put_exec_task (t : AgentModel.ProductionTask) (db : ExecDb) : ExecDb := db <| x_tasks ::= put_row tk_id t |>.

Definition deferred (schedule : RuntimeSchedule) (job : Job) : bool :=
  should_defer_job_start job (schedule_state setting schedule) (s_guarded_job_id schedule).
Definition scheduled_job (schedule : RuntimeSchedule) (job : Job) : Job :=
  if deferred schedule job then park_job_for_window job else job.

Definition launched_run (run : AutoFlowRunModel) (pipeline_id : uuid) (job : Job) : AutoFlowRunModel :=
  run <| rn_pipeline_id := Some pipeline_id |> <| rn_job_id := Some (j_id job) |> <| rn_status := JobStatus_value (j_status job) |>
      <| rn_artifacts_json := [("pipeline_id", VStr pipeline_id); ("job_id", VStr (j_id job))] |>.

(** The pipeline and the job of a run, on a schedule row; [salt] numbers the keys drawn. *)
Definition launch (salt : nat -> uuid) (now : datetime) (r : AutoFlowExecuteRequest) (p : Plan) (d : PipelineDefinition)
    (schedule : RuntimeSchedule) (run : AutoFlowRunModel) (db : ExecDb) : Res Executed :=
  _ ← _validate_owned_input_asset (pc_request (pl_content p)) (x_assets db);
  created ← create_pipeline (salt 2) (plan_pipeline r p d) (x_pipelines db);
  job ← create_job registry (fun i => salt (3 + i)) now (pp_definition created.1) (pp_id created.1) None;
  if bool_decide (j_id job ∈ map j_id (x_jobs db)) then Raise IntegrityError
  else
    let run := launched_run run (pp_id created.1) (scheduled_job schedule job) in
    Ok {| ex_run := run; ex_started := if deferred schedule job then [] else [j_id job];
          ex_db := db <| x_pipelines := created.2 |> <| x_jobs ::= fun l => l ++ [scheduled_job schedule job] |>
                      <| x_runs ::= put_run run |> <| x_plans ::= mark_executed postgres (pl_id p) |> |}.

Definition with_clips (now : datetime) (p : Plan) (e : Executed) : Executed :=
  {| ex_run := ex_run e; ex_started := ex_started e;
     ex_db := (ex_db e) <| x_clips ::= fun l => l ++ record_selected_clips (rn_id (ex_run e)) now (pc_candidates (pl_content p)) |> |}.

Definition require_owned (b : bool) : Res unit := if b then Ok tt else Raise (ValueError "owned_inventory_execute_binding").

Definition replayed (row : AutoFlowRunModel) (db : ExecDb) : Executed := {| ex_run := row; ex_started := []; ex_db := db |}.

(** A request without binding; [seen] are the runs the first query saw.  The second query
    is made under the lock of the schedule, which every execution holds until it commits:
    an insertion can then fail for the identifier only. *)
Definition execute_unbound (salt : nat -> uuid) (now : datetime) (r : AutoFlowExecuteRequest) (plan_id : uuid) (key : string)
    (expected : option (string * Z)) (seen : list AutoFlowRunModel) (db : ExecDb) : Res Executed :=
  let fingerprint := execute_request_fingerprint sha256 r plan_id in
  match find_run key seen with
  | Some row => run ← _validate_idempotent_replay row plan_id expected fingerprint; Ok (replayed run db)
  | None =>
      owner ← lock_plan db plan_id None;
      _ ← require_owned (match owner with Some (_, Some _) => false | _ => true end);
      let schedule := (get_or_create_and_lock_runtime_schedule setting (x_schedule db)).1 in
      let db := db <| x_schedule := Some schedule |> in
      match find_run key (x_runs db) with
      | Some row => run ← _validate_idempotent_replay row plan_id expected fingerprint; Ok (replayed run db)
      | None =>
          found ← _get_plan_for_update plan_id db;
          match found with
          | None => Raise (ValueError "AutoFlow plan not found")
          | Some (p, d) =>
              _ ← _assert_execute_allowed sha256 p;
              _ ← _assert_expected_execute_authority p expected;
              let run := reservation (salt 1) p key fingerprint in
              runs ← add_run run (x_runs db);
              let db := db <| x_runs := runs |> in
              e ← (if xr_execute r then launch salt now r p d schedule run db
                   else Ok {| ex_run := run; ex_started := []; ex_db := db |});
              Ok (with_clips now p e)
          end
      end
  end.

Definition STARTABLE : list JobStatus.t :=
  [JobStatus.PENDING; JobStatus.WAITING_WINDOW; JobStatus.VALIDATING; JobStatus.PLANNING; JobStatus.RUNNING].

(** The run a bound request finds, bound to the task again. *)
Definition rebind (now : datetime) (t : AgentModel.ProductionTask) (row : AutoFlowRunModel) (schedule : RuntimeSchedule) (db : ExecDb)
    : Res Executed :=
  match rn_job_id row with
  | None => Raise (ValueError "ChannelOps-bound AutoFlow run has no durable job")
  | Some id =>
      match find (fun j => (j_id j =? id)%string) (x_jobs db) with
      | None => Raise (ValueError "ChannelOps-bound AutoFlow job was not found")
      | Some job =>
          bound ← _bind_guarded_channelops_execution now t row schedule job;
          let '(job_id, t') := bound in
          let start := negb (should_defer_job_start job (schedule_state setting schedule) (s_guarded_job_id schedule))
                       && bool_decide (j_status job ∈ STARTABLE) in
          Ok {| ex_run := row; ex_started := if start then [job_id] else []; ex_db := put_exec_task t' db |}
      end
  end.

(** The claim of the queue item, before anything else is locked. *)
Definition held_item (item_id : uuid) (locked_by : string) (locked_at : datetime) (db : ExecDb) : Res QueueLease :=
  match find_item item_id (x_queue db) with
  | None => Raise (PermissionError "ChannelOps execute queue item was not found")
  | Some i =>
      match held_claim i with
      | None => Raise (PermissionError "ChannelOps execute queue item is not claimed")
      | Some (owner, at_) =>
          if negb (owner =? locked_by)%string || negb (at_ =? locked_at)%Z
          then Raise (PermissionError "ChannelOps execute queue lease authority changed")
          else capture_producer i
      end
  end.

Definition active_channel (t : AgentModel.ProductionTask) (db : ExecDb) : Res JobModel.ChannelProfile :=
  match find (fun c => (ch_id c =? tk_channel_profile_id t)%string) (x_channels db) with
  | None => Raise (PermissionError "ChannelOps task channel was not found")
  | Some c => if negb (ch_enabled c) || is_some (ch_halted_at c) then Raise (PermissionError "channel execution blocked") else Ok c
  end.

Definition _execute_channelops_bound (salt : nat -> uuid) (now : datetime) (r : AutoFlowExecuteRequest) (plan_id : uuid) (key : string)
    (expected : option (string * Z)) (task_id item_id : uuid) (locked_by : string) (locked_at : datetime) (db : ExecDb)
    : Res Executed :=
  if negb (xr_execute r) then Raise (ValueError "ChannelOps-bound AutoFlow execution requires execute=true")
  else
    match expected with
    | None => Raise (ValueError "ChannelOps-bound AutoFlow execution requires exact approved revision authority")
    | Some authority =>
        lease ← held_item item_id locked_by locked_at db;
        _ ← match find_run key (x_runs db) with
            | Some _ => Ok tt
            | None =>
                owner ← lock_plan db plan_id (Some lease);
                require_owned (match owner with Some (task, _) => (task =? task_id)%string | None => true end)
            end;
        match get_row tk_id task_id (x_tasks db) with
        | None => Raise (PermissionError "ChannelOps production task was not found")
        | Some t =>
            channel ← active_channel t db;
            let schedule := (get_or_create_and_lock_runtime_schedule setting (x_schedule db)).1 in
            let db := db <| x_schedule := Some schedule |> in
            let state := schedule_state setting schedule in
            if bool_decide (state = DRAINING) then Raise (PermissionError "ChannelOps runtime schedule does not permit a new execution")
            else if bool_decide (state = CLOSED) && is_some (s_guarded_job_id schedule)
            then Raise (PermissionError "ChannelOps guarded schedule is invalid while closed")
            else
              _ ← _assert_channelops_execute_queue_authority t (find_item item_id (x_queue db)) (ch_id channel) plan_id authority
                    locked_by locked_at;
              found ← _get_plan_for_update plan_id db;
              match found with
              | None => Raise (ValueError "AutoFlow plan not found")
              | Some (p, d) =>
                  _ ← _assert_execute_allowed sha256 p;
                  _ ← _assert_expected_execute_authority p expected;
                  let fingerprint := execute_request_fingerprint sha256 r plan_id in
                  match find_run key (x_runs db) with
                  | Some row =>
                      run ← _validate_idempotent_replay row plan_id expected fingerprint;
                      rebind now t run schedule db
                  | None =>
                      if is_some (s_guarded_job_id schedule)
                      then Raise (PermissionError "ChannelOps guarded schedule does not permit a new execution")
                      else
                        let run := reservation (salt 1) p key fingerprint in
                        runs ← add_run run (x_runs db);
                        e ← launch salt now r p d schedule run (db <| x_runs := runs |>);
                        let e := with_clips now p e in
                        bound ← _bind_channelops_execution now t (ex_run e);
                        Ok {| ex_run := ex_run e; ex_started := ex_started e; ex_db := put_exec_task bound.2 (ex_db e) |}
                  end
              end
        end
    end.

(** [execute] with a database. *)
Definition _execute_idempotent (salt : nat -> uuid) (now : datetime) (r : AutoFlowExecuteRequest) (seen : list AutoFlowRunModel)
    (db : ExecDb) : Res Executed :=
  if is_empty (xr_plan_id r) then Raise (PermissionError "AutoFlow execute requires plan_id for persisted execution")
  else
    plan_id ← uuid_of_string (xr_plan_id r);
    key ← _execute_idempotency_key (salt 0) r;
    expected ← _expected_execute_authority r;
    binding ← _channelops_execute_binding r;
    match binding with
    | Some (task_id, item_id, locked_by, locked_at) =>
        _execute_channelops_bound salt now r plan_id key expected task_id item_id locked_by locked_at db
    | None => execute_unbound salt now r plan_id key expected seen db
    end.
End Execute.
