(* ===== verification/PlanOnce.v ===== *)
(** * Executions happen once

    Histories of executions with any other transactions in between: a key has one run, and
    a production task one run, pipeline and job. *)

From stdpp Require Import base tactics list strings relations.
From Stdlib Require Import ZArith Lia.
From coqutil Require Import Datatypes.RecordSetters.
From S2P Require Import Prelude PyStr PyValue PyJson PyTime PyUuid NodeRegistry Pipeline JobModel PlanApproval Outbox ChannelQueue ChannelRunner AgentModel Schedule JobService PipelineService PlanExecute.
Import TriangleBracketNotations.

Open Scope string_scope.
Open Scope list_scope.

Section Once.
Context (sha256 : string -> string) (postgres : bool) (registry : NodeTypeRegistry) (setting : string).
Context (read_definition : config -> Res PipelineDefinition).
Context (lock_plan : ExecDb -> uuid -> option QueueLease -> Res (option producer)).
#[local] Abbreviation execute := (_execute_idempotent sha256 postgres registry setting read_definition lock_plan).
#[local] Abbreviation execute_bound := (_execute_channelops_bound sha256 postgres registry setting read_definition lock_plan).

(** What an execution does to runs, pipelines, jobs and plans: nothing when there is a run
    with the key, and one row each otherwise. *)
Definition same_rows (db db' : ExecDb) : Prop :=
  x_runs db' = x_runs db /\ x_pipelines db' = x_pipelines db /\ x_jobs db' = x_jobs db /\ x_plans db' = x_plans db
  /\ x_clips db' = x_clips db.

(** The plan a run is for, and the job it is launched with, if it is. *)
Definition launch_effect (salt : nat -> uuid) (now : datetime) (plan_id : uuid) (db : ExecDb) (e : Executed) : Prop :=
  exists p d, find_plan plan_id (x_plans db) = Some p /\ read_definition (pc_definition (pl_content p)) = Ok d
    /\ _assert_execute_allowed sha256 p = Ok tt
    /\ ((x_jobs (ex_db e) = x_jobs db /\ x_plans (ex_db e) = x_plans db)
        \/ exists schedule job, create_job registry (fun i => salt (3 + i)) now (Some d) (salt 2) None = Ok job
             /\ x_jobs (ex_db e) = x_jobs db ++ [scheduled_job setting schedule job]
             /\ x_plans (ex_db e) = mark_executed postgres plan_id (x_plans db)).

Record first_run (key : string) (db : ExecDb) (e : Executed) : Prop := {
  fr_new : find_run key (x_runs db) = None;
  fr_id : rn_id (ex_run e) ∉ map rn_id (x_runs db);
  fr_key : rn_execute_idempotency_key (ex_run e) = Some key;
  fr_runs : x_runs (ex_db e) = x_runs db ++ [ex_run e] }.

Definition outcome (key : string) (db : ExecDb) (e : Executed) : Prop :=
  (find_run key (x_runs db) = Some (ex_run e) /\ same_rows db (ex_db e)) \/ first_run key db e.

Definition effect (salt : nat -> uuid) (now : datetime) (plan_id : uuid) (db : ExecDb) (e : Executed) : Prop :=
  same_rows db (ex_db e) \/ launch_effect salt now plan_id db e.

Lemma find_prefix {A} (f : A -> bool) (l k : list A) x : l `prefix_of` k -> find f l = Some x -> find f k = Some x.
Proof. intros [k' ->]. induction l as [|y l IH]; [discriminate|]. cbn [find app]. by destruct (f y). Qed.

Lemma put_run_snoc runs run0 run :
  rn_id run0 ∉ map rn_id runs -> rn_id run = rn_id run0 -> put_run run (runs ++ [run0]) = runs ++ [run].
Proof.
  intros Hn Hid. unfold put_run. rewrite map_app. cbn [map]. rewrite Hid, String.eqb_refl. f_equal.
  induction runs as [|q runs IH]; [done|]. cbn [map] in *. apply not_elem_of_cons in Hn as [Hq Hn].
  rewrite IH by done. destruct (String.eqb_spec (rn_id q) (rn_id run0)); [congruence|done].
Qed.

Lemma add_run_Ok r runs runs' :
  add_run r runs = Ok runs' ->
  runs' = runs ++ [r] /\ rn_id r ∉ map rn_id runs /\ rn_execute_idempotency_key r ∉ map rn_execute_idempotency_key runs.
Proof. unfold add_run. do 2 case_bool_decide; try discriminate. intros [= <-]. done. Qed.

(** What [launch] commits. *)
Record launched (salt : nat -> uuid) (now : datetime) (r : AutoFlowExecuteRequest) (p : Plan) (d : PipelineDefinition)
    (schedule : RuntimeSchedule) (run : AutoFlowRunModel) (db : ExecDb) (e : Executed) (job : Job) : Prop := {
  la_job : create_job registry (fun i => salt (3 + i)) now (Some d) (salt 2) None = Ok job;
  la_new : j_id job ∉ map j_id (x_jobs db);
  la_run : ex_run e = launched_run run (salt 2) (scheduled_job setting schedule job);
  la_started : ex_started e = if deferred setting schedule job then [] else [j_id job];
  la_db : ex_db e = db <| x_pipelines := x_pipelines db ++ [new_pipeline (salt 2) (plan_pipeline r p d)] |>
                       <| x_jobs ::= fun l => l ++ [scheduled_job setting schedule job] |>
                       <| x_runs ::= put_run (ex_run e) |> <| x_plans ::= mark_executed postgres (pl_id p) |> }.

Lemma create_pipeline_Ok id data l c : create_pipeline id data l = Ok c -> c = (new_pipeline id data, l ++ [new_pipeline id data]).
Proof. unfold create_pipeline, add_pipeline. case_bool_decide; [discriminate|]. by intros [= <-]. Qed.

Lemma launch_inv salt now r p d schedule run db e :
  launch postgres registry setting salt now r p d schedule run db = Ok e ->
  exists job, launched salt now r p d schedule run db e job.
Proof.
  unfold launch. intros H. unbind H. apply create_pipeline_Ok in Ha0 as ->. cbn [fst snd] in *. case_bool_decide; [discriminate|]. injection H as <-.
  exists a1. split; try reflexivity; done.
Qed.

(** What a run recorded with its clips adds. *)
Lemma fresh_run key db e0 (run : AutoFlowRunModel) e now p :
  find_run key (x_runs db) = None -> rn_id run ∉ map rn_id (x_runs db) -> rn_execute_idempotency_key run = Some key ->
  rn_id (ex_run e0) = rn_id run -> rn_execute_idempotency_key (ex_run e0) = Some key ->
  x_runs (ex_db e0) = x_runs db ++ [ex_run e0] ->
  ex_run e = ex_run (with_clips now p e0) -> x_runs (ex_db e) = x_runs (ex_db (with_clips now p e0)) -> first_run key db e.
Proof.
  intros Hn Hid Hk Hid0 Hk0 Hr He Hre. cbn in He. split; [done| | |]; rewrite ?He.
  - by rewrite Hid0.
  - done.
  - rewrite Hre. exact Hr.
Qed.

Lemma launched_runs salt now r p d schedule run db e job runs :
  launched salt now r p d schedule run (db <| x_runs := runs ++ [run] |>) e job -> rn_id run ∉ map rn_id runs ->
  x_runs (ex_db e) = runs ++ [ex_run e].
Proof.
  intros [_ _ Hr _ Hdb] Hn. rewrite Hdb. change (put_run (ex_run e) (runs ++ [run]) = runs ++ [ex_run e]).
  apply put_run_snoc; [done|]. by rewrite Hr.
Qed.

Lemma launched_effect salt now r p d schedule run db runs schedule_row plan_id e job :
  launched salt now r p d schedule run (db <| x_schedule := schedule_row |> <| x_runs := runs |>) e job ->
  find_plan plan_id (x_plans db) = Some p -> read_definition (pc_definition (pl_content p)) = Ok d ->
  _assert_execute_allowed sha256 p = Ok tt ->
  forall e', x_jobs (ex_db e') = x_jobs (ex_db e) -> x_plans (ex_db e') = x_plans (ex_db e) -> launch_effect salt now plan_id db e'.
Proof.
  intros [Hjob _ _ _ Hdb] Hp Hd Ha e' Hj Hpl. exists p, d. split; [done|]. split; [done|]. split; [done|]. right.
  exists schedule, job. split; [done|]. rewrite Hj, Hpl, Hdb. pose proof (find_plan_id _ _ _ Hp) as <-. split; reflexivity.
Qed.

Lemma get_plan_Ok plan_id db p d :
  _get_plan_for_update read_definition plan_id db = Ok (Some (p, d)) ->
  find_plan plan_id (x_plans db) = Some p /\ read_definition (pc_definition (pl_content p)) = Ok d.
Proof.
  unfold _get_plan_for_update. intros H. destruct (find_plan plan_id (x_plans db)) as [p0|]; [|discriminate].
  by apply bind_Ok in H as (d0 & Hd & [= <- <-]).
Qed.

Lemma replay_Ok row plan_id expected fp run :
  _validate_idempotent_replay row plan_id expected fp = Ok run -> run = row.
Proof.
  unfold _validate_idempotent_replay. intros H.
  repeat match type of H with (if ?c then Raise _ else _) = _ => destruct c; [discriminate H|] end. by injection H.
Qed.

Lemma unbound_outcome salt now r plan_id key expected seen db e :
  seen `prefix_of` x_runs db ->
  execute_unbound sha256 postgres registry setting read_definition lock_plan salt now r plan_id key expected seen db = Ok e ->
  outcome key db e /\ effect salt now plan_id db e /\ x_tasks (ex_db e) = x_tasks db.
Proof.
  intros Hseen H. unfold execute_unbound in H. destruct (find_run key seen) as [row|] eqn:Hs.
  { unbind H. apply replay_Ok in Ha as ->. injection H as <-. split; [|split; [left; by repeat split|reflexivity]].
    left. split; [|by repeat split]. by apply (find_prefix _ seen). }
  apply bind_Ok in H as (owner & _ & H). apply bind_Ok in H as (u & _ & H). cbv beta zeta in H.
  change (x_runs _) with (x_runs db) in H. destruct (find_run key (x_runs db)) as [row|] eqn:Hk.
  { apply bind_Ok in H as (run & ->%replay_Ok & [= <-]). split; [|split; [left; by repeat split|reflexivity]]. left. by repeat split. }
  apply bind_Ok in H as ([[p d]|] & Hplan & H); [|discriminate]. apply get_plan_Ok in Hplan as [Hp Hd].
  apply bind_Ok in H as ([] & Hallow & H).
  change (x_plans _) with (x_plans db) in Hp.
  apply bind_Ok in H as (u2 & _ & H). apply bind_Ok in H as (runs & (-> & Hid & _)%add_run_Ok & H).
  apply bind_Ok in H as (e0 & Hl & [= <-]). destruct (xr_execute r).
  - apply launch_inv in Hl as [job Hl]. split.
    + right. apply (fresh_run key db e0 (reservation (salt 1) p key (execute_request_fingerprint sha256 r plan_id)) _ now p); try done.
      1-2: by rewrite (la_run _ _ _ _ _ _ _ _ _ _ Hl). by apply (launched_runs _ _ _ _ _ _ _ _ _ _ _ Hl).
    + split; [|change (x_tasks (ex_db e0) = x_tasks db); by rewrite (la_db _ _ _ _ _ _ _ _ _ _ Hl)].
      right. by apply (launched_effect _ _ _ _ _ _ _ _ _ _ _ _ _ Hl).
  - injection Hl as <-. split; [right; by split|]. split; [|reflexivity]. right. exists p, d. do 3 (split; [done|]). left. done.
Qed.

(** ** Bound executions *)

Lemma conflicts_false current value : conflicts current value = false -> forall c, current = Some c -> c = value.
Proof. unfold conflicts. intros H c ->. apply negb_false_iff in H. by apply String.eqb_eq. Qed.

Lemma bind_task now t run res :
  _bind_channelops_execution now t run = Ok res ->
  rn_job_id run = Some res.1 /\ tk_id res.2 = tk_id t /\ tk_state res.2 = "producing" /\ tk_autoflow_run_id res.2 = Some (rn_id run)
  /\ tk_pipeline_id res.2 = rn_pipeline_id run /\ tk_job_id res.2 = rn_job_id run
  /\ (forall rid, tk_autoflow_run_id t = Some rid -> rid = rn_id run).
Proof.
  unfold _bind_channelops_execution. destruct (rn_pipeline_id run) as [pid|]; [|discriminate].
  destruct (rn_job_id run) as [jid|]; [|discriminate]. intros H.
  destruct (conflicts (tk_autoflow_run_id t) (rn_id run)) eqn:Hc; [discriminate|].
  destruct (conflicts (tk_pipeline_id t) pid); [discriminate|]. destruct (conflicts (tk_job_id t) jid); [discriminate|].
  pose proof (conflicts_false _ _ Hc) as Hconf. injection H as <-. cbn [fst snd].
  destruct (_ && bool_decide (tk_job_id t = Some jid)) eqn:Hb; [|by repeat split].
  repeat split; [|exact Hconf]. repeat (apply andb_prop in Hb as [Hb _]). by apply String.eqb_eq.
Qed.

Lemma rebind_inv now t row schedule db e :
  rebind setting now t row schedule db = Ok e ->
  exists t', ex_run e = row /\ ex_db e = put_exec_task t' db /\ tk_id t' = tk_id t /\ tk_state t' = "producing"
    /\ tk_autoflow_run_id t' = Some (rn_id row) /\ tk_job_id t' = rn_job_id row
    /\ (forall rid, tk_autoflow_run_id t = Some rid -> rid = rn_id row).
Proof.
  unfold rebind. intros H. destruct (rn_job_id row) as [id|] eqn:Hj; [|discriminate].
  destruct (find _ (x_jobs db)) as [job|]; [|discriminate]. apply bind_Ok in H as ([jid t'] & Hb & [= <-]).
  unfold _bind_guarded_channelops_execution in Hb. destruct (conflicts _ _); [discriminate|].
  apply bind_task in Hb as (_ & Hid & Hs & Hr & _ & Hjob & Hconf). exists t'. by rewrite <- Hj.
Qed.

(** The checks a bound execution has passed. *)
Record granted (plan_id : uuid) (task_id item_id : uuid) (locked_by : string) (locked_at : datetime) (r : AutoFlowExecuteRequest)
    (expected : option (string * Z)) (db : ExecDb) (t : AgentModel.ProductionTask) (p : Plan) (d : PipelineDefinition) : Prop := {
  gr_task : get_row tk_id task_id (x_tasks db) = Some t;
  gr_state : tk_state t ∈ ["planning"; "producing"];
  gr_plan_of_task : tk_autoflow_plan_id t = Some plan_id;
  gr_channel : exists c, c ∈ x_channels db /\ ch_id c = tk_channel_profile_id t /\ ch_enabled c = true /\ ch_halted_at c = None;
  gr_item : exists i, find_item item_id (x_queue db) = Some i /\ qi_kind i = "execute_task" /\ qi_status i = "running"
              /\ qi_locked_by i = Some locked_by /\ qi_locked_at i = Some locked_at
              /\ qi_channel_profile_id i = Some (tk_channel_profile_id t);
  gr_window : schedule_state setting (get_or_create_and_lock_runtime_schedule setting (x_schedule db)).1 <> DRAINING;
  gr_plan : find_plan plan_id (x_plans db) = Some p;
  gr_definition : read_definition (pc_definition (pl_content p)) = Ok d;
  gr_allowed : _assert_execute_allowed sha256 p = Ok tt;
  gr_authority : exists h, expected = Some (h, pl_execution_revision p) /\ pl_approved_revision_hash p = Some h
                   /\ pl_approved_revision p = Some (pl_execution_revision p) }.

Lemma authority_inv p expected :
  expected <> None -> _assert_expected_execute_authority p expected = Ok tt ->
  exists h, expected = Some (h, pl_execution_revision p) /\ pl_approved_revision_hash p = Some h
    /\ pl_approved_revision p = Some (pl_execution_revision p).
Proof.
  intros Hn. unfold _assert_expected_execute_authority. destruct expected as [[h n]|]; [|done].
  do 3 case_bool_decide; try discriminate. intros _. exists h. by simplify_eq.
Qed.

Lemma active_channel_inv t db c :
  active_channel t db = Ok c ->
  c ∈ x_channels db /\ ch_id c = tk_channel_profile_id t /\ ch_enabled c = true /\ ch_halted_at c = None.
Proof.
  unfold active_channel. destruct (find _ (x_channels db)) as [c'|] eqn:Hf; [|discriminate].
  apply find_some in Hf as [Hin%list_elem_of_In Hid%String.eqb_eq]. intros H.
  destruct (ch_enabled c') eqn:He; [|discriminate]. destruct (ch_halted_at c') eqn:Hh; [discriminate|]. by injection H as <-.
Qed.

Lemma queue_authority_inv t item channel plan_id a locked_by locked_at :
  _assert_channelops_execute_queue_authority t item channel plan_id a locked_by locked_at = Ok tt ->
  tk_state t ∈ ["planning"; "producing"] /\ tk_autoflow_plan_id t = Some plan_id
  /\ exists i, item = Some i /\ qi_kind i = "execute_task" /\ qi_status i = "running" /\ qi_locked_by i = Some locked_by
       /\ qi_locked_at i = Some locked_at /\ qi_channel_profile_id i = Some channel.
Proof.
  unfold _assert_channelops_execute_queue_authority. destruct item as [i|]; [|discriminate]. cbv zeta. intros H.
  destruct (qi_kind i =? "execute_task")%string eqn:Hk; [|discriminate].
  destruct (item_claimed i) eqn:Hc; [|discriminate]. cbn [negb] in H.
  do 2 (case_bool_decide; [|discriminate]). cbn [negb orb] in H. do 3 (case_bool_decide; [|discriminate]).
  split; [done|]. split; [done|]. exists i. unfold item_claimed in Hc. apply String.eqb_eq in Hk.
  repeat (apply andb_prop in Hc as [Hc _]). apply String.eqb_eq in Hc. by repeat split.
Qed.

(** What a bound execution leaves. *)
Record bound_to (key : string) (task_id : uuid) (db : ExecDb) (t : AgentModel.ProductionTask) (e : Executed)
    (t' : AgentModel.ProductionTask) : Prop := {
  bd_outcome : outcome key db e;
  bd_task : tk_id t' = task_id;
  bd_state : tk_state t' = "producing";
  bd_run : tk_autoflow_run_id t' = Some (rn_id (ex_run e));
  bd_job : tk_job_id t' = rn_job_id (ex_run e);
  bd_same : forall rid, tk_autoflow_run_id t = Some rid -> rid = rn_id (ex_run e);
  bd_tasks : x_tasks (ex_db e) = put_row tk_id t' (x_tasks db) }.

Lemma bound_inv salt now r plan_id key expected task_id item_id locked_by locked_at db e :
  execute_bound salt now r plan_id key expected task_id item_id locked_by locked_at db = Ok e ->
  effect salt now plan_id db e
  /\ exists t t' p d, granted plan_id task_id item_id locked_by locked_at r expected db t p d /\ bound_to key task_id db t e t'.
Proof.
  unfold _execute_channelops_bound. destruct (xr_execute r); [|discriminate]. cbn [negb].
  destruct expected as [a|] eqn:Hexp; [|discriminate]. rewrite <- Hexp. intros H.
  apply bind_Ok in H as (lease & _ & H). apply bind_Ok in H as (u & _ & H).
  destruct (get_row tk_id task_id (x_tasks db)) as [t|] eqn:Ht; [|discriminate].
  apply bind_Ok in H as (c & Hc & H). cbv zeta in H.
  destruct (bool_decide (_ = DRAINING)) eqn:Hw; [discriminate|]. apply bool_decide_eq_false in Hw.
  destruct (_ && is_some _); [discriminate|]. apply bind_Ok in H as ([] & Hq & H). change (x_queue _) with (x_queue db) in Hq.
  apply bind_Ok in H as ([[p d]|] & Hp & H); [|discriminate]. apply bind_Ok in H as ([] & Hallow & H).
  apply bind_Ok in H as ([] & Hauth & H).
  pose proof (active_channel_inv _ _ _ Hc) as (Hcin & Hcid & Hen & Hhalt).
  apply queue_authority_inv in Hq as (Hst & Hpl & i & Hi & Hk & Hs & Hlb & Hla & Hich). rewrite Hcid in Hich.
  apply get_plan_Ok in Hp as [Hfp Hd]. change (x_plans _) with (x_plans db) in Hfp.
  assert (Hgr : granted plan_id task_id item_id locked_by locked_at r expected db t p d).
  { split; try done; [by exists c | by exists i |]. apply authority_inv; [by rewrite Hexp|done]. }
  assert (Hidt : tk_id t = task_id) by (by apply get_row_key in Ht as [_ ?]).
  clear Hc Hw Hauth Hst Hpl Hi Hk Hs Hlb Hla Hich Hcin Hcid Hen Hhalt.
  change (x_runs _) with (x_runs db) in H. destruct (find_run key (x_runs db)) as [row|] eqn:Hrun.
  - apply bind_Ok in H as (run & ->%replay_Ok & H). apply rebind_inv in H as (t' & He & Hdb & Hid & Hstate & Hr & Hj & Hconf).
    split; [left; rewrite Hdb; by repeat split|].
    exists t, t', p, d. split; [done|]. split; rewrite ?He, ?Hdb; try done; [|by rewrite Hid]. left. rewrite He, Hdb. by repeat split.
  - destruct (is_some _); [discriminate|]. apply bind_Ok in H as (runs & (-> & Hnid & _)%add_run_Ok & H).
    apply bind_Ok in H as (e0 & Hl & H). cbv zeta in H. apply bind_Ok in H as ([jid t'] & Hb & [= <-]).
    apply bind_task in Hb as (_ & Hid & Hstate & Hr & _ & Hj & Hconf). apply launch_inv in Hl as [job Hl].
    split; [right; by apply (launched_effect _ _ _ _ _ _ _ _ _ _ _ _ _ Hl)|].
    exists t, t', p, d. split; [done|]. split; try done; [| by rewrite <- Hidt |].
    + right. apply (fresh_run key db e0 (reservation (salt 1) p key (execute_request_fingerprint sha256 r plan_id)) _ now p); try done.
      1-2: by rewrite (la_run _ _ _ _ _ _ _ _ _ _ Hl). by apply (launched_runs _ _ _ _ _ _ _ _ _ _ _ Hl).
    + change (put_row tk_id t' (x_tasks (ex_db e0)) = put_row tk_id t' (x_tasks db)). by rewrite (la_db _ _ _ _ _ _ _ _ _ _ Hl).
Qed.

Definition task_binding (r : AutoFlowExecuteRequest) (task_id : uuid) : Prop :=
  exists item_id locked_by locked_at, _channelops_execute_binding r = Ok (Some (task_id, item_id, locked_by, locked_at)).

Lemma execute_inv salt now r seen db e :
  seen `prefix_of` x_runs db -> execute salt now r seen db = Ok e ->
  exists key plan_id, _execute_idempotency_key (salt 0) r = Ok key /\ uuid_of_string (xr_plan_id r) = Ok plan_id
    /\ outcome key db e /\ effect salt now plan_id db e
    /\ ((_channelops_execute_binding r = Ok None /\ x_tasks (ex_db e) = x_tasks db)
        \/ exists expected task_id item_id locked_by locked_at t t' p d,
             _expected_execute_authority r = Ok expected
             /\ _channelops_execute_binding r = Ok (Some (task_id, item_id, locked_by, locked_at))
             /\ granted plan_id task_id item_id locked_by locked_at r expected db t p d /\ bound_to key task_id db t e t').
Proof.
  intros Hseen. unfold _execute_idempotent. destruct (is_empty (xr_plan_id r)); [discriminate|]. intros H.
  apply bind_Ok in H as (plan_id & Hpid & H). apply bind_Ok in H as (key & Hkey & H). apply bind_Ok in H as (expected & Hexp & H).
  apply bind_Ok in H as (binding & Hb & H). exists key, plan_id. split; [done|]. split; [done|].
  destruct binding as [[[[task_id item_id] locked_by] locked_at]|].
  - apply bound_inv in H as (He & t & t' & p & d & Hg & Hbd). split; [apply Hbd|]. split; [done|]. right.
    exists expected, task_id, item_id, locked_by, locked_at, t, t', p, d. done.
  - apply unbound_outcome in H as (Ho & He & Ht); [|done]. split; [done|]. split; [done|]. left. done.
Qed.

(** ** Histories *)

Definition keeps_bindings (db db' : ExecDb) : Prop :=
  forall id t rid, get_row tk_id id (x_tasks db) = Some t -> tk_autoflow_run_id t = Some rid ->
  exists t', get_row tk_id id (x_tasks db') = Some t' /\ tk_autoflow_run_id t' = Some rid.

(** Executions by any requests, and any other transactions that leave runs alone and do not
    unbind tasks: edits and approvals of plans, the engine, the queue, the schedule, the
    handlers of the channel agent. *)
Inductive exec_step : ExecDb -> ExecDb -> Prop :=
| Step_execute salt now r seen db e :
    seen `prefix_of` x_runs db -> execute salt now r seen db = Ok e -> exec_step db (ex_db e)
| Step_other db db' : x_runs db' = x_runs db -> keeps_bindings db db' -> exec_step db db'.

Lemma outcome_runs key db e : outcome key db e -> x_runs db `prefix_of` x_runs (ex_db e).
Proof. intros [[_ [-> _]]|[_ _ _ ->]]; [done|]. by exists [ex_run e]. Qed.

Lemma outcome_found key db e : outcome key db e -> find_run key (x_runs (ex_db e)) = Some (ex_run e).
Proof.
  intros [[Hf [-> _]]|[Hn _ Hk ->]]; [done|]. unfold find_run in *. induction (x_runs db) as [|q l IH].
  - cbn [find app]. by rewrite Hk, bool_decide_eq_true_2.
  - cbn [find app] in *. destruct (bool_decide _); [discriminate|]. by apply IH.
Qed.

Lemma outcome_NoDup key db e : outcome key db e -> NoDup (map rn_id (x_runs db)) -> NoDup (map rn_id (x_runs (ex_db e))).
Proof.
  intros [[_ [-> _]]|[_ Hid _ ->]] Hnd; [done|]. rewrite map_app. apply NoDup_app. split; [done|]. split; [|apply NoDup_singleton].
  intros x Hx ->%list_elem_of_singleton. done.
Qed.

Lemma bound_keeps key task_id db t e t' :
  get_row tk_id task_id (x_tasks db) = Some t -> bound_to key task_id db t e t' -> keeps_bindings db (ex_db e).
Proof.
  intros Ht [_ Hid _ Hrun _ Hsame Htasks] id u rid Hu Hrid. rewrite Htasks. destruct (decide (tk_id t' = id)) as [He|Hne].
  - rewrite <- He in *. rewrite Hid in Hu. rewrite Ht in Hu. injection Hu as <-. exists t'. split.
    + apply (get_put_row tk_id t' t). by rewrite Hid.
    + rewrite Hrun. f_equal. symmetry. by apply Hsame.
  - exists u. split; [|done]. by rewrite get_put_row_ne.
Qed.

Record evolves (db db' : ExecDb) : Prop := {
  ev_runs : x_runs db `prefix_of` x_runs db';
  ev_ids : NoDup (map rn_id (x_runs db)) -> NoDup (map rn_id (x_runs db'));
  ev_bindings : keeps_bindings db db' }.

Lemma evolves_refl db : evolves db db.
Proof. split; [done..|]. intros id t rid Ht Hr. by exists t. Qed.

Lemma evolves_trans db1 db2 db3 : evolves db1 db2 -> evolves db2 db3 -> evolves db1 db3.
Proof.
  intros [H1 H2 H3] [K1 K2 K3]. split; [by trans (x_runs db2)|auto|].
  intros id t rid Ht Hr. destruct (H3 id t rid Ht Hr) as (t2 & Ht2 & Hr2). by apply (K3 id t2).
Qed.

Lemma execute_evolves salt now r seen db e :
  seen `prefix_of` x_runs db -> execute salt now r seen db = Ok e -> evolves db (ex_db e).
Proof.
  intros Hseen H. destruct (execute_inv _ _ _ _ _ _ Hseen H) as (key & plan_id & _ & _ & Ho & _ & Hcase).
  split; [by apply (outcome_runs key) | by apply (outcome_NoDup key) |].
  destruct Hcase as [[_ Ht]|(expected & task_id & item_id & lb & la & t & t' & p & d & _ & _ & Hg & Hb)].
  - intros id t rid Hid Hr. exists t. by rewrite Ht.
  - by apply (bound_keeps key task_id db t e t'); [apply Hg|].
Qed.

Lemma steps_evolve db db' : rtc exec_step db db' -> evolves db db'.
Proof.
  induction 1 as [|db1 db2 db3 H _ IH]; [apply evolves_refl|]. apply (evolves_trans _ db2); [|done].
  destruct H as [salt now r seen db e Hseen He|db db' Hr Hk]; [by apply (execute_evolves salt now r seen)|].
  split; [by rewrite Hr | by rewrite Hr | done].
Qed.

(** The key a request gives. *)
Definition same_key (r1 r2 : AutoFlowExecuteRequest) : Prop :=
  exists k1 k2, xr_idempotency_key r1 = Some k1 /\ xr_idempotency_key r2 = Some k2 /\ strip k1 = strip k2.

Lemma same_key_of r1 r2 o1 o2 k1 k2 :
  same_key r1 r2 -> _execute_idempotency_key o1 r1 = Ok k1 -> _execute_idempotency_key o2 r2 = Ok k2 -> k1 = k2.
Proof.
  intros (a & b & H1 & H2 & Hs). unfold _execute_idempotency_key. rewrite H1, H2, Hs.
  destruct (is_empty (strip b)); [discriminate|]. by intros [= <-] [= <-].
Qed.

(** A later execution that finds the run of an earlier one. *)
Lemma found_again key db e run :
  outcome key db e -> NoDup (map rn_id (x_runs db)) -> run ∈ x_runs db ->
  find_run key (x_runs db) = Some run \/ rn_id run = rn_id (ex_run e) ->
  ex_run e = run /\ same_rows db (ex_db e).
Proof.
  intros [[Hf Hsame]|[Hn Hid _ _]] Hnd Hin [Hk|Hk].
  - split; [congruence|done].
  - split; [|done]. symmetry. apply (NoDup_map_inj rn_id (x_runs db)); try done.
    apply find_some in Hf as [Hf _]. by apply list_elem_of_In.
  - congruence.
  - exfalso. apply Hid. rewrite <- Hk. by apply elem_map.
Qed.
End Once.

(** C7. A plan is executed once.  After an execution has committed, whatever executions and
    other transactions come in between, every execution that succeeds with the same
    idempotency key, or for the same production task with any key, returns the very same
    run and adds no run, pipeline or job. *)
Theorem executed_once sha256 postgres registry setting read_definition lock_plan
    salt1 now1 r1 seen1 db1 e1 salt2 now2 r2 seen2 db2 e2 :
  let execute := _execute_idempotent sha256 postgres registry setting read_definition lock_plan in
  let step := exec_step sha256 postgres registry setting read_definition lock_plan in
  NoDup (map rn_id (x_runs db1)) ->
  seen1 `prefix_of` x_runs db1 -> execute salt1 now1 r1 seen1 db1 = Ok e1 ->
  rtc step (ex_db e1) db2 ->
  seen2 `prefix_of` x_runs db2 -> execute salt2 now2 r2 seen2 db2 = Ok e2 ->
  same_key r1 r2 \/ (exists task_id, task_binding r1 task_id /\ task_binding r2 task_id) ->
  ex_run e2 = ex_run e1 /\ same_rows db2 (ex_db e2).
Proof.
  intros execute step Hnd Hs1 H1 Hsteps Hs2 H2 Hsame.
  pose proof (execute_evolves _ _ _ _ _ _ _ _ _ _ _ _ Hs1 H1) as [_ Hids _]. specialize (Hids Hnd).
  apply steps_evolve in Hsteps as [Hpre Hids2 Hkeep]. specialize (Hids2 Hids).
  destruct (execute_inv _ _ _ _ _ _ _ _ _ _ _ _ Hs1 H1) as (k1 & ? & Hk1 & _ & Ho1 & _ & Hb1).
  destruct (execute_inv _ _ _ _ _ _ _ _ _ _ _ _ Hs2 H2) as (k2 & ? & Hk2 & _ & Ho2 & _ & Hb2).
  pose proof (find_prefix _ _ _ _ Hpre (outcome_found _ _ _ Ho1)) as Hf.
  assert (Hin : ex_run e1 ∈ x_runs db2) by (apply find_some in Hf as [Hf _]; by apply list_elem_of_In).
  apply (found_again k2); try done. destruct Hsame as [Hsk|(task & (i1 & b1 & l1 & Hbind1) & (i2 & b2 & l2 & Hbind2))].
  - left. by rewrite <- (same_key_of _ _ _ _ _ _ Hsk Hk1 Hk2).
  - right. destruct Hb1 as [[Hno _]|(? & task1 & ? & ? & ? & t1 & t1' & ? & ? & _ & Hbd1 & Hg1 & Hbt1)]; [congruence|].
    destruct Hb2 as [[Hno _]|(? & task2 & ? & ? & ? & t2 & t2' & ? & ? & _ & Hbd2 & Hg2 & Hbt2)]; [congruence|].
    rewrite Hbind1 in Hbd1. injection Hbd1 as <- <- <- <-. rewrite Hbind2 in Hbd2. injection Hbd2 as <- <- <- <-.
    destruct (Hkeep task t1' (rn_id (ex_run e1))) as (t & Ht & Hr); [|by apply Hbt1|].
    + rewrite (bd_tasks _ _ _ _ _ _ Hbt1), <- (bd_task _ _ _ _ _ _ Hbt1). apply (get_put_row tk_id t1' t1).
      rewrite (bd_task _ _ _ _ _ _ Hbt1). by apply Hg1.
    + apply (bd_same _ _ _ _ _ _ Hbt2). pose proof (gr_task _ _ _ _ _ _ _ _ _ _ _ _ _ _ Hg2) as Hg. congruence.
Qed.
