(* ===== verification/PlanHistory.v ===== *)
(** * What is launched was approved

    Histories of the whole: plans are saved, edited, approved, rejected and executed, by
    requests of the API and of the channel agent, with any other transactions in between. *)

From stdpp Require Import base tactics list strings relations.
From Stdlib Require Import ZArith Lia.
From coqutil Require Import Datatypes.RecordSetters.
From S2P Require Import Prelude PyStr PyValue PyJson PyTime PyUuid NodeRegistry Pipeline JobModel PlanApproval Outbox ChannelQueue ChannelRunner AgentModel Schedule JobService PipelineService PlanExecute PlanOnce HumanReview Builtins.
Import TriangleBracketNotations.

Open Scope string_scope.
Open Scope list_scope.

Section History.
Context (sha256 : string -> string) (postgres : bool) (registry : NodeTypeRegistry) (setting : string).
Context (automatic_rights : config -> list pyval -> string).
Context (read_definition : config -> Res PipelineDefinition).
Context (lock_plan : ExecDb -> uuid -> option QueueLease -> Res (option producer)).
#[local] Abbreviation execute := (_execute_idempotent sha256 postgres registry setting read_definition lock_plan).

(** The database and the log of approvals. *)
Inductive plan_step : ExecDb * list (plan_op * Plan) -> ExecDb * list (plan_op * Plan) -> Prop :=
| Plan_saved p row plans db log :
    find_plan (pl_id p) (x_plans db) = None -> approval_written p = false ->
    _save_plan sha256 postgres p (x_plans db) = Ok (row, plans) ->
    plan_step (db, log) (db <| x_plans := plans |>, log)
| Plan_changed id op plans log' db log :
    run_logged sha256 postgres automatic_rights id (x_plans db, log) op = (plans, log') ->
    plan_step (db, log) (db <| x_plans := plans |>, log')
| Plan_executed salt now r seen db e log :
    seen `prefix_of` x_runs db -> execute salt now r seen db = Ok e -> plan_step (db, log) (ex_db e, log)
| Plan_other db db' log : x_plans db' = x_plans db -> plan_step (db, log) (db', log).

(** The approvals of one plan. *)
Definition log_of (id : uuid) (log : list (plan_op * Plan)) : list (plan_op * Plan) :=
  List.filter (fun entry => (pl_id entry.2 =? id)%string) log.

Record plans_stand (plans : list Plan) (log : list (plan_op * Plan)) : Prop := {
  ps_ids : NoDup (map pl_id plans);
  ps_rows : forall id row, find_plan id plans = Some row -> approvals_stand sha256 (log_of id log) row }.

Lemma map_put_plan row plans : map pl_id (put_plan row plans) = map pl_id plans.
Proof.
  unfold put_plan. rewrite map_map. apply map_ext. intros q. by destruct (String.eqb_spec (pl_id q) (pl_id row)) as [->|].
Qed.

Lemma log_of_entry id op row log :
  log_of id (log ++ log_entry op row) = log_of id log ++ (if (pl_id row =? id)%string then log_entry op row else []).
Proof.
  unfold log_of, log_entry. rewrite List.filter_app. f_equal. destruct (is_approval op); cbn [List.filter snd]; by destruct (_ =? _)%string.
Qed.

Lemma put_stands id op row row' plans log :
  plans_stand plans log -> find_plan id plans = Some row -> pl_id row' = id -> op_outcome sha256 op row row' ->
  plans_stand (put_plan row' plans) (log ++ log_entry op row).
Proof.
  intros [Hnd Hrows] Hf Hid Hout. pose proof (find_plan_id _ _ _ Hf) as Hidr. split; [by rewrite map_put_plan|].
  intros i q Hq. rewrite find_put_plan, Hid in Hq. rewrite log_of_entry, Hidr.
  destruct (String.eqb_spec id i) as [<-|Hne]; [|rewrite app_nil_r; by apply Hrows].
  rewrite Hf in Hq. injection Hq as <-. apply (outcome_stands sha256 op row); [done|]. by apply Hrows.
Qed.

Lemma find_plan_snoc id plans row :
  find_plan id (plans ++ [row]) = match find_plan id plans with
                                  | Some q => Some q
                                  | None => if (pl_id row =? id)%string then Some row else None
                                  end.
Proof. unfold find_plan. induction plans as [|q plans IH]; cbn [find app]; [done|]. destruct (pl_id q =? id)%string; [done|exact IH]. Qed.

Lemma find_plan_None id plans : find_plan id plans = None -> id ∉ map pl_id plans.
Proof.
  intros Hf (q & -> & Hq%list_elem_of_In)%list_elem_of_fmap. pose proof (find_none _ _ Hf _ Hq) as Hn.
  cbv beta in Hn. by rewrite String.eqb_refl in Hn.
Qed.

Lemma saved_stands p row plans db log :
  plans_stand (x_plans db) log -> find_plan (pl_id p) (x_plans db) = None -> approval_written p = false ->
  _save_plan sha256 postgres p (x_plans db) = Ok (row, plans) -> plans_stand plans log.
Proof.
  intros [Hnd Hrows] Hf Hp Hs.
  destruct (first_save sha256 postgres p (x_plans db) (log_of (pl_id p) log) Hf Hp) as (row0 & Hs0 & Hid & Hst).
  rewrite Hs in Hs0. injection Hs0 as <- ->. split.
  - rewrite map_app. apply NoDup_app. split; [done|]. split; [|apply NoDup_singleton].
    intros x Hx ->%list_elem_of_singleton. rewrite Hid in Hx. by apply (find_plan_None _ _ Hf).
  - intros id q Hq. rewrite find_plan_snoc in Hq. destruct (find_plan id (x_plans db)) eqn:Hfi; [apply Hrows; congruence|].
    destruct (String.eqb_spec (pl_id row) id) as [<-|]; [|discriminate]. injection Hq as <-. by rewrite Hid.
Qed.

Lemma executed_stands plan_id plans log :
  plans_stand plans log -> plans_stand (mark_executed postgres plan_id plans) log.
Proof.
  intros Hst. destruct (find_plan plan_id plans) as [row|] eqn:Hf.
  - destruct (executed_outcome sha256 postgres plan_id plans row Hf) as (row' & -> & Hid & Hout).
    rewrite <- (app_nil_r log). by apply (put_stands plan_id OpExecuted row).
  - unfold mark_executed. by rewrite Hf.
Qed.

Lemma step_stands s s' : plan_step s s' -> plans_stand (x_plans s.1) s.2 -> plans_stand (x_plans s'.1) s'.2.
Proof.
  intros [p row plans db log Hf Hp Hs|id op plans log' db log Hrun|salt now r seen db e log Hseen He|db db' log Hp] Hst; cbn [fst snd] in *.
  - by apply (saved_stands p row _ db).
  - change (plans_stand plans log'). destruct (find_plan id (x_plans db)) as [row|] eqn:Hf.
    + rewrite (run_logged_found sha256 postgres automatic_rights id op _ log row Hf) in Hrun. injection Hrun as <- <-.
      destruct (run_op_outcome sha256 postgres automatic_rights id op _ row (ps_ids _ _ Hst) Hf) as (row' & -> & Hid & Hout).
      by apply (put_stands id op row).
    + rewrite (run_logged_missing sha256 postgres automatic_rights id op _ log Hf) in Hrun. by injection Hrun as <- <-.
  - destruct (execute_inv _ _ _ _ _ _ _ _ _ _ _ _ Hseen He) as (key & plan_id & _ & _ & _ & Heff & _).
    destruct Heff as [(_ & _ & _ & Hpl & _)|(p & d & _ & _ & _ & [[_ Hpl]|(sch & job & _ & _ & Hpl)])]; rewrite Hpl; [done..|].
    by apply executed_stands.
  - by rewrite Hp.
Qed.

Lemma steps_stand s s' : rtc plan_step s s' -> plans_stand (x_plans s.1) s.2 -> plans_stand (x_plans s'.1) s'.2.
Proof. induction 1; eauto using step_stands. Qed.
End History.

(** C6. What is launched was approved.  In every history of a database that started without
    plans, an execution that adds a job adds one, created from the definition the plan has,
    and the plan passes [_assert_execute_allowed]; when the plan uploads material whose
    rights need review (or carries an approval) the log has an approval of this plan with
    the same revision number and canonical content, a public one for a public plan, unless
    two texts collide under the digest. *)
Theorem launched_content_approved sha256 postgres registry setting automatic_rights read_definition lock_plan
    db0 db log salt now r seen e :
  x_plans db0 = [] ->
  rtc (plan_step sha256 postgres registry setting automatic_rights read_definition lock_plan) (db0, []) (db, log) ->
  seen `prefix_of` x_runs db ->
  _execute_idempotent sha256 postgres registry setting read_definition lock_plan salt now r seen db = Ok e ->
  x_jobs (ex_db e) <> x_jobs db ->
  exists p d schedule job, uuid_of_string (xr_plan_id r) = Ok (pl_id p) /\ find_plan (pl_id p) (x_plans db) = Some p
    /\ read_definition (pc_definition (pl_content p)) = Ok d
    /\ create_job registry (fun i => salt (3 + i)) now (Some d) (salt 2) None = Ok job
    /\ x_jobs (ex_db e) = x_jobs db ++ [scheduled_job setting schedule job]
    /\ let approved public := exists op q, (op, q) ∈ log /\ pl_id q = pl_id p /\ is_approval op = true
         /\ (public = true -> is_public op = true) /\ pl_execution_revision q = pl_execution_revision p
         /\ (same_payload q p \/ collision sha256) in
       ((rights_are (pl_rights p) "review_required" = true /\ publish_mode p ∈ UPLOAD_MODES) \/ approval_written p = true ->
        approved false)
       /\ (publish_mode p = "public_after_review" -> approved true).
Proof.
  intros H0 Hsteps Hseen He Hjobs.
  assert (Hstart : plans_stand sha256 (x_plans db0) []) by (rewrite H0; split; [constructor | intros id row; discriminate]).
  pose proof (steps_stand _ _ _ _ _ _ _ _ _ Hsteps Hstart) as Hst. cbn [fst snd] in Hst.
  destruct (execute_inv _ _ _ _ _ _ _ _ _ _ _ _ Hseen He) as (key & plan_id & _ & Hpid & _ & Heff & _).
  destruct Heff as [(_ & _ & Hj & _)|(p & d & Hp & Hd & Hallow & [[Hj _]|(schedule & job & Hjob & Hj & _)])]; [congruence..|].
  pose proof (find_plan_id _ _ _ Hp) as <-. exists p, d, schedule, job. do 5 (split; [done|]). intros approved.
  destruct (execution_given sha256 _ p (ps_rows _ _ _ Hst _ _ Hp) Hallow) as [Hneed Hpub].
  assert (Hap : forall public, given sha256 public (log_of (pl_id p) log) p -> approved public).
  { intros public (op & q & (Hin & Hid%String.eqb_eq)%elem_of_lfilter & Hrest)%given_content. by exists op, q. }
  split; intros H; apply Hap; auto.
Qed.

(** ** An execution by the channel agent *)

Module ExecDemo.
Definition definition : PipelineDefinition :=
  Eval vm_compute in ok_or sample_runtime (_apply_input_overrides sample_runtime (Some sample_overrides)).
Definition read (c : config) : Res PipelineDefinition := Ok definition.
Definition no_owner (db : ExecDb) (plan : uuid) (l : option QueueLease) : Res (option producer) := Ok None.
Definition salt (n i : nat) : uuid := uuid_str (Z.of_nat (100 * n + i)).

Definition plan : Plan := PlanDemo.plan <| pl_id := uuid_str 9 |>.
Definition approvals : list plan_op := [OpApprove PlanDemo.noon None; OpApprovePublic PlanDemo.noon None].
Definition approved := Eval vm_compute in history PlanDemo.digest true PlanDemo.policy plan approvals.
Definition hash : string := Eval vm_compute in default "" (head approved.1 ≫= pl_approved_revision_hash).

Definition task : AgentModel.ProductionTask :=
  reviewed_task <| tk_rationale_json :=
    [("autoflow_plan_payload", VDict [("plan_id", VStr (uuid_str 9)); ("expected_approved_revision_hash", VStr hash);
                                      ("expected_approved_revision", VInt 1)])] |>.

Definition item (locked_by : string) (locked_at : datetime) : ChannelOpsQueueItem :=
  {| qi_id := uuid_str 3; qi_kind := "execute_task"; qi_idempotency_key := "execute_task"; qi_channel_profile_id := Some (uuid_str 1);
     qi_priority := 60; qi_parent_queue_item_id := None;
     qi_payload_json := [("production_task_id", VStr (uuid_str 7)); ("autoflow_plan_id", VStr (uuid_str 9));
                         ("expected_approved_revision_hash", VStr hash); ("expected_approved_revision", VInt 1)];
     qi_status := "running"; qi_run_after := 0; qi_locked_at := Some locked_at; qi_locked_by := Some locked_by; qi_attempt_count := 1;
     qi_max_attempts := 3; qi_last_error := None; qi_dead_letter_at := None; qi_created_at := 0 |}.

Definition empty : ExecDb :=
  {| x_plans := []; x_runs := []; x_pipelines := []; x_jobs := []; x_schedule := None; x_tasks := [task];
     x_channels := [plain_channel (uuid_str 1)]; x_queue := [item "ann" 5]; x_assets := []; x_clips := [] |}.

Definition request (locked_by : string) (locked_at : datetime) : AutoFlowExecuteRequest :=
  {| xr_plan_id := uuid_str 9; xr_save_as_template := false; xr_execute := true; xr_review_approved := false; xr_public_approved := false;
     xr_idempotency_key := Some " execute_task "; xr_expected_approved_revision_hash := Some hash; xr_expected_approved_revision := Some 1%Z;
     xr_production_task_id := Some (uuid_str 7); xr_queue_item_id := Some (uuid_str 3); xr_queue_locked_by := Some locked_by;
     xr_queue_locked_at := Some locked_at |}.

Definition ready : ExecDb := empty <| x_plans := approved.1 |>.
Definition execute (n : nat) (r : AutoFlowExecuteRequest) (db : ExecDb) : Res Executed :=
  _execute_idempotent PlanDemo.digest true builtin_registry "open" read no_owner (salt n) PlanDemo.noon r (x_runs db) db.

(** The first execution starts a job and binds the task; a second claim of the item gets
    the same run, and its first half is refused once the claim is lost. *)
Example bound_twice :
  let first := execute 1 (request "ann" 5) ready in
  let db1 := (ok_or (replayed (reservation "" plan "" "") ready) first) in
  let db2 := (ex_db db1) <| x_queue := [item "bob" 6] |> in
  ex_started db1 = [salt 1 3] /\ map tk_job_id (x_tasks (ex_db db1)) = [Some (salt 1 3)]
  /\ execute 2 (request "ann" 5) db2 = Raise (PermissionError "ChannelOps execute queue lease authority changed")
  /\ (fun e => (rn_id (ex_run e), length (x_jobs (ex_db e)))) <$> execute 2 (request "bob" 6) db2 = Ok (salt 1 1, 1).
Proof. vm_compute. repeat split. Qed.
End ExecDemo.

(** The two executions, and the database in between, where the item was claimed again. *)
Definition demo_first : Executed :=
  Eval vm_compute in ok_or (replayed (reservation "" ExecDemo.plan "" "") ExecDemo.ready)
    (ExecDemo.execute 1 (ExecDemo.request "ann" 5) ExecDemo.ready).
Definition demo_between : ExecDb := Eval vm_compute in (ex_db demo_first) <| x_queue := [ExecDemo.item "bob" 6] |>.
Definition demo_second : Executed :=
  Eval vm_compute in ok_or (replayed (reservation "" ExecDemo.plan "" "") ExecDemo.ready)
    (ExecDemo.execute 2 (ExecDemo.request "bob" 6) demo_between).

Lemma executed_once_witness :
  length (x_jobs (ex_db demo_first)) = 1 /\ ex_run demo_second = ex_run demo_first /\ same_rows demo_between (ex_db demo_second).
Proof.
  split; [reflexivity|].
  apply (executed_once PlanDemo.digest true builtin_registry "open" ExecDemo.read ExecDemo.no_owner
           (ExecDemo.salt 1) PlanDemo.noon (ExecDemo.request "ann" 5) [] ExecDemo.ready demo_first
           (ExecDemo.salt 2) PlanDemo.noon (ExecDemo.request "bob" 6) (x_runs demo_between) demo_between demo_second).
  - constructor.
  - exists (x_runs ExecDemo.ready). reflexivity.
  - vm_compute. reflexivity.
  - apply rtc_once, Step_other; [reflexivity|]. intros id t rid Ht Hr. exists t. split; [exact Ht|exact Hr].
  - reflexivity.
  - vm_compute. reflexivity.
  - right. exists (uuid_str 7). split; [exists (uuid_str 3), "ann", 5%Z | exists (uuid_str 3), "bob", 6%Z]; vm_compute; reflexivity.
Defined.

(** The plan and the log after so many approvals. *)
Definition demo_log (n : nat) : list Plan * list (plan_op * Plan) :=
  history PlanDemo.digest true PlanDemo.policy ExecDemo.plan (take n ExecDemo.approvals).

Lemma launched_content_approved_witness :
  exists p d schedule job, uuid_of_string (uuid_str 9) = Ok (pl_id p) /\ find_plan (pl_id p) (x_plans ExecDemo.ready) = Some p
    /\ ExecDemo.read (pc_definition (pl_content p)) = Ok d
    /\ create_job builtin_registry (fun i => ExecDemo.salt 1 (3 + i)) PlanDemo.noon (Some d) (ExecDemo.salt 1 2) None = Ok job
    /\ x_jobs (ex_db demo_first) = [] ++ [scheduled_job "open" schedule job]
    /\ let approved public := exists op q, (op, q) ∈ ExecDemo.approved.2 /\ pl_id q = pl_id p /\ is_approval op = true
         /\ (public = true -> is_public op = true) /\ pl_execution_revision q = pl_execution_revision p
         /\ (same_payload q p \/ collision PlanDemo.digest) in
       ((rights_are (pl_rights p) "review_required" = true /\ publish_mode p ∈ UPLOAD_MODES) \/ approval_written p = true ->
        approved false)
       /\ (publish_mode p = "public_after_review" -> approved true).
Proof.
  apply (launched_content_approved PlanDemo.digest true builtin_registry "open" PlanDemo.policy ExecDemo.read ExecDemo.no_owner
           ExecDemo.empty ExecDemo.ready ExecDemo.approved.2 (ExecDemo.salt 1) PlanDemo.noon (ExecDemo.request "ann" 5) [] demo_first).
  - reflexivity.
  - assert (Hstep := fun db plans log op log' H =>
      Plan_changed PlanDemo.digest true builtin_registry "open" PlanDemo.policy ExecDemo.read ExecDemo.no_owner (uuid_str 9) op plans log' db log H).
    eapply rtc_l.
    { apply (Plan_saved _ _ _ _ _ _ _ ExecDemo.plan (default ExecDemo.plan (head (demo_log 0).1)) (demo_log 0).1);
        vm_compute; reflexivity. }
    eapply rtc_l.
    { apply (Hstep _ (demo_log 1).1 [] (OpApprove PlanDemo.noon None) (demo_log 1).2). vm_compute. reflexivity. }
    eapply rtc_l.
    { apply (Hstep _ (demo_log 2).1 (demo_log 1).2 (OpApprovePublic PlanDemo.noon None) (demo_log 2).2). vm_compute. reflexivity. }
    match goal with |- rtc _ ?a ?b => replace b with a by (vm_compute; reflexivity) end. apply rtc_refl.
  - exists []. reflexivity.
  - vm_compute. reflexivity.
  - discriminate.
Defined.
