(* ===== verification/OperatorReview.v ===== *)
(** * Operator routes of the channel agent ([api/channel_agent.py])

    What a person does to a channel: halt and resume it, pause lanes and accounts, ask
    for a tick or for metrics, release a task that waits for review, promote a
    publication and reject one.

    A route reads the row it is asked for, locks its channel and reads again; [seen] is
    the database before the locks and the session has the one after.  The plans are the
    rows of [PlanApproval]; the session has what the channel agent reads of them.  A
    flushed plan is returned as it was written, before the trigger.  The guards and locks
    of owned inventories are parameters. *)

From stdpp Require Import base tactics list strings.
From Stdlib Require Import ZArith Lia Ascii.
From S2P Require Import Prelude PyStr PyValue PyTime PyUuid Pipeline JobModel PlanApproval Outbox ChannelQueue MaterialUsage AgentModel HumanReview ChannelTick ChannelTasks PlanExecute.

Open Scope string_scope.
Open Scope list_scope.

(** ** Values *)

Definition _safe_promotion_visibility (v : pyval) : string :=
  let visibility := lower (strip (py_str (py_or v (VStr "")))) in
  if bool_decide (visibility ∈ ["private"; "unlisted"]) then visibility else "unlisted".

(** [strftime("%Y%m%dT%H%M%S%fZ")], for years of four digits. *)
Definition review_token (t : datetime) : string :=
  let '(y, m, d) := ord_to_ymd (t / DAY_US + EPOCH_ORDINAL)%Z in
  let us := (t mod DAY_US)%Z in
  pad 4 y (pad 2 m (pad 2 d (String "T"%char (pad 2 (us / 3600000000)%Z (pad 2 (us / 60000000 mod 60)%Z
    (pad 2 (us / 1000000 mod 60)%Z (pad 6 (us mod 1000000)%Z "Z"))))))).

Example review_token_print : review_token 1717243260000001 = "20240601T120100000001Z".
Proof. vm_compute. reflexivity. Qed.

(** What the channel agent reads of a plan. *)
Definition agent_plan (p : Plan) : AutoFlowPlan :=
  {| ap_id := pl_id p; ap_status := pl_status p; ap_candidates_json := pc_candidates (pl_content p);
     ap_metadata_json := pc_metadata (pl_content p); ap_rights_json := pl_rights p;
     ap_execution_revision := pl_execution_revision p; ap_review_approved_at := pl_review_approved_at p;
     ap_approved_revision_hash := pl_approved_revision_hash p; ap_approved_revision := pl_approved_revision p |}.

Definition http {A} (status_code : Z) (detail : string) : M A := raise (HTTPException status_code detail).
Definition require_http (b : bool) (status_code : Z) (detail : string) : M unit :=
  if b then mret tt else http status_code detail.
Definition found_or {A} (status_code : Z) (detail : string) (o : option A) : M A :=
  match o with Some a => mret a | None => http status_code detail end.

(** [except ValueError] and [except PermissionError]. *)
Definition value_conflict {A} (r : Res A) : M A :=
  match r with Raise (ValueError msg) => http 409 msg | _ => lift r end.
Definition permission_conflict {A} (r : Res A) : M A :=
  match r with Raise (PermissionError msg) => http 409 msg | _ => lift r end.

Record HumanReviewRequest := { hr_human_actor : string; hr_review_notes : option string }.
Definition default_review : HumanReviewRequest := {| hr_human_actor := "channel_agent_operator"; hr_review_notes := None |}.

Definition active (c : ChannelProfile) : bool := cp_enabled c && negb (is_some (cp_halted_at c)).

(** An entry of the history a route writes. *)
Definition operator_transition (from_state to_state reason : string) (now : datetime) : pyval :=
  VDict [("from", VStr from_state); ("to", VStr to_state); ("reason", VStr reason); ("at", VStr (isoformat_utc now))].

Definition clear_hold (t : ProductionTask) : ProductionTask :=
  t <| tk_blocked_by_guard := None |> <| tk_failure_reason := None |> <| tk_failure_category := None |>.

Section Routes.
Context {AC : AgentClients} (now : datetime) (postgres : bool).
Context (channel_guard account_guard : AgentDb -> uuid -> option string) (lock_plan : uuid -> Res unit).

(** ** Locks *)

Definition _require_channel (channel_id : string) : M ChannelProfile :=
  id ← lift (uuid_of_string channel_id);
  c ← gets (fun db => get_row cp_id id (a_channels db));
  found_or 404 "Channel not found" c.

Definition _lock_task_operator_scope (seen : AgentDb) (task_id : string) : M (ChannelProfile * ProductionTask) :=
  id ← lift (uuid_of_string task_id);
  discovered ← found_or 404 "Production task not found" (get_row tk_id id (a_tasks seen));
  c ← gets (fun db => get_row cp_id (tk_channel_profile_id discovered) (a_channels db));
  channel ← found_or 409 "Production task channel was not found" c;
  t ← gets (fun db => get_row tk_id id (a_tasks db));
  task ← found_or 404 "Production task not found" t;
  _ ← require_http (tk_channel_profile_id task =? cp_id channel)%string 409 "Production task channel changed during review";
  mret (channel, task).

Definition _lock_publication_operator_scope (seen : AgentDb) (publication_id : string)
    : M (ChannelProfile * ProductionTask * PublicationRecord * option AutoFlowPlan) :=
  id ← lift (uuid_of_string publication_id);
  discovered ← found_or 404 "Publication not found" (get_row pu_id id (a_publications seen));
  discovered_task ← found_or 404 "Production task not found" (get_row tk_id (pu_production_task_id discovered) (a_tasks seen));
  c ← gets (fun db => get_row cp_id (tk_channel_profile_id discovered_task) (a_channels db));
  channel ← found_or 409 "Publication channel was not found" c;
  t ← gets (fun db => get_row tk_id (tk_id discovered_task) (a_tasks db));
  p ← gets (fun db => get_row pu_id id (a_publications db));
  match t, p with
  | Some task, Some publication =>
      _ ← require_http ((tk_channel_profile_id task =? cp_id channel)%string
                        && (pu_production_task_id publication =? tk_id task)%string)
            409 "Publication authority changed during review";
      match tk_autoflow_plan_id task with
      | None => mret (channel, task, publication, None)
      | Some plan_id =>
          found ← gets (fun db => get_row ap_id plan_id (a_plans db));
          plan ← found_or 409 "Publication AutoFlow plan was not found" found;
          mret (channel, task, publication, Some plan)
      end
  | _, _ => http 409 "Publication state changed during review"
  end.

(** The key of a request, or one with a token when an attempt under it is over. *)
Definition attempt_key (base token : string) : M string :=
  q ← gets a_queue;
  match get_by_key base q with
  | Some prior => mret (if bool_decide (qi_status prior ∈ ["queued"; "running"]) then base else base +:+ ":" +:+ token)
  | None => mret base
  end.

(** ** Promotion *)

Definition eligible_pds_hold (t : ProductionTask) : bool :=
  (tk_state t =? TASK_HELD)%string
  && match tk_blocked_by_guard t with Some g => bool_decide (g ∈ ["pds_blocked"; "pds_flagged_for_review"]) | None => false end.

Definition reviewed_promotion_task (evidence : config) (root : config) (t : ProductionTask) : ProductionTask :=
  let t' := t <| tk_human_review_evidence_json := VDict (merge_human_review_evidence root "promotion" evidence) |> in
  if eligible_pds_hold t then
    clear_hold (t' <| tk_state := TASK_UPLOADED_PRIVATE |>) <| tk_state_updated_at := now |>
      <| tk_transition_history_json ::= fun h =>
           h ++ [operator_transition (tk_state t) TASK_UPLOADED_PRIVATE "manual_promotion_review" now] |>
  else t'.

Definition promotion_key (publication_id : uuid) (visibility : string) : string :=
  "promote_publication:" +:+ publication_id +:+ ":" +:+ visibility +:+ ":manual-review".

Definition promotion_payload (p : PublicationRecord) (t : ProductionTask) (visibility : string) : config :=
  [("publication_id", VStr (pu_id p)); ("target_visibility", VStr visibility);
   ("channel_profile_id", VStr (tk_channel_profile_id t)); ("manual_review", VBool true)].

Definition promote_publication (seen : AgentDb) (publication_id : string) (data : option HumanReviewRequest)
    : M ChannelOpsQueueItem :=
  let review := default default_review data in
  let human_actor := strip (hr_human_actor review) in
  _ ← require_http (negb (is_empty human_actor)) 400 "human_actor must be nonblank";
  scope ← _lock_publication_operator_scope seen publication_id;
  let '(channel, task, publication, plan) := scope in
  _ ← require_http (active channel) 409 "Channel is disabled or halted";
  _ ← require_http ((pu_publish_status publication =? "uploaded")%string
                    && ((tk_state task =? TASK_UPLOADED_PRIVATE)%string || eligible_pds_hold task))
        409 "Publication is not ready for promotion";
  let visibility := _safe_promotion_visibility (VStr (pu_desired_privacy publication)) in
  valid ← lift (if task_uses_external_assets task then valid_pre_upload_evidence task plan else Ok true);
  _ ← require_http valid 409 "External asset review evidence is missing or stale";
  let plan := match plan with Some p => if is_some (ap_review_approved_at p) then Some p else None | None => None end in
  evidence ← value_conflict (build_promotion_evidence (tk_id task) (pu_id publication) visibility human_actor now
                               (hr_review_notes review) plan);
  root ← lift (payload_dict (tk_human_review_evidence_json task));
  let task := reviewed_promotion_task evidence root task in
  _ ← save_task task;
  key ← attempt_key (promotion_key (pu_id publication) visibility) (review_token now);
  item ← queue_enqueue now (request "promote_publication" key (promotion_payload publication task visibility) 70 None
                              (Some (tk_channel_profile_id task)) None) false;
  _ ← commit;
  mret item.

(** ** Release *)

(** [approve] with [commit=False]: the plan as it is returned, and the rows. *)
Definition approve_flushed (id : uuid) (review_notes : option string) (plans : list Plan)
    : Res (option Plan * list Plan) :=
  r ← approve sha256 postgres id now review_notes plans;
  match find_plan id plans, r.1 with
  | Some previous, Some row =>
      let rights := (pl_rights previous).["review_approved" <- VBool true] in
      let updated := approve_revision sha256
        (previous <| pl_rights := rights |>
           <| pl_status := _status_for rights (publish_mode previous) (Some now) (pl_public_approved_at previous) None |>
           <| pl_review_approved_at := Some now |> <| pl_agent_approved_by := None |> <| pl_review_notes := review_notes |>
           <| pl_rejected_reason := None |>) in
      Ok (Some (if postgres then _invalidate_approval_for_revision_change sha256 previous updated else row), r.2)
  | _, _ => Ok r
  end.

Definition optional_Z (o : option Z) : pyval := match o with Some z => VInt z | None => VNone end.

Definition released_rationale (rationale : config) (approved : Plan) : config :=
  let hash := or_none (pl_approved_revision_hash approved) in
  let revision := optional_Z (pl_approved_revision approved) in
  rationale.["autoflow_plan_payload" <-
    VDict ((_dict_value (dict_get rationale "autoflow_plan_payload"))
             .["plan_id" <- VStr (pl_id approved)].["approved_revision_hash" <- hash].["approved_revision" <- revision]
             .["expected_approved_revision_hash" <- hash].["expected_approved_revision" <- revision])].

Definition released_task (evidence root : config) (approved : Plan) (t : ProductionTask) : ProductionTask :=
  clear_hold (t <| tk_approval_mode := "human" |>
                <| tk_human_review_evidence_json := VDict (merge_human_review_evidence root "pre_upload" evidence) |>
                <| tk_rationale_json := released_rationale (tk_rationale_json t) approved |>
                <| tk_state := TASK_PLANNING |>)
    <| tk_state_updated_at := now |>
    <| tk_transition_history_json ::= fun h => h ++ [operator_transition (tk_state t) TASK_PLANNING "human_review_release" now] |>.

Definition execute_payload (t : ProductionTask) (plan_id : uuid) (approved : Plan) : config :=
  [("production_task_id", VStr (tk_id t)); ("autoflow_plan_id", VStr plan_id);
   ("expected_approved_revision_hash", or_none (pl_approved_revision_hash approved));
   ("expected_approved_revision", optional_Z (pl_approved_revision approved))].

Definition release_human_review (seen : AgentDb) (task_id : string) (data : HumanReviewRequest) (plans : list Plan)
    : M (ProductionTask * list Plan) :=
  let human_actor := strip (hr_human_actor data) in
  _ ← require_http (negb (is_empty human_actor)) 400 "human_actor must be nonblank";
  scope ← _lock_task_operator_scope seen task_id;
  let '(channel, task) := scope in
  _ ← require_http (active channel) 409 "Channel is disabled or halted";
  _ ← require_http ((tk_state task =? TASK_HELD)%string && bool_decide (tk_blocked_by_guard task = Some "human_approval_required"))
        409 "Task is not held for human review";
  plan_id ← found_or 409 "Task has no AutoFlow plan to review" (tk_autoflow_plan_id task);
  _ ← found_or 409 "Task AutoFlow plan was not found" (find_plan plan_id plans);
  r ← permission_conflict (_ ← lock_plan plan_id; approve_flushed plan_id (hr_review_notes data) plans);
  approved ← found_or 409 "Task AutoFlow plan was not found" r.1;
  _ ← require_http (pl_id approved =? plan_id)%string 409 "Task AutoFlow plan was not found";
  _ ← modify (fun db => db <| a_plans := map agent_plan r.2 |>);
  evidence ← value_conflict (build_pre_upload_evidence (agent_plan approved) human_actor (hr_review_notes data));
  approved_at ← found_or 409 "AutoFlow plan has no human review approval token" (pl_review_approved_at approved);
  root ← lift (payload_dict (tk_human_review_evidence_json task));
  let task := released_task evidence root approved task in
  _ ← save_task task;
  key ← attempt_key ("execute_task:" +:+ tk_id task) (review_token approved_at);
  _ ← queue_enqueue now (request "execute_task" key (execute_payload task plan_id approved) 100 None
                           (Some (tk_channel_profile_id task)) None) false;
  _ ← commit;
  mret (task, r.2).

(** ** Rejection *)

Definition reject_publication (seen : AgentDb) (publication_id : string) : M PublicationRecord :=
  scope ← _lock_publication_operator_scope seen publication_id;
  let '(_, task, publication, _) := scope in
  _ ← require_http (bool_decide (pu_publish_status publication ∈ ["uploaded"; "held"; "rejected"]))
        409 "Publication cannot be safely rejected from its current state";
  let publication := publication <| pu_publish_status := "rejected" |> in
  _ ← save_publication publication;
  _ ← save_task (task <| tk_state := TASK_REJECTED |> <| tk_state_updated_at := now |>);
  _ ← modify (fun db => db <| a_queue ::= _cancel_queued_publication_items (pu_id publication) ["promote_publication"; "collect_metrics"] |>);
  _ ← commit;
  mret publication.

(** ** Channels, accounts and lanes *)

Definition save_channel (c : ChannelProfile) : M ChannelProfile :=
  _ ← modify (fun db => db <| a_channels ::= put_row cp_id c |>); _ ← commit; mret c.

(** [lock_history_channel_mutation] behind [_inventory_result]. *)
Definition guarded (guard : AgentDb -> uuid -> option string) (id : uuid) : M unit :=
  g ← gets (fun db => guard db id);
  match g with None => mret tt | Some error => http 409 error end.

Definition change_channel (channel_id : string) (f : ChannelProfile -> ChannelProfile) : M ChannelProfile :=
  c ← _require_channel channel_id;
  _ ← guarded channel_guard (cp_id c);
  save_channel (f c).

Definition patch_dry_run (channel_id : string) (dry_run : bool) : M ChannelProfile :=
  change_channel channel_id (fun c => c <| cp_dry_run := dry_run |> <| cp_config_version ::= fun v => (v + 1)%Z |>).
Definition halt_channel (channel_id reason : string) : M ChannelProfile :=
  change_channel channel_id (fun c => c <| cp_halted_at := Some now |> <| cp_halt_reason := Some reason |>).
Definition resume_channel (channel_id : string) : M ChannelProfile :=
  change_channel channel_id (fun c => c <| cp_halted_at := None |> <| cp_halt_reason := None |>).

Definition change_account (account_id : string) (f : PublishingAccount -> PublishingAccount) : M PublishingAccount :=
  id ← lift (uuid_of_string account_id);
  a ← gets (fun db => get_row ac_id id (a_accounts db));
  account ← found_or 404 "Account not found" a;
  _ ← guarded account_guard (ac_id account);
  _ ← save_account (f account);
  _ ← commit;
  mret (f account).

Definition pause_account (account_id : string) (until : option datetime) : M PublishingAccount :=
  change_account account_id (fun a => a <| ac_enabled := false |> <| ac_paused_until := until |>).
Definition resume_account (account_id : string) : M PublishingAccount :=
  change_account account_id (fun a => a <| ac_enabled := true |> <| ac_paused_until := None |>).

Definition change_lane (lane_id : string) (f : TopicLane -> TopicLane) : M TopicLane :=
  id ← lift (uuid_of_string lane_id);
  l ← gets (fun db => get_row la_id id (a_lanes db));
  lane ← found_or 404 "Lane not found" l;
  _ ← modify (fun db => db <| a_lanes ::= put_row la_id (f lane) |>);
  _ ← commit;
  mret (f lane).

Definition pause_lane (lane_id : string) (until : option datetime) : M TopicLane :=
  change_lane lane_id (fun l => l <| la_enabled := false |> <| la_paused_until := until |>).
Definition resume_lane (lane_id : string) : M TopicLane :=
  change_lane lane_id (fun l => l <| la_enabled := true |> <| la_paused_until := None |>).

(** ** Requests for work *)

Definition enqueue_tick (channel_id : string) : M ChannelOpsQueueItem :=
  c ← _require_channel channel_id;
  _ ← require_http (negb (is_some (cp_intake_paused_at c))) 409 "Channel intake is paused";
  id ← lift (uuid_of_string channel_id);
  queue_enqueue now (request "agent_tick" ("agent_tick:" +:+ channel_id +:+ ":" +:+ utc_hour_bucket now)
                       [("channel_id", VStr channel_id)] 20 None (Some id) None) true.

Definition enqueue_metrics (publication_id : string) : M ChannelOpsQueueItem :=
  id ← lift (uuid_of_string publication_id);
  p ← gets (fun db => get_row pu_id id (a_publications db));
  publication ← found_or 404 "Publication not found" p;
  t ← gets (task_of_publication publication);
  task ← found_or 404 "Production task not found" t;
  queue_enqueue now (request "collect_metrics" ("collect_metrics:" +:+ publication_id +:+ ":" +:+ utc_hour_bucket now)
                       [("publication_id", VStr publication_id)] 90 None (Some (tk_channel_profile_id task)) None) true.
End Routes.
