(* ===== verification/OperatorSound.v ===== *)
(** * What operators decide is carried out

    A task released by a reviewer passes the checks that stand between its queue item
    and its execution: the agent's check of the review, the service's check of the
    claimed item against the task and the plan, and the plan's own.  A publication
    promoted by a reviewer passes the review check of its handler; a rejected one is left
    alone. *)

From stdpp Require Import base tactics list strings sets.
From Stdlib Require Import ZArith Lia.
From S2P Require Import Prelude PyStr PyValue PyJson PyTime PyUuid Pipeline JobModel PlanApproval Outbox ChannelQueue QueueHistory MaterialUsage AgentModel HumanReview AgentLogic ChannelTick TickSafe ChannelTasks PlanExecute OperatorReview.

Open Scope string_scope.
Open Scope list_scope.

(** ** Steps that succeed *)

Section Steps.
Context {A : Type} (Q : A -> Session -> Prop) (E : Session -> Prop) (s : Session).

Lemma wp_found code detail (o : option A) a : o = Some a -> Q a s -> wp (found_or code detail o) Q E s.
Proof. by intros ->. Qed.
Lemma wp_lift_Ok (r : Res A) a : r = Ok a -> Q a s -> wp (lift r) Q E s.
Proof. by intros ->. Qed.
Lemma wp_value (r : Res A) a : r = Ok a -> Q a s -> wp (value_conflict r) Q E s.
Proof. by intros ->. Qed.
End Steps.

Lemma wp_require b code detail (Q : unit -> Session -> Prop) E s : b = true -> Q tt s -> wp (require_http b code detail) Q E s.
Proof. by intros ->. Qed.

Lemma wp_total {A} (m : M A) Q s : wp m Q (fun _ => False) s -> exists a s', m s = (Ok a, s') /\ Q a s'.
Proof. unfold wp. destruct (m s) as [[a|e] s']; [|done]. intros H. by exists a, s'. Qed.

(** An attempt under a key is not open, and its token is new. *)
Definition key_free (base token : string) (q : queue_table) : Prop :=
  match get_by_key base q with
  | None => True
  | Some prior => qi_status prior ∉ ["queued"; "running"] /\ get_by_key (base +:+ ":" +:+ token) q = None
  end.

Lemma wp_attempt_key base token (Q : string -> Session -> Prop) E s :
  key_free base token (a_queue (se_db s)) ->
  (forall key, get_by_key key (a_queue (se_db s)) = None -> Q key s) -> wp (attempt_key base token) Q E s.
Proof.
  unfold key_free, attempt_key. intros Hf HQ. wp_step. wp_step.
  destruct (get_by_key base (a_queue (se_db s))) as [prior|] eqn:Hp; wp_step; [|by apply HQ].
  destruct Hf as [Hs Hn]. rewrite bool_decide_eq_false_2 by done. by apply HQ.
Qed.

Lemma wp_enqueue_new `{!AgentClients} now r (Q : ChannelOpsQueueItem -> Session -> Prop) E s :
  get_by_key (eq_idempotency_key r) (a_queue (se_db s)) = None ->
  new_uuid (se_fresh s) ∉ map qi_id (a_queue (se_db s)) ->
  (let item := new_item (new_uuid (se_fresh s)) now r in
   forall s', se_db s' = (se_db s) <| a_queue := a_queue (se_db s) ++ [item] |> -> Q item s') ->
  wp (queue_enqueue now r false) Q E s.
Proof.
  intros Hk Hid HQ. unfold queue_enqueue. wp_step. wp_step. rewrite Hk. wp_step. wp_step. wp_step.
  eapply wp_lift_Ok.
  { unfold enqueue_item. rewrite Hk. rewrite bool_decide_eq_false_2 by (by apply get_by_key_None).
    by rewrite bool_decide_eq_false_2 by done. }
  repeat wp_step. 1: discriminate. intros _. wp_step. by apply HQ.
Qed.

(** ** The approval of a release *)

Section Release.
Context {AC : AgentClients} (now : datetime) (postgres : bool).
Context (Hsha : forall text, String.length (sha256 text) = 64) (Hnow : _utc now = Ok now).








(** ** The claimed item *)





(** ** The release *)








End Release.

(** ** The promotion *)

Lemma string_list_truthy v : _string_list v <> [] -> truthy v = true.
Proof. destruct v as [| | | |[|c r]|[|x l]|]; done. Qed.

(** The agent's notion of external assets is within the reviewer's. *)
Lemma external_reviewed t : _uses_external_assets t = true -> task_uses_external_assets t = true.
Proof.
  unfold _uses_external_assets, task_uses_external_assets, _effective_source_platforms. intros [->|H]%orb_prop; [done|].
  destruct (_string_list (tk_source_platforms_json t)) eqn:Hs;
    [|rewrite (string_list_truthy (tk_source_platforms_json t)) by (by rewrite Hs); by rewrite orb_true_r].
  destruct (tk_channel_config_snapshot_json t) as [| | | | | |d]; try done. cbn [_dict_value] in H.
  destruct (dict_get d "lane_format") as [| | | | | |f]; try done. cbn [_dict_value] in H.
  rewrite (string_list_truthy (dict_get f "source_platforms_json")) by (by intros He; rewrite He in H). by rewrite orb_true_r.
Qed.

Lemma safe_visibility v : exists w, _safe_promotion_visibility v = w /\ (w = "private" \/ w = "unlisted").
Proof.
  eexists. split; [reflexivity|]. unfold _safe_promotion_visibility.
  case_bool_decide as Hb; [|by right]. rewrite !elem_of_cons, elem_of_nil in Hb. naive_solver.
Qed.

Section Promotion.
Context {AC : AgentClients} (now : datetime) (Hnow : _utc now = Ok now).

(** A named reviewer asks about a stored publication, with its task and its plan, of a
    channel that is enabled and not halted. *)
Record publication_scope (seen db : AgentDb) (publication_id : string) (data : option HumanReviewRequest)
    (c : ChannelProfile) (t : ProductionTask) (p : PublicationRecord) : Prop := {
  pm_actor : is_empty (strip (hr_human_actor (default default_review data))) = false;
  pm_id : uuid_of_string publication_id = Ok (pu_id p);
  pm_seen : exists p0 t0, get_row pu_id (pu_id p) (a_publications seen) = Some p0
    /\ get_row tk_id (pu_production_task_id p0) (a_tasks seen) = Some t0 /\ tk_id t0 = tk_id t /\ tk_channel_profile_id t0 = cp_id c;
  pm_channel : get_row cp_id (cp_id c) (a_channels db) = Some c /\ active c = true;
  pm_task : get_row tk_id (tk_id t) (a_tasks db) = Some t /\ tk_channel_profile_id t = cp_id c;
  pm_publication : get_row pu_id (pu_id p) (a_publications db) = Some p /\ pu_production_task_id p = tk_id t;
  pm_plan : is_Some (tk_autoflow_plan_id t) -> is_Some (plan_of t db) }.

(** The publication is uploaded, its task is uploaded or was held by the decision service. *)
Definition awaits_promotion (t : ProductionTask) (p : PublicationRecord) : Prop :=
  pu_publish_status p = "uploaded"
  /\ (tk_state t = TASK_UPLOADED_PRIVATE
      \/ (tk_state t = TASK_HELD /\ exists g, tk_blocked_by_guard t = Some g /\ g ∈ ["pds_blocked"; "pds_flagged_for_review"])).

(** The approval of the plan, if any, is complete; where the task uses external assets, the
    review it was released with stands for the plan as it is; and no item under the
    promotion key is queued or running. *)
Record promotable (db : AgentDb) (t : ProductionTask) (p : PublicationRecord) (root : config) : Prop := {
  pm_ready : awaits_promotion t p;
  pm_root : tk_human_review_evidence_json t = VDict root;
  pm_approval : forall q, plan_of t db = Some q -> is_Some (ap_review_approved_at q) ->
    exists a h r, plan_approval q = Ok (a, h, r) /\ _utc a = Ok a;
  pm_review : task_uses_external_assets t = true -> exists q actor notes e, plan_of t db = Some q
    /\ build_pre_upload_evidence q actor notes = Ok e /\ evidence_entry (VDict root) "pre_upload" = Some e
    /\ _plan_is_currently_reviewable q = true;
  pm_key : key_free (promotion_key (pu_id p) (_safe_promotion_visibility (VStr (pu_desired_privacy p)))) (review_token now) (a_queue db) }.

Lemma wp_publication_scope seen publication_id c t p (Q : _ -> Session -> Prop) E s :
  uuid_of_string publication_id = Ok (pu_id p) ->
  (exists p0 t0, get_row pu_id (pu_id p) (a_publications seen) = Some p0
    /\ get_row tk_id (pu_production_task_id p0) (a_tasks seen) = Some t0 /\ tk_id t0 = tk_id t /\ tk_channel_profile_id t0 = cp_id c) ->
  get_row cp_id (cp_id c) (a_channels (se_db s)) = Some c ->
  get_row tk_id (tk_id t) (a_tasks (se_db s)) = Some t -> tk_channel_profile_id t = cp_id c ->
  get_row pu_id (pu_id p) (a_publications (se_db s)) = Some p -> pu_production_task_id p = tk_id t ->
  (is_Some (tk_autoflow_plan_id t) -> is_Some (plan_of t (se_db s))) ->
  Q (c, t, p, plan_of t (se_db s)) s -> wp (_lock_publication_operator_scope seen publication_id) Q E s.
Proof.
  intros Hid (p0 & t0 & Hp0 & Ht0 & Htid & Hc0) Hc Ht Htc Hp Hpt Hplan HQ. unfold _lock_publication_operator_scope.
  wp_step. apply (wp_lift_Ok _ _ _ _ _ Hid). wp_step. apply (wp_found _ _ _ _ _ _ _ Hp0). wp_step. apply (wp_found _ _ _ _ _ _ _ Ht0).
  wp_step. wp_step. rewrite Hc0. wp_step. apply (wp_found _ _ _ _ _ _ _ Hc). wp_step. wp_step. rewrite Htid, Ht. wp_step. wp_step. rewrite Hp.
  wp_step. apply wp_require; [by rewrite Htc, Hpt, !String.eqb_refl|]. unfold plan_of in *.
  destruct (tk_autoflow_plan_id t) as [plan_id|]; [|by wp_step]. destruct (Hplan (ltac:(by eexists))) as [q Hq]. cbn in Hq.
  wp_step. wp_step. wp_step. apply (wp_found _ _ _ _ _ _ _ Hq). wp_step. cbn in HQ. by rewrite Hq in HQ.
Qed.

Lemma awaits_check t p :
  awaits_promotion t p
  <-> (pu_publish_status p =? "uploaded")%string && ((tk_state t =? TASK_UPLOADED_PRIVATE)%string || eligible_pds_hold t) = true.
Proof.
  unfold awaits_promotion, eligible_pds_hold. rewrite andb_true_iff, orb_true_iff, andb_true_iff, !String.eqb_eq.
  destruct (tk_blocked_by_guard t) as [g|]; rewrite ?bool_decide_eq_true; naive_solver.
Qed.

(** A publication that is not ready, or whose external assets have no standing review, is
    not promoted. *)
Lemma promotion_refused seen s publication_id data c t p :
  publication_scope seen (se_db s) publication_id data c t p ->
  (~ awaits_promotion t p ->
     promote_publication now seen publication_id data s = (Raise (HTTPException 409 "Publication is not ready for promotion"), s))
  /\ (awaits_promotion t p -> task_uses_external_assets t = true -> valid_pre_upload_evidence t (plan_of t (se_db s)) = Ok false ->
     promote_publication now seen publication_id data s
       = (Raise (HTTPException 409 "External asset review evidence is missing or stale"), s)).
Proof.
  intros [Ha Hid Hseen [Hc Hact] [Ht Htc] [Hp Hpt] Hplan].
  destruct (wp_total (_lock_publication_operator_scope seen publication_id) (fun r s' => r = (c, t, p, plan_of t (se_db s)) /\ s' = s) s)
    as (r & s' & Hrun & -> & ->); [by apply (wp_publication_scope seen publication_id c t p)|].
  unfold promote_publication. rewrite Ha. cbn [negb require_http]. unfold mbind, M_bind, mret, M_ret. rewrite Hrun, Hact.
  cbn [require_http]. rewrite awaits_check. split.
  - intros ->%not_true_is_false. done.
  - intros -> -> ->. done.
Qed.

Lemma promotion_evidence_built tid pid vis actor notes (plan : option AutoFlowPlan) :
  is_empty (strip actor) = false ->
  (forall q, plan = Some q -> exists a h r, plan_approval q = Ok (a, h, r) /\ _utc a = Ok a) ->
  exists e, build_promotion_evidence tid pid vis actor now notes plan = Ok e.
Proof.
  intros Ha Hq. unfold build_promotion_evidence, _nonblank, _datetime_token. rewrite Ha, Hnow. cbn [mbind Res_bind].
  destruct plan as [q|]; [|by eexists]. destruct (Hq q eq_refl) as (a & h & r & -> & Hu). cbn [mbind Res_bind]. rewrite Hu. by eexists.
Qed.

Definition reviewed_plan_of (plan : option AutoFlowPlan) : option AutoFlowPlan :=
  match plan with Some p => if is_some (ap_review_approved_at p) then Some p else None | None => None end.

Lemma promoted_task_keeps e root t :
  let t' := reviewed_promotion_task now e root t in
  tk_id t' = tk_id t /\ tk_channel_profile_id t' = tk_channel_profile_id t /\ tk_autoflow_plan_id t' = tk_autoflow_plan_id t
  /\ _uses_external_assets t' = _uses_external_assets t
  /\ tk_human_review_evidence_json t' = VDict (merge_human_review_evidence root "promotion" e)
  /\ (forall p, awaits_promotion t p -> tk_state t' = TASK_UPLOADED_PRIVATE).
Proof.
  unfold reviewed_promotion_task. destruct (eligible_pds_hold t) eqn:Hel; split_and!; try done.
  intros p [_ Hst]%awaits_check%andb_prop. rewrite Hel, orb_false_r in Hst. by apply String.eqb_eq.
Qed.

(** The check of the handler on the item of the route. *)
Lemma promotion_gate db t p root e actor notes item :
  promotable db t p root ->
  let vis := _safe_promotion_visibility (VStr (pu_desired_privacy p)) in
  build_promotion_evidence (tk_id t) (pu_id p) vis actor now notes (reviewed_plan_of (plan_of t db)) = Ok e ->
  let t' := reviewed_promotion_task now e root t in
  qi_payload_json item = promotion_payload p t' vis ->
  target_visibility item p = vis /\ promotion_review_missing item p t' (plan_of t db) vis = Ok false.
Proof.
  intros [] vis He t' Hpay. destruct (promoted_task_keeps e root t) as (Hid & _ & Hpl & Hux & Hev & _). fold t' in Hid, Hpl, Hux, Hev.
  assert (Hpro : evidence_entry (tk_human_review_evidence_json t') "promotion" = Some e) by (rewrite Hev; apply entry_merged).
  split.
  { unfold target_visibility. rewrite Hpay. change (dict_get _ "target_visibility") with (VStr vis). unfold vis.
    by destruct (safe_visibility (VStr (pu_desired_privacy p))) as (w & -> & [->| ->]). }
  unfold promotion_review_missing. rewrite Hux, Hpay. change (truthy (dict_get _ "manual_review")) with true. rewrite orb_true_r.
  rewrite <- Hid in He. destruct (_uses_external_assets t) eqn:Hext.
  2: { cbn [mbind Res_bind negb]. by rewrite (promotion_names t' _ (pu_id p) vis actor now notes e _ He Hpro). }
  destruct (pm_review0 (external_reviewed t Hext)) as (q & actor1 & notes1 & e1 & Hq & [Hs1 Ha1]%built_pre_upload & He1 & Hrev).
  assert (Hpre : evidence_entry (tk_human_review_evidence_json t') "pre_upload" = Some e1) by (by rewrite Hev, entry_kept).
  assert (Hsame : same_review q q) by (by split).
  assert (Htq : tk_autoflow_plan_id t' = Some (ap_id q)).
  { rewrite Hpl. unfold plan_of in Hq. destruct (tk_autoflow_plan_id t) as [id|]; [|done]. cbn in Hq. by apply get_row_key in Hq as [_ ->]. }
  assert (Hvalid : valid_pre_upload_evidence t' (Some q) = Ok true) by (by apply (pre_upload_checks t' q e1 q Ha1 Hs1 Hpre)).
  rewrite Hq, Hvalid in *. cbn [mbind Res_bind negb].
  assert (is_some (ap_review_approved_at q) = true) as Happ.
  { destruct (as_approval _ _ Ha1) as (a & tok & h & r & (Hat & _)%plan_approval_Ok & _). by rewrite Hat. }
  cbn [reviewed_plan_of] in He. rewrite Happ in He.
  assert (valid_promotion_evidence t' (Some q) (pu_id p) vis true = Ok true) as Hv; [|by rewrite Hv].
  apply (promotion_checks t' q q (Some q) e1 e actor now notes (tk_id t') (pu_id p) (pu_id p) vis vis true Ha1 He Hpre Hpro).
  split_and!; try done. intros _. split; [done|]. by exists q.
Qed.

Lemma promotion_runs seen s publication_id data c t p root e :
  publication_scope seen (se_db s) publication_id data c t p -> promotable (se_db s) t p root ->
  new_uuid (se_fresh s) ∉ map qi_id (a_queue (se_db s)) ->
  let review := default default_review data in
  let vis := _safe_promotion_visibility (VStr (pu_desired_privacy p)) in
  (if task_uses_external_assets t then valid_pre_upload_evidence t (plan_of t (se_db s)) else Ok true) = Ok true ->
  build_promotion_evidence (tk_id t) (pu_id p) vis (strip (hr_human_actor review)) now (hr_review_notes review)
    (reviewed_plan_of (plan_of t (se_db s))) = Ok e ->
  let t' := reviewed_promotion_task now e root t in
  exists item s', promote_publication now seen publication_id data s = (Ok item, s')
    /\ qi_payload_json item = promotion_payload p t' vis /\ qi_kind item = "promote_publication"
    /\ se_committed s' = (se_db s) <| a_tasks ::= put_row tk_id t' |> <| a_queue := a_queue (se_db s) ++ [item] |>.
Proof.
  intros [Ha Hid Hseen [Hc Hact] [Ht Htc] [Hp Hpt] Hplan] [Hready%awaits_check Hroot Happ Hrev Hkey] Hfresh review vis Hpre He t'.
  fold review in Ha. fold vis in Hkey.
  apply (wp_total (promote_publication now seen publication_id data) (fun item s' => qi_payload_json item = promotion_payload p t' vis
    /\ qi_kind item = "promote_publication"
    /\ se_committed s' = (se_db s) <| a_tasks ::= put_row tk_id t' |> <| a_queue := a_queue (se_db s) ++ [item] |>)).
  unfold promote_publication. fold review. wp_step. apply wp_require; [by rewrite Ha|]. wp_step.
  apply (wp_publication_scope seen publication_id c t p); try done. cbv beta iota. wp_step. apply wp_require; [done|]. wp_step.
  apply wp_require; [exact Hready|]. wp_step. apply (wp_lift_Ok _ _ _ _ _ Hpre).
  wp_step. apply wp_require; [done|]. cbv zeta. fold vis. wp_step. apply (wp_value _ _ _ _ _ He). wp_step.
  eapply wp_lift_Ok; [by rewrite Hroot; unfold payload_dict; destruct root|]. fold t'. wp_step. unfold save_task. wp_step. wp_step.
  apply wp_attempt_key; [exact Hkey|]. intros key Hk. wp_step. apply wp_enqueue_new; [exact Hk|exact Hfresh|]. cbv zeta.
  intros s' Hs'. by repeat wp_step.
Qed.

(** C40. A reviewer's promotion reaches the platform's gate.  In a channel that is enabled
    and not halted, the promotion of a publication is refused, and changes nothing, unless
    the publication is uploaded and its task is uploaded or was held by the decision service
    (a task held because its review evidence is invalid is not), and when the task's external
    assets have no review standing for the plan as it is.  Otherwise, if the plan's approval
    is complete where it has one and no promotion under the same key is queued or running,
    the promotion returns: the task is uploaded, its evidence is committed with a new item,
    and the handler of that item finds the visibility that was reviewed and all reviews it
    needs. *)
Theorem promoted_publication_reviewed (seen : AgentDb) (s : Session) (publication_id : string) (data : option HumanReviewRequest)
    (c : ChannelProfile) (t : ProductionTask) (p : PublicationRecord) :
  publication_scope seen (se_db s) publication_id data c t p ->
  (~ awaits_promotion t p ->
     promote_publication now seen publication_id data s = (Raise (HTTPException 409 "Publication is not ready for promotion"), s))
  /\ (awaits_promotion t p -> task_uses_external_assets t = true -> valid_pre_upload_evidence t (plan_of t (se_db s)) = Ok false ->
     promote_publication now seen publication_id data s
       = (Raise (HTTPException 409 "External asset review evidence is missing or stale"), s))
  /\ forall root, promotable (se_db s) t p root ->
  new_uuid (se_fresh s) ∉ map qi_id (a_queue (se_db s)) ->
  exists item t' s', promote_publication now seen publication_id data s = (Ok item, s')
    /\ tk_state t' = TASK_UPLOADED_PRIVATE /\ get_row tk_id (tk_id t) (a_tasks (se_committed s')) = Some t'
    /\ get_row pu_id (pu_id p) (a_publications (se_committed s')) = Some p
    /\ a_queue (se_committed s') = a_queue (se_db s) ++ [item] /\ qi_kind item = "promote_publication"
    /\ target_visibility item p ∈ _SAFE_PRIVACY_VALUES
    /\ promotion_review_missing item p t' (plan_of t' (se_committed s')) (target_visibility item p) = Ok false.
Proof.
  intros Hsc. destruct (promotion_refused seen s publication_id data c t p Hsc) as [Hr1 Hr2]. split_and!; [exact Hr1|exact Hr2|].
  intros root Hpm Hfresh. pose proof Hsc as [Ha Hid Hseen [Hc Hact] [Ht Htc] [Hp Hpt] Hplan]. pose proof Hpm as [Hready Hroot Happ Hrev Hkey].
  set (review := default default_review data) in *. set (vis := _safe_promotion_visibility (VStr (pu_desired_privacy p))) in *.
  destruct (promotion_evidence_built (tk_id t) (pu_id p) vis (strip (hr_human_actor review)) (hr_review_notes review)
              (reviewed_plan_of (plan_of t (se_db s)))) as [e He]; [by rewrite strip_strip_blank| |].
  { intros q Hq. unfold reviewed_plan_of in Hq. destruct (plan_of t (se_db s)) as [q'|] eqn:Hq'; [|done].
    destruct (ap_review_approved_at q') eqn:Hat; [|done]. cbn in Hq. injection Hq as ->. by apply Happ. }
  assert (Hpre : (if task_uses_external_assets t then valid_pre_upload_evidence t (plan_of t (se_db s)) else Ok true) = Ok true).
  { destruct (task_uses_external_assets t); [|done].
    destruct (Hrev eq_refl) as (q & actor1 & notes1 & e1 & Hq & [Hs1 Ha1]%built_pre_upload & He1 & Hr). rewrite Hq.
    apply (pre_upload_checks t q e1 q Ha1 Hs1); [by rewrite Hroot|]. split_and!; [done| |by split].
    unfold plan_of in Hq. destruct (tk_autoflow_plan_id t) as [id|]; [|done]. cbn in Hq. by apply get_row_key in Hq as [_ ->]. }
  edestruct promotion_runs as (item & s' & Hrun & Hpay & Hkind & Hcom); [done..|exact Hpre|exact He|].
  destruct (promoted_task_keeps e root t) as (Hid' & _ & Hpl & _ & _ & Hst'). set (t' := reviewed_promotion_task now e root t) in *.
  destruct (promotion_gate _ _ _ _ _ _ _ item Hpm He Hpay) as [Hvis Hgate]. fold vis in Hvis, Hgate. fold t' in Hgate.
  exists item, t', s'. rewrite Hcom.
  split_and!; try done; [by apply (Hst' p)|rewrite <- Hid'; apply (get_put_row tk_id t' t); by rewrite Hid'| |].
  - rewrite Hvis. destruct (safe_visibility (VStr (pu_desired_privacy p))) as (w & Hw & Hin). subst vis. rewrite Hw.
    unfold _SAFE_PRIVACY_VALUES. set_solver.
  - rewrite Hvis. unfold plan_of in *. by rewrite Hpl.
Qed.

(** ** The rejection *)

Lemma cancelled_left publication_id kinds q i : i ∈ _cancel_queued_publication_items publication_id kinds q -> qi_kind i ∈ kinds ->
  publication_of i = publication_id -> qi_status i <> QUEUE_QUEUED.
Proof.
  intros (j & -> & _)%list_elem_of_fmap Hk Ht.
  destruct (bool_decide (qi_kind j ∈ kinds) && (qi_status j =? QUEUE_QUEUED)%string && (publication_of j =? publication_id)%string) eqn:Hb;
    [done|].
  rewrite bool_decide_eq_true_2 in Hb by done. rewrite Ht, String.eqb_refl, andb_true_r in Hb. by apply String.eqb_neq.
Qed.

(** The locked publication is the stored one. *)
Lemma locked_publication seen publication_id s :
  wp (_lock_publication_operator_scope seen publication_id)
    (fun r s1 => s1 = s /\ get_row pu_id (pu_id r.1.2) (a_publications (se_db s)) = Some r.1.2) (fun _ => True) s.
Proof.
  unfold _lock_publication_operator_scope. wp_step. apply wp_lift; [|done]. intros id _. wp_step. unfold require_http, found_or, http.
  do 3 (case_match; [|by wp_step]; repeat wp_step). case_match; [|by wp_step]. case_match eqn:Hp; [|by wp_step].
  assert (get_row pu_id (pu_id p2) (a_publications (se_db s)) = Some p2) as Hrow by (by apply get_row_key in Hp as Hk; destruct Hk as [_ ->]).
  wp_step. destruct ((tk_channel_profile_id p1 =? cp_id c)%string && _); [|by wp_step]. wp_step.
  case_match; [|by wp_step]. repeat wp_step. case_match; by repeat wp_step.
Qed.

(** After a rejection no item of the publication is waiting to promote or measure it, and
    the handler of one that was already claimed does nothing. *)
Lemma rejection_stands seen publication_id s p s' :
  reject_publication now seen publication_id s = (Ok p, s') ->
  (forall i, i ∈ a_queue (se_committed s') -> qi_kind i ∈ ["promote_publication"; "collect_metrics"] ->
     publication_of i = pu_id p -> qi_status i <> QUEUE_QUEUED)
  /\ (forall later item s2, se_db s2 = se_committed s' -> payload_uuid item "publication_id" = Ok (pu_id p) ->
        promote_plain later item s2 = (Ok p, s2)).
Proof.
  intros Hrun.
  set (Q := fun p s' => (exists q, a_queue (se_committed s') = _cancel_queued_publication_items (pu_id p) ["promote_publication"; "collect_metrics"] q)
    /\ get_row pu_id (pu_id p) (a_publications (se_committed s')) = Some p /\ pu_publish_status p = "rejected").
  assert (Q p s') as ((q & Hq) & Hp & Hst).
  { refine (wp_Ok _ Q (fun _ => True) _ _ _ _ Hrun). unfold reject_publication. wp_step.
    eapply wp_mono; [apply locked_publication| |done]. intros [[[c t] p0] plan] s1 [-> Hp0]. cbn [fst snd] in Hp0. cbv beta iota. wp_step.
    unfold require_http. case_match; [|by apply wp_raise]. wp_step. unfold save_publication, save_task.
    repeat wp_step. split_and!; [by eexists| |done]. by apply (get_put_row pu_id (p0 <| pu_publish_status := "rejected" |>) p0). }
  split; [rewrite Hq; intros i; apply cancelled_left|]. intros later item s2 Hdb Hid.
  unfold promote_plain, _publication_from_item, mbind, M_bind, lift, gets. rewrite Hid, Hdb, Hp. cbn [mret M_ret].
  unfold mret, M_ret. unfold rejected_publication. by rewrite Hst.
Qed.
End Promotion.

(** ** A review *)

Module OperatorDemo.
#[export] Instance clients : AgentClients :=
  let c := TickDemo.clients in
  {| plan_task_answer := plan_task_answer; execute_task_answer := execute_task_answer; observe_job_answer := observe_job_answer;
     approve_plan_answer := approve_plan_answer; quota_answer := quota_answer; schedule_publish_answer := schedule_publish_answer;
     fetch_metrics_answer := fetch_metrics_answer; fetch_status_answer := fetch_status_answer;
     refresh_token_answer := refresh_token_answer; thumbnail_answer := thumbnail_answer; decide_answer := decide_answer;
     model_validate := model_validate; new_uuid := new_uuid; sha256 := fun _ => hash64; exception_text := exception_text;
     pds_health_monitor_enabled := true |}.

Definition plan : Plan :=
  PlanDemo.plan <| pl_id := uuid_str 9 |> <| pl_execution_revision := 1%Z |>
    <| pl_content := (PlanDemo.content "Cats") <| pc_request ::= fun r => r.["publish_mode" <- VStr "unlisted_upload"] |> |>.
Definition waiting_task : ProductionTask :=
  reviewed_task <| tk_state := TASK_HELD |> <| tk_blocked_by_guard := Some "human_approval_required" |>
    <| tk_human_review_evidence_json := VDict [] |>.
Definition db : AgentDb := (TickDemo.db None) <| a_tasks := [waiting_task] |> <| a_plans := [agent_plan plan] |>.
Definition ann : HumanReviewRequest := {| hr_human_actor := " ann "; hr_review_notes := Some "fine" |}.
Definition s0 : Session := open_session db TickDemo.no_health 0.



(** Released, executed and uploaded: the publication waits for its promotion. *)
Definition released : AgentDb :=
  se_committed (release_human_review DAY_US true (fun _ => Ok tt) db (uuid_str 7) ann [plan] s0).2.
Definition uploaded : ProductionTask := (List.hd waiting_task (a_tasks released)) <| tk_state := TASK_UPLOADED_PRIVATE |>.
Definition publication : PublicationRecord :=
  {| pu_id := uuid_str 8; pu_production_task_id := uuid_str 7; pu_platform := "youtube"; pu_account_id := uuid_str 3;
     pu_platform_content_id := "v1"; pu_permalink := None; pu_title := "cat"; pu_description := ""; pu_thumbnail_storage_path := None;
     pu_desired_privacy := " Public "; pu_current_privacy := "private"; pu_publish_status := "uploaded"; pu_uploaded_at := Some DAY_US;
     pu_scheduled_publish_at := None; pu_public_at := None; pu_compliance_disposition := "not_required"; pu_quota_units_estimated := 0;
     pu_last_metrics_polled_at := None; pu_warnings_json := []; pu_created_at := DAY_US |}.
Definition waiting : AgentDb := released <| a_tasks := [uploaded] |> <| a_publications := [publication] |>.
Definition s1 : Session := open_session waiting TickDemo.no_health 1.
Definition evidence : config := _dict_value (tk_human_review_evidence_json uploaded).
Definition pre_upload : config := default [] (evidence_entry (VDict evidence) "pre_upload").
Definition approved : AutoFlowPlan := default (agent_plan plan) (plan_of uploaded waiting).

Lemma waiting_scope : publication_scope waiting waiting (uuid_str 8) None (TickDemo.channel None) uploaded publication.
Proof.
  split; [vm_compute; reflexivity..| | | | |].
  - exists publication, uploaded. vm_compute. repeat split; reflexivity.
  - vm_compute. split; reflexivity.
  - vm_compute. split; reflexivity.
  - vm_compute. split; reflexivity.
  - intros _. exists approved. vm_compute. reflexivity.
Qed.

Lemma waiting_promotable : promotable DAY_US waiting uploaded publication evidence.
Proof.
  split; [| | | |exact I].
  - split; [reflexivity|]. left. vm_compute. reflexivity.
  - vm_compute. reflexivity.
  - intros q Hq _. assert (q = approved) as -> by (unfold approved; by rewrite Hq). exists DAY_US, hash64, 1%Z. split; vm_compute; reflexivity.
  - intros _. exists approved, " ann ", (Some "fine"), pre_upload. split_and!; vm_compute; reflexivity.
Qed.

(** The privacy asked for is not safe: the publication goes out unlisted. *)
Example promoted_unlisted :
  (match promote_publication DAY_US waiting (uuid_str 8) None s1 with
   | (Ok item, _) => dict_get (qi_payload_json item) "target_visibility" = VStr "unlisted" | _ => False end)
  /\ (match promote_publication DAY_US waiting (uuid_str 8) None
           (open_session (waiting <| a_channels := [TickDemo.channel (Some 0%Z)] |>) TickDemo.no_health 1) with
      | (Raise e, _) => e = HTTPException 409 "Channel is disabled or halted" | _ => False end).
Proof. split; vm_compute; reflexivity. Qed.
End OperatorDemo.
#[local] Existing Instance OperatorDemo.clients.


Lemma promoted_publication_reviewed_witness : exists item s',
  promote_publication DAY_US OperatorDemo.waiting (uuid_str 8) None OperatorDemo.s1 = (Ok item, s')
  /\ qi_kind item = "promote_publication".
Proof.
  destruct (promoted_publication_reviewed DAY_US eq_refl OperatorDemo.waiting OperatorDemo.s1 (uuid_str 8) None
    (TickDemo.channel None) OperatorDemo.uploaded OperatorDemo.publication OperatorDemo.waiting_scope) as (_ & _ & Hpro).
  destruct (Hpro OperatorDemo.evidence OperatorDemo.waiting_promotable
    ltac:(vm_compute; intros H; inversion H; subst; by apply elem_of_nil in H2)) as (item & t' & s' & Hrun & _ & _ & _ & _ & Hk & _).
  exists item, s'. split; [exact Hrun|exact Hk].
Defined.
