(* ===== verification/Engine.v ===== *)
(** * The job engine ([orchestrator/engine.py])

    Every definition below is one database transaction of the engine (or a pure
    part of one): it reads the rows under its locks and returns the rows it
    commits.  The handlers compose them in the order of the code.

    Parameters: the node-type registry; the configured default schedule state;
    [now], the clock; and [env], the keys drawn and the digest function. *)

From stdpp Require Import base tactics list strings relations sorting.
From Stdlib Require Import ZArith Lia Ascii.
From S2P Require Import Prelude PyStr PyValue PyJson PyUuid NodeRegistry Pipeline Graph JobModel WorkerModel Schedule Authority ArtifactCache WorkerEvents Retry.

Open Scope string_scope.
Open Scope list_scope.

(** ** Pure helpers *)

Definition _extract_worker_host (worker_id : option string) : option string :=
  match worker_id with
  | None => None
  | Some w =>
      match after_first "worker@" w with
      | None => None
      | Some suffix =>
          let host := strip (partition_char ":" suffix).1 in
          if is_empty host then None else Some host
      end
  end.

Definition _leaf_node_ids (d : PipelineDefinition) : list string :=
  let has_outgoing := map e_source (edges d) in
  List.filter (fun id => negb (bool_decide (id ∈ has_outgoing))) (map n_id (nodes d)).

(** Order of the sort key [(-count, host)]. *)
Definition ranked_le (a b : string * Z) : Prop :=
  (b.2 < a.2)%Z \/ (a.2 = b.2 /\ str_le a.1 b.1).

#[export] Instance ranked_le_dec : RelDecision ranked_le.
Proof. intros a b. unfold ranked_le. apply _. Defined.

Definition host_counts (by_id : list (string * NodeExecution)) (deps : list string) : list (string * Z) :=
  fold_left (fun counts dep =>
    match _extract_worker_host (match by_id.[? dep] with Some n => ne_worker_id n | None => None end) with
    | Some host => counts.[host <- (dget_or counts host 0 + 1)%Z]
    | None => counts
    end) deps [].

Definition _preferred_hosts_for_node (by_id : list (string * NodeExecution)) (deps : list string) : list string :=
  match merge_sort ranked_le (host_counts by_id deps) with
  | [] => []
  | (_, top_count) :: _ as ranked => map fst (List.filter (fun p => (p.2 =? top_count)%Z) ranked)
  end.

(** [all(ne_by_node_id.get(d) and ne_by_node_id[d].status == SUCCEEDED for d in deps)]. *)
Definition deps_succeeded (j : Job) (deps : list string) : bool :=
  forallb (fun d => match (ne_by_node_id j).[? d] with
                    | Some n => has_status NodeStatus.SUCCEEDED n
                    | None => false
                    end) deps.

(** Target handle to upstream output, over the edges into [node_id] in order. *)
Definition input_artifact_ids (j : Job) (node_id : string) : list (string * uuid) :=
  fold_left (fun acc e =>
    if (e_target e =? node_id)%string then
      match (ne_by_node_id j).[? e_source e] with
      | Some n => match ne_output_artifact_id n with
                  | Some a => acc.[e_targetHandle e <- a]
                  | None => acc
                  end
      | None => acc
      end
    else acc) (edges (j_pipeline_snapshot j)) [].

Definition _input_artifacts_by_handle (artifacts : list (uuid * Artifact)) (ids : list (string * uuid))
    : list (string * Artifact) :=
  concat (map (fun p => match artifacts.[? p.2] with Some a => [(p.1, a)] | None => [] end) ids).

Definition plan_dependencies (j : Job) : list (string * list string) :=
  match j_execution_plan j with Some p => dependencies p | None => [] end.

(** ** Finalization *)

Definition mark_final (a : Artifact) : Artifact :=
  {| a_id := a_id a; a_job_id := a_job_id a; a_node_execution_id := a_node_execution_id a;
     a_kind := FINAL; a_filename := a_filename a; a_mime_type := a_mime_type a;
     a_file_size := a_file_size a; a_storage_backend := a_storage_backend a;
     a_storage_path := a_storage_path a; a_media_info := a_media_info a |}.

Definition _mark_final_artifacts_uncommitted (j : Job) (artifacts : list (uuid * Artifact))
    : list (uuid * Artifact) :=
  let terminal_node_ids := _leaf_node_ids (j_pipeline_snapshot j) in
  fold_left (fun arts n =>
    if bool_decide (ne_node_id n ∈ terminal_node_ids) && has_status NodeStatus.SUCCEEDED n then
      match ne_output_artifact_id n with
      | Some a => match arts.[? a] with Some art => arts.[a <- mark_final art] | None => arts end
      | None => arts
      end
    else arts) (j_node_executions j) artifacts.

Definition failed_labels (j : Job) : list string :=
  map (fun n => str_or (ne_node_label n) (ne_node_id n))
    (List.filter (fun n => failed_status (ne_status n)) (j_node_executions j)).

Definition failure_message (j : Job) : option string :=
  match j_error_message j with
  | Some m => if is_empty m then Some ("Failed nodes: " +:+ join ", " (failed_labels j)) else Some m
  | None => Some ("Failed nodes: " +:+ join ", " (failed_labels j))
  end.

Definition leaf_executions (j : Job) : list NodeExecution :=
  List.filter (fun n => bool_decide (ne_node_id n ∈ _leaf_node_ids (j_pipeline_snapshot j))) (j_node_executions j).

(** [None] when some node is still active; otherwise the final status. *)
Definition final_status (j : Job) : option JobStatus.t :=
  let ns := j_node_executions j in
  if existsb (fun n => active (ne_status n)) ns then None
  else if forallb (has_status NodeStatus.SUCCEEDED) ns then Some JobStatus.SUCCEEDED
  else if existsb (fun n => failed_status (ne_status n)) ns then
    let leaves := leaf_executions j in
    let has_successful_leaf := existsb (has_status NodeStatus.SUCCEEDED) leaves in
    let has_failed_leaf := existsb (fun n => failed_status (ne_status n)) leaves in
    Some (if has_failed_leaf || negb has_successful_leaf then JobStatus.FAILED else JobStatus.PARTIALLY_FAILED)
  else None.

Definition _apply_job_finalization (now : datetime) (j : Job) (artifacts : list (uuid * Artifact))
    : bool * Job * list (uuid * Artifact) :=
  match final_status j with
  | None => (false, j, artifacts)
  | Some JobStatus.SUCCEEDED =>
      let j' := set_job JobStatus.SUCCEEDED (Some now) (j_error_message j) j in
      (true, j', _mark_final_artifacts_uncommitted j' artifacts)
  | Some s =>
      let j' := set_job s (Some now) (failure_message j) j in
      (true, j', if bool_decide (s = JobStatus.FAILED) then artifacts
                 else _mark_final_artifacts_uncommitted j' artifacts)
  end.

(** A session writes the columns it has changed, over the row there is by then. *)
Definition written {A} `{EqDecision A} (loaded changed current : A) : A :=
  if decide (changed = loaded) then current else changed.

Definition flush_job (loaded changed current : Job) : Job :=
  set_job (written (j_status loaded) (j_status changed) (j_status current))
    (written (j_completed_at loaded) (j_completed_at changed) (j_completed_at current))
    (written (j_error_message loaded) (j_error_message changed) (j_error_message current)) current.

(** The decision is made on [j], the job in the memory of the session.  Under its lock that
    is the row; after a commit other transactions may have changed the row. *)
Definition _maybe_finalize_job (now : datetime) (j : Job) (db : Db) : bool * Db :=
  match _apply_job_finalization now j (db_artifacts db) with
  | (true, j', arts) =>
      match (db_jobs db).[? j_id j] with
      | Some current => (true, put_artifacts arts (put_job (flush_job j j' current) db))
      | None => (true, db)
      end
  | (false, _, _) => (false, db)
  end.

(** ** Skipping the nodes below a failure *)

Definition downstream_map (dep_map : list (string * list string)) : list (string * list string) :=
  fold_left (fun acc p =>
    fold_left (fun acc dep => acc.[dep <- dget_or acc dep [] ++ [p.1]]) p.2 acc) dep_map [].

(** The breadth-first [while queue] loop. *)
Fixpoint skip_bfs (fuel : nat) (downstream : list (string * list string)) (queue to_skip : list string)
    : Res (list string) :=
  match queue with
  | [] => Ok to_skip
  | nid :: queue' =>
      match fuel with
      | O => Raise Diverges
      | S fuel' =>
          if bool_decide (nid ∈ to_skip) then skip_bfs fuel' downstream queue' to_skip
          else skip_bfs fuel' downstream (queue' ++ dget_or downstream nid []) (to_skip ++ [nid])
      end
  end.

(** Each node is expanded once, so the queue sees every reverse edge once after
    the initial ones. *)
Definition skip_fuel (dep_map : list (string * list string)) : nat :=
  2 * length (concat (map snd dep_map)).

Definition skip_node (now : datetime) (n : NodeExecution) : NodeExecution :=
  {| ne_id := ne_id n; ne_node_id := ne_node_id n; ne_node_type := ne_node_type n;
     ne_node_label := ne_node_label n; ne_node_config := ne_node_config n;
     ne_status := NodeStatus.SKIPPED; ne_progress := ne_progress n; ne_worker_id := ne_worker_id n;
     ne_queued_at := ne_queued_at n; ne_started_at := ne_started_at n; ne_completed_at := Some now;
     ne_error_message := ne_error_message n; ne_error_trace := ne_error_trace n;
     ne_retry_count := ne_retry_count n; ne_input_artifact_ids := ne_input_artifact_ids n;
     ne_output_artifact_id := ne_output_artifact_id n;
     ne_worker_registration_id := ne_worker_registration_id n;
     ne_worker_lease_epoch := ne_worker_lease_epoch n |}.

Definition skip_one (now : datetime) (j : Job) (nid : string) : Job :=
  match (ne_by_node_id j).[? nid] with
  | Some n => if has_status NodeStatus.PENDING n then update_node (ne_id n) (skip_node now) j else j
  | None => j
  end.

Definition _skip_downstream (now : datetime) (j : Job) (failed_node_id : string)
    (dep_map : list (string * list string)) : Res Job :=
  let downstream := downstream_map dep_map in
  match skip_bfs (skip_fuel dep_map) downstream (dget_or downstream failed_node_id []) [] with
  | Raise e => Raise e
  | Ok to_skip => Ok (fold_left (skip_one now) to_skip j)
  end.

(** ** Node updates *)

Definition queue_node (now : datetime) (inputs : list uuid) (n : NodeExecution) : NodeExecution :=
  {| ne_id := ne_id n; ne_node_id := ne_node_id n; ne_node_type := ne_node_type n;
     ne_node_label := ne_node_label n; ne_node_config := ne_node_config n;
     ne_status := NodeStatus.QUEUED; ne_progress := ne_progress n; ne_worker_id := ne_worker_id n;
     ne_queued_at := Some now; ne_started_at := ne_started_at n; ne_completed_at := ne_completed_at n;
     ne_error_message := ne_error_message n; ne_error_trace := ne_error_trace n;
     ne_retry_count := ne_retry_count n; ne_input_artifact_ids := inputs;
     ne_output_artifact_id := ne_output_artifact_id n;
     ne_worker_registration_id := ne_worker_registration_id n;
     ne_worker_lease_epoch := ne_worker_lease_epoch n |}.

(** [started] is [None] to leave the start time alone. *)
Definition succeed_node (now : datetime) (output : uuid) (started : option datetime)
    (inputs : option (list uuid)) (n : NodeExecution) : NodeExecution :=
  {| ne_id := ne_id n; ne_node_id := ne_node_id n; ne_node_type := ne_node_type n;
     ne_node_label := ne_node_label n; ne_node_config := ne_node_config n;
     ne_status := NodeStatus.SUCCEEDED; ne_progress := 100; ne_worker_id := ne_worker_id n;
     ne_queued_at := ne_queued_at n;
     ne_started_at := match started with Some t => Some t | None => ne_started_at n end;
     ne_completed_at := Some now; ne_error_message := ne_error_message n;
     ne_error_trace := ne_error_trace n; ne_retry_count := ne_retry_count n;
     ne_input_artifact_ids := default (ne_input_artifact_ids n) inputs;
     ne_output_artifact_id := Some output; ne_worker_registration_id := ne_worker_registration_id n;
     ne_worker_lease_epoch := ne_worker_lease_epoch n |}.

Definition fail_node (now : datetime) (msg : string) (n : NodeExecution) : NodeExecution :=
  {| ne_id := ne_id n; ne_node_id := ne_node_id n; ne_node_type := ne_node_type n;
     ne_node_label := ne_node_label n; ne_node_config := ne_node_config n;
     ne_status := NodeStatus.FAILED; ne_progress := ne_progress n; ne_worker_id := ne_worker_id n;
     ne_queued_at := ne_queued_at n; ne_started_at := ne_started_at n; ne_completed_at := Some now;
     ne_error_message := Some msg; ne_error_trace := ne_error_trace n;
     ne_retry_count := ne_retry_count n; ne_input_artifact_ids := ne_input_artifact_ids n;
     ne_output_artifact_id := ne_output_artifact_id n;
     ne_worker_registration_id := ne_worker_registration_id n;
     ne_worker_lease_epoch := ne_worker_lease_epoch n |}.

(** Requeued for its single retry, still under its claim. *)
Definition retry_node (now : datetime) (n : NodeExecution) : NodeExecution :=
  {| ne_id := ne_id n; ne_node_id := ne_node_id n; ne_node_type := ne_node_type n;
     ne_node_label := ne_node_label n; ne_node_config := ne_node_config n;
     ne_status := NodeStatus.QUEUED; ne_progress := ne_progress n; ne_worker_id := ne_worker_id n;
     ne_queued_at := Some now; ne_started_at := ne_started_at n; ne_completed_at := ne_completed_at n;
     ne_error_message := None; ne_error_trace := ne_error_trace n;
     ne_retry_count := ne_retry_count n + 1; ne_input_artifact_ids := ne_input_artifact_ids n;
     ne_output_artifact_id := ne_output_artifact_id n;
     ne_worker_registration_id := ne_worker_registration_id n;
     ne_worker_lease_epoch := ne_worker_lease_epoch n |}.

Definition unqueue_node (n : NodeExecution) : NodeExecution :=
  {| ne_id := ne_id n; ne_node_id := ne_node_id n; ne_node_type := ne_node_type n;
     ne_node_label := ne_node_label n; ne_node_config := ne_node_config n;
     ne_status := NodeStatus.PENDING; ne_progress := ne_progress n; ne_worker_id := ne_worker_id n;
     ne_queued_at := None; ne_started_at := ne_started_at n; ne_completed_at := ne_completed_at n;
     ne_error_message := ne_error_message n; ne_error_trace := ne_error_trace n;
     ne_retry_count := ne_retry_count n; ne_input_artifact_ids := ne_input_artifact_ids n;
     ne_output_artifact_id := ne_output_artifact_id n;
     ne_worker_registration_id := ne_worker_registration_id n;
     ne_worker_lease_epoch := ne_worker_lease_epoch n |}.

#[export] Instance skip_node_identity t : KeepsIdentity (skip_node t).
Proof. by split. Qed.
#[export] Instance queue_node_identity t i : KeepsIdentity (queue_node t i).
Proof. by split. Qed.
#[export] Instance succeed_node_identity t o s i : KeepsIdentity (succeed_node t o s i).
Proof. by split. Qed.
#[export] Instance fail_node_identity t m : KeepsIdentity (fail_node t m).
Proof. by split. Qed.
#[export] Instance retry_node_identity t : KeepsIdentity (retry_node t).
Proof. by split. Qed.
#[export] Instance unqueue_node_identity : KeepsIdentity unqueue_node.
Proof. by split. Qed.

(** [str(e)] of the exceptions the engine records. *)
Definition exn_str (e : exn) : string :=
  match e with
  | ValueError m | RuntimeError m | AttributeError m | JobExecutionAuthorityBlocked m
  | RegisteredWorkerEventError m | GuardedScheduleOpenConflict m => m
  | _ => ""
  end.

(** ** Transactions *)

(** Whether a dispatch pass goes on after a node. *)
Inductive Signal : Set := Continue | Stop.

Definition terminal_job (s : JobStatus.t) : bool :=
  bool_decide (s ∈ [JobStatus.SUCCEEDED; JobStatus.FAILED; JobStatus.CANCELLED; JobStatus.PARTIALLY_FAILED]).

Section Engine.
Context (registry : NodeTypeRegistry) (setting : string) (now : datetime).
Context (env : Env).

(** The job when it may be launched, and the rows committed on the way (a
    launch outside the window parks the job). *)
Definition _lock_initial_launch_authority (db : Db) (job_id : uuid) : option Job * Db :=
  match lock_job_execution_authority setting db job_id None true with
  | Raise _ => (None, db)
  | Ok (au, _) =>
      let j := au_job au in
      if channel_blocked (au_channel au) then (None, db)
      else if task_blocked (au_task au) then (None, db)
      else if terminal_job (j_status j) then (None, db)
      else if should_defer_job_start j (schedule_state setting (au_schedule au))
                (s_guarded_job_id (au_schedule au))
      then (None, put_job (defer_job_until_next_window j) db)
      else (Some j, db)
  end.

(** *** [start_job]: planning *)

Definition reset_unclaimed (n : NodeExecution) : NodeExecution :=
  match ne_worker_id n, ne_started_at n with
  | None, None => if has_status NodeStatus.QUEUED n then unqueue_node n else n
  | _, _ => n
  end.

Definition plan_job (order : list string) (j : Job) : Job :=
  {| j_id := j_id j; j_pipeline_id := j_pipeline_id j; j_pipeline_snapshot := j_pipeline_snapshot j;
     j_status := JobStatus.RUNNING;
     j_execution_plan := Some {| topo_order := order;
                                 dependencies := build_dependency_map (j_pipeline_snapshot j) |};
     j_submitted_at := j_submitted_at j; j_started_at := Some now; j_completed_at := j_completed_at j;
     j_error_message := j_error_message j; j_orchestrator_owner := j_orchestrator_owner j;
     j_node_executions := map reset_unclaimed (j_node_executions j) |}.

(** [Ok (false, db)]: the launch stopped; [Raise]: an exception before the commit. *)
Definition start_plan (db : Db) (job_id : uuid) : Res (bool * Db) :=
  match _lock_initial_launch_authority db job_id with
  | (None, db') => Ok (false, db')
  | (Some j, db') =>
      match topological_sort (j_pipeline_snapshot j) with
      | Raise e => Raise e
      | Ok order => Ok (true, put_job (plan_job order j) db')
      end
  end.

(** *** [start_job]: source nodes *)

Definition source_artifact (job_id : uuid) (n : NodeExecution) (a : Asset) : Artifact :=
  {| a_id := fresh env "artifact" (ne_id n); a_job_id := job_id; a_node_execution_id := ne_id n;
     a_kind := INTERMEDIATE; a_filename := as_filename a; a_mime_type := as_mime_type a;
     a_file_size := as_file_size a; a_storage_backend := as_storage_backend a;
     a_storage_path := as_storage_path a;
     a_media_info := (as_media_info a).["source_asset_id" <- VStr (as_id a)].["asset_id" <- VStr (as_id a)]
                       .["original_name" <- VStr (as_original_name a)] |}.

Definition resolve_source (assets : list (uuid * Asset)) (job_id : uuid) (n : NodeExecution)
    : Res (NodeExecution * list (uuid * Artifact)) :=
  if negb (ne_node_type n =? "source")%string then Ok (n, [])
  else if has_status NodeStatus.SUCCEEDED n && match ne_output_artifact_id n with Some _ => true | None => false end
  then Ok (n, [])
  else if failed_status (ne_status n) then Ok (n, [])
  else
    let asset_id := dict_get (ne_node_config n) "asset_id" in
    if negb (truthy asset_id) then Ok (fail_node now "No asset_id configured" n, [])
    else
      match py_uuid asset_id with
      | Raise e => Raise e
      | Ok key =>
          match assets.[? key] with
          | None => Ok (fail_node now ("Asset " +:+ py_str asset_id +:+ " not found") n, [])
          | Some a =>
              let art := source_artifact job_id n a in
              Ok (succeed_node now (a_id art) (Some now) None n, [(a_id art, art)])
          end
      end.

Definition _resolve_source_nodes (db : Db) (j : Job) : Res (Job * list (uuid * Artifact)) :=
  match mapMR (resolve_source (db_assets db) (j_id j)) (j_node_executions j) with
  | Raise e => Raise e
  | Ok rs => Ok (set_nodes (map fst rs) j, concat (map snd rs))
  end.

Definition start_resolve (db : Db) (job_id : uuid) : Res (bool * Db) :=
  match _lock_initial_launch_authority db job_id with
  | (None, db') => Ok (false, db')
  | (Some j, db') =>
      match _resolve_source_nodes db' j with
      | Raise e => Raise e
      | Ok (j', arts) => Ok (true, put_artifacts (db_artifacts db' ++ arts) (put_job j' db'))
      end
  end.

(** The handler of an exception during the launch. *)
Definition start_failed (db : Db) (job_id : uuid) (e : exn) : Db :=
  match _lock_initial_launch_authority db job_id with
  | (None, db') => db'
  | (Some j, db') => put_job (set_job JobStatus.FAILED (Some now) (Some (exn_str e)) j) db'
  end.

(** *** Dispatch *)

Definition worker_type_of (node_type : string) : string :=
  match get_type registry node_type with Some d => worker_type d | None => "ffmpeg" end.

Definition task_payload (j : Job) (n : NodeExecution) (inputs : list (string * uuid)) (hosts : list string)
    : payload :=
  [("job_id", j_id j); ("node_execution_id", ne_id n); ("node_id", ne_node_id n); ("node_type", ne_node_type n);
   ("config", json_dumps json_default (VDict (ne_node_config n)));
   ("input_artifacts", json_dumps json_default (VDict (map (fun p => (p.1, VStr p.2)) inputs)));
   ("preferred_hosts", json_dumps json_default (VList (map VStr hosts)));
   ("affinity_enqueued_at", str_of_Z (now / 1000000)); ("affinity_bounces", "0")].

(** The dispatch of a node to the stream of its worker type. *)
Definition stage_task (db : Db) (origin : option uuid) (j : Job) (n : NodeExecution) (task : payload) : Res Db :=
  stage_worker_task_dispatch env now db origin (j_id j) (ne_id n)
    ("vp:tasks:" +:+ worker_type_of (ne_node_type n)) (worker_type_of (ne_node_type n) +:+ "-workers") task.

Definition _lock_dispatch_authority (db : Db) (job_id nid : uuid) : option (Job * NodeExecution) :=
  match lock_job_execution_authority setting db job_id (Some nid) false with
  | Raise _ => None
  | Ok (au, _) =>
      match require_active_execution_authority au [JobStatus.RUNNING] (Some [NodeStatus.PENDING]), au_node au with
      | Ok _, Some n => Some (au_job au, n)
      | _, _ => None
      end
  end.

(** Completes [n] from the cache; [false] when the cache has nothing for it.
    Outside a receipt a failing lookup counts as a miss. *)
Definition _apply_cached_artifact_uncommitted (db : Db) (j : Job) (n : NodeExecution)
    (inputs : list (string * Artifact)) (registered : bool) : Res (bool * Job * Db) :=
  if registered && negb (has_status NodeStatus.PENDING n && unclaimed n) then
    event_error "registered cache node authority changed"
  else
    match lookup env db (ne_node_type n) (ne_node_config n) inputs registered with
    | Raise e => if registered then Raise e else Ok (false, j, db)
    | Ok (None, db1) => Ok (false, j, db1)
    | Ok (Some entry, db1) =>
        match materialize_hit env db1 entry (j_id j) (ne_id n) with
        | Raise e => Raise e
        | Ok (art, db2) =>
            let started := if registered then None
                           else match ne_started_at n with Some t => Some t | None => Some now end in
            let j' := update_node (ne_id n)
                        (succeed_node now (a_id art) started (Some (map (fun p => a_id p.2) inputs))) j in
            Ok (true, j', record_hit now (put_job j' db2) entry)
        end
    end.

(** Inputs of a finished node: by its edges, or as recorded when it was queued. *)
Definition _input_artifacts_for_node (db : Db) (j : Job) (n : NodeExecution) : list (string * Artifact) :=
  match input_artifact_ids j (ne_node_id n) with
  | [] =>
      let handle i := if (i =? 0)%nat then "input" else "input_" +:+ str_of_Z (Z.of_nat i + 1) in
      _input_artifacts_by_handle (db_artifacts db) (imap (fun i a => (handle i, a)) (ne_input_artifact_ids n))
  | ids => _input_artifacts_by_handle (db_artifacts db) ids
  end.

Definition _write_artifact_cache_for_node (db : Db) (j : Job) (n : NodeExecution) : Res Db :=
  match ne_output_artifact_id n with
  | None => Ok db
  | Some o =>
      match (db_artifacts db).[? o] with
      | None => Ok db
      | Some output =>
          store env now db (ne_node_type n) (ne_node_config n) (_input_artifacts_for_node db j n) output
            (ne_node_id n) (j_id j)
      end
  end.

(** One node of a dispatch pass, under fresh locks, which reload the job in memory. *)
Definition dispatch_locked (mem : Job) (db : Db) (nid : uuid) : Res (Signal * Job * Db) :=
  match _lock_dispatch_authority db (j_id mem) nid with
  | None => Ok (Stop, mem, db)
  | Some (j, n) =>
      let deps := dget_or (plan_dependencies j) (ne_node_id n) [] in
      if negb (deps_succeeded j deps) then Ok (Continue, j, db)
      else
        let inputs := input_artifact_ids j (ne_node_id n) in
        match _apply_cached_artifact_uncommitted db j n
                (_input_artifacts_by_handle (db_artifacts db) inputs) false with
        | Raise e => Raise e
        | Ok (true, j', db') => Ok (Continue, j', db')
        | Ok (false, _, db1) =>
            let task := task_payload j n inputs (_preferred_hosts_for_node (ne_by_node_id j) deps) in
            match stage_task db1 None j n task with
            | Raise e => Raise e
            | Ok db' =>
                let j' := update_node (ne_id n) (queue_node now (map snd inputs)) j in
                Ok (Continue, j', put_job j' db')
            end
        end
  end.

(** The pending node [node_id] with all its dependencies in [dep_map] done. *)
Definition ready_node (j : Job) (dep_map : list (string * list string)) (node_id : string) : option NodeExecution :=
  match dep_map.[? node_id], (ne_by_node_id j).[? node_id] with
  | Some deps, Some n => if has_status NodeStatus.PENDING n && deps_succeeded j deps then Some n else None
  | _, _ => None
  end.

(** [mem] is the job as the session last loaded it; it only decides which nodes are
    looked at. *)
Definition dispatch_node (guard : bool) (dep_map : list (string * list string)) (mem : Job)
    (db : Db) (node_id : string) : Res (Signal * Job * Db) :=
  match ready_node mem dep_map node_id with
  | None => Ok (Continue, mem, db)
  | Some n =>
      if guard then
        match _lock_initial_launch_authority db (j_id mem) with
        | (None, db') => Ok (Stop, mem, db')
        | (Some j, db') =>
            match ready_node j (build_dependency_map (j_pipeline_snapshot j)) node_id with
            | None => Ok (Continue, j, db')
            | Some n => dispatch_locked j db' (ne_id n)
            end
        end
      else dispatch_locked mem db (ne_id n)
  end.

(** The pass commits node by node: an exception leaves the earlier nodes
    dispatched, so it is returned beside the rows. *)
Fixpoint dispatch_pass (guard : bool) (dep_map : list (string * list string)) (ids : list string)
    (mem : Job) (db : Db) : Job * Db * Res Signal :=
  match ids with
  | [] => (mem, db, Ok Continue)
  | id :: ids' =>
      match dispatch_node guard dep_map mem db id with
      | Raise e => (mem, db, Raise e)
      | Ok (Stop, mem', db') => (mem', db', Ok Stop)
      | Ok (Continue, mem', db') => dispatch_pass guard dep_map ids' mem' db'
      end
  end.

(** The closing finalization decides on the job in memory.  Run on its own the pass finds
    the rows as it left them; [EngineReach] lets other transactions run between its
    transactions. *)
Definition _dispatch_ready_nodes (guard : bool) (dep_map : list (string * list string)) (j : Job)
    (db : Db) : Db * Res () :=
  if bool_decide (j_status j = JobStatus.CANCELLED) then (db, Ok ())
  else
    match dispatch_pass guard dep_map (dkeys dep_map) j db with
    | (_, db', Raise e) => (db', Raise e)
    | (_, db', Ok Stop) => (db', Ok ())
    | (mem, db', Ok Continue) => ((_maybe_finalize_job now mem db').2, Ok ())
    end.

Definition start_dispatch (db : Db) (job_id : uuid) : Db * Res () :=
  match _lock_initial_launch_authority db job_id with
  | (None, db') => (db', Ok ())
  | (Some j, db') => _dispatch_ready_nodes true (build_dependency_map (j_pipeline_snapshot j)) j db'
  end.

(** [start_job]: its transactions in sequence. *)
Definition start_job (db : Db) (job_id : uuid) : Db :=
  match start_plan db job_id with
  | Raise e => start_failed db job_id e
  | Ok (false, db1) => db1
  | Ok (true, db1) =>
      match start_resolve db1 job_id with
      | Raise e => start_failed db1 job_id e
      | Ok (false, db2) => db2
      | Ok (true, db2) =>
          match start_dispatch db2 job_id with
          | (db3, Raise e) => start_failed db3 job_id e
          | (db3, Ok _) => db3
          end
      end
  end.

(** *** Events of unregistered workers *)

Definition _require_receipt_entrypoint_for_registered_claim (claim : NodeExecutionClaim) : Res () :=
  match cl_worker_registration_id claim with
  | Some _ => Raise (RegisteredWorkerEventError "registered worker events require a durable receipt")
  | None => Ok ()
  end.

(** The locked rows when the claim still holds the node in one of [statuses]. *)
Definition lock_claimed (db : Db) (job_id nid : uuid) (statuses : list NodeStatus.t)
    (lock_all_nodes : bool) (claim : NodeExecutionClaim) : option (Job * NodeExecution) :=
  match lock_job_execution_authority setting db job_id (Some nid) lock_all_nodes with
  | Raise _ => None
  | Ok (au, _) =>
      match require_active_execution_authority au [JobStatus.RUNNING] (Some statuses),
            require_matching_node_execution_claim au claim, au_node au with
      | Ok _, Ok _, Some n => Some (au_job au, n)
      | _, _, _ => None
      end
  end.

(** The node succeeds (first transaction); [None] for a stale event. *)
Definition complete_node (db : Db) (job_id nid output : uuid) (claim : NodeExecutionClaim) : option Db :=
  match lock_claimed db job_id nid [NodeStatus.RUNNING] false claim with
  | None => None
  | Some (j, _) => Some (put_job (update_node nid (succeed_node now output None None) j) db)
  end.

(** The cache entry of a completed node (second transaction); an exception is
    logged and rolled back. *)
Definition cache_completed (db : Db) (job_id nid : uuid) : Db :=
  match (db_jobs db).[? job_id] with
  | None => db
  | Some j =>
      match find_node nid j with
      | None => db
      | Some n => match _write_artifact_cache_for_node db j n with Ok db' => db' | Raise _ => db end
      end
  end.

(** Finalization or dispatch of what became ready (third transaction). *)
Definition after_completion (db : Db) (job_id nid : uuid) (claim : NodeExecutionClaim) : Db * Res () :=
  match lock_claimed db job_id nid [NodeStatus.SUCCEEDED] true claim with
  | None => (db, Ok ())
  | Some (j, _) =>
      match _maybe_finalize_job now j db with
      | (true, db') => (db', Ok ())
      | (false, _) => _dispatch_ready_nodes false (plan_dependencies j) j db
      end
  end.

Definition on_node_completed (db : Db) (job_id nid output : uuid) (claim : NodeExecutionClaim) : Db * Res () :=
  match _require_receipt_entrypoint_for_registered_claim claim with
  | Raise e => (db, Raise e)
  | Ok _ =>
      match complete_node db job_id nid output claim with
      | None => (db, Ok ())
      | Some db' => after_completion (cache_completed db' job_id nid) job_id nid claim
      end
  end.

(** The last failure of a node: it fails, what is below is skipped and the job
    may end. *)
Definition fail_exhausted (db : Db) (j : Job) (n : NodeExecution) (error : string) : Res Db :=
  match _skip_downstream now (update_node (ne_id n) (fail_node now error) j) (ne_node_id n)
          (plan_dependencies j) with
  | Raise e => Raise e
  | Ok j' =>
      let j'' := set_job (j_status j') (j_completed_at j')
                   (Some ("Node '" +:+ ne_node_label n +:+ "' failed: " +:+ error)) j' in
      Ok (_maybe_finalize_job now j'' (put_job j'' db)).2
  end.

(** Failure of a node (first transaction): a retry or the end.  The second
    component is the task sent again to the worker stream. *)
Definition on_node_failed (db : Db) (job_id nid : uuid) (error : string) (claim : NodeExecutionClaim)
    : Res (Db * option payload) :=
  match _require_receipt_entrypoint_for_registered_claim claim with
  | Raise e => Raise e
  | Ok _ =>
      match lock_claimed db job_id nid [NodeStatus.RUNNING] true claim with
      | None => Ok (db, None)
      | Some (j, n) =>
          if (ne_retry_count n <? 1)%Z then
            let db' := put_job (update_node nid (retry_node now) j) db in
            match lock_claimed db' job_id nid [NodeStatus.QUEUED] false claim with
            | None => Ok (db', None)
            | Some (j', n') =>
                Ok (db', Some (task_payload j' n' (input_artifact_ids j' (ne_node_id n'))
                                 (_preferred_hosts_for_node (ne_by_node_id j')
                                    (dget_or (plan_dependencies j') (ne_node_id n') []))))
            end
          else
            match fail_exhausted db j n error with
            | Raise e => Raise e
            | Ok db' => Ok (db', None)
            end
      end
  end.

(** *** Events of registered workers

    [apply_registered_worker_event] runs inside the transaction of its receipt:
    an exception rolls everything back. *)

Definition _require_accepted_receipt (receipt : RegisteredWorkerEventReceipt) (event : RegisteredWorkerEvent)
    : Res () :=
  if (rc_application_state receipt =? "accepted")%string
     && (rc_redis_stream receipt =? ev_redis_stream event)%string
     && (rc_consumer_group receipt =? ev_consumer_group event)%string
     && (rc_message_id receipt =? ev_message_id event)%string
     && (rc_payload_sha256 receipt =? ev_payload_sha256 event)%string
     && (rc_job_id receipt =? ev_job_id event)%string
     && (rc_node_execution_id receipt =? ev_node_execution_id event)%string
     && bool_decide (Some (rc_worker_registration_id receipt) = cl_worker_registration_id (ev_claim event))
     && bool_decide (Some (rc_worker_lease_epoch receipt) = cl_worker_lease_epoch (ev_claim event))
  then Ok ()
  else Raise (RegisteredWorkerEventError "registered event receipt authority mismatch").

(** Inputs and hosts default to those of the node. *)
Definition _stage_receipt_dispatch (db : Db) (receipt : RegisteredWorkerEventReceipt) (j : Job)
    (n : NodeExecution) (inputs : option (list (string * uuid))) (hosts : option (list string)) : Res Db :=
  match rc_id receipt with
  | None => Raise (RegisteredWorkerEventError "registered event receipt has no durable identity")
  | Some rid =>
      let inputs := default (input_artifact_ids j (ne_node_id n)) inputs in
      let hosts := default (_preferred_hosts_for_node (ne_by_node_id j)
                              (dget_or (plan_dependencies j) (ne_node_id n) [])) hosts in
      stage_task db (Some rid) j n (task_payload j n inputs hosts)
  end.

(** One node of [_stage_ready_receipt_dispatches_once]; [true] when it moved. *)
Definition stage_ready_node (receipt : RegisteredWorkerEventReceipt) (st : bool * Job * Db)
    (entry : string * list string) : Res (bool * Job * Db) :=
  let '(progressed, j, db) := st in
  let '(node_id, deps) := entry in
  match (ne_by_node_id j).[? node_id] with
  | None => Ok st
  | Some n =>
      if negb (has_status NodeStatus.PENDING n && deps_succeeded j deps) then Ok st
      else
        let inputs := input_artifact_ids j node_id in
        match _apply_cached_artifact_uncommitted db j n
                (_input_artifacts_by_handle (db_artifacts db) inputs) true with
        | Raise e => Raise e
        | Ok (true, j', db') => Ok (true, j', db')
        | Ok (false, _, db1) =>
            let j' := update_node (ne_id n) (queue_node now (map snd inputs)) j in
            match _stage_receipt_dispatch db1 receipt j' (queue_node now (map snd inputs) n) (Some inputs)
                    (Some (_preferred_hosts_for_node (ne_by_node_id j') deps)) with
            | Raise e => Raise e
            | Ok db' => Ok (true, j', put_job j' db')
            end
        end
  end.

Definition _stage_ready_receipt_dispatches_once (receipt : RegisteredWorkerEventReceipt) (j : Job) (db : Db)
    (dep_map : list (string * list string)) : Res (bool * Job * Db) :=
  foldM (stage_ready_node receipt) (false, j, db) dep_map.

(** The [while] loop: every round but the last moves a pending node on. *)
Fixpoint stage_rounds (fuel : nat) (receipt : RegisteredWorkerEventReceipt) (j : Job) (db : Db)
    (dep_map : list (string * list string)) : Res (Job * Db) :=
  match _stage_ready_receipt_dispatches_once receipt j db dep_map with
  | Raise e => Raise e
  | Ok (false, j', db') => Ok (j', db')
  | Ok (true, j', db') =>
      match fuel with
      | O => Raise Diverges
      | S fuel' => stage_rounds fuel' receipt j' db' dep_map
      end
  end.

Definition _stage_receipt_dispatches (receipt : RegisteredWorkerEventReceipt) (j : Job) (db : Db)
    (dep_map : list (string * list string)) : Res (Job * Db) :=
  stage_rounds (length (j_node_executions j)) receipt j db dep_map.

(** Rows after [_apply_job_finalization] inside the receipt transaction. *)
Definition finalize_rows (j : Job) (db : Db) : bool * Db :=
  match _apply_job_finalization now j (db_artifacts db) with
  | (done, j', arts) => (done, put_artifacts arts (put_job j' db))
  end.

Definition _apply_registered_completion (db : Db) (receipt : RegisteredWorkerEventReceipt)
    (event : RegisteredWorkerEvent) (j : Job) (n : NodeExecution) : Res Db :=
  match match (ev_payload event).[? "output_artifact_id"] with
        | Some v => uuid_of_string v
        | None => Raise KeyError
        end with
  | Raise _ => Raise (RegisteredWorkerEventError "registered completion artifact is invalid")
  | Ok output =>
      match (db_artifacts db).[? output] with
      | Some a =>
          if (a_job_id a =? j_id j)%string && (a_node_execution_id a =? ne_id n)%string then
            let j1 := update_node (ne_id n) (succeed_node now output None None) j in
            match _write_artifact_cache_for_node db j1 (succeed_node now output None None n) with
            | Raise e => Raise e
            | Ok db =>
                match finalize_rows j1 db with
                | (true, db') => Ok db'
                | (false, db') =>
                    match _stage_receipt_dispatches receipt j1 db' (plan_dependencies j1) with
                    | Raise e => Raise e
                    | Ok (j2, db2) => Ok (finalize_rows j2 db2).2
                    end
                end
            end
          else Raise (RegisteredWorkerEventError "registered completion artifact authority mismatch")
      | None => Raise (RegisteredWorkerEventError "registered completion artifact authority mismatch")
      end
  end.

(** A first failure queues the node again and gives up its claim. *)
Definition _apply_registered_failure (db : Db) (receipt : RegisteredWorkerEventReceipt)
    (event : RegisteredWorkerEvent) (j : Job) (n : NodeExecution) : Res Db :=
  let error := stake 2000 (dget_or (ev_payload event) "error" "Unknown error") in
  if (ne_retry_count n <? 1)%Z then
    let j1 := update_node (ne_id n) (retry_node now) j in
    match _stage_receipt_dispatch db receipt j1 (retry_node now n) None None with
    | Raise e => Raise e
    | Ok db' =>
        match rc_id receipt with
        | None => mismatch
        | Some rid =>
            match _release_sqlite setting now (put_job j1 db') rid with
            | Raise e => Raise e
            | Ok (_, db'') => Ok db''
            end
        end
    end
  else fail_exhausted db j n error.

Definition claim_holds (n : NodeExecution) (claim : NodeExecutionClaim) : bool :=
  bool_decide (ne_worker_id n = Some (cl_worker_id claim))
  && bool_decide (ne_worker_registration_id n = cl_worker_registration_id claim)
  && bool_decide (ne_worker_lease_epoch n = cl_worker_lease_epoch claim)
  && bool_decide (ne_started_at n = Some (cl_started_at claim)).

Definition apply_registered_worker_event (db : Db)
    (receipt : RegisteredWorkerEventReceipt) (event : RegisteredWorkerEvent) : Res Db :=
  match _require_accepted_receipt receipt event with
  | Raise e => Raise e
  | Ok _ =>
      match (db_jobs db).[? ev_job_id event] with
      | None => Raise (RegisteredWorkerEventError "registered event job is missing")
      | Some j =>
          match find_node (ev_node_execution_id event) j with
          | None => Raise (RegisteredWorkerEventError "registered event node authority changed")
          | Some n =>
              if bool_decide (j_status j = JobStatus.RUNNING) && has_status NodeStatus.RUNNING n
                 && claim_holds n (ev_claim event) then
                if (ev_event_type event =? "node_completed")%string
                then _apply_registered_completion db receipt event j n
                else _apply_registered_failure db receipt event j n
              else Raise (RegisteredWorkerEventError "registered event node authority changed")
          end
      end
  end.

(** *** Startup recovery ([app/main.py]) *)

Definition STALE_NODE_RECOVERY_THRESHOLD : Z := 600000000.

Definition stale_reference (j : Job) (n : NodeExecution) : Z :=
  match ne_started_at n, ne_queued_at n, j_started_at j with
  | Some t, _, _ => t
  | None, Some t, _ => t
  | None, None, Some t => t
  | None, None, None => j_submitted_at j
  end.

Definition is_stale (j : Job) (n : NodeExecution) : bool :=
  bool_decide (ne_status n ∈ [NodeStatus.QUEUED; NodeStatus.RUNNING])
  && negb (now - stale_reference j n <? STALE_NODE_RECOVERY_THRESHOLD)%Z.

(** What recovery does to an abandoned unregistered node. *)
Definition abandon_node (n : NodeExecution) : NodeExecution :=
  {| ne_id := ne_id n; ne_node_id := ne_node_id n; ne_node_type := ne_node_type n;
     ne_node_label := ne_node_label n; ne_node_config := ne_node_config n;
     ne_status := NodeStatus.PENDING; ne_progress := 0; ne_worker_id := None; ne_queued_at := None;
     ne_started_at := None; ne_completed_at := None; ne_error_message := None;
     ne_error_trace := ne_error_trace n; ne_retry_count := ne_retry_count n;
     ne_input_artifact_ids := []; ne_output_artifact_id := ne_output_artifact_id n;
     ne_worker_registration_id := ne_worker_registration_id n;
     ne_worker_lease_epoch := ne_worker_lease_epoch n |}.

(** One row of the loop, read from the current rows of the session. *)
Definition recover_one (job_id : uuid) (st : bool * Db) (nid : uuid) : Res (bool * Db) :=
  let '(changed, db) := st in
  match (db_jobs db).[? job_id] with
  | None => Ok st
  | Some j =>
      match find_node nid j with
      | None => Ok st
      | Some n =>
          if negb (is_stale j n) then Ok st
          else
            match ne_worker_registration_id n with
            | Some _ =>
                match recover_registered_worker_node db job_id nid now with
                | Raise e => Raise e
                | Ok (outcome, db') => Ok (changed || (outcome =? "recovered")%string, db')
                end
            | None => Ok (true, put_job (update_node nid abandon_node j) db)
            end
      end
  end.

Definition _prepare_job_for_recovery (db : Db) (j : Job) : Res (bool * Db) :=
  match foldM (recover_one (j_id j)) (false, db) (map ne_id (j_node_executions j)) with
  | Raise e => Raise e
  | Ok (changed, db') =>
      match (db_jobs db').[? j_id j] with
      | Some j' =>
          if changed && bool_decide (j_status j' ∈ [JobStatus.RUNNING; JobStatus.PLANNING])
          then Ok (changed, put_job (set_job JobStatus.PENDING None None j') db')
          else Ok (changed, db')
      | None => Ok (changed, db')
      end
  end.
End Engine.
