(* ===== verification/EngineInv.v ===== *)
(** * Invariants of job execution

    A job row is consistent ([job_inv]) and evolves only forward ([evolves]); both
    are established here for the pieces the engine's transactions are made of and
    lifted to every interleaving of transactions in [EngineReach].  A cancellation reads
    without a lock, so it may overwrite what finished in the meantime ([drifts]); the
    last part shows what still holds then. *)

From stdpp Require Import base tactics list strings relations sorting.
From Stdlib Require Import ZArith Lia.
From S2P Require Import Prelude PyStr PyValue PyJson PyTime PyUuid NodeRegistry Pipeline Graph JobModel WorkerModel Schedule Authority ArtifactCache WorkerEvents Retry Engine.

Open Scope string_scope.
Open Scope list_scope.

(** A node that was handed to a worker or is done. *)
Definition launched (s : NodeStatus.t) : bool :=
  match s with NodeStatus.QUEUED | NodeStatus.RUNNING | NodeStatus.SUCCEEDED => true | _ => false end.

Definition job_deps (j : Job) (n : NodeExecution) : list string :=
  dget_or (build_dependency_map (j_pipeline_snapshot j)) (ne_node_id n) [].

(** Conditions on one row of the job [j]. *)
Record row_inv (j : Job) (n : NodeExecution) : Prop := {
  ri_deps : launched (ne_status n) = true -> ne_node_type n <> "source" ->
            deps_succeeded j (job_deps j n) = true;
  ri_output : ne_status n = NodeStatus.SUCCEEDED -> is_Some (ne_output_artifact_id n);
  ri_produced : is_Some (ne_output_artifact_id n) -> ne_status n ∈ [NodeStatus.SUCCEEDED; NodeStatus.CANCELLED];
  ri_retry : (0 <= ne_retry_count n <= 1)%Z;
  ri_progress : (0 <= ne_progress n <= 100)%Z }.

(** A node that has its output; only a cancellation marks such a node otherwise. *)
Definition delivered (n : NodeExecution) : Prop :=
  is_Some (ne_output_artifact_id n) /\ ne_status n ∈ [NodeStatus.SUCCEEDED; NodeStatus.CANCELLED].

Record job_inv (j : Job) : Prop := {
  ji_ids : NoDup (map ne_id (j_node_executions j));
  ji_rows : forall n, n ∈ j_node_executions j -> row_inv j n;
  ji_plan : match j_execution_plan j with
            | Some p => dependencies p = build_dependency_map (j_pipeline_snapshot j)
            | None => j_status j <> JobStatus.RUNNING
            end;
  ji_succeeded : j_status j = JobStatus.SUCCEEDED -> Forall delivered (j_node_executions j);
  ji_partial : j_status j = JobStatus.PARTIALLY_FAILED ->
               Forall (fun n => active (ne_status n) = false) (j_node_executions j)
               /\ Forall delivered (leaf_executions j)
               /\ leaf_executions j <> [] }.

(** A finished row never changes status or output. *)
Definition forward (n n' : NodeExecution) : Prop :=
  same_row n n'
  /\ (active (ne_status n) = false ->
      ne_status n' = ne_status n /\ ne_output_artifact_id n' = ne_output_artifact_id n).

Definition evolves (j j' : Job) : Prop :=
  j_id j' = j_id j /\ j_pipeline_snapshot j' = j_pipeline_snapshot j
  /\ Forall2 forward (j_node_executions j) (j_node_executions j').

#[export] Instance forward_refl : Reflexive forward.
Proof. intros n. by split. Qed.

#[export] Instance forward_trans : Transitive forward.
Proof.
  intros a b c [(Hi & Hn & Ht) H1] [(Hi' & Hn' & Ht') H2]. split; [split_and!; congruence|].
  intros Ha. destruct (H1 Ha) as [Hs Ho]. destruct H2 as [Hs' Ho']; [by rewrite Hs|]. split; congruence.
Qed.

#[export] Instance evolves_refl : Reflexive evolves.
Proof. intros j. by split_and!. Qed.

#[export] Instance evolves_trans : Transitive evolves.
Proof.
  intros a b c (Hi & Hs & HF) (Hi' & Hs' & HF'). split_and!; try congruence. by etrans.
Qed.

(** A step from [j] to [j'] that keeps the invariant and only moves forward. *)
Definition safe (j j' : Job) : Prop := job_inv j -> job_inv j' /\ evolves j j'.

#[export] Instance safe_refl : Reflexive safe.
Proof. intros j Hj. by split. Qed.

#[export] Instance safe_trans : Transitive safe.
Proof.
  intros a b c Hab Hbc Ha. destruct (Hab Ha) as [Hb He]. destruct (Hbc Hb) as [Hc He'].
  split; [done | by etrans].
Qed.

(** ** Monotonicity *)

Lemma deps_succeeded_mono j j' deps :
  Forall2 forward (j_node_executions j) (j_node_executions j') ->
  deps_succeeded j deps = true -> deps_succeeded j' deps = true.
Proof.
  intros HF. unfold deps_succeeded. rewrite !forallb_forall. intros Hall d Hd. specialize (Hall d Hd).
  assert (Ho : option_Forall2 (fun n n' => same_row n n' /\ forward n n')
            (ne_by_node_id j).[? d] (ne_by_node_id j').[? d]).
  { apply ne_by_node_id_Forall2. eapply Forall2_impl; [exact HF|]. intros n n' Hf. split; [apply Hf | done]. }
  destruct Ho as [n n' [_ [_ Hf]]|]; [|done]. unfold has_status in *. rewrite bool_decide_eq_true in *.
  rewrite Hall in Hf. by destruct Hf as [-> _].
Qed.

Lemma forward_ids j j' :
  Forall2 forward (j_node_executions j) (j_node_executions j') ->
  map ne_id (j_node_executions j') = map ne_id (j_node_executions j).
Proof. induction 1 as [|n n' l l' [(Hi & _) _] _ IH]; simpl; [done|]. by rewrite Hi, IH. Qed.

(** ** Updating rows *)

(** The new row [n'] is a legal successor of the row [n] of [j]. *)
Definition row_step (j : Job) (n n' : NodeExecution) : Prop :=
  forward n n' /\ (row_inv j n -> row_inv j n').

#[export] Instance row_step_refl j : Reflexive (row_step j).
Proof. intros n. by split. Qed.

Lemma row_inv_mono j j' n :
  j_pipeline_snapshot j' = j_pipeline_snapshot j ->
  Forall2 forward (j_node_executions j) (j_node_executions j') -> row_inv j n -> row_inv j' n.
Proof.
  intros Hs HF [Hd Ho Hpr Hr Hp]. split; auto. intros Hl Ht. unfold job_deps. rewrite Hs.
  eapply deps_succeeded_mono; [done|]. by apply Hd.
Qed.

Lemma leaf_executions_forward j j' :
  j_pipeline_snapshot j' = j_pipeline_snapshot j ->
  Forall2 forward (j_node_executions j) (j_node_executions j') ->
  Forall2 forward (leaf_executions j) (leaf_executions j').
Proof.
  intros Hs HF. unfold leaf_executions. rewrite Hs.
  induction HF as [|n n' l l' [(Hi & Hn & Ht) Hf] _ IH]; simpl; [constructor|]. rewrite Hn.
  destruct (bool_decide _); [|done]. constructor; [|done]. by split.
Qed.

Lemma delivered_inactive n : delivered n -> active (ne_status n) = false.
Proof. intros [_ Hs]. rewrite !elem_of_cons, elem_of_nil in Hs. by destruct Hs as [->|[->|[]]]. Qed.

(** A property of finished rows that is about status and output. *)
Lemma forward_rows (P : NodeExecution -> Prop) l l' :
  (forall n, P n -> active (ne_status n) = false) ->
  (forall n n', ne_status n' = ne_status n -> ne_output_artifact_id n' = ne_output_artifact_id n -> P n -> P n') ->
  Forall2 forward l l' -> Forall P l -> Forall P l'.
Proof.
  intros HP HE HF. induction HF as [|n n' l l' [_ Hf] _ IH]; [done|]. rewrite !Forall_cons. intros [Hn Hl].
  split; [|auto]. destruct Hf; eauto.
Qed.

Lemma delivered_same n n' :
  ne_status n' = ne_status n -> ne_output_artifact_id n' = ne_output_artifact_id n -> delivered n -> delivered n'.
Proof. unfold delivered. by intros -> ->. Qed.

(** Replacing the rows of a job by legal successors is safe. *)
Lemma set_nodes_safe j ns' :
  Forall2 (row_step j) (j_node_executions j) ns' -> safe j (set_nodes ns' j).
Proof.
  intros HF [Hids Hrows Hplan Hsucc Hpart].
  assert (Hfw : Forall2 forward (j_node_executions j) ns') by (eapply Forall2_impl; [exact HF | by intros ? ? []]).
  split; [|by split_and!]. split; simpl; [| | done | |].
  - by rewrite (forward_ids j (set_nodes ns' j) Hfw : map ne_id ns' = _).
  - intros n' Hn'. apply (row_inv_mono j); [done | done |].
    apply list_elem_of_lookup in Hn' as [i Hi].
    destruct (Forall2_lookup_r _ _ _ _ _ HF Hi) as (n & Hn & _ & Hstep).
    apply Hstep, Hrows. by eapply list_elem_of_lookup_2.
  - intros Hs. eapply (forward_rows delivered); eauto using delivered_inactive, delivered_same.
  - intros Hs. destruct (Hpart Hs) as (Ha & Hl & Hne).
    assert (HL := leaf_executions_forward j (set_nodes ns' j) eq_refl Hfw). split_and!.
    + eapply (forward_rows (fun n => active (ne_status n) = false)); [done | by intros ? ? -> | done | done].
    + eapply (forward_rows delivered); eauto using delivered_inactive, delivered_same.
    + intros Hnil. rewrite Hnil in HL. by apply Forall2_nil_inv_r in HL.
Qed.

Lemma map_nodes_safe j f : (forall n, row_step j n (f n)) -> safe j (map_nodes f j).
Proof. intros Hf. apply set_nodes_safe. by apply Forall2_map_self. Qed.

(** Updating the row found under its key. *)
Lemma update_node_safe j id n f :
  find_node id j = Some n -> row_step j n (f n) -> safe j (update_node id f j).
Proof.
  intros Hfind Hstep Hj. apply set_nodes_safe; [|done]. destruct (find_node_elem _ _ _ Hfind) as [Hin Hid].
  apply Forall2_fmap_r, Forall_Forall2_diag, Forall_forall. intros m Hm. simpl.
  case_decide as Hd; [|reflexivity].
  assert (m = n) as -> by (eapply NoDup_map_inj; [apply (ji_ids j Hj) | | |]; congruence). done.
Qed.

(** Changing the job columns alone. *)
Lemma set_job_safe j s c e :
  s <> JobStatus.RUNNING -> s <> JobStatus.SUCCEEDED -> s <> JobStatus.PARTIALLY_FAILED ->
  safe j (set_job s c e j).
Proof.
  intros H1 H2 H3 [Hids Hrows Hplan Hsucc Hpart]. split; [|by split_and!]. split; simpl; auto; try congruence.
  - intros n Hn. eapply row_inv_mono; [| |by apply Hrows]; done.
  - by destruct (j_execution_plan j).
Qed.

Lemma set_message_safe j c e : safe j (set_job (j_status j) c e j).
Proof.
  intros [Hids Hrows Hplan Hsucc Hpart]. split; [|by split_and!]. split; simpl; auto.
  intros n Hn. eapply row_inv_mono; [| |by apply Hrows]; done.
Qed.

(** ** Legal row successors *)

Lemma row_step_intro j n n' :
  same_row n n' -> active (ne_status n) = true ->
  (launched (ne_status n') = true ->
     launched (ne_status n) = true \/ ne_node_type n = "source" \/ deps_succeeded j (job_deps j n) = true) ->
  (ne_status n' = NodeStatus.SUCCEEDED -> is_Some (ne_output_artifact_id n')) ->
  (ne_output_artifact_id n' = ne_output_artifact_id n \/ ne_status n' = NodeStatus.SUCCEEDED) ->
  ((0 <= ne_retry_count n <= 1)%Z -> (0 <= ne_retry_count n' <= 1)%Z) ->
  ((0 <= ne_progress n <= 100)%Z -> (0 <= ne_progress n' <= 100)%Z) ->
  row_step j n n'.
Proof.
  intros Hrow Ha Hl Ho Hkeep Hr Hp. split; [split; [done | congruence]|].
  intros [Hd _ Hpr Hr0 Hp0]. destruct Hrow as (_ & Hn & Ht). split; auto.
  - unfold job_deps. rewrite Hn, Ht. intros Hl' Hsrc. destruct (Hl Hl') as [?|[?|?]]; [by apply Hd | done | done].
  - intros Hout. destruct Hkeep as [He| ->]; [|by left]. rewrite He in Hout. apply Hpr in Hout.
    rewrite !elem_of_cons, elem_of_nil in Hout. by destruct Hout as [Hs|[Hs|[]]]; rewrite Hs in Ha.
Qed.

(** Solves the row conditions of an update whose old status is known. *)
Ltac solve_row := apply row_step_intro; simpl; auto; try done; try lia; try (by intros; eexists).

Lemma reset_node_step j n : active (ne_status n) = true -> row_step j n (reset_node n).
Proof. intros Ha. solve_row. Qed.

Lemma reset_active_step j n : row_step j n (reset_active_node n).
Proof. unfold reset_active_node. destruct (active _) eqn:Ha; [by apply reset_node_step | reflexivity]. Qed.

Lemma reset_unclaimed_step j n : row_step j n (reset_unclaimed n).
Proof.
  unfold reset_unclaimed, has_status. repeat case_match; try reflexivity.
  apply bool_decide_eq_true in H1. solve_row. by rewrite H1.
Qed.

Lemma recover_node_step j n : active (ne_status n) = true -> row_step j n (recover_node n).
Proof. intros Ha. solve_row. Qed.

Lemma abandon_node_step j n : active (ne_status n) = true -> row_step j n (abandon_node n).
Proof. intros Ha. solve_row. Qed.

Lemma start_node_step j n w t r e :
  ne_status n = NodeStatus.QUEUED -> row_step j n (start_node w t r e n).
Proof. intros Hs. solve_row; by rewrite Hs; auto. Qed.

Lemma queue_node_step j n t i :
  active (ne_status n) = true -> deps_succeeded j (job_deps j n) = true -> row_step j n (queue_node t i n).
Proof. intros Ha Hd. solve_row. Qed.

Lemma succeed_node_step j n t o s i :
  active (ne_status n) = true ->
  (launched (ne_status n) = true \/ ne_node_type n = "source" \/ deps_succeeded j (job_deps j n) = true) ->
  row_step j n (succeed_node t o s i n).
Proof. intros Ha Hd. solve_row. Qed.

Lemma fail_node_step j n t m : active (ne_status n) = true -> row_step j n (fail_node t m n).
Proof. intros Ha. solve_row. Qed.

Lemma retry_node_step j n t :
  ne_status n = NodeStatus.RUNNING -> (ne_retry_count n < 1)%Z -> row_step j n (retry_node t n).
Proof. intros Hs Hr. solve_row; by rewrite Hs; auto. Qed.

Lemma release_node_step j n : ne_status n = NodeStatus.QUEUED -> row_step j n (release_node n).
Proof. intros Hs. solve_row; by rewrite Hs; auto. Qed.

Lemma skip_node_step j n t : ne_status n = NodeStatus.PENDING -> row_step j n (skip_node t n).
Proof. intros Hs. solve_row. by rewrite Hs. Qed.

Create HintDb engine.
#[export] Hint Resolve reset_active_step reset_unclaimed_step recover_node_step abandon_node_step
  start_node_step queue_node_step succeed_node_step fail_node_step retry_node_step release_node_step skip_node_step : engine.

(** ** Job-level transitions *)

Lemma defer_safe j : safe j (defer_job_until_next_window j).
Proof.
  unfold defer_job_until_next_window. etrans; [apply (map_nodes_safe j reset_active_node); auto with engine|].
  by apply set_job_safe.
Qed.

Lemma plan_job_safe now j order :
  ~ terminal_job (j_status j) = true -> safe j (plan_job now order j).
Proof.
  intros Hterm Hj. destruct (map_nodes_safe j reset_unclaimed) as [[Hids Hrows _ _ _] (Hi & Hs & HF)];
    [auto with engine | done |].
  split; [|by split_and!]. split; simpl; try done.
  intros n Hn. by apply (row_inv_mono (map_nodes reset_unclaimed j)), Hrows.
Qed.

Lemma final_status_succeeded j :
  final_status j = Some JobStatus.SUCCEEDED ->
  Forall (fun n => ne_status n = NodeStatus.SUCCEEDED) (j_node_executions j).
Proof.
  unfold final_status. destruct (existsb _ _); [done|]. destruct (forallb _ _) eqn:Hall.
  - intros _. apply Forall_forall. intros n Hn. rewrite forallb_forall in Hall.
    apply list_elem_of_In in Hn. specialize (Hall n Hn). by apply bool_decide_eq_true in Hall.
  - destruct (existsb (fun n => failed_status _) _); [|done]. by destruct (_ || _).
Qed.

Lemma inactive_cases s : active s = false -> s = NodeStatus.SUCCEEDED \/ failed_status s = true.
Proof. destruct s; auto; done. Qed.

Lemma final_status_partial j :
  final_status j = Some JobStatus.PARTIALLY_FAILED ->
  Forall (fun n => active (ne_status n) = false) (j_node_executions j)
  /\ Forall (fun n => ne_status n = NodeStatus.SUCCEEDED) (leaf_executions j)
  /\ leaf_executions j <> [].
Proof.
  unfold final_status. destruct (existsb (fun n => active _) _) eqn:Hact; [done|].
  destruct (forallb _ _); [done|]. destruct (existsb (fun n => failed_status _) (j_node_executions j)); [|done].
  destruct (_ || _) eqn:Hor; [done|]. intros _. apply orb_false_iff in Hor as [Hfail Hsucc].
  apply negb_false_iff in Hsucc. split_and!.
  - apply Forall_forall. intros n Hn. by apply (existsb_false_elem _ _ _ Hact).
  - apply Forall_forall. intros n Hn. pose proof (existsb_false_elem _ _ _ Hfail Hn) as Hnf.
    unfold leaf_executions in Hn. apply elem_of_lfilter in Hn as [Hn _].
    pose proof (existsb_false_elem _ _ _ Hact Hn) as Hna. destruct (inactive_cases _ Hna); congruence.
  - intros Hnil. by rewrite Hnil in Hsucc.
Qed.

Lemma final_status_range j s :
  final_status j = Some s -> s = JobStatus.SUCCEEDED \/ s = JobStatus.FAILED \/ s = JobStatus.PARTIALLY_FAILED.
Proof.
  unfold final_status. repeat case_match; intros [= <-]; auto.
Qed.

Lemma delivered_rows j l :
  (forall n, n ∈ l -> row_inv j n) -> Forall (fun n => ne_status n = NodeStatus.SUCCEEDED) l -> Forall delivered l.
Proof.
  rewrite !Forall_forall. intros Hinv Hs n Hn. split; [by apply (ri_output j n (Hinv n Hn)), Hs|].
  rewrite (Hs n Hn). by left.
Qed.

(** Setting the status finalization computed. *)
Lemma set_final_safe j s c e : final_status j = Some s -> safe j (set_job s c e j).
Proof.
  intros Hf [Hids Hrows Hplan Hsucc Hpart]. split; [|by split_and!]. split; simpl; try done.
  - intros n Hn. eapply row_inv_mono; [| |by apply Hrows]; done.
  - destruct (j_execution_plan j); [done|]. destruct (final_status_range j s Hf) as [->|[->| ->]]; done.
  - intros ->. apply (delivered_rows j); [by intros n Hn; apply Hrows|]. by apply final_status_succeeded.
  - intros ->. destruct (final_status_partial j Hf) as (Ha & Hl & Hne). split_and!; [done| |done].
    apply (delivered_rows j); [|done]. by intros n [Hn _]%elem_of_lfilter; apply Hrows.
Qed.

Lemma finalization_safe now j arts done j' arts' :
  _apply_job_finalization now j arts = (done, j', arts') -> safe j j'.
Proof.
  unfold _apply_job_finalization. destruct (final_status j) as [s|] eqn:Hf.
  - destruct s; intros [= <- <- <-]; by apply set_final_safe.
  - intros [= <- <- <-]. reflexivity.
Qed.

Lemma skip_one_safe now j nid : safe j (skip_one now j nid).
Proof.
  unfold skip_one. destruct (ne_by_node_id j).[? nid] as [n|] eqn:Hn; [|reflexivity].
  unfold has_status. case_bool_decide as Hs; [|reflexivity]. intros Hj.
  apply ne_by_node_id_elem in Hn as [Hin _].
  apply (update_node_safe j (ne_id n) n); auto with engine. apply find_node_self; [apply Hj | done].
Qed.

Lemma skip_fold_safe now l j : safe j (fold_left (skip_one now) l j).
Proof.
  revert j. induction l as [|nid l IH]; intros j; simpl; [reflexivity|].
  etrans; [apply skip_one_safe | apply IH].
Qed.

Lemma skip_downstream_safe now j nid dm j' : _skip_downstream now j nid dm = Ok j' -> safe j j'.
Proof.
  unfold _skip_downstream. destruct (skip_bfs _ _ _ _); [|done]. intros [= <-]. apply skip_fold_safe.
Qed.

(** ** Overwritten rows *)

(** What a row can become when a cancellation writes without having locked: a finished row
    keeps its output, and its status unless it is marked as cancelled. *)
Definition drift (n n' : NodeExecution) : Prop :=
  same_row n n'
  /\ (active (ne_status n) = false ->
      ne_output_artifact_id n' = ne_output_artifact_id n
      /\ (ne_status n' = ne_status n \/ ne_status n' = NodeStatus.CANCELLED)).

Definition drifts (j j' : Job) : Prop :=
  j_id j' = j_id j /\ j_pipeline_snapshot j' = j_pipeline_snapshot j
  /\ Forall2 drift (j_node_executions j) (j_node_executions j').

Lemma drift_inactive n n' : drift n n' -> active (ne_status n) = false -> active (ne_status n') = false.
Proof. intros [_ Hd] Ha. destruct (Hd Ha) as [_ [->| ->]]; done. Qed.

#[export] Instance drift_refl : Reflexive drift.
Proof. intros n. split; [done|]. auto. Qed.

#[export] Instance drift_trans : Transitive drift.
Proof.
  intros a b c Hab Hbc. pose proof (drift_inactive a b Hab) as Hb.
  destruct Hab as [(Hi & Hn & Ht) H1], Hbc as [(Hi' & Hn' & Ht') H2]. split; [split_and!; congruence|].
  intros Ha. destruct (H1 Ha) as [Ho Hs], (H2 (Hb Ha)) as [Ho' Hs']. split; [congruence|].
  destruct Hs as [Hs|Hs], Hs' as [Hs'|Hs']; rewrite ?Hs', ?Hs; auto.
Qed.

#[export] Instance drifts_refl : Reflexive drifts.
Proof. intros j. by split_and!. Qed.

#[export] Instance drifts_trans : Transitive drifts.
Proof. intros a b c (Hi & Hs & HF) (Hi' & Hs' & HF'). split_and!; try congruence. by etrans. Qed.

Lemma evolves_drifts j j' : evolves j j' -> drifts j j'.
Proof.
  intros (Hi & Hs & HF). split_and!; [done..|]. eapply Forall2_impl; [exact HF|]. intros n n' [Hr Hf].
  split; [done|]. intros Ha. destruct (Hf Ha). auto.
Qed.

Lemma delivered_drift n n' : drift n n' -> delivered n -> delivered n'.
Proof.
  intros Hd Hn. pose proof (delivered_inactive n Hn) as Ha. destruct Hd as [_ Hd], (Hd Ha) as [Ho Hs], Hn as [Hout Hst].
  split; [by rewrite Ho|]. destruct Hs as [->| ->]; [done|]. right. by left.
Qed.

Lemma Forall_drift (P : NodeExecution -> Prop) l l' :
  (forall n n', drift n n' -> P n -> P n') -> Forall2 drift l l' -> Forall P l -> Forall P l'.
Proof. intros HP HF. induction HF; [done|]. rewrite !Forall_cons. intros []. eauto. Qed.

Lemma leaf_executions_drift j j' : drifts j j' -> Forall2 drift (leaf_executions j) (leaf_executions j').
Proof.
  intros (_ & Hs & HF). unfold leaf_executions. rewrite Hs.
  induction HF as [|n n' l l' [(Hi & Hn & Ht) Hf] _ IH]; simpl; [constructor|]. rewrite Hn.
  destruct (bool_decide _); [|done]. constructor; [|done]. by split.
Qed.

(** *** Finalization from memory *)

(** A session that finds every node of the job in its memory finished is right about the
    rows, up to what a cancellation has overwritten since. *)
Lemma flush_final_safe now mem cur arts mem' arts' :
  job_inv mem -> drifts mem cur -> _apply_job_finalization now mem arts = (true, mem', arts') ->
  safe cur (flush_job mem mem' cur).
Proof.
  intros Hmem Hdr Hf [Hids Hrows Hplan Hsucc Hpart]. split; [|by split_and!].
  assert (exists s, final_status mem = Some s /\ j_status mem' = s) as (s & Hs & Hst).
  { unfold _apply_job_finalization in Hf. destruct (final_status mem) as [[]|]; simplify_eq; eauto. }
  pose proof (leaf_executions_drift mem cur Hdr) as Hleaf. destruct Hdr as (_ & Hsnap & HF).
  assert (Hcase : j_status (flush_job mem mem' cur) = j_status cur \/ j_status (flush_job mem mem' cur) = s).
  { unfold flush_job, written. simpl. case_decide; auto. }
  split; try done.
  - intros n Hn. eapply row_inv_mono; [| |by apply Hrows]; done.
  - change (j_execution_plan (flush_job mem mem' cur)) with (j_execution_plan cur).
    destruct (j_execution_plan cur); [done|]. destruct Hcase as [->| ->]; [done|].
    by destruct (final_status_range mem s Hs) as [->|[->| ->]].
  - intros He. destruct Hcase as [Hc|Hc]; [apply Hsucc; congruence|]. assert (s = JobStatus.SUCCEEDED) as -> by congruence.
    eapply Forall_drift; [apply delivered_drift|exact HF|]. apply (delivered_rows mem); [apply (ji_rows mem Hmem)|].
    by apply final_status_succeeded.
  - intros He. destruct Hcase as [Hc|Hc]; [apply Hpart; congruence|]. assert (s = JobStatus.PARTIALLY_FAILED) as -> by congruence.
    destruct (final_status_partial mem Hs) as (Ha & Hl & Hne). split_and!.
    + eapply (Forall_drift (fun n => active (ne_status n) = false)); [exact drift_inactive|exact HF|done].
    + eapply Forall_drift; [apply delivered_drift|exact Hleaf|]. apply (delivered_rows mem); [|done].
      intros n [Hn _]%elem_of_lfilter. by apply (ji_rows mem Hmem).
    + intros Hnil. change (leaf_executions (flush_job mem mem' cur)) with (leaf_executions cur) in Hnil.
      rewrite Hnil in Hleaf. by apply Forall2_nil_inv_r in Hleaf.
Qed.

(** Under its lock the session's job is the row. *)
Lemma maybe_finalize_locked now j db :
  (db_jobs db).[? j_id j] = Some j ->
  _maybe_finalize_job now j db =
    match _apply_job_finalization now j (db_artifacts db) with
    | (true, j', arts) => (true, put_artifacts arts (put_job j' db))
    | (false, _, _) => (false, db)
    end.
Proof.
  intros Hj. unfold _maybe_finalize_job. destruct (_apply_job_finalization _ _ _) as [[[] j'] arts] eqn:Hf; [|done].
  rewrite Hj. do 3 f_equal. assert (exists s c e, j' = set_job s c e j) as (s & c & e & ->).
  { unfold _apply_job_finalization in Hf. destruct (final_status j) as [[]|]; simplify_eq; eauto. }
  unfold flush_job, written. destruct j. simpl. repeat case_decide; by subst.
Qed.
