(* ===== verification/EngineSteps.v ===== *)
(** * Every transaction keeps the database consistent

    [db_safe] lifts [safe] to the jobs table.  Each transaction of the engine, of
    the workers and of the schedule is shown to be [db_safe], also a dispatch pass,
    whose session works on a job in memory that other transactions leave behind
    ([pass_ok]); [EngineReach] has their interleavings. *)

From stdpp Require Import base tactics list strings relations sorting.
From Stdlib Require Import ZArith Lia.
From S2P Require Import Prelude PyStr PyValue PyJson PyTime PyUuid NodeRegistry Pipeline Graph JobModel WorkerModel Schedule Authority JobService ArtifactCache WorkerEvents Retry Engine EngineInv.

Open Scope string_scope.
Open Scope list_scope.

Definition db_inv (db : Db) : Prop :=
  forall id j, (db_jobs db).[? id] = Some j -> j_id j = id /\ job_inv j.

Definition db_evolves (db db' : Db) : Prop :=
  forall id j, (db_jobs db).[? id] = Some j ->
    exists j', (db_jobs db').[? id] = Some j' /\ evolves j j'.

Definition db_safe (db db' : Db) : Prop := db_inv db -> db_inv db' /\ db_evolves db db'.

#[export] Instance db_evolves_refl : Reflexive db_evolves.
Proof. intros db id j Hj. by exists j. Qed.

#[export] Instance db_evolves_trans : Transitive db_evolves.
Proof.
  intros a b c Hab Hbc id j Hj. destruct (Hab id j Hj) as (j1 & Hj1 & He1).
  destruct (Hbc id j1 Hj1) as (j2 & Hj2 & He2). exists j2. split; [done | by etrans].
Qed.

#[export] Instance db_safe_refl : Reflexive db_safe.
Proof. intros db Hdb. by split. Qed.

#[export] Instance db_safe_trans : Transitive db_safe.
Proof.
  intros a b c Hab Hbc Ha. destruct (Hab Ha) as [Hb He]. destruct (Hbc Hb) as [Hc He'].
  split; [done | by etrans].
Qed.

Lemma same_jobs_safe db db' : db_jobs db' = db_jobs db -> db_safe db db'.
Proof. intros Heq Hdb. split; [|by intros id j Hj; exists j; rewrite Heq]. intros id j. rewrite Heq. apply Hdb. Qed.

Lemma put_job_safe db id j j' :
  (db_jobs db).[? id] = Some j -> safe j j' -> db_safe db (put_job j' db).
Proof.
  intros Hj Hs Hdb. destruct (Hdb id j Hj) as [Hid Hinv]. destruct (Hs Hinv) as [Hinv' He].
  pose proof He as (Hid' & _ & _). split.
  - intros id0 j0. simpl. rewrite dget_dset. case_decide as Hd; [|apply Hdb].
    intros [= <-]. split; [done | done].
  - intros id0 j0 Hj0. simpl. rewrite dget_dset. case_decide as Hd; [|by exists j0].
    exists j'. split; [done|]. assert (id0 = id) as -> by congruence. congruence.
Qed.

(** [put_job] followed by changes to other tables. *)
Lemma put_job_safe' db db' id j j' :
  (db_jobs db).[? id] = Some j -> safe j j' -> db_jobs db' = db_jobs (put_job j' db) -> db_safe db db'.
Proof. intros Hj Hs Heq. etrans; [by eapply put_job_safe | by apply same_jobs_safe]. Qed.

(** ** What the locks return *)

Lemma lock_initial_spec setting db id :
  match _lock_initial_launch_authority setting db id with
  | (Some j, db') => db' = db /\ (db_jobs db).[? id] = Some j /\ terminal_job (j_status j) = false
  | (None, db') => db_safe db db'
  end.
Proof.
  unfold _lock_initial_launch_authority.
  destruct (lock_job_execution_authority _ _ _ _ _) as [[au locks]|] eqn:Hlock; [|reflexivity].
  assert (Hj : (db_jobs db).[? id] = Some (au_job au)).
  { unfold lock_job_execution_authority in Hlock. by repeat case_match; simplify_eq. }
  destruct (channel_blocked _); [reflexivity|]. destruct (task_blocked _); [reflexivity|].
  destruct (terminal_job _) eqn:Ht; [reflexivity|].
  destruct (should_defer_job_start _ _ _); [|done].
  eapply put_job_safe; [done | apply defer_safe].
Qed.

Lemma lock_dispatch_spec setting db id nid j n :
  _lock_dispatch_authority setting db id nid = Some (j, n) ->
  (db_jobs db).[? id] = Some j /\ find_node nid j = Some n
  /\ ne_status n = NodeStatus.PENDING /\ j_status j = JobStatus.RUNNING.
Proof.
  unfold _lock_dispatch_authority.
  destruct (lock_job_execution_authority _ _ _ _ _) as [[au locks]|] eqn:Hlock; [|done].
  destruct (require_active_execution_authority _ _ _) as [[]|] eqn:Hreq; [|done].
  apply lock_authority_job in Hlock as (Hj & Hn & _). apply require_active_node in Hreq as (m & Hm & Hs & Hjs).
  rewrite Hm. intros [= <- <-]. rewrite Hm in Hn. set_solver.
Qed.

Lemma lock_claimed_spec setting db id nid ss all claim j n :
  lock_claimed setting db id nid ss all claim = Some (j, n) ->
  (db_jobs db).[? id] = Some j /\ find_node nid j = Some n
  /\ ne_status n ∈ ss /\ j_status j = JobStatus.RUNNING.
Proof.
  unfold lock_claimed.
  destruct (lock_job_execution_authority _ _ _ _ _) as [[au locks]|] eqn:Hlock; [|done].
  destruct (require_active_execution_authority _ _ _) as [[]|] eqn:Hreq; [|done].
  destruct (require_matching_node_execution_claim _ _); [|done].
  apply lock_authority_job in Hlock as (Hj & Hn & _). apply require_active_node in Hreq as (m & Hm & Hs & Hjs).
  rewrite Hm. intros [= <- <-]. rewrite Hm in Hn. set_solver.
Qed.

(** In a running job the plan holds the dependencies of the snapshot. *)
Lemma plan_deps_running j n :
  job_inv j -> j_status j = JobStatus.RUNNING ->
  dget_or (plan_dependencies j) (ne_node_id n) [] = job_deps j n.
Proof.
  intros Hj Hs. pose proof (ji_plan j Hj) as Hp. unfold plan_dependencies, job_deps.
  destruct (j_execution_plan j); [by rewrite Hp | done].
Qed.

Section Steps.
Context (registry : NodeTypeRegistry) (setting : string) (now : datetime).
Context (env : Env).

Lemma start_plan_safe db id b db' : start_plan setting now db id = Ok (b, db') -> db_safe db db'.
Proof.
  unfold start_plan. pose proof (lock_initial_spec setting db id) as Hl.
  destruct (_lock_initial_launch_authority setting db id) as [[j|] db1]; [|by intros [= <- <-]].
  destruct Hl as (-> & Hj & Ht). destruct (topological_sort _); [|done]. intros [= <- <-].
  eapply put_job_safe; [done|]. apply plan_job_safe. congruence.
Qed.

Lemma start_failed_safe db id e : db_safe db (start_failed setting now db id e).
Proof.
  unfold start_failed. pose proof (lock_initial_spec setting db id) as Hl.
  destruct (_lock_initial_launch_authority setting db id) as [[j|] db1]; [|done].
  destruct Hl as (-> & Hj & Ht). eapply put_job_safe; [done|]. by apply set_job_safe.
Qed.

Lemma resolve_source_step assets jid j n r :
  row_inv j n -> resolve_source now env assets jid n = Ok r -> row_step j n r.1.
Proof.
  intros Hn. unfold resolve_source. destruct (String.eqb_spec (ne_node_type n) "source") as [Hsrc|];
    simpl; [|intros [= <-]; reflexivity].
  destruct (_ && _) eqn:Hs; [intros [= <-]; reflexivity|].
  destruct (failed_status _) eqn:Hf; [intros [= <-]; reflexivity|].
  assert (Ha : active (ne_status n) = true).
  { destruct (active (ne_status n)) eqn:Ha; [done|]. destruct (inactive_cases _ Ha) as [Hss|]; [|congruence].
    destruct (ri_output _ _ Hn Hss) as [o Ho]. unfold has_status in Hs.
    by rewrite Hss, Ho, bool_decide_true in Hs. }
  repeat case_match; intros [= <-]; simpl; auto with engine.
Qed.

Lemma resolve_sources_safe db j j' arts :
  _resolve_source_nodes now env db j = Ok (j', arts) -> safe j j'.
Proof.
  unfold _resolve_source_nodes. destruct (mapMR _ _) as [rs|] eqn:Hm; [|done]. intros [= <- <-] Hj.
  apply set_nodes_safe; [|done]. apply mapMR_Forall2 in Hm.
  apply Forall2_fmap_r. eapply Forall2_impl_In; [exact Hm|].
  intros n r Hn _ Hr. by apply (resolve_source_step (db_assets db) (j_id j) j n r (ji_rows j Hj n Hn)).
Qed.

Lemma start_resolve_safe db id b db' :
  start_resolve setting now env db id = Ok (b, db') -> db_safe db db'.
Proof.
  unfold start_resolve. pose proof (lock_initial_spec setting db id) as Hl.
  destruct (_lock_initial_launch_authority setting db id) as [[j|] db1]; [|by intros [= <- <-]].
  destruct Hl as (-> & Hj & Ht). destruct (_resolve_source_nodes _ _ _ _) as [[j' arts]|] eqn:Hr; [|done].
  intros [= <- <-]. eapply put_job_safe'; [done | by eapply resolve_sources_safe | done].
Qed.

(** *** Dispatch *)

(** The cache either completes the node or leaves the jobs alone. *)
Lemma apply_cached_spec db j n inputs registered b j' db' :
  _apply_cached_artifact_uncommitted now env db j n inputs registered = Ok (b, j', db') ->
  if b then exists out started ids, j' = update_node (ne_id n) (succeed_node now out started ids) j
              /\ db_jobs db' = db_jobs (put_job j' db)
  else j' = j /\ db_jobs db' = db_jobs db.
Proof.
  unfold _apply_cached_artifact_uncommitted. destruct (registered && _); [done|].
  destruct (lookup _ _ _ _ _ _) as [[[entry|] db1]|] eqn:Hl; [| |by destruct registered; intros [= <- <- <-]].
  - apply lookup_tables in Hl as [Hl _].
    destruct (materialize_hit _ _ _ _ _) as [[art db2]|] eqn:Hm; [|done]. apply materialize_jobs in Hm.
    intros [= <- <- <-]. do 3 eexists. split; [done|]. simpl. by rewrite Hm, Hl.
  - apply lookup_tables in Hl as [Hl _]. by intros [= <- <- <-].
Qed.

Lemma cached_safe db j n inputs registered j' db' :
  _apply_cached_artifact_uncommitted now env db j n inputs registered = Ok (true, j', db') ->
  find_node (ne_id n) j = Some n -> active (ne_status n) = true ->
  deps_succeeded j (job_deps j n) = true ->
  safe j j' /\ db_jobs db' = db_jobs (put_job j' db).
Proof.
  intros (out & st & ids & -> & Hjobs)%apply_cached_spec Hfind Ha Hd.
  split; [|done]. eapply update_node_safe; [done|]. auto with engine.
Qed.

Lemma stage_task_jobs db origin j n p db' :
  stage_task registry now env db origin j n p = Ok db' -> db_jobs db' = db_jobs db.
Proof. unfold stage_task, stage_worker_task_dispatch. repeat case_match; intros [= <-]; done. Qed.

(** The job in the memory of a session: consistent, and behind the row at most. *)
Definition mem_ok (mem : Job) (db : Db) : Prop :=
  job_inv mem /\ exists j, (db_jobs db).[? j_id mem] = Some j /\ drifts mem j.

Lemma mem_row db id j : db_inv db -> (db_jobs db).[? id] = Some j -> j_id j = id /\ mem_ok j db.
Proof.
  intros Hdb Hj. destruct (Hdb id j Hj) as [Hid Hinv]. split; [done|]. split; [done|].
  exists j. split; [by rewrite Hid|reflexivity].
Qed.

Definition db_drifts (db db' : Db) : Prop :=
  forall id j, (db_jobs db).[? id] = Some j -> exists j', (db_jobs db').[? id] = Some j' /\ drifts j j'.

Lemma db_evolves_drifts db db' : db_evolves db db' -> db_drifts db db'.
Proof. intros He id j (j' & Hj' & Hev)%He. eauto using evolves_drifts. Qed.

Lemma mem_drift mem db db' : db_drifts db db' -> mem_ok mem db -> mem_ok mem db'.
Proof.
  intros Hd [Hm (j & Hj & Hmj)]. split; [done|]. destruct (Hd _ _ Hj) as (j' & Hj' & Hjj'). exists j'. split; [done|]. by etrans.
Qed.

(** What a transaction of a dispatch pass leaves. *)
Definition pass_ok (mem : Job) (db : Db) (mem' : Job) (db' : Db) : Prop :=
  db_inv db -> mem_ok mem db -> (db_inv db' /\ db_evolves db db') /\ j_id mem' = j_id mem /\ mem_ok mem' db'.

Lemma pass_keep mem db db' : db_safe db db' -> pass_ok mem db mem db'.
Proof.
  intros Hs Hdb Hm. pose proof (Hs Hdb) as [Hdb' He]. split; [done|]. split; [done|].
  by eapply mem_drift; [apply db_evolves_drifts|].
Qed.

Lemma pass_row mem db db' id j :
  db_safe db db' -> id = j_id mem -> (db_jobs db').[? id] = Some j -> pass_ok mem db j db'.
Proof. intros Hs -> Hj Hdb Hm. pose proof (Hs Hdb) as [Hdb' He]. split; [done|]. by apply mem_row. Qed.

Lemma dispatch_locked_ok mem db nid sig mem' db' :
  dispatch_locked registry setting now env mem db nid = Ok (sig, mem', db') -> pass_ok mem db mem' db'.
Proof.
  unfold dispatch_locked. destruct (_lock_dispatch_authority setting db (j_id mem) nid) as [[j n]|] eqn:Hl;
    [|intros [= <- <- <-]; apply pass_keep; reflexivity].
  apply lock_dispatch_spec in Hl as (Hj & Hn & Hs & Hjs).
  destruct (deps_succeeded j (dget_or _ _ _)) eqn:Hd; simpl;
    [|intros [= <- <- <-]; eapply pass_row; [reflexivity|done|exact Hj]].
  intros Hok Hdb. destruct (Hdb _ j Hj) as [Hid Hinv]. rewrite plan_deps_running in Hd by done.
  destruct (find_node_elem _ _ _ Hn) as [Hin Hnid]. rewrite <- Hnid in Hn.
  assert (Ha : active (ne_status n) = true) by (by rewrite Hs). revert Hdb. fold (pass_ok mem db mem' db').
  destruct (_apply_cached_artifact_uncommitted _ _ _ _ _ _ _) as [[[[] j'] db1]|] eqn:Hc; [| |done].
  - injection Hok as <- <- <-. pose proof Hc as [Hsafe Hjobs]%cached_safe; [|done..].
    apply apply_cached_spec in Hc as (out & st & ids & -> & _).
    eapply pass_row; [by eapply put_job_safe'|done|]. rewrite Hjobs. apply dget_dset_eq.
  - apply apply_cached_spec in Hc as [_ Hc].
    destruct (stage_task _ _ _ _ _ _ _ _) as [db2|] eqn:Hst; [|done]. injection Hok as <- <- <-.
    apply stage_task_jobs in Hst. rewrite Hc in Hst.
    eapply pass_row; [|done|apply dget_dset_eq]. etrans; [by apply (same_jobs_safe db db2)|].
    eapply put_job_safe; [by rewrite Hst|]. eapply update_node_safe; [done|]. auto with engine.
Qed.

Lemma dispatch_node_ok guard dm mem db node_id sig mem' db' :
  dispatch_node registry setting now env guard dm mem db node_id = Ok (sig, mem', db') -> pass_ok mem db mem' db'.
Proof.
  unfold dispatch_node.
  destruct (ready_node mem dm node_id) as [n|]; [|intros [= <- <- <-]; apply pass_keep; reflexivity].
  destruct guard; [|apply dispatch_locked_ok]. pose proof (lock_initial_spec setting db (j_id mem)) as Hl.
  destruct (_lock_initial_launch_authority setting db (j_id mem)) as [[j1|] db1];
    [|intros [= <- <- <-]; by apply pass_keep].
  destruct Hl as (-> & Hj & _). destruct (ready_node j1 _ node_id).
  - intros Hok%dispatch_locked_ok Hdb Hm. destruct (mem_row db _ j1 Hdb Hj) as [Hid Hm1].
    destruct (Hok Hdb Hm1) as (? & Hid' & ?). split_and!; [apply H|apply H|congruence|done..].
  - intros [= <- <- <-]. by eapply pass_row.
Qed.

Lemma dispatch_pass_ok guard dm ids mem db mem' db' r :
  dispatch_pass registry setting now env guard dm ids mem db = (mem', db', r) -> pass_ok mem db mem' db'.
Proof.
  revert mem db. induction ids as [|node_id ids IH]; intros mem db; simpl; [intros [= <- <- <-]; apply pass_keep; reflexivity|].
  destruct (dispatch_node _ _ _ _ _ _ _ _ _) as [[[[] mem1] db1]|] eqn:Hd; [| |intros [= <- <- <-]; apply pass_keep; reflexivity];
    apply dispatch_node_ok in Hd; [|by intros [= <- <- <-]].
  intros Hp%IH Hdb Hm. destruct (Hd Hdb Hm) as ([Hdb1 He1] & Hid1 & Hm1). destruct (Hp Hdb1 Hm1) as ([Hdb2 He2] & Hid2 & Hm2).
  split_and!; [done|by etrans|congruence|done..].
Qed.

(** The closing finalization, from memory. *)
Lemma maybe_finalize_ok db mem b db' :
  db_inv db -> mem_ok mem db -> _maybe_finalize_job now mem db = (b, db') -> db_inv db' /\ db_evolves db db'.
Proof.
  intros Hdb [Hm (j & Hj & Hdr)]. unfold _maybe_finalize_job.
  destruct (_apply_job_finalization now mem (db_artifacts db)) as [[[] mem'] arts] eqn:Hf; [|by intros [= <- <-]].
  rewrite Hj. intros [= <- <-]. revert Hdb. fold (db_safe db (put_artifacts arts (put_job (flush_job mem mem' j) db))).
  eapply put_job_safe'; [done|by eapply flush_final_safe|done].
Qed.

Lemma maybe_finalize_safe db id j b db' :
  (db_jobs db).[? id] = Some j -> _maybe_finalize_job now j db = (b, db') -> db_safe db db'.
Proof. intros Hj Hf Hdb. eapply maybe_finalize_ok; [done| |done]. by eapply mem_row. Qed.

Lemma dispatch_ready_safe guard dm id j db db' r :
  (db_jobs db).[? id] = Some j -> _dispatch_ready_nodes registry setting now env guard dm j db = (db', r) -> db_safe db db'.
Proof.
  unfold _dispatch_ready_nodes. intros Hj. case_bool_decide; [intros [= <- <-]; reflexivity|].
  destruct (dispatch_pass _ _ _ _ _ _ _ _ _) as [[mem db1] [[]|]] eqn:Hp; apply dispatch_pass_ok in Hp; intros [= <- <-] Hdb;
    destruct (mem_row db id j Hdb Hj) as [_ Hm]; destruct (Hp Hdb Hm) as ([Hdb1 He1] & _ & Hm1); [|done..].
  destruct (_maybe_finalize_job now mem db1) as [b db2] eqn:Hf. destruct (maybe_finalize_ok db1 mem b db2 Hdb1 Hm1 Hf) as [? ?].
  split; [done|by etrans].
Qed.

Lemma start_dispatch_safe db id db' r :
  start_dispatch registry setting now env db id = (db', r) -> db_safe db db'.
Proof.
  unfold start_dispatch. pose proof (lock_initial_spec setting db id) as Hl.
  destruct (_lock_initial_launch_authority setting db id) as [[j|] db1]; [|by intros [= <- <-]].
  destruct Hl as (-> & Hj & _). by eapply dispatch_ready_safe.
Qed.

Lemma start_job_safe db id :
  db_safe db (start_job registry setting now env db id).
Proof.
  unfold start_job. destruct (start_plan _ _ _ _) as [[[] db1]|] eqn:H1; [| |apply start_failed_safe].
  2: { by eapply start_plan_safe. }
  apply start_plan_safe in H1. etrans; [exact H1|].
  destruct (start_resolve _ _ _ _ _) as [[[] db2]|] eqn:H2; [| |apply start_failed_safe].
  2: { by eapply start_resolve_safe. }
  apply start_resolve_safe in H2. etrans; [exact H2|].
  destruct (start_dispatch _ _ _ _ _ _) as [db3 [[]|]] eqn:H3; apply start_dispatch_safe in H3; [done|].
  etrans; [exact H3 | apply start_failed_safe].
Qed.

(** *** Events of unregistered workers *)

Lemma complete_node_safe db id nid out claim db' :
  complete_node setting now db id nid out claim = Some db' -> db_safe db db'.
Proof.
  unfold complete_node. destruct (lock_claimed _ _ _ _ _ _ _) as [[j n]|] eqn:Hl; [|done].
  apply lock_claimed_spec in Hl as (Hj & Hn & Hs%list_elem_of_singleton & _). intros [= <-].
  eapply put_job_safe; [done|]. eapply update_node_safe; [done|].
  apply succeed_node_step; rewrite Hs; auto.
Qed.

Lemma write_cache_tables db j n db' :
  _write_artifact_cache_for_node now env db j n = Ok db' ->
  db_jobs db' = db_jobs db /\ db_artifacts db' = db_artifacts db.
Proof. unfold _write_artifact_cache_for_node. repeat case_match; [apply store_tables | by intros [= <-]..]. Qed.

Lemma cache_completed_safe db id nid : db_safe db (cache_completed now env db id nid).
Proof.
  unfold cache_completed. repeat case_match; try reflexivity. apply same_jobs_safe.
  by eapply write_cache_tables.
Qed.

Lemma after_completion_safe db id nid claim db' r :
  after_completion registry setting now env db id nid claim = (db', r) -> db_safe db db'.
Proof.
  unfold after_completion. destruct (lock_claimed _ _ _ _ _ _ _) as [[j n]|] eqn:Hl;
    [|intros [= <- <-]; reflexivity].
  apply lock_claimed_spec in Hl as (Hj & _).
  destruct (_maybe_finalize_job now j db) as [[] db1] eqn:Hf; [|by eapply dispatch_ready_safe].
  intros [= <- <-]. by eapply maybe_finalize_safe.
Qed.

Lemma on_node_completed_safe db id nid out claim db' r :
  on_node_completed registry setting now env db id nid out claim = (db', r) ->
  db_safe db db'.
Proof.
  unfold on_node_completed. destruct (_require_receipt_entrypoint_for_registered_claim claim);
    [|intros [= <- <-]; reflexivity].
  destruct (complete_node _ _ _ _ _ _ _) as [db1|] eqn:Hc; [|intros [= <- <-]; reflexivity].
  intros Ha. etrans; [by eapply complete_node_safe|].
  etrans; [apply cache_completed_safe | by eapply after_completion_safe].
Qed.

Lemma fail_exhausted_safe db id j n error db' :
  (db_jobs db).[? id] = Some j -> find_node (ne_id n) j = Some n -> active (ne_status n) = true ->
  fail_exhausted now db j n error = Ok db' -> db_safe db db'.
Proof.
  intros Hj Hn Ha. unfold fail_exhausted.
  destruct (_skip_downstream _ _ _ _) as [j1|] eqn:Hsk; [|done].
  assert (Hs : safe j (set_job (j_status j1) (j_completed_at j1)
            (Some ("Node '" +:+ ne_node_label n +:+ "' failed: " +:+ error)) j1)).
  { etrans; [eapply update_node_safe; [done|]; by apply fail_node_step|].
    etrans; [by eapply skip_downstream_safe | apply set_message_safe]. }
  intros [= <-]. etrans; [eapply put_job_safe; [done|exact Hs]|].
  destruct (_maybe_finalize_job _ _ _) as [b db1] eqn:Hf. eapply maybe_finalize_safe; [|exact Hf]. apply dget_dset_eq.
Qed.

Lemma on_node_failed_safe db id nid error claim db' p :
  on_node_failed setting now db id nid error claim = Ok (db', p) -> db_safe db db'.
Proof.
  unfold on_node_failed. destruct (_require_receipt_entrypoint_for_registered_claim claim); [|done].
  destruct (lock_claimed _ _ _ _ _ _ _) as [[j n]|] eqn:Hl; [|intros [= <- <-]; reflexivity].
  apply lock_claimed_spec in Hl as (Hj & Hn & Hs%list_elem_of_singleton & _).
  destruct (find_node_elem _ _ _ Hn) as [_ Hnid].
  destruct (Z.ltb_spec (ne_retry_count n) 1) as [Hr|Hr].
  - assert (db_safe db (put_job (update_node nid (retry_node now) j) db)).
    { eapply put_job_safe; [done|]. eapply update_node_safe; [done|]. auto with engine. }
    by destruct (lock_claimed _ _ _ _ _ _ _) as [[j' n']|]; intros [= <- <-].
  - destruct (fail_exhausted _ _ _ _ _) as [db1|] eqn:Hf; [|done]. intros [= <- <-].
    eapply fail_exhausted_safe; [done | by rewrite Hnid | by rewrite Hs | done].
Qed.

(** *** Events of registered workers

    The receipt transaction carries the job it works on beside the rows, so the
    staging loop keeps both in step: [stage_ok] relates them to the start. *)

Definition stage_ok (j0 : Job) (db0 : Db) (j : Job) (db : Db) : Prop :=
  safe j0 j /\ j_id j = j_id j0 /\ j_execution_plan j = j_execution_plan j0
  /\ db_jobs db = db_jobs (put_job j db0).

Lemma stage_dispatch_receipt_jobs db receipt j n i h db' :
  _stage_receipt_dispatch registry now env db receipt j n i h = Ok db' ->
  db_jobs db' = db_jobs db.
Proof. unfold _stage_receipt_dispatch. destruct (rc_id receipt); [|done]. apply stage_task_jobs. Qed.

Lemma put_job_twice db0 j0 j j' db :
  j_id j = j_id j0 -> j_id j' = j_id j -> db_jobs db = db_jobs (put_job j db0) ->
  db_jobs (put_job j' db) = db_jobs (put_job j' db0).
Proof. intros Hid Hid' Heq. simpl. rewrite Heq. simpl. rewrite Hid'. apply dset_dset. Qed.

Lemma stage_ready_node_ok receipt j0 db0 b j db entry r :
  job_inv j0 -> entry.2 = dget_or (build_dependency_map (j_pipeline_snapshot j0)) entry.1 [] ->
  stage_ok j0 db0 j db ->
  stage_ready_node registry now env receipt (b, j, db) entry = Ok r ->
  stage_ok j0 db0 r.1.2 r.2.
Proof.
  intros H0 Hdeps Hst. destruct entry as [node_id deps]. simpl in Hdeps. unfold stage_ready_node.
  destruct (ne_by_node_id j).[? node_id] as [n|] eqn:Hn; [|intros [= <-]; done].
  destruct (has_status NodeStatus.PENDING n && deps_succeeded j deps) eqn:Hc; simpl; [|intros [= <-]; done].
  apply andb_prop in Hc as [Hs%bool_decide_eq_true Hd].
  destruct Hst as (Hsafe & Hid & Hpl & Hjobs). destruct (Hsafe H0) as [Hinv (_ & Hsnap & _)].
  apply ne_by_node_id_elem in Hn as [Hin Hnid].
  assert (Hfind : find_node (ne_id n) j = Some n) by (apply find_node_self; [apply Hinv | done]).
  assert (Ha : active (ne_status n) = true) by (by rewrite Hs).
  assert (Hjd : deps_succeeded j (job_deps j n) = true) by (unfold job_deps; by rewrite Hsnap, Hnid, <- Hdeps).
  destruct (_apply_cached_artifact_uncommitted _ _ _ _ _ _ _) as [[[[] j'] db1]|] eqn:Hca; [| |done].
  - intros [= <-]. simpl. pose proof Hca as [Hsafe' Hjobs']%cached_safe; [|done..].
    apply apply_cached_spec in Hca as (out & st & ids & -> & _). split_and!; [by etrans | done | done |].
    rewrite Hjobs'. by apply (put_job_twice db0 j0 j).
  - apply apply_cached_spec in Hca as [_ Hca].
    destruct (_stage_receipt_dispatch _ _ _ _ _ _ _ _ _) as [db2|] eqn:Hsd; [|done]. intros [= <-]. simpl.
    apply stage_dispatch_receipt_jobs in Hsd. rewrite Hca in Hsd. split_and!; [| done | done |].
    + etrans; [exact Hsafe|]. eapply update_node_safe; [done|]. auto with engine.
    + etrans; [|by apply (put_job_twice db0 j0 j _ db)]. simpl. by rewrite Hsd.
Qed.

Lemma stage_once_ok receipt j0 db0 j db b j' db' :
  job_inv j0 -> stage_ok j0 db0 j db ->
  _stage_ready_receipt_dispatches_once registry now env receipt j db
    (build_dependency_map (j_pipeline_snapshot j0)) = Ok (b, j', db') ->
  stage_ok j0 db0 j' db'.
Proof.
  intros H0 Hst Hok.
  apply (foldM_inv (fun st => stage_ok j0 db0 st.1.2 st.2)) in Hok; [done | | done].
  intros [[b1 j1] db1] [node_id deps] st' Hin Hst1 Hstep.
  eapply stage_ready_node_ok; [done | | exact Hst1 | exact Hstep].
  simpl. unfold dget_or. apply elem_of_dget in Hin as ->; [done|].
  destruct (build_dependency_map_spec (j_pipeline_snapshot j0)) as [-> _]. apply NoDup_node_ids.
Qed.

Lemma stage_rounds_ok fuel receipt j0 db0 j db j' db' :
  job_inv j0 -> stage_ok j0 db0 j db ->
  stage_rounds registry now env fuel receipt j db
    (build_dependency_map (j_pipeline_snapshot j0)) = Ok (j', db') ->
  stage_ok j0 db0 j' db'.
Proof.
  intros H0. revert j db. induction fuel as [|fuel IH]; intros j db Hst; simpl;
    destruct (_stage_ready_receipt_dispatches_once _ _ _ _ _ _ _) as [[[[] j1] db1]|] eqn:Ho; try done;
    apply (stage_once_ok receipt j0 db0) in Ho; try done; try (by intros [= <- <-]). by apply IH.
Qed.

Lemma finalize_rows_jobs j db b db' :
  finalize_rows now j db = (b, db') -> exists j', safe j j' /\ db_jobs db' = db_jobs (put_job j' db).
Proof.
  unfold finalize_rows. destruct (_apply_job_finalization _ _ _) as [[d j'] arts] eqn:Hf.
  intros [= <- <-]. exists j'. split; [by eapply finalization_safe | done].
Qed.

Lemma safe_id j j' : job_inv j -> safe j j' -> j_id j' = j_id j.
Proof. intros Hj Hs. by destruct (Hs Hj) as [_ (? & _)]. Qed.

Lemma registered_completion_safe db id receipt event j n db' :
  (db_jobs db).[? id] = Some j -> find_node (ne_id n) j = Some n ->
  ne_status n = NodeStatus.RUNNING -> j_status j = JobStatus.RUNNING ->
  _apply_registered_completion registry now env db receipt event j n = Ok db' ->
  db_safe db db'.
Proof.
  intros Hj Hn Hs Hjs. unfold _apply_registered_completion.
  destruct (match _.[? _] with Some _ => _ | None => _ end) as [out|]; [|done].
  destruct (db_artifacts db).[? out] as [a|]; [|done]. destruct (_ && _); [|done].
  set (j1 := update_node (ne_id n) (succeed_node now out None None) j).
  assert (H1 : safe j j1) by (eapply update_node_safe; [done|]; apply succeed_node_step; rewrite Hs; auto).
  destruct (_write_artifact_cache_for_node _ _ _ _ _) as [db0|] eqn:Hw; [|done].
  apply write_cache_tables in Hw as [Hw _].
  intros Hok Hdb. destruct (Hdb id j Hj) as [Hid Hinv]. revert Hdb. fold (db_safe db db').
  etrans; [by apply (same_jobs_safe db db0)|]. rewrite <- Hw in Hj. clear dependent db. rename db0 into db.
  destruct (finalize_rows now j1 db) as [[] db1] eqn:Hf; pose proof Hf as (j2 & Hs2 & Hj2)%finalize_rows_jobs.
  { injection Hok as <-. eapply put_job_safe'; [done | by etrans | done]. }
  assert (Hj1 : db_jobs db1 = db_jobs (put_job j1 db)).
  { unfold finalize_rows in Hf. unfold _apply_job_finalization in Hf. repeat case_match; by simplify_eq. }
  destruct (_stage_receipt_dispatches _ _ _ _ _ _ _) as [[j3 db3]|] eqn:Hst; [|done]. injection Hok as <-.
  assert (Hplan : plan_dependencies j1 = build_dependency_map (j_pipeline_snapshot j1)).
  { pose proof (ji_plan j Hinv) as Hp. unfold plan_dependencies. simpl.
    destruct (j_execution_plan j); [done | congruence]. }
  unfold _stage_receipt_dispatches in Hst. rewrite Hplan in Hst.
  apply (stage_rounds_ok _ receipt j1 db) in Hst as (Hs3 & Hid3 & _ & Hj3);
    [| by apply H1 | split_and!; [reflexivity | done | done | done]].
  destruct (finalize_rows now j3 db3) as [b db4] eqn:Hf4. apply finalize_rows_jobs in Hf4 as (j4 & Hs4 & Hj4).
  assert (Hsafe : safe j j4) by (etrans; [exact H1|]; etrans; [exact Hs3 | exact Hs4]).
  eapply put_job_safe'; [done | exact Hsafe |]. simpl. rewrite Hj4.
  apply (put_job_twice db j1 j3 j4 db3); [done | | done].
  apply safe_id; [|done]. by apply Hs3, H1.
Qed.

Lemma release_safe db rid nid db' : _release_sqlite setting now db rid = Ok (nid, db') -> db_safe db db'.
Proof.
  intros (r & j & n & _ & Hj & Hn & Hs & _ & _ & _ & ->)%release_spec.
  destruct (find_node_elem _ _ _ Hn) as [_ Hnid]. rewrite <- Hnid in Hn.
  eapply put_job_safe; [done|]. eapply update_node_safe; [done|]. auto with engine.
Qed.

Lemma registered_failure_safe db id receipt event j n db' :
  (db_jobs db).[? id] = Some j -> find_node (ne_id n) j = Some n -> ne_status n = NodeStatus.RUNNING ->
  _apply_registered_failure registry setting now env db receipt event j n = Ok db' ->
  db_safe db db'.
Proof.
  intros Hj Hn Hs. unfold _apply_registered_failure.
  destruct (Z.ltb_spec (ne_retry_count n) 1) as [Hr|Hr].
  - destruct (_stage_receipt_dispatch _ _ _ _ _ _ _ _ _) as [db1|] eqn:Hst; [|done].
    apply stage_dispatch_receipt_jobs in Hst. destruct (rc_id receipt) as [rid|]; [|done].
    destruct (_release_sqlite _ _ _ _) as [[nid db2]|] eqn:Hrel; [|done]. intros [= <-].
    etrans; [by apply (same_jobs_safe db db1)|]. etrans; [|by eapply release_safe].
    eapply put_job_safe; [by rewrite Hst|]. eapply update_node_safe; [done|]. auto with engine.
  - intros Hf. eapply fail_exhausted_safe; [done | done | by rewrite Hs | exact Hf].
Qed.

Lemma registered_event_safe db receipt event db' :
  apply_registered_worker_event registry setting now env db receipt event = Ok db' ->
  db_safe db db'.
Proof.
  unfold apply_registered_worker_event. destruct (_require_accepted_receipt receipt event); [|done].
  destruct (db_jobs db).[? ev_job_id event] as [j|] eqn:Hj; [|done].
  destruct (find_node _ j) as [n|] eqn:Hn; [|done].
  destruct (bool_decide _ && _ && _) eqn:Hc; [|done].
  apply andb_prop in Hc as [Hc _]. apply andb_prop in Hc as [Hjs%bool_decide_eq_true Hs%bool_decide_eq_true].
  destruct (find_node_elem _ _ _ Hn) as [_ Hnid]. rewrite <- Hnid in Hn.
  destruct (_ =? _)%string; [by eapply registered_completion_safe | by eapply registered_failure_safe].
Qed.

(** *** Claims, recovery, cancellation *)

Lemma claim_safe db id nid w t claim db' :
  _claim_node_execution setting db id nid w t = Ok (claim, db') -> db_safe db db'.
Proof.
  unfold _claim_node_execution.
  destruct (lock_job_execution_authority _ _ _ _ _) as [[au locks]|] eqn:Hlock; [|done].
  destruct (require_active_execution_authority _ _ _) as [[]|] eqn:Hreq; [|done]. intros [= <- <-].
  apply lock_authority_job in Hlock as (Hj & Hn & _).
  apply require_active_node in Hreq as (m & Hm & Hs%list_elem_of_singleton & _).
  eapply put_job_safe; [done|]. eapply update_node_safe; [by rewrite Hn|]. auto with engine.
Qed.

Lemma claim_registered_safe db id nid reg ep w rs cg mid sha key att t claim a db' :
  claim_registered_worker_node db id nid reg ep w rs cg mid sha key att t = Ok (claim, a, db') -> db_safe db db'.
Proof.
  unfold claim_registered_worker_node. destruct (_validated_registration_identity reg ep) as [[r e]|]; [|done].
  destruct (negb _); [done|]. destruct (db_jobs db).[? id] as [j|] eqn:Hj; [|done].
  destruct (db_registrations db).[? r]; [|done].
  destruct (find_node nid j) as [n|] eqn:Hn; [|by destruct (List.filter _ _) as [|? [|]]].
  destruct (List.filter _ _) as [|? [|]]; [done | | done]. destruct (_ && _) eqn:Hc; [|done].
  injection 1 as <- <- <-. apply andb_prop in Hc as [Hc _]. apply andb_prop in Hc as [Hc _].
  apply andb_prop in Hc as [_ Hs%bool_decide_eq_true].
  eapply put_job_safe'; [done | | done]. eapply update_node_safe; [done|]. auto with engine.
Qed.

Lemma recover_one_safe id b db nid b' db' :
  recover_one now id (b, db) nid = Ok (b', db') -> db_safe db db'.
Proof.
  unfold recover_one. destruct (db_jobs db).[? id] as [j|] eqn:Hj; [|intros [= <- <-]; reflexivity].
  destruct (find_node nid j) as [n|] eqn:Hn; [|intros [= <- <-]; reflexivity].
  destruct (is_stale now j n) eqn:Hst; simpl; [|intros [= <- <-]; reflexivity].
  apply andb_prop in Hst as [Hs%bool_decide_eq_true _].
  assert (Ha : active (ne_status n) = true).
  { apply elem_of_cons in Hs as [->|Hs]; [done|]. by apply list_elem_of_singleton in Hs as ->. }
  destruct (ne_worker_registration_id n) as [r|] eqn:Hr.
  - unfold recover_registered_worker_node. rewrite Hj, Hn, Hr.
    destruct (ne_worker_lease_epoch n); [|intros [= <- <-]; reflexivity].
    destruct (match _ with Some _ => _ | None => _ end); [intros [= <- <-]; reflexivity|].
    destruct (List.filter _ _) as [|? [|]]; [|intros [= <- <-]; reflexivity | done]. intros [= <- <-].
    eapply put_job_safe; [done|]. eapply update_node_safe; [done|]. auto with engine.
  - intros [= <- <-]. eapply put_job_safe; [done|]. eapply update_node_safe; [done|]. auto with engine.
Qed.

Lemma prepare_recovery_safe db id j b db' :
  (db_jobs db).[? id] = Some j -> _prepare_job_for_recovery now db j = Ok (b, db') -> db_safe db db'.
Proof.
  intros Hj. unfold _prepare_job_for_recovery.
  destruct (foldM _ _ _) as [[c db1]|] eqn:Hf; [|done].
  apply (foldM_inv (fun st => db_safe db st.2)) in Hf; [|..|reflexivity].
  2: { intros [b1 d1] nid [b2 d2] _ H1 H2. etrans; [exact H1 | by eapply recover_one_safe]. }
  simpl in Hf. destruct (db_jobs db1).[? j_id j] as [j1|] eqn:Hj1; [|by intros [= <- <-]].
  destruct (_ && _); intros [= <- <-]; [|done]. etrans; [exact Hf|].
  eapply put_job_safe; [exact Hj1|]. by apply set_job_safe.
Qed.
End Steps.
