(* ===== verification/EngineReach.v ===== *)
(** * Every interleaving of transactions

    [step] is one committed transaction on the database: the creation of a job, a locking
    transaction of the engine or of a worker, recovery, the quarantine of a channel, the
    schedule's updates of a job, or a change of any other table.

    Two pieces of the program work on rows they have read without keeping a lock, and they
    are sessions here, open while other transactions run.  A cancellation reads the job,
    then its executions, and later writes.  A dispatch pass keeps the job in memory,
    reloads it under the lock of each node, and closes with a finalization decided in
    memory; the finalization of recovery is its last part alone.  A session may stop at
    any point.  [rtc moves] is an arbitrary history of transactions and sessions. *)

From stdpp Require Import base tactics list strings relations sorting pretty.
From Stdlib Require Import ZArith Lia.
From S2P Require Import Prelude PyStr PyValue PyJson PyTime PyUuid NodeRegistry Builtins Pipeline Graph Dag Validation JobModel WorkerModel Schedule Authority Quarantine JobService ArtifactCache WorkerEvents Retry Engine EngineInv EngineSteps.

Open Scope string_scope.
Open Scope list_scope.

Section Reach.
Context (registry : NodeTypeRegistry) (setting : string).

Inductive step (db : Db) : Db -> Prop :=
| st_environment db' : db_jobs db' = db_jobs db -> step db db'
| st_create new_uuid now pipeline pid overrides j :
    (forall a b, new_uuid a = new_uuid b -> a = b) ->
    create_job registry new_uuid now pipeline pid overrides = Ok j ->
    (db_jobs db).[? j_id j] = None -> step db (put_job j db)
| st_start_plan now id b db' : start_plan setting now db id = Ok (b, db') -> step db db'
| st_start_resolve now env id b db' :
    start_resolve setting now env db id = Ok (b, db') -> step db db'
| st_start_failed now id e : step db (start_failed setting now db id e)
| st_claim now id nid w claim db' : _claim_node_execution setting db id nid w now = Ok (claim, db') -> step db db'
| st_claim_registered now id nid reg ep w rs cg mid sha key att claim a db' :
    claim_registered_worker_node db id nid reg ep w rs cg mid sha key att now = Ok (claim, a, db') -> step db db'
| st_complete now id nid out claim db' : complete_node setting now db id nid out claim = Some db' -> step db db'
| st_completed_last now id nid claim j n db' :
    lock_claimed setting db id nid [NodeStatus.SUCCEEDED] true claim = Some (j, n) ->
    _maybe_finalize_job now j db = (true, db') -> step db db'
| st_failed now id nid error claim db' p :
    on_node_failed setting now db id nid error claim = Ok (db', p) -> step db db'
| st_registered_event now env receipt event db' :
    apply_registered_worker_event registry setting now env db receipt event = Ok db' -> step db db'
| st_recover now id j b db' :
    (db_jobs db).[? id] = Some j -> _prepare_job_for_recovery now db j = Ok (b, db') -> step db db'
| st_quarantine q channel now reason close :
    qd_db q = db -> step db (qd_db (apply_quarantine q channel now reason close))
| st_defer id j : (db_jobs db).[? id] = Some j -> step db (put_job (defer_job_until_next_window j) db)
| st_park id j : (db_jobs db).[? id] = Some j -> step db (put_job (park_job_for_window j) db)
| st_release id j : (db_jobs db).[? id] = Some j -> step db (put_job (release_job j) db).

(** ** Sessions *)

Inductive session : Type :=
| Cancel (id : uuid)                              (* the job is read *)
| CancelRead (id : uuid) (targets : list uuid)    (* and its executions *)
| Dispatch (guard : bool) (dep_map : list (string * list string)) (mem : Job) (rest : list string).

Definition Sys : Type := Db * list session.

Inductive opens (db : Db) : session -> Prop :=
| open_cancel id j : (db_jobs db).[? id] = Some j -> cancel_refused j = false -> opens db (Cancel id)
| open_launch id j db1 :
    _lock_initial_launch_authority setting db id = (Some j, db1) ->
    let dep_map := build_dependency_map (j_pipeline_snapshot j) in opens db (Dispatch true dep_map j (dkeys dep_map))
| open_completion now id nid claim j n db1 :
    lock_claimed setting db id nid [NodeStatus.SUCCEEDED] true claim = Some (j, n) ->
    _maybe_finalize_job now j db = (false, db1) ->
    opens db (Dispatch false (plan_dependencies j) j (dkeys (plan_dependencies j)))
| open_recovery id j : (db_jobs db).[? id] = Some j -> opens db (Dispatch false [] j []).

(** The next transaction of a session, and what is left of it. *)
Inductive works (db : Db) : session -> Db -> option session -> Prop :=
| work_read id j : (db_jobs db).[? id] = Some j -> works db (Cancel id) db (Some (CancelRead id (cancel_targets j)))
| work_node now env guard dep_map mem node_id rest mem' db' :
    dispatch_node registry setting now env guard dep_map mem db node_id = Ok (Continue, mem', db') ->
    works db (Dispatch guard dep_map mem (node_id :: rest)) db' (Some (Dispatch guard dep_map mem' rest))
| work_stop now env guard dep_map mem node_id rest mem' db' :
    dispatch_node registry setting now env guard dep_map mem db node_id = Ok (Stop, mem', db') ->
    works db (Dispatch guard dep_map mem (node_id :: rest)) db' None
| work_end now guard dep_map mem b db' :
    _maybe_finalize_job now mem db = (b, db') -> works db (Dispatch guard dep_map mem []) db' None
| work_abort s : works db s db None.

(** One move; the label names the job a cancellation is written to. *)
Inductive sys_step : option uuid -> Sys -> Sys -> Prop :=
| sys_transaction db db' open : step db db' -> sys_step None (db, open) (db', open)
| sys_open db s open : opens db s -> sys_step None (db, open) (db, s :: open)
| sys_work db s db' s' l1 l2 :
    works db s db' s' -> sys_step None (db, l1 ++ s :: l2) (db', l1 ++ option_list s' ++ l2)
| sys_cancel db id targets j l1 l2 :
    (db_jobs db).[? id] = Some j ->
    sys_step (Some id) (db, l1 ++ CancelRead id targets :: l2) (put_job (cancel_write targets j) db, l1 ++ l2).

Definition moves (s s' : Sys) : Prop := exists label, sys_step label s s'.

(** ** New jobs *)

Lemma created_rows new_uuid ns n :
  n ∈ imap (fun i n => new_node_execution (new_uuid (S i)) n) ns ->
  ne_status n = NodeStatus.PENDING /\ ne_retry_count n = 0%Z /\ ne_progress n = 0%Z
  /\ ne_output_artifact_id n = None.
Proof. intros (i & m & -> & _)%elem_of_lookup_imap. done. Qed.

Lemma created_ids new_uuid ns :
  (forall a b, new_uuid a = new_uuid b -> a = b) ->
  NoDup (map ne_id (imap (fun i n => new_node_execution (new_uuid (S i)) n) ns)).
Proof.
  intros Hinj. change (NoDup (ne_id <$> imap (fun i n => new_node_execution (new_uuid (S i)) n) ns)).
  rewrite fmap_imap. apply NoDup_alt. intros i k x Hi Hk.
  apply list_lookup_imap_Some in Hi as (a & _ & ->). apply list_lookup_imap_Some in Hk as (b & _ & Heq).
  simpl in Heq. apply Hinj in Heq. lia.
Qed.

Lemma create_job_inv new_uuid now pipeline pid overrides j :
  (forall a b, new_uuid a = new_uuid b -> a = b) ->
  create_job registry new_uuid now pipeline pid overrides = Ok j -> job_inv j.
Proof.
  intros Hinj. unfold create_job, _create_job_from_definition. repeat case_match; intros [= <-].
  split; simpl; try done; [by apply created_ids|]. intros n Hn. apply created_rows in Hn as (Hs & Hr & Hp & Ho).
  split; rewrite ?Hs, ?Hr, ?Hp, ?Ho; try done.
Qed.

Lemma put_new_job db j :
  (db_jobs db).[? j_id j] = None -> job_inv j -> db_safe db (put_job j db).
Proof.
  intros Hnew Hj Hdb. split.
  - intros id j'. simpl. rewrite dget_dset. case_decide as Hd; [intros [= <-]; done | apply Hdb].
  - intros id j' Hj'. simpl. rewrite dget_dset_ne by congruence. by exists j'.
Qed.

(** ** Transactions *)

Lemma quarantine_job_safe db id reason now j : safe j (quarantine_job db id reason now j).
Proof.
  unfold quarantine_job. set (f := fun n => if changes_node db id reason j n then _cancel_node now reason n else n).
  assert (Hrows : safe j (map_nodes f j)).
  { apply map_nodes_safe. intros n. unfold f. destruct (changes_node db id reason j n) eqn:Hc; [|reflexivity].
    apply andb_prop in Hc as [_ Hs%bool_decide_eq_true]. apply row_step_intro; simpl; auto; try done.
    unfold _NONTERMINAL_NODE_STATUSES in Hs. rewrite !elem_of_cons, elem_of_nil in Hs. by destruct Hs as [->|[->|[->|[]]]]. }
  destruct (changes_job db id reason j); [|exact Hrows]. etrans; [exact Hrows|]. by apply set_job_safe.
Qed.

Lemma map_jobs_safe db db' f :
  db_jobs db' = map (fun p => (p.1, f p.2)) (db_jobs db) -> (forall j, safe j (f j)) -> db_safe db db'.
Proof.
  intros Hjobs Hf Hdb.
  assert (Hget : forall id, (db_jobs db').[? id] = f <$> (db_jobs db).[? id]).
  { intros id. rewrite Hjobs. clear. induction (db_jobs db) as [|[k j] l IH]; simpl; [done|]. by case_decide. }
  split.
  - intros id j'. rewrite Hget. destruct (db_jobs db).[? id] as [j|] eqn:Hj; [|done]. intros [= <-].
    destruct (Hdb id j Hj) as [Hid Hinv]. destruct (Hf j Hinv) as [Hinv' (Hid' & _)]. split; [congruence|done].
  - intros id j Hj. rewrite Hget, Hj. eexists. split; [done|]. by apply Hf, (Hdb id).
Qed.

Lemma step_safe db db' : step db db' -> db_safe db db'.
Proof.
  destruct 1.
  - by apply same_jobs_safe.
  - apply put_new_job; [done | by eapply create_job_inv].
  - by eapply start_plan_safe.
  - by eapply start_resolve_safe.
  - apply start_failed_safe.
  - by eapply claim_safe.
  - by eapply claim_registered_safe.
  - by eapply complete_node_safe.
  - apply lock_claimed_spec in H as (Hj & _). by eapply maybe_finalize_safe.
  - by eapply on_node_failed_safe.
  - by eapply registered_event_safe.
  - by eapply prepare_recovery_safe.
  - subst db. eapply map_jobs_safe; [done|]. intros j. apply quarantine_job_safe.
  - eapply put_job_safe; [done | apply defer_safe].
  - eapply put_job_safe; [done | by apply set_job_safe].
  - eapply put_job_safe; [done | by apply set_job_safe].
Qed.

(** ** Cancellations under way *)

(** What holds between the reading and the writing of a cancellation: everything that is
    still active will be written, and nothing that has succeeded and stays so depends on
    what will be written. *)
Record cancel_ok (targets : list uuid) (j : Job) : Prop := {
  ck_active : forall n, n ∈ j_node_executions j -> active (ne_status n) = true -> ne_id n ∈ targets;
  ck_deps : forall n, n ∈ j_node_executions j -> ne_status n = NodeStatus.SUCCEEDED -> ne_node_type n <> "source" ->
    ne_id n ∉ targets -> forall d m, d ∈ job_deps j n -> (ne_by_node_id j).[? d] = Some m -> ne_id m ∉ targets }.

Lemma deps_succeeded_elem j deps d :
  deps_succeeded j deps = true -> d ∈ deps ->
  exists m, (ne_by_node_id j).[? d] = Some m /\ ne_status m = NodeStatus.SUCCEEDED.
Proof.
  unfold deps_succeeded. rewrite forallb_forall. intros Hall Hd%list_elem_of_In. specialize (Hall d Hd).
  destruct (ne_by_node_id j).[? d] as [m|]; [|done]. apply bool_decide_eq_true in Hall. eauto.
Qed.

Lemma cancel_read_ok j : job_inv j -> cancel_ok (cancel_targets j) j.
Proof.
  intros Hinv. pose proof (ji_ids j Hinv) as Hids. split.
  - intros n Hn Ha. by apply cancel_targets_spec.
  - intros n Hn Hs Hsrc _ d m Hd Hm Hin.
    destruct (deps_succeeded_elem j (job_deps j n) d) as (m' & Hm' & Hms); [|done|].
    { apply (ri_deps _ _ (ji_rows j Hinv n Hn)); [by rewrite Hs|done]. }
    rewrite Hm in Hm'. injection Hm' as <-. apply ne_by_node_id_elem in Hm as [Hm _].
    apply cancel_targets_spec in Hin; [|done..]. by rewrite Hms in Hin.
Qed.

Lemma cancel_ok_drift targets j j' : drifts j j' -> cancel_ok targets j -> cancel_ok targets j'.
Proof.
  intros (_ & Hs & HF) [Ha Hd].
  assert (Hback : forall n', n' ∈ j_node_executions j' -> exists n, n ∈ j_node_executions j /\ drift n n').
  { intros n' [i Hi]%list_elem_of_lookup. destruct (Forall2_lookup_r _ _ _ _ _ HF Hi) as (n & Hn & Hdr).
    exists n. split; [by eapply list_elem_of_lookup_2|done]. }
  split.
  - intros n' (n & Hn & Hdr)%Hback Hact. destruct (active (ne_status n)) eqn:Hn_a.
    + destruct Hdr as [(-> & _) _]. by apply Ha.
    + by rewrite (drift_inactive n n') in Hact.
  - intros n' (n & Hn & Hdr)%Hback Hst Hsrc Hout d m' Hdm Hm'. pose proof Hdr as [(Hid & Hnid & Hty) Hfin].
    rewrite Hid in Hout. rewrite Hty in Hsrc.
    assert (Hina : active (ne_status n) = false) by (destruct (active (ne_status n)) eqn:E; [|done]; by destruct Hout; apply Ha).
    assert (ne_status n = NodeStatus.SUCCEEDED) as Hns.
    { destruct (Hfin Hina) as [_ [He|He]]; congruence. }
    assert (Ho : option_Forall2 (fun a b => same_row a b /\ drift a b) (ne_by_node_id j).[? d] (ne_by_node_id j').[? d]).
    { apply ne_by_node_id_Forall2. eapply Forall2_impl; [exact HF|]. intros a b Hab. split; [apply Hab|done]. }
    rewrite Hm' in Ho. inversion Ho as [m ? [(Hmid & _) _] Hm|]; subst. rewrite Hmid.
    apply (Hd n Hn Hns Hsrc Hout d); [|done]. unfold job_deps in *. by rewrite <- Hs, <- Hnid.
Qed.

(** Writing a cancellation keeps the job consistent. *)
Lemma cancel_write_ok targets j :
  job_inv j -> cancel_ok targets j -> job_inv (cancel_write targets j) /\ drifts j (cancel_write targets j).
Proof.
  intros [Hids Hrows Hplan _ _] [Ha Hd].
  assert (HF : Forall2 drift (j_node_executions j) (j_node_executions (cancel_write targets j))).
  { apply Forall2_map_self. intros n. unfold cancel_row. case_bool_decide; [|reflexivity]. split; [done|]. simpl. auto. }
  split; [|by split_and!]. split; simpl; try done.
  - rewrite map_map. erewrite map_ext; [exact Hids|]. intros n. unfold cancel_row. by case_bool_decide.
  - intros n' (n & -> & Hn)%list_elem_of_fmap. pose proof (Hrows n Hn) as [Hdeps Hout Hprod Hretry Hprog].
    unfold cancel_row. case_bool_decide as Hin; split; try done; simpl.
    + intros _. right. by left.
    + intros Hl Hsrc. apply forallb_forall. intros d Hd'%list_elem_of_In.
      assert (Hs : ne_status n = NodeStatus.SUCCEEDED).
      { destruct (ne_status n) eqn:E; try done; destruct Hin; apply Ha; by rewrite ?E. }
      destruct (deps_succeeded_elem j (job_deps j n) d (Hdeps Hl Hsrc) Hd') as (m & Hm & Hms).
      assert (Ho : option_Forall2 (fun a b => same_row a b /\ b = cancel_row targets a)
                     (ne_by_node_id j).[? d] (ne_by_node_id (cancel_write targets j)).[? d]).
      { apply ne_by_node_id_Forall2, Forall2_map_self. intros a. split; [|done]. unfold cancel_row. by case_bool_decide. }
      rewrite Hm in Ho. inversion Ho as [m0 m' Hmm Hm0 Hm'|]; subst. destruct Hmm as [_ ->].
      unfold cancel_row. rewrite bool_decide_eq_false_2; [by apply bool_decide_eq_true|]. by eapply Hd.
  - by destruct (j_execution_plan j).
Qed.

(** ** Histories *)

Definition session_ok (db : Db) (s : session) : Prop :=
  match s with
  | Cancel _ => True
  | CancelRead id targets => exists j, (db_jobs db).[? id] = Some j /\ cancel_ok targets j
  | Dispatch _ _ mem _ => mem_ok mem db
  end.

Definition sys_inv (s : Sys) : Prop := db_inv s.1 /\ Forall (session_ok s.1) s.2.

Lemma session_drift db db' s : db_drifts db db' -> session_ok db s -> session_ok db' s.
Proof.
  intros Hd. destruct s as [id|id targets|g dm mem rest]; simpl; [done| |by apply mem_drift].
  intros (j & Hj & Hok). destruct (Hd id j Hj) as (j' & Hj' & Hdr). exists j'. split; [done|]. by eapply cancel_ok_drift.
Qed.

Lemma sessions_drift db db' l : db_drifts db db' -> Forall (session_ok db) l -> Forall (session_ok db') l.
Proof. intros Hd Hl. eapply Forall_impl; [exact Hl|]. intros s. by apply session_drift. Qed.

Lemma opens_ok db s : db_inv db -> opens db s -> session_ok db s.
Proof.
  intros Hdb []; simpl; [done| | |by eapply mem_row].
  - pose proof (lock_initial_spec setting db id) as Hl. rewrite H in Hl. destruct Hl as (_ & Hj & _). by eapply mem_row.
  - apply lock_claimed_spec in H as (Hj & _). by eapply mem_row.
Qed.

Lemma works_ok db s db' s' :
  db_inv db -> session_ok db s -> works db s db' s' ->
  (db_inv db' /\ db_evolves db db') /\ Forall (session_ok db') (option_list s').
Proof.
  intros Hdb Hs Hw. destruct Hw as [id j Hj|now env g dm mem x rest mem' db' Hd|now env g dm mem x rest mem' db' Hd|now g dm mem b db' Hf|s].
  - split; [by split|]. constructor; [|done]. exists j. split; [done|]. by apply cancel_read_ok, (Hdb id).
  - apply dispatch_node_ok in Hd. destruct (Hd Hdb Hs) as (? & _ & ?). split; [done|]. by constructor.
  - apply dispatch_node_ok in Hd. by destruct (Hd Hdb Hs) as (? & _ & _).
  - split; [|done]. by eapply maybe_finalize_ok.
  - by split.
Qed.

(** A move keeps the invariant; a job only moves forward, unless a cancellation is written
    to it. *)
Lemma move_ok label s s' :
  sys_step label s s' -> sys_inv s -> sys_inv s' /\ db_drifts s.1 s'.1 /\ (label = None -> db_evolves s.1 s'.1).
Proof.
  intros Hst [Hdb Hopen]. destruct Hst as [db db' open Hs|db se open Ho|db se db' se' l1 l2 Hw|db id targets j l1 l2 Hj];
    unfold sys_inv; simpl in *.
  - destruct (step_safe db db' Hs Hdb) as [Hdb' He]. pose proof (db_evolves_drifts _ _ He).
    split_and!; [done|by eapply sessions_drift|done|done].
  - split_and!; [done| |by apply db_evolves_drifts|done]. constructor; [by apply opens_ok|done].
  - apply Forall_app in Hopen as [H1 [Hse H2]%Forall_cons]. destruct (works_ok db se db' se' Hdb Hse Hw) as ([Hdb' He] & Hse').
    pose proof (db_evolves_drifts _ _ He). split_and!; [done| |done|done].
    rewrite !Forall_app. split_and!; [by eapply sessions_drift|done|by eapply sessions_drift].
  - apply Forall_app in Hopen as [H1 [(j0 & Hj0 & Hck) H2]%Forall_cons]. rewrite Hj in Hj0. injection Hj0 as <-.
    destruct (Hdb id j Hj) as [Hid Hinv]. destruct (cancel_write_ok targets j Hinv Hck) as [Hinv' Hdr].
    assert (Hdrifts : db_drifts db (put_job (cancel_write targets j) db)).
    { intros id0 j0 Hj0. simpl. rewrite dget_dset. case_decide as Hd; [|exists j0; split; [done|reflexivity]].
      eexists. split; [done|]. assert (id0 = id) as -> by congruence. congruence. }
    split_and!; [| |done|done].
    + intros id0 j0. simpl. rewrite dget_dset. case_decide as Hd; [|apply Hdb]. intros [= <-]. done.
    + rewrite Forall_app. split; by eapply sessions_drift.
Qed.

Lemma moves_ok s s' : rtc moves s s' -> sys_inv s -> sys_inv s' /\ db_drifts s.1 s'.1.
Proof.
  induction 1 as [s|s s1 s' [label Hst] _ IH]; intros Hs; [split; [done|by apply db_evolves_drifts]|].
  destruct (move_ok label s s1 Hst Hs) as (Hs1 & Hd & _). destruct (IH Hs1) as [Hs' Hd']. split; [done|].
  intros id j (j1 & Hj1 & Hdr)%Hd. destruct (Hd' id j1 Hj1) as (j' & Hj' & Hdr'). exists j'. split; [done|by etrans].
Qed.

Lemma empty_inv db : db_jobs db = [] -> sys_inv (db, []).
Proof. intros H0. split; [intros id j; simpl; by rewrite H0|done]. Qed.

Lemma reachable_inv db0 db open id j :
  db_jobs db0 = [] -> rtc moves (db0, []) (db, open) -> (db_jobs db).[? id] = Some j -> job_inv j.
Proof. intros H0 Hst Hj. destruct (moves_ok _ _ Hst (empty_inv db0 H0)) as [[Hinv _] _]. by apply (Hinv id j Hj). Qed.

(** ** Frozen rows *)







(** ** Handlers on their own

    A handler of the engine that nothing interferes with is one of the histories. *)

Lemma moves_once label s s' s'' : sys_step label s s' -> rtc moves s' s'' -> rtc moves s s''.
Proof. intros H1 H2. eapply rtc_l; [by exists label|done]. Qed.

Lemma transaction_moves db db' open : step db db' -> rtc moves (db, open) (db', open).
Proof. intros Hs. eapply moves_once; [by apply sys_transaction|apply rtc_refl]. Qed.

Lemma work_moves db s db' s' open s'' :
  works db s db' s' -> rtc moves (db', option_list s' ++ open) s'' -> rtc moves (db, s :: open) s''.
Proof. intros Hw Hr. eapply moves_once; [|exact Hr]. by apply (sys_work db s db' s' []). Qed.

Lemma pass_moves now env guard dm ids mem db mem' db' r open :
  dispatch_pass registry setting now env guard dm ids mem db = (mem', db', r) ->
  rtc moves (db, Dispatch guard dm mem ids :: open)
    (db', match r with Ok Continue => [Dispatch guard dm mem' []] | _ => [] end ++ open).
Proof.
  revert mem db. induction ids as [|x ids IH]; intros mem db; simpl; [intros [= <- <- <-]; apply rtc_refl|].
  destruct (dispatch_node _ _ _ _ _ _ _ _ _) as [[[[] mem1] db1]|] eqn:Hd.
  - intros Hp%IH. eapply work_moves; [by eapply work_node|exact Hp].
  - intros [= <- <- <-]. eapply work_moves; [by eapply work_stop|apply rtc_refl].
  - intros [= <- <- <-]. eapply work_moves; [apply work_abort|apply rtc_refl].
Qed.

Lemma ready_moves now env guard dm j db db' r open :
  opens db (Dispatch guard dm j (dkeys dm)) ->
  _dispatch_ready_nodes registry setting now env guard dm j db = (db', r) -> rtc moves (db, open) (db', open).
Proof.
  intros Ho. unfold _dispatch_ready_nodes. case_bool_decide; [intros [= <- <-]; apply rtc_refl|].
  destruct (dispatch_pass _ _ _ _ _ _ _ _ _) as [[mem db1] r1] eqn:Hp. apply (pass_moves _ _ _ _ _ _ _ _ _ _ open) in Hp.
  intros Hok. eapply moves_once; [by apply sys_open|]. etrans; [exact Hp|].
  destruct r1 as [[]|]; injection Hok as <- <-; [|apply rtc_refl..].
  destruct (_maybe_finalize_job now mem db1) as [b db2] eqn:Hf. eapply work_moves; [by eapply work_end|apply rtc_refl].
Qed.

Lemma lock_initial_moves db id db' open :
  _lock_initial_launch_authority setting db id = (None, db') -> rtc moves (db, open) (db', open).
Proof.
  unfold _lock_initial_launch_authority.
  destruct (lock_job_execution_authority _ _ _ _ _) as [[au locks]|] eqn:Hlock; [|intros [= <-]; apply rtc_refl].
  assert (Hj : (db_jobs db).[? id] = Some (au_job au)).
  { unfold lock_job_execution_authority in Hlock. by repeat case_match; simplify_eq. }
  repeat (case_match; [intros [= <-]; (apply rtc_refl || by eapply transaction_moves, st_defer)|]). done.
Qed.

Lemma start_dispatch_moves now env db id db' r open :
  start_dispatch registry setting now env db id = (db', r) -> rtc moves (db, open) (db', open).
Proof.
  unfold start_dispatch. destruct (_lock_initial_launch_authority setting db id) as [[j|] db1] eqn:Hl;
    [|intros [= <- <-]; by eapply lock_initial_moves].
  pose proof (lock_initial_spec setting db id) as Hs. rewrite Hl in Hs. destruct Hs as (-> & _).
  apply ready_moves. by eapply open_launch.
Qed.

Lemma start_job_moves now env db id open : rtc moves (db, open) (start_job registry setting now env db id, open).
Proof.
  unfold start_job.
  destruct (start_plan _ _ _ _) as [[b db1]|] eqn:H1; [|apply transaction_moves, st_start_failed].
  etrans; [by eapply transaction_moves, st_start_plan|]. destruct b; [|apply rtc_refl].
  destruct (start_resolve _ _ _ _ _) as [[b db2]|] eqn:H2; [|apply transaction_moves, st_start_failed].
  etrans; [by eapply transaction_moves, st_start_resolve|]. destruct b; [|apply rtc_refl].
  destruct (start_dispatch _ _ _ _ _ _) as [db3 r] eqn:H3. etrans; [by eapply start_dispatch_moves|].
  destruct r; [apply rtc_refl|apply transaction_moves, st_start_failed].
Qed.

Lemma on_node_completed_moves now env db id nid out claim db' r open :
  on_node_completed registry setting now env db id nid out claim = (db', r) -> rtc moves (db, open) (db', open).
Proof.
  unfold on_node_completed. destruct (_require_receipt_entrypoint_for_registered_claim claim); [|intros [= <- <-]; apply rtc_refl].
  destruct (complete_node _ _ _ _ _ _ _) as [db1|] eqn:Hc; [|intros [= <- <-]; apply rtc_refl].
  intros Ha. etrans; [by eapply transaction_moves, st_complete|]. etrans.
  { apply (transaction_moves _ (cache_completed now env db1 id nid)), st_environment. unfold cache_completed.
    repeat case_match; try reflexivity. by eapply write_cache_tables. }
  unfold after_completion in Ha. destruct (lock_claimed _ _ _ _ _ _ _) as [[j n]|] eqn:Hl; [|injection Ha as <- <-; apply rtc_refl].
  destruct (_maybe_finalize_job now j _) as [[] db2] eqn:Hf.
  - injection Ha as <- <-. by eapply transaction_moves, st_completed_last.
  - eapply ready_moves; [|exact Ha]. by eapply open_completion.
Qed.
End Reach.

(** ** Theorems *)

(** C1.  In every history, a node other than a source that has been queued, runs or
    has succeeded has all its dependencies done: each one has a succeeded execution
    with an output artifact. *)
Theorem launch_respects_dependencies registry setting db0 db open id j n d :
  db_jobs db0 = [] -> rtc (moves registry setting) (db0, []) (db, open) -> (db_jobs db).[? id] = Some j ->
  n ∈ j_node_executions j -> launched (ne_status n) = true -> ne_node_type n <> "source" ->
  d ∈ dget_or (build_dependency_map (j_pipeline_snapshot j)) (ne_node_id n) [] ->
  exists m, m ∈ j_node_executions j /\ ne_node_id m = d /\ ne_status m = NodeStatus.SUCCEEDED
    /\ is_Some (ne_output_artifact_id m).
Proof.
  intros H0 Hst Hj Hn Hl Hsrc Hd. pose proof (reachable_inv registry setting db0 db open id j H0 Hst Hj) as Hinv.
  destruct (deps_succeeded_elem j _ d (ri_deps _ _ (ji_rows j Hinv n Hn) Hl Hsrc) Hd) as (m & Hm & Hs).
  apply ne_by_node_id_elem in Hm as [Hin Hid]. exists m. split_and!; try done.
  by apply (ri_output _ _ (ji_rows j Hinv m Hin)).
Qed.


(** C16.  In every history, every execution of a job marked succeeded has its output and is
    marked succeeded, unless a cancellation has overwritten the mark; a job marked partially
    failed has no unfinished execution, and the executions of its leaf nodes, at least one,
    have their output and are marked succeeded with the same exception. *)
Theorem job_outcome_meaning registry setting db0 db open id j :
  db_jobs db0 = [] -> rtc (moves registry setting) (db0, []) (db, open) -> (db_jobs db).[? id] = Some j ->
  (j_status j = JobStatus.SUCCEEDED ->
     Forall (fun n => is_Some (ne_output_artifact_id n)
                      /\ (ne_status n = NodeStatus.SUCCEEDED \/ ne_status n = NodeStatus.CANCELLED)) (j_node_executions j))
  /\ (j_status j = JobStatus.PARTIALLY_FAILED ->
        Forall (fun n => active (ne_status n) = false) (j_node_executions j)
        /\ Forall (fun n => is_Some (ne_output_artifact_id n)
                      /\ (ne_status n = NodeStatus.SUCCEEDED \/ ne_status n = NodeStatus.CANCELLED)) (leaf_executions j)
        /\ leaf_executions j <> [])
  /\ Forall (fun n => is_Some (ne_output_artifact_id n) ->
              ne_status n = NodeStatus.SUCCEEDED \/ ne_status n = NodeStatus.CANCELLED) (j_node_executions j).
Proof.
  intros H0 Hst Hj. pose proof (reachable_inv registry setting db0 db open id j H0 Hst Hj) as Hinv.
  assert (Hd : forall s, s ∈ [NodeStatus.SUCCEEDED; NodeStatus.CANCELLED] -> s = NodeStatus.SUCCEEDED \/ s = NodeStatus.CANCELLED)
    by (intros s; rewrite !elem_of_cons, elem_of_nil; tauto).
  assert (Hl : forall l, Forall delivered l -> Forall (fun n => is_Some (ne_output_artifact_id n)
    /\ (ne_status n = NodeStatus.SUCCEEDED \/ ne_status n = NodeStatus.CANCELLED)) l).
  { intros l Hall. eapply Forall_impl; [exact Hall|]. intros n [Ho Hs]. auto. }
  split_and!.
  - intros Hs. apply Hl, (ji_succeeded j Hinv Hs).
  - intros Hs. destruct (ji_partial j Hinv Hs) as (Ha & Hlf & Hne). auto.
  - apply Forall_forall. intros n Hn Ho. by apply Hd, (ri_produced _ _ (ji_rows j Hinv n Hn)).
Qed.

(**  In every history a node execution is retried at most once, its progress
    stays a percentage, and row keys stay distinct. *)
Theorem retry_at_most_once registry setting db0 db open id j :
  db_jobs db0 = [] -> rtc (moves registry setting) (db0, []) (db, open) -> (db_jobs db).[? id] = Some j ->
  NoDup (map ne_id (j_node_executions j))
  /\ Forall (fun n => (0 <= ne_retry_count n <= 1)%Z /\ (0 <= ne_progress n <= 100)%Z) (j_node_executions j).
Proof.
  intros H0 Hst Hj. pose proof (reachable_inv registry setting db0 db open id j H0 Hst Hj) as Hinv.
  split; [apply Hinv|]. apply Forall_forall. intros n Hn. by destruct (ji_rows j Hinv n Hn).
Qed.

(** ** A sample history: create, plan, resolve the source, dispatch *)

Definition asset_key : uuid := "00000000-0000-0000-0000-0000000000a1".

Definition empty_db : Db :=
  {| db_tasks := []; db_channels := []; db_schedule := None; db_jobs := []; db_workers := no_workers;
     db_artifacts := []; db_cache := [];
     db_assets := [(asset_key, {| as_id := asset_key; as_filename := "a.mp4"; as_original_name := "cat.mp4";
                                  as_mime_type := None; as_file_size := Some 10%Z; as_storage_backend := "local";
                                  as_storage_path := "/a.mp4"; as_media_info := [] |})] |}.

(** Keys named after what they are drawn for, the identity as a digest. *)
Definition sample_env : Env :=
  {| fresh := fun purpose owner => purpose +:+ "-" +:+ owner; sha256 := fun s => s |}.

Definition run_overrides : config := [("asset_id", VStr asset_key); ("t.end_time", VStr "5")].

Definition run_job : Job :=
  ok_or (waiting_job "b" NodeStatus.PENDING JobStatus.PENDING)
    (create_job builtin_registry index_uuid 7 (Some sample_runtime) "p" (Some run_overrides)).

Definition run1 : Db := put_job run_job empty_db.
Definition run2 : Db := (ok_or (false, empty_db) (start_plan "" 10 run1 "u0")).2.
Definition run3 : Db := (ok_or (false, empty_db) (start_resolve "" 11 sample_env run2 "u0")).2.
Definition run4 : Db := (start_dispatch builtin_registry "" 12 sample_env run3 "u0").1.

Definition run4_job : Job := default run_job (db_jobs run4).[? "u0"].

Lemma index_uuid_inj a b : index_uuid a = index_uuid b -> a = b.
Proof. unfold index_uuid, str_of_Z. intros [= Heq]. by apply Nat2Z.inj, (inj pretty). Qed.

Lemma run_steps open : rtc (moves builtin_registry "") (empty_db, open) (run4, open).
Proof.
  etrans; [apply (transaction_moves _ _ _ run1), (st_create _ _ _ index_uuid 7 (Some sample_runtime) "p" (Some run_overrides))|].
  { apply index_uuid_inj. }
  { vm_compute. reflexivity. }
  { reflexivity. }
  etrans; [apply (transaction_moves _ _ _ run2), (st_start_plan _ _ _ 10 "u0" true); vm_compute; reflexivity|].
  etrans; [apply (transaction_moves _ _ _ run3), (st_start_resolve _ _ _ 11 sample_env "u0" true); vm_compute; reflexivity|].
  eapply (start_dispatch_moves _ _ 12 sample_env _ "u0"). vm_compute. reflexivity.
Qed.

Lemma launch_respects_dependencies_witness :
  map ne_status (j_node_executions run4_job) = [NodeStatus.SUCCEEDED; NodeStatus.QUEUED; NodeStatus.PENDING]
  /\ exists m, m ∈ j_node_executions run4_job /\ ne_node_id m = "s" /\ ne_status m = NodeStatus.SUCCEEDED
       /\ is_Some (ne_output_artifact_id m).
Proof.
  split; [vm_compute; reflexivity|].
  apply (launch_respects_dependencies builtin_registry "" empty_db run4 [] "u0" run4_job
           (nth 1 (j_node_executions run4_job) (new_node_execution "" (sample_node "" "" []))) "s").
  - reflexivity.
  - apply run_steps.
  - vm_compute. reflexivity.
  - vm_compute. right. left.
  - vm_compute. reflexivity.
  - vm_compute. discriminate.
  - vm_compute. left.
Defined.

(** The rest of the run: both nodes are claimed and completed in turn. *)

Definition worker_claim (nid : uuid) (t : datetime) : NodeExecutionClaim :=
  {| cl_job_id := "u0"; cl_node_execution_id := nid; cl_worker_id := "worker@host:1"; cl_started_at := t;
     cl_worker_registration_id := None; cl_worker_lease_epoch := None |}.

Definition claim_or (db : Db) (nid : uuid) (t : datetime) : Db :=
  (ok_or (worker_claim nid t, empty_db) (_claim_node_execution "" db "u0" nid "worker@host:1" t)).2.

Definition complete_or (db : Db) (nid : uuid) (t : datetime) : Db :=
  (on_node_completed builtin_registry "" t sample_env db "u0" nid ("out-" +:+ nid) (worker_claim nid (t - 1))).1.

Definition done1 : Db := claim_or run4 "u2" 20.
Definition done2 : Db := complete_or done1 "u2" 21.
Definition done3 : Db := claim_or done2 "u3" 30.
Definition done4 : Db := complete_or done3 "u3" 31.
Definition job_of (db : Db) : Job := default run_job (db_jobs db).[? "u0"].

Lemma done3_steps open : rtc (moves builtin_registry "") (empty_db, open) (done3, open).
Proof.
  etrans; [apply run_steps|].
  etrans; [eapply (transaction_moves _ _ _ done1), (st_claim _ _ _ 20 "u0" "u2" "worker@host:1"); vm_compute; reflexivity|].
  etrans; [eapply (on_node_completed_moves _ _ 21 sample_env done1 "u0" "u2" "out-u2" (worker_claim "u2" 20) done2); vm_compute; reflexivity|].
  eapply (transaction_moves _ _ _ done3), (st_claim _ _ _ 30 "u0" "u3" "worker@host:1"). vm_compute. reflexivity.
Qed.

Lemma last_steps open : rtc (moves builtin_registry "") (done3, open) (done4, open).
Proof. eapply (on_node_completed_moves _ _ 31 sample_env done3 "u0" "u3" "out-u3" (worker_claim "u3" 30)). vm_compute. reflexivity. Qed.

Lemma job_outcome_meaning_witness :
  Forall (fun n => is_Some (ne_output_artifact_id n)
    /\ (ne_status n = NodeStatus.SUCCEEDED \/ ne_status n = NodeStatus.CANCELLED)) (j_node_executions (job_of done4)).
Proof.
  apply (job_outcome_meaning builtin_registry "" empty_db done4 [] "u0" (job_of done4)).
  - reflexivity.
  - etrans; [apply done3_steps|apply last_steps].
  - vm_compute. reflexivity.
  - vm_compute. reflexivity.
Defined.

Lemma retry_at_most_once_witness : NoDup (map ne_id (j_node_executions run4_job)).
Proof.
  apply (retry_at_most_once builtin_registry "" empty_db run4 [] "u0" run4_job).
  - reflexivity.
  - apply run_steps.
  - vm_compute. reflexivity.
Defined.

(** A request to cancel the run reads while the last node runs and is written after the job
    has succeeded: the success is lost. *)
Definition late : list session := [CancelRead "u0" ["u3"]].
Definition done5 : Db := put_job (cancel_write ["u3"] (job_of done4)) done4.

Lemma late_read : rtc (moves builtin_registry "") (empty_db, []) (done3, late).
Proof.
  etrans; [apply done3_steps|]. eapply moves_once; [apply (sys_open _ _ done3 (Cancel "u0") [])|].
  { apply (open_cancel _ _ "u0" (job_of done3)); vm_compute; reflexivity. }
  eapply work_moves; [apply (work_read _ _ done3 "u0" (job_of done3)); vm_compute; reflexivity|]. apply rtc_refl.
Qed.

Lemma late_written : rtc (moves builtin_registry "") (done4, late) (done5, []).
Proof. eapply moves_once; [|apply rtc_refl]. apply (sys_cancel _ _ done4 "u0" ["u3"] (job_of done4) [] []). vm_compute. reflexivity. Qed.


(**  The lost update, in a history of the system: a job that has succeeded, with all its
    outputs, ends up cancelled with its last node. *)
Theorem late_cancellation_overwrites_success :
  rtc (moves builtin_registry "") (empty_db, []) (done4, late) /\ rtc (moves builtin_registry "") (done4, late) (done5, [])
  /\ (j_status (job_of done4), map ne_status (j_node_executions (job_of done4)))
     = (JobStatus.SUCCEEDED, [NodeStatus.SUCCEEDED; NodeStatus.SUCCEEDED; NodeStatus.SUCCEEDED])
  /\ (j_status (job_of done5), map ne_status (j_node_executions (job_of done5)))
     = (JobStatus.CANCELLED, [NodeStatus.SUCCEEDED; NodeStatus.SUCCEEDED; NodeStatus.CANCELLED]).
Proof.
  split_and!; [etrans; [apply late_read|apply last_steps]|apply late_written|vm_compute; reflexivity..].
Qed.
