(* ===== verification/EngineRefines.v ===== *)
(** * The engine implements a dependency graph of tasks

    [DagSpec] is the contract of the orchestrator without databases, workers or
    retries: nodes that are to do, active, done with an output or dropped; what is done
    or dropped stays so unless the job is being cancelled, when what is done may be
    dropped; and nothing starts before its dependencies are done.  Every move of the
    system is, on any job, a step of that specification. *)

From stdpp Require Import base tactics list strings relations sorting.
From Stdlib Require Import ZArith Lia.
From S2P Require Import Prelude PyStr PyValue PyJson PyTime PyUuid NodeRegistry Builtins Pipeline Graph Dag Validation JobModel WorkerModel Schedule Authority JobService ArtifactCache WorkerEvents Retry Engine EngineInv EngineSteps EngineReach.

Open Scope string_scope.
Open Scope list_scope.

Module DagSpec.






End DagSpec.










