(* ===== verification/EngineSkip.v ===== *)
(** * Skipping below a failure, and final classification

    [_skip_downstream] visits exactly the transitive dependents of the failed node;
    [final_status] decides a job exactly when no node is active. *)

From stdpp Require Import base tactics list strings relations sorting.
From Stdlib Require Import ZArith Lia.
From S2P Require Import Prelude PyStr PyValue PyJson PyTime PyUuid NodeRegistry Pipeline Graph JobModel WorkerModel Schedule Authority ArtifactCache WorkerEvents Retry Engine EngineInv.

Open Scope string_scope.
Open Scope list_scope.

(** [n] lists [d] among its dependencies. *)
Definition depends (dm : list (string * list string)) (d n : string) : Prop :=
  exists deps, (n, deps) ∈ dm /\ d ∈ deps.

(** ** The reverse map *)

Definition rev_edge (p : string * list string) (acc : list (string * list string)) : list (string * list string) :=
  fold_left (fun acc dep => acc.[dep <- dget_or acc dep [] ++ [p.1]]) p.2 acc.

Lemma rev_edge_elem p acc d n :
  n ∈ dget_or (rev_edge p acc) d [] <-> n ∈ dget_or acc d [] \/ (n = p.1 /\ d ∈ p.2).
Proof.
  unfold rev_edge. destruct p as [m deps]. simpl. revert acc.
  induction deps as [|dep deps IH]; intros acc; simpl; [set_solver|].
  rewrite IH. unfold dget_or at 1. rewrite dget_dset. rewrite elem_of_cons.
  destruct (decide (dep = d)) as [->|Hne].
  - simpl. rewrite elem_of_app, list_elem_of_singleton. tauto.
  - fold (dget_or acc d []). split; [tauto|]. intros [?|[? [?|?]]]; [tauto | congruence | tauto].
Qed.

Lemma downstream_map_spec dm d n :
  n ∈ dget_or (downstream_map dm) d [] <-> depends dm d n.
Proof.
  unfold downstream_map. change (fold_left _ dm []) with (fold_left (fun acc p => rev_edge p acc) dm []).
  unfold depends. induction dm as [|[m deps] dm IH] using rev_ind.
  - split; [unfold dget_or; simpl; set_solver | intros (deps & Hin & _); set_solver].
  - rewrite fold_left_app. simpl. rewrite rev_edge_elem, IH. simpl. setoid_rewrite elem_of_app.
    setoid_rewrite list_elem_of_singleton. split.
    + intros [(deps' & ? & ?)|[-> ?]]; eauto.
    + intros (deps' & [?|[= <- <-]] & ?); eauto.
Qed.

(** ** Fuel *)

(** Number of reverse edges out of nodes not yet visited. *)
Definition weight (V : list string) (D : list (string * list string)) : nat :=
  sum_list_with (fun p => if bool_decide (p.1 ∈ V) then 0 else length p.2) D.

Lemma weight_cons V k s D :
  weight V ((k, s) :: D) = (if bool_decide (k ∈ V) then 0 else length s) + weight V D.
Proof. done. Qed.

Lemma dget_or_cons k s (D : list (string * list string)) d :
  dget_or ((k, s) :: D) d [] = if decide (d = k) then s else dget_or D d [].
Proof. unfold dget_or. simpl. by case_decide. Qed.

Lemma weight_visit V D nid :
  NoDup (dkeys D) -> nid ∉ V -> weight (V ++ [nid]) D + length (dget_or D nid []) = weight V D.
Proof.
  intros Hnd HV. induction D as [|[k s] D IH]; [done|].
  simpl in Hnd. apply NoDup_cons in Hnd as [Hk Hnd]. specialize (IH Hnd).
  rewrite !weight_cons, dget_or_cons. destruct (decide (nid = k)) as [->|Hne].
  - rewrite (bool_decide_true (k ∈ V ++ [k])), (bool_decide_false (k ∈ V)) by set_solver.
    assert (Hnone : D.[? k] = None) by (by apply dget_None_dkeys).
    unfold dget_or in IH. rewrite Hnone in IH. simpl in IH. lia.
  - rewrite (bool_decide_ext (k ∈ V ++ [nid]) (k ∈ V)) by set_solver. lia.
Qed.

Lemma weight_append D d n : weight [] D.[d <- dget_or D d [] ++ [n]] = S (weight [] D).
Proof.
  induction D as [|[k s] D IH]; [done|]. rewrite dget_or_cons. simpl.
  destruct (decide (d = k)) as [->|Hne]; rewrite !weight_cons, ?IH, ?length_app;
    rewrite bool_decide_false by set_solver; simpl; lia.
Qed.

Lemma downstream_weight dm : weight [] (downstream_map dm) = length (concat (map snd dm)).
Proof.
  unfold downstream_map. change (fold_left _ dm []) with (fold_left (fun acc p => rev_edge p acc) dm []).
  assert (Hstep : forall p acc, weight [] (rev_edge p acc) = weight [] acc + length p.2).
  { intros [m deps]. unfold rev_edge. simpl. induction deps as [|dep deps IH]; intros acc; simpl; [lia|].
    rewrite IH, weight_append. lia. }
  induction dm as [|p dm IH] using rev_ind; [done|].
  rewrite fold_left_app, map_app, concat_app, length_app. simpl. rewrite Hstep, IH, app_nil_r. lia.
Qed.

Lemma downstream_NoDup dm : NoDup (dkeys (downstream_map dm)).
Proof.
  unfold downstream_map. change (fold_left _ dm []) with (fold_left (fun acc p => rev_edge p acc) dm []).
  assert (Hstep : forall p acc, NoDup (dkeys acc) -> NoDup (dkeys (rev_edge p acc))).
  { intros [m deps]. unfold rev_edge. simpl. induction deps as [|dep deps IH]; intros acc Hacc; simpl; [done|].
    apply IH. by apply NoDup_dkeys_dset. }
  induction dm as [|p dm IH] using rev_ind; [apply NoDup_nil_2|]. rewrite fold_left_app. by apply Hstep.
Qed.

Lemma dget_or_weight D d : NoDup (dkeys D) -> length (dget_or D d []) <= weight [] D.
Proof. intros Hnd. rewrite <- (weight_visit [] D d Hnd); [lia | set_solver]. Qed.

(** ** The traversal *)

Section Bfs.
Context (D : list (string * list string)) (f : string).
Let succ (x : string) : list string := dget_or D x [].
Let R (x y : string) : Prop := y ∈ succ x.

Record bfs_inv (Q V : list string) : Prop := {
  bi_reach : forall x, x ∈ V \/ x ∈ Q -> tc R f x;
  bi_closed : forall v x, v = f \/ v ∈ V -> R v x -> x ∈ V \/ x ∈ Q;
  bi_nodup : NoDup V }.

Lemma bfs_expand nid Q V :
  nid ∉ V -> bfs_inv (nid :: Q) V -> bfs_inv (Q ++ succ nid) (V ++ [nid]).
Proof.
  intros Hn [Hr Hc Hnd]. split.
  - intros x. rewrite !elem_of_app, list_elem_of_singleton. intros [[?| ->]|[?|Hx]].
    1-3: apply Hr; set_solver.
    eapply tc_r with nid; [apply Hr; set_solver | exact Hx].
  - intros v x Hv Hx. rewrite !elem_of_app, list_elem_of_singleton in *.
    destruct Hv as [->|[Hv| ->]]; [| |auto].
    + destruct (Hc f x) as [?|Hq]; [by left | done | set_solver | set_solver].
    + destruct (Hc v x) as [?|Hq]; [by right | done | set_solver | set_solver].
  - apply NoDup_app. split_and!; [done | set_solver | apply NoDup_singleton].
Qed.

Lemma bfs_drop nid Q V : nid ∈ V -> bfs_inv (nid :: Q) V -> bfs_inv Q V.
Proof.
  intros Hn [Hr Hc Hnd]. split; [set_solver | | done].
  intros v x Hv Hx. destruct (Hc v x Hv Hx) as [?|Hq]; set_solver.
Qed.

Lemma skip_bfs_spec fuel Q V :
  NoDup (dkeys D) -> bfs_inv Q V -> length Q + weight V D <= fuel ->
  exists V', skip_bfs fuel D Q V = Ok V' /\ bfs_inv [] V'.
Proof.
  intros HD. revert Q V. induction fuel as [|fuel IH]; intros [|nid Q] V Hinv Hf; simpl in *;
    [eauto | lia | eauto |].
  case_bool_decide as Hv; [apply IH; [by eapply bfs_drop | lia]|].
  apply IH; [by apply bfs_expand|]. rewrite length_app. pose proof (weight_visit V D nid HD Hv). lia.
Qed.

Lemma bfs_done V : bfs_inv [] V -> forall x, x ∈ V <-> tc R f x.
Proof.
  intros [Hr Hc _] x. split; [intros Hx; apply Hr; by left|]. intros Hx.
  assert (Hstep : forall a b, R a b -> a = f \/ a ∈ V -> b ∈ V).
  { intros a b Hab Ha. destruct (Hc a b Ha Hab) as [|Hq]; [done|]. by apply not_elem_of_nil in Hq. }
  assert (Hall : forall a b, tc R a b -> a = f \/ a ∈ V -> b ∈ V).
  { intros a b Hab. induction Hab as [a b Hab|a c b Hac _ IH]; intros Ha; [by eapply Hstep|].
    apply IH. right. by eapply Hstep. }
  apply (Hall f x Hx). by left.
Qed.
End Bfs.

Lemma skip_bfs_total dm f :
  exists V, skip_bfs (skip_fuel dm) (downstream_map dm) (dget_or (downstream_map dm) f []) [] = Ok V
    /\ forall x, x ∈ V <-> tc (depends dm) f x.
Proof.
  set (D := downstream_map dm). assert (HD : NoDup (dkeys D)) by apply downstream_NoDup.
  destruct (skip_bfs_spec D f (skip_fuel dm) (dget_or D f []) []) as (V & Hok & Hinv); [done | | |].
  - split; [| | apply NoDup_nil_2].
    + intros x [Hx|Hx]; [set_solver | by apply tc_once].
    + intros v x [->|Hv] Hx; [by right | set_solver].
  - pose proof (dget_or_weight D f HD). pose proof (downstream_weight dm) as Hw. fold D in Hw.
    unfold skip_fuel. lia.
  - exists V. split; [done|]. intros x. rewrite (bfs_done D f V Hinv x).
    split; apply tc_mono; intros a b; [apply (downstream_map_spec dm a b) | apply (downstream_map_spec dm a b)].
Qed.

(** ** The rows *)

Definition skip_row (now : datetime) (l : list string) (n : NodeExecution) : NodeExecution :=
  if has_status NodeStatus.PENDING n && bool_decide (ne_node_id n ∈ l) then skip_node now n else n.

Lemma skip_row_status now l n : has_status NodeStatus.PENDING (skip_row now l n) = true -> skip_row now l n = n.
Proof. unfold skip_row. by destruct (_ && _). Qed.

Lemma ne_by_node_id_self j n :
  NoDup (map ne_node_id (j_node_executions j)) -> n ∈ j_node_executions j ->
  (ne_by_node_id j).[? ne_node_id n] = Some n.
Proof.
  intros Hnd Hn. unfold ne_by_node_id. rewrite dict_of_NoDup by (by rewrite map_map).
  apply elem_of_dget; [by unfold dkeys; rewrite map_map|].
  by apply (list_elem_of_fmap_2 (fun n => (ne_node_id n, n))).
Qed.

Lemma skip_one_rows now j nid :
  NoDup (map ne_id (j_node_executions j)) -> NoDup (map ne_node_id (j_node_executions j)) ->
  skip_one now j nid = map_nodes (skip_row now [nid]) j.
Proof.
  intros Hids Hnids. unfold skip_one, map_nodes, update_node.
  assert (Hid : forall P : NodeExecution -> bool,
    (forall n, n ∈ j_node_executions j -> has_status NodeStatus.PENDING n = true -> ne_node_id n = nid -> False) ->
    j = set_nodes (map (skip_row now [nid]) (j_node_executions j)) j).
  { intros _ Hno. destruct j as [? ? ? ? ? ? ? ? ? ? ns]. unfold set_nodes. simpl in *. f_equal.
    rewrite <- (map_id ns) at 1. apply map_ext_in. intros n Hn. unfold skip_row.
    apply list_elem_of_In in Hn. destruct (has_status NodeStatus.PENDING n) eqn:Hp; simpl; [|done].
    rewrite bool_decide_false; [done|]. intros Hx%list_elem_of_singleton. by eapply Hno. }
  destruct (ne_by_node_id j).[? nid] as [m|] eqn:Hm.
  - pose proof Hm as [Hin Hmid]%ne_by_node_id_elem. destruct (has_status NodeStatus.PENDING m) eqn:Hp.
    + unfold set_nodes. f_equal. apply map_ext_in. intros n Hn%list_elem_of_In. unfold skip_row.
      destruct (decide (ne_id n = ne_id m)) as [He|Hne].
      * rewrite (NoDup_map_inj ne_id _ n m Hids Hn Hin He), Hp, bool_decide_true; [done|]. set_solver.
      * rewrite bool_decide_false; [by rewrite andb_false_r|]. intros Hx%list_elem_of_singleton.
        apply Hne. f_equal. eapply (NoDup_map_inj ne_node_id); eauto. congruence.
    + apply (Hid (fun _ => true)). intros n Hn Hnp Hx.
      assert (n = m) as -> by (eapply (NoDup_map_inj ne_node_id); eauto; congruence). congruence.
  - apply (Hid (fun _ => true)). intros n Hn _ Hx. rewrite <- Hx, ne_by_node_id_self in Hm; done.
Qed.

Lemma map_nodes_comp f g j : map_nodes g (map_nodes f j) = map_nodes (fun n => g (f n)) j.
Proof. unfold map_nodes, set_nodes. simpl. by rewrite map_map. Qed.

Lemma skip_row_ids now l ns :
  map ne_id (map (skip_row now l) ns) = map ne_id ns
  /\ map ne_node_id (map (skip_row now l) ns) = map ne_node_id ns.
Proof. rewrite !map_map. split; apply map_ext; intros n; unfold skip_row; by destruct (_ && _). Qed.

Lemma map_nodes_ext f g j : (forall n, f n = g n) -> map_nodes f j = map_nodes g j.
Proof. intros Hfg. unfold map_nodes. f_equal. by apply map_ext. Qed.

Lemma skip_fold_rows now l j :
  NoDup (map ne_id (j_node_executions j)) -> NoDup (map ne_node_id (j_node_executions j)) ->
  fold_left (skip_one now) l j = map_nodes (skip_row now l) j.
Proof.
  revert j. induction l as [|x l IH]; intros j Hids Hnids; simpl.
  - destruct j. unfold map_nodes, set_nodes. simpl. f_equal. rewrite <- (map_id j_node_executions) at 1.
    apply map_ext. intros n. unfold skip_row. by rewrite bool_decide_false, andb_false_r by set_solver.
  - destruct (skip_row_ids now [x] (j_node_executions j)) as [H1 H2].
    rewrite skip_one_rows, IH, map_nodes_comp by (simpl; rewrite ?H1, ?H2; done). apply map_nodes_ext. intros n.
    destruct (has_status NodeStatus.PENDING n) eqn:Hp; [|unfold skip_row; by rewrite Hp; simpl; rewrite Hp].
    unfold skip_row at 2. rewrite Hp. simpl. case_bool_decide as Hx.
    + unfold skip_row. simpl. rewrite Hp, bool_decide_true; [done|]. set_solver.
    + unfold skip_row. rewrite Hp. simpl. by rewrite (bool_decide_ext (ne_node_id n ∈ x :: l) (ne_node_id n ∈ l)) by set_solver.
Qed.

Lemma leaf_failed_iff (L : list NodeExecution) :
  (forall n, n ∈ L -> active (ne_status n) = false) ->
  existsb (fun n => failed_status (ne_status n)) L || negb (existsb (has_status NodeStatus.SUCCEEDED) L) = true
  <-> (exists n, n ∈ L /\ ne_status n <> NodeStatus.SUCCEEDED) \/ L = [].
Proof.
  intros Hfin. rewrite orb_true_iff, negb_true_iff, existsb_exists. setoid_rewrite <- list_elem_of_In. split.
  - intros [(n & Hn & Hf)|Hno]; [left; exists n; split; [done | by intros Hs; rewrite Hs in Hf]|].
    destruct L as [|n L]; [by right|]. left. exists n. split; [left|]. intros Hs.
    assert (Hb := existsb_false_elem _ _ n Hno ltac:(left)). unfold has_status in Hb.
    by rewrite bool_decide_true in Hb.
  - intros [(n & Hn & Hs)| ->]; [|by right]. left. exists n. split; [done|].
    by destruct (inactive_cases _ (Hfin n Hn)).
Qed.

(** ** Theorems *)

(** C15.  When a node finally fails, [_skip_downstream] always ends, marks as skipped
    exactly the pending executions that depend on it directly or transitively, and
    leaves every other row untouched. *)
Theorem skip_downstream_exact now (j : Job) (failed : string) (dep_map : list (string * list string)) :
  NoDup (map ne_id (j_node_executions j)) -> NoDup (map ne_node_id (j_node_executions j)) ->
  exists j', _skip_downstream now j failed dep_map = Ok j'
    /\ Forall2 (fun n n' =>
         (ne_status n = NodeStatus.PENDING /\ tc (depends dep_map) failed (ne_node_id n) -> n' = skip_node now n)
         /\ (~ (ne_status n = NodeStatus.PENDING /\ tc (depends dep_map) failed (ne_node_id n)) -> n' = n))
       (j_node_executions j) (j_node_executions j').
Proof.
  intros Hids Hnids. unfold _skip_downstream.
  destruct (skip_bfs_total dep_map failed) as (V & -> & HV). eexists. split; [done|].
  rewrite skip_fold_rows by done. simpl. apply Forall2_map_self. intros n. unfold skip_row, has_status.
  pose proof (HV (ne_node_id n)) as Hn. do 2 case_bool_decide; simpl; naive_solver.
Qed.

(**  A job is finalized exactly when no execution is pending, queued or running;
    it then succeeds if all succeeded, fails if a leaf did not succeed or none exists,
    and otherwise is partially failed. *)
Theorem final_status_exact (j : Job) :
  (final_status j = None <-> exists n, n ∈ j_node_executions j /\ active (ne_status n) = true)
  /\ (final_status j = Some JobStatus.SUCCEEDED <->
      Forall (fun n => ne_status n = NodeStatus.SUCCEEDED) (j_node_executions j))
  /\ (final_status j = Some JobStatus.FAILED <->
      Forall (fun n => active (ne_status n) = false) (j_node_executions j)
      /\ (exists n, n ∈ j_node_executions j /\ ne_status n <> NodeStatus.SUCCEEDED)
      /\ ((exists n, n ∈ leaf_executions j /\ ne_status n <> NodeStatus.SUCCEEDED) \/ leaf_executions j = [])).
Proof.
  assert (Hact : existsb (fun n => active (ne_status n)) (j_node_executions j) = true
                 <-> exists n, n ∈ j_node_executions j /\ active (ne_status n) = true).
  { rewrite existsb_exists. by setoid_rewrite list_elem_of_In. }
  assert (Hall : forallb (has_status NodeStatus.SUCCEEDED) (j_node_executions j) = true
                 <-> Forall (fun n => ne_status n = NodeStatus.SUCCEEDED) (j_node_executions j)).
  { rewrite forallb_forall, Forall_forall. setoid_rewrite list_elem_of_In. unfold has_status.
    by setoid_rewrite bool_decide_eq_true. }
  unfold final_status. destruct (existsb (fun n => active _) _) eqn:Ha.
  - destruct (proj1 Hact eq_refl) as (n & Hn & Hna). split_and!; [tauto | |].
    + split; [done|]. rewrite Forall_forall. intros Hs. by rewrite (Hs n Hn) in Hna.
    + split; [done|]. rewrite Forall_forall. intros [Hs _]. by rewrite (Hs n Hn) in Hna.
  - assert (Hfin : forall n, n ∈ j_node_executions j -> active (ne_status n) = false).
    { intros n Hn. exact (existsb_false_elem _ _ n Ha Hn). }
    assert (Hno : ~ exists n, n ∈ j_node_executions j /\ active (ne_status n) = true).
    { intros (n & Hn & Hna). by rewrite Hfin in Hna. }
    destruct (forallb _ _) eqn:Hs.
    + split_and!; [by split | split; [by intros _; apply Hall | done] |]. split; [done|]. intros (_ & (n & Hn & Hne) & _).
      destruct Hne. pose proof (proj1 Hall eq_refl) as HF. rewrite Forall_forall in HF. by apply HF.
    + assert (Hex : exists n, n ∈ j_node_executions j /\ failed_status (ne_status n) = true).
      { assert (Hnf : ~ Forall (fun n => ne_status n = NodeStatus.SUCCEEDED) (j_node_executions j))
          by (intros HF; by apply Hall in HF).
        apply not_Forall_Exists, Exists_exists in Hnf; [|apply _]. destruct Hnf as (n & Hn & Hns). exists n. split; [done|]. by destruct (inactive_cases _ (Hfin n Hn)). }
      destruct Hex as (n0 & Hn0 & Hf0).
      rewrite (proj2 (existsb_exists _ _)) by (exists n0; split; [by apply list_elem_of_In | done]).
      split_and!; [split; [by destruct (_ || _) | tauto] | |].
      * split; [by destruct (_ || _)|]. rewrite <- Hall. done.
      * pose proof (leaf_failed_iff (leaf_executions j)) as Hleaf.
        assert (HL : forall n, n ∈ leaf_executions j -> active (ne_status n) = false).
        { intros n Hn. apply Hfin. by apply elem_of_lfilter in Hn as [Hn _]. }
        specialize (Hleaf HL). destruct (_ || _); split; [| done | done |].
        -- intros _. split_and!; [by apply Forall_forall | | by apply Hleaf].
           exists n0. split; [done|]. intros Heq. by rewrite Heq in Hf0.
        -- intros (_ & _ & HLr). by apply Hleaf in HLr.
Qed.

Lemma skip_downstream_exact_witness :
  exists j', _skip_downstream 5 (waiting_job "b" NodeStatus.PENDING JobStatus.RUNNING) "s" [("n", ["s"])] = Ok j'
    /\ map ne_status (j_node_executions j') = [NodeStatus.SKIPPED].
Proof.
  destruct (skip_downstream_exact 5 (waiting_job "b" NodeStatus.PENDING JobStatus.RUNNING) "s" [("n", ["s"])])
    as (j' & Hj & _); [repeat constructor; set_solver.. |].
  exists j'. split; [exact Hj|]. vm_compute in Hj. injection Hj as <-. reflexivity.
Defined.
