(* ===== verification/EngineLive.v ===== *)
(** * Registered events never leave a job stuck

    [live] says that every node that is ready has been handed out and that nothing
    pending waits for a failed node.  The events of registered workers keep a job
    live, and a live job either has work in progress or is finished.  The direct path has no
    such property: a source without its asset leaves the nodes below it pending. *)

From stdpp Require Import base tactics list strings relations sorting.
From Stdlib Require Import ZArith Lia.
From S2P Require Import Prelude PyStr PyValue PyJson PyTime PyUuid NodeRegistry Pipeline Graph Dag JobModel WorkerModel Schedule Authority JobService ArtifactCache WorkerEvents Retry Engine EngineInv EngineSteps EngineReach EngineSkip Validation Builtins.

Open Scope string_scope.
Open Scope list_scope.

Definition dep_map_of (j : Job) : list (string * list string) := build_dependency_map (j_pipeline_snapshot j).

Record live_plan (j : Job) : Prop := {
  lp_ids : NoDup (map ne_id (j_node_executions j));
  lp_node_ids : NoDup (map ne_node_id (j_node_executions j));
  lp_keys : forall n, n ∈ j_node_executions j -> is_Some (dep_map_of j).[? ne_node_id n];
  lp_deps : forall d n, depends (dep_map_of j) d n -> exists m, m ∈ j_node_executions j /\ ne_node_id m = d;
  lp_acyclic : acyclic (depends (dep_map_of j)) }.

(** Nothing pending waits for a node that will never succeed. *)
Definition no_orphan (j : Job) : Prop :=
  forall n m, n ∈ j_node_executions j -> m ∈ j_node_executions j -> ne_status n = NodeStatus.PENDING ->
    depends (dep_map_of j) (ne_node_id m) (ne_node_id n) -> failed_status (ne_status m) = false.

(** Every ready node has been handed out. *)
Definition saturated (j : Job) : Prop :=
  forall n, n ∈ j_node_executions j -> ne_status n = NodeStatus.PENDING ->
    deps_succeeded j (job_deps j n) = false.

Record live (j : Job) : Prop := {
  lv_plan : live_plan j;
  lv_orphan : no_orphan j;
  lv_saturated : saturated j }.

Definition in_progress (j : Job) : Prop :=
  exists n, n ∈ j_node_executions j /\ (ne_status n = NodeStatus.QUEUED \/ ne_status n = NodeStatus.RUNNING).

#[export] Instance in_progress_dec j : Decision (in_progress j).
Proof.
  refine (cast_if (decide (Exists (fun n => ne_status n = NodeStatus.QUEUED \/ ne_status n = NodeStatus.RUNNING)
            (j_node_executions j)))); unfold in_progress; by rewrite <- Exists_exists.
Defined.

Lemma dep_map_NoDup j : NoDup (dkeys (dep_map_of j)).
Proof. unfold dep_map_of. destruct (build_dependency_map_spec (j_pipeline_snapshot j)) as [-> _]. apply NoDup_node_ids. Qed.

Lemma depends_job_deps j d n : depends (dep_map_of j) d (ne_node_id n) <-> d ∈ job_deps j n.
Proof.
  unfold depends, job_deps, dget_or. fold (dep_map_of j). setoid_rewrite (elem_of_dget _ _ _ (dep_map_NoDup j)).
  destruct (dep_map_of j).[? ne_node_id n] as [deps|]; simpl; [naive_solver|]. set_solver.
Qed.

Lemma deps_succeeded_rows j deps :
  NoDup (map ne_node_id (j_node_executions j)) ->
  (forall d, d ∈ deps -> exists m, m ∈ j_node_executions j /\ ne_node_id m = d /\ ne_status m = NodeStatus.SUCCEEDED) ->
  deps_succeeded j deps = true.
Proof.
  intros Hnd Hall. unfold deps_succeeded. apply forallb_forall. intros d Hd%list_elem_of_In.
  destruct (Hall d Hd) as (m & Hm & <- & Hs). rewrite ne_by_node_id_self by done. by apply bool_decide_eq_true.
Qed.

(** A live job without work in progress has no pending node either. *)
Lemma live_done j : live j -> ~ in_progress j -> forall n, n ∈ j_node_executions j -> active (ne_status n) = false.
Proof.
  intros [Hpl Hor Hsat] Hno n Hn. destruct (active (ne_status n)) eqn:Ha; [|done]. exfalso.
  assert (Hact : forall x, x ∈ j_node_executions j -> active (ne_status x) = true -> ne_status x = NodeStatus.PENDING).
  { intros x Hx Hax. destruct (ne_status x) eqn:Hs; try done; destruct Hno; exists x; auto. }
  set (P := map ne_node_id (List.filter (has_status NodeStatus.PENDING) (j_node_executions j))).
  assert (HP : forall x, x ∈ P <-> exists r, r ∈ j_node_executions j /\ ne_status r = NodeStatus.PENDING /\ ne_node_id r = x).
  { intros x. unfold P. rewrite list_elem_of_fmap. setoid_rewrite elem_of_lfilter. unfold has_status.
    setoid_rewrite bool_decide_eq_true. naive_solver. }
  destruct (finite_cycle (depends (dep_map_of j)) P (ne_node_id n)) as (w & _ & Hw & _);
    [apply HP; eauto | | by apply (lp_acyclic j Hpl w)].
  intros x (r & Hr & Hrs & <-)%HP. pose proof (Hsat r Hr Hrs) as Hnot.
  destruct (decide (Exists (fun d => d ∈ P) (job_deps j r))) as [(d & Hd & HdP)%Exists_exists|Hnone].
  { exists d. split; [done|]. by apply depends_job_deps. }
  rewrite deps_succeeded_rows in Hnot; [done | apply Hpl |]. intros d Hd.
  pose proof (proj2 (depends_job_deps j d r) Hd) as Hdep. destruct (lp_deps j Hpl d _ Hdep) as (m & Hm & <-).
  exists m. split_and!; [done | done |]. pose proof (Hor r m Hr Hm Hrs Hdep) as Hnf.
  destruct (active (ne_status m)) eqn:Hma; [|by destruct (inactive_cases _ Hma); [|congruence]].
  destruct Hnone. apply Exists_exists. exists (ne_node_id m). split; [done|]. apply HP. eauto.
Qed.

(** ** Quiet changes: nothing becomes pending or failed *)

Definition quiet (n n' : NodeExecution) : Prop :=
  same_row n n' /\ (ne_status n' = NodeStatus.PENDING -> ne_status n = NodeStatus.PENDING)
  /\ (failed_status (ne_status n') = true -> failed_status (ne_status n) = true).

#[export] Instance quiet_refl : Reflexive quiet.
Proof. intros n. by split_and!. Qed.

#[export] Instance quiet_trans : Transitive quiet.
Proof.
  intros a b c ((H1 & H2 & H3) & Hp & Hf) ((H1' & H2' & H3') & Hp' & Hf').
  split_and!; auto; split_and!; congruence.
Qed.

Definition same_plan (j j' : Job) : Prop :=
  j_pipeline_snapshot j' = j_pipeline_snapshot j
  /\ Forall2 same_row (j_node_executions j) (j_node_executions j').

Lemma same_rows_ids l l' :
  Forall2 same_row l l' -> map ne_id l' = map ne_id l /\ map ne_node_id l' = map ne_node_id l.
Proof.
  induction 1 as [|n n' l l' (H1 & H2 & _) _ [IH1 IH2]]; simpl; [done|]. by rewrite H1, H2, IH1, IH2.
Qed.

Lemma live_plan_same j j' : same_plan j j' -> live_plan j -> live_plan j'.
Proof.
  intros [Hs HF] [Hi Hn Hk Hd Ha]. destruct (same_rows_ids _ _ HF) as [E1 E2].
  assert (HD : dep_map_of j' = dep_map_of j) by (unfold dep_map_of; by rewrite Hs).
  split; rewrite ?HD, ?E1, ?E2; try done.
  - intros n' Hn'. apply list_elem_of_lookup in Hn' as [i Hi'].
    destruct (Forall2_lookup_r _ _ _ _ _ HF Hi') as (n & Hni & _ & Heq & _). rewrite Heq.
    apply Hk. by eapply list_elem_of_lookup_2.
  - intros d x Hdx. destruct (Hd d x Hdx) as (m & Hm & Hmd). apply list_elem_of_lookup in Hm as [i Hi'].
    destruct (Forall2_lookup_l _ _ _ _ _ HF Hi') as (m' & Hm' & _ & Heq & _).
    exists m'. split; [by eapply list_elem_of_lookup_2 | congruence].
Qed.

Lemma no_orphan_quiet j j' :
  j_pipeline_snapshot j' = j_pipeline_snapshot j -> Forall2 quiet (j_node_executions j) (j_node_executions j') ->
  no_orphan j -> no_orphan j'.
Proof.
  intros Hs HF Hor n' m' [i Hi]%list_elem_of_lookup [k Hk]%list_elem_of_lookup Hp Hd.
  destruct (Forall2_lookup_r _ _ _ _ _ HF Hi) as (n & Hn & (_ & En & _) & Hpn & _).
  destruct (Forall2_lookup_r _ _ _ _ _ HF Hk) as (m & Hm & (_ & Em & _) & _ & Hfm).
  destruct (failed_status (ne_status m')) eqn:Hf; [|done]. specialize (Hfm eq_refl).
  rewrite En, Em in Hd. unfold dep_map_of in Hd. rewrite Hs in Hd.
  by rewrite (Hor n m) in Hfm; [ | by eapply list_elem_of_lookup_2 | by eapply list_elem_of_lookup_2 | auto |].
Qed.

Lemma quiet_same_row l l' : Forall2 quiet l l' -> Forall2 same_row l l'.
Proof. intros HF. eapply Forall2_impl; [exact HF|]. by intros ? ? []. Qed.

(** Updating one row to queued or succeeded. *)
Lemma update_node_quiet j id f :
  KeepsIdentity f -> (forall n, launched (ne_status (f n)) = true) ->
  Forall2 quiet (j_node_executions j) (j_node_executions (update_node id f j)).
Proof.
  intros [H1 H2 H3] Hl. simpl. apply Forall2_map_self. intros n. case_decide; [|reflexivity].
  specialize (Hl n). split; [by split_and!|]. destruct (ne_status (f n)); try done.
Qed.

(** ** The staging loop *)

Definition pending_count (j : Job) : nat := length (List.filter (has_status NodeStatus.PENDING) (j_node_executions j)).

Lemma pending_count_update j n f :
  n ∈ j_node_executions j -> ne_status n = NodeStatus.PENDING ->
  (forall m, has_status NodeStatus.PENDING (f m) = false) ->
  pending_count (update_node (ne_id n) f j) < pending_count j.
Proof.
  intros Hn Hs Hf. unfold pending_count. simpl.
  assert (Hle : forall l, length (List.filter (has_status NodeStatus.PENDING)
            (map (fun m => if decide (ne_id m = ne_id n) then f m else m) l))
            <= length (List.filter (has_status NodeStatus.PENDING) l)).
  { induction l as [|m l IH]; simpl; [done|]. case_decide; simpl; [rewrite Hf|];
      destruct (has_status NodeStatus.PENDING m); simpl; lia. }
  induction (j_node_executions j) as [|m l IH]; simpl; [set_solver|].
  apply elem_of_cons in Hn as [<-|Hn].
  - rewrite decide_True by done. rewrite Hf. unfold has_status at 2. rewrite bool_decide_true by done.
    simpl. specialize (Hle l). lia.
  - specialize (IH Hn). case_decide; simpl; [rewrite Hf|]; destruct (has_status NodeStatus.PENDING m); simpl; lia.
Qed.

Lemma pending_count_le j : pending_count j <= length (j_node_executions j).
Proof. unfold pending_count. induction (j_node_executions j) as [|n l IH]; simpl; [done|]. destruct (has_status _ _); simpl; lia. Qed.

Section Stage.
Context (registry : NodeTypeRegistry) (setting : string) (now : datetime) (env : Env).
Context (receipt : RegisteredWorkerEventReceipt).

(** Progress of a round: fewer pending nodes, otherwise nothing changed. *)
Definition staged (j j' : Job) : Prop :=
  j_pipeline_snapshot j' = j_pipeline_snapshot j /\ j_status j' = j_status j /\ j_id j' = j_id j
  /\ Forall2 quiet (j_node_executions j) (j_node_executions j').

#[local] Instance staged_refl : Reflexive staged.
Proof. intros j. by split_and!. Qed.

#[local] Instance staged_trans : Transitive staged.
Proof.
  intros a b c (H1 & H2 & H3 & H4) (H1' & H2' & H3' & H4'). split_and!; try congruence. by etrans.
Qed.

Lemma stage_ready_node_spec b j db entry b' j' db' :
  stage_ready_node registry now env receipt (b, j, db) entry = Ok (b', j', db') ->
  staged j j' /\
  ((b' = b /\ j' = j /\ db' = db
    /\ forall n, (ne_by_node_id j).[? entry.1] = Some n -> ne_status n = NodeStatus.PENDING ->
         deps_succeeded j entry.2 = false)
   \/ (b' = true /\ pending_count j' < pending_count j)).
Proof.
  destruct entry as [node_id deps]. unfold stage_ready_node. simpl.
  destruct (ne_by_node_id j).[? node_id] as [n|] eqn:Hn.
  2: { intros [= <- <- <-]. split; [reflexivity|]. left. by split_and!. }
  destruct (has_status NodeStatus.PENDING n && deps_succeeded j deps) eqn:Hc; simpl.
  2: { intros [= <- <- <-]. split; [reflexivity|]. left. split_and!; try done. intros m [= <-] Hs.
       unfold has_status in Hc. by rewrite bool_decide_true in Hc. }
  apply andb_prop in Hc as [Hs%bool_decide_eq_true _]. apply ne_by_node_id_elem in Hn as [Hin _].
  destruct (_apply_cached_artifact_uncommitted _ _ _ _ _ _ _) as [[[[] j1] db1]|] eqn:Hca; [| |done].
  - intros [= <- <- <-]. apply apply_cached_spec in Hca as (out & st & ids & -> & _).
    split; [split_and!; try done; by apply update_node_quiet|]. right. split; [done|].
    by apply pending_count_update.
  - destruct (_stage_receipt_dispatch _ _ _ _ _ _ _ _ _); [|done]. intros [= <- <- <-].
    split; [split_and!; try done; by apply update_node_quiet|]. right. split; [done|].
    by apply pending_count_update.
Qed.

Lemma stage_ready_node_raise st entry e :
  stage_ready_node registry now env receipt st entry = Raise e -> e <> Diverges.
Proof.
  destruct st as [[b j] db], entry as [node_id deps]. unfold stage_ready_node.
  unfold _apply_cached_artifact_uncommitted, _stage_receipt_dispatch, stage_task, stage_worker_task_dispatch.
  unfold materialize_hit, event_error. repeat case_match; intros [= <-]; simplify_eq/=; try done; by eapply lookup_raise.
Qed.

Lemma stage_once_spec b j db dm b' j' db' :
  foldM (stage_ready_node registry now env receipt) (b, j, db) dm = Ok (b', j', db') ->
  staged j j' /\ pending_count j' <= pending_count j
  /\ ((b' = true /\ (b = true \/ pending_count j' < pending_count j))
      \/ (b' = b /\ j' = j /\ forall nid deps n, (nid, deps) ∈ dm -> (ne_by_node_id j).[? nid] = Some n ->
            ne_status n = NodeStatus.PENDING -> deps_succeeded j deps = false)).
Proof.
  revert b j db. induction dm as [|entry dm IH]; intros b j db; cbn [foldM].
  { intros [= <- <- <-]. split; [reflexivity|]. split; [done|]. right. split_and!; try done. set_solver. }
  destruct (stage_ready_node registry now env receipt (b, j, db) entry)
    as [[[b1 j1] db1]|] eqn:Hst; [|done].
  apply stage_ready_node_spec in Hst as [Hs1 Hcase]. intros Hf. destruct (IH _ _ _ Hf) as (Hs2 & Hle & Hcase2).
  split; [by etrans|]. destruct Hcase as [(-> & -> & -> & Hno)|[-> Hlt]].
  - split; [done|]. destruct Hcase2 as [?|(-> & -> & Hall)]; [by left|]. right. split_and!; try done.
    intros nid deps n [<-|Hin]%elem_of_cons; [apply Hno | by apply Hall].
  - split; [lia|]. left. destruct Hcase2 as [[-> _]|(-> & _)]; (split; [done|]; right; lia).
Qed.

Lemma stage_rounds_spec fuel j db dm r :
  pending_count j <= fuel ->
  stage_rounds registry now env fuel receipt j db dm = r ->
  r <> Raise Diverges /\ forall j' db', r = Ok (j', db') ->
    staged j j' /\ forall nid deps n, (nid, deps) ∈ dm -> (ne_by_node_id j').[? nid] = Some n ->
      ne_status n = NodeStatus.PENDING -> deps_succeeded j' deps = false.
Proof.
  revert j db. induction fuel as [|fuel IH]; intros j db Hfuel; simpl; unfold _stage_ready_receipt_dispatches_once;
    destruct (foldM _ _ _) as [[[b1 j1] db1]|e] eqn:Hf.
  2, 4: intros <-; split; [intros [= ->] | done];
        apply foldM_raise in Hf as (st & entry & Hr); by apply stage_ready_node_raise in Hr.
  all: apply stage_once_spec in Hf as (Hst & Hle & Hcase).
  - destruct b1.
    + destruct Hcase as [[_ [?|?]]|(? & _)]; [done | lia | done].
    + intros <-. split; [done|]. intros j' db' [= <- <-]. split; [done|].
      destruct Hcase as [[? _]|(_ & -> & Hall)]; done.
  - destruct b1.
    + intros Hr. destruct Hcase as [[_ [?|Hlt]]|(? & _)]; [done | | done].
      destruct (IH j1 db1 ltac:(lia) Hr) as [Hnd Hok]. split; [done|].
      intros j' db' Heq. destruct (Hok j' db' Heq) as [Hs' Hall]. split; [by etrans | done].
    + intros <-. split; [done|]. intros j' db' [= <- <-]. split; [done|].
      destruct Hcase as [[? _]|(_ & -> & Hall)]; done.
Qed.
End Stage.

(** ** Saturation is kept when nothing succeeds *)

Definition no_success (n n' : NodeExecution) : Prop :=
  same_row n n' /\ (ne_status n' = NodeStatus.SUCCEEDED -> ne_status n = NodeStatus.SUCCEEDED)
  /\ (ne_status n' = NodeStatus.PENDING -> ne_status n = NodeStatus.PENDING).

Lemma deps_succeeded_anti j j' deps :
  Forall2 no_success (j_node_executions j) (j_node_executions j') ->
  deps_succeeded j' deps = true -> deps_succeeded j deps = true.
Proof.
  intros HF. unfold deps_succeeded. rewrite !forallb_forall. intros Hall d Hd. specialize (Hall d Hd).
  assert (Ho : option_Forall2 (fun n n' => same_row n n' /\ no_success n n')
            (ne_by_node_id j).[? d] (ne_by_node_id j').[? d]).
  { apply ne_by_node_id_Forall2. eapply Forall2_impl; [exact HF|]. intros n n' Hf. split; [apply Hf | done]. }
  destruct Ho as [n n' [_ [_ [Hf _]]]|]; [|done]. unfold has_status in *. rewrite bool_decide_eq_true in *. auto.
Qed.

Lemma saturated_no_success j j' :
  j_pipeline_snapshot j' = j_pipeline_snapshot j ->
  Forall2 no_success (j_node_executions j) (j_node_executions j') -> saturated j -> saturated j'.
Proof.
  intros Hs HF Hsat n' [i Hi]%list_elem_of_lookup Hp.
  destruct (Forall2_lookup_r _ _ _ _ _ HF Hi) as (n & Hn & (_ & En & _) & _ & Hpn).
  specialize (Hsat n ltac:(by eapply list_elem_of_lookup_2) (Hpn Hp)).
  destruct (deps_succeeded j' (job_deps j' n')) eqn:Hd; [|done].
  apply (deps_succeeded_anti j) in Hd; [|done]. unfold job_deps in *. rewrite Hs, En in Hd. congruence.
Qed.

(** ** Final failure *)

Lemma fail_rows_spec now j n error (V : list string) :
  NoDup (map ne_id (j_node_executions j)) -> NoDup (map ne_node_id (j_node_executions j)) ->
  n ∈ j_node_executions j ->
  Forall2 (fun m m' => same_row m m'
     /\ (ne_status m' = NodeStatus.PENDING -> ne_status m = NodeStatus.PENDING /\ ne_node_id m ∉ V)
     /\ (ne_status m' = NodeStatus.SUCCEEDED -> ne_status m = NodeStatus.SUCCEEDED)
     /\ (failed_status (ne_status m') = true ->
         failed_status (ne_status m) = true \/ m = n \/ ne_node_id m ∈ V))
    (j_node_executions j)
    (map (skip_row now V) (j_node_executions (update_node (ne_id n) (fail_node now error) j))).
Proof.
  intros Hids Hnids Hn. simpl. rewrite map_map. apply Forall2_fmap_r, Forall_Forall2_diag, Forall_forall.
  intros m Hm. simpl. destruct (decide (ne_id m = ne_id n)) as [He|Hne].
  - assert (m = n) as -> by (by eapply (NoDup_map_inj ne_id)).
    unfold skip_row, has_status. simpl. split_and!; try done. auto.
  - unfold skip_row, has_status. case_bool_decide as Hp; simpl; [|by split_and!; auto].
    case_bool_decide as HV; simpl; split_and!; auto; done.
Qed.

Lemma no_orphan_fail j n (V : list string) j' :
  j_pipeline_snapshot j' = j_pipeline_snapshot j -> no_orphan j -> n ∈ j_node_executions j ->
  (forall x, x ∈ V <-> tc (depends (dep_map_of j)) (ne_node_id n) x) ->
  Forall2 (fun m m' => same_row m m'
     /\ (ne_status m' = NodeStatus.PENDING -> ne_status m = NodeStatus.PENDING /\ ne_node_id m ∉ V)
     /\ (ne_status m' = NodeStatus.SUCCEEDED -> ne_status m = NodeStatus.SUCCEEDED)
     /\ (failed_status (ne_status m') = true ->
         failed_status (ne_status m) = true \/ m = n \/ ne_node_id m ∈ V))
    (j_node_executions j) (j_node_executions j') ->
  no_orphan j'.
Proof.
  intros Hs Hor Hn HV HF a' b' [i Hi]%list_elem_of_lookup [k Hk]%list_elem_of_lookup Hp Hd.
  destruct (Forall2_lookup_r _ _ _ _ _ HF Hi) as (a & Ha & (_ & Ea & _) & Hpa & _ & _).
  destruct (Forall2_lookup_r _ _ _ _ _ HF Hk) as (b & Hb & (_ & Eb & _) & _ & _ & Hfb).
  destruct (failed_status (ne_status b')) eqn:Hf; [|done]. specialize (Hfb eq_refl).
  destruct (Hpa Hp) as [Hap HaV]. rewrite Ea, Eb in Hd. unfold dep_map_of in Hd. rewrite Hs in Hd.
  apply list_elem_of_lookup_2 in Ha, Hb. exfalso. destruct Hfb as [Hfb|[->|HbV]].
  - rewrite (Hor a b) in Hfb; done.
  - apply HaV, HV. by apply tc_once.
  - apply HaV, HV. apply HV in HbV. eapply tc_r; [exact HbV | exact Hd].
Qed.

Lemma final_status_all j :
  (forall n, n ∈ j_node_executions j -> active (ne_status n) = false) ->
  exists s, final_status j = Some s /\ terminal_job s = true.
Proof.
  intros Hfin. unfold final_status.
  assert (existsb (fun n => active (ne_status n)) (j_node_executions j) = false) as ->.
  { apply not_true_iff_false. rewrite existsb_exists. intros (n & Hn%list_elem_of_In & Ha).
    by rewrite Hfin in Ha. }
  destruct (forallb _ _) eqn:Hall; [by eexists|].
  assert (existsb (fun n => failed_status (ne_status n)) (j_node_executions j) = true) as ->.
  { apply not_false_iff_true. intros Hex. apply not_true_iff_false in Hall. apply Hall, forallb_forall.
    intros n Hn. apply bool_decide_eq_true. pose proof (existsb_false_elem _ _ n Hex) as Hnf.
    apply list_elem_of_In in Hn. destruct (inactive_cases _ (Hfin n Hn)); [done|]. rewrite Hnf in *; done. }
  destruct (_ || _); by eexists.
Qed.

(** Finalizing a job keeps its rows, so it stays live and is decided when nothing
    is in progress. *)
Lemma finalization_live now j arts b j' arts' :
  live j -> _apply_job_finalization now j arts = (b, j', arts') ->
  live j' /\ (terminal_job (j_status j') = true \/ in_progress j').
Proof.
  intros Hl Hf.
  assert (Hrows : j_node_executions j' = j_node_executions j /\ j_pipeline_snapshot j' = j_pipeline_snapshot j
    /\ (final_status j = None \/ exists s, final_status j = Some s /\ j_status j' = s)).
  { unfold _apply_job_finalization in Hf. destruct (final_status j) as [[]|]; simplify_eq; split_and!; eauto. }
  destruct Hrows as (Hr & Hsn & Hst). split.
  - destruct Hl as [Hpl Hor Hsat]. split.
    + eapply live_plan_same; [|exact Hpl]. split; [done|]. rewrite Hr.
      apply Forall_Forall2_diag, Forall_true. intros n. by repeat split.
    + eapply no_orphan_quiet; [done | | exact Hor]. rewrite Hr. reflexivity.
    + eapply saturated_no_success; [done | | exact Hsat]. rewrite Hr.
      apply Forall_Forall2_diag, Forall_true. intros n. by repeat split.
  - destruct (decide (in_progress j)) as [(n & Hn & Hs)|Hno]; [right; exists n; by rewrite Hr|].
    left. destruct (final_status_all j (live_done j Hl Hno)) as (s & Hfs & Ht).
    destruct Hst as [Hst|(s' & Hs' & ->)]; [congruence|]. congruence.
Qed.

Section Events.
Context (registry : NodeTypeRegistry) (setting : string) (now : datetime) (env : Env).

(** What an event leaves in the jobs table. *)
Definition good_outcome (db' : Db) (id : uuid) : Prop :=
  exists j', (db_jobs db').[? id] = Some j' /\ live j' /\ (terminal_job (j_status j') = true \/ in_progress j').

Lemma fail_exhausted_live db j n error db' :
  live j -> j_execution_plan j <> None -> plan_dependencies j = dep_map_of j -> n ∈ j_node_executions j ->
  fail_exhausted now db j n error = Ok db' -> good_outcome db' (j_id j).
Proof.
  intros [Hpl Hor Hsat] _ Hdm Hn. unfold fail_exhausted, _skip_downstream. rewrite Hdm.
  destruct (skip_bfs_total (dep_map_of j) (ne_node_id n)) as (V & -> & HV).
  destruct (update_node_ids (ne_id n) (fail_node now error) j) as [E1 E2]; [apply _|].
  rewrite skip_fold_rows by (rewrite ?E1, ?E2; apply Hpl).
  set (j1 := map_nodes _ _). pose proof (fail_rows_spec now j n error V (lp_ids j Hpl) (lp_node_ids j Hpl) Hn) as HF.
  change (map (skip_row now V) _) with (j_node_executions j1) in HF.
  set (j2 := set_job _ _ _ j1).
  assert (Hl2 : live j2).
  { split.
    - eapply live_plan_same; [|exact Hpl]. split; [done|]. eapply Forall2_impl; [exact HF|]. by intros ? ? [].
    - by apply (no_orphan_fail j n V j2).
    - apply (saturated_no_success j j2); [done | | exact Hsat]. eapply Forall2_impl; [exact HF|].
      intros a b (Hr & Hp & Hs & _). split_and!; [done | done | intros Hb; by destruct (Hp Hb)]. }
  assert (Hid2 : j_id j2 = j_id j) by done. intros [= <-].
  rewrite maybe_finalize_locked by (simpl; apply dget_dset_eq). change (db_artifacts (put_job j2 db)) with (db_artifacts db).
  destruct (_apply_job_finalization now j2 (db_artifacts db)) as [[b j3] arts] eqn:Hf.
  assert (Hid : j_id j3 = j_id j).
  { unfold _apply_job_finalization in Hf. destruct (final_status j2) as [[]|]; by simplify_eq. }
  pose proof (finalization_live now j2 _ _ _ _ Hl2 Hf) as [Hl3 Hprog].
  destruct b; simpl.
  - exists j3. rewrite <- Hid. split; [apply dget_dset_eq | done].
  - exists j2. split; [apply dget_dset_eq|].
    unfold _apply_job_finalization in Hf. destruct (final_status j2) as [[]|]; by simplify_eq.
Qed.

(** Rows that keep their status keep a job live. *)
Lemma live_same_status j j' :
  j_pipeline_snapshot j' = j_pipeline_snapshot j ->
  Forall2 (fun n n' => same_row n n' /\ ne_status n' = ne_status n) (j_node_executions j) (j_node_executions j') ->
  live j -> live j'.
Proof.
  intros Hs HF [Hpl Hor Hsat]. split.
  - eapply live_plan_same; [|exact Hpl]. split; [done|]. eapply Forall2_impl; [exact HF|]. by intros ? ? [].
  - eapply no_orphan_quiet; [done | | done]. eapply Forall2_impl; [exact HF|]. intros n n' [Hr E].
    split; [done|]. by rewrite E.
  - eapply saturated_no_success; [done | | done]. eapply Forall2_impl; [exact HF|]. intros n n' [Hr E].
    split; [done|]. by rewrite E.
Qed.

(** Requeueing a running node, whatever claim the release clears. *)
Lemma retry_live j n db1 rid nid db' :
  live j -> n ∈ j_node_executions j -> ne_status n = NodeStatus.RUNNING ->
  _release_sqlite setting now (put_job (update_node (ne_id n) (retry_node now) j) db1) rid = Ok (nid, db') ->
  db_inv db1 -> good_outcome db' (j_id j).
Proof.
  intros [Hpl Hor Hsat] Hn Hs Hrel Hdb. set (j' := update_node _ _ j) in *.
  assert (HF : Forall2 quiet (j_node_executions j) (j_node_executions j')) by (by apply update_node_quiet).
  assert (Hl : live j').
  { split.
    - eapply live_plan_same; [|exact Hpl]. split; [done | by apply quiet_same_row].
    - by apply (no_orphan_quiet j j').
    - apply (saturated_no_success j j'); [done | | exact Hsat]. simpl. apply Forall2_map_self. intros m.
      unfold no_success, same_row. case_decide; split_and!; done. }
  assert (Hq : retry_node now n ∈ j_node_executions j').
  { simpl. apply list_elem_of_fmap. exists n. by rewrite decide_True. }
  apply release_spec in Hrel as (r & k & m & _ & Hk & Hm & _ & _ & _ & _ & ->).
  assert (Hid : j_id k = rc_job_id r).
  { simpl in Hk. rewrite dget_dset in Hk. case_decide as Hd; [by injection Hk as <- | by apply Hdb in Hk as [-> _]]. }
  unfold good_outcome.
  destruct (decide (rc_job_id r = j_id j)) as [E|E].
  - assert (k = j') as -> by (simpl in Hk; rewrite E in Hk; change (j_id j) with (j_id j') in Hk;
                              rewrite dget_dset_eq in Hk; congruence).
    exists (update_node (ne_id m) release_node j'). split; [apply dget_dset_eq|].
    assert (HR : forall x, same_row x (if decide (ne_id x = ne_id m) then release_node x else x)
                  /\ ne_status (if decide (ne_id x = ne_id m) then release_node x else x) = ne_status x)
      by (intros x; by case_decide).
    split; [apply (live_same_status j'); [done | by apply Forall2_map_self | done]|]. right.
    exists (if decide (ne_id n = ne_id m) then release_node (retry_node now n) else retry_node now n).
    split; [|by case_decide; left]. apply list_elem_of_fmap. by exists (retry_node now n).
  - exists j'. split; [simpl; rewrite dget_dset_ne by (simpl; congruence); apply dget_dset_eq|]. split; [done|].
    right. exists (retry_node now n). split; [done | by left].
Qed.

Lemma completion_live db receipt event j n db' :
  live j -> plan_dependencies j = dep_map_of j -> n ∈ j_node_executions j ->
  _apply_registered_completion registry now env db receipt event j n = Ok db' ->
  good_outcome db' (j_id j).
Proof.
  intros [Hpl Hor _] Hdm Hn. unfold _apply_registered_completion.
  destruct (match _.[? _] with Some _ => _ | None => _ end) as [out|]; [|done].
  destruct (db_artifacts db).[? out] as [a|]; [|done]. destruct (_ && _); [|done].
  set (j1 := update_node (ne_id n) (succeed_node now out None None) j).
  assert (HF : Forall2 quiet (j_node_executions j) (j_node_executions j1)) by (by apply update_node_quiet).
  assert (Hpl1 : live_plan j1) by (apply (live_plan_same j j1); [split; [done | by apply quiet_same_row] | done]).
  assert (Hor1 : no_orphan j1) by (by apply (no_orphan_quiet j j1)).
  destruct (_write_artifact_cache_for_node _ _ _ _ _) as [db0|]; [|done].
  unfold finalize_rows. destruct (_apply_job_finalization now j1 (db_artifacts db0)) as [[[] j2] arts] eqn:Hf.
  - intros [= <-]. assert (Hfin : forall m, m ∈ j_node_executions j1 -> active (ne_status m) = false).
    { intros m Hm. unfold _apply_job_finalization, final_status in Hf.
      destruct (existsb (fun n => active (ne_status n)) (j_node_executions j1)) eqn:Hex; [by simplify_eq|].
      by apply (existsb_false_elem _ _ m Hex). }
    assert (Hl1 : live j1).
    { split; [done | done |]. intros m Hm Hp. specialize (Hfin m Hm). by rewrite Hp in Hfin. }
    pose proof (finalization_live now j1 _ _ _ _ Hl1 Hf) as [Hl2 Hprog].
    assert (Hid : j_id j2 = j_id j).
    { unfold _apply_job_finalization in Hf. destruct (final_status j1) as [[]|]; by simplify_eq. }
    exists j2. simpl. rewrite <- Hid. split; [apply dget_dset_eq | done].
  - destruct (_stage_receipt_dispatches _ _ _ _ _ _ _) as [[j3 db3]|] eqn:Hst; [|done].
    unfold _stage_receipt_dispatches in Hst.
    pose proof (stage_rounds_spec registry now env receipt _ _ _ _ _ (pending_count_le j1) Hst) as [_ Hok].
    destruct (Hok j3 db3 eq_refl) as [(Hsn & Hss & Hid & HF3) Hsat].
    assert (Hpl3 : live_plan j3) by (apply (live_plan_same j1 j3); [split; [done | by apply quiet_same_row] | done]).
    assert (Hl3 : live j3).
    { split; [done | by apply (no_orphan_quiet j1 j3) |]. intros m Hm Hp.
      destruct (lp_keys j3 Hpl3 m Hm) as [deps Hdeps]. unfold job_deps, dget_or. fold (dep_map_of j3).
      rewrite Hdeps. eapply Hsat; [| by apply ne_by_node_id_self; [apply Hpl3|] | done].
      change (plan_dependencies j1) with (plan_dependencies j). rewrite Hdm.
      unfold dep_map_of in Hdeps. rewrite Hsn in Hdeps. apply elem_of_dget; [apply dep_map_NoDup | exact Hdeps]. }
    destruct (_apply_job_finalization now j3 (db_artifacts db3)) as [[b j4] arts4] eqn:Hf4.
    pose proof (finalization_live now j3 _ _ _ _ Hl3 Hf4) as [Hl4 Hprog]. intros [= <-].
    assert (Hid4 : j_id j4 = j_id j).
    { unfold _apply_job_finalization in Hf4. destruct (final_status j3) as [[]|]; by simplify_eq. }
    exists j4. simpl. rewrite <- Hid4. split; [apply dget_dset_eq | done].
Qed.
End Events.

(** ** Theorems *)

(**  The staging loop of a completion always ends, and when it returns no
    pending node is left whose dependencies all succeeded. *)
Theorem staging_saturates registry now env receipt (j : Job) (db : Db) dep_map :
  let r := _stage_receipt_dispatches registry now env receipt j db dep_map in
  r <> Raise Diverges
  /\ forall j' db', r = Ok (j', db') ->
       forall nid deps n, (nid, deps) ∈ dep_map -> (ne_by_node_id j').[? nid] = Some n ->
         ne_status n = NodeStatus.PENDING -> deps_succeeded j' deps = false.
Proof.
  intros r. destruct (stage_rounds_spec registry now env receipt _ j db dep_map r (pending_count_le j) eq_refl)
    as [Hnd Hok].
  split; [done|]. intros j' db' Heq. by apply (Hok j' db').
Qed.

(** C4.  The events of registered workers never leave a job stuck: applied to a
    live job of a consistent database, a completion or failure leaves it live, and either
    finished or with a queued or running node. *)
Theorem registered_event_progress registry setting now env db receipt event j db' :
  db_inv db -> (db_jobs db).[? ev_job_id event] = Some j -> live j ->
  apply_registered_worker_event registry setting now env db receipt event = Ok db' ->
  exists j', (db_jobs db').[? ev_job_id event] = Some j' /\ live j'
    /\ (terminal_job (j_status j') = true \/ in_progress j').
Proof.
  intros Hdb Hj Hl. destruct (Hdb _ _ Hj) as [Hid Hinv]. unfold apply_registered_worker_event.
  destruct (_require_accepted_receipt receipt event); [|done]. rewrite Hj.
  destruct (find_node _ j) as [n|] eqn:Hn; [|done]. destruct (bool_decide _ && _ && _) eqn:Hc; [|done].
  apply andb_prop in Hc as [Hc _]. apply andb_prop in Hc as [Hjs%bool_decide_eq_true Hs%bool_decide_eq_true].
  destruct (find_node_elem _ _ _ Hn) as [Hin Hnid]. rewrite <- Hid.
  assert (Hplan : j_execution_plan j <> None /\ plan_dependencies j = dep_map_of j).
  { pose proof (ji_plan j Hinv) as Hp. unfold plan_dependencies. by destruct (j_execution_plan j). }
  destruct Hplan as [Hp1 Hp2]. destruct (_ =? _)%string; [by apply completion_live|].
  unfold _apply_registered_failure. destruct (ne_retry_count n <? 1)%Z; [|by apply fail_exhausted_live].
  destruct (_stage_receipt_dispatch _ _ _ _ _ _ _ _ _) as [db1|] eqn:Hst; [|done].
  destruct (rc_id receipt) as [rid|]; [|done].
  destruct (_release_sqlite _ _ _ _) as [[nid db2]|] eqn:Hrel; [|done]. intros [= <-].
  eapply retry_live; [done | done | done | exact Hrel |]. apply stage_dispatch_receipt_jobs in Hst.
  intros id' j0. rewrite Hst. apply Hdb.
Qed.

(** ** Created jobs have a live plan *)

Lemma depends_graph_edge d x y :
  (forall e, e ∈ edges d -> e_source e ∈ node_ids d /\ e_target e ∈ node_ids d) ->
  depends (build_dependency_map d) x y -> graph_edge d x y.
Proof.
  intros Hend (deps & Hin & Hx). destruct (build_dependency_map_spec d) as [Hk Hg].
  apply elem_of_dget in Hin; [|rewrite Hk; apply NoDup_node_ids].
  assert (Hy : y ∈ node_ids d) by (rewrite <- Hk; apply elem_of_dkeys; eauto).
  rewrite Hg in Hin by done. injection Hin as <-. apply list_elem_of_fmap in Hx as (e & -> & He).
  apply elem_of_lfilter in He as [He Ht%String.eqb_eq]. destruct (Hend e He) as [Hs _].
  exists e. by split_and!.
Qed.

Lemma wf_live_plan registry j :
  well_formed registry (j_pipeline_snapshot j) -> NoDup (map n_id (nodes (j_pipeline_snapshot j))) ->
  NoDup (map ne_id (j_node_executions j)) ->
  map ne_node_id (j_node_executions j) = map n_id (nodes (j_pipeline_snapshot j)) -> live_plan j.
Proof.
  intros Hwf Hnd Hids Hrows. destruct (build_dependency_map_spec (j_pipeline_snapshot j)) as [Hk _].
  assert (Hmem : forall x, x ∈ node_ids (j_pipeline_snapshot j) <-> x ∈ map ne_node_id (j_node_executions j)).
  { intros x. unfold node_ids, nodes_by_id. by rewrite elem_of_dkeys_dict_of, map_map, Hrows. }
  split.
  - done.
  - by rewrite Hrows.
  - intros n Hn. apply elem_of_dkeys. unfold dep_map_of. rewrite Hk. apply Hmem. by apply list_elem_of_fmap_2.
  - intros d n Hd. apply depends_graph_edge in Hd as (e & _ & _ & _ & Hd & _); [|apply Hwf].
    apply Hmem, list_elem_of_fmap in Hd as (m & -> & Hm). eauto.
  - intros w Hw. apply (wf_acyclic _ _ Hwf w). revert Hw. apply tc_mono. intros a b.
    apply depends_graph_edge, Hwf.
Qed.

(** ** Witness: the sample run with its second node claimed by a registered worker *)

Definition out_key : uuid := "00000000-0000-0000-0000-0000000000b2".

Definition live_job : Job :=
  update_node "u2" (start_node "w1" 20 (Some "r1") (Some 1%Z)) run4_job.

Definition live_db : Db :=
  put_artifacts [(out_key, {| a_id := out_key; a_job_id := "u0"; a_node_execution_id := "u2"; a_kind := INTERMEDIATE;
                              a_filename := "t.mp4"; a_mime_type := None; a_file_size := None;
                              a_storage_backend := "local"; a_storage_path := "/t.mp4"; a_media_info := [] |})]
    (put_job live_job run4).

Definition live_event : RegisteredWorkerEvent :=
  {| ev_redis_stream := "vp:events"; ev_consumer_group := "orchestrator"; ev_message_id := "1-0";
     ev_payload := [("output_artifact_id", out_key)]; ev_payload_sha256 := sha_zero;
     ev_event_type := "node_completed"; ev_job_id := "u0"; ev_node_execution_id := "u2";
     ev_claim := {| cl_job_id := "u0"; cl_node_execution_id := "u2"; cl_worker_id := "w1"; cl_started_at := 20;
                    cl_worker_registration_id := Some "r1"; cl_worker_lease_epoch := Some 1%Z |};
     ev_source_task_stream := "vp:tasks:ffmpeg"; ev_source_task_group := "ffmpeg-workers";
     ev_source_task_message_id := "1-0"; ev_source_task_payload_sha256 := sha_zero;
     ev_source_task_dispatch_key := "dispatch_key-u2" |}.

Definition live_receipt : RegisteredWorkerEventReceipt :=
  {| rc_id := Some "rc1"; rc_source_task_attestation_id := "a1"; rc_redis_stream := "vp:events";
     rc_consumer_group := "orchestrator"; rc_message_id := "1-0"; rc_payload_sha256 := sha_zero;
     rc_payload_json := []; rc_event_type := "node_completed"; rc_job_id := "u0"; rc_node_execution_id := "u2";
     rc_worker_registration_id := "r1"; rc_worker_lease_epoch := 1; rc_worker_id := "w1";
     rc_worker_started_at := 20; rc_source_task_stream := "vp:tasks:ffmpeg";
     rc_source_task_group := "ffmpeg-workers"; rc_source_task_message_id := "1-0";
     rc_application_state := "accepted"; rc_ack_state := "pending"; rc_source_task_ack_state := "pending";
     rc_accepted_at := 30; rc_applied_at := None; rc_acknowledged_at := None;
     rc_source_task_acknowledged_at := None |}.

Lemma live_job_inv : job_inv live_job.
Proof.
  assert (Hinv : job_inv run4_job).
  { apply (reachable_inv builtin_registry "" empty_db run4 [] "u0"); [done | apply run_steps | vm_compute; done]. }
  apply (update_node_safe run4_job "u2" (nth 1 (j_node_executions run4_job) (new_node_execution "" (sample_node "" "" []))));
    [vm_compute; done | | done]. apply start_node_step. vm_compute. done.
Qed.

Lemma live_db_inv : db_inv live_db.
Proof.
  assert (Hjobs : db_jobs live_db = [("u0", live_job)]) by (vm_compute; reflexivity).
  intros id j Hj. rewrite Hjobs in Hj. simpl in Hj. case_decide as Hid; [|done]. injection Hj as <-.
  split; [by rewrite Hid; vm_compute | apply live_job_inv].
Qed.

Lemma live_job_live : live live_job.
Proof.
  split.
  - apply (wf_live_plan builtin_registry).
    + apply (validate_pipeline_wf _ _ {| valid := true; errors := []; warnings := [] |}); vm_compute; done.
    + apply (bool_decide_eq_true_1 _). vm_compute. done.
    + apply (bool_decide_eq_true_1 _). vm_compute. done.
    + vm_compute. done.
  - assert (HF : Forall (fun m => failed_status (ne_status m) = false) (j_node_executions live_job))
      by (vm_compute; repeat constructor).
    rewrite Forall_forall in HF. intros n m _ Hm _ _. by apply HF.
  - assert (HF : Forall (fun n => ne_status n = NodeStatus.PENDING -> deps_succeeded live_job (job_deps live_job n) = false)
      (j_node_executions live_job)) by (vm_compute; repeat constructor; done).
    rewrite Forall_forall in HF. intros n Hn Hp. by apply HF.
Qed.

Definition live_result : Db :=
  ok_or empty_db (apply_registered_worker_event builtin_registry "" 40 sample_env live_db
                    live_receipt live_event).

Lemma registered_event_progress_witness :
  exists j', (db_jobs live_result).[? "u0"] = Some j' /\ live j'
    /\ (terminal_job (j_status j') = true \/ in_progress j').
Proof.
  apply (registered_event_progress builtin_registry "" 40 sample_env live_db live_receipt
           live_event live_job).
  - apply live_db_inv.
  - vm_compute. reflexivity.
  - apply live_job_live.
  - vm_compute. reflexivity.
Defined.

(** ** Jobs that start_job leaves stuck *)

(** In any later state a row below a failed one is not launched, and the job has not succeeded. *)
Lemma orphan_never_runs registry setting s s' id j n m :
  sys_inv s -> rtc (moves registry setting) s s' ->
  (db_jobs s.1).[? id] = Some j -> NoDup (map ne_node_id (j_node_executions j)) ->
  n ∈ j_node_executions j -> m ∈ j_node_executions j -> ne_node_type n <> "source" ->
  failed_status (ne_status m) = true -> ne_output_artifact_id m = None -> ne_node_id m ∈ job_deps j n ->
  exists j' n', (db_jobs s'.1).[? id] = Some j' /\ j_status j' <> JobStatus.SUCCEEDED
    /\ n' ∈ j_node_executions j' /\ ne_id n' = ne_id n /\ launched (ne_status n') = false.
Proof.
  intros Hs Hst Hj Hnd Hn Hm Hsrc Hf Ho Hdep. destruct (moves_ok _ _ _ _ Hst Hs) as [[Hinv' _] Hdr].
  destruct (Hdr id j Hj) as (j' & Hj' & _ & Hsn & HF). destruct (Hinv' id j' Hj') as [_ Hjinv].
  assert (Hsame : Forall2 same_row (j_node_executions j) (j_node_executions j'))
    by (eapply Forall2_impl; [exact HF | by intros ? ? []]).
  destruct (same_rows_ids _ _ Hsame) as [_ Hnids].
  apply list_elem_of_lookup in Hn as [i Hi], Hm as [k Hk].
  destruct (Forall2_lookup_l _ _ _ _ _ HF Hi) as (n' & Hn' & (Eid & Enid & Ety) & _).
  destruct (Forall2_lookup_l _ _ _ _ _ HF Hk) as (m' & Hm' & (_ & Emid & _) & Hfz).
  apply list_elem_of_lookup_2 in Hn', Hm'. destruct Hfz as [Ho' Hms]; [by destruct (ne_status m)|].
  exists j', n'. split_and!; try done.
  - intros Hsucc. pose proof (ji_succeeded j' Hjinv Hsucc) as Hall. rewrite Forall_forall in Hall.
    destruct (Hall m' Hm') as [[o Hout] _]. congruence.
  - destruct (launched (ne_status n')) eqn:Hl; [|done]. exfalso.
    destruct (deps_succeeded_elem j' (job_deps j' n') (ne_node_id m')) as (m1 & Hm1 & Hs1).
    + apply (ri_deps _ _ (ji_rows j' Hjinv n' Hn') Hl). congruence.
    + unfold job_deps. by rewrite Hsn, Enid, Emid.
    + rewrite ne_by_node_id_self in Hm1 by (rewrite ?Hnids; done). injection Hm1 as <-.
      destruct Hms as [Hms|Hms]; [|congruence]. rewrite <- Hms, Hs1 in Hf. done.
Qed.

(** A pending row waits for a failed one. *)
Record stalled (nid mid : uuid) (j : Job) : Prop := {
  sl_ids : NoDup (map ne_id (j_node_executions j));
  sl_node_ids : NoDup (map ne_node_id (j_node_executions j));
  sl_rows : exists n m, n ∈ j_node_executions j /\ m ∈ j_node_executions j /\ ne_id n = nid /\ ne_id m = mid
    /\ ne_status n = NodeStatus.PENDING /\ ne_node_type n <> "source" /\ ne_status m = NodeStatus.FAILED
    /\ ne_output_artifact_id m = None /\ ne_node_id m ∈ job_deps j n }.

Lemma stalled_set_job nid mid s c e j : stalled nid mid j -> stalled nid mid (set_job s c e j).
Proof. by intros [? ? ?]. Qed.

Lemma stalled_rows nid mid j f :
  KeepsIdentity f -> (forall n, ne_id n = nid -> ne_status n = NodeStatus.PENDING -> ne_status (f n) = NodeStatus.PENDING) ->
  (forall m, ne_status m = NodeStatus.FAILED -> f m = m) -> stalled nid mid j -> stalled nid mid (map_nodes f j).
Proof.
  intros [H1 H2 H3] Hp Hf [Hi Hni (n & m & Hn & Hm & En & Em & Sn & Tn & Sm & Om & Hd)]. split; simpl.
  - by rewrite map_map, (map_ext _ ne_id).
  - by rewrite map_map, (map_ext _ ne_node_id).
  - exists (f n), m. split_and!; try done.
    + by apply elem_map.
    + rewrite <- (Hf m Sm). by apply elem_map.
    + by rewrite H1.
    + auto.
    + by rewrite H3.
    + unfold job_deps. by rewrite H2.
Qed.

#[export] Instance when_identity (P : NodeExecution -> Prop) `{!forall n, Decision (P n)} f :
  KeepsIdentity f -> KeepsIdentity (fun n => if decide (P n) then f n else n).
Proof. intros [H1 H2 H3]. split; intros n; case_decide; auto. Qed.

Lemma stalled_update nid mid j x f :
  KeepsIdentity f -> x <> nid -> (forall n, n ∈ j_node_executions j -> ne_id n = x -> ne_status n <> NodeStatus.FAILED) ->
  stalled nid mid j -> stalled nid mid (update_node x f j).
Proof.
  intros Hf Hx Hnf Hst. pose proof Hst as [Hi Hni (n & m & Hn & Hm & En & Em & Sn & Tn & Sm & Om & Hd)].
  destruct (update_node_ids x f j Hf) as [E1 E2]. split; [by rewrite E1|by rewrite E2|].
  assert (Hmx : ne_id m <> x) by (intros He; by apply (Hnf m Hm He)).
  assert (Hkeep : forall r, r ∈ j_node_executions j -> ne_id r <> x -> r ∈ j_node_executions (update_node x f j)).
  { intros r Hr Hrx. simpl. apply list_elem_of_fmap. exists r. by rewrite decide_False. }
  exists n, m. split_and!; try done; apply Hkeep; try done. congruence.
Qed.

Lemma stalled_not_ready nid mid j n : stalled nid mid j -> n ∈ j_node_executions j -> ne_id n = nid -> deps_succeeded j (job_deps j n) = false.
Proof.
  intros [Hi Hni (n0 & m & Hn & Hm & En & Em & Sn & Tn & Sm & Om & Hd)] Hn' Hid.
  assert (n = n0) as -> by (eapply NoDup_map_inj; [exact Hi| | |]; congruence).
  destruct (deps_succeeded j (job_deps j n0)) eqn:He; [|done].
  destruct (deps_succeeded_elem j _ _ He Hd) as (m' & Hm' & Hs'). rewrite ne_by_node_id_self in Hm' by done. congruence.
Qed.

Section Stalled.
Context (registry : NodeTypeRegistry) (setting : string) (now : datetime) (env : Env) (nid mid : uuid).

(** The job with key [id] waits, with the status [st] or outside the window. *)
Definition waits (id : uuid) (st : JobStatus.t) (db : Db) (j : Job) : Prop :=
  (db_jobs db).[? id] = Some j /\ j_id j = id /\ stalled nid mid j
  /\ (j_status j = st \/ j_status j = JobStatus.WAITING_WINDOW).

Lemma lock_initial_waits db id st j : waits id st db j ->
  match _lock_initial_launch_authority setting db id with
  | (Some j', db') => j' = j /\ db' = db
  | (None, db') => exists j', waits id st db' j'
  end.
Proof.
  intros Hw. pose proof Hw as (Hj & Hid & Hs & Hst). unfold _lock_initial_launch_authority.
  destruct (lock_job_execution_authority _ _ _ _ _) as [[au locks]|] eqn:Hlock; [|by exists j].
  assert (Hau : (db_jobs db).[? id] = Some (au_job au)).
  { unfold lock_job_execution_authority in Hlock. by repeat case_match; simplify_eq. }
  rewrite Hj in Hau. injection Hau as <-.
  destruct (channel_blocked _); [by exists j|]. destruct (task_blocked _); [by exists j|].
  destruct (terminal_job _); [by exists j|]. destruct (should_defer_job_start _ _ _); [|done].
  exists (defer_job_until_next_window j). split_and!; [rewrite <- Hid; apply dget_dset_eq|done| |by right].
  apply stalled_set_job, (stalled_rows nid mid j reset_active_node); [| | |done].
  - split; intros n; unfold reset_active_node; by destruct (active _).
  - intros n _ Hp. unfold reset_active_node. by rewrite Hp.
  - intros m Hm. unfold reset_active_node. by rewrite Hm.
Qed.

Lemma dispatch_locked_waits db id st mem x sig mem' db' :
  db_inv db -> waits id st db mem -> dispatch_locked registry setting now env mem db x = Ok (sig, mem', db') ->
  exists j', waits id st db' j' /\ mem' = j'.
Proof.
  intros Hdb Hw. pose proof Hw as (Hj & Hid & Hs & Hst). unfold dispatch_locked. rewrite Hid.
  destruct (_lock_dispatch_authority setting db id x) as [[j n]|] eqn:Hl; [|intros [= <- <- <-]; by exists mem].
  apply lock_dispatch_spec in Hl as (Hj' & Hn & Hp & Hr). rewrite Hj in Hj'. injection Hj' as <-.
  destruct (Hdb id mem Hj) as [_ Hinv]. destruct (find_node_elem _ _ _ Hn) as [Hin Hnid].
  destruct (deps_succeeded mem (dget_or _ _ _)) eqn:Hd; simpl; [|intros [= <- <- <-]; by exists mem].
  rewrite plan_deps_running in Hd by done.
  assert (Hx : ne_id n <> nid) by (intros He; by rewrite (stalled_not_ready nid mid mem n) in Hd).
  assert (Hupd : forall f, KeepsIdentity f -> stalled nid mid (update_node (ne_id n) f mem)).
  { intros f Hf. apply stalled_update; [done|done| |done]. intros r Hr' He.
    assert (r = n) as -> by (eapply NoDup_map_inj; [apply (ji_ids mem Hinv)| | |]; congruence). congruence. }
  destruct (_apply_cached_artifact_uncommitted _ _ _ _ _ _ _) as [[[[] j'] db1]|] eqn:Hc; [| |done];
    apply apply_cached_spec in Hc.
  - destruct Hc as (out & started & ids & -> & Hjobs). intros [= <- <- <-]. eexists. split; [|done].
    split_and!; [rewrite Hjobs, <- Hid; apply dget_dset_eq|done|apply Hupd; apply _|done].
  - destruct (stage_task _ _ _ _ _ _ _ _) as [db2|]; [|done]. intros [= <- <- <-]. eexists. split; [|done].
    split_and!; [rewrite <- Hid; apply dget_dset_eq|done|apply Hupd; apply _|done].
Qed.

Lemma dispatch_node_waits guard dm db id st mem x sig mem' db' :
  db_inv db -> waits id st db mem -> dispatch_node registry setting now env guard dm mem db x = Ok (sig, mem', db') ->
  exists j', waits id st db' j' /\ (sig = Continue -> mem' = j').
Proof.
  intros Hdb Hw. pose proof Hw as (Hj & Hid & _). unfold dispatch_node.
  destruct (ready_node mem dm x) as [n|]; [|intros [= <- <- <-]; by exists mem]. rewrite Hid.
  destruct guard; [|intros Hd%(dispatch_locked_waits db id st); [naive_solver|done..]].
  pose proof (lock_initial_waits db id st mem Hw) as Hl.
  destruct (_lock_initial_launch_authority setting db id) as [[j1|] db1];
    [|intros [= <- <- <-]; destruct Hl as [j' ?]; by exists j'].
  destruct Hl as [-> ->]. destruct (ready_node mem _ x); [|intros [= <- <- <-]; by exists mem].
  intros Hd%(dispatch_locked_waits db id st); [naive_solver|done..].
Qed.

Lemma dispatch_pass_waits guard dm ids db id st mem mem' db' sig :
  db_inv db -> waits id st db mem -> dispatch_pass registry setting now env guard dm ids mem db = (mem', db', Ok sig) ->
  exists j', waits id st db' j' /\ (sig = Continue -> mem' = j').
Proof.
  revert db mem. induction ids as [|x ids IH]; intros db mem Hdb Hw; simpl; [intros [= <- <- <-]; by exists mem|].
  destruct (dispatch_node _ _ _ _ _ _ _ _ _) as [[[s1 mem1] db1]|] eqn:Hd; [|done].
  pose proof (dispatch_node_ok _ _ _ _ _ _ _ _ _ _ _ _ Hd Hdb) as Hok.
  destruct (dispatch_node_waits _ _ _ _ _ _ _ _ _ _ Hdb Hw Hd) as (j1 & Hw1 & Hm1).
  destruct Hok as [[Hdb1 _] _]; [pose proof Hw as (Hj & <- & _); by eapply mem_row|].
  destruct s1; [|intros [= <- <- <-]; by exists j1]. rewrite (Hm1 eq_refl). by apply IH.
Qed.

Lemma start_dispatch_waits db id st j db' :
  db_inv db -> waits id st db j -> start_dispatch registry setting now env db id = (db', Ok ()) -> exists j', waits id st db' j'.
Proof.
  intros Hdb Hw. unfold start_dispatch. pose proof (lock_initial_waits db id st j Hw) as Hl.
  destruct (_lock_initial_launch_authority setting db id) as [[j1|] db1]; [|by intros [= <-]].
  destruct Hl as [-> ->]. unfold _dispatch_ready_nodes. case_bool_decide; [intros [= <-]; by exists j|].
  destruct (dispatch_pass _ _ _ _ _ _ _ _ _) as [[mem db2] [sig|]] eqn:Hp; [|done].
  destruct (dispatch_pass_waits _ _ _ _ _ _ _ _ _ _ Hdb Hw Hp) as (j2 & Hw2 & Hm2).
  destruct sig; [|intros [= <-]; by exists j2]. rewrite (Hm2 eq_refl).
  pose proof Hw2 as (Hj2 & Hid2 & [_ _ (n & m & Hn & _ & _ & _ & Sn & _)] & _).
  unfold _maybe_finalize_job, _apply_job_finalization.
  assert (final_status j2 = None) as ->; [|intros [= <-]; by exists j2].
  unfold final_status. assert (existsb (fun n => active (ne_status n)) (j_node_executions j2) = true) as ->; [|done].
  apply existsb_exists. exists n. split; [by apply list_elem_of_In|by rewrite Sn].
Qed.
End Stalled.

(** A source that cannot be resolved: it names no asset, or one that is not stored. *)
Definition unresolvable (assets : list (uuid * Asset)) (n : NodeExecution) : bool :=
  let asset_id := dict_get (ne_node_config n) "asset_id" in
  (ne_node_type n =? "source")%string && active (ne_status n)
  && (negb (truthy asset_id)
      || match py_uuid asset_id with Ok key => bool_decide (assets.[? key] = None) | Raise _ => false end).

Lemma resolve_unresolvable now env assets jid n r :
  unresolvable assets n = true -> resolve_source now env assets jid n = Ok r ->
  ne_status r.1 = NodeStatus.FAILED /\ ne_output_artifact_id r.1 = ne_output_artifact_id n.
Proof.
  intros [[Hty Ha]%andb_prop Hmiss]%andb_prop. unfold resolve_source. rewrite Hty. cbn [negb].
  assert (has_status NodeStatus.SUCCEEDED n = false) as -> by (apply bool_decide_eq_false; intros He; by rewrite He in Ha).
  assert (failed_status (ne_status n) = false) as -> by (by destruct (ne_status n)).
  cbn [andb]. destruct (truthy _); cbn [negb orb] in *; [|by intros [= <-]].
  destruct (py_uuid _) as [key|]; [|done]. apply bool_decide_eq_true in Hmiss. rewrite Hmiss. by intros [= <-].
Qed.

Lemma reset_unclaimed_active n : active (ne_status (reset_unclaimed n)) = active (ne_status n)
  /\ ne_node_config (reset_unclaimed n) = ne_node_config n /\ ne_node_type (reset_unclaimed n) = ne_node_type n
  /\ (ne_status n = NodeStatus.PENDING -> reset_unclaimed n = n).
Proof.
  unfold reset_unclaimed, has_status. repeat case_match; try done.
  match goal with H : bool_decide _ = true |- _ => apply bool_decide_eq_true in H as Hq end.
  split_and!; simpl; try done; [by rewrite Hq|congruence].
Qed.

Lemma unresolvable_reset assets n : unresolvable assets n = true -> unresolvable assets (reset_unclaimed n) = true.
Proof. unfold unresolvable. by destruct (reset_unclaimed_active n) as (-> & -> & -> & _). Qed.

(** Planning and resolution leave a row below such a source waiting. *)
Lemma resolved_waits setting now env db id j n m db1 db2 :
  db_inv db -> (db_jobs db).[? id] = Some j -> NoDup (map ne_node_id (j_node_executions j)) ->
  m ∈ j_node_executions j -> unresolvable (db_assets db) m = true ->
  n ∈ j_node_executions j -> ne_status n = NodeStatus.PENDING -> ne_node_type n <> "source" -> ne_node_id m ∈ job_deps j n ->
  start_plan setting now db id = Ok (true, db1) -> start_resolve setting now env db1 id = Ok (true, db2) ->
  exists j2, waits (ne_id n) (ne_id m) id JobStatus.RUNNING db2 j2.
Proof.
  intros Hdb Hj Hnd Hm Hun Hn Sn Tn Hdep H1 H2. pose proof (start_plan_safe _ _ _ _ _ _ H1 Hdb) as [Hdb1 _].
  unfold start_plan in H1. pose proof (lock_initial_spec setting db id) as Hl.
  destruct (_lock_initial_launch_authority setting db id) as [[j0|] db0]; [|done].
  destruct Hl as (-> & Hj0 & _). rewrite Hj in Hj0. injection Hj0 as <-.
  destruct (topological_sort _) as [order|]; [|done]. injection H1 as <-.
  set (j1 := plan_job now order j) in *. destruct (Hdb id j Hj) as [Hid Hinv].
  assert (Hj1 : (db_jobs (put_job j1 db)).[? id] = Some j1) by (rewrite <- Hid; apply dget_dset_eq).
  unfold start_resolve in H2. pose proof (lock_initial_spec setting (put_job j1 db) id) as Hl.
  destruct (_lock_initial_launch_authority setting (put_job j1 db) id) as [[j0|] db0]; [|done].
  destruct Hl as (-> & Hj0 & _). rewrite Hj1 in Hj0. injection Hj0 as <-.
  unfold _resolve_source_nodes in H2. destruct (mapMR _ _) as [rs|] eqn:Hrs; [|done]. injection H2 as <-.
  destruct (Hdb1 id j1 Hj1) as [_ Hinv1]. apply mapMR_Forall2 in Hrs.
  assert (Hrow : Forall2 (fun a r => same_row a r.1 /\ resolve_source now env (db_assets db) (j_id j1) a = Ok r) (j_node_executions j1) rs).
  { eapply Forall2_impl_In; [exact Hrs|]. intros a r Ha _ Hr. split; [|done].
    by apply (resolve_source_step now env (db_assets db) (j_id j1) j1 a r (ji_rows j1 Hinv1 a Ha) Hr). }
  assert (Hsame : Forall2 same_row (j_node_executions j1) (map fst rs)) by (apply Forall2_fmap_r; eapply Forall2_impl; [exact Hrow|]; by intros ? ? []).
  destruct (same_rows_ids _ _ Hsame) as [E1 E2].
  assert (Hget : forall a, a ∈ j_node_executions j -> exists r, r.1 ∈ map fst rs /\ same_row (reset_unclaimed a) r.1
    /\ resolve_source now env (db_assets db) (j_id j1) (reset_unclaimed a) = Ok r).
  { intros a Ha. apply (elem_map reset_unclaimed) in Ha. apply list_elem_of_lookup in Ha as [i Hi].
    destruct (Forall2_lookup_l _ _ _ _ _ Hrow Hi) as (r & Hr & ? & ?). exists r. split; [|done].
    apply elem_map. by eapply list_elem_of_lookup_2. }
  destruct (Hget m Hm) as (rm & Hrm & (Im & Nm & _) & Rm), (Hget n Hn) as (rn & Hrn & (In' & Nn & Tn') & Rn).
  destruct (resolve_unresolvable _ _ _ _ _ _ (unresolvable_reset _ m Hun) Rm) as [Fm Om].
  destruct (reset_unclaimed_active n) as (_ & _ & _ & Hrn'). rewrite (Hrn' Sn) in *.
  assert (Hr1 : rn.1 = n).
  { unfold resolve_source in Rn. rewrite (proj2 (String.eqb_neq _ _) Tn) in Rn. by injection Rn as <-. }
  assert (Hids : forall a, ne_id (reset_unclaimed a) = ne_id a /\ ne_node_id (reset_unclaimed a) = ne_node_id a
    /\ ne_output_artifact_id (reset_unclaimed a) = ne_output_artifact_id a).
  { intros a. unfold reset_unclaimed. by repeat case_match. }
  destruct (Hids m) as (Idm & Ndm & Odm).
  exists (set_nodes (map fst rs) j1). split_and!; [simpl; rewrite Hid; apply dget_dset_eq|done| |by left].
  split; simpl.
  - rewrite E1. simpl. rewrite map_map, (map_ext _ ne_id); [apply Hinv|]. intros a. apply Hids.
  - rewrite E2. simpl. rewrite map_map, (map_ext _ ne_node_id); [done|]. intros a. apply Hids.
  - exists n, rm.1. rewrite Hr1 in Hrn. split_and!; try done; [congruence| |unfold job_deps in *; simpl; congruence].
    rewrite Om, Odm. destruct (ne_output_artifact_id m) as [o|] eqn:Ho; [|done].
    pose proof (ri_produced _ _ (ji_rows j Hinv m Hm) ltac:(by rewrite Ho)) as Hp.
    apply andb_prop in Hun as [[_ Hact]%andb_prop _]. rewrite !elem_of_cons, elem_of_nil in Hp.
    by destruct Hp as [Hp|[Hp|[]]]; rewrite Hp in Hact.
Qed.

(** C28.  A job with a source whose asset is missing is left unfinished by [start_job].  In any
    state a history reaches, whatever the job: when its planning, its resolution and its
    dispatch return, the source has failed, a pending node that depends on it is pending
    still instead of being skipped, and the job is running (or waits for the window).  And in
    every history from there the node is neither queued, running nor succeeded and the job
    does not succeed. *)
Theorem missing_asset_leaves_job_running registry setting now env db0 db open id j n m db1 db2 db3 :
  db_jobs db0 = [] -> rtc (moves registry setting) (db0, []) (db, open) -> (db_jobs db).[? id] = Some j ->
  NoDup (map ne_node_id (j_node_executions j)) ->
  m ∈ j_node_executions j -> unresolvable (db_assets db) m = true ->
  n ∈ j_node_executions j -> ne_status n = NodeStatus.PENDING -> ne_node_type n <> "source" -> ne_node_id m ∈ job_deps j n ->
  start_plan setting now db id = Ok (true, db1) -> start_resolve setting now env db1 id = Ok (true, db2) ->
  start_dispatch registry setting now env db2 id = (db3, Ok ()) ->
  start_job registry setting now env db id = db3
  /\ (exists j3 n3 m3, (db_jobs db3).[? id] = Some j3
       /\ (j_status j3 = JobStatus.RUNNING \/ j_status j3 = JobStatus.WAITING_WINDOW)
       /\ n3 ∈ j_node_executions j3 /\ ne_id n3 = ne_id n /\ ne_status n3 = NodeStatus.PENDING
       /\ m3 ∈ j_node_executions j3 /\ ne_id m3 = ne_id m /\ ne_status m3 = NodeStatus.FAILED)
  /\ forall s', rtc (moves registry setting) (db3, open) s' ->
       exists j' n', (db_jobs s'.1).[? id] = Some j' /\ j_status j' <> JobStatus.SUCCEEDED
         /\ n' ∈ j_node_executions j' /\ ne_id n' = ne_id n /\ launched (ne_status n') = false.
Proof.
  intros H0 Hst Hj Hnd Hm Hun Hn Sn Tn Hdep H1 H2 H3. destruct (moves_ok _ _ _ _ Hst (empty_inv db0 H0)) as [Hs _].
  assert (start_job registry setting now env db id = db3) as Hstart by (unfold start_job; by rewrite H1, H2, H3).
  split; [done|]. destruct (resolved_waits setting now env db id j n m db1 db2) as (j2 & Hw2); [apply Hs|done..|].
  assert (Hdb2 : db_inv db2) by (eapply start_resolve_safe; [done|]; eapply start_plan_safe; [done|]; apply Hs).
  destruct (start_dispatch_waits registry setting now env _ _ db2 id _ j2 db3 Hdb2 Hw2 H3) as (j3 & Hw3).
  pose proof Hw3 as (Hj3 & _ & [_ Hni (n3 & m3 & Hn3 & Hm3 & En3 & Em3 & Sn3 & Tn3 & Sm3 & Om3 & Hd3)] & Hst3).
  split; [exists j3, n3, m3; split_and!; done|]. intros s' Hst'. rewrite <- En3.
  apply (orphan_never_runs registry setting (db3, open) s' id j3 n3 m3); try done; [|by rewrite Sm3].
  destruct (moves_ok registry setting (db, open) (db3, open)) as [Hs3 _]; [|done|done]. rewrite <- Hstart. apply start_job_moves.
Qed.

(** A run whose asset does not exist. *)
Definition missing_job : Job :=
  ok_or run_job
    (create_job builtin_registry index_uuid 7 (Some sample_runtime) "p"
       (Some [("asset_id", VStr "00000000-0000-0000-0000-00000000dead")])).

Definition missing1 : Db := put_job missing_job empty_db.
Definition missing2 : Db := (ok_or (false, empty_db) (start_plan "" 10 missing1 "u0")).2.
Definition missing3 : Db := (ok_or (false, empty_db) (start_resolve "" 10 sample_env missing2 "u0")).2.
Definition missing4 : Db := (start_dispatch builtin_registry "" 10 sample_env missing3 "u0").1.

Definition nth_node (i : nat) (j : Job) : NodeExecution :=
  nth i (j_node_executions j) (new_node_execution "" (sample_node "" "" [])).

Definition statuses_of (db : Db) (id : uuid) : option (JobStatus.t * list NodeStatus.t) :=
  match (db_jobs db).[? id] with
  | Some j => Some (j_status j, map ne_status (j_node_executions j))
  | None => None
  end.

Lemma missing_asset_leaves_job_running_witness :
  statuses_of missing4 "u0" = Some (JobStatus.RUNNING, [NodeStatus.FAILED; NodeStatus.PENDING; NodeStatus.PENDING])
  /\ db_dispatches missing4 = []
  /\ start_job builtin_registry "" 10 sample_env missing1 "u0" = missing4
  /\ forall s', rtc (moves builtin_registry "") (missing4, []) s' ->
       exists j' n', (db_jobs s'.1).[? "u0"] = Some j' /\ j_status j' <> JobStatus.SUCCEEDED
         /\ n' ∈ j_node_executions j' /\ ne_id n' = "u2" /\ launched (ne_status n') = false.
Proof.
  split; [vm_compute; reflexivity|]. split; [vm_compute; reflexivity|].
  destruct (missing_asset_leaves_job_running builtin_registry "" 10 sample_env empty_db missing1 [] "u0" missing_job
              (nth_node 1 missing_job) (nth_node 0 missing_job) missing2 missing3 missing4) as (Hs & _ & Hnever).
  - reflexivity.
  - apply transaction_moves, (st_create _ _ _ index_uuid 7 (Some sample_runtime) "p"
        (Some [("asset_id", VStr "00000000-0000-0000-0000-00000000dead")])).
    + apply index_uuid_inj.
    + vm_compute. reflexivity.
    + reflexivity.
  - vm_compute. reflexivity.
  - apply (bool_decide_eq_true_1 _). vm_compute. reflexivity.
  - vm_compute. left.
  - vm_compute. reflexivity.
  - vm_compute. right. left.
  - vm_compute. reflexivity.
  - vm_compute. discriminate.
  - vm_compute. left.
  - vm_compute. reflexivity.
  - vm_compute. reflexivity.
  - vm_compute. reflexivity.
  - split; [exact Hs|exact Hnever].
Defined.

(** A download that is listed after the node it feeds. *)
Definition reversed_runtime : PipelineDefinition :=
  {| nodes := [sample_node "x" "export" []; sample_node "d" "url_download" [("url", VStr "https://a.b/c")]];
     edges := [sample_edge "e1" "d" "output" "x" "input"]; viewport := default_viewport |}.

Definition forward_runtime : PipelineDefinition :=
  {| nodes := [sample_node "d" "url_download" [("url", VStr "https://a.b/c")]; sample_node "x" "export" []];
     edges := [sample_edge "e1" "d" "output" "x" "input"]; viewport := default_viewport |}.

(** The cache knows the download from an earlier job. *)
Definition cached_download : Artifact :=
  {| a_id := "old"; a_job_id := "earlier"; a_node_execution_id := "earlier-d"; a_kind := INTERMEDIATE;
     a_filename := "c.mp4"; a_mime_type := None; a_file_size := None; a_storage_backend := "local";
     a_storage_path := "/c.mp4"; a_media_info := [] |}.

Definition cached_db : Db :=
  ok_or empty_db (store sample_env 5 (put_artifacts [("old", cached_download)] empty_db) "url_download"
                    [("url", VStr "https://a.b/c")] [] cached_download "d" "earlier").

Definition launch (d : PipelineDefinition) : Db :=
  match create_job builtin_registry index_uuid 7 (Some d) "p" None with
  | Ok j => start_job builtin_registry "" 10 sample_env (put_job j cached_db) "u0"
  | Raise _ => empty_db
  end.

(**  [start_job] makes a single pass over the nodes in definition order.  When
    the artifact cache answers for a node that comes after the node it feeds, the
    pass has already gone by: the dependent stays pending, nothing is dispatched and
    no event will ever wake the job.  With the same nodes in the other order the
    dependent is dispatched. *)
Theorem cached_node_order_leaves_job_running :
  statuses_of (launch reversed_runtime) "u0"
  = Some (JobStatus.RUNNING, [NodeStatus.PENDING; NodeStatus.SUCCEEDED])
  /\ db_dispatches (launch reversed_runtime) = []
  /\ statuses_of (launch forward_runtime) "u0"
     = Some (JobStatus.RUNNING, [NodeStatus.SUCCEEDED; NodeStatus.QUEUED]).
Proof. vm_compute. split_and!; reflexivity. Qed.
