(* ===== verification/Listener.v ===== *)
(** * The event listener ([orchestrator/event_listener.py])

    One message of the event stream: events of unregistered workers go to the
    engine directly, events of registered workers through a receipt, the delivery of
    the tasks it staged, and the acknowledgement.  The receipt theorems are
    instantiated here with the engine's [apply_registered_worker_event]. *)

From stdpp Require Import base tactics list strings sorting relations.
From Stdlib Require Import ZArith Lia.
From S2P Require Import Prelude PyStr PyValue PyJson PyTime PyUuid NodeRegistry Pipeline JobModel WorkerModel RedisModel Schedule Authority ArtifactCache WorkerEvents Delivery Receipts ReceiptsOnce ReceiptsAck Retry Engine.

Open Scope string_scope.
Open Scope list_scope.

Definition EVENT_STREAM : string := "vp:events".
Definition CONSUMER_GROUP : string := "orchestrator".

Definition unverifiable {A} (msg : string) : Res A := Raise (RuntimeError msg).

Section Listener.
Context {R : Type} `{!RedisStore R}.
Context (registry : NodeTypeRegistry) (setting : string) (now : datetime) (env : Env) (recovery : Z).
Context (delivery_observer : Db -> RegisteredWorkerEvent -> Res uuid).

(** [None] when the event carries no valid claim. *)
Definition _execution_claim_from_event (data : payload) (job_id node_execution_id : uuid)
    : Res (option NodeExecutionClaim) :=
  match data.[? "worker_id"], data.[? "started_at"] with
  | Some worker_id, Some started_at_raw =>
      if negb (nonblank worker_id) then Ok None
      else
        match fromisoformat started_at_raw with
        | Some (started_at, true) =>
            let claim registration_id lease_epoch :=
              Ok (Some {| cl_job_id := job_id; cl_node_execution_id := node_execution_id;
                          cl_worker_id := strip worker_id; cl_started_at := started_at;
                          cl_worker_registration_id := registration_id;
                          cl_worker_lease_epoch := lease_epoch |}) in
            match data.[? "worker_registration_id"], data.[? "worker_lease_epoch"] with
            | None, None => claim None None
            | raw_registration_id, raw_lease_epoch =>
                match uuid_of_string (default "None" raw_registration_id), raw_lease_epoch with
                | Ok registration_id, Some raw =>
                    if negb (isdigit raw) then Ok None
                    else
                      match int_of_string raw with
                      | None => Raise (ValueError "Exceeds the limit for integer string conversion")
                      | Some lease_epoch =>
                          if (lease_epoch <=? 0)%Z then Ok None else claim (Some registration_id) (Some lease_epoch)
                      end
                | _, _ => Ok None
                end
            end
        | _ => Ok None
        end
  | _, _ => Ok None
  end.

Definition _ack_event (message_id : string) (data : payload) : Io R () :=
  match uuid_field data "job_id", uuid_field data "node_execution_id" with
  | Some job_id, Some node_execution_id =>
      let! claim := io_res (_execution_claim_from_event data job_id node_execution_id) in
      match claim with
      | None => io_res (unverifiable "event acknowledgement has no valid execution claim")
      | Some claim =>
          match cl_worker_registration_id claim with
          | None => let! _ := command (redis_xack EVENT_STREAM CONSUMER_GROUP message_id) in io_ret ()
          | Some _ => io_res (unverifiable "registered event acknowledgement requires an applied receipt")
          end
      end
  | _, _ => io_res (unverifiable "event acknowledgement has invalid identifiers")
  end.

(** The engine's own transactions, in order; an exception leaves the committed ones. *)
Definition run_completed (job_id nid output : uuid) (claim : NodeExecutionClaim) : Io R () := fun w =>
  let '(db', res) := on_node_completed registry setting now env w.1 job_id nid output claim in (res, (db', w.2)).

(** The retry of an unregistered node is published directly. *)
Definition run_failed (job_id nid : uuid) (error : string) (claim : NodeExecutionClaim) : Io R () :=
  let! task := transaction (fun db => '(db', task) ← on_node_failed setting now db job_id nid error claim; Ok (task, db')) in
  match task with
  | None => io_ret ()
  | Some task =>
      let! _ := command (redis_xadd ("vp:tasks:" +:+ worker_type_of registry (field task "node_type"))
                           (concat (map (fun kv => [kv.1; kv.2]) task))) in
      io_ret ()
  end.

Definition _handle_event (data : payload) : Io R () :=
  let event_type := field data "event" in
  if negb (bool_decide (data.[? "event"] ∈ [Some "node_completed"; Some "node_failed"])) then io_ret ()
  else
    match uuid_field data "job_id", uuid_field data "node_execution_id" with
    | Some job_id, Some node_execution_id =>
        if negb (dmem data "worker_id") && negb (dmem data "started_at") then
          io_res (unverifiable (event_type +:+ " event is missing execution claim"))
        else
          let! claim := io_res (_execution_claim_from_event data job_id node_execution_id) in
          match claim with
          | None => io_ret ()
          | Some claim =>
              match cl_worker_registration_id claim with
              | Some _ => io_res (unverifiable (event_type +:+ " registered event requires a durable receipt"))
              | None =>
                  if (event_type =? "node_completed")%string then
                    match uuid_field data "output_artifact_id" with
                    | None => io_ret ()
                    | Some output => run_completed job_id node_execution_id output claim
                    end
                  else run_failed job_id node_execution_id (dget_or data "error" "Unknown error") claim
              end
          end
    | _, _ => io_ret ()
    end.

Definition has_registration_claim (data : payload) : bool :=
  dmem data "worker_registration_id" || dmem data "worker_lease_epoch".

Definition _process_event (message_id : string) (data : payload) : Io R () :=
  if negb (has_registration_claim data) then
    let! _ := _handle_event data in
    _ack_event message_id data
  else
    let! event := io_res (parse_registered_worker_event env EVENT_STREAM CONSUMER_GROUP message_id data) in
    let! receipt_id := transaction (fun db => accept_and_apply setting now env delivery_observer
                                      (apply_registered_worker_event registry setting now env) db event) in
    match receipt_id with
    | None => transaction_redis (acknowledge_applied setting now env event)
    | Some receipt_id =>
        let! _ := deliver_pending_dispatches setting now env recovery (Some receipt_id) 100 in
        transaction_redis (acknowledge_applied setting now env event)
    end.

(** A step of a batch of maintenance: an exception is logged. *)
Definition logged (m : Io R ()) : Io R () := fun w => (Ok (), (m w).2).

(** [_reclaim_pending]; [claimed] is what [XAUTOCLAIM] returned. *)
Definition _reclaim_pending (claimed : list (string * payload)) : Io R () :=
  let! _ := logged (reconcile_cancelled_dispatches setting now recovery 100) in
  let! _ := logged (reconcile_pending_dispatches setting now env recovery 100) in
  let! _ := logged (reconcile_authorized_task_acknowledgements setting now 100) in
  let! _ := logged (reconcile_pending_acknowledgements setting now 100) in
  io_for claimed (fun '(message_id, data) =>
    match data with [] => io_ret () | _ => logged (_process_event message_id data) end).
End Listener.

(** ** The engine leaves the records of events alone *)

Definition event_rows (db : Db) := (db_receipts db, db_deliveries db, db_attestations db).

Lemma stage_task_rows registry now env db origin j n task db' :
  stage_task registry now env db origin j n task = Ok db' -> event_rows db' = event_rows db.
Proof. unfold stage_task, stage_worker_task_dispatch. intros H. repeat case_match; by simplify_eq. Qed.

Lemma lookup_rows env db t c inputs reg e db' :
  lookup env db t c inputs reg = Ok (e, db') -> event_rows db' = event_rows db.
Proof.
  unfold lookup, check_output. destruct (negb _); [by intros [= <- <-]|].
  destruct (cache_key _ _ _ _) as [key|]; simpl; [|done]. repeat case_match; intros [= <- <-]; simplify_eq; done.
Qed.

Lemma materialize_rows env db e jid nid a db' :
  materialize_hit env db e jid nid = Ok (a, db') -> event_rows db' = event_rows db.
Proof. unfold materialize_hit. repeat case_match; by intros [= <- <-]. Qed.

Lemma cached_rows now env db j n inputs reg b j' db' :
  _apply_cached_artifact_uncommitted now env db j n inputs reg = Ok (b, j', db') -> event_rows db' = event_rows db.
Proof.
  unfold _apply_cached_artifact_uncommitted. destruct (_ && _); [done|].
  destruct (lookup _ _ _ _ _ _) as [[[e|] db1]|] eqn:Hl.
  - apply lookup_rows in Hl. destruct (materialize_hit _ _ _ _ _) as [[a db2]|] eqn:Hm; [|done].
    apply materialize_rows in Hm. intros [= <- <- <-]. by rewrite <- Hl, <- Hm.
  - apply lookup_rows in Hl. by intros [= <- <- <-].
  - destruct reg; [done|]. by intros [= <- <- <-].
Qed.

Lemma write_cache_rows now env db j n db' :
  _write_artifact_cache_for_node now env db j n = Ok db' -> event_rows db' = event_rows db.
Proof.
  unfold _write_artifact_cache_for_node. destruct (ne_output_artifact_id n); [|by intros [= <-]].
  destruct ((db_artifacts db).[? _]); [|by intros [= <-]]. unfold store. destruct (negb _); [by intros [= <-]|].
  intros (k & _ & H)%bind_Ok. apply bind_Ok in H as (o & _ & H). apply bind_Ok in H as (st & _ & H).
  apply bind_Ok in H as (h & _ & H). by apply bind_Ok in H as (g & _ & [= <-]).
Qed.

Lemma stage_ready_rows registry now env receipt st entry st' :
  stage_ready_node registry now env receipt st entry = Ok st' -> event_rows st'.2 = event_rows st.2.
Proof.
  destruct st as [[b j] db], entry as [node_id deps]. unfold stage_ready_node.
  destruct ((ne_by_node_id j).[? node_id]) as [n|]; [|by intros [= <-]]. destruct (negb _); [by intros [= <-]|].
  destruct (_apply_cached_artifact_uncommitted _ _ _ _ _ _ _) as [[[[] j1] db1]|] eqn:Hc; [| |done];
    apply cached_rows in Hc; [by intros [= <-]|].
  unfold _stage_receipt_dispatch. destruct (rc_id receipt); [|done]. destruct (stage_task _ _ _ _ _ _ _ _) as [db2|] eqn:Hs; [|done].
  apply stage_task_rows in Hs. intros [= <-]. simpl in *. by rewrite <- Hc, <- Hs.
Qed.

Lemma stage_rounds_rows registry now env fuel receipt j db dep_map j' db' :
  stage_rounds registry now env fuel receipt j db dep_map = Ok (j', db') -> event_rows db' = event_rows db.
Proof.
  assert (Honce : forall l st st', foldM (stage_ready_node registry now env receipt) st l = Ok st' ->
                  event_rows st'.2 = event_rows st.2).
  { induction l as [|x l IH]; intros st st'; simpl; [by intros [= <-]|].
    destruct (stage_ready_node _ _ _ _ st x) as [st1|] eqn:Hs; [|done]. intros Hf%IH. by rewrite Hf, (stage_ready_rows _ _ _ _ _ _ _ Hs). }
  revert j db. induction fuel as [|fuel IH]; intros j db; simpl; unfold _stage_ready_receipt_dispatches_once;
    destruct (foldM _ _ _) as [[[[] j1] db1]|] eqn:Hf; try done; apply Honce in Hf; simpl in Hf.
  - by intros [= <- <-].
  - intros H%IH. by rewrite H.
  - by intros [= <- <-].
Qed.

Lemma finalize_rows_rows now j db : event_rows (finalize_rows now j db).2 = event_rows db.
Proof. unfold finalize_rows. by destruct (_apply_job_finalization _ _ _) as [[b j'] arts]. Qed.

Lemma fail_exhausted_rows now db j n error db' : fail_exhausted now db j n error = Ok db' -> event_rows db' = event_rows db.
Proof.
  unfold fail_exhausted, _maybe_finalize_job. destruct (_skip_downstream _ _ _ _); [|done].
  intros [= <-]. destruct (_apply_job_finalization _ _ _) as [[[] j'] arts]; [|done]. by destruct (_.[? _]).
Qed.

Lemma engine_event_rows registry setting now env db receipt ev db' :
  apply_registered_worker_event registry setting now env db receipt ev = Ok db' -> event_rows db' = event_rows db.
Proof.
  unfold apply_registered_worker_event. destruct (_require_accepted_receipt _ _); [|done].
  destruct ((db_jobs db).[? _]) as [j|]; [|done]. destruct (find_node _ j) as [n|]; [|done]. destruct (_ && _); [|done].
  destruct (_ =? _)%string.
  - unfold _apply_registered_completion. destruct (match _ with Some v => _ | None => _ end) as [out|]; [|done].
    destruct ((db_artifacts db).[? out]) as [art|]; [|done]. destruct (_ && _); [|done].
    destruct (_write_artifact_cache_for_node _ _ _ _ _) as [db1|] eqn:Hw; [|done]. apply write_cache_rows in Hw.
    pose proof (finalize_rows_rows now (update_node (ne_id n) (succeed_node now out None None) j) db1) as Hf.
    destruct (finalize_rows _ _ db1) as [[] db2]; simpl in Hf; [intros [= <-]; by rewrite Hf|].
    destruct (_stage_receipt_dispatches _ _ _ _ _ _ _) as [[j2 db3]|] eqn:Hs; [|done].
    apply stage_rounds_rows in Hs. intros [= <-]. by rewrite finalize_rows_rows, Hs, Hf.
  - unfold _apply_registered_failure. destruct (_ <? _)%Z; [|apply fail_exhausted_rows].
    unfold _stage_receipt_dispatch. destruct (rc_id receipt) as [rid|]; [|done].
    destruct (stage_task _ _ _ _ _ _ _ _) as [db1|] eqn:Hs; [|done]. apply stage_task_rows in Hs.
    destruct (_release_sqlite _ _ _ _) as [[nid db2]|] eqn:Hr; [|done]. intros [= <-].
    apply release_spec in Hr as (r & j' & n' & _ & _ & _ & _ & _ & _ & _ & ->). exact Hs.
Qed.

Lemma engine_keeps registry setting now env db receipt ev db' :
  apply_registered_worker_event registry setting now env db receipt ev = Ok db' ->
  db_receipts db' = db_receipts db /\ db_deliveries db' = db_deliveries db.
Proof. intros H%engine_event_rows. unfold event_rows in H. by injection H. Qed.

(** C8. Events of registered workers are applied exactly once per task delivery: a
    call of [accept_and_apply] with the engine that returns keeps the invariant of
    the receipt tables, and either leaves jobs, receipts and dispatches alone (the
    event was known, or contradicts what is recorded), or adds the first receipt of
    that task delivery after one application by the engine to the jobs as they
    were. *)
Theorem registered_event_applied_once registry setting now env observer db ev res db' :
  receipts_inv db -> receipt_ids_free env db ->
  accept_and_apply setting now env observer (apply_registered_worker_event registry setting now env) db ev
    = Ok (res, db') ->
  receipts_inv db' /\
  (db_receipts db' = db_receipts db /\ db_jobs db' = db_jobs db /\ db_dispatches db' = db_dispatches db
   \/ exists a receipt before after,
        a ∉ receipt_attestations db /\ receipt_attestations db' = receipt_attestations db ++ [a] /\
        res = rc_id receipt /\
        apply_registered_worker_event registry setting now env before receipt ev = Ok after /\
        db_jobs before = db_jobs db /\ db_jobs db' = db_jobs after).
Proof. apply accept_applies_once. intros d r e d'. apply engine_keeps. Qed.

(** Over any history of accepted events, acknowledgements and other
    transactions, every committed receipt is applied and satisfies the table's
    constraints, a task delivery has at most one receipt and keeps it, a message is
    recorded once, and an accepted message belongs to the receipt of its task
    delivery. *)
Theorem listener_receipts_invariant {R} `{!RedisStore R} registry setting now env observer db db' :
  receipts_inv db ->
  rtc (receipt_step (R:=R) setting env observer (apply_registered_worker_event registry setting now env)) db db' ->
  receipts_inv db' /\ receipt_attestations db `prefix_of` receipt_attestations db'.
Proof. apply receipts_history. intros d r e d'. apply engine_keeps. Qed.

(** Attestations are not touched by an acceptance. *)
Lemma accept_attestations registry setting now env observer db ev res db' :
  accept_and_apply setting now env observer (apply_registered_worker_event registry setting now env) db ev
    = Ok (res, db') -> db_attestations db' = db_attestations db.
Proof.
  intros Hacc%accept_inv. destruct Hacc as [| | |a reg ep db3 _ _ _ _ receipt Happ]; [done..|].
  apply engine_event_rows in Happ. unfold event_rows in Happ. by injection Happ.
Qed.

(** Redelivery is harmless: once the engine accepted an event, handing over
    the same message again, at any later time, returns the same receipt and changes
    nothing, as long as the job's rows can be locked. *)
Theorem redelivered_event_ignored registry setting now now' env observer stream group message p ev db rid db' locked a :
  receipts_inv db -> receipt_ids_free env db ->
  parse_registered_worker_event env stream group message p = Ok ev ->
  _locked_task_attestation db ev = Ok (Some a) ->
  accept_and_apply setting now env observer (apply_registered_worker_event registry setting now env) db ev
    = Ok (Some rid, db') ->
  lock_job_execution_authority setting db' (ev_job_id ev) (Some (ev_node_execution_id ev)) true = Ok locked ->
  accept_and_apply setting now' env observer (apply_registered_worker_event registry setting now' env) db' ev
    = Ok (Some rid, db').
Proof.
  intros Hinv Hfree Hparse Hatt Hacc Hlock. pose proof (accept_attestations _ _ _ _ _ _ _ _ _ Hacc) as Hsame.
  eapply accept_idempotent; try done; [intros d r e d'; apply engine_keeps|].
  unfold _locked_task_attestation in *. by rewrite Hsame.
Qed.

(** ** A message leaves the pending list after its event is recorded *)

(** The event is quarantined, or its receipt is applied. *)
Definition settled (db : Db) (identity : string * string * string) : Prop :=
  exists d, d ∈ db_deliveries db /\ event_message d = identity /\
    (dl_resolution_state d <> "accepted"
     \/ exists r, r ∈ db_receipts db /\ dl_receipt_id d = rc_id r /\ is_applied r).

Lemma settled_ack db db' identity : ack_tables db db' -> settled db identity -> settled db' identity.
Proof.
  intros [Hr Hd] (d & [i Hi]%list_elem_of_lookup & Hid & Hcase).
  destruct (Forall2_lookup_l _ _ _ _ _ Hd Hi) as (d' & Hi' & Hm & _ & Hrid & Hs). exists d'.
  split; [by eapply list_elem_of_lookup_2|]. split; [congruence|].
  destruct Hcase as [Hna | (r & [k Hk]%list_elem_of_lookup & Hlink & Hap)]; [left; congruence|]. right.
  destruct (Forall2_lookup_l _ _ _ _ _ Hr Hk) as (r' & Hk' & Hrid' & _ & Hst & _). exists r'.
  split; [by eapply list_elem_of_lookup_2|]. unfold is_applied in *. split; congruence.
Qed.

Section Settled.
Context {R : Type} `{!RedisStore R, !RedisLaws R}.
Context (registry : NodeTypeRegistry) (setting : string) (now : datetime) (env : Env) (recovery : Z).
Context (observer : Db -> RegisteredWorkerEvent -> Res uuid).

Lemma acknowledge_applied_settled ev db (r : R) res r' msg :
  acknowledge_applied setting now env ev db r = (res, r') -> acked r r' msg -> settled db (event_identity ev).
Proof.
  intros Hrun Hacked. unfold acknowledge_applied in Hrun.
  destruct (_locked_event_delivery db ev) as [[found|]|e]; [|simplify_eq; by destruct Hacked as [? []]..].
  destruct (_lock_delivery_ack_authority setting db (dl_id found)) as [[[a receipt] d]|e] eqn:Hlock;
    [|simplify_eq; by destruct Hacked as [? []]].
  apply lock_ack_spec in Hlock as (Hd & _ & _ & _ & Hsome & _).
  match goal with H : match ?c with Ok _ => _ | Raise _ => _ end = _ |- _ => destruct c as [rc|e] eqn:Hc end;
    [|simplify_eq; by destruct Hacked as [? []]].
  apply bind_Ok in Hc as ([] & Hid & Hc). apply bind_Ok in Hc as (receipt' & Hsel & Hc).
  apply bind_Ok in Hc as ([] & _ & Hc). apply bind_Ok in Hc as ([] & Happ & _).
  exists d. split; [done|]. split.
  - unfold _require_matching_event_delivery_identity in Hid. destruct (_ && _) eqn:Hm; [|done].
    apply andb_prop in Hm as [[[Hs%String.eqb_eq Hg%String.eqb_eq]%andb_prop Hm%String.eqb_eq]%andb_prop _].
    unfold event_message, event_identity. congruence.
  - destruct (String.eqb_spec (dl_resolution_state d) "accepted") as [Hacc|]; [right | by left]. simpl in Hsel.
    destruct receipt as [x|]; [|done]. injection Hsel as <-. exists x. destruct (Hsome x eq_refl) as (? & _ & ?).
    split_and!; [done..|]. by eapply applied_receipt_Ok.
Qed.

(** [m] keeps the pending entries of the event stream. *)
Definition keeps_pending {A} (m : Io R A) : Prop :=
  forall w, redis_xpending (m w).2.2 EVENT_STREAM CONSUMER_GROUP = redis_xpending w.2 EVENT_STREAM CONSUMER_GROUP.

Lemma keeps_pending_bind {A B} (m : Io R A) (k : A -> Io R B) :
  keeps_pending m -> (forall a, keeps_pending (k a)) -> keeps_pending (io_bind m k).
Proof.
  intros Hm Hk w. unfold io_bind. pose proof (Hm w) as Hw. destruct (m w) as [[a|e] w']; [|done]. simpl in Hw.
  by rewrite Hk.
Qed.

Lemma keeps_pending_transaction {A} (f : Db -> Res (A * Db)) : keeps_pending (transaction f).
Proof. intros w. unfold transaction. by destruct (f w.1) as [[a db']|]. Qed.

Lemma keeps_pending_for {A} (l : list A) (body : A -> Io R ()) :
  (forall a, keeps_pending (body a)) -> keeps_pending (io_for l body).
Proof. intros Hb. induction l as [|a l IH]; [by intros w|]. simpl. by apply keeps_pending_bind. Qed.

Lemma keeps_pending_xadd s k f : keeps_pending (command (idempotent_xadd s (marker_key k) f)).
Proof.
  intros w. unfold command, idempotent_xadd. destruct (redis_get w.2 (marker_key k)); [done|].
  destruct (redis_xadd s f w.2) as [m r1] eqn:Hx. simpl. rewrite xpending_set.
  - replace r1 with (redis_xadd s f w.2).2 by (by rewrite Hx). apply xpending_xadd.
  - unfold EVENT_STREAM, marker_key, marker_prefix. discriminate.
Qed.

Lemma keeps_pending_deliver rid limit : keeps_pending (deliver_pending_dispatches setting now env recovery rid limit).
Proof.
  unfold deliver_pending_dispatches. destruct (_ <=? _)%Z; [by intros w|]. apply keeps_pending_bind.
  - apply keeps_pending_bind; [by intros w|]. intros l. apply keeps_pending_for. intros d.
    apply keeps_pending_bind; [by intros w|]. intros m. destruct (nonblank_message m); apply keeps_pending_transaction.
  - intros _. apply keeps_pending_bind; [apply keeps_pending_transaction|]. intros l. apply keeps_pending_for. intros d.
    apply keeps_pending_bind; [by intros w|]. intros p. apply keeps_pending_bind; [apply keeps_pending_xadd|].
    intros m. destruct (negb _); [by intros w | apply keeps_pending_transaction].
Qed.

(** The last step of a registered event. *)
Lemma final_ack_settled ev w msg w' res :
  transaction_redis (acknowledge_applied setting now env ev) w = (res, w') -> acked w.2 w'.2 msg ->
  settled w'.1 (event_identity ev).
Proof.
  unfold transaction_redis. destruct (acknowledge_applied setting now env ev w.1 w.2) as [[[[] db']|e] r'] eqn:Hrun;
    intros [= <- <-] Hacked; simpl in *; pose proof (acknowledge_applied_settled _ _ _ _ _ _ Hrun Hacked) as Hset; [|done].
  eapply settled_ack; [|exact Hset]. eapply acknowledging_ack; [|exact Hrun]. left. by exists ev.
Qed.
End Settled.

Lemma parsed_identity env stream group m p ev :
  parse_registered_worker_event env stream group m p = Ok ev -> event_identity ev = (strip stream, strip group, strip m).
Proof. unfold parse_registered_worker_event. intros H. repeat case_match; by simplify_eq. Qed.

(** C18. The listener never loses an event of a registered worker: whatever
    happens while it processes a message (exceptions included), if the message is no
    longer pending for the consumer group afterwards, the database the run leaves
    behind records it as quarantined, or as accepted under an applied receipt. *)
Theorem processed_event_settled {R} `{!RedisStore R, !RedisLaws R} registry setting now env recovery observer
    message data db (r : R) res db' r' :
  has_registration_claim data = true ->
  _process_event registry setting now env recovery observer message data (db, r) = (res, (db', r')) ->
  message ∈ redis_xpending r EVENT_STREAM CONSUMER_GROUP ->
  message ∉ redis_xpending r' EVENT_STREAM CONSUMER_GROUP ->
  settled db' (EVENT_STREAM, CONSUMER_GROUP, strip message).
Proof.
  intros Hreg Hrun Hin Hout. unfold _process_event in Hrun. rewrite Hreg in Hrun. simpl in Hrun.
  unfold io_bind at 1, io_res in Hrun. destruct (parse_registered_worker_event _ _ _ _ _) as [ev|e] eqn:Hp;
    [|by injection Hrun as _ <- <-].
  pose proof (parsed_identity _ _ _ _ _ _ Hp) as Hid. change (strip EVENT_STREAM) with EVENT_STREAM in Hid.
  change (strip CONSUMER_GROUP) with CONSUMER_GROUP in Hid. rewrite <- Hid.
  set (accept := transaction _) in Hrun. unfold io_bind at 1 in Hrun.
  pose proof (keeps_pending_transaction (R:=R) _ (db, r) : redis_xpending (accept (db, r)).2.2 _ _ = _) as Ha.
  destruct (accept (db, r)) as [[[rid|]|e] w1]; simpl in Ha.
  - unfold io_bind at 1 in Hrun. pose proof (keeps_pending_deliver setting now env recovery (Some rid) 100 w1) as Hd.
    destruct (deliver_pending_dispatches _ _ _ _ _ _ w1) as [[[]|e] w2]; simpl in Hd.
    + apply (final_ack_settled setting now env ev w2 (EVENT_STREAM, CONSUMER_GROUP, message) (db', r') res Hrun).
      split; simpl; [by rewrite Hd, Ha | done].
    + injection Hrun as <- ->. simpl in *. by rewrite Hd, Ha in Hout.
  - apply (final_ack_settled setting now env ev w1 (EVENT_STREAM, CONSUMER_GROUP, message) (db', r') res Hrun).
    split; simpl; [by rewrite Ha | done].
  - injection Hrun as <- ->. simpl in *. by rewrite Ha in Hout.
Qed.
