(* ===== verification/ListenerRun.v ===== *)
(** * A run of the whole protocol

    A job is created and started, its first task is staged, published, claimed by a
    registered worker and reported, and the listener processes the report: the
    theorems of the protocol are applied to the states of this run. *)

From stdpp Require Import base tactics list strings sorting relations.
From Stdlib Require Import ZArith Lia Ascii.
From S2P Require Import Prelude PyStr PyValue PyJson PyTime PyUuid NodeRegistry Builtins Pipeline Graph Validation JobModel WorkerModel RedisModel Schedule Authority ArtifactCache WorkerEvents Delivery DeliveryOnce DeliveryLive Receipts ReceiptsOnce ReceiptsAck Retry JobService Engine EngineReach Listener.

Open Scope string_scope.
Open Scope list_scope.

(** Keys in the form of UUIDs, and a digest of 64 hexadecimal digits. *)
Definition wire_uuid (prefix : string) (n : nat) : uuid :=
  prefix +:+ "-0000-0000-0000-00000000000" +:+ str_of_Z (Z.of_nat n).

Definition wire_prefix (purpose : string) : string :=
  if (purpose =? "artifact")%string then "000000a1"
  else if (purpose =? "dispatch")%string then "000000d1"
  else if (purpose =? "dispatch_key")%string then "000000d2"
  else if (purpose =? "receipt")%string then "000000c1" else "000000e1".

Fixpoint hex_of (fuel : nat) (z : Z) : string :=
  match fuel with
  | O => EmptyString
  | S fuel' => String (hex_digit (z mod 16)) (hex_of fuel' (z / 16))
  end.

Fixpoint weigh (s : string) (acc : Z) : Z :=
  match s with
  | EmptyString => acc
  | String c s' => weigh s' ((acc * 257 + ascii_code c) mod 2 ^ 61)
  end.

Definition wire_env : Env :=
  {| fresh := fun purpose owner => wire_prefix purpose +:+ String.substring 8 28 owner;
     sha256 := fun s => hex_of 64 (weigh s 7) |}.

Definition wire_job : Job :=
  ok_or (waiting_job "b" NodeStatus.PENDING JobStatus.PENDING)
    (create_job builtin_registry (wire_uuid "00000000") 7 (Some sample_runtime) "p" (Some run_overrides)).

Definition job_key : uuid := wire_uuid "00000000" 0.
Definition node_key : uuid := wire_uuid "00000000" 2.
Definition registration_key : uuid := wire_uuid "000000f1" 1.

(** Started: the first task is staged. *)
Definition wire0 : Db := put_job wire_job empty_db.
Definition wire1 : Db := start_job builtin_registry "" 10 wire_env wire0 job_key.

(** Published. *)
Definition wire2 : World RedisMem :=
  (reconcile_pending_dispatches "" 12 wire_env 60 100 (wire1, empty_redis)).2.

Definition task_row : WorkerTaskDispatch := default marked_row (head (db_dispatches wire2.1)).

Example task_published :
  wd_delivery_state task_row = "delivered" /\ wd_node_execution_id task_row = node_key /\
  map (fun e => field_value "dispatch_key" e.2) (redis_xrange wire2.2 (wd_redis_stream task_row))
  = [Some (wd_dispatch_key task_row)].
Proof. vm_compute. repeat split. Qed.

(** Read by a worker group and claimed. *)
Definition register (db : Db) : Db :=
  put_workers
    {| w_registrations := [(registration_key, {| wr_id := registration_key; wr_grant_id := "g"; wr_lease_epoch := 1;
                                                 wr_status := "active"; wr_lease_expires_at := 1000 |})];
       w_grants := [("g", {| wg_id := "g"; wg_redis_stream := wd_redis_stream task_row;
                             wg_redis_group := wd_consumer_group task_row |})];
       w_dispatches := db_dispatches db; w_attestations := []; w_emissions := []; w_receipts := []; w_deliveries := [] |} db.

Definition task_message_id : string := default "" (wd_redis_message_id task_row).

Definition wire3 : Db :=
  (ok_or (worker_claim node_key 20, "", empty_db)
     (claim_registered_worker_node (register wire2.1) job_key node_key (Some registration_key) (Some 1%Z) "worker@h:1"
        (wd_redis_stream task_row) (wd_consumer_group task_row) task_message_id (wd_payload_sha256 task_row)
        (wd_dispatch_key task_row) (wire_uuid "000000b1" 1) 20)).2.

(** The worker stored its output and sent its event; both messages are pending. *)
Definition output_key : uuid := wire_uuid "000000a2" 1.

Definition wire4 : Db :=
  put_artifacts ((db_artifacts wire3).[output_key <-
    {| a_id := output_key; a_job_id := job_key; a_node_execution_id := node_key; a_kind := INTERMEDIATE;
       a_filename := "t.mp4"; a_mime_type := None; a_file_size := Some 3%Z; a_storage_backend := "local";
       a_storage_path := "/t.mp4"; a_media_info := [] |}]) wire3.

Definition event_data : payload :=
  [("event", "node_completed"); ("job_id", job_key); ("node_execution_id", node_key);
   ("output_artifact_id", output_key); ("worker_id", "worker@h:1"); ("started_at", isoformat_utc 20);
   ("worker_registration_id", registration_key); ("worker_lease_epoch", "1");
   ("task_stream", wd_redis_stream task_row); ("task_group", wd_consumer_group task_row);
   ("task_message_id", task_message_id); ("task_payload_sha256", wd_payload_sha256 task_row);
   ("task_dispatch_key", wd_dispatch_key task_row)].

Definition wire_redis : RedisMem :=
  {| mem_strings := mem_strings wire2.2; mem_streams := mem_streams wire2.2;
     mem_pending := [(wd_redis_stream task_row, wd_consumer_group task_row, task_message_id);
                     (EVENT_STREAM, CONSUMER_GROUP, "5-0")] |}.

Definition no_observer (db : Db) (ev : RegisteredWorkerEvent) : Res uuid :=
  match _locked_task_attestation db ev with
  | Ok (Some a) => Ok (at_id a)
  | Ok None => event_error "registered event task delivery attestation is missing"
  | Raise e => Raise e
  end.

(** The listener processes the event. *)
Definition wire5 : Res () * World RedisMem :=
  _process_event builtin_registry "" 30 wire_env 60 no_observer "5-0" event_data (wire4, wire_redis).

Definition final_job : Job := default wire_job (db_jobs wire5.2.1).[? job_key].

Example protocol_run :
  wire5.1 = Ok () /\ mem_pending wire5.2.2 = [] /\
  map ne_status (j_node_executions final_job) = [NodeStatus.SUCCEEDED; NodeStatus.SUCCEEDED; NodeStatus.QUEUED] /\
  map (fun d => (wd_delivery_state d, wd_resolution_state d)) (db_dispatches wire5.2.1)
  = [("delivered", "acknowledged"); ("delivered", "unresolved")] /\
  map (fun r => (rc_application_state r, rc_ack_state r, rc_source_task_ack_state r)) (db_receipts wire5.2.1)
  = [("applied", "acknowledged", "acknowledged")].
Proof. vm_compute. repeat split. Qed.

(** ** The theorems at this run *)

Definition no_event : RegisteredWorkerEvent :=
  {| ev_redis_stream := ""; ev_consumer_group := ""; ev_message_id := ""; ev_payload := []; ev_payload_sha256 := "";
     ev_event_type := ""; ev_job_id := ""; ev_node_execution_id := ""; ev_claim := worker_claim "" 0;
     ev_source_task_stream := ""; ev_source_task_group := ""; ev_source_task_message_id := "";
     ev_source_task_payload_sha256 := ""; ev_source_task_dispatch_key := "" |}.

Definition wire_event : RegisteredWorkerEvent :=
  ok_or no_event (parse_registered_worker_event wire_env EVENT_STREAM CONSUMER_GROUP "5-0" event_data).

Definition wire_apply := apply_registered_worker_event builtin_registry "" 30 wire_env.

Definition wire_accepted : option uuid * Db :=
  ok_or (None, empty_db) (accept_and_apply "" 30 wire_env no_observer wire_apply wire4 wire_event).

Definition receipt_key : uuid := wire_uuid "000000c1" 1.

Lemma wire4_inv : receipts_inv wire4.
Proof.
  assert (Hr : db_receipts wire4 = []) by (vm_compute; reflexivity).
  assert (Hd : db_deliveries wire4 = []) by (vm_compute; reflexivity).
  split; unfold receipt_attestations; rewrite ?Hr, ?Hd; constructor.
Qed.

Lemma wire4_free : receipt_ids_free wire_env wire4.
Proof.
  assert (Hr : db_receipts wire4 = []) by (vm_compute; reflexivity).
  intros a _. rewrite Hr. apply not_elem_of_nil.
Qed.

Lemma registered_event_applied_once_witness :
  receipts_inv wire_accepted.2 /\
  (db_receipts wire_accepted.2 = db_receipts wire4 /\ db_jobs wire_accepted.2 = db_jobs wire4 /\
   db_dispatches wire_accepted.2 = db_dispatches wire4
   \/ exists a receipt before after,
        a ∉ receipt_attestations wire4 /\ receipt_attestations wire_accepted.2 = receipt_attestations wire4 ++ [a] /\
        wire_accepted.1 = rc_id receipt /\ wire_apply before receipt wire_event = Ok after /\
        db_jobs before = db_jobs wire4 /\ db_jobs wire_accepted.2 = db_jobs after).
Proof.
  apply (registered_event_applied_once builtin_registry "" 30 wire_env no_observer wire4 wire_event).
  - exact wire4_inv.
  - exact wire4_free.
  - vm_compute. reflexivity.
Defined.

Lemma listener_receipts_invariant_witness :
  receipts_inv wire_accepted.2 /\ receipt_attestations wire4 `prefix_of` receipt_attestations wire_accepted.2.
Proof.
  apply (listener_receipts_invariant (R:=RedisMem) builtin_registry "" 30 wire_env no_observer wire4).
  - exact wire4_inv.
  - apply rtc_once. apply (rs_accept "" wire_env no_observer wire_apply 30 wire_event wire_accepted.1).
    + exact wire4_free.
    + vm_compute. reflexivity.
Defined.

Lemma redelivered_event_ignored_witness :
  accept_and_apply "" 99 wire_env no_observer (apply_registered_worker_event builtin_registry "" 99 wire_env)
    wire_accepted.2 wire_event = Ok (Some receipt_key, wire_accepted.2).
Proof.
  eapply (redelivered_event_ignored builtin_registry "" 30 99 wire_env no_observer EVENT_STREAM CONSUMER_GROUP "5-0"
            event_data wire_event wire4 receipt_key wire_accepted.2).
  - exact wire4_inv.
  - exact wire4_free.
  - vm_compute. reflexivity.
  - vm_compute. reflexivity.
  - vm_compute. reflexivity.
  - vm_compute. reflexivity.
Defined.

Lemma processed_event_settled_witness : settled wire5.2.1 (EVENT_STREAM, CONSUMER_GROUP, strip "5-0").
Proof.
  apply (processed_event_settled builtin_registry "" 30 wire_env 60 no_observer "5-0" event_data wire4 wire_redis
           (Ok ()) wire5.2.1 wire5.2.2).
  - vm_compute. reflexivity.
  - vm_compute. reflexivity.
  - vm_compute. left.
  - vm_compute. apply not_elem_of_nil.
Defined.

(** The acknowledgement alone. *)
Lemma acknowledged_after_applied_witness : justified wire_accepted.2 (EVENT_STREAM, CONSUMER_GROUP, "5-0").
Proof.
  apply (acknowledged_after_applied "" 40 wire_env wire_accepted.2 wire_redis (EVENT_STREAM, CONSUMER_GROUP, "5-0")
           (acknowledge_applied "" 40 wire_env wire_event)).
  - left. exists wire_event. reflexivity.
  - unfold accepted_have_receipt. vm_compute. constructor; [intros _; eexists; reflexivity | constructor].
  - vm_compute. split; [left | apply not_elem_of_nil].
Defined.
